(* ===== verification/_CoqProject ===== *)
-Q . S2P
Prelude.v
Crc32.v
ProtobufRuntime.v
ProtobufCodec.v
TcpSession.v
ThreadPool.v
Text.v
LogManager.v
WebSocket.v
WsStats.v
Schema.v
Odb.v
MemDb.v
PasswordHasher.v
UserService.v
FriendService.v
GroupService.v
MessageService.v
Redis.v
TokenStore.v
Json.v
ConnectionManager.v
Push.v
Rpc.v
Auth.v
UserRemote.v
FriendRemote.v
GroupRemote.v
MessageRemote.v
PushGateway.v
Http.v
UserHttp.v
FriendHttp.v
GroupHttp.v
MessageHttp.v
HttpApi.v
HttpFlows.v
Config.v
ConfigEnv.v
PgConfig.v
PgSql.v
RedisClient.v
RedisPool.v
ConnectionPool.v
MemoryPool.v
CliParser.v
ServiceIdentity.v
SignalHandler.v
Coroutine.v
TaskHandle.v
TcpServer.v
Servers.v
Router.v
MessageParser.v
Processor.v
WsHandler.v
Gateway.v
GatewayExample.v
GatewayFlows.v
Lifecycle.v
InFlight.v
SessionFlows.v
WsSend.v
WsDelivery.v
StatsPage.v
HttpServer.v
PushDeployment.v
