(* ===== verification/Prelude.v ===== *)
(** * MyChat: a verification development

    MyChat is an instant messaging system in C++20 (src/).  A gateway terminates TCP, web
    socket and HTTP connections; five services (user, friend, group, message, push) keep their
    rows in PostgreSQL through ODB and are either linked into the gateway or reached over gRPC;
    Redis holds the registry of connections and the tokens.  This development models the C++
    code of those parts and proves what they promise.  It is a shallow embedding: one
    definition per function or handler, executable, under the name it has in the source.

    ** How the parts fit

    A client logs in over HTTP (UserHttp, Auth) and gets a token; with it, it connects a web
    socket (WebSocket, Gateway, SessionFlows) and is listed in the registry
    (ConnectionManager).  A frame of the web socket is decoded (ProtobufCodec, MessageParser),
    counted and queued (Gateway, ThreadPool, InFlight), processed (Processor, WsHandler), stored
    (MessageService) and pushed to the receiver's sessions (Push, PushGateway).  Requests to
    the HTTP controllers (UserHttp, FriendHttp, GroupHttp, MessageHttp, HttpApi) run the
    services (UserService, FriendService, GroupService, MessageService) through a client
    interface with two implementations, in process and remote (UserRemote, FriendRemote,
    GroupRemote, MessageRemote, over Rpc).  Every other request reaches the catch-all of the
    gateway, which routes by configuration (Config, Router).

    A process is built and taken down by its [main]: the command line (CliParser), the
    configuration with the environment and the .env file (Config, ConfigEnv, PgConfig), the
    identity (ServiceIdentity), the signals (SignalHandler), then the gRPC server of a service
    (Servers) or the gateway (Lifecycle).  The stores are reached through the repository's own
    connections: PgSql for PostgreSQL, RedisClient and RedisPool for Redis.

    ** Files

    - Prelude: fixed-width integers, byte lists, the error monad [exec] of the effectful code
      with its inversion tactics, lists without conflicting rows.
    - Crc32, ProtobufRuntime, ProtobufCodec: the frame format (common/network/protobuf_codec).
    - TcpSession: the TCP session (common/network/tcp_session).
    - ThreadPool: the pool (common/utils/thread_pool), its workers as a step relation.
    - Text: decimal numbers as the C++ library reads and prints them.
    - WebSocket: server and sessions of the web socket (common/network/websocket_server,
      websocket_session), handlers as functions on the server; WsStats: its statistics, with
      the lock-free duration counters.
    - TcpServer: the TCP server and the pool of I/O services (common/network/tcp_server,
      IOService_pool).
    - Coroutine: the machine of frames under the coroutines (common/utils/coroutine_manager);
      TaskHandle: which task object owns which frame.
    - Schema, Odb, MemDb: the persistent classes (services/odb), the database layer as a class
      with laws, an in-memory database that satisfies them.
    - PasswordHasher, UserService, FriendService, GroupService, MessageService: the services and
      their repositories (services/).
    - Redis, TokenStore, Json: what the registry and the token manager ask of their store, and
      the JSON library, as classes with laws, each with an instance.
    - RedisClient, RedisPool: the client over hiredis and the pool of connections
      (common/database/redis); PgConfig, PgSql: the settings of the PostgreSQL connection, the
      connection and its transactions (common/database/pgsql).
    - ConnectionPool, MemoryPool: the generic pools (common/utils).
    - ConnectionManager: the registry (gateway/connection_manager); Auth: the token managers
      (gateway/auth).
    - Push, PushGateway: the push runtime (services/push) and its two deployments
      (gateway/push); PushDeployment: the adapters a push server has, and what that makes of
      the pushes of a gateway.
    - Rpc and the four files Remote: the gRPC handlers of the services and the clients of the
      gateway.
    - Http, UserHttp, FriendHttp, GroupHttp, MessageHttp, HttpApi, HttpFlows: the controllers,
      the routes, and sequences of requests on the state [Api] of a gateway with its services
      in process.
    - Config, ConfigEnv, Router: the configuration reader and its writing side
      (common/utils/config_mgr) and the router (gateway/router).
    - LogManager, CliParser, ServiceIdentity, SignalHandler (common/utils), Servers (the server processes,
      services/*/*_server_app and *_server_main, gateway/main).
    - MessageParser, Processor, WsHandler: gateway/message_processor and gateway/ws.
    - Gateway: gateway/gateway_server; GatewayExample: one server in memory; GatewayFlows,
      InFlight, SessionFlows, WsSend, WsDelivery: what follows for whole runs of it;
      Lifecycle: its construction, [start], [stop] and the thread of its HTTP server.
      HttpServer: the registrations, the routing and the counters around the controllers and
      the catch-all; StatsPage: the page of statistics.

    ** State, effects and errors

    The state of a component is a record; an operation that may throw is an [exec D A], a
    function from the state to the new state and a result that is a value or an exception, and
    a [try]/[catch] is [handler] or [try_catch].  An access outside a buffer or to an object that is destroyed is the outcome
    [OutOfBounds] of [outcome].  Callbacks of an event loop are functions on the whole server;
    threads interleave as steps (ThreadPool, InFlight, the crossing requests of
    FriendService, the pools of connections, WsStats, Lifecycle).  Integers are [Z] with [u8], [u32], [u64] and [i32] where the code can wrap.
    What the code reads from the outside (clocks, random bytes, what another thread holds) is
    an argument.

    ** What the theorems show

    - Formats: encoding then decoding is the identity, corruption of four consecutive bytes is
      refused, the checksum is the CRC-32 of IEEE 802.3, the TCP framing splits any stream
      back into the messages sent.
    - Services: the tables are well formed in every reachable state; registering, friendship,
      membership, private and group messages behave as their abstract specifications; each
      error answer names its cause; the remote clients refine the local ones.
    - Registry, tokens, push: the registry implements a map from device to session; a token is
      accepted exactly until it expires or is revoked; a push reaches the sessions the policy
      picks and marks the message, in process and through a push server that has the address of
      the gateway alike when the push names its sender; one that has none changes nothing.
    - Concurrency: the pool starts every accepted task once and in order, and its own moves
      end, with a shutdown complete; the web socket server never uses a closed stream; the
      number of web socket messages in flight stays within the limit; the duration counters
      end with the number, the sum and the maximum of what was reported; a pool of connections
      neither loses nor doubles one, and a stale lease never comes back; a coroutine has the
      effects of its direct reading.
    - Stores: the Redis client implements the commands the registry and the token manager ask
      for, through the pool as well; a transaction of PostgreSQL is all or nothing; a
      connection string gives the settings it was made of, except a connect timeout of 30 s.
    - Processes: a gateway that initialises has every controller on the client its
      configuration asks for, and its stop completes when its HTTP server was listening; a
      service that gets a shutdown signal returns; the callbacks of a shutdown run once.
    - HTTP: every route answers exactly one JSON response, 401 without a token; the catch-all
      serves nothing but heartbeats and never a path of a controller; routing equals a search of
      the configuration's entries; the counters of requests end as if the requests had been
      served one by one, and a reader of the statistics page gets them back.
    - End to end: a login opens a session whose token shows the user; a frame with a private
      message adds exactly one row, of the token's user, to the database and is answered by a reply that
      decodes, and the message
      reaches its receiver through one of two channels, a push to each connected session or
      the next pull of the offline messages.
    - Limits of the code, proved as such: the timer of a session that came without a token reads
      captures that are destroyed (an object on the stack is an address of [closures] of the
      gateway server that ends with its expression), a private message is marked by the push of a group
      message with its id, two crossing friend requests both succeed, a late close drops a
      reconnection, a failed [Enqueue] decrements the counter of messages in flight twice, a
      stop before the HTTP server listens waits for ever, a path with a line break writes lines
      of the statistics page, a frame can make the decoders read outside their buffer.

    ** Bounds and fuel

    [dec] prints with fuel 20, enough for every number below 2^64.  The in-memory LIKE matcher
    has the length of the two texts as fuel, one of which it shortens at every step.  The
    LEB128 reader of the examples has fuel 5, the longest encoding of 32 bits.  [pump] feeds a
    TCP session with two steps per byte and two more, which [receive_frames] shows to be enough.  The batch
    loop of Processor takes fuel; [batch_ends] shows that the number of messages is enough
    exactly when the batch size is not zero.  [GetFreeCount] of
    MemoryPool walks the free list with one step per block, which is shown to be enough.
    [exponent] of StatsPage tries 25 decimal places, more than the quotient of two 64-bit
    numbers has.  [alone] of WsStats takes four operations, all that a call without interference
    needs.  The generations of RedisPool and the ids of WebSocket are 64-bit counters, and the
    theorems that need it say that they have not wrapped.  The frame limits 2^26 and 10 MiB are the code's.

    ** Parameters

    Third-party code is a class whose laws state its documented behaviour, with an instance on
    which every theorem with hypotheses is run: the protobuf runtime ([CodedLaws],
    [ProtoLaws]), ODB ([OdbLaws], [OdbReliable] without faults), PBKDF2 ([Pbkdf2]), Redis
    ([RedisLaws], [TokenStoreLaws]), nlohmann::json ([JsonLaws]), the JWT library ([JwtLaws]),
    gRPC ([Rpc]), hiredis ([HiredisLaws]), ODB's handle on libpq ([PgLaws]), cpp-httplib's
    server ([HttpServerLaws]), spdlog ([SpdlogLaws]).  Boost.Asio, Beast and cpp-httplib are the
    source of events and requests; which handler cpp-httplib runs for a request is [routed] of
    HttpServer, and what it answers by itself is an argument.  [getopt_long], [std::stod] and the answers of the operating system (records
    [machine], [World], [surroundings]) are arguments.

    ** Not modelled

    Generated code (protobuf, gRPC, ODB) and the vendored json.hpp; tests, benchmarks,
    demonstrations (coroDemo, the demo directories), examples (main_example, swredis_example,
    example_usage, coro_message_processor_example) and documents; the scripts and the web
    client.  pgsql_mgr.hpp, whose templates are declared and not defined, and the script
    initDB.hpp.  What is written to the logs, the singleton and time helpers, the texts of help
    and version, the conversion of documents to text ([ConfigManager::save]).  Numbers with a fraction in
    configuration documents. *)
From stdpp Require Export base list strings gmap sets option decidable sorting.
From Stdlib Require Export ZArith Lia.
From Stdlib Require Export Strings.Byte.

(** * Fixed-width integers *)

Definition u8 (z : Z) : Z := (z mod 2 ^ 8)%Z.
Definition u32 (z : Z) : Z := (z mod 2 ^ 32)%Z.
Definition u64 (z : Z) : Z := (z mod 2 ^ 64)%Z.
(** [static_cast<int>]: two's complement on 32 bits. *)
Definition i32 (z : Z) : Z := ((z + 2 ^ 31) mod 2 ^ 32 - 2 ^ 31)%Z.
(** [static_cast<int64_t>]. *)
Definition i64 (z : Z) : Z := ((z + 2 ^ 63) mod 2 ^ 64 - 2 ^ 63)%Z.

Definition in_u32 (z : Z) : Prop := (0 <= z < 2 ^ 32)%Z.

(** * Bytes *)

Abbreviation byte := Init.Byte.byte.
Abbreviation bytes := (list byte).

#[export] Instance byte_eq_dec : EqDecision byte := Byte.byte_eq_dec.

(** The unsigned value of a byte, and the low byte of an integer. *)
Definition bz (b : byte) : Z := Z.of_N (Byte.to_N b).
Definition zb (z : Z) : byte :=
  match Byte.of_N (Z.to_N (u8 z)) with Some b => b | None => x00 end.

(** Four-byte integers as the code writes them: [memcpy] of a [uint32_t] on a
    little-endian host, and [htonl]/[ntohl]. *)
Definition le32 (z : Z) : bytes :=
  [zb z; zb (Z.shiftr z 8); zb (Z.shiftr z 16); zb (Z.shiftr z 24)].
Definition be32 (z : Z) : bytes := rev (le32 z).

Definition le_combine (bs : bytes) : Z :=
  foldr (fun b acc => Z.lor (bz b) (Z.shiftl acc 8)) 0%Z bs.
Definition be_combine (bs : bytes) : Z := le_combine (rev bs).

(** * Tactics *)

(** Closes boolean side conditions on integers. *)
Ltac zbool :=
  repeat match goal with
  | H : (_ && _)%bool = true |- _ => apply andb_prop in H as [? ?]
  | H : (_ <=? _)%Z = true |- _ => apply Z.leb_le in H
  | H : (_ <=? _)%Z = false |- _ => apply Z.leb_gt in H
  | H : (_ <? _)%Z = true |- _ => apply Z.ltb_lt in H
  | H : (_ <? _)%Z = false |- _ => apply Z.ltb_ge in H
  | H : (_ =? _)%Z = true |- _ => apply Z.eqb_eq in H
  | H : (_ =? _)%Z = false |- _ => apply Z.eqb_neq in H
  end.

(** Decides the first integer test of the goal when the context determines it. *)
Ltac zif :=
  match goal with
  | |- context [if ?b then _ else _] => destruct b eqn:?; zbool; try lia
  end.

(** Bitwise equality of integers, one index at a time. *)
Ltac bits_ext i :=
  apply Z.bits_inj'; intros i ?.

(** * Lemmas on integers and bytes *)

Open Scope Z_scope.

Lemma bz_range b : (0 <= bz b < 256)%Z.
Proof. unfold bz. pose proof (Byte.to_N_bounded b). lia. Qed.

Lemma bz_inj b1 b2 : bz b1 = bz b2 -> b1 = b2.
Proof.
  unfold bz; intros H. apply N2Z.inj in H.
  pose proof (Byte.of_to_N b1); pose proof (Byte.of_to_N b2). congruence.
Qed.

Lemma u8_range z : (0 <= u8 z < 256)%Z.
Proof. apply (Z.mod_pos_bound z 256). lia. Qed.

Lemma bz_zb z : bz (zb z) = u8 z.
Proof.
  unfold bz, zb. pose proof (u8_range z) as Hb.
  destruct (Byte.of_N (Z.to_N (u8 z))) as [b|] eqn:E.
  - apply Byte.to_of_N in E. rewrite E. rewrite Z2N.id; lia.
  - apply Byte.of_N_None_iff in E. lia.
Qed.

Lemma zb_bz b : zb (bz b) = b.
Proof. apply bz_inj. rewrite bz_zb. unfold u8. apply Z.mod_small, bz_range. Qed.

Lemma u8_land z : u8 z = Z.land z 255.
Proof. unfold u8. symmetry. apply (Z.land_ones z 8); lia. Qed.

Lemma u32_range z : in_u32 (u32 z).
Proof. unfold in_u32, u32. apply Z.mod_pos_bound; lia. Qed.

Lemma u32_small z : in_u32 z -> u32 z = z.
Proof. apply Z.mod_small. Qed.

Lemma i32_small z : (- 2 ^ 31 <= z < 2 ^ 31)%Z -> i32 z = z.
Proof. intros. unfold i32. rewrite Z.mod_small; lia. Qed.

Lemma i64_u64 z : (- 2 ^ 63 <= z < 2 ^ 63)%Z -> i64 (u64 z) = z.
Proof. intros. unfold i64, u64. rewrite Zplus_mod_idemp_l, Z.mod_small; lia. Qed.

Lemma in_u32_testbit z : in_u32 z <-> (0 <= z /\ forall i, 32 <= i -> Z.testbit z i = false)%Z.
Proof.
  unfold in_u32. split.
  - intros [H0 H1]. split; [done|]. intros i Hi.
    destruct (Z.eq_dec z 0) as [->|]; [apply Z.bits_0|].
    apply Z.bits_above_log2; [lia|]. apply Z.log2_lt_pow2; [lia|].
    eapply Z.lt_le_trans; [exact H1|]. apply Z.pow_le_mono_r; lia.
  - intros [H0 H1]. split; [done|].
    destruct (Z.eq_dec z 0) as [->|]; [lia|].
    apply Z.log2_lt_pow2; [lia|]. destruct (Z.lt_ge_cases (Z.log2 z) 32) as [|Hge]; [done|].
    specialize (H1 _ Hge). rewrite Z.bit_log2 in H1 by lia. done.
Qed.

Lemma in_u32_lxor a b : in_u32 a -> in_u32 b -> in_u32 (Z.lxor a b).
Proof.
  rewrite !in_u32_testbit. intros [? Ha] [? Hb]. split.
  - apply Z.lxor_nonneg. tauto.
  - intros i Hi. by rewrite Z.lxor_spec, Ha, Hb.
Qed.

Lemma in_u32_shiftr a n : (0 <= n)%Z -> in_u32 a -> in_u32 (Z.shiftr a n).
Proof.
  rewrite !in_u32_testbit. intros Hn [? Ha]. split.
  - by apply Z.shiftr_nonneg.
  - intros i Hi. rewrite Z.shiftr_spec by lia. apply Ha. lia.
Qed.

Lemma in_u32_bz b : in_u32 (bz b).
Proof. unfold in_u32. pose proof (bz_range b). lia. Qed.

Lemma lxor_cancel_l a b c : Z.lxor a b = Z.lxor a c -> b = c.
Proof.
  intros H. apply (f_equal (Z.lxor a)) in H.
  by rewrite <- !Z.lxor_assoc, Z.lxor_nilpotent, !Z.lxor_0_l in H.
Qed.

Lemma lxor_cancel_r a b c : Z.lxor b a = Z.lxor c a -> b = c.
Proof. rewrite !(Z.lxor_comm _ a). apply lxor_cancel_l. Qed.

(** ** Little-endian combination *)

Lemma le_combine_cons b bs :
  le_combine (b :: bs) = Z.lxor (bz b) (Z.shiftl (le_combine bs) 8).
Proof.
  unfold le_combine; simpl. bits_ext i. rewrite Z.lor_spec, Z.lxor_spec.
  destruct (Z.lt_ge_cases i 8) as [Hi|Hi].
  - rewrite Z.shiftl_spec_low by lia. by destruct (Z.testbit (bz b) i).
  - assert (Z.testbit (bz b) i = false) as ->; [|by destruct (Z.testbit _ i)].
    pose proof (bz_range b). destruct (Z.eq_dec (bz b) 0) as [->|]; [apply Z.bits_0|].
    apply Z.bits_above_log2; [lia|]. eapply Z.lt_le_trans; [|exact Hi].
    apply Z.log2_lt_pow2; lia.
Qed.

Lemma le_combine_step b bs : le_combine (b :: bs) = bz b + 256 * le_combine bs.
Proof.
  rewrite le_combine_cons. rewrite <- Z.add_nocarry_lxor.
  - rewrite Z.shiftl_mul_pow2 by lia. lia.
  - bits_ext i. rewrite Z.land_spec, Z.bits_0.
    destruct (Z.lt_ge_cases i 8) as [Hi|Hi].
    + rewrite Z.shiftl_spec_low by lia. apply andb_false_r.
    + rewrite <- (Z.mod_small (bz b) (2 ^ 8)) by (pose proof (bz_range b); lia).
      rewrite Z.mod_pow2_bits_high by lia. done.
Qed.

Lemma le_combine_range bs : 0 <= le_combine bs < 256 ^ Z.of_nat (length bs).
Proof.
  induction bs as [|b bs IH]; [simpl; lia|].
  rewrite le_combine_step. pose proof (bz_range b). simpl length.
  rewrite Nat2Z.inj_succ, Z.pow_succ_r by lia. lia.
Qed.

Lemma le_combine_inj bs1 bs2 :
  length bs1 = length bs2 -> le_combine bs1 = le_combine bs2 -> bs1 = bs2.
Proof.
  revert bs2. induction bs1 as [|b1 bs1 IH]; intros [|b2 bs2] Hl; try discriminate; [done|].
  rewrite !le_combine_step. pose proof (bz_range b1); pose proof (bz_range b2).
  intros H'. f_equal; [apply bz_inj; lia|]. apply IH; [simpl in Hl; lia|lia].
Qed.

Lemma le_combine_le32 z : in_u32 z -> le_combine (le32 z) = z.
Proof.
  intros Hz. unfold le32. rewrite !le_combine_step, !bz_zb, !Z.shiftr_div_pow2 by lia.
  unfold u8, in_u32 in *. change (le_combine []) with 0.
  change (2 ^ 8) with 256; change (2 ^ 16) with 65536; change (2 ^ 24) with 16777216.
  change (2 ^ 32) with 4294967296 in Hz. Z.to_euclidean_division_equations. lia.
Qed.

Lemma be_combine_be32 z : in_u32 z -> be_combine (be32 z) = z.
Proof. unfold be_combine, be32. rewrite rev_involutive. apply le_combine_le32. Qed.

Lemma le_combine_u32 bs : (length bs <= 4)%nat -> in_u32 (le_combine bs).
Proof.
  intros Hl. pose proof (le_combine_range bs) as [? Hr]. split; [done|].
  eapply Z.lt_le_trans; [exact Hr|]. change (2 ^ 32) with (256 ^ 4).
  apply Z.pow_le_mono_r; lia.
Qed.

Create HintDb u32.
#[export] Hint Resolve in_u32_lxor in_u32_shiftr in_u32_bz u32_range : u32.
#[export] Hint Extern 5 (_ <= _)%Z => lia : u32.

(** * Memory-safe reads

    What a C++ function that reads through raw pointers can do: return a value, or
    read outside the buffer it was given or in an object that has been destroyed (undefined
    behaviour). *)

Inductive outcome (A : Type) : Type :=
| Val (a : A)
| OutOfBounds.
Arguments Val {A} a.
Arguments OutOfBounds {A}.

Definition obind {A B} (o : outcome A) (k : A -> outcome B) : outcome B :=
  match o with Val a => k a | OutOfBounds => OutOfBounds end.

Definition zlen {A} (l : list A) : Z := Z.of_nat (length l).
Definition ztake {A} (n : Z) (l : list A) : list A := take (Z.to_nat n) l.
Definition zdrop {A} (n : Z) (l : list A) : list A := drop (Z.to_nat n) l.

(** [std::string(buf.data() + pos, n)]: the characters of [buf] and its terminating
    NUL may be read, nothing beyond. *)
Definition read_region (buf : bytes) (pos n : Z) : outcome bytes :=
  if pos + n <=? zlen buf + 1 then Val (ztake n (zdrop pos (buf ++ [x00]))) else OutOfBounds.

Declare Scope im_scope.
Delimit Scope im_scope with im.
Notation "'let!' x ':=' o 'in' k" := (obind o (fun x => k))
  (at level 10, x pattern, o at level 100, k at level 200) : im_scope.
Open Scope im_scope.

Lemma zlen_app {A} (l1 l2 : list A) : zlen (l1 ++ l2) = zlen l1 + zlen l2.
Proof. unfold zlen. rewrite length_app. lia. Qed.

Lemma zlen_nonneg {A} (l : list A) : 0 <= zlen l.
Proof. unfold zlen. lia. Qed.

Lemma zdrop_app {A} (l1 l2 : list A) n : n = zlen l1 -> zdrop n (l1 ++ l2) = l2.
Proof. intros ->. unfold zdrop, zlen. rewrite Nat2Z.id. apply drop_app_length. Qed.

Lemma ztake_app {A} (l1 l2 : list A) n : n = zlen l1 -> ztake n (l1 ++ l2) = l1.
Proof. intros ->. unfold ztake, zlen. rewrite Nat2Z.id. apply take_app_length. Qed.

(** Reading a region that lies inside the buffer. *)
Lemma read_region_app pre mid post pos n :
  pos = zlen pre -> n = zlen mid -> read_region (pre ++ mid ++ post) pos n = Val mid.
Proof.
  intros -> ->. unfold read_region. rewrite !zlen_app.
  pose proof (zlen_nonneg post). case_match; zbool; [|lia].
  rewrite <- !app_assoc. by rewrite zdrop_app, ztake_app.
Qed.

(** * Exceptions and state

    A C++ call on a third-party object of state [D]: it may change the object, and it
    returns or throws. *)

Inductive result (A : Type) : Type :=
| Ok (a : A)
| Throw.
Arguments Ok {A} a.
Arguments Throw {A}.

Definition exec (D A : Type) : Type := D -> D * result A.

Definition ret {D A} (a : A) : exec D A := fun d => (d, Ok a).
Definition bind {D A B} (m : exec D A) (k : A -> exec D B) : exec D B := fun d =>
  let '(d1, r) := m d in
  match r with Ok a => k a d1 | Throw => (d1, Throw) end.

(** [try { m } catch (...) { return dflt; }]: it always returns. *)
Definition try_catch {D A} (m : exec D A) (dflt : A) : D -> D * A := fun d =>
  let '(d1, r) := m d in
  match r with Ok a => (d1, a) | Throw => (d1, dflt) end.

Notation "'let*' x ':=' m 'in' k" := (bind m (fun x => k))
  (at level 10, x pattern, m at level 100, k at level 200) : im_scope.

(** Inverting a run of the monad. *)
Lemma bind_inv {D A B} (m : exec D A) (k : A -> exec D B) d d' r :
  bind m k d = (d', r) ->
  (m d = (d', Throw) /\ r = Throw) \/
  (exists a d1, m d = (d1, Ok a) /\ k a d1 = (d', r)).
Proof.
  unfold bind. destruct (m d) as [d1 [a|]] eqn:E.
  - intros Hk. right. eauto.
  - intros [= <- <-]. by left.
Qed.

Lemma bind_Ok {D A B} (m : exec D A) (k : A -> exec D B) d d1 a :
  m d = (d1, Ok a) -> bind m k d = k a d1.
Proof. unfold bind. by intros ->. Qed.

Lemma try_catch_inv {D A} (m : exec D A) (dflt : A) d d' a :
  try_catch m dflt d = (d', a) ->
  m d = (d', Ok a) \/ (m d = (d', Throw) /\ a = dflt).
Proof.
  unfold try_catch. destruct (m d) as [d1 [x|]]; intros [= <- <-]; auto.
Qed.

Lemma try_catch_Ok {D A} (m : exec D A) (dflt : A) d d1 a :
  m d = (d1, Ok a) -> try_catch m dflt d = (d1, a).
Proof. unfold try_catch. by intros ->. Qed.

(** Splits a hypothesis about a run of a monadic program into its steps. *)
Ltac run_inv H :=
  lazymatch type of H with
  | bind _ _ _ = _ =>
      let a := fresh "a" in let d := fresh "d" in let E := fresh "E" in
      apply bind_inv in H as [[E ?]|(a & d & E & H)]; simplify_eq
  end.

(** Every value a computation returns satisfies [P]. *)
Definition returns {D A} (P : A -> Prop) (m : exec D A) : Prop := forall d d' a, m d = (d', Ok a) -> P a.

Lemma returns_ret {D A} (P : A -> Prop) (a : A) : P a -> returns (D := D) P (ret a).
Proof. by intros Ha d d' x [= <- <-]. Qed.

Lemma returns_bind {D A B} (P : B -> Prop) (m : exec D A) k : (forall a, returns P (k a)) -> returns P (bind m k).
Proof. intros Hk d d' b E. run_inv E. by eapply Hk. Qed.

Lemma returns_seq {D A B} (Q : A -> Prop) (P : B -> Prop) (m : exec D A) k :
  returns Q m -> (forall a, Q a -> returns P (k a)) -> returns P (bind m k).
Proof. intros Hm Hk d d' b E. run_inv E. eapply Hk; [by eapply Hm|done]. Qed.

Lemma returns_throw {D A} (P : A -> Prop) : returns P (fun d : D => (d, @Throw A)).
Proof. by intros d d' a [=]. Qed.

(** A computation that never throws. *)
Definition total {D A} (m : exec D A) : Prop := forall d, exists d' a, m d = (d', Ok a).

Lemma total_ret {D A} (a : A) : total (D := D) (ret a).
Proof. intros d. by exists d, a. Qed.

Lemma total_bind {D A B} (m : exec D A) (k : A -> exec D B) : total m -> (forall a, total (k a)) -> total (bind m k).
Proof. intros Hm Hk d. destruct (Hm d) as (d1 & a & E). rewrite (bind_Ok _ _ _ _ _ E). apply Hk. Qed.

(** One goal per [return] of a computation. *)
Ltac each_return :=
  repeat first [apply returns_ret | apply returns_bind; intros ? | apply returns_throw | case_match].

(** * Tables: pairwise constraints on lists up to reordering *)

Section Pairwise.
Context {A : Type} (conflict : A -> A -> bool).
Hypothesis conflict_sym : forall x y, conflict x y = conflict y x.

(** No two rows of the table conflict. *)
Definition pairwise (l : list A) : Prop :=
  forall x y rest, l ≡ₚ x :: y :: rest -> conflict x y = false.

Lemma pairwise_nil : pairwise [].
Proof. intros x y rest H. by apply Permutation_nil in H. Qed.

Lemma pairwise_perm l l' : l ≡ₚ l' -> pairwise l -> pairwise l'.
Proof. intros Hp Hl x y rest H. apply (Hl x y rest). by rewrite Hp. Qed.

Lemma pairwise_tail x l : pairwise (x :: l) -> pairwise l.
Proof.
  intros Hl y z rest H. apply (Hl y z (x :: rest)).
  rewrite H. etrans; [apply perm_swap|]. by rewrite (perm_swap x z).
Qed.

Lemma pairwise_cons x l :
  pairwise (x :: l) <-> pairwise l /\ forall y, y ∈ l -> conflict x y = false.
Proof.
  split.
  - intros H. split; [by eapply pairwise_tail|]. intros y Hy.
    apply elem_of_Permutation in Hy as [r Hr]. apply (H x y r). by rewrite Hr.
  - intros [Hl Hx] y z rest H.
    assert (Hin : x ∈ y :: z :: rest) by (rewrite <- H; constructor).
    apply elem_of_cons in Hin as [->|Hin]; [|apply elem_of_cons in Hin as [->|Hin]].
    + apply Permutation_cons_inv in H. apply Hx. rewrite H. constructor.
    + rewrite (perm_swap z y) in H. apply Permutation_cons_inv in H.
      rewrite conflict_sym. apply Hx. rewrite H. constructor.
    + apply elem_of_Permutation in Hin as [r Hr]. apply (Hl y z r).
      apply (Permutation_cons_inv (a := x)). rewrite H, Hr.
      by rewrite (perm_swap x z), (perm_swap x y).
Qed.

Lemma pairwise_filter (P : A -> Prop) `{forall x, Decision (P x)} l :
  pairwise l -> pairwise (filter P l).
Proof.
  induction l as [|x l IH]; [done|]. rewrite pairwise_cons. intros [Hl Hx].
  rewrite filter_cons. case_decide; [|by apply IH]. apply pairwise_cons. split; [by apply IH|].
  intros y [_ Hy]%list_elem_of_filter. by apply Hx.
Qed.

(** Two different positions never hold conflicting rows, so a reflexive conflict makes a
    row unique. *)
Lemma pairwise_eq l x y :
  pairwise l -> x ∈ l -> y ∈ l -> conflict x y = true -> x = y.
Proof.
  intros Hl Hx Hy Hc. apply elem_of_Permutation in Hx as [r Hr]. rewrite Hr in Hy.
  apply elem_of_cons in Hy as [->|Hy]; [done|].
  eapply pairwise_perm in Hl; [|exact Hr]. apply pairwise_cons in Hl as [_ Hl].
  rewrite Hl in Hc by done. done.
Qed.

Lemma pairwise_NoDup l : (forall x, conflict x x = true) -> pairwise l -> NoDup l.
Proof.
  intros Hr. induction l as [|x l IH]; [constructor|]. rewrite pairwise_cons. intros [Hl Hx].
  constructor; [|auto]. intros Hin. specialize (Hx x Hin). by rewrite Hr in Hx.
Qed.
End Pairwise.

(** * Sorted lists *)

(** The first [n] of a sorted list are sorted and come before the others. *)
Lemma sorted_take {A} (R : relation A) n l : Transitive R -> Sorted R l ->
  Sorted R (take n l) /\ forall x y, x ∈ take n l -> y ∈ drop n l -> R x y.
Proof.
  intros HR Hl%Sorted_StronglySorted; [|done]. rewrite <- (take_drop n l) in Hl.
  apply StronglySorted_app in Hl as (Hxy & Hl & _). split; [by apply StronglySorted_Sorted|done].
Qed.
