(* ===== verification/Crc32.v ===== *)
(** The checksum of [common/network/protobuf_codec.cpp]: the lookup table, the
    byte-at-a-time loop of [ProtobufCodec::calculateCRC32], the bitwise CRC-32 the
    table stands for, and what the checksum is worth to the frame format. *)
From Stdlib Require Import Btauto.
From S2P Require Import Prelude.

Open Scope Z_scope.

(** * The code *)

(** [crc32_table]. *)
Definition crc32_table : list Z :=
  [0x00000000; 0x77073096; 0xee0e612c; 0x990951ba; 0x076dc419; 0x706af48f;
   0xe963a535; 0x9e6495a3; 0x0edb8832; 0x79dcb8a4; 0xe0d5e91e; 0x97d2d988;
   0x09b64c2b; 0x7eb17cbd; 0xe7b82d07; 0x90bf1d91; 0x1db71064; 0x6ab020f2;
   0xf3b97148; 0x84be41de; 0x1adad47d; 0x6ddde4eb; 0xf4d4b551; 0x83d385c7;
   0x136c9856; 0x646ba8c0; 0xfd62f97a; 0x8a65c9ec; 0x14015c4f; 0x63066cd9;
   0xfa0f3d63; 0x8d080df5; 0x3b6e20c8; 0x4c69105e; 0xd56041e4; 0xa2677172;
   0x3c03e4d1; 0x4b04d447; 0xd20d85fd; 0xa50ab56b; 0x35b5a8fa; 0x42b2986c;
   0xdbbbc9d6; 0xacbcf940; 0x32d86ce3; 0x45df5c75; 0xdcd60dcf; 0xabd13d59;
   0x26d930ac; 0x51de003a; 0xc8d75180; 0xbfd06116; 0x21b4f4b5; 0x56b3c423;
   0xcfba9599; 0xb8bda50f; 0x2802b89e; 0x5f058808; 0xc60cd9b2; 0xb10be924;
   0x2f6f7c87; 0x58684c11; 0xc1611dab; 0xb6662d3d; 0x76dc4190; 0x01db7106;
   0x98d220bc; 0xefd5102a; 0x71b18589; 0x06b6b51f; 0x9fbfe4a5; 0xe8b8d433;
   0x7807c9a2; 0x0f00f934; 0x9609a88e; 0xe10e9818; 0x7f6a0dbb; 0x086d3d2d;
   0x91646c97; 0xe6635c01; 0x6b6b51f4; 0x1c6c6162; 0x856530d8; 0xf262004e;
   0x6c0695ed; 0x1b01a57b; 0x8208f4c1; 0xf50fc457; 0x65b0d9c6; 0x12b7e950;
   0x8bbeb8ea; 0xfcb9887c; 0x62dd1ddf; 0x15da2d49; 0x8cd37cf3; 0xfbd44c65;
   0x4db26158; 0x3ab551ce; 0xa3bc0074; 0xd4bb30e2; 0x4adfa541; 0x3dd895d7;
   0xa4d1c46d; 0xd3d6f4fb; 0x4369e96a; 0x346ed9fc; 0xad678846; 0xda60b8d0;
   0x44042d73; 0x33031de5; 0xaa0a4c5f; 0xdd0d7cc9; 0x5005713c; 0x270241aa;
   0xbe0b1010; 0xc90c2086; 0x5768b525; 0x206f85b3; 0xb966d409; 0xce61e49f;
   0x5edef90e; 0x29d9c998; 0xb0d09822; 0xc7d7a8b4; 0x59b33d17; 0x2eb40d81;
   0xb7bd5c3b; 0xc0ba6cad; 0xedb88320; 0x9abfb3b6; 0x03b6e20c; 0x74b1d29a;
   0xead54739; 0x9dd277af; 0x04db2615; 0x73dc1683; 0xe3630b12; 0x94643b84;
   0x0d6d6a3e; 0x7a6a5aa8; 0xe40ecf0b; 0x9309ff9d; 0x0a00ae27; 0x7d079eb1;
   0xf00f9344; 0x8708a3d2; 0x1e01f268; 0x6906c2fe; 0xf762575d; 0x806567cb;
   0x196c3671; 0x6e6b06e7; 0xfed41b76; 0x89d32be0; 0x10da7a5a; 0x67dd4acc;
   0xf9b9df6f; 0x8ebeeff9; 0x17b7be43; 0x60b08ed5; 0xd6d6a3e8; 0xa1d1937e;
   0x38d8c2c4; 0x4fdff252; 0xd1bb67f1; 0xa6bc5767; 0x3fb506dd; 0x48b2364b;
   0xd80d2bda; 0xaf0a1b4c; 0x36034af6; 0x41047a60; 0xdf60efc3; 0xa867df55;
   0x316e8eef; 0x4669be79; 0xcb61b38c; 0xbc66831a; 0x256fd2a0; 0x5268e236;
   0xcc0c7795; 0xbb0b4703; 0x220216b9; 0x5505262f; 0xc5ba3bbe; 0xb2bd0b28;
   0x2bb45a92; 0x5cb36a04; 0xc2d7ffa7; 0xb5d0cf31; 0x2cd99e8b; 0x5bdeae1d;
   0x9b64c2b0; 0xec63f226; 0x756aa39c; 0x026d930a; 0x9c0906a9; 0xeb0e363f;
   0x72076785; 0x05005713; 0x95bf4a82; 0xe2b87a14; 0x7bb12bae; 0x0cb61b38;
   0x92d28e9b; 0xe5d5be0d; 0x7cdcefb7; 0x0bdbdf21; 0x86d3d2d4; 0xf1d4e242;
   0x68ddb3f8; 0x1fda836e; 0x81be16cd; 0xf6b9265b; 0x6fb077e1; 0x18b74777;
   0x88085ae6; 0xff0f6a70; 0x66063bca; 0x11010b5c; 0x8f659eff; 0xf862ae69;
   0x616bffd3; 0x166ccf45; 0xa00ae278; 0xd70dd2ee; 0x4e048354; 0x3903b3c2;
   0xa7672661; 0xd06016f7; 0x4969474d; 0x3e6e77db; 0xaed16a4a; 0xd9d65adc;
   0x40df0b66; 0x37d83bf0; 0xa9bcae53; 0xdebb9ec5; 0x47b2cf7f; 0x30b5ffe9;
   0xbdbdf21c; 0xcabac28a; 0x53b39330; 0x24b4a3a6; 0xbad03605; 0xcdd70693;
   0x54de5729; 0x23d967bf; 0xb3667a2e; 0xc4614ab8; 0x5d681b02; 0x2a6f2b94;
   0xb40bbe37; 0xc30c8ea1; 0x5a05df1b; 0x2d02ef8d].

(** One iteration of the loop of [calculateCRC32]; [index] is a [uint8_t]. *)
Definition crc_step (crc : Z) (b : byte) : Z :=
  let index := Z.land (Z.lxor crc (bz b)) 0xff in
  Z.lxor (Z.shiftr crc 8) (nth (Z.to_nat index) crc32_table 0).

Definition calculateCRC32 (data : bytes) : Z :=
  Z.lxor (fold_left crc_step data 0xffffffff) 0xffffffff.

(** * The specification: the reflected CRC-32 of polynomial 0xEDB88320, one bit at a time *)

Definition crc_bit (c : Z) : Z :=
  if Z.testbit c 0 then Z.lxor (Z.shiftr c 1) 0xedb88320 else Z.shiftr c 1.

Definition crc_ref_step (c : Z) (b : byte) : Z := Nat.iter 8 crc_bit (Z.lxor c (bz b)).

Definition crc_ref (data : bytes) : Z :=
  Z.lxor (fold_left crc_ref_step data 0xffffffff) 0xffffffff.

(** The test both decoders make on a whole frame: the last four bytes, read as a
    little-endian [uint32_t], equal the checksum of what precedes them. *)
Definition frame_crc_ok (frame : bytes) : bool :=
  let body := take (length frame - 4) frame in
  (4 <=? length frame)%nat && (le_combine (drop (length frame - 4) frame) =? calculateCRC32 body).

(** * Linearity of the bitwise step *)

Lemma crc_bit_lxor a b : crc_bit (Z.lxor a b) = Z.lxor (crc_bit a) (crc_bit b).
Proof.
  unfold crc_bit. rewrite Z.lxor_spec.
  bits_ext i.
  destruct (Z.testbit a 0), (Z.testbit b 0); simpl;
    rewrite ?Z.lxor_spec, ?Z.shiftr_spec, ?Z.lxor_spec by lia; btauto.
Qed.

Lemma iter_crc_bit_lxor n a b :
  Nat.iter n crc_bit (Z.lxor a b) = Z.lxor (Nat.iter n crc_bit a) (Nat.iter n crc_bit b).
Proof. induction n as [|n IH]; [done|]. simpl. by rewrite IH, crc_bit_lxor. Qed.

(** Shifting in zero bits meets no odd intermediate value. *)
Lemma iter_crc_bit_shiftl n c :
  0 <= c -> Nat.iter n crc_bit (Z.shiftl c (Z.of_nat n)) = c.
Proof.
  intros Hc. revert c Hc. induction n as [|n IH]; intros c Hc.
  { apply Z.shiftl_0_r. }
  rewrite Nat.iter_succ_r. unfold crc_bit at 2.
  rewrite Z.shiftl_spec_low by lia.
  rewrite Z.shiftr_shiftl_l by lia.
  replace (Z.of_nat (S n) - 1) with (Z.of_nat n) by lia. auto.
Qed.

Lemma in_u32_crc_bit c : in_u32 c -> in_u32 (crc_bit c).
Proof.
  intros Hc. unfold crc_bit. destruct (Z.testbit c 0); auto with u32.
  apply in_u32_lxor; [auto with u32|]. split; [discriminate|reflexivity].
Qed.

Lemma in_u32_iter n c : in_u32 c -> in_u32 (Nat.iter n crc_bit c).
Proof. intros Hc. induction n; simpl; auto using in_u32_crc_bit. Qed.

(** Bit 31 of the result records the bit that was shifted out, so the step
    loses nothing. *)
Lemma crc_bit_31 c : in_u32 c -> Z.testbit (crc_bit c) 31 = Z.testbit c 0.
Proof.
  rewrite in_u32_testbit. intros [_ Hc]. unfold crc_bit.
  destruct (Z.testbit c 0) eqn:E; rewrite ?Z.lxor_spec, Z.shiftr_spec, Hc by lia; done.
Qed.

Lemma crc_bit_inj a b : in_u32 a -> in_u32 b -> crc_bit a = crc_bit b -> a = b.
Proof.
  intros Ha Hb H.
  assert (H0 : Z.testbit a 0 = Z.testbit b 0) by (by rewrite <- !crc_bit_31, H by done).
  assert (Hs : Z.shiftr a 1 = Z.shiftr b 1).
  { unfold crc_bit in H. rewrite <- H0 in H.
    destruct (Z.testbit a 0); [eapply lxor_cancel_r; exact H|exact H]. }
  bits_ext i. destruct (Z.eq_dec i 0) as [->|]; [done|].
  replace i with ((i - 1) + 1) by lia. rewrite <- !Z.shiftr_spec by lia. by rewrite Hs.
Qed.

Lemma iter_crc_bit_inj n a b :
  in_u32 a -> in_u32 b -> Nat.iter n crc_bit a = Nat.iter n crc_bit b -> a = b.
Proof.
  intros Ha Hb. induction n as [|n IH]; simpl; [done|].
  intros H. apply IH. apply crc_bit_inj; auto using in_u32_iter.
Qed.

(** * The table *)

Lemma crc32_table_spec k :
  0 <= k < 256 -> nth (Z.to_nat k) crc32_table 0 = Nat.iter 8 crc_bit k.
Proof.
  intros Hk.
  assert (Hall : forallb (fun n => nth n crc32_table 0 =? Nat.iter 8 crc_bit (Z.of_nat n))
                   (seq 0 256) = true) by (vm_compute; reflexivity).
  rewrite forallb_forall in Hall. specialize (Hall (Z.to_nat k)).
  rewrite Z2Nat.id in Hall by lia. apply Z.eqb_eq, Hall. apply in_seq. lia.
Qed.

Lemma crc_step_ref c b : in_u32 c -> crc_step c b = crc_ref_step c b.
Proof.
  intros Hc. unfold crc_step, crc_ref_step. cbv zeta. set (x := Z.lxor c (bz b)).
  assert (Hx : in_u32 x) by (unfold x; auto with u32).
  assert (Hlow : 0 <= Z.land x 255 < 256).
  { rewrite <- u8_land. apply u8_range. }
  change 0xff with 255. rewrite crc32_table_spec by done.
  assert (Hsplit : x = Z.lxor (Z.shiftl (Z.shiftr x 8) (Z.of_nat 8)) (Z.land x 255)).
  { change 255 with (Z.ones 8). bits_ext i. rewrite Z.lxor_spec, Z.land_spec.
    destruct (Z.lt_ge_cases i 8).
    - rewrite Z.shiftl_spec_low, Z.ones_spec_low by lia. by rewrite andb_true_r, xorb_false_l.
    - rewrite Z.shiftl_spec, Z.shiftr_spec, Z.ones_spec_high by lia.
      rewrite andb_false_r, xorb_false_r. f_equal. lia. }
  rewrite Hsplit at 2. rewrite iter_crc_bit_lxor, iter_crc_bit_shiftl.
  - f_equal. unfold x. rewrite Z.shiftr_lxor.
    replace (Z.shiftr (bz b) 8) with 0; [by rewrite Z.lxor_0_r|].
    symmetry. rewrite Z.shiftr_div_pow2 by lia. apply Z.div_small. apply bz_range.
  - apply Z.shiftr_nonneg. apply Hx.
Qed.

Lemma in_u32_crc_ref_step c b : in_u32 c -> in_u32 (crc_ref_step c b).
Proof. intros. unfold crc_ref_step. apply in_u32_iter. auto with u32. Qed.

Lemma in_u32_fold_ref data c : in_u32 c -> in_u32 (fold_left crc_ref_step data c).
Proof.
  revert c. induction data as [|b data IH]; intros c Hc; simpl; auto using in_u32_crc_ref_step.
Qed.

Lemma fold_crc_step_ref data c :
  in_u32 c -> fold_left crc_step data c = fold_left crc_ref_step data c.
Proof.
  revert c. induction data as [|b data IH]; intros c Hc; simpl; [done|].
  rewrite crc_step_ref by done. auto using in_u32_crc_ref_step.
Qed.

Lemma in_u32_max : in_u32 0xffffffff.
Proof. split; [discriminate|reflexivity]. Qed.

Lemma in_u32_calculateCRC32 data : in_u32 (calculateCRC32 data).
Proof.
  unfold calculateCRC32. rewrite fold_crc_step_ref by exact in_u32_max.
  apply in_u32_lxor; [apply in_u32_fold_ref|]; exact in_u32_max.
Qed.

(** Absorbing a block is one xor followed by shifting all its bits through. *)
Lemma fold_crc_ref_block bs c :
  fold_left crc_ref_step bs c = Nat.iter (8 * length bs) crc_bit (Z.lxor c (le_combine bs)).
Proof.
  revert c. induction bs as [|b bs IH]; intros c; [by rewrite Z.lxor_0_r|].
  simpl fold_left. rewrite IH. unfold crc_ref_step.
  rewrite le_combine_cons, <- Z.lxor_assoc.
  replace (8 * length (b :: bs))%nat with (8 * length bs + 8)%nat by (simpl; lia).
  rewrite Nat.iter_add. f_equal.
  rewrite (iter_crc_bit_lxor _ (Z.lxor c (bz b))). f_equal.
  symmetry. apply (iter_crc_bit_shiftl 8). apply le_combine_range.
Qed.

Lemma fold_crc_ref_inj bs a b :
  in_u32 a -> in_u32 b ->
  fold_left crc_ref_step bs a = fold_left crc_ref_step bs b -> a = b.
Proof.
  revert a b. induction bs as [|x bs IH]; intros a b Ha Hb; simpl; [done|].
  intros H. apply IH in H; auto using in_u32_crc_ref_step.
  unfold crc_ref_step in H. apply iter_crc_bit_inj in H; auto with u32.
  by apply lxor_cancel_r in H.
Qed.

(** * Frames *)

Definition crc_residue : Z := Nat.iter 32 crc_bit 0xffffffff.

(** A frame passes the check exactly when the register ends in one fixed state. *)
Lemma frame_crc_ok_residue frame :
  frame_crc_ok frame = true <->
  (4 <= length frame)%nat /\ fold_left crc_ref_step frame 0xffffffff = crc_residue.
Proof.
  unfold frame_crc_ok. cbv zeta. rewrite andb_true_iff, Nat.leb_le, Z.eqb_eq.
  split; intros [Hl H]; (split; [done|]); revert H;
    set (body := take (length frame - 4) frame);
    set (tail := drop (length frame - 4) frame);
    assert (Hf : frame = body ++ tail) by (symmetry; apply take_drop);
    assert (Ht : length tail = 4%nat) by (unfold tail; rewrite length_drop; lia);
    unfold calculateCRC32; rewrite fold_crc_step_ref by exact in_u32_max;
    set (s := fold_left crc_ref_step body 0xffffffff);
    assert (Hs : in_u32 s) by (apply in_u32_fold_ref; exact in_u32_max).
  - intros H. rewrite Hf, fold_left_app. fold s. rewrite fold_crc_ref_block, Ht, H.
    unfold crc_residue. do 2 f_equal.
    by rewrite <- Z.lxor_assoc, Z.lxor_nilpotent, Z.lxor_0_l.
  - rewrite Hf, fold_left_app. fold s. rewrite fold_crc_ref_block, Ht. intros H.
    apply (iter_crc_bit_inj 32) in H;
      [|apply in_u32_lxor; [done|apply le_combine_u32; lia]|exact in_u32_max].
    apply (lxor_cancel_l s). rewrite H.
    by rewrite <- Z.lxor_assoc, Z.lxor_nilpotent, Z.lxor_0_l.
Qed.

Lemma frame_crc_ok_app data : frame_crc_ok (data ++ le32 (calculateCRC32 data)) = true.
Proof.
  unfold frame_crc_ok. cbv zeta. rewrite length_app. change (length (le32 _)) with 4%nat.
  replace (length data + 4 - 4)%nat with (length data) by lia.
  rewrite take_app_length, drop_app_length.
  rewrite le_combine_le32 by apply in_u32_calculateCRC32.
  rewrite Z.eqb_refl, andb_true_r. apply Nat.leb_le. lia.
Qed.

(** Two frames that differ only inside a window of at most four consecutive bytes,
    wherever the window lies, do not both pass the check. *)
Lemma crc_detects_bursts (pre mid mid' post : bytes) :
  length mid = length mid' -> (length mid <= 4)%nat -> mid <> mid' ->
  frame_crc_ok (pre ++ mid ++ post) = true ->
  frame_crc_ok (pre ++ mid' ++ post) = false.
Proof.
  intros Hlen H4 Hne Hok. apply not_true_is_false. intros Hok'.
  apply frame_crc_ok_residue in Hok as [_ Hok]; apply frame_crc_ok_residue in Hok' as [_ Hok'].
  rewrite !fold_left_app in Hok, Hok'. rewrite <- Hok' in Hok.
  set (s := fold_left crc_ref_step pre 0xffffffff) in *.
  assert (Hs : in_u32 s) by (apply in_u32_fold_ref; exact in_u32_max).
  apply fold_crc_ref_inj in Hok; auto using in_u32_fold_ref.
  rewrite !fold_crc_ref_block, Hlen in Hok.
  apply iter_crc_bit_inj in Hok.
  - apply lxor_cancel_l in Hok. apply Hne. by apply le_combine_inj.
  - apply in_u32_lxor; [done|]. apply le_combine_u32; lia.
  - apply in_u32_lxor; [done|]. apply le_combine_u32; lia.
Qed.

(** * Properties *)

(** C25: the table-driven loop of calculateCRC32 computes the bitwise IEEE CRC-32
    (reflected polynomial 0xEDB88320, initial value and final xor 0xffffffff) of
    every byte string; in particular all 256 table entries are right. *)
Theorem calculateCRC32_is_ieee_crc32 data : calculateCRC32 data = crc_ref data.
Proof.
  unfold calculateCRC32, crc_ref. by rewrite fold_crc_step_ref by exact in_u32_max.
Qed.
