(* ===== verification/ProtobufRuntime.v ===== *)
(** The protobuf runtime as the code sees it: coded streams and generated message
    classes, with their documented behaviour as laws, and one concrete runtime (LEB128
    varints over a cursor, and a serialiser for any countable type) that satisfies the
    laws and on which the theorems are run. *)
From S2P Require Import Prelude.

(** * The protobuf runtime *)

(** [CodedOutputStream::WriteVarint32] over a stack buffer, as the bytes it emits. *)
Class CodedOutput := WriteVarint32 : Z -> bytes.

(** [CodedInputStream] over an [ArrayInputStream]: [cis_open data size]. *)
Class CodedInput (S : Type) := {
  cis_open : bytes -> Z -> S;
  SetTotalBytesLimit : Z -> S -> S;
  ReadVarint32 : S -> option (Z * S);
  CurrentPosition : S -> Z;
  Skip : Z -> S -> option S
}.

(** A generated message class: its full name, and the runtime's entry points. *)
Class ProtoMessage (M : Type) := {
  GetTypeName : bytes;
  SerializeToString : M -> option bytes;
  ParseFromArray : bytes -> option M;
  IsInitialized : M -> bool
}.
Arguments GetTypeName M {_}.

(** The documented behaviour of the streams.  [cis_at s buf p l]: the stream [s]
    reads the array [buf], stands at offset [p], and refuses to go beyond [l]. *)
Class CodedLaws (S : Type) `{CodedOutput, CodedInput S} := {
  cis_at : S -> bytes -> Z -> Z -> Prop;
  cis_open_at buf : zlen buf < 2 ^ 31 -> cis_at (cis_open buf (zlen buf)) buf 0 (2 ^ 31 - 1);
  cis_limit_at s buf p l l' : cis_at s buf p l -> p <= l' ->
    cis_at (SetTotalBytesLimit l' s) buf p l';
  cis_position s buf p l : cis_at s buf p l -> CurrentPosition s = p;
  cis_bounds s buf p l : cis_at s buf p l -> 0 <= p <= zlen buf;
  cis_read_written s pre n post l :
    cis_at s (pre ++ WriteVarint32 n ++ post) (zlen pre) l -> in_u32 n ->
    zlen pre + zlen (WriteVarint32 n) <= l ->
    exists s', ReadVarint32 s = Some (n, s') /\
      cis_at s' (pre ++ WriteVarint32 n ++ post) (zlen pre + zlen (WriteVarint32 n)) l;
  cis_read_at s buf p l n s' :
    cis_at s buf p l -> ReadVarint32 s = Some (n, s') ->
    in_u32 n /\ exists p', cis_at s' buf p' l;
  cis_skip_ok s buf p l n :
    cis_at s buf p l -> 0 <= n -> p + n <= zlen buf -> p + n <= l ->
    exists s', Skip n s = Some s' /\ cis_at s' buf (p + n) l;
  cis_skip_at s buf p l n s' :
    cis_at s buf p l -> Skip n s = Some s' -> 0 <= n /\ p + n <= zlen buf /\
      cis_at s' buf (p + n) l
}.

Class ProtoLaws (M : Type) `{ProtoMessage M} := {
  parse_serialize m b : SerializeToString m = Some b -> ParseFromArray b = Some m;
  serialize_initialized m b : SerializeToString m = Some b -> IsInitialized m = true
}.

(** * A concrete runtime *)

Module Leb128.

Fixpoint write (fuel : nat) (n : Z) : bytes :=
  match fuel with
  | O => []
  | S f => if n <? 128 then [zb n] else zb (n mod 128 + 128) :: write f (n / 128)
  end.

(** The value and the bytes that remain. *)
Fixpoint read (fuel : nat) (bs : bytes) : option (Z * bytes) :=
  match fuel, bs with
  | S f, b :: bs' =>
      if bz b <? 128 then Some (bz b, bs')
      else match read f bs' with
           | Some (v, r) => Some (bz b - 128 + 128 * v, r)
           | None => None
           end
  | _, _ => None
  end.

Record stream := { buf : bytes; pos : Z; limit : Z }.

#[export] Instance output : CodedOutput := write 5.

#[export] Instance input : CodedInput stream := {
  cis_open b _ := {| buf := b; pos := 0; limit := 2 ^ 31 - 1 |};
  SetTotalBytesLimit l s := {| buf := buf s; pos := pos s; limit := l |};
  ReadVarint32 s :=
    match read 5 (zdrop (pos s) (buf s)) with
    | Some (v, r) =>
        let p := zlen (buf s) - zlen r in
        if p <=? limit s then Some (u32 v, {| buf := buf s; pos := p; limit := limit s |})
        else None
    | None => None
    end;
  CurrentPosition s := pos s;
  Skip n s :=
    if (0 <=? n) && (pos s + n <=? zlen (buf s)) && (pos s + n <=? limit s)
    then Some {| buf := buf s; pos := pos s + n; limit := limit s |} else None
}.

Lemma read_write fuel n rest :
  0 <= n < 128 ^ Z.of_nat (S fuel) -> read (S fuel) (write (S fuel) n ++ rest) = Some (n, rest).
Proof.
  revert n. induction fuel as [|f IH]; intros n Hn.
  { change (128 ^ Z.of_nat 1) with 128 in Hn. simpl. zif.
    simpl. rewrite bz_zb. unfold u8. rewrite Z.mod_small by lia. by zif. }
  rewrite Nat2Z.inj_succ, Z.pow_succ_r in Hn by lia.
  remember (S f) as f' eqn:Ef. simpl.
  destruct (Z.ltb_spec n 128); simpl; rewrite bz_zb; unfold u8.
  - rewrite Z.mod_small by lia. by zif.
  - pose proof (Z.mod_pos_bound n 128). rewrite Z.mod_small by lia. zif.
    rewrite IH; [|split; [apply Z.div_pos; lia|apply Z.div_lt_upper_bound; lia]].
    f_equal. f_equal. pose proof (Z.div_mod n 128). lia.
Qed.

Lemma read_suffix fuel bs v r : read fuel bs = Some (v, r) -> 0 <= v /\ exists p, bs = p ++ r.
Proof.
  revert bs v. induction fuel as [|f IH]; intros [|b bs] v; simpl; try done.
  pose proof (bz_range b). destruct (Z.ltb_spec (bz b) 128).
  - intros [= <- <-]. split; [lia|]. by exists [b].
  - destruct (read f bs) as [[v' r']|] eqn:E; [|done]. intros [= <- <-].
    destruct (IH _ _ E) as [? [p ->]]. split; [lia|]. by exists (b :: p).
Qed.

Definition at_ (s : stream) (b : bytes) (p l : Z) : Prop :=
  buf s = b /\ pos s = p /\ limit s = l /\ 0 <= p <= zlen b.

Lemma read_written_at s pre n post l :
  at_ s (pre ++ WriteVarint32 n ++ post) (zlen pre) l -> in_u32 n ->
  zlen pre + zlen (WriteVarint32 n) <= l ->
  exists s', ReadVarint32 s = Some (n, s') /\
    at_ s' (pre ++ WriteVarint32 n ++ post) (zlen pre + zlen (WriteVarint32 n)) l.
Proof.
  intros (Hb & Hp & Hl & Hr) Hn Hle. cbn -[read write]. rewrite Hb, Hp, Hl, zdrop_app by done.
  change (WriteVarint32 n) with (write 5 n) in *. rewrite (read_write 4).
  2: { unfold in_u32 in Hn. change (128 ^ Z.of_nat (S 4)) with 34359738368. lia. }
  assert (Hz : zlen (pre ++ write 5 n ++ post) - zlen post = zlen pre + zlen (write 5 n))
    by (rewrite !zlen_app; lia).
  rewrite Hz. zif. rewrite u32_small by done. eexists; split; [done|].
  unfold at_; cbn -[write]. split_and!; try done; rewrite ?zlen_app;
    pose proof (zlen_nonneg post); pose proof (zlen_nonneg pre);
    pose proof (zlen_nonneg (write 5 n)); lia.
Qed.

Lemma read_at s b p l n s' :
  at_ s b p l -> ReadVarint32 s = Some (n, s') -> in_u32 n /\ exists p', at_ s' b p' l.
Proof.
  intros (Hb & Hp & Hl & Hr). cbn -[read write]. rewrite Hb, Hp, Hl.
  destruct (read 5 (zdrop p b)) as [[v r]|] eqn:E; [|done].
  destruct (_ <=? l); [|done]. intros [= <- <-]. split; [apply u32_range|].
  exists (zlen b - zlen r). unfold at_; simpl. split_and!; try done.
  - apply read_suffix in E as [_ [q Hq]]. unfold zdrop in Hq.
    assert (Hlen : length (drop (Z.to_nat p) b) = length (q ++ r)) by by rewrite Hq.
    rewrite length_drop, length_app in Hlen. unfold zlen in *. lia.
  - pose proof (zlen_nonneg r). lia.
Qed.

#[export] Instance laws : CodedLaws stream.
Proof.
  refine {| cis_at := at_ |}.
  - intros b Hb. unfold at_; simpl. pose proof (zlen_nonneg b). split_and!; try done; lia.
  - intros s b p l l' (Hb & Hp & Hl & Hr) Hle. by unfold at_.
  - by intros s b p l (Hb & Hp & Hl & Hr).
  - by intros s b p l (Hb & Hp & Hl & Hr).
  - apply read_written_at.
  - apply read_at.
  - intros s b p l n (Hb & Hp & Hl & Hr) Hn H1 H2. cbn -[andb]. rewrite Hb, Hp, Hl.
    assert ((0 <=? n) && (p + n <=? zlen b) && (p + n <=? l) = true)%bool as ->.
    { rewrite !andb_true_iff, !Z.leb_le. lia. }
    eexists; split; [done|]. unfold at_; simpl. split_and!; try done; lia.
  - intros s b p l n s' (Hb & Hp & Hl & Hr). cbn -[andb]. rewrite Hb, Hp, Hl.
    destruct (_ && _)%bool eqn:E; [|done]. zbool. intros [= <-].
    unfold at_; simpl. split_and!; try done; lia.
Defined.

End Leb128.

(** A serialiser for any countable message type: proto3's empty encoding for the
    default message, a marked bit string for the others. *)
Module AnyProto.

Fixpoint pos_bits (p : positive) : bytes :=
  match p with xH => [] | xO p => x00 :: pos_bits p | xI p => x01 :: pos_bits p end.

Fixpoint bits_pos (bs : bytes) : positive :=
  match bs with
  | [] => xH
  | b :: bs => if bool_decide (b = x00) then xO (bits_pos bs) else xI (bits_pos bs)
  end.

Section Any.
Context {M : Type} `{Countable M} (name : bytes) (dflt : M).

Definition proto : ProtoMessage M := {|
  GetTypeName := name;
  SerializeToString m := Some (if bool_decide (m = dflt) then [] else x02 :: pos_bits (encode m));
  ParseFromArray bs :=
    match bs with [] => Some dflt | _ :: bs => decode (bits_pos bs) end;
  IsInitialized _ := true
|}.

Lemma bits_pos_bits p : bits_pos (pos_bits p) = p.
Proof. by induction p as [p IH|p IH|]; simpl; rewrite ?IH. Qed.

Lemma proto_laws : @ProtoLaws M proto.
Proof.
  split; simpl; intros m b Hs; [|done]. injection Hs as <-.
  case_bool_decide; [by subst|]. by rewrite bits_pos_bits, decode_encode.
Qed.
End Any.

End AnyProto.
