(* ===== verification/ProtobufCodec.v ===== *)
(** The frame codec of [common/network/protobuf_codec.cpp]
    ([ProtobufCodec::encode], [decode], [decodeEnvelope] and the error-response
    builders).  A frame is

      varint header_size, varint type_name_size, type_name, header, body, CRC-32.

    The protobuf runtime (coded streams, generated message classes) is third-party
    code: it enters as the classes of ProtobufRuntime, with what the codec relies on
    as laws. *)
From S2P Require Import Prelude Crc32 ProtobufRuntime.

(** * Messages *)

(** [message IMHeader] of [common/proto/base.proto]. *)
Record IMHeader := {
  version : string;
  seq_ : Z;
  cmd_id : Z;
  from_uid : string;
  to_uid : string;
  timestamp : Z;
  token : string;
  device_id : string;
  platform : string
}.

(** [message BaseResponse]; [payload] is never set by the codec. *)
Record BaseResponse := {
  error_code : Z;
  error_message : string;
  payload : bytes
}.

(** [enum ErrorCode]. *)
Inductive ErrorCode :=
| SUCCESS | INVALID_REQUEST | AUTH_FAILED | NOT_FOUND | PERMISSION_DENIED
| ALREADY_EXISTS | PARAM_ERROR | TIMEOUT | SERVER_ERROR | UNKNOWN_ERROR.

Definition ErrorCode_value (e : ErrorCode) : Z :=
  match e with
  | SUCCESS => 0 | INVALID_REQUEST => 1 | AUTH_FAILED => 2 | NOT_FOUND => 3
  | PERMISSION_DENIED => 4 | ALREADY_EXISTS => 5 | PARAM_ERROR => 6 | TIMEOUT => 7
  | SERVER_ERROR => 500 | UNKNOWN_ERROR => 1000
  end.

(** [command::CommandID::CMD_SERVER_NOTIFY]. *)
Definition CMD_SERVER_NOTIFY : Z := 2.

(** * The codec *)

Section Codec.
Context {S : Type} `{CodedOutput, CodedInput S} `{ProtoMessage IMHeader}.

(** [ProtobufCodec::encode]; [None] is [return false]. *)
Definition encode {M} `{ProtoMessage M} (header : IMHeader) (message : M) : option bytes :=
  match SerializeToString header with
  | None => None
  | Some header_data =>
    match SerializeToString message with
    | None => None
    | Some message_data =>
      let message_type := GetTypeName M in
      let header_size := u32 (zlen header_data) in
      let type_name_size := u32 (zlen message_type) in
      let output := WriteVarint32 header_size ++ WriteVarint32 type_name_size
                      ++ message_type ++ header_data ++ message_data in
      let crc := calculateCRC32 output in
      Some (output ++ le32 crc)
    end
  end.

(** What [read_frame] hands on: the data without the trailer, the type name, the
    header bytes and the stream behind them. *)
Record Frame := {
  fr_data : bytes;
  fr_type_name : bytes;
  fr_header_data : bytes;
  fr_stream : S
}.

(** Steps 0 to 7, which [decode] and [decodeEnvelope] both spell out: size check, CRC
    check, the two varints, the size checks on [uint32_t], and the two region reads. *)
Definition read_frame (input : bytes) : outcome (option Frame) :=
  if (length input <? 4)%nat then Val None else
  let n := (length input - 4)%nat in
  let received_crc := le_combine (drop n input) in
  let calculated_crc := calculateCRC32 (take n input) in
  if negb (received_crc =? calculated_crc) then Val None else
  let data_without_crc := take n input in
  let size := i32 (zlen data_without_crc) in
  let coded_in := SetTotalBytesLimit (Z.shiftl 64 20) (cis_open data_without_crc size) in
  match ReadVarint32 coded_in with
  | None => Val None
  | Some (header_size, coded_in) =>
    match ReadVarint32 coded_in with
    | None => Val None
    | Some (type_name_size, coded_in) =>
      if header_size =? 0 then Val None else
      if type_name_size =? 0 then Val None else
      let after_sizes := CurrentPosition coded_in in
      let remaining_bytes := size - after_sizes in
      if u32 remaining_bytes <? u32 (header_size + type_name_size) then Val None else
      let! type_name_data := read_region data_without_crc after_sizes type_name_size in
      match Skip (i32 type_name_size) coded_in with
      | None => Val None
      | Some coded_in =>
        let! header_data :=
          read_region data_without_crc (after_sizes + type_name_size) header_size in
        match Skip (i32 header_size) coded_in with
        | None => Val None
        | Some coded_in =>
          Val (Some {| fr_data := data_without_crc; fr_type_name := type_name_data;
                       fr_header_data := header_data; fr_stream := coded_in |})
        end
      end
    end
  end.

(** [ProtobufCodec::decode]: [message0] is the object the caller passes by reference,
    which keeps its value when the frame has no body. *)
Definition decode {M} `{ProtoMessage M} (input : bytes) (message0 : M)
  : outcome (option (IMHeader * M)) :=
  let! fr := read_frame input in
  match fr with
  | None => Val None
  | Some fr =>
    match ParseFromArray (M := IMHeader) (fr_header_data fr) with
    | None => Val None
    | Some header =>
      let message_position := CurrentPosition (fr_stream fr) in
      let message_size := i32 (zlen (fr_data fr)) - message_position in
      let finish (message : M) :=
        if negb (IsInitialized header) then Val None else Val (Some (header, message)) in
      if 0 <? message_size then
        let! body := read_region (fr_data fr) message_position message_size in
        match ParseFromArray (M := M) body with
        | None => Val None
        | Some message =>
          if negb (IsInitialized message) then Val None else
          if negb (bool_decide (fr_type_name fr = GetTypeName M)) then Val None else
          finish message
        end
      else finish message0
    end
  end.

(** [ProtobufCodec::decodeEnvelope]: header, type name and raw body. *)
Definition decodeEnvelope (input : bytes) : outcome (option (IMHeader * bytes * bytes)) :=
  let! fr := read_frame input in
  match fr with
  | None => Val None
  | Some fr =>
    match ParseFromArray (M := IMHeader) (fr_header_data fr) with
    | None => Val None
    | Some header =>
      if negb (IsInitialized header) then Val None else
      let message_position := CurrentPosition (fr_stream fr) in
      let message_size := i32 (zlen (fr_data fr)) - message_position in
      let message_size := if message_size <? 0 then 0 else message_size in
      let! message_bytes := read_region (fr_data fr) message_position message_size in
      Val (Some (header, fr_type_name fr, message_bytes))
    end
  end.

(** [ProtobufCodec::returnHeaderBuilder]; the clock is the argument [ms_count]. *)
Definition returnHeaderBuilder (header : IMHeader) (device platform_info : string)
    (ms_count : Z) : IMHeader :=
  {| version := version header;
     seq_ := seq_ header;
     cmd_id := CMD_SERVER_NOTIFY;
     from_uid := to_uid header;
     to_uid := from_uid header;
     timestamp := u64 ms_count;
     token := token header;
     device_id := device;
     platform := platform_info |}.

(** [ProtobufCodec::buildErrorResponse]; an encoding failure yields the empty string. *)
Definition buildErrorResponse `{ProtoMessage BaseResponse} (request_header : IMHeader)
    (code : ErrorCode) (msg : string) (ms_count : Z) : bytes :=
  let response_header := returnHeaderBuilder request_header
                           (device_id request_header) (platform request_header) ms_count in
  let response := {| error_code := ErrorCode_value code; error_message := msg;
                     payload := [] |} in
  match encode response_header response with
  | Some encoded_data => encoded_data
  | None => []
  end.

Definition buildAuthFailedResponse `{ProtoMessage BaseResponse} (request_header : IMHeader)
    (msg : string) (ms_count : Z) : bytes :=
  buildErrorResponse request_header AUTH_FAILED msg ms_count.

Definition buildTimeoutResponse `{ProtoMessage BaseResponse} (request_header : IMHeader)
    (msg : string) (ms_count : Z) : bytes :=
  buildErrorResponse request_header TIMEOUT msg ms_count.

End Codec.

(** * Lemmas *)

Section Laws.
Context {S : Type} `{CodedLaws S} `{ProtoLaws IMHeader}.
Context {M : Type} `{ProtoLaws M}.

(** The part of a frame that the checksum covers. *)
Definition frame_data (tn hd md : bytes) : bytes :=
  WriteVarint32 (zlen hd) ++ WriteVarint32 (zlen tn) ++ tn ++ hd ++ md.

Definition max_frame : Z := 2 ^ 26.

Lemma encode_Some (h : IMHeader) (m : M) hd md :
  SerializeToString h = Some hd -> SerializeToString m = Some md ->
  in_u32 (zlen hd) -> in_u32 (zlen (GetTypeName M)) ->
  encode h m = Some (frame_data (GetTypeName M) hd md
                       ++ le32 (calculateCRC32 (frame_data (GetTypeName M) hd md))).
Proof.
  intros Hh Hm Hhd Htn. unfold encode. by rewrite Hh, Hm, !u32_small by done.
Qed.

Lemma frame_data_lengths tn hd md :
  zlen (frame_data tn hd md) =
    zlen (WriteVarint32 (zlen hd)) + zlen (WriteVarint32 (zlen tn))
    + zlen tn + zlen hd + zlen md.
Proof. unfold frame_data. rewrite !zlen_app. lia. Qed.

Lemma frame_split (data : bytes) :
  let f := data ++ le32 (calculateCRC32 data) in
  (length f <? 4)%nat = false /\ take (length f - 4) f = data /\
  le_combine (drop (length f - 4) f) = calculateCRC32 data.
Proof.
  cbv zeta. rewrite length_app. change (length (le32 _)) with 4%nat.
  replace (length data + 4 - 4)%nat with (length data) by lia.
  rewrite take_app_length, drop_app_length. split_and!; [apply Nat.ltb_ge; lia|done|].
  apply le_combine_le32, in_u32_calculateCRC32.
Qed.

Lemma read_sizes tn hd md :
  let data := frame_data tn hd md in
  zlen data <= max_frame ->
  exists s1 s2,
    ReadVarint32 (SetTotalBytesLimit max_frame (cis_open data (zlen data))) = Some (zlen hd, s1) /\
    ReadVarint32 s1 = Some (zlen tn, s2) /\
    cis_at s2 data (zlen data - zlen tn - zlen hd - zlen md) max_frame.
Proof.
  intros data Hmax. pose proof (frame_data_lengths tn hd md) as Hlen. fold data in Hlen.
  pose proof (zlen_nonneg hd); pose proof (zlen_nonneg md); pose proof (zlen_nonneg tn).
  pose proof (zlen_nonneg (WriteVarint32 (zlen hd))).
  pose proof (zlen_nonneg (WriteVarint32 (zlen tn))).
  assert (max_frame = 67108864) by reflexivity.
  set (s := SetTotalBytesLimit max_frame (cis_open data (zlen data))).
  assert (Hs : cis_at s data 0 max_frame).
  { eapply cis_limit_at; [apply cis_open_at; lia|lia]. }
  destruct (cis_read_written s [] (zlen hd) (WriteVarint32 (zlen tn) ++ tn ++ hd ++ md) max_frame)
    as (s1 & Hr1 & Hs1); [exact Hs|unfold in_u32; lia|change (zlen []) with 0; lia|].
  destruct (cis_read_written s1 (WriteVarint32 (zlen hd)) (zlen tn) (tn ++ hd ++ md) max_frame)
    as (s2 & Hr2 & Hs2); [exact Hs1|unfold in_u32; lia|lia|].
  exists s1, s2. split_and!; [done|done|].
  replace (zlen data - _ - _ - _)
    with (zlen (WriteVarint32 (zlen hd)) + zlen (WriteVarint32 (zlen tn))) by lia.
  exact Hs2.
Qed.

Lemma read_frame_empty_header tn md :
  let data := frame_data tn [] md in
  zlen data <= max_frame -> read_frame (data ++ le32 (calculateCRC32 data)) = Val None.
Proof.
  intros data Hmax. destruct (frame_split data) as (Hsz & Htake & Hcrc).
  destruct (read_sizes tn [] md) as (s1 & s2 & Hr1 & Hr2 & _); [done|].
  fold data in Hr1, Hr2.
  assert (max_frame = 67108864) by reflexivity. pose proof (zlen_nonneg data).
  unfold read_frame. rewrite Hsz, Htake, Hcrc, Z.eqb_refl. simpl negb. cbv iota zeta.
  rewrite i32_small by lia. change (Z.shiftl 64 20) with max_frame.
  by rewrite Hr1, Hr2.
Qed.

Lemma read_frame_data tn hd md :
  let data := frame_data tn hd md in
  0 < zlen tn -> 0 < zlen hd -> zlen data <= max_frame ->
  exists s, cis_at s data (zlen data - zlen md) max_frame /\
    read_frame (data ++ le32 (calculateCRC32 data)) =
      Val (Some {| fr_data := data; fr_type_name := tn; fr_header_data := hd; fr_stream := s |}).
Proof.
  intros data Htn Hhd Hmax. pose proof (frame_data_lengths tn hd md) as Hlen. fold data in Hlen.
  pose proof (zlen_nonneg md); pose proof (zlen_nonneg (WriteVarint32 (zlen hd))).
  pose proof (zlen_nonneg (WriteVarint32 (zlen tn))).
  assert (max_frame = 67108864) by reflexivity.
  destruct (frame_split data) as (Hsz & Htake & Hcrc).
  destruct (read_sizes tn hd md) as (s1 & s2 & Hr1 & Hr2 & Hs2); [done|].
  fold data in Hr1, Hr2, Hs2.
  destruct (cis_skip_ok s2 _ _ _ (zlen tn) Hs2) as (s3 & Hk1 & Hs3); [lia..|].
  destruct (cis_skip_ok s3 _ _ _ (zlen hd) Hs3) as (s4 & Hk2 & Hs4); [lia..|].
  exists s4. split.
  { by replace (zlen data - zlen md)
      with (zlen data - zlen tn - zlen hd - zlen md + zlen tn + zlen hd) by lia. }
  unfold read_frame. rewrite Hsz, Htake, Hcrc, Z.eqb_refl. simpl negb. cbv iota zeta.
  rewrite i32_small by lia. change (Z.shiftl 64 20) with max_frame. rewrite Hr1, Hr2.
  rewrite (cis_position _ _ _ _ Hs2), !u32_small, !i32_small by (unfold in_u32; lia).
  do 3 zif.
  set (W := WriteVarint32 (zlen hd) ++ WriteVarint32 (zlen tn)).
  assert (HW : zlen W = zlen data - zlen tn - zlen hd - zlen md)
    by (unfold W; rewrite zlen_app; lia).
  assert (Hd1 : data = W ++ tn ++ (hd ++ md)) by (unfold W; by rewrite <- app_assoc).
  assert (Hd2 : data = (W ++ tn) ++ hd ++ md) by (by rewrite Hd1, <- app_assoc).
  rewrite Hd1 at 1. rewrite read_region_app by lia. simpl obind. rewrite Hk1.
  rewrite Hd2 at 1. rewrite read_region_app by (rewrite ?zlen_app; lia). simpl obind.
  by rewrite Hk2.
Qed.

(** [encode] succeeds on frames that fit exactly when both serialisations do. *)
Lemma encode_inv (h : IMHeader) (m : M) frame :
  encode h m = Some frame -> zlen frame <= max_frame ->
  exists hd md, SerializeToString h = Some hd /\ SerializeToString m = Some md /\
    frame = frame_data (GetTypeName M) hd md
              ++ le32 (calculateCRC32 (frame_data (GetTypeName M) hd md)) /\
    zlen (frame_data (GetTypeName M) hd md) <= max_frame.
Proof.
  intros He Hmax. assert (max_frame = 67108864) by reflexivity.
  destruct (SerializeToString h) as [hd|] eqn:Hh; [|unfold encode in He; by rewrite Hh in He].
  destruct (SerializeToString m) as [md|] eqn:Hm;
    [|unfold encode in He; by rewrite Hh, Hm in He].
  exists hd, md. pose proof He as He'. unfold encode in He'. rewrite Hh, Hm in He'.
  injection He' as Hf. rewrite <- Hf in Hmax. revert Hmax. rewrite !zlen_app.
  intros Hmax. change (zlen (le32 _)) with 4 in Hmax.
  pose proof (zlen_nonneg hd); pose proof (zlen_nonneg md).
  pose proof (zlen_nonneg (GetTypeName M)).
  pose proof (zlen_nonneg (WriteVarint32 (u32 (zlen hd)))).
  pose proof (zlen_nonneg (WriteVarint32 (u32 (zlen (GetTypeName M))))).
  assert (in_u32 (zlen hd)) by (unfold in_u32; lia).
  assert (in_u32 (zlen (GetTypeName M))) by (unfold in_u32; lia).
  rewrite !u32_small in * by done. rewrite (encode_Some h m hd md) in He by done.
  injection He as <-. split_and!; try done. rewrite frame_data_lengths. lia.
Qed.

Lemma decode_data (h : IMHeader) (m m0 : M) hd md :
  let data := frame_data (GetTypeName M) hd md in
  SerializeToString h = Some hd -> SerializeToString m = Some md ->
  0 < zlen (GetTypeName M) -> 0 < zlen hd -> zlen data <= max_frame ->
  decode (data ++ le32 (calculateCRC32 data)) m0
  = Val (Some (h, match md with [] => m0 | _ => m end)).
Proof.
  intros data Hh Hm Htn Hhd Hmax. pose proof (zlen_nonneg data).
  assert (max_frame = 67108864) by reflexivity.
  destruct (read_frame_data (GetTypeName M) hd md) as (s & Hs & Hrf); [done..|].
  fold data in Hrf, Hs. unfold decode. rewrite Hrf. simpl obind. simpl fr_header_data.
  rewrite (parse_serialize _ _ Hh). cbv zeta. simpl.
  rewrite (cis_position _ _ _ _ Hs), i32_small by lia.
  rewrite (serialize_initialized _ _ Hh). simpl negb. cbv iota.
  destruct (decide (md = [])) as [->|Hne].
  { zif; [|done]. change (zlen []) with 0 in *. lia. }
  assert (0 < zlen md) by (destruct md; [done|unfold zlen; simpl; lia]).
  zif. assert (Hd : data = (WriteVarint32 (zlen hd) ++ WriteVarint32 (zlen (GetTypeName M))
    ++ GetTypeName M ++ hd) ++ md ++ []).
  { unfold data, frame_data. by rewrite app_nil_r, <- !app_assoc. }
  pose proof (f_equal zlen Hd) as Hz. rewrite zlen_app, app_nil_r in Hz.
  rewrite Hd at 1. rewrite read_region_app by lia. simpl obind.
  rewrite (parse_serialize _ _ Hm), (serialize_initialized _ _ Hm). simpl negb. cbv iota.
  rewrite bool_decide_eq_true_2 by done. by destruct md.
Qed.

Lemma decodeEnvelope_data (h : IMHeader) tn hd md :
  let data := frame_data tn hd md in
  SerializeToString h = Some hd -> 0 < zlen tn -> 0 < zlen hd -> zlen data <= max_frame ->
  decodeEnvelope (data ++ le32 (calculateCRC32 data)) = Val (Some (h, tn, md)).
Proof.
  intros data Hh Htn Hhd Hmax. pose proof (zlen_nonneg data); pose proof (zlen_nonneg md).
  assert (max_frame = 67108864) by reflexivity.
  destruct (read_frame_data tn hd md) as (s & Hs & Hrf); [done..|].
  fold data in Hrf, Hs. unfold decodeEnvelope. rewrite Hrf. simpl obind. simpl fr_header_data.
  rewrite (parse_serialize _ _ Hh), (serialize_initialized _ _ Hh). simpl negb. cbv iota zeta.
  simpl. rewrite (cis_position _ _ _ _ Hs), i32_small by lia.
  assert (Hd : data = (WriteVarint32 (zlen hd) ++ WriteVarint32 (zlen tn)
    ++ tn ++ hd) ++ md ++ []).
  { unfold data, frame_data. by rewrite app_nil_r, <- !app_assoc. }
  pose proof (f_equal zlen Hd) as Hz. rewrite zlen_app, app_nil_r in Hz.
  zif. rewrite Hd at 1. by rewrite read_region_app by lia.
Qed.

(** A frame whose checksum does not match is refused before anything is read. *)
Lemma read_frame_crc (input : bytes) :
  frame_crc_ok input = false -> read_frame input = Val None.
Proof.
  unfold frame_crc_ok, read_frame. cbv zeta. rewrite andb_false_iff, Nat.leb_gt.
  destruct (Nat.ltb_spec (length input) 4); [done|].
  intros [?|E]; [lia|]. by rewrite E.
Qed.

Lemma read_frame_crc_ok (input : bytes) : read_frame input <> Val None -> frame_crc_ok input = true.
Proof.
  intros Hn. destruct (frame_crc_ok input) eqn:E; [done|]. by apply read_frame_crc in E.
Qed.

End Laws.

(** * Properties *)

Section Properties.
Context {S : Type} `{CodedLaws S} `{ProtoLaws IMHeader}.

(** C6: a frame written by encode is read back by both decoders.  Whenever encode
    succeeds on a header that serialises to at least one byte and the frame fits the
    64 MiB read limit, decode returns the header and the message (or leaves the
    caller's object as it was when the message serialises to nothing), and
    decodeEnvelope returns the header, the full type name and the raw body. *)
Theorem decode_encode {M} `{ProtoLaws M} (h : IMHeader) (m m0 : M) (frame hd : bytes) :
  0 < zlen (GetTypeName M) ->
  SerializeToString h = Some hd -> 0 < zlen hd ->
  encode h m = Some frame -> zlen frame <= max_frame ->
  exists md, SerializeToString m = Some md /\
    decode frame m0 = Val (Some (h, match md with [] => m0 | _ => m end)) /\
    decodeEnvelope frame = Val (Some (h, GetTypeName M, md)).
Proof.
  intros Htn Hh Hhd He Hmax.
  destruct (encode_inv h m frame He Hmax) as (hd' & md & Hh' & Hm & -> & Hd).
  assert (hd' = hd) as -> by congruence.
  exists md. split_and!; [done|by apply decode_data|by apply decodeEnvelope_data].
Qed.

(** C7: corruption is refused.  If either decoder does anything but return false on a
    frame, then on every frame that differs from it only within four consecutive bytes
    both decoders return false, and neither reads out of bounds. *)
Theorem decoders_reject_bursts {M} `{ProtoMessage M} (pre mid mid' post : bytes) (m0 : M) :
  length mid = length mid' -> (length mid <= 4)%nat -> mid <> mid' ->
  decode (pre ++ mid ++ post) m0 <> Val None \/ decodeEnvelope (pre ++ mid ++ post) <> Val None ->
  decode (pre ++ mid' ++ post) m0 = Val None /\ decodeEnvelope (pre ++ mid' ++ post) = Val None.
Proof.
  intros Hl H4' Hne Hacc.
  assert (Hok : frame_crc_ok (pre ++ mid ++ post) = true).
  { apply read_frame_crc_ok. intros Hn. unfold decode, decodeEnvelope in Hacc.
    rewrite Hn in Hacc. destruct Hacc as [Ha|Ha]; by apply Ha. }
  pose proof (crc_detects_bursts _ _ _ _ Hl H4' Hne Hok) as Hbad.
  unfold decode, decodeEnvelope. by rewrite (read_frame_crc _ Hbad).
Qed.

(** The two sizes of [input] do not wrap when added as [uint32_t]. *)
Definition sizes_fit (input : bytes) : Prop :=
  forall hs s1 ts s2,
    let data := take (length input - 4) input in
    ReadVarint32 (SetTotalBytesLimit max_frame (cis_open data (zlen data))) = Some (hs, s1) ->
    ReadVarint32 s1 = Some (ts, s2) -> hs + ts < 2 ^ 32.

Lemma read_region_in_bounds buf p n :
  0 <= p -> 0 <= n -> p + n <= zlen buf -> exists r, read_region buf p n = Val r.
Proof. intros. unfold read_region. zif. eauto. Qed.

(** Reading the frame prefix stays in bounds, and leaves the stream inside the data. *)
Lemma read_frame_in_bounds input :
  zlen input < 2 ^ 31 -> sizes_fit input ->
  exists r, read_frame input = Val r /\
    (forall fr, r = Some fr -> zlen (fr_data fr) < 2 ^ 31 /\
       exists p, cis_at (fr_stream fr) (fr_data fr) p max_frame).
Proof.
  intros Hlen Hfit. unfold read_frame.
  destruct (length input <? 4)%nat eqn:E4; [by exists None|]. apply Nat.ltb_ge in E4.
  cbv zeta. set (data := take (length input - 4) input).
  assert (Hd : zlen data < 2 ^ 31).
  { unfold data, zlen in *. rewrite length_take. lia. }
  pose proof (zlen_nonneg data). rewrite i32_small by lia.
  destruct (negb _); [by exists None|]. change (Z.shiftl 64 20) with max_frame.
  assert (Hs : cis_at (SetTotalBytesLimit max_frame (cis_open data (zlen data))) data 0 max_frame).
  { eapply cis_limit_at; [by apply cis_open_at|done]. }
  destruct (ReadVarint32 _) as [[hs s1]|] eqn:E1; [|by exists None].
  destruct (cis_read_at _ _ _ _ _ _ Hs E1) as [Hhs [p1 Hs1]].
  destruct (ReadVarint32 s1) as [[ts s2]|] eqn:E2; [|by exists None].
  destruct (cis_read_at _ _ _ _ _ _ Hs1 E2) as [Hts [p2 Hs2]].
  specialize (Hfit hs s1 ts s2 E1 E2). unfold in_u32 in *.
  rewrite (cis_position _ _ _ _ Hs2). pose proof (cis_bounds _ _ _ _ Hs2).
  destruct (hs =? 0) eqn:?; [by exists None|]. destruct (ts =? 0) eqn:?; [by exists None|]. zbool.
  rewrite !u32_small by (unfold in_u32; lia).
  destruct (_ <? _) eqn:Esz; [by exists None|]. zbool.
  destruct (read_region_in_bounds data p2 ts) as [tn ->]; [lia..|]. simpl.
  destruct (Skip (i32 ts) s2) as [s3|] eqn:E3; [|by exists None].
  rewrite i32_small in E3 by lia. destruct (cis_skip_at _ _ _ _ _ _ Hs2 E3) as (_ & _ & Hs3).
  destruct (read_region_in_bounds data (p2 + ts) hs) as [hd ->]; [lia..|]. simpl.
  destruct (Skip (i32 hs) s3) as [s4|] eqn:E5; [|by exists None].
  rewrite i32_small in E5 by lia. destruct (cis_skip_at _ _ _ _ _ _ Hs3 E5) as (_ & _ & Hs4).
  eexists; split; [done|]. intros fr [= <-]. simpl. eauto.
Qed.

(** Memory safety.  On any input below 2 GiB whose two size fields do not wrap
    around when added as uint32_t, neither decoder reads outside its buffer, whatever
    the bytes are. *)
Theorem decoders_in_bounds {M} `{ProtoMessage M} (input : bytes) (m0 : M) :
  zlen input < 2 ^ 31 -> sizes_fit input ->
  decode input m0 <> OutOfBounds /\ decodeEnvelope input <> OutOfBounds.
Proof.
  intros Hlen Hfit. destruct (read_frame_in_bounds input Hlen Hfit) as (r & Hr & Hb).
  unfold decode, decodeEnvelope. rewrite Hr. simpl obind.
  destruct r as [fr|]; [|done]. destruct (Hb fr eq_refl) as (Hd & p & Hp).
  pose proof (zlen_nonneg (fr_data fr)). pose proof (cis_bounds _ _ _ _ Hp).
  destruct (ParseFromArray (fr_header_data fr)) as [h|]; [|done]. cbv zeta.
  rewrite (cis_position _ _ _ _ Hp), i32_small by lia. split.
  - destruct (0 <? _) eqn:?; zbool; [|by destruct (negb _)].
    destruct (read_region_in_bounds (fr_data fr) p (zlen (fr_data fr) - p)) as [body ->]; [lia..|].
    simpl. destruct (ParseFromArray body); [|done]. by repeat destruct (negb _).
  - destruct (negb _); [done|]. zif.
    destruct (read_region_in_bounds (fr_data fr) p (zlen (fr_data fr) - p)) as [body ->]; [lia..|].
    done.
Qed.

(** C27: the size check wraps around.  A frame with a correct checksum whose header_size
    is 2^32-1 and whose type_name_size is 2 passes the check
    header_size + type_name_size > remaining_bytes (the uint32_t sum is 1), and both
    decoders then read the header far outside the buffer. *)
Theorem size_check_overflow {M} `{ProtoMessage M} (rest : bytes) (m0 : M) :
  let data := WriteVarint32 (2 ^ 32 - 1) ++ WriteVarint32 2 ++ rest in
  let frame := data ++ le32 (calculateCRC32 data) in
  2 <= zlen rest -> zlen data <= max_frame ->
  decode frame m0 = OutOfBounds /\ decodeEnvelope frame = OutOfBounds.
Proof.
  intros data frame Hrest Hmax. subst frame. assert (max_frame = 67108864) by reflexivity.
  enough (Hrf : read_frame (data ++ le32 (calculateCRC32 data)) = OutOfBounds)
    by (unfold decode, decodeEnvelope; by rewrite Hrf).
  destruct (frame_split data) as (Hsz & Htake & Hcrc).
  assert (Hz : zlen data = zlen (WriteVarint32 (2 ^ 32 - 1)) + zlen (WriteVarint32 2) + zlen rest)
    by (unfold data; rewrite !zlen_app; lia).
  pose proof (zlen_nonneg (WriteVarint32 (2 ^ 32 - 1))). pose proof (zlen_nonneg (WriteVarint32 2)).
  set (s := SetTotalBytesLimit max_frame (cis_open data (zlen data))).
  assert (Hs : cis_at s data 0 max_frame).
  { eapply cis_limit_at; [apply cis_open_at; lia|lia]. }
  destruct (cis_read_written s [] (2 ^ 32 - 1) (WriteVarint32 2 ++ rest) max_frame)
    as (s1 & Hr1 & Hs1); [exact Hs|unfold in_u32; lia|change (zlen []) with 0; lia|].
  destruct (cis_read_written s1 (WriteVarint32 (2 ^ 32 - 1)) 2 rest max_frame)
    as (s2 & Hr2 & Hs2); [exact Hs1|unfold in_u32; lia|lia|]. fold data in Hs2.
  destruct (cis_skip_ok s2 _ _ _ 2 Hs2) as (s3 & Hk & Hs3); [lia..|].
  unfold read_frame. rewrite Hsz, Htake, Hcrc, Z.eqb_refl. simpl negb. cbv iota zeta.
  rewrite i32_small by lia. change (Z.shiftl 64 20) with max_frame. fold s. rewrite Hr1, Hr2.
  change (2 ^ 32 - 1 =? 0) with false. change (2 =? 0) with false. cbv iota.
  rewrite (cis_position _ _ _ _ Hs2). change (u32 (2 ^ 32 - 1 + 2)) with 1.
  rewrite u32_small by (unfold in_u32; lia). zif.
  destruct (read_region_in_bounds data
    (zlen (WriteVarint32 (2 ^ 32 - 1)) + zlen (WriteVarint32 2)) 2) as [tn ->]; [lia..|].
  simpl obind. change (i32 2) with 2. rewrite Hk.
  unfold read_region. zif. done.
Qed.

(** The two ways an encoded frame is not read back as what was encoded.  A header
    that serialises to nothing (all fields default) is encoded without complaint, but
    the frame is refused by both decoders; and the type check is skipped when the body
    is empty: a frame written for a message of class [M1] that serialises to nothing
    decodes successfully at every other class [M2], whatever its type name. *)
Theorem encode_edge_cases {M1 M2} `{ProtoLaws M1} `{ProtoLaws M2}
    (h : IMHeader) (m : M1) (m0 : M2) (frame hd md : bytes) :
  0 < zlen (GetTypeName M1) ->
  SerializeToString h = Some hd -> SerializeToString m = Some md ->
  encode h m = Some frame -> zlen frame <= max_frame ->
  (hd = [] -> decode frame m0 = Val None /\ decodeEnvelope frame = Val None) /\
  (hd <> [] -> md = [] -> decode frame m0 = Val (Some (h, m0))).
Proof.
  intros Htn Hh Hm He Hmax.
  destruct (encode_inv h m frame He Hmax) as (hd' & md' & Hh' & Hm' & -> & Hd).
  assert (hd' = hd) as -> by congruence. assert (md' = md) as -> by congruence. split.
  - intros ->. pose proof (read_frame_empty_header (GetTypeName M1) md Hd) as Hr.
    unfold decode, decodeEnvelope. by rewrite Hr.
  - intros Hne ->. assert (Hhd : 0 < zlen hd) by (destruct hd; [done|unfold zlen; simpl; lia]).
    destruct (read_frame_data (GetTypeName M1) hd []) as (s & Hs & Hr); [done..|].
    unfold decode. rewrite Hr. simpl obind. simpl fr_header_data.
    rewrite (parse_serialize _ _ Hh), (serialize_initialized _ _ Hh). cbv zeta. simpl.
    rewrite (cis_position _ _ _ _ Hs). change (zlen []) with 0.
    assert (max_frame = 67108864) by reflexivity.
    pose proof (zlen_nonneg (frame_data (GetTypeName M1) hd [])).
    rewrite i32_small by lia. by zif.
Qed.

(** Every error response the codec builds is a readable frame.  When the response
    header is not empty and the frame fits, decoding buildErrorResponse as a
    BaseResponse yields the requested error code and message under a header that keeps
    the request's version, sequence number, token, device and platform, swaps the two
    uids, and carries CMD_SERVER_NOTIFY. *)
Theorem buildErrorResponse_decodes `{ProtoLaws BaseResponse} (req : IMHeader)
    (code : ErrorCode) (msg : string) (now : Z) (m0 : BaseResponse) (hd md : bytes) :
  let resp := {| error_code := ErrorCode_value code; error_message := msg; payload := [] |} in
  let frame := buildErrorResponse req code msg now in
  0 < zlen (GetTypeName BaseResponse) ->
  SerializeToString (returnHeaderBuilder req (device_id req) (platform req) now) = Some hd ->
  0 < zlen hd -> SerializeToString resp = Some md -> md <> [] -> zlen frame <= max_frame ->
  exists h, decode frame m0 = Val (Some (h, resp)) /\
    version h = version req /\ seq_ h = seq_ req /\ cmd_id h = CMD_SERVER_NOTIFY /\
    from_uid h = to_uid req /\ to_uid h = from_uid req /\ token h = token req /\
    device_id h = device_id req /\ platform h = platform req.
Proof.
  intros resp frame Htn Hh Hhd Hm Hmd. subst frame. unfold buildErrorResponse. fold resp.
  destruct (encode _ resp) as [frame|] eqn:He.
  2: { unfold encode in He. by rewrite Hh, Hm in He. }
  intros Hmax. exists (returnHeaderBuilder req (device_id req) (platform req) now).
  split; [|done]. destruct (encode_inv _ _ _ He Hmax) as (hd' & md' & Hh' & Hm' & -> & Hd).
  assert (hd' = hd) as -> by congruence. assert (md' = md) as -> by congruence.
  rewrite (decode_data _ _ m0 hd md Hh Hm Htn Hhd Hd). by destruct md.
Qed.

End Properties.

(** * A concrete runtime, and the properties at concrete frames *)

Module Reference.

#[export] Instance IMHeader_eq_dec : EqDecision IMHeader.
Proof. solve_decision. Defined.
#[export] Instance IMHeader_countable : Countable IMHeader.
Proof.
  refine (inj_countable
    (fun h => [countable.encode (version h); countable.encode (seq_ h); countable.encode (cmd_id h);
       countable.encode (from_uid h); countable.encode (to_uid h); countable.encode (timestamp h);
       countable.encode (token h); countable.encode (device_id h); countable.encode (platform h)])
    (fun l => match l with
       | [a; b; c; d; e; f; g; i; j] =>
           a ← countable.decode a; b ← countable.decode b; c ← countable.decode c; d ← countable.decode d;
           e ← countable.decode e; f ← countable.decode f; g ← countable.decode g; i ← countable.decode i;
           j ← countable.decode j; Some (Build_IMHeader a b c d e f g i j)
       | _ => None
       end) _).
  intros []. cbn beta iota. rewrite !countable.decode_encode. reflexivity.
Defined.
#[export] Instance byte_countable : Countable byte.
Proof.
  refine (inj_countable' bz zb _). apply zb_bz.
Defined.
#[export] Instance BaseResponse_eq_dec : EqDecision BaseResponse.
Proof. solve_decision. Defined.
#[export] Instance BaseResponse_countable : Countable BaseResponse.
Proof.
  refine (inj_countable' (fun r => (error_code r, error_message r, payload r))
    (fun '(a, b, c) => Build_BaseResponse a b c) _).
  by intros [].
Defined.

Definition header0 : IMHeader := Build_IMHeader "" 0 0 "" "" 0 "" "" "".
Definition response0 : BaseResponse := Build_BaseResponse 0 "" [].
Definition text0 : string := "".

#[export] Instance header_proto : ProtoMessage IMHeader :=
  AnyProto.proto (String.list_byte_of_string "im.base.IMHeader") header0.
#[export] Instance response_proto : ProtoMessage BaseResponse :=
  AnyProto.proto (String.list_byte_of_string "im.base.BaseResponse") response0.
(** A second message class, for frames of the wrong type. *)
#[export] Instance text_proto : ProtoMessage string :=
  AnyProto.proto (String.list_byte_of_string "im.test.Text") text0.

#[export] Instance header_laws : ProtoLaws IMHeader.
Proof. apply AnyProto.proto_laws. Defined.
#[export] Instance response_laws : ProtoLaws BaseResponse.
Proof. apply AnyProto.proto_laws. Defined.
#[export] Instance text_laws : ProtoLaws string.
Proof. apply AnyProto.proto_laws. Defined.

Definition header1 : IMHeader := Build_IMHeader "1.0" 7 2001 "alice" "bob" 1000 "tok" "dev" "web".
Definition encode_ok (o : option bytes) : bytes := match o with Some f => f | None => [] end.

End Reference.

Section Witnesses.
Import Reference.
#[local] Existing Instances Leb128.output Leb128.input Leb128.laws.

Lemma decode_encode_witness :
  let frame := encode_ok (encode header1 "hi") in
  exists md, SerializeToString (M := string) "hi" = Some md /\
    decode (S := Leb128.stream) frame text0 = Val (Some (header1, match md with [] => text0 | _ => "hi" end)) /\
    decodeEnvelope (S := Leb128.stream) frame = Val (Some (header1, GetTypeName string, md)).
Proof.
  eapply decode_encode; [vm_compute; reflexivity|reflexivity|vm_compute; reflexivity
    |vm_compute; reflexivity|vm_compute; discriminate].
Defined.

Lemma decoders_reject_bursts_witness :
  let frame := encode_ok (encode header1 "hi") in
  let bad := take 5 frame ++ [x7f; x7e] ++ drop 7 frame in
  decode (S := Leb128.stream) bad text0 = Val None /\ decodeEnvelope (S := Leb128.stream) bad = Val None.
Proof.
  cbv zeta.
  apply (decoders_reject_bursts _ (take 2 (drop 5 (encode_ok (encode header1 "hi"))))).
  - vm_compute; reflexivity.
  - apply Nat.leb_le. vm_compute. reflexivity.
  - vm_compute. discriminate.
  - left. vm_compute. discriminate.
Defined.

Lemma decoders_in_bounds_witness :
  let frame := encode_ok (encode header1 "hi") in
  decode (S := Leb128.stream) frame text0 <> OutOfBounds /\
  decodeEnvelope (S := Leb128.stream) frame <> OutOfBounds.
Proof.
  apply decoders_in_bounds; [vm_compute; reflexivity|].
  intros hs s1 ts s2 data H1 H2. vm_compute in H1. injection H1 as <- <-.
  vm_compute in H2. injection H2 as <- <-. reflexivity.
Defined.

Lemma size_check_overflow_witness :
  let data := WriteVarint32 (2 ^ 32 - 1) ++ WriteVarint32 2 ++ [x41; x42; x43] in
  let frame := data ++ le32 (calculateCRC32 data) in
  decode (S := Leb128.stream) frame text0 = OutOfBounds /\
  decodeEnvelope (S := Leb128.stream) frame = OutOfBounds.
Proof. apply size_check_overflow; vm_compute; discriminate. Defined.

Lemma encode_edge_cases_witness :
  let frame0 := encode_ok (encode header0 "hi") in
  let frame1 := encode_ok (encode header1 response0) in
  (decode (S := Leb128.stream) frame0 text0 = Val None /\
   decodeEnvelope (S := Leb128.stream) frame0 = Val None) /\
  decode (S := Leb128.stream) frame1 "mine" = Val (Some (header1, "mine")).
Proof.
  split.
  - eapply (encode_edge_cases (M1 := string) (M2 := string) header0 "hi");
      [vm_compute; reflexivity|reflexivity|reflexivity|vm_compute; reflexivity
      |vm_compute; discriminate|reflexivity].
  - eapply (encode_edge_cases (M1 := BaseResponse) (M2 := string) header1 response0);
      [vm_compute; reflexivity|reflexivity|reflexivity|vm_compute; reflexivity
      |vm_compute; discriminate|vm_compute; discriminate|reflexivity].
Defined.

Lemma buildErrorResponse_decodes_witness :
  exists h, decode (S := Leb128.stream)
      (buildErrorResponse header1 AUTH_FAILED "Authentication failed" 1234) response0
    = Val (Some (h, Build_BaseResponse 2 "Authentication failed" [])) /\ to_uid h = "alice".
Proof.
  edestruct (buildErrorResponse_decodes (S := Leb128.stream) header1 AUTH_FAILED
    "Authentication failed" 1234 response0) as (h & Hd & _ & _ & _ & _ & Hto & _);
    [vm_compute; reflexivity|reflexivity|vm_compute; reflexivity|reflexivity
    |vm_compute; discriminate|vm_compute; discriminate|].
  exists h. split; [exact Hd|exact Hto].
Defined.

End Witnesses.
