(* ===== verification/TcpSession.v ===== *)
(** The TCP session of [common/network/tcp_session.cpp]: length-prefixed framing,
    the bounded send queue, heartbeats and close.

    Each member function and each completion handler is a function on the session
    state; [on_event] dispatches them.  Boost.Asio appears only as the source of
    events: a completion handler runs when its operation was started, an [async_read]
    of [n] bytes completes with exactly [n] bytes or an error.  Ghost fields record
    what was handed to the socket and to the callbacks. *)
From S2P Require Import Prelude.

(** * Data *)

(** [enum class HeaderMsgType] of [common/utils/global.hpp]. *)
Inductive HeaderMsgType := NORMAL | PING | PONG | UNKNOWN | ENUM_END.

Definition msg_type_value (t : HeaderMsgType) : Z :=
  match t with NORMAL => 0 | PING => 1 | PONG => 2 | UNKNOWN => 3 | ENUM_END => 4 end.

Definition HEADER_SIZE : nat := 5.
Definition max_body_length : Z := 10 * 1024 * 1024.
Definition max_send_queue_size : nat := 1024.

Inductive read_op := ReadHeader | ReadBody (length : Z).

Record TCPSession := {
  socket_open : bool;
  body_buffer_size : Z;
  send_queue : list bytes;
  heartbeat_armed : bool;
  read_timeout_armed : bool;
  message_handler : bool;          (* a handler is set *)
  close_callback : bool;           (* a callback is set *)
  pending_read : option read_op;   (* the outstanding async_read *)
  writes_outstanding : nat;        (* async_write calls of do_write not yet completed *)
  (* ghosts *)
  wire : list bytes;               (* frames do_write handed to async_write, in order *)
  control : list bytes;            (* frames send_heartbeat handed to async_write *)
  delivered : list bytes;          (* arguments of message_handler_ *)
  close_calls : nat                (* invocations of close_callback_ *)
}.

(** What an operation reports: success with a value, or an error code. *)
Inductive completion (A : Type) := Done (a : A) | Failed.
Arguments Done {A} a.
Arguments Failed {A}.

Inductive event :=
| EvStart
| EvSend (message : bytes)
| EvClose
| EvHeader (c : completion bytes)
| EvBody (c : completion bytes)
| EvWrite (c : completion unit)
| EvControlWrite (c : completion unit)
| EvHeartbeatTimer (cancelled : bool)
| EvReadTimeout (cancelled : bool).

(** * Field updates *)

Definition set_read (r : option read_op) (s : TCPSession) : TCPSession :=
  {| socket_open := socket_open s; body_buffer_size := body_buffer_size s;
     send_queue := send_queue s; heartbeat_armed := heartbeat_armed s;
     read_timeout_armed := read_timeout_armed s; message_handler := message_handler s;
     close_callback := close_callback s; pending_read := r;
     writes_outstanding := writes_outstanding s; wire := wire s; control := control s;
     delivered := delivered s; close_calls := close_calls s |}.

Definition set_timers (hb rt : bool) (s : TCPSession) : TCPSession :=
  {| socket_open := socket_open s; body_buffer_size := body_buffer_size s;
     send_queue := send_queue s; heartbeat_armed := hb; read_timeout_armed := rt;
     message_handler := message_handler s; close_callback := close_callback s;
     pending_read := pending_read s; writes_outstanding := writes_outstanding s;
     wire := wire s; control := control s; delivered := delivered s;
     close_calls := close_calls s |}.

Definition set_sending (q : list bytes) (n : nat) (w : list bytes) (s : TCPSession) : TCPSession :=
  {| socket_open := socket_open s; body_buffer_size := body_buffer_size s;
     send_queue := q; heartbeat_armed := heartbeat_armed s;
     read_timeout_armed := read_timeout_armed s; message_handler := message_handler s;
     close_callback := close_callback s; pending_read := pending_read s;
     writes_outstanding := n; wire := w; control := control s; delivered := delivered s;
     close_calls := close_calls s |}.

Definition add_control (f : bytes) (s : TCPSession) : TCPSession :=
  {| socket_open := socket_open s; body_buffer_size := body_buffer_size s;
     send_queue := send_queue s; heartbeat_armed := heartbeat_armed s;
     read_timeout_armed := read_timeout_armed s; message_handler := message_handler s;
     close_callback := close_callback s; pending_read := pending_read s;
     writes_outstanding := writes_outstanding s; wire := wire s;
     control := control s ++ [f]; delivered := delivered s; close_calls := close_calls s |}.

Definition set_body (size : Z) (d : list bytes) (s : TCPSession) : TCPSession :=
  {| socket_open := socket_open s; body_buffer_size := size; send_queue := send_queue s;
     heartbeat_armed := heartbeat_armed s; read_timeout_armed := read_timeout_armed s;
     message_handler := message_handler s; close_callback := close_callback s;
     pending_read := pending_read s; writes_outstanding := writes_outstanding s;
     wire := wire s; control := control s; delivered := d; close_calls := close_calls s |}.

Definition set_closed (calls : nat) (s : TCPSession) : TCPSession :=
  {| socket_open := false; body_buffer_size := body_buffer_size s; send_queue := send_queue s;
     heartbeat_armed := false; read_timeout_armed := false;
     message_handler := message_handler s; close_callback := close_callback s;
     pending_read := pending_read s; writes_outstanding := writes_outstanding s;
     wire := wire s; control := control s; delivered := delivered s; close_calls := calls |}.

(** * The member functions *)

(** [TCPSession::TCPSession] on an open socket, with the callbacks installed. *)
Definition new_session (handler callback : bool) : TCPSession :=
  {| socket_open := true; body_buffer_size := max_body_length; send_queue := [];
     heartbeat_armed := false; read_timeout_armed := false; message_handler := handler;
     close_callback := callback; pending_read := None; writes_outstanding := 0;
     wire := []; control := []; delivered := []; close_calls := 0 |}.

(** [TCPSession::close]. *)
Definition close (s : TCPSession) : TCPSession :=
  if socket_open s
  then set_closed (if close_callback s then S (close_calls s) else close_calls s) s
  else s.

(** [TCPSession::handle_error]. *)
Definition handle_error (s : TCPSession) : TCPSession := close s.

(** The bytes of one message as [do_write] lays them out: length in network byte
    order, one type byte, the message. *)
Definition message_frame (m : bytes) : bytes :=
  be32 (u32 (zlen m)) ++ [zb (msg_type_value NORMAL)] ++ m.

(** The bytes of a heartbeat: [uint32_t length = 0] and the type byte. *)
Definition control_frame (t : HeaderMsgType) : bytes := le32 0 ++ [zb (msg_type_value t)].

(** [TCPSession::do_write]; calling it on an empty queue would read the front of an
    empty deque. *)
Definition do_write (s : TCPSession) : TCPSession :=
  match send_queue s with
  | [] => s
  | message :: _ =>
      set_sending (send_queue s) (S (writes_outstanding s)) (wire s ++ [message_frame message]) s
  end.

(** The completion handler of [do_write]. *)
Definition on_write (c : completion unit) (s : TCPSession) : TCPSession :=
  let s := set_sending (send_queue s) (pred (writes_outstanding s)) (wire s) s in
  match c with
  | Failed => handle_error s
  | Done _ =>
      let s := set_sending (tail (send_queue s)) (writes_outstanding s) (wire s) s in
      match send_queue s with [] => s | _ => do_write s end
  end.

(** The function [TCPSession::send] posts to the executor. *)
Definition send (msg : bytes) (s : TCPSession) : TCPSession :=
  if (max_send_queue_size <=? length (send_queue s))%nat then s else
  let write_in_progress := match send_queue s with [] => false | _ => true end in
  let s := set_sending (send_queue s ++ [msg]) (writes_outstanding s) (wire s) s in
  if write_in_progress then s else do_write s.

(** [TCPSession::send_heartbeat]. *)
Definition send_heartbeat (t : HeaderMsgType) (s : TCPSession) : TCPSession :=
  match t with
  | PING | PONG => add_control (control_frame t) s
  | _ => s
  end.

(** [TCPSession::reset_read_timeout] and the handler of its timer. *)
Definition reset_read_timeout (s : TCPSession) : TCPSession :=
  set_timers (heartbeat_armed s) true s.

Definition on_read_timeout (cancelled : bool) (s : TCPSession) : TCPSession :=
  if cancelled then s else if negb (socket_open s) then s else close s.

(** [TCPSession::start_heartbeat] and the handler of its timer. *)
Definition start_heartbeat (s : TCPSession) : TCPSession :=
  set_timers true (read_timeout_armed s) s.

Definition on_heartbeat_timer (cancelled : bool) (s : TCPSession) : TCPSession :=
  if cancelled then s else if negb (socket_open s) then s else
  start_heartbeat (send_heartbeat PING s).

Definition handle_pong (s : TCPSession) : TCPSession := reset_read_timeout s.

(** [TCPSession::do_read_header] and [TCPSession::do_read_body]. *)
Definition do_read_header (s : TCPSession) : TCPSession :=
  set_read (Some ReadHeader) (reset_read_timeout s).

Definition do_read_body (length : Z) (s : TCPSession) : TCPSession :=
  let s := reset_read_timeout s in
  let s := set_body (Z.max (body_buffer_size s) length) (delivered s) s in
  set_read (Some (ReadBody length)) s.

(** The completion handler of [do_read_header]: [header] is the filled [header_]. *)
Definition on_read_header (c : completion bytes) (s : TCPSession) : TCPSession :=
  let s := set_timers (heartbeat_armed s) false (set_read None s) in
  match c with
  | Failed => handle_error s
  | Done header =>
      let body_length := be_combine (take 4 header) in
      let msg_type := bz (nth 4 header x00) in
      if max_body_length <? body_length then close s else
      if msg_type =? msg_type_value NORMAL then do_read_body body_length s
      else if msg_type =? msg_type_value PING then do_read_header (send_heartbeat PONG s)
      else if msg_type =? msg_type_value PONG then do_read_header (handle_pong s)
      else close s
  end.

(** The completion handler of [do_read_body]. *)
Definition on_read_body (c : completion bytes) (s : TCPSession) : TCPSession :=
  let s := set_timers (heartbeat_armed s) false (set_read None s) in
  match c with
  | Failed => handle_error s
  | Done message =>
      let s := if message_handler s
               then set_body (body_buffer_size s) (delivered s ++ [message]) s else s in
      do_read_header s
  end.

(** [TCPSession::start] (setting the socket option succeeds). *)
Definition start (s : TCPSession) : TCPSession :=
  if socket_open s then do_read_header (start_heartbeat s) else s.

(** * The event loop *)

(** One handler run.  [None]: the event cannot occur in this state, its operation is
    not outstanding, or the data has not the length the read asked for. *)
Definition on_event (e : event) (s : TCPSession) : option TCPSession :=
  match e with
  | EvStart => Some (start s)
  | EvSend m => Some (send m s)
  | EvClose => Some (close s)
  | EvHeader c =>
      match pending_read s, c with
      | Some ReadHeader, Done h =>
          if (length h =? HEADER_SIZE)%nat then Some (on_read_header c s) else None
      | Some ReadHeader, Failed => Some (on_read_header c s)
      | _, _ => None
      end
  | EvBody c =>
      match pending_read s, c with
      | Some (ReadBody n), Done b => if zlen b =? n then Some (on_read_body c s) else None
      | Some (ReadBody _), Failed => Some (on_read_body c s)
      | _, _ => None
      end
  | EvWrite c => if (0 <? writes_outstanding s)%nat then Some (on_write c s) else None
  | EvControlWrite (Done _) => Some s
  | EvControlWrite Failed => Some (handle_error s)
  | EvHeartbeatTimer cancelled => Some (on_heartbeat_timer cancelled s)
  | EvReadTimeout cancelled => Some (on_read_timeout cancelled s)
  end.

(** Sessions reachable from a fresh one, with the messages [send] accepted. *)
Inductive reachable (handler callback : bool) : list bytes -> TCPSession -> Prop :=
| reach_new : reachable handler callback [] (new_session handler callback)
| reach_event e acc s s' :
    reachable handler callback acc s -> on_event e s = Some s' ->
    reachable handler callback
      (match e with
       | EvSend m => if (max_send_queue_size <=? length (send_queue s))%nat then acc else acc ++ [m]
       | _ => acc
       end) s'.

(** ** The receive side on a byte stream

    [rx] holds the bytes the peer sent that no read has consumed.  A read completes as
    soon as enough of them are there. *)
Definition pump1 (c : TCPSession * bytes) : option (TCPSession * bytes) :=
  let '(s, rx) := c in
  match pending_read s with
  | Some ReadHeader =>
      if (HEADER_SIZE <=? length rx)%nat
      then Some (on_read_header (Done (take HEADER_SIZE rx)) s, drop HEADER_SIZE rx) else None
  | Some (ReadBody n) =>
      if n <=? zlen rx then Some (on_read_body (Done (ztake n rx)) s, zdrop n rx) else None
  | None => None
  end.

Fixpoint pump (fuel : nat) (c : TCPSession * bytes) : TCPSession * bytes :=
  match fuel with
  | O => c
  | S f => match pump1 c with Some c' => pump f c' | None => c end
  end.

(** New bytes arrive and every read that can complete does. *)
Definition receive (chunk : bytes) (c : TCPSession * bytes) : TCPSession * bytes :=
  let rx := snd c ++ chunk in pump (2 * length rx + 2) (fst c, rx).

(** The frames a peer running the same code sends. *)
Inductive frame := Msg (m : bytes) | Control (t : HeaderMsgType).

Definition frame_bytes (f : frame) : bytes :=
  match f with Msg m => message_frame m | Control t => control_frame t end.

Definition frame_wf (f : frame) : Prop :=
  match f with Msg m => zlen m <= max_body_length | Control t => t = PING \/ t = PONG end.

(** What the receiving side owes for the frames: the messages, and a PONG per PING. *)
Definition messages_of (fs : list frame) : list bytes :=
  flat_map (fun f => match f with Msg m => [m] | Control _ => [] end) fs.
Definition pongs_of (fs : list frame) : list bytes :=
  flat_map (fun f => match f with Control PING => [control_frame PONG] | _ => [] end) fs.

(** * The send side *)

(** The invariant of the send queue: [sent] are the messages whose write completed. *)
Record send_inv (acc : list bytes) (s : TCPSession) : Prop := {
  inv_fifo : exists sent, acc = sent ++ send_queue s /\
    wire s = map message_frame (sent ++ take 1 (send_queue s));
  inv_bound : (length (send_queue s) <= max_send_queue_size)%nat;
  inv_single : (writes_outstanding s <= 1)%nat;
  inv_front : (0 < writes_outstanding s)%nat -> send_queue s <> [];
  inv_active : socket_open s = true -> send_queue s <> [] -> writes_outstanding s = 1%nat
}.

(** Handlers that leave the sending fields alone, and can only close the socket. *)
Lemma send_inv_frame acc s s' :
  send_inv acc s -> send_queue s' = send_queue s -> wire s' = wire s ->
  writes_outstanding s' = writes_outstanding s ->
  (socket_open s' = true -> socket_open s = true) -> send_inv acc s'.
Proof.
  intros [Hf Hb H1 Hq Ha] Eq Ew Eo Ho. split; rewrite ?Eq, ?Ew, ?Eo; auto.
Qed.

Lemma close_send s :
  send_queue (close s) = send_queue s /\ wire (close s) = wire s /\
  writes_outstanding (close s) = writes_outstanding s /\ socket_open (close s) = false.
Proof. unfold close. by destruct (socket_open s) eqn:E. Qed.

Lemma send_inv_close acc s : send_inv acc s -> send_inv acc (close s).
Proof.
  intros Hi. destruct (close_send s) as (? & ? & ? & ?).
  eapply send_inv_frame; try done. congruence.
Qed.

Lemma on_read_header_send c s :
  let s' := on_read_header c s in
  send_queue s' = send_queue s /\ wire s' = wire s /\
  writes_outstanding s' = writes_outstanding s /\
  (socket_open s' = true -> socket_open s = true).
Proof.
  unfold on_read_header, handle_error, close. cbv zeta.
  destruct c as [h|]; repeat (case_match; simpl); split_and!; intros; simpl in *; congruence.
Qed.

Lemma on_read_body_send c s :
  let s' := on_read_body c s in
  send_queue s' = send_queue s /\ wire s' = wire s /\
  writes_outstanding s' = writes_outstanding s /\
  (socket_open s' = true -> socket_open s = true).
Proof.
  unfold on_read_body, handle_error, close. cbv zeta.
  destruct c as [h|]; repeat (case_match; simpl); split_and!; intros; simpl in *; congruence.
Qed.

Lemma send_inv_send acc s m :
  send_inv acc s ->
  send_inv (if (max_send_queue_size <=? length (send_queue s))%nat then acc else acc ++ [m])
    (send m s).
Proof.
  intros [(sent & Hacc & Hw) Hb H1 Hq Ha]. unfold send.
  destruct (Nat.leb_spec max_send_queue_size (length (send_queue s))) as [Hfull|Hfree].
  { split; eauto. }
  destruct (send_queue s) as [|f q] eqn:Eq; unfold do_write; simpl.
  - assert (writes_outstanding s = 0%nat).
    { destruct (writes_outstanding s) as [|n] eqn:Eo; [done|]. exfalso. by apply Hq; [lia|]. }
    split; simpl; try done; try lia.
    exists sent. rewrite Hacc, Hw, !app_nil_r, map_app. done.
  - split; simpl.
    + exists sent. rewrite Hacc, <- app_assoc. by rewrite Hw.
    + rewrite length_app. simpl in *. lia.
    + done.
    + done.
    + intros Ho _. by apply Ha.
Qed.

Lemma send_inv_on_write acc s c :
  (0 < writes_outstanding s)%nat -> send_inv acc s -> send_inv acc (on_write c s).
Proof.
  intros Hpos [(sent & Hacc & Hw) Hb H1 Hq Ha].
  specialize (Hq Hpos). destruct (send_queue s) as [|f q] eqn:Eq; [done|].
  assert (Ho : writes_outstanding s = 1%nat) by lia.
  unfold on_write. rewrite Eq. cbv zeta. destruct c as [u|]; simpl.
  - destruct q as [|g q]; unfold do_write; simpl; rewrite Ho; simpl.
    + split; simpl; try done; try lia. exists (sent ++ [f]).
      by rewrite Hacc, Hw, !app_nil_r.
    + split; simpl; try done; try lia; [|simpl in Hb; lia].
      exists (sent ++ [f]). rewrite Hacc, Hw, <- !app_assoc. split; [done|].
      simpl. by rewrite !map_app, <- app_assoc.
  - unfold handle_error, close. simpl. rewrite Ho.
    destruct (socket_open s) eqn:Eo; split; simpl; try done; try lia; eauto.
    intros. congruence.
Qed.

Lemma start_send s :
  let s' := start s in
  send_queue s' = send_queue s /\ wire s' = wire s /\
  writes_outstanding s' = writes_outstanding s /\
  (socket_open s' = true -> socket_open s = true).
Proof.
  unfold start. cbv zeta.
  destruct (socket_open s) eqn:?; simpl; split_and!; intros; congruence.
Qed.

Lemma on_heartbeat_timer_send b s :
  let s' := on_heartbeat_timer b s in
  send_queue s' = send_queue s /\ wire s' = wire s /\
  writes_outstanding s' = writes_outstanding s /\
  (socket_open s' = true -> socket_open s = true).
Proof.
  unfold on_heartbeat_timer. cbv zeta.
  destruct b, (socket_open s) eqn:?; simpl; split_and!; intros; congruence.
Qed.

Lemma send_inv_on_read_timeout acc s b : send_inv acc s -> send_inv acc (on_read_timeout b s).
Proof.
  intros Hi. unfold on_read_timeout. destruct b; [done|].
  destruct (negb _); [done|]. by apply send_inv_close.
Qed.

(** Closes the cases of an event whose handler does not touch the queue. *)
Ltac queue_untouched lem :=
  let E := fresh in
  pose proof lem as E; cbv zeta in E; destruct E as (? & ? & ? & ?); by eapply send_inv_frame.

Lemma reachable_send_inv handler callback acc s :
  reachable handler callback acc s -> send_inv acc s.
Proof.
  induction 1 as [|e acc s s' Hr IH He].
  { split; simpl; try done; try lia. by exists []. }
  destruct e; simpl in He; repeat (case_match; try done); simplify_eq;
    auto using send_inv_close, send_inv_on_read_timeout;
    try (match goal with |- context [send ?m s] => pose proof (send_inv_send acc s m IH) as Hs end;
         match goal with H : (max_send_queue_size <=? _)%nat = _ |- _ => by rewrite H in Hs end);
    try (apply send_inv_on_write; [by apply Nat.ltb_lt|done]).
  - queue_untouched (start_send s).
  - queue_untouched (on_read_header_send (Done a) s).
  - queue_untouched (on_read_header_send Failed s).
  - queue_untouched (on_read_body_send (Done a) s).
  - queue_untouched (on_read_body_send Failed s).
  - queue_untouched (on_heartbeat_timer_send cancelled s).
Qed.

(** * The receive side *)

Definition more (c : TCPSession * bytes) (m : bytes) : TCPSession * bytes := (fst c, snd c ++ m).

(** Bounds the handler runs a buffer can trigger. *)
Definition pump_measure (c : TCPSession * bytes) : nat :=
  2 * length (snd c) + match pending_read (fst c) with Some (ReadBody _) => 1 | _ => 0 end.

Lemma on_read_header_pending h s n :
  pending_read (on_read_header (Done h) s) = Some (ReadBody n) -> n = be_combine (take 4 h).
Proof.
  unfold on_read_header, close. cbv zeta. repeat (case_match; simpl); by intros [=].
Qed.

Lemma on_read_body_pending m s :
  pending_read (on_read_body (Done m) s) = Some ReadHeader.
Proof. unfold on_read_body. cbv zeta. by destruct (message_handler _). Qed.

Lemma pump1_measure c c' : pump1 c = Some c' -> (pump_measure c' < pump_measure c)%nat.
Proof.
  destruct c as [s rx]. unfold pump1, pump_measure.
  destruct (pending_read s) as [[|n]|] eqn:Ep; [| |done]; cbv beta iota delta [fst snd].
  - destruct (Nat.leb_spec HEADER_SIZE (length rx)); [|done]. intros Hs%Some_inj. subst c'.
    rewrite Ep, length_drop. unfold HEADER_SIZE in *.
    match goal with |- context [pending_read ?t] => destruct (pending_read t) as [[]|] end; lia.
  - destruct (Z.leb_spec n (zlen rx)); [|done]. intros Hs%Some_inj. subst c'.
    rewrite Ep, on_read_body_pending. unfold zdrop. rewrite length_drop. lia.
Qed.

Lemma pump1_more c c' m : pump1 c = Some c' -> pump1 (more c m) = Some (more c' m).
Proof.
  destruct c as [s rx]. unfold pump1, more. cbv beta iota delta [fst snd].
  destruct (pending_read s) as [[|n]|]; [| |done].
  - destruct (Nat.leb_spec HEADER_SIZE (length rx)) as [E|]; [|done]. intros Hs%Some_inj. subst c'.
    rewrite (proj2 (Nat.leb_le _ _)) by (rewrite length_app; lia).
    by rewrite take_app_le, drop_app_le by done.
  - destruct (Z.leb_spec n (zlen rx)) as [E|]; [|done]. intros Hs%Some_inj. subst c'.
    rewrite (proj2 (Z.leb_le _ _)) by (rewrite zlen_app; pose proof (zlen_nonneg m); lia).
    unfold ztake, zdrop, zlen in *. by rewrite take_app_le, drop_app_le by lia.
Qed.

Lemma pump_S f c c' : pump1 c = Some c' -> pump (S f) c = pump f c'.
Proof. intros E. simpl. by rewrite E. Qed.

(** Enough fuel reaches a state where every read waits for data. *)
Lemma pump_quiescent f c : (pump_measure c <= f)%nat -> pump1 (pump f c) = None.
Proof.
  revert c. induction f as [|f IH]; intros c Hf; simpl.
  - destruct (pump1 c) as [c'|] eqn:E; [|done]. apply pump1_measure in E. lia.
  - destruct (pump1 c) as [c'|] eqn:E; [|done]. apply pump1_measure in E. apply IH. lia.
Qed.

Lemma pump_stable f g c : (pump_measure c <= f)%nat -> (pump_measure c <= g)%nat -> pump f c = pump g c.
Proof.
  revert g c. induction f as [|f IH]; intros g c Hf Hg.
  - assert (E : pump1 c = None) by (apply (pump_quiescent 0); lia).
    destruct g; simpl; by rewrite ?E.
  - destruct g as [|g].
    + assert (E : pump1 c = None) by (apply (pump_quiescent 0); lia). simpl. by rewrite E.
    + simpl. destruct (pump1 c) as [c'|] eqn:E; [|done]. apply pump1_measure in E. apply IH; lia.
Qed.

(** Bytes that arrive later do not disturb the handlers that already ran. *)
Lemma pump_more f g c m :
  (pump_measure (more c m) <= f)%nat -> pump f (more c m) = pump f (more (pump g c) m).
Proof.
  revert f c. induction g as [|g IH]; intros f c Hf; [done|]. simpl.
  destruct (pump1 c) as [c'|] eqn:E; [|done].
  pose proof (pump1_more _ _ m E) as E'. pose proof (pump1_measure _ _ E').
  destruct f as [|f]; [lia|]. rewrite (pump_S f _ _ E').
  rewrite <- IH by lia. apply pump_stable; lia.
Qed.

Lemma receive_measure c chunk :
  (pump_measure (more c chunk) <= 2 * length (snd c ++ chunk) + 2)%nat.
Proof. unfold pump_measure, more. simpl. case_match; [case_match|]; lia. Qed.

Lemma pump_measure_le f c : (pump_measure (pump f c) <= pump_measure c)%nat.
Proof.
  revert c. induction f as [|f IH]; intros c; simpl; [done|].
  destruct (pump1 c) as [c'|] eqn:E; [|done]. apply pump1_measure in E.
  specialize (IH c'). lia.
Qed.

(** Chunk boundaries are invisible. *)
Lemma receive_app a b c : receive b (receive a c) = receive (a ++ b) c.
Proof.
  unfold receive. cbv zeta.
  set (F := (2 * length (snd c ++ a) + 2)%nat).
  change (fst c, snd c ++ a) with (more c a).
  set (d := pump F (more c a)).
  change (fst d, snd d ++ b) with (more d b).
  assert (Hc : (fst c, snd c ++ a ++ b) = more (more c a) b) by (unfold more; simpl; by rewrite app_assoc).
  rewrite Hc. rewrite (pump_more _ F (more c a) b).
  - fold d. apply pump_stable; [apply receive_measure|].
    etrans; [apply receive_measure|].
    assert (length (snd d) <= length (snd c ++ a))%nat; [|rewrite !length_app in *; lia].
    pose proof (pump_measure_le F (more c a)) as Hm. fold d in Hm.
    unfold pump_measure, more in Hm. simpl in Hm. repeat case_match; lia.
  - rewrite <- Hc. unfold pump_measure. simpl. case_match; [case_match|]; lia.
Qed.

Lemma receive_chunks chunks c :
  fold_left (fun c ch => receive ch c) chunks c =
  match chunks with [] => c | _ => receive (concat chunks) c end.
Proof.
  destruct chunks as [|ch chunks]; [done|]. simpl. revert ch.
  induction chunks as [|ch' chunks IH]; intros ch; simpl; [by rewrite app_nil_r|].
  rewrite receive_app, app_assoc. apply IH.
Qed.

(** ** One frame *)

Lemma header_fields n t m :
  in_u32 n ->
  let h := take HEADER_SIZE (be32 n ++ [zb t] ++ m) in
  length h = HEADER_SIZE /\ be_combine (take 4 h) = n /\ bz (nth 4 h x00) = u8 t /\
  drop HEADER_SIZE (be32 n ++ [zb t] ++ m) = m.
Proof.
  intros Hn. cbv zeta. unfold HEADER_SIZE. simpl. split_and!; try done.
  - exact (be_combine_be32 n Hn).
  - apply bz_zb.
Qed.

(** [s'] differs from [s] only in what was delivered and answered. *)
Definition owed (s s' : TCPSession) (msgs pongs : list bytes) : Prop :=
  delivered s' = delivered s ++ msgs /\ control s' = control s ++ pongs /\
  socket_open s' = socket_open s /\ message_handler s' = message_handler s /\
  pending_read s' = Some ReadHeader.

Lemma pump1_header s n t m :
  pending_read s = Some ReadHeader -> in_u32 n ->
  exists h, length h = HEADER_SIZE /\ be_combine (take 4 h) = n /\ bz (nth 4 h x00) = u8 t /\
    pump1 (s, be32 n ++ [zb t] ++ m) = Some (on_read_header (Done h) s, m).
Proof.
  intros Hp Hn. destruct (header_fields n t m Hn) as (Hl & Hb & Ht & Hd).
  eexists; split_and!; [exact Hl|exact Hb|exact Ht|].
  unfold pump1. rewrite Hp, Hd.
  rewrite (proj2 (Nat.leb_le _ _)); [done|]. unfold HEADER_SIZE. simpl. lia.
Qed.

Lemma pump1_body s n m rest :
  pending_read s = Some (ReadBody n) -> zlen m = n ->
  pump1 (s, m ++ rest) = Some (on_read_body (Done m) s, rest).
Proof.
  intros Hp Hn. unfold pump1. rewrite Hp, ztake_app, zdrop_app by done.
  rewrite (proj2 (Z.leb_le _ _)); [done|]. rewrite zlen_app. pose proof (zlen_nonneg rest). lia.
Qed.

(** Consuming one well-formed frame from the head of the buffer. *)
Lemma pump_frame f fr s rest :
  pending_read s = Some ReadHeader -> message_handler s = true -> frame_wf fr ->
  (pump_measure (s, frame_bytes fr ++ rest) <= f)%nat ->
  exists s', owed s s' (messages_of [fr]) (pongs_of [fr]) /\
    pump f (s, frame_bytes fr ++ rest) = pump f (s', rest).
Proof.
  intros Hp Hh Hwf Hf. destruct fr as [m|t]; simpl frame_bytes in *; simpl in Hwf.
  - unfold message_frame in *. rewrite <- app_assoc, <- app_assoc in *.
    pose proof (zlen_nonneg m). assert (Hmax : max_body_length = 10485760) by reflexivity.
    rewrite u32_small in * by (unfold in_u32; lia).
    destruct (pump1_header s (zlen m) (msg_type_value NORMAL) (m ++ rest) Hp)
      as (h & Hl & Hb & Ht & E); [unfold in_u32; lia|].
    pose proof (pump1_measure _ _ E). destruct f as [|[|f]]; [lia|unfold pump_measure in *; simpl in *; lia|].
    set (s1 := on_read_header (Done h) s) in *.
    assert (Hs1 : s1 = do_read_body (zlen m) (set_timers (heartbeat_armed s) false (set_read None s))).
    { unfold s1, on_read_header. rewrite Hb, Ht. by zif. }
    assert (E1 : pump1 (s1, m ++ rest) = Some (on_read_body (Done m) s1, rest)).
    { by apply (pump1_body _ (zlen m)); rewrite ?Hs1. }
    pose proof (pump1_measure _ _ E1).
    exists (on_read_body (Done m) s1). split.
    + unfold owed. rewrite on_read_body_pending. unfold on_read_body. rewrite Hs1. simpl.
      rewrite Hh. simpl. by rewrite app_nil_r.
    + rewrite (pump_S _ _ _ E), (pump_S _ _ _ E1). apply pump_stable; lia.
  - change (control_frame t) with (be32 0 ++ [zb (msg_type_value t)]) in *.
    rewrite <- app_assoc in *.
    destruct (pump1_header s 0 (msg_type_value t) rest Hp)
      as (h & Hl & Hb & Ht & E); [unfold in_u32; lia|].
    pose proof (pump1_measure _ _ E). destruct f as [|f]; [lia|].
    exists (on_read_header (Done h) s). split.
    + unfold on_read_header. rewrite Hb, Ht.
      destruct Hwf as [-> | ->]; unfold owed; simpl; by rewrite ?app_nil_r.
    + rewrite (pump_S _ _ _ E). apply pump_stable; lia.
Qed.

Lemma owed_trans s s1 s2 m1 p1 m2 p2 :
  owed s s1 m1 p1 -> owed s1 s2 m2 p2 -> owed s s2 (m1 ++ m2) (p1 ++ p2).
Proof.
  intros (D1 & C1 & O1 & H1 & P1) (D2 & C2 & O2 & H2 & P2). unfold owed.
  rewrite D2, C2, O2, H2, D1, C1, O1, H1, !app_assoc. done.
Qed.

Lemma pump_frames fs f s :
  pending_read s = Some ReadHeader -> message_handler s = true -> Forall frame_wf fs ->
  (pump_measure (s, concat (map frame_bytes fs)) <= f)%nat ->
  exists s', owed s s' (messages_of fs) (pongs_of fs) /\
    pump f (s, concat (map frame_bytes fs)) = (s', []).
Proof.
  revert s. induction fs as [|fr fs IH]; intros s Hp Hh Hwf Hf.
  - exists s. split; [by unfold owed; rewrite !app_nil_r|].
    assert (E : pump1 (s, []) = None) by (unfold pump1; by rewrite Hp). 
    destruct f; simpl; [done|]. simpl in E. by rewrite E.
  - simpl in *. inversion Hwf as [|? ? Hw1 Hw2]; subst.
    destruct (pump_frame f fr s (concat (map frame_bytes fs)) Hp Hh Hw1 Hf) as (s1 & H1 & E1).
    rewrite E1. pose proof H1 as (_ & _ & _ & Hh1 & Hp1).
    destruct (IH s1) as (s2 & H2 & E2); [done|congruence|done| |].
    + unfold pump_measure in *. simpl in *. rewrite Hp1. rewrite Hp, length_app in Hf. lia.
    + exists s2. split; [|done].
      pose proof (owed_trans _ _ _ _ _ _ _ H1 H2) as Ho. simpl in Ho.
      by rewrite !app_nil_r in Ho.
Qed.

Lemma bad_header_closes (n t : Z) (junk later : bytes) (s : TCPSession) :
  pending_read s = Some ReadHeader -> in_u32 n -> 0 <= t < 256 ->
  max_body_length < n \/ (t <> 0 /\ t <> 1 /\ t <> 2) ->
  exists s', receive later (receive (be32 n ++ [zb t] ++ junk) (s, [])) = (s', junk ++ later) /\
    socket_open s' = false /\ pending_read s' = None /\
    delivered s' = delivered s /\ control s' = control s.
Proof.
  intros Hp Hn Ht Hbad. rewrite receive_app. unfold receive. cbv zeta. cbn [fst snd].
  rewrite app_nil_l, <- !app_assoc.
  destruct (pump1_header s n t (junk ++ later) Hp Hn) as (h & _ & Hb & Hty & E).
  set (s1 := on_read_header (Done h) s) in *.
  assert (Hs1 : s1 = close (set_timers (heartbeat_armed s) false (set_read None s))).
  { unfold s1, on_read_header. rewrite Hb, Hty. unfold u8. rewrite Z.mod_small by lia.
    simpl msg_type_value. destruct (Z.ltb_spec max_body_length n); [done|].
    by repeat (zif; [lia..|]). }
  exists s1.
  assert (Hq : socket_open s1 = false /\ pending_read s1 = None /\
               delivered s1 = delivered s /\ control s1 = control s).
  { rewrite Hs1. unfold close. simpl. by destruct (socket_open s) eqn:?. }
  split; [|exact Hq]. destruct Hq as (_ & Hpr & _).
  match goal with |- pump ?f _ = _ => replace f with (S (S (f - 2))) by lia end.
  rewrite (pump_S _ _ _ E). simpl. unfold pump1. by rewrite Hpr.
Qed.

(** ** Closing *)

Definition close_inv (handler callback : bool) (s : TCPSession) : Prop :=
  message_handler s = handler /\ close_callback s = callback /\
  close_calls s = if callback && negb (socket_open s) then 1%nat else 0%nat.

Lemma close_inv_close h cb s : close_inv h cb s -> close_inv h cb (close s).
Proof.
  intros Hi. unfold close. destruct (socket_open s) eqn:Eo; [|done].
  destruct Hi as (Hh & Hc & Hn). rewrite Eo in Hn.
  unfold close_inv; simpl. rewrite Hc, Hn. by destruct cb.
Qed.

Lemma close_inv_sending h cb s q n w : close_inv h cb s -> close_inv h cb (set_sending q n w s).
Proof. done. Qed.

Lemma close_inv_do_write h cb s : close_inv h cb s -> close_inv h cb (do_write s).
Proof. unfold do_write. by destruct (send_queue s). Qed.

Lemma close_inv_send h cb s m : close_inv h cb s -> close_inv h cb (send m s).
Proof.
  intros Hi. unfold send. destruct (_ <=? _)%nat; [done|]. cbv zeta.
  destruct (match send_queue s with [] => false | _ => true end); [done|].
  by apply close_inv_do_write.
Qed.

Lemma close_inv_on_write h cb s c : close_inv h cb s -> close_inv h cb (on_write c s).
Proof.
  intros Hi. unfold on_write. cbv zeta. destruct c; [|by apply close_inv_close].
  destruct (send_queue (set_sending _ _ _ _)); [done|]. by apply close_inv_do_write.
Qed.

Lemma close_inv_on_read_header h cb s c : close_inv h cb s -> close_inv h cb (on_read_header c s).
Proof.
  intros Hi. unfold on_read_header. cbv zeta. destruct c; [|by apply close_inv_close].
  repeat (match goal with |- context [if ?b then _ else _] => destruct b end);
    try done; by apply close_inv_close.
Qed.

Lemma close_inv_on_read_body h cb s c : close_inv h cb s -> close_inv h cb (on_read_body c s).
Proof.
  intros Hi. unfold on_read_body. cbv zeta. destruct c; [|by apply close_inv_close].
  by destruct (message_handler _).
Qed.

Lemma close_inv_timers h cb s b :
  close_inv h cb s -> close_inv h cb (on_heartbeat_timer b s) /\ close_inv h cb (on_read_timeout b s).
Proof.
  intros Hi. unfold on_heartbeat_timer, on_read_timeout.
  destruct b, (socket_open s); simpl; split; try done; by apply close_inv_close.
Qed.

Lemma close_inv_start h cb s : close_inv h cb s -> close_inv h cb (start s).
Proof. unfold start. by destruct (socket_open s) eqn:?. Qed.

Lemma reachable_close handler callback acc s :
  reachable handler callback acc s -> close_inv handler callback s.
Proof.
  induction 1 as [|e acc s s' Hr IH He]; [by destruct callback|].
  destruct e; simpl in He; repeat (case_match; try done); simplify_eq; try done;
    auto using close_inv_close, close_inv_send, close_inv_on_write, close_inv_on_read_header,
      close_inv_on_read_body, close_inv_start;
    by apply close_inv_timers.
Qed.

(** * Properties *)

(** C8: framing round trip.  A session that waits for a header and has a message handler
    receives exactly what its peer sent: whatever well-formed frames (messages of at
    most max_body_length bytes, PINGs and PONGs) the peer writes, and however the bytes
    are cut into chunks on the way, the handler is called with the messages in order, one
    PONG is sent per PING, no byte is left over, the socket stays as it was, and the
    session waits for the next header. *)
Theorem receive_frames (fs : list frame) (chunks : list bytes) (s : TCPSession) :
  Forall frame_wf fs -> pending_read s = Some ReadHeader -> message_handler s = true ->
  concat chunks = concat (map frame_bytes fs) ->
  exists s', fold_left (fun c ch => receive ch c) chunks (s, []) = (s', []) /\
    delivered s' = delivered s ++ messages_of fs /\
    control s' = control s ++ pongs_of fs /\
    socket_open s' = socket_open s /\ pending_read s' = Some ReadHeader.
Proof.
  intros Hwf Hp Hh Hc. rewrite receive_chunks.
  destruct (pump_frames fs (2 * length (concat chunks) + 2) s Hp Hh Hwf) as (s' & Ho & E).
  { unfold pump_measure. simpl. rewrite Hp, Hc. lia. }
  destruct Ho as (? & ? & ? & ? & ?). exists s'. split; [|done].
  destruct chunks as [|ch chunks].
  - simpl in Hc. rewrite <- Hc in E. rewrite <- E.
    unfold pump. simpl. unfold pump1. by rewrite Hp.
  - unfold receive. simpl fst; simpl snd. rewrite app_nil_l, Hc in *. exact E.
Qed.

(** Framing violations end the session.  A header that announces more than
    max_body_length bytes, or whose type byte is none of NORMAL, PING, PONG, closes the
    socket: no read is started any more, so nothing of what follows, now or in later
    chunks, is delivered or answered.  The sending side does not prevent this: the frame
    do_write builds for a message of more than max_body_length bytes (and less than
    4 GiB) is such a violation for the peer. *)
Theorem malformed_header_closes (s : TCPSession) :
  pending_read s = Some ReadHeader ->
  (forall n t junk later, in_u32 n -> 0 <= t < 256 ->
     max_body_length < n \/ (t <> 0 /\ t <> 1 /\ t <> 2) ->
     exists s', receive later (receive (be32 n ++ [zb t] ++ junk) (s, [])) = (s', junk ++ later) /\
       socket_open s' = false /\ pending_read s' = None /\
       delivered s' = delivered s /\ control s' = control s) /\
  (forall m, max_body_length < zlen m < 2 ^ 32 ->
     exists s', receive (message_frame m) (s, []) = (s', m) /\
       socket_open s' = false /\ pending_read s' = None /\ delivered s' = delivered s).
Proof.
  intros Hp. split; [intros; by apply bad_header_closes|]. intros m Hm.
  pose proof (zlen_nonneg m). unfold message_frame. rewrite u32_small by (unfold in_u32; lia).
  destruct (bad_header_closes (zlen m) (msg_type_value NORMAL) m [] s Hp)
    as (s' & E & Ho & Hr & Hd & _); [unfold in_u32; lia|simpl; lia|left; lia|].
  exists s'. rewrite receive_app, !app_nil_r in E. done.
Qed.

(** C16: the send queue.  In every reachable session, for the list [acc] of messages
    that send accepted: the messages already written followed by the queue are exactly
    [acc] (first in, first out, none lost, none repeated), do_write handed to the socket
    exactly the frames of the written messages and of the one in flight, the queue never
    exceeds 1024 messages, at most one do_write is outstanding, its completion handler
    never pops an empty queue, and an open session with a non-empty queue always has a
    write under way. *)
Theorem send_queue_fifo (handler callback : bool) (acc : list bytes) (s : TCPSession) :
  reachable handler callback acc s ->
  (exists sent, acc = sent ++ send_queue s /\
     wire s = map message_frame (sent ++ take 1 (send_queue s))) /\
  (length (send_queue s) <= max_send_queue_size)%nat /\
  (writes_outstanding s <= 1)%nat /\
  ((0 < writes_outstanding s)%nat -> send_queue s <> []) /\
  (socket_open s = true -> send_queue s <> [] -> writes_outstanding s = 1%nat).
Proof. intros Hr. by destruct (reachable_send_inv _ _ _ _ Hr). Qed.

(** The close callback runs at most once.  In every reachable session the number of
    calls is one exactly when the socket is closed and a callback was installed, however
    many of close, read errors, write errors, timeouts and protocol violations occurred;
    the handlers themselves never change. *)
Theorem close_callback_once (handler callback : bool) (acc : list bytes) (s : TCPSession) :
  reachable handler callback acc s ->
  message_handler s = handler /\ close_callback s = callback /\
  close_calls s = if callback && negb (socket_open s) then 1%nat else 0%nat.
Proof. apply reachable_close. Qed.

(** ** Witnesses *)

Lemma receive_frames_witness :
  exists s', fold_left (fun c ch => receive ch c)
      [[x00; x00; x00]; [x02; x00; x68; x69; x00; x00]; [x00; x00; x01]]
      (start (new_session true true), []) = (s', []) /\
    delivered s' = [[x68; x69]] /\ control s' = [control_frame PONG] /\
    socket_open s' = true /\ pending_read s' = Some ReadHeader.
Proof.
  apply (receive_frames [Msg [x68; x69]; Control PING] _ (start (new_session true true))).
  - repeat constructor. vm_compute. discriminate.
  - reflexivity.
  - reflexivity.
  - vm_compute. reflexivity.
Defined.

Lemma malformed_header_closes_witness :
  exists s', receive [x01] (receive (be32 (max_body_length + 1) ++ [zb 0] ++ [x41])
      (start (new_session true true), [])) = (s', [x41; x01]) /\
    socket_open s' = false /\ pending_read s' = None /\ delivered s' = [] /\ control s' = [].
Proof.
  apply (proj1 (malformed_header_closes (start (new_session true true)) eq_refl)
           (max_body_length + 1) 0 [x41] [x01]); [split; [discriminate|reflexivity]|lia|].
  left. reflexivity.
Defined.

(** Two messages accepted, the first one written, the second in flight. *)
Definition two_sends : TCPSession :=
  on_write (Done tt) (send [x42] (send [x41] (new_session true true))).

Lemma two_sends_reachable : reachable true true [[x41]; [x42]] two_sends.
Proof.
  pose (s1 := send [x41] (new_session true true)).
  assert (H1 : reachable true true [[x41]] s1).
  { exact (reach_event _ _ (EvSend [x41]) [] _ s1 (reach_new _ _) eq_refl). }
  assert (H2 : reachable true true [[x41]; [x42]] (send [x42] s1)).
  { exact (reach_event _ _ (EvSend [x42]) [[x41]] _ _ H1 eq_refl). }
  exact (reach_event _ _ (EvWrite (Done tt)) _ _ two_sends H2 eq_refl).
Defined.

Lemma send_queue_fifo_witness :
  (exists sent, [[x41]; [x42]] = sent ++ send_queue two_sends /\
    wire two_sends = map message_frame (sent ++ take 1 (send_queue two_sends))) /\
  send_queue two_sends = [[x42]].
Proof.
  split; [|reflexivity]. exact (proj1 (send_queue_fifo _ _ _ _ two_sends_reachable)).
Defined.

Lemma close_callback_once_witness :
  exists s, socket_open s = false /\ close_calls s = 1%nat.
Proof.
  assert (Hr : reachable true true [] (close (close (new_session true true)))).
  { refine (reach_event _ _ EvClose _ (close (new_session true true)) _ _ eq_refl).
    exact (reach_event _ _ EvClose _ _ _ (reach_new _ _) eq_refl). }
  exists (close (close (new_session true true))). split; [reflexivity|].
  exact (proj2 (proj2 (close_callback_once _ _ _ _ Hr))).
Defined.
