(* ===== verification/ThreadPool.v ===== *)
(** The thread pool (src/common/utils/thread_pool.hpp, thread_pool.cpp): the queue, the
    workers with their condition variable, [Init], [Enqueue] and [Shutdown].

    Every critical section of [m_mutex] is one step, and so are each atomic update, each
    notification and each run of a task outside it; steps of different threads interleave
    freely.  A worker is a position in [WorkerThread].  The pool is a singleton and [Init]
    and [Shutdown] touch [m_threads] without a common lock, so calls of them are taken one at
    a time ([closing]); overlapping them is a data race. *)
From S2P Require Import Prelude.
Open Scope Z_scope.

Section Pool.
Context {task : Type}.

Inductive worker :=
| Checking                  (* before the predicate of [m_condition.wait] *)
| Waiting                   (* blocked in [wait] *)
| Running (t : task)        (* has popped [t], outside the lock *)
| Counting                  (* before [m_tasksCount--] *)
| Exited.                   (* returned from [WorkerThread] *)

(** Where a call of [Shutdown] is: the flag is set; every waiter is notified. *)
Inductive phase := Flagged | Joining.

(** [pending] counts the [notify_one] calls due, one per task just queued.  The last three
    fields are logs: what [Enqueue] accepted, what a worker has popped, what has returned. *)
Record pool := {
  m_threads : list worker;
  m_tasks : list task;
  m_shutdown : bool;
  m_tasksCount : Z;
  pending : nat;
  closing : option phase;
  accepted : list task;
  started : list task;
  finished : list task
}.

(** [ThreadPool::ThreadPool]. *)
Definition created : pool := {|
  m_threads := []; m_tasks := []; m_shutdown := false; m_tasksCount := 0;
  pending := 0%nat; closing := None; accepted := []; started := []; finished := [] |}.

Definition GetThreadCount (p : pool) : nat := length (m_threads p).
Definition GetTaskCount (p : pool) : Z := m_tasksCount p.
Definition IsShutdown (p : pool) : bool := m_shutdown p.

Definition set_worker (i : nat) (w : worker) (p : pool) : pool := {|
  m_threads := <[i := w]> (m_threads p); m_tasks := m_tasks p; m_shutdown := m_shutdown p;
  m_tasksCount := m_tasksCount p; pending := pending p; closing := closing p;
  accepted := accepted p; started := started p; finished := finished p |}.

(** [Init]: [hw] is [std::thread::hardware_concurrency()]. *)
Definition Init (hw threadCount : nat) (p : pool) : pool :=
  let n := match threadCount with O => hw | _ => threadCount end in
  let n := match n with O => 1%nat | _ => n end in
  if negb (bool_decide (m_threads p = [])) && negb (m_shutdown p) then p else {|
    m_threads := m_threads p ++ replicate n Checking; m_tasks := m_tasks p; m_shutdown := false;
    m_tasksCount := u64 (Z.of_nat (length (m_tasks p))); pending := pending p; closing := closing p;
    accepted := accepted p; started := started p; finished := finished p |}.

(** [Enqueue]: [None] when it throws; the notification follows. *)
Definition Enqueue (t : task) (p : pool) : option pool :=
  if m_shutdown p then None else Some {|
    m_threads := m_threads p; m_tasks := m_tasks p ++ [t]; m_shutdown := m_shutdown p;
    m_tasksCount := u64 (m_tasksCount p + 1); pending := S (pending p); closing := closing p;
    accepted := accepted p ++ [t]; started := started p; finished := finished p |}.

(** [m_condition.notify_one()] after a queued task. *)
Definition notified (p : pool) : pool := {|
  m_threads := m_threads p; m_tasks := m_tasks p; m_shutdown := m_shutdown p;
  m_tasksCount := m_tasksCount p; pending := pred (pending p); closing := closing p;
  accepted := accepted p; started := started p; finished := finished p |}.

(** The three parts of [Shutdown]. *)
Definition raise_flag (p : pool) : pool := {|
  m_threads := m_threads p; m_tasks := m_tasks p; m_shutdown := true;
  m_tasksCount := m_tasksCount p; pending := pending p; closing := Some Flagged;
  accepted := accepted p; started := started p; finished := finished p |}.

Definition wake (w : worker) : worker := match w with Waiting => Checking | _ => w end.

Definition notify_all (p : pool) : pool := {|
  m_threads := map wake (m_threads p); m_tasks := m_tasks p; m_shutdown := m_shutdown p;
  m_tasksCount := m_tasksCount p; pending := pending p; closing := Some Joining;
  accepted := accepted p; started := started p; finished := finished p |}.

Definition joined (p : pool) : pool := {|
  m_threads := []; m_tasks := m_tasks p; m_shutdown := m_shutdown p;
  m_tasksCount := m_tasksCount p; pending := pending p; closing := None;
  accepted := accepted p; started := started p; finished := finished p |}.

(** One step of a worker in [WorkerThread], for the position it is at. *)
Definition check (i : nat) (p : pool) : pool :=
  match m_tasks p with
  | t :: rest => {|
      m_threads := <[i := Running t]> (m_threads p); m_tasks := rest; m_shutdown := m_shutdown p;
      m_tasksCount := m_tasksCount p; pending := pending p; closing := closing p;
      accepted := accepted p; started := started p ++ [t]; finished := finished p |}
  | [] => set_worker i (if m_shutdown p then Exited else Waiting) p
  end.

(** [task()]: a returned and a thrown task alike. *)
Definition run_task (i : nat) (t : task) (p : pool) : pool := {|
  m_threads := <[i := Counting]> (m_threads p); m_tasks := m_tasks p; m_shutdown := m_shutdown p;
  m_tasksCount := m_tasksCount p; pending := pending p; closing := closing p;
  accepted := accepted p; started := started p; finished := finished p ++ [t] |}.

Definition count_down (i : nat) (p : pool) : pool := {|
  m_threads := <[i := Checking]> (m_threads p); m_tasks := m_tasks p; m_shutdown := m_shutdown p;
  m_tasksCount := u64 (m_tasksCount p - 1); pending := pending p; closing := closing p;
  accepted := accepted p; started := started p; finished := finished p |}.

(** What the pool does on its own: workers, notifications, [notify_all]. *)
Inductive runs : pool -> pool -> Prop :=
| runs_check i p : m_threads p !! i = Some Checking -> runs p (check i p)
| runs_task i t p : m_threads p !! i = Some (Running t) -> runs p (run_task i t p)
| runs_count i p : m_threads p !! i = Some Counting -> runs p (count_down i p)
| runs_notify_one i p : pending p <> 0%nat -> m_threads p !! i = Some Waiting ->
    runs p (notified (set_worker i Checking p))
| runs_notify_none p : pending p <> 0%nat -> Forall (fun w => w <> Waiting) (m_threads p) ->
    runs p (notified p)
| runs_notify_all p : closing p = Some Flagged -> runs p (notify_all p).

(** A spurious wake-up. *)
Inductive wakes : pool -> pool -> Prop :=
| wakes_up i p : m_threads p !! i = Some Waiting -> wakes p (set_worker i Checking p).

(** What callers do. *)
Inductive calls : pool -> pool -> Prop :=
| calls_init hw n p : closing p = None -> calls p (Init hw n p)
| calls_enqueue t p p' : Enqueue t p = Some p' -> calls p p'
| calls_shutdown p : closing p = None -> calls p (raise_flag p)
| calls_joined p : closing p = Some Joining -> Forall (eq Exited) (m_threads p) ->
    calls p (joined p).

Definition step (p p' : pool) : Prop := runs p p' \/ wakes p p' \/ calls p p'.
Definition reachable (p : pool) : Prop := rtc step created p.

(** ** Lists of workers *)

Definition held (w : worker) : list task := match w with Running t => [t] | _ => [] end.
Definition busy (w : worker) : Z := match w with Running _ | Counting => 1 | _ => 0 end.
Definition weight (w : worker) : nat :=
  match w with Running _ => 3 | Counting => 2 | Checking => 1 | Waiting | Exited => 0 end.

Definition running (ws : list worker) : list task := concat (map held ws).
Definition busy_count (ws : list worker) : Z := foldr (fun w n => busy w + n) 0 ws.
Definition weights (ws : list worker) : nat := sum_list (map weight ws).

Lemma split_worker (ws : list worker) i w w' : ws !! i = Some w ->
  exists l r, ws = l ++ w :: r /\ <[i := w']> ws = l ++ w' :: r.
Proof.
  intros H. exists (take i ws), (drop (S i) ws). split; [by rewrite take_drop_middle|].
  apply insert_take_drop. by eapply lookup_lt_Some.
Qed.

Lemma running_app ws vs : running (ws ++ vs) = running ws ++ running vs.
Proof. unfold running. by rewrite map_app, concat_app. Qed.
Lemma busy_count_app ws vs : busy_count (ws ++ vs) = busy_count ws + busy_count vs.
Proof. induction ws as [|w ws IH]; simpl; lia. Qed.
Lemma weights_app ws vs : weights (ws ++ vs) = (weights ws + weights vs)%nat.
Proof. unfold weights. induction ws as [|w ws IH]; simpl in *; lia. Qed.

Lemma weights_mid ws w vs : weights (ws ++ w :: vs) = (weights ws + weight w + weights vs)%nat.
Proof. rewrite weights_app. unfold weights at 2. simpl. fold (weights vs). lia. Qed.

Lemma running_wake ws : running (map wake ws) = running ws.
Proof. induction ws as [|[] ws IH]; unfold running in *; simpl; congruence. Qed.
Lemma busy_count_wake ws : busy_count (map wake ws) = busy_count ws.
Proof. induction ws as [|[] ws IH]; simpl; lia. Qed.
Lemma weights_wake ws : (weights (map wake ws) <= weights ws + length ws)%nat.
Proof. unfold weights. induction ws as [|[] ws IH]; simpl in *; lia. Qed.

Lemma replicate_checking n : running (replicate n Checking) = [] /\ busy_count (replicate n Checking) = 0.
Proof. induction n as [|n [IH1 IH2]]; [done|]. split; [exact IH1|simpl; lia]. Qed.

(** ** The invariant *)

Record ok (p : pool) : Prop := {
  ok_fifo : started p ++ m_tasks p = accepted p;
  ok_run : started p ≡ₚ finished p ++ running (m_threads p);
  ok_count : m_tasksCount p = u64 (Z.of_nat (length (m_tasks p)) + busy_count (m_threads p));
  (* no lost wake-up *)
  ok_awake : m_tasks p <> [] -> m_threads p <> [] ->
    pending p <> 0%nat \/ Exists (fun w => w <> Waiting) (m_threads p);
  ok_exited : Exists (eq Exited) (m_threads p) -> m_shutdown p = true /\ m_tasks p = [];
  ok_open : closing p = None -> m_shutdown p = true -> m_threads p = [];
  ok_closing : closing p <> None -> m_shutdown p = true;
  ok_joining : closing p = Some Joining -> Forall (fun w => w <> Waiting) (m_threads p)
}.

(** A worker at [w] moves to [w'], the rest of the pool as given. *)
Lemma u64_pred a n : a = u64 n -> u64 (a - 1) = u64 (n - 1).
Proof. intros ->. unfold u64. by rewrite Zminus_mod_idemp_l. Qed.
Lemma u64_succ a n : a = u64 n -> u64 (a + 1) = u64 (n + 1).
Proof. intros ->. unfold u64. by rewrite Zplus_mod_idemp_l. Qed.

Ltac at_worker H w' :=
  let l := fresh "l" in let r := fresh "r" in let E := fresh "E" in let E' := fresh "E'" in
  destruct (split_worker _ _ _ w' H) as (l & r & E & E').

Ltac in_lists :=
  rewrite ?Forall_app, ?Forall_cons, ?Exists_app, ?Exists_cons in *;
  intuition (try discriminate; try congruence);
  match goal with H : ?l ++ _ :: _ = [] |- _ => by destruct l end.

Lemma check_ok i p : m_threads p !! i = Some Checking -> ok p -> ok (check i p).
Proof.
  intros H [Hf Hr Hc Ha He Ho Hcl Hj]. unfold check, set_worker.
  destruct (m_tasks p) as [|t rest] eqn:Et.
  - at_worker H (if m_shutdown p then Exited else Waiting).
    rewrite E in *. destruct (m_shutdown p) eqn:Es; split; simpl; rewrite ?E', ?Et, ?Es; try done.
    all: try (by rewrite ?running_app, ?busy_count_app in *).
    all: in_lists.
  - at_worker H (Running t). rewrite E in *.
    split; simpl; rewrite ?E'; try done.
    + rewrite <- Hf. by rewrite <- (assoc_L (++)).
    + rewrite Hr, !running_app. simpl. solve_Permutation.
    + rewrite Hc, !busy_count_app. f_equal. simpl. lia.
    + intros _ _. right. apply Exists_app. right. by left.
    + in_lists.
    + in_lists.
    + in_lists.
Qed.

Lemma pool_run_task_ok i t p : m_threads p !! i = Some (Running t) -> ok p -> ok (run_task i t p).
Proof.
  intros H [Hf Hr Hc Ha He Ho Hcl Hj]. at_worker H (@Counting). unfold run_task. rewrite E in *.
  split; simpl; rewrite ?E'; try done.
  - rewrite Hr, !running_app. simpl. solve_Permutation.
  - by rewrite Hc, !busy_count_app.
  - intros. right. apply Exists_app. right. by left.
  - in_lists.
  - in_lists.
  - in_lists.
Qed.

Lemma count_down_ok i p : m_threads p !! i = Some Counting -> ok p -> ok (count_down i p).
Proof.
  intros H [Hf Hr Hc Ha He Ho Hcl Hj]. at_worker H (@Checking). unfold count_down. rewrite E in *.
  split; simpl; rewrite ?E'; try done.
  - by rewrite Hr, !running_app.
  - rewrite (u64_pred _ _ Hc), !busy_count_app. f_equal. simpl. lia.
  - intros. right. apply Exists_app. right. by left.
  - in_lists.
  - in_lists.
  - in_lists.
Qed.

Lemma wake_ok i p : m_threads p !! i = Some Waiting -> ok p -> ok (set_worker i Checking p).
Proof.
  intros H [Hf Hr Hc Ha He Ho Hcl Hj]. at_worker H (@Checking). unfold set_worker. rewrite E in *.
  split; simpl; rewrite ?E'; try done.
  - by rewrite Hr, !running_app.
  - by rewrite Hc, !busy_count_app.
  - intros. right. apply Exists_app. right. by left.
  - in_lists.
  - in_lists.
  - in_lists.
Qed.

(** A notification is spent once a worker is awake, or none waits. *)
Lemma notified_ok p : (m_threads p <> [] -> Exists (fun w => w <> Waiting) (m_threads p)) ->
  ok p -> ok (notified p).
Proof. intros Hw [Hf Hr Hc Ha He Ho Hcl Hj]. split; simpl; auto. Qed.

Lemma runs_ok p p' : runs p p' -> ok p -> ok p'.
Proof.
  destruct 1 as [i p H|i t p H|i p H|i p _ H|p _ H|p H]; intros Hok.
  - by apply check_ok.
  - by apply pool_run_task_ok.
  - by apply count_down_ok.
  - apply notified_ok; [|by apply wake_ok]. intros _. unfold set_worker. simpl.
    at_worker H (@Checking). rewrite E'. apply Exists_app. right. by left.
  - apply notified_ok; [|done]. destruct H as [|w ws Hw _]; [done|]. by left.
  - destruct Hok as [Hf Hr Hc Ha He Ho Hcl Hj]. rewrite H in *.
    assert (Hn : Forall (fun w => w <> Waiting) (map wake (m_threads p))).
    { apply Forall_forall. intros w Hw. apply list_elem_of_fmap in Hw as ([] & -> & _); done. }
    split; simpl; rewrite ?running_wake, ?busy_count_wake; try done.
    + intros _ Hne. right. destruct Hn as [|w ws Hw _]; [done|]. by left.
    + intros Hx. apply He. apply Exists_exists in Hx as (w & Hw & <-).
      apply list_elem_of_fmap in Hw as ([] & ? & ?); try done. apply Exists_exists. eauto.
    + intros _. by apply Hcl.
Qed.

Lemma calls_ok p p' : calls p p' -> ok p -> ok p'.
Proof.
  destruct 1 as [hw n p H|t p p' H|p H|p H Hx]; intros [Hf Hr Hc Ha He Ho Hcl Hj].
  - unfold Init. set (k := match _ with O => 1%nat | _ => _ end).
    destruct (negb _ && _) eqn:Eg; [done|].
    assert (Ht : m_threads p = []).
    { destruct (m_shutdown p) eqn:Es; [by apply Ho|].
      destruct (m_threads p); [done|]. by rewrite bool_decide_eq_false_2 in Eg. }
    rewrite Ht in *. destruct (replicate_checking k) as [R1 R2].
    split; simpl; rewrite ?R1, ?R2, ?Z.add_0_r; try done.
    + intros _ Hne. right. destruct k; [done|]. by left.
    + intros Hx. apply Exists_exists in Hx as (w & Hw & <-). by apply elem_of_replicate in Hw as [? _].
    + by rewrite H.
  - unfold Enqueue in H. destruct (m_shutdown p) eqn:Es; [done|]. injection H as <-.
    split; simpl; try done.
    + by rewrite <- Hf, (assoc_L (++)).
    + rewrite (u64_succ _ _ Hc), length_app. f_equal. simpl. lia.
    + intros _ _. by left.
    + intros Hx. by destruct (He Hx).
  - split; simpl; try done. intros Hx. by destruct (He Hx).
  - assert (Hr' : running (m_threads p) = [] /\ busy_count (m_threads p) = 0).
    { clear -Hx. induction Hx as [|w ws <- _ [IH1 IH2]]; [done|]. split; [exact IH1|simpl; lia]. }
    destruct Hr' as [R1 R2]. split; simpl; rewrite ?R1, ?R2 in *; try done.
    intros Hx'. by inversion Hx'.
Qed.

Lemma reachable_ok p : reachable p -> ok p.
Proof.
  intros H. assert (ok created) as H0.
  { split; simpl; try done. intros Hx. by inversion Hx. }
  revert H0. induction H as [|p q r [Hs|[Hs|Hs]] _ IH]; [done|..]; intros Hok; apply IH.
  - by eapply runs_ok.
  - destruct Hs as [i p H]. by apply wake_ok.
  - by eapply calls_ok.
Qed.

(** ** Termination *)

Definition measure (p : pool) : nat :=
  (3 * length (m_tasks p) + weights (m_threads p) + 2 * pending p +
   match closing p with Some Flagged => S (length (m_threads p)) | _ => 0 end)%nat.

Lemma runs_measure p p' : runs p p' -> (measure p' < measure p)%nat.
Proof.
  destruct 1 as [i p H|i t p H|i p H|i p Hn H|p Hn _|p H]; unfold measure.
  - unfold check, set_worker. destruct (m_tasks p) as [|t rest]; simpl.
    + at_worker H (if m_shutdown p then Exited else Waiting).
      rewrite E', E, !length_app, !weights_mid.
      destruct (m_shutdown p), (closing p) as [[]|]; simpl; lia.
    + at_worker H (Running t). rewrite E', E, !length_app, !weights_mid.
      destruct (closing p) as [[]|]; simpl; lia.
  - at_worker H (@Counting). simpl. rewrite E', E, !length_app, !weights_mid.
    destruct (closing p) as [[]|]; simpl; lia.
  - at_worker H (@Checking). simpl. rewrite E', E, !length_app, !weights_mid.
    destruct (closing p) as [[]|]; simpl; lia.
  - at_worker H (@Checking). simpl. rewrite E', E, !length_app, !weights_mid.
    destruct (closing p) as [[]|]; simpl; lia.
  - simpl. destruct (closing p) as [[]|]; lia.
  - simpl. rewrite H. pose proof (weights_wake (m_threads p)). lia.
Qed.

Lemma runs_terminate p : Acc (flip runs) p.
Proof.
  remember (measure p) as n eqn:En. revert p En. induction n as [n IH] using lt_wf_ind.
  intros p ->. constructor. intros q Hq. eapply IH; [by apply runs_measure|done].
Qed.

Lemma find_waiting (ws : list worker) : Forall (fun w => w = Waiting \/ w = Exited) ws ->
  (exists i, ws !! i = Some Waiting) \/ Forall (fun w => w <> Waiting) ws.
Proof.
  induction 1 as [|w ws [->| ->] _ [[i Hi]|IH]]; [by right|by left; exists 0%nat..| |].
  - left. by exists (S i).
  - right. by constructor.
Qed.

(** When the pool cannot move, nobody is between the lock and the task. *)
Lemma stuck_workers q : ok q -> (forall r, ~ runs q r) ->
  pending q = 0%nat /\ closing q <> Some Flagged /\
  Forall (fun w => w = Waiting \/ w = Exited) (m_threads q).
Proof.
  intros Hok Hs.
  assert (Hw : Forall (fun w => w = Waiting \/ w = Exited) (m_threads q)).
  { apply Forall_lookup. intros i [| |t| |] Hi; auto; exfalso.
    - exact (Hs _ (runs_check _ _ Hi)).
    - exact (Hs _ (runs_task _ _ _ Hi)).
    - exact (Hs _ (runs_count _ _ Hi)). }
  split; [|split; [|done]].
  - destruct (decide (pending q = 0%nat)) as [|Hn]; [done|exfalso].
    destruct (find_waiting _ Hw) as [[i Hi]|Hx].
    + exact (Hs _ (runs_notify_one _ _ Hn Hi)).
    + exact (Hs _ (runs_notify_none _ Hn Hx)).
  - intros Hf. exact (Hs _ (runs_notify_all _ Hf)).
Qed.

(** At rest: with workers, every accepted task has been run; they wait, or after [Shutdown]
    have all returned, so that it can join them. *)
Lemma stuck_rest q : ok q -> (forall r, ~ runs q r) ->
  (m_threads q <> [] ->
     m_tasks q = [] /\ started q = accepted q /\ finished q ≡ₚ accepted q /\ GetTaskCount q = 0) /\
  Forall (eq (if IsShutdown q then Exited else Waiting)) (m_threads q).
Proof.
  intros Hok Hs. destruct (stuck_workers q Hok Hs) as (Hp & Hc & Hw).
  destruct Hok as [Hf Hr Hn Ha He Ho Hcl Hj].
  assert (R : running (m_threads q) = [] /\ busy_count (m_threads q) = 0).
  { clear -Hw. induction Hw as [|w ws [->| ->] _ [IH1 IH2]]; [done|split; [exact IH1|simpl; lia]..]. }
  destruct R as [R1 R2]. split.
  - intros Ht. assert (m_tasks q = []) as Et.
    { destruct (m_tasks q) as [|t l] eqn:Et; [done|]. destruct (Ha ltac:(done) Ht) as [?|Hx]; [done|].
      apply Exists_exists in Hx as (w & Hin & Hne). rewrite Forall_forall in Hw.
      destruct (Hw _ Hin) as [->| ->]; [done|]. destruct He as [_ ?]; [|done].
      apply Exists_exists. eauto. }
    rewrite Et, app_nil_r in Hf. rewrite R1, app_nil_r, Hf in Hr. split_and!; [done..| |].
    + by rewrite Hr.
    + unfold GetTaskCount. by rewrite Hn, Et, R2.
  - unfold IsShutdown. rewrite !Forall_forall in *. intros w Hin. destruct (Hw _ Hin) as [->| ->].
    + destruct (m_shutdown q) eqn:Es; [|done]. exfalso.
      destruct (closing q) as [[]|] eqn:Ec; [done| |].
      * exact (Hj eq_refl _ Hin eq_refl).
      * rewrite (Ho eq_refl eq_refl) in Hin. by apply not_elem_of_nil in Hin.
    + destruct He as [-> _]; [|done]. apply Exists_exists. eauto.
Qed.

Lemma runs_accepted p q : rtc runs p q ->
  accepted q = accepted p /\ m_shutdown q = m_shutdown p /\ (m_threads q = [] <-> m_threads p = []).
Proof.
  induction 1 as [|p q r H _ (IH1 & IH2 & IH3)]; [done|]. rewrite IH1, IH2, IH3. clear IH1 IH2 IH3.
  assert (Hl : forall i (w : worker), <[i := w]> (m_threads p) = [] <-> m_threads p = []).
  { intros i w. rewrite <- !length_zero_iff_nil, length_insert. done. }
  destruct H; unfold check, set_worker; repeat case_match; simpl; split_and!; try done.
  by rewrite <- !length_zero_iff_nil, length_map.
Qed.

(** C5: The pool does its work.  From every reachable state (tasks queued at any moment, any
    interleaving of the callers, the workers, the notifications and spurious wake-ups) the
    workers come to rest after finitely many steps, whatever their order.  If there are
    workers, every task accepted so far has then been started, in the order of acceptance, and
    has been run exactly once, and the task count is back to 0; no wake-up is lost.  An open
    pool is then waiting; after [Shutdown], all workers have returned, so the join ends and
    no accepted task was dropped. *)
Theorem pool_completes p (H : reachable p) :
  Acc (flip runs) p /\
  forall q, rtc runs p q -> (forall r, ~ runs q r) ->
    (m_threads p <> [] ->
       m_tasks q = [] /\ started q = accepted p /\ finished q ≡ₚ accepted p /\ GetTaskCount q = 0) /\
    Forall (eq (if IsShutdown p then Exited else Waiting)) (m_threads q).
Proof.
  split; [apply runs_terminate|]. intros q Hq Hs.
  destruct (runs_accepted p q Hq) as (Ea & Es & Et). unfold IsShutdown. rewrite <- Es, <- Ea.
  rewrite <- Et. apply stuck_rest; [|done]. apply reachable_ok in H.
  clear -H Hq. induction Hq as [|p1 p2 p3 Hs _ IH]; [done|]. by apply IH, (runs_ok _ _ Hs).
Qed.
End Pool.

(** * Two workers, three tasks, a shutdown *)
Module PoolExample.
Definition call (p : pool) (t : nat) : pool := default p (Enqueue t p).
Definition busy_pool : @pool nat := foldl call (Init 8 2 created) [7; 8; 9]%nat.
Definition closed_pool : @pool nat := raise_flag (notified (check 0 busy_pool)).

Lemma busy_reachable : reachable busy_pool.
Proof.
  apply rtc_l with (Init 8 2 created); [by right; right; apply calls_init|].
  apply (rtc_l _ _ (call (Init 8 2 created) 7%nat)); [by right; right; apply (calls_enqueue 7%nat)|].
  apply (rtc_l _ _ (call (call (Init 8 2 created) 7%nat) 8%nat));
    [by right; right; apply (calls_enqueue 8%nat)|].
  apply rtc_once. by right; right; apply (calls_enqueue 9%nat).
Qed.

Lemma closed_reachable : reachable closed_pool.
Proof.
  apply rtc_r with (notified (check 0 busy_pool)); [|by right; right; apply calls_shutdown].
  apply rtc_r with (check 0 busy_pool); [|left; apply runs_notify_none; [done|by repeat constructor]].
  apply rtc_r with busy_pool; [apply busy_reachable|by left; apply runs_check].
Qed.

(** Three tasks are run although the pool is shut down after the first was taken. *)
Lemma pool_completes_witness :
  reachable closed_pool /\ accepted closed_pool = [7; 8; 9]%nat /\ IsShutdown closed_pool = true /\
  Acc (flip runs) closed_pool /\
  (forall q, rtc runs closed_pool q -> (forall r, ~ runs q r) -> started q = [7; 8; 9]%nat).
Proof.
  split; [apply closed_reachable|]. split; [reflexivity|]. split; [reflexivity|].
  destruct (pool_completes closed_pool closed_reachable) as [H1 H2]. split; [exact H1|].
  intros q Hq Hs. destruct (H2 q Hq Hs) as [H3 _]. apply H3. discriminate.
Defined.
End PoolExample.
