(* ===== verification/Text.v ===== *)
(** Text: the functions of the C++ library the services use on numbers in decimal. *)
From S2P Require Import Prelude.
From Stdlib Require Import Ascii.
Open Scope Z_scope.

Definition chr (c : ascii) : Z := Z.of_N (N_of_ascii c).

Definition is_digit (c : ascii) : bool := (48 <=? chr c) && (chr c <=? 57).

Definition is_space (c : ascii) : bool := (chr c =? 32) || ((9 <=? chr c) && (chr c <=? 13)).

(** Decimal digits from the left: the value, and what follows them. *)
Fixpoint digits (acc : Z) (s : string) : Z * string :=
  match s with
  | String c s' => if is_digit c then digits (10 * acc + (chr c - 48)) s' else (acc, s)
  | EmptyString => (acc, s)
  end.

Fixpoint skip_spaces (s : string) : string :=
  match s with
  | String c s' => if is_space c then skip_spaces s' else s
  | EmptyString => s
  end.

Definition LONG_MAX : Z := 2 ^ 63 - 1.
Definition LONG_MIN : Z := - 2 ^ 63.

(** An optional sign: whether it is "-", and the rest. *)
Definition split_sign (s : string) : bool * string :=
  match s with
  | String "-" s' => (true, s')
  | String "+" s' => (false, s')
  | _ => (false, s)
  end.

(** [std::strtol(s, &end, 10)]: the value, clamped to [long], and the text from [end];
    without digits [end] is the start of the text. *)
Definition strtol10 (s : string) : Z * string :=
  let t := skip_spaces s in
  let '(neg, t) := split_sign t in
  match t with
  | String c _ =>
      if is_digit c then
        let '(v, e) := digits 0 t in
        (Z.max LONG_MIN (Z.min LONG_MAX (if neg then - v else v)), e)
      else (0, s)
  | EmptyString => (0, s)
  end.

(** [std::stoull(s)]: [None] when it throws, [std::invalid_argument] without digits and
    [std::out_of_range] above 64 bits; a "-" negates modulo 2^64; what follows the digits is
    ignored. *)
Definition stoull (s : string) : option Z :=
  let '(neg, t) := split_sign (skip_spaces s) in
  match t with
  | String c _ =>
      if is_digit c then
        let '(v, _) := digits 0 t in
        if v <? 2 ^ 64 then Some (u64 (if neg then - v else v)) else None
      else None
  | EmptyString => None
  end.

(** [std::stoll(s)] and [std::stoi(s)]: [None] when they throw, without digits or outside the
    type; what follows the digits is ignored. *)
Definition sto_signed (bound : Z) (s : string) : option Z :=
  let '(neg, t) := split_sign (skip_spaces s) in
  match t with
  | String c _ =>
      if is_digit c then
        let v := if neg then - fst (digits 0 t) else fst (digits 0 t) in
        if (- bound <=? v) && (v <? bound) then Some v else None
      else None
  | EmptyString => None
  end.
Definition stoll : string -> option Z := sto_signed (2 ^ 63).
Definition stoi : string -> option Z := sto_signed (2 ^ 31).

(** [oss << n] for a non-negative [int]. *)
Fixpoint dec_fuel (fuel : nat) (n : Z) : string :=
  match fuel with
  | O => EmptyString
  | S f =>
      let d := String (ascii_of_N (Z.to_N (48 + n mod 10))) EmptyString in
      if n <? 10 then d else dec_fuel f (n / 10) +:+ d
  end.
Definition dec (n : Z) : string := dec_fuel 20 n.

(** [std::to_string] of a signed integer. *)
Definition to_string (z : Z) : string := if z <? 0 then String "-" (dec (- z)) else dec z.

(** Text without a character. *)
Fixpoint free_of (d : ascii) (s : string) : bool :=
  match s with
  | EmptyString => true
  | String c s' => negb (Ascii.eqb c d) && free_of d s'
  end.

(** * Lemmas *)

Lemma app_cons c (a b : string) : String c a +:+ b = String c (a +:+ b).
Proof. done. Qed.

Lemma string_app_nil_r (s : string) : s +:+ EmptyString = s.
Proof. induction s as [|c s IH]; [done|]. by rewrite app_cons, IH. Qed.

Lemma free_of_app d s t : free_of d (s +:+ t) = free_of d s && free_of d t.
Proof. induction s as [|c s IH]; simpl; [done|]. by rewrite IH, andb_assoc. Qed.

Lemma chr_range c : 0 <= chr c < 256.
Proof. unfold chr. pose proof (N_ascii_bounded c). lia. Qed.

Lemma chr_ascii n : 0 <= n < 256 -> chr (ascii_of_N (Z.to_N n)) = n.
Proof. intros. unfold chr. rewrite N_ascii_embedding; lia. Qed.

Lemma is_digit_spec k : 0 <= k < 10 -> is_digit (ascii_of_N (Z.to_N (48 + k))) = true.
Proof.
  intros. unfold is_digit. rewrite chr_ascii by lia. apply andb_true_intro.
  split; apply Z.leb_le; lia.
Qed.

Lemma digits_app acc s t v :
  digits acc s = (v, EmptyString) -> digits acc (s +:+ t) = digits v t.
Proof.
  revert acc. induction s as [|c s IH]; intros acc; simpl.
  - by intros [= ->].
  - destruct (is_digit c); [apply IH|done].
Qed.

Lemma digits_dec fuel n : 0 <= n < 10 ^ Z.of_nat fuel ->
  digits 0 (dec_fuel fuel n) = (n, EmptyString).
Proof.
  revert n. induction fuel as [|f IH]; intros n Hn; [simpl in *; assert (n = 0) by lia; by subst|].
  assert (Hd : forall k acc, 0 <= k < 10 ->
    digits acc (String (ascii_of_N (Z.to_N (48 + k))) EmptyString) = (10 * acc + k, EmptyString)).
  { intros k acc Hk. cbn [digits]. rewrite is_digit_spec, chr_ascii by lia. simpl. f_equal. lia. }
  simpl. pose proof (Z.mod_pos_bound n 10 ltac:(lia)). destruct (n <? 10) eqn:E; zbool.
  - rewrite Hd by lia. rewrite Z.mod_small by lia. done.
  - rewrite (digits_app 0 _ _ (n / 10)).
    + rewrite Hd by lia. f_equal. pose proof (Z.div_mod n 10 ltac:(lia)). lia.
    + apply IH. rewrite Nat2Z.inj_succ, Z.pow_succ_r in Hn by lia.
      split; [apply Z.div_pos; lia|]. apply Z.div_lt_upper_bound; lia.
Qed.

Lemma is_digit_free c : is_digit c = true -> Ascii.eqb c "$"%char = false.
Proof. intros Hc. apply Ascii.eqb_neq. by intros ->. Qed.

Lemma dec_fuel_spec fuel n : 0 <= n -> free_of "$"%char (dec_fuel fuel n) = true /\
  (fuel = 0%nat \/ exists c s, dec_fuel fuel n = String c s /\ is_digit c = true).
Proof.
  revert n. induction fuel as [|f IH]; intros n Hn; [by split; [|left]|].
  pose proof (Z.mod_pos_bound n 10 ltac:(lia)) as Hm.
  pose proof (is_digit_spec (n mod 10) Hm) as Hd. pose proof (is_digit_free _ Hd) as Hf.
  cbn [dec_fuel]. destruct (IH (n / 10) ltac:(apply Z.div_pos; lia)) as [Hfree Hc].
  destruct (n <? 10); [simpl; rewrite Hf; split; [done|]; right; eauto|].
  split; [rewrite free_of_app, Hfree; simpl; by rewrite Hf|]. right.
  destruct Hc as [->|(c & s & -> & Hc)]; simpl; eauto.
Qed.

(** A digit is neither space nor sign. *)
Lemma digit_plain c s : is_digit c = true -> is_space c = false /\ split_sign (String c s) = (false, String c s).
Proof.
  intros Hc. assert (Hs : is_space c = false /\ c <> "-"%char /\ c <> "+"%char).
  { unfold is_digit, is_space in *. zbool. repeat split.
    - apply orb_false_intro; [by apply Z.eqb_neq; lia|]. apply andb_false_intro2, Z.leb_gt. lia.
    - intros ->. by vm_compute in H.
    - intros ->. by vm_compute in H. }
  destruct Hs as (Hsp & Hm & Hp). split; [done|]. by destruct c as [[] [] [] [] [] [] [] []].
Qed.

Lemma strtol10_dec n : 0 <= n < 2 ^ 31 -> strtol10 (dec n) = (n, EmptyString).
Proof.
  intros Hn. unfold dec. destruct (dec_fuel_spec 20 n) as [_ [|(c & s & E & Hc)]]; [lia|done|].
  pose proof (digits_dec 20 n) as Hd. rewrite E in *.
  destruct (digit_plain c s Hc) as [Hsp Hsel]. unfold strtol10. cbn [skip_spaces].
  rewrite Hsp, Hsel, Hc, Hd by lia. unfold LONG_MAX, LONG_MIN. f_equal. lia.
Qed.

(** [std::stoull] reads back what [std::to_string] wrote. *)
Lemma stoull_dec n : 0 <= n < 2 ^ 64 -> stoull (dec n) = Some n.
Proof.
  intros Hn. unfold dec. destruct (dec_fuel_spec 20 n) as [_ [|(c & s & E & Hc)]]; [lia|done|].
  pose proof (digits_dec 20 n) as Hd. rewrite E in *.
  destruct (digit_plain c s Hc) as [Hsp Hsel]. unfold stoull. cbn [skip_spaces].
  rewrite Hsp, Hsel, Hc, Hd by lia. rewrite (proj2 (Z.ltb_lt n (2 ^ 64))) by lia.
  unfold u64. by rewrite Z.mod_small.
Qed.

(** [std::stoi] reads back what [std::to_string] wrote. *)
Lemma stoi_dec n : 0 <= n < 2 ^ 31 -> stoi (dec n) = Some n.
Proof.
  intros Hn. unfold dec. destruct (dec_fuel_spec 20 n) as [_ [|(c & s & E & Hc)]]; [lia|done|].
  pose proof (digits_dec 20 n) as Hd. rewrite E in *.
  destruct (digit_plain c s Hc) as [Hsp Hsel]. unfold stoi, sto_signed. cbn [skip_spaces].
  rewrite Hsp, Hsel, Hc, Hd by lia. cbn [fst]. 
  rewrite (proj2 (Z.leb_le (- 2 ^ 31) n)), (proj2 (Z.ltb_lt n (2 ^ 31))) by lia. done.
Qed.
