(* ===== verification/LogManager.v ===== *)
(** The log manager (src/common/utils/log_manager.hpp, log_manager.cpp): which logger a name
    stands for, whether a name is enabled, and the levels; and the loggers a gateway sets up
    with it ([init_logger] of src/gateway/gateway_server).

    spdlog is third-party code: its registry of names and its loggers are the class [Spdlog],
    with its documented behaviour as [SpdlogLaws].  The patterns of the lines and what is
    written are not modelled.  Every function holds [s_mutex_], so each is one step. *)
From S2P Require Import Prelude.
Open Scope Z_scope.

(** ** spdlog *)

Class Spdlog (W logger : Type) := {
  sp_drop : string -> W -> W;
  (* [basic_logger_mt] and [stdout_color_mt]: [None] when they throw *)
  sp_file : string -> string -> W -> W * option logger;
  sp_console : string -> W -> W * option logger;
  sp_set_level : Z -> logger -> W -> W;
  sp_from_str : string -> Z;
  (* what can be observed *)
  sp_registered : W -> string -> bool;
  sp_level : W -> logger -> option Z;       (* [None]: there is no such logger *)
  sp_opens : string -> bool
}.

(** The level of a new logger. *)
Definition level_info : Z := 2.

(** A name can be created when it is not registered; a new logger is none of the old ones. *)
Class SpdlogLaws (W logger : Type) `{Spdlog W logger, EqDecision logger} := {
  law_drop n w : (forall m, sp_registered (sp_drop n w) m = sp_registered w m && negb (String.eqb m n)) /\
    forall l, sp_level (sp_drop n w) l = sp_level w l;
  law_console n w : if sp_registered w n then sp_console n w = (w, None)
    else exists w' l, sp_console n w = (w', Some l) /\ sp_level w l = None /\
      (forall m, sp_registered w' m = sp_registered w m || String.eqb m n) /\
      forall l', sp_level w' l' = if decide (l' = l) then Some level_info else sp_level w l';
  law_file n f w : if sp_registered w n || negb (sp_opens f) then sp_file n f w = (w, None)
    else exists w' l, sp_file n f w = (w', Some l) /\ sp_level w l = None /\
      (forall m, sp_registered w' m = sp_registered w m || String.eqb m n) /\
      forall l', sp_level w' l' = if decide (l' = l) then Some level_info else sp_level w l';
  law_set_level v l w : (forall m, sp_registered (sp_set_level v l w) m = sp_registered w m) /\
    forall l', sp_level (sp_set_level v l w) l' =
      if decide (l' = l) then const v <$> sp_level w l else sp_level w l'
}.

(** * The manager *)

Section Manager.
Context {W logger : Type} `{Spdlog W logger}.

Record LogManager := { s_loggers_ : gmap string logger; s_loggingEnabled_ : gmap string bool }.

Definition new_log_manager : LogManager := {| s_loggers_ := ∅; s_loggingEnabled_ := ∅ |}.

(** [s_loggers_[n] = l; s_loggingEnabled_[n] = true]. *)
Definition install (n : string) (l : logger) (m : LogManager) : LogManager :=
  {| s_loggers_ := <[n := l]> (s_loggers_ m); s_loggingEnabled_ := <[n := true]> (s_loggingEnabled_ m) |}.

(** The name is dropped first; when the new logger cannot be made, the manager keeps its old one. *)
Definition replace (n : string) (make : W -> W * option logger) : exec (LogManager * W) unit := fun '(m, w) =>
  match make (sp_drop n w) with
  | (w', Some l) => ((install n l m, w'), Ok tt)
  | (w', None) => ((m, w'), Throw)
  end.

Definition SetLogToFile (n filename : string) : exec (LogManager * W) unit := replace n (sp_file n filename).
Definition SetLogToConsole (n : string) : exec (LogManager * W) unit := replace n (sp_console n).

Definition SetLoggingEnabled (n : string) (enabled : bool) : exec (LogManager * W) unit := fun '(m, w) =>
  (({| s_loggers_ := s_loggers_ m; s_loggingEnabled_ := <[n := enabled]> (s_loggingEnabled_ m) |}, w), Ok tt).

Definition GetLogger (n : string) : exec (LogManager * W) logger := fun '(m, w) =>
  match s_loggers_ m !! n with
  | Some l => ((m, w), Ok l)
  | None => match sp_console n w with
            | (w', Some l) => ((install n l m, w'), Ok l)
            | (w', None) => ((m, w'), Throw)
            end
  end.

Definition IsLoggingEnabled (n : string) (m : LogManager) : bool := default true (s_loggingEnabled_ m !! n).

(** [SetLogLevel(level, name)]: the empty name is every logger there is. *)
Definition SetLogLevel (level : Z) (n : string) : exec (LogManager * W) unit := fun '(m, w) =>
  if String.eqb n EmptyString
  then ((m, foldr (fun p w => sp_set_level level p.2 w) w (map_to_list (s_loggers_ m))), Ok tt)
  else match s_loggers_ m !! n with
       | Some l => ((m, sp_set_level level l w), Ok tt)
       | None => match sp_console n w with
                 | (w', Some l) => ((install n l m, sp_set_level level l w'), Ok tt)
                 | (w', None) => ((m, w'), Throw)
                 end
       end.

Definition SetLogLevel_text (level n : string) : exec (LogManager * W) unit := SetLogLevel (sp_from_str level) n.

(** The overloads for several names. *)
Fixpoint SetLogLevel_names (level : Z) (names : list string) : exec (LogManager * W) unit :=
  match names with
  | [] => ret tt
  | n :: names => let* _ := SetLogLevel level n in SetLogLevel_names level names
  end.


(** [SetLogToFile] for each logger of a list, in order. *)
Fixpoint set_logs (path : string) (files : list (string * string)) : exec (LogManager * W) unit :=
  match files with
  | [] => ret tt
  | (n, f) :: files => let* _ := SetLogToFile n (path +:+ f) in set_logs path files
  end.

(** [GatewayServer::init_logger]: the directory, and the loggers with their files. *)
Definition log_dir (log_path : string) : string :=
  match String.get (String.length log_path - 1) log_path with
  | None => "logs/"
  | Some c => if String.eqb (String c EmptyString) "/" then log_path else log_path +:+ "/"
  end.

Definition gateway_logs : list (string * string) := [
  ("io_service_pool", "io_service_pool.log"); ("websocket_server", "websocket_server.log");
  ("websocket_session", "websocket_session.log"); ("connection_manager", "connection_manager.log");
  ("redis_manager", "redis_mgr.log"); ("redis_connection_pool", "redis_connection_pool.log");
  ("message_processor", "message_processor.log"); ("coro_message_processor", "coro_message_processor.log");
  ("message_parser", "message_parser.log"); ("auth_mgr", "auth_mgr.log");
  ("router_manager", "router_manager.log"); ("service_router", "router_manager.log");
  ("http_router", "router_manager.log")]%string.

Definition init_logger (log_path : string) : exec (LogManager * W) logger :=
  let path := log_dir log_path in
  let* _ := SetLogToFile "gateway_server" (path +:+ "gateway_server.log") in
  let* server_logger := GetLogger "gateway_server" in
  let* _ := set_logs path gateway_logs in
  ret server_logger.

End Manager.
Arguments LogManager : clear implicits.

(** * Loggers *)

Section Laws.
Context {W logger : Type} `{SpdlogLaws W logger}.
Implicit Types (m : LogManager logger) (w : W).

(** No name is registered that the manager does not know; its loggers exist and differ. *)
Definition managed (d : LogManager logger * W) : Prop :=
  (forall n, sp_registered d.2 n = true -> is_Some (s_loggers_ d.1 !! n)) /\
  (forall n l, s_loggers_ d.1 !! n = Some l -> is_Some (sp_level d.2 l)) /\
  (forall n n' l, s_loggers_ d.1 !! n = Some l -> s_loggers_ d.1 !! n' = Some l -> n = n').

(** The level of the logger of a name. *)
Definition level_of (d : LogManager logger * W) (n : string) : option Z :=
  s_loggers_ d.1 !! n ≫= sp_level d.2.

(** A logger was added for [n]: it is new and has the default level, the others are as before. *)
Definition added (n : string) (l : logger) (d d' : LogManager logger * W) : Prop :=
  d'.1 = install n l d.1 /\ managed d' /\
  forall n', level_of d' n' = if decide (n' = n) then Some level_info else level_of d n'.

Lemma install_managed n l m w w' : managed (m, w) -> sp_level w l = None ->
  (forall x, sp_registered w' x = true -> sp_registered w x = true \/ x = n) ->
  (forall l', sp_level w' l' = if decide (l' = l) then Some level_info else sp_level w l') ->
  added n l (m, w) (install n l m, w').
Proof.
  intros (H1 & H2 & H3) Hl Hr Hlev. simpl in *.
  assert (Hold : forall x l', s_loggers_ m !! x = Some l' -> l' <> l).
  { intros x l' Hx ->. specialize (H2 _ _ Hx). rewrite Hl in H2. by destruct H2. }
  split; [done|]. split.
  - split_and!; simpl.
    + intros x Hx. destruct (decide (x = n)) as [->|Hne]; [rewrite lookup_insert_eq; eauto|].
      rewrite lookup_insert_ne by done. destruct (Hr x Hx) as [|]; [auto|done].
    + intros x l' [(<- & ->)|(Hne & Hx)]%lookup_insert_Some; rewrite Hlev; [by rewrite decide_True|].
      rewrite decide_False by (by eapply Hold). by eapply H2.
    + intros x y l' [(<- & <-)|(Hx & Ex)]%lookup_insert_Some [(<- & ?)|(Hy & Ey)]%lookup_insert_Some; try done.
      * by apply Hold in Ey.
      * subst. by apply Hold in Ex.
      * by eapply H3.
  - intros x. unfold level_of. simpl. destruct (decide (x = n)) as [->|Hne].
    + rewrite lookup_insert_eq. simpl. by rewrite Hlev, decide_True.
    + rewrite lookup_insert_ne by done. destruct (s_loggers_ m !! x) as [l'|] eqn:E; [|done]. simpl.
      by rewrite Hlev, decide_False by (by eapply Hold).
Qed.

(** What dropping a name leaves. *)
Lemma drop_managed n m w : managed (m, w) -> managed (m, sp_drop n w) /\
  sp_registered (sp_drop n w) n = false /\ forall x, level_of (m, sp_drop n w) x = level_of (m, w) x.
Proof.
  intros (H1 & H2 & H3). destruct (law_drop (logger := logger) n w) as [Hr Hl]. simpl in *. split_and!.
  - split_and!; simpl; [|intros x l Hx; rewrite Hl; by eapply H2|done].
    intros x. rewrite Hr. intros [Hx _]%andb_prop. by apply H1.
  - by rewrite Hr, String.eqb_refl, andb_false_r.
  - intros x. unfold level_of. simpl. by destruct (s_loggers_ m !! x); simpl; rewrite ?Hl.
Qed.

(** A free name can be given a console logger. *)
Lemma console_added n m w : managed (m, w) -> sp_registered w n = false ->
  exists w' l, sp_console n w = (w', Some l) /\ added n l (m, w) (install n l m, w').
Proof.
  intros Hm Hn. pose proof (law_console n w) as Hc. rewrite Hn in Hc. destruct Hc as (w' & l & E & Hl & Hr & Hlev).
  exists w', l. split; [done|]. apply install_managed; try done.
  intros x. rewrite Hr. intros [|Hx%String.eqb_eq]%orb_prop; auto.
Qed.

Lemma unknown_free n m w : managed (m, w) -> s_loggers_ m !! n = None -> sp_registered w n = false.
Proof.
  intros (H1 & _) Hn. destruct (sp_registered w n) eqn:E; [|done]. apply H1 in E. simpl in E. rewrite Hn in E.
  by destruct E.
Qed.

Lemma set_level_spec v l (m : LogManager logger) w : managed (m, w) ->
  managed (m, sp_set_level v l w) /\
  forall x, level_of (m, sp_set_level v l w) x =
    if decide (s_loggers_ m !! x = Some l) then Some v else level_of (m, w) x.
Proof.
  intros (H1 & H2 & H3). destruct (law_set_level v l w) as [Hr Hl]. simpl in *.
  assert (Hx : forall x, level_of (m, sp_set_level v l w) x =
    if decide (s_loggers_ m !! x = Some l) then Some v else level_of (m, w) x).
  { intros x. unfold level_of. simpl. destruct (s_loggers_ m !! x) as [l'|] eqn:E; simpl.
    - rewrite Hl. destruct (decide (l' = l)) as [->|Hne].
      + destruct (H2 _ _ E) as [? ->]. by case_decide.
      + case_decide; congruence.
    - done. }
  split; [|exact Hx]. split_and!; simpl; [|intros x l' E|done].
  - intros x. rewrite Hr. apply H1.
  - specialize (Hx x). unfold level_of in Hx. simpl in Hx. rewrite E in Hx. simpl in Hx. rewrite Hx.
    case_match; [eauto|]. by eapply H2.
Qed.

Lemma set_all_spec v (m : LogManager logger) w (ps : list (string * logger)) : managed (m, w) ->
  (forall p, p ∈ ps -> s_loggers_ m !! p.1 = Some p.2) ->
  let w' := foldr (fun p w => sp_set_level v p.2 w) w ps in
  managed (m, w') /\
  forall x, level_of (m, w') x = if decide (x ∈ ps.*1) then Some v else level_of (m, w) x.
Proof.
  intros Hm. induction ps as [|[n l] ps IH]; intros Hps; simpl; [done|].
  destruct IH as [Hm' Hx]; [intros p Hp; apply Hps; by constructor|].
  destruct (set_level_spec v l m _ Hm') as [Hm'' Hx']. split; [done|]. intros x. rewrite Hx'.
  assert (En : s_loggers_ m !! n = Some l) by (apply (Hps (n, l)); by constructor).
  destruct (decide (s_loggers_ m !! x = Some l)) as [E|Hne].
  - destruct Hm as (_ & _ & Hinj). rewrite (Hinj x n l E En). rewrite decide_True by constructor. done.
  - rewrite Hx. assert (x <> n) by (by intros ->).
    destruct (decide (x ∈ ps.*1)); [rewrite decide_True by (by constructor)|rewrite decide_False]; try done.
    by intros [|]%elem_of_cons.
Qed.

Lemma set_log_level_spec v n m w : managed (m, w) -> exists d', SetLogLevel v n (m, w) = (d', Ok tt) /\ managed d' /\
  forall x, level_of d' x =
    if decide (n = EmptyString) then const v <$> level_of (m, w) x
    else if decide (x = n) then Some v else level_of (m, w) x.
Proof.
  intros Hm. unfold SetLogLevel. destruct (String.eqb_spec n EmptyString) as [->|Hne].
  + destruct (set_all_spec v m w (map_to_list (s_loggers_ m)) Hm) as [Hm' Hx].
    { intros [x l] Hp. by apply elem_of_map_to_list in Hp. }
    eexists. split; [done|]. split; [exact Hm'|]. intros x.
    rewrite Hx. destruct (decide (EmptyString = EmptyString)) as [_|]; [|done].
    destruct (decide _) as [Hin|Hnin].
    * apply list_elem_of_fmap in Hin as ([y l] & -> & Hp). apply elem_of_map_to_list in Hp. simpl.
      destruct Hm as (_ & H2 & _). destruct (H2 _ _ Hp) as [lv Elv]. unfold level_of. simpl in *.
      rewrite Hp. simpl. rewrite Elv. done.
    * unfold level_of. simpl. destruct (s_loggers_ m !! x) as [l|] eqn:E; [|done]. exfalso. apply Hnin.
      apply list_elem_of_fmap. exists (x, l). split; [done|]. by apply elem_of_map_to_list.
  + destruct (s_loggers_ m !! n) as [l|] eqn:E.
    * destruct (set_level_spec v l m w Hm) as [Hm' Hx]. eexists. split; [done|]. split; [exact Hm'|].
      intros x. rewrite Hx, (decide_False (P := n = EmptyString)) by done. destruct Hm as (_ & _ & Hinj).
      destruct (decide (x = n)) as [->|Hxn]; [by rewrite decide_True|].
      rewrite decide_False; [done|]. intros Ex. apply Hxn. by eapply Hinj.
    * destruct (console_added n m w Hm) as (w' & l & -> & A1 & A2 & A3); [by apply (unknown_free n m)|].
      destruct (set_level_spec v l (install n l m) w' A2) as [Hm' Hx]. eexists. split; [done|]. split; [exact Hm'|].
      intros x. rewrite Hx, (decide_False (P := n = EmptyString)) by done. simpl in *. destruct A2 as (_ & _ & Hinj).
      destruct (decide (x = n)) as [->|Hxn]; [by rewrite lookup_insert_eq, decide_True|].
      rewrite decide_False; [by rewrite A3, decide_False|]. intros Ex. apply Hxn. eapply Hinj; [exact Ex|].
      apply lookup_insert_eq.
Qed.

(** A redirection to a file that opens. *)
Lemma file_added n f (d : LogManager logger * W) : managed d -> sp_opens f = true ->
  exists d' l, SetLogToFile n f d = (d', Ok tt) /\ added n l d d'.
Proof.
  destruct d as [m w]. intros Hm Ho. destruct (drop_managed n m w Hm) as (Hd & Hn & Hx).
  unfold SetLogToFile, replace. pose proof (law_file n f (sp_drop n w)) as Hf. rewrite Hn, Ho in Hf. simpl in Hf.
  destruct Hf as (w' & l & -> & Hl & Hr & Hlev). exists (install n l m, w'), l. split; [done|].
  destruct (install_managed n l m _ w' Hd Hl) as (A1 & A2 & A3); [|done|].
  - intros x. rewrite Hr. intros [|Hy%String.eqb_eq]%orb_prop; auto.
  - split_and!; [done|done|]. intros x. by rewrite A3, Hx.
Qed.

Lemma set_logs_added path files (d : LogManager logger * W) : managed d ->
  Forall (fun p => sp_opens (path +:+ p.2) = true) files ->
  exists d', set_logs path files d = (d', Ok tt) /\ managed d' /\
    (forall n, level_of d' n = if decide (n ∈ files.*1) then Some level_info else level_of d n) /\
    forall n, n ∉ files.*1 -> s_loggers_ d'.1 !! n = s_loggers_ d.1 !! n.
Proof.
  intros Hd Hf. revert d Hd. induction Hf as [|[n f] files Ho _ IH]; intros d Hd; cbn [set_logs].
  { exists d. split_and!; try done. }
  destruct (file_added n (path +:+ f) d Hd Ho) as (d1 & l & E & E1 & Hd1 & Hl1). rewrite (bind_Ok _ _ _ _ _ E).
  destruct (IH d1 Hd1) as (d' & E' & Hd' & Hl & Hs). exists d'. split_and!; [done|done| |].
  - intros x. rewrite Hl, Hl1. simpl. destruct (decide (x ∈ files.*1)) as [Hx|Hx].
    + rewrite decide_True by (by constructor). done.
    + destruct (decide (x = n)) as [->|Hne]; [rewrite decide_True by constructor; done|].
      rewrite decide_False; [done|]. by intros [|]%elem_of_cons.
  - intros x [Hne Hx]%not_elem_of_cons. rewrite Hs by done. rewrite E1. simpl. by rewrite lookup_insert_ne.
Qed.

(** The loggers of the gateway: each has its file at the default level, the names that are not its
    own are as they were, and its own logger is the one under its name. *)
Lemma gateway_loggers log_path (d : LogManager logger * W) : managed d ->
  Forall (fun p => sp_opens (log_dir log_path +:+ p.2) = true) (("gateway_server", "gateway_server.log")%string :: gateway_logs) ->
  exists d' l, init_logger log_path d = (d', Ok l) /\ managed d' /\
    s_loggers_ d'.1 !! "gateway_server"%string = Some l /\
    forall n, level_of d' n = if decide (n ∈ "gateway_server"%string :: gateway_logs.*1) then Some level_info else level_of d n.
Proof.
  intros Hd [Ho Hf]%Forall_cons. unfold init_logger.
  destruct (file_added "gateway_server" (log_dir log_path +:+ "gateway_server.log") d Hd Ho) as (d1 & l & E & E1 & Hd1 & Hl1).
  rewrite (bind_Ok _ _ _ _ _ E).
  assert (Hg : s_loggers_ d1.1 !! "gateway_server"%string = Some l) by (rewrite E1; apply lookup_insert_eq).
  assert (Eg : GetLogger "gateway_server" d1 = (d1, Ok l)) by (unfold GetLogger; destruct d1; simpl in *; by rewrite Hg).
  rewrite (bind_Ok _ _ _ _ _ Eg).
  destruct (set_logs_added (log_dir log_path) gateway_logs d1 Hd1 Hf) as (d' & E' & Hd' & Hl & Hs).
  rewrite (bind_Ok _ _ _ _ _ E'). exists d', l. split_and!; [done|done| |].
  - rewrite Hs; [done|]. apply (bool_decide_eq_false_1 _). reflexivity.
  - intros n. rewrite Hl, Hl1. destruct (decide (n ∈ gateway_logs.*1)) as [Hx|Hx].
    + rewrite decide_True by (by constructor). done.
    + destruct (decide (n = "gateway_server"%string)) as [->|Hne]; [rewrite decide_True by constructor; done|].
      rewrite decide_False; [done|]. by intros [|]%elem_of_cons.
Qed.

(** From a fresh start, whatever was done: a name has one logger until it is redirected, which
    cannot fail on the console, and on a file only when the file cannot be opened, which leaves
    the earlier logger in use; no other name is touched.  A level is set for the one name, which
    gets a logger if it had none, or for every name there is; a name that comes later has the
    default level. *)
Lemma logger_names (d : LogManager logger * W) n : managed d ->
  (exists d' l, GetLogger n d = (d', Ok l) /\ GetLogger n d' = (d', Ok l) /\
     (d' = d \/ s_loggers_ d.1 !! n = None /\ added n l d d')) /\
  (exists d' l, SetLogToConsole n d = (d', Ok tt) /\ added n l d d') /\
  (forall f, if sp_opens f then exists d' l, SetLogToFile n f d = (d', Ok tt) /\ added n l d d'
     else exists d', SetLogToFile n f d = (d', Throw) /\ d'.1 = d.1 /\ managed d' /\
       forall x, level_of d' x = level_of d x) /\
  (forall v, exists d', SetLogLevel v n d = (d', Ok tt) /\ managed d' /\
     forall x, level_of d' x =
       if decide (n = EmptyString) then const v <$> level_of d x
       else if decide (x = n) then Some v else level_of d x).
Proof.
  destruct d as [m w]. intros Hm. split_and!.
  - unfold GetLogger. destruct (s_loggers_ m !! n) as [l|] eqn:E.
    + exists (m, w), l. rewrite E. by auto.
    + destruct (console_added n m w Hm) as (w' & l & Ec & Ha); [by apply (unknown_free n m)|].
      rewrite Ec. eexists _, l. split; [done|]. simpl. rewrite lookup_insert_eq. auto.
  - destruct (drop_managed n m w Hm) as (Hd & Hn & Hx). unfold SetLogToConsole, replace.
    destruct (console_added n m _ Hd Hn) as (w' & l & -> & Ha). exists (install n l m, w'), l.
    split; [done|]. destruct Ha as (A1 & A2 & A3). split_and!; [done|done|]. intros x. by rewrite A3, Hx.
  - intros f. destruct (sp_opens f) eqn:Ho; [by apply file_added|].
    destruct (drop_managed n m w Hm) as (Hd & Hn & Hx). unfold SetLogToFile, replace.
    pose proof (law_file n f (sp_drop n w)) as Hf. rewrite Hn, Ho in Hf. simpl in Hf.
    rewrite Hf. by exists (m, sp_drop n w).
  - intros v. by apply set_log_level_spec.
Qed.

Lemma fresh_managed w : (forall n, sp_registered w n = false) -> managed (new_log_manager, w).
Proof. intros Hw. split_and!; simpl; [intros n; by rewrite Hw|done|done]. Qed.
End Laws.

(** * A registry in memory: a logger is its place in the list of levels *)
Module MemSpdlog.
Definition t : Type := gset string * list Z.

Definition create (ok : bool) (n : string) (w : t) : t * option nat :=
  if bool_decide (n ∈ w.1) || negb ok then (w, None)
  else (({[n]} ∪ w.1, w.2 ++ [level_info]), Some (length w.2)).

Definition opens (f : string) : bool := negb (String.eqb f EmptyString).

#[export] Instance mem_spdlog : Spdlog t nat := {
  sp_drop n w := (w.1 ∖ {[n]}, w.2);
  sp_file n f := create (opens f) n;
  sp_console := create true;
  sp_set_level v l w := (w.1, <[l := v]> w.2);
  sp_from_str s := if String.eqb s "debug" then 1 else if String.eqb s "info" then 2 else
    if String.eqb s "warn" then 3 else if String.eqb s "error" then 4 else 6;
  sp_registered w n := bool_decide (n ∈ w.1);
  sp_level w l := w.2 !! l;
  sp_opens := opens
}.

Lemma created_spec ok n (w : t) : if bool_decide (n ∈ w.1) || negb ok then create ok n w = (w, None)
  else exists w' l, create ok n w = (w', Some l) /\ w.2 !! l = None /\
    (forall m, bool_decide (m ∈ w'.1) = bool_decide (m ∈ w.1) || String.eqb m n) /\
    forall l', w'.2 !! l' = if decide (l' = l) then Some level_info else w.2 !! l'.
Proof.
  unfold create. destruct (_ || _); [done|]. eexists _, _. split; [done|]. split; [by apply lookup_ge_None|]. split.
  - intros m. simpl. destruct (String.eqb_spec m n) as [->|Hne]; rewrite ?orb_true_r, ?orb_false_r.
    + apply bool_decide_eq_true. set_solver.
    + apply bool_decide_ext. set_solver.
  - intros l. simpl. destruct (decide (l = length w.2)) as [->|Hne]; [by apply list_lookup_middle|].
    destruct (decide (l < length w.2)%nat); [by apply lookup_app_l|].
    rewrite !(proj2 (lookup_ge_None _ _)); [done|lia|]. rewrite length_app. simpl. lia.
Qed.

#[export] Instance mem_spdlog_laws : SpdlogLaws t nat.
Proof.
  split.
  - intros n w. split; [|done]. intros m. simpl. destruct (String.eqb_spec m n) as [->|Hne];
      rewrite ?andb_true_r, ?andb_false_r; [apply bool_decide_eq_false|apply bool_decide_ext]; set_solver.
  - intros n w. pose proof (created_spec true n w) as H. simpl. by rewrite orb_false_r in H.
  - intros n f w. apply created_spec.
  - intros v l w. split; [done|]. intros l'. simpl. case_decide as Hl.
    + subst. destruct (w.2 !! l) eqn:E; simpl.
      * apply list_lookup_insert_eq. by eapply lookup_lt_Some.
      * apply lookup_ge_None. rewrite length_insert. by apply lookup_ge_None.
    + by apply list_lookup_insert_ne.
Qed.

(** "net" goes to a file, "db" to the console; then every level is set; "late" comes after it.
    A file that cannot be opened leaves "net" where it was, but spdlog has forgotten the name. *)
Definition story : LogManager nat * t :=
  let run {A} (m : exec (LogManager nat * t) A) d := (m d).1 in
  run (SetLogToFile "net" "") (run (GetLogger "late") (run (SetLogLevel_text "warn" EmptyString)
    (run (GetLogger "db") (run (SetLogToFile "net" "net.log") (new_log_manager, (∅, [])))))).

Example story_levels : level_of story "net" = Some 3 /\ level_of story "db" = Some 3 /\ level_of story "late" = Some 2 /\
  sp_registered story.2 "net" = false /\ (GetLogger "net" story).2 = Ok 0%nat.
Proof. vm_compute. done. Qed.

(** The directory is completed with a slash, and the gateway gets its first logger. *)
Example gateway_story : (init_logger "var/log" (new_log_manager, (∅, []))).2 = Ok 0%nat /\
  (log_dir EmptyString, log_dir "var/log", log_dir "var/log/") = ("logs/", "var/log/", "var/log/")%string.
Proof. vm_compute. done. Qed.
End MemSpdlog.
