(* ===== verification/WebSocket.v ===== *)
(** The web socket server and its sessions ([common/network/websocket_server.cpp],
    [common/network/websocket_session.cpp]): the handshake, the registry, the bounded send
    queue and the close.

    The acceptor and every session of a server run on one [io_context], which one thread of
    the IOServicePool runs: handlers are executed one after the other, so each is a function
    on the whole server.  Boost.Asio and Beast appear as the source of events: a completion
    handler runs when its operation was started; [net::post] appends to a queue of tasks.
    Ghost fields record what was handed to the socket and to the callbacks. *)
From S2P Require Import Prelude Text.
From Stdlib Require Import Ascii.
Open Scope Z_scope.

(** * Data *)

Definition ws_max_send_queue_size : nat := 1024.

(** The outstanding operation of a session's chain of reads. *)
Inductive ws_op := OpSslHandshake | OpUpgradeRead | OpWsAccept | OpRead.

Record WebSocketSession := {
  send_queue : list string;
  session_id : string;
  token : string;
  closed : bool;
  registered : bool;
  handshake_active : bool;
  pending : option ws_op;
  writing : bool;             (* an async_write of do_write is outstanding *)
  (* ghosts *)
  queued : list string;       (* messages appended to the send queue, in order *)
  wire : list string          (* messages handed to async_write, in order *)
}.

(** The HTTP upgrade request, as far as it is read. *)
Record upgrade_request := { target : string; authorization : option string }.

(** What [net::post] runs later; a session is named by the order of its creation. *)
Inductive task :=
| TaskSend (i : nat) (message : string)
| TaskClose (i : nat)        (* perform_close, from close() *)
| TaskFail (i : nat)         (* perform_close, from fail_and_close *)
| TaskStop.

Record WebSocketServer := {
  sessions : list WebSocketSession;    (* every session created *)
  registry : gmap string nat;          (* sessions_ *)
  id_counter : Z;                      (* the static counter of generate_id *)
  active_handshakes : Z;
  accepting : bool;                    (* an async_accept is outstanding *)
  tasks : list task;
  (* ghosts *)
  stopped : bool;
  connects : list nat;                 (* calls of connect_handler_ *)
  disconnects : list nat;              (* calls of disconnect_handler_ *)
  undefined : bool                     (* pop_front was called on an empty deque *)
}.

(** * Field updates *)

Definition upd_chain (p : option ws_op) (tok : string) (s : WebSocketSession) : WebSocketSession :=
  {| send_queue := send_queue s; session_id := session_id s; token := tok; closed := closed s;
     registered := registered s; handshake_active := handshake_active s; pending := p;
     writing := writing s; queued := queued s; wire := wire s |}.

Definition upd_queue (q : list string) (wr : bool) (qd wi : list string) (s : WebSocketSession) : WebSocketSession :=
  {| send_queue := q; session_id := session_id s; token := token s; closed := closed s;
     registered := registered s; handshake_active := handshake_active s; pending := pending s;
     writing := wr; queued := qd; wire := wi |}.

Definition upd_flags (sid : string) (cl reg hs : bool) (s : WebSocketSession) : WebSocketSession :=
  {| send_queue := send_queue s; session_id := sid; token := token s; closed := cl;
     registered := reg; handshake_active := hs; pending := pending s;
     writing := writing s; queued := queued s; wire := wire s |}.

Definition set_session (i : nat) (s : WebSocketSession) (w : WebSocketServer) : WebSocketServer :=
  {| sessions := <[i := s]> (sessions w); registry := registry w; id_counter := id_counter w;
     active_handshakes := active_handshakes w; accepting := accepting w; tasks := tasks w;
     stopped := stopped w; connects := connects w; disconnects := disconnects w; undefined := undefined w |}.

Definition set_tasks (l : list task) (w : WebSocketServer) : WebSocketServer :=
  {| sessions := sessions w; registry := registry w; id_counter := id_counter w;
     active_handshakes := active_handshakes w; accepting := accepting w; tasks := l;
     stopped := stopped w; connects := connects w; disconnects := disconnects w; undefined := undefined w |}.

Definition set_registry (r : gmap string nat) (n : Z) (co dis : list nat) (w : WebSocketServer) : WebSocketServer :=
  {| sessions := sessions w; registry := r; id_counter := n;
     active_handshakes := active_handshakes w; accepting := accepting w; tasks := tasks w;
     stopped := stopped w; connects := co; disconnects := dis; undefined := undefined w |}.

Definition set_active (n : Z) (w : WebSocketServer) : WebSocketServer :=
  {| sessions := sessions w; registry := registry w; id_counter := id_counter w;
     active_handshakes := n; accepting := accepting w; tasks := tasks w;
     stopped := stopped w; connects := connects w; disconnects := disconnects w; undefined := undefined w |}.

Definition set_undefined (w : WebSocketServer) : WebSocketServer :=
  {| sessions := sessions w; registry := registry w; id_counter := id_counter w;
     active_handshakes := active_handshakes w; accepting := accepting w; tasks := tasks w;
     stopped := stopped w; connects := connects w; disconnects := disconnects w; undefined := true |}.

Definition post (t : task) (w : WebSocketServer) : WebSocketServer := set_tasks (tasks w ++ [t]) w.

(** * The token of the upgrade request *)

(** [s.find(p, 0)] and the text behind the match. *)
Fixpoint after (p s : string) : option string :=
  if String.prefix p s then Some (String.substring (String.length p) (String.length s) s)
  else match s with EmptyString => None | String _ s' => after p s' end.

(** The text before the first '&'. *)
Fixpoint until_amp (s : string) : string :=
  match s with
  | EmptyString => EmptyString
  | String c s' => if Ascii.eqb c "&" then EmptyString else String c (until_amp s')
  end.

(** The query parameter, then the Authorization header, which wins. *)
Definition extract_token (req : upgrade_request) (token0 : string) : string :=
  let token1 := match after "token=" (target req) with Some rest => until_amp rest | None => token0 end in
  match authorization req with
  | Some auth_value =>
      if String.prefix "Bearer " auth_value
      then String.substring 7 (String.length auth_value) auth_value else token1
  | None => token1
  end.

(** * The server *)

(** [WebSocketServer::record_handshake_started] and [record_handshake_finished]. *)
Definition record_handshake_started (w : WebSocketServer) : WebSocketServer :=
  set_active (active_handshakes w + 1) w.
Definition record_handshake_finished (w : WebSocketServer) : WebSocketServer :=
  if 0 <? active_handshakes w then set_active (active_handshakes w - 1) w else w.

(** [WebSocketServer::add_session]; [emplace] keeps an entry that exists. *)
Definition add_session (i : nat) (sid : string) (w : WebSocketServer) : WebSocketServer :=
  set_registry (match registry w !! sid with Some _ => registry w | None => <[sid := i]> (registry w) end)
    (id_counter w) (connects w ++ [i]) (disconnects w) w.

(** [WebSocketServer::remove_session]. *)
Definition remove_session (i : nat) (sid : string) (w : WebSocketServer) : WebSocketServer :=
  set_registry (delete sid (registry w)) (id_counter w) (connects w) (disconnects w ++ [i]) w.

(** * The session *)

Definition new_ws_session : WebSocketSession :=
  {| send_queue := []; session_id := ""; token := ""; closed := false; registered := false;
     handshake_active := false; pending := None; writing := false; queued := []; wire := [] |}.

(** [WebSocketSession::finish_handshake_tracking]. *)
Definition finish_handshake_tracking (i : nat) (s : WebSocketSession) (w : WebSocketServer) : WebSocketServer :=
  if handshake_active s
  then record_handshake_finished (set_session i (upd_flags (session_id s) (closed s) (registered s) false s) w)
  else w.

(** [WebSocketSession::perform_close]. *)
Definition perform_close (i : nat) (s : WebSocketSession) (w : WebSocketServer) : WebSocketServer :=
  if closed s then w else
  let w := finish_handshake_tracking i s w in
  let s' := upd_flags (session_id s) true false false (upd_queue [] (writing s) (queued s) (wire s) s) in
  let w := set_session i s' w in
  if registered s then remove_session i (session_id s) w else w.

(** [WebSocketSession::start]. *)
Definition start (i : nat) (s : WebSocketSession) (w : WebSocketServer) : WebSocketServer :=
  record_handshake_started (set_session i
    (upd_chain (Some OpSslHandshake) (token s) (upd_flags (session_id s) (closed s) (registered s) true s)) w).

(** [fail_and_close] from a handler whose operation is over. *)
Definition fail_and_close (i : nat) (s : WebSocketSession) (w : WebSocketServer) : WebSocketServer :=
  post (TaskFail i) (set_session i (upd_chain None (token s) s) w).

(** The completion handler of the SSL handshake. *)
Definition on_ssl_handshake (i : nat) (ok : bool) (s : WebSocketSession) (w : WebSocketServer) : WebSocketServer :=
  if ok then set_session i (upd_chain (Some OpUpgradeRead) (token s) s) w else fail_and_close i s w.

(** The completion handler of the upgrade request; [None] is an error. *)
Definition on_upgrade_read (i : nat) (req : option upgrade_request) (s : WebSocketSession) (w : WebSocketServer)
  : WebSocketServer :=
  match req with
  | Some req => set_session i (upd_chain (Some OpWsAccept) (extract_token req (token s)) s) w
  | None => fail_and_close i s w
  end.

(** [WebSocketSession::generate_id]; [size_t] wraps around. *)
Definition generate_id (n : Z) : string := ("session_" +:+ dec n)%string.

(** The completion handler of the web socket handshake. *)
Definition on_ws_accept (i : nat) (ok : bool) (s : WebSocketSession) (w : WebSocketServer) : WebSocketServer :=
  if ok then
    let n := u64 (id_counter w + 1) in
    let sid := generate_id n in
    let s := upd_chain (Some OpRead) (token s) (upd_flags sid (closed s) true (handshake_active s) s) in
    let w := set_registry (registry w) n (connects w) (disconnects w) (set_session i s w) in
    finish_handshake_tracking i s (add_session i sid w)
  else fail_and_close i s w.

(** The completion handler of [do_read]: the message is handled and the next one is read. *)
Definition on_read (i : nat) (ok : bool) (s : WebSocketSession) (w : WebSocketServer) : WebSocketServer :=
  if ok then w else fail_and_close i s w.

(** [do_write] on a queue with this front. *)
Definition do_write (front : string) (s : WebSocketSession) : WebSocketSession :=
  upd_queue (send_queue s) true (queued s) (wire s ++ [front]) s.

(** The completion handler of [do_write]. *)
Definition on_ws_write (i : nat) (ok : bool) (s : WebSocketSession) (w : WebSocketServer) : WebSocketServer :=
  let s := upd_queue (send_queue s) false (queued s) (wire s) s in
  if ok then
    match send_queue s with
    | [] => set_undefined (set_session i s w)
    | _ :: rest =>
        let s := upd_queue rest false (queued s) (wire s) s in
        match rest with
        | [] => set_session i s w
        | front :: _ => set_session i (do_write front s) w
        end
    end
  else post (TaskFail i) (set_session i s w).

(** The task of [WebSocketSession::send]. *)
Definition run_send (i : nat) (message : string) (s : WebSocketSession) (w : WebSocketServer) : WebSocketServer :=
  if closed s then w
  else if (ws_max_send_queue_size <=? length (send_queue s))%nat then post (TaskFail i) w
  else
    let s := upd_queue (send_queue s ++ [message]) (writing s) (queued s ++ [message]) (wire s) s in
    set_session i (if (length (send_queue s) =? 1)%nat then do_write message s else s) w.

(** The task of [WebSocketServer::stop]: every registered session is asked to close. *)
Definition run_stop (w : WebSocketServer) : WebSocketServer :=
  {| sessions := sessions w; registry := ∅; id_counter := id_counter w;
     active_handshakes := active_handshakes w; accepting := accepting w;
     tasks := tasks w ++ map TaskClose (map_to_list (registry w)).*2;
     stopped := true; connects := connects w; disconnects := disconnects w; undefined := undefined w |}.

Definition run_task (t : task) (w : WebSocketServer) : WebSocketServer :=
  match t with
  | TaskStop => run_stop w
  | TaskSend i m => match sessions w !! i with Some s => run_send i m s w | None => w end
  | TaskClose i | TaskFail i => match sessions w !! i with Some s => perform_close i s w | None => w end
  end.

(** The handler of [do_accept]: a new session is started and the next one is accepted; after
    an error nothing is. *)
Definition on_accept (ok : bool) (w : WebSocketServer) : WebSocketServer :=
  if ok then
    let i := length (sessions w) in
    start i new_ws_session
      {| sessions := sessions w ++ [new_ws_session]; registry := registry w; id_counter := id_counter w;
         active_handshakes := active_handshakes w; accepting := true; tasks := tasks w;
         stopped := stopped w; connects := connects w; disconnects := disconnects w; undefined := undefined w |}
  else
    {| sessions := sessions w; registry := registry w; id_counter := id_counter w;
       active_handshakes := active_handshakes w; accepting := false; tasks := tasks w;
       stopped := stopped w; connects := connects w; disconnects := disconnects w; undefined := undefined w |}.

(** * Events *)

Inductive event :=
| EvAccept (ok : bool)
| EvSslHandshake (i : nat) (ok : bool)
| EvUpgradeRead (i : nat) (req : option upgrade_request)
| EvWsAccept (i : nat) (ok : bool)
| EvRead (i : nat) (ok : bool)
| EvWrite (i : nat) (ok : bool)
| EvTask                              (* the first posted task *)
| EvSend (i : nat) (message : string) (* a call of send, close, broadcast or stop from anywhere *)
| EvClose (i : nat)
| EvBroadcast (message : string)
| EvStop.

(** The handler of operation [op] of session [i], when that is outstanding. *)
Definition completes (op : ws_op) (i : nat) (h : WebSocketSession -> WebSocketServer -> WebSocketServer)
    (w : WebSocketServer) : option WebSocketServer :=
  s ← sessions w !! i;
  match pending s with
  | Some o => match o, op with
              | OpSslHandshake, OpSslHandshake | OpUpgradeRead, OpUpgradeRead
              | OpWsAccept, OpWsAccept | OpRead, OpRead => Some (h s w)
              | _, _ => None
              end
  | None => None
  end.

(** A pointer to a session is given out by [add_session] first. *)
Definition given (i : nat) (w : WebSocketServer) : bool :=
  match sessions w !! i with Some s => negb (String.eqb (session_id s) "") | None => false end.

Definition on_event (e : event) (w : WebSocketServer) : option WebSocketServer :=
  match e with
  | EvAccept ok => if accepting w then Some (on_accept ok w) else None
  | EvSslHandshake i ok => completes OpSslHandshake i (on_ssl_handshake i ok) w
  | EvUpgradeRead i req => completes OpUpgradeRead i (on_upgrade_read i req) w
  | EvWsAccept i ok => completes OpWsAccept i (on_ws_accept i ok) w
  | EvRead i ok => completes OpRead i (on_read i ok) w
  | EvWrite i ok => s ← sessions w !! i; if writing s then Some (on_ws_write i ok s w) else None
  | EvTask => match tasks w with t :: rest => Some (run_task t (set_tasks rest w)) | [] => None end
  | EvSend i m => if given i w then Some (post (TaskSend i m) w) else None
  | EvClose i => if given i w then Some (post (TaskClose i) w) else None
  | EvBroadcast m =>
      Some (set_tasks (tasks w ++ map (fun i => TaskSend i m) (map_to_list (registry w)).*2) w)
  | EvStop => Some (post TaskStop w)
  end.

(** Fewer than 2^64 - 1 ids were generated: after that the counter wraps and ids repeat. *)
Definition ids_left (w : WebSocketServer) : bool := id_counter w + 1 <? 2 ^ 64.

Definition ws_step (w w' : WebSocketServer) : Prop :=
  ids_left w = true /\ exists e, on_event e w = Some w'.

(** [WebSocketServer::start] on a new server. *)
Definition new_server : WebSocketServer :=
  {| sessions := []; registry := ∅; id_counter := 0; active_handshakes := 0; accepting := true;
     tasks := []; stopped := false; connects := []; disconnects := []; undefined := false |}.

Fixpoint run (es : list event) (w : WebSocketServer) : option WebSocketServer :=
  match es with
  | [] => Some w
  | e :: es => if ids_left w then on_event e w ≫= run es else None
  end.

Lemma run_steps es w w' : run es w = Some w' -> rtc ws_step w w'.
Proof.
  revert w. induction es as [|e es IH]; intros w; simpl; [by intros [= ->]|].
  destruct (ids_left w) eqn:El; [|done]. destruct (on_event e w) as [w1|] eqn:E; [|done]. simpl.
  intros Hr. eapply rtc_l; [|by apply IH]. split; [done|by exists e].
Qed.

(** * Counting sessions *)

Definition cnt (f : WebSocketSession -> bool) (l : list WebSocketSession) : Z := zlen (List.filter f l).

Lemma cnt_insert f l i s s' : l !! i = Some s ->
  cnt f (<[i := s']> l) = cnt f l - Z.b2z (f s) + Z.b2z (f s').
Proof.
  unfold cnt, zlen. revert i. induction l as [|x l IH]; intros [|i] Hi; simplify_eq/=.
  - destruct (f s), (f s'); simpl; lia.
  - specialize (IH i Hi). destruct (f x); simpl; lia.
Qed.

Lemma cnt_app f l x : cnt f (l ++ [x]) = cnt f l + Z.b2z (f x).
Proof. unfold cnt. rewrite List.filter_app, zlen_app. f_equal. simpl. by destruct (f x). Qed.

Lemma cnt_range f l : 0 <= cnt f l <= zlen l.
Proof. unfold cnt, zlen. pose proof (filter_length_le f l). lia. Qed.

Lemma cnt_pos f l i s : l !! i = Some s -> f s = true -> 0 < cnt f l.
Proof.
  unfold cnt, zlen. revert i. induction l as [|x l IH]; intros [|i] Hi Hf; simplify_eq/=.
  - rewrite Hf. simpl. lia.
  - specialize (IH i Hi Hf). destruct (f x); simpl; lia.
Qed.

(** * The invariant *)

Definition is_given (s : WebSocketSession) : bool := negb (String.eqb (session_id s) "").

Definition handshaking (s : WebSocketSession) : bool :=
  match pending s with Some OpSslHandshake | Some OpUpgradeRead | Some OpWsAccept => true | _ => false end.

(** One session by itself. *)
Record session_ok (s : WebSocketSession) : Prop := {
  ok_closed : closed s = true -> send_queue s = [] /\ registered s = false /\ handshake_active s = false;
  ok_open : closed s = false -> (writing s = true -> send_queue s <> []) /\
              queued s = wire s ++ tail (send_queue s) /\ registered s = is_given s;
  ok_bound : (length (send_queue s) <= ws_max_send_queue_size)%nat;
  ok_fifo : wire s `prefix_of` queued s;
  ok_handshaking : handshaking s = true ->
    is_given s = false /\ closed s = false /\ handshake_active s = true /\ writing s = false;
  ok_active : handshake_active s = true -> is_given s = false
}.

Definition task_ok (w : WebSocketServer) (t : task) : Prop :=
  match t with
  | TaskStop => True
  | TaskSend i _ | TaskClose i | TaskFail i => exists s, sessions w !! i = Some s /\ handshaking s = false
  end.

Record server_ok (w : WebSocketServer) : Prop := {
  ok_sessions i s : sessions w !! i = Some s -> session_ok s;
  ok_active_count : active_handshakes w = cnt handshake_active (sessions w);
  ok_counter : id_counter w = cnt is_given (sessions w);
  ok_ids i s : sessions w !! i = Some s -> is_given s = true ->
    exists k, 1 <= k <= id_counter w /\ session_id s = generate_id k;
  ok_unique i j s t : sessions w !! i = Some s -> sessions w !! j = Some t -> is_given s = true ->
    session_id s = session_id t -> i = j;
  ok_registry sid i : registry w !! sid = Some i ->
    exists s, sessions w !! i = Some s /\ registered s = true /\ session_id s = sid;
  ok_registered i s : stopped w = false -> sessions w !! i = Some s -> registered s = true ->
    registry w !! session_id s = Some i;
  ok_connects i : i ∈ connects w <-> exists s, sessions w !! i = Some s /\ is_given s = true;
  ok_disconnects i : i ∈ disconnects w <->
    exists s, sessions w !! i = Some s /\ is_given s = true /\ closed s = true;
  ok_once : NoDup (connects w) /\ NoDup (disconnects w);
  ok_tasks t : t ∈ tasks w -> task_ok w t
}.

(** ** Identifiers *)

Lemma dec_inj a b : 0 <= a < 2 ^ 64 -> 0 <= b < 2 ^ 64 -> dec a = dec b -> a = b.
Proof.
  intros Ha Hb E. unfold dec in E.
  pose proof (digits_dec 20 a ltac:(lia)) as Da. pose proof (digits_dec 20 b ltac:(lia)) as Db.
  rewrite E, Db in Da. by simplify_eq.
Qed.

Lemma generate_id_inj a b : 0 <= a < 2 ^ 64 -> 0 <= b < 2 ^ 64 -> generate_id a = generate_id b -> a = b.
Proof. intros Ha Hb E. apply dec_inj; [done|done|]. unfold generate_id in E. by injection E. Qed.

Lemma generate_id_given n : String.eqb (generate_id n) "" = false.
Proof. done. Qed.

Lemma registered_given s : session_ok s -> registered s = true -> is_given s = true /\ closed s = false.
Proof.
  intros Hs Hr. destruct (closed s) eqn:Ec.
  - destruct (ok_closed s Hs Ec) as (_ & ? & _). congruence.
  - destruct (ok_open s Hs Ec) as (_ & _ & E). by rewrite <- E.
Qed.

(** ** Changes that keep what the server sees of a session *)

Definition same_flags (s s' : WebSocketSession) : Prop :=
  session_id s' = session_id s /\ closed s' = closed s /\ registered s' = registered s /\
  handshake_active s' = handshake_active s /\ (handshaking s' = true -> handshaking s = true).

Lemma insert_session w i s s' j t :
  sessions w !! i = Some s -> sessions (set_session i s' w) !! j = Some t ->
  (j = i /\ t = s') \/ (j <> i /\ sessions w !! j = Some t).
Proof.
  intros Hi Hj. simpl in Hj. destruct (decide (j = i)) as [->|Hne].
  - rewrite list_lookup_insert_eq in Hj by (by eapply lookup_lt_Some). left. by simplify_eq.
  - rewrite list_lookup_insert_ne in Hj by done. by right.
Qed.

Lemma inserted_session w i s s' : sessions w !! i = Some s ->
  sessions (set_session i s' w) !! i = Some s'.
Proof. intros Hi. simpl. apply list_lookup_insert_eq. by eapply lookup_lt_Some. Qed.

Lemma kept_session w i s s' j t : sessions w !! i = Some s -> j <> i -> sessions w !! j = Some t ->
  sessions (set_session i s' w) !! j = Some t.
Proof. intros Hi Hne Hj. simpl. by rewrite list_lookup_insert_ne. Qed.

Lemma same_flags_refl s : same_flags s s.
Proof. by repeat split. Qed.

Lemma same_given s s' : same_flags s s' -> is_given s' = is_given s.
Proof. intros (E & _). unfold is_given. by rewrite E. Qed.

Section SetSame.
Context (w : WebSocketServer) (i : nat) (s s' : WebSocketSession).
Hypothesis (Hi : sessions w !! i = Some s) (Hsame : same_flags s s').

Lemma set_back j t : sessions (set_session i s' w) !! j = Some t ->
  exists t0, sessions w !! j = Some t0 /\ same_flags t0 t.
Proof.
  intros Hj. destruct (insert_session w i s s' j t Hi Hj) as [[-> ->]|[_ Hj']]; [by exists s|].
  exists t. split; [done|apply same_flags_refl].
Qed.

Lemma set_forth j t0 : sessions w !! j = Some t0 ->
  exists t, sessions (set_session i s' w) !! j = Some t /\ same_flags t0 t.
Proof.
  intros Hj. destruct (decide (j = i)) as [->|Hne].
  - exists s'. simplify_eq. split; [by eapply inserted_session|done].
  - exists t0. split; [by eapply kept_session|apply same_flags_refl].
Qed.

Lemma cnt_same f : (f s' = f s) -> cnt f (sessions (set_session i s' w)) = cnt f (sessions w).
Proof. intros E. simpl. rewrite (cnt_insert f _ i s s' Hi), E. lia. Qed.

(** Replacing a session by one with the same flags keeps the invariant. *)
Lemma set_same_ok : server_ok w -> session_ok s' -> server_ok (set_session i s' w).
Proof.
  intros Hw Hs'. pose proof Hsame as (Hid & Hcl & Hreg & Hhs & Hh). split.
  - intros j t Hj. destruct (insert_session w i s s' j t Hi Hj) as [[-> ->]|[_ Hj']]; [done|by eapply ok_sessions].
  - rewrite cnt_same by done. apply Hw.
  - rewrite cnt_same by (by apply same_given). apply Hw.
  - intros j t (t0 & Ht & Hf)%set_back Hg. rewrite (same_given _ _ Hf) in Hg.
    destruct Hf as (-> & _). by apply (ok_ids w Hw j t0).
  - intros j k t u (t0 & Ht & Hft)%set_back (u0 & Hu & Hfu)%set_back Hg.
    rewrite (same_given _ _ Hft) in Hg. destruct Hft as (-> & _), Hfu as (-> & _).
    by apply (ok_unique w Hw j k t0 u0).
  - intros sid j Hj. apply (ok_registry w Hw) in Hj as (t0 & Ht & Hr & Hsid).
    destruct (set_forth j t0 Ht) as (t & Ht' & (E1 & _ & E2 & _)). exists t. split; [done|]. by rewrite E1, E2.
  - intros j t Hst (t0 & Ht & (-> & _ & -> & _))%set_back. by apply (ok_registered w Hw).
  - intros j. simpl. rewrite (ok_connects w Hw). split; intros (t & Ht & Hg).
    + destruct (set_forth j t Ht) as (t' & Ht' & Hf). exists t'. split; [done|]. by rewrite (same_given _ _ Hf).
    + apply set_back in Ht as (t0 & Ht & Hf). exists t0. by rewrite <- (same_given _ _ Hf).
  - intros j. simpl. rewrite (ok_disconnects w Hw). split; intros (t & Ht & Hg & Hc).
    + destruct (set_forth j t Ht) as (t' & Ht' & Hf). exists t'. rewrite (same_given _ _ Hf).
      destruct Hf as (_ & -> & _). done.
    + apply set_back in Ht as (t0 & Ht & Hf). exists t0. rewrite <- (same_given _ _ Hf).
      destruct Hf as (_ & <- & _). done.
  - apply Hw.
  - intros t Ht. apply (ok_tasks w Hw) in Ht. destruct t as [j m|j|j|]; [..|done];
      destruct Ht as (t0 & Ht0 & Hn); destruct (set_forth j t0 Ht0) as (t & Ht & (_ & _ & _ & _ & E));
      exists t; (split; [done|]); (destruct (handshaking t); [by rewrite E in Hn|done]).
Qed.
End SetSame.

(** Posting a task on a session whose handshake is over. *)
Lemma set_tasks_ok w l : server_ok w -> (forall t, t ∈ l -> task_ok w t) -> server_ok (set_tasks l w).
Proof. intros Hw Hl. split; try apply Hw. intros t Ht. by apply Hl. Qed.

Lemma post_ok w t : server_ok w -> task_ok w t -> server_ok (post t w).
Proof.
  intros Hw Ht. apply set_tasks_ok; [done|]. intros u [Hu|Hu]%elem_of_app; [by apply (ok_tasks w Hw)|].
  apply list_elem_of_singleton in Hu as ->. done.
Qed.

(** The end of a chain of operations. *)
Lemma chain_ok s p tok : session_ok s ->
  (handshaking (upd_chain p tok s) = true -> handshaking s = true) -> session_ok (upd_chain p tok s).
Proof. intros Hs Hh. split; try apply Hs. intros E. apply (ok_handshaking s Hs), Hh, E. Qed.

Lemma fail_and_close_ok w i s : server_ok w -> sessions w !! i = Some s -> server_ok (fail_and_close i s w).
Proof.
  intros Hw Hi. apply post_ok.
  - apply (set_same_ok w i s); [done|by repeat split|done|]. apply chain_ok; [|done]. by eapply ok_sessions.
  - exists (upd_chain None (token s) s). split; [by eapply inserted_session|done].
Qed.

(** ** The close *)

Lemma finish_tracking w i s : server_ok w -> sessions w !! i = Some s ->
  finish_handshake_tracking i s w =
  if handshake_active s
  then set_active (active_handshakes w - 1) (set_session i (upd_flags (session_id s) (closed s) (registered s) false s) w)
  else w.
Proof.
  intros Hw Hi. unfold finish_handshake_tracking. destruct (handshake_active s) eqn:Eh; [|done].
  unfold record_handshake_finished. simpl. rewrite (proj2 (Z.ltb_lt _ _)); [done|].
  rewrite (ok_active_count w Hw). by eapply cnt_pos.
Qed.

Definition closed_session (s : WebSocketSession) : WebSocketSession :=
  upd_flags (session_id s) true false false (upd_queue [] (writing s) (queued s) (wire s) s).

Lemma set_session_twice i s1 s2 w : set_session i s2 (set_session i s1 w) = set_session i s2 w.
Proof. unfold set_session. simpl. by rewrite list_insert_insert_eq. Qed.

Lemma perform_close_eq w i s : server_ok w -> sessions w !! i = Some s -> closed s = false ->
  perform_close i s w =
  let w1 := set_active (active_handshakes w - Z.b2z (handshake_active s)) (set_session i (closed_session s) w) in
  if registered s then remove_session i (session_id s) w1 else w1.
Proof.
  intros Hw Hi Hc. unfold perform_close. rewrite Hc, (finish_tracking w i s Hw Hi). cbv zeta.
  fold (closed_session s). destruct (handshake_active s); simpl Z.b2z.
  - unfold set_session, set_active, remove_session, set_registry. simpl. by rewrite list_insert_insert_eq.
  - rewrite Z.sub_0_r. by destruct w.
Qed.

Section Close.
Context (w : WebSocketServer) (i : nat) (s : WebSocketSession).
Hypothesis (Hw : server_ok w) (Hi : sessions w !! i = Some s).
Hypothesis (Hc : closed s = false) (Hh : handshaking s = false).

Let w1 := set_active (active_handshakes w - Z.b2z (handshake_active s)) (set_session i (closed_session s) w).

Lemma closed_session_ok : session_ok (closed_session s).
Proof.
  pose proof (ok_sessions w Hw i s Hi) as Hs. split; simpl; try done; [lia|apply Hs|].
  unfold handshaking in *. simpl. by rewrite Hh.
Qed.

Lemma close_back j t : sessions w1 !! j = Some t ->
  (j = i /\ t = closed_session s) \/ (j <> i /\ sessions w !! j = Some t).
Proof. apply (insert_session w i s). exact Hi. Qed.

Lemma close_forth j t : sessions w !! j = Some t -> exists t', sessions w1 !! j = Some t' /\
  session_id t' = session_id t /\ is_given t' = is_given t /\ handshaking t' = handshaking t /\
  (closed t = true -> closed t' = true).
Proof.
  intros Hj. destruct (decide (j = i)) as [->|Hne].
  - simplify_eq. exists (closed_session s). split; [by eapply inserted_session|]. by rewrite Hc.
  - exists t. split; [by eapply kept_session|done].
Qed.

Lemma close_old j t : sessions w1 !! j = Some t -> exists t0, sessions w !! j = Some t0 /\
  session_id t0 = session_id t /\ is_given t0 = is_given t.
Proof.
  intros [[-> ->]|[_ Hj]]%close_back; [by exists s|by exists t].
Qed.

Lemma close_registered : registered s = is_given s.
Proof. by destruct (ok_open s (ok_sessions w Hw i s Hi) Hc) as (_ & _ & ->). Qed.

(** The parts of the invariant that a close keeps whether or not the session was registered. *)
Lemma close_common :
  (forall j t, sessions w1 !! j = Some t -> session_ok t) /\
  (active_handshakes w1 = cnt handshake_active (sessions w1)) /\
  (id_counter w1 = cnt is_given (sessions w1)) /\
  (forall j t, sessions w1 !! j = Some t -> is_given t = true ->
     exists k, 1 <= k <= id_counter w1 /\ session_id t = generate_id k) /\
  (forall j k t u, sessions w1 !! j = Some t -> sessions w1 !! k = Some u -> is_given t = true ->
     session_id t = session_id u -> j = k) /\
  (forall j, j ∈ connects w <-> exists t, sessions w1 !! j = Some t /\ is_given t = true) /\
  (forall t, t ∈ tasks w -> task_ok w1 t).
Proof.
  split_and!.
  - intros j t [[-> ->]|[_ Hj]]%close_back; [apply closed_session_ok|by eapply ok_sessions].
  - simpl. rewrite (cnt_insert _ _ i s _ Hi), (ok_active_count w Hw). simpl. lia.
  - simpl. rewrite (cnt_insert _ _ i s _ Hi), (ok_counter w Hw).
    change (is_given (closed_session s)) with (is_given s). lia.
  - intros j t (t0 & Ht0 & <- & <-)%close_old Hg. by apply (ok_ids w Hw j t0).
  - intros j k t u (t0 & Ht0 & <- & <-)%close_old (u0 & Hu0 & <- & _)%close_old Hg.
    by apply (ok_unique w Hw j k t0 u0).
  - intros j. rewrite (ok_connects w Hw). split; intros (t & Ht & Hg).
    + apply close_forth in Ht as (t' & ? & _ & E & _). exists t'. by rewrite E.
    + apply close_old in Ht as (t0 & ? & _ & E). exists t0. by rewrite E.
  - intros t Ht. apply (ok_tasks w Hw) in Ht. destruct t as [j m|j|j|]; [..|done];
      destruct Ht as (t & Ht & Hn); apply close_forth in Ht as (t' & ? & _ & _ & E & _);
      exists t'; by rewrite E.
Qed.

Lemma close_disconnects j : (exists t, sessions w1 !! j = Some t /\ is_given t = true /\ closed t = true) <->
  j ∈ disconnects w \/ (j = i /\ registered s = true).
Proof.
  rewrite (ok_disconnects w Hw), close_registered. split.
  - intros (t & [[-> ->]|[_ Hj]]%close_back & Hg & Hcl); [by right|left; by exists t].
  - intros [(t & Ht & Hg & Hcl)|[-> Hg]].
    + apply close_forth in Ht as (t' & ? & _ & E & _ & Hk). exists t'. rewrite E. auto.
    + exists (closed_session s). split; [by eapply inserted_session|]. done.
Qed.

Lemma perform_close_ok : server_ok (perform_close i s w).
Proof.
  rewrite perform_close_eq by done. cbv zeta. fold w1.
  destruct close_common as (C1 & C2 & C3 & C4 & C5 & C6 & C7).
  pose proof (ok_once w Hw) as [Hn1 Hn2].
  destruct (registered s) eqn:Er; split; try done.
  - intros sid j. simpl. rewrite lookup_delete_Some. intros [Hne Hj].
    apply (ok_registry w Hw) in Hj as (t & Ht & Hr & Hsid). exists t. split_and!; try done.
    eapply kept_session; [done| |done]. intros ->. by simplify_eq.
  - intros j t Hst [[-> ->]|[Hne Hj]]%close_back Hr; [done|]. simpl.
    rewrite lookup_delete_ne; [by apply (ok_registered w Hw)|]. intros E. apply Hne.
    apply (ok_unique w Hw j i t s); try done. by apply registered_given; [eapply ok_sessions|].
  - intros j. change (j ∈ disconnects w ++ [i] <->
      exists t, sessions w1 !! j = Some t /\ is_given t = true /\ closed t = true).
    rewrite elem_of_app, list_elem_of_singleton, close_disconnects, Er. tauto.
  - simpl. split; [done|]. apply NoDup_app. split_and!; [done| |apply NoDup_singleton].
    intros j Hj ->%list_elem_of_singleton. apply (ok_disconnects w Hw) in Hj as (t & Ht & _ & ?). congruence.
  - intros sid j Hj. apply (ok_registry w Hw) in Hj as (t & Ht & Hr & Hsid). exists t. split_and!; try done.
    eapply kept_session; [done| |done]. intros ->. congruence.
  - intros j t Hst [[-> ->]|[Hne Hj]]%close_back Hr; [done|]. by apply (ok_registered w Hw).
  - intros j. change (j ∈ disconnects w <->
      exists t, sessions w1 !! j = Some t /\ is_given t = true /\ closed t = true).
    rewrite close_disconnects, Er. intuition congruence.
Qed.
End Close.

(** ** Creation and registration *)

Definition started_session : WebSocketSession :=
  upd_chain (Some OpSslHandshake) "" (upd_flags "" false false true new_ws_session).

Lemma on_accept_ok w ok : server_ok w -> server_ok (on_accept ok w).
Proof.
  intros Hw. destruct ok; [|split; apply Hw]. unfold on_accept, start, record_handshake_started.
  assert (El : <[length (sessions w) := started_session]> (sessions w ++ [new_ws_session]) =
               sessions w ++ [started_session]).
  { rewrite <- (Nat.add_0_r (length (sessions w))) at 1. by rewrite insert_app_r. }
  unfold set_session. simpl. fold started_session. rewrite El.
  assert (Hold : forall j t, sessions w !! j = Some t -> (sessions w ++ [started_session]) !! j = Some t).
  { intros j t Hj. by apply lookup_app_l_Some. }
  split; simpl.
  - intros j t [[_ Hj]|[_ <-]]%lookup_snoc_Some; [by eapply ok_sessions|].
    split; simpl; try done. unfold ws_max_send_queue_size. lia.
  - rewrite cnt_app, (ok_active_count w Hw). done.
  - rewrite cnt_app, (ok_counter w Hw). simpl. lia.
  - intros j t [[_ Hj]|[_ <-]]%lookup_snoc_Some Hg; [by apply (ok_ids w Hw j)|done].
  - intros j k t u [[_ Hj]|[_ <-]]%lookup_snoc_Some [[_ Hk]|[_ <-]]%lookup_snoc_Some Hg E; [|..|done].
    + by apply (ok_unique w Hw j k t u).
    + unfold is_given in Hg. rewrite E in Hg. done.
    + done.
  - intros sid j Hj. apply (ok_registry w Hw) in Hj as (t & Ht & ?). exists t. auto.
  - intros j t Hst [[_ Hj]|[_ <-]]%lookup_snoc_Some Hr; [by apply (ok_registered w Hw)|done].
  - intros j. rewrite (ok_connects w Hw). split; intros (t & Ht & Hg); [by exists t; auto|].
    apply lookup_snoc_Some in Ht as [[_ Ht]|[_ <-]]; [by exists t|done].
  - intros j. rewrite (ok_disconnects w Hw). split; intros (t & Ht & Hg & Hc); [by exists t; auto|].
    apply lookup_snoc_Some in Ht as [[_ Ht]|[_ <-]]; [by exists t|done].
  - apply Hw.
  - intros t Ht. apply (ok_tasks w Hw) in Ht. destruct t as [j m|j|j|]; [..|done];
      destruct Ht as (t & Ht & Hn); exists t; auto.
Qed.

Section Register.
Context (w : WebSocketServer) (i : nat) (s : WebSocketSession).
Hypothesis (Hw : server_ok w) (Hi : sessions w !! i = Some s).
Hypothesis (Hp : pending s = Some OpWsAccept) (Hbound : id_counter w + 1 < 2 ^ 64).

Let n := id_counter w + 1.
Let s' := upd_chain (Some OpRead) (token s) (upd_flags (generate_id n) (closed s) true false s).

Lemma register_session : is_given s = false /\ closed s = false /\ handshake_active s = true.
Proof.
  destruct (ok_handshaking s) as (? & ? & ? & _); [by eapply ok_sessions| |done].
  unfold handshaking. by rewrite Hp.
Qed.

Lemma counter_nonneg : 0 <= id_counter w.
Proof. rewrite (ok_counter w Hw). apply cnt_range. Qed.

(** No session has the new id. *)
Lemma new_id_fresh j t : sessions w !! j = Some t -> session_id t <> generate_id n.
Proof.
  intros Hj E. assert (Hg : is_given t = true) by (unfold is_given; by rewrite E).
  destruct (ok_ids w Hw j t Hj Hg) as (k & Hk & Ek). rewrite Ek in E.
  pose proof counter_nonneg. apply generate_id_inj in E; unfold n in *; lia.
Qed.

Lemma register_eq : on_ws_accept i true s w =
  set_active (active_handshakes w - 1)
    (set_registry (<[generate_id n := i]> (registry w)) n (connects w ++ [i]) (disconnects w) (set_session i s' w)).
Proof.
  destruct register_session as (Hg & Hc & Hh). unfold on_ws_accept, u64. cbv zeta.
  rewrite (Z.mod_small _ (2 ^ 64)) by (pose proof counter_nonneg; lia). fold n.
  unfold finish_handshake_tracking. simpl. rewrite Hh.
  unfold record_handshake_finished. simpl. rewrite (proj2 (Z.ltb_lt _ _)).
  2: { rewrite (ok_active_count w Hw). by eapply cnt_pos. }
  unfold set_active, set_session, set_registry. simpl. rewrite list_insert_insert_eq.
  destruct (registry w !! generate_id n) as [j|] eqn:Er; [|done].
  apply (ok_registry w Hw) in Er as (t & Ht & _ & E). by destruct (new_id_fresh j t Ht).
Qed.

Lemma register_session_ok : session_ok s'.
Proof.
  pose proof (ok_sessions w Hw i s Hi) as Hs. destruct register_session as (Hg & Hc & Hh).
  destruct (ok_open s Hs Hc) as (H1 & H2 & _). split; simpl; try done; try apply Hs.
  congruence.
Qed.

Lemma register_back j t : sessions (set_session i s' w) !! j = Some t ->
  (j = i /\ t = s') \/ (j <> i /\ sessions w !! j = Some t).
Proof. apply (insert_session w i s). exact Hi. Qed.

Lemma register_other j t : sessions w !! j = Some t -> is_given t = true ->
  j <> i /\ sessions (set_session i s' w) !! j = Some t.
Proof.
  intros Hj Hg. assert (Hne : j <> i).
  { intros ->. destruct register_session. congruence. }
  split; [done|]. by eapply kept_session.
Qed.

Lemma register_ok : server_ok (on_ws_accept i true s w).
Proof.
  rewrite register_eq. destruct register_session as (Hg & Hc & Hh).
  pose proof counter_nonneg as Hn. pose proof (ok_once w Hw) as [Hn1 Hn2].
  pose proof (inserted_session w i s s' Hi) as Hnew. split.
  - intros j t [[-> ->]|[_ Hj]]%register_back; [apply register_session_ok|by eapply ok_sessions].
  - simpl. rewrite (cnt_insert _ _ i s s' Hi), (ok_active_count w Hw), Hh. simpl. lia.
  - simpl. rewrite (cnt_insert _ _ i s s' Hi), Hg, <- (ok_counter w Hw). simpl. unfold n. lia.
  - intros j t [[-> ->]|[_ Hj]]%register_back Hgt; [exists n; simpl; unfold n; split; [lia|done]|].
    destruct (ok_ids w Hw j t Hj Hgt) as (k & Hk & E). exists k. simpl. unfold n. split; [lia|done].
  - intros j k t u [[-> ->]|[Hj' Hj]]%register_back [[-> ->]|[Hk' Hk]]%register_back Hgt E; [done|..].
    + by destruct (new_id_fresh k u Hk).
    + by destruct (new_id_fresh j t Hj).
    + by apply (ok_unique w Hw j k t u).
  - intros sid j. simpl. rewrite lookup_insert_Some. intros [[<- <-]|[Hne Hj]]; [by exists s'|].
    apply (ok_registry w Hw) in Hj as (t & Ht & Hr & Hsid). exists t.
    split; [|done]. apply register_other; [done|].
    by apply registered_given; [eapply ok_sessions|].
  - intros j t Hst [[-> ->]|[_ Hj]]%register_back Hr; simpl; [apply lookup_insert_eq|].
    rewrite lookup_insert_ne; [by apply (ok_registered w Hw)|]. intros E. by destruct (new_id_fresh j t Hj).
  - intros j. change (j ∈ connects w ++ [i] <->
      exists t, sessions (set_session i s' w) !! j = Some t /\ is_given t = true).
    rewrite elem_of_app, list_elem_of_singleton, (ok_connects w Hw). split.
    + intros [(t & Ht & Hgt)| ->]; [exists t; split; [by apply register_other|done]|by exists s'].
    + intros (t & [[-> ->]|[_ Hj]]%register_back & Hgt); [by right|left; by exists t].
  - intros j. change (j ∈ disconnects w <->
      exists t, sessions (set_session i s' w) !! j = Some t /\ is_given t = true /\ closed t = true).
    rewrite (ok_disconnects w Hw). split.
    + intros (t & Ht & Hgt & Hct). exists t. split; [by apply register_other|done].
    + intros (t & [[-> ->]|[_ Hj]]%register_back & Hgt & Hct); [simpl in Hct; congruence|by exists t].
  - simpl. split; [|done]. apply NoDup_app. split_and!; [done| |apply NoDup_singleton].
    intros j Hj ->%list_elem_of_singleton. apply (ok_connects w Hw) in Hj as (t & Ht & ?). congruence.
  - assert (Htask : forall j, (exists t, sessions w !! j = Some t /\ handshaking t = false) ->
      exists t, sessions (set_session i s' w) !! j = Some t /\ handshaking t = false).
    { intros j (t & Ht & Hht). destruct (decide (j = i)) as [->|Hne]; [by exists s'|].
      exists t. split; [by eapply kept_session|done]. }
    intros t Ht. apply (ok_tasks w Hw) in Ht. destruct t as [j m|j|j|]; [..|done]; by apply Htask.
Qed.
End Register.

(** ** The send queue *)

Lemma queue_ok s q wr qd wi : session_ok s -> handshaking s = false ->
  (closed s = true -> q = []) ->
  (closed s = false -> (wr = true -> q <> []) /\ qd = wi ++ tail q) ->
  (length q <= ws_max_send_queue_size)%nat -> wi `prefix_of` qd ->
  session_ok (upd_queue q wr qd wi s).
Proof.
  intros Hs Hh Hq Ho Hb Hf. split; simpl; try done; try apply Hs.
  - intros Hc. destruct (ok_closed s Hs Hc) as (_ & ? & ?). auto.
  - intros Hc. destruct (Ho Hc). destruct (ok_open s Hs Hc) as (_ & _ & E). by rewrite E.
  - unfold handshaking in *. simpl. by rewrite Hh.
Qed.

Lemma queue_set_ok w i s q wr qd wi : server_ok w -> sessions w !! i = Some s -> handshaking s = false ->
  (closed s = true -> q = []) ->
  (closed s = false -> (wr = true -> q <> []) /\ qd = wi ++ tail q) ->
  (length q <= ws_max_send_queue_size)%nat -> wi `prefix_of` qd ->
  server_ok (set_session i (upd_queue q wr qd wi s) w).
Proof.
  intros Hw Hi Hh ? ? ? ?. apply (set_same_ok w i s); [done|by repeat split|done|].
  apply queue_ok; try done. by eapply ok_sessions.
Qed.

Lemma run_send_ok w i m s : server_ok w -> sessions w !! i = Some s -> handshaking s = false ->
  server_ok (run_send i m s w).
Proof.
  intros Hw Hi Hh. unfold run_send. destruct (closed s) eqn:Ec; [done|].
  destruct (Nat.leb_spec ws_max_send_queue_size (length (send_queue s))) as [Hl|Hl].
  { apply post_ok; [done|by exists s]. }
  pose proof (ok_sessions w Hw i s Hi) as Hs. destruct (ok_open s Hs Ec) as (Hwr & Hq & _).
  destruct (ok_fifo s Hs) as [k Hk]. cbv zeta. cbn [send_queue upd_queue].
  rewrite length_app. simpl length.
  destruct (send_queue s) as [|x q] eqn:Eq; simpl.
  - unfold do_write. simpl.
    apply (queue_set_ok w i s [m] true (queued s ++ [m]) (wire s ++ [m])); try done.
    + congruence.
    + intros _. split; [done|]. rewrite Hq. simpl. by rewrite !app_nil_r.
    + rewrite Hq. simpl. by rewrite app_nil_r.
  - rewrite (proj2 (Nat.eqb_neq _ _)) by lia. apply queue_set_ok; try done.
    + congruence.
    + intros _. split; [done|]. rewrite Hq. simpl. by rewrite app_assoc.
    + simpl in *. rewrite length_app. simpl. lia.
    + rewrite Hk. eexists. by rewrite <- app_assoc.
Qed.

(** The completion of a write.  It pops the front of the queue: of an empty one when the
    session was closed since. *)
Lemma on_ws_write_ok w i ok s : server_ok w -> sessions w !! i = Some s -> writing s = true ->
  server_ok (on_ws_write i ok s w) /\
  undefined (on_ws_write i ok s w) = undefined w || (ok && closed s).
Proof.
  intros Hw Hi Hwr. pose proof (ok_sessions w Hw i s Hi) as Hs. destruct (ok_fifo s Hs) as [k Hk].
  assert (Hh : handshaking s = false).
  { destruct (handshaking s) eqn:Eh; [|done]. destruct (ok_handshaking s Hs Eh) as (_ & _ & _ & ?). congruence. }
  unfold on_ws_write. cbv zeta. cbn [send_queue upd_queue]. destruct ok; simpl.
  - destruct (closed s) eqn:Ec.
    + destruct (ok_closed s Hs Ec) as (Eq & _). rewrite Eq, orb_true_r. split; [|done].
      assert (Hset : server_ok (set_session i (upd_queue [] false (queued s) (wire s) s) w)).
      { apply queue_set_ok; try done; [congruence|simpl; lia|by exists k]. }
      split; apply Hset.
    + rewrite orb_false_r. destruct (ok_open s Hs Ec) as (Hne & Hq & _).
      destruct (send_queue s) as [|x [|y q]] eqn:Eq; [by destruct (Hne Hwr)|..]; (split; [|done]).
      * apply (queue_set_ok w i s [] false (queued s) (wire s)); try done; [simpl; lia|by exists k].
      * apply (queue_set_ok w i s (y :: q) true (queued s) (wire s ++ [y])); try done.
        -- congruence.
        -- intros _. split; [done|]. rewrite Hq. simpl. by rewrite <- app_assoc.
        -- pose proof (ok_bound s Hs) as Hb. rewrite Eq in Hb. simpl in *. lia.
        -- rewrite Hq. simpl. exists q. by rewrite <- app_assoc.
  - rewrite orb_false_r. split; [|done]. apply post_ok; [|exists (upd_queue (send_queue s) false (queued s) (wire s) s)].
    + apply queue_set_ok; try done; [by intros (? & _)%(ok_closed s Hs)| |apply Hs|by exists k].
      intros Hc. split; [done|]. by destruct (ok_open s Hs Hc) as (_ & ? & _).
    + split; [by eapply inserted_session|done].
Qed.

(** ** Tasks and events *)

Lemma run_stop_ok w : server_ok w -> server_ok (run_stop w).
Proof.
  intros Hw. split; simpl; try apply Hw; try done.
  intros t [Ht|Ht]%elem_of_app; [by apply (ok_tasks w Hw)|].
  apply list_elem_of_fmap in Ht as (i & -> & Hin). apply list_elem_of_fmap in Hin as ([sid j] & -> & Hj).
  apply elem_of_map_to_list, (ok_registry w Hw) in Hj as (s & Hs & Hr & _). exists s. split; [done|].
  pose proof (ok_sessions w Hw _ s Hs) as Hso. destruct (handshaking s) eqn:Eh; [|done].
  destruct (ok_handshaking s Hso Eh) as (Hg & _). apply registered_given in Hr as [? _]; [congruence|done].
Qed.

Lemma run_task_ok w t : server_ok w -> task_ok w t -> server_ok (run_task t w).
Proof.
  intros Hw Ht. destruct t as [i m|i|i|]; simpl.
  - destruct Ht as (s & Hs & ?). rewrite Hs. by apply run_send_ok.
  - destruct Ht as (s & Hs & ?). rewrite Hs. destruct (closed s) eqn:Ec; [by unfold perform_close; rewrite Ec|].
    by apply perform_close_ok.
  - destruct Ht as (s & Hs & ?). rewrite Hs. destruct (closed s) eqn:Ec; [by unfold perform_close; rewrite Ec|].
    by apply perform_close_ok.
  - by apply run_stop_ok.
Qed.

Lemma given_handshake w i : server_ok w -> given i w = true ->
  exists s, sessions w !! i = Some s /\ handshaking s = false.
Proof.
  intros Hw Hg. unfold given in Hg. destruct (sessions w !! i) as [s|] eqn:Es; [|done].
  exists s. split; [done|]. destruct (handshaking s) eqn:Eh; [|done].
  destruct (ok_handshaking s (ok_sessions w Hw i s Es) Eh) as (E & _). unfold is_given in E. congruence.
Qed.

Lemma registered_handshake w sid i : server_ok w -> registry w !! sid = Some i ->
  exists s, sessions w !! i = Some s /\ handshaking s = false.
Proof.
  intros Hw Hj. apply (ok_registry w Hw) in Hj as (s & Hs & Hr & _). exists s. split; [done|].
  pose proof (ok_sessions w Hw _ s Hs) as Hso. destruct (handshaking s) eqn:Eh; [|done].
  destruct (ok_handshaking s Hso Eh) as (Hg & _). apply registered_given in Hr as [? _]; [congruence|done].
Qed.

(** Inverts an event that completes an operation of the chain. *)
Lemma completes_inv op i h w w' : completes op i h w = Some w' ->
  exists s, sessions w !! i = Some s /\ pending s = Some op /\ w' = h s w.
Proof.
  unfold completes. destruct (sessions w !! i) as [s|]; [|done]. simpl. intros E. exists s. split; [done|].
  destruct (pending s) as [o|]; [|done]. by destruct o, op; simplify_eq.
Qed.

(** The steps of the handshake that only move the chain on. *)
Lemma chain_set_ok w i s p tok : server_ok w -> sessions w !! i = Some s ->
  (handshaking (upd_chain p tok s) = true -> handshaking s = true) ->
  server_ok (set_session i (upd_chain p tok s) w).
Proof.
  intros Hw Hi Hh. apply (set_same_ok w i s); [done|by repeat split|done|].
  apply chain_ok; [|done]. by eapply ok_sessions.
Qed.

(** ** Steps *)

Lemma sessions_of_set i s w : length (sessions (set_session i s w)) = length (sessions w).
Proof. apply length_insert. Qed.

(** Every event keeps the invariant, as long as the counter of the ids does not wrap; and
    only a successful write on a session that is closed meets an empty queue. *)
Lemma on_event_ok w e w' : server_ok w -> id_counter w + 1 < 2 ^ 64 -> on_event e w = Some w' ->
  server_ok w' /\
  undefined w' = undefined w ||
    match e with
    | EvWrite i true => match sessions w !! i with Some s => closed s | None => false end
    | _ => false
    end.
Proof.
  intros Hw Hb E. destruct e as [ok|i ok|i req|i ok|i ok|i ok| |i m|i|m|]; simpl in E.
  - destruct (accepting w); simplify_eq. split; [by apply on_accept_ok|]. rewrite orb_false_r. by destruct ok.
  - apply completes_inv in E as (s & Hi & Hp & ->). unfold on_ssl_handshake. rewrite orb_false_r.
    destruct ok; (split; [|done]); [|by apply fail_and_close_ok].
    apply chain_set_ok; try done. intros _. unfold handshaking. by rewrite Hp.
  - apply completes_inv in E as (s & Hi & Hp & ->). unfold on_upgrade_read. rewrite orb_false_r.
    destruct req as [req|]; (split; [|done]); [|by apply fail_and_close_ok].
    apply chain_set_ok; try done. intros _. unfold handshaking. by rewrite Hp.
  - apply completes_inv in E as (s & Hi & Hp & ->). rewrite orb_false_r. destruct ok.
    + split; [by apply register_ok|]. by rewrite (register_eq w i s Hw Hi Hp Hb).
    + split; [by apply fail_and_close_ok|done].
  - apply completes_inv in E as (s & Hi & Hp & ->). rewrite orb_false_r. unfold on_read.
    destruct ok; [done|]. split; [by apply fail_and_close_ok|done].
  - destruct (sessions w !! i) as [s|] eqn:Hi; [|done]. simpl in E. destruct (writing s) eqn:Ewr; simplify_eq.
    destruct (on_ws_write_ok w i ok s Hw Hi Ewr) as [Hok Hu]. split; [done|]. rewrite Hu. by destruct ok.
  - destruct (tasks w) as [|t rest] eqn:Et; simplify_eq. rewrite orb_false_r.
    assert (Hw1 : server_ok (set_tasks rest w)).
    { apply set_tasks_ok; [done|]. intros u Hu. apply (ok_tasks w Hw). rewrite Et. by constructor. }
    assert (Ht : task_ok w t) by (apply (ok_tasks w Hw); rewrite Et; constructor).
    split; [by apply run_task_ok|].
    destruct t as [i m|i|i|]; [..|done]; destruct Ht as (s & Hs & _); simpl; rewrite Hs.
    + unfold run_send. repeat case_match; done.
    + destruct (closed s) eqn:Ec; [by unfold perform_close; rewrite Ec|].
      rewrite (perform_close_eq (set_tasks rest w) i s) by done. cbv zeta. by case_match.
    + destruct (closed s) eqn:Ec; [by unfold perform_close; rewrite Ec|].
      rewrite (perform_close_eq (set_tasks rest w) i s) by done. cbv zeta. by case_match.
  - destruct (given i w) eqn:Eg; simplify_eq. rewrite orb_false_r. split; [|done].
    apply post_ok; [done|]. by apply given_handshake.
  - destruct (given i w) eqn:Eg; simplify_eq. rewrite orb_false_r. split; [|done].
    apply post_ok; [done|]. by apply given_handshake.
  - simplify_eq. rewrite orb_false_r. split; [|done]. apply set_tasks_ok; [done|].
    intros t [Ht|Ht]%elem_of_app; [by apply (ok_tasks w Hw)|].
    apply list_elem_of_fmap in Ht as (i & -> & Hin). apply list_elem_of_fmap in Hin as ([sid j] & -> & Hj).
    apply elem_of_map_to_list in Hj. by eapply registered_handshake.
  - simplify_eq. rewrite orb_false_r. split; [|done]. by apply post_ok.
Qed.

(** * Theorems *)

Definition ws_steps := rtc ws_step.

Lemma new_server_ok : server_ok new_server.
Proof.
  split; simpl; try done; try (by intros [|?]).
  - intros i. split; [by intros ?%elem_of_nil|by intros (s & ? & _)].
  - intros i. split; [by intros ?%elem_of_nil|by intros (s & ? & _)].
  - split; constructor.
  - by intros t ?%elem_of_nil.
Qed.

Lemma steps_server_ok w : ws_steps new_server w -> server_ok w.
Proof.
  revert w. apply rtc_ind_r; [apply new_server_ok|]. intros w w' _ (Hb%Z.ltb_lt & e & E) IH.
  by destruct (on_event_ok w e w' IH Hb E).
Qed.

(** C9: every run of the server keeps, in every order of handlers, posted tasks and failures
    of the network: (1) the send queue of a session never exceeds 1024 messages, what was
    handed to the socket is an initial part of what was queued, in order, and while the
    session is open nothing but the messages behind the one being written is missing; (2) the
    registry lists only open sessions under their own ids, and, unless the server was
    stopped, every open session that completed the handshake; no two sessions share an id;
    (3) the number of active handshakes is the number of sessions in their handshake; (4) the
    connect handler is called exactly once for each session that completed the handshake, and
    the disconnect handler exactly once for those of them that are closed. *)
Theorem server_reachable_ok w : ws_steps new_server w ->
  (forall i s, sessions w !! i = Some s ->
     (length (send_queue s) <= ws_max_send_queue_size)%nat /\ wire s `prefix_of` queued s /\
     (closed s = false -> queued s = wire s ++ tail (send_queue s)) /\
     (closed s = true -> send_queue s = [])) /\
  (forall sid i, registry w !! sid = Some i ->
     exists s, sessions w !! i = Some s /\ closed s = false /\ session_id s = sid) /\
  (stopped w = false -> forall i s, sessions w !! i = Some s -> is_given s = true -> closed s = false ->
     registry w !! session_id s = Some i) /\
  (forall i j s t, sessions w !! i = Some s -> sessions w !! j = Some t -> is_given s = true ->
     session_id s = session_id t -> i = j) /\
  active_handshakes w = cnt handshake_active (sessions w) /\
  (forall i, i ∈ connects w <-> exists s, sessions w !! i = Some s /\ is_given s = true) /\
  (forall i, i ∈ disconnects w <->
     exists s, sessions w !! i = Some s /\ is_given s = true /\ closed s = true) /\
  NoDup (connects w) /\ NoDup (disconnects w).
Proof.
  intros Hw%steps_server_ok. split_and!; try apply Hw.
  - intros i s Hi. pose proof (ok_sessions w Hw i s Hi) as Hs. split_and!; try apply Hs.
  - intros sid i (s & Hs & Hr & Hsid)%(ok_registry w Hw). exists s. split_and!; try done.
    by apply registered_given; [eapply ok_sessions|].
  - intros Hst i s Hi Hg Hc. apply (ok_registered w Hw); try done.
    pose proof (ok_sessions w Hw i s Hi) as Hs. destruct (ok_open s Hs Hc) as (_ & _ & E). by rewrite E.
Qed.

(** A session is closed while its first write is outstanding; the completion handler of the
    write had been queued with success. *)
Definition late_write : list event :=
  [EvAccept true; EvSslHandshake 0 true;
   EvUpgradeRead 0 (Some {| target := "/?token=abc&x=1"; authorization := None |});
   EvWsAccept 0 true; EvSend 0 "hello"; EvTask; EvClose 0; EvTask; EvWrite 0 true].

(** C33: [pop_front] is called on an empty deque, which is undefined behaviour, in exactly one
    situation: a write completes with success on a session that was closed in the meantime,
    because [perform_close] clears the queue and the completion handler does not look at
    [closed_].  The situation is reachable. *)
Theorem late_write_undefined :
  (forall w e w', ws_steps new_server w -> ids_left w = true -> on_event e w = Some w' ->
     undefined w = false ->
     (undefined w' = true <-> exists i s, e = EvWrite i true /\ sessions w !! i = Some s /\ closed s = true)) /\
  exists w, run late_write new_server = Some w /\ ws_steps new_server w /\ undefined w = true.
Proof.
  split.
  - intros w e w' Hw%steps_server_ok Hb%Z.ltb_lt E Hu. destruct (on_event_ok w e w' Hw Hb E) as [_ E'].
    rewrite Hu in E'. simpl in E'. rewrite E'. split.
    + destruct e as [| | | | |i [] | | | | |]; try done. destruct (sessions w !! i) as [s|] eqn:Es; [|done]. eauto.
    + intros (i & s & -> & -> & Hc). done.
  - destruct (run late_write new_server) as [w|] eqn:E; [|by vm_compute in E].
    exists w. split; [done|]. split; [by eapply run_steps|].
    assert (Hu : undefined <$> run late_write new_server = Some true) by (vm_compute; reflexivity).
    rewrite E in Hu. by injection Hu.
Qed.

(** A session that completed the handshake, sent a message and is open. *)
Lemma server_reachable_ok_witness :
  exists w s, ws_steps new_server w /\ sessions w !! 0%nat = Some s /\ wire s = ["hello"%string] /\
    token s = "abc"%string /\ registry w !! session_id s = Some 0%nat /\ active_handshakes w = 0.
Proof.
  destruct (run (take 6 late_write) new_server) as [w|] eqn:E; [|by vm_compute in E].
  pose proof (run_steps _ _ _ E) as Hs. vm_compute in E. injection E as <-.
  eexists _, _. split; [exact Hs|]. split; [reflexivity|]. split; [reflexivity|]. split; [reflexivity|].
  destruct (server_reachable_ok _ Hs) as (_ & _ & Hr & _ & Ha & _).
  split; [by apply (Hr eq_refl 0%nat)|by rewrite Ha].
Defined.


(** ** Accepting *)

Ltac kept := repeat match goal with
  | |- context [match ?x with _ => _ end] => destruct x
  end; simpl; rewrite ?length_insert; auto.

Lemma finish_keeps i s w : accepting (finish_handshake_tracking i s w) = accepting w /\
  length (sessions (finish_handshake_tracking i s w)) = length (sessions w).
Proof. unfold finish_handshake_tracking, record_handshake_finished. kept. Qed.

Lemma close_keeps i s w : accepting (perform_close i s w) = accepting w /\
  length (sessions (perform_close i s w)) = length (sessions w).
Proof.
  unfold perform_close. destruct (finish_keeps i s w) as [E1 E2]. rewrite <- E1, <- E2. kept.
Qed.

Lemma task_keeps t w : accepting (run_task t w) = accepting w /\
  length (sessions (run_task t w)) = length (sessions w).
Proof.
  destruct t as [i m|i|i|]; simpl; [..|done]; (destruct (sessions w !! i); [|done]); try apply close_keeps.
  unfold run_send, do_write. kept.
Qed.

(** After one failed accept no connection is accepted any more. *)
Lemma accept_error_final e w w' : accepting w = false -> on_event e w = Some w' ->
  accepting w' = false /\ length (sessions w') = length (sessions w).
Proof.
  intros Ha E. rewrite <- Ha. destruct e as [ok|i ok|i req|i ok|i ok|i ok| |i m|i|m|]; simpl in E.
  - by rewrite Ha in E.
  - apply completes_inv in E as (s & _ & _ & ->). unfold on_ssl_handshake, fail_and_close. kept.
  - apply completes_inv in E as (s & _ & _ & ->). unfold on_upgrade_read, fail_and_close. kept.
  - apply completes_inv in E as (s & _ & _ & ->). unfold on_ws_accept, fail_and_close.
    destruct ok; cbv zeta; [|kept]. match goal with |- context [finish_handshake_tracking ?i ?s ?w] =>
      destruct (finish_keeps i s w) as [-> ->] end. unfold add_session. kept.
  - apply completes_inv in E as (s & _ & _ & ->). unfold on_read, fail_and_close. kept.
  - destruct (sessions w !! i) as [s|]; [|done]. simpl in E. destruct (writing s); simplify_eq.
    unfold on_ws_write, do_write. kept.
  - destruct (tasks w) as [|t rest]; simplify_eq. apply (task_keeps t (set_tasks rest w)).
  - by destruct (given i w); simplify_eq.
  - by destruct (given i w); simplify_eq.
  - by simplify_eq.
  - by simplify_eq.
Qed.
