(* ===== verification/WsStats.v ===== *)
(** The statistics of the web socket server ([common/network/websocket_server.cpp]): the
    counters a session and the acceptor report to, and what [get_stats] reads.

    [record_duration] is lock-free: two additions and a compare-exchange loop on three atomics.
    It is modelled twice: as steps of any number of threads on the three counters, where a
    weak compare-exchange may also fail for no reason, and as the function that those steps
    compute when one thread runs, which is what the server's own thread does.  Atomic
    operations with relaxed order keep the order of each variable, and each claim about a
    state is about a state in which no thread is between its operations. *)
From S2P Require Import Prelude Text WebSocket.
Open Scope Z_scope.

(** * Durations *)

(** [WebSocketDurationStats]. *)
Record DurationStats := { count : Z; total_ms : Z; max_ms : Z }.

Definition no_durations : DurationStats := {| count := 0; total_ms := 0; max_ms := 0 |}.

(** [static_cast<uint64_t>(std::max<int64_t>(0, duration.count()))]. *)
Definition duration_value (duration : Z) : Z := u64 (Z.max 0 duration).

(** Where a call of [record_duration] stands; [AtLoop] holds [current_max]. *)
Inductive pc := AtCount | AtTotal | AtLoad | AtLoop (current_max : Z) | Recorded.

(** The next atomic operation of a call with this value; [spurious] says that a
    compare-exchange fails although the values agree. *)
Definition advance (spurious : bool) (value : Z) (p : pc) (c : DurationStats) : pc * DurationStats :=
  match p with
  | AtCount => (AtTotal, {| count := u64 (count c + 1); total_ms := total_ms c; max_ms := max_ms c |})
  | AtTotal => (AtLoad, {| count := count c; total_ms := u64 (total_ms c + value); max_ms := max_ms c |})
  | AtLoad => (AtLoop (max_ms c), c)
  | AtLoop current_max =>
      if current_max <? value then
        if (max_ms c =? current_max) && negb spurious
        then (Recorded, {| count := count c; total_ms := total_ms c; max_ms := value |})
        else (AtLoop (max_ms c), c)
      else (Recorded, c)
  | Recorded => (Recorded, c)
  end.

(** The calls in progress on one set of counters. *)
Record recorders := { counters : DurationStats; calls : list (Z * pc) }.

Inductive record_event :=
| Call (duration : Z)                   (* a thread calls record_duration *)
| Step (i : nat) (spurious : bool).     (* call i does its next operation *)

Definition on_record (e : record_event) (s : recorders) : recorders :=
  match e with
  | Call duration => {| counters := counters s; calls := calls s ++ [(duration_value duration, AtCount)] |}
  | Step i spurious =>
      match calls s !! i with
      | Some (value, p) =>
          let '(p', c) := advance spurious value p (counters s) in
          {| counters := c; calls := <[i := (value, p')]> (calls s) |}
      | None => s
      end
  end.

Definition no_recorders : recorders := {| counters := no_durations; calls := [] |}.

Definition run_records (es : list record_event) (s : recorders) : recorders :=
  fold_left (fun s e => on_record e s) es s.

(** A call that runs by itself: without interference it is over after four operations. *)
Fixpoint alone (fuel : nat) (value : Z) (p : pc) (c : DurationStats) : pc * DurationStats :=
  match fuel with
  | O => (p, c)
  | S fuel => let '(p', c') := advance false value p c in alone fuel value p' c'
  end.

(** [WebSocketServer::record_duration]. *)
Definition record_duration (duration : Z) (c : DurationStats) : DurationStats :=
  snd (alone 4 (duration_value duration) AtCount c).

(** What the counters should say of a list of values. *)
Definition summary (values : list Z) : DurationStats :=
  {| count := u64 (zlen values); total_ms := u64 (foldr Z.add 0 values); max_ms := foldr Z.max 0 values |}.

(** * The server with its statistics *)

Record StatServer := {
  server : WebSocketServer;
  accept_ok : Z;
  accept_fail : Z;
  ssl_handshake : DurationStats;
  upgrade_read : DurationStats;
  ws_accept : DurationStats;
  session_add : DurationStats
}.

Definition new_stat_server : StatServer :=
  {| server := new_server; accept_ok := 0; accept_fail := 0; ssl_handshake := no_durations;
     upgrade_read := no_durations; ws_accept := no_durations; session_add := no_durations |}.

Definition set_server (w : WebSocketServer) (s : StatServer) : StatServer :=
  {| server := w; accept_ok := accept_ok s; accept_fail := accept_fail s; ssl_handshake := ssl_handshake s;
     upgrade_read := upgrade_read s; ws_accept := ws_accept s; session_add := session_add s |}.

Definition record_accept_ok (s : StatServer) : StatServer :=
  {| server := server s; accept_ok := u64 (accept_ok s + 1); accept_fail := accept_fail s;
     ssl_handshake := ssl_handshake s; upgrade_read := upgrade_read s; ws_accept := ws_accept s;
     session_add := session_add s |}.

Definition record_accept_fail (s : StatServer) : StatServer :=
  {| server := server s; accept_ok := accept_ok s; accept_fail := u64 (accept_fail s + 1);
     ssl_handshake := ssl_handshake s; upgrade_read := upgrade_read s; ws_accept := ws_accept s;
     session_add := session_add s |}.

Definition record_ssl_handshake (d : Z) (s : StatServer) : StatServer :=
  {| server := server s; accept_ok := accept_ok s; accept_fail := accept_fail s;
     ssl_handshake := record_duration d (ssl_handshake s); upgrade_read := upgrade_read s;
     ws_accept := ws_accept s; session_add := session_add s |}.

Definition record_upgrade_read (d : Z) (s : StatServer) : StatServer :=
  {| server := server s; accept_ok := accept_ok s; accept_fail := accept_fail s;
     ssl_handshake := ssl_handshake s; upgrade_read := record_duration d (upgrade_read s);
     ws_accept := ws_accept s; session_add := session_add s |}.

Definition record_ws_accept (d : Z) (s : StatServer) : StatServer :=
  {| server := server s; accept_ok := accept_ok s; accept_fail := accept_fail s;
     ssl_handshake := ssl_handshake s; upgrade_read := upgrade_read s;
     ws_accept := record_duration d (ws_accept s); session_add := session_add s |}.

Definition record_session_add (d : Z) (s : StatServer) : StatServer :=
  {| server := server s; accept_ok := accept_ok s; accept_fail := accept_fail s;
     ssl_handshake := ssl_handshake s; upgrade_read := upgrade_read s; ws_accept := ws_accept s;
     session_add := record_duration d (session_add s) |}.

(** What the handlers report; [d] is the time since the stage began, [d'] the time that
    [add_session] took. *)
Definition report (e : event) (d d' : Z) (s : StatServer) : StatServer :=
  match e with
  | EvAccept true => record_accept_ok s
  | EvAccept false => record_accept_fail s
  | EvSslHandshake _ _ => record_ssl_handshake d s
  | EvUpgradeRead _ _ => record_upgrade_read d s
  | EvWsAccept _ true => record_session_add d' (record_ws_accept d s)
  | EvWsAccept _ false => record_ws_accept d s
  | _ => s
  end.

(** A handler with its reports; the clock's readings come with the event. *)
Definition on_timed (e : event * (Z * Z)) (s : StatServer) : option StatServer :=
  let '(e, (d, d')) := e in
  if ids_left (server s) then w ← on_event e (server s); Some (set_server w (report e d d' s)) else None.

Fixpoint run_timed (es : list (event * (Z * Z))) (s : StatServer) : option StatServer :=
  match es with
  | [] => Some s
  | e :: es => on_timed e s ≫= run_timed es
  end.

(** [WebSocketServer::get_session_count]. *)
Definition get_session_count (w : WebSocketServer) : Z := Z.of_nat (size (registry w)).

(** [WebSocketServer::get_session]. *)
Definition get_session (sid : string) (w : WebSocketServer) : option WebSocketSession :=
  i ← registry w !! sid; sessions w !! i.

(** The overload of [remove_session] that takes an id: no handler is called. *)
Definition remove_session_id (sid : string) (w : WebSocketServer) : WebSocketServer :=
  set_registry (delete sid (registry w)) (id_counter w) (connects w) (disconnects w) w.

(** [WebSocketServerStats] and [WebSocketServer::get_stats], read between two events of the server.
    The source loads the counters one after another, so a reader of another thread may see some of
    them before an event and others after it; nothing here is claimed of such a mixture. *)
Record WebSocketServerStats := {
  st_accept_ok : Z; st_accept_fail : Z; st_active_handshakes : Z; st_current_sessions : Z;
  st_ssl_handshake : DurationStats; st_upgrade_read : DurationStats;
  st_ws_accept : DurationStats; st_session_add : DurationStats
}.

Definition get_stats (s : StatServer) : WebSocketServerStats :=
  {| st_accept_ok := accept_ok s; st_accept_fail := accept_fail s;
     st_active_handshakes := active_handshakes (server s);
     st_current_sessions := get_session_count (server s);
     st_ssl_handshake := ssl_handshake s; st_upgrade_read := upgrade_read s;
     st_ws_accept := ws_accept s; st_session_add := session_add s |}.

(** * Sums and maxima over the calls *)

Definition sumZ {A} (f : A -> Z) (l : list A) : Z := foldr Z.add 0 (map f l).
Definition maxZ {A} (f : A -> Z) (l : list A) : Z := foldr Z.max 0 (map f l).

Lemma sumZ_app {A} (f : A -> Z) l k : sumZ f (l ++ k) = sumZ f l + sumZ f k.
Proof. unfold sumZ. induction l as [|x l IH]; simpl; lia. Qed.

Lemma maxZ_app {A} (f : A -> Z) l k : maxZ f (l ++ k) = Z.max (maxZ f l) (maxZ f k).
Proof. unfold maxZ. induction l as [|x l IH]; simpl; [|lia]. induction k; simpl; lia. Qed.

Lemma sumZ_insert {A} (f : A -> Z) l i x y : l !! i = Some x -> sumZ f (<[i := y]> l) = sumZ f l - f x + f y.
Proof.
  unfold sumZ. revert i. induction l as [|z l IH]; intros [|i] Hi; simplify_eq/=; [lia|].
  specialize (IH i Hi). lia.
Qed.

Lemma maxZ_insert {A} (f : A -> Z) l i x y : l !! i = Some x -> f x <= f y ->
  maxZ f (<[i := y]> l) = Z.max (maxZ f l) (f y).
Proof.
  unfold maxZ. revert i. induction l as [|z l IH]; intros [|i] Hi Hf; simplify_eq/=; [lia|].
  specialize (IH i Hi Hf). lia.
Qed.

Lemma sumZ_le {A} (f : A -> Z) l i x : (forall y, 0 <= f y) -> l !! i = Some x -> f x <= sumZ f l.
Proof.
  unfold sumZ. intros Hf. revert i. induction l as [|z l IH]; intros [|i] Hi; simplify_eq/=.
  - assert (0 <= foldr Z.add 0 (map f l)); [|lia]. clear IH. induction l as [|y l IH]; simpl; [lia|].
    specialize (Hf y). lia.
  - specialize (IH i Hi). specialize (Hf z). lia.
Qed.

Lemma sumZ_nonneg {A} (f : A -> Z) l : (forall y, 0 <= f y) -> 0 <= sumZ f l.
Proof. intros Hf. unfold sumZ. induction l as [|z l IH]; simpl; [lia|]. specialize (Hf z). lia. Qed.

Lemma maxZ_nonneg {A} (f : A -> Z) l : 0 <= maxZ f l.
Proof. unfold maxZ. induction l; simpl; lia. Qed.

Lemma u64_add a b : u64 (u64 a + b) = u64 (a + b).
Proof. unfold u64. by rewrite Zplus_mod_idemp_l. Qed.

Lemma u64_idle z : 0 <= z < 2 ^ 64 -> u64 z = z.
Proof. apply Z.mod_small. Qed.

(** * Interleaved calls *)

(** What a call has contributed to each counter. *)
Definition counted (c : Z * pc) : Z := match c.2 with AtCount => 0 | _ => 1 end.
Definition totalled (c : Z * pc) : Z := match c.2 with AtCount | AtTotal => 0 | _ => c.1 end.
Definition maximised (c : Z * pc) : Z := match c.2 with Recorded => c.1 | _ => 0 end.

(** What a call has read, or written, is not above the present maximum. *)
Definition call_ok (m : Z) (c : Z * pc) : Prop :=
  0 <= c.1 /\ match c.2 with AtLoop current_max => current_max <= m | Recorded => c.1 <= m | _ => True end.

Record recorders_ok (s : recorders) : Prop := {
  r_count : count (counters s) = u64 (sumZ counted (calls s));
  r_total : total_ms (counters s) = u64 (sumZ totalled (calls s));
  r_max : max_ms (counters s) = maxZ maximised (calls s);
  r_calls i c : calls s !! i = Some c -> call_ok (max_ms (counters s)) c
}.

Lemma duration_value_nonneg d : 0 <= duration_value d.
Proof. unfold duration_value, u64. pose proof (Z.mod_pos_bound (Z.max 0 d) (2 ^ 64)). lia. Qed.

Lemma call_ok_mono m m' c : m <= m' -> call_ok m c -> call_ok m' c.
Proof. intros Hm [H1 H2]. split; [done|]. destruct (c.2); lia. Qed.

(** Replacing the counters and one call, when the counters follow what the call contributes. *)
Lemma replace_ok s i v p p' c' : recorders_ok s -> calls s !! i = Some (v, p) ->
  count c' = u64 (sumZ counted (calls s) - counted (v, p) + counted (v, p')) ->
  total_ms c' = u64 (sumZ totalled (calls s) - totalled (v, p) + totalled (v, p')) ->
  maximised (v, p) <= maximised (v, p') ->
  max_ms c' = Z.max (max_ms (counters s)) (maximised (v, p')) -> call_ok (max_ms c') (v, p') ->
  recorders_ok {| counters := c'; calls := <[i := (v, p')]> (calls s) |}.
Proof.
  intros Hs Hi Hc Ht Hm Hx Hok. split; simpl.
  - by rewrite (sumZ_insert _ _ _ _ _ Hi).
  - by rewrite (sumZ_insert _ _ _ _ _ Hi).
  - rewrite (maxZ_insert _ _ _ _ _ Hi Hm), Hx. f_equal. apply (r_max s Hs).
  - intros j c Hj. destruct (decide (j = i)) as [->|Hne].
    + rewrite list_lookup_insert_eq in Hj by (by eapply lookup_lt_Some). by simplify_eq.
    + rewrite list_lookup_insert_ne in Hj by done. apply (call_ok_mono (max_ms (counters s))); [lia|].
      by apply (r_calls s Hs j).
Qed.

Lemma max_nonneg s : recorders_ok s -> 0 <= max_ms (counters s).
Proof. intros Hs. rewrite (r_max s Hs). apply maxZ_nonneg. Qed.

Lemma on_record_ok e s : recorders_ok s -> recorders_ok (on_record e s).
Proof.
  intros Hs. destruct e as [d|i sp]; simpl.
  - split; simpl.
    + rewrite sumZ_app. unfold sumZ at 2. simpl. by rewrite Z.add_0_r, (r_count s Hs).
    + rewrite sumZ_app. unfold sumZ at 2. simpl. by rewrite Z.add_0_r, (r_total s Hs).
    + rewrite maxZ_app. unfold maxZ at 2. simpl. rewrite (r_max s Hs).
      pose proof (maxZ_nonneg maximised (calls s)). unfold maximised at 3. simpl. lia.
    + intros i c [Hi|[_ Hi]]%lookup_app_Some; [by eapply r_calls|]. apply list_lookup_singleton_Some in Hi as [_ <-].
      split; [apply duration_value_nonneg|done].
  - destruct (calls s !! i) as [[v p]|] eqn:Hi; [|done]. destruct (r_calls s Hs i _ Hi) as [Hv Hp]. simpl in Hv, Hp.
    pose proof (max_nonneg s Hs) as H0. pose proof (r_count s Hs) as Hc. pose proof (r_total s Hs) as Ht.
    destruct p as [| | |m|]; simpl; [..|];
      repeat match goal with |- context [if ?b then _ else _] => destruct b eqn:? end; zbool;
      eapply replace_ok; try done; simpl; rewrite ?Hc, ?Ht, ?u64_add;
      generalize (sumZ counted (calls s)) (sumZ totalled (calls s)); intros;
      unfold counted, totalled, maximised, call_ok; simpl; first [lia | f_equal; lia].
Qed.

Lemma run_records_ok es s : recorders_ok s -> recorders_ok (run_records es s).
Proof. revert s. induction es as [|e es IH]; intros s Hs; [done|]. by apply IH, on_record_ok. Qed.

Lemma no_recorders_ok : recorders_ok no_recorders.
Proof. split; simpl; try done. Qed.

(** ** Every call ends *)

(** What a call has left to do; a failed compare-exchange leaves less to climb. *)
Definition work (c : Z * pc) : Z :=
  match c.2 with
  | AtCount => Z.max 0 c.1 + 4
  | AtTotal => Z.max 0 c.1 + 3
  | AtLoad => Z.max 0 c.1 + 2
  | AtLoop current_max => 1 + Z.max 0 (c.1 - current_max)
  | Recorded => 0
  end.

Definition in_progress (s : recorders) (i : nat) : bool :=
  match calls s !! i with Some (_, Recorded) | None => false | Some _ => true end.

Definition spurious_of (e : record_event) : Z := match e with Step _ true => 1 | _ => 0 end.

(** A schedule of calls in progress. *)
Fixpoint schedule (es : list record_event) (s : recorders) : bool :=
  match es with
  | [] => true
  | Step i sp :: es => in_progress s i && schedule es (on_record (Step i sp) s)
  | Call _ :: _ => false
  end.

Lemma work_nonneg c : 0 <= work c.
Proof. destruct c as [v p]. unfold work. simpl. destruct p; lia. Qed.

Lemma step_work s i sp : recorders_ok s -> in_progress s i = true ->
  sumZ work (calls (on_record (Step i sp) s)) < sumZ work (calls s) + spurious_of (Step i sp).
Proof.
  intros Hs. unfold in_progress. simpl. destruct (calls s !! i) as [[v p]|] eqn:Hi; [|done].
  destruct (r_calls s Hs i _ Hi) as [Hv Hp]. simpl in Hv, Hp. pose proof (max_nonneg s Hs) as H0.
  destruct p as [| | |m|]; [..|done]; intros _; simpl;
    repeat match goal with |- context [if ?b then _ else _] => destruct b eqn:? end; zbool; simpl;
    rewrite (sumZ_insert _ _ _ _ _ Hi); unfold work; simpl; try lia.
Qed.

Lemma step_calls e s : schedule [e] s = true -> map fst (calls (on_record e s)) = map fst (calls s).
Proof.
  destruct e as [d|i sp]; [done|]. intros _. simpl. destruct (calls s !! i) as [[v p]|] eqn:Hi; [|done].
  destruct (advance sp v p (counters s)) as [p' c']. simpl. rewrite list_fmap_insert. simpl.
  apply list_insert_id. by rewrite list_lookup_fmap, Hi.
Qed.

Lemma schedule_bound es s : recorders_ok s -> schedule es s = true ->
  zlen es + sumZ work (calls (run_records es s)) <= sumZ work (calls s) + sumZ spurious_of es /\
  map fst (calls (run_records es s)) = map fst (calls s).
Proof.
  revert s. induction es as [|e es IH]; intros s Hs Hsch; [unfold zlen, sumZ; simpl; split; [lia|done]|].
  destruct e as [d|i sp]; [done|]. apply andb_prop in Hsch as [Hi Hsch].
  destruct (IH (on_record (Step i sp) s)) as [IHw IHm]; [by apply on_record_ok|done|].
  pose proof (step_work s i sp Hs Hi) as Hw. split.
  - change (run_records (Step i sp :: es) s) with (run_records es (on_record (Step i sp) s)).
    assert (zlen (Step i sp :: es) = 1 + zlen es) as -> by (unfold zlen; simpl; lia).
    assert (sumZ spurious_of (Step i sp :: es) = spurious_of (Step i sp) + sumZ spurious_of es) as -> by done. lia.
  - etrans; [exact IHm|]. apply step_calls. simpl. by rewrite Hi.
Qed.

Definition at_rest (s : recorders) : Prop := forall i, in_progress s i = false.

(** A run of the calls in progress, one operation after the other, ends with all of them over. *)
Lemma rest_exists s : recorders_ok s -> exists es, schedule es s = true /\ at_rest (run_records es s).
Proof.
  remember (Z.to_nat (sumZ work (calls s))) as n eqn:En. revert s En.
  induction n as [n IH] using lt_wf_ind. intros s -> Hs.
  destruct (decide (Exists (fun i => in_progress s i = true) (seq 0 (length (calls s))))) as [He|Hn].
  - apply Exists_exists in He as (i & _ & Hi). pose proof (step_work s i false Hs Hi) as Hw. simpl spurious_of in Hw.
    pose proof (sumZ_nonneg work (calls (on_record (Step i false) s)) work_nonneg).
    destruct (IH (Z.to_nat (sumZ work (calls (on_record (Step i false) s)))) ltac:(lia)
                (on_record (Step i false) s) eq_refl) as (es & Hsch & Hr); [by apply on_record_ok|].
    exists (Step i false :: es). split; [|exact Hr]. simpl. by rewrite Hi.
  - exists []. split; [done|]. intros i. destruct (in_progress s i) eqn:Hi; [|done]. exfalso. apply Hn.
    apply Exists_exists. exists i. split; [|done]. apply elem_of_seq. split; [lia|].
    unfold in_progress in Hi. simpl. destruct (calls s !! i) eqn:E; [|done]. by eapply lookup_lt_Some.
Qed.

Lemma rest_calls s i c : at_rest s -> calls s !! i = Some c -> c.2 = Recorded.
Proof. intros Hr Hi. specialize (Hr i). unfold in_progress in Hr. rewrite Hi in Hr. destruct c as [v []]; done. Qed.

Lemma rest_summary s : recorders_ok s -> at_rest s -> counters s = summary (map fst (calls s)).
Proof.
  intros Hs Hr. assert (Hall : Forall (fun c => c.2 = Recorded) (calls s)).
  { apply Forall_lookup. intros i c. by apply rest_calls. }
  assert (sumZ counted (calls s) = zlen (map fst (calls s)) /\
          sumZ totalled (calls s) = foldr Z.add 0 (map fst (calls s)) /\
          maxZ maximised (calls s) = foldr Z.max 0 (map fst (calls s))) as (E1 & E2 & E3).
  { clear Hs Hr. induction Hall as [|[v p] l Hp _ (IH1 & IH2 & IH3)]; [done|]. simpl in Hp. subst p.
    unfold sumZ, maxZ, zlen in *. simpl. change (counted (v, Recorded)) with 1.
    change (totalled (v, Recorded)) with v. change (maximised (v, Recorded)) with v. split_and!; lia. }
  destruct Hs as [Hc Ht Hm _]. destruct (counters s) as [c t m]. simpl in *. subst. unfold summary. by rewrite E1, E2, E3.
Qed.

(** Whatever the number of threads and the order of their operations, with any spurious
    failures: (1) [max_ms] is at every moment the greatest value among the calls that are over,
    so a reader never sees it fall; (2) when no call is in progress the three counters are the
    number of the calls, the sum of their values modulo 2^64 and the greatest of them; (3) a
    schedule of the calls in progress is never longer than what they had left to do and its
    spurious failures, so each call ends; (4) and the calls in progress can be run to that end. *)
Theorem durations_exact es : let s := run_records es no_recorders in
  max_ms (counters s) = maxZ maximised (calls s) /\
  (at_rest s -> counters s = summary (map fst (calls s))) /\
  (forall es', schedule es' s = true -> zlen es' <= sumZ work (calls s) + sumZ spurious_of es') /\
  exists es', schedule es' s = true /\ at_rest (run_records es' s) /\
    counters (run_records es' s) = summary (map fst (calls s)).
Proof.
  intros s. assert (Hs : recorders_ok s) by apply run_records_ok, no_recorders_ok. split_and!.
  - apply (r_max s Hs).
  - by apply rest_summary.
  - intros es' Hsch. destruct (schedule_bound es' s Hs Hsch) as [H _].
    pose proof (sumZ_nonneg work (calls (run_records es' s)) work_nonneg). lia.
  - destruct (rest_exists s Hs) as (es' & Hsch & Hr). exists es'. split_and!; [done|done|].
    destruct (schedule_bound es' s Hs Hsch) as [_ <-]. apply rest_summary; [|done]. by apply run_records_ok.
Qed.

(** * Calls of one thread *)

Lemma record_duration_eq d c : 0 <= max_ms c -> record_duration d c =
  {| count := u64 (count c + 1); total_ms := u64 (total_ms c + duration_value d);
     max_ms := Z.max (max_ms c) (duration_value d) |}.
Proof.
  intros Hm. unfold record_duration. generalize (duration_value d) as v. intros v. simpl.
  destruct (max_ms c <? v) eqn:E; zbool; simpl.
  - rewrite Z.eqb_refl. simpl. f_equal. lia.
  - f_equal. lia.
Qed.

Lemma record_summary d vs : record_duration d (summary vs) = summary (vs ++ [duration_value d]).
Proof.
  rewrite record_duration_eq by (simpl; induction vs; simpl; lia). unfold summary. simpl. f_equal.
  - rewrite zlen_app. unfold zlen at 3. simpl. apply u64_add.
  - rewrite u64_add, foldr_app. f_equal. simpl. generalize (duration_value d). intros z.
    induction vs as [|v vs IH]; simpl; lia.
  - rewrite foldr_app. simpl. pose proof (duration_value_nonneg d). generalize dependent (duration_value d). intros z Hz.
    induction vs as [|v vs IH]; simpl; lia.
Qed.

(** * The handshake as the counters show it *)

(** The operation each session waits for. *)
Definition stages (w : WebSocketServer) : list (option ws_op) := map pending (sessions w).

Definition waits (op : ws_op) (p : option ws_op) : Z :=
  match p with
  | Some o => match o, op with
              | OpSslHandshake, OpSslHandshake | OpUpgradeRead, OpUpgradeRead
              | OpWsAccept, OpWsAccept | OpRead, OpRead => 1
              | _, _ => 0
              end
  | None => 0
  end.

(** The number of sessions that wait for [op]. *)
Definition waiting (op : ws_op) (w : WebSocketServer) : Z := sumZ (waits op) (stages w).

Lemma waits_nonneg op p : 0 <= waits op p.
Proof. destruct p as [[]|], op; simpl; lia. Qed.

Lemma waiting_nonneg op w : 0 <= waiting op w.
Proof. apply sumZ_nonneg, waits_nonneg. Qed.

Lemma stages_set i s w : stages (set_session i s w) = <[i := pending s]> (stages w).
Proof. unfold stages. simpl. by rewrite list_fmap_insert. Qed.

Lemma stages_same i s s' w : sessions w !! i = Some s -> pending s' = pending s ->
  stages (set_session i s' w) = stages w.
Proof. intros Hi Hp. rewrite stages_set, Hp. apply list_insert_id. unfold stages. by rewrite list_lookup_fmap, Hi. Qed.

(** What the statistics depend on. *)
Definition shape (w : WebSocketServer) : list (option ws_op) * Z := (stages w, id_counter w).

Lemma shape_same i s s' w : sessions w !! i = Some s -> pending s' = pending s ->
  shape (set_session i s' w) = shape w.
Proof. intros. unfold shape. by rewrite (stages_same i s). Qed.

Lemma finish_shape i s w : sessions w !! i = Some s -> shape (finish_handshake_tracking i s w) = shape w.
Proof.
  intros Hi. unfold finish_handshake_tracking. destruct (handshake_active s); [|done].
  pose proof (shape_same i s (upd_flags (session_id s) (closed s) (registered s) false s) w Hi eq_refl).
  unfold record_handshake_finished. by case_match.
Qed.

Lemma finish_keeps_session i s w : sessions w !! i = Some s ->
  exists s', sessions (finish_handshake_tracking i s w) !! i = Some s' /\ pending s' = pending s.
Proof.
  intros Hi. unfold finish_handshake_tracking. destruct (handshake_active s); [|by exists s].
  exists (upd_flags (session_id s) (closed s) (registered s) false s). split; [|reflexivity].
  unfold record_handshake_finished. case_match; simpl;
    (apply list_lookup_insert_eq; by eapply lookup_lt_Some).
Qed.

Lemma close_shape i s w : sessions w !! i = Some s -> shape (perform_close i s w) = shape w.
Proof.
  intros Hi. unfold perform_close. destruct (closed s); [done|]. rewrite <- (finish_shape i s w Hi).
  destruct (finish_keeps_session i s w Hi) as (s1 & Hi1 & Hp1).
  pose proof (shape_same i s1 (upd_flags (session_id s) true false false (upd_queue [] (writing s) (queued s) (wire s) s))
    (finish_handshake_tracking i s w) Hi1 (eq_sym Hp1)).
  by destruct (registered s).
Qed.

Lemma task_shape t w : shape (run_task t w) = shape w.
Proof.
  destruct t as [i m|i|i|]; simpl; [| | |done]; (destruct (sessions w !! i) as [s|] eqn:Hi; [|done]).
  - unfold run_send. repeat case_match; try done; by apply (shape_same i s).
  - by apply close_shape.
  - by apply close_shape.
Qed.

(** Outside the handshake only reads that fail touch what sessions wait for. *)
Lemma write_shape i ok s w : sessions w !! i = Some s -> shape (on_ws_write i ok s w) = shape w.
Proof. intros Hi. unfold on_ws_write. repeat case_match; by apply (shape_same i s). Qed.

Lemma completes_shape op i h p n w w' : completes op i h w = Some w' ->
  (forall s, sessions w !! i = Some s -> pending s = Some op -> shape (h s w) = (<[i := p]> (stages w), n)) ->
  stages w !! i = Some (Some op) /\ shape w' = (<[i := p]> (stages w), n).
Proof.
  intros (s & Hi & Hp & ->)%completes_inv Hh. split; [|by apply Hh].
  unfold stages. by rewrite list_lookup_fmap, Hi, <- Hp.
Qed.

Lemma chain_shape i p tok s w : shape (set_session i (upd_chain p tok s) w) = (<[i := p]> (stages w), id_counter w).
Proof. unfold shape. by rewrite stages_set. Qed.

Lemma accept_shape i w s : sessions w !! i = Some s -> shape (on_ws_accept i true s w) =
  (<[i := Some OpRead]> (stages w), u64 (id_counter w + 1)).
Proof.
  intros Hi. unfold on_ws_accept. rewrite finish_shape.
  - unfold shape, stages. simpl. by rewrite list_fmap_insert.
  - simpl. apply list_lookup_insert_eq. by eapply lookup_lt_Some.
Qed.

(** What an event changes: the sessions in each stage of the handshake, and the ids. *)
Lemma event_shape e w w' : on_event e w = Some w' ->
  match e with
  | EvAccept true => shape w' = (stages w ++ [Some OpSslHandshake], id_counter w)
  | EvSslHandshake i ok => stages w !! i = Some (Some OpSslHandshake) /\
      shape w' = (<[i := if ok then Some OpUpgradeRead else None]> (stages w), id_counter w)
  | EvUpgradeRead i req => stages w !! i = Some (Some OpUpgradeRead) /\
      shape w' = (<[i := match req with Some _ => Some OpWsAccept | None => None end]> (stages w), id_counter w)
  | EvWsAccept i ok => stages w !! i = Some (Some OpWsAccept) /\
      shape w' = (<[i := if ok then Some OpRead else None]> (stages w),
                  if ok then u64 (id_counter w + 1) else id_counter w)
  | EvRead i ok => stages w !! i = Some (Some OpRead) /\
      shape w' = (<[i := if ok then Some OpRead else None]> (stages w), id_counter w)
  | _ => shape w' = shape w
  end.
Proof.
  destruct e as [ok|i ok|i req|i ok|i ok|i ok| |i m|i|m|]; simpl; intros E.
  - destruct (accepting w); [|done]. destruct ok; simplify_eq; [|done]. unfold on_accept, start, shape, stages. simpl.
    by rewrite insert_app_r_alt, Nat.sub_diag, map_app by lia.
  - eapply completes_shape; [exact E|]. intros s Hi Hp. destruct ok; apply chain_shape.
  - eapply completes_shape; [exact E|]. intros s Hi Hp. destruct req; apply chain_shape.
  - eapply completes_shape; [exact E|]. intros s Hi Hp. destruct ok; [by apply accept_shape|apply chain_shape].
  - eapply completes_shape; [exact E|]. intros s Hi Hp. destruct ok; [|apply chain_shape].
    unfold shape, on_read. f_equal. symmetry. apply list_insert_id. unfold stages. by rewrite list_lookup_fmap, Hi, <- Hp.
  - destruct (sessions w !! i) as [s|] eqn:Hi; [|done]. simpl in E. destruct (writing s); simplify_eq. by apply write_shape.
  - destruct (tasks w) as [|t rest]; simplify_eq. by rewrite task_shape.
  - by destruct (given i w); simplify_eq.
  - by destruct (given i w); simplify_eq.
  - by simplify_eq.
  - by simplify_eq.
Qed.

(** ** The stages of the handshake *)

(** The durations reported in a run, oldest first. *)
Definition ssl_durations (es : list (event * (Z * Z))) : list Z :=
  omap (fun e => match e.1 with EvSslHandshake _ _ => Some (duration_value e.2.1) | _ => None end) es.
Definition upgrade_durations (es : list (event * (Z * Z))) : list Z :=
  omap (fun e => match e.1 with EvUpgradeRead _ _ => Some (duration_value e.2.1) | _ => None end) es.
Definition accept_durations (es : list (event * (Z * Z))) : list Z :=
  omap (fun e => match e.1 with EvWsAccept _ _ => Some (duration_value e.2.1) | _ => None end) es.
Definition add_durations (es : list (event * (Z * Z))) : list Z :=
  omap (fun e => match e.1 with EvWsAccept _ true => Some (duration_value e.2.2) | _ => None end) es.
Definition failed_accepts (es : list (event * (Z * Z))) : list unit :=
  omap (fun e => match e.1 with EvAccept false => Some () | _ => None end) es.

Record funnel (es : list (event * (Z * Z))) (s : StatServer) : Prop := {
  fu_accept : accept_ok s = u64 (zlen (sessions (server s)));
  fu_fail : accept_fail s = u64 (zlen (failed_accepts es));
  fu_ssl : ssl_handshake s = summary (ssl_durations es);
  fu_upgrade : upgrade_read s = summary (upgrade_durations es);
  fu_ws : ws_accept s = summary (accept_durations es);
  fu_add : session_add s = summary (add_durations es);
  fu_ids : id_counter (server s) = zlen (add_durations es);
  fu_stage1 : zlen (ssl_durations es) + waiting OpSslHandshake (server s) = zlen (sessions (server s));
  fu_stage2 : zlen (upgrade_durations es) + waiting OpUpgradeRead (server s) <= zlen (ssl_durations es);
  fu_stage3 : zlen (accept_durations es) + waiting OpWsAccept (server s) <= zlen (upgrade_durations es);
  fu_stage4 : zlen (add_durations es) <= zlen (accept_durations es)
}.

Lemma sessions_length (w : WebSocketServer) : zlen (sessions w) = zlen (stages w).
Proof. unfold zlen, stages. by rewrite length_map. Qed.

Lemma shape_split w l n : shape w = (l, n) -> stages w = l /\ id_counter w = n.
Proof. unfold shape. by intros [= -> ->]. Qed.

Lemma zlen_insert {A} (l : list A) i x : zlen (<[i := x]> l) = zlen l.
Proof. unfold zlen. by rewrite length_insert. Qed.

Lemma zlen_one {A} (x : A) : zlen [x] = 1.
Proof. done. Qed.

Lemma waits_insert op i p q l : l !! i = Some p ->
  sumZ (waits op) (<[i := q]> l) = sumZ (waits op) l - waits op p + waits op q.
Proof. apply sumZ_insert. Qed.

Lemma sumZ_one {A} (f : A -> Z) x : sumZ f [x] = f x.
Proof. unfold sumZ. simpl. lia. Qed.

Lemma u64_next n z : n = u64 z -> u64 (n + 1) = u64 (z + 1).
Proof. intros ->. apply u64_add. Qed.

Lemma funnel_step es s e s' : funnel es s -> on_timed e s = Some s' -> funnel (es ++ [e]) s'.
Proof.
  intros Hf Hs. destruct e as [e [d d']]. unfold on_timed in Hs.
  destruct (ids_left (server s)) eqn:El; [|done]. apply Z.ltb_lt in El.
  destruct (on_event e (server s)) as [w'|] eqn:E; [|done]. simpl in Hs. injection Hs as <-.
  apply event_shape in E. destruct Hf as [F1 F2 F3 F4 F5 F6 F7 F8 F9 F10 F11].
  rewrite sessions_length in F1, F8. unfold waiting in F8, F9, F10.
  pose proof (zlen_nonneg (add_durations es)).
  destruct e as [[]|i []|i [req|]|i []|i []|i ok| |i m|i|m|]; simpl in E;
    try match type of E with _ /\ _ => destruct E as [Hst E] end; apply shape_split in E as [Es Ei];
    split; rewrite ?sessions_length; unfold waiting; simpl; rewrite ?Es, ?Ei, ?F3, ?F4, ?F5, ?F6, ?record_summary;
    unfold failed_accepts, ssl_durations, upgrade_durations, accept_durations, add_durations in *;
    rewrite ?omap_app; simpl; rewrite ?app_nil_r, ?zlen_app, ?zlen_one, ?zlen_insert, ?sumZ_app;
    rewrite ?(waits_insert _ _ _ _ _ Hst), ?sumZ_one; try done; try (by apply u64_next); simpl waits in *;
    try (rewrite u64_idle by lia); lia.
Qed.

Lemma new_funnel : funnel [] new_stat_server.
Proof. by split. Qed.

Lemma timed_funnel es0 es s s' : funnel es0 s -> run_timed es s = Some s' -> funnel (es0 ++ es) s'.
Proof.
  revert es0 s. induction es as [|e es IH]; intros es0 s Hf Hr; simpl in Hr.
  - simplify_eq. by rewrite app_nil_r.
  - destruct (on_timed e s) as [s1|] eqn:E; [|done]. rewrite cons_middle, app_assoc.
    apply (IH _ s1); [|done]. by eapply funnel_step.
Qed.

Lemma timed_steps es s s' : run_timed es s = Some s' -> ws_steps (server s) (server s').
Proof.
  revert s. induction es as [|[e [d d']] es IH]; intros s Hr; simpl in Hr; [by simplify_eq|].
  destruct (ids_left (server s)) eqn:El; [|done]. destruct (on_event e (server s)) as [w|] eqn:E; [|done].
  simpl in Hr. eapply rtc_l; [|by apply IH in Hr]. split; [done|]. by exists e.
Qed.

Lemma cnt_disjoint (f g : WebSocketSession -> bool) l : (forall i s, l !! i = Some s -> f s = true -> g s = false) ->
  cnt f l + cnt g l <= zlen l.
Proof.
  unfold cnt, zlen. induction l as [|x l IH]; intros H; [done|].
  assert (IH' := IH (fun i s => H (S i) s)). specialize (H 0%nat x eq_refl). simpl.
  destruct (f x), (g x); simpl; lia.
Qed.

Lemma size_of_list (l : list string) : (size (list_to_set l : gset string) <= length l)%nat.
Proof.
  induction l as [|x l IH]; [apply Nat.eq_le_incl, size_empty|].
  change (size ({[x]} ∪ list_to_set l : gset string) <= S (length l))%nat.
  rewrite size_union_alt, size_singleton.
  pose proof (subseteq_size (list_to_set l ∖ {[x]} : gset string) (list_to_set l) ltac:(set_solver)). lia.
Qed.

Lemma listed_bound w : server_ok w -> get_session_count w <= id_counter w.
Proof.
  intros Hw. unfold get_session_count. rewrite <- size_dom.
  assert (H : dom (registry w) ⊆@{gset string} list_to_set (map generate_id (seqZ 1 (id_counter w)))).
  { intros sid (i & Hi)%elem_of_dom. destruct (ok_registry w Hw sid i Hi) as (s & Hs & Hr & <-).
    destruct (registered_given s) as [Hg _]; [by eapply ok_sessions|done|].
    destruct (ok_ids w Hw i s Hs Hg) as (k & Hk & ->). apply elem_of_list_to_set, list_elem_of_fmap.
    exists k. split; [done|]. apply elem_of_seqZ. lia. }
  apply subseteq_size in H. pose proof (size_of_list (map generate_id (seqZ 1 (id_counter w)))) as Hl.
  rewrite length_map, length_seqZ in Hl. rewrite (ok_counter w Hw) in *.
  pose proof (cnt_range is_given (sessions w)). lia.
Qed.

(** C40: the statistics tell the story of the handshakes.  In every run of the server each
    duration counter is the number, the sum and the maximum of the durations reported for its
    stage, and with fewer than 2^64 connections: every accepted connection is counted, those
    that wait for the TLS handshake are what that stage's count is behind; a later stage is
    never counted more often than the stage before it was completed; the sessions added are
    those that got an id; the sessions listed are among them, and the handshakes that are
    running among the others. *)
Theorem handshake_stats es s : run_timed es new_stat_server = Some s ->
  let st := get_stats s in
  (st_ssl_handshake st = summary (ssl_durations es) /\ st_upgrade_read st = summary (upgrade_durations es) /\
   st_ws_accept st = summary (accept_durations es) /\ st_session_add st = summary (add_durations es)) /\
  (zlen (sessions (server s)) < 2 ^ 64 ->
   st_accept_ok st = zlen (sessions (server s)) /\
   count (st_ssl_handshake st) + waiting OpSslHandshake (server s) = st_accept_ok st /\
   count (st_upgrade_read st) + waiting OpUpgradeRead (server s) <= count (st_ssl_handshake st) /\
   count (st_ws_accept st) + waiting OpWsAccept (server s) <= count (st_upgrade_read st) /\
   count (st_session_add st) <= count (st_ws_accept st) /\
   count (st_session_add st) = id_counter (server s) /\
   st_current_sessions st <= count (st_session_add st) /\
   st_active_handshakes st + count (st_session_add st) <= st_accept_ok st).
Proof.
  intros Hr st. pose proof (timed_funnel [] es _ _ new_funnel Hr) as F. simpl in F. split; [by destruct F|].
  intros Hb. pose proof (steps_server_ok _ (timed_steps _ _ _ Hr)) as Hw. unfold st, get_stats. simpl.
  destruct F as [F1 F2 F3 F4 F5 F6 F7 F8 F9 F10 F11]. rewrite F1, F3, F4, F5, F6. simpl.
  pose proof (waiting_nonneg OpSslHandshake (server s)). pose proof (waiting_nonneg OpUpgradeRead (server s)).
  pose proof (waiting_nonneg OpWsAccept (server s)). pose proof (zlen_nonneg (add_durations es)).
  pose proof (zlen_nonneg (accept_durations es)). pose proof (zlen_nonneg (upgrade_durations es)).
  rewrite !u64_idle by lia. pose proof (listed_bound _ Hw). split_and!; try lia.
  rewrite (ok_active_count _ Hw), <- F7, (ok_counter _ Hw). apply cnt_disjoint. intros i x Hi Hx.
  by apply (ok_active x); [eapply ok_sessions|].
Qed.

(** A session that is found is open and has the id. *)
Lemma get_session_open w sid s : server_ok w -> get_session sid w = Some s -> session_id s = sid /\ closed s = false.
Proof.
  intros Hw. unfold get_session. destruct (registry w !! sid) as [i|] eqn:E; [|done]. simpl. intros Hs.
  destruct (ok_registry w Hw sid i E) as (s' & Hs' & Hr & Hid). simplify_eq. split; [done|].
  by apply registered_given; [eapply ok_sessions|].
Qed.

Module StatsExamples.

(** Two calls that race: the second one's compare-exchange fails, it reads 30 and gives up. *)
Definition race : list record_event :=
  [Call 30; Call 20; Step 0 false; Step 1 false; Step 1 false; Step 0 false; Step 0 false; Step 1 false;
   Step 0 true; Step 0 false; Step 1 false; Step 1 false].

Example race_result : counters (run_records race no_recorders) = {| count := 2; total_ms := 50; max_ms := 30 |}.
Proof. reflexivity. Qed.

(** A connection that becomes a session, one that fails its TLS handshake, one that waits. *)
Definition timed : list (event * (Z * Z)) :=
  [(EvAccept true, (0, 0)); (EvSslHandshake 0 true, (12, 0));
   (EvUpgradeRead 0 (Some {| target := "/"; authorization := None |}), (3, 0)); (EvWsAccept 0 true, (1, 2));
   (EvAccept true, (0, 0)); (EvSslHandshake 1 false, (40, 0)); (EvAccept true, (0, 0))].

Lemma handshake_stats_witness : exists s, run_timed timed new_stat_server = Some s /\
  st_accept_ok (get_stats s) = 3 /\ waiting OpSslHandshake (server s) = 1 /\
  st_ssl_handshake (get_stats s) = {| count := 2; total_ms := 52; max_ms := 40 |} /\
  st_current_sessions (get_stats s) <= 1.
Proof.
  destruct (run_timed timed new_stat_server) as [s|] eqn:E; [|by vm_compute in E].
  exists s. destruct (handshake_stats timed s E) as ((Hssl & _) & Hrest).
  vm_compute in E. injection E as <-. destruct (Hrest eq_refl) as (H1 & _ & _ & _ & _ & _ & H7 & _).
  split_and!; [reflexivity|exact H1|reflexivity|exact Hssl|exact H7].
Defined.

End StatsExamples.
