(* ===== verification/Schema.v ===== *)
(** The persistent classes of [services/odb/*.hpp]: one record per class with the
    constructor the services call, and the mapping the [#pragma db] lines give it (table,
    object id, automatic ids, unique indexes) as an instance of [Persistent]. *)
From S2P Require Import Prelude.

(** * Rows *)

(** [services/odb/user.hpp]. *)
Inductive Gender := GENDER_UNKNOWN | MALE | FEMALE | OTHER.

Record User := {
  u_uid : string;
  u_account : string;
  u_password_hash : string;
  u_nickname : string;
  u_avatar : string;
  u_gender : Gender;
  u_signature : string;
  u_create_time : Z;
  u_last_login : Z;
  u_online : bool
}.

(** [services/odb/friend.hpp]; the id is 0 until the row is persisted. *)
Inductive FriendStatus := PENDING | ACCEPTED | REJECTED | BLOCKED.

Record Friend := {
  f_friend_id : Z;
  f_requester_uid : string;
  f_target_uid : string;
  f_status : FriendStatus;
  f_created_at : Z
}.

(** [services/odb/group.hpp]. *)
Inductive GroupRole := OWNER | ADMIN | MEMBER.

Record Group := {
  g_group_id : Z;
  g_name : string;
  g_creator_uid : string;
  g_created_at : Z
}.

Record GroupMember := {
  m_id : Z;
  m_group_id : Z;
  m_user_uid : string;
  m_role : GroupRole;
  m_joined_at : Z
}.

(** [services/odb/message.hpp]. *)
Inductive MessageStatus := SENT | DELIVERED | READ.
Inductive MessageType := TEXT | IMAGE | FILE | SYSTEM.

Record Message := {
  msg_id : Z;
  msg_sender_uid : string;
  msg_receiver_uid : string;
  msg_content : string;
  msg_msg_type : MessageType;
  msg_status : MessageStatus;
  msg_create_time : Z;
  msg_delivered_time : Z;
  msg_read_time : Z
}.

(** [services/odb/group_message.hpp]. *)
Record GroupMessage := {
  gm_id : Z;
  gm_group_id : Z;
  gm_sender_uid : string;
  gm_content : string;
  gm_created_at : Z
}.

#[export] Instance Gender_eq_dec : EqDecision Gender.
Proof. solve_decision. Defined.
#[export] Instance FriendStatus_eq_dec : EqDecision FriendStatus.
Proof. solve_decision. Defined.
#[export] Instance GroupRole_eq_dec : EqDecision GroupRole.
Proof. solve_decision. Defined.
#[export] Instance MessageStatus_eq_dec : EqDecision MessageStatus.
Proof. solve_decision. Defined.
#[export] Instance MessageType_eq_dec : EqDecision MessageType.
Proof. solve_decision. Defined.
#[export] Instance Friend_eq_dec : EqDecision Friend.
Proof. solve_decision. Defined.
#[export] Instance GroupMember_eq_dec : EqDecision GroupMember.
Proof. solve_decision. Defined.

(** * The database *)

Record Schema := {
  im_users : list User;
  im_friends : list Friend;
  im_groups : list Group;
  im_group_members : list GroupMember;
  im_messages : list Message;
  im_group_messages : list GroupMessage
}.

Definition empty_schema : Schema :=
  {| im_users := []; im_friends := []; im_groups := []; im_group_members := [];
     im_messages := []; im_group_messages := [] |}.

(** What ODB generates for a persistent class. *)
Class Persistent (Row : Type) := {
  key : Type;
  key_eq_dec :: EqDecision key;
  key_of : Row -> key;
  table : Schema -> list Row;
  set_table : list Row -> Schema -> Schema;
  with_auto_id : Z -> Row -> Row;       (* [#pragma db id auto]; identity otherwise *)
  row_id : Row -> Z;                    (* the automatic id, 0 when there is none *)
  violates : Row -> Row -> bool;        (* a manual id or a unique index is taken *)
  table_set l s : table (set_table l s) = l;
  set_table_set l l' s : set_table l (set_table l' s) = set_table l s;
  set_table_same s : set_table (table s) s = s;
  violates_sym x y : violates x y = violates y x;
  violates_auto i x y : violates (with_auto_id i x) y = violates x y;
  auto_id_fresh i x y : row_id y < i -> violates x y = false -> key_of (with_auto_id i x) <> key_of y
}.
Arguments key Row {_}.

(** Two rows that cannot both be in the table. *)
Definition conflict {Row} `{Persistent Row} (x y : Row) : bool :=
  bool_decide (key_of x = key_of y) || violates x y.

Lemma conflict_sym {Row} `{Persistent Row} (x y : Row) : conflict x y = conflict y x.
Proof.
  unfold conflict. rewrite violates_sym. f_equal. apply bool_decide_ext. naive_solver.
Qed.

Lemma conflict_refl {Row} `{Persistent Row} (x : Row) : conflict x x = true.
Proof. unfold conflict. by rewrite bool_decide_eq_true_2. Qed.

Lemma conflict_false {Row} `{Persistent Row} (x y : Row) :
  conflict x y = false <-> key_of x <> key_of y /\ violates x y = false.
Proof. unfold conflict. by rewrite orb_false_iff, bool_decide_eq_false. Qed.

Definition set_users l s := {| im_users := l; im_friends := im_friends s; im_groups := im_groups s;
  im_group_members := im_group_members s; im_messages := im_messages s;
  im_group_messages := im_group_messages s |}.
Definition set_friends l s := {| im_users := im_users s; im_friends := l; im_groups := im_groups s;
  im_group_members := im_group_members s; im_messages := im_messages s;
  im_group_messages := im_group_messages s |}.
Definition set_groups l s := {| im_users := im_users s; im_friends := im_friends s; im_groups := l;
  im_group_members := im_group_members s; im_messages := im_messages s;
  im_group_messages := im_group_messages s |}.
Definition set_members l s := {| im_users := im_users s; im_friends := im_friends s;
  im_groups := im_groups s; im_group_members := l; im_messages := im_messages s;
  im_group_messages := im_group_messages s |}.
Definition set_messages l s := {| im_users := im_users s; im_friends := im_friends s;
  im_groups := im_groups s; im_group_members := im_group_members s; im_messages := l;
  im_group_messages := im_group_messages s |}.
Definition set_group_messages l s := {| im_users := im_users s; im_friends := im_friends s;
  im_groups := im_groups s; im_group_members := im_group_members s;
  im_messages := im_messages s; im_group_messages := l |}.

(** Two tests joined by a conjunction are symmetric and reflexive. *)
Definition eqb2 {A B} `{EqDecision A, EqDecision B} (a a' : A) (b b' : B) : bool :=
  bool_decide (a = a') && bool_decide (b = b').

Lemma eqb2_sym {A B} `{EqDecision A, EqDecision B} (a a' : A) (b b' : B) :
  eqb2 a a' b b' = eqb2 a' a b' b.
Proof. unfold eqb2. f_equal; apply bool_decide_ext; naive_solver. Qed.

Lemma bool_decide_eq_sym {A} `{EqDecision A} (a b : A) : bool_decide (a = b) = bool_decide (b = a).
Proof. apply bool_decide_ext. naive_solver. Qed.

Lemma eqb2_true {A B} `{EqDecision A, EqDecision B} (a a' : A) (b b' : B) :
  eqb2 a a' b b' = true <-> a = a' /\ b = b'.
Proof. unfold eqb2. by rewrite andb_true_iff, !bool_decide_eq_true. Qed.

Ltac persistent :=
  intros;
  first [ reflexivity
        | by match goal with s : Schema |- _ => destruct s end
        | apply eqb2_sym
        | simpl in *; rewrite ?orb_false_iff, ?bool_decide_eq_false in *; (lia || tauto)
        | f_equal; apply bool_decide_eq_sym ].

(** [uid_] is the object id, [account_] is unique. *)
#[export] Instance User_persistent : Persistent User.
Proof.
  refine {| key := string; key_of := u_uid; table := im_users; set_table := set_users;
    with_auto_id _ r := r; row_id _ := 0;
    violates x y := bool_decide (u_uid x = u_uid y) || bool_decide (u_account x = u_account y) |};
  persistent.
Defined.

Definition with_friend_id (i : Z) (r : Friend) : Friend :=
  {| f_friend_id := i; f_requester_uid := f_requester_uid r; f_target_uid := f_target_uid r;
     f_status := f_status r; f_created_at := f_created_at r |}.

(** [friend_id_] is automatic, the index [im_friends_pair_i] makes the ordered pair
    (requester, target) unique. *)
#[export] Instance Friend_persistent : Persistent Friend.
Proof.
  refine {| key := Z; key_of := f_friend_id; table := im_friends; set_table := set_friends;
    with_auto_id := with_friend_id; row_id := f_friend_id;
    violates x y := eqb2 (f_requester_uid x) (f_requester_uid y) (f_target_uid x) (f_target_uid y) |};
  persistent.
Defined.

Definition with_group_id (i : Z) (r : Group) : Group :=
  {| g_group_id := i; g_name := g_name r; g_creator_uid := g_creator_uid r;
     g_created_at := g_created_at r |}.

#[export] Instance Group_persistent : Persistent Group.
Proof.
  refine {| key := Z; key_of := g_group_id; table := im_groups; set_table := set_groups;
    with_auto_id := with_group_id; row_id := g_group_id;
    violates _ _ := false |};
  persistent.
Defined.

Definition with_member_id (i : Z) (r : GroupMember) : GroupMember :=
  {| m_id := i; m_group_id := m_group_id r; m_user_uid := m_user_uid r; m_role := m_role r;
     m_joined_at := m_joined_at r |}.

(** The index [im_group_members_pair_i] makes (group, user) unique. *)
#[export] Instance GroupMember_persistent : Persistent GroupMember.
Proof.
  refine {| key := Z; key_of := m_id; table := im_group_members; set_table := set_members;
    with_auto_id := with_member_id; row_id := m_id;
    violates x y := eqb2 (m_group_id x) (m_group_id y) (m_user_uid x) (m_user_uid y) |};
  persistent.
Defined.

Definition with_msg_id (i : Z) (r : Message) : Message :=
  {| msg_id := i; msg_sender_uid := msg_sender_uid r; msg_receiver_uid := msg_receiver_uid r;
     msg_content := msg_content r; msg_msg_type := msg_msg_type r; msg_status := msg_status r;
     msg_create_time := msg_create_time r; msg_delivered_time := msg_delivered_time r;
     msg_read_time := msg_read_time r |}.

#[export] Instance Message_persistent : Persistent Message.
Proof.
  refine {| key := Z; key_of := msg_id; table := im_messages; set_table := set_messages;
    with_auto_id := with_msg_id; row_id := msg_id;
    violates _ _ := false |};
  persistent.
Defined.

Definition with_gm_id (i : Z) (r : GroupMessage) : GroupMessage :=
  {| gm_id := i; gm_group_id := gm_group_id r; gm_sender_uid := gm_sender_uid r;
     gm_content := gm_content r; gm_created_at := gm_created_at r |}.

#[export] Instance GroupMessage_persistent : Persistent GroupMessage.
Proof.
  refine {| key := Z; key_of := gm_id; table := im_group_messages; set_table := set_group_messages;
    with_auto_id := with_gm_id; row_id := gm_id;
    violates _ _ := false |};
  persistent.
Defined.
