(* ===== verification/Odb.v ===== *)
(** The object-relational layer the repositories call (ODB on PostgreSQL), which is
    third-party code: its operations as the class [Odb], their documented behaviour as
    [OdbLaws], the completeness of a database without faults as [OdbReliable], the
    transaction idiom of the repositories, and one in-memory database that satisfies the
    laws.

    The laws speak of two snapshots of the database: what the session sees ([view]) and
    what a rollback restores ([saved]). *)
From S2P Require Import Prelude Schema.

(** * Operations *)

(** The raw SQL some queries append: ORDER BY one column, with or without LIMIT. *)
Record ordering (Row : Type) := {
  order_by : Row -> Z;
  descending : bool;
  row_limit : option Z
}.
Arguments order_by {Row} _ _.
Arguments descending {Row} _.
Arguments row_limit {Row} _.

(** Every operation may throw [odb::exception]. *)
Class Odb (DB : Type) := {
  begin_txn : exec DB unit;
  commit : exec DB unit;
  rollback : DB -> DB;
  persist : forall {Row} `{Persistent Row}, Row -> exec DB Row;
  load : forall {Row} `{Persistent Row}, key Row -> exec DB (option Row);
  update : forall {Row} `{Persistent Row}, Row -> exec DB unit;
  erase_query : forall {Row} `{Persistent Row}, (Row -> bool) -> exec DB unit;
  query : forall {Row} `{Persistent Row}, (Row -> bool) -> option (ordering Row) ->
            exec DB (list Row);
  sql_like : string -> string -> bool   (* pattern, then text *)
}.

(** * Transactions

    The repositories write [transaction t(db->begin()); ...; t.commit(); return x;]; a
    [return] or an exception before [commit] destroys [t], which rolls back. *)

Inductive txn_exit (A : Type) := Commit (a : A) | Abandon (a : A).
Arguments Commit {A} a.
Arguments Abandon {A} a.

Definition transaction {DB} `{Odb DB} {A} (body : exec DB (txn_exit A)) : exec DB A := fun d =>
  match begin_txn d with
  | (d1, Throw) => (d1, Throw)
  | (d1, Ok _) =>
      match body d1 with
      | (d2, Throw) => (rollback d2, Throw)
      | (d2, Ok (Abandon a)) => (rollback d2, Ok a)
      | (d2, Ok (Commit a)) =>
          match commit d2 with
          | (d3, Throw) => (rollback d3, Throw)
          | (d3, Ok _) => (d3, Ok a)
          end
      end
  end.

(** The whole function body: [try { ... } catch (const odb::exception&) { return dflt; }]. *)
Definition guarded {DB} `{Odb DB} {A} (body : exec DB (txn_exit A)) (dflt : A) : exec DB A :=
  fun d => let '(d', a) := try_catch (transaction body) dflt d in (d', Ok a).

(** [try { ...; for (row : query) result.push_back(row); t.commit(); } catch (...) {}
    return result;]: when [commit] throws, the rows already taken are returned. *)
Definition collect {DB} `{Odb DB} {A} (read : exec DB (list A)) : exec DB (list A) := fun d =>
  match begin_txn d with
  | (d1, Throw) => (d1, Ok [])
  | (d1, Ok _) =>
      match read d1 with
      | (d2, Throw) => (rollback d2, Ok [])
      | (d2, Ok l) =>
          match commit d2 with
          | (d3, Throw) => (rollback d3, Ok l)
          | (d3, Ok _) => (d3, Ok l)
          end
      end
  end.

(** A loop that runs a computation for each element. *)
Fixpoint exec_map {D A B} (f : A -> exec D B) (l : list A) : exec D (list B) :=
  match l with
  | [] => ret []
  | x :: l' => let* y := f x in let* ys := exec_map f l' in ret (y :: ys)
  end.

(** These idioms never throw. *)
Lemma total_guarded {DB} `{Odb DB} {A} (body : exec DB (txn_exit A)) dflt : total (guarded body dflt).
Proof. intros d. unfold guarded. destruct (try_catch _ _ _) as [d' a]. by exists d', a. Qed.

Lemma total_collect {DB} `{Odb DB} {A} (read : exec DB (list A)) : total (collect read).
Proof. intros d. unfold collect. repeat case_match; eauto. Qed.

Lemma total_exec_map {D A B} (f : A -> exec D B) l : (forall x, total (f x)) -> total (exec_map f l).
Proof.
  intros Hf. induction l as [|x l IH]; simpl; [apply total_ret|].
  apply total_bind; [done|intros y]. apply total_bind; [done|intros ys]. apply total_ret.
Qed.

Create HintDb total.
#[export] Hint Resolve total_ret total_guarded total_collect total_exec_map : total.

(** A computation made of such steps. *)
Ltac prove_total :=
  repeat first [apply total_bind; [|intros ?] | case_match | solve [eauto with total]
               | apply total_exec_map; intros ?].

(** * Laws *)

(** [l] is an answer to a query on table [t]. *)
Definition ordered {Row} (o : ordering Row) (l : list Row) : Prop :=
  Sorted (fun x y => if descending o then order_by o y <= order_by o x
                     else order_by o x <= order_by o y) l.

Definition answers {Row} (p : Row -> bool) (o : option (ordering Row)) (t l : list Row) : Prop :=
  match o with
  | None => l ≡ₚ filter (fun r => p r) t
  | Some o => exists full, full ≡ₚ filter (fun r => p r) t /\ ordered o full /\
      match row_limit o with None => l = full | Some n => 0 <= n /\ l = take (Z.to_nat n) full end
  end.

(** What a successful [persist] did: the row got its id, it conflicts with no row, and
    the table has one row more. *)
Definition inserted {Row} `{Persistent Row} (r r' : Row) (s s' : Schema) : Prop :=
  (exists i, 0 < i /\ r' = with_auto_id i r) /\
  (forall q, q ∈ table s -> conflict r' q = false) /\
  exists l, l ≡ₚ r' :: table s /\ s' = set_table l s.

(** What a successful [update] did: it replaced the row with the same id. *)
Definition replaced {Row} `{Persistent Row} (r : Row) (s s' : Schema) : Prop :=
  exists q rest l, table s ≡ₚ q :: rest /\ key_of q = key_of r /\
    (forall x, x ∈ rest -> conflict r x = false) /\
    l ≡ₚ r :: rest /\ s' = set_table l s.

Class OdbLaws (DB : Type) `{Odb DB} := {
  view : DB -> Schema;
  saved : DB -> Schema;
  begin_law d d' r : begin_txn d = (d', r) -> view d' = view d /\
    (r = Ok tt -> saved d' = view d);
  commit_law d d' r : commit d = (d', r) ->
    (r = Ok tt -> view d' = view d) /\ (r = Throw -> saved d' = saved d);
  rollback_law d : view (rollback d) = saved d;
  persist_law {Row} `{Persistent Row} (x : Row) d d' r : persist x d = (d', r) ->
    saved d' = saved d /\ (forall x', r = Ok x' -> inserted x x' (view d) (view d'));
  load_law {Row} `{Persistent Row} (k : key Row) d d' r : load k d = (d', r) ->
    saved d' = saved d /\
    (forall o, r = Ok o -> view d' = view d /\
       exists x, o = Some x /\ x ∈ table (view d) /\ key_of x = k);
  update_law {Row} `{Persistent Row} (x : Row) d d' r : update x d = (d', r) ->
    saved d' = saved d /\ (r = Ok tt -> replaced x (view d) (view d'));
  erase_law {Row} `{Persistent Row} (p : Row -> bool) d d' r : erase_query p d = (d', r) ->
    saved d' = saved d /\ (r = Ok tt -> exists l, l ≡ₚ filter (fun x => negb (p x)) (table (view d)) /\
      view d' = set_table l (view d));
  query_law {Row} `{Persistent Row} (p : Row -> bool) o d d' r : query p o d = (d', r) ->
    saved d' = saved d /\
    (forall l, r = Ok l -> view d' = view d /\ answers p o (table (view d)) l)
}.

(** A database without faults: operations throw only for the reasons the code itself can
    cause (a missing object, a violated constraint, a negative LIMIT). *)
Class OdbReliable (DB : Type) `{OdbLaws DB} := {
  healthy : DB -> Prop;
  healthy_begin d : healthy d -> exists d', begin_txn d = (d', Ok tt) /\ healthy d';
  healthy_commit d : healthy d -> exists d', commit d = (d', Ok tt) /\ healthy d';
  healthy_rollback d : healthy d -> healthy (rollback d);
  healthy_persist {Row} `{Persistent Row} (x : Row) d : healthy d ->
    exists d' r, persist x d = (d', r) /\ healthy d' /\
      ((forall q, q ∈ table (view d) -> violates x q = false) -> exists x', r = Ok x');
  healthy_load {Row} `{Persistent Row} (k : key Row) d : healthy d ->
    exists d' r, load k d = (d', r) /\ healthy d' /\
      ((exists x, x ∈ table (view d) /\ key_of x = k) -> exists o, r = Ok o);
  healthy_update {Row} `{Persistent Row} (x : Row) d : healthy d ->
    exists d' r, update x d = (d', r) /\ healthy d' /\
      ((exists q rest, table (view d) ≡ₚ q :: rest /\ key_of q = key_of x /\
          forall y, y ∈ rest -> conflict x y = false) -> r = Ok tt);
  healthy_erase {Row} `{Persistent Row} (p : Row -> bool) d : healthy d ->
    exists d', erase_query p d = (d', Ok tt) /\ healthy d';
  healthy_query {Row} `{Persistent Row} (p : Row -> bool) o d : healthy d ->
    exists d' r, query p o d = (d', r) /\ healthy d' /\
      ((forall o' n, o = Some o' -> row_limit o' = Some n -> 0 <= n) -> exists l, r = Ok l)
}.

(** * The laws in the form proofs use: one line per outcome of a call *)

Section Inversion.
Context {DB : Type} `{OdbReliable DB}.

Lemma persist_inv {Row} `{Persistent Row} (x : Row) d d' r : persist x d = (d', r) ->
  saved d' = saved d /\ (healthy d -> healthy d') /\
  match r with
  | Ok x' => inserted x x' (view d) (view d')
  | Throw => healthy d -> exists q, q ∈ table (view d) /\ violates x q = true
  end.
Proof.
  intros E. pose proof (persist_law _ _ _ _ E) as [Hs Hr]. split; [done|].
  assert (Hh : healthy d -> healthy d' /\
    ((forall q, q ∈ table (view d) -> violates x q = false) -> exists x', r = Ok x')).
  { intros Hd. destruct (healthy_persist x d Hd) as (? & ? & E' & ? & ?).
    rewrite E in E'. by simplify_eq. }
  split; [intros Hd; by apply Hh in Hd as [? _]|].
  destruct r as [x'|]; [by apply Hr|]. intros Hd. apply Hh in Hd as [_ Hd].
  destruct (decide (Exists (fun q => violates x q = true) (table (view d)))) as [Hx|Hx].
  - apply Exists_exists in Hx as (q & Hq & ?). eauto.
  - destruct Hd as [x' ?]; [|done]. intros q Hq. apply not_true_iff_false. intros Hv.
    apply Hx, Exists_exists. eauto.
Qed.

Lemma load_inv {Row} `{Persistent Row} (k : key Row) d d' r : load k d = (d', r) ->
  saved d' = saved d /\ (healthy d -> healthy d') /\
  match r with
  | Ok o => view d' = view d /\ exists x, o = Some x /\ x ∈ table (view d) /\ key_of x = k
  | Throw => healthy d -> forall x, x ∈ table (view d) -> key_of x <> k
  end.
Proof.
  intros E. pose proof (load_law _ _ _ _ E) as [Hs Hr]. split; [done|].
  assert (Hh : healthy d -> healthy d' /\
    ((exists x, x ∈ table (view d) /\ key_of x = k) -> exists o, r = Ok o)).
  { intros Hd. destruct (healthy_load k d Hd) as (? & ? & E' & ? & ?).
    rewrite E in E'. by simplify_eq. }
  split; [intros Hd; by apply Hh in Hd as [? _]|].
  destruct r as [o|]; [by apply Hr|]. intros Hd x Hx Hk.
  apply Hh in Hd as [_ Hd]. by destruct Hd as [o ?]; [eauto|].
Qed.

(** [x] can take the place of the row with its id. *)
Definition replaceable {Row} `{Persistent Row} (x : Row) (s : Schema) : Prop :=
  exists q rest, table s ≡ₚ q :: rest /\ key_of q = key_of x /\
    forall y, y ∈ rest -> conflict x y = false.

Lemma update_inv {Row} `{Persistent Row} (x : Row) d d' r : update x d = (d', r) ->
  saved d' = saved d /\ (healthy d -> healthy d') /\
  match r with
  | Ok _ => replaced x (view d) (view d')
  | Throw => healthy d -> ~ replaceable x (view d)
  end.
Proof.
  intros E. pose proof (update_law _ _ _ _ E) as [Hs Hr]. split; [done|].
  assert (Hh : healthy d -> healthy d' /\ (replaceable x (view d) -> r = Ok tt)).
  { intros Hd. destruct (healthy_update x d Hd) as (? & ? & E' & ? & ?).
    rewrite E in E'. by simplify_eq. }
  split; [intros Hd; by apply Hh in Hd as [? _]|].
  destruct r as [[]|]; [by apply Hr|]. intros Hd Hx. apply Hh in Hd as [_ Hd]. by apply Hd in Hx.
Qed.

Lemma erase_inv {Row} `{Persistent Row} (p : Row -> bool) d d' r : erase_query p d = (d', r) ->
  saved d' = saved d /\ (healthy d -> healthy d') /\
  match r with
  | Ok _ => exists l, l ≡ₚ filter (fun x => negb (p x)) (table (view d)) /\
      view d' = set_table l (view d)
  | Throw => healthy d -> False
  end.
Proof.
  intros E. pose proof (erase_law _ _ _ _ E) as [Hs Hr]. split; [done|].
  assert (Hh : healthy d -> healthy d' /\ r = Ok tt).
  { intros Hd. destruct (healthy_erase p d Hd) as (? & E' & ?). rewrite E in E'. by simplify_eq. }
  split; [intros Hd; by apply Hh in Hd as [? _]|].
  destruct r as [[]|]; [by apply Hr|]. intros Hd. by apply Hh in Hd as [_ ?].
Qed.

Lemma query_inv {Row} `{Persistent Row} (p : Row -> bool) o d d' r : query p o d = (d', r) ->
  saved d' = saved d /\ (healthy d -> healthy d') /\
  match r with
  | Ok l => view d' = view d /\ answers p o (table (view d)) l
  | Throw => healthy d -> exists o' n, o = Some o' /\ row_limit o' = Some n /\ n < 0
  end.
Proof.
  intros E. pose proof (query_law _ _ _ _ _ E) as [Hs Hr]. split; [done|].
  assert (Hh : healthy d -> healthy d' /\
    ((forall o' n, o = Some o' -> row_limit o' = Some n -> 0 <= n) -> exists l, r = Ok l)).
  { intros Hd. destruct (healthy_query p o d Hd) as (? & ? & E' & ? & ?).
    rewrite E in E'. by simplify_eq. }
  split; [intros Hd; by apply Hh in Hd as [? _]|].
  destruct r as [l|]; [by apply Hr|]. intros Hd. apply Hh in Hd as [_ Hd].
  destruct o as [o'|]; [destruct (row_limit o') as [n|] eqn:El; [destruct (decide (n < 0))|]|];
    [by eauto| | |]; destruct Hd as [l ?]; try done; intros ? ? [= <-] ?; simplify_eq; lia.
Qed.

(** A query without LIMIT has no reason to throw. *)
Lemma query_all_inv {Row} `{Persistent Row} (p : Row -> bool) d d' r : query p None d = (d', r) ->
  saved d' = saved d /\ (healthy d -> healthy d') /\
  match r with
  | Ok l => view d' = view d /\ forall x, x ∈ l <-> x ∈ table (view d) /\ p x = true
  | Throw => healthy d -> False
  end.
Proof.
  intros E. apply query_inv in E as (? & ? & E). split_and!; try done. destruct r as [l|].
  - destruct E as [? E]. split; [done|]. intros x. simpl in E.
    rewrite E, list_elem_of_filter, Is_true_true. tauto.
  - intros Hd. by destruct (E Hd) as (? & ? & ? & _).
Qed.

(** A row whose unique columns did not change can be written back. *)
Lemma replaceable_same {Row} `{Persistent Row} (q x : Row) s :
  pairwise conflict (table s) -> q ∈ table s -> key_of q = key_of x ->
  (forall y, violates x y = violates q y) -> replaceable x s.
Proof.
  intros Hp Hq Hk Hv. apply elem_of_Permutation in Hq as [rest Hq]. exists q, rest. split_and!; try done.
  intros y Hy. eapply pairwise_perm in Hp; [|exact Hq]. apply pairwise_cons in Hp as [_ Hp]; [|apply conflict_sym].
  specialize (Hp y Hy). unfold conflict in *. by rewrite Hv, <- Hk.
Qed.

(** The database keeps rows apart: an insertion or a replacement preserves it. *)
Lemma inserted_pairwise {Row} `{Persistent Row} (x x' : Row) s s' :
  inserted x x' s s' -> pairwise conflict (table s) -> pairwise conflict (table s').
Proof.
  intros (_ & Hc & l & Hl & ->) Hp. rewrite table_set. eapply pairwise_perm; [symmetry; exact Hl|].
  apply pairwise_cons; [apply conflict_sym|done].
Qed.

Lemma replaced_pairwise {Row} `{Persistent Row} (x : Row) s s' :
  replaced x s s' -> pairwise conflict (table s) -> pairwise conflict (table s').
Proof.
  intros (q & rest & l & Hq & _ & Hc & Hl & ->) Hp. rewrite table_set.
  eapply pairwise_perm; [symmetry; exact Hl|]. apply pairwise_cons; [apply conflict_sym|]. split; [|done].
  eapply pairwise_tail, pairwise_perm; [exact Hq|done].
Qed.

(** Membership after an insertion or a replacement. *)
Lemma inserted_elem {Row} `{Persistent Row} (r r' : Row) s s' x :
  inserted r r' s s' -> x ∈ table s' <-> x = r' \/ x ∈ table s.
Proof. intros (_ & _ & l & Hl & ->). by rewrite table_set, Hl, elem_of_cons. Qed.

(** Of a replaced row, the others stay; it is the one with the same id. *)
Lemma replaced_elem {Row} `{Persistent Row} (r : Row) s s' x :
  pairwise conflict (table s) -> replaced r s s' ->
  x ∈ table s' <-> x = r \/ (x ∈ table s /\ key_of x <> key_of r).
Proof.
  intros Hp (q & rest & l & Hq & Hk & Hc & Hl & ->).
  rewrite table_set, Hl, Hq, !elem_of_cons. split.
  - intros [->|Hx]; [by left|]. right. split; [by right|].
    specialize (Hc x Hx). apply conflict_false in Hc as [? _]. congruence.
  - intros [->|[[->|Hx] Hne]]; auto. done.
Qed.

(** [s'] is [s] with one row more in the table of [r], which is [r]. *)
Definition one_row_more {Row} `{Persistent Row} (r : Row) (s s' : Schema) : Prop :=
  exists l, l ≡ₚ r :: table s /\ s' = set_table l s.

Lemma inserted_more {Row} `{Persistent Row} (r r' : Row) s s' : inserted r r' s s' -> one_row_more r' s s'.
Proof. by intros (_ & _ & ?). Qed.

Lemma one_row_elem {Row} `{Persistent Row} (r : Row) s s' : one_row_more r s s' -> r ∈ table s'.
Proof. intros (l & Hl & ->). rewrite table_set, Hl. by left. Qed.

(** A row added and then replaced by one with its id is still one row more. *)
Lemma replaced_more {Row} `{Persistent Row} (x r : Row) s v s' :
  one_row_more x s v -> key_of r = key_of x -> replaced r v s' -> one_row_more r s s'.
Proof.
  intros (l & Hl & ->) Hk (q & rest & l' & Hq & Hkq & Hc & Hl' & ->). rewrite table_set, Hl in Hq.
  exists l'. split; [|by rewrite set_table_set]. rewrite Hl'.
  assert (x ∈ q :: rest) as [->|Hx]%elem_of_cons by (rewrite <- Hq; by left).
  - apply Permutation_cons_inv in Hq. by rewrite Hq.
  - specialize (Hc x Hx). apply conflict_false in Hc as [Hc _]. by destruct Hc.
Qed.

(** * Reasoning about transactions *)

(** What a transaction body does: it leaves [saved] alone, its committed exits satisfy [Q],
    its early exits [R], and without faults it throws only for the reason [T]. *)
Definition body_spec {A} (body : exec DB (txn_exit A)) (Q : Schema -> A -> Schema -> Prop)
    (R : Schema -> A -> Prop) (T : Schema -> Prop) : Prop :=
  forall d d' r, body d = (d', r) ->
    saved d' = saved d /\ (healthy d -> healthy d') /\
    match r with
    | Ok (Commit a) => Q (view d) a (view d')
    | Ok (Abandon a) => R (view d) a
    | Throw => healthy d -> T (view d)
    end.

(** A transaction either throws and leaves no trace, or commits what its body did, or
    returns early and leaves no trace. *)
Lemma transaction_spec {A} (body : exec DB (txn_exit A)) Q R T d d' r :
  body_spec body Q R T -> transaction body d = (d', r) ->
  (healthy d -> healthy d') /\
  match r with
  | Ok a => Q (view d) a (view d') \/ (R (view d) a /\ view d' = view d)
  | Throw => view d' = view d /\ (healthy d -> T (view d))
  end.
Proof.
  intros Hb. unfold transaction.
  assert (Hbegin : healthy d -> exists d1, begin_txn d = (d1, Ok tt) /\ healthy d1) by apply healthy_begin.
  destruct (begin_txn d) as [d1 [[]|]] eqn:Eb; apply begin_law in Eb as [Hv1 Hs1].
  2: { intros [= <- <-]. split; [|split; [done|]]; intros Hd; by apply Hbegin in Hd as (? & ? & _). }
  specialize (Hs1 eq_refl).
  assert (Hd1 : healthy d -> healthy d1) by (intros Hd; apply Hbegin in Hd as (? & ? & ?); by simplify_eq).
  destruct (body d1) as [d2 r2] eqn:E2. destruct (Hb _ _ _ E2) as (Hs2 & Hd2 & Hr).
  rewrite Hv1 in Hr. destruct r2 as [[a|a]|].
  - assert (Hcommit : healthy d2 -> exists d3, commit d2 = (d3, Ok tt) /\ healthy d3) by apply healthy_commit.
    destruct (commit d2) as [d3 [[]|]] eqn:Ec; apply commit_law in Ec as [Hc1 Hc2]; intros [= <- <-].
    + rewrite Hc1 by done. split; [|by left]. intros Hd. destruct Hcommit as (? & ? & ?); [by auto|].
      by simplify_eq.
    + rewrite rollback_law, Hc2 by done. split; [|split; [congruence|]];
        intros Hd; destruct Hcommit as (? & ? & ?); auto; done.
  - intros [= <- <-]. rewrite rollback_law. split; [by eauto using healthy_rollback|].
    right. split; [done|congruence].
  - intros [= <- <-]. rewrite rollback_law. split; [by eauto using healthy_rollback|].
    split; [congruence|by auto].
Qed.

(** The repositories' [try { transaction } catch (odb::exception) { return dflt; }]: it
    returns; what it returns was committed, or read, or is [dflt] because the body threw. *)
Lemma guarded_spec {A} (body : exec DB (txn_exit A)) Q R T dflt d d' r :
  body_spec body Q R T -> guarded body dflt d = (d', r) ->
  (healthy d -> healthy d') /\
  exists a, r = Ok a /\
    (Q (view d) a (view d') \/
     (view d' = view d /\ (R (view d) a \/ (a = dflt /\ (healthy d -> T (view d)))))).
Proof.
  intros Hb. unfold guarded. destruct (try_catch _ _ _) as [d1 a] eqn:Ht. intros [= <- <-].
  apply try_catch_inv in Ht as [Ht|[Ht ->]]; apply (transaction_spec _ _ _ _ _ _ _ Hb) in Ht as [Hd Ht];
    (split; [done|]); eexists; (split; [done|]).
  - destruct Ht as [|[]]; auto.
  - destruct Ht; auto.
Qed.

(** Bodies that only read. *)
Lemma guarded_read {A} (body : exec DB (txn_exit A)) (Q : Schema -> A -> Prop) T dflt d d' r :
  body_spec body (fun s a s' => s' = s /\ Q s a) Q T -> guarded body dflt d = (d', r) ->
  (healthy d -> healthy d') /\
  exists a, r = Ok a /\ view d' = view d /\ (Q (view d) a \/ (a = dflt /\ (healthy d -> T (view d)))).
Proof.
  intros Hb Ht. apply (guarded_spec _ _ _ _ _ _ _ _ Hb) in Ht as (Hd & a & -> & Ht).
  split; [done|]. exists a. destruct Ht as [[]|[? [|]]]; auto.
Qed.

(** A read that keeps the database as it was. *)
Definition read_spec {A} (read : exec DB A) (Q : Schema -> A -> Prop) (T : Schema -> Prop) : Prop :=
  forall d d' r, read d = (d', r) ->
    saved d' = saved d /\ (healthy d -> healthy d') /\
    match r with Ok a => view d' = view d /\ Q (view d) a | Throw => healthy d -> T (view d) end.

Lemma collect_spec {A} (read : exec DB (list A)) Q T d d' r :
  read_spec read Q T -> collect read d = (d', r) ->
  (healthy d -> healthy d') /\ view d' = view d /\
  exists l, r = Ok l /\ (Q (view d) l \/ (l = [] /\ (healthy d -> T (view d)))).
Proof.
  intros Hb. unfold collect.
  assert (Hbegin : healthy d -> exists d1, begin_txn d = (d1, Ok tt) /\ healthy d1) by apply healthy_begin.
  destruct (begin_txn d) as [d1 [[]|]] eqn:Eb; apply begin_law in Eb as [Hv1 Hs1].
  2: { intros [= <- <-]. split_and!; [|done|exists []; split; [done|]; right; split; [done|]];
       intros Hd; by apply Hbegin in Hd as (? & ? & _). }
  specialize (Hs1 eq_refl).
  assert (Hd1 : healthy d -> healthy d1) by (intros Hd; apply Hbegin in Hd as (? & ? & ?); by simplify_eq).
  destruct (read d1) as [d2 r2] eqn:E2. destruct (Hb _ _ _ E2) as (Hs2 & Hd2 & Hr).
  rewrite Hv1 in Hr. destruct r2 as [l|].
  - destruct Hr as [Hv2 HQ].
    assert (Hcommit : healthy d2 -> exists d3, commit d2 = (d3, Ok tt) /\ healthy d3) by apply healthy_commit.
    destruct (commit d2) as [d3 [[]|]] eqn:Ec; apply commit_law in Ec as [Hc1 Hc2]; intros [= <- <-].
    + rewrite Hc1 by done. split_and!; [|congruence|by eauto]. intros Hd.
      destruct Hcommit as (? & ? & ?); [by auto|]. by simplify_eq.
    + rewrite rollback_law, Hc2 by done. split_and!; [|congruence|by eauto].
      intros Hd. destruct Hcommit as (? & ? & ?); auto; done.
  - intros [= <- <-]. rewrite rollback_law. split_and!; [by eauto using healthy_rollback|congruence|].
    exists []. split; [done|]. right. auto.
Qed.

(** The rows of a query without LIMIT, collected. *)
Lemma collect_all {Row} `{Persistent Row} (p : Row -> bool) d d' r :
  collect (query p None) d = (d', r) ->
  (healthy d -> healthy d') /\ view d' = view d /\
  exists l, r = Ok l /\ (forall x, x ∈ l -> x ∈ table (view d) /\ p x = true) /\
    (healthy d -> l ≡ₚ filter (fun x => p x) (table (view d))).
Proof.
  intros E. eapply (collect_spec _ (fun s l => l ≡ₚ filter (fun x => p x) (table s)) (fun _ => False)) in E
    as (Hd & Hv & l & -> & Hl).
  - split_and!; try done. exists l. split; [done|]. split; [|by destruct Hl as [?|[_ Hf]]; [|intros []%Hf]].
    intros x Hx. destruct Hl as [Hl|[-> _]]; [|by apply elem_of_nil in Hx].
    rewrite Hl, list_elem_of_filter, Is_true_true in Hx. tauto.
  - intros d1 d2 r2 E2. apply query_inv in E2 as (? & ? & E2). split_and!; try done.
    destruct r2; [done|]. intros Hd. by destruct (E2 Hd) as (? & ? & ? & _).
Qed.

(** A loop over computations that only read and always return. *)
Lemma exec_map_spec {A B} (f : A -> exec DB B) (Q : Schema -> Prop -> A -> B -> Prop) l d d' r :
  (forall x d d' r, f x d = (d', r) -> (healthy d -> healthy d') /\ view d' = view d /\
     exists y, r = Ok y /\ Q (view d) (healthy d) x y) ->
  (forall s (P P' : Prop) x y, (P' -> P) -> Q s P x y -> Q s P' x y) ->
  exec_map f l d = (d', r) ->
  (healthy d -> healthy d') /\ view d' = view d /\
  exists ys, r = Ok ys /\ Forall2 (Q (view d) (healthy d)) l ys.
Proof.
  intros Hf Hw. revert d d' r. induction l as [|x l IH]; intros d d' r; simpl.
  - unfold ret. intros [= <- <-]. eauto.
  - intros E. run_inv E; apply Hf in E0 as (Hd & Hv & y & Hr & Hy); [done|]. simplify_eq.
    run_inv E; apply IH in E0 as (Hd2 & Hv2 & ys & Hr & Hys); [done|]. unfold ret in E. simplify_eq.
    split_and!; [by auto|congruence|]. eexists. split; [done|]. constructor; [done|].
    rewrite Hv in Hys. eapply Forall2_impl; [exact Hys|]. intros ? ?. by apply Hw.
Qed.
End Inversion.

(** Inverts a run of database operations into the laws of each of them. *)
Ltac odb_inv :=
  repeat match goal with
  | H : bind _ _ _ = _ |- _ => run_inv H
  | H : ret _ _ = _ |- _ => unfold ret in H; simplify_eq
  | H : persist _ _ = (_, _) |- _ => apply persist_inv in H as (? & ? & H)
  | H : load _ _ = (_, _) |- _ => apply load_inv in H as (? & ? & H)
  | H : update _ _ = (_, _) |- _ => apply update_inv in H as (? & ? & H)
  | H : erase_query _ _ = (_, _) |- _ => apply erase_inv in H as (? & ? & H)
  | H : query _ None _ = (_, _) |- _ => apply query_all_inv in H as (? & ? & H)
  | H : query _ _ _ = (_, _) |- _ => apply query_inv in H as (? & ? & H)
  | H : _ /\ _ |- _ => destruct H
  | H : ex _ |- _ => destruct H
  | H : ?o = Some _ |- _ => is_var o; subst o
  | H : (match Some _ with Some _ => _ | None => _ end) _ = _ |- _ => cbv beta iota in H
  end; simplify_eq.

(** Starts a proof of [body_spec]: one goal per exit of the body. *)
Ltac body_cases :=
  let d := fresh "d" in let d' := fresh "d'" in let r := fresh "r" in
  intros d d' r ?; odb_inv;
  (split; [first [done | congruence | etrans; eassumption]|split; [by auto|]]).

(** Load a row, change it, write it back: [f] keeps the id and the unique columns. *)
Lemma load_update_spec {DB} `{OdbReliable DB} {Row} `{Persistent Row} {A}
    (f : Row -> Row) (g : Row -> A) (k : key Row) (e : txn_exit A) :
  (forall x, key_of (f x) = key_of x) -> (forall x y, violates (f x) y = violates x y) ->
  body_spec (let* o := load k in
             match o with
             | None => ret e
             | Some x => let* _ := update (f x) in ret (Commit (g x))
             end)
    (fun s a s' => exists x, x ∈ table s /\ key_of x = k /\ a = g x /\ replaced (f x) s s')
    (fun _ _ => False)
    (fun s => pairwise conflict (table s) -> forall x, x ∈ table s -> key_of x <> k).
Proof.
  intros Hk Hv. body_cases.
  - auto.
  - intros Hd Hp y Hy Hky. match goal with H : _ -> ~ replaceable _ _ |- _ => apply H; [by auto|] end.
    replace (view d0) with (view d) by done. eapply replaceable_same; [done|exact Hy| |].
    + by rewrite Hk.
    + intros z. rewrite Hv. f_equal.
      eapply (pairwise_eq conflict conflict_sym); try done.
      unfold conflict. rewrite bool_decide_eq_true_2; [done|congruence].
  - eexists. split_and!; try done. congruence.
Qed.

(** * The repositories' common functions *)

Section Repositories.
Context {DB : Type} `{OdbReliable DB} {Row : Type} `{Persistent Row}.

(** Insert one row. *)
Lemma guarded_persist (x : Row) (d d' : DB) r :
  guarded (let* _ := persist x in ret (Commit true)) false d = (d', r) ->
  (healthy d -> healthy d') /\ exists b, r = Ok b /\
    if b then exists x', inserted x x' (view d) (view d')
    else view d' = view d /\ (healthy d -> exists q, q ∈ table (view d) /\ violates x q = true).
Proof.
  intros E. eapply (guarded_spec _ (fun s b s' => b = true /\ exists x', inserted x x' s s') (fun _ _ => False)
    (fun s => exists q, q ∈ table s /\ violates x q = true)) in E as (Hd & b & -> & E).
  - split; [done|]. exists b. split; [done|]. destruct E as [[-> ?]|[? [[]|[-> ?]]]]; auto.
  - body_cases; [done|]. eauto.
Qed.

(** Load the row with an id. *)
Lemma guarded_load (k : key Row) (d d' : DB) r :
  guarded (let* loaded := load k in ret (Commit loaded)) None d = (d', r) ->
  (healthy d -> healthy d') /\ view d' = view d /\ exists o, r = Ok o /\
    match o with
    | Some x => x ∈ table (view d) /\ key_of x = k
    | None => healthy d -> forall x, x ∈ table (view d) -> key_of x <> k
    end.
Proof.
  intros E. eapply (guarded_read _ (fun s o => exists x, o = Some x /\ x ∈ table s /\ key_of x = k)
    (fun s => forall x, x ∈ table s -> key_of x <> k)) in E as (Hd & o & -> & Hv & E).
  - split; [done|]. split; [done|]. exists o. split; [done|].
    destruct E as [(x & -> & ?)|[-> ?]]; done.
  - body_cases; [done|]. eauto.
Qed.

(** The first row that satisfies a condition. *)
Lemma guarded_first (p : Row -> bool) (d d' : DB) r :
  guarded (let* l := query p None in ret (Commit (head l))) None d = (d', r) ->
  (healthy d -> healthy d') /\ view d' = view d /\ exists o, r = Ok o /\
    match o with
    | Some x => x ∈ table (view d) /\ p x = true
    | None => healthy d -> forall x, x ∈ table (view d) -> p x = false
    end.
Proof.
  intros E. eapply (guarded_read _ (fun s o =>
    match o with Some x => x ∈ table s /\ p x = true | None => forall x, x ∈ table s -> p x = false end)
    (fun _ => False)) in E as (Hd & o & -> & Hv & E).
  - split; [done|]. split; [done|]. exists o. split; [done|]. destruct E as [?|[-> Hf]]; [by destruct o|].
    intros Hh. by apply Hf in Hh.
  - body_cases; [done|]. split; [done|].
    match goal with H : forall x, x ∈ a <-> _ |- _ => rename H into Hin end.
    destruct a as [|x a]; simpl.
    + intros x Hx. destruct (p x) eqn:Ep; [|done]. by destruct (not_elem_of_nil x); apply Hin.
    + apply Hin. constructor.
Qed.

(** Load a row, change it, write it back, as a repository function. *)
Lemma guarded_load_update {A} (f : Row -> Row) (g : Row -> A) (k : key Row) (e : txn_exit A) dflt
    (d d' : DB) r :
  (forall x, key_of (f x) = key_of x) -> (forall x y, violates (f x) y = violates x y) ->
  guarded (let* o := load k in
           match o with
           | None => ret e
           | Some x => let* _ := update (f x) in ret (Commit (g x))
           end) dflt d = (d', r) ->
  (healthy d -> healthy d') /\ exists a, r = Ok a /\
    ((exists x, x ∈ table (view d) /\ key_of x = k /\ a = g x /\ replaced (f x) (view d) (view d')) \/
     (view d' = view d /\ a = dflt /\
      (healthy d -> pairwise conflict (table (view d)) -> forall x, x ∈ table (view d) -> key_of x <> k))).
Proof.
  intros Hk Hv E. eapply guarded_spec in E as (Hd & a & -> & E); [|by apply (load_update_spec f g k e)].
  split; [done|]. exists a. split; [done|].
  destruct E as [?|[? [[]|[-> ?]]]]; [by left|by right].
Qed.
End Repositories.
