(* ===== verification/MemDb.v ===== *)
(** An in-memory database that satisfies the laws of Odb: the instance on which the
    services are run.  It is up or down; a database that is down throws at every call. *)
From S2P Require Import Prelude Schema Odb.
From Stdlib Require Import Ascii.
Open Scope Z_scope.

Record MemDb := { cur : Schema; snap : Schema; up : bool }.

Definition mem_start (s : Schema) : MemDb := {| cur := s; snap := s; up := true |}.
Definition mem_down (s : Schema) : MemDb := {| cur := s; snap := s; up := false |}.

Definition guard_up {A} (m : exec MemDb A) : exec MemDb A := fun d =>
  if up d then m d else (d, Throw).

Definition set_cur (s : Schema) (d : MemDb) : MemDb := {| cur := s; snap := snap d; up := up d |}.

Definition next_id {Row} `{Persistent Row} (t : list Row) : Z :=
  1 + foldr (fun r m => Z.max (row_id r) m) 0 t.

Definition order_rel {Row} (o : ordering Row) : relation Row := fun x y =>
  if descending o then order_by o y <= order_by o x else order_by o x <= order_by o y.

#[export] Instance order_rel_dec {Row} (o : ordering Row) : RelDecision (order_rel o).
Proof. intros x y. unfold order_rel. destruct (descending o); apply _. Defined.

#[export] Instance order_rel_total {Row} (o : ordering Row) : Total (order_rel o).
Proof. intros x y. unfold order_rel. destruct (descending o); lia. Qed.

Definition mem_persist {Row} `{Persistent Row} (x : Row) : exec MemDb Row := guard_up (fun d =>
  let t := table (cur d) in
  let x' := with_auto_id (next_id t) x in
  if existsb (conflict x') t then (d, Throw)
  else (set_cur (set_table (t ++ [x']) (cur d)) d, Ok x')).

Definition mem_load {Row} `{Persistent Row} (k : key Row) : exec MemDb (option Row) :=
  guard_up (fun d =>
    match list_find (fun r => key_of r = k) (table (cur d)) with
    | Some (_, r) => (d, Ok (Some r))
    | None => (d, Throw)
    end).

Definition mem_update {Row} `{Persistent Row} (x : Row) : exec MemDb unit := guard_up (fun d =>
  match list_find (fun r => key_of r = key_of x) (table (cur d)) with
  | Some (i, _) =>
      let rest := delete i (table (cur d)) in
      if existsb (conflict x) rest then (d, Throw)
      else (set_cur (set_table (x :: rest) (cur d)) d, Ok tt)
  | None => (d, Throw)
  end).

Definition mem_erase {Row} `{Persistent Row} (p : Row -> bool) : exec MemDb unit :=
  guard_up (fun d =>
    (set_cur (set_table (filter (fun x => negb (p x)) (table (cur d))) (cur d)) d, Ok tt)).

Definition mem_query {Row} `{Persistent Row} (p : Row -> bool) (o : option (ordering Row))
  : exec MemDb (list Row) := guard_up (fun d =>
  let l := filter (fun x => p x) (table (cur d)) in
  match o with
  | None => (d, Ok l)
  | Some o =>
      let full := merge_sort (order_rel o) l in
      match row_limit o with
      | None => (d, Ok full)
      | Some n => if 0 <=? n then (d, Ok (take (Z.to_nat n) full)) else (d, Throw)
      end
  end).

(** LIKE with its two wildcards; [fuel] bounds the tries of ['%']. *)
Fixpoint like (fuel : nat) (p s : string) : bool :=
  match fuel with
  | O => false
  | S f =>
    match p, s with
    | EmptyString, EmptyString => true
    | EmptyString, _ => false
    | String c p', _ =>
        if bool_decide (c = "%"%char) then
          like f p' s || match s with EmptyString => false | String _ s' => like f p s' end
        else match s with
             | EmptyString => false
             | String d s' => (bool_decide (c = "_"%char) || bool_decide (c = d)) && like f p' s'
             end
    end
  end.

#[export] Instance mem_odb : Odb MemDb := {
  begin_txn := guard_up (fun d => ({| cur := cur d; snap := cur d; up := up d |}, Ok tt));
  commit := guard_up (fun d => (d, Ok tt));
  rollback d := {| cur := snap d; snap := snap d; up := up d |};
  persist := @mem_persist;
  load := @mem_load;
  update := @mem_update;
  erase_query := @mem_erase;
  query := @mem_query;
  sql_like p s := like (String.length p + String.length s + 1) p s
}.

(** * The laws *)

Lemma existsb_false {A} (f : A -> bool) l : existsb f l = false <-> forall x, x ∈ l -> f x = false.
Proof.
  induction l as [|y l IH]; simpl.
  - split; [|done]. intros _ x Hx. by apply elem_of_nil in Hx.
  - rewrite orb_false_iff, IH. split.
    + intros [Hy Hl] x [->|Hx]%elem_of_cons; auto.
    + intros Hx. split; [apply Hx; constructor|]. intros x Hin. apply Hx. by constructor.
Qed.

Lemma next_id_pos {Row} `{Persistent Row} t : 0 < next_id t.
Proof. unfold next_id. induction t; simpl; lia. Qed.

Lemma next_id_fresh {Row} `{Persistent Row} t q : q ∈ t -> row_id q < next_id t.
Proof.
  unfold next_id. induction t as [|y t IH]; [by intros ?%elem_of_nil|].
  intros [->|Hin]%elem_of_cons; simpl; [lia|]. specialize (IH Hin). lia.
Qed.

Ltac mem_up H :=
  unfold guard_up in H; match type of H with context [up ?d] => destruct (up d) eqn:? end;
  [|by simplify_eq].

Lemma mem_persist_law {Row} `{Persistent Row} (x : Row) d d' r :
  mem_persist x d = (d', r) ->
  snap d' = snap d /\ (forall x', r = Ok x' -> inserted x x' (cur d) (cur d')).
Proof.
  unfold mem_persist. intros E. mem_up E. cbv zeta in E.
  destruct (existsb _ _) eqn:Ec; simplify_eq; [done|]. split; [done|].
  intros x' [= <-]. split_and!.
  - eexists; split; [apply next_id_pos|done].
  - by apply existsb_false.
  - eexists; split; [|done]. by rewrite <- Permutation_cons_append.
Qed.

Lemma mem_load_law {Row} `{Persistent Row} (k : key Row) d d' r :
  mem_load k d = (d', r) -> snap d' = snap d /\
  (forall o, r = Ok o -> cur d' = cur d /\ exists x, o = Some x /\ x ∈ table (cur d) /\ key_of x = k).
Proof.
  unfold mem_load. intros E. mem_up E.
  destruct (list_find _ _) as [[i x]|] eqn:Ef; simplify_eq; [|done].
  apply list_find_Some in Ef as (Hl & Hk & _). split; [done|].
  intros o [= <-]. split; [done|]. exists x. by apply list_elem_of_lookup_2 in Hl.
Qed.

Lemma mem_update_law {Row} `{Persistent Row} (x : Row) d d' r :
  mem_update x d = (d', r) -> snap d' = snap d /\ (r = Ok tt -> replaced x (cur d) (cur d')).
Proof.
  unfold mem_update. intros E. mem_up E.
  destruct (list_find _ _) as [[i q]|] eqn:Ef; simplify_eq; [|done]. cbv zeta in E.
  destruct (existsb _ _) eqn:Ec; simplify_eq; [done|]. split; [done|]. intros _.
  apply list_find_Some in Ef as (Hl & Hk & _).
  exists q, (delete i (table (cur d))), (x :: delete i (table (cur d))). split_and!; try done.
  - by apply delete_Permutation.
  - by apply existsb_false.
Qed.

Lemma mem_sorted {Row} (o : ordering Row) (l : list Row) :
  merge_sort (order_rel o) l ≡ₚ l /\ ordered o (merge_sort (order_rel o) l).
Proof. split; [apply merge_sort_Permutation|apply (Sorted_merge_sort (order_rel o))]. Qed.

Lemma mem_query_law {Row} `{Persistent Row} (p : Row -> bool) o d d' r :
  mem_query p o d = (d', r) -> snap d' = snap d /\
  (forall l, r = Ok l -> cur d' = cur d /\ answers p o (table (cur d)) l).
Proof.
  unfold mem_query. intros E. mem_up E. cbv zeta in E. destruct o as [o|]; unfold answers.
  - destruct (mem_sorted o (filter (fun x => p x) (table (cur d)))) as [Hp Ho].
    destruct (row_limit o) as [n|] eqn:El; [destruct (0 <=? n) eqn:En; zbool|]; simplify_eq;
      (split; [done|]); try done; intros l [= <-]; eauto 8.
  - simplify_eq. split; [done|]. intros l [= <-]. split; [done|]. simpl. reflexivity.
Qed.

#[export] Instance mem_laws : OdbLaws MemDb.
Proof.
  refine {| view := cur; saved := snap |}.
  - intros d d' r E. simpl in E. mem_up E. by simplify_eq.
  - intros d d' r E. simpl in E. mem_up E. by simplify_eq.
  - done.
  - apply @mem_persist_law.
  - apply @mem_load_law.
  - apply @mem_update_law.
  - intros Row ? p d d' r E. simpl in E. unfold mem_erase in E. mem_up E. simplify_eq.
    split; [done|]. intros _. by eexists.
  - apply @mem_query_law.
Defined.

#[export] Instance mem_reliable : OdbReliable MemDb.
Proof.
  refine {| healthy d := up d = true |}.
  - intros d Hd. simpl. unfold guard_up. rewrite Hd. by eexists.
  - intros d Hd. simpl. unfold guard_up. rewrite Hd. by eexists.
  - done.
  - intros Row ? x d Hd. simpl. unfold mem_persist, guard_up. rewrite Hd. cbv zeta.
    destruct (existsb _ _) eqn:Ec; do 2 eexists; (split; [done|]); split; try done; [|by eexists].
    intros Hv. exfalso. revert Ec. apply not_true_iff_false, existsb_false.
    intros q Hq. apply conflict_false. rewrite violates_auto. split; [|by apply Hv].
    apply auto_id_fresh; [by apply next_id_fresh|by apply Hv].
  - intros Row ? k d Hd. simpl. unfold mem_load, guard_up. rewrite Hd.
    destruct (list_find _ _) as [[i x]|] eqn:Ef; do 2 eexists; (split; [done|]); split; try done;
      [by eexists|]. intros (x & Hx & Hk). apply list_find_None in Ef.
    rewrite Forall_forall in Ef. by destruct (Ef x Hx).
  - intros Row ? x d Hd. simpl. unfold mem_update, guard_up. rewrite Hd.
    destruct (list_find _ _) as [[i q]|] eqn:Ef.
    + cbv zeta. destruct (existsb _ _) eqn:Ec; do 2 eexists; (split; [done|]); split; try done.
      intros (q' & rest & Hp & Hk & Hc). exfalso. revert Ec. apply not_true_iff_false, existsb_false.
      apply list_find_Some in Ef as (Hl & Hkq & _).
      intros y Hy. rewrite (delete_Permutation _ _ _ Hl) in Hp.
      assert (Hyq : y ∈ q' :: rest) by (rewrite <- Hp; by constructor).
      apply elem_of_cons in Hyq as [->|]; [|by apply Hc].
      assert (Hqr : q ∈ q' :: rest) by (rewrite <- Hp; constructor).
      apply elem_of_cons in Hqr as [->|Hqr].
      * apply Permutation_cons_inv in Hp. rewrite Hp in Hy. by apply Hc.
      * specialize (Hc q Hqr). apply conflict_false in Hc as [Hc _]. congruence.
    + do 2 eexists; (split; [done|]); split; [done|].
      intros (q & rest & Hp & Hk & _). apply list_find_None in Ef.
      rewrite Forall_forall in Ef. destruct (Ef q); [rewrite Hp; constructor|done].
  - intros Row ? p d Hd. simpl. unfold mem_erase, guard_up. rewrite Hd. by eexists.
  - intros Row ? p o d Hd. simpl. unfold mem_query, guard_up. rewrite Hd. cbv zeta.
    destruct o as [o|]; [|do 2 eexists; (split; [done|]); split; [done|by eexists]].
    destruct (row_limit o) as [n|] eqn:El; [|do 2 eexists; (split; [done|]); split; [done|by eexists]].
    destruct (0 <=? n) eqn:En; do 2 eexists; (split; [done|]); split; try done; [by eexists|].
    intros Hn. specialize (Hn o n eq_refl El). zbool. lia.
Defined.
