(* ===== verification/PasswordHasher.v ===== *)
(** The password hasher of the user service: [services/user/password_hasher.cpp].

    PBKDF2-HMAC-SHA256 is OpenSSL's: the class [Pbkdf2] names it and states what the code
    relies on (its output has the requested length).  Random bytes are arguments. *)
From S2P Require Import Prelude Text.
From Stdlib Require Import Ascii.

(** * Text: the parts of the C++ library the hasher uses *)

(** [std::isxdigit] in the C locale. *)
Definition isxdigit (c : ascii) : bool :=
  is_digit c || ((65 <=? chr c) && (chr c <=? 70)) || ((97 <=? chr c) && (chr c <=? 102)).

(** The value of a hexadecimal digit. *)
Definition xval (c : ascii) : Z :=
  if is_digit c then chr c - 48 else if chr c <=? 70 then chr c - 55 else chr c - 87.

(** [std::istringstream] under [getline(iss, part, delim)] and [peek]: the unread text and
    the end-of-file bit. *)
Record istream := { unread : string; eofbit : bool }.

Fixpoint split_at (delim : ascii) (s : string) : string * option string :=
  match s with
  | EmptyString => (EmptyString, None)
  | String c s' =>
      if Ascii.eqb c delim then (EmptyString, Some s')
      else let '(p, r) := split_at delim s' in (String c p, r)
  end.

Definition getline (i : istream) (delim : ascii) : option (string * istream) :=
  if eofbit i then None
  else let '(p, r) := split_at delim (unread i) in
       match r with
       | Some r => Some (p, {| unread := r; eofbit := false |})
       | None =>
           if String.eqb p EmptyString then None   (* nothing extracted: failbit *)
           else Some (p, {| unread := EmptyString; eofbit := true |})
       end.

Definition peek_eof (i : istream) : bool :=
  eofbit i || match unread i with EmptyString => true | _ => false end.

(** * Hexadecimal *)

Definition hex_digit (n : Z) : ascii :=
  ascii_of_N (Z.to_N (if n <? 10 then 48 + n else 87 + n)).

Fixpoint ToHex (data : bytes) : string :=
  match data with
  | [] => EmptyString
  | b :: data' => String (hex_digit (bz b / 16)) (String (hex_digit (bz b mod 16)) (ToHex data'))
  end.

Fixpoint from_hex_pairs (s : string) : option bytes :=
  match s with
  | EmptyString => Some []
  | String hi (String lo s') =>
      if isxdigit hi && isxdigit lo
      then cons (zb (16 * xval hi + xval lo)) <$> from_hex_pairs s'
      else None
  | String _ EmptyString => None
  end.

Definition FromHex (hex : string) (out_len : nat) : option bytes :=
  if Nat.eqb (String.length hex) (out_len * 2) then from_hex_pairs hex else None.

(** * The hasher *)

Definition kSaltLength : nat := 16.
Definition kHashLength : nat := 32.
Definition kDelimiter : ascii := "$"%char.
Definition kDefaultIterations : Z := 100000.

(** [PKCS5_PBKDF2_HMAC] with SHA-256 and a [kHashLength]-byte output; [None] is failure. *)
Class Pbkdf2 := pbkdf2 : string -> bytes -> Z -> option bytes.
Class Pbkdf2Laws `{Pbkdf2} := {
  pbkdf2_length p s n h : pbkdf2 p s n = Some h -> length h = kHashLength
}.

Section Hasher.
Context `{Pbkdf2}.

(** The constructor keeps a positive iteration count only. *)
Definition PasswordHasher (iterations : Z) : Z :=
  if 0 <? iterations then iterations else kDefaultIterations.

(** [hash]; [salt] is what [RAND_bytes] produced, [None] when it failed.  [None] is the
    [std::runtime_error] the function throws. *)
Definition hash (iterations_ : Z) (salt : option bytes) (password : string) : option string :=
  salt ← salt;
  h ← pbkdf2 password salt iterations_;
  Some ("pbkdf2_sha256" +:+ String kDelimiter (dec iterations_ +:+ String kDelimiter
        (ToHex salt +:+ String kDelimiter (ToHex h)))).

(** The parsing half of [verify]: iterations, salt and expected hash. *)
Definition parse_stored (stored_hash : string) : option (Z * bytes * bytes) :=
  '(tag, i1) ← getline {| unread := stored_hash; eofbit := false |} kDelimiter;
  if negb (String.eqb tag "pbkdf2_sha256") then None else
  '(it, i2) ← getline i1 kDelimiter;
  let '(stored_iter, end_) := strtol10 it in
  if negb (String.eqb end_ EmptyString) then None else
  '(salt_hex, i3) ← getline i2 kDelimiter;
  salt ← FromHex salt_hex kSaltLength;
  '(hash_hex, i4) ← getline i3 kDelimiter;
  expected ← FromHex hash_hex kHashLength;
  if negb (peek_eof i4) then None else Some (stored_iter, salt, expected).

Definition verify (password stored_hash : string) : bool :=
  match parse_stored stored_hash with
  | None => false
  | Some (stored_iter, salt, expected_hash) =>
      match pbkdf2 password salt (i32 stored_iter) with
      | None => false
      | Some computed_hash => bool_decide (computed_hash = expected_hash)
      end
  end.
End Hasher.

(** * Lemmas on the text functions *)

Lemma split_at_Some d s p r : split_at d s = (p, Some r) <-> s = p +:+ String d r /\ free_of d p = true.
Proof.
  revert p. induction s as [|c s IH]; intros p; simpl; [split; [done|by destruct p; intros [? _]]|].
  destruct (Ascii.eqb_spec c d) as [->|Hne].
  - split; [by intros [= <- <-]|]. destruct p as [|c p]; simpl; [by intros [[= <-] _]|].
    intros [[= -> _] Hf]. by rewrite Ascii.eqb_refl in Hf.
  - destruct (split_at d s) as [q o] eqn:E. split.
    + intros [= <- ->]. pose proof (proj1 (IH q) eq_refl) as [-> Hf]. simpl.
      apply Ascii.eqb_neq in Hne. by rewrite Hne.
    + destruct p as [|c' p]; simpl; [by intros [[= -> _] _]|]. intros [[= -> Hs] Hf].
      apply andb_prop in Hf as [_ Hf]. by pose proof (proj2 (IH p) (conj Hs Hf)) as [= -> ->].
Qed.

Lemma split_at_None d s p : split_at d s = (p, None) <-> s = p /\ free_of d p = true.
Proof.
  revert p. induction s as [|c s IH]; intros p; simpl; [split; [by intros [= <-]|by intros [<- _]]|].
  destruct (Ascii.eqb_spec c d) as [->|Hne].
  - split; [done|]. intros [<- Hf]. simpl in Hf. by rewrite Ascii.eqb_refl in Hf.
  - destruct (split_at d s) as [q o] eqn:E. split.
    + intros [= <- ->]. pose proof (proj1 (IH q) eq_refl) as [-> Hf]. simpl.
      apply Ascii.eqb_neq in Hne. by rewrite Hne.
    + intros [<- Hf]. simpl in Hf. apply andb_prop in Hf as [_ Hf].
      by pose proof (proj2 (IH s) (conj eq_refl Hf)) as [= -> ->].
Qed.

(** A field up to a delimiter, or the non-empty last one. *)
Definition field (d : ascii) (s p : string) (i : istream) : Prop :=
  free_of d p = true /\
  ((s = p +:+ String d (unread i) /\ eofbit i = false) \/
   (s = p /\ p <> EmptyString /\ i = {| unread := EmptyString; eofbit := true |})).

Lemma getline_spec d i p j :
  getline i d = Some (p, j) <-> eofbit i = false /\ field d (unread i) p j.
Proof.
  unfold getline, field. destruct (eofbit i); [by split; [|intros [? _]]|].
  destruct (split_at d (unread i)) as [q [r|]] eqn:E.
  - apply split_at_Some in E as [Hs Hf]. split.
    + intros [= <- <-]. by auto.
    + intros (_ & Hp & [[Hs' Hj]|(Hs' & Hne & ->)]).
      * assert (E1 : split_at d (unread i) = (p, Some (unread j))) by by apply split_at_Some.
        assert (E2 : split_at d (unread i) = (q, Some r)) by by apply split_at_Some.
        destruct j as [u e]; simpl in *. congruence.
      * rewrite <- Hs', Hs, free_of_app in Hp. simpl in Hp.
        rewrite Ascii.eqb_refl in Hp. by rewrite andb_false_r in Hp.
  - apply split_at_None in E as [Hs Hf]. split.
    + destruct (String.eqb_spec q EmptyString); [done|]. intros [= <- <-]. split_and!; auto 6.
    + intros (_ & Hp & [[Hs' Hj]|(Hs' & Hne & ->)]).
      * rewrite <- Hs, Hs', free_of_app in Hf. simpl in Hf.
        rewrite Ascii.eqb_refl in Hf. by rewrite andb_false_r in Hf.
      * assert (q = p) as -> by congruence. by rewrite (proj2 (String.eqb_neq _ _) Hne).
Qed.

Lemma hex_digit_spec n : 0 <= n < 16 ->
  isxdigit (hex_digit n) = true /\ xval (hex_digit n) = n /\
  Ascii.eqb (hex_digit n) kDelimiter = false.
Proof.
  intros Hn. rewrite <- (Z2Nat.id n) by lia.
  assert (Hk : (Z.to_nat n < 16)%nat) by lia. revert Hk.
  generalize (Z.to_nat n) as k. intros k Hk.
  do 16 (destruct k as [|k]; [by vm_compute|]). lia.
Qed.

Lemma from_hex_ToHex l : from_hex_pairs (ToHex l) = Some l.
Proof.
  induction l as [|b l IH]; [done|]. pose proof (bz_range b). simpl.
  destruct (hex_digit_spec (bz b / 16)) as (-> & -> & _); [split; [apply Z.div_pos|apply Z.div_lt_upper_bound]; lia|].
  destruct (hex_digit_spec (bz b mod 16)) as (-> & -> & _); [apply Z.mod_pos_bound; lia|].
  simpl. rewrite IH. simpl. do 2 f_equal. rewrite <- Z.div_mod by lia. apply zb_bz.
Qed.

Lemma ToHex_length l : String.length (ToHex l) = (length l * 2)%nat.
Proof. induction l as [|b l IH]; [done|]. simpl. by rewrite IH. Qed.

Lemma ToHex_free l : free_of kDelimiter (ToHex l) = true.
Proof.
  induction l as [|b l IH]; [done|]. pose proof (bz_range b). simpl.
  destruct (hex_digit_spec (bz b / 16)) as (_ & _ & ->); [split; [apply Z.div_pos|apply Z.div_lt_upper_bound]; lia|].
  destruct (hex_digit_spec (bz b mod 16)) as (_ & _ & ->); [apply Z.mod_pos_bound; lia|]. done.
Qed.

Lemma FromHex_ToHex l n : length l = n -> FromHex (ToHex l) n = Some l.
Proof. intros <-. unfold FromHex. by rewrite ToHex_length, Nat.eqb_refl, from_hex_ToHex. Qed.

(** The two ways of reading a field, as equations. *)
Lemma getline_field d p r : free_of d p = true ->
  getline {| unread := p +:+ String d r; eofbit := false |} d =
  Some (p, {| unread := r; eofbit := false |}).
Proof. intros Hp. apply getline_spec. split; [done|]. split; [done|]. by left. Qed.

Lemma getline_last d p : free_of d p = true -> p <> EmptyString ->
  getline {| unread := p; eofbit := false |} d = Some (p, {| unread := EmptyString; eofbit := true |}).
Proof. intros Hp Hne. apply getline_spec. split; [done|]. split; [done|]. by right. Qed.

(** The text of a stored hash; [tail] is what follows the last field. *)
Definition stored_text (it salt_hex hash_hex tail : string) : string :=
  "pbkdf2_sha256" +:+ String kDelimiter (it +:+ String kDelimiter
  (salt_hex +:+ String kDelimiter (hash_hex +:+ tail))).

Lemma FromHex_length s n b : FromHex s n = Some b -> String.length s = (n * 2)%nat.
Proof. unfold FromHex. destruct (Nat.eqb_spec (String.length s) (n * 2)); done. Qed.

Lemma parse_stored_spec s n salt h :
  parse_stored s = Some (n, salt, h) <->
  exists it sx hx tail, s = stored_text it sx hx tail /\ (tail = EmptyString \/ tail = "$"%string) /\
    free_of kDelimiter it = true /\ free_of kDelimiter sx = true /\ free_of kDelimiter hx = true /\
    strtol10 it = (n, EmptyString) /\ FromHex sx kSaltLength = Some salt /\
    FromHex hx kHashLength = Some h.
Proof.
  split.
  - unfold parse_stored. intros E.
    destruct (getline _ _) as [[tag i1]|] eqn:G1; [|done]. simpl in E.
    destruct (String.eqb_spec tag "pbkdf2_sha256") as [->|]; [|done]. simpl in E.
    destruct (getline i1 _) as [[it i2]|] eqn:G2; [|done]. simpl in E.
    destruct (strtol10 it) as [m e] eqn:Est. destruct (String.eqb_spec e EmptyString) as [->|]; [|done].
    simpl in E. destruct (getline i2 _) as [[sx i3]|] eqn:G3; [|done]. simpl in E.
    destruct (FromHex sx _) as [salt'|] eqn:F1; [|done]. simpl in E.
    destruct (getline i3 _) as [[hx i4]|] eqn:G4; [|done]. simpl in E.
    destruct (FromHex hx _) as [h'|] eqn:F2; [|done]. simpl in E.
    destruct (peek_eof i4) eqn:P; simpl in E; [|done]. simplify_eq.
    apply getline_spec in G1 as [_ [_ [[H1 Hi1]|(_ & _ & ->)]]]; [|done]. simpl in H1.
    apply getline_spec in G2 as [_ [Hf2 [[H2 Hi2]|(_ & _ & ->)]]]; [|by rewrite (getline_spec _ _ sx) in G3; destruct G3].
    apply getline_spec in G3 as [_ [Hf3 [[H3 Hi3]|(_ & _ & ->)]]]; [|by rewrite (getline_spec _ _ hx) in G4; destruct G4].
    apply getline_spec in G4 as [_ [Hf4 H4]].
    assert (exists tail, unread i3 = hx +:+ tail /\ (tail = EmptyString \/ tail = "$"%string))
      as (tail & H4' & Ht).
    { destruct H4 as [[H4 Hi4]|(H4 & _ & _)].
      - unfold peek_eof in P. rewrite Hi4 in P. simpl in P. destruct (unread i4) eqn:Eu; [|done].
        exists "$"%string. auto.
      - exists EmptyString. rewrite string_app_nil_r. auto. }
    exists it, sx, hx, tail. split_and!; try done. rewrite H1, H2, H3, H4'. done.
  - intros (it & sx & hx & tail & -> & Ht & Hf2 & Hf3 & Hf4 & Est & F1 & F2).
    unfold parse_stored, stored_text. rewrite getline_field by done. simpl.
    rewrite getline_field by done. simpl. rewrite Est. simpl. rewrite getline_field by done. simpl.
    rewrite F1. simpl. destruct Ht as [->| ->].
    + rewrite string_app_nil_r, getline_last; [simpl; by rewrite F2|done|].
      intros ->. by apply FromHex_length in F2.
    + rewrite getline_field by done. simpl. by rewrite F2.
Qed.

(** * A concrete function in the place of PBKDF2 *)

Module Toy.
Definition toy_pbkdf2 (p : string) (salt : bytes) (n : Z) : option bytes :=
  if 0 <? n then Some (take kHashLength (String.list_byte_of_string p ++ salt ++ replicate kHashLength x00))
  else None.
#[export] Instance toy : Pbkdf2 := toy_pbkdf2.
#[export] Instance toy_laws : Pbkdf2Laws.
Proof.
  split. unfold pbkdf2, toy, toy_pbkdf2. intros p s n h.
  assert (Hl : length (take kHashLength (String.list_byte_of_string p ++ s ++ replicate kHashLength x00))
    = kHashLength) by (rewrite length_take, !length_app, length_replicate; lia).
  destruct (0 <? n); [|done]. congruence.
Qed.
Definition salt : bytes := map zb (seqZ 0 16).
End Toy.

(** * Properties *)

Section Properties.
Context `{Pbkdf2Laws}.

(** A hash made by [hash] is accepted by [verify] for exactly the passwords that have
    the same derived key under the same salt and iteration count: the iteration count, the
    salt and the key survive the trip through the text, and no password is refused for
    another reason. *)
Lemma verify_hash iterations salt p p' s :
  iterations < 2 ^ 31 -> length salt = kSaltLength ->
  hash (PasswordHasher iterations) (Some salt) p = Some s ->
  verify p' s =
    bool_decide (pbkdf2 p' salt (PasswordHasher iterations) =
                 pbkdf2 p salt (PasswordHasher iterations)).
Proof.
  intros Hi Hsalt Hh.
  assert (Hn : 0 <= PasswordHasher iterations < 2 ^ 31).
  { unfold PasswordHasher, kDefaultIterations. destruct (0 <? iterations) eqn:E; zbool; lia. }
  revert Hh. unfold hash. generalize dependent (PasswordHasher iterations). intros n Hn. simpl.
  destruct (pbkdf2 p salt n) as [h|] eqn:Eh; [|done]. simpl. intros [= <-].
  pose proof (pbkdf2_length _ _ _ _ Eh) as Hl.
  unfold verify. rewrite (proj2 (parse_stored_spec _ n salt h)).
  - rewrite i32_small by lia. destruct (pbkdf2 p' salt n) as [h'|]; [|by rewrite bool_decide_eq_false_2].
    apply bool_decide_ext. split; congruence.
  - exists (dec n), (ToHex salt), (ToHex h), EmptyString. split_and!;
      eauto using ToHex_free, strtol10_dec, FromHex_ToHex.
    + unfold stored_text. by rewrite string_app_nil_r.
    + apply dec_fuel_spec. lia.
Qed.

(** C20: [verify] accepts a stored text exactly when it reads "pbkdf2_sha256$it$salt$key",
    possibly with one more "$" at its end, where [it] is a whole [strtol] number (an empty
    field counts as 0), the salt and the key are 16 and 32 bytes of hexadecimal digits, and
    the password derives that key; anything else is refused. *)
Theorem verify_accepts p s :
  verify p s = true <->
  exists it sx hx tail n salt h,
    s = stored_text it sx hx tail /\ (tail = EmptyString \/ tail = "$"%string) /\
    free_of kDelimiter it = true /\ free_of kDelimiter sx = true /\ free_of kDelimiter hx = true /\
    strtol10 it = (n, EmptyString) /\ FromHex sx kSaltLength = Some salt /\
    FromHex hx kHashLength = Some h /\ pbkdf2 p salt (i32 n) = Some h.
Proof.
  unfold verify. split.
  - destruct (parse_stored s) as [[[n salt] h]|] eqn:E; [|done].
    destruct (pbkdf2 p salt (i32 n)) as [h'|] eqn:Ep; [|done]. intros ->%bool_decide_eq_true.
    apply parse_stored_spec in E as (it & sx & hx & tail & E). exists it, sx, hx, tail, n, salt, h.
    by split_and!; try apply E.
  - intros (it & sx & hx & tail & n & salt & h & E). rewrite (proj2 (parse_stored_spec s n salt h)).
    + destruct E as (_ & _ & _ & _ & _ & _ & _ & _ & ->). by apply bool_decide_eq_true.
    + exists it, sx, hx, tail. by split_and!; try apply E.
Qed.
End Properties.
