(* ===== verification/UserService.v ===== *)
(** Accounts and profiles: [services/user/user_repository.cpp] and
    [services/user/user_service.cpp].

    Every operation is a computation on the database that may throw: repository functions
    catch [odb::exception], so only a failure of the random generator or of PBKDF2 escapes
    ([register_user]).  What [RAND_bytes] returned is an argument, [None] when it failed. *)
From S2P Require Import Prelude Schema Odb PasswordHasher MemDb.
From Stdlib Require Import Ascii.

(** * Data *)

Record UserProfile := {
  p_uid : string;
  p_account : string;
  p_nickname : string;
  p_avatar : string;
  p_gender : Gender;
  p_signature : string;
  p_create_time : Z;
  p_last_login : Z;
  p_online : bool
}.

Record RegisterRequest := {
  rq_account : string;
  rq_password : string;
  rq_nickname : string;
  rq_now_ms : Z
}.

Record UpdateProfileRequest := {
  up_uid : string;
  up_nickname : string;
  up_avatar : string;
  up_gender : Gender;
  up_signature : string
}.

(** [RegisterResult], [LoginResult] and [UpdateProfileResult] have the same members; an
    error leaves [profile] as it was default-constructed, here [None]. *)
Record UserResult := {
  r_ok : bool;
  r_error_code : string;
  r_message : string;
  r_profile : option UserProfile
}.

Definition user_error (code msg : string) : UserResult :=
  {| r_ok := false; r_error_code := code; r_message := msg; r_profile := None |}.
Definition user_ok (p : UserProfile) : UserResult :=
  {| r_ok := true; r_error_code := ""; r_message := ""; r_profile := Some p |}.

Definition to_profile (user : User) : UserProfile :=
  {| p_uid := u_uid user; p_account := u_account user; p_nickname := u_nickname user;
     p_avatar := u_avatar user; p_gender := u_gender user; p_signature := u_signature user;
     p_create_time := u_create_time user; p_last_login := u_last_login user;
     p_online := u_online user |}.

(** The setters the code calls on a loaded [User]. *)
Definition set_last_login (t : Z) (u : User) : User :=
  {| u_uid := u_uid u; u_account := u_account u; u_password_hash := u_password_hash u;
     u_nickname := u_nickname u; u_avatar := u_avatar u; u_gender := u_gender u;
     u_signature := u_signature u; u_create_time := u_create_time u; u_last_login := t;
     u_online := u_online u |}.
Definition set_profile (nickname avatar : string) (gender : Gender) (signature : string) (u : User) : User :=
  {| u_uid := u_uid u; u_account := u_account u; u_password_hash := u_password_hash u;
     u_nickname := nickname; u_avatar := avatar; u_gender := gender;
     u_signature := signature; u_create_time := u_create_time u; u_last_login := u_last_login u;
     u_online := u_online u |}.

(** [GenerateUid]: a version 4 UUID from 16 random bytes. *)
Definition GenerateUid (rand : option bytes) : option string :=
  b ← rand;
  let b := alter (fun x => zb (Z.lor (Z.land (bz x) 15) 64)) 6%nat b in
  let b := alter (fun x => zb (Z.lor (Z.land (bz x) 63) 128)) 8%nat b in
  let part i n := ToHex (take n (drop i b)) in
  Some (part 0%nat 4%nat +:+ "-" +:+ part 4%nat 2%nat +:+ "-" +:+ part 6%nat 2%nat +:+ "-" +:+
        part 8%nat 2%nat +:+ "-" +:+ part 10%nat 6%nat).

(** The [User] that [register_user] constructs. *)
Definition new_user (request : RegisterRequest) (uid password_hash nickname : string) : User :=
  {| u_uid := uid; u_account := rq_account request; u_password_hash := password_hash;
     u_nickname := nickname; u_avatar := ""; u_gender := GENDER_UNKNOWN; u_signature := "";
     u_create_time := rq_now_ms request; u_last_login := rq_now_ms request; u_online := false |}.

(** A computation that throws [std::runtime_error] on [None]. *)
Definition or_throw {D A} (o : option A) : exec D A := fun d =>
  match o with Some a => (d, Ok a) | None => (d, Throw) end.

Section Service.
Context {DB : Type} `{Odb DB} `{Pbkdf2}.

(** * UserRepository *)

Definition create (user : User) : exec DB bool :=
  guarded (let* _ := persist user in ret (Commit true)) false.

Definition find_by_uid (uid : string) : exec DB (option User) :=
  guarded (let* loaded := load (Row := User) uid in ret (Commit loaded)) None.

Definition find_by_account (account : string) : exec DB (option User) :=
  guarded (let* r := query (fun u => String.eqb (u_account u) account) None in
           ret (Commit (head r))) None.

(** The loop takes rows until it has [limit] of them. *)
Definition search_by_account_or_nickname (keyword : string) (limit : Z) : exec DB (list User) :=
  if String.eqb keyword "" || (limit =? 0) then ret []
  else
    let pattern := "%" +:+ keyword +:+ "%" in
    guarded (let* r := query (fun u => sql_like pattern (u_account u) ||
                                       sql_like pattern (u_nickname u)) None in
             ret (Commit (ztake limit r))) [].

Definition account_exists (account : string) : exec DB bool :=
  let* o := find_by_account account in ret (bool_decide (is_Some o)).

Definition update_last_login (uid : string) (last_login : Z) : exec DB bool :=
  guarded (let* user := load (Row := User) uid in
           match user with
           | None => ret (Abandon false)
           | Some user => let* _ := update (set_last_login last_login user) in ret (Commit true)
           end) false.

Definition repo_update_profile (uid nickname avatar : string) (gender : Gender) (signature : string)
  : exec DB (option User) :=
  guarded (let* user := load (Row := User) uid in
           match user with
           | None => ret (Commit None)
           | Some user =>
               let user := set_profile nickname avatar gender signature user in
               let* _ := update user in ret (Commit (Some user))
           end) None.

(** * UserService; [iterations_] is the hasher's. *)

Definition register_user (iterations_ : Z) (uid_rand salt_rand : option bytes)
    (request : RegisterRequest) : exec DB UserResult :=
  if String.eqb (rq_account request) "" then
    ret (user_error "EMPTY_ACCOUNT" "Account must not be empty")
  else if String.eqb (rq_password request) "" then
    ret (user_error "EMPTY_PASSWORD" "Password must not be empty")
  else
    let* exists_ := account_exists (rq_account request) in
    if exists_ then ret (user_error "DUPLICATE_ACCOUNT" "Account already exists")
    else
      let* uid := or_throw (GenerateUid uid_rand) in
      let* password_hash := or_throw (hash iterations_ salt_rand (rq_password request)) in
      let nickname := if String.eqb (rq_nickname request) "" then rq_account request
                      else rq_nickname request in
      let user := new_user request uid password_hash nickname in
      let* created := create user in
      if negb created then ret (user_error "PERSIST_FAILED" "Failed to persist user")
      else ret (user_ok (to_profile user)).

Definition login_by_account (account password : string) (now_ms : Z) : exec DB UserResult :=
  let* opt_user := find_by_account account in
  match opt_user with
  | None => ret (user_error "INVALID_ACCOUNT" "Account not found")
  | Some user =>
      if negb (verify password (u_password_hash user)) then
        ret (user_error "WRONG_PASSWORD" "Incorrect password")
      else
        let* updated := update_last_login (u_uid user) now_ms in
        ret (user_ok (to_profile (if updated then set_last_login now_ms user else user)))
  end.

Definition get_profile_by_uid (uid : string) : exec DB (option UserProfile) :=
  let* opt_user := find_by_uid uid in ret (to_profile <$> opt_user).

Definition get_profile_by_account (account : string) : exec DB (option UserProfile) :=
  let* opt_user := find_by_account account in ret (to_profile <$> opt_user).

Definition search_profiles (keyword : string) (limit : Z) : exec DB (list UserProfile) :=
  if String.eqb keyword "" || (limit =? 0) then ret []
  else
    let* by_uid := get_profile_by_uid keyword in
    match by_uid with
    | Some p => ret [p]
    | None =>
        let* users := search_by_account_or_nickname keyword limit in
        ret (map to_profile users)
    end.

Definition update_profile (request : UpdateProfileRequest) : exec DB UserResult :=
  if String.eqb (up_uid request) "" then
    ret (user_error "EMPTY_UID" "User uid must not be empty")
  else if String.eqb (up_nickname request) "" then
    ret (user_error "EMPTY_NICKNAME" "Nickname must not be empty")
  else
    let* updated := repo_update_profile (up_uid request) (up_nickname request)
                      (up_avatar request) (up_gender request) (up_signature request) in
    match updated with
    | None => ret (user_error "USER_NOT_FOUND" "User profile not found")
    | Some u => ret (user_ok (to_profile u))
    end.
End Service.

(** A look-up of a profile never throws. *)
Lemma profile_total {DB} `{Odb DB} uid : total (get_profile_by_uid uid).
Proof. unfold get_profile_by_uid, find_by_uid. prove_total. Qed.
#[export] Hint Resolve profile_total : total.

(** * What the repository functions do *)

(** A user has no automatic id. *)
Lemma inserted_user (u u' : User) s s' : inserted u u' s s' -> inserted u u s s'.
Proof. intros [(i & ? & ->) ?]. by split; [exists i|]. Qed.

Section Repository.
Context {DB : Type} `{OdbReliable DB}.

Lemma create_spec u d d' r : create u d = (d', r) ->
  (healthy d -> healthy d') /\ exists b, r = Ok b /\
    if b then inserted u u (view d) (view d')
    else view d' = view d /\
         (healthy d -> exists q, q ∈ im_users (view d) /\ violates u q = true).
Proof.
  intros E. apply (guarded_persist (Row := User)) in E as (Hd & b & -> & E). split; [done|]. exists b. split; [done|].
  destruct b; [|done]. destruct E as [u' E]. by eapply inserted_user.
Qed.

Lemma find_by_uid_spec uid d d' r : find_by_uid uid d = (d', r) ->
  (healthy d -> healthy d') /\ view d' = view d /\ exists o, r = Ok o /\
    match o with
    | Some u => u ∈ im_users (view d) /\ u_uid u = uid
    | None => healthy d -> forall u, u ∈ im_users (view d) -> u_uid u <> uid
    end.
Proof. exact (guarded_load (Row := User) uid d d' r). Qed.

Lemma find_by_account_spec account d d' r : find_by_account account d = (d', r) ->
  (healthy d -> healthy d') /\ view d' = view d /\ exists o, r = Ok o /\
    match o with
    | Some u => u ∈ im_users (view d) /\ u_account u = account
    | None => healthy d -> forall u, u ∈ im_users (view d) -> u_account u <> account
    end.
Proof.
  intros E. apply (guarded_first (Row := User)) in E as (Hd & Hv & o & -> & E).
  split_and!; try done. exists o. split; [done|]. destruct o as [u|]; [by rewrite String.eqb_eq in E|].
  intros Hh u Hu. by apply String.eqb_neq, E.
Qed.

Lemma account_exists_spec account d d' r : account_exists account d = (d', r) ->
  (healthy d -> healthy d') /\ view d' = view d /\ exists b, r = Ok b /\
    if b then exists u, u ∈ im_users (view d) /\ u_account u = account
    else healthy d -> forall u, u ∈ im_users (view d) -> u_account u <> account.
Proof.
  unfold account_exists. intros E. run_inv E.
  - by apply find_by_account_spec in E0 as (_ & _ & ? & ? & _).
  - apply find_by_account_spec in E0 as (Hd & Hv & o & [= ->] & Ho). unfold ret in E. simplify_eq.
    split_and!; try done. eexists. split; [done|]. destruct o as [u|]; simpl; [by exists u|done].
Qed.

(** Rewriting a user with a row that has the same id and account. *)
Lemma update_last_login_spec uid t d d' r : update_last_login uid t d = (d', r) ->
  (healthy d -> healthy d') /\ exists b, r = Ok b /\
    if b then exists u, u ∈ im_users (view d) /\ u_uid u = uid /\
                replaced (set_last_login t u) (view d) (view d')
    else view d' = view d /\ (healthy d -> pairwise conflict (im_users (view d)) ->
           forall u, u ∈ im_users (view d) -> u_uid u <> uid).
Proof.
  intros E. apply (guarded_load_update (Row := User)) in E as (Hd & b & -> & E); [|done..].
  split; [done|]. exists b. split; [done|]. destruct E as [(u & ? & ? & -> & ?)|(? & -> & ?)]; [by exists u|done].
Qed.

Lemma repo_update_profile_spec uid n a g sg d d' r : repo_update_profile uid n a g sg d = (d', r) ->
  (healthy d -> healthy d') /\ exists o, r = Ok o /\
    match o with
    | Some u' => exists u, u ∈ im_users (view d) /\ u_uid u = uid /\ u' = set_profile n a g sg u /\
                replaced u' (view d) (view d')
    | None => view d' = view d /\ (healthy d -> pairwise conflict (im_users (view d)) ->
           forall u, u ∈ im_users (view d) -> u_uid u <> uid)
    end.
Proof.
  intros E. apply (guarded_load_update (Row := User)) in E as (Hd & o & -> & E); [|done..].
  split; [done|]. exists o. split; [done|]. destruct E as [(u & ? & ? & -> & ?)|(? & -> & ?)]; [by exists u|done].
Qed.

Lemma search_rows_spec kw limit d d' r : search_by_account_or_nickname kw limit d = (d', r) ->
  (healthy d -> healthy d') /\ view d' = view d /\ exists l, r = Ok l /\ zlen l <= Z.max 0 limit /\
    forall u, u ∈ l -> u ∈ im_users (view d) /\
      (sql_like ("%" +:+ kw +:+ "%") (u_account u) || sql_like ("%" +:+ kw +:+ "%") (u_nickname u) = true).
Proof.
  unfold search_by_account_or_nickname. destruct (_ || _); intros E.
  { unfold ret in E. simplify_eq. split_and!; try done. exists []. split_and!; [done|unfold zlen; simpl; lia|].
    by intros u ?%elem_of_nil. }
  eapply (guarded_read _ (fun s l => zlen l <= Z.max 0 limit /\ forall u, u ∈ l -> u ∈ im_users s /\
      (sql_like ("%" +:+ kw +:+ "%") (u_account u) || sql_like ("%" +:+ kw +:+ "%") (u_nickname u) = true))
    (fun _ => False)) in E as (Hd & l & -> & Hv & E).
  - split_and!; try done. exists l. split; [done|]. destruct E as [?|[-> _]]; [done|].
    split; [unfold zlen; simpl; lia|]. by intros u ?%elem_of_nil.
  - body_cases; [done|]. split; [done|]. split.
    + unfold zlen, ztake. rewrite length_take. lia.
    + intros u Hu%elem_of_take. destruct Hu as (i & Hu%list_elem_of_lookup_2 & _).
      match goal with H : forall x, x ∈ a <-> _ |- _ => by apply H end.
Qed.
End Repository.

(** * Requests and the abstract transitions they refine *)

Inductive UserCall :=
| Register (uid_rand salt_rand : option bytes) (q : RegisterRequest)
| Login (account password : string) (now_ms : Z)
| GetByUid (uid : string)
| GetByAccount (account : string)
| SearchProfiles (keyword : string) (limit : Z)
| UpdateProfile (q : UpdateProfileRequest).

(** [RAND_bytes] fills the whole salt. *)
Definition entropy_ok (c : UserCall) : Prop :=
  match c with Register _ (Some salt) _ => length salt = kSaltLength | _ => True end.

Definition run_user {DB} `{Odb DB} `{Pbkdf2} (n : Z) (c : UserCall) : exec DB unit :=
  match c with
  | Register u s q => let* _ := register_user n u s q in ret tt
  | Login a p t => let* _ := login_by_account a p t in ret tt
  | GetByUid u => let* _ := get_profile_by_uid u in ret tt
  | GetByAccount a => let* _ := get_profile_by_account a in ret tt
  | SearchProfiles k l => let* _ := search_profiles k l in ret tt
  | UpdateProfile q => let* _ := update_profile q in ret tt
  end.

(** A stored hash the service made: of a non-empty password, with a full salt. *)
Definition made_hash `{Pbkdf2} (n : Z) (h : string) : Prop :=
  exists salt p, length salt = kSaltLength /\ p <> "" /\ hash n (Some salt) p = Some h.

(** A request changes the table of users in one of these ways, and nothing else. *)
Inductive user_change `{Pbkdf2} (n : Z) (s s' : Schema) : Prop :=
| uc_none : s' = s -> user_change n s s'
| uc_register u : inserted u u s s' -> u_account u <> "" -> u_nickname u <> "" ->
    made_hash n (u_password_hash u) -> user_change n s s'
| uc_login u t : u ∈ im_users s -> replaced (set_last_login t u) s s' -> user_change n s s'
| uc_profile u name avatar gender sig : u ∈ im_users s -> name <> "" ->
    replaced (set_profile name avatar gender sig u) s s' -> user_change n s s'.

Definition users_wf `{Pbkdf2} (n : Z) (s : Schema) : Prop :=
  pairwise conflict (im_users s) /\
  forall u, u ∈ im_users s -> u_account u <> "" /\ u_nickname u <> "" /\
    made_hash n (u_password_hash u).

(** The part of an account that no request may change. *)
Definition credentials (u : User) := (u_uid u, u_account u, u_password_hash u, u_create_time u).

Section Changes.
Context `{Pbkdf2} (n : Z).

Lemma change_wf s s' : user_change n s s' -> users_wf n s -> users_wf n s'.
Proof.
  intros Hc [Hp Hw]. destruct Hc as [->|u Hi ? ? ?|u t Hu Hr|u name av g sg Hu ? Hr]; [done| | |]; split.
  - by apply inserted_pairwise in Hi.
  - intros x Hx. apply (inserted_elem _ _ _ _ x Hi) in Hx as [->|Hx]; auto.
  - by apply replaced_pairwise in Hr.
  - intros x Hx. apply (replaced_elem _ _ _ x Hp Hr) in Hx as [->|[Hx _]]; [by apply (Hw u)|auto].
  - by apply replaced_pairwise in Hr.
  - intros x Hx. apply (replaced_elem _ _ _ x Hp Hr) in Hx as [->|[Hx _]]; [|auto].
    destruct (Hw u Hu) as (? & ? & ?). auto.
Qed.

Lemma change_credentials s s' u : user_change n s s' -> pairwise conflict (im_users s) ->
  u ∈ im_users s -> exists u', u' ∈ im_users s' /\ credentials u' = credentials u.
Proof.
  intros Hc Hp Hu.
  assert (Hrep : forall q x, q ∈ im_users s -> credentials x = credentials q -> replaced x s s' ->
    exists u', u' ∈ im_users s' /\ credentials u' = credentials u).
  { intros q x Hq Hx Hr. destruct (decide (u_uid u = u_uid q)) as [He|Hne].
    - exists x. split; [by apply (replaced_elem _ _ _ x Hp Hr); left|]. rewrite Hx. f_equal. symmetry.
      eapply (pairwise_eq conflict conflict_sym); try done. unfold conflict. simpl.
      by rewrite bool_decide_eq_true_2.
    - exists u. split; [|done]. apply (replaced_elem _ _ _ u Hp Hr). right. split; [done|].
      simpl. injection Hx. congruence. }
  destruct Hc as [->|x Hi ? ? ?|q t Hq Hr|q name av g sg Hq ? Hr].
  - by exists u.
  - exists u. split; [|done]. apply (inserted_elem _ _ _ _ u Hi). by right.
  - by eapply Hrep; [exact Hq| |exact Hr].
  - by eapply Hrep; [exact Hq| |exact Hr].
Qed.

(** Only the table of users is written. *)
Lemma change_frame s s' : user_change n s s' -> s' = set_users (im_users s') s.
Proof.
  intros [->|u (_ & _ & l & _ & ->) _ _ _|u t _ (q & r & l & _ & _ & _ & _ & ->)
         |u name av g sg _ _ (q & r & l & _ & _ & _ & _ & ->)]; by destruct s.
Qed.
End Changes.

(** * What the service does *)

Section ServiceLemmas.
Context {DB : Type} `{OdbReliable DB} `{Pbkdf2} (n : Z).

Lemma bind_or_throw {D A B} (o : option A) (k : A -> exec D B) d :
  bind (or_throw o) k d = match o with Some a => k a d | None => (d, Throw) end.
Proof. by destruct o. Qed.

(** The row [register_user] inserts. *)
Definition registered (q : RegisterRequest) (uid h : string) : User :=
  new_user q uid h (if String.eqb (rq_nickname q) "" then rq_account q else rq_nickname q).

(** Why [register_user] refuses a request: each error with its cause.  [reliable] says that
    the database had no fault of its own. *)
Inductive refused (ur : option bytes) (q : RegisterRequest) (s : Schema) (reliable : Prop)
    : UserResult -> Prop :=
| empty_account : rq_account q = "" ->
    refused ur q s reliable (user_error "EMPTY_ACCOUNT" "Account must not be empty")
| empty_password : rq_account q <> "" -> rq_password q = "" ->
    refused ur q s reliable (user_error "EMPTY_PASSWORD" "Password must not be empty")
| duplicate_account u : rq_account q <> "" -> rq_password q <> "" -> u ∈ im_users s ->
    u_account u = rq_account q ->
    refused ur q s reliable (user_error "DUPLICATE_ACCOUNT" "Account already exists")
| persist_failed : rq_account q <> "" -> rq_password q <> "" ->
    (reliable -> exists u, u ∈ im_users s /\ Some (u_uid u) = GenerateUid ur) ->
    refused ur q s reliable (user_error "PERSIST_FAILED" "Failed to persist user").

Ltac refuse := odb_inv; split; [done|]; right; split; [done|].

Lemma register_inv ur sr q d d' r : register_user n ur sr q d = (d', r) ->
  (healthy d -> healthy d') /\
  match r with
  | Throw => view d' = view d /\ (GenerateUid ur = None \/ hash n sr (rq_password q) = None)
  | Ok res =>
      (exists uid h, GenerateUid ur = Some uid /\ hash n sr (rq_password q) = Some h /\
        rq_account q <> "" /\ rq_password q <> "" /\
        inserted (registered q uid h) (registered q uid h) (view d) (view d') /\
        res = user_ok (to_profile (registered q uid h))) \/
      (view d' = view d /\ refused ur q (view d) (healthy d) res)
  end.
Proof.
  unfold register_user. intros E.
  destruct (String.eqb_spec (rq_account q) "") as [|Ha]; [refuse; by constructor|].
  destruct (String.eqb_spec (rq_password q) "") as [|Hp]; [refuse; by constructor|].
  run_inv E; apply account_exists_spec in E0 as (Hd & Hv & b & Hr & Hb); [done|]. simplify_eq.
  destruct b; [destruct Hb as (u & Hu & Hac); refuse; by econstructor|].
  rewrite bind_or_throw in E. destruct (GenerateUid ur) as [uid|] eqn:Eu; [|simplify_eq; auto].
  rewrite bind_or_throw in E. destruct (hash n sr _) as [h|] eqn:Eh; [|simplify_eq; auto].
  run_inv E; apply create_spec in E0 as (Hd2 & b & Hr & Hc); [done|]. simplify_eq. rewrite Hv in Hc.
  destruct b; unfold ret in E; simpl in E; simplify_eq; (split; [by auto|]); [left|right].
  - by exists uid, h.
  - destruct Hc as [Hc1 Hc2]. split; [done|]. apply persist_failed; try done.
    intros Hh. destruct (Hc2 (Hd Hh)) as (x & Hx & Hvio).
    exists x. split; [done|]. simpl in Hvio. apply orb_true_iff in Hvio as [Hvio|Hvio];
      apply bool_decide_eq_true in Hvio; [simpl in Hvio; congruence|]. by destruct (Hb Hh x Hx).
Qed.

Lemma login_inv account password t d d' r : pairwise conflict (im_users (view d)) -> login_by_account account password t d = (d', r) ->
  (healthy d -> healthy d') /\ exists res, r = Ok res /\
  ((view d' = view d /\ res = user_error "INVALID_ACCOUNT" "Account not found" /\
    (healthy d -> forall u, u ∈ im_users (view d) -> u_account u <> account)) \/
   exists u, u ∈ im_users (view d) /\ u_account u = account /\
     ((view d' = view d /\ verify password (u_password_hash u) = false /\
       res = user_error "WRONG_PASSWORD" "Incorrect password") \/
      (verify password (u_password_hash u) = true /\
       ((replaced (set_last_login t u) (view d) (view d') /\ res = user_ok (to_profile (set_last_login t u))) \/
        (view d' = view d /\ res = user_ok (to_profile u) /\ (healthy d -> False)))))).
Proof.
  unfold login_by_account. intros Hp E.
  run_inv E; apply find_by_account_spec in E0 as (Hd & Hv & o & Hr & Ho); [done|]. simplify_eq.
  destruct o as [u|]; [|odb_inv; split; [done|]; eauto 10]. destruct Ho as [Hu Ha].
  destruct (verify password (u_password_hash u)) eqn:Ev; simpl in E.
  - run_inv E; apply update_last_login_spec in E0 as (Hd2 & b & Hr & Hb); [done|]. simplify_eq. odb_inv.
    rewrite Hv in Hb. split; [by auto|]. eexists. split; [done|]. right. exists u. split; [done|].
    split; [done|]. right. split; [done|]. destruct b.
    + left. destruct Hb as (u' & Hu' & Heq & Hrep). split; [|done].
      replace u with u'; [done|]. apply (pairwise_eq conflict conflict_sym _ _ _ Hp); try done.
      unfold conflict. simpl. by rewrite bool_decide_eq_true_2.
    + right. destruct Hb as [Hv' Hb]. split_and!; [congruence|done|]. intros Hh. by apply (Hb (Hd Hh) Hp u).
  - odb_inv. split; [done|]. eexists. split; [done|]. right. exists u. auto 6.
Qed.
End ServiceLemmas.

(** * Properties *)

Section Properties.
Context {DB : Type} `{OdbReliable DB} `{Pbkdf2Laws}.

Lemma get_profile_by_uid_inv uid (d d' : DB) r : get_profile_by_uid uid d = (d', r) ->
  (healthy d -> healthy d') /\ view d' = view d /\ exists o, r = Ok (to_profile <$> o) /\
    match o with
    | Some u => u ∈ im_users (view d) /\ u_uid u = uid
    | None => healthy d -> forall u, u ∈ im_users (view d) -> u_uid u <> uid
    end.
Proof.
  unfold get_profile_by_uid. intros E.
  run_inv E; apply find_by_uid_spec in E0 as (? & ? & o & Hr & ?); [done|]. simplify_eq. odb_inv. eauto 6.
Qed.

(** The nickname the other services show for an id: the profile's, or the id itself. *)
Definition nickname_of (uid : string) (s : Schema) (reliable : Prop) (nick : string) : Prop :=
  (exists u, u ∈ im_users s /\ u_uid u = uid /\ nick = u_nickname u) \/
  (nick = uid /\ (reliable -> forall u, u ∈ im_users s -> u_uid u <> uid)).

Lemma nickname_spec uid (d d' : DB) r :
  (let* profile := get_profile_by_uid uid in
   match profile with Some p => ret (p_nickname p) | None => ret uid end) d = (d', r) ->
  (healthy d -> healthy d') /\ view d' = view d /\
  exists nick, r = Ok nick /\ nickname_of uid (view d) (healthy d) nick.
Proof.
  intros E. run_inv E; apply get_profile_by_uid_inv in E0 as (Hd & Hv & o & Ho & Hp); [done|]. simplify_eq.
  destruct o as [u|]; simpl in E; unfold ret in E; simplify_eq; (split_and!; [done|done|]);
    eexists; (split; [done|]); [left|by right]. destruct Hp. eauto.
Qed.

Lemma nickname_weaken uid s (P P' : Prop) nick : (P' -> P) -> nickname_of uid s P nick -> nickname_of uid s P' nick.
Proof. intros HP [?|[? ?]]; [by left|right]; auto. Qed.

Lemma search_profiles_inv kw limit (d d' : DB) r : search_profiles kw limit d = (d', r) ->
  (healthy d -> healthy d') /\ view d' = view d /\ exists l, r = Ok (map to_profile l) /\ (0 <= limit -> zlen l <= limit) /\
    forall u, u ∈ l -> u ∈ im_users (view d) /\ (u_uid u = kw \/
      sql_like ("%" +:+ kw +:+ "%") (u_account u) || sql_like ("%" +:+ kw +:+ "%") (u_nickname u) = true).
Proof.
  unfold search_profiles. intros E. destruct (String.eqb kw "" || (limit =? 0)) eqn:Ek.
  { odb_inv. split_and!; try done. exists []. split; [done|]. split; [unfold zlen; simpl; lia|].
    by intros u ?%elem_of_nil. }
  run_inv E; apply get_profile_by_uid_inv in E0 as (Hd & Hv & o & Hr & Ho); [done|]. simplify_eq.
  destruct o as [u|]; simpl in E.
  - odb_inv. split_and!; try done. exists [u]. split; [done|]. split.
    + apply orb_false_iff in Ek as [_ Ek]. zbool. unfold zlen. simpl. lia.
    + intros x ->%list_elem_of_singleton. auto.
  - run_inv E; apply search_rows_spec in E0 as (Hd2 & Hv2 & l & Hr & Hl & Hin); [done|]. odb_inv.
    split_and!; [by auto|congruence|]. exists l. split; [done|]. split; [lia|]. intros u Hu.
    rewrite <- Hv. destruct (Hin u Hu). auto.
Qed.

Lemma update_profile_inv q (d d' : DB) r : update_profile q d = (d', r) ->
  (healthy d -> healthy d') /\ exists res, r = Ok res /\
    ((exists u, u ∈ im_users (view d) /\ u_uid u = up_uid q /\ up_nickname q <> "" /\
        let u' := set_profile (up_nickname q) (up_avatar q) (up_gender q) (up_signature q) u in
        replaced u' (view d) (view d') /\ res = user_ok (to_profile u')) \/
     (view d' = view d /\
       ((up_uid q = "" /\ res = user_error "EMPTY_UID" "User uid must not be empty") \/
        (up_uid q <> "" /\ up_nickname q = "" /\
         res = user_error "EMPTY_NICKNAME" "Nickname must not be empty") \/
        (up_uid q <> "" /\ up_nickname q <> "" /\
         res = user_error "USER_NOT_FOUND" "User profile not found" /\
         (healthy d -> pairwise conflict (im_users (view d)) ->
            forall u, u ∈ im_users (view d) -> u_uid u <> up_uid q))))).
Proof.
  unfold update_profile. intros E.
  destruct (String.eqb_spec (up_uid q) "") as [|Hu]; [odb_inv; eauto 10|].
  destruct (String.eqb_spec (up_nickname q) "") as [|Hn]; [odb_inv; eauto 10|].
  run_inv E; apply repo_update_profile_spec in E0 as (Hd & o & Hr & Ho); [done|]. simplify_eq.
  destruct o as [u'|]; odb_inv; (split; [done|]); eexists; (split; [done|]); [left|right]; eauto 10.
Qed.

(** A request does one of the abstract changes. *)
Lemma run_user_change n c (d d' : DB) r : entropy_ok c -> pairwise conflict (im_users (view d)) ->
  run_user n c d = (d', r) -> (healthy d -> healthy d') /\ user_change n (view d) (view d').
Proof.
  intros Hc Hp E. destruct c as [ur sr q|a p t|u|a|k l|q]; simpl in E.
  - run_inv E; apply register_inv in E0 as [Hd Er].
    + split; [done|]. destruct Er as [Hv _]. rewrite Hv. by apply uc_none.
    + unfold ret in E. simplify_eq. split; [done|].
      destruct Er as [(uid & h & _ & Hh & ? & Hpw & Hi & _)|[Hv _]].
      * eapply uc_register; [exact Hi|done| |].
        -- simpl. by destruct (String.eqb_spec (rq_nickname q) "").
        -- destruct sr as [salt|]; [|done]. by exists salt, (rq_password q).
      * rewrite Hv. by apply uc_none.
  - run_inv E; apply login_inv in E0 as (? & res & Hr & Hl); try done. odb_inv. split; [done|].
    destruct Hl as [(-> & _)|(x & Hx & _ & [(-> & _)|(_ & [(Hrep & _)|(-> & _)])])];
      [by apply uc_none|by apply uc_none|by eapply uc_login|by apply uc_none].
  - run_inv E; apply get_profile_by_uid_inv in E0 as (? & Hv & _); odb_inv; split; try done;
      rewrite Hv; by apply uc_none.
  - unfold get_profile_by_account in E. odb_inv; match goal with
    H : find_by_account _ _ = _ |- _ => apply find_by_account_spec in H as (? & Hv & _) end;
    split; try done; rewrite Hv; by apply uc_none.
  - run_inv E; apply search_profiles_inv in E0 as (? & Hv & _); odb_inv; split; try done;
      rewrite Hv; by apply uc_none.
  - run_inv E; apply update_profile_inv in E0 as (? & res & Hr & Hu); [done|]. odb_inv. split; [done|].
    destruct Hu as [(u & Hu & _ & Hn & Hrep & _)|(-> & _)]; [by eapply uc_profile|by apply uc_none].
Qed.

Lemma register_duplicate n ur sr q (d : DB) u :
  healthy d -> u ∈ im_users (view d) -> u_account u = rq_account q -> rq_account q <> "" ->
  rq_password q <> "" ->
  exists d2, register_user n ur sr q d = (d2, Ok (user_error "DUPLICATE_ACCOUNT" "Account already exists")).
Proof.
  intros Hd Hu Ha Hne Hp. unfold register_user.
  apply String.eqb_neq in Hne as ->. apply String.eqb_neq in Hp as ->.
  destruct (account_exists (rq_account q) d) as [d1 r] eqn:E.
  pose proof (account_exists_spec _ _ _ _ E) as (_ & _ & b & -> & Hb). rewrite (bind_Ok _ _ _ _ _ E).
  destruct b; [by eexists|]. by destruct (Hb Hd u Hu).
Qed.

(** What the other services rely on: an account change writes only the table of users, keeps
    their ids apart and keeps every user. *)
Lemma user_change_keeps n s s' : user_change n s s' -> pairwise conflict (im_users s) ->
  pairwise conflict (im_users s') /\ s' = set_users (im_users s') s /\
  forall uid, (exists u, u ∈ im_users s /\ u_uid u = uid) -> exists u, u ∈ im_users s' /\ u_uid u = uid.
Proof.
  intros Hc Hp. split_and!; [|by eapply change_frame|].
  - destruct Hc as [->|u Hi _ _ _|u t _ Hr|u nm av g sg _ _ Hr];
      [done|by apply inserted_pairwise in Hi|by apply replaced_pairwise in Hr..].
  - intros uid (u & Hu & <-). destruct (change_credentials _ _ _ u Hc Hp Hu) as (u' & Hu' & Heq).
    exists u'. split; [done|]. injection Heq. congruence.
Qed.

(** Runs of the service: any requests, any faults of the database. *)
Definition user_runs (n : Z) : DB -> DB -> Prop :=
  rtc (fun d d' => exists c r, entropy_ok c /\ run_user n c d = (d', r)).

Lemma user_runs_inv n (d d' : DB) : users_wf n (view d) -> user_runs n d d' ->
  users_wf n (view d') /\ view d' = set_users (im_users (view d')) (view d) /\
  forall u, u ∈ im_users (view d) -> exists u', u' ∈ im_users (view d') /\ credentials u' = credentials u.
Proof.
  intros Hw. induction 1 as [d|d d1 d' (c & r & Hc & E) _ IH].
  { split_and!; [done|by destruct (view d)|eauto]. }
  apply run_user_change in E as [_ E]; [|done|apply Hw]. pose proof (change_wf _ _ _ E Hw) as Hw1.
  destruct (IH Hw1) as (Hwf & Hf & Hcr). split_and!; [done| |].
  - rewrite Hf at 1. by rewrite (change_frame _ _ _ E).
  - intros u Hu. destruct (change_credentials _ _ _ u E (proj1 Hw) Hu) as (u1 & Hu1 & <-). auto.
Qed.

(** From an empty table of users, whatever requests the service runs and whatever
    calls of the database fail: no two users share an id or an account, every user has an
    account, a nickname and a hash made from a non-empty password; ids, accounts, hashes and
    creation times never change and users never disappear; no other table is written. *)
Theorem users_reachable_wf n (d0 d1 d2 : DB) :
  im_users (view d0) = [] -> user_runs n d0 d1 -> user_runs n d1 d2 ->
  users_wf n (view d2) /\ view d2 = set_users (im_users (view d2)) (view d0) /\
  forall u, u ∈ im_users (view d1) -> exists u', u' ∈ im_users (view d2) /\ credentials u' = credentials u.
Proof.
  intros He R1 R2. assert (Hw : users_wf n (view d0)).
  { split; rewrite He; [apply pairwise_nil|by intros u ?%elem_of_nil]. }
  destruct (user_runs_inv _ _ _ Hw R1) as (Hw1 & Hf1 & _).
  destruct (user_runs_inv _ _ _ Hw1 R2) as (Hw2 & Hf2 & Hc2).
  split_and!; [done| |done]. rewrite Hf2, Hf1. by destruct (view d0).
Qed.

(** C10: on a database without faults, a registration with a fresh account and id succeeds
    and returns the stored profile; afterwards the account logs in with exactly the
    passwords that derive the same key (the login time is recorded), is refused
    "WRONG_PASSWORD" with the others, and cannot be registered again. *)
Theorem register_then_login it ur salt q uid h (d : DB) :
  let n := PasswordHasher it in
  healthy d -> pairwise conflict (im_users (view d)) -> it < 2 ^ 31 -> length salt = kSaltLength ->
  GenerateUid ur = Some uid -> hash n (Some salt) (rq_password q) = Some h ->
  rq_account q <> "" -> rq_password q <> "" ->
  (forall u, u ∈ im_users (view d) -> u_account u <> rq_account q /\ u_uid u <> uid) ->
  exists d1, register_user n ur (Some salt) q d = (d1, Ok (user_ok (to_profile (registered q uid h)))) /\
    (forall pw t, exists d2, login_by_account (rq_account q) pw t d1 =
      (d2, Ok (if bool_decide (pbkdf2 pw salt n = pbkdf2 (rq_password q) salt n)
               then user_ok (to_profile (set_last_login t (registered q uid h)))
               else user_error "WRONG_PASSWORD" "Incorrect password"))) /\
    (forall ur' sr' q', rq_account q' = rq_account q -> rq_password q' <> "" ->
      exists d2, register_user n ur' sr' q' d1 =
        (d2, Ok (user_error "DUPLICATE_ACCOUNT" "Account already exists"))).
Proof.
  intros n Hd Hp Hit Hs Hu Hh Ha Hpw Hfresh.
  destruct (register_user n ur (Some salt) q d) as [d1 r] eqn:E. exists d1.
  pose proof (register_inv _ _ _ _ _ _ _ E) as [Hd1 Hr]. specialize (Hd1 Hd).
  destruct r as [res|]; [|destruct Hr as (_ & [?|?]); congruence].
  destruct Hr as [(uid' & h' & Hu' & Hh' & _ & _ & Hi & ->)|[_ Hr]].
  2: { exfalso. destruct Hr as [?|? ?|u ? ? Hx Hy|? ? Hx]; try done; [by destruct (Hfresh u Hx)|].
       destruct (Hx Hd) as (u & Hin & Heq). destruct (Hfresh u Hin). congruence. }
  assert (uid' = uid) as -> by congruence. assert (h' = h) as -> by congruence. split; [done|].
  pose proof (inserted_pairwise _ _ _ _ Hi Hp) as Hp1. set (u := registered q uid h) in *.
  assert (Hu1 : u ∈ im_users (view d1)) by by apply (inserted_elem _ _ _ _ u Hi); left.
  assert (Hacc : forall x, x ∈ im_users (view d1) -> u_account x = rq_account q -> x = u).
  { intros x Hx Hxa. apply (pairwise_eq conflict conflict_sym _ _ _ Hp1); try done.
    unfold conflict. simpl. rewrite Hxa. by rewrite (bool_decide_eq_true_2 (rq_account q = _)), !orb_true_r. }
  split.
  - intros pw t. destruct (login_by_account (rq_account q) pw t d1) as [d2 r] eqn:El. exists d2.
    apply login_inv in El as (_ & res & -> & [(_ & _ & Hno)|(x & Hx & Hxa & Hl)]); [| |done].
    { by destruct (Hno Hd1 u Hu1). }
    rewrite (Hacc x Hx Hxa) in Hl. do 2 f_equal.
    pose proof (verify_hash it salt (rq_password q) pw h Hit Hs Hh) as Hv. fold n in Hv.
    change (u_password_hash u) with h in Hl. rewrite Hv in Hl.
    destruct (bool_decide _); destruct Hl as [(_ & ? & ->)|(? & [[_ ->]|(_ & -> & Hf)])]; try done.
  - intros ur' sr' q' Hq Hpw'. eapply register_duplicate; [done|exact Hu1|by rewrite Hq|by rewrite Hq|done].
Qed.

(** The profile requests: a search returns at most [limit] profiles, each of a stored
    user that has the keyword as its id or within its account or nickname; a look-up by id
    finds the user or, without faults, there is none; an update changes the four profile
    columns of the user it names and returns the row it wrote, or changes nothing and says
    why. *)
Theorem profile_requests (d d' : DB) :
  (forall kw limit r, search_profiles kw limit d = (d', r) ->
     view d' = view d /\ exists l, r = Ok (map to_profile l) /\ (0 <= limit -> zlen l <= limit) /\
     forall u, u ∈ l -> u ∈ im_users (view d) /\ (u_uid u = kw \/
       sql_like ("%" +:+ kw +:+ "%") (u_account u) || sql_like ("%" +:+ kw +:+ "%") (u_nickname u) = true)) /\
  (forall uid r, get_profile_by_uid uid d = (d', r) ->
     view d' = view d /\ exists o, r = Ok (to_profile <$> o) /\
     match o with
     | Some u => u ∈ im_users (view d) /\ u_uid u = uid
     | None => healthy d -> forall u, u ∈ im_users (view d) -> u_uid u <> uid
     end) /\
  (forall q r, update_profile q d = (d', r) -> exists res, r = Ok res /\
     ((exists u, u ∈ im_users (view d) /\ u_uid u = up_uid q /\ up_nickname q <> "" /\
         let u' := set_profile (up_nickname q) (up_avatar q) (up_gender q) (up_signature q) u in
         replaced u' (view d) (view d') /\ res = user_ok (to_profile u')) \/
      (view d' = view d /\
        ((up_uid q = "" /\ res = user_error "EMPTY_UID" "User uid must not be empty") \/
         (up_uid q <> "" /\ up_nickname q = "" /\
          res = user_error "EMPTY_NICKNAME" "Nickname must not be empty") \/
         (up_uid q <> "" /\ up_nickname q <> "" /\
          res = user_error "USER_NOT_FOUND" "User profile not found" /\
          (healthy d -> pairwise conflict (im_users (view d)) ->
             forall u, u ∈ im_users (view d) -> u_uid u <> up_uid q)))))).
Proof.
  split_and!.
  - intros kw limit r E. by apply search_profiles_inv in E as [_ ?].
  - intros uid r E. by apply get_profile_by_uid_inv in E as [_ ?].
  - intros q r E. by apply update_profile_inv in E as [_ ?].
Qed.

(** Every answer of a registration or a login, on any database: a success is a
    committed insertion (or login time); an error, or a failure of the random generator,
    leaves the database as it was and has the stated cause. *)
Theorem account_answers n (d d' : DB) :
  (forall ur sr q r, register_user n ur sr q d = (d', r) ->
     match r with
     | Throw => view d' = view d /\ (GenerateUid ur = None \/ hash n sr (rq_password q) = None)
     | Ok res =>
         (exists uid h, GenerateUid ur = Some uid /\ hash n sr (rq_password q) = Some h /\
           rq_account q <> "" /\ rq_password q <> "" /\
           inserted (registered q uid h) (registered q uid h) (view d) (view d') /\
           res = user_ok (to_profile (registered q uid h))) \/
         (view d' = view d /\ refused ur q (view d) (healthy d) res)
     end) /\
  (forall account password t r, pairwise conflict (im_users (view d)) ->
     login_by_account account password t d = (d', r) -> exists res, r = Ok res /\
     ((view d' = view d /\ res = user_error "INVALID_ACCOUNT" "Account not found" /\
       (healthy d -> forall u, u ∈ im_users (view d) -> u_account u <> account)) \/
      exists u, u ∈ im_users (view d) /\ u_account u = account /\
        ((view d' = view d /\ verify password (u_password_hash u) = false /\
          res = user_error "WRONG_PASSWORD" "Incorrect password") \/
         (verify password (u_password_hash u) = true /\
          ((replaced (set_last_login t u) (view d) (view d') /\
            res = user_ok (to_profile (set_last_login t u))) \/
           (view d' = view d /\ res = user_ok (to_profile u) /\ (healthy d -> False))))))).
Proof.
  split.
  - intros ur sr q r E. by apply register_inv in E as [_ ?].
  - intros account password t r Hp E. by apply login_inv in E as [_ ?].
Qed.
End Properties.

(** * Witnesses *)

Module Witness.
Import Toy.
Definition alice : RegisterRequest :=
  {| rq_account := "alice"; rq_password := "secret"; rq_nickname := ""; rq_now_ms := 1000 |}.
Definition db0 : MemDb := mem_start empty_schema.
Definition db1 : MemDb := fst (run_user 5 (Register (Some salt) (Some salt) alice) db0).
Definition db2 : MemDb := fst (run_user 5 (Login "alice" "secret" 2000) db1).
Definition uid0 : string := default "" (GenerateUid (Some salt)).
Definition hash0 : string := default "" (hash (PasswordHasher 7) (Some salt) "secret").
End Witness.
Import Witness Toy.

Lemma users_reachable_wf_witness :
  map u_last_login (im_users (view db2)) = [2000] /\ users_wf 5 (view db2) /\
  view db2 = set_users (im_users (view db2)) (view db0) /\
  forall u, u ∈ im_users (view db1) ->
    exists u', u' ∈ im_users (view db2) /\ credentials u' = credentials u.
Proof.
  split; [vm_compute; reflexivity|]. apply (users_reachable_wf 5 db0 db1 db2); [reflexivity| |].
  - apply rtc_once. exists (Register (Some salt) (Some salt) alice), (Ok tt).
    split; [reflexivity|]. vm_compute. reflexivity.
  - apply rtc_once. exists (Login "alice" "secret" 2000), (Ok tt).
    split; [exact I|]. vm_compute. reflexivity.
Defined.

Lemma register_then_login_witness :
  exists uid h d1, register_user (PasswordHasher 7) (Some salt) (Some salt) alice db0 =
      (d1, Ok (user_ok (to_profile (registered alice uid h)))) /\
    (exists d2, login_by_account "alice" "secret" 5 d1 =
       (d2, Ok (user_ok (to_profile (set_last_login 5 (registered alice uid h)))))) /\
    (exists d2, login_by_account "alice" "guess" 5 d1 =
       (d2, Ok (user_error "WRONG_PASSWORD" "Incorrect password"))).
Proof.
  exists uid0, hash0.
  destruct (register_then_login (DB := MemDb) 7 (Some salt) salt alice uid0 hash0 db0)
    as (d1 & Hr & Hl & _); [reflexivity|apply pairwise_nil|lia|reflexivity|vm_compute; reflexivity|vm_compute; reflexivity|done|done| |].
  - by intros u ?%elem_of_nil.
  - exists d1. split; [exact Hr|]. split; [exact (Hl "secret" 5)|exact (Hl "guess" 5)].
Defined.
