(* ===== verification/FriendService.v ===== *)
(** Friend relationships: [services/friend/friend_repository.cpp] and
    [services/friend/friend_service.cpp].

    The service calls the user service for profiles; both use the same database.  The wall
    clock is an argument.  The last section runs two requests at the same time. *)
From S2P Require Import Prelude Schema Odb PasswordHasher MemDb UserService.

(** * Data *)

Record FriendRequest := {
  fr_requester_uid : string;
  fr_target_uid : string;
  fr_now_ms : Z
}.

Record FriendResult := { fr_ok : bool; fr_error_code : string; fr_message : string }.

Record FriendInfoDTO := {
  fi_friend_id : Z;
  fi_friend_uid : string;
  fi_nickname : string;
  fi_status : FriendStatus;
  fi_created_at : Z
}.

Definition friend_error (code msg : string) : FriendResult :=
  {| fr_ok := false; fr_error_code := code; fr_message := msg |}.
Definition friend_ok (msg : string) : FriendResult :=
  {| fr_ok := true; fr_error_code := ""; fr_message := msg |}.

(** The constructor of [Friend]: the database assigns the id. *)
Definition new_friend (requester target : string) (status : FriendStatus) (created_at : Z) : Friend :=
  {| f_friend_id := 0; f_requester_uid := requester; f_target_uid := target; f_status := status;
     f_created_at := created_at |}.

Definition set_status (st : FriendStatus) (f : Friend) : Friend :=
  {| f_friend_id := f_friend_id f; f_requester_uid := f_requester_uid f;
     f_target_uid := f_target_uid f; f_status := st; f_created_at := f_created_at f |}.

Section Service.
Context {DB : Type} `{Odb DB}.

(** * FriendRepository *)

Definition create (f : Friend) : exec DB bool :=
  guarded (let* _ := persist f in ret (Commit true)) false.

Definition find_by_id (friend_id : Z) : exec DB (option Friend) :=
  guarded (let* loaded := load (Row := Friend) friend_id in ret (Commit loaded)) None.

Definition find_by_pair (requester_uid target_uid : string) : exec DB (option Friend) :=
  guarded (let* r := query (fun f => String.eqb (f_requester_uid f) requester_uid &&
                                     String.eqb (f_target_uid f) target_uid) None in
           ret (Commit (head r))) None.

(** The two orders of a pair. *)
Definition in_pair (user_a user_b : string) (f : Friend) : bool :=
  (String.eqb (f_requester_uid f) user_a && String.eqb (f_target_uid f) user_b) ||
  (String.eqb (f_requester_uid f) user_b && String.eqb (f_target_uid f) user_a).

Definition find_relationship (user_a user_b : string) : exec DB (option Friend) :=
  guarded (let* r := query (in_pair user_a user_b) None in ret (Commit (head r))) None.

Definition is_friend_of (uid : string) (f : Friend) : bool :=
  (String.eqb (f_requester_uid f) uid || String.eqb (f_target_uid f) uid) &&
  bool_decide (f_status f = ACCEPTED).

Definition find_friends (uid : string) : exec DB (list Friend) :=
  collect (query (is_friend_of uid) None).

Definition is_pending_for (uid : string) (f : Friend) : bool :=
  String.eqb (f_target_uid f) uid && bool_decide (f_status f = PENDING).

Definition find_pending (uid : string) : exec DB (list Friend) :=
  collect (query (is_pending_for uid) None).

Definition update_status (friend_id : Z) (status : FriendStatus) : exec DB bool :=
  guarded (let* loaded := load (Row := Friend) friend_id in
           match loaded with
           | None => ret (Abandon false)
           | Some f => let* _ := update (set_status status f) in ret (Commit true)
           end) false.

Definition relationship_exists (user_a user_b : string) : exec DB bool :=
  let* o := find_relationship user_a user_b in ret (bool_decide (is_Some o)).

(** * FriendService *)

(** [send_request] up to the insertion: the answer it refuses with, or the row it is about
    to insert. *)
Definition send_request_checks (clock : Z) (request : FriendRequest)
  : exec DB (FriendResult + Friend) :=
  let requester := fr_requester_uid request in
  let target := fr_target_uid request in
  if String.eqb requester "" || String.eqb target "" then
    ret (inl (friend_error "EMPTY_UID" "Requester and target UIDs must not be empty"))
  else if String.eqb requester target then
    ret (inl (friend_error "SELF_REQUEST" "Cannot send friend request to yourself"))
  else
    let* profile := get_profile_by_uid target in
    match profile with
    | None => ret (inl (friend_error "TARGET_NOT_FOUND" "Target user does not exist"))
    | Some _ =>
        let* existing := find_relationship requester target in
        match existing with
        | Some _ => ret (inl (friend_error "ALREADY_EXISTS" "A relationship between these users already exists"))
        | None =>
            let t := if 0 <? fr_now_ms request then fr_now_ms request else clock in
            ret (inr (new_friend requester target PENDING t))
        end
    end.

Definition send_request_create (f : Friend) : exec DB FriendResult :=
  let* created := create f in
  if negb created then ret (friend_error "PERSIST_FAILED" "Failed to persist friend request")
  else ret (friend_ok "Friend request sent").

Definition send_request (clock : Z) (request : FriendRequest) : exec DB FriendResult :=
  let* c := send_request_checks clock request in
  match c with
  | inl refusal => ret refusal
  | inr f => send_request_create f
  end.

Definition respond_to_request (friend_id : Z) (uid : string) (accept : bool) : exec DB FriendResult :=
  let* opt_f := find_by_id friend_id in
  match opt_f with
  | None => ret (friend_error "NOT_FOUND" "Friend request not found")
  | Some f =>
      if negb (String.eqb (f_target_uid f) uid) then
        ret (friend_error "FORBIDDEN" "Only the target user can respond to this request")
      else if negb (bool_decide (f_status f = PENDING)) then
        ret (friend_error "NOT_PENDING" "Friend request is not in pending status")
      else
        let new_status := if accept then ACCEPTED else REJECTED in
        let* updated := update_status friend_id new_status in
        if negb updated then
          ret (friend_error "UPDATE_FAILED" "Failed to update friend request status")
        else ret (friend_ok (if accept then "Friend request accepted" else "Friend request rejected"))
  end.

Definition resolve_nickname (uid : string) : exec DB string :=
  let* profile := get_profile_by_uid uid in
  match profile with Some p => ret (p_nickname p) | None => ret uid end.

Definition to_friend_info (uid : string) (f : Friend) : exec DB FriendInfoDTO :=
  let other_uid := if String.eqb (f_requester_uid f) uid then f_target_uid f else f_requester_uid f in
  let* nickname := resolve_nickname other_uid in
  ret {| fi_friend_id := f_friend_id f; fi_friend_uid := other_uid; fi_nickname := nickname;
         fi_status := f_status f; fi_created_at := f_created_at f |}.

Definition get_friends (uid : string) : exec DB (list FriendInfoDTO) :=
  let* friends := find_friends uid in exec_map (to_friend_info uid) friends.

Definition get_pending_requests (uid : string) : exec DB (list FriendInfoDTO) :=
  let* pending := find_pending uid in exec_map (to_friend_info uid) pending.
End Service.

(** * What the repository and the service do *)

(** The two users of a relationship, in whichever order. *)
Definition same_pair (f g : Friend) : bool := in_pair (f_requester_uid g) (f_target_uid g) f.

Lemma in_pair_true a b f : in_pair a b f = true <->
  (f_requester_uid f = a /\ f_target_uid f = b) \/ (f_requester_uid f = b /\ f_target_uid f = a).
Proof. unfold in_pair. rewrite orb_true_iff, !andb_true_iff, !String.eqb_eq. tauto. Qed.

Lemma same_pair_sym f g : same_pair f g = same_pair g f.
Proof. apply eq_true_iff_eq. unfold same_pair. rewrite !in_pair_true. intuition congruence. Qed.

Lemma in_pair_sym a b f : in_pair a b f = in_pair b a f.
Proof. apply eq_true_iff_eq. rewrite !in_pair_true. intuition congruence. Qed.

Section Lemmas.
Context {DB : Type} `{OdbReliable DB}.

Lemma find_friend_spec i d d' r : find_by_id i d = (d', r) ->
  (healthy d -> healthy d') /\ view d' = view d /\ exists o, r = Ok o /\
    match o with
    | Some f => f ∈ im_friends (view d) /\ f_friend_id f = i
    | None => healthy d -> forall f, f ∈ im_friends (view d) -> f_friend_id f <> i
    end.
Proof. exact (guarded_load (Row := Friend) i d d' r). Qed.

Lemma find_relationship_spec a b d d' r : find_relationship a b d = (d', r) ->
  (healthy d -> healthy d') /\ view d' = view d /\ exists o, r = Ok o /\
    match o with
    | Some f => f ∈ im_friends (view d) /\ in_pair a b f = true
    | None => healthy d -> forall f, f ∈ im_friends (view d) -> in_pair a b f = false
    end.
Proof. exact (guarded_first (Row := Friend) (in_pair a b) d d' r). Qed.

Lemma update_status_spec i st d d' r : update_status i st d = (d', r) ->
  (healthy d -> healthy d') /\ exists b, r = Ok b /\
    if b then exists f, f ∈ im_friends (view d) /\ f_friend_id f = i /\
                replaced (set_status st f) (view d) (view d')
    else view d' = view d /\ (healthy d -> pairwise conflict (im_friends (view d)) ->
           forall f, f ∈ im_friends (view d) -> f_friend_id f <> i).
Proof.
  intros E. apply (guarded_load_update (Row := Friend)) in E as (Hd & b & -> & E); [|done..].
  split; [done|]. exists b. split; [done|].
  destruct E as [(f & ? & ? & -> & ?)|(? & -> & ?)]; [by exists f|done].
Qed.

(** The answers [send_request] refuses with, and their causes. *)
Inductive request_refused (q : FriendRequest) (s : Schema) (reliable : Prop) : FriendResult -> Prop :=
| empty_uid : fr_requester_uid q = "" \/ fr_target_uid q = "" ->
    request_refused q s reliable (friend_error "EMPTY_UID" "Requester and target UIDs must not be empty")
| self_request : fr_requester_uid q = fr_target_uid q -> fr_target_uid q <> "" ->
    request_refused q s reliable (friend_error "SELF_REQUEST" "Cannot send friend request to yourself")
| target_not_found : (reliable -> forall u, u ∈ im_users s -> u_uid u <> fr_target_uid q) ->
    request_refused q s reliable (friend_error "TARGET_NOT_FOUND" "Target user does not exist")
| already_exists f : f ∈ im_friends s ->
    in_pair (fr_requester_uid q) (fr_target_uid q) f = true ->
    request_refused q s reliable
      (friend_error "ALREADY_EXISTS" "A relationship between these users already exists").

Lemma checks_inv clock q d d' r : send_request_checks clock q d = (d', r) ->
  (healthy d -> healthy d') /\ view d' = view d /\
  ((exists res, r = Ok (inl res) /\ request_refused q (view d) (healthy d) res) \/
   (exists t, r = Ok (inr (new_friend (fr_requester_uid q) (fr_target_uid q) PENDING t)) /\
     t = (if 0 <? fr_now_ms q then fr_now_ms q else clock) /\
     fr_requester_uid q <> "" /\ fr_target_uid q <> "" /\ fr_requester_uid q <> fr_target_uid q /\
     (exists u, u ∈ im_users (view d) /\ u_uid u = fr_target_uid q) /\
     (healthy d -> forall f, f ∈ im_friends (view d) ->
        in_pair (fr_requester_uid q) (fr_target_uid q) f = false))).
Proof.
  unfold send_request_checks. intros E.
  destruct (String.eqb_spec (fr_requester_uid q) "") as [|Hr]; simpl in E.
  { odb_inv. split_and!; try done. left. eexists; split; [done|]. apply empty_uid. auto. }
  destruct (String.eqb_spec (fr_target_uid q) "") as [|Ht]; simpl in E.
  { odb_inv. split_and!; try done. left. eexists; split; [done|]. apply empty_uid. auto. }
  destruct (String.eqb_spec (fr_requester_uid q) (fr_target_uid q)) as [|Hne].
  { odb_inv. split_and!; try done. left. eexists; split; [done|]. by apply self_request. }
  run_inv E; apply get_profile_by_uid_inv in E0 as (Hd & Hv & o & Ho & Hp); [done|]. simplify_eq.
  destruct o as [u|]; simpl in E.
  2: { odb_inv. split_and!; try done. left. eexists; split; [done|]. by apply target_not_found. }
  run_inv E; apply find_relationship_spec in E0 as (Hd2 & Hv2 & o & Ho & Hf); [done|]. simplify_eq.
  rewrite Hv in Hf. destruct o as [f|]; unfold ret in E; simplify_eq; (split_and!; [by auto|congruence|]).
  - left. eexists; split; [done|]. destruct Hf. by apply (already_exists _ _ _ f).
  - right. eexists; split; [done|]. split_and!; try done; [by exists u|by auto].
Qed.

Lemma create_inv f d d' r : send_request_create f d = (d', r) ->
  (healthy d -> healthy d') /\
  ((exists f', inserted f f' (view d) (view d') /\ r = Ok (friend_ok "Friend request sent")) \/
   (view d' = view d /\ r = Ok (friend_error "PERSIST_FAILED" "Failed to persist friend request") /\
    (healthy d -> exists g, g ∈ im_friends (view d) /\ violates f g = true))).
Proof.
  unfold send_request_create. intros E.
  run_inv E; apply (guarded_persist (Row := Friend)) in E0 as (Hd & b & Hb & Hi); [done|]. simplify_eq.
  destruct b; unfold ret in E; simpl in E; simplify_eq; (split; [done|]).
  - left. destruct Hi as [f' Hi]. eauto.
  - right. destruct Hi. eauto.
Qed.

Lemma send_request_inv clock q d d' r : send_request clock q d = (d', r) ->
  (healthy d -> healthy d') /\ exists res, r = Ok res /\
  ((view d' = view d /\ request_refused q (view d) (healthy d) res) \/
   (fr_requester_uid q <> "" /\ fr_target_uid q <> "" /\ fr_requester_uid q <> fr_target_uid q /\
    (exists u, u ∈ im_users (view d) /\ u_uid u = fr_target_uid q) /\
    (healthy d -> forall f, f ∈ im_friends (view d) ->
        in_pair (fr_requester_uid q) (fr_target_uid q) f = false) /\
    ((exists f', res = friend_ok "Friend request sent" /\
        inserted (new_friend (fr_requester_uid q) (fr_target_uid q) PENDING
                    (if 0 <? fr_now_ms q then fr_now_ms q else clock)) f' (view d) (view d')) \/
     (view d' = view d /\ res = friend_error "PERSIST_FAILED" "Failed to persist friend request" /\
      (healthy d -> False))))).
Proof.
  unfold send_request. intros E.
  run_inv E; apply checks_inv in E0 as (Hd & Hv & [(res & Hr & Hc)|(t & Hr & Ht & Hc)]); try done; simplify_eq.
  - odb_inv. split; [done|]. eexists. split; [done|]. left. auto.
  - apply create_inv in E as [Hd2 Hi]. split; [by auto|].
    destruct Hc as (Hr & Htg & Hne & Hu & Hfree). rewrite Hv in Hi.
    destruct Hi as [(f' & Hi & ->)|(Hv2 & -> & Hvio)]; (eexists; split; [done|]); right; split_and!; try done.
    + left. eauto.
    + right. split_and!; try done. intros Hh. destruct (Hvio (Hd Hh)) as (g & Hg & Hvg).
      simpl in Hvg. apply eqb2_true in Hvg as [Hg1 Hg2]. specialize (Hfree Hh g Hg).
      apply not_true_iff_false in Hfree. apply Hfree, in_pair_true. left. by split.
Qed.
End Lemmas.

Section MoreLemmas.
Context {DB : Type} `{OdbReliable DB}.

Lemma respond_inv i uid accept d d' r : pairwise conflict (im_friends (view d)) ->
  respond_to_request i uid accept d = (d', r) ->
  (healthy d -> healthy d') /\ exists res, r = Ok res /\
  ((view d' = view d /\ res = friend_error "NOT_FOUND" "Friend request not found" /\
    (healthy d -> forall f, f ∈ im_friends (view d) -> f_friend_id f <> i)) \/
   exists f, f ∈ im_friends (view d) /\ f_friend_id f = i /\
     ((view d' = view d /\ f_target_uid f <> uid /\
       res = friend_error "FORBIDDEN" "Only the target user can respond to this request") \/
      (f_target_uid f = uid /\
       ((view d' = view d /\ f_status f <> PENDING /\
         res = friend_error "NOT_PENDING" "Friend request is not in pending status") \/
        (f_status f = PENDING /\
         ((replaced (set_status (if accept then ACCEPTED else REJECTED) f) (view d) (view d') /\
           res = friend_ok (if accept then "Friend request accepted" else "Friend request rejected")) \/
          (view d' = view d /\
           res = friend_error "UPDATE_FAILED" "Failed to update friend request status" /\
           (healthy d -> False)))))))).
Proof.
  intros Hp E. unfold respond_to_request in E.
  run_inv E; apply find_friend_spec in E0 as (Hd & Hv & o & Hr & Ho); [done|]. simplify_eq.
  destruct o as [f|]; [|odb_inv; split; [done|]; eexists; split; [done|]; by left].
  destruct Ho as [Hf Hi].
  destruct (String.eqb_spec (f_target_uid f) uid) as [Ht|Ht]; simpl in E.
  2: { odb_inv. split; [done|]. eexists; split; [done|]. right. exists f. auto 6. }
  destruct (bool_decide (f_status f = PENDING)) eqn:Es; simpl in E;
    [apply bool_decide_eq_true in Es|apply bool_decide_eq_false in Es].
  2: { odb_inv. split; [done|]. eexists; split; [done|]. right. exists f. auto 8. }
  run_inv E; apply update_status_spec in E0 as (Hd2 & b & Hr & Hb); [done|]. simplify_eq. rewrite Hv in Hb.
  destruct b; unfold ret in E; simpl in E; simplify_eq; (split; [by auto|]); (eexists; split; [done|]); right;
    exists f; (split; [done|]); (split; [done|]); right; (split; [done|]); right; (split; [done|]).
  - left. split; [|done]. destruct Hb as (g & Hg & Hgi & Hrep). replace f with g; [done|].
    apply (pairwise_eq conflict conflict_sym _ _ _ Hp); try done.
    unfold conflict. simpl. by rewrite bool_decide_eq_true_2.
  - right. destruct Hb as [? Hb]. split_and!; try done. intros Hh. by apply (Hb (Hd Hh) Hp f).
Qed.

(** The other user of a relationship. *)
Definition other (uid : string) (f : Friend) : string :=
  if String.eqb (f_requester_uid f) uid then f_target_uid f else f_requester_uid f.

(** The entry a list shows for a relationship: the nickname is the profile's, or the id. *)
Definition info_of (uid : string) (s : Schema) (reliable : Prop) (f : Friend) (i : FriendInfoDTO) : Prop :=
  fi_friend_id i = f_friend_id f /\ fi_friend_uid i = other uid f /\ fi_status i = f_status f /\
  fi_created_at i = f_created_at f /\
  nickname_of (other uid f) s reliable (fi_nickname i).

Lemma to_friend_info_spec uid f d d' r : to_friend_info uid f d = (d', r) ->
  (healthy d -> healthy d') /\ view d' = view d /\
  exists i, r = Ok i /\ info_of uid (view d) (healthy d) f i.
Proof.
  unfold to_friend_info. intros E. fold (other uid f) in E.
  run_inv E; apply nickname_spec in E0 as (Hd & Hv & nick & Hr & Hn); [done|]. simplify_eq.
  unfold ret in E. simplify_eq. split_and!; try done. eexists. split; [done|]. by split_and!.
Qed.

Lemma infos_inv uid (p : Friend -> bool) d d' r :
  (let* l := collect (query p None) in exec_map (to_friend_info uid) l) d = (d', r) ->
  (healthy d -> healthy d') /\ view d' = view d /\ exists fs l, r = Ok l /\
    Forall2 (info_of uid (view d) (healthy d)) fs l /\
    (forall f, f ∈ fs -> f ∈ im_friends (view d) /\ p f = true) /\
    (healthy d -> fs ≡ₚ filter (fun f => p f) (im_friends (view d))).
Proof.
  intros E. run_inv E; apply (collect_all (Row := Friend)) in E0 as (Hd & Hv & fs & Hr & Hin & Hall); [done|].
  simplify_eq. apply (exec_map_spec _ (info_of uid)) in E as (Hd2 & Hv2 & l & -> & Hl).
  - split_and!; [by auto|congruence|]. exists fs, l. split_and!; try done. rewrite Hv in Hl.
    eapply Forall2_impl; [exact Hl|]. intros f i (? & ? & ? & ? & Hn). split_and!; try done.
    by eapply nickname_weaken; [|exact Hn].
  - intros f d2 d3 r2. apply to_friend_info_spec.
  - intros s P P' f i Hpp (? & ? & ? & ? & Hn). split_and!; try done.
    by eapply nickname_weaken; [|exact Hn].
Qed.
End MoreLemmas.

(** * Requests and the abstract transitions they refine *)

Inductive FriendCall :=
| SendRequest (clock : Z) (q : FriendRequest)
| Respond (friend_id : Z) (uid : string) (accept : bool)
| GetFriends (uid : string)
| GetPending (uid : string).

Definition run_friend {DB} `{Odb DB} (c : FriendCall) : exec DB unit :=
  match c with
  | SendRequest t q => let* _ := send_request t q in ret tt
  | Respond i u a => let* _ := respond_to_request i u a in ret tt
  | GetFriends u => let* _ := get_friends u in ret tt
  | GetPending u => let* _ := get_pending_requests u in ret tt
  end.

(** A request changes the table of friends in one of these ways, and nothing else. *)
Inductive friend_change (reliable : Prop) (s s' : Schema) : Prop :=
| fc_none : s' = s -> friend_change reliable s s'
| fc_request a b t f : inserted (new_friend a b PENDING t) f s s' ->
    a <> "" -> b <> "" -> a <> b -> (exists u, u ∈ im_users s /\ u_uid u = b) ->
    (reliable -> forall g, g ∈ im_friends s -> in_pair a b g = false) ->
    friend_change reliable s s'
| fc_respond f st : f ∈ im_friends s -> f_status f = PENDING -> st = ACCEPTED \/ st = REJECTED ->
    replaced (set_status st f) s s' -> friend_change reliable s s'.

(** Well-formed relationships: between two different named users, the second of which
    exists; never BLOCKED; one per ordered pair, and, without faults, per unordered pair. *)
Definition friends_wf (reliable : Prop) (s : Schema) : Prop :=
  pairwise conflict (im_friends s) /\ (reliable -> pairwise same_pair (im_friends s)) /\
  forall f, f ∈ im_friends s -> f_requester_uid f <> "" /\ f_target_uid f <> "" /\
    f_requester_uid f <> f_target_uid f /\ f_status f <> BLOCKED /\
    exists u, u ∈ im_users s /\ u_uid u = f_target_uid f.

(** A relationship later: the same pair, and its status moved from PENDING at most once. *)
Definition later (f f' : Friend) : Prop :=
  f_friend_id f' = f_friend_id f /\ f_requester_uid f' = f_requester_uid f /\
  f_target_uid f' = f_target_uid f /\ f_created_at f' = f_created_at f /\
  (f_status f' = f_status f \/ (f_status f = PENDING /\ (f_status f' = ACCEPTED \/ f_status f' = REJECTED))).

Lemma inserted_friend f f' s s' : inserted f f' s s' ->
  f_requester_uid f' = f_requester_uid f /\ f_target_uid f' = f_target_uid f /\
  f_status f' = f_status f /\ im_users s' = im_users s /\
  exists l, l ≡ₚ f' :: im_friends s /\ s' = set_friends l s.
Proof. intros ((i & _ & ->) & _ & l & ? & ->). split_and!; try done. eauto. Qed.

Lemma friend_change_wf R s s' : friend_change R s s' -> friends_wf R s -> friends_wf R s'.
Proof.
  intros Hc (Hp & Hs & Hw). destruct Hc as [->|a b t f Hi ? ? ? Hu Hfree|f st Hf Hst Hnew Hr]; [done| |].
  - pose proof (inserted_friend _ _ _ _ Hi) as (Hq & Ht & Hstat & Hus & l & Hl & Hs'). simpl in *.
    split_and!; [by apply inserted_pairwise in Hi| |].
    + intros HR. rewrite Hs'. simpl. eapply pairwise_perm; [symmetry; exact Hl|].
      apply pairwise_cons; [apply same_pair_sym|]. split; [by apply Hs|]. intros g Hg.
      rewrite same_pair_sym. unfold same_pair. rewrite Hq, Ht. by apply Hfree.
    + intros g Hg. rewrite Hus. apply (inserted_elem _ _ _ _ g Hi) in Hg as [->|Hg]; [|by apply Hw].
      rewrite Hq, Ht, Hstat. done.
  - destruct (Hw f Hf) as (? & ? & ? & ? & Hu).
    assert (Hus : im_users s' = im_users s) by (by destruct Hr as (? & ? & ? & _ & _ & _ & _ & ->)).
    split_and!; [by apply replaced_pairwise in Hr| |].
    + intros HR. specialize (Hs HR). destruct Hr as (q & rest & l & Hq & Hk & Hc & Hl & ->). simpl.
      assert (q = f) as ->.
      { apply (pairwise_eq conflict conflict_sym _ _ _ Hp); [rewrite Hq; constructor|done|].
        unfold conflict. by rewrite bool_decide_eq_true_2. }
      eapply pairwise_perm; [symmetry; exact Hl|]. simpl in Hq. eapply pairwise_perm in Hs; [|exact Hq].
      apply pairwise_cons in Hs as [Hs Hx]; [|apply same_pair_sym].
      apply pairwise_cons; [apply same_pair_sym|]. split; [done|]. exact Hx.
    + intros g Hg. rewrite Hus. apply (replaced_elem _ _ _ g Hp Hr) in Hg as [->|[Hg _]]; [|by apply Hw].
      simpl. split_and!; try done. destruct Hnew as [->| ->]; done.
Qed.

Lemma later_refl f : later f f.
Proof. unfold later. split_and!; auto. Qed.

Lemma friend_change_later R s s' f : friend_change R s s' -> pairwise conflict (im_friends s) ->
  f ∈ im_friends s -> exists f', f' ∈ im_friends s' /\ later f f'.
Proof.
  intros Hc Hp Hf. destruct Hc as [->|a b t g Hi ? ? ? Hu Hfree|g st Hg Hst Hnew Hr].
  - exists f. split; [done|apply later_refl].
  - exists f. split; [|apply later_refl]. apply (inserted_elem _ _ _ _ f Hi). by right.
  - destruct (decide (f_friend_id f = f_friend_id g)) as [He|Hne].
    + assert (f = g) as ->.
      { apply (pairwise_eq conflict conflict_sym _ _ _ Hp); try done.
        unfold conflict. by rewrite bool_decide_eq_true_2. }
      exists (set_status st g). split; [apply (replaced_elem _ _ _ _ Hp Hr); by left|].
      unfold later. simpl. split_and!; auto.
    + exists f. split; [|apply later_refl]. apply (replaced_elem _ _ _ _ Hp Hr). right. by split.
Qed.

Lemma friend_change_frame R s s' : friend_change R s s' -> s' = set_friends (im_friends s') s.
Proof.
  intros [->|a b t f (_ & _ & l & _ & ->) _ _ _ _ _|f st _ _ _ (q & r & l & _ & _ & _ & _ & ->)]; by destruct s.
Qed.

Lemma later_trans f g h : later f g -> later g h -> later f h.
Proof. unfold later. intuition congruence. Qed.

(** * Two requests at the same time

    The service checks and inserts in separate transactions; this is the schedule in which
    two requests pass their checks before either inserts. *)
Definition send_request_finish {DB} `{Odb DB} (c : FriendResult + Friend) : exec DB FriendResult :=
  match c with inl refusal => ret refusal | inr f => send_request_create f end.

Definition crossing {DB} `{Odb DB} (clock : Z) (q1 q2 : FriendRequest) : exec DB (FriendResult * FriendResult) :=
  let* c1 := send_request_checks clock q1 in
  let* c2 := send_request_checks clock q2 in
  let* r1 := send_request_finish c1 in
  let* r2 := send_request_finish c2 in
  ret (r1, r2).

(** * Properties *)

Section Properties.
Context {DB : Type} `{OdbReliable DB} `{Pbkdf2}.

Lemma run_friend_change c (d d' : DB) r : pairwise conflict (im_friends (view d)) ->
  run_friend c d = (d', r) -> (healthy d -> healthy d') /\ friend_change (healthy d) (view d) (view d').
Proof.
  intros Hp E. destruct c as [t q|i u a|u|u]; simpl in E.
  - run_inv E; apply send_request_inv in E0 as (Hd & res & Hr & Hs); [done|]. odb_inv. split; [done|].
    destruct Hs as [[-> _]|(? & ? & ? & ? & ? & [(f & _ & Hi)|(-> & _)])]; [by apply fc_none| |by apply fc_none].
    by eapply fc_request.
  - run_inv E; apply respond_inv in E0 as (Hd & res & Hr & Hs); try done. odb_inv. split; [done|].
    destruct Hs as [[-> _]|(f & ? & _ & [[-> _]|(_ & [[-> _]|(? & [[Hr _]|[-> _]])])])]; try by apply fc_none.
    eapply fc_respond; [done|done| |exact Hr]. destruct a; auto.
  - unfold get_friends, find_friends in E.
    run_inv E; apply infos_inv in E0 as (? & Hv & _); odb_inv; split; try done; rewrite Hv; by apply fc_none.
  - unfold get_pending_requests, find_pending in E.
    run_inv E; apply infos_inv in E0 as (? & Hv & _); odb_inv; split; try done; rewrite Hv; by apply fc_none.
Qed.

(** Runs of the two services on one database: any requests, any faults. *)
Definition friend_step (n : Z) (d d' : DB) : Prop :=
  (exists c r, run_friend c d = (d', r)) \/ (exists c r, entropy_ok c /\ run_user n c d = (d', r)).

(** An account change leaves relationships well-formed. *)
Lemma user_change_friends_wf n R s s' : user_change n s s' -> pairwise conflict (im_users s) ->
  friends_wf R s -> friends_wf R s' /\ im_friends s' = im_friends s.
Proof.
  intros Hc Hp (Hf & Hs & Hw). destruct (user_change_keeps _ _ _ Hc Hp) as (_ & Hfr & Hk).
  assert (He : im_friends s' = im_friends s) by by rewrite Hfr.
  split; [|done]. unfold friends_wf. rewrite He. split_and!; try done.
  intros f Hin. destruct (Hw f Hin) as (? & ? & ? & ? & Hu). split_and!; auto.
Qed.

Lemma friend_step_inv n R (d d' : DB) : (R -> healthy d) -> friend_step n d d' ->
  pairwise conflict (im_users (view d)) -> friends_wf R (view d) ->
  (R -> healthy d') /\ pairwise conflict (im_users (view d')) /\ friends_wf R (view d') /\
  forall f, f ∈ im_friends (view d) -> exists f', f' ∈ im_friends (view d') /\ later f f'.
Proof.
  intros HR [(c & r & E)|(c & r & Hc & E)] Hu Hf.
  - apply run_friend_change in E as [Hd E]; [|apply Hf].
    assert (ER : friend_change R (view d) (view d')).
    { destruct E; [by apply fc_none|eapply fc_request; eauto|by eapply fc_respond]. }
    split_and!; [by auto| |by eapply friend_change_wf|].
    + by rewrite (friend_change_frame _ _ _ E).
    + intros f Hin. eapply friend_change_later; [exact ER|apply Hf|done].
  - apply run_user_change in E as [Hd E]; try done.
    destruct (user_change_friends_wf _ _ _ _ E Hu Hf) as [Hf' He].
    split_and!; [by auto| |done|].
    + by apply (user_change_keeps _ _ _ E Hu).
    + rewrite He. intros f Hin. exists f. split; [done|apply later_refl].
Qed.

Lemma friend_runs_inv n R (d d' : DB) : (R -> healthy d) -> rtc (friend_step n) d d' ->
  pairwise conflict (im_users (view d)) -> friends_wf R (view d) ->
  (R -> healthy d') /\ pairwise conflict (im_users (view d')) /\ friends_wf R (view d') /\
  forall f, f ∈ im_friends (view d) -> exists f', f' ∈ im_friends (view d') /\ later f f'.
Proof.
  intros HR Hs. revert HR. induction Hs as [d|d d1 d' Hs _ IH]; intros HR Hu Hf.
  { split_and!; try done. intros f Hin. exists f. split; [done|apply later_refl]. }
  destruct (friend_step_inv _ _ _ _ HR Hs Hu Hf) as (HR1 & Hu1 & Hf1 & Hl1).
  destruct (IH HR1 Hu1 Hf1) as (? & ? & ? & Hl2). split_and!; try done.
  intros f Hin. destruct (Hl1 f Hin) as (f1 & Hin1 & ?). destruct (Hl2 f1 Hin1) as (f2 & ? & ?).
  exists f2. split; [done|]. by eapply later_trans.
Qed.

(** From empty tables, whatever requests the friend and the user services run and
    whatever calls of the database fail: every relationship joins two different named users,
    its target exists, no ordered pair has two rows, and a row keeps its pair for ever while
    its status leaves PENDING at most once, to ACCEPTED or REJECTED; if the database had no
    fault, no two users have more than one relationship in either direction. *)
Theorem friends_reachable_wf n (d0 d1 d2 : DB) :
  im_users (view d0) = [] -> im_friends (view d0) = [] ->
  rtc (friend_step n) d0 d1 -> rtc (friend_step n) d1 d2 ->
  friends_wf (healthy d0) (view d2) /\
  forall f, f ∈ im_friends (view d1) -> exists f', f' ∈ im_friends (view d2) /\ later f f'.
Proof.
  intros Hu Hf R1 R2.
  assert (Hu0 : pairwise conflict (im_users (view d0))) by (rewrite Hu; apply pairwise_nil).
  assert (Hf0 : friends_wf (healthy d0) (view d0)).
  { unfold friends_wf. rewrite Hf. split_and!; try (intros; apply pairwise_nil).
    by intros f ?%elem_of_nil. }
  destruct (friend_runs_inv _ _ _ _ (fun h => h) R1 Hu0 Hf0) as (Hd1 & Hu1 & Hf1 & _).
  destruct (friend_runs_inv _ _ _ _ Hd1 R2 Hu1 Hf1) as (_ & _ & ? & ?). done.
Qed.

(** Every answer of [send_request] and [respond_to_request], on any database: a success
    is exactly one committed insertion or one status change by the target of a pending
    request; a refusal leaves the database as it was and has the stated cause. *)
Theorem request_answers (d d' : DB) :
  (forall clock q r, send_request clock q d = (d', r) -> exists res, r = Ok res /\
   ((view d' = view d /\ request_refused q (view d) (healthy d) res) \/
    (fr_requester_uid q <> "" /\ fr_target_uid q <> "" /\ fr_requester_uid q <> fr_target_uid q /\
     (exists u, u ∈ im_users (view d) /\ u_uid u = fr_target_uid q) /\
     (healthy d -> forall f, f ∈ im_friends (view d) ->
         in_pair (fr_requester_uid q) (fr_target_uid q) f = false) /\
     ((exists f', res = friend_ok "Friend request sent" /\
         inserted (new_friend (fr_requester_uid q) (fr_target_uid q) PENDING
                     (if 0 <? fr_now_ms q then fr_now_ms q else clock)) f' (view d) (view d')) \/
      (view d' = view d /\ res = friend_error "PERSIST_FAILED" "Failed to persist friend request" /\
       (healthy d -> False)))))) /\
  (forall i uid accept r, pairwise conflict (im_friends (view d)) ->
   respond_to_request i uid accept d = (d', r) -> exists res, r = Ok res /\
   ((view d' = view d /\ res = friend_error "NOT_FOUND" "Friend request not found" /\
     (healthy d -> forall f, f ∈ im_friends (view d) -> f_friend_id f <> i)) \/
    exists f, f ∈ im_friends (view d) /\ f_friend_id f = i /\
      ((view d' = view d /\ f_target_uid f <> uid /\
        res = friend_error "FORBIDDEN" "Only the target user can respond to this request") \/
       (f_target_uid f = uid /\
        ((view d' = view d /\ f_status f <> PENDING /\
          res = friend_error "NOT_PENDING" "Friend request is not in pending status") \/
         (f_status f = PENDING /\
          ((replaced (set_status (if accept then ACCEPTED else REJECTED) f) (view d) (view d') /\
            res = friend_ok (if accept then "Friend request accepted" else "Friend request rejected")) \/
           (view d' = view d /\
            res = friend_error "UPDATE_FAILED" "Failed to update friend request status" /\
            (healthy d -> False))))))))).
Proof.
  split.
  - intros clock q r E. by apply send_request_inv in E as [_ ?].
  - intros i uid accept r Hp E. by apply respond_inv in E as [_ ?].
Qed.

(** Whether a list of entries shows a user. *)
Definition shows (uid : string) (l : list FriendInfoDTO) : Prop := exists i, i ∈ l /\ fi_friend_uid i = uid.

Lemma other_pair a b f : a <> b -> other a f = b /\ (f_requester_uid f = a \/ f_target_uid f = a) <->
  in_pair a b f = true.
Proof.
  intros Hne. rewrite in_pair_true. unfold other.
  destruct (String.eqb_spec (f_requester_uid f) a); intuition congruence.
Qed.

Lemma infos_elem uid s (P : Prop) fs l x : Forall2 (info_of uid s P) fs l ->
  shows x l <-> exists f, f ∈ fs /\ other uid f = x.
Proof.
  intros Hl. unfold shows. split.
  - intros (i & Hi & <-). apply list_elem_of_lookup in Hi as [k Hk].
    destruct (Forall2_lookup_r _ _ _ _ _ Hl Hk) as (f & Hf & _ & Ho & _). exists f.
    split; [by eapply list_elem_of_lookup_2|done].
  - intros (f & Hf & <-). apply list_elem_of_lookup in Hf as [k Hk].
    destruct (Forall2_lookup_l _ _ _ _ _ Hl Hk) as (i & Hi & _ & Ho & _). exists i.
    split; [by eapply list_elem_of_lookup_2|done].
Qed.

(** What the two lists show, without faults. *)
Lemma get_friends_shows a b (d d' : DB) r : healthy d -> a <> b -> get_friends a d = (d', r) ->
  view d' = view d /\ healthy d' /\ exists l, r = Ok l /\
  (shows b l <-> exists f, f ∈ im_friends (view d) /\ in_pair a b f = true /\ f_status f = ACCEPTED).
Proof.
  intros Hd Hne E. apply infos_inv in E as (Hd' & Hv & fs & l & -> & Hl & _ & Hall).
  split_and!; [done|by auto|]. exists l. split; [done|]. rewrite (infos_elem _ _ _ _ _ b Hl).
  setoid_rewrite (Hall Hd). setoid_rewrite list_elem_of_filter. setoid_rewrite <- (other_pair a b); [|done].
  unfold is_friend_of. setoid_rewrite Is_true_true. setoid_rewrite andb_true_iff.
  setoid_rewrite orb_true_iff. setoid_rewrite String.eqb_eq. setoid_rewrite bool_decide_eq_true.
  split; intros (f & Hf); exists f; tauto.
Qed.

Lemma get_pending_shows a b (d d' : DB) r : healthy d -> a <> b -> get_pending_requests b d = (d', r) ->
  view d' = view d /\ healthy d' /\ exists l, r = Ok l /\
  (shows a l <-> exists f, f ∈ im_friends (view d) /\ f_requester_uid f = a /\ f_target_uid f = b /\
     f_status f = PENDING).
Proof.
  intros Hd Hne E. apply infos_inv in E as (Hd' & Hv & fs & l & -> & Hl & _ & Hall).
  split_and!; [done|by auto|]. exists l. split; [done|]. rewrite (infos_elem _ _ _ _ _ a Hl).
  setoid_rewrite (Hall Hd). setoid_rewrite list_elem_of_filter.
  unfold is_pending_for. setoid_rewrite Is_true_true. setoid_rewrite andb_true_iff.
  setoid_rewrite String.eqb_eq. setoid_rewrite bool_decide_eq_true. unfold other.
  split; intros (f & Hf); exists f.
  - destruct Hf as (((Ht & ?) & ?) & Ho). destruct (String.eqb_spec (f_requester_uid f) b); [congruence|done].
  - destruct Hf as (? & Hr & Ht & ?). split_and!; try done.
    destruct (String.eqb_spec (f_requester_uid f) b); congruence.
Qed.

(** The answer to a response about an existing row, without faults. *)
Lemma respond_healthy f uid accept (d d' : DB) r :
  healthy d -> pairwise conflict (im_friends (view d)) -> f ∈ im_friends (view d) ->
  respond_to_request (f_friend_id f) uid accept d = (d', r) ->
  healthy d' /\
  if negb (String.eqb (f_target_uid f) uid) then
    r = Ok (friend_error "FORBIDDEN" "Only the target user can respond to this request")
  else if negb (bool_decide (f_status f = PENDING)) then
    r = Ok (friend_error "NOT_PENDING" "Friend request is not in pending status")
  else r = Ok (friend_ok (if accept then "Friend request accepted" else "Friend request rejected")) /\
    replaced (set_status (if accept then ACCEPTED else REJECTED) f) (view d) (view d').
Proof.
  intros Hd Hp Hf E. apply respond_inv in E as (Hd' & res & -> & Hr); [|done]. split; [by auto|].
  destruct Hr as [(_ & _ & Hno)|(g & Hg & Hi & Hr)]; [by destruct (Hno Hd f Hf)|].
  assert (g = f) as ->.
  { apply (pairwise_eq conflict conflict_sym _ _ _ Hp); try done.
    unfold conflict. simpl. by rewrite bool_decide_eq_true_2. }
  destruct Hr as [(_ & Ht & ->)|(<- & Hr)]; [by apply String.eqb_neq in Ht as ->|].
  rewrite String.eqb_refl. simpl. destruct Hr as [(_ & Hs & ->)|(Hs & Hr)].
  - by rewrite bool_decide_eq_false_2.
  - rewrite bool_decide_eq_true_2 by done. simpl. destruct Hr as [[? ->]|(_ & _ & Hff)]; [done|].
    by apply Hff in Hd.
Qed.

(** Both lists after the answer to the only request between two users. *)
Lemma shown_after (accept : bool) (f : Friend) (d d2 : DB) x y :
  healthy d2 -> pairwise conflict (im_friends (view d)) -> x <> y ->
  replaced (set_status (if accept then ACCEPTED else REJECTED) f) (view d) (view d2) ->
  in_pair x y f = true ->
  (forall g, g ∈ im_friends (view d) -> in_pair x y g = true -> f_friend_id g = f_friend_id f) ->
  exists d3 l, get_friends x d2 = (d3, Ok l) /\ (shows y l <-> accept = true).
Proof.
  intros Hd2 Hp Hne Hr Hxy Hone. destruct (get_friends x d2) as [d3 r] eqn:E. exists d3.
  apply (get_friends_shows x y) in E as (_ & _ & l & -> & Hl); [|done|done]. exists l. split; [done|]. rewrite Hl.
  pose proof (fun g => replaced_elem _ _ _ g Hp Hr) as Helem.
  split.
  - intros (g & Hg & Hgp & Hs). apply Helem in Hg as [->|[Hg Hgi]]; [by destruct accept|].
    by destruct Hgi; apply Hone.
  - intros ->. exists (set_status ACCEPTED f). split; [apply Helem; by left|]. by split.
Qed.

(** C11: on a database without faults a request between two users without a relationship
    goes through its whole life: it is sent, shown to its target and to nobody's
    objection but the target's; the target's first answer decides it, later answers are
    refused, and each user's list of friends shows the other exactly if it was accepted. *)
Theorem friendship_round clock a b t (d : DB) :
  healthy d -> pairwise conflict (im_friends (view d)) ->
  a <> "" -> b <> "" -> a <> b -> (exists u, u ∈ im_users (view d) /\ u_uid u = b) ->
  (forall f, f ∈ im_friends (view d) -> in_pair a b f = false) ->
  exists d1 f, send_request clock {| fr_requester_uid := a; fr_target_uid := b; fr_now_ms := t |} d =
      (d1, Ok (friend_ok "Friend request sent")) /\
    (exists d2 l, get_pending_requests b d1 = (d2, Ok l) /\ shows a l) /\
    (forall uid accept, uid <> b -> exists d2, respond_to_request (f_friend_id f) uid accept d1 =
      (d2, Ok (friend_error "FORBIDDEN" "Only the target user can respond to this request"))) /\
    forall accept, exists d2, respond_to_request (f_friend_id f) b accept d1 =
        (d2, Ok (friend_ok (if accept then "Friend request accepted" else "Friend request rejected"))) /\
      (forall again, exists d3, respond_to_request (f_friend_id f) b again d2 =
        (d3, Ok (friend_error "NOT_PENDING" "Friend request is not in pending status"))) /\
      (exists d3 l, get_friends a d2 = (d3, Ok l) /\ (shows b l <-> accept = true)) /\
      (exists d3 l, get_friends b d2 = (d3, Ok l) /\ (shows a l <-> accept = true)).
Proof.
  intros Hd Hp Ha Hb Hab Hu Hfree. set (q := {| fr_requester_uid := a; fr_target_uid := b; fr_now_ms := t |}).
  destruct (send_request clock q d) as [d1 r] eqn:E. apply send_request_inv in E as (Hd1 & res & -> & E).
  destruct E as [[_ E]|(_ & _ & _ & _ & _ & [(f & -> & Hi)|(_ & _ & Hf)])]; [| |by apply Hf in Hd].
  { exfalso. destruct E as [[?|?]|? ?|Hno|g Hg Hgp]; try done.
    - destruct Hu as (u & Hu & He). by destruct (Hno Hd u Hu).
    - simpl in Hgp. by rewrite (Hfree g Hg) in Hgp. }
  specialize (Hd1 Hd). exists d1, f. split; [done|].
  pose proof (inserted_pairwise _ _ _ _ Hi Hp) as Hp1. simpl in Hp1.
  pose proof (inserted_friend _ _ _ _ Hi) as (Hfq & Hft & Hfs & _). simpl in Hfq, Hft, Hfs.
  assert (Hin : f ∈ im_friends (view d1)) by (apply (inserted_elem _ _ _ _ f Hi); by left).
  assert (Hone : forall g, g ∈ im_friends (view d1) -> in_pair a b g = true -> f_friend_id g = f_friend_id f).
  { intros g Hg Hgp. apply (inserted_elem _ _ _ _ g Hi) in Hg as [->|Hg]; [done|]. by rewrite Hfree in Hgp. }
  assert (Hfp : in_pair a b f = true) by (apply in_pair_true; by left).
  split_and!.
  - destruct (get_pending_requests b d1) as [d2 r] eqn:E. exists d2.
    apply (get_pending_shows a) in E as (_ & _ & l & -> & Hl); try done. exists l. split; [done|].
    apply Hl. by exists f.
  - intros uid accept Hne. destruct (respond_to_request (f_friend_id f) uid accept d1) as [d2 r] eqn:E.
    exists d2. apply respond_healthy in E as [_ E]; try done. rewrite Hft in E.
    apply not_eq_sym, String.eqb_neq in Hne. rewrite Hne in E. by rewrite E.
  - intros accept. destruct (respond_to_request (f_friend_id f) b accept d1) as [d2 r] eqn:E.
    exists d2. apply respond_healthy in E as [Hd2 E]; try done.
    rewrite Hft, String.eqb_refl, Hfs in E. simpl in E. destruct E as [-> Hr]. split; [done|].
    split_and!; [|by eapply shown_after|]; cycle 1.
    { eapply shown_after; try done; [by rewrite in_pair_sym|]. intros g Hg. rewrite in_pair_sym. by apply Hone. }
    intros again. pose proof (replaced_pairwise _ _ _ Hr Hp1) as Hp2.
    destruct (respond_to_request (f_friend_id f) b again d2) as [d3 r] eqn:E. exists d3.
    eapply (respond_healthy (set_status (if accept then ACCEPTED else REJECTED) f)) in E as [_ E]; try done.
    + simpl in E. rewrite Hft, String.eqb_refl in E. simpl in E.
      rewrite bool_decide_eq_false_2 in E by (by destruct accept). by rewrite E.
    + apply (replaced_elem _ _ _ _ Hp1 Hr). by left.
Qed.

(** A request that leaves the time to the service. *)
Definition ask (a b : string) : FriendRequest :=
  {| fr_requester_uid := a; fr_target_uid := b; fr_now_ms := 0 |}.

(** The checks pass, and the insertion succeeds, without faults. *)
Lemma checks_pass clock a b (d d' : DB) r :
  healthy d -> a <> "" -> b <> "" -> a <> b -> (exists u, u ∈ im_users (view d) /\ u_uid u = b) ->
  (forall f, f ∈ im_friends (view d) -> in_pair a b f = false) ->
  send_request_checks clock (ask a b) d = (d', r) ->
  healthy d' /\ view d' = view d /\ r = Ok (inr (new_friend a b PENDING clock)).
Proof.
  intros Hd Ha Hb Hab (u & Hu & Hub) Hfree E.
  apply checks_inv in E as (Hd' & Hv & [(res & _ & E)|(t & -> & -> & _)]); [|by auto].
  exfalso. destruct E as [[?|?]|? ?|Hno|g Hg Hgp]; try done; [by destruct (Hno Hd u Hu)|].
  simpl in Hgp. by rewrite (Hfree g Hg) in Hgp.
Qed.

Lemma create_pass f (d d' : DB) r : healthy d ->
  (forall g, g ∈ im_friends (view d) -> violates f g = false) -> send_request_create f d = (d', r) ->
  healthy d' /\ r = Ok (friend_ok "Friend request sent") /\ exists f', inserted f f' (view d) (view d').
Proof.
  intros Hd Hno E. apply create_inv in E as (Hd' & [(f' & Hi & ->)|(_ & _ & Hg)]); [by eauto|].
  destruct (Hg Hd) as (g & Hin & Hv). by rewrite Hno in Hv.
Qed.

(** On a database without faults, two users without a relationship who send each other
    a request at the same time both succeed, and the table then holds two relationships for
    them: the check and the insertion are separate transactions and the unique index covers
    the ordered pair only. *)
Theorem crossing_requests clock a b (d : DB) :
  healthy d -> a <> "" -> b <> "" -> a <> b ->
  (exists u, u ∈ im_users (view d) /\ u_uid u = a) -> (exists u, u ∈ im_users (view d) /\ u_uid u = b) ->
  (forall f, f ∈ im_friends (view d) -> in_pair a b f = false) ->
  exists d', crossing clock (ask a b) (ask b a) d =
    (d', Ok (friend_ok "Friend request sent", friend_ok "Friend request sent")) /\
    ~ pairwise same_pair (im_friends (view d')).
Proof.
  intros Hd Ha Hb Hab Hua Hub Hfree. unfold crossing.
  assert (Hvio : forall x y t g, in_pair x y g = false -> violates (new_friend x y PENDING t) g = false).
  { intros x y t g Hg. simpl. apply not_true_iff_false. intros [Hx Hy]%eqb2_true.
    apply not_true_iff_false in Hg. apply Hg, in_pair_true. left. by split. }
  destruct (send_request_checks clock (ask a b) d) as [d1 r1] eqn:E1.
  destruct (checks_pass _ _ _ _ _ _ Hd Ha Hb Hab Hub Hfree E1) as (Hd1 & Hv1 & ->).
  rewrite (bind_Ok _ _ _ _ _ E1). rewrite <- Hv1 in Hua.
  destruct (send_request_checks clock (ask b a) d1) as [d2 r2] eqn:E2.
  destruct (checks_pass _ _ _ _ _ _ Hd1 Hb Ha (not_eq_sym Hab) Hua ltac:(intros f; rewrite Hv1, in_pair_sym; apply Hfree) E2)
    as (Hd2 & Hv2 & ->).
  rewrite (bind_Ok _ _ _ _ _ E2). simpl.
  destruct (send_request_create (new_friend a b PENDING clock) d2) as [d3 r3] eqn:E3. rewrite Hv1 in Hv2.
  destruct (create_pass _ _ _ _ Hd2 ltac:(intros g; rewrite Hv2; intros; by apply Hvio, Hfree) E3)
    as (Hd3 & -> & f1 & Hi1).
  rewrite (bind_Ok _ _ _ _ _ E3).
  pose proof (inserted_friend _ _ _ _ Hi1) as (Hq1 & Ht1 & _ & _ & l1 & Hl1 & Hs1).
  destruct (send_request_create (new_friend b a PENDING clock) d3) as [d4 r4] eqn:E4.
  assert (Hno : forall g, g ∈ im_friends (view d3) -> violates (new_friend b a PENDING clock) g = false).
  { intros g Hg. apply (inserted_elem _ _ _ _ g Hi1) in Hg as [->|Hg].
    - apply not_true_iff_false. intros [He _]%eqb2_true. simpl in *. congruence.
    - apply Hvio. rewrite in_pair_sym. apply Hfree. rewrite <- Hv2. exact Hg. }
  destruct (create_pass _ _ _ _ Hd3 Hno E4) as (Hd4 & -> & f2 & Hi2).
  rewrite (bind_Ok _ _ _ _ _ E4). exists d4. split; [done|].
  pose proof (inserted_friend _ _ _ _ Hi2) as (Hq2 & Ht2 & _ & _ & l2 & Hl2 & Hs2).
  intros Hp. rewrite Hs2 in Hp. simpl in Hp. eapply pairwise_perm in Hp; [|exact Hl2].
  rewrite Hs1 in Hp. simpl in Hp. specialize (Hp f2 f1 (im_friends (view d2))).
  rewrite Hl1 in Hp. specialize (Hp (reflexivity _)).
  apply not_true_iff_false in Hp. apply Hp. unfold same_pair. apply in_pair_true. simpl in *. right.
  rewrite Hq1, Ht1, Hq2, Ht2. done.
Qed.
End Properties.

(** * Witnesses *)

Module Witness.
Definition user_row (uid nick : string) : User :=
  {| u_uid := uid; u_account := uid; u_password_hash := ""; u_nickname := nick; u_avatar := "";
     u_gender := FEMALE; u_signature := ""; u_create_time := 1; u_last_login := 1; u_online := false |}.
Definition db0 : MemDb := mem_start (set_users [user_row "ada" "Ada"; user_row "bob" "Bob"] empty_schema).
Definition alice_joins : UserCall :=
  Register (Some Toy.salt) (Some Toy.salt) UserService.Witness.alice.
Definition alice_id : string := default "" (GenerateUid (Some Toy.salt)).
Definition start : MemDb := mem_start empty_schema.
Definition db1 : MemDb := fst (run_user (H0 := Toy.toy) 5 alice_joins start).
Definition bob_asks : FriendCall := SendRequest 9 (ask "bob" alice_id).
Definition db2 : MemDb := fst (run_friend bob_asks db1).
Definition db3 : MemDb := fst (run_friend (Respond 1 alice_id true) db2).
End Witness.
Import Witness.

Lemma friends_reachable_wf_witness :
  map f_status (im_friends (view db3)) = [ACCEPTED] /\ friends_wf (healthy start) (view db3) /\
  forall f, f ∈ im_friends (view db2) -> exists f', f' ∈ im_friends (view db3) /\ later f f'.
Proof.
  split; [vm_compute; reflexivity|].
  apply (friends_reachable_wf (H2 := Toy.toy) 5 start db2 db3); [reflexivity|reflexivity| |].
  - apply rtc_l with db1; [right; exists alice_joins, (Ok tt)|apply rtc_once; left; exists bob_asks, (Ok tt)].
    + split; [reflexivity|vm_compute; reflexivity].
    + vm_compute. reflexivity.
  - apply rtc_once. left. exists (Respond 1 alice_id true), (Ok tt). vm_compute. reflexivity.
Defined.

Lemma friendship_round_witness :
  exists d1 f, send_request 7 (ask "ada" "bob") db0 = (d1, Ok (friend_ok "Friend request sent")) /\
    exists d2, respond_to_request (f_friend_id f) "bob" true d1 = (d2, Ok (friend_ok "Friend request accepted")) /\
      exists d3 l, get_friends "bob" d2 = (d3, Ok l) /\ shows "ada" l.
Proof.
  destruct (friendship_round 7 "ada" "bob" 0 db0) as (d1 & f & Hs & _ & _ & Hr);
    [reflexivity|apply pairwise_nil|done|done|done| |by intros f ?%elem_of_nil|].
  - exists (user_row "bob" "Bob"). split; [|reflexivity]. right. left.
  - exists d1, f. split; [exact Hs|]. destruct (Hr true) as (d2 & Hd2 & _ & _ & (d3 & l & Hl & Hsh)).
    exists d2. split; [exact Hd2|]. exists d3, l. split; [exact Hl|]. by apply Hsh.
Defined.

Lemma crossing_requests_witness :
  exists d', crossing 7 (ask "ada" "bob") (ask "bob" "ada") db0 =
    (d', Ok (friend_ok "Friend request sent", friend_ok "Friend request sent")) /\
    ~ pairwise same_pair (im_friends (view d')).
Proof.
  apply (crossing_requests 7 "ada" "bob" db0);
    [reflexivity|done|done|done| | |by intros f ?%elem_of_nil].
  - exists (user_row "ada" "Ada"). split; [|reflexivity]. left.
  - exists (user_row "bob" "Bob"). split; [|reflexivity]. right. left.
Defined.
