(* ===== verification/GroupService.v ===== *)
(** Groups, their members and their messages: [services/group/group_repository.cpp],
    [group_service.cpp], [group_message_repository.cpp] and [group_message_service.cpp].

    The repository fills in the ids of the rows it inserts; here it returns them.  The wall
    clock is an argument. *)
From S2P Require Import Prelude Text Schema Odb PasswordHasher MemDb UserService.
Open Scope Z_scope.

(** * Data *)

Record CreateGroupRequest := { cg_name : string; cg_creator_uid : string; cg_now_ms : Z }.

Record GroupResult := {
  gr_ok : bool;
  gr_error_code : string;
  gr_message : string;
  gr_group_id : Z
}.

Record GroupInfoDTO := {
  gi_group_id : Z;
  gi_name : string;
  gi_creator_uid : string;
  gi_created_at : Z;
  gi_member_count : Z
}.

Record MemberInfoDTO := {
  mi_id : Z;
  mi_user_uid : string;
  mi_nickname : string;
  mi_role : GroupRole;
  mi_joined_at : Z
}.

Record GroupSendResult := { gs_ok : bool; gs_error_code : string; gs_message : string; gs_msg_id : Z }.

Record GroupMessageDTO := {
  gd_msg_id : Z;
  gd_sender_uid : string;
  gd_sender_nickname : string;
  gd_content : string;
  gd_created_at : Z
}.

Definition group_error (code msg : string) : GroupResult :=
  {| gr_ok := false; gr_error_code := code; gr_message := msg; gr_group_id := 0 |}.
Definition group_ok (msg : string) (id : Z) : GroupResult :=
  {| gr_ok := true; gr_error_code := ""; gr_message := msg; gr_group_id := id |}.
Definition send_error (code msg : string) : GroupSendResult :=
  {| gs_ok := false; gs_error_code := code; gs_message := msg; gs_msg_id := 0 |}.

(** The constructors of the rows; the database assigns the ids. *)
Definition new_group (name creator : string) (t : Z) : Group :=
  {| g_group_id := 0; g_name := name; g_creator_uid := creator; g_created_at := t |}.
Definition new_member (group_id : Z) (uid : string) (role : GroupRole) (t : Z) : GroupMember :=
  {| m_id := 0; m_group_id := group_id; m_user_uid := uid; m_role := role; m_joined_at := t |}.
Definition new_message (group_id : Z) (sender content : string) (t : Z) : GroupMessage :=
  {| gm_id := 0; gm_group_id := group_id; gm_sender_uid := sender; gm_content := content;
     gm_created_at := t |}.
Definition set_group (group_id : Z) (m : GroupMember) : GroupMember :=
  {| m_id := m_id m; m_group_id := group_id; m_user_uid := m_user_uid m; m_role := m_role m;
     m_joined_at := m_joined_at m |}.
Definition set_role (role : GroupRole) (m : GroupMember) : GroupMember :=
  {| m_id := m_id m; m_group_id := m_group_id m; m_user_uid := m_user_uid m; m_role := role;
     m_joined_at := m_joined_at m |}.

Section Service.
Context {DB : Type} `{Odb DB}.

(** * GroupRepository *)

Definition create_group_row (g : Group) : exec DB bool :=
  guarded (let* _ := persist g in ret (Commit true)) false.

(** [Some id] is [true] with the id left in [g]. *)
Definition create_group_with_owner (g : Group) (owner : GroupMember) : exec DB (option Z) :=
  guarded (let* g := persist g in
           let* _ := persist (set_group (g_group_id g) owner) in
           ret (Commit (Some (g_group_id g)))) None.

Definition find_group_by_id (group_id : Z) : exec DB (option Group) :=
  guarded (let* loaded := load (Row := Group) group_id in ret (Commit loaded)) None.

Definition find_groups_by_user (user_uid : string) : exec DB (list Group) :=
  let* group_ids := guarded (let* mr := query (fun m => String.eqb (m_user_uid m) user_uid) None in
                             ret (Commit (map m_group_id mr))) [] in
  let* found := exec_map find_group_by_id group_ids in
  ret (omap id found).

Definition search_groups_rows (keyword : string) (limit : Z) : exec DB (list Group) :=
  if String.eqb keyword "" || (limit =? 0) then ret []
  else
    let* by_id := match stoull keyword with
                  | Some id => find_group_by_id id
                  | None => ret None
                  end in
    match by_id with
    | Some g => ret [g]
    | None =>
        let pattern := "%" +:+ keyword +:+ "%" in
        guarded (let* r := query (fun g => sql_like pattern (g_name g)) None in
                 ret (Commit (ztake limit r))) []
    end.

Definition add_member (m : GroupMember) : exec DB bool :=
  guarded (let* _ := persist m in ret (Commit true)) false.

Definition is_member_row (group_id : Z) (user_uid : string) (m : GroupMember) : bool :=
  (m_group_id m =? group_id) && String.eqb (m_user_uid m) user_uid.

Definition remove_member (group_id : Z) (user_uid : string) : exec DB bool :=
  guarded (let* _ := erase_query (is_member_row group_id user_uid) in ret (Commit true)) false.

Definition update_member_role (group_id : Z) (user_uid : string) (role : GroupRole) : exec DB bool :=
  guarded (let* r := query (is_member_row group_id user_uid) None in
           match r with
           | [] => ret (Commit false)
           | m :: _ => let* _ := update (set_role role m) in ret (Commit true)
           end) false.

Definition find_members (group_id : Z) : exec DB (list GroupMember) :=
  collect (query (fun m => m_group_id m =? group_id) None).

Definition find_member (group_id : Z) (user_uid : string) : exec DB (option GroupMember) :=
  guarded (let* r := query (is_member_row group_id user_uid) None in ret (Commit (head r))) None.

(** * GroupService *)

Definition create_group (clock : Z) (request : CreateGroupRequest) : exec DB GroupResult :=
  if String.eqb (cg_name request) "" then ret (group_error "EMPTY_NAME" "Group name must not be empty")
  else if String.eqb (cg_creator_uid request) "" then
    ret (group_error "EMPTY_CREATOR" "Creator UID must not be empty")
  else
    let* profile := get_profile_by_uid (cg_creator_uid request) in
    match profile with
    | None => ret (group_error "CREATOR_NOT_FOUND" "Creator user does not exist")
    | Some _ =>
        let t := if 0 <? cg_now_ms request then cg_now_ms request else clock in
        let g := new_group (cg_name request) (cg_creator_uid request) t in
        let owner := new_member 0 (cg_creator_uid request) OWNER t in
        let* created := create_group_with_owner g owner in
        match created with
        | None => ret (group_error "PERSIST_FAILED" "Failed to persist group with owner")
        | Some id => ret (group_ok "Group created" id)
        end
    end.

Definition join_group (clock : Z) (group_id : Z) (user_uid : string) (t : Z) : exec DB GroupResult :=
  let* group := find_group_by_id group_id in
  match group with
  | None => ret (group_error "GROUP_NOT_FOUND" "Group not found")
  | Some _ =>
      if String.eqb user_uid "" then ret (group_error "EMPTY_UID" "User UID must not be empty")
      else
        let* profile := get_profile_by_uid user_uid in
        match profile with
        | None => ret (group_error "USER_NOT_FOUND" "User does not exist")
        | Some _ =>
            let* existing := find_member group_id user_uid in
            match existing with
            | Some _ => ret (group_error "ALREADY_MEMBER" "User is already a member of this group")
            | None =>
                let joined_at := if 0 <? t then t else clock in
                let* added := add_member (new_member group_id user_uid MEMBER joined_at) in
                if negb added then ret (group_error "PERSIST_FAILED" "Failed to add member")
                else ret (group_ok "Joined group" 0)
            end
        end
  end.

Definition leave_group (group_id : Z) (user_uid : string) : exec DB GroupResult :=
  let* group := find_group_by_id group_id in
  match group with
  | None => ret (group_error "GROUP_NOT_FOUND" "Group not found")
  | Some _ =>
      let* member := find_member group_id user_uid in
      match member with
      | None => ret (group_error "NOT_MEMBER" "User is not a member of this group")
      | Some m =>
          if bool_decide (m_role m = OWNER) then
            ret (group_error "OWNER_CANNOT_LEAVE" "Owner cannot leave the group; transfer ownership first")
          else
            let* removed := remove_member group_id user_uid in
            if negb removed then ret (group_error "REMOVE_FAILED" "Failed to remove member")
            else ret (group_ok "Left group" 0)
      end
  end.

(** The entry for a group, with the number of its members as an [int]. *)
Definition group_info (g : Group) : exec DB GroupInfoDTO :=
  let* members := find_members (g_group_id g) in
  ret {| gi_group_id := g_group_id g; gi_name := g_name g; gi_creator_uid := g_creator_uid g;
         gi_created_at := g_created_at g; gi_member_count := i32 (zlen members) |}.

Definition list_my_groups (user_uid : string) : exec DB (list GroupInfoDTO) :=
  let* groups := find_groups_by_user user_uid in exec_map group_info groups.

Definition get_group_info (group_id : Z) : exec DB (option GroupInfoDTO) :=
  let* group := find_group_by_id group_id in
  match group with
  | None => ret None
  | Some g => let* info := group_info g in ret (Some info)
  end.

Definition search_groups (keyword : string) (limit : Z) : exec DB (list GroupInfoDTO) :=
  let* groups := search_groups_rows keyword limit in exec_map group_info groups.

Definition group_exists (group_id : Z) : exec DB bool :=
  let* group := find_group_by_id group_id in ret (bool_decide (is_Some group)).

Definition resolve_nickname (uid : string) : exec DB string :=
  let* profile := get_profile_by_uid uid in
  match profile with Some p => ret (p_nickname p) | None => ret uid end.

Definition member_info (m : GroupMember) : exec DB MemberInfoDTO :=
  let* nickname := resolve_nickname (m_user_uid m) in
  ret {| mi_id := m_id m; mi_user_uid := m_user_uid m; mi_nickname := nickname;
         mi_role := m_role m; mi_joined_at := m_joined_at m |}.

Definition list_members (group_id : Z) (caller_uid : string) : exec DB (list MemberInfoDTO) :=
  let* group := find_group_by_id group_id in
  match group with
  | None => ret []
  | Some _ =>
      let* caller := find_member group_id caller_uid in
      match caller with
      | None => ret []
      | Some _ => let* members := find_members group_id in exec_map member_info members
      end
  end.

(** * GroupMessageRepository and GroupMessageService *)

Definition create_message (msg : GroupMessage) : exec DB (option Z) :=
  guarded (let* m := persist msg in ret (Commit (Some (gm_id m)))) None.

Definition find_by_group (group_id before_time limit : Z) : exec DB (list GroupMessage) :=
  collect (query (fun m => (gm_group_id m =? group_id) && (gm_created_at m <? before_time))
    (Some {| order_by := gm_created_at; descending := true; row_limit := Some limit |})).

Definition find_offline (group_id after_time : Z) : exec DB (list GroupMessage) :=
  collect (query (fun m => (gm_group_id m =? group_id) && (after_time <? gm_created_at m))
    (Some {| order_by := gm_created_at; descending := false; row_limit := None |})).

Definition send_message (group_id : Z) (sender_uid content : string) (now_ms : Z)
  : exec DB GroupSendResult :=
  if group_id =? 0 then ret (send_error "INVALID_GROUP" "Invalid group id")
  else if String.eqb sender_uid "" then ret (send_error "EMPTY_SENDER" "Sender uid is empty")
  else
    let* exists_ := group_exists group_id in
    if negb exists_ then ret (send_error "GROUP_NOT_FOUND" "Group not found")
    else
      let* members := list_members group_id sender_uid in
      match members with
      | [] => ret (send_error "FORBIDDEN" "Not a member of this group")
      | _ :: _ =>
          let* stored := create_message (new_message group_id sender_uid content now_ms) in
          match stored with
          | None => ret (send_error "STORE_FAILED" "Failed to store message")
          | Some id => ret {| gs_ok := true; gs_error_code := ""; gs_message := "Message sent"; gs_msg_id := id |}
          end
      end.

Definition message_info (m : GroupMessage) : exec DB GroupMessageDTO :=
  let* nickname := resolve_nickname (gm_sender_uid m) in
  ret {| gd_msg_id := gm_id m; gd_sender_uid := gm_sender_uid m; gd_sender_nickname := nickname;
         gd_content := gm_content m; gd_created_at := gm_created_at m |}.

Definition get_history (group_id before_time limit : Z) : exec DB (list GroupMessageDTO) :=
  let* msgs := find_by_group group_id before_time limit in exec_map message_info msgs.
End Service.

(** * What the repository does *)

Lemma member_row_true gid uid m :
  is_member_row gid uid m = true <-> m_group_id m = gid /\ m_user_uid m = uid.
Proof. unfold is_member_row. by rewrite andb_true_iff, Z.eqb_eq, String.eqb_eq. Qed.

Lemma member_row_false gid uid m :
  is_member_row gid uid m = false <-> ~ (m_group_id m = gid /\ m_user_uid m = uid).
Proof. by rewrite <- member_row_true, not_true_iff_false. Qed.

Section Repository.
Context {DB : Type} `{OdbReliable DB}.

Lemma find_group_spec gid d d' r : find_group_by_id gid d = (d', r) ->
  (healthy d -> healthy d') /\ view d' = view d /\ exists o, r = Ok o /\
    match o with
    | Some g => g ∈ im_groups (view d) /\ g_group_id g = gid
    | None => healthy d -> forall g, g ∈ im_groups (view d) -> g_group_id g <> gid
    end.
Proof. exact (guarded_load (Row := Group) gid d d' r). Qed.

Lemma find_member_spec gid uid d d' r : find_member gid uid d = (d', r) ->
  (healthy d -> healthy d') /\ view d' = view d /\ exists o, r = Ok o /\
    match o with
    | Some m => m ∈ im_group_members (view d) /\ is_member_row gid uid m = true
    | None => healthy d -> forall m, m ∈ im_group_members (view d) -> is_member_row gid uid m = false
    end.
Proof. exact (guarded_first (Row := GroupMember) (is_member_row gid uid) d d' r). Qed.

Lemma find_members_spec gid d d' r : find_members gid d = (d', r) ->
  (healthy d -> healthy d') /\ view d' = view d /\ exists l, r = Ok l /\
    (forall m, m ∈ l -> m ∈ im_group_members (view d) /\ m_group_id m = gid) /\
    (healthy d -> l ≡ₚ filter (fun m => m_group_id m = gid) (im_group_members (view d))).
Proof.
  intros E. apply (collect_all (Row := GroupMember)) in E as (Hd & Hv & l & -> & Hin & Hall).
  split_and!; try done. exists l. split_and!; [done| |].
  - intros m Hm. destruct (Hin m Hm). by zbool.
  - intros Hh. rewrite (Hall Hh). apply reflexive_eq, list_filter_iff. intros m.
    by rewrite Is_true_true, Z.eqb_eq.
Qed.

Lemma create_with_owner_spec name creator t d d' r :
  create_group_with_owner (new_group name creator t) (new_member 0 creator OWNER t) d = (d', r) ->
  (healthy d -> healthy d') /\ exists o, r = Ok o /\
    match o with
    | Some i => exists g m s1, g_group_id g = i /\ inserted (new_group name creator t) g (view d) s1 /\
        inserted (new_member i creator OWNER t) m s1 (view d')
    | None => view d' = view d /\ (healthy d -> exists g m s1,
        inserted (new_group name creator t) g (view d) s1 /\
        m ∈ im_group_members (view d) /\ m_group_id m = g_group_id g)
    end.
Proof.
  intros E. eapply (guarded_spec _ (fun s o s' => exists i, o = Some i /\ exists g m s1, g_group_id g = i /\
      inserted (new_group name creator t) g s s1 /\ inserted (new_member i creator OWNER t) m s1 s')
    (fun _ _ => False) (fun s => exists g m s1, inserted (new_group name creator t) g s s1 /\
      m ∈ im_group_members s /\ m_group_id m = g_group_id g)) in E as (Hd & o & -> & E).
  - split; [done|]. exists o. split; [done|].
    destruct E as [(i & -> & E)|[Hv [[]|[-> E]]]]; done.
  - body_cases.
    + intros Hd. match goal with H : healthy _ -> _ |- _ => by destruct (H Hd) as (? & _ & ?) end.
    + intros Hd. destruct (E1 (H5 Hd)) as (m & Hm & Hv). apply eqb2_true in Hv as [Hv _].
      pose proof E0 as (_ & _ & l & _ & Hs1). rewrite Hs1 in Hm. exists a, m, (view d1).
      split; [done|]. split; [exact Hm|exact (eq_sym Hv)].
    + eexists. split; [done|]. exists a. do 2 eexists. split_and!; [done|exact E0|exact E1].
Qed.

Lemma add_member_spec m d d' r : add_member m d = (d', r) ->
  (healthy d -> healthy d') /\ exists b, r = Ok b /\
    if b then exists m', inserted m m' (view d) (view d')
    else view d' = view d /\
         (healthy d -> exists q, q ∈ im_group_members (view d) /\ violates m q = true).
Proof. exact (guarded_persist (Row := GroupMember) m d d' r). Qed.

Lemma remove_member_spec gid uid d d' r : remove_member gid uid d = (d', r) ->
  (healthy d -> healthy d') /\ exists b, r = Ok b /\
    if b then exists l, l ≡ₚ filter (fun m => negb (is_member_row gid uid m)) (im_group_members (view d)) /\
                view d' = set_members l (view d)
    else view d' = view d /\ (healthy d -> False).
Proof.
  intros E. eapply (guarded_spec _ (fun s b s' => b = true /\ exists l,
      l ≡ₚ filter (fun m => negb (is_member_row gid uid m)) (im_group_members s) /\ s' = set_members l s)
    (fun _ _ => False) (fun _ => False)) in E as (Hd & b & -> & E).
  - split; [done|]. exists b. split; [done|]. destruct E as [[-> ?]|[? [[]|[-> ?]]]]; auto.
  - body_cases; [done|]. eauto.
Qed.

Lemma create_message_spec m d d' r : create_message m d = (d', r) ->
  (healthy d -> healthy d') /\ exists o, r = Ok o /\
    match o with
    | Some i => exists m', gm_id m' = i /\ inserted m m' (view d) (view d')
    | None => view d' = view d /\ (healthy d -> False)
    end.
Proof.
  intros E. eapply (guarded_spec _ (fun s o s' => exists m', o = Some (gm_id m') /\ inserted m m' s s')
    (fun _ _ => False) (fun _ => False)) in E as (Hd & o & -> & E).
  - split; [done|]. exists o. split; [done|]. destruct E as [(m' & -> & ?)|[? [[]|[-> ?]]]]; eauto.
  - body_cases; [|eauto]. intros Hd. match goal with H : healthy _ -> _ |- _ => by destruct (H Hd) as (? & _ & ?) end.
Qed.

(** The newest messages before a time. *)
Definition newest (gid before limit : Z) (s : Schema) (l : list GroupMessage) : Prop :=
  0 <= limit /\ exists full, l = ztake limit full /\
    full ≡ₚ filter (fun m => gm_group_id m = gid /\ gm_created_at m < before) (im_group_messages s) /\
    Sorted (fun x y => gm_created_at y <= gm_created_at x) full.

Lemma find_by_group_spec gid before limit d d' r : find_by_group gid before limit d = (d', r) ->
  (healthy d -> healthy d') /\ view d' = view d /\ exists l, r = Ok l /\
    (newest gid before limit (view d) l \/ (l = [] /\ (healthy d -> limit < 0))).
Proof.
  intros E. apply (collect_spec _ (newest gid before limit) (fun _ => limit < 0)) in E; [done|].
  intros d1 d2 r2 E2. apply query_inv in E2 as (? & ? & E2). split_and!; try done. destruct r2 as [l|].
  - destruct E2 as [? (full & Hf & Ho & Hlim & ->)]. split; [done|]. split; [done|]. exists full.
    split_and!; [done| |done]. rewrite Hf. apply reflexive_eq, list_filter_iff. intros m.
    by rewrite Is_true_true, andb_true_iff, Z.eqb_eq, Z.ltb_lt.
  - intros Hd. destruct (E2 Hd) as (o & n & [= <-] & [= <-] & ?). done.
Qed.
End Repository.

(** * What the services do *)

Definition user_exists (s : Schema) (uid : string) : Prop := exists u, u ∈ im_users s /\ u_uid u = uid.
Definition has_group (s : Schema) (gid : Z) : Prop := exists g, g ∈ im_groups s /\ g_group_id g = gid.
Definition has_member (s : Schema) (gid : Z) (uid : string) : Prop :=
  exists m, m ∈ im_group_members s /\ is_member_row gid uid m = true.

(** An answer that refuses: its code and message, and the cause, which holds for sure only on
    a database without faults when it is the absence of a row. *)
Inductive create_refused (q : CreateGroupRequest) (s : Schema) (reliable : Prop) : GroupResult -> Prop :=
| cr_name : cg_name q = "" ->
    create_refused q s reliable (group_error "EMPTY_NAME" "Group name must not be empty")
| cr_creator : cg_name q <> "" -> cg_creator_uid q = "" ->
    create_refused q s reliable (group_error "EMPTY_CREATOR" "Creator UID must not be empty")
| cr_not_found : (reliable -> ~ user_exists s (cg_creator_uid q)) ->
    create_refused q s reliable (group_error "CREATOR_NOT_FOUND" "Creator user does not exist")
| cr_persist t : (reliable -> exists g m s1,
      inserted (new_group (cg_name q) (cg_creator_uid q) t) g s s1 /\
      m ∈ im_group_members s /\ m_group_id m = g_group_id g) ->
    create_refused q s reliable (group_error "PERSIST_FAILED" "Failed to persist group with owner").

Inductive join_refused (gid : Z) (uid : string) (s : Schema) (reliable : Prop) : GroupResult -> Prop :=
| jr_group : (reliable -> ~ has_group s gid) ->
    join_refused gid uid s reliable (group_error "GROUP_NOT_FOUND" "Group not found")
| jr_uid : has_group s gid -> uid = "" ->
    join_refused gid uid s reliable (group_error "EMPTY_UID" "User UID must not be empty")
| jr_user : has_group s gid -> (reliable -> ~ user_exists s uid) ->
    join_refused gid uid s reliable (group_error "USER_NOT_FOUND" "User does not exist")
| jr_member : has_member s gid uid ->
    join_refused gid uid s reliable (group_error "ALREADY_MEMBER" "User is already a member of this group")
| jr_persist : (reliable -> False) ->
    join_refused gid uid s reliable (group_error "PERSIST_FAILED" "Failed to add member").

Inductive leave_refused (gid : Z) (uid : string) (s : Schema) (reliable : Prop) : GroupResult -> Prop :=
| lr_group : (reliable -> ~ has_group s gid) ->
    leave_refused gid uid s reliable (group_error "GROUP_NOT_FOUND" "Group not found")
| lr_member : has_group s gid -> (reliable -> ~ has_member s gid uid) ->
    leave_refused gid uid s reliable (group_error "NOT_MEMBER" "User is not a member of this group")
| lr_owner m : m ∈ im_group_members s -> is_member_row gid uid m = true -> m_role m = OWNER ->
    leave_refused gid uid s reliable
      (group_error "OWNER_CANNOT_LEAVE" "Owner cannot leave the group; transfer ownership first")
| lr_remove : (reliable -> False) ->
    leave_refused gid uid s reliable (group_error "REMOVE_FAILED" "Failed to remove member").

Inductive send_refused (gid : Z) (uid : string) (s : Schema) (reliable : Prop) : GroupSendResult -> Prop :=
| sr_group : gid = 0 -> send_refused gid uid s reliable (send_error "INVALID_GROUP" "Invalid group id")
| sr_sender : gid <> 0 -> uid = "" ->
    send_refused gid uid s reliable (send_error "EMPTY_SENDER" "Sender uid is empty")
| sr_not_found : (reliable -> ~ has_group s gid) ->
    send_refused gid uid s reliable (send_error "GROUP_NOT_FOUND" "Group not found")
| sr_forbidden : has_group s gid -> (reliable -> ~ has_member s gid uid) ->
    send_refused gid uid s reliable (send_error "FORBIDDEN" "Not a member of this group")
| sr_store : (reliable -> False) ->
    send_refused gid uid s reliable (send_error "STORE_FAILED" "Failed to store message").

(** The entries of the lists. *)
Definition member_entry (s : Schema) (reliable : Prop) (m : GroupMember) (i : MemberInfoDTO) : Prop :=
  mi_id i = m_id m /\ mi_user_uid i = m_user_uid m /\ mi_role i = m_role m /\
  mi_joined_at i = m_joined_at m /\ nickname_of (m_user_uid m) s reliable (mi_nickname i).

Definition message_entry (s : Schema) (reliable : Prop) (m : GroupMessage) (i : GroupMessageDTO) : Prop :=
  gd_msg_id i = gm_id m /\ gd_sender_uid i = gm_sender_uid m /\ gd_content i = gm_content m /\
  gd_created_at i = gm_created_at m /\ nickname_of (gm_sender_uid m) s reliable (gd_sender_nickname i).

Definition members_of (s : Schema) (gid : Z) : list GroupMember :=
  filter (fun m => m_group_id m = gid) (im_group_members s).

Definition group_entry (s : Schema) (reliable : Prop) (g : Group) (i : GroupInfoDTO) : Prop :=
  gi_group_id i = g_group_id g /\ gi_name i = g_name g /\ gi_creator_uid i = g_creator_uid g /\
  gi_created_at i = g_created_at g /\
  (reliable -> gi_member_count i = i32 (zlen (members_of s (g_group_id g)))).

Section Lemmas.
Context {DB : Type} `{OdbReliable DB}.

Lemma profile_exists uid (d d' : DB) r : get_profile_by_uid uid d = (d', r) ->
  (healthy d -> healthy d') /\ view d' = view d /\ exists o, r = Ok o /\
    match o with
    | Some _ => user_exists (view d) uid
    | None => healthy d -> ~ user_exists (view d) uid
    end.
Proof.
  intros E. apply get_profile_by_uid_inv in E as (Hd & Hv & o & -> & Ho). split_and!; try done.
  exists (to_profile <$> o). split; [done|]. destruct o as [u|]; simpl.
  - by exists u.
  - intros Hh (u & Hu & Hi). by apply (Ho Hh u).
Qed.

Lemma group_found gid (d d' : DB) r : find_group_by_id gid d = (d', r) ->
  (healthy d -> healthy d') /\ view d' = view d /\ exists o, r = Ok o /\
    match o with Some g => g ∈ im_groups (view d) /\ g_group_id g = gid | None => healthy d -> ~ has_group (view d) gid end.
Proof.
  intros E. apply find_group_spec in E as (Hd & Hv & o & -> & Ho). split_and!; try done. exists o.
  split; [done|]. destruct o as [g|]; [done|]. intros Hh (g & Hg & Hi). by apply (Ho Hh g).
Qed.

Lemma member_found gid uid (d d' : DB) r : find_member gid uid d = (d', r) ->
  (healthy d -> healthy d') /\ view d' = view d /\ exists o, r = Ok o /\
    match o with
    | Some m => m ∈ im_group_members (view d) /\ is_member_row gid uid m = true
    | None => healthy d -> ~ has_member (view d) gid uid
    end.
Proof.
  intros E. apply find_member_spec in E as (Hd & Hv & o & -> & Ho). split_and!; try done. exists o.
  split; [done|]. destruct o as [m|]; [done|]. intros Hh (m & Hm & Hi). by rewrite (Ho Hh m Hm) in Hi.
Qed.

Lemma create_group_inv clock q (d d' : DB) r : create_group clock q d = (d', r) ->
  (healthy d -> healthy d') /\ exists res, r = Ok res /\
  ((view d' = view d /\ create_refused q (view d) (healthy d) res) \/
   (cg_name q <> "" /\ cg_creator_uid q <> "" /\ user_exists (view d) (cg_creator_uid q) /\
    exists g m s1 t, t = (if 0 <? cg_now_ms q then cg_now_ms q else clock) /\
      res = group_ok "Group created" (g_group_id g) /\
      inserted (new_group (cg_name q) (cg_creator_uid q) t) g (view d) s1 /\
      inserted (new_member (g_group_id g) (cg_creator_uid q) OWNER t) m s1 (view d'))).
Proof.
  unfold create_group. intros E.
  destruct (String.eqb_spec (cg_name q) "") as [|Hn].
  { odb_inv. split; [done|]. eexists; split; [done|]. left. split; [done|]. by constructor. }
  destruct (String.eqb_spec (cg_creator_uid q) "") as [|Hc].
  { odb_inv. split; [done|]. eexists; split; [done|]. left. split; [done|]. by constructor. }
  run_inv E; apply profile_exists in E0 as (Hd & Hv & o & Hr & Ho); [done|]. simplify_eq.
  destruct o as [p|].
  2: { odb_inv. split; [done|]. eexists; split; [done|]. left. split; [done|]. by constructor. }
  run_inv E; apply create_with_owner_spec in E0 as (Hd2 & o & Hr & Hi); [done|]. simplify_eq.
  rewrite Hv in Hi. destruct o as [i|]; unfold ret in E; simplify_eq; (split; [by auto|]); (eexists; split; [done|]).
  - right. split_and!; try done. destruct Hi as (g & m & s1 & <- & Hg & Hm). exists g, m, s1. eauto.
  - left. destruct Hi as [Hv2 Hi]. split; [done|]. eapply cr_persist. intros Hh. apply Hi. auto.
Qed.

Lemma join_group_inv clock gid uid t (d d' : DB) r : join_group clock gid uid t d = (d', r) ->
  (healthy d -> healthy d') /\ exists res, r = Ok res /\
  ((view d' = view d /\ join_refused gid uid (view d) (healthy d) res) \/
   (uid <> "" /\ has_group (view d) gid /\ user_exists (view d) uid /\ res = group_ok "Joined group" 0 /\
    exists m, inserted (new_member gid uid MEMBER (if 0 <? t then t else clock)) m (view d) (view d'))).
Proof.
  unfold join_group. intros E.
  run_inv E; apply group_found in E0 as (Hd & Hv & o & Hr & Ho); [done|]. simplify_eq.
  destruct o as [g|].
  2: { odb_inv. split; [done|]. eexists; split; [done|]. left. split; [done|]. by constructor. }
  assert (Hg : has_group (view d) gid) by by exists g.
  destruct (String.eqb_spec uid "") as [|Hne].
  { odb_inv. split; [done|]. eexists; split; [done|]. left. split; [done|]. by constructor. }
  run_inv E; apply profile_exists in E0 as (Hd2 & Hv2 & o & Hr & Hu); [done|]. simplify_eq. rewrite Hv in Hu.
  destruct o as [p|]; [|unfold ret in E; simplify_eq; split; [by auto|]; eexists; split; [done|]; left;
    split; [congruence|]; constructor; auto].
  run_inv E; apply member_found in E0 as (Hd3 & Hv3 & o & Hr & Hm); [done|]. simplify_eq. rewrite Hv2, Hv in Hm.
  destruct o as [m|]; [unfold ret in E; simplify_eq; split; [by auto|]; eexists; split; [done|]; left;
    split; [congruence|]; constructor; by exists m|].
  run_inv E; apply add_member_spec in E0 as (Hd4 & b & Hr & Hb); [done|]. simplify_eq.
  rewrite Hv3, Hv2, Hv in Hb.
  destruct b; unfold ret in E; simpl in E; simplify_eq; (split; [by auto|]); (eexists; split; [done|]).
  - right. by split_and!.
  - left. destruct Hb as [Hv4 Hb]. split; [done|]. apply jr_persist. intros Hh.
    destruct Hb as (q & Hq & Hqv); [by auto|]. apply eqb2_true in Hqv as [Hq1 Hq2].
    apply Hm; [by auto|]. exists q. split; [done|]. by apply member_row_true.
Qed.

Lemma leave_group_inv gid uid (d d' : DB) r : leave_group gid uid d = (d', r) ->
  (healthy d -> healthy d') /\ exists res, r = Ok res /\
  ((view d' = view d /\ leave_refused gid uid (view d) (healthy d) res) \/
   (exists m l, m ∈ im_group_members (view d) /\ is_member_row gid uid m = true /\ m_role m <> OWNER /\
    res = group_ok "Left group" 0 /\
    l ≡ₚ filter (fun m => negb (is_member_row gid uid m)) (im_group_members (view d)) /\
    view d' = set_members l (view d))).
Proof.
  unfold leave_group. intros E.
  run_inv E; apply group_found in E0 as (Hd & Hv & o & Hr & Ho); [done|]. simplify_eq.
  destruct o as [g|].
  2: { odb_inv. split; [done|]. eexists; split; [done|]. left. split; [done|]. by constructor. }
  assert (Hg : has_group (view d) gid) by by exists g.
  run_inv E; apply member_found in E0 as (Hd3 & Hv3 & o & Hr & Hm); [done|]. simplify_eq. rewrite Hv in Hm.
  destruct o as [m|]; [|unfold ret in E; simplify_eq; split; [by auto|]; eexists; split; [done|]; left;
    split; [congruence|]; constructor; auto].
  destruct Hm as [Hm Hrow]. destruct (bool_decide (m_role m = OWNER)) eqn:Er;
    [apply bool_decide_eq_true in Er|apply bool_decide_eq_false in Er].
  { unfold ret in E. simplify_eq. split; [by auto|]. eexists. split; [done|]. left. split; [congruence|].
    by eapply lr_owner. }
  run_inv E; apply remove_member_spec in E0 as (Hd4 & b & Hr & Hb); [done|]. simplify_eq. rewrite Hv3, Hv in Hb.
  destruct b; unfold ret in E; simpl in E; simplify_eq; (split; [by auto|]); (eexists; split; [done|]).
  - right. destruct Hb as (l & Hl & Hs). by exists m, l.
  - left. destruct Hb as [Hv4 Hb]. split; [done|]. apply lr_remove. intros Hh. auto.
Qed.
End Lemmas.

Section MoreLemmas.
Context {DB : Type} `{OdbReliable DB}.

Lemma member_info_spec m (d d' : DB) r : member_info m d = (d', r) ->
  (healthy d -> healthy d') /\ view d' = view d /\
  exists i, r = Ok i /\ member_entry (view d) (healthy d) m i.
Proof.
  unfold member_info. intros E. run_inv E; apply nickname_spec in E0 as (Hd & Hv & nick & Hr & Hn); [done|].
  simplify_eq. unfold ret in E. simplify_eq. split_and!; try done. eexists. split; [done|]. by split_and!.
Qed.

Lemma message_info_spec m (d d' : DB) r : message_info m d = (d', r) ->
  (healthy d -> healthy d') /\ view d' = view d /\
  exists i, r = Ok i /\ message_entry (view d) (healthy d) m i.
Proof.
  unfold message_info. intros E. run_inv E; apply nickname_spec in E0 as (Hd & Hv & nick & Hr & Hn); [done|].
  simplify_eq. unfold ret in E. simplify_eq. split_and!; try done. eexists. split; [done|]. by split_and!.
Qed.

Lemma group_info_spec g (d d' : DB) r : group_info g d = (d', r) ->
  (healthy d -> healthy d') /\ view d' = view d /\
  exists i, r = Ok i /\ group_entry (view d) (healthy d) g i.
Proof.
  unfold group_info. intros E. run_inv E; apply find_members_spec in E0 as (Hd & Hv & l & Hr & _ & Hl); [done|].
  simplify_eq. unfold ret in E. simplify_eq. split_and!; try done. eexists. split; [done|].
  split_and!; try done. intros Hh. simpl. unfold zlen, members_of. by rewrite (Hl Hh).
Qed.

Lemma entries_weaken s (P P' : Prop) : (P' -> P) ->
  (forall m i, member_entry s P m i -> member_entry s P' m i) /\
  (forall m i, message_entry s P m i -> message_entry s P' m i) /\
  (forall g i, group_entry s P g i -> group_entry s P' g i).
Proof.
  intros HP. split_and!; intros x i (? & ? & ? & ? & Hn); split_and!; try done;
    [by eapply nickname_weaken..|by auto].
Qed.

(** The members a group's list shows: to its members all of them, to others nothing. *)
Lemma list_members_inv gid uid (d d' : DB) r : list_members gid uid d = (d', r) ->
  (healthy d -> healthy d') /\ view d' = view d /\ exists l, r = Ok l /\
  ((l = [] /\ (healthy d -> ~ has_group (view d) gid \/ ~ has_member (view d) gid uid)) \/
   (has_group (view d) gid /\ has_member (view d) gid uid /\ exists ms,
      (healthy d -> ms ≡ₚ members_of (view d) gid) /\ (forall m, m ∈ ms -> m ∈ members_of (view d) gid) /\
      Forall2 (member_entry (view d) (healthy d)) ms l)).
Proof.
  unfold list_members. intros E.
  run_inv E; apply group_found in E0 as (Hd & Hv & o & Hr & Ho); [done|]. simplify_eq.
  destruct o as [g|].
  2: { odb_inv. split_and!; try done. exists []. split; [done|]. auto. }
  assert (Hg : has_group (view d) gid) by by exists g.
  run_inv E; apply member_found in E0 as (Hd3 & Hv3 & o & Hr & Hm); [done|]. simplify_eq. rewrite Hv in Hm.
  destruct o as [m|].
  2: { unfold ret in E. simplify_eq. split_and!; [by auto|congruence|]. exists []. split; [done|]. left. auto. }
  run_inv E; apply find_members_spec in E0 as (Hd4 & Hv4 & ms & Hr & Hin & Hms); [done|]. simplify_eq.
  apply (exec_map_spec _ member_entry) in E as (Hd5 & Hv5 & l & -> & Hl).
  - rewrite Hv4, Hv3, Hv in Hl. rewrite Hv3, Hv in Hms, Hin.
    split_and!; [by auto|congruence|]. exists l. split; [done|]. right. split_and!; [done|by exists m|].
    exists ms. split_and!; [by auto| |].
    + intros x Hx. destruct (Hin x Hx). by apply list_elem_of_filter.
    + eapply Forall2_impl; [exact Hl|]. apply entries_weaken. auto.
  - intros x d5 d6 r5. apply member_info_spec.
  - intros s P P' x y HP. by apply (entries_weaken s P P' HP).
Qed.

Lemma group_exists_spec gid (d d' : DB) r : group_exists gid d = (d', r) ->
  (healthy d -> healthy d') /\ view d' = view d /\ exists b, r = Ok b /\
    if b then has_group (view d) gid else healthy d -> ~ has_group (view d) gid.
Proof.
  unfold group_exists. intros E. run_inv E; apply group_found in E0 as (Hd & Hv & o & Hr & Ho); [done|].
  unfold ret in E. simplify_eq. split_and!; try done. eexists. split; [done|].
  destruct o as [g|]; simpl; [by exists g|done].
Qed.

Lemma send_message_inv gid uid content t (d d' : DB) r : send_message gid uid content t d = (d', r) ->
  (healthy d -> healthy d') /\ exists res, r = Ok res /\
  ((view d' = view d /\ send_refused gid uid (view d) (healthy d) res) \/
   (gid <> 0 /\ uid <> "" /\ has_group (view d) gid /\ has_member (view d) gid uid /\
    exists m, inserted (new_message gid uid content t) m (view d) (view d') /\
      res = {| gs_ok := true; gs_error_code := ""; gs_message := "Message sent"; gs_msg_id := gm_id m |})).
Proof.
  unfold send_message. intros E.
  destruct (gid =? 0) eqn:Eg; zbool.
  { odb_inv. split; [done|]. eexists; split; [done|]. left. split; [done|]. by constructor. }
  destruct (String.eqb_spec uid "") as [|Hne].
  { odb_inv. split; [done|]. eexists; split; [done|]. left. split; [done|]. by constructor. }
  run_inv E; apply group_exists_spec in E0 as (Hd & Hv & b & Hr & Hg); [done|]. simplify_eq.
  destruct b; simpl in E.
  2: { unfold ret in E. simplify_eq. split; [by auto|]. eexists; split; [done|]. left. split; [done|]. by constructor. }
  run_inv E; apply list_members_inv in E0 as (Hd2 & Hv2 & l & Hr & Hl); [done|]. simplify_eq. rewrite Hv in Hl.
  destruct l as [|i l].
  - unfold ret in E. simplify_eq. split; [by auto|]. eexists. split; [done|]. left. split; [congruence|].
    apply sr_forbidden; [done|]. intros Hh Hm. specialize (Hd Hh).
    destruct Hl as [[_ Hl]|(_ & _ & ms & Hms & _ & Hf)]; [by destruct (Hl Hd)|].
    inversion Hf; subst. specialize (Hms Hd). apply Permutation_nil in Hms.
    destruct Hm as (m & Hm & Hrow). apply member_row_true in Hrow as [Hrow _].
    apply (not_elem_of_nil m). rewrite <- Hms. by apply list_elem_of_filter.
  - destruct Hl as [[? _]|(_ & Hm & _)]; [done|].
    run_inv E; apply create_message_spec in E0 as (Hd3 & o & Hr & Hi); [done|]. simplify_eq.
    rewrite Hv2, Hv in Hi.
    destruct o as [n|]; unfold ret in E; simplify_eq; (split; [by auto|]); (eexists; split; [done|]).
    + right. destruct Hi as (m & <- & Hi). split_and!; try done. by exists m.
    + left. destruct Hi as [Hv3 Hi]. split; [done|]. apply sr_store. auto.
Qed.

(** The history of a group: the newest messages before a time, newest first. *)
Lemma get_history_inv gid before limit (d d' : DB) r : get_history gid before limit d = (d', r) ->
  (healthy d -> healthy d') /\ view d' = view d /\ exists ms l, r = Ok l /\
  (newest gid before limit (view d) ms \/ (ms = [] /\ (healthy d -> limit < 0))) /\
  Forall2 (message_entry (view d) (healthy d)) ms l.
Proof.
  unfold get_history. intros E.
  run_inv E; apply find_by_group_spec in E0 as (Hd & Hv & ms & Hr & Hms); [done|]. simplify_eq.
  apply (exec_map_spec _ message_entry) in E as (Hd5 & Hv5 & l & -> & Hl).
  - rewrite Hv in Hl. split_and!; [by auto|congruence|]. exists ms, l. split_and!; [done|done|].
    eapply Forall2_impl; [exact Hl|]. apply entries_weaken. auto.
  - intros x d5 d6 r5. apply message_info_spec.
  - intros s P P' x y HP. by apply (entries_weaken s P P' HP).
Qed.

(** The groups of a user. *)
Lemma exec_map_groups gids (d d' : DB) r : exec_map find_group_by_id gids d = (d', r) ->
  (healthy d -> healthy d') /\ view d' = view d /\ exists os, r = Ok os /\
  Forall2 (fun gid o => match o with
    | Some g => g ∈ im_groups (view d) /\ g_group_id g = gid
    | None => healthy d -> ~ has_group (view d) gid end) gids os.
Proof.
  intros E. apply (exec_map_spec _ (fun s P gid o => match o with
    | Some g => g ∈ im_groups s /\ g_group_id g = gid | None => P -> ~ has_group s gid end)) in E; [done| |].
  - intros x d5 d6 r5. apply group_found.
  - intros s P P' x [g|] HP; auto.
Qed.

Lemma find_groups_by_user_spec uid (d d' : DB) r : find_groups_by_user uid d = (d', r) ->
  (healthy d -> healthy d') /\ view d' = view d /\ exists gs, r = Ok gs /\
  (forall g, g ∈ gs -> g ∈ im_groups (view d) /\ has_member (view d) (g_group_id g) uid) /\
  (healthy d -> forall gid, has_member (view d) gid uid -> has_group (view d) gid ->
     exists g, g ∈ gs /\ g_group_id g = gid).
Proof.
  unfold find_groups_by_user. intros E.
  assert (Hids : forall d d' r, guarded (let* mr := query (fun m => String.eqb (m_user_uid m) uid) None in
      ret (Commit (map m_group_id mr))) [] d = (d', r) ->
    (healthy d -> healthy d') /\ view d' = view d /\ exists gids, r = Ok gids /\
    (forall gid, gid ∈ gids -> has_member (view d) gid uid) /\
    (healthy d -> forall gid, has_member (view d) gid uid -> gid ∈ gids)).
  { clear E d d' r. intros d d' r E.
    eapply (guarded_read _ (fun s gids => forall gid, gid ∈ gids <-> has_member s gid uid) (fun _ => False)) in E
      as (Hd & gids & -> & Hv & Hg).
    - split_and!; try done. exists gids. split; [done|].
      destruct Hg as [Hg|[-> Hf]]; [split; [|intros _]; apply Hg|].
      split; [by intros gid ?%elem_of_nil|by intros ?%Hf].
    - body_cases; [done|]. split; [done|]. intros gid.
      rewrite list_elem_of_fmap. unfold has_member. setoid_rewrite member_row_true.
      match goal with H : forall x, x ∈ a <-> _ |- _ => setoid_rewrite H end.
      setoid_rewrite String.eqb_eq. split; intros (m & Hm); exists m; intuition congruence. }
  run_inv E; apply Hids in E0 as (Hd & Hv & gids & Hr & Hin & Hall); [done|]. simplify_eq.
  run_inv E; apply exec_map_groups in E0 as (Hd2 & Hv2 & os & Hr & Hos); [done|]. unfold ret in E. simplify_eq.
  rewrite Hv in Hos. split_and!; [by auto|congruence|]. eexists. split; [done|]. split.
  - intros g Hg. apply list_elem_of_omap in Hg as ([x|] & Ho & [= ->]).
    apply list_elem_of_lookup in Ho as [k Hk]. destruct (Forall2_lookup_r _ _ _ _ _ Hos Hk) as (gid & Hgid & Hg & <-).
    split; [done|]. apply Hin. by eapply list_elem_of_lookup_2.
  - intros Hh gid Hm Hg. apply (Hall Hh), list_elem_of_lookup in Hm as [k Hk].
    destruct (Forall2_lookup_l _ _ _ _ _ Hos Hk) as ([g|] & Ho & Hx); [|by destruct (Hx (Hd Hh) Hg)].
    exists g. destruct Hx as [_ Hx]. split; [|done]. apply list_elem_of_omap. exists (Some g).
    split; [by eapply list_elem_of_lookup_2|done].
Qed.

Lemma list_my_groups_inv uid (d d' : DB) r : list_my_groups uid d = (d', r) ->
  (healthy d -> healthy d') /\ view d' = view d /\ exists gs l, r = Ok l /\
  (forall g, g ∈ gs -> g ∈ im_groups (view d) /\ has_member (view d) (g_group_id g) uid) /\
  (healthy d -> forall gid, has_member (view d) gid uid -> has_group (view d) gid ->
     exists g, g ∈ gs /\ g_group_id g = gid) /\
  Forall2 (group_entry (view d) (healthy d)) gs l.
Proof.
  unfold list_my_groups. intros E.
  run_inv E; apply find_groups_by_user_spec in E0 as (Hd & Hv & gs & Hr & Hin & Hall); [done|]. simplify_eq.
  apply (exec_map_spec _ group_entry) in E as (Hd5 & Hv5 & l & -> & Hl).
  - rewrite Hv in Hl. split_and!; [by auto|congruence|]. exists gs, l. split_and!; [done|done|done|].
    eapply Forall2_impl; [exact Hl|]. apply entries_weaken. auto.
  - intros x d5 d6 r5. apply group_info_spec.
  - intros s P P' x y HP. by apply (entries_weaken s P P' HP).
Qed.
End MoreLemmas.

(** * Requests and the abstract transitions they refine *)

Inductive GroupCall :=
| CreateGroup (clock : Z) (q : CreateGroupRequest)
| JoinGroup (clock gid : Z) (uid : string) (t : Z)
| LeaveGroup (gid : Z) (uid : string)
| ListMyGroups (uid : string)
| ListMembers (gid : Z) (uid : string)
| SendGroupMessage (gid : Z) (uid content : string) (t : Z)
| GetHistory (gid before limit : Z).

Definition run_group {DB} `{Odb DB} (c : GroupCall) : exec DB unit :=
  match c with
  | CreateGroup clock q => let* _ := create_group clock q in ret tt
  | JoinGroup clock g u t => let* _ := join_group clock g u t in ret tt
  | LeaveGroup g u => let* _ := leave_group g u in ret tt
  | ListMyGroups u => let* _ := list_my_groups u in ret tt
  | ListMembers g u => let* _ := list_members g u in ret tt
  | SendGroupMessage g u c t => let* _ := send_message g u c t in ret tt
  | GetHistory g b l => let* _ := get_history g b l in ret tt
  end.

(** A request changes the three group tables in one of these ways, and nothing else. *)
Inductive group_change (s s' : Schema) : Prop :=
| gc_none : s' = s -> group_change s s'
| gc_create name creator t g m s1 : name <> "" -> creator <> "" -> user_exists s creator ->
    inserted (new_group name creator t) g s s1 ->
    inserted (new_member (g_group_id g) creator OWNER t) m s1 s' -> group_change s s'
| gc_join gid uid t m : uid <> "" -> has_group s gid -> user_exists s uid ->
    inserted (new_member gid uid MEMBER t) m s s' -> group_change s s'
| gc_leave gid uid m l : m ∈ im_group_members s -> is_member_row gid uid m = true -> m_role m <> OWNER ->
    l ≡ₚ filter (fun m => negb (is_member_row gid uid m)) (im_group_members s) ->
    s' = set_members l s -> group_change s s'
| gc_message gid uid content t m : uid <> "" -> has_group s gid -> has_member s gid uid ->
    inserted (new_message gid uid content t) m s s' -> group_change s s'.

(** Well-formed groups: rows are apart; a member row joins an existing group and an existing
    user as OWNER or MEMBER; the creator of a group is its member, and its only owner; a
    message belongs to an existing group and an existing user.  [pending] are the creators
    whose row is still to be inserted. *)
Record groups_wf_but (pending : Z -> string -> Prop) (s : Schema) : Prop := {
  wf_groups : pairwise conflict (im_groups s);
  wf_rows : pairwise conflict (im_group_members s);
  wf_messages : pairwise conflict (im_group_messages s);
  wf_member m : m ∈ im_group_members s ->
    has_group s (m_group_id m) /\ m_user_uid m <> "" /\ user_exists s (m_user_uid m) /\
    (m_role m = OWNER \/ m_role m = MEMBER);
  wf_owner g m : g ∈ im_groups s -> m ∈ im_group_members s -> m_group_id m = g_group_id g ->
    (m_role m = OWNER <-> m_user_uid m = g_creator_uid g);
  wf_creator g : g ∈ im_groups s -> has_member s (g_group_id g) (g_creator_uid g) \/
    pending (g_group_id g) (g_creator_uid g);
  wf_message x : x ∈ im_group_messages s ->
    has_group s (gm_group_id x) /\ gm_sender_uid x <> "" /\ user_exists s (gm_sender_uid x)
}.
Definition groups_wf : Schema -> Prop := groups_wf_but (fun _ _ => False).

Lemma inserted_group g g' s s' : inserted g g' s s' ->
  g_name g' = g_name g /\ g_creator_uid g' = g_creator_uid g /\
  (forall q, q ∈ im_groups s -> g_group_id q <> g_group_id g') /\
  exists l, l ≡ₚ g' :: im_groups s /\ s' = set_groups l s.
Proof.
  intros ((i & _ & ->) & Hc & l & ? & ->). split_and!; try done; [|eauto].
  intros q Hq. specialize (Hc q Hq). apply conflict_false in Hc as [Hc _]. intros He. by apply Hc.
Qed.

Lemma inserted_member m m' s s' : inserted m m' s s' ->
  m_group_id m' = m_group_id m /\ m_user_uid m' = m_user_uid m /\ m_role m' = m_role m /\
  (forall q, q ∈ im_group_members s -> is_member_row (m_group_id m) (m_user_uid m) q = false) /\
  exists l, l ≡ₚ m' :: im_group_members s /\ s' = set_members l s.
Proof.
  intros ((i & _ & ->) & Hc & l & ? & ->). split_and!; try done; [|eauto].
  intros q Hq. specialize (Hc q Hq). apply conflict_false in Hc as [_ Hc]. apply member_row_false.
  intros [Hg Hu]. apply not_true_iff_false in Hc. apply Hc, eqb2_true. by rewrite Hg, Hu.
Qed.

Lemma inserted_message m m' s s' : inserted m m' s s' ->
  gm_group_id m' = gm_group_id m /\ gm_sender_uid m' = gm_sender_uid m /\
  exists l, l ≡ₚ m' :: im_group_messages s /\ s' = set_group_messages l s.
Proof. intros ((i & _ & ->) & _ & l & ? & ->). split_and!; try done. eauto. Qed.

(** Facts about a database that has at least the groups and users of another. *)
Lemma has_group_mono s s' : (forall g, g ∈ im_groups s -> g ∈ im_groups s') ->
  forall gid, has_group s gid -> has_group s' gid.
Proof. intros Hin gid (g & Hg & ?). exists g. auto. Qed.

Lemma user_exists_eq s s' uid : im_users s' = im_users s -> user_exists s uid -> user_exists s' uid.
Proof. unfold user_exists. by intros ->. Qed.

(** A new group, before its owner. *)
Lemma insert_group_wf name creator t g s s' :
  groups_wf s -> inserted (new_group name creator t) g s s' ->
  groups_wf_but (fun i u => i = g_group_id g /\ u = creator) s' /\ has_group s' (g_group_id g) /\
  (forall x, x ∈ im_groups s' -> g_group_id x = g_group_id g -> g_creator_uid x = creator) /\
  im_users s' = im_users s.
Proof.
  intros [Hpg Hpm Hpx Hm Ho Hc Hx] Hi.
  pose proof (inserted_pairwise _ _ _ _ Hi Hpg) as Hpg'.
  pose proof (fun x => inserted_elem _ _ _ _ x Hi) as Hel.
  pose proof (inserted_group _ _ _ _ Hi) as (_ & Hgc & Hfresh & l & _ & Hs).
  simpl in Hgc, Hel, Hpg'.
  assert (Hold : forall i, has_group s i -> has_group s' i).
  { apply has_group_mono. intros x Hxin. apply Hel. by right. }
  assert (Hms : im_group_members s' = im_group_members s) by by rewrite Hs.
  assert (Hus : im_users s' = im_users s) by by rewrite Hs.
  split_and!; [|exists g; split; [apply Hel; by left|done]| |done].
  - split; rewrite ?Hms; try done.
    + by rewrite Hs.
    + intros m Hin. destruct (Hm m Hin) as (? & ? & ? & ?). split_and!; eauto using user_exists_eq.
    + intros x m [->|Hxin]%Hel Hin He; [|by apply Ho]. destruct (Hm m Hin) as ((z & Hz & Hze) & _).
      destruct (Hfresh z Hz). congruence.
    + intros x [->|Hxin]%Hel; [by right|left]. destruct (Hc x Hxin) as [(m & ? & ?)|[]].
      exists m. by rewrite Hms.
    + intros x. rewrite Hs. intros Hin. destruct (Hx x Hin) as (? & ? & ?).
      rewrite <- Hs. split_and!; eauto using user_exists_eq.
  - intros x [->|Hxin]%Hel He; [done|]. by destruct (Hfresh x Hxin).
Qed.

(** A new member of a group. *)
Lemma insert_member_wf P gid uid role t m s s' :
  groups_wf_but P s -> inserted (new_member gid uid role t) m s s' ->
  (forall i u, P i u -> i = gid /\ u = uid) ->
  has_group s gid -> uid <> "" -> user_exists s uid -> role = OWNER \/ role = MEMBER ->
  (forall g, g ∈ im_groups s -> g_group_id g = gid -> (role = OWNER <-> uid = g_creator_uid g)) ->
  groups_wf s'.
Proof.
  intros [Hpg Hpm Hpx Hm Ho Hc Hx] Hi HP Hg Hne Hu Hrole Hown.
  pose proof (inserted_pairwise _ _ _ _ Hi Hpm) as Hpm'.
  pose proof (fun x => inserted_elem _ _ _ _ x Hi) as Hel.
  pose proof (inserted_member _ _ _ _ Hi) as (Hmg & Hmu & Hmr & _ & l & _ & Hs).
  simpl in Hmg, Hmu, Hmr, Hel, Hpm'.
  assert (Hgs : im_groups s' = im_groups s) by by rewrite Hs.
  assert (Hus : im_users s' = im_users s) by by rewrite Hs.
  assert (Hxs : im_group_messages s' = im_group_messages s) by by rewrite Hs.
  assert (Hold : forall i, has_group s i -> has_group s' i) by (apply has_group_mono; by rewrite Hgs).
  split; rewrite ?Hgs, ?Hxs; try done.
  - intros x [->|Hin]%Hel.
    + rewrite Hmg, Hmu, Hmr. split_and!; eauto using user_exists_eq.
    + destruct (Hm x Hin) as (? & ? & ? & ?). split_and!; eauto using user_exists_eq.
  - intros g x Hgin [->|Hin]%Hel Hgx; [|by apply Ho]. rewrite Hmr, Hmu. apply Hown; [done|congruence].
  - intros g Hgin. left. destruct (Hc g Hgin) as [(x & Hin & Hrow)|[Hi1 Hi2]%HP].
    + exists x. split; [apply Hel; by right|done].
    + exists m. split; [apply Hel; by left|]. apply member_row_true. split; congruence.
  - intros x Hin. destruct (Hx x Hin) as (? & ? & ?). split_and!; eauto using user_exists_eq.
Qed.

(** A member who is not the owner leaves. *)
Lemma leave_wf gid uid m l s : groups_wf s ->
  m ∈ im_group_members s -> is_member_row gid uid m = true -> m_role m <> OWNER ->
  l ≡ₚ filter (fun m => negb (is_member_row gid uid m)) (im_group_members s) ->
  groups_wf (set_members l s).
Proof.
  intros [Hpg Hpm Hpx Hm Ho Hc Hx] Hin Hrow Hrole Hl.
  assert (Hel : forall x, x ∈ l <-> x ∈ im_group_members s /\ is_member_row gid uid x = false).
  { intros x. rewrite Hl, list_elem_of_filter, Is_true_true, negb_true_iff. tauto. }
  split; simpl; try done.
  - eapply pairwise_perm; [symmetry; exact Hl|]. apply pairwise_filter; [apply conflict_sym|done].
  - intros x [Hxin _]%Hel. by apply Hm.
  - intros g x Hg [Hxin _]%Hel. by apply Ho.
  - intros g Hg. left. destruct (Hc g Hg) as [(x & Hxin & Hxr)|[]]. exists x. split; [|done].
    apply Hel. split; [done|]. apply member_row_true in Hxr as [Hxg Hxu]. apply member_row_false. intros [Hg1 Hu1].
    apply member_row_true in Hrow as [Hg2 Hu2]. apply Hrole, (Ho g); congruence.
Qed.

(** A message of a member. *)
Lemma send_wf gid uid content t m s s' : groups_wf s -> has_group s gid -> has_member s gid uid ->
  inserted (new_message gid uid content t) m s s' -> groups_wf s'.
Proof.
  intros [Hpg Hpm Hpx Hm Ho Hc Hx] Hg (q & Hq & Hrow) Hi.
  pose proof (inserted_pairwise _ _ _ _ Hi Hpx) as Hpx'.
  pose proof (fun x => inserted_elem _ _ _ _ x Hi) as Hel.
  pose proof (inserted_message _ _ _ _ Hi) as (Hmg & Hms & l & _ & Hs). simpl in Hmg, Hms, Hel, Hpx'.
  apply member_row_true in Hrow as [<- <-]. destruct (Hm q Hq) as (_ & Hne & Hu & _).
  split; [by rewrite Hs|by rewrite Hs|done|by rewrite Hs|by rewrite Hs|by rewrite Hs|].
  intros x [->|Hxin]%Hel; rewrite Hs; [by rewrite Hmg, Hms|]. by apply Hx.
Qed.

Lemma group_change_wf s s' : group_change s s' -> groups_wf s -> groups_wf s'.
Proof.
  intros Hc Hw.
  destruct Hc as [->|name cr t g m s1 Hn Hcne Hu Hg Hi|gid uid t m Hne Hg Hu Hi
                 |gid uid m l Hin Hrow Hrole Hl ->|gid uid c t m Hne Hg Hq Hi]; [done| | | |].
  - destruct (insert_group_wf _ _ _ _ _ _ Hw Hg) as (Hw1 & Hg1 & Hown & Hus).
    eapply insert_member_wf; [exact Hw1|exact Hi|by intros ? ? []|done|done| |by left|].
    + by eapply user_exists_eq.
    + intros x Hx He. by rewrite (Hown x Hx He).
  - eapply insert_member_wf; [exact Hw|exact Hi|done|done|done|done|by right|].
    intros g Hgin He. split; [done|]. intros Hcr. exfalso.
    destruct (wf_creator _ _ Hw g Hgin) as [(x & Hxin & Hrow)|[]].
    apply inserted_member in Hi as (_ & _ & _ & Hfree & _). simpl in Hfree.
    specialize (Hfree x Hxin). rewrite He, <- Hcr in Hrow. congruence.
  - by eapply leave_wf.
  - by eapply send_wf.
Qed.

(** Groups and messages are never removed or changed; only group tables are written. *)
Lemma group_change_keeps s s' : group_change s s' ->
  (forall g, g ∈ im_groups s -> g ∈ im_groups s') /\
  (forall x, x ∈ im_group_messages s -> x ∈ im_group_messages s') /\
  im_users s' = im_users s /\ im_friends s' = im_friends s /\ im_messages s' = im_messages s.
Proof.
  intros [->|name cr t g m s1 Hn Hcne Hu Hg Hi|gid uid t m Hne Hg Hu Hi
                 |gid uid m l Hin Hrow Hrole Hl ->|gid uid c t m Hne Hg Hq Hi]; [done| | |done|].
  - pose proof (inserted_member _ _ _ _ Hi) as (_ & _ & _ & _ & l & _ & ->).
    pose proof (fun x => inserted_elem _ _ _ _ x Hg) as Hel.
    pose proof (inserted_group _ _ _ _ Hg) as (_ & _ & _ & lg & _ & Hs).
    split_and!; [|by rewrite Hs..]. simpl in *. intros x Hx. apply Hel. by right.
  - by pose proof (inserted_member _ _ _ _ Hi) as (_ & _ & _ & _ & l & _ & ->).
  - pose proof (fun x => inserted_elem _ _ _ _ x Hi) as Hel.
    pose proof (inserted_message _ _ _ _ Hi) as (_ & _ & l & _ & Hs).
    split_and!; try by rewrite Hs. simpl in Hel. intros x Hx. apply Hel. by right.
Qed.

(** * Properties *)

(** The users of a group, as a set. *)
Definition members (s : Schema) (gid : Z) : gset string := list_to_set (map m_user_uid (members_of s gid)).

Lemma members_elem s gid uid : uid ∈ members s gid <-> has_member s gid uid.
Proof.
  unfold members, members_of, has_member. rewrite elem_of_list_to_set, list_elem_of_fmap.
  setoid_rewrite list_elem_of_filter. setoid_rewrite member_row_true.
  split; intros (m & Hm); exists m; intuition congruence.
Qed.

Section Properties.
Context {DB : Type} `{OdbReliable DB} `{Pbkdf2}.

Lemma run_group_change c (d d' : DB) r : run_group c d = (d', r) ->
  (healthy d -> healthy d') /\ group_change (view d) (view d').
Proof.
  intros E. destruct c as [k q|k g u t|g u|u|g u|g u c t|g b l]; simpl in E.
  - run_inv E; apply create_group_inv in E0 as (Hd & res & Hr & Hs); [done|]. odb_inv. split; [done|].
    destruct Hs as [[-> _]|(? & ? & ? & g & m & s1 & t & _ & _ & Hg & Hm)]; [by apply gc_none|].
    by eapply (gc_create _ _ (cg_name q) (cg_creator_uid q)).
  - run_inv E; apply join_group_inv in E0 as (Hd & res & Hr & Hs); [done|]. odb_inv. split; [done|].
    destruct Hs as [[-> _]|(? & ? & ? & _ & m & Hm)]; [by apply gc_none|]. by eapply gc_join.
  - run_inv E; apply leave_group_inv in E0 as (Hd & res & Hr & Hs); [done|]. odb_inv. split; [done|].
    destruct Hs as [[-> _]|(m & l & ? & ? & ? & _ & ? & ?)]; [by apply gc_none|]. by eapply gc_leave.
  - run_inv E; apply list_my_groups_inv in E0 as (? & Hv & _); odb_inv; split; try done; rewrite Hv; by apply gc_none.
  - run_inv E; apply list_members_inv in E0 as (? & Hv & _); odb_inv; split; try done; rewrite Hv; by apply gc_none.
  - run_inv E; apply send_message_inv in E0 as (Hd & res & Hr & Hs); [done|]. odb_inv. split; [done|].
    destruct Hs as [[-> _]|(? & ? & ? & ? & m & Hm & _)]; [by apply gc_none|]. by eapply gc_message.
  - run_inv E; apply get_history_inv in E0 as (? & Hv & _); odb_inv; split; try done; rewrite Hv; by apply gc_none.
Qed.

(** Runs of the group and the user services on one database: any requests, any faults. *)
Definition group_step (n : Z) (d d' : DB) : Prop :=
  (exists c r, run_group c d = (d', r)) \/ (exists c r, entropy_ok c /\ run_user n c d = (d', r)).

Lemma user_change_groups_wf n s s' : user_change n s s' -> pairwise conflict (im_users s) ->
  groups_wf s -> groups_wf s'.
Proof.
  intros Hc Hp [Hpg Hpm Hpx Hm Ho Hcr Hx]. destruct (user_change_keeps _ _ _ Hc Hp) as (_ & -> & Hk).
  split; try done.
  - intros m Hin. destruct (Hm m Hin) as (? & ? & ? & ?). split_and!; try done. by apply Hk.
  - intros x Hin. destruct (Hx x Hin) as (? & ? & ?). split_and!; try done. by apply Hk.
Qed.

Lemma group_runs_inv n (d d' : DB) : rtc (group_step n) d d' ->
  pairwise conflict (im_users (view d)) -> groups_wf (view d) ->
  pairwise conflict (im_users (view d')) /\ groups_wf (view d') /\
  (forall g, g ∈ im_groups (view d) -> g ∈ im_groups (view d')) /\
  (forall x, x ∈ im_group_messages (view d) -> x ∈ im_group_messages (view d')).
Proof.
  induction 1 as [d|d d1 d' Hs _ IH]; intros Hu Hw; [done|].
  assert (Hs1 : pairwise conflict (im_users (view d1)) /\ groups_wf (view d1) /\
    (forall g, g ∈ im_groups (view d) -> g ∈ im_groups (view d1)) /\
    (forall x, x ∈ im_group_messages (view d) -> x ∈ im_group_messages (view d1))).
  { destruct Hs as [(c & r & E)|(c & r & Hc & E)].
    - apply run_group_change in E as [_ E].
      destruct (group_change_keeps _ _ E) as (Hg & Hx & Hus & _). rewrite Hus.
      split_and!; try done. by eapply group_change_wf.
    - apply run_user_change in E as [_ E]; try done. pose proof (user_change_groups_wf _ _ _ E Hu Hw).
      destruct (user_change_keeps _ _ _ E Hu) as (? & Hv & _). split_and!; try done; by rewrite Hv. }
  destruct Hs1 as (Hu1 & Hw1 & Hg1 & Hx1). destruct (IH Hu1 Hw1) as (? & ? & ? & ?). split_and!; auto.
Qed.

(** From empty tables, whatever requests the group and the user services run and
    whatever calls of the database fail: every member row joins an existing group and user
    (never ADMIN), no user is twice in a group, each group has exactly one owner, its
    creator, who stays; every message has an existing group and sender; groups and messages
    are never changed or removed. *)
Theorem groups_reachable_wf n (d0 d1 d2 : DB) :
  view d0 = empty_schema -> rtc (group_step n) d0 d1 -> rtc (group_step n) d1 d2 ->
  groups_wf (view d2) /\
  (forall g, g ∈ im_groups (view d1) -> g ∈ im_groups (view d2)) /\
  (forall x, x ∈ im_group_messages (view d1) -> x ∈ im_group_messages (view d2)).
Proof.
  intros Hv R1 R2.
  assert (Hw0 : groups_wf (view d0)).
  { rewrite Hv. split; try apply pairwise_nil; intros;
      match goal with Hin : _ ∈ _ |- _ => by apply elem_of_nil in Hin end. }
  assert (Hu0 : pairwise conflict (im_users (view d0))) by (rewrite Hv; apply pairwise_nil).
  destruct (group_runs_inv _ _ _ R1 Hu0 Hw0) as (Hu1 & Hw1 & _ & _).
  destruct (group_runs_inv _ _ _ R2 Hu1 Hw1) as (_ & ? & ? & ?). done.
Qed.

(** C28: every answer of the four requests that write, on any database: a success is the
    committed change it reports (a group together with its owner, one member more, one
    member less, one message of a member); a refusal leaves the database as it was and has
    the stated cause. *)
Theorem group_answers (d d' : DB) :
  (forall clock q r, create_group clock q d = (d', r) -> exists res, r = Ok res /\
    ((view d' = view d /\ create_refused q (view d) (healthy d) res) \/
     (cg_name q <> "" /\ cg_creator_uid q <> "" /\ user_exists (view d) (cg_creator_uid q) /\
      exists g m s1 t, t = (if 0 <? cg_now_ms q then cg_now_ms q else clock) /\
        res = group_ok "Group created" (g_group_id g) /\
        inserted (new_group (cg_name q) (cg_creator_uid q) t) g (view d) s1 /\
        inserted (new_member (g_group_id g) (cg_creator_uid q) OWNER t) m s1 (view d')))) /\
  (forall clock gid uid t r, join_group clock gid uid t d = (d', r) -> exists res, r = Ok res /\
    ((view d' = view d /\ join_refused gid uid (view d) (healthy d) res) \/
     (uid <> "" /\ has_group (view d) gid /\ user_exists (view d) uid /\ res = group_ok "Joined group" 0 /\
      exists m, inserted (new_member gid uid MEMBER (if 0 <? t then t else clock)) m (view d) (view d')))) /\
  (forall gid uid r, leave_group gid uid d = (d', r) -> exists res, r = Ok res /\
    ((view d' = view d /\ leave_refused gid uid (view d) (healthy d) res) \/
     (exists m l, m ∈ im_group_members (view d) /\ is_member_row gid uid m = true /\ m_role m <> OWNER /\
      res = group_ok "Left group" 0 /\
      l ≡ₚ filter (fun m => negb (is_member_row gid uid m)) (im_group_members (view d)) /\
      view d' = set_members l (view d)))) /\
  (forall gid uid content t r, send_message gid uid content t d = (d', r) -> exists res, r = Ok res /\
    ((view d' = view d /\ send_refused gid uid (view d) (healthy d) res) \/
     (gid <> 0 /\ uid <> "" /\ has_group (view d) gid /\ has_member (view d) gid uid /\
      exists m, inserted (new_message gid uid content t) m (view d) (view d') /\
        res = {| gs_ok := true; gs_error_code := ""; gs_message := "Message sent"; gs_msg_id := gm_id m |}))).
Proof.
  split_and!; intros.
  - by apply create_group_inv in H3 as [_ ?].
  - by apply join_group_inv in H3 as [_ ?].
  - by apply leave_group_inv in H3 as [_ ?].
  - by apply send_message_inv in H3 as [_ ?].
Qed.

Lemma join_members clock gid uid t (d d' : DB) r : healthy d -> uid <> "" -> has_group (view d) gid ->
  user_exists (view d) uid -> uid ∉ members (view d) gid -> join_group clock gid uid t d = (d', r) ->
  r = Ok (group_ok "Joined group" 0) /\ healthy d' /\
  forall i, members (view d') i = if decide (i = gid) then {[uid]} ∪ members (view d) i else members (view d) i.
Proof.
  intros Hd Hne Hg Hu Hm E. rewrite members_elem in Hm.
  apply join_group_inv in E as (Hd' & res & -> & [(_ & Hr)|(_ & _ & _ & -> & m & Hi)]).
  { exfalso. destruct Hr as [Hx|? Hx|? Hx|Hx|Hx]; try done; by apply Hx in Hd. }
  split_and!; [done|by auto|]. intros i. apply set_eq. intros x. rewrite members_elem.
  pose proof (fun x => inserted_elem _ _ _ _ x Hi) as Hel. simpl in Hel.
  apply inserted_member in Hi as (Hmg & Hmu & _). simpl in Hmg, Hmu.
  assert (Hhas : has_member (view d') i x <-> (gid = i /\ uid = x) \/ has_member (view d) i x).
  { unfold has_member. setoid_rewrite Hel. setoid_rewrite member_row_true. split.
    - intros (q & [->|Hq] & Hqr); [left|right; eauto]. intuition congruence.
    - intros [[<- <-]|(q & ? & ?)]; [exists m|exists q]; auto. }
  rewrite Hhas. case_decide; subst; rewrite ?elem_of_union, ?elem_of_singleton, members_elem; intuition congruence.
Qed.

Lemma leave_members gid uid (d d' : DB) r : healthy d -> groups_wf (view d) -> has_group (view d) gid ->
  uid ∈ members (view d) gid -> leave_group gid uid d = (d', r) ->
  healthy d' /\
  ((forall g, g ∈ im_groups (view d) -> g_group_id g = gid -> g_creator_uid g <> uid) ->
   r = Ok (group_ok "Left group" 0) /\
   forall i, members (view d') i = if decide (i = gid) then members (view d) i ∖ {[uid]} else members (view d) i) /\
  ((exists g, g ∈ im_groups (view d) /\ g_group_id g = gid /\ g_creator_uid g = uid) ->
   r = Ok (group_error "OWNER_CANNOT_LEAVE" "Owner cannot leave the group; transfer ownership first") /\
   view d' = view d).
Proof.
  intros Hd Hw Hg Hm E. rewrite members_elem in Hm.
  apply leave_group_inv in E as (Hd' & res & -> & E). split; [by auto|].
  destruct E as [(Hv & Hr)|(m & l & Hin & Hrow & Hrole & -> & Hl & Hv)].
  - destruct Hr as [Hx|? Hx|m Hin Hrow Hrole|Hx]; try (by exfalso; apply Hx in Hd); [].
    apply member_row_true in Hrow as [Hmg Hmu].
    split; [intros Hno; exfalso|done]. destruct Hg as (g & Hg & Hgi). apply (Hno g Hg Hgi).
    rewrite <- Hmu. symmetry. apply (wf_owner _ _ Hw g m); [done|done|congruence|done].
  - split; [intros _; split; [done|]|].
    + intros i. apply set_eq. intros x.
      assert (Hhas : has_member (view d') i x <-> has_member (view d) i x /\ ~ (i = gid /\ x = uid)).
      { unfold has_member. rewrite Hv. simpl. setoid_rewrite Hl. setoid_rewrite list_elem_of_filter.
        setoid_rewrite Is_true_true. setoid_rewrite negb_true_iff. setoid_rewrite member_row_false.
        setoid_rewrite member_row_true. split.
        - intros (q & [Hq1 Hq2] & <- & <-). split; [by exists q|done].
        - intros ((q & Hq & <- & <-) & Hne). by exists q. }
      rewrite members_elem, Hhas. case_decide; subst; rewrite ?elem_of_difference, ?elem_of_singleton, members_elem; intuition congruence.
    + intros (g & Hgin & Hgi & Hgc). exfalso. apply member_row_true in Hrow as [Hmg Hmu].
      apply Hrole, (wf_owner _ _ Hw g); congruence.
Qed.

Lemma entries_uids s (P : Prop) ms l :
  Forall2 (member_entry s P) ms l -> map mi_user_uid l = map m_user_uid ms.
Proof. induction 1 as [|m i ms l (_ & Hu & _) _ IH]; [done|]. simpl. by rewrite Hu, IH. Qed.

Lemma entries_gids s (P : Prop) gs l :
  Forall2 (group_entry s P) gs l -> map gi_group_id l = map g_group_id gs.
Proof. induction 1 as [|m i ms l (Hu & _) _ IH]; [done|]. simpl. by rewrite Hu, IH. Qed.

(** C12: without faults the group service implements a set of users per group: joining adds
    the user, leaving removes it unless it created the group, no other group is touched; the
    list of members shows the set to its members and nothing to others, and a user's list of
    groups is the groups whose set has the user. *)
Theorem membership gid uid (d d' : DB) : healthy d -> groups_wf (view d) -> has_group (view d) gid ->
  (forall clock t r, uid <> "" -> user_exists (view d) uid -> uid ∉ members (view d) gid ->
     join_group clock gid uid t d = (d', r) ->
     r = Ok (group_ok "Joined group" 0) /\
     forall i, members (view d') i = if decide (i = gid) then {[uid]} ∪ members (view d) i else members (view d) i) /\
  (forall r, uid ∈ members (view d) gid -> leave_group gid uid d = (d', r) ->
     ((forall g, g ∈ im_groups (view d) -> g_group_id g = gid -> g_creator_uid g <> uid) ->
      r = Ok (group_ok "Left group" 0) /\
      forall i, members (view d') i = if decide (i = gid) then members (view d) i ∖ {[uid]} else members (view d) i) /\
     ((exists g, g ∈ im_groups (view d) /\ g_group_id g = gid /\ g_creator_uid g = uid) ->
      r = Ok (group_error "OWNER_CANNOT_LEAVE" "Owner cannot leave the group; transfer ownership first") /\
      view d' = view d)) /\
  (forall r, list_members gid uid d = (d', r) -> exists l, r = Ok l /\
     list_to_set (map mi_user_uid l) = if decide (uid ∈ members (view d) gid) then members (view d) gid else ∅) /\
  (forall r, list_my_groups uid d = (d', r) -> exists l, r = Ok l /\
     forall i, i ∈ map gi_group_id l <-> uid ∈ members (view d) i).
Proof.
  intros Hd Hw Hg. split_and!.
  - intros clock t r Hne Hu Hm E. by eapply join_members in E as (? & _ & ?).
  - intros r Hm E. by eapply leave_members in E as (_ & ? & ?).
  - intros r E. apply list_members_inv in E as (_ & _ & l & -> & Hl). exists l. split; [done|].
    destruct Hl as [[-> Hl]|(_ & Hm & ms & Hms & _ & Hf)].
    + rewrite decide_False; [done|]. rewrite members_elem. by destruct (Hl Hd).
    + rewrite decide_True by by apply members_elem. rewrite (entries_uids _ _ _ _ Hf).
      unfold members. apply set_eq. intros x. by rewrite !elem_of_list_to_set, (Hms Hd).
  - intros r E. apply list_my_groups_inv in E as (_ & _ & gs & l & -> & Hin & Hall & Hf). exists l.
    split; [done|]. intros i. rewrite (entries_gids _ _ _ _ Hf), list_elem_of_fmap, members_elem. split.
    + intros (g & -> & Hgin). by apply Hin.
    + intros Hm. pose proof Hm as (m & Hmin & Hrow). destruct (wf_member _ _ Hw m Hmin) as (Hgm & _).
      apply member_row_true in Hrow as [<- _]. destruct (Hall Hd _ Hm Hgm) as (g & ? & ?). eauto.
Qed.

(** The history of a group is the [limit] newest of its messages before a time, newest
    first, each with its sender's nickname: every other message before that time is at most
    as new as any message shown; on a database without faults it is empty otherwise only for
    a negative limit. *)
Theorem history_newest gid before limit (d d' : DB) r : get_history gid before limit d = (d', r) ->
  view d' = view d /\ exists ms rest l, r = Ok l /\ Forall2 (message_entry (view d) (healthy d)) ms l /\
  (healthy d -> 0 <= limit ->
   ms ++ rest ≡ₚ filter (fun m => gm_group_id m = gid /\ gm_created_at m < before) (im_group_messages (view d)) /\
   zlen ms = Z.min limit (zlen (ms ++ rest)) /\
   Sorted (fun x y => gm_created_at y <= gm_created_at x) ms /\
   forall x y, x ∈ ms -> y ∈ rest -> gm_created_at y <= gm_created_at x).
Proof.
  intros E. apply get_history_inv in E as (_ & Hv & ms & l & -> & Hms & Hf). split; [done|].
  destruct Hms as [(Hlim & full & -> & Hp & Hs)|[-> Hneg]].
  - exists (ztake limit full), (zdrop limit full), l. split_and!; [done|done|]. intros _ _.
    unfold ztake, zdrop. rewrite take_drop.
    apply (sorted_take _ (Z.to_nat limit)) in Hs as [Hs1 Hs2]; [|intros ? ? ?; lia].
    split_and!; [done| |done|done].
    unfold zlen. rewrite length_take. lia.
  - exists [], [], l. split_and!; [done|done|]. intros Hd Hlim. specialize (Hneg Hd). lia.
Qed.
End Properties.

(** * Witnesses *)

Module Witness.
Definition joins (name : string) (byte0 : Z) : UserCall :=
  Register (Some (zb byte0 :: Toy.salt)) (Some Toy.salt)
    {| rq_account := name; rq_password := "pw"; rq_nickname := name; rq_now_ms := 1 |}.
Definition id_of (byte0 : Z) : string := default "" (GenerateUid (Some (zb byte0 :: Toy.salt))).
Definition users (d : MemDb) (c : UserCall) : MemDb := fst (run_user (H0 := Toy.toy) 5 c d).
Definition groups (d : MemDb) (c : GroupCall) : MemDb := fst (run_group c d).
Definition start : MemDb := mem_start empty_schema.
Definition da : MemDb := users start (joins "ada" 1).
Definition db : MemDb := users da (joins "bob" 2).
Definition create : GroupCall := CreateGroup 9 {| cg_name := "chess"; cg_creator_uid := id_of 1; cg_now_ms := 0 |}.
Definition dc : MemDb := groups db create.
Definition join : GroupCall := JoinGroup 9 1 (id_of 2) 0.
Definition dd : MemDb := groups dc join.
Definition speak : GroupCall := SendGroupMessage 1 (id_of 2) "hi" 20.
Definition de : MemDb := groups dd speak.
End Witness.
Import Witness.

Lemma group_wf_steps : rtc (group_step (H2 := Toy.toy) 5) start dc /\ rtc (group_step (H2 := Toy.toy) 5) dc de.
Proof.
  split.
  - apply rtc_l with da; [|apply rtc_l with db; [|apply rtc_once]].
    + right. exists (joins "ada" 1), (Ok tt). split; [reflexivity|]. vm_compute. reflexivity.
    + right. exists (joins "bob" 2), (Ok tt). split; [reflexivity|]. vm_compute. reflexivity.
    + left. exists create, (Ok tt). vm_compute. reflexivity.
  - apply rtc_l with dd; [|apply rtc_once].
    + left. exists join, (Ok tt). vm_compute. reflexivity.
    + left. exists speak, (Ok tt). vm_compute. reflexivity.
Qed.

Lemma groups_reachable_wf_witness :
  map gm_content (im_group_messages (view de)) = ["hi"] /\ groups_wf (view de) /\
  (forall g, g ∈ im_groups (view dc) -> g ∈ im_groups (view de)) /\
  (forall x, x ∈ im_group_messages (view dc) -> x ∈ im_group_messages (view de)).
Proof.
  split; [vm_compute; reflexivity|].
  apply (groups_reachable_wf (H2 := Toy.toy) 5 start dc de); [reflexivity|apply group_wf_steps|apply group_wf_steps].
Defined.

Lemma dc_wf : groups_wf (view dc).
Proof.
  eapply (group_runs_inv (H2 := Toy.toy) 5 start dc); [apply group_wf_steps|apply pairwise_nil|].
  split; try apply pairwise_nil; intros;
    match goal with Hin : _ ∈ _ |- _ => by apply elem_of_nil in Hin end.
Qed.

Lemma membership_witness :
  members (view dd) 1 = {[id_of 2]} ∪ members (view dc) 1.
Proof.
  destruct (membership 1 (id_of 2) dc dd) as (Hj & _).
  - reflexivity.
  - apply dc_wf.
  - eexists. split; [vm_compute; left|vm_compute; reflexivity].
  - destruct (Hj 9 0 (Ok (group_ok "Joined group" 0))) as (_ & Hm); [done| | | |].
    + eexists. split; [vm_compute; right; left|vm_compute; reflexivity].
    + apply (bool_decide_eq_false (id_of 2 ∈ members (view dc) 1)). vm_compute. reflexivity.
    + vm_compute. reflexivity.
    + exact (Hm 1).
Defined.

Lemma history_newest_witness :
  (forall l, snd (get_history 1 100 1 de) = Ok l ->
     map gd_content l = ["hi"] /\ map gd_sender_nickname l = ["bob"]) /\
  exists ms rest l, snd (get_history 1 100 1 de) = Ok l /\
    ms ++ rest ≡ₚ filter (fun m => gm_group_id m = 1 /\ gm_created_at m < 100) (im_group_messages (view de)) /\
    zlen ms = Z.min 1 (zlen (ms ++ rest)).
Proof.
  split.
  - intros l Hl. vm_compute in Hl. injection Hl as <-. split; vm_compute; reflexivity.
  - destruct (history_newest 1 100 1 de _ _ (surjective_pairing _)) as (_ & ms & rest & l & Hl & _ & Hh).
    exists ms, rest, l. split; [exact Hl|]. destruct Hh as (Hp & Hz & _); [reflexivity|lia|].
    split; [exact Hp|exact Hz].
Defined.
