(* ===== verification/MessageService.v ===== *)
(** Private messages: [services/message/message_repository.cpp] and
    [services/message/message_service.cpp].

    The repository fills in the id of the row it inserts; here it returns it. *)
From S2P Require Import Prelude Schema Odb MemDb.
Open Scope Z_scope.

(** * Data *)

Record MessageData := {
  md_msg_id : Z;
  md_sender_uid : string;
  md_receiver_uid : string;
  md_content : string;
  md_msg_type : MessageType;
  md_status : MessageStatus;
  md_create_time : Z;
  md_delivered_time : Z;
  md_read_time : Z
}.

Record SendRequest := {
  sq_sender_uid : string;
  sq_receiver_uid : string;
  sq_content : string;
  sq_msg_type : MessageType;
  sq_now_ms : Z
}.

(** [data] is default-constructed in an error, here [None]. *)
Record SendResult := {
  sr_ok : bool;
  sr_error_code : string;
  sr_message : string;
  sr_data : option MessageData
}.

Definition message_error (code msg : string) : SendResult :=
  {| sr_ok := false; sr_error_code := code; sr_message := msg; sr_data := None |}.

Definition to_data (msg : Message) : MessageData :=
  {| md_msg_id := msg_id msg; md_sender_uid := msg_sender_uid msg;
     md_receiver_uid := msg_receiver_uid msg; md_content := msg_content msg;
     md_msg_type := msg_msg_type msg; md_status := msg_status msg;
     md_create_time := msg_create_time msg; md_delivered_time := msg_delivered_time msg;
     md_read_time := msg_read_time msg |}.

(** The constructor of [Message]. *)
Definition new_message (sender receiver content : string) (type : MessageType) (t : Z) : Message :=
  {| msg_id := 0; msg_sender_uid := sender; msg_receiver_uid := receiver; msg_content := content;
     msg_msg_type := type; msg_status := SENT; msg_create_time := t; msg_delivered_time := 0;
     msg_read_time := 0 |}.

(** The setters of [mark_delivered] and [mark_read]. *)
Definition delivered_at (t : Z) (m : Message) : Message :=
  {| msg_id := msg_id m; msg_sender_uid := msg_sender_uid m; msg_receiver_uid := msg_receiver_uid m;
     msg_content := msg_content m; msg_msg_type := msg_msg_type m; msg_status := DELIVERED;
     msg_create_time := msg_create_time m; msg_delivered_time := t; msg_read_time := msg_read_time m |}.
Definition read_at (t : Z) (m : Message) : Message :=
  {| msg_id := msg_id m; msg_sender_uid := msg_sender_uid m; msg_receiver_uid := msg_receiver_uid m;
     msg_content := msg_content m; msg_msg_type := msg_msg_type m; msg_status := READ;
     msg_create_time := msg_create_time m; msg_delivered_time := msg_delivered_time m;
     msg_read_time := t |}.

Definition INT64_MAX : Z := 2 ^ 63 - 1.

Section Service.
Context {DB : Type} `{Odb DB}.

(** * MessageRepository *)

(** [Some id] is [true] with the id left in [msg]. *)
Definition create (msg : Message) : exec DB (option Z) :=
  guarded (let* m := persist msg in ret (Commit (Some (msg_id m)))) None.

Definition find_by_id (id : Z) : exec DB (option Message) :=
  guarded (let* loaded := load (Row := Message) id in ret (Commit loaded)) None.

(** The rows of a query in the order of [create_time], the loop stopping at [limit]. *)
Definition by_time (p : Message -> bool) (limit : Z) : exec DB (list Message) :=
  collect (let* r := query p (Some {| order_by := msg_create_time; descending := false; row_limit := None |}) in
           ret (ztake limit r)).

Definition in_conversation (user_a user_b : string) (before_time : Z) (m : Message) : bool :=
  (String.eqb (msg_sender_uid m) user_a && String.eqb (msg_receiver_uid m) user_b &&
   (msg_create_time m <? before_time)) ||
  (String.eqb (msg_sender_uid m) user_b && String.eqb (msg_receiver_uid m) user_a &&
   (msg_create_time m <? before_time)).

Definition find_conversation (user_a user_b : string) (before_time limit : Z) : exec DB (list Message) :=
  by_time (in_conversation user_a user_b before_time) limit.

Definition is_offline (receiver_uid : string) (before_time : Z) (m : Message) : bool :=
  String.eqb (msg_receiver_uid m) receiver_uid && bool_decide (msg_status m = SENT) &&
  (msg_create_time m <? before_time).

Definition find_offline (receiver_uid : string) (before_time limit : Z) : exec DB (list Message) :=
  by_time (is_offline receiver_uid before_time) limit.

Definition mark_delivered (id delivered_time : Z) : exec DB bool :=
  guarded (let* msg := load (Row := Message) id in
           match msg with
           | None => ret (Abandon false)
           | Some m => let* _ := update (delivered_at delivered_time m) in ret (Commit true)
           end) false.

Definition mark_read (id read_time : Z) : exec DB bool :=
  guarded (let* msg := load (Row := Message) id in
           match msg with
           | None => ret (Abandon false)
           | Some m => let* _ := update (read_at read_time m) in ret (Commit true)
           end) false.

(** * MessageService; its [mark_delivered] and [mark_read] are the repository's. *)

Definition send_text_message (request : SendRequest) : exec DB SendResult :=
  if String.eqb (sq_sender_uid request) "" then
    ret (message_error "EMPTY_SENDER" "Sender UID must not be empty")
  else if String.eqb (sq_receiver_uid request) "" then
    ret (message_error "EMPTY_RECEIVER" "Receiver UID must not be empty")
  else if String.eqb (sq_content request) "" then
    ret (message_error "EMPTY_CONTENT" "Message content must not be empty")
  else
    let msg := new_message (sq_sender_uid request) (sq_receiver_uid request) (sq_content request)
                 (sq_msg_type request) (sq_now_ms request) in
    let* created := create msg in
    match created with
    | None => ret (message_error "PERSIST_FAILED" "Failed to persist message")
    | Some id =>
        let* persisted := find_by_id id in
        match persisted with
        | None => ret (message_error "PERSIST_FAILED" "Message persisted but could not be read back")
        | Some m => ret {| sr_ok := true; sr_error_code := ""; sr_message := "";
                           sr_data := Some (to_data m) |}
        end
    end.

Definition get_conversation (user_a user_b : string) (before_time limit : Z) : exec DB (list MessageData) :=
  let* msgs := find_conversation user_a user_b (if 0 <? before_time then before_time else INT64_MAX)
                 (if 0 <? limit then limit else 50) in
  ret (map to_data msgs).

Definition pull_offline (receiver_uid : string) (before_time limit : Z) : exec DB (list MessageData) :=
  let* msgs := find_offline receiver_uid (if 0 <? before_time then before_time else INT64_MAX)
                 (if 0 <? limit then limit else 50) in
  ret (map to_data msgs).
End Service.

(** * What the repository and the service do *)

(** The first [limit] of the messages that satisfy a condition, oldest first. *)
Definition oldest (p : Message -> bool) (limit : Z) (s : Schema) (l : list Message) : Prop :=
  exists rest, l ++ rest ≡ₚ filter (fun m => p m) (im_messages s) /\
    zlen l = Z.min (Z.max 0 limit) (zlen (l ++ rest)) /\
    Sorted (fun x y => msg_create_time x <= msg_create_time y) l /\
    forall x y, x ∈ l -> y ∈ rest -> msg_create_time x <= msg_create_time y.

Section Lemmas.
Context {DB : Type} `{OdbReliable DB}.

Lemma create_msg_spec m d d' r : create m d = (d', r) ->
  (healthy d -> healthy d') /\ exists o, r = Ok o /\
    match o with
    | Some i => exists m', msg_id m' = i /\ inserted m m' (view d) (view d')
    | None => view d' = view d /\ (healthy d -> False)
    end.
Proof.
  intros E. eapply (guarded_spec _ (fun s o s' => exists m', o = Some (msg_id m') /\ inserted m m' s s')
    (fun _ _ => False) (fun _ => False)) in E as (Hd & o & -> & E).
  - split; [done|]. exists o. split; [done|]. destruct E as [(m' & -> & ?)|[? [[]|[-> ?]]]]; eauto.
  - body_cases; [|eauto]. intros Hd. match goal with H : healthy _ -> _ |- _ => by destruct (H Hd) as (? & _ & ?) end.
Qed.

Lemma find_msg_spec i d d' r : find_by_id i d = (d', r) ->
  (healthy d -> healthy d') /\ view d' = view d /\ exists o, r = Ok o /\
    match o with
    | Some m => m ∈ im_messages (view d) /\ msg_id m = i
    | None => healthy d -> forall m, m ∈ im_messages (view d) -> msg_id m <> i
    end.
Proof. exact (guarded_load (Row := Message) i d d' r). Qed.

Lemma by_time_spec p limit d d' r : by_time p limit d = (d', r) ->
  (healthy d -> healthy d') /\ view d' = view d /\ exists l, r = Ok l /\
    (oldest p limit (view d) l \/ (l = [] /\ (healthy d -> False))).
Proof.
  intros E. apply (collect_spec _ (oldest p limit) (fun _ => False)) in E; [done|].
  intros d1 d2 r2 E2. run_inv E2; apply query_inv in E0 as (Hs & Hh & Eq).
  - split_and!; try done. intros Hd. by destruct (Eq Hd) as (? & ? & [= <-] & ? & _).
  - unfold ret in E2. simplify_eq. destruct Eq as [Hv (full & Hp & Ho & ->)].
    split_and!; [done|done|done|]. exists (zdrop limit full). unfold ztake, zdrop. rewrite take_drop.
    apply (sorted_take _ (Z.to_nat limit)) in Ho as [Ho1 Ho2]; [|intros ? ? ?; simpl; lia].
    split_and!; [done| |done|done]. unfold zlen. rewrite length_take. lia.
Qed.

(** The two marks rewrite a message of the table. *)
Definition marked (f : Message -> Message) (i : Z) (d d' : DB) (r : result bool) : Prop :=
  (healthy d -> healthy d') /\ exists b, r = Ok b /\
    if b then exists m, m ∈ im_messages (view d) /\ msg_id m = i /\ replaced (f m) (view d) (view d')
    else view d' = view d /\ (healthy d -> pairwise conflict (im_messages (view d)) ->
           forall m, m ∈ im_messages (view d) -> msg_id m <> i).

Lemma mark_delivered_spec i t d d' r : mark_delivered i t d = (d', r) -> marked (delivered_at t) i d d' r.
Proof.
  intros E. apply (guarded_load_update (Row := Message)) in E as (Hd & b & -> & E); [|done..].
  split; [done|]. exists b. split; [done|].
  destruct E as [(m & ? & ? & -> & ?)|(? & -> & ?)]; [by exists m|done].
Qed.

Lemma mark_read_spec i t d d' r : mark_read i t d = (d', r) -> marked (read_at t) i d d' r.
Proof.
  intros E. apply (guarded_load_update (Row := Message)) in E as (Hd & b & -> & E); [|done..].
  split; [done|]. exists b. split; [done|].
  destruct E as [(m & ? & ? & -> & ?)|(? & -> & ?)]; [by exists m|done].
Qed.

(** Why [send_text_message] refuses. *)
Inductive send_refused (q : SendRequest) : SendResult -> Prop :=
| empty_sender : sq_sender_uid q = "" ->
    send_refused q (message_error "EMPTY_SENDER" "Sender UID must not be empty")
| empty_receiver : sq_sender_uid q <> "" -> sq_receiver_uid q = "" ->
    send_refused q (message_error "EMPTY_RECEIVER" "Receiver UID must not be empty")
| empty_content : sq_sender_uid q <> "" -> sq_receiver_uid q <> "" -> sq_content q = "" ->
    send_refused q (message_error "EMPTY_CONTENT" "Message content must not be empty").

Definition requested (q : SendRequest) : Message :=
  new_message (sq_sender_uid q) (sq_receiver_uid q) (sq_content q) (sq_msg_type q) (sq_now_ms q).

Lemma send_text_inv q d d' r : send_text_message q d = (d', r) ->
  (healthy d -> healthy d') /\ exists res, r = Ok res /\
  ((view d' = view d /\ send_refused q res) \/
   (sq_sender_uid q <> "" /\ sq_receiver_uid q <> "" /\ sq_content q <> "" /\
    ((view d' = view d /\ res = message_error "PERSIST_FAILED" "Failed to persist message" /\
      (healthy d -> False)) \/
     exists m, inserted (requested q) m (view d) (view d') /\
       ((exists m', m' ∈ im_messages (view d') /\ msg_id m' = msg_id m /\
         res = {| sr_ok := true; sr_error_code := ""; sr_message := ""; sr_data := Some (to_data m') |}) \/
        (res = message_error "PERSIST_FAILED" "Message persisted but could not be read back" /\
         (healthy d -> False)))))).
Proof.
  unfold send_text_message. intros E.
  destruct (String.eqb_spec (sq_sender_uid q) "") as [|Hs].
  { odb_inv. split; [done|]. eexists; split; [done|]. left. split; [done|]. by constructor. }
  destruct (String.eqb_spec (sq_receiver_uid q) "") as [|Hr].
  { odb_inv. split; [done|]. eexists; split; [done|]. left. split; [done|]. by constructor. }
  destruct (String.eqb_spec (sq_content q) "") as [|Hc].
  { odb_inv. split; [done|]. eexists; split; [done|]. left. split; [done|]. by constructor. }
  fold (requested q) in E.
  run_inv E; apply create_msg_spec in E0 as (Hd & o & Ho & Hi); [done|]. simplify_eq.
  destruct o as [i|].
  2: { destruct Hi as [Hv Hf]. unfold ret in E. simplify_eq. split; [done|]. eexists; split; [done|]. right.
       split_and!; try done. by left. }
  destruct Hi as (m & <- & Hi).
  run_inv E; apply find_msg_spec in E0 as (Hd2 & Hv2 & o & Ho & Hm); [done|]. simplify_eq. rewrite <- Hv2 in Hi.
  destruct o as [m'|]; unfold ret in E; simplify_eq; (split; [by auto|]); (eexists; split; [done|]); right;
    (split_and!; [done..|]); right; exists m; (split; [done|]); [left|right].
  - rewrite <- Hv2 in Hm. destruct Hm. eauto.
  - split; [done|]. intros Hh. apply (Hm (Hd Hh) m); [|done]. rewrite <- Hv2.
    apply (inserted_elem _ _ _ _ m Hi). by left.
Qed.

Lemma get_conversation_inv a b before limit d d' r : get_conversation a b before limit d = (d', r) ->
  (healthy d -> healthy d') /\ view d' = view d /\ exists l, r = Ok (map to_data l) /\
  (oldest (in_conversation a b (if 0 <? before then before else INT64_MAX))
     (if 0 <? limit then limit else 50) (view d) l \/ (l = [] /\ (healthy d -> False))).
Proof.
  unfold get_conversation. intros E.
  run_inv E; apply by_time_spec in E0 as (Hd & Hv & l & Hr & Hl); [done|]. unfold ret in E. simplify_eq. eauto 6.
Qed.

Lemma pull_offline_inv u before limit d d' r : pull_offline u before limit d = (d', r) ->
  (healthy d -> healthy d') /\ view d' = view d /\ exists l, r = Ok (map to_data l) /\
  (oldest (is_offline u (if 0 <? before then before else INT64_MAX))
     (if 0 <? limit then limit else 50) (view d) l \/ (l = [] /\ (healthy d -> False))).
Proof.
  unfold pull_offline. intros E.
  run_inv E; apply by_time_spec in E0 as (Hd & Hv & l & Hr & Hl); [done|]. unfold ret in E. simplify_eq. eauto 6.
Qed.
End Lemmas.

(** * Requests and the abstract transitions they refine *)

Inductive MessageCall :=
| Send (q : SendRequest)
| Conversation (a b : string) (before limit : Z)
| PullOffline (u : string) (before limit : Z)
| MarkDelivered (id t : Z)
| MarkRead (id t : Z).

Definition run_message {DB} `{Odb DB} (c : MessageCall) : exec DB unit :=
  match c with
  | Send q => let* _ := send_text_message q in ret tt
  | Conversation a b t l => let* _ := get_conversation a b t l in ret tt
  | PullOffline u t l => let* _ := pull_offline u t l in ret tt
  | MarkDelivered i t => let* _ := mark_delivered i t in ret tt
  | MarkRead i t => let* _ := mark_read i t in ret tt
  end.

Inductive message_change (s s' : Schema) : Prop :=
| mc_none : s' = s -> message_change s s'
| mc_send q m : sq_sender_uid q <> "" -> sq_receiver_uid q <> "" -> sq_content q <> "" ->
    inserted (requested q) m s s' -> message_change s s'
| mc_delivered m t : m ∈ im_messages s -> replaced (delivered_at t m) s s' -> message_change s s'
| mc_read m t : m ∈ im_messages s -> replaced (read_at t m) s s' -> message_change s s'.

Definition messages_wf (s : Schema) : Prop :=
  pairwise conflict (im_messages s) /\
  forall m, m ∈ im_messages s -> msg_sender_uid m <> "" /\ msg_receiver_uid m <> "" /\ msg_content m <> "" /\
    (msg_status m = SENT -> msg_delivered_time m = 0 /\ msg_read_time m = 0).

(** The part of a message that never changes, and a status that never returns to SENT. *)
Definition later (m m' : Message) : Prop :=
  msg_id m' = msg_id m /\ msg_sender_uid m' = msg_sender_uid m /\
  msg_receiver_uid m' = msg_receiver_uid m /\ msg_content m' = msg_content m /\
  msg_msg_type m' = msg_msg_type m /\ msg_create_time m' = msg_create_time m /\
  (msg_status m' = SENT -> m' = m).

Lemma msg_later_refl m : later m m.
Proof. by split_and!. Qed.

Lemma msg_later_trans x y z : later x y -> later y z -> later x z.
Proof.
  intros (? & ? & ? & ? & ? & ? & Hxy) (? & ? & ? & ? & ? & ? & Hyz). split_and!; try congruence.
  intros Hz. specialize (Hyz Hz) as ->. auto.
Qed.

Lemma message_row m x s : pairwise conflict (im_messages s) -> m ∈ im_messages s -> x ∈ im_messages s ->
  msg_id m = msg_id x -> m = x.
Proof.
  intros Hp Hm Hx Hi. apply (pairwise_eq conflict conflict_sym _ _ _ Hp); try done.
  unfold conflict. by rewrite bool_decide_eq_true_2.
Qed.

(** Rewriting a message by one of the marks. *)
Lemma mark_change (f : Message -> Message) m s s' : (forall x, later x (f x)) ->
  (forall x, msg_status (f x) <> SENT) -> messages_wf s -> m ∈ im_messages s -> replaced (f m) s s' ->
  messages_wf s' /\ forall x, x ∈ im_messages s -> exists x', x' ∈ im_messages s' /\ later x x'.
Proof.
  intros Hf Hne [Hp Hw] Hm Hr. pose proof (fun x => replaced_elem _ _ _ x Hp Hr) as Hel. simpl in Hel.
  destruct (Hf m) as (Hi & Hs & Hrc & Hc & _). split; [split; [by apply replaced_pairwise in Hr|]|].
  - intros x [->|[Hx _]]%Hel; [|by apply Hw]. rewrite Hs, Hrc, Hc. destruct (Hw m Hm) as (? & ? & ? & _).
    split_and!; try done. intros Hse. by apply Hne in Hse.
  - intros x Hx. destruct (decide (msg_id x = msg_id m)) as [He|Hd].
    + rewrite (message_row x m s) by done. exists (f m). split; [apply Hel; by left|apply Hf].
    + exists x. split; [apply Hel; right; split; [done|congruence]|apply msg_later_refl].
Qed.

Lemma message_change_inv s s' : message_change s s' -> messages_wf s ->
  messages_wf s' /\ (forall x, x ∈ im_messages s -> exists x', x' ∈ im_messages s' /\ later x x') /\
  s' = set_messages (im_messages s') s.
Proof.
  intros Hc Hw. destruct Hc as [->|q m ? ? ? Hi|m t Hm Hr|m t Hm Hr].
  - split_and!; [done| |by destruct s]. intros x Hx. exists x. split; [done|apply msg_later_refl].
  - pose proof (fun x => inserted_elem _ _ _ _ x Hi) as Hel. simpl in Hel. destruct Hw as [Hp Hw].
    pose proof (inserted_pairwise _ _ _ _ Hi Hp) as Hp'. destruct Hi as ((i & _ & ->) & _ & l & _ & ->).
    split_and!; [split; [done|]| |by destruct s].
    + intros x [->|Hx]%Hel; [|by apply Hw]. by split_and!.
    + intros x Hx. exists x. split; [apply Hel; by right|apply msg_later_refl].
  - assert (Hs : s' = set_messages (im_messages s') s) by (destruct Hr as (? & ? & ? & _ & _ & _ & _ & ->); by destruct s).
    eapply (mark_change (delivered_at t)) in Hr as [? ?]; [|by intros x; split_and!|done|done|done]. done.
  - assert (Hs : s' = set_messages (im_messages s') s) by (destruct Hr as (? & ? & ? & _ & _ & _ & _ & ->); by destruct s).
    eapply (mark_change (read_at t)) in Hr as [? ?]; [|by intros x; split_and!|done|done|done]. done.
Qed.

(** * Properties *)

(** Acknowledging a list of pulled messages. *)
Definition mark_all {DB} `{Odb DB} (t : Z) (l : list MessageData) : exec DB (list bool) :=
  exec_map (fun m => mark_delivered (md_msg_id m) t) l.

Section Properties.
Context {DB : Type} `{OdbReliable DB}.

Lemma run_message_change c (d d' : DB) r : run_message c d = (d', r) ->
  (healthy d -> healthy d') /\ message_change (view d) (view d').
Proof.
  intros E. destruct c as [q|a b t l|u t l|i t|i t]; simpl in E.
  - run_inv E; apply send_text_inv in E0 as (Hd & res & Hr & Hs); [done|]. odb_inv. split; [done|].
    destruct Hs as [[-> _]|(? & ? & ? & [(-> & _)|(m & Hi & _)])]; [by apply mc_none|by apply mc_none|].
    by eapply (mc_send _ _ q).
  - run_inv E; apply get_conversation_inv in E0 as (? & Hv & _); odb_inv; split; try done; rewrite Hv; by apply mc_none.
  - run_inv E; apply pull_offline_inv in E0 as (? & Hv & _); odb_inv; split; try done; rewrite Hv; by apply mc_none.
  - run_inv E; apply mark_delivered_spec in E0 as (Hd & b & Hr & Hb); [done|]. odb_inv. split; [done|].
    destruct b; [destruct Hb as (m & ? & _ & ?); by eapply mc_delivered|destruct Hb as [-> _]; by apply mc_none].
  - run_inv E; apply mark_read_spec in E0 as (Hd & b & Hr & Hb); [done|]. odb_inv. split; [done|].
    destruct b; [destruct Hb as (m & ? & _ & ?); by eapply mc_read|destruct Hb as [-> _]; by apply mc_none].
Qed.

Definition message_step (d d' : DB) : Prop := exists c r, run_message c d = (d', r).

Lemma message_runs_inv (d d' : DB) : rtc message_step d d' -> messages_wf (view d) ->
  messages_wf (view d') /\ (forall x, x ∈ im_messages (view d) -> exists x', x' ∈ im_messages (view d') /\ later x x') /\
  view d' = set_messages (im_messages (view d')) (view d).
Proof.
  induction 1 as [d|d d1 d' (c & r & E) _ IH]; intros Hw.
  { split_and!; [done| |by destruct (view d)]. intros x Hx. exists x. split; [done|apply msg_later_refl]. }
  apply run_message_change in E as [_ E]. destruct (message_change_inv _ _ E Hw) as (Hw1 & Hl1 & Hs1).
  destruct (IH Hw1) as (Hw2 & Hl2 & Hs2). split_and!; [done| |].
  - intros x Hx. destruct (Hl1 x Hx) as (y & Hy & ?). destruct (Hl2 y Hy) as (z & ? & ?). exists z.
    split; [done|]. by eapply msg_later_trans.
  - rewrite Hs2 at 1. by rewrite Hs1.
Qed.

(** From an empty table of messages, whatever requests the message service runs and
    whatever calls of the database fail: ids are unique, sender, receiver and content are
    never empty, a message that is SENT has no delivery or reading time; messages are never
    removed, their text, users, type and creation time never change, their status never
    returns to SENT, and no other table is written. *)
Theorem messages_reachable_wf (d0 d1 d2 : DB) :
  im_messages (view d0) = [] -> rtc message_step d0 d1 -> rtc message_step d1 d2 ->
  messages_wf (view d2) /\
  (forall x, x ∈ im_messages (view d1) -> exists x', x' ∈ im_messages (view d2) /\ later x x') /\
  view d2 = set_messages (im_messages (view d2)) (view d0).
Proof.
  intros He R1 R2.
  assert (Hw0 : messages_wf (view d0)) by (split; rewrite He; [apply pairwise_nil|by intros x ?%elem_of_nil]).
  destruct (message_runs_inv _ _ R1 Hw0) as (Hw1 & _ & Hs1).
  destruct (message_runs_inv _ _ R2 Hw1) as (Hw2 & Hl & Hs2). split_and!; [done|done|].
  rewrite Hs2 at 1. by rewrite Hs1.
Qed.

(** Every answer of [send_text_message], on any database: a success stored exactly the
    requested message, as SENT, and returns it; the three refusals for empty fields and a
    failed insertion leave the database as it was; a failed read-back is answered
    "PERSIST_FAILED" although the message is stored; without faults only empty fields are
    refused. *)
Theorem send_text_answers q (d d' : DB) r : messages_wf (view d) -> send_text_message q d = (d', r) ->
  exists res, r = Ok res /\
  ((view d' = view d /\ send_refused q res) \/
   (view d' = view d /\ res = message_error "PERSIST_FAILED" "Failed to persist message" /\ (healthy d -> False)) \/
   exists m, inserted (requested q) m (view d) (view d') /\ msg_status m = SENT /\
     (res = {| sr_ok := true; sr_error_code := ""; sr_message := ""; sr_data := Some (to_data m) |} \/
      (res = message_error "PERSIST_FAILED" "Message persisted but could not be read back" /\
       (healthy d -> False)))).
Proof.
  intros Hw E. apply send_text_inv in E as (_ & res & -> & Hr). exists res. split; [done|].
  destruct Hr as [?|(? & ? & ? & [?|(m & Hi & Hr)])]; [by left|right; by left|right; right].
  exists m. split; [done|]. split; [by destruct Hi as ((i & _ & ->) & _)|].
  destruct Hr as [(m' & Hm' & Hi' & ->)|?]; [left|by right].
  replace m' with m; [done|]. symmetry. apply (message_row _ _ (view d')); try done.
  - by apply inserted_pairwise in Hi; [|apply Hw].
  - apply (inserted_elem _ _ _ _ m Hi). by left.
Qed.

Lemma mark_all_spec t l (d : DB) : healthy d -> messages_wf (view d) -> NoDup l ->
  (forall m, m ∈ l -> m ∈ im_messages (view d)) ->
  exists d', mark_all t (map to_data l) d = (d', Ok (map (fun _ => true) l)) /\ healthy d' /\
    forall x, x ∈ im_messages (view d') <->
      (x ∈ im_messages (view d) /\ x ∉ l) \/ exists m, m ∈ l /\ x = delivered_at t m.
Proof.
  revert d. induction l as [|m l IH]; intros d Hd Hw Hnd Hin; simpl.
  { exists d. split_and!; [done|done|]. intros x. split; [|intros [[? _]|(? & ?%elem_of_nil & _)]; done].
    left. split; [done|apply not_elem_of_nil]. }
  apply NoDup_cons in Hnd as [Hm Hnd]. assert (Hmt : m ∈ im_messages (view d)) by (apply Hin; by left).
  destruct (mark_delivered (msg_id m) t d) as [d1 r] eqn:E. unfold mark_all. simpl.
  rewrite (bind_Ok _ _ _ d1 true).
  2: { pose proof E as E1. apply mark_delivered_spec in E1 as (_ & b & -> & Hb).
       destruct b; [done|]. destruct Hb as [_ Hb]. by destruct (Hb Hd (proj1 Hw) m Hmt). }
  apply mark_delivered_spec in E as (Hd1 & b & _ & Hb). specialize (Hd1 Hd).
  destruct b; [|destruct Hb as [_ Hb]; by destruct (Hb Hd (proj1 Hw) m Hmt)].
  destruct Hb as (m' & Hm' & Hi & Hr). rewrite (message_row m' m (view d)) in Hr; try done; [|apply Hw].
  pose proof (fun x => replaced_elem _ _ _ x (proj1 Hw) Hr) as Hel. simpl in Hel.
  destruct (mark_change (delivered_at t) _ _ _ ltac:(by intros x; split_and!) ltac:(done) Hw Hmt Hr) as [Hw1 _].
  assert (Hin1 : forall x, x ∈ l -> x ∈ im_messages (view d1) /\ msg_id x <> msg_id m).
  { intros x Hx. assert (Hne : msg_id x <> msg_id m).
    { intros He. apply Hm. rewrite <- (message_row x m (view d)); try done; [apply Hw|]. apply Hin. by right. }
    split; [|done]. apply Hel. right. split; [|done]. apply Hin. by right. }
  destruct (IH d1 Hd1 Hw1 Hnd ltac:(intros x Hx; by apply Hin1)) as (d2 & E2 & Hd2 & Hel2).
  unfold mark_all in E2. exists d2. rewrite (bind_Ok _ _ _ _ _ E2). split_and!; [done|done|].
  intros x. rewrite Hel2, Hel. setoid_rewrite elem_of_cons. split.
  - intros [[[->|[Hx Hne]] Hxl]|(y & Hy & ->)]; [right; exists m; auto|left|right; exists y; auto].
    split; [done|]. intros [->|?]; done.
  - intros [[Hx Hno]|(y & [->|Hy] & ->)]; [left|left|right; by exists y].
    + split; [right; split; [done|]|auto]. intros He. apply Hno. left.
      apply (message_row _ _ (view d)); try done. apply Hw.
    + split; [by left|]. intros Hx. destruct (Hin1 _ Hx) as [_ Hne]. by apply Hne.
Qed.

(** C13: without faults, [pull_offline] returns the oldest undelivered messages of a user, at
    most [limit] of them, and none only when there is none; marking them all delivered
    succeeds and leaves exactly the other undelivered messages: a client that repeats the
    two receives every message once and terminates. *)
Theorem offline_progress u before limit t (d : DB) : healthy d -> messages_wf (view d) ->
  let before' := if 0 <? before then before else INT64_MAX in
  exists d1 d2 l, pull_offline u before limit d = (d1, Ok (map to_data l)) /\
    oldest (is_offline u before') (if 0 <? limit then limit else 50) (view d) l /\
    (l = [] -> forall m, m ∈ im_messages (view d) -> is_offline u before' m = false) /\
    mark_all t (map to_data l) d1 = (d2, Ok (map (fun _ => true) l)) /\
    forall m, (m ∈ im_messages (view d2) /\ is_offline u before' m = true) <->
              (m ∈ im_messages (view d) /\ is_offline u before' m = true /\ m ∉ l).
Proof.
  intros Hd Hw before'. destruct (pull_offline u before limit d) as [d1 r] eqn:E.
  apply pull_offline_inv in E as (Hd1 & Hv & l & -> & [Hl|[_ Hf]]); [|by apply Hf in Hd].
  fold before' in Hl. specialize (Hd1 Hd).
  pose proof Hl as (rest & Hp & Hlen & _).
  assert (Hin : forall m, m ∈ l ++ rest <-> m ∈ im_messages (view d) /\ is_offline u before' m = true).
  { intros m. rewrite Hp, list_elem_of_filter, Is_true_true. tauto. }
  assert (Hnd : NoDup (l ++ rest)).
  { rewrite Hp. apply NoDup_filter, (pairwise_NoDup conflict conflict_sym); [apply conflict_refl|apply Hw]. }
  apply NoDup_app in Hnd as (Hndl & _ & _).
  destruct (mark_all_spec t l d1) as (d2 & E2 & _ & Hel); try done; [by rewrite Hv| |].
  { intros m Hm. rewrite Hv. apply Hin, elem_of_app. by left. }
  exists d1, d2, l. split_and!; try done.
  - intros -> m Hm. destruct (is_offline u before' m) eqn:Em; [|done]. exfalso.
    assert (Hr : m ∈ rest) by by apply Hin. unfold zlen in Hlen. simpl in Hlen.
    destruct rest; [by apply elem_of_nil in Hr|]. simpl in Hlen. destruct (0 <? limit) eqn:El; zbool; lia.
  - intros m. rewrite Hel, Hv. split.
    + intros [[[? ?]|(y & Hy & ->)] Hm]; [done|]. unfold is_offline in Hm. simpl in Hm.
      by rewrite andb_false_r in Hm.
    + intros (? & ? & ?). split; [by left|done].
Qed.

(** A page of a conversation is its [limit] oldest messages before a time (50 for a
    limit that is not positive), oldest first, the same rows whichever user asks; every
    message left out is at least as new as every message shown, so the newest messages of a
    conversation longer than a page are on no page. *)
Theorem conversation_oldest a b before limit (d d' : DB) r : healthy d ->
  let before' := if 0 <? before then before else INT64_MAX in
  get_conversation a b before limit d = (d', r) ->
  (forall m, in_conversation a b before' m = in_conversation b a before' m) /\
  view d' = view d /\ exists l rest, r = Ok (map to_data l) /\
    l ++ rest ≡ₚ filter (fun m => in_conversation a b before' m) (im_messages (view d)) /\
    zlen l = Z.min (if 0 <? limit then limit else 50) (zlen (l ++ rest)) /\
    Sorted (fun x y => msg_create_time x <= msg_create_time y) l /\
    forall x y, x ∈ l -> y ∈ rest -> msg_create_time x <= msg_create_time y.
Proof.
  intros Hd before' E. split.
  { intros m. unfold in_conversation. by rewrite orb_comm. }
  apply get_conversation_inv in E as (_ & Hv & l & -> & [(rest & Hp & Hlen & Hs & Hle)|[_ Hf]]); [|by apply Hf in Hd].
  split; [done|]. exists l, rest. split_and!; try done. rewrite Hlen. f_equal.
  destruct (0 <? limit) eqn:El; zbool; lia.
Qed.

(** A delivery acknowledgement that arrives after the reading one takes the message back
    from READ to DELIVERED, with its reading time kept: [mark_delivered] does not look at the
    status it replaces. *)
Theorem read_then_delivered m t1 t2 (d : DB) : healthy d -> messages_wf (view d) ->
  m ∈ im_messages (view d) ->
  exists d1 d2 m', mark_read (msg_id m) t1 d = (d1, Ok true) /\
    mark_delivered (msg_id m) t2 d1 = (d2, Ok true) /\
    read_at t1 m ∈ im_messages (view d1) /\ m' ∈ im_messages (view d2) /\
    msg_id m' = msg_id m /\ msg_status m' = DELIVERED /\ msg_read_time m' = t1 /\ msg_delivered_time m' = t2.
Proof.
  intros Hd Hw Hm. destruct (mark_read (msg_id m) t1 d) as [d1 r1] eqn:E1.
  pose proof (mark_read_spec _ _ _ _ _ E1) as (Hd1 & b & -> & Hb). specialize (Hd1 Hd).
  destruct b; [|destruct Hb as [_ Hb]; by destruct (Hb Hd (proj1 Hw) m Hm)].
  destruct Hb as (x & Hx & Hi & Hr). rewrite (message_row x m (view d)) in Hr; try done; [|apply Hw].
  pose proof (replaced_pairwise _ _ _ Hr (proj1 Hw)) as Hp1.
  assert (Hm1 : read_at t1 m ∈ im_messages (view d1)) by (apply (replaced_elem _ _ _ _ (proj1 Hw) Hr); by left).
  destruct (mark_delivered (msg_id m) t2 d1) as [d2 r2] eqn:E2.
  pose proof (mark_delivered_spec _ _ _ _ _ E2) as (_ & b & -> & Hb).
  destruct b; [|destruct Hb as [_ Hb]; by destruct (Hb Hd1 Hp1 _ Hm1)].
  destruct Hb as (y & Hy & Hiy & Hr2). rewrite (message_row y (read_at t1 m) (view d1)) in Hr2; try done.
  exists d1, d2, (delivered_at t2 (read_at t1 m)). split_and!; try done.
  apply (replaced_elem _ _ _ _ Hp1 Hr2). by left.
Qed.
End Properties.

(** * Witnesses *)

Module Witness.
Definition hello : SendRequest :=
  {| sq_sender_uid := "ada"; sq_receiver_uid := "bob"; sq_content := "hello"; sq_msg_type := TEXT;
     sq_now_ms := 100 |}.
Definition start : MemDb := mem_start empty_schema.
Definition ds : MemDb := fst (run_message (Send hello) start).
Definition dm : MemDb := fst (run_message (MarkRead 1 150) ds).
Definition sent : Message := with_msg_id 1 (requested hello).
End Witness.
Import Witness.

Lemma messages_reachable_wf_witness :
  map msg_status (im_messages (view dm)) = [READ] /\ messages_wf (view dm) /\
  (forall x, x ∈ im_messages (view ds) -> exists x', x' ∈ im_messages (view dm) /\ later x x') /\
  view dm = set_messages (im_messages (view dm)) (view start).
Proof.
  split; [vm_compute; reflexivity|]. apply (messages_reachable_wf start ds dm); [reflexivity| |].
  - apply rtc_once. exists (Send hello), (Ok tt). vm_compute. reflexivity.
  - apply rtc_once. exists (MarkRead 1 150), (Ok tt). vm_compute. reflexivity.
Defined.

Lemma start_wf : messages_wf (view start).
Proof. split; [apply pairwise_nil|by intros m ?%elem_of_nil]. Qed.

Lemma ds_wf : messages_wf (view ds).
Proof.
  eapply (message_runs_inv start ds); [|apply start_wf]. apply rtc_once.
  exists (Send hello), (Ok tt). vm_compute. reflexivity.
Qed.

Lemma send_text_answers_witness :
  snd (send_text_message hello start) =
    Ok {| sr_ok := true; sr_error_code := ""; sr_message := ""; sr_data := Some (to_data sent) |} /\
  exists m, inserted (requested hello) m (view start) (view ds) /\ msg_status m = SENT.
Proof.
  split; [vm_compute; reflexivity|].
  destruct (send_text_answers hello start ds _ start_wf eq_refl)
    as (res & Hr & [[Hv _]|[[Hv _]|(m & Hi & Hs & _)]]).
  - exfalso. apply (f_equal (fun s => length (im_messages s))) in Hv. vm_compute in Hv. discriminate.
  - exfalso. apply (f_equal (fun s => length (im_messages s))) in Hv. vm_compute in Hv. discriminate.
  - exists m. split; [exact Hi|exact Hs].
Defined.

Lemma offline_progress_witness :
  exists d1 d2 l, pull_offline "bob" 0 10 ds = (d1, Ok (map to_data l)) /\
    mark_all 120 (map to_data l) d1 = (d2, Ok (map (fun _ => true) l)).
Proof.
  destruct (offline_progress "bob" 0 10 120 ds) as (d1 & d2 & l & Hp & _ & _ & Hm & _);
    [reflexivity|apply ds_wf|]. exists d1, d2, l. split; [exact Hp|exact Hm].
Defined.

Lemma conversation_oldest_witness :
  snd (get_conversation "bob" "ada" 0 0 ds) = Ok [to_data sent] /\
  exists l rest, snd (get_conversation "bob" "ada" 0 0 ds) = Ok (map to_data l) /\
    zlen l = Z.min 50 (zlen (l ++ rest)).
Proof.
  split; [vm_compute; reflexivity|].
  assert (Hh : healthy ds) by reflexivity.
  destruct (conversation_oldest "bob" "ada" 0 0 ds _ _ Hh (surjective_pairing _))
    as (_ & _ & l & rest & Hr & _ & Hz & _).
  exists l, rest. split; [exact Hr|exact Hz].
Defined.

Lemma read_then_delivered_witness :
  exists d1 d2 m', mark_read 1 150 ds = (d1, Ok true) /\ mark_delivered 1 160 d1 = (d2, Ok true) /\
    m' ∈ im_messages (view d2) /\ msg_status m' = DELIVERED /\ msg_read_time m' = 150.
Proof.
  destruct (read_then_delivered sent 150 160 ds) as (d1 & d2 & m' & H1 & H2 & _ & Hm & _ & Hs & Hr & _);
    [reflexivity|apply ds_wf|vm_compute; left|].
  exists d1, d2, m'. split; [exact H1|]. split; [exact H2|]. split; [exact Hm|]. split; [exact Hs|exact Hr].
Defined.
