(* ===== verification/Redis.v ===== *)
(** Redis as the gateway uses it: the commands of the repository's own client as the class
    [Redis], the behaviour the callers count on as [RedisLaws], and an in-memory instance that
    can go down in the middle of a sequence of commands.  RedisClient translates that client
    over hiredis and shows that it has this behaviour.

    Every command is atomic and may throw; one that throws may or may not have been
    executed.  The commands of one request are separate: nothing groups them. *)
From S2P Require Import Prelude.
From stdpp Require Import functions.
Open Scope Z_scope.

(** * The key space

    A key holds a hash or a set; a key whose collection is empty does not exist. *)
Record Keyspace := {
  hash_of : string -> gmap string string;
  set_of : string -> gset string
}.

Definition set_hash (k : string) (h : gmap string string) (s : Keyspace) : Keyspace :=
  {| hash_of := <[k := h]> (hash_of s); set_of := set_of s |}.
Definition set_set (k : string) (x : gset string) (s : Keyspace) : Keyspace :=
  {| hash_of := hash_of s; set_of := <[k := x]> (set_of s) |}.

Definition hset_eff k f v s := set_hash k (<[f := v]> (hash_of s k)) s.
Definition hdel_eff k f s := set_hash k (delete f (hash_of s k)) s.
Definition sadd_eff k x s := set_set k ({[x]} ∪ set_of s k) s.
Definition srem_eff k x s := set_set k (set_of s k ∖ {[x]}) s.
Definition del_eff k s := set_set k ∅ (set_hash k ∅ s).

(** A key that holds a value of the other kind makes a command throw (WRONGTYPE). *)
Definition hash_key (k : string) (s : Keyspace) : Prop := set_of s k = ∅.
Definition set_key (k : string) (s : Keyspace) : Prop := hash_of s k = ∅.

(** * Commands

    [hgetall] and [smembers] are read into an unordered container, which is then
    iterated: the list is in some order. *)
Class Redis (R : Type) := {
  get_connection : exec R unit;
  hset : string -> string -> string -> exec R unit;
  hget : string -> string -> exec R (option string);
  hgetall : string -> exec R (list (string * string));
  hdel : string -> string -> exec R unit;
  sadd : string -> string -> exec R unit;
  srem : string -> string -> exec R unit;
  smembers : string -> exec R (list string);
  scard : string -> exec R Z;
  del : string -> exec R unit
}.

(** [RedisManager::execute]: take a connection, or throw; run the commands on it. *)
Definition execute {R} `{Redis R} {A} (func : exec R A) : exec R A :=
  let* _ := get_connection in func.

Section Command.
Context {R K : Type} (view : R -> K) (healthy : R -> Prop).

(** What a command does: whatever happens, nothing or its effect; when it returns, its
    effect and an answer; it does return on a healthy connection and a key of its kind. *)
Definition command {A} (m : exec R A) (pre : K -> Prop) (eff : K -> K) (ans : K -> A -> Prop) : Prop :=
  forall d d' r, m d = (d', r) ->
    (healthy d -> healthy d') /\
    (view d' = view d \/ view d' = eff (view d)) /\
    (forall a, r = Ok a -> view d' = eff (view d) /\ ans (view d) a) /\
    (healthy d -> pre (view d) -> r <> Throw).

Lemma command_healthy {A} (m : exec R A) pre eff ans d :
  command m pre eff ans -> healthy d -> pre (view d) ->
  exists d' a, m d = (d', Ok a) /\ healthy d' /\ view d' = eff (view d) /\ ans (view d) a.
Proof.
  intros Hm Hd Hp. destruct (m d) as [d' r] eqn:E. destruct (Hm _ _ _ E) as (Hh & _ & Ha & Hr).
  destruct r as [a|]; [|by destruct Hr]. destruct (Ha a eq_refl). eauto 10.
Qed.
End Command.

Class RedisLaws (R : Type) `{Redis R} := {
  view : R -> Keyspace;
  healthy : R -> Prop;
  law_connection : command view healthy get_connection (fun _ => True) id (fun _ _ => True);
  law_hset k f v : command view healthy (hset k f v) (hash_key k) (hset_eff k f v) (fun _ _ => True);
  law_hget k f : command view healthy (hget k f) (hash_key k) id (fun s a => a = hash_of s k !! f);
  law_hgetall k : command view healthy (hgetall k) (hash_key k) id
    (fun s l => l ≡ₚ map_to_list (hash_of s k));
  law_hdel k f : command view healthy (hdel k f) (hash_key k) (hdel_eff k f) (fun _ _ => True);
  law_sadd k x : command view healthy (sadd k x) (set_key k) (sadd_eff k x) (fun _ _ => True);
  law_srem k x : command view healthy (srem k x) (set_key k) (srem_eff k x) (fun _ _ => True);
  law_smembers k : command view healthy (smembers k) (set_key k) id
    (fun s l => l ≡ₚ elements (set_of s k));
  law_scard k : command view healthy (scard k) (set_key k) id
    (fun s n => n = Z.of_nat (size (set_of s k)));
  law_del k : command view healthy (del k) (fun _ => True) (del_eff k) (fun _ _ => True)
}.

(** * Running commands on a healthy connection

    [wp m Q s]: from any healthy state with key space [s], [m] returns, the connection stays
    healthy, and [Q] holds of the answer and the key space reached. *)
Section Healthy.
Context {R : Type} `{RedisLaws R}.

Definition wp {A} (m : exec R A) (Q : A -> Keyspace -> Prop) (s : Keyspace) : Prop :=
  forall d, healthy d -> view d = s ->
  exists d' a, m d = (d', Ok a) /\ healthy d' /\ Q a (view d').

Lemma wp_ret {A} (a : A) (Q : A -> Keyspace -> Prop) s : Q a s -> wp (ret a) Q s.
Proof. intros HQ d Hd <-. by exists d, a. Qed.

Lemma wp_bind {A B} (m : exec R A) (k : A -> exec R B) (Q : B -> Keyspace -> Prop) s :
  wp m (fun a => wp (k a) Q) s -> wp (bind m k) Q s.
Proof.
  intros Hm d Hd Hs. destruct (Hm d Hd Hs) as (d1 & a & E & Hd1 & Hk).
  destruct (Hk d1 Hd1 eq_refl) as (d2 & b & E2 & ?). exists d2, b. by rewrite (bind_Ok _ _ _ _ _ E).
Qed.

Lemma wp_mono {A} (m : exec R A) (P Q : A -> Keyspace -> Prop) s :
  wp m P s -> (forall a s', P a s' -> Q a s') -> wp m Q s.
Proof. intros Hm HPQ d Hd Hs. destruct (Hm d Hd Hs) as (d' & a & ? & ? & ?). eauto 10. Qed.

Lemma wp_command {A} (m : exec R A) pre eff ans (Q : A -> Keyspace -> Prop) s :
  command view healthy m pre eff ans -> pre s -> (forall a, ans s a -> Q a (eff s)) -> wp m Q s.
Proof.
  intros Hm Hp HQ d Hd <-. destruct (command_healthy _ _ m pre eff ans d Hm Hd Hp)
    as (d' & a & E & Hd' & Hv & Ha). exists d', a. split_and!; try done. rewrite Hv. auto.
Qed.

Lemma wp_execute {A} (m : exec R A) (Q : A -> Keyspace -> Prop) s : wp m Q s -> wp (execute m) Q s.
Proof. intros Hm. apply wp_bind. eapply wp_command; [apply law_connection|done|done]. Qed.
End Healthy.

(** Runs the next command of a request. *)
Ltac wp_step :=
  lazymatch goal with
  | |- wp (bind _ _) _ _ => apply wp_bind; wp_step
  | |- wp (ret _) _ _ => apply wp_ret
  | |- wp (hset _ _ _) _ _ => eapply wp_command; [apply law_hset| |intros ? _]
  | |- wp (hget _ _) _ _ => eapply wp_command; [apply law_hget| |intros ? ->]
  | |- wp (hgetall _) _ _ => eapply wp_command; [apply law_hgetall| |
      let l := fresh "l" in let E := fresh "Hl" in intros l E; cbv beta in E]
  | |- wp (hdel _ _) _ _ => eapply wp_command; [apply law_hdel| |intros ? _]
  | |- wp (sadd _ _) _ _ => eapply wp_command; [apply law_sadd| |intros ? _]
  | |- wp (srem _ _) _ _ => eapply wp_command; [apply law_srem| |intros ? _]
  | |- wp (smembers _) _ _ => eapply wp_command; [apply law_smembers| |
      let l := fresh "l" in let E := fresh "Hl" in intros l E; cbv beta in E]
  | |- wp (scard _) _ _ => eapply wp_command; [apply law_scard| |intros ? ->]
  | |- wp (del _) _ _ => eapply wp_command; [apply law_del|done|intros ? _]
  end.

(** * An in-memory instance

    [budget]: the number of commands after which the connection is lost. *)
Module Mem.
Record t := { keys : Keyspace; budget : option nat }.

Definition empty : Keyspace := {| hash_of := fun _ => ∅; set_of := fun _ => ∅ |}.
Definition start : t := {| keys := empty; budget := None |}.

Definition run {A} (ok : Keyspace -> bool) (eff : Keyspace -> Keyspace) (ans : Keyspace -> A) : exec t A :=
  fun d =>
    match budget d with
    | Some O => (d, Throw)
    | b =>
        let d' := {| keys := keys d; budget := pred <$> b |} in
        if ok (keys d)
        then ({| keys := eff (keys d); budget := pred <$> b |}, Ok (ans (keys d)))
        else (d', Throw)
    end.

Definition is_hash (k : string) (s : Keyspace) : bool := bool_decide (set_of s k = ∅).
Definition is_set (k : string) (s : Keyspace) : bool := bool_decide (hash_of s k = ∅).

#[export] Instance mem_redis : Redis t := {
  get_connection := run (fun _ => true) id (fun _ => tt);
  hset k f v := run (is_hash k) (hset_eff k f v) (fun _ => tt);
  hget k f := run (is_hash k) id (fun s => hash_of s k !! f);
  hgetall k := run (is_hash k) id (fun s => map_to_list (hash_of s k));
  hdel k f := run (is_hash k) (hdel_eff k f) (fun _ => tt);
  sadd k x := run (is_set k) (sadd_eff k x) (fun _ => tt);
  srem k x := run (is_set k) (srem_eff k x) (fun _ => tt);
  smembers k := run (is_set k) id (fun s => elements (set_of s k));
  scard k := run (is_set k) id (fun s => Z.of_nat (size (set_of s k)));
  del k := run (fun _ => true) (del_eff k) (fun _ => tt)
}.

Lemma run_command {A} (ok : Keyspace -> bool) (pre : Keyspace -> Prop) eff
    (ans : Keyspace -> A) (spec : Keyspace -> A -> Prop) :
  (forall s, pre s -> ok s = true) -> (forall s, spec s (ans s)) ->
  command keys (fun d => budget d = None) (run ok eff ans) pre eff spec.
Proof.
  intros Hpre Hspec d d' r E. unfold run in E.
  destruct (budget d) as [[|n]|] eqn:Eb; simplify_eq/=.
  - split_and!; try done; auto.
  - destruct (ok (keys d)); simplify_eq/=; split_and!; try done; auto. intros a [= <-]. auto.
  - destruct (ok (keys d)) eqn:Eo; simplify_eq/=; split_and!; try done; auto.
    + intros a [= <-]. auto.
    + intros _ Hp. by rewrite Hpre in Eo.
Qed.

#[export] Instance mem_redis_laws : RedisLaws t.
Proof.
  refine {| view := keys; healthy d := budget d = None |};
    intros; apply run_command; try done; intros; by apply bool_decide_eq_true_2.
Defined.
End Mem.
