(* ===== verification/TokenStore.v ===== *)
(** The string keys of Redis, with their expiry, as the token manager uses them: the commands
    [SET], [GET], [EXISTS], [EXPIRE], [TTL], [DEL], [SADD] and [SREM] of
    [common/database/redis/redis_mgr.hpp] as the class [TokenStore], their documented
    behaviour as [TokenStoreLaws], and an in-memory instance.

    The store and the program read one clock, in nanoseconds; it does not advance while one
    operation runs. *)
From S2P Require Import Prelude Redis.
Open Scope Z_scope.

Inductive value := VStr (s : string) | VSet (x : gset string).
Record entry := { e_value : value; e_deadline : option Z }.

(** The time, and the keys; a key past its deadline does not exist. *)
Definition store : Type := Z * gmap string entry.

Definition live (t : Z) (e : entry) : Prop := match e_deadline e with None => True | Some x => t < x end.
#[export] Instance live_dec t e : Decision (live t e).
Proof. unfold live. destruct (e_deadline e); apply _. Defined.

Definition found (s : store) (k : string) : option entry :=
  e ← s.2 !! k; if decide (live s.1 e) then Some e else None.
Definition text_at (s : store) (k : string) : option string :=
  match e_value <$> found s k with Some (VStr v) => Some v | _ => None end.
Definition set_at (s : store) (k : string) : gset string :=
  match e_value <$> found s k with Some (VSet x) => x | _ => ∅ end.

(** The key is of the kind the command works on. *)
Definition text_key (k : string) (s : store) : Prop := forall x, e_value <$> found s k <> Some (VSet x).
Definition member_key (k : string) (s : store) : Prop := forall v, e_value <$> found s k <> Some (VStr v).

(** Effects.  [SET] drops the deadline; [EXPIRE] with a time that is not positive deletes. *)
Definition put (k : string) (v : value) (x : option Z) (s : store) : store :=
  (s.1, <[k := {| e_value := v; e_deadline := x |}]> s.2).
Definition drop_key (k : string) (s : store) : store := (s.1, delete k s.2).
Definition expire_eff (k : string) (seconds : Z) (s : store) : store :=
  match found s k with
  | None => s
  | Some e => if 0 <? seconds then put k (e_value e) (Some (s.1 + seconds * 1000000000)) s else drop_key k s
  end.
(** A set keeps its deadline; an empty one does not exist. *)
Definition put_set (k : string) (x : gset string) (s : store) : store :=
  if decide (x = ∅) then drop_key k s else put k (VSet x) (found s k ≫= e_deadline) s.

(** [TTL]: -2 without the key, -1 without a deadline, else the seconds left, to the nearest or
    to the next lower integer. *)
Definition ttl_answer (k : string) (s : store) (r : Z) : Prop :=
  match found s k with
  | None => r = -2
  | Some e =>
      match e_deadline e with
      | None => r = -1
      | Some x => 0 <= r /\ (r - 1) * 1000000000 < x - s.1 < (r + 1) * 1000000000
      end
  end.

Class TokenStore (D : Type) := {
  st_clock : D -> Z;
  st_connection : exec D unit;
  st_set : string -> string -> exec D unit;
  st_get : string -> exec D (option string);
  st_exists : string -> exec D bool;
  st_expire : string -> Z -> exec D unit;
  st_ttl : string -> exec D Z;
  st_del : string -> exec D unit;
  st_sadd : string -> string -> exec D unit;
  st_srem : string -> string -> exec D unit
}.

(** [RedisManager::execute]. *)
Definition st_execute {D} `{TokenStore D} {A} (func : exec D A) : exec D A :=
  let* _ := st_connection in func.

Class TokenStoreLaws (D : Type) `{TokenStore D} := {
  st_view : D -> store;
  st_healthy : D -> Prop;
  st_law_clock d : st_clock d = (st_view d).1;
  st_law_connection : command st_view st_healthy st_connection (fun _ => True) id (fun _ _ => True);
  st_law_set k v : command st_view st_healthy (st_set k v) (fun _ => True) (put k (VStr v) None) (fun _ _ => True);
  st_law_get k : command st_view st_healthy (st_get k) (text_key k) id (fun s a => a = text_at s k);
  st_law_exists k : command st_view st_healthy (st_exists k) (fun _ => True) id
    (fun s b => b = bool_decide (is_Some (found s k)));
  st_law_expire k n : command st_view st_healthy (st_expire k n) (fun _ => True) (expire_eff k n) (fun _ _ => True);
  st_law_ttl k : command st_view st_healthy (st_ttl k) (fun _ => True) id (ttl_answer k);
  st_law_del k : command st_view st_healthy (st_del k) (fun _ => True) (drop_key k) (fun _ _ => True);
  st_law_sadd k x : command st_view st_healthy (st_sadd k x) (member_key k)
    (fun s => put_set k ({[x]} ∪ set_at s k) s) (fun _ _ => True);
  st_law_srem k x : command st_view st_healthy (st_srem k x) (member_key k)
    (fun s => put_set k (set_at s k ∖ {[x]}) s) (fun _ _ => True)
}.

(** * Lemmas *)

Lemma found_put k k' v x s : found (put k v x s) k' =
  if decide (k = k') then if decide (live s.1 {| e_value := v; e_deadline := x |})
                          then Some {| e_value := v; e_deadline := x |} else None
  else found s k'.
Proof.
  unfold found, put. simpl. destruct (decide (k = k')) as [->|Hne]; [by rewrite lookup_insert_eq|].
  by rewrite lookup_insert_ne.
Qed.

Lemma found_drop k k' s : found (drop_key k s) k' = if decide (k = k') then None else found s k'.
Proof.
  unfold found, drop_key. simpl. destruct (decide (k = k')) as [->|Hne]; [by rewrite lookup_delete_eq|].
  by rewrite lookup_delete_ne.
Qed.

Lemma found_put_set k k' x s : k <> k' -> found (put_set k x s) k' = found s k'.
Proof.
  intros Hne. unfold put_set. case_decide; [by rewrite found_drop, decide_False|by rewrite found_put, decide_False].
Qed.

Lemma found_expire_ne k k' n s : k <> k' -> found (expire_eff k n s) k' = found s k'.
Proof.
  intros Hne. unfold expire_eff. destruct (found s k) as [e|]; [|done].
  case_match; [by rewrite found_put, decide_False|by rewrite found_drop, decide_False].
Qed.

Lemma text_at_found s k v x : found s k = Some {| e_value := VStr v; e_deadline := x |} -> text_at s k = Some v.
Proof. unfold text_at. by intros ->. Qed.

(** Running a command on a healthy connection, before the rest of a computation. *)
Lemma st_bind {D} `{TokenStoreLaws D} {A B} (m : exec D A) (k : A -> exec D B) pre eff ans d :
  command st_view st_healthy m pre eff ans -> st_healthy d -> pre (st_view d) ->
  exists d' a, bind m k d = k a d' /\ m d = (d', Ok a) /\ st_healthy d' /\ st_view d' = eff (st_view d) /\ ans (st_view d) a.
Proof.
  intros Hm Hd Hp. destruct (command_healthy _ _ m pre eff ans d Hm Hd Hp) as (d' & a & E & ? & ? & ?).
  exists d', a. by rewrite (bind_Ok _ _ _ _ _ E).
Qed.

(** * An in-memory instance *)
Module MemStore.
Record t := { contents : store; up : bool }.

Definition run {A} (ok : store -> bool) (eff : store -> store) (ans : store -> A) : exec t A := fun d =>
  if up d && ok (contents d)
  then ({| contents := eff (contents d); up := true |}, Ok (ans (contents d))) else (d, Throw).

Definition is_text (k : string) (s : store) : bool :=
  match e_value <$> found s k with Some (VSet _) => false | _ => true end.
Definition is_members (k : string) (s : store) : bool :=
  match e_value <$> found s k with Some (VStr _) => false | _ => true end.
Definition ttl_of (k : string) (s : store) : Z :=
  match found s k with
  | None => -2
  | Some e => match e_deadline e with None => -1 | Some x => (x - s.1) / 1000000000 end
  end.

#[export] Instance mem_store : TokenStore t := {
  st_clock d := (contents d).1;
  st_connection := run (fun _ => true) id (fun _ => tt);
  st_set k v := run (fun _ => true) (put k (VStr v) None) (fun _ => tt);
  st_get k := run (is_text k) id (fun s => text_at s k);
  st_exists k := run (fun _ => true) id (fun s => bool_decide (is_Some (found s k)));
  st_expire k n := run (fun _ => true) (expire_eff k n) (fun _ => tt);
  st_ttl k := run (fun _ => true) id (ttl_of k);
  st_del k := run (fun _ => true) (drop_key k) (fun _ => tt);
  st_sadd k x := run (is_members k) (fun s => put_set k ({[x]} ∪ set_at s k) s) (fun _ => tt);
  st_srem k x := run (is_members k) (fun s => put_set k (set_at s k ∖ {[x]}) s) (fun _ => tt)
}.

Lemma run_store_command {A} (ok : store -> bool) (pre : store -> Prop) eff (ans : store -> A) (spec : store -> A -> Prop) :
  (forall s, pre s -> ok s = true) -> (forall s, spec s (ans s)) ->
  command contents (fun d => up d = true) (run ok eff ans) pre eff spec.
Proof.
  intros Hpre Hspec d d' r E. unfold run in E. destruct (up d) eqn:Eu; simpl in E.
  - destruct (ok (contents d)) eqn:Eo; simplify_eq/=; split_and!; try done; auto.
    + intros a [= <-]. auto.
    + intros _ Hp. by rewrite Hpre in Eo.
  - simplify_eq/=. split_and!; try done; auto; congruence.
Qed.

#[export] Instance mem_store_laws : TokenStoreLaws t.
Proof.
  refine {| st_view := contents; st_healthy d := up d = true |}; [done|..]; intros; apply run_store_command; try done.
  - intros s Hs. unfold is_text. destruct (e_value <$> _) as [[]|] eqn:E; try done. by apply Hs in E.
  - intros s. unfold ttl_answer, ttl_of. destruct (found s k) as [e|] eqn:E; [|done].
    unfold found in E. destruct (s.2 !! k); [|done]. simpl in E. case_decide as Hl; [|done]. simplify_eq.
    unfold live in Hl. destruct (e_deadline e) as [x|]; [|done].
    pose proof (Z.div_mod (x - s.1) 1000000000 ltac:(lia)). pose proof (Z.mod_pos_bound (x - s.1) 1000000000 ltac:(lia)).
    split; [apply Z.div_pos; lia|]. lia.
  - intros s Hs. unfold is_members. destruct (e_value <$> _) as [[]|] eqn:E; try done. by apply Hs in E.
  - intros s Hs. unfold is_members. destruct (e_value <$> _) as [[]|] eqn:E; try done. by apply Hs in E.
Defined.
End MemStore.
