(* ===== verification/Json.v ===== *)
(** The JSON values the gateway reads and writes (nlohmann::json, a third-party library):
    building an object, printing, parsing and reading members.  [None] stands for a thrown
    exception. *)
From S2P Require Import Prelude.
From Stdlib Require Import Ascii.
Open Scope Z_scope.

(** What the code builds values from. *)
Inductive jval :=
| JNull
| JBool (b : bool)
| JInt (z : Z)
| JStr (s : string)
| JArr (l : list jval)
| JObj (l : list (string * jval)).

(** The members of an object, keys distinct. *)
Abbreviation members := (list (string * jval)).

(** ** Decidable equality and an encoding, through trees *)

Fixpoint to_tree (v : jval) : gen_tree (bool + Z + string) :=
  match v with
  | JNull => GenNode 0 []
  | JBool b => GenLeaf (inl (inl b))
  | JInt z => GenLeaf (inl (inr z))
  | JStr s => GenLeaf (inr s)
  | JArr l => GenNode 1 (map to_tree l)
  | JObj l => GenNode 2 (map (fun p => GenNode 3 [GenLeaf (inr p.1); to_tree p.2]) l)
  end.

Definition key_of_tree (t : gen_tree (bool + Z + string)) : string :=
  match t with GenNode _ (GenLeaf (inr k) :: _) => k | _ => EmptyString end.
Definition value_of_tree (t : gen_tree (bool + Z + string)) : gen_tree (bool + Z + string) :=
  match t with GenNode _ (_ :: v :: _) => v | _ => GenNode 0 [] end.

Fixpoint of_tree (t : gen_tree (bool + Z + string)) : jval :=
  match t with
  | GenLeaf (inl (inl b)) => JBool b
  | GenLeaf (inl (inr z)) => JInt z
  | GenLeaf (inr s) => JStr s
  | GenNode 1 l => JArr (map of_tree l)
  | GenNode 2 l => JObj (map (fun u => (key_of_tree u,
      match u with GenNode _ (_ :: v :: _) => of_tree v | _ => JNull end)) l)
  | GenNode _ _ => JNull
  end.

Lemma of_to_tree : forall v, of_tree (to_tree v) = v.
Proof.
  fix IH 1. intros [|b|z|s|l|l]; [reflexivity..| |]; simpl; f_equal.
  - induction l as [|v l IHl]; [reflexivity|]. simpl. rewrite (IH v), IHl. reflexivity.
  - induction l as [|[k v] l IHl]; [reflexivity|]. simpl. rewrite (IH v), IHl. reflexivity.
Qed.

#[export] Instance jval_eq_dec : EqDecision jval.
Proof.
  intros v w. destruct (decide (to_tree v = to_tree w)) as [E|E]; [left|right].
  - by rewrite <- (of_to_tree v), E, of_to_tree.
  - by intros ->.
Defined.

#[export] Instance jval_countable : Countable jval := inj_countable' to_tree of_tree of_to_tree.

(** ** Members *)

Definition member (k : string) (l : members) : option jval :=
  snd <$> find (fun p => bool_decide (p.1 = k)) l.

(** [j[k] = v]. *)
Fixpoint put_member (k : string) (v : jval) (l : members) : members :=
  match l with
  | [] => [(k, v)]
  | (k', v') :: l' => if bool_decide (k' = k) then (k, v) :: l' else (k', v') :: put_member k v l'
  end.

(** Every text of a value, keys included. *)
Fixpoint val_texts (v : jval) : list string :=
  match v with
  | JStr s => [s]
  | JArr l => concat (map val_texts l)
  | JObj l => concat (map (fun p => p.1 :: val_texts p.2) l)
  | JNull | JBool _ | JInt _ => []
  end.
Definition texts (l : members) : list string := concat (map (fun p => val_texts p.2) l).

(** ** The library

    [value_str j k d], [value_int], [value_u64] and [value_bool] are [j.value(k, d)] at the
    type of [d]; [get_str], [get_int] and [get_bool] are [j[k]] converted; [int_member] is
    [j.contains(k) && j[k].is_number_integer()] with [j[k].get<int>()]; [find_member] is
    [j.contains(k)] with [j[k]], a number as the integer [get<int>] reads. *)
Class Json := {
  json : Type;
  obj : members -> json;
  dump : json -> option string;
  parse : string -> option json;
  value_str : json -> string -> string -> option string;
  value_int : json -> string -> Z -> option Z;
  value_u64 : json -> string -> Z -> option Z;
  value_bool : json -> string -> bool -> option bool;
  int_member : json -> string -> option Z;
  find_member : json -> string -> option jval;
  get_str : json -> string -> option string;
  get_int : json -> string -> option Z;
  get_bool : json -> string -> option bool;
  put_bool : json -> string -> bool -> option json;
  is_null : json -> bool;
  valid_text : string -> Prop      (* UTF-8: [dump] throws on other texts *)
}.

(** ASCII text is UTF-8. *)
Fixpoint ascii_text (s : string) : bool :=
  match s with EmptyString => true | String (Ascii _ _ _ _ _ _ _ b7) s' => negb b7 && ascii_text s' end.

Class JsonLaws `{Json} := {
  law_dump l : (forall s, s ∈ texts l -> valid_text s) -> exists t, dump (obj l) = Some t;
  law_parse l t : dump (obj l) = Some t -> parse t = Some (obj l);
  law_value_str l k dflt : value_str (obj l) k dflt =
    match member k l with Some (JStr s) => Some s | Some _ => None | None => Some dflt end;
  law_value_int l k dflt z : member k l = Some (JInt z) -> value_int (obj l) k dflt = Some z;
  law_find_member l k : find_member (obj l) k = member k l;
  law_get_str l k s : member k l = Some (JStr s) -> get_str (obj l) k = Some s;
  law_get_int l k z : member k l = Some (JInt z) -> get_int (obj l) k = Some z;
  law_get_bool l k b : member k l = Some (JBool b) -> get_bool (obj l) k = Some b;
  law_put_bool l k b : put_bool (obj l) k b = Some (obj (put_member k (JBool b) l));
  law_is_null l : is_null (obj l) = false;
  law_ascii s : ascii_text s = true -> valid_text s
}.

(** * An instance: an object is printed as the digits of its code *)
Module Toy.
Fixpoint print_pos (p : positive) : string :=
  match p with
  | xH => EmptyString
  | xO q => String "0"%char (print_pos q)
  | xI q => String "1"%char (print_pos q)
  end.

Fixpoint read_pos (s : string) : positive :=
  match s with
  | String "0"%char s' => xO (read_pos s')
  | String _ s' => xI (read_pos s')
  | EmptyString => xH
  end.

Lemma read_print p : read_pos (print_pos p) = p.
Proof. induction p as [p IH|p IH|]; simpl; by rewrite ?IH. Qed.

(** [value] and [operator[]] at one type. *)
Definition value_as {A} (as_a : jval -> option A) (l : members) (k : string) (dflt : A) : option A :=
  match member k l with Some v => as_a v | None => Some dflt end.
Definition get_as {A} (as_a : jval -> option A) (l : members) (k : string) : option A :=
  match member k l with Some v => as_a v | None => None end.
Definition as_str (v : jval) : option string := match v with JStr s => Some s | _ => None end.
Definition as_int (v : jval) : option Z := match v with JInt z => Some z | _ => None end.
Definition as_bool (v : jval) : option bool := match v with JBool b => Some b | _ => None end.

#[export] Instance toy_json : Json := {
  json := members;
  obj l := l;
  dump l := Some (print_pos (encode l));
  parse s := decode (read_pos s);
  value_str := value_as as_str;
  value_int := value_as as_int;
  value_u64 l k d := u64 <$> value_as as_int l k d;
  value_bool := value_as as_bool;
  int_member := get_as as_int;
  find_member l k := member k l;
  get_str := get_as as_str;
  get_int := get_as as_int;
  get_bool := get_as as_bool;
  put_bool l k b := Some (put_member k (JBool b) l);
  is_null _ := false;
  valid_text _ := True
}.

#[export] Instance toy_json_laws : JsonLaws.
Proof.
  split; simpl; unfold value_as, get_as; try done; [by eauto|..].
  1: intros l t [= <-]; by rewrite read_print, decode_encode.
  all: intros l k; intros; by match goal with H : _ = _ |- _ => rewrite H | _ => case_match end.
Defined.
End Toy.
