(* ===== verification/ConnectionManager.v ===== *)
(** The connection registry of the gateway
    ([gateway/connection_manager/connection_manager.cpp]): which sessions each user has on
    which devices, kept in Redis, and the closing of an older session on the same platform.

    A [SessionPtr] is represented by the id of its session, which [generate_id] makes unique
    in the process.  The web socket server is the set of the ids it has registered;
    [session->close()] only posts a task, so the sessions on which it was called are
    recorded in [closing]. *)
From S2P Require Import Prelude Text Redis Json.
From stdpp Require Import functions.
From Stdlib Require Import Ascii.
Open Scope Z_scope.

(** * Platforms ([gateway/auth/multi_platform_auth.hpp]) *)

Inductive PlatformType :=
| UNKNOWN | WEB | MiniApp | IOS | ANDROID | DESKTOP | MOBILE | ENUM_END.

#[export] Instance PlatformType_eq_dec : EqDecision PlatformType.
Proof. solve_decision. Defined.

#[export] Instance PlatformType_countable : Countable PlatformType.
Proof.
  refine (inj_countable'
    (fun p => match p with UNKNOWN => 0%nat | WEB => 1%nat | MiniApp => 2%nat | IOS => 3%nat
              | ANDROID => 4%nat | DESKTOP => 5%nat | MOBILE => 6%nat | ENUM_END => 7%nat end)
    (fun n => match n with 0%nat => UNKNOWN | 1%nat => WEB | 2%nat => MiniApp | 3%nat => IOS
              | 4%nat => ANDROID | 5%nat => DESKTOP | 6%nat => MOBILE | _ => ENUM_END end) _).
  by intros [].
Defined.

Definition is_one_of (s : string) (l : list string) : bool := bool_decide (s ∈ l).

Definition get_platform_type (platform_str : string) : PlatformType :=
  if is_one_of platform_str ["web"; "Web"; "WEB"]%string then WEB
  else if is_one_of platform_str ["miniapp"; "mini_app"; "Miniapp"; "MiniApp"; "MINIAPP"]%string then MiniApp
  else if is_one_of platform_str ["ios"; "iOS"; "IOS"]%string then IOS
  else if is_one_of platform_str ["android"; "Android"; "ANDROID"]%string then ANDROID
  else if is_one_of platform_str ["desktop"; "Desktop"; "DESKTOP"]%string then DESKTOP
  else if is_one_of platform_str ["mobile"; "Mobile"; "MOBILE"]%string then MOBILE
  else UNKNOWN.

Definition platforms : list string :=
  ["web"; "android"; "ios"; "desktop"; "miniapp"; "mobile"; "unkown"]%string.

(** [PlatformTokenStrategy::PlatformTokenStrategy]: the member [enable_multi_device] of each
    configuration; [get] is [config.get<bool>(key, default)]. *)
Definition load_multi_device (get : string -> bool -> bool) : gmap PlatformType bool :=
  foldl (fun m platform =>
    let prefix := ("PlatformTokenStrategy." +:+ platform +:+ ".")%string in
    <[get_platform_type platform := get (prefix +:+ "enable_multi_device")%string false]> m)
    ∅ platforms.

(** [get_platform_token_config(platform).enable_multi_device]: [operator[]] creates a missing
    entry with all members zero. *)
Definition multi_device (configs : gmap PlatformType bool) (platform : string) : bool :=
  default false (configs !! get_platform_type platform).

(** * Device session information *)

Record DeviceSessionInfo := {
  session_id : string;
  device_id : string;
  platform : string;
  connect_time : Z      (* nanoseconds since the epoch *)
}.

Section JsonForm.
Context `{Json}.

(** [DeviceSessionInfo::to_json]: milliseconds, [duration_cast] truncates. *)
Definition info_members (i : DeviceSessionInfo) : members :=
  [("session_id", JStr (session_id i)); ("device_id", JStr (device_id i));
   ("platform", JStr (platform i)); ("connect_time", JInt (Z.quot (connect_time i) 1000000))]%string.

Definition to_json (i : DeviceSessionInfo) : json := obj (info_members i).

(** [DeviceSessionInfo::from_json]. *)
Definition from_json (j : json) : option DeviceSessionInfo :=
  sid ← value_str j "session_id" ""; dev ← value_str j "device_id" "";
  plat ← value_str j "platform" ""; ms ← value_int j "connect_time" 0;
  Some {| session_id := sid; device_id := dev; platform := plat; connect_time := ms * 1000000 |}.

(** [DeviceSessionInfo::from_json(nlohmann::json::parse(value))]. *)
Definition parse_info (value : string) : option DeviceSessionInfo :=
  j ← parse value; from_json j.
End JsonForm.

(** [s.find(p) != npos]. *)
Fixpoint contains (p s : string) : bool :=
  String.prefix p s || match s with EmptyString => false | String _ s' => contains p s' end.

(** The text before the first colon, [field.substr(0, field.find(':'))]; [None] without one. *)
Fixpoint before_colon (s : string) : option string :=
  match s with
  | EmptyString => None
  | String c s' => if Ascii.eqb c ":" then Some EmptyString else String c <$> before_colon s'
  end.

Definition generate_redis_key (prefix id : string) : string := (prefix +:+ ":" +:+ id)%string.
Definition generate_device_field (device platform : string) : string := (device +:+ ":" +:+ platform)%string.

Definition sessions_key (u : string) : string := generate_redis_key "user:sessions" u.
Definition devices_key (u : string) : string := generate_redis_key "user:platform" u.
Definition session_user_key (sid : string) : string := generate_redis_key "session:user" sid.

(** * The manager *)

Record Manager (R : Type) := {
  redis : R;
  websocket_server : option (gset string);   (* null, or the ids registered *)
  closing : list string                      (* sessions on which close() was called *)
}.
Arguments redis {R} _.
Arguments websocket_server {R} _.
Arguments closing {R} _.

Section Manager.
Context {R : Type} `{Redis R} `{Json} (configs : gmap PlatformType bool).

Definition on_redis {A} (m : exec R A) : exec (Manager R) A := fun w =>
  let '(d, r) := execute m (redis w) in
  ({| redis := d; websocket_server := websocket_server w; closing := closing w |}, r).

Definition throw {D A} : exec D A := fun d => (d, Throw).
Definition or_throw {D A} (o : option A) : exec D A :=
  match o with Some a => ret a | None => throw end.

(** [ConnectionManager::disconnect_session]. *)
Definition disconnect_session (sid : string) : exec (Manager R) unit := fun w =>
  match websocket_server w with
  | Some registered =>
      if decide (sid ∈ registered)
      then ({| redis := redis w; websocket_server := websocket_server w;
               closing := closing w ++ [sid] |}, Ok tt)
      else (w, Ok tt)
  | None => (w, Ok tt)
  end.

Definition same_platform_field (dev plat field : string) : bool :=
  contains (":" +:+ plat)%string field && negb (contains dev field).

(** [ConnectionManager::check_and_kick_same_platform]. *)
Definition find_old_session (user dev plat : string) : exec R string :=
  let* sessions := hgetall (sessions_key user) in
  match find (fun p => same_platform_field dev plat p.1) sessions with
  | Some (_, value) =>
      let* session_info := or_throw (parse value) in
      or_throw (value_str session_info "session_id" "")
  | None => ret EmptyString
  end.

Definition check_and_kick_same_platform (user dev plat : string) : exec (Manager R) string :=
  if multi_device configs plat then ret EmptyString
  else fun w =>
    let '(w', a) := try_catch (
      let* old_session_id := on_redis (find_old_session user dev plat) in
      if bool_decide (old_session_id = EmptyString) then ret EmptyString
      else let* _ := disconnect_session old_session_id in ret old_session_id) EmptyString w in
    (w', Ok a).

(** The commands of [add_connection], in one [execute]. *)
Definition save_connection (user dev plat sid text : string) : exec R unit :=
  let field := generate_device_field dev plat in
  let* _ := hset (sessions_key user) field text in
  let* _ := sadd (devices_key user) field in
  let* _ := hset (session_user_key sid) "user_id" user in
  let* _ := hset (session_user_key sid) "device_id" dev in
  let* _ := hset (session_user_key sid) "platform" plat in
  sadd "online:users" user.

(** [ConnectionManager::add_connection]; [now] is the clock at the call. *)
Definition add_connection (user dev plat sid : string) (now : Z) : Manager R -> Manager R * bool :=
  try_catch (
    let* _ := check_and_kick_same_platform user dev plat in
    let session_info := {| session_id := sid; device_id := dev; platform := plat; connect_time := now |} in
    let* _ := on_redis (
      let* text := or_throw (dump (to_json session_info)) in
      save_connection user dev plat sid text) in
    ret true) false.

(** [ConnectionManager::remove_connection(user_id, device_id)]. *)
Definition of_device (dev : string) (p : string * string) : bool :=
  bool_decide (before_colon p.1 = Some dev).

Definition remove_entry (user field value : string) : exec R unit :=
  let* _ := hdel (sessions_key user) field in
  let* _ := srem (devices_key user) field in
  let* session_info := or_throw (parse_info value) in
  del (session_user_key (session_id session_info)).

Definition remove_device (user dev : string) : exec R unit :=
  let* sessions := hgetall (sessions_key user) in
  let* _ := match find (of_device dev) sessions with
            | Some (field, value) => remove_entry user field value
            | None => ret tt
            end in
  let* after_sessions := hgetall (sessions_key user) in
  match after_sessions with [] => srem "online:users" user | _ => ret tt end.

Definition remove_connection (user dev : string) (w : Manager R) : Manager R :=
  (try_catch (on_redis (remove_device user dev)) tt w).1.

(** [user_info["..."]] on the unordered map. *)
Definition entry (l : list (string * string)) (k : string) : string :=
  default EmptyString (snd <$> find (fun p => bool_decide (p.1 = k)) l).

(** [ConnectionManager::remove_connection(session)]. *)
Definition remove_connection_by_session (sid : string) (w : Manager R) : Manager R :=
  (try_catch (
    let* user_info := on_redis (hgetall (session_user_key sid)) in
    let user := entry user_info "user_id" in
    let dev := entry user_info "device_id" in
    if bool_decide (user = EmptyString) then ret tt
    else fun w => (remove_connection user dev w, Ok tt)) tt w).1.

(** [ConnectionManager::get_session]. *)
Definition get_session (user dev plat : string) : Manager R -> Manager R * option string :=
  try_catch (
    let* result := on_redis (hget (sessions_key user) (generate_device_field dev plat)) in
    match result with
    | Some value =>
        let* session_info := or_throw (parse_info value) in
        fun w => (w, Ok (registered ← websocket_server w;
                         if decide (session_id session_info ∈ registered)
                         then Some (session_id session_info) else None))
    | None => ret None
    end) None.

(** [ConnectionManager::get_user_sessions]: an entry that does not parse is skipped. *)
Definition get_user_sessions (user : string) : Manager R -> Manager R * list DeviceSessionInfo :=
  try_catch (
    let* session_map := on_redis (hgetall (sessions_key user)) in
    ret (omap (fun p => parse_info p.2) session_map)) [].

Definition get_online_users : Manager R -> Manager R * list string :=
  try_catch (on_redis (smembers "online:users")) [].

Definition get_online_count : Manager R -> Manager R * Z :=
  try_catch (let* count := on_redis (scard "online:users") in ret (u64 count)) 0.

(** [ConnectionManager::is_user_online_on_platform]. *)
Definition is_user_online_on_platform (user plat : string) : Manager R -> Manager R * bool :=
  try_catch (
    let* result := on_redis (smembers (devices_key user)) in
    ret (existsb (contains (":" +:+ plat)%string) result)) false.
End Manager.

(** * Lemmas: texts *)

Lemma prefix_cons c p d s :
  String.prefix (String c p) (String d s) = bool_decide (c = d) && String.prefix p s.
Proof. simpl. destruct (ascii_dec c d); case_bool_decide; done. Qed.

Lemma prefix_app p t : String.prefix p (p +:+ t) = true.
Proof. induction p as [|c p IH]; simpl; [by destruct t|]. destruct (ascii_dec c c); done. Qed.

Lemma prefix_spec p s : String.prefix p s = true <-> exists t, s = p +:+ t.
Proof.
  split; [|intros [t ->]; apply prefix_app]. revert s.
  induction p as [|c p IH]; intros s Hs; [by exists s|].
  destruct s as [|d s]; simpl in Hs; [done|]. destruct (ascii_dec c d) as [->|]; [|done].
  destruct (IH s Hs) as [t ->]. by exists t.
Qed.

Lemma contains_spec p s : contains p s = true <-> exists a b, s = a +:+ p +:+ b.
Proof.
  induction s as [|c s IH]; cbn [contains].
  - rewrite orb_false_r, prefix_spec. split.
    + intros [t ->]. by exists EmptyString, t.
    + intros (a & b & E). destruct a; [|done]. by exists b.
  - rewrite orb_true_iff, prefix_spec, IH. split.
    + intros [[t E]|(a & b & ->)]; [by exists EmptyString, t|by exists (String c a), b].
    + intros (a & b & E). destruct a as [|d a]; [left; by exists b|]. rewrite app_cons in E. simplify_eq. right. eauto.
Qed.

Lemma contains_refl_app p t : contains p (p +:+ t) = true.
Proof. apply contains_spec. by exists EmptyString, t. Qed.

Lemma contains_suffix a p : contains p (a +:+ p) = true.
Proof. apply contains_spec. exists a, EmptyString. by rewrite string_app_nil_r. Qed.

Abbreviation no_colon := (free_of ":"%char).

Lemma before_colon_field dev plat :
  no_colon dev = true -> before_colon (generate_device_field dev plat) = Some dev.
Proof.
  unfold generate_device_field. induction dev as [|c dev IH]; [done|].
  cbn [free_of]. intros [Hc Hd]%andb_true_iff. apply negb_true_iff in Hc.
  rewrite app_cons. cbn [before_colon]. by rewrite Hc, IH.
Qed.

(** Whatever the field, the text before its first colon has none. *)
Lemma before_colon_free f dev : before_colon f = Some dev -> no_colon dev = true.
Proof.
  revert dev. induction f as [|c f IH]; intros dev; simpl; [done|].
  destruct (Ascii.eqb c ":"%char) eqn:Ec; [by intros [= <-]|].
  destruct (before_colon f) as [d|]; [|done]. intros [= <-]. simpl. rewrite Ec. by apply IH.
Qed.

(** With no colon in either text, ":q" starts a part of "d:p" only at the colon. *)
Lemma contains_colon d p q : no_colon d = true -> no_colon p = true ->
  contains (":" +:+ q) (generate_device_field d p) = String.prefix q p.
Proof.
  intros Hd Hp. unfold generate_device_field.
  assert (Hne : forall c, negb (c =? ":")%char = true -> bool_decide (":"%char = c) = false).
  { intros c Hc. apply bool_decide_eq_false. by intros <-. }
  induction d as [|c d IH].
  - assert (Hn : contains (String ":" q) p = false).
    { clear Hd. induction p as [|c p IH]; [done|]. cbn [free_of] in Hp.
      apply andb_true_iff in Hp as [Hc Hp]. cbn [contains]. by rewrite prefix_cons, Hne, IH. }
    change (String.prefix (String ":" q) (String ":" p) || contains (String ":" q) p = String.prefix q p).
    by rewrite Hn, orb_false_r, prefix_cons, bool_decide_eq_true_2.
  - cbn [free_of] in Hd. apply andb_true_iff in Hd as [Hc Hd]. rewrite app_cons.
    change (String.prefix (String ":" q) (String c (d +:+ ":" +:+ p)) ||
            contains (":" +:+ q) (d +:+ ":" +:+ p) = String.prefix q p).
    by rewrite prefix_cons, Hne, IH.
Qed.

(** * Lemmas: stored sessions *)

Section StoredForm.
Context `{JsonLaws}.

(** The session information as it is read back: the time in whole milliseconds. *)
Definition stored (i : DeviceSessionInfo) : DeviceSessionInfo :=
  {| session_id := session_id i; device_id := device_id i; platform := platform i;
     connect_time := Z.quot (connect_time i) 1000000 * 1000000 |}.

Definition valid_info (i : DeviceSessionInfo) : Prop :=
  valid_text (session_id i) /\ valid_text (device_id i) /\ valid_text (platform i).

Lemma dump_info i : valid_info i -> exists t, dump (to_json i) = Some t.
Proof.
  intros (? & ? & ?). apply law_dump. intros s Hs. simpl in Hs.
  repeat (apply elem_of_cons in Hs as [->|Hs]; [done|]). by apply elem_of_nil in Hs.
Qed.

Lemma parse_dumped i t : dump (to_json i) = Some t -> parse_info t = Some (stored i).
Proof.
  intros Ht. unfold parse_info. rewrite (law_parse _ _ Ht). simpl. unfold from_json.
  rewrite !law_value_str. simpl. by erewrite law_value_int.
Qed.

(** The session id the kick reads is the one [from_json] reads. *)
Lemma parse_info_id t i : parse_info t = Some i ->
  exists j, parse t = Some j /\ value_str j "session_id" "" = Some (session_id i).
Proof.
  unfold parse_info, from_json. destruct (parse t) as [j|]; [|done]. simpl.
  destruct (value_str j "session_id" "") as [a|] eqn:Ea; [|done]. simpl.
  destruct (value_str j "device_id" "") as [b|]; [|done]. simpl.
  destruct (value_str j "platform" "") as [c|]; [|done]. simpl.
  destruct (value_int j "connect_time" 0) as [ms|]; [|done]. intros [= <-]. eauto.
Qed.
End StoredForm.

(** * Lemmas: lists read from Redis *)

Lemma find_elem {A} (p : A -> bool) (l : list A) :
  match List.find p l with
  | Some x => x ∈ l /\ p x = true
  | None => forall x, x ∈ l -> p x = false
  end.
Proof.
  induction l as [|y l IH]; simpl; [by intros x ?%elem_of_nil|].
  destruct (p y) eqn:Ey; [split; [constructor|done]|].
  destruct (List.find p l) as [x|].
  - destruct IH. split; [by constructor|done].
  - intros x [->|Hx]%elem_of_cons; auto.
Qed.

Lemma find_hash (p : string * string -> bool) (l : list (string * string)) (h : gmap string string) :
  l ≡ₚ map_to_list h ->
  match List.find p l with
  | Some (f, v) => h !! f = Some v /\ p (f, v) = true
  | None => forall f v, h !! f = Some v -> p (f, v) = false
  end.
Proof.
  intros Hl. pose proof (find_elem p l) as Hf. destruct (List.find p l) as [[f v]|].
  - rewrite Hl in Hf. by rewrite elem_of_map_to_list in Hf.
  - intros f v Hv. apply Hf. rewrite Hl. by apply elem_of_map_to_list.
Qed.

Lemma entry_hash l (h : gmap string string) k :
  l ≡ₚ map_to_list h -> entry l k = default EmptyString (h !! k).
Proof.
  intros Hl. unfold entry.
  pose proof (find_hash (fun p => bool_decide (p.1 = k)) l h Hl) as Hf.
  destruct (List.find _ l) as [[f v]|]; simpl.
  - destruct Hf as [Hv Hk]. apply bool_decide_eq_true in Hk. simpl in Hk. subst. by rewrite Hv.
  - destruct (h !! k) as [v|] eqn:Ev; [|done]. specialize (Hf k v Ev).
    by apply bool_decide_eq_false in Hf.
Qed.

Lemma hash_empty (l : list (string * string)) (h : gmap string string) :
  l ≡ₚ map_to_list h -> (l = [] <-> h = ∅).
Proof.
  intros Hl. split; intros E; subst.
  - apply map_to_list_empty_iff. by apply Permutation_nil in Hl.
  - rewrite map_to_list_empty in Hl. by apply Permutation_nil_r in Hl.
Qed.

Lemma hash_filled (l : list (string * string)) (h : gmap string string) {A} (a b : A) :
  l ≡ₚ map_to_list h -> match l with [] => a | _ => b end = if decide (h = ∅) then a else b.
Proof.
  intros Hl%hash_empty. destruct (decide (h = ∅)) as [E|E].
  - by apply Hl in E as ->.
  - destruct l; [|done]. by destruct E; apply Hl.
Qed.

(** * Key spaces up to their contents *)

#[export] Instance keyspace_equiv : Equiv Keyspace := fun s t =>
  (forall k, hash_of s k = hash_of t k) /\ (forall k, set_of s k = set_of t k).

#[export] Instance keyspace_equivalence : Equivalence (≡@{Keyspace}).
Proof.
  split; [done|intros s t [? ?]; split; congruence|].
  intros s t u [? ?] [? ?]. split; congruence.
Qed.

#[export] Instance hash_of_proper : Proper ((≡) ==> (=) ==> (=)) hash_of.
Proof. intros s t [Hh _] k ? <-. apply Hh. Qed.

#[export] Instance set_of_proper : Proper ((≡) ==> (=) ==> (=)) set_of.
Proof. intros s t [_ Hs] k ? <-. apply Hs. Qed.

(** * The registry in a key space *)

Section Registry.
Context `{Json}.

(** The listed sessions of a user: field to stored text. *)
Definition entries (s : Keyspace) (user : string) : gmap string string := hash_of s (sessions_key user).
Definition online (s : Keyspace) : gset string := set_of s "online:users".

(** What a session is mapped to. *)
Definition mapping (user dev plat : string) : gmap string string :=
  <["platform" := plat]> (<["device_id" := dev]> (<["user_id" := user]> ∅)).

Record Inv (s : Keyspace) : Prop := {
  inv_devices u : set_of s (devices_key u) = dom (entries s u);
  inv_online u : u ∈ online s <-> entries s u <> ∅;
  inv_entry u f v : entries s u !! f = Some v -> exists i,
    parse_info v = Some i /\ f = generate_device_field (device_id i) (platform i) /\
    hash_of s (session_user_key (session_id i)) = mapping u (device_id i) (platform i);
  inv_hashes u : hash_key (sessions_key u) s /\ hash_key (session_user_key u) s;
  inv_sets u : set_key (devices_key u) s;
  inv_online_set : set_key "online:users" s
}.

#[export] Instance Inv_proper : Proper ((≡) ==> iff) Inv.
Proof.
  assert (Himp : forall s t, s ≡ t -> Inv s -> Inv t); [|intros s t E; split; by apply Himp].
  intros s t [Hh Hs] [H1 H2 H3 H4 H5 H6].
  split; unfold entries, online, hash_key, set_key in *; intros; rewrite <- ?Hh, <- ?Hs in *; eauto.
  destruct (H3 u f v) as (i & ? & ? & ?); [done|]. exists i. rewrite <- Hh. auto.
Qed.
End Registry.

(** Reads a key of a key space after some commands. *)
Lemma hash_set_hash k h s k' :
  hash_of (set_hash k h s) k' = if decide (k = k') then h else hash_of s k'.
Proof. done. Qed.
Lemma hash_set_set k x s k' : hash_of (set_set k x s) k' = hash_of s k'.
Proof. done. Qed.
Lemma set_set_set k x s k' : set_of (set_set k x s) k' = if decide (k = k') then x else set_of s k'.
Proof. done. Qed.
Lemma set_set_hash k h s k' : set_of (set_hash k h s) k' = set_of s k'.
Proof. done. Qed.

Ltac read_keys :=
  unfold entries, online, hash_key, set_key, hset_eff, hdel_eff, sadd_eff, srem_eff, del_eff in *;
  rewrite ?hash_set_set, ?set_set_hash, ?hash_set_hash, ?set_set_set;
  repeat (match goal with
          | |- context [decide (?a = ?b)] =>
              first [rewrite (decide_True (P := a = b)) by done
                    |rewrite (decide_False (P := a = b)) by done]
          end; rewrite ?hash_set_set, ?set_set_hash, ?hash_set_hash, ?set_set_set).

Lemma sessions_key_inj u v : sessions_key u = sessions_key v -> u = v.
Proof. by intros [=]. Qed.
Lemma devices_key_inj u v : devices_key u = devices_key v -> u = v.
Proof. by intros [=]. Qed.
Lemma session_user_key_inj u v : session_user_key u = session_user_key v -> u = v.
Proof. by intros [=]. Qed.

Lemma mapping_inj u d p u' d' p' : mapping u d p = mapping u' d' p' -> u = u' /\ d = d' /\ p = p'.
Proof.
  intros E. pose proof (f_equal (lookup "user_id") E) as E1.
  pose proof (f_equal (lookup "device_id") E) as E2. pose proof (f_equal (lookup "platform") E) as E3.
  unfold mapping in *. by simplify_map_eq.
Qed.

Lemma mapping_nonempty u d p : ∅ <> mapping u d p.
Proof. intros E. by apply (insert_non_empty (<["device_id" := d]> (<["user_id" := u]> ∅)) "platform" p). Qed.

(** ** Saving a connection *)

Definition save_commands (user dev plat sid text : string) : list (Keyspace -> Keyspace) :=
  let field := generate_device_field dev plat in
  [hset_eff (sessions_key user) field text; sadd_eff (devices_key user) field;
   hset_eff (session_user_key sid) "user_id" user; hset_eff (session_user_key sid) "device_id" dev;
   hset_eff (session_user_key sid) "platform" plat; sadd_eff "online:users" user].

Definition apply_all (l : list (Keyspace -> Keyspace)) (s : Keyspace) : Keyspace :=
  foldl (fun s f => f s) s l.

Definition saved (user dev plat sid text : string) : Keyspace -> Keyspace :=
  apply_all (save_commands user dev plat sid text).

Section Saving.
Context `{Json} (user dev plat sid text : string) (s : Keyspace).

(** What each key holds after the six commands. *)
Lemma saved_entries u : entries (saved user dev plat sid text s) u =
  if decide (user = u) then <[generate_device_field dev plat := text]> (entries s u) else entries s u.
Proof.
  unfold saved, apply_all, save_commands. cbn [foldl]. read_keys.
  destruct (decide (user = u)) as [->|Hu]; [by rewrite decide_True|].
  rewrite decide_False; [done|]. by intros ?%sessions_key_inj.
Qed.

Lemma saved_devices u : set_of (saved user dev plat sid text s) (devices_key u) =
  if decide (user = u) then {[generate_device_field dev plat]} ∪ set_of s (devices_key u)
  else set_of s (devices_key u).
Proof.
  unfold saved, apply_all, save_commands. cbn [foldl]. read_keys.
  destruct (decide (user = u)) as [->|Hu]; [by rewrite decide_True|].
  rewrite decide_False; [done|]. by intros ?%devices_key_inj.
Qed.

Lemma saved_mapping x : hash_of s (session_user_key sid) = ∅ ->
  hash_of (saved user dev plat sid text s) (session_user_key x) =
  if decide (sid = x) then mapping user dev plat else hash_of s (session_user_key x).
Proof.
  intros Hs. unfold saved, apply_all, save_commands. cbn [foldl]. read_keys.
  destruct (decide (sid = x)) as [->|Hx]; [by rewrite !decide_True, Hs|].
  rewrite !decide_False; [done| | |]; by intros ?%session_user_key_inj.
Qed.

Lemma saved_online : online (saved user dev plat sid text s) = {[user]} ∪ online s.
Proof. unfold saved, apply_all, save_commands. cbn [foldl]. read_keys. done. Qed.
End Saving.

Lemma saved_other user dev plat sid text s k :
  (forall u, k <> sessions_key u) -> (forall u, k <> devices_key u) ->
  (forall x, k <> session_user_key x) -> k <> "online:users" ->
  hash_of (saved user dev plat sid text s) k = hash_of s k /\
  set_of (saved user dev plat sid text s) k = set_of s k.
Proof.
  intros Hs Hd Hx Ho. unfold saved, apply_all, save_commands. cbn [foldl]. read_keys. done.
Qed.

(** Key kinds after saving. *)
Lemma saved_kinds user dev plat sid text s k :
  ((forall u, k <> sessions_key u) -> (forall x, k <> session_user_key x) ->
   hash_of (saved user dev plat sid text s) k = hash_of s k) /\
  ((forall u, k <> devices_key u) -> k <> "online:users" ->
   set_of (saved user dev plat sid text s) k = set_of s k).
Proof.
  unfold saved, apply_all, save_commands. cbn [foldl]. split; intros; read_keys; done.
Qed.

Section Operations.
Context {R : Type} `{RedisLaws R} `{JsonLaws} (configs : gmap PlatformType bool).

Lemma saved_inv user dev plat sid text s i :
  Inv s -> hash_of s (session_user_key sid) = ∅ -> parse_info text = Some i ->
  session_id i = sid -> device_id i = dev -> platform i = plat ->
  Inv (saved user dev plat sid text s).
Proof.
  intros [H1' H2' H3' H4' H5' H6'] Hfresh Hp Hsid Hdev Hplat. split.
  - intros u. rewrite saved_devices, saved_entries, H1'. case_decide; [|done]. by rewrite dom_insert_L.
  - intros u. rewrite saved_online, saved_entries, elem_of_union, elem_of_singleton, H2'.
    case_decide as Hu; [subst|naive_solver]. split; [intros _|by left]. apply insert_non_empty.
  - intros u f v. rewrite saved_entries. intros Hv.
    destruct (decide (user = u /\ f = generate_device_field dev plat)) as [[-> ->]|Hne].
    + rewrite decide_True, lookup_insert_eq in Hv by done. simplify_eq. exists i.
      split_and!; try done. rewrite saved_mapping, decide_True by done. done.
    + assert (Hold : entries s u !! f = Some v).
      { case_decide as Hu; [|done]. rewrite lookup_insert_ne in Hv; [done|]. naive_solver. }
      destruct (H3' u f v Hold) as (i' & Hp' & Hf' & Hm'). exists i'. split_and!; try done.
      rewrite saved_mapping, decide_False; [done| |done].
      intros E. rewrite <- E, Hfresh in Hm'. by apply mapping_nonempty in Hm'.
  - intros u. unfold hash_key. rewrite !(proj2 (saved_kinds _ _ _ _ _ _ _)) by done. apply H4'.
  - intros u. unfold set_key. rewrite (proj1 (saved_kinds _ _ _ _ _ _ _)) by done. apply H5'.
  - unfold set_key. rewrite (proj1 (saved_kinds _ _ _ _ _ _ _)) by done. apply H6'.
Qed.

Lemma save_connection_wp user dev plat sid text s :
  Inv s -> wp (save_connection user dev plat sid text) (fun _ s' => s' = saved user dev plat sid text s) s.
Proof.
  intros [_ _ _ H4' H5' H6']. unfold save_connection.
  destruct (H4' user) as [Hu _]. destruct (H4' sid) as [_ Hsid]. specialize (H5' user).
  wp_step; [done|]. wp_step; [by read_keys|]. wp_step; [by read_keys|].
  wp_step; [by read_keys|]. wp_step; [by read_keys|]. wp_step; [by read_keys|]. done.
Qed.

(** ** The kick *)

Definition conflicts (s : Keyspace) (user dev plat : string) (old : string) : Prop :=
  exists f v i, entries s user !! f = Some v /\ same_platform_field dev plat f = true /\
    parse_info v = Some i /\ session_id i = old.

Definition no_conflict (s : Keyspace) (user dev plat : string) : Prop :=
  forall f v, entries s user !! f = Some v -> same_platform_field dev plat f = false.

Lemma find_old_session_wp user dev plat s : Inv s ->
  wp (find_old_session user dev plat) (fun old s' => s' = s /\
    (conflicts s user dev plat old \/ (no_conflict s user dev plat /\ old = EmptyString))) s.
Proof.
  intros HI. unfold find_old_session. wp_step; [apply HI|].
  pose proof (find_hash (fun p => same_platform_field dev plat p.1) l _ Hl) as Hf.
  destruct (List.find _ l) as [[f v]|].
  - destruct Hf as [Hv Hc]. destruct (inv_entry s HI user f v Hv) as (i & Hp & ? & ?).
    destruct (parse_info_id v i Hp) as (j & Hj & Hid). rewrite Hj. simpl.
    apply wp_bind, wp_ret. rewrite Hid. apply wp_ret. split; [done|]. left. exists f, v, i. done.
  - apply wp_ret. split; [done|]. right. split; [|done]. intros f v Hv. by apply (Hf f v).
Qed.

(** ** Lifting to the manager *)

Definition ok (w : Manager R) : Prop := healthy (redis w).
Definition keys_of (w : Manager R) : Keyspace := view (redis w).

Lemma on_redis_wp {A} (m : exec R A) (Q : A -> Keyspace -> Prop) (w : Manager R) :
  wp m Q (keys_of w) -> ok w ->
  exists w' a, on_redis m w = (w', Ok a) /\ ok w' /\ Q a (keys_of w') /\
    websocket_server w' = websocket_server w /\ closing w' = closing w.
Proof.
  intros Hm Hw. destruct (wp_execute m Q _ Hm (redis w) Hw eq_refl) as (d & a & E & Hd & HQ).
  unfold on_redis. rewrite E. by eexists _, a.
Qed.

Definition is_registered (w : Manager R) (sid : string) : bool :=
  match websocket_server w with Some r => bool_decide (sid ∈ r) | None => false end.

(** Which sessions a kick closes: none, or one listed session that passes the test. *)
Definition kicks (w : Manager R) (user dev plat : string) (closed : list string) : Prop :=
  if multi_device configs plat then closed = []
  else (no_conflict (keys_of w) user dev plat /\ closed = []) \/
       exists old, conflicts (keys_of w) user dev plat old /\
         closed = if negb (bool_decide (old = EmptyString)) && is_registered w old then [old] else [].

Lemma check_and_kick_ok user dev plat (w : Manager R) : Inv (keys_of w) -> ok w ->
  exists w' old closed, check_and_kick_same_platform configs user dev plat w = (w', Ok old) /\ ok w' /\
    keys_of w' = keys_of w /\ websocket_server w' = websocket_server w /\
    kicks w user dev plat closed /\ closing w' = closing w ++ closed.
Proof.
  intros HI Hw. unfold check_and_kick_same_platform, kicks. destruct (multi_device configs plat).
  - exists w, EmptyString, []. rewrite app_nil_r. done.
  - destruct (on_redis_wp _ _ w (find_old_session_wp user dev plat _ HI) Hw)
      as (w1 & old & E & Hw1 & [Hk Hc] & Hs & Hl).
    unfold try_catch. rewrite (bind_Ok _ _ _ _ _ E).
    case_bool_decide as Hold; simpl.
    + exists w1, EmptyString, []. rewrite app_nil_r. split_and!; try done.
      destruct Hc as [Hc|[Hc _]]; [right|by left]. exists old. split; [done|]. by rewrite bool_decide_eq_true_2.
    + unfold bind, disconnect_session. rewrite Hs. unfold is_registered.
      destruct Hc as [Hc|[_ ?]]; [|done].
      destruct (websocket_server w) as [r|] eqn:Er.
      * destruct (decide (old ∈ r)) as [Hin|Hin].
        -- eexists _, old, [old]. split_and!; try done; [|simpl; by rewrite Hl].
           right. exists old. split; [done|]. by rewrite bool_decide_eq_false_2, bool_decide_eq_true_2.
        -- exists w1, old, []. rewrite app_nil_r. split_and!; try done.
           right. exists old. split; [done|]. by rewrite !bool_decide_eq_false_2.
      * exists w1, old, []. rewrite app_nil_r. split_and!; try done.
        right. exists old. split; [done|]. by rewrite andb_false_r.
Qed.

(** Adding a connection on a healthy Redis. *)
Lemma add_connection_ok user dev plat sid now (w : Manager R) :
  let i := {| session_id := sid; device_id := dev; platform := plat; connect_time := now |} in
  Inv (keys_of w) -> ok w -> valid_info i ->
  exists w' text closed, add_connection configs user dev plat sid now w = (w', true) /\ ok w' /\
    parse_info text = Some (stored i) /\ keys_of w' = saved user dev plat sid text (keys_of w) /\
    websocket_server w' = websocket_server w /\
    kicks w user dev plat closed /\ closing w' = closing w ++ closed.
Proof.
  intros i HI Hw Hv. destruct (check_and_kick_ok user dev plat w HI Hw)
    as (w1 & old & closed & E1 & Hw1 & Hk1 & Hs1 & Hc & Hl1).
  destruct (dump_info i Hv) as [text Ht].
  assert (Hwp : wp (let* t := or_throw (dump (to_json i)) in save_connection user dev plat sid t)
                   (fun _ s' => s' = saved user dev plat sid text (keys_of w)) (keys_of w1)).
  { rewrite Ht, Hk1. simpl. apply wp_bind, wp_ret. by apply save_connection_wp. }
  destruct (on_redis_wp _ _ w1 Hwp Hw1) as (w2 & [] & E2 & Hw2 & Hk2 & Hs2 & Hl2).
  exists w2, text, closed. unfold add_connection. cbv zeta.
  erewrite (try_catch_Ok _ _ w w2 true).
  - split_and!; try done; [by apply parse_dumped|congruence|congruence].
  - rewrite (bind_Ok _ _ _ _ _ E1). fold i. by rewrite (bind_Ok _ _ _ _ _ E2).
Qed.

(** ** Removing a connection *)

Definition removed (user f sid : string) (s : Keyspace) : Keyspace :=
  let s1 := del_eff (session_user_key sid) (srem_eff (devices_key user) f (hdel_eff (sessions_key user) f s)) in
  if decide (entries s1 user = ∅) then srem_eff "online:users" user s1 else s1.

(** One listed session of the device is gone, or there was none. *)
Definition removal (user dev : string) (s s' : Keyspace) : Prop :=
  (exists f v i, entries s user !! f = Some v /\ before_colon f = Some dev /\
     parse_info v = Some i /\ s' = removed user f (session_id i) s) \/
  ((forall f v, entries s user !! f = Some v -> before_colon f <> Some dev) /\ s' ≡ s).

Lemma removed_entries user f sid s u :
  entries (removed user f sid s) u = if decide (user = u) then delete f (entries s u) else entries s u.
Proof.
  assert (E : forall s1, entries s1 u = entries (if decide (entries s1 user = ∅)
              then srem_eff "online:users" user s1 else s1) u) by (intros; by case_decide).
  unfold removed. cbv zeta. rewrite <- E. read_keys.
  destruct (decide (user = u)) as [->|Hu]; [by rewrite decide_True|].
  rewrite decide_False; [done|]. by intros ?%sessions_key_inj.
Qed.

Lemma removed_mapping user f sid s x : hash_of (removed user f sid s) (session_user_key x) =
  if decide (sid = x) then ∅ else hash_of s (session_user_key x).
Proof.
  assert (E : forall s1 k, hash_of (if decide (entries s1 user = ∅)
              then srem_eff "online:users" user s1 else s1) k = hash_of s1 k) by (intros; by case_decide).
  unfold removed. cbv zeta. rewrite E. read_keys.
  destruct (decide (sid = x)) as [->|Hx]; [by rewrite decide_True|].
  rewrite decide_False; [done|]. by intros ?%session_user_key_inj.
Qed.

Lemma removed_hash user f sid s k : (forall u, k <> sessions_key u) -> (forall x, k <> session_user_key x) ->
  hash_of (removed user f sid s) k = hash_of s k.
Proof. intros. unfold removed. cbv zeta. case_decide; read_keys; done. Qed.

Lemma removed_set user f sid s k : (forall u, k <> devices_key u) -> (forall x, k <> session_user_key x) ->
  k <> "online:users" -> set_of (removed user f sid s) k = set_of s k.
Proof. intros. unfold removed. cbv zeta. case_decide; read_keys; done. Qed.

Lemma removed_devices user f sid s u : set_of (removed user f sid s) (devices_key u) =
  if decide (user = u) then set_of s (devices_key u) ∖ {[f]} else set_of s (devices_key u).
Proof.
  assert (E : forall s1, set_of s1 (devices_key u) = set_of (if decide (entries s1 user = ∅)
              then srem_eff "online:users" user s1 else s1) (devices_key u)).
  { intros s1. case_decide; [|done]. by read_keys. }
  unfold removed. cbv zeta. rewrite <- E. read_keys.
  destruct (decide (user = u)) as [->|Hu]; [by rewrite decide_True|].
  rewrite decide_False; [done|]. by intros ?%devices_key_inj.
Qed.

Lemma removed_online user f sid s : online (removed user f sid s) =
  if decide (delete f (entries s user) = ∅) then online s ∖ {[user]} else online s.
Proof.
  assert (E : entries (del_eff (session_user_key sid) (srem_eff (devices_key user) f
    (hdel_eff (sessions_key user) f s))) user = delete f (entries s user)) by by read_keys.
  unfold removed. cbv zeta. rewrite E. case_decide; by read_keys.
Qed.

Lemma removed_session user f sid s x :
  hash_key (session_user_key x) s -> hash_key (session_user_key x) (removed user f sid s).
Proof.
  intros Hx. unfold removed. cbv zeta. case_decide; read_keys; by destruct (decide (_ = _)).
Qed.

Lemma removed_inv user f v i s : Inv s -> entries s user !! f = Some v -> parse_info v = Some i ->
  Inv (removed user f (session_id i) s).
Proof.
  intros HI Hv Hp. destruct (inv_entry s HI user f v Hv) as (i' & Hp' & Hf & Hm). simplify_eq.
  destruct HI as [H1' H2' H3' H4' H5' H6']. split.
  - intros u. rewrite removed_devices, removed_entries, H1'. case_decide; [|done]. by rewrite dom_delete_L.
  - intros u. rewrite removed_online, removed_entries. destruct (decide (user = u)) as [->|Hu].
    + case_decide; [set_solver|]. rewrite H2'. split; [done|]. intros _ E. by rewrite E in Hv.
    + rewrite <- H2'. case_decide; set_solver.
  - intros u g v0. rewrite removed_entries. intros Hv0.
    assert (Hold : entries s u !! g = Some v0).
    { case_decide; [|done]. by apply lookup_delete_Some in Hv0 as [_ ?]. }
    destruct (H3' u g v0 Hold) as (j & Hpi & Hfi & Hmi). exists j. split_and!; try done.
    rewrite removed_mapping, decide_False; [done|]. intros E.
    rewrite <- E, Hm in Hmi. apply mapping_inj in Hmi as (-> & Hd & Hpl).
    rewrite decide_True, Hfi, <- Hd, <- Hpl, lookup_delete_eq in Hv0 by done. done.
  - intros u. destruct (H4' u). split; [|by apply removed_session].
    unfold hash_key. by rewrite removed_set.
  - intros u. unfold set_key. rewrite removed_hash by done. apply H5'.
  - unfold set_key. rewrite removed_hash by done. apply H6'.
Qed.

Lemma remove_device_wp user dev s : Inv s ->
  wp (remove_device user dev) (fun _ s' => removal user dev s s') s.
Proof.
  intros HI. destruct (inv_hashes s HI user) as [Hh _]. pose proof (inv_sets s HI user) as Hd.
  pose proof (inv_online_set s HI) as Ho. unfold remove_device. wp_step; [done|].
  pose proof (find_hash (of_device dev) l _ Hl) as Hf. apply wp_bind.
  destruct (List.find _ l) as [[f v]|].
  - destruct Hf as [Hv Hdev%bool_decide_eq_true]. simpl in Hdev.
    destruct (inv_entry s HI user f v Hv) as (i & Hp & _).
    unfold remove_entry. wp_step; [done|]. wp_step; [by read_keys|]. rewrite Hp. apply wp_bind, wp_ret.
    wp_step. wp_step; [by read_keys|]. rewrite (hash_filled _ _ _ _ Hl0).
    case_decide as He; [wp_step; [by read_keys|]|apply wp_ret];
      (left; exists f, v, i; split_and!; try done; unfold removed; cbv zeta; by case_decide).
  - apply wp_ret. wp_step; [done|]. rewrite (hash_filled _ _ _ _ Hl0).
    assert (Hnone : forall f v, entries s user !! f = Some v -> before_colon f <> Some dev).
    { intros f v Hv. specialize (Hf f v Hv). by apply bool_decide_eq_false in Hf. }
    case_decide as He; [wp_step; [done|]|apply wp_ret]; right; (split; [done|]); [|done].
    split; intros k; unfold srem_eff; [done|]. rewrite set_set_set. case_decide as Hk; [|done]. subst.
    assert (user ∉ online s); [|unfold online in *; set_solver].
    rewrite (inv_online s HI). unfold entries, id in *. by intros ?.
Qed.

Lemma removal_inv user dev s s' : Inv s -> removal user dev s s' -> Inv s'.
Proof.
  intros HI [(f & v & i & Hv & _ & Hp & ->)|[_ ->]]; [by eapply removed_inv|done].
Qed.

Lemma remove_connection_ok user dev (w : Manager R) : Inv (keys_of w) -> ok w ->
  let w' := remove_connection user dev w in
  ok w' /\ removal user dev (keys_of w) (keys_of w') /\
  websocket_server w' = websocket_server w /\ closing w' = closing w.
Proof.
  intros HI Hw. destruct (on_redis_wp _ _ w (remove_device_wp user dev _ HI) Hw) as (w1 & [] & E & ? & ? & ?).
  unfold remove_connection. by rewrite (try_catch_Ok _ _ _ _ _ E).
Qed.

(** Removing by session removes the device the session is mapped to. *)
Definition mapped (s : Keyspace) (sid k : string) : string :=
  default EmptyString (hash_of s (session_user_key sid) !! k).

Lemma remove_by_session_ok sid (w : Manager R) : Inv (keys_of w) -> ok w ->
  let s := keys_of w in let w' := remove_connection_by_session sid w in
  ok w' /\ websocket_server w' = websocket_server w /\ closing w' = closing w /\
  if bool_decide (mapped s sid "user_id" = EmptyString) then keys_of w' = s
  else removal (mapped s sid "user_id") (mapped s sid "device_id") s (keys_of w').
Proof.
  intros HI Hw. cbv zeta.
  assert (Hwp : wp (hgetall (session_user_key sid)) (fun l s => s = keys_of w /\
      l ≡ₚ map_to_list (hash_of (keys_of w) (session_user_key sid))) (keys_of w)).
  { wp_step; [apply HI|]. done. }
  destruct (on_redis_wp _ _ w Hwp Hw) as (w1 & l & E & Hw1 & [Hk1 Hl] & Hs1 & Hc1).
  unfold remove_connection_by_session, try_catch. rewrite (bind_Ok _ _ _ _ _ E).
  rewrite !(entry_hash _ _ _ Hl). fold (mapped (keys_of w) sid "user_id") (mapped (keys_of w) sid "device_id").
  case_bool_decide; [simpl; by rewrite Hk1|]. simpl.
  destruct (remove_connection_ok (mapped (keys_of w) sid "user_id") (mapped (keys_of w) sid "device_id") w1)
    as (? & Hr & ? & ?); [by rewrite Hk1|done|].
  rewrite Hk1 in Hr. split_and!; try done; congruence.
Qed.
End Operations.

(** * Theorems *)

Section Theorems.
Context {R : Type} `{RedisLaws R} `{JsonLaws} (configs : gmap PlatformType bool).

(** The registry as its clients see it: field to session information. *)
Definition listing (w : Manager R) (user : string) : gmap string DeviceSessionInfo :=
  omap parse_info (entries (keys_of w) user).

Lemma listing_saved user dev plat sid text i (w w' : Manager R) :
  keys_of w' = saved user dev plat sid text (keys_of w) -> parse_info text = Some i ->
  forall u, listing w' u = if decide (user = u) then <[generate_device_field dev plat := i]> (listing w u)
                           else listing w u.
Proof.
  intros Hk Hp u. unfold listing. rewrite Hk, saved_entries. case_decide; [|done].
  by rewrite (omap_insert_Some _ _ _ _ i).
Qed.

Lemma listing_removed user f sid (w w' : Manager R) : keys_of w' = removed user f sid (keys_of w) ->
  forall u, listing w' u = if decide (user = u) then delete f (listing w u) else listing w u.
Proof.
  intros Hk u. unfold listing. rewrite Hk, removed_entries. case_decide; [|done]. by rewrite omap_delete.
Qed.

Lemma listing_equiv (w w' : Manager R) u : keys_of w' ≡ keys_of w -> listing w' u = listing w u.
Proof. intros Hk. unfold listing, entries. by rewrite Hk. Qed.

Lemma listing_dom (w : Manager R) u : Inv (keys_of w) -> dom (listing w u) = dom (entries (keys_of w) u).
Proof.
  intros HI. apply set_eq. intros f. rewrite !elem_of_dom. unfold listing. rewrite lookup_omap.
  destruct (entries (keys_of w) u !! f) as [v|] eqn:Ev; simpl; [|done].
  destruct (inv_entry _ HI u f v Ev) as (i & -> & _). split; by eexists.
Qed.

(** C14: the registry implements a map from device and platform to session for each user: on a
    healthy Redis adding a connection returns true, lists the session under its device and
    platform (with the time in whole milliseconds) and closes at most one listed session of
    the platform; removing a device removes one of the sessions listed for it, if there is one,
    and a device whose id has a colon is never removed.  Nothing else changes. *)
Theorem registry_operations user dev plat sid now (w : Manager R) :
  let i := {| session_id := sid; device_id := dev; platform := plat; connect_time := now |} in
  Inv (keys_of w) -> ok w -> valid_info i -> hash_of (keys_of w) (session_user_key sid) = ∅ ->
  (exists w' closed, add_connection configs user dev plat sid now w = (w', true) /\
     ok w' /\ Inv (keys_of w') /\
     listing w' user = <[generate_device_field dev plat := stored i]> (listing w user) /\
     (forall u, u <> user -> listing w' u = listing w u) /\
     kicks configs w user dev plat closed /\ closing w' = closing w ++ closed) /\
  (let w' := remove_connection user dev w in
     ok w' /\ Inv (keys_of w') /\ closing w' = closing w /\
     (forall u, u <> user -> listing w' u = listing w u) /\
     ((exists f, f ∈ dom (listing w user) /\ before_colon f = Some dev /\
        listing w' user = delete f (listing w user)) \/
      ((forall f, f ∈ dom (listing w user) -> before_colon f <> Some dev) /\
       listing w' user = listing w user)) /\
     (no_colon dev = false -> listing w' user = listing w user)).
Proof.
  intros i HI Hw Hv Hfresh. split.
  - destruct (add_connection_ok configs user dev plat sid now w HI Hw Hv)
      as (w' & text & closed & E & Hw' & Hp & Hk & _ & Hkick & Hc).
    pose proof (listing_saved _ _ _ _ _ _ w w' Hk Hp) as Hl.
    exists w', closed. split_and!; try done.
    + rewrite Hk. by eapply saved_inv.
    + rewrite Hl. by rewrite decide_True.
    + intros u Hu. rewrite Hl. by rewrite decide_False.
  - destruct (remove_connection_ok user dev w HI Hw) as (Hw' & Hr & _ & Hc). cbv zeta.
    split_and!; try done; [by eapply removal_inv| | |].
    + intros u Hu. destruct Hr as [(f & v & j & _ & _ & _ & Hk)|[_ Hk]]; [|by apply listing_equiv].
      rewrite (listing_removed _ _ _ _ _ Hk). by rewrite decide_False.
    + rewrite listing_dom by done. destruct Hr as [(f & v & j & Hf & Hb & _ & Hk)|[Hno Hk]].
      * left. exists f. split_and!; [by eapply elem_of_dom_2|done|].
        rewrite (listing_removed _ _ _ _ _ Hk). by rewrite decide_True.
      * right. split; [|by apply listing_equiv]. intros f [v Hf]%elem_of_dom. eauto.
    + intros Hcolon. destruct Hr as [(f & v & j & _ & Hb & _)|[_ Hk]]; [|by apply listing_equiv].
      apply before_colon_free in Hb. congruence.
Qed.

(** ** Runs *)

Inductive step : Manager R -> Manager R -> Prop :=
| step_add user dev plat sid now w :
    valid_info {| session_id := sid; device_id := dev; platform := plat; connect_time := now |} ->
    hash_of (keys_of w) (session_user_key sid) = ∅ ->
    step w (add_connection configs user dev plat sid now w).1
| step_remove user dev w : step w (remove_connection user dev w)
| step_close sid w : step w (remove_connection_by_session sid w)
| step_server registered w :
    step w {| redis := redis w; websocket_server := registered; closing := closing w |}.

Lemma step_ok w w' : step w w' -> ok w -> Inv (keys_of w) -> ok w' /\ Inv (keys_of w').
Proof.
  intros Hs Hw HI. destruct Hs as [user dev plat sid now w Hv Hf|user dev w|sid w|r w].
  - destruct (add_connection_ok configs user dev plat sid now w HI Hw Hv)
      as (w' & text & closed & -> & Hw' & Hp & Hk & _). simpl. split; [done|].
    rewrite Hk. by eapply saved_inv.
  - destruct (remove_connection_ok user dev w HI Hw) as (? & Hr & _). split; [done|].
    by eapply removal_inv.
  - destruct (remove_by_session_ok sid w HI Hw) as (? & _ & _ & Hr). split; [done|].
    case_bool_decide; [by rewrite Hr|by eapply removal_inv].
  - done.
Qed.

Lemma empty_inv s : s ≡ Mem.empty -> Inv s.
Proof.
  intros ->. split; unfold entries, online, hash_key, set_key; simpl; try done.
  all: intros; set_solver.
Qed.

Lemma steps_ok w w' : rtc step w w' -> ok w -> Inv (keys_of w) -> ok w' /\ Inv (keys_of w').
Proof.
  induction 1 as [|w w1 w' Hs _ IH]; [done|]. intros Hw HI.
  destruct (step_ok _ _ Hs Hw HI). auto.
Qed.

(** ** Queries *)

Lemma read_ok {A B} (m : exec R A) (k : A -> B) (dflt : B) (Q : A -> Keyspace -> Prop) (w : Manager R) :
  wp m Q (keys_of w) -> ok w -> exists w' a,
    try_catch (let* x := on_redis m in ret (k x)) dflt w = (w', k a) /\ Q a (keys_of w').
Proof.
  intros Hm Hw. destruct (on_redis_wp m Q w Hm Hw) as (w' & a & E & _ & HQ & _).
  exists w', a. split; [|done]. apply try_catch_Ok. by rewrite (bind_Ok _ _ _ _ _ E).
Qed.

Lemma omap_perm {A B} (f : A -> option B) (l l' : list A) : l ≡ₚ l' -> omap f l ≡ₚ omap f l'.
Proof. intros Hl. by rewrite Hl. Qed.

Lemma omap_values {A} (f : string -> option A) (m : gmap string string) :
  omap (fun p => f p.2) (map_to_list m) ≡ₚ (map_to_list (omap f m)).*2.
Proof.
  induction m as [|k v m Hk IH] using map_ind; [by rewrite omap_empty, !map_to_list_empty|].
  rewrite (omap_perm _ _ _ (map_to_list_insert m k v Hk)). simpl. destruct (f v) as [a|] eqn:Ea.
  - rewrite (omap_insert_Some _ _ _ _ a), map_to_list_insert by (done || by rewrite lookup_omap, Hk).
    simpl. by rewrite IH.
  - rewrite omap_insert_None, delete_id by (done || by rewrite lookup_omap, Hk). done.
Qed.

(** What the four queries answer, in terms of the listing. *)
Lemma queries_ok (w : Manager R) : ok w -> Inv (keys_of w) ->
  (exists w' l, get_online_users w = (w', l) /\ NoDup l /\ (forall u, u ∈ l <-> listing w u <> ∅) /\
     exists w2, get_online_count w = (w2, u64 (zlen l))) /\
  (forall user, exists w' l, get_user_sessions user w = (w', l) /\
     l ≡ₚ (map_to_list (listing w user)).*2) /\
  (forall user plat, exists w' b, is_user_online_on_platform user plat w = (w', b) /\
     (b = true <-> exists f, f ∈ dom (listing w user) /\ contains (":" +:+ plat) f = true)).
Proof.
  intros Hw HI. split_and!.
  - destruct (on_redis_wp (smembers "online:users") (fun l s => l ≡ₚ elements (online (keys_of w))) w)
      as (w' & l & E & _ & Hl & _); [wp_step; [apply HI|done]|done|].
    exists w', l. unfold get_online_users. rewrite (try_catch_Ok _ _ _ _ _ E).
    split_and!; [done|rewrite Hl; apply NoDup_elements| |].
    + intros u. rewrite Hl, elem_of_elements, (inv_online _ HI), <- !dom_empty_iff_L. by rewrite listing_dom.
    + destruct (read_ok (scard "online:users") u64 0 (fun n s => n = Z.of_nat (size (online (keys_of w)))) w)
        as (w2 & n & E2 & Hn); [wp_step; [apply HI|done]|done|].
      exists w2. unfold get_online_count. rewrite E2, Hn. unfold zlen. rewrite Hl. done.
  - intros user.
    destruct (read_ok (hgetall (sessions_key user)) (omap (fun p => parse_info p.2)) []
      (fun l s => l ≡ₚ map_to_list (entries (keys_of w) user)) w) as (w' & l & E & Hl);
      [wp_step; [apply HI|done]|done|].
    eexists w', _. split; [apply E|]. rewrite (omap_perm _ _ _ Hl). unfold listing.
    apply omap_values.
  - intros user plat.
    destruct (read_ok (smembers (devices_key user)) (existsb (contains (":" +:+ plat)%string)) false
      (fun l s => l ≡ₚ elements (dom (entries (keys_of w) user))) w) as (w' & l & E & Hl).
    { wp_step; [apply HI|]. by rewrite <- (inv_devices _ HI). }
    { done. }
    eexists w', _. split; [apply E|]. rewrite existsb_exists. rewrite listing_dom by done.
    split; intros (f & Hf & ?); exists f; (split; [|done]).
    + apply list_elem_of_In in Hf. by rewrite Hl, elem_of_elements in Hf.
    + apply list_elem_of_In. by rewrite Hl, elem_of_elements.
Qed.

(** C24: from an empty registry, whatever connections are added under fresh session ids and
    removed by device or by session on a healthy Redis, the four structures stay consistent
    and the queries agree: the online users are exactly those with a listed session, without
    duplicates, and counted; a user's sessions are the listed ones, each once; and a user is
    online on a platform exactly when the name of a listed device matches it. *)
Theorem connections_reachable_wf (w0 w : Manager R) :
  keys_of w0 ≡ Mem.empty -> ok w0 -> rtc step w0 w ->
  ok w /\ Inv (keys_of w) /\
  (exists w' l, get_online_users w = (w', l) /\ NoDup l /\ (forall u, u ∈ l <-> listing w u <> ∅) /\
     exists w2, get_online_count w = (w2, u64 (zlen l))) /\
  (forall user, exists w' l, get_user_sessions user w = (w', l) /\
     l ≡ₚ (map_to_list (listing w user)).*2) /\
  (forall user plat, exists w' b, is_user_online_on_platform user plat w = (w', b) /\
     (b = true <-> exists f, f ∈ dom (listing w user) /\ contains (":" +:+ plat) f = true)).
Proof.
  intros He Hw Hs. apply empty_inv in He.
  destruct (steps_ok w0 w Hs Hw He) as [Hw' HI]. split; [done|]. split; [done|].
  by apply queries_ok.
Qed.

(** ** A late close *)

Lemma get_session_none user dev plat (w : Manager R) : ok w -> Inv (keys_of w) ->
  entries (keys_of w) user = ∅ -> (get_session user dev plat w).2 = None.
Proof.
  intros Hw HI He.
  destruct (on_redis_wp (hget (sessions_key user) (generate_device_field dev plat))
    (fun o s => o = None) w) as (w' & o & E & _ & -> & _); [|done|].
  { wp_step; [apply HI|]. unfold entries in He. by rewrite He. }
  unfold get_session, try_catch. by rewrite (bind_Ok _ _ _ _ _ E).
Qed.

(** The same device adds two sessions in a row. *)
Lemma reconnected user dev plat sid1 sid2 t1 t2 (w : Manager R) :
  Inv (keys_of w) -> ok w -> sid1 <> sid2 -> listing w user = ∅ ->
  hash_of (keys_of w) (session_user_key sid1) = ∅ -> hash_of (keys_of w) (session_user_key sid2) = ∅ ->
  valid_info {| session_id := sid1; device_id := dev; platform := plat; connect_time := t1 |} ->
  valid_info {| session_id := sid2; device_id := dev; platform := plat; connect_time := t2 |} ->
  let w1 := (add_connection configs user dev plat sid1 t1 w).1 in
  let w2 := (add_connection configs user dev plat sid2 t2 w1).1 in
  exists text, ok w2 /\ Inv (keys_of w2) /\
    parse_info text = Some (stored {| session_id := sid2; device_id := dev; platform := plat; connect_time := t2 |}) /\
    entries (keys_of w2) user = {[generate_device_field dev plat := text]} /\
    hash_of (keys_of w2) (session_user_key sid1) = mapping user dev plat.
Proof.
  intros HI Hw Hne Hnone Hf1 Hf2 Hv1 Hv2.
  destruct (add_connection_ok configs user dev plat sid1 t1 w HI Hw Hv1)
    as (w1 & text1 & ? & -> & Hw1 & Hp1 & Hk1 & _). cbv zeta. cbn [fst].
  assert (HI1 : Inv (keys_of w1)) by (rewrite Hk1; by eapply saved_inv).
  assert (Hf2' : hash_of (keys_of w1) (session_user_key sid2) = ∅).
  { by rewrite Hk1, saved_mapping, decide_False. }
  destruct (add_connection_ok configs user dev plat sid2 t2 w1 HI1 Hw1 Hv2)
    as (w2 & text2 & ? & -> & Hw2 & Hp2 & Hk2 & _). cbn [fst].
  exists text2. split_and!; [done|rewrite Hk2; by eapply saved_inv|done| |].
  - rewrite Hk2, saved_entries, decide_True, Hk1, saved_entries, decide_True, insert_insert_eq by done.
    assert (E : dom (entries (keys_of w) user) = ∅) by (rewrite <- listing_dom by done; by rewrite Hnone).
    apply dom_empty_iff_L in E. by rewrite E.
  - by rewrite Hk2, saved_mapping, decide_False, Hk1, saved_mapping, decide_True by done.
Qed.

(** When a device reconnects on the same platform before its old session is closed, the
    close of the old session removes the entry of the new one: the new session is still
    registered in the server, but the user is no longer listed under the device, its mapping
    is deleted, [get_session] no longer finds it, and the mapping of the old session stays. *)
Theorem late_close_drops_reconnection user dev plat sid1 sid2 t1 t2 (w : Manager R) :
  Inv (keys_of w) -> ok w -> user <> EmptyString -> no_colon dev = true -> sid1 <> sid2 ->
  listing w user = ∅ ->
  hash_of (keys_of w) (session_user_key sid1) = ∅ -> hash_of (keys_of w) (session_user_key sid2) = ∅ ->
  valid_info {| session_id := sid1; device_id := dev; platform := plat; connect_time := t1 |} ->
  valid_info {| session_id := sid2; device_id := dev; platform := plat; connect_time := t2 |} ->
  let w1 := (add_connection configs user dev plat sid1 t1 w).1 in
  let w2 := (add_connection configs user dev plat sid2 t2 w1).1 in
  let w3 := remove_connection_by_session sid1 w2 in
  (listing w2 user !! generate_device_field dev plat =
     Some (stored {| session_id := sid2; device_id := dev; platform := plat; connect_time := t2 |})) /\
  listing w3 user = ∅ /\ (user ∉ online (keys_of w3)) /\
  hash_of (keys_of w3) (session_user_key sid2) = ∅ /\
  hash_of (keys_of w3) (session_user_key sid1) = mapping user dev plat /\
  (get_session user dev plat w3).2 = None.
Proof.
  intros HI Hw Hu Hdev Hne Hnone Hf1 Hf2 Hv1 Hv2 w1 w2 w3.
  destruct (reconnected user dev plat sid1 sid2 t1 t2 w HI Hw Hne Hnone Hf1 Hf2 Hv1 Hv2)
    as (text & Hw2 & HI2 & Hp & He2 & Hm). fold w1 w2 in Hw2, HI2, He2, Hm. clearbody w2. clear w1.
  split; [unfold listing; by rewrite He2, lookup_omap, lookup_singleton_eq|].
  destruct (remove_by_session_ok sid1 w2 HI2 Hw2) as (Hw3 & _ & _ & Hr). cbv zeta in Hr. fold w3 in Hw3, Hr.
  unfold mapped in Hr. rewrite Hm in Hr.
  replace (mapping user dev plat !! "user_id") with (Some user) in Hr by done.
  replace (mapping user dev plat !! "device_id") with (Some dev) in Hr by done. simpl in Hr.
  rewrite bool_decide_eq_false_2 in Hr by done.
  destruct Hr as [(f & v & j & Hf & _ & Hpj & Hk3)|[Hno _]].
  2:{ destruct (Hno (generate_device_field dev plat) text); [by rewrite He2, lookup_singleton_eq|].
      by apply before_colon_field. }
  rewrite He2, lookup_singleton_Some in Hf. destruct Hf as [<- <-]. simplify_eq.
  assert (He3 : entries (keys_of w3) user = ∅).
  { rewrite Hk3, removed_entries, decide_True, He2 by done. by apply delete_singleton_eq. }
  assert (HI3 : Inv (keys_of w3)).
  { rewrite Hk3. eapply removed_inv; [done| |done]. by rewrite He2, lookup_singleton_eq. }
  split_and!; [unfold listing; by rewrite He3|rewrite (inv_online _ HI3), He3; by intros ?| | |].
  - by rewrite Hk3, removed_mapping, decide_True.
  - by rewrite Hk3, removed_mapping, decide_False.
  - by apply get_session_none.
Qed.

(** ** Failures *)

(** A request that may stop after any of its commands. *)
Definition partial {A} (m : exec R A) (l : list (Keyspace -> Keyspace)) : Prop :=
  forall d d' r, m d = (d', r) ->
    (exists n, view d' = apply_all (take n l) (view d)) /\
    (forall a, r = Ok a -> view d' = apply_all l (view d)).

Lemma partial_command {A} (m : exec R A) pre eff ans :
  command view healthy m pre eff ans -> partial m [eff].
Proof.
  intros Hm d d' r E. destruct (Hm _ _ _ E) as (_ & Hv & Ha & _). split.
  - destruct Hv as [->| ->]; [by exists 0%nat|by exists 1%nat].
  - intros a Hr. by destruct (Ha a Hr).
Qed.

Lemma partial_read {A} (m : exec R A) pre ans : command view healthy m pre id ans -> partial m [].
Proof.
  intros Hm d d' r E. destruct (Hm _ _ _ E) as (_ & [->| ->] & _); (split; [by exists 0%nat|done]).
Qed.

Lemma partial_ret {A} (a : A) : partial (ret a) [].
Proof. intros d d' r [= <- <-]. split; [by exists 0%nat|done]. Qed.

Lemma partial_or_throw {A} (o : option A) : partial (or_throw o) [].
Proof.
  destruct o; [apply partial_ret|]. intros d d' r [= <- <-]. split; [by exists 0%nat|done].
Qed.

Lemma partial_bind {A B} (m : exec R A) (k : A -> exec R B) l1 l2 :
  partial m l1 -> (forall a, partial (k a) l2) -> partial (bind m k) (l1 ++ l2).
Proof.
  intros Hm Hk d d' r E. apply bind_inv in E as [[E ->]|(a & d1 & E1 & E2)].
  - destruct (Hm _ _ _ E) as [[n Hn] _]. split; [|done]. exists (n `min` length l1)%nat.
    rewrite Hn. f_equal. rewrite take_app_le by lia.
    destruct (Nat.le_ge_cases n (length l1)); [by rewrite Nat.min_l|].
    by rewrite Nat.min_r, !take_ge by lia.
  - destruct (Hm _ _ _ E1) as [_ H1']. destruct (Hk a _ _ _ E2) as [[n Hn] H2'].
    rewrite (H1' a eq_refl) in Hn, H2'. unfold apply_all in *. split.
    + exists (length l1 + n)%nat. rewrite Hn, take_app_add by done. by rewrite foldl_app.
    + intros b Hb. rewrite (H2' b Hb). by rewrite foldl_app.
Qed.

Lemma partial_bind_read {A B} (m : exec R A) (k : A -> exec R B) l :
  partial m [] -> (forall a, partial (k a) l) -> partial (bind m k) l.
Proof. apply (partial_bind m k [] l). Qed.

Lemma partial_save user dev plat sid text :
  partial (save_connection user dev plat sid text) (save_commands user dev plat sid text).
Proof.
  unfold save_connection, save_commands.
  repeat (apply (partial_bind _ _ [_]); [eapply partial_command; first [apply law_hset|apply law_sadd]|intros _]).
  eapply partial_command, law_sadd.
Qed.

Lemma partial_kick user dev plat : partial (find_old_session user dev plat) [].
Proof.
  apply partial_bind_read; [eapply partial_read, law_hgetall|]. intros l.
  destruct (List.find _ l) as [[f v]|]; [|apply partial_ret].
  apply partial_bind_read; [apply partial_or_throw|]. intros j. apply partial_or_throw.
Qed.

Lemma on_redis_partial {A} (m : exec R A) l (w w' : Manager R) r :
  partial m l -> on_redis m w = (w', r) ->
  (exists n, keys_of w' = apply_all (take n l) (keys_of w)) /\
  (forall a, r = Ok a -> keys_of w' = apply_all l (keys_of w)).
Proof.
  intros Hm E. unfold on_redis in E. destruct (execute m (redis w)) as [d r'] eqn:Ed. simplify_eq.
  assert (Hx : partial (execute m) l).
  { apply partial_bind_read; [eapply partial_read, law_connection|done]. }
  exact (Hx _ _ _ Ed).
Qed.

Lemma kick_keeps_keys user dev plat (w w' : Manager R) r :
  check_and_kick_same_platform configs user dev plat w = (w', r) ->
  keys_of w' = keys_of w /\ exists a, r = Ok a.
Proof.
  unfold check_and_kick_same_platform. destruct (multi_device configs plat); [intros [= <- <-]; eauto|].
  destruct (try_catch _ _ w) as [w1 a] eqn:E. intros [= <- <-]. split; [|eauto].
  assert (Hk : forall w1 r, on_redis (find_old_session user dev plat) w = (w1, r) -> keys_of w1 = keys_of w).
  { intros w2 r E2. destruct (on_redis_partial _ _ _ _ _ (partial_kick user dev plat) E2) as [[n Hn] _].
    by rewrite Hn, take_nil. }
  unfold try_catch, bind in E. destruct (on_redis _ w) as [w2 [old|]]; [|simplify_eq; by eapply Hk].
  rewrite <- (Hk _ _ eq_refl). unfold disconnect_session, ret in E. by repeat case_match; simplify_eq.
Qed.

(** Whatever fails, when [add_connection] returns true all six commands of the request
    have been executed; when it returns false, those executed are an initial part of them,
    because no transaction groups them: the user can be left listed, and not online.  In all
    cases nothing else in the key space changes. *)
Theorem add_connection_partial user dev plat sid now (w : Manager R) :
  let i := {| session_id := sid; device_id := dev; platform := plat; connect_time := now |} in
  let '(w', b) := add_connection configs user dev plat sid now w in
  if b then exists text, dump (to_json i) = Some text /\ keys_of w' = saved user dev plat sid text (keys_of w)
  else keys_of w' = keys_of w \/
       exists text n, dump (to_json i) = Some text /\
         keys_of w' = apply_all (take n (save_commands user dev plat sid text)) (keys_of w).
Proof.
  intros i. unfold add_connection, try_catch, bind at 1. fold i.
  destruct (check_and_kick_same_platform configs user dev plat w) as [w1 r1] eqn:E1.
  destruct (kick_keeps_keys _ _ _ _ _ _ E1) as [Hk [old ->]]. unfold bind at 1.
  destruct (on_redis _ w1) as [w2 r2] eqn:E2.
  destruct (dump (to_json i)) as [text|].
  - assert (Hp : partial (let* t := or_throw (Some text) in save_connection user dev plat sid t)
                         (save_commands user dev plat sid text)).
    { intros d d' r E. apply (partial_save user dev plat sid text d d' r E). }
    destruct (on_redis_partial _ _ _ _ _ Hp E2) as [[n Hn] Ha]. rewrite Hk in Hn, Ha.
    destruct r2 as [a|]; simpl; [|by right; exists text, n].
    exists text. split; [done|]. by apply (Ha a).
  - assert (Hp : partial (let* t := or_throw None in save_connection user dev plat sid t) []).
    { intros d d' r [= <- <-]. split; [by exists 0%nat|done]. }
    destruct (on_redis_partial _ _ _ _ _ Hp E2) as [[n Hn] _]. rewrite take_nil, Hk in Hn.
    destruct r2 as [a|]; simpl; [|by left].
    unfold on_redis in E2. destruct (execute _ _) eqn:Ee. simplify_eq.
    unfold execute in Ee. run_inv Ee.
Qed.

End Theorems.

(** ** The platform test *)

Lemma prefix_colon q d p : no_colon q = true ->
  String.prefix q (d +:+ String ":" p) = String.prefix q d.
Proof.
  revert d. induction q as [|c q IH]; intros d Hq; [by destruct d|].
  cbn [free_of] in Hq. apply andb_true_iff in Hq as [Hc Hq]. destruct d as [|e d].
  - change (String.prefix (String c q) (String ":" p) = false). rewrite prefix_cons.
    rewrite bool_decide_eq_false_2; [done|]. by intros ->.
  - rewrite app_cons, !prefix_cons. by rewrite IH.
Qed.

Lemma contains_around_colon q d p : no_colon q = true ->
  contains q (d +:+ String ":" p) = contains q d || contains q p.
Proof.
  intros Hq. induction d as [|c d IH].
  - change (String.prefix q (String ":" p) || contains q p = contains q EmptyString || contains q p).
    f_equal. pose proof (prefix_colon q EmptyString p Hq) as E.
    change (EmptyString +:+ String ":" p) with (String ":" p) in E. rewrite E. by destruct q.
  - rewrite app_cons. cbn [contains]. rewrite IH, <- app_cons, prefix_colon by done. by rewrite orb_assoc.
Qed.

Lemma no_colon_app a b : no_colon (a +:+ b) = no_colon a && no_colon b.
Proof. apply free_of_app. Qed.

Lemma same_platform_exact dev plat d p :
  no_colon dev = true -> no_colon d = true -> no_colon p = true ->
  same_platform_field dev plat (generate_device_field d p) =
  String.prefix plat p && negb (contains dev d || contains dev p).
Proof.
  intros Hdev Hd Hp. unfold same_platform_field. rewrite contains_colon by done.
  unfold generate_device_field. by rewrite <- (contains_around_colon dev d p Hdev).
Qed.

(** For texts without a colon the test of a listed device for "the same platform, another
    device" is: its platform begins with the new one, and the new device's id occurs neither
    in its id nor in its platform.  So a device is not recognised as another one when the new
    id is a part of its id or of the platform (device "1" or "web" ends no web session), and
    a platform that only begins like the new one counts as the same. *)
Theorem same_platform_test dev plat d p :
  no_colon dev = true -> no_colon d = true -> no_colon p = true ->
  (same_platform_field dev plat (generate_device_field d p) =
   String.prefix plat p && negb (contains dev d || contains dev p)) /\
  (forall a b, d = a +:+ dev +:+ b \/ plat = a +:+ dev +:+ b ->
     same_platform_field dev plat (generate_device_field d plat) = false) /\
  (forall b, p = plat +:+ b -> contains dev d = false -> contains dev p = false ->
     same_platform_field dev plat (generate_device_field d p) = true).
Proof.
  intros Hdev Hd Hp. split; [by apply same_platform_exact|]. split.
  - intros a b E. unfold same_platform_field, generate_device_field.
    change (d +:+ ":" +:+ plat)%string with (d +:+ String ":" plat).
    rewrite (contains_around_colon dev d plat Hdev).
    assert (Hc : contains dev d || contains dev plat = true).
    { apply orb_true_iff. destruct E as [E|E]; [left|right]; apply contains_spec; eauto. }
    by rewrite Hc, andb_false_r.
  - intros b -> H1 H2. rewrite same_platform_exact, H1, H2, prefix_app by done. done.
Qed.

(** * Witnesses: an in-memory Redis and the toy JSON *)

#[local] Existing Instances Mem.mem_redis Mem.mem_redis_laws Toy.toy_json Toy.toy_json_laws.

Definition start (budget : option nat) (registered : gset string) : Manager Mem.t :=
  {| redis := {| Mem.keys := Mem.empty; Mem.budget := budget |};
     websocket_server := Some registered; closing := [] |}.

Lemma start_inv b r : Inv (keys_of (start b r)).
Proof. by apply empty_inv. Qed.

Definition no_multi : gmap PlatformType bool := load_multi_device (fun _ dflt => dflt).

Lemma registry_operations_witness :
  exists w' closed, add_connection no_multi "u1" "d1" "web" "session_1" 5000000
      (start None {["session_1"]}) = (w', true) /\
    closing w' = closed /\ listing w' "u1" !! "d1:web"%string = Some (stored
      {| session_id := "session_1"; device_id := "d1"; platform := "web"; connect_time := 5000000 |}).
Proof.
  destruct (registry_operations no_multi "u1" "d1" "web" "session_1" 5000000
    (start None {["session_1"]}) (start_inv _ _) eq_refl ltac:(done) eq_refl)
    as [(w' & closed & E & _ & _ & Hl & _ & _ & Hc) _].
  exists w', closed. split_and!; [done|done|]. rewrite Hl. apply lookup_insert_eq.
Defined.

Lemma connections_reachable_wf_witness :
  let w := (add_connection no_multi "u1" "d1" "web" "session_1" 5000000 (start None ∅)).1 in
  Inv (keys_of w) /\ (get_online_users w).2 = ["u1"]%string.
Proof.
  intros w. destruct (connections_reachable_wf no_multi (start None ∅) w) as (_ & HI & _ & _); try done.
  apply rtc_once. by apply step_add.
Defined.

(** The two devices of the reconnection, and the state after the late close. *)
Lemma late_close_drops_reconnection_witness :
  let w1 := (add_connection no_multi "u1" "d1" "web" "session_1" 1 (start None {["session_2"]})).1 in
  let w2 := (add_connection no_multi "u1" "d1" "web" "session_2" 2 w1).1 in
  (get_session "u1" "d1" "web" w2).2 = Some "session_2"%string /\
  (get_session "u1" "d1" "web" (remove_connection_by_session "session_1" w2)).2 = None.
Proof.
  intros w1 w2. split; [vm_compute; reflexivity|].
  apply (late_close_drops_reconnection no_multi "u1" "d1" "web" "session_1" "session_2" 1 2
    (start None {["session_2"]}) (start_inv _ _)); done.
Defined.

(** A connection lost after the first command: listed, but not online. *)
Example lost_after_one_command :
  let r := add_connection no_multi "u1" "d1" "web" "session_1" 1 (start (Some 4%nat) ∅) in
  r.2 = false /\ map_to_list (listing r.1 "u1") <> [] /\ elements (online (keys_of r.1)) = [].
Proof. split_and!; vm_compute; [reflexivity|discriminate|reflexivity]. Qed.

Lemma same_platform_test_witness :
  same_platform_field "d2" "web" (generate_device_field "d1" "web") = true /\
  same_platform_field "1" "web" (generate_device_field "d1" "web") = false /\
  same_platform_field "d2" "web" (generate_device_field "d1" "webview") = true.
Proof.
  pose proof (same_platform_test "1" "web" "d1" "web" eq_refl eq_refl eq_refl) as (_ & Hf & _).
  pose proof (same_platform_test "d2" "web" "d1" "webview" eq_refl eq_refl eq_refl) as (He & _ & Ht).
  split; [done|]. split; [by apply (Hf "d" ""); left|by apply (Ht "view")].
Defined.
