(* ===== verification/Push.v ===== *)
(** Push delivery ([services/push/push_runtime.cpp], [services/push/fanout_policy.cpp]): the
    runtime that sends a stored message to the sessions of its receiver.

    The runtime works against three abstract classes (session provider, payload sender,
    delivery marker), here the class [Ports]; the in-process and the remote implementations
    are instances of it in PushGateway. *)
From S2P Require Import Prelude Text ProtobufRuntime ProtobufCodec.
From Stdlib Require Import Ascii.
Open Scope Z_scope.

(** * Data *)

Record PushSessionInfo := {
  ps_session_id : string;
  ps_platform : string;
  ps_connect_time : Z        (* nanoseconds since the epoch *)
}.

Record PushContext := {
  sender_uid : string;
  conversation_type : string;
  conversation_id : string
}.

(** [message PushMessageBody] and [message PushRequest] of [common/proto/push.proto]. *)
Inductive PushType := PUSH_MESSAGE | PUSH_NOTIFICATION | PUSH_SYSTEM | PUSH_OFFLINE.

Record PushMessageBody := {
  push_id : string;
  push_type : PushType;
  push_content : string;
  related_message_id : string;
  ext : string
}.

Record PushRequest := {
  push_header : option IMHeader;
  push_body : option PushMessageBody
}.

(** [im::command::CMD_PUSH_MESSAGE]. *)
Definition CMD_PUSH_MESSAGE : Z := 5001.

(** [PushSessionProvider], [PushPayloadSender] and [PushDeliveryMarker]; each may throw. *)
Class Ports (D : Type) := {
  get_sessions : string -> exec D (list PushSessionInfo);
  send_payload : string -> bytes -> exec D bool;
  mark_delivered : Z -> Z -> exec D bool
}.

(** * Fan-out policies *)

Definition FanoutPolicy := list PushSessionInfo -> list string.

Definition AllSessionsFanoutPolicy : FanoutPolicy := fun sessions => map ps_session_id sessions.

Definition PlatformFilterFanoutPolicy (allowed_platforms : list string) : FanoutPolicy := fun sessions =>
  map ps_session_id
    (List.filter (fun session => existsb (String.eqb (ps_platform session)) allowed_platforms) sessions).

Definition newer (newest session : PushSessionInfo) : PushSessionInfo :=
  if ps_connect_time newest <? ps_connect_time session then session else newest.

Definition NewestSessionFanoutPolicy : FanoutPolicy := fun sessions =>
  match sessions with
  | [] => []
  | first :: rest => [ps_session_id (foldl newer first rest)]
  end.

(** * The payload *)

Definition quote : ascii := "034"%char.
Definition backslash : ascii := "092"%char.

(** [json_escape]: the five characters it knows. *)
Definition escape_char (c : ascii) : string :=
  let two (d : ascii) := String backslash (String d EmptyString) in
  if Ascii.eqb c backslash then two backslash
  else if Ascii.eqb c quote then two quote
  else if Ascii.eqb c "010"%char then two "n"%char
  else if Ascii.eqb c "013"%char then two "r"%char
  else if Ascii.eqb c "009"%char then two "t"%char
  else String c EmptyString.

Fixpoint json_escape (value : string) : string :=
  match value with
  | EmptyString => EmptyString
  | String ch rest => escape_char ch +:+ json_escape rest
  end.

(** One [append] of [build_context_ext]: the text so far, and whether it needs a comma. *)
Definition append_member (out : string * bool) (member : string * string) : string * bool :=
  let '(key, value) := member in
  let q := String quote EmptyString in
  if String.eqb value "" then out
  else ((out.1 +:+ (if out.2 then "," else "") +:+ q +:+ key +:+ q +:+ ":" +:+ q +:+ json_escape value +:+ q)%string,
        true).

Definition build_context_ext (context : PushContext) : string :=
  let '(out, needs_comma) := foldl append_member ("{"%string, false)
    [("sender_uid", sender_uid context); ("conversation_type", conversation_type context);
     ("conversation_id", conversation_id context)]%string in
  if needs_comma then (out +:+ "}")%string else EmptyString.

(** * The runtime *)

(** [PushRuntime]: which of the three pointers are set, and the policy, which may be null. *)
Record PushRuntime := {
  session_provider : bool;
  payload_sender : bool;
  delivery_marker : bool;
  fanout_policy : option FanoutPolicy
}.

Section Runtime.
Context {D : Type} `{Ports D} `{CodedOutput} `{ProtoMessage IMHeader} `{ProtoMessage PushRequest}.
(** [ServiceIdentityManager::getDeviceId]. *)
Context (service_device_id : string).

Definition push_header_of (receiver_uid : string) (context : PushContext) (now_ms : Z) : IMHeader :=
  {| version := "1.0"; seq_ := 0; cmd_id := CMD_PUSH_MESSAGE;
     from_uid := if String.eqb (sender_uid context) "" then service_device_id else sender_uid context;
     to_uid := receiver_uid; timestamp := u64 now_ms; token := ""; device_id := ""; platform := "" |}.

Definition push_request_of (msg_id : Z) (content : string) (context : PushContext) : PushRequest :=
  {| push_header := None;
     push_body := Some {| push_id := ""; push_type := PUSH_MESSAGE; push_content := content;
                          related_message_id := dec msg_id; ext := build_context_ext context |} |}.

(** [PushRuntime::build_payload]; the empty payload stands for a failed encoding. *)
Definition build_payload (receiver_uid : string) (msg_id : Z) (content : string)
    (context : PushContext) (now_ms : Z) : bytes :=
  match encode (push_header_of receiver_uid context now_ms) (push_request_of msg_id content context) with
  | Some encoded => encoded
  | None => []
  end.

(** One round of the loop: an exception of the sender counts as a refusal. *)
Definition attempt (m : exec D bool) : exec D bool := fun d =>
  let '(d', a) := try_catch m false d in (d', Ok a).

Fixpoint send_all (payload : bytes) (selected : list string) : exec D Z :=
  match selected with
  | [] => ret 0
  | session_id :: rest =>
      let* accepted := attempt (send_payload session_id payload) in
      let* count := send_all payload rest in
      ret (if accepted then 1 + count else count)
  end.

(** The body of the [try] block; [now1] and [now2] are the two readings of the clock. *)
Definition deliver (policy : FanoutPolicy) (receiver_uid : string) (msg_id : Z) (content : string)
    (context : PushContext) (now1 now2 : Z) : exec D unit :=
  let* sessions := get_sessions receiver_uid in
  match sessions with
  | [] => ret tt
  | _ =>
    match policy sessions with
    | [] => ret tt
    | selected =>
      match build_payload receiver_uid msg_id content context now1 with
      | [] => ret tt
      | payload =>
        let* success_count := send_all payload selected in
        if 0 <? success_count then let* _ := mark_delivered msg_id now2 in ret tt else ret tt
      end
    end
  end.

(** [PushRuntime::notify_user]. *)
Definition notify_user (rt : PushRuntime) (receiver_uid : string) (msg_id : Z) (content : string)
    (context : PushContext) (now1 now2 : Z) (d : D) : D :=
  match session_provider rt && payload_sender rt && delivery_marker rt, fanout_policy rt with
  | true, Some policy => (try_catch (deliver policy receiver_uid msg_id content context now1 now2) tt d).1
  | _, _ => d
  end.
End Runtime.

(** The identity of the process is the sender only of a push without one: two processes push
    the same for a named sender. *)
Lemma named_payload `{CodedOutput} `{ProtoMessage IMHeader} `{ProtoMessage PushRequest} device1 device2 uid msg_id content context now :
  sender_uid context <> "" ->
  build_payload device1 uid msg_id content context now = build_payload device2 uid msg_id content context now.
Proof. intros Hs. unfold build_payload, push_header_of. by rewrite (proj2 (String.eqb_neq _ _) Hs). Qed.

Lemma named_notify {D} `{Ports D} `{CodedOutput} `{ProtoMessage IMHeader} `{ProtoMessage PushRequest}
    device1 device2 rt uid msg_id content context now1 now2 (d : D) : sender_uid context <> "" ->
  notify_user device1 rt uid msg_id content context now1 now2 d =
  notify_user device2 rt uid msg_id content context now1 now2 d.
Proof.
  intros Hs. unfold notify_user, deliver, build_payload, push_header_of.
  by rewrite (proj2 (String.eqb_neq _ _) Hs).
Qed.

(** * Lemmas: policies *)

(** The later of two positions; an earlier session wins a tie. *)
Lemma newest_spec (first : PushSessionInfo) rest :
  let n := foldl newer first rest in
  n ∈ first :: rest /\ forall x, x ∈ first :: rest -> ps_connect_time x <= ps_connect_time n.
Proof.
  revert first. induction rest as [|y rest IH]; intros first; cbn [foldl].
  - split; [constructor|]. intros x [->|?%elem_of_nil]%elem_of_cons; [lia|done].
  - destruct (IH (newer first y)) as [Hin Hmax]. unfold newer in *.
    destruct (ps_connect_time first <? ps_connect_time y) eqn:E; zbool.
    + split; [by constructor|]. intros x [->|Hx]%elem_of_cons; [|by apply Hmax].
      specialize (Hmax y ltac:(constructor)). lia.
    + split.
      * apply elem_of_cons in Hin as [Hin|Hin]; [rewrite Hin; constructor|by do 2 constructor].
      * intros x [->|[->|Hx]%elem_of_cons]%elem_of_cons; [apply Hmax; constructor| |apply Hmax; by constructor].
        specialize (Hmax first ltac:(constructor)). lia.
Qed.

(** * Every environment

    Ports that record their calls and answer them in any way, which may depend on the calls
    made before. *)

Inductive call :=
| CallSessions (receiver_uid : string)
| CallSend (session_id : string) (payload : bytes)
| CallMark (msg_id delivered_time : Z).

Record Env := {
  on_sessions : list call -> string -> result (list PushSessionInfo);
  on_send : list call -> string -> bytes -> result bool;
  on_mark : list call -> Z -> Z -> result bool
}.

Definition recording (env : Env) : Ports (list call) := {|
  get_sessions u tr := (tr ++ [CallSessions u], on_sessions env tr u);
  send_payload s p tr := (tr ++ [CallSend s p], on_send env tr s p);
  mark_delivered m t tr := (tr ++ [CallMark m t], on_mark env tr m t)
|}.

(** The answers to a row of sends that starts after the calls [tr]. *)
Fixpoint send_answers (env : Env) (payload : bytes) (tr : list call) (selected : list string)
  : list (result bool) :=
  match selected with
  | [] => []
  | s :: rest => on_send env tr s payload :: send_answers env payload (tr ++ [CallSend s payload]) rest
  end.

Definition accepted (r : result bool) : bool := match r with Ok true => true | _ => false end.

(** To whom the runtime sends, given the answer of the session provider. *)
Definition selection (policy : FanoutPolicy) (r : result (list PushSessionInfo)) : list string :=
  match r with Ok (s :: l) => policy (s :: l) | _ => [] end.

Section Calls.
Context `{CodedOutput} `{ProtoMessage IMHeader} `{ProtoMessage PushRequest} (service_device_id : string).

Lemma send_all_calls (env : Env) payload selected tr :
  exists n, send_all (H := recording env) payload selected tr =
    (tr ++ map (fun s => CallSend s payload) selected, Ok n) /\
    0 <= n /\ (0 <? n) = existsb accepted (send_answers env payload tr selected).
Proof.
  revert tr. induction selected as [|s rest IH]; intros tr; cbn [send_all].
  { exists 0. by rewrite app_nil_r. }
  unfold bind at 1, attempt, try_catch. simpl.
  destruct (IH (tr ++ [CallSend s payload])) as (n & E & Hn & Hb).
  destruct (on_send env tr s payload) as [[]|] eqn:Ea; simpl; unfold bind; rewrite E, <- app_assoc;
    eexists; (split; [done|]); split; try done; try lia.
Qed.

#[local] Arguments send_all : simpl never.

(** The calls of one push, whatever its environment answers or throws: the session
    provider once; when it gives sessions, the policy selects some and the payload can be
    encoded, one send of that payload to each selected session in order, whatever happens to
    the others; then exactly one delivery mark when at least one send was accepted, and none
    otherwise.  A runtime that is not completely configured calls nothing. *)
Theorem notify_calls (env : Env) (rt : PushRuntime) uid msg_id content ctx now1 now2 tr :
  notify_user (H := recording env) service_device_id rt uid msg_id content ctx now1 now2 tr = tr ++
  match session_provider rt && payload_sender rt && delivery_marker rt, fanout_policy rt with
  | true, Some policy =>
      let asked := [CallSessions uid] in
      let payload := build_payload service_device_id uid msg_id content ctx now1 in
      let selected := if decide (payload = []) then [] else selection policy (on_sessions env tr uid) in
      asked ++ map (fun s => CallSend s payload) selected ++
      (if existsb accepted (send_answers env payload (tr ++ asked) selected)
       then [CallMark msg_id now2] else [])
  | _, _ => []
  end.
Proof.
  unfold notify_user. destruct (_ && delivery_marker rt); [|by rewrite app_nil_r].
  destruct (fanout_policy rt) as [policy|]; [|by rewrite app_nil_r]. cbv zeta.
  unfold deliver, try_catch, bind at 1. simpl.
  destruct (on_sessions env tr uid) as [[|s l]|]; simpl; try by destruct (decide _).
  destruct (policy (s :: l)) as [|x selected]; [by destruct (decide _)|].
  destruct (build_payload service_device_id uid msg_id content ctx now1) as [|b p].
  { by rewrite decide_True. }
  rewrite decide_False by done.
  destruct (send_all_calls env (b :: p) (x :: selected) (tr ++ [CallSessions uid])) as (n & E & Hn & Hb).
  unfold bind at 1. rewrite E, Hb.
  destruct (existsb accepted _); simpl; rewrite ?app_nil_r, <- ?app_assoc; [|done].
  unfold bind. simpl. destruct (on_mark _ _ _ _); simpl; by rewrite <- !app_assoc.
Qed.
End Calls.

(** The receiver of the payload reads the header and the request back. *)
Section Payload.
Context {S : Type} `{CodedLaws S} `{ProtoLaws IMHeader} `{ProtoLaws PushRequest} (service_device_id : string).

Lemma payload_decodes uid msg_id content ctx now hd md m0 :
  let p := build_payload service_device_id uid msg_id content ctx now in
  0 < zlen (GetTypeName PushRequest) ->
  SerializeToString (push_header_of service_device_id uid ctx now) = Some hd -> 0 < zlen hd ->
  SerializeToString (push_request_of msg_id content ctx) = Some md -> md <> [] ->
  p <> [] -> zlen p <= max_frame ->
  decode (S := S) p m0 =
    Val (Some (push_header_of service_device_id uid ctx now, push_request_of msg_id content ctx)).
Proof.
  intros p Htn Hh Hhd Hm Hmd Hp Hmax. unfold p, build_payload in *.
  destruct (encode _ _) as [frame|] eqn:Ee; [|done].
  destruct (encode_inv _ _ frame Ee Hmax) as (hd' & md' & Hh' & Hm' & -> & Hd).
  simplify_eq. erewrite decode_data by done. by destruct md.
Qed.
End Payload.

(** ** The extension text *)

(** Other control characters are copied, which JSON does not allow inside a text. *)
Example json_escape_control :
  json_escape (String "001"%char EmptyString) = String "001"%char EmptyString.
Proof. reflexivity. Qed.
