(* ===== verification/Rpc.v ===== *)
(** Remote calls, as the gateway and the services make them.

    gRPC is third-party code: the class [Rpc] runs a handler of the server side, or fails.
    The rest is what every handler and every client of the repository does around it: the
    common response header and the [try]/[catch] of a handler. *)
From S2P Require Import Prelude ProtobufCodec.
Open Scope Z_scope.

(** * gRPC *)

(** A unary call: [None] is a status that is not OK. *)
Class Rpc (D : Type) := call : forall {Req Resp : Type}, (Req -> exec D Resp) -> Req -> exec D (option Resp).

(** A channel that works: the handler runs once; one that throws gives a status UNKNOWN. *)
Class RpcWorks (D : Type) `{Rpc D} :=
  rpc_works : forall {Req Resp : Type} (h : Req -> exec D Resp) r d,
    call h r d = let '(d', x) := h r d in (d', Ok (match x with Ok a => Some a | Throw => None end)).

(** * The common header of a response *)

Definition base_of (code : ErrorCode) (message : string) : BaseResponse :=
  {| error_code := ErrorCode_value code; error_message := message; payload := [] |}.

Definition is_success (base : BaseResponse) : bool := error_code base =? ErrorCode_value SUCCESS.

(** [code == im::base::X]; the enumeration is open, any integer may arrive. *)
Definition is_code (base : BaseResponse) (code : ErrorCode) : bool := error_code base =? ErrorCode_value code.

(** * Handlers *)

(** [try { ... } catch (const std::exception& e)] around the body of a handler. *)
Definition handler {D A} (m : exec D A) (failed : A) : exec D A := fun d =>
  let '(d', a) := try_catch m failed d in (d', Ok a).

(** The time of a request: [header().timestamp() > 0 ? static_cast<int64_t>(...) : now_ms()]. *)
Definition header_time (timestamp now_ms : Z) : Z := if 0 <? timestamp then i64 timestamp else now_ms.

(** * Lemmas *)

(** The cast to [uint64_t] of the client is undone, and 0 asks for the time of the server. *)
Lemma header_time_sent t now_ms : - 2 ^ 63 <= t < 2 ^ 63 ->
  header_time (u64 t) now_ms = if decide (t = 0) then now_ms else t.
Proof.
  intros Ht. unfold header_time. destruct (decide (t = 0)) as [->|Hz]; [done|].
  rewrite i64_u64 by done. destruct (0 <? _) eqn:Eu; [done|]. zbool. exfalso. apply Hz.
  unfold u64 in Eu. pose proof (Z.mod_pos_bound t (2 ^ 64) ltac:(lia)).
  assert (Hm : t mod 2 ^ 64 = 0) by lia. apply Z.mod_divide in Hm as [k Hk]; lia.
Qed.

(** A list that a conversion and its inverse carry over. *)
Lemma map_trip {A B} (f : A -> B) (g : B -> A) l : (forall x, x ∈ l -> g (f x) = x) -> map g (map f l) = l.
Proof.
  intros Hl. rewrite map_map. rewrite (map_ext_in _ id); [apply map_id|].
  intros x Hx%list_elem_of_In. by apply Hl.
Qed.

(** Tables of error codes: one goal per entry. *)
Ltac text_cases e :=
  repeat match goal with
  | |- context [String.eqb e ?s] => destruct (String.eqb_spec e s)
  | |- context [decide ?P] => destruct (decide P)
  end; simpl; try done; try (exfalso; intuition congruence).

(** What a client gets from a handler that never throws. *)
Lemma call_ok {D} `{RpcWorks D} {Req Resp} (h : Req -> exec D Resp) r d d' a :
  h r d = (d', Ok a) -> call h r d = (d', Ok (Some a)).
Proof. intros E. by rewrite rpc_works, E. Qed.

Lemma is_success_base_of code msg : is_success (base_of code msg) = true <-> code = SUCCESS.
Proof. by destruct code. Qed.

(** * The channel of a test: the handler is called directly *)

Definition direct (D : Type) : Rpc D := fun _ _ h r d =>
  let '(d', x) := h r d in (d', Ok (match x with Ok a => Some a | Throw => None end)).

Lemma direct_works (D : Type) : @RpcWorks D (direct D).
Proof. by intros ? ? ? ? ?. Qed.
