(* ===== verification/Auth.v ===== *)
(** Access and refresh tokens: [gateway/auth/multi_platform_auth.hpp] and [.cpp].

    An access token is a signed JWT; revoking it stores its id in Redis until it expires.  A
    refresh token is a random text whose description is stored in Redis.  The JWT library is
    the class [Jwt], Redis the class [TokenStore], the JSON library the class [Json]; the
    random texts ([uuid_generate], [rt_generate]'s draws) are arguments.  Every public
    operation catches all exceptions. *)
From S2P Require Import Prelude Text Redis TokenStore Json ConnectionManager Rpc.
From Stdlib Require Import SpecFloat Ascii.
Open Scope Z_scope.

Definition second : Z := 1000000000.

(** * Data *)

Record UserTokenInfo := {
  ti_user_id : string; ti_username : string; ti_device_id : string; ti_platform : string;
  ti_create_time : Z; ti_expire_time : Z      (* nanoseconds since the epoch *)
}.

(** [float] and [double] are IEEE 754 numbers of 24 and 53 bits. *)
Record RefreshConfig := {
  refresh_precentage : spec_float; auto_refresh_enabled : bool; background_refresh : bool; max_retry_count : Z
}.
Record TokenTimeConfig := { access_token_expire_seconds : Z; refresh_token_expire_seconds : Z }.
Record PlatformTokenConfig := {
  pt_platform : PlatformType; refresh_config : RefreshConfig; token_time_config : TokenTimeConfig;
  enable_multi_device : bool
}.
Record TokenResult := { tr_success : bool; tr_access_token : string; tr_refresh_token : string; tr_error : string }.

(** * rt_generate *)

Definition rt_chars : string := "abcdefghijklmnopqrstuvwxyzABCDEFGHIJKLMNOPQRSTUVWXYZ0123456789-_".

(** One character for each draw of an index below [chars.size()]. *)
Fixpoint rt_generate (draws : list nat) : string :=
  match draws with
  | [] => EmptyString
  | i :: rest => match String.get i rt_chars with Some c => String c (rt_generate rest) | None => rt_generate rest end
  end.

(** * PlatformTokenStrategy *)

(** [ConfigManager::get<T>(key, default)]. *)
Record Config := {
  config_bool : string -> bool -> bool;
  config_int : string -> Z -> Z;
  config_float : string -> spec_float -> spec_float
}.

(** [0.3f]. *)
Definition three_tenths : spec_float := S754_finite false 10066330 (-25).

Definition load_platform (config : Config) (platform : string) : PlatformTokenConfig :=
  let key name := ("PlatformTokenStrategy." +:+ platform +:+ "." +:+ name)%string in
  {| pt_platform := get_platform_type platform;
     refresh_config := {|
       refresh_precentage := config_float config (key "refresh_precentage"%string) three_tenths;
       auto_refresh_enabled := config_bool config (key "auto_refresh_enabled"%string) true;
       background_refresh := config_bool config (key "background_refresh"%string) true;
       max_retry_count := config_int config (key "max_retry_count"%string) 1 |};
     token_time_config := {|
       access_token_expire_seconds := config_int config (key "access_token_expire_seconds"%string) 0;
       refresh_token_expire_seconds := config_int config (key "refresh_token_expire_seconds"%string) 0 |};
     enable_multi_device := config_bool config (key "enable_multi_device"%string) false |}.

Definition load_platforms (config : Config) : gmap PlatformType PlatformTokenConfig :=
  foldl (fun m platform => <[get_platform_type platform := load_platform config platform]> m) ∅ platforms.

(** [operator[]] makes an entry with all members zero where there is none. *)
Definition zero_platform : PlatformTokenConfig :=
  {| pt_platform := UNKNOWN;
     refresh_config := {| refresh_precentage := S754_zero false; auto_refresh_enabled := false;
                          background_refresh := false; max_retry_count := 0 |};
     token_time_config := {| access_token_expire_seconds := 0; refresh_token_expire_seconds := 0 |};
     enable_multi_device := false |}.
Definition get_platform_token_config (configs : gmap PlatformType PlatformTokenConfig) (platform : string)
  : PlatformTokenConfig := default zero_platform (configs !! get_platform_type platform).

(** * JWT (jwt-cpp) *)

(** What [jwt::create()] is given; times in nanoseconds. *)
Record Claims := {
  jc_issuer : string; jc_audience : string; jc_issued_at : Z; jc_expires_at : Z; jc_id : string;
  jc_subject : string; jc_payload : list (string * string)
}.

(** A numeric date has whole seconds. *)
Definition numeric_date (t : Z) : Z := t / second * second.

Class Jwt := {
  decoded_jwt : Type;
  jwt_sign : string -> Claims -> option string;
  jwt_decode : string -> option decoded_jwt;
  (* key, issuer, audience, current time: [verify] does not throw *)
  jwt_verify : string -> string -> string -> Z -> decoded_jwt -> bool;
  get_id : decoded_jwt -> option string;
  get_subject : decoded_jwt -> option string;
  get_issued_at : decoded_jwt -> option Z;
  get_expires_at : decoded_jwt -> option Z;
  get_payload_claim : decoded_jwt -> string -> option string
}.

(** A signed token decodes to its claims; it verifies under its key, issuer and audience from
    its issue until its expiry. *)
Class JwtLaws `{Jwt} := jwt_law : forall key c token, jwt_sign key c = Some token ->
  exists j, jwt_decode token = Some j /\ get_id j = Some (jc_id c) /\ get_subject j = Some (jc_subject c) /\
    get_issued_at j = Some (numeric_date (jc_issued_at c)) /\
    get_expires_at j = Some (numeric_date (jc_expires_at c)) /\
    (forall name, get_payload_claim j name = snd <$> find (fun p => bool_decide (p.1 = name)) (jc_payload c)) /\
    forall issuer audience now, jwt_verify key issuer audience now j =
      bool_decide (issuer = jc_issuer c /\ audience = jc_audience c /\
                   numeric_date (jc_issued_at c) <= now <= numeric_date (jc_expires_at c)).

(** * MultiPlatformAuthManager *)

Definition refresh_key (rt : string) : string := ("refresh_token:" +:+ rt)%string.
Definition revoked_key (jti : string) : string := ("revoked_access_token:" +:+ jti)%string.
Definition user_tokens_key (uid : string) : string := ("user:" +:+ uid +:+ ":refresh_tokens")%string.

Section Manager.
Context {D : Type} `{TokenStore D} `{Json} `{Jwt}.
Context (secret_key : string) (configs : gmap PlatformType PlatformTokenConfig).

Definition read_clock : exec D Z := fun d => (d, Ok (st_clock d)).

Definition access_claims (now : Z) (jti user_id username device_id platform : string) (expire_seconds : Z) : Claims :=
  let time := access_token_expire_seconds (token_time_config (get_platform_token_config configs platform)) in
  {| jc_issuer := "mychat-gateway"; jc_audience := "mychat-client"; jc_issued_at := now;
     jc_expires_at := now + (if 0 <? expire_seconds then expire_seconds else time) * second;
     jc_id := jti; jc_subject := user_id;
     jc_payload := [("username", username); ("device_id", device_id); ("platform", platform);
                    ("type", "access")]%string |}.

Definition generate_access_token (jti user_id username device_id platform : string) (expire_seconds : Z)
  : exec D string :=
  handler
    (let* now := read_clock in
     or_throw (jwt_sign secret_key (access_claims now jti user_id username device_id platform expire_seconds)))
    "".

(** [rtMeta]. *)
Definition rt_meta (rt user_id username device_id platform : string) (now expire_time : Z) : members :=
  [("user_id", JStr user_id); ("username", JStr username); ("device_id", JStr device_id);
   ("platform", JStr platform); ("expire_time", JInt expire_time); ("create_time", JInt now);
   ("jti", JStr rt); ("type", JStr "refresh"); ("revoked", JBool false); ("last_used", JInt now)]%string.

Definition generate_refresh_token (rt user_id username device_id platform : string) (expire_seconds : Z)
  : exec D string :=
  handler
    (let* now := read_clock in
     let configured := refresh_token_expire_seconds (token_time_config (get_platform_token_config configs platform)) in
     let actual := if 0 <? expire_seconds then expire_seconds else configured in
     let meta := obj (rt_meta rt user_id username device_id platform now (now + actual * second)) in
     let* _ := st_execute
       (let* text := or_throw (dump meta) in
        let* _ := st_set (refresh_key rt) text in
        let* _ := st_expire (refresh_key rt) actual in
        let* _ := st_sadd (user_tokens_key user_id) rt in
        st_expire (user_tokens_key user_id) actual) in
     ret rt)
    "".

(** No exception reaches the [catch] of this function. *)
Definition generate_tokens (jti rt user_id username device_id platform : string) : exec D TokenResult :=
  let* access := generate_access_token jti user_id username device_id platform 0 in
  let* refresh := generate_refresh_token rt user_id username device_id platform 0 in
  ret {| tr_success := true; tr_access_token := access; tr_refresh_token := refresh; tr_error := "" |}.

Definition extract_jti (token : string) : string := default ""%string (jwt_decode token ≫= get_id).

Definition is_token_revoked (token : string) : exec D bool :=
  handler
    (let jti := extract_jti token in
     if String.eqb jti "" then ret false
     else let* _ := st_connection in st_exists (revoked_key jti))
    true.

(** The user a decoded token names. *)
Definition info_of_token (j : decoded_jwt) : option UserTokenInfo :=
  user ← get_subject j; name ← get_payload_claim j "username"; device ← get_payload_claim j "device_id";
  plat ← get_payload_claim j "platform"; issued ← get_issued_at j; expires ← get_expires_at j;
  Some {| ti_user_id := user; ti_username := name; ti_device_id := device; ti_platform := plat;
          ti_create_time := issued; ti_expire_time := expires |}.

(** [jwt::decode] and [verifier.verify]. *)
Definition verified (token : string) : exec D decoded_jwt :=
  let* j := or_throw (jwt_decode token) in
  let* now := read_clock in
  if jwt_verify secret_key "mychat-gateway" "mychat-client" now j then ret j else throw.

(** The two overloads; [None] and [false] are the answer [false]. *)
Definition verify_access_token (access_token : string) : exec D (option UserTokenInfo) :=
  handler
    (let* j := verified access_token in
     let* revoked := is_token_revoked access_token in
     if revoked then ret None
     else let* info := or_throw (info_of_token j) in ret (Some info))
    None.

Definition verify_access_token_device (access_token device_id : string) : exec D bool :=
  handler
    (if String.eqb access_token "" then throw
     else
       let* j := verified access_token in
       let* revoked := is_token_revoked access_token in
       if revoked then throw
       else
         let* device := or_throw (get_payload_claim j "device_id") in
         if negb (String.eqb device_id device) then throw else ret true)
    false.

(** [decode["revoked"] = b], written back with the time that was left. *)
Definition set_revoked (b : bool) (refresh_token : string) : exec D bool :=
  handler
    (st_execute
      (let* meta := st_get (refresh_key refresh_token) in
       match meta with
       | None => ret false
       | Some meta =>
           let* remaining := st_ttl (refresh_key refresh_token) in
           let* decode := or_throw (parse meta) in
           let* decode := or_throw (put_bool decode "revoked" b) in
           let* text := or_throw (dump decode) in
           let* _ := st_set (refresh_key refresh_token) text in
           if 0 <? remaining
           then let* _ := st_expire (refresh_key refresh_token) (i32 remaining) in ret true
           else ret true
       end))
    false.

Definition revoke_refresh_token : string -> exec D bool := set_revoked true.
Definition unrevoke_refresh_token : string -> exec D bool := set_revoked false.

(** A description of another device revokes the token; [None] is the answer [false]. *)
Definition verify_refresh_token (refresh_token device_id : string) : exec D (option UserTokenInfo) :=
  handler
    (if String.eqb refresh_token "" then throw
     else
       let* meta := st_execute (st_get (refresh_key refresh_token)) in
       match meta with
       | None => ret None
       | Some meta =>
           let* decode := or_throw (parse meta) in
           if is_null decode then throw
           else if negb (bool_decide (get_str decode "device_id" = Some device_id)) then
             let* _ := revoke_refresh_token refresh_token in throw
           else
             let* revoked := or_throw (get_bool decode "revoked") in
             if revoked then throw
             else
               or_throw (device ← get_str decode "device_id"; plat ← get_str decode "platform";
                         user ← get_str decode "user_id"; name ← get_str decode "username";
                         created ← get_int decode "create_time"; expires ← get_int decode "expire_time";
                         Some (Some {| ti_user_id := user; ti_username := name; ti_device_id := device;
                                       ti_platform := plat; ti_create_time := created; ti_expire_time := expires |}))
       end)
    None.

(** [(double)(expires_at - now) / (double)(expires_at - issued_at) < refresh_precentage]. *)
Definition to_double (z : Z) : spec_float := binary_normalize 53 1024 z 0 false.
Definition rotate_due (issued_at expires_at now : Z) (percentage : spec_float) : bool :=
  SFltb (SFdiv 53 1024 (to_double (expires_at - now)) (to_double (expires_at - issued_at))) percentage.

Definition should_rotate_refresh_token (refresh_token : string) : exec D bool :=
  handler
    (let* _ := st_connection in
     let* meta := st_get (refresh_key refresh_token) in
     match meta with
     | None => ret false
     | Some meta =>
         let* decode := or_throw (parse meta) in
         let* issued_at := or_throw (get_int decode "create_time") in
         let* expires_at := or_throw (get_int decode "expire_time") in
         let* now := read_clock in
         let* platform := or_throw (get_str decode "platform") in
         ret (rotate_due issued_at expires_at now
                (refresh_precentage (refresh_config (get_platform_token_config configs platform))))
     end)
    false.

(** The old refresh token stays as it is when a new one is made. *)
Definition refresh_access_token (jti rt refresh_token device_id : string) : exec D TokenResult :=
  let* user_info := verify_refresh_token refresh_token device_id in
  match user_info with
  | None => ret {| tr_success := false; tr_access_token := ""; tr_refresh_token := "";
                   tr_error := "Invalid refresh token" |}
  | Some u =>
      let* rotate := should_rotate_refresh_token refresh_token in
      let* new_refresh :=
        (if rotate then generate_refresh_token rt (ti_user_id u) (ti_username u) (ti_device_id u) (ti_platform u) 0
         else ret ""%string) in
      let* access := generate_access_token jti (ti_user_id u) (ti_username u) (ti_device_id u) (ti_platform u) 0 in
      ret {| tr_success := true; tr_access_token := access; tr_refresh_token := new_refresh; tr_error := "" |}
  end.

(** The key is kept for the whole seconds the token has left. *)
Definition revoke_token (token : string) : exec D bool :=
  handler
    (let jti := extract_jti token in
     if String.eqb jti "" then ret false
     else
       let* j := or_throw (jwt_decode token) in
       let* now := read_clock in
       let* exp := or_throw (get_expires_at j) in
       let ttl := if now <? exp then i32 (Z.quot (exp - now) second) else 0 in
       let* _ := st_execute
         (let* _ := st_set (revoked_key jti) "1" in
          if 0 <? ttl then st_expire (revoked_key jti) ttl else ret tt) in
       ret true)
    false.

Definition unrevoke_token (token : string) : exec D bool :=
  handler
    (let jti := extract_jti token in
     if negb (String.eqb jti "") then
       let* _ := st_connection in
       let* _ := st_del (revoked_key jti) in ret true
     else ret false)
    false.

Definition del_refresh_token (refresh_token : string) : exec D bool :=
  handler
    (let* _ := st_execute
       (let* meta := st_get (refresh_key refresh_token) in
        let* _ := st_del (refresh_key refresh_token) in
        match meta with
        | None => ret tt
        | Some meta =>
            let* decode := or_throw (parse meta) in
            let* user_id := or_throw (get_str decode "user_id") in
            st_srem (user_tokens_key user_id) refresh_token
        end) in
     ret true)
    false.
End Manager.

(** * Lemmas: commands that leave a key alone *)
Section Proofs.
Context {D : Type} `{TokenStoreLaws D} `{JsonLaws} `{JwtLaws}.
Context (secret_key : string) (configs : gmap PlatformType PlatformTokenConfig).

Definition clock (d : D) : Z := (st_view d).1.

(** Whether [m] returns or throws, [k] reads as before. *)
Definition frames {A} (k : string) (m : exec D A) : Prop := forall d d' r, m d = (d', r) ->
  found (st_view d') k = found (st_view d) k /\ clock d' = clock d /\ (st_healthy d -> st_healthy d').

Lemma frames_refl {A} k (r : result A) : frames k (fun d => (d, r)).
Proof. by intros d d' r' [= <- <-]. Qed.

Lemma frames_bind {A B} k (m : exec D A) (f : A -> exec D B) :
  frames k m -> (forall a, frames k (f a)) -> frames k (bind m f).
Proof.
  intros Hm Hf d d' r E. apply bind_inv in E as [[E ->]|(a & d1 & E & E2)]; [by apply Hm in E|].
  destruct (Hm _ _ _ E) as (E3 & E4 & Ha). destruct (Hf _ _ _ _ E2) as (E5 & E6 & Hb).
  split_and!; [congruence..|auto].
Qed.

Lemma frames_command {A} k (m : exec D A) pre eff ans : command st_view st_healthy m pre eff ans ->
  (forall s, found (eff s) k = found s k /\ (eff s).1 = s.1) -> frames k m.
Proof.
  intros Hm Hk d d' r E. destruct (Hm _ _ _ E) as (Hh & Hv & _). unfold clock.
  destruct Hv as [Hv|Hv]; rewrite Hv; [done|]. destruct (Hk (st_view d)). auto.
Qed.

Lemma frames_handler {A} k (m : exec D A) a : frames k m -> frames k (handler m a).
Proof.
  intros Hm d d' r. unfold handler, try_catch. destruct (m d) as [d1 []] eqn:E; intros [= <- <-]; by apply Hm in E.
Qed.

Lemma frames_or_throw {A} k (o : option A) : frames k (or_throw o : exec D A).
Proof. destruct o; apply frames_refl. Qed.

Lemma frames_read_clock k : frames k read_clock.
Proof. by intros d d' r [= <- <-]. Qed.

(** ** Access tokens *)

(** What [d2] still knows of [k] when nothing has written it since [d1]. *)
Definition kept (k : string) (d1 d2 : D) : Prop :=
  st_healthy d2 /\ clock d1 <= clock d2 /\
  found (st_view d2) k = (e ← found (st_view d1) k; if decide (live (clock d2) e) then Some e else None).

(** The answer of [verify_access_token] on a token this manager signed. *)
Definition claims_info (c : Claims) : option UserTokenInfo :=
  let claim name := snd <$> find (fun p => bool_decide (p.1 = name)) (jc_payload c) in
  name ← claim "username"%string; device ← claim "device_id"%string; plat ← claim "platform"%string;
  Some {| ti_user_id := jc_subject c; ti_username := name; ti_device_id := device; ti_platform := plat;
          ti_create_time := numeric_date (jc_issued_at c); ti_expire_time := numeric_date (jc_expires_at c) |}.

Definition in_force (c : Claims) (now : Z) (revoked : option TokenStore.entry) : Prop :=
  numeric_date (jc_issued_at c) <= now <= numeric_date (jc_expires_at c) /\ revoked = None.
#[export] Instance in_force_dec c now revoked : Decision (in_force c now revoked).
Proof. unfold in_force. apply _. Defined.

Lemma is_token_revoked_signed c token d : jwt_sign secret_key c = Some token -> jc_id c <> ""%string -> st_healthy d ->
  exists d', is_token_revoked token d = (d', Ok (bool_decide (is_Some (found (st_view d) (revoked_key (jc_id c)))))) /\
    st_healthy d' /\ st_view d' = st_view d.
Proof.
  intros Hs Hid Hd. destruct (jwt_law _ _ _ Hs) as (j & Ej & Ei & _).
  unfold is_token_revoked, handler, try_catch, extract_jti. rewrite Ej. simpl. rewrite Ei. simpl.
  rewrite (proj2 (String.eqb_neq _ _) Hid).
  destruct (st_bind st_connection (fun _ => st_exists (revoked_key (jc_id c))) _ _ _ d
    st_law_connection Hd I) as (d1 & ? & -> & _ & Hd1 & Hv1 & _).
  destruct (command_healthy _ _ _ _ _ _ d1 (st_law_exists (revoked_key (jc_id c))) Hd1 I)
    as (d2 & b & -> & Hd2 & Hv2 & ->).
  exists d2. split_and!; [by rewrite Hv1|done|by rewrite Hv2, Hv1].
Qed.

Lemma verified_signed c token d : jwt_sign secret_key c = Some token ->
  jc_issuer c = "mychat-gateway"%string -> jc_audience c = "mychat-client"%string ->
  exists j, jwt_decode token = Some j /\ info_of_token j = claims_info c /\ get_payload_claim j "device_id" =
      snd <$> find (fun p => bool_decide (p.1 = "device_id"%string)) (jc_payload c) /\
    verified secret_key token d = (d, if decide (numeric_date (jc_issued_at c) <= clock d <= numeric_date (jc_expires_at c))
                           then Ok j else Throw).
Proof.
  intros Hs Hi Ha. destruct (jwt_law _ _ _ Hs) as (j & Ej & Ei & Esu & Eia & Eex & Ecl & Ev).
  exists j. split_and!; [done| |by rewrite Ecl|].
  - unfold info_of_token, claims_info. rewrite Esu, Eia, Eex, !Ecl. by repeat (case_match; simpl).
  - unfold verified. rewrite Ej. simpl. unfold bind at 1. simpl. unfold read_clock, bind. simpl.
    rewrite Ev, Hi, Ha, st_law_clock. fold (clock d). case_decide as Hc.
    + by rewrite bool_decide_true.
    + rewrite bool_decide_false; [done|]. tauto.
Qed.

Lemma verify_signed c token d : jwt_sign secret_key c = Some token -> jc_id c <> ""%string ->
  jc_issuer c = "mychat-gateway"%string -> jc_audience c = "mychat-client"%string -> st_healthy d ->
  let ok := decide (in_force c (clock d) (found (st_view d) (revoked_key (jc_id c)))) in
  exists d', verify_access_token secret_key token d = (d', Ok (if ok then claims_info c else None)) /\
    st_healthy d' /\ st_view d' = st_view d.
Proof.
  intros Hs Hid Hi Ha Hd. destruct (verified_signed c token d Hs Hi Ha) as (j & Ej & Einfo & _ & Ev).
  destruct (is_token_revoked_signed c token d Hs Hid Hd) as (d1 & Er & Hd1 & Hv1). intros ok. subst ok.
  unfold verify_access_token, handler, try_catch, bind at 1. rewrite Ev. unfold in_force.
  destruct (decide (_ <= clock d <= _)) as [Hc|Hc]; [|exists d; split_and!; try done; rewrite decide_False; tauto].
  unfold bind. rewrite Er. exists d1.
  destruct (found (st_view d) _) as [e|]; simpl; (split_and!; [|done..]).
  - rewrite decide_False; [done|]. by intros [].
  - rewrite decide_True by done. rewrite Einfo. by destruct (claims_info c).
Qed.

Lemma numeric_date_le t : numeric_date t <= t.
Proof. unfold numeric_date, second. pose proof (Z.div_mod t 1000000000 ltac:(lia)).
  pose proof (Z.mod_pos_bound t 1000000000 ltac:(lia)). lia. Qed.

Lemma verify_device_signed c token device d : jwt_sign secret_key c = Some token -> jc_id c <> ""%string ->
  token <> ""%string -> jc_issuer c = "mychat-gateway"%string -> jc_audience c = "mychat-client"%string -> st_healthy d ->
  let claim := snd <$> find (fun p => bool_decide (p.1 = "device_id"%string)) (jc_payload c) in
  let ok := in_force c (clock d) (found (st_view d) (revoked_key (jc_id c))) /\ claim = Some device in
  exists d', verify_access_token_device secret_key token device d = (d', Ok (bool_decide ok)) /\
    st_healthy d' /\ st_view d' = st_view d.
Proof.
  intros Hs Hid Ht Hi Ha Hd. destruct (verified_signed c token d Hs Hi Ha) as (j & Ej & _ & Edev & Ev).
  destruct (is_token_revoked_signed c token d Hs Hid Hd) as (d1 & Er & Hd1 & Hv1). intros claim ok.
  unfold verify_access_token_device. rewrite (proj2 (String.eqb_neq _ _) Ht).
  unfold handler, try_catch, bind at 1. rewrite Ev. subst ok. unfold in_force.
  destruct (decide (_ <= clock d <= _)) as [Hc|Hc];
    [|exists d; split_and!; try done; rewrite bool_decide_false; [done|tauto]].
  unfold bind. rewrite Er. exists d1. rewrite Edev. fold claim.
  destruct (found (st_view d) _) as [e|]; simpl; (split_and!; [|done..]).
  - rewrite bool_decide_false; [done|]. by intros [[]].
  - destruct claim as [dev|]; simpl; [|by rewrite bool_decide_false by (by intros [])].
    destruct (String.eqb_spec device dev) as [->|Hne]; simpl; [by rewrite bool_decide_true|].
    rewrite bool_decide_false; [done|]. intros [_ Hx]. congruence.
Qed.

Lemma generate_access_inv jti user name device plat secs d d' t :
  generate_access_token secret_key configs jti user name device plat secs d = (d', Ok t) -> t <> ""%string ->
  d' = d /\ jwt_sign secret_key (access_claims configs (clock d) jti user name device plat secs) = Some t.
Proof.
  unfold generate_access_token, handler, try_catch, bind, read_clock. rewrite st_law_clock. fold (clock d).
  destruct (jwt_sign _ _); simpl; by intros [= <- <-].
Qed.

(** When the access token of a call expires. *)
Definition access_expiry (plat : string) (secs t : Z) : Z :=
  t + (if 0 <? secs then secs
       else access_token_expire_seconds (token_time_config (get_platform_token_config configs plat))) * second.

Lemma access_facts jti user name device plat secs d d1 t d2 :
  generate_access_token secret_key configs jti user name device plat secs d = (d1, Ok t) ->
  t <> ""%string -> jti <> ""%string -> st_healthy d2 -> clock d1 <= clock d2 ->
  let exp := numeric_date (access_expiry plat secs (clock d1)) in
  exists d3, verify_access_token secret_key t d2 = (d3, Ok (
      if decide (clock d2 <= exp /\ found (st_view d2) (revoked_key jti) = None) then
        Some {| ti_user_id := user; ti_username := name; ti_device_id := device; ti_platform := plat;
                ti_create_time := numeric_date (clock d1); ti_expire_time := exp |} else None)) /\
    st_healthy d3 /\ st_view d3 = st_view d2.
Proof.
  intros Hg Ht Hj Hd2 Hc exp. destruct (generate_access_inv _ _ _ _ _ _ _ _ _ Hg Ht) as [-> Hs].
  destruct (verify_signed _ _ _ Hs Hj eq_refl eq_refl Hd2) as (d3 & E & ? & ?). exists d3. split; [|done].
  rewrite E. do 2 f_equal. apply decide_ext. unfold in_force, exp, access_expiry. simpl.
  pose proof (numeric_date_le (clock d)). intuition lia.
Qed.

(** An access token names its user, device and platform from its issue until the whole
    second of its expiry, as long as its id is not on the revocation list, and nothing after
    that; with a device id, it is accepted in the same cases for its own device only. *)
Theorem access_token_life jti user name device plat secs d d1 t d2 :
  generate_access_token secret_key configs jti user name device plat secs d = (d1, Ok t) ->
  t <> ""%string -> jti <> ""%string -> st_healthy d2 -> clock d <= clock d2 ->
  let exp := numeric_date (access_expiry plat secs (clock d)) in
  let ok := clock d2 <= exp /\ found (st_view d2) (revoked_key jti) = None in
  (exists d3, verify_access_token secret_key t d2 = (d3, Ok (if decide ok then
      Some {| ti_user_id := user; ti_username := name; ti_device_id := device; ti_platform := plat;
              ti_create_time := numeric_date (clock d); ti_expire_time := exp |} else None)) /\
    st_healthy d3 /\ st_view d3 = st_view d2) /\
  forall device', exists d3,
    verify_access_token_device secret_key t device' d2 = (d3, Ok (bool_decide (ok /\ device' = device))) /\
    st_healthy d3 /\ st_view d3 = st_view d2.
Proof.
  intros Hg Ht Hj Hd2 Hc exp ok. destruct (generate_access_inv _ _ _ _ _ _ _ _ _ Hg Ht) as [-> Hs].
  split; [by apply (access_facts _ _ _ _ _ _ _ _ _ _ Hg)|].
  assert (Hok : in_force (access_claims configs (clock d) jti user name device plat secs) (clock d2)
      (found (st_view d2) (revoked_key jti)) <-> ok).
  { unfold in_force, ok, exp, access_expiry. simpl. pose proof (numeric_date_le (clock d)). intuition lia. }
  intros device'. destruct (verify_device_signed _ _ device' _ Hs Hj Ht eq_refl eq_refl Hd2) as (d3 & E & ? & ?).
  exists d3. split; [|done]. rewrite E. do 2 f_equal. apply bool_decide_ext. rewrite <- Hok. simpl.
  split; [by intros [? [=]]|by intros [? ->]].
Qed.

(** ** Revocation *)

(** The whole seconds a token has left, as [revoke_token] counts them. *)
Definition seconds_left (exp now : Z) : Z := if now <? exp then (exp - now) / second else 0.

(** The entry of the revocation list. *)
Definition revocation (exp now : Z) : TokenStore.entry :=
  {| e_value := VStr "1";
     e_deadline := if 0 <? seconds_left exp now then Some (now + seconds_left exp now * second) else None |}.

Lemma revoke_token_signed c token d : jwt_sign secret_key c = Some token -> jc_id c <> ""%string -> st_healthy d ->
  numeric_date (jc_expires_at c) - clock d < 2 ^ 31 * second ->
  exists d', revoke_token token d = (d', Ok true) /\ st_healthy d' /\ clock d' = clock d /\
    found (st_view d') (revoked_key (jc_id c)) = Some (revocation (numeric_date (jc_expires_at c)) (clock d)).
Proof.
  intros Hs Hid Hd Hr. destruct (jwt_law _ _ _ Hs) as (j & Ej & Ei & _ & _ & Eex & _).
  unfold revoke_token, handler, try_catch, extract_jti. rewrite Ej. simpl. rewrite Ei. simpl.
  rewrite (proj2 (String.eqb_neq _ _) Hid). unfold bind at 1 2 3. simpl. rewrite Eex. simpl. rewrite st_law_clock.
  fold (clock d). set (exp := numeric_date (jc_expires_at c)) in *. set (key := revoked_key (jc_id c)).
  assert (Ht : (if clock d <? exp then i32 (Z.quot (exp - clock d) second) else 0) = seconds_left exp (clock d)).
  { unfold seconds_left, second in *. zif. rewrite Z.quot_div_nonneg by lia. apply i32_small.
    pose proof (Z.div_lt_upper_bound (exp - clock d) 1000000000 (2 ^ 31) ltac:(lia) ltac:(lia)).
    pose proof (Z.div_pos (exp - clock d) 1000000000 ltac:(lia) ltac:(lia)). lia. }
  rewrite Ht. unfold st_execute, bind at 1.
  destruct (st_bind st_connection (fun _ => let* _ := st_set key "1" in
      if 0 <? seconds_left exp (clock d) then st_expire key (seconds_left exp (clock d)) else ret tt) _ _ _ d
    st_law_connection Hd I) as (d1 & ? & -> & _ & Hd1 & Hv1 & _).
  destruct (st_bind (st_set key "1") (fun _ =>
      if 0 <? seconds_left exp (clock d) then st_expire key (seconds_left exp (clock d)) else ret tt) _ _ _ d1
    (st_law_set key "1") Hd1 I) as (d2 & ? & -> & _ & Hd2 & Hv2 & _).
  assert (Hf : found (st_view d2) key = Some {| e_value := VStr "1"; e_deadline := None |})
    by (rewrite Hv2, found_put, !decide_True; done).
  assert (Hc : clock d2 = clock d) by (unfold clock; by rewrite Hv2, Hv1).
  unfold revocation. destruct (0 <? seconds_left exp (clock d)) eqn:El; [|by exists d2]. zbool.
  destruct (command_healthy _ _ _ _ _ _ d2 (st_law_expire key (seconds_left exp (clock d))) Hd2 I)
    as (d3 & ? & -> & Hd3 & Hv3 & _).
  exists d3. split_and!; try done; unfold clock; rewrite Hv3; unfold expire_eff; rewrite Hf, (proj2 (Z.ltb_lt _ _) El); [done|].
  fold (clock d2). rewrite found_put, decide_True by done. rewrite Hc. fold second. fold (clock d2).
  rewrite decide_True; [done|]. unfold live. simpl. fold (clock d2). unfold second. lia.
Qed.

Lemma unrevoke_token_signed c token d : jwt_sign secret_key c = Some token -> jc_id c <> ""%string -> st_healthy d ->
  exists d', unrevoke_token token d = (d', Ok true) /\ st_healthy d' /\ clock d' = clock d /\
    found (st_view d') (revoked_key (jc_id c)) = None.
Proof.
  intros Hs Hid Hd. destruct (jwt_law _ _ _ Hs) as (j & Ej & Ei & _).
  unfold unrevoke_token, handler, try_catch, extract_jti. rewrite Ej. simpl. rewrite Ei. simpl.
  rewrite (proj2 (String.eqb_neq _ _) Hid). simpl.
  destruct (st_bind st_connection (fun _ => let* _ := st_del (revoked_key (jc_id c)) in ret true) _ _ _ d
    st_law_connection Hd I) as (d1 & ? & -> & _ & Hd1 & Hv1 & _).
  destruct (st_bind (st_del (revoked_key (jc_id c))) (fun _ => ret true) _ _ _ d1
    (st_law_del _) Hd1 I) as (d2 & ? & -> & _ & Hd2 & Hv2 & _).
  exists d2. split_and!; try done; [unfold clock; by rewrite Hv2, Hv1|]. by rewrite Hv2, found_drop, decide_True.
Qed.

(** C37: [revoke_token] puts the token on the revocation list for the whole seconds it has
    left.  It is then accepted nowhere, except in the fraction of a second between the end of
    the entry and its own expiry, where it is accepted again; a token with less than one
    second left stays on the list for ever.  [unrevoke_token] takes it off the list. *)
Theorem revoked_token_life jti user name device plat secs d0 d0' t d :
  generate_access_token secret_key configs jti user name device plat secs d0 = (d0', Ok t) ->
  t <> ""%string -> jti <> ""%string -> st_healthy d -> clock d0 <= clock d ->
  let exp := numeric_date (access_expiry plat secs (clock d0)) in
  let info := {| ti_user_id := user; ti_username := name; ti_device_id := device; ti_platform := plat;
                 ti_create_time := numeric_date (clock d0); ti_expire_time := exp |} in
  exp - clock d < 2 ^ 31 * second ->
  exists d1, revoke_token t d = (d1, Ok true) /\ clock d1 = clock d /\
    forall d2, kept (revoked_key jti) d1 d2 ->
      (exists d3, verify_access_token secret_key t d2 = (d3, Ok (
         if decide (0 < seconds_left exp (clock d) /\ clock d + seconds_left exp (clock d) * second <= clock d2 <= exp)
         then Some info else None))) /\
      exists d3, unrevoke_token t d2 = (d3, Ok true) /\ found (st_view d3) (revoked_key jti) = None.
Proof.
  intros Hg Ht Hj Hd Hc exp info Hr. destruct (generate_access_inv _ _ _ _ _ _ _ _ _ Hg Ht) as [-> Hs].
  destruct (revoke_token_signed _ _ _ Hs Hj Hd Hr) as (d1 & Er & Hd1 & Hc1 & Hf).
  exists d1. split_and!; [done..|]. intros d2 (Hd2 & Hc2 & Hk).
  destruct (unrevoke_token_signed _ _ _ Hs Hj Hd2) as (d3 & Eu & _ & _ & Hn). split; [|by exists d3].
  destruct (verify_signed _ _ _ Hs Hj eq_refl eq_refl Hd2) as (d4 & E & _). exists d4. rewrite E. clear E. do 2 f_equal.
  apply decide_ext. unfold in_force. simpl. fold (access_expiry plat secs (clock d0)). fold exp.
  simpl in Hf. fold (access_expiry plat secs (clock d0)) in Hf. fold exp in Hf. rewrite Hk, Hf. simpl.
  pose proof (numeric_date_le (clock d0)). unfold live, revocation. simpl.
  destruct (0 <? seconds_left exp (clock d)) eqn:El; zbool; simpl; try case_decide; intuition (try done; lia).
Qed.

(** ** Refresh tokens *)

Lemma ran {A} (m : exec D A) pre eff ans d d' a : command st_view st_healthy m pre eff ans -> m d = (d', Ok a) ->
  st_view d' = eff (st_view d) /\ ans (st_view d) a.
Proof. intros Hm E. destruct (Hm _ _ _ E) as (_ & _ & Ha & _). by apply Ha. Qed.

Lemma refresh_user_ne rt user : user_tokens_key user <> refresh_key rt.
Proof. done. Qed.

Lemma refresh_key_inj rt rt' : refresh_key rt = refresh_key rt' -> rt = rt'.
Proof. unfold refresh_key. simpl. by intros [=]. Qed.

(** Its lifetime in seconds. *)
Definition refresh_seconds (plat : string) (secs : Z) : Z :=
  if 0 <? secs then secs
  else refresh_token_expire_seconds (token_time_config (get_platform_token_config configs plat)).

(** What Redis holds of a refresh token: its description, revoked or not. *)
Definition described (rt user name device plat : string) (now expire : Z) (revoked : bool) (text : string) : Prop :=
  dump (obj (put_member "revoked" (JBool revoked) (rt_meta rt user name device plat now expire))) = Some text.

Lemma clock_put_set k x s : (put_set k x s).1 = s.1.
Proof. unfold put_set. by case_decide. Qed.

Lemma clock_expire k n s : (expire_eff k n s).1 = s.1.
Proof. unfold expire_eff. by repeat case_match. Qed.

Lemma frames_sadd k k' x : k <> k' -> frames k' (st_sadd k x).
Proof.
  intros Hne. eapply frames_command; [apply st_law_sadd|]. intros s.
  split; [by apply found_put_set|apply clock_put_set].
Qed.

Lemma frames_expire k k' n : k <> k' -> frames k' (st_expire k n).
Proof.
  intros Hne. eapply frames_command; [apply st_law_expire|]. intros s.
  split; [by apply found_expire_ne|apply clock_expire].
Qed.

Lemma frames_set k k' v : k <> k' -> frames k' (st_set k v).
Proof.
  intros Hne. eapply frames_command; [apply st_law_set|]. intros s.
  split; [by rewrite found_put, decide_False|done].
Qed.

Lemma generate_refresh_inv rt user name device plat secs d d' t :
  generate_refresh_token configs rt user name device plat secs d = (d', Ok t) -> t <> ""%string ->
  let n := refresh_seconds plat secs in let x := clock d + n * second in
  t = rt /\ clock d' = clock d /\ (st_healthy d -> st_healthy d') /\
  exists text, described rt user name device plat (clock d) x false text /\
    found (st_view d') (refresh_key rt) =
      if 0 <? n then Some {| e_value := VStr text; e_deadline := Some x |} else None.
Proof.
  intros E Ht n x. unfold generate_refresh_token, handler in E.
  match type of E with context [try_catch ?m ?a d] =>
    destruct (try_catch m a d) as [d2 b] eqn:E2; simplify_eq;
    apply try_catch_inv in E2 as [E2|[_ ->]]; [|done] end.
  unfold bind at 1 in E2. simpl in E2. rewrite st_law_clock in E2. fold (clock d) in E2. fold n in E2. fold x in E2.
  change (if 0 <? secs then secs else _) with (refresh_seconds plat secs) in E2. fold n x in E2.
  run_inv E2. unfold ret in E2. simplify_eq. unfold st_execute in E. run_inv E. run_inv E. run_inv E. run_inv E. run_inv E.
  destruct (dump _) as [text|] eqn:Edump; [|done]. unfold or_throw, ret in E1. simplify_eq.
  assert (F : frames (refresh_key t) st_connection) by (eapply frames_command; [apply st_law_connection|done]).
  destruct (F _ _ _ E0) as (_ & C0 & H0'). destruct (st_law_set _ _ _ _ _ E2) as (H2' & _).
  destruct (ran _ _ _ _ _ _ _ (st_law_set _ _) E2) as [V2 _].
  destruct (st_law_expire _ _ _ _ _ E3) as (H3' & _). destruct (ran _ _ _ _ _ _ _ (st_law_expire _ _) E3) as [V3 _].
  destruct (frames_sadd _ _ t (refresh_user_ne t user) _ _ _ E4) as (F4 & C4 & H4').
  destruct (frames_expire _ _ n (refresh_user_ne t user) _ _ _ E) as (F5 & C5 & H5').
  assert (C2 : clock d2 = clock d1) by (unfold clock; by rewrite V2).
  assert (Hf : found (st_view d2) (refresh_key t) = Some {| e_value := VStr a1; e_deadline := None |})
    by (rewrite V2, found_put, !decide_True; done).
  assert (C3 : clock d3 = clock d2) by (unfold clock; rewrite V3; unfold expire_eff; rewrite Hf; by destruct (0 <? n)).
  split_and!; [done|congruence|tauto|]. exists a1. split; [done|]. rewrite F5, F4, V3. unfold expire_eff. rewrite Hf.
  destruct (0 <? n) eqn:En; [zbool|by rewrite found_drop, decide_True].
  fold (clock d2). rewrite found_put, decide_True by done. fold (clock d2). rewrite C2, C0. fold second. fold x.
  rewrite decide_True; [done|]. unfold live, x, second. simpl. lia.
Qed.

Definition refresh_info (user name device plat : string) (now expire : Z) : UserTokenInfo :=
  {| ti_user_id := user; ti_username := name; ti_device_id := device; ti_platform := plat;
     ti_create_time := now; ti_expire_time := expire |}.

Lemma st_get_found k d v x : st_healthy d -> found (st_view d) k = Some {| e_value := VStr v; e_deadline := x |} ->
  exists d', st_get k d = (d', Ok (Some v)) /\ st_healthy d' /\ st_view d' = st_view d.
Proof.
  intros Hd Hf. destruct (command_healthy _ _ _ _ _ _ d (st_law_get k) Hd) as (d' & a & E & Hd' & Hv & ->).
  - intros y. by rewrite Hf.
  - exists d'. rewrite E. by rewrite (text_at_found _ _ _ _ Hf).
Qed.

Lemma st_get_absent k d : st_healthy d -> found (st_view d) k = None ->
  exists d', st_get k d = (d', Ok None) /\ st_healthy d' /\ st_view d' = st_view d.
Proof.
  intros Hd Hf. destruct (command_healthy _ _ _ _ _ _ d (st_law_get k) Hd) as (d' & a & E & Hd' & Hv & ->).
  - intros y. by rewrite Hf.
  - exists d'. rewrite E. unfold text_at. by rewrite Hf.
Qed.

(** [execute] around one command that returns. *)
Lemma st_execute_ok {A} (m : exec D A) d : st_healthy d ->
  exists d', st_execute m d = m d' /\ st_healthy d' /\ st_view d' = st_view d.
Proof.
  intros Hd. destruct (st_bind st_connection (fun _ => m) _ _ _ d st_law_connection Hd I)
    as (d' & ? & E & _ & Hd' & Hv & _). by exists d'.
Qed.

Section Described.
Context (rt user name device plat : string) (now expire : Z).
Hypothesis Hrt : rt <> ""%string.

Lemma verify_refresh_absent d dev : st_healthy d -> found (st_view d) (refresh_key rt) = None ->
  exists d', verify_refresh_token rt dev d = (d', Ok None) /\ st_healthy d' /\ st_view d' = st_view d.
Proof using Hrt.
  intros Hd Hf. unfold verify_refresh_token, handler, try_catch. rewrite (proj2 (String.eqb_neq _ _) Hrt).
  destruct (st_execute_ok (st_get (refresh_key rt)) d Hd) as (d1 & E1 & Hd1 & Hv1).
  rewrite <- Hv1 in Hf. destruct (st_get_absent _ _ Hd1 Hf) as (d2 & E2 & Hd2 & Hv2).
  exists d2. unfold bind. rewrite E1, E2. simpl. split_and!; [done|done|congruence].
Qed.

(** Its own device. *)
Lemma verify_refresh_own revoked d text x : st_healthy d -> described rt user name device plat now expire revoked text ->
  found (st_view d) (refresh_key rt) = Some {| e_value := VStr text; e_deadline := x |} ->
  exists d', verify_refresh_token rt device d = (d', Ok (if revoked then None
    else Some (refresh_info user name device plat now expire))) /\ st_healthy d' /\ st_view d' = st_view d.
Proof using Hrt H2.
  intros Hd Ht Hf. unfold verify_refresh_token, handler, try_catch. rewrite (proj2 (String.eqb_neq _ _) Hrt).
  destruct (st_execute_ok (st_get (refresh_key rt)) d Hd) as (d1 & E1 & Hd1 & Hv1).
  rewrite <- Hv1 in Hf. destruct (st_get_found _ _ _ _ Hd1 Hf) as (d2 & E2 & Hd2 & Hv2).
  exists d2. unfold bind at 1. rewrite E1, E2. rewrite (law_parse _ _ Ht). unfold or_throw at 1, ret, bind at 1.
  rewrite law_is_null. rewrite (law_get_str _ "device_id" device) by done.
  rewrite bool_decide_true by done. simpl negb. cbv iota.
  rewrite (law_get_bool _ "revoked" revoked) by done. unfold or_throw at 1, ret, bind.
  destruct revoked; [split_and!; [done|done|congruence]|].
  rewrite (law_get_str _ "platform" plat), (law_get_str _ "user_id" user), (law_get_str _ "username" name),
    (law_get_int _ "create_time" now), (law_get_int _ "expire_time" expire) by done.
  simpl. split_and!; [done|done|congruence].
Qed.

(** The texts of a description are UTF-8. *)
Definition printable : Prop := forall s, s ∈ [user; name; device; plat; rt; "refresh"%string] -> valid_text s.

Lemma described_some b : printable -> exists text, described rt user name device plat now expire b text.
Proof using H2. intros Hp. apply law_dump. intros s Hs. by apply Hp. Qed.

Lemma put_revoked b b' : put_member "revoked" (JBool b') (put_member "revoked" (JBool b)
    (rt_meta rt user name device plat now expire)) =
  put_member "revoked" (JBool b') (rt_meta rt user name device plat now expire).
Proof using. done. Qed.

Lemma set_revoked_stored b0 b d text x : printable -> st_healthy d ->
  described rt user name device plat now expire b0 text ->
  found (st_view d) (refresh_key rt) = Some {| e_value := VStr text; e_deadline := Some x |} ->
  x - clock d <= (2 ^ 31 - 1) * second ->
  exists d' text' x', set_revoked b rt d = (d', Ok true) /\ st_healthy d' /\ clock d' = clock d /\
    described rt user name device plat now expire b text' /\
    found (st_view d') (refresh_key rt) = Some {| e_value := VStr text'; e_deadline := x' |}.
Proof using H2.
  intros Hp Hd Ht Hf Hx. destruct (described_some b Hp) as [text' Ht'].
  assert (Hlive : clock d < x).
  { unfold found in Hf. destruct (_ !! _) as [e|]; [|done]. simpl in Hf. case_decide as Hl; [|done]. simplify_eq/=.
    exact Hl. }
  unfold set_revoked, handler, try_catch.
  match goal with |- context [st_execute ?m d] =>
    destruct (st_execute_ok m d Hd) as (d1 & E1 & Hd1 & Hv1) end.
  rewrite E1. rewrite <- Hv1 in Hf. destruct (st_get_found _ _ _ _ Hd1 Hf) as (d2 & E2 & Hd2 & Hv2).
  unfold bind at 1. rewrite E2. rewrite <- Hv2 in Hf.
  destruct (command_healthy _ _ _ _ _ _ d2 (st_law_ttl (refresh_key rt)) Hd2 I) as (d3 & r & E3 & Hd3 & Hv3 & Hr).
  unfold bind at 1. rewrite E3, (law_parse _ _ Ht). unfold or_throw, ret, bind at 1 2 3.
  rewrite law_put_bool, put_revoked. unfold described in Ht'. rewrite Ht'.
  destruct (command_healthy _ _ _ _ _ _ d3 (st_law_set (refresh_key rt) text') Hd3 I) as (d4 & ? & E4 & Hd4 & Hv4 & _).
  unfold bind at 1. rewrite E4. unfold ttl_answer in Hr. rewrite Hf in Hr. simpl in Hr.
  assert (Hf4 : found (st_view d4) (refresh_key rt) = Some {| e_value := VStr text'; e_deadline := None |})
    by (rewrite Hv4, found_put, !decide_True; done).
  assert (C : clock d4 = clock d) by (unfold clock; by rewrite Hv4, Hv3, Hv2, Hv1).
  destruct (0 <? r) eqn:Er; [zbool|by exists d4, text', None].
  assert (Hi : i32 r = r). { apply i32_small. unfold clock, second in *. rewrite Hv2, Hv1 in Hr. simpl in Hr. lia. }
  destruct (command_healthy _ _ _ _ _ _ d4 (st_law_expire (refresh_key rt) (i32 r)) Hd4 I)
    as (d5 & ? & E5 & Hd5 & Hv5 & _).
  unfold bind. rewrite E5. exists d5, text', (Some (clock d + r * second)). rewrite Hv5. unfold expire_eff. rewrite Hf4.
  rewrite Hi, (proj2 (Z.ltb_lt _ _) Er). fold (clock d4). rewrite C, found_put, decide_True by done.
  fold (clock d4). rewrite C. fold second. rewrite decide_True by (unfold live, second; simpl; lia).
  split_and!; try done. unfold clock in *. by rewrite Hv5, clock_expire.
Qed.

(** Another device: the token is revoked. *)
Lemma verify_refresh_other revoked d text x dev : printable -> st_healthy d -> dev <> device ->
  described rt user name device plat now expire revoked text ->
  found (st_view d) (refresh_key rt) = Some {| e_value := VStr text; e_deadline := Some x |} ->
  x - clock d <= (2 ^ 31 - 1) * second ->
  exists d' text' x', verify_refresh_token rt dev d = (d', Ok None) /\ clock d' = clock d /\
    described rt user name device plat now expire true text' /\
    found (st_view d') (refresh_key rt) = Some {| e_value := VStr text'; e_deadline := x' |}.
Proof using Hrt H2.
  intros Hp Hd Hne Ht Hf Hx. unfold verify_refresh_token, handler at 1, try_catch. rewrite (proj2 (String.eqb_neq _ _) Hrt).
  destruct (st_execute_ok (st_get (refresh_key rt)) d Hd) as (d1 & E1 & Hd1 & Hv1).
  rewrite <- Hv1 in Hf. destruct (st_get_found _ _ _ _ Hd1 Hf) as (d2 & E2 & Hd2 & Hv2). rewrite <- Hv2 in Hf.
  unfold bind at 1. rewrite E1, E2. rewrite (law_parse _ _ Ht). unfold or_throw at 1, ret, bind at 1.
  rewrite law_is_null. rewrite (law_get_str _ "device_id" device) by done.
  rewrite bool_decide_false by congruence. change (negb false) with true. cbv iota.
  destruct (set_revoked_stored revoked true d2 text x Hp Hd2 Ht Hf) as (d3 & text' & x' & E3 & Hd3 & C3 & Ht' & Hf').
  { unfold clock in *. by rewrite Hv2, Hv1. }
  unfold revoke_refresh_token, bind at 1. rewrite E3. exists d3, text', x'.
  split_and!; try done. rewrite C3. unfold clock. by rewrite Hv2, Hv1.
Qed.
End Described.

(** What remains, at [d2], of an entry with deadline [x]. *)
Lemma kept_found k d1 d2 v x : kept k d1 d2 ->
  found (st_view d1) k = Some {| e_value := v; e_deadline := Some x |} ->
  found (st_view d2) k = if decide (clock d2 < x) then Some {| e_value := v; e_deadline := Some x |} else None.
Proof. intros (_ & _ & Hk) Hf. rewrite Hk, Hf. done. Qed.

(** The same, for a token just generated. *)
Lemma generated_at rt user name device plat secs d d1 t d2 :
  generate_refresh_token configs rt user name device plat secs d = (d1, Ok t) -> t <> ""%string ->
  kept (refresh_key t) d1 d2 ->
  let x := clock d + refresh_seconds plat secs * second in
  exists text, described t user name device plat (clock d) x false text /\ clock d <= clock d2 /\
    found (st_view d2) (refresh_key t) =
      if decide (clock d2 < x) then Some {| e_value := VStr text; e_deadline := Some x |} else None.
Proof.
  intros Hg Ht Hk x. destruct (generate_refresh_inv _ _ _ _ _ _ _ _ _ Hg Ht) as (-> & Hc & _ & text & Htext & Hf).
  fold x in Htext, Hf. exists text. split; [done|]. destruct (Hk) as (_ & Hle & Hk2). split; [lia|].
  destruct (0 <? refresh_seconds plat secs) eqn:En; zbool.
  - by eapply kept_found.
  - rewrite Hk2, Hf. simpl. rewrite decide_False; [done|]. unfold x, second. lia.
Qed.

(** [verify_refresh_token] refuses the token whatever the device. *)
Definition refused (rt : string) (d : D) : Prop :=
  forall dev, exists d', verify_refresh_token rt dev d = (d', Ok None).

Lemma refused_revoked rt user name device plat now expire d text x : rt <> ""%string ->
  printable rt user name device plat -> st_healthy d -> described rt user name device plat now expire true text ->
  found (st_view d) (refresh_key rt) = Some {| e_value := VStr text; e_deadline := x |} -> refused rt d.
Proof.
  intros Hrt Hp Hd Ht Hf dev. destruct (decide (dev = device)) as [->|Hne].
  { destruct (verify_refresh_own _ _ _ _ _ _ _ Hrt _ _ _ _ Hd Ht Hf) as (d' & E & _). by exists d'. }
  unfold verify_refresh_token, handler at 1, try_catch. rewrite (proj2 (String.eqb_neq _ _) Hrt).
  destruct (st_execute_ok (st_get (refresh_key rt)) d Hd) as (d1 & E1 & Hd1 & Hv1).
  rewrite <- Hv1 in Hf. destruct (st_get_found _ _ _ _ Hd1 Hf) as (d2 & E2 & Hd2 & Hv2).
  unfold bind at 1. rewrite E1, E2. rewrite (law_parse _ _ Ht). unfold or_throw at 1, ret, bind at 1.
  rewrite law_is_null. rewrite (law_get_str _ "device_id" device) by done.
  rewrite bool_decide_false by congruence. change (negb false) with true. cbv iota.
  unfold bind. destruct (revoke_refresh_token rt d2) as [d3 []]; by exists d3.
Qed.

(** C29: a refresh token is accepted from its own device, unchanged, for as many seconds as it
    was given, which its entry in Redis alone enforces; none or fewer, and it is never
    accepted.  Presented once by another device, it is refused there and refused from then on
    to every device. *)
Theorem refresh_token_life rt user name device plat secs d d1 t d2 :
  generate_refresh_token configs rt user name device plat secs d = (d1, Ok t) -> t <> ""%string ->
  printable rt user name device plat -> refresh_seconds plat secs < 2 ^ 31 -> kept (refresh_key t) d1 d2 ->
  let x := clock d + refresh_seconds plat secs * second in
  (exists d3, verify_refresh_token t device d2 = (d3, Ok (
      if decide (clock d2 < x) then Some (refresh_info user name device plat (clock d) x) else None)) /\
    st_view d3 = st_view d2) /\
  forall other, other <> device -> exists d3, verify_refresh_token t other d2 = (d3, Ok None) /\
    forall d4, kept (refresh_key t) d3 d4 -> refused t d4.
Proof.
  intros Hg Ht Hp Hn Hk x. destruct (generated_at _ _ _ _ _ _ _ _ _ _ Hg Ht Hk) as (text & Htext & Hle & Hf).
  destruct (generate_refresh_inv _ _ _ _ _ _ _ _ _ Hg Ht) as (-> & _). fold x in Htext, Hf.
  pose proof (proj1 Hk) as Hd2.
  assert (Habs : forall d, st_healthy d -> found (st_view d) (refresh_key rt) = None -> refused rt d).
  { intros d0 Hd0 Hn0 dev. destruct (verify_refresh_absent rt Ht d0 dev Hd0 Hn0) as (d' & E & _). by exists d'. }
  destruct (decide (clock d2 < x)) as [Hlt|Hge].
  - split.
    + destruct (verify_refresh_own _ _ _ _ _ _ _ Ht _ _ _ _ Hd2 Htext Hf) as (d3 & E & _ & ?). by exists d3.
    + intros other Hne. destruct (verify_refresh_other _ _ _ _ _ _ _ Ht _ _ _ _ other Hp Hd2 Hne Htext Hf)
        as (d3 & text' & x' & E & _ & Ht' & Hf'); [unfold x, second in *; lia|].
      exists d3. split; [done|]. intros d4 (Hd4 & _ & Hk4). rewrite Hf' in Hk4. simpl in Hk4.
      case_decide; [|by apply Habs]. by eapply refused_revoked.
  - split.
    + destruct (verify_refresh_absent rt Ht d2 device Hd2 Hf) as (d3 & E & _ & ?). by exists d3.
    + intros other _. destruct (verify_refresh_absent rt Ht d2 other Hd2 Hf) as (d3 & E & _ & V).
      exists d3. split; [done|]. intros d4 (Hd4 & _ & Hk4). apply Habs; [done|]. by rewrite Hk4, V, Hf.
Qed.

(** ** Refreshing *)

Lemma frames_connection k : frames k st_connection.
Proof. by eapply frames_command; [apply st_law_connection|]. Qed.

Lemma frames_get k k' : frames k' (st_get k).
Proof. by eapply frames_command; [apply st_law_get|]. Qed.

Ltac frames := repeat first [apply frames_bind; [|intros ?] | apply frames_refl | apply frames_or_throw
  | apply frames_read_clock | apply frames_handler | apply frames_connection | apply frames_get
  | apply frames_set; congruence | apply frames_expire; congruence | apply frames_sadd; congruence | case_match].

Lemma frames_should_rotate k rt : frames k (should_rotate_refresh_token configs rt).
Proof. unfold should_rotate_refresh_token. frames. Qed.

Lemma frames_generate_refresh rt rt' user name device plat secs : rt' <> rt ->
  frames (refresh_key rt) (generate_refresh_token configs rt' user name device plat secs).
Proof.
  intros Hne. unfold generate_refresh_token, st_execute.
  assert (refresh_key rt' <> refresh_key rt) by (by intros ?%refresh_key_inj).
  pose proof (refresh_user_ne rt user). frames.
Qed.

Lemma handler_total {A} (m : exec D A) a : total (handler m a).
Proof. intros d. unfold handler. destruct (try_catch m a d) as [d' x]. by exists d', x. Qed.

Lemma generate_access_ok jti user name device plat secs d :
  exists t, generate_access_token secret_key configs jti user name device plat secs d = (d, Ok t).
Proof.
  unfold generate_access_token, handler, try_catch, bind, read_clock. destruct (jwt_sign _ _); simpl; eauto.
Qed.

Lemma should_rotate_total rt : total (should_rotate_refresh_token configs rt).
Proof. apply handler_total. Qed.

(** Whether or not a new token is made, the entry of the old one is as it was. *)
Lemma rotation (rotate : bool) rt rt' user name device plat d : rt' <> rt ->
  exists d' new, (if rotate then generate_refresh_token configs rt' user name device plat 0
    else ret ""%string) d = (d', Ok new) /\ found (st_view d') (refresh_key rt) = found (st_view d) (refresh_key rt) /\
    clock d' = clock d.
Proof.
  intros Hne. destruct rotate; [|by exists d, ""%string].
  destruct (handler_total _ _ d : exists d' a, generate_refresh_token configs rt' user name device plat 0 d = (d', Ok a))
    as (d' & new & E).
  destruct (frames_generate_refresh rt rt' user name device plat 0 Hne _ _ _ E) as (? & ? & _). by exists d', new.
Qed.

(** Refreshing with a valid refresh token succeeds and answers an access token of the same
    user, device and platform.  The refresh token used stays valid, also when a new one is
    handed out: rotation does not revoke the old token. *)
Theorem refresh_keeps_old jti rt rt' user name device plat secs d d1 t d2 :
  generate_refresh_token configs rt user name device plat secs d = (d1, Ok t) -> t <> ""%string ->
  kept (refresh_key t) d1 d2 -> rt' <> t -> jti <> ""%string ->
  let x := clock d + refresh_seconds plat secs * second in clock d2 < x ->
  exists d3 r, refresh_access_token secret_key configs jti rt' t device d2 = (d3, Ok r) /\ tr_success r = true /\
    (forall d4, kept (refresh_key t) d3 d4 -> exists d5, verify_refresh_token t device d4 = (d5, Ok (
       if decide (clock d4 < x) then Some (refresh_info user name device plat (clock d) x) else None))) /\
    (forall d4, tr_access_token r <> ""%string -> st_healthy d4 -> clock d3 <= clock d4 ->
       found (st_view d4) (revoked_key jti) = None ->
       let exp := numeric_date (access_expiry plat 0 (clock d3)) in
       exists d5, verify_access_token secret_key (tr_access_token r) d4 = (d5, Ok (if decide (clock d4 <= exp) then
         Some {| ti_user_id := user; ti_username := name; ti_device_id := device; ti_platform := plat;
                 ti_create_time := numeric_date (clock d3); ti_expire_time := exp |} else None))).
Proof.
  intros Hg Ht Hk Hne Hj x Hlt. destruct (generated_at _ _ _ _ _ _ _ _ _ _ Hg Ht Hk) as (text & Htext & Hle & Hf).
  destruct (generate_refresh_inv _ _ _ _ _ _ _ _ _ Hg Ht) as (-> & _). fold x in Htext, Hf.
  rewrite decide_True in Hf by done. pose proof (proj1 Hk) as Hd2.
  destruct (verify_refresh_own _ _ _ _ _ _ _ Ht _ _ _ _ Hd2 Htext Hf) as (e1 & E1 & He1 & V1).
  unfold refresh_access_token. rewrite (bind_Ok _ _ _ _ _ E1). simpl.
  destruct (should_rotate_total rt e1) as (e2 & rotate & E2).
  rewrite (bind_Ok _ _ _ _ _ E2). destruct (frames_should_rotate (refresh_key rt) rt _ _ _ E2) as (F2 & C2 & He2).
  destruct (rotation rotate rt rt' user name device plat e2 Hne) as (e3 & new & E3 & F3 & C3).
  rewrite (bind_Ok _ _ _ _ _ E3).
  destruct (generate_access_ok jti user name device plat 0 e3) as [acc E4]. rewrite (bind_Ok _ _ _ _ _ E4).
  exists e3. eexists. split; [reflexivity|]. split; [done|]. simpl. split.
  - intros d4 Hk4. assert (Hf3 : found (st_view e3) (refresh_key rt) =
      Some {| e_value := VStr text; e_deadline := Some x |}) by (by rewrite F3, F2, V1).
    pose proof (kept_found _ _ _ _ _ Hk4 Hf3) as Hf4. pose proof (proj1 Hk4) as Hd4. case_decide.
    + destruct (verify_refresh_own _ _ _ _ _ _ _ Ht _ _ _ _ Hd4 Htext Hf4) as (d5 & E & _). by exists d5.
    + destruct (verify_refresh_absent rt Ht d4 device Hd4 Hf4) as (d5 & E & _). by exists d5.
  - intros d4 Ha Hd4 Hc4 Hr. destruct (access_facts _ _ _ _ _ _ _ _ _ d4 E4 Ha Hj Hd4 Hc4) as (d5 & E & _).
    exists d5. rewrite E. do 2 f_equal. apply decide_ext. tauto.
Qed.
End Proofs.

(** ** The platforms configured *)

(** The connection manager and the token manager read the same configuration; every platform
    has an entry, so that [operator[]] never makes an empty one. *)
Lemma load_platforms_multi config plat :
  enable_multi_device (get_platform_token_config (load_platforms config) plat) =
  multi_device (load_multi_device (config_bool config)) plat /\
  is_Some (load_platforms config !! get_platform_type plat).
Proof.
  assert (get_platform_type plat <> ENUM_END) by (unfold get_platform_type; by repeat case_match).
  unfold get_platform_token_config, multi_device, load_platforms, load_multi_device. simpl.
  destruct (get_platform_type plat); (split; [reflexivity|]); by try (eexists; reflexivity).
Qed.

(** * AuthManager ([auth_mgr.cpp]): the revocation list of one process

    [None] is a call that never returns: [mutex_] is not recursive, a thread that locks it
    twice waits for itself. *)
Module AuthMgr.
Record t := { revoked_tokens : gset string; mutex_ : bool (* held *) }.

Definition lock_guard {A} (body : t -> option (t * A)) (s : t) : option (t * A) :=
  if mutex_ s then None
  else '(s', a) ← body {| revoked_tokens := revoked_tokens s; mutex_ := true |};
       Some ({| revoked_tokens := revoked_tokens s'; mutex_ := false |}, a).

Section Jwt.
Context `{Jwt}.

Definition edit (f : gset string -> gset string) (s : t) : option (t * unit) :=
  Some ({| revoked_tokens := f (revoked_tokens s); mutex_ := mutex_ s |}, tt).

Definition revoke_token (token : string) : t -> option (t * unit) :=
  lock_guard (fun s =>
    let jti := extract_jti token in
    if negb (String.eqb jti "") then lock_guard (edit (fun x => {[jti]} ∪ x)) s else Some (s, tt)).

Definition unrevoke_token (token : string) : t -> option (t * unit) :=
  lock_guard (fun s =>
    let jti := extract_jti token in
    if negb (String.eqb jti "") then lock_guard (edit (fun x => x ∖ {[jti]})) s else Some (s, tt)).

Definition is_token_revoked (token : string) (s : t) : option (t * bool) :=
  let jti := extract_jti token in
  if String.eqb jti "" then Some (s, false)
  else lock_guard (fun s => Some (s, bool_decide (jti ∈ revoked_tokens s))) s.

(** [auth_mgr.hpp] has a [UserTokenInfo] of its own. *)
Record UserInfo := {
  ui_user_id : string; ui_username : string; ui_device_id : string; ui_create_time : Z; ui_expire_time : Z
}.

Definition claims (now : Z) (jti user_id username device_id : string) (expire_seconds : Z) : Claims :=
  {| jc_issuer := "mychat-gateway"; jc_audience := "mychat-client"; jc_issued_at := now;
     jc_expires_at := now + expire_seconds * second; jc_id := jti; jc_subject := user_id;
     jc_payload := [("username", username); ("device_id", device_id)]%string |}.

(** [expire_seconds_], as the constructor's default has it. *)
Definition default_expire_seconds : Z := 86400.

(** The clock and the uuid are arguments; an exception gives the empty token. *)
Definition generate_token (secret_key : string) (expire_seconds now : Z) (jti user_id username device_id : string)
  : string := default ""%string (jwt_sign secret_key (claims now jti user_id username device_id expire_seconds)).

(** Runs the assignments to [user_info] until one throws; the answer is whether none did. *)
Definition assign {A} (claim : option A) (f : A -> UserInfo -> UserInfo) (k : UserInfo -> bool * UserInfo)
    (u : UserInfo) : bool * UserInfo :=
  match claim with Some a => k (f a u) | None => (false, u) end.

Definition fill (j : decoded_jwt) : UserInfo -> bool * UserInfo :=
  assign (get_subject j) (fun a u => {| ui_user_id := a; ui_username := ui_username u; ui_device_id := ui_device_id u;
      ui_create_time := ui_create_time u; ui_expire_time := ui_expire_time u |})
  (assign (get_payload_claim j "username") (fun a u => {| ui_user_id := ui_user_id u; ui_username := a;
      ui_device_id := ui_device_id u; ui_create_time := ui_create_time u; ui_expire_time := ui_expire_time u |})
  (assign (get_payload_claim j "device_id") (fun a u => {| ui_user_id := ui_user_id u; ui_username := ui_username u;
      ui_device_id := a; ui_create_time := ui_create_time u; ui_expire_time := ui_expire_time u |})
  (assign (get_issued_at j) (fun a u => {| ui_user_id := ui_user_id u; ui_username := ui_username u;
      ui_device_id := ui_device_id u; ui_create_time := a; ui_expire_time := ui_expire_time u |})
  (fun u => (true, u))))).

(** [verify_token]; [user_info] is what the caller passed and what it finds afterwards. *)
Definition verify_token (secret_key : string) (now : Z) (token : string) (user_info : UserInfo) (s : t)
  : option (t * (bool * UserInfo)) :=
  match jwt_decode token with
  | Some j =>
      if jwt_verify secret_key "mychat-gateway" "mychat-client" now j then
        '(s, revoked) ← is_token_revoked token s;
        Some (s, if revoked : bool then (false, user_info) else fill j user_info)
      else Some (s, (false, user_info))
  | None => Some (s, (false, user_info))
  end.

(** Revoking a token that has an id never returns, whoever holds the lock. *)
Lemma revoke_never_returns token s : extract_jti token <> ""%string ->
  revoke_token token s = None /\ unrevoke_token token s = None.
Proof.
  intros Hj. unfold revoke_token, unrevoke_token, lock_guard at 1 3. rewrite (proj2 (String.eqb_neq _ _) Hj).
  by destruct (mutex_ s).
Qed.

(** Whether a token of [claims] is accepted at [now] when [revoked] are the revoked ids. *)
Definition accepted (issued expires now : Z) (jti : string) (revoked : gset string) : Prop :=
  numeric_date issued <= now <= numeric_date expires /\ (jti = ""%string \/ jti ∉ revoked).

#[export] Instance accepted_dec issued expires now jti revoked : Decision (accepted issued expires now jti revoked).
Proof. unfold accepted. apply _. Defined.

(** A token that was made is accepted for its lifetime, unless its id is revoked, and names
    its user and device; the caller's [expire_time] is left as it was. *)
Lemma token_names_user `{!JwtLaws} key secs issued jti user name device now info s :
  let token := generate_token key secs issued jti user name device in
  token <> ""%string -> mutex_ s = false -> exists s', mutex_ s' = false /\ revoked_tokens s' = revoked_tokens s /\
  verify_token key now token info s = Some (s',
    if decide (accepted issued (issued + secs * second) now jti (revoked_tokens s)) then
      (true, {| ui_user_id := user; ui_username := name; ui_device_id := device;
                ui_create_time := numeric_date issued; ui_expire_time := ui_expire_time info |})
    else (false, info)).
Proof.
  intros token Ht Hm. subst token. unfold generate_token in *.
  destruct (jwt_sign key (claims issued jti user name device secs)) as [token|] eqn:Es; [|done]. simpl in *.
  destruct (jwt_law key _ token Es) as (j & Hd & Hid & Hsub & Hiss & _ & Hp & Hv). simpl in *.
  unfold verify_token, accepted, is_token_revoked, extract_jti. rewrite Hd. simpl. rewrite Hid. simpl.
  rewrite Hv. case_bool_decide as Hw.
  - destruct Hw as (_ & _ & Hw). assert (Hf : fill j info = (true,
      {| ui_user_id := user; ui_username := name; ui_device_id := device; ui_create_time := numeric_date issued;
         ui_expire_time := ui_expire_time info |})).
    { unfold fill, assign. rewrite Hsub, Hiss, !Hp. done. }
    destruct (String.eqb_spec jti ""%string) as [->|Hj]; simpl.
    + exists s. split_and!; try done. rewrite Hf, decide_True; [done|tauto].
    + unfold lock_guard. rewrite Hm. simpl.
      exists {| revoked_tokens := revoked_tokens s; mutex_ := false |}. split_and!; [done|done|].
      case_bool_decide as Hr; [rewrite decide_False by tauto; done|]. rewrite Hf, decide_True; [done|tauto].
  - exists s. split_and!; try done. rewrite decide_False; [done|]. tauto.
Qed.
End Jwt.
End AuthMgr.

(** * A JWT library: a token is the digits of the code of its key and claims *)
Module ToyJwt.
Definition tuple (c : Claims) :=
  (jc_issuer c, jc_audience c, jc_issued_at c, jc_expires_at c, jc_id c, jc_subject c, jc_payload c).
Definition untuple (p : string * string * Z * Z * string * string * list (string * string)) : Claims :=
  let '(i, a, s, e, j, u, l) := p in
  {| jc_issuer := i; jc_audience := a; jc_issued_at := s; jc_expires_at := e; jc_id := j; jc_subject := u; jc_payload := l |}.

#[export] Instance toy_jwt : Jwt := {
  decoded_jwt := string * Claims;
  jwt_sign key c := Some (Toy.print_pos (encode (key, tuple c)));
  jwt_decode t := (fun p => (p.1, untuple p.2)) <$> decode (Toy.read_pos t);
  jwt_verify key issuer audience now j := bool_decide (key = j.1) &&
    bool_decide (issuer = jc_issuer j.2 /\ audience = jc_audience j.2 /\
                 numeric_date (jc_issued_at j.2) <= now <= numeric_date (jc_expires_at j.2));
  get_id j := Some (jc_id j.2);
  get_subject j := Some (jc_subject j.2);
  get_issued_at j := Some (numeric_date (jc_issued_at j.2));
  get_expires_at j := Some (numeric_date (jc_expires_at j.2));
  get_payload_claim j name := snd <$> find (fun p => bool_decide (p.1 = name)) (jc_payload j.2)
}.

#[export] Instance toy_jwt_laws : JwtLaws.
Proof.
  intros key c t [= <-]. exists (key, c). simpl. rewrite Toy.read_print, decode_encode. simpl.
  destruct c. split_and!; try done. intros. by rewrite bool_decide_true.
Qed.
End ToyJwt.

(** * Examples: a token of one minute, made half a second after a whole second *)
Module AuthExamples.
Import Toy MemStore ToyJwt.

Definition conf : gmap PlatformType PlatformTokenConfig := load_platforms
  {| config_bool _ d := d; config_int k d := d; config_float _ d := d |}.
Definition start : MemStore.t := {| contents := (1700000000500000000, ∅); up := true |}.

(** [n] seconds later. *)
Definition after (n : Z) (d : MemStore.t) : MemStore.t :=
  {| contents := ((contents d).1 + n * second, (contents d).2); up := true |}.

Lemma kept_after k n d : (0 <=? n) = true -> kept k d (after n d).
Proof.
  intros Hn. zbool. split_and!; [done|unfold clock, second; simpl; unfold second; lia|].
  unfold found, after, clock. simpl. destruct (_ !! k) as [e|]; [|done]. simpl.
  assert (live ((contents d).1 + n * second) e -> live (contents d).1 e).
  { unfold live, second. destruct (e_deadline e); [lia|done]. }
  repeat case_decide; simpl; repeat case_decide; tauto.
Qed.

Lemma clock_after n d : clock (after n d) = clock d + n * second.
Proof. done. Qed.

Definition sample : string := default ""%string
  (jwt_sign "key" (access_claims conf 1700000000500000000 "id" "1" "ann" "phone" "ios" 60)).

Lemma sample_generated : generate_access_token "key" conf "id" "1" "ann" "phone" "ios" 60 start = (start, Ok sample).
Proof. reflexivity. Qed.

Lemma sample_nonempty : sample <> ""%string.
Proof. vm_compute. discriminate. Qed.

Lemma access_token_life_witness :
  exists d3, verify_access_token "key" sample (after 30 start) = (d3, Ok (Some
    {| ti_user_id := "1"; ti_username := "ann"; ti_device_id := "phone"; ti_platform := "ios";
       ti_create_time := 1700000000000000000; ti_expire_time := 1700000060000000000 |})).
Proof.
  destruct (access_token_life "key" conf "id" "1" "ann" "phone" "ios" 60 start start sample (after 30 start)
    sample_generated sample_nonempty ltac:(discriminate) eq_refl ltac:(vm_compute; discriminate)) as [(d3 & E & _) _].
  exists d3. rewrite E. rewrite decide_True; [reflexivity|]. split; [vm_compute; discriminate|reflexivity].
Defined.

(** Revoked at once: refused 58 seconds later, accepted after 59, half a second before it expires. *)
Lemma revoked_token_life_witness : exists d1, revoke_token sample start = (d1, Ok true) /\
  (exists d3, verify_access_token "key" sample (after 58 d1) = (d3, Ok None)) /\
  exists d3 info, verify_access_token "key" sample (after 59 d1) = (d3, Ok (Some info)).
Proof.
  destruct (revoked_token_life "key" conf "id" "1" "ann" "phone" "ios" 60 start start sample start
    sample_generated sample_nonempty ltac:(discriminate) eq_refl (Z.le_refl _) ltac:(vm_compute; reflexivity))
    as (d1 & E & C & H). exists d1. split; [done|]. split.
  - destruct (H (after 58 d1) (kept_after _ 58 _ eq_refl)) as [(d3 & E3) _]. exists d3. rewrite E3.
    rewrite (clock_after 58 d1), C. rewrite decide_False; [done|]. intros [_ [Hle _]]. by apply Hle.
  - destruct (H (after 59 d1) (kept_after _ 59 _ eq_refl)) as [(d3 & E3) _]. eexists d3, _. rewrite E3.
    rewrite (clock_after 59 d1), C. rewrite decide_True; [done|]. split; [reflexivity|]. split; vm_compute; discriminate.
Defined.

Definition stored : MemStore.t := fst (generate_refresh_token conf "r1" "1" "ann" "phone" "ios" 60 start).

Lemma stored_generated : generate_refresh_token conf "r1" "1" "ann" "phone" "ios" 60 start = (stored, Ok "r1"%string).
Proof. vm_compute. reflexivity. Qed.

Lemma refresh_token_life_witness :
  (exists d3 info, verify_refresh_token "r1" "phone" (after 30 stored) = (d3, Ok (Some info))) /\
  exists d3, verify_refresh_token "r1" "laptop" (after 30 stored) = (d3, Ok None) /\ refused "r1" (after 1 d3).
Proof.
  destruct (refresh_token_life conf "r1" "1" "ann" "phone" "ios" 60 start stored "r1" (after 30 stored)
    stored_generated ltac:(discriminate) ltac:(done) ltac:(reflexivity) (kept_after _ 30 _ eq_refl))
    as [(d3 & E & _) H]. split.
  - eexists d3, _. rewrite E. rewrite decide_True; [done|]. vm_compute. reflexivity.
  - destruct (H "laptop"%string ltac:(discriminate)) as (d4 & E4 & H4). exists d4. split; [done|].
    apply H4, kept_after. done.
Defined.

Lemma refresh_keeps_old_witness : exists d3 r,
  refresh_access_token "key" conf "id" "r2" "r1" "phone" (after 30 stored) = (d3, Ok r) /\
  exists d5 info, verify_refresh_token "r1" "phone" (after 1 d3) = (d5, Ok info).
Proof.
  destruct (refresh_keeps_old "key" conf "id" "r1" "r2" "1" "ann" "phone" "ios" 60 start stored "r1" (after 30 stored)
    stored_generated ltac:(discriminate) (kept_after _ 30 _ eq_refl) ltac:(discriminate) ltac:(discriminate)
    ltac:(vm_compute; reflexivity)) as (d3 & r & E & _ & H & _).
  exists d3, r. split; [done|]. destruct (H (after 1 d3) (kept_after _ 1 _ eq_refl)) as (d5 & E5). eauto.
Defined.
End AuthExamples.
