(* ===== verification/UserRemote.v ===== *)
(** The user service behind a remote boundary: the handlers of
    [services/user/user_grpc_service.cpp] and the two clients of the gateway,
    [gateway/http/user_client.cpp] (in process) and [gateway/http/remote_user_client.cpp].

    A handler returns its response as a value; the null [response] pointer gRPC never passes is
    left out.  What each side reads from its clock, its random generator, the texts of an
    exception and of a failed status are arguments. *)
From S2P Require Import Prelude Schema Odb PasswordHasher MemDb UserService ProtobufCodec Rpc.
Open Scope Z_scope.

(** * The interface of the gateway: [class UserClient] *)

Class UserClient (D : Type) := {
  cl_register_user : RegisterRequest -> exec D UserResult;
  cl_login_by_account : string -> string -> Z -> exec D UserResult;
  cl_get_profile_by_uid : string -> exec D (option UserProfile);
  cl_get_profile_by_account : string -> exec D (option UserProfile);
  cl_search_profiles : string -> Z -> exec D (list UserProfile);
  cl_update_profile : UpdateProfileRequest -> exec D UserResult
}.

(** * Messages of [common/proto/user.proto]: the fields the two sides use *)

(** [enum Gender], open as proto3 enumerations are. *)
Definition PB_UNKNOWN : Z := 0.
Definition PB_MALE : Z := 1.
Definition PB_FEMALE : Z := 2.
Definition PB_OTHER : Z := 3.

Record UserInfo := {
  ui_uid : string; ui_account : string; ui_nickname : string; ui_avatar : string; ui_gender : Z;
  ui_signature : string; ui_create_time : Z; ui_last_login : Z; ui_online : bool
}.
Definition empty_user_info : UserInfo :=
  {| ui_uid := ""; ui_account := ""; ui_nickname := ""; ui_avatar := ""; ui_gender := PB_UNKNOWN;
     ui_signature := ""; ui_create_time := 0; ui_last_login := 0; ui_online := false |}.

Record PbRegisterRequest := {
  pr_phone_number : string; pr_email : string; pr_password : string; pr_nickname : string; pr_account : string
}.
Record PbLoginRequest := {
  pl_account : string; pl_phone_number : string; pl_email : string; pl_password : string
}.
Record PbGetUserInfoRequest := { pg_account : string; pg_uid : string }.
Record PbSearchUsersRequest := { ps_keyword : string; ps_limit : Z }.
Record PbUpdateUserInfoRequest := { pu_from_uid : string; pu_user : UserInfo }.

(** The responses with one [user]; a field that was not set reads as the empty message. *)
Record UserResponse := { us_base : BaseResponse; us_user : UserInfo }.
Record SearchUsersResponse := { sr_base : BaseResponse; sr_users : list UserInfo }.

(** * UserGrpcService *)

Definition to_proto_gender (gender : Gender) : Z :=
  match gender with
  | MALE => PB_MALE | FEMALE => PB_FEMALE | OTHER => PB_OTHER | GENDER_UNKNOWN => PB_UNKNOWN
  end.

Definition to_service_gender (gender : Z) : Gender :=
  if gender =? PB_MALE then MALE else if gender =? PB_FEMALE then FEMALE
  else if gender =? PB_OTHER then OTHER else GENDER_UNKNOWN.

Definition fill_user_info (p : UserProfile) : UserInfo :=
  {| ui_uid := p_uid p; ui_account := p_account p; ui_nickname := p_nickname p; ui_avatar := p_avatar p;
     ui_gender := to_proto_gender (p_gender p); ui_signature := p_signature p;
     ui_create_time := p_create_time p; ui_last_login := p_last_login p; ui_online := p_online p |}.

Definition register_error_code (e : string) : ErrorCode :=
  if String.eqb e "DUPLICATE_ACCOUNT" then ALREADY_EXISTS
  else if String.eqb e "EMPTY_ACCOUNT" || String.eqb e "EMPTY_PASSWORD" then PARAM_ERROR
  else SERVER_ERROR.

Definition login_error_code (e : string) : ErrorCode :=
  if String.eqb e "INVALID_ACCOUNT" || String.eqb e "WRONG_PASSWORD" then AUTH_FAILED else SERVER_ERROR.

Definition update_error_code (e : string) : ErrorCode :=
  if String.eqb e "EMPTY_UID" || String.eqb e "EMPTY_NICKNAME" then PARAM_ERROR
  else if String.eqb e "USER_NOT_FOUND" then NOT_FOUND else SERVER_ERROR.

(** The account, or what stands in for it. *)
Definition first_given (account phone_number email : string) : string :=
  let a := if String.eqb account "" then phone_number else account in
  if String.eqb a "" then email else a.

Section Server.
Context {DB : Type} `{Odb DB} `{Pbkdf2}.
Context (iterations_ : Z) (uid_rand salt_rand : option bytes) (now_ms : Z) (what : string).
(** [user_service_] is not null. *)
Context (has_service : bool).

Definition fail_user (code : ErrorCode) (message : string) : UserResponse :=
  {| us_base := base_of code message; us_user := empty_user_info |}.

(** [set_base(...); fill_user_info(result.profile, ...)], or the error. *)
Definition user_response (code_of : string -> ErrorCode) (result : UserResult) : UserResponse :=
  match r_ok result, r_profile result with
  | true, Some p => {| us_base := base_of SUCCESS ""; us_user := fill_user_info p |}
  | true, None => {| us_base := base_of SUCCESS ""; us_user := empty_user_info |}
  | false, _ => fail_user (code_of (r_error_code result)) (r_message result)
  end.

Definition Register (request : option PbRegisterRequest) : exec DB UserResponse :=
  if negb has_service then ret (fail_user SERVER_ERROR "UserService is not available") else
  match request with
  | None => ret (fail_user PARAM_ERROR "Register request is null")
  | Some r =>
      handler
        (let service_request :=
           {| rq_account := first_given (pr_account r) (pr_phone_number r) (pr_email r);
              rq_password := pr_password r; rq_nickname := pr_nickname r; rq_now_ms := now_ms |} in
         let* result := register_user iterations_ uid_rand salt_rand service_request in
         ret (user_response register_error_code result))
        (fail_user SERVER_ERROR what)
  end.

Definition Login (request : option PbLoginRequest) : exec DB UserResponse :=
  if negb has_service then ret (fail_user SERVER_ERROR "UserService is not available") else
  match request with
  | None => ret (fail_user PARAM_ERROR "Login request is null")
  | Some r =>
      handler
        (let account := first_given (pl_account r) (pl_phone_number r) (pl_email r) in
         if String.eqb account "" || String.eqb (pl_password r) ""
         then ret (fail_user PARAM_ERROR "Missing required fields: account, password")
         else
           let* result := login_by_account account (pl_password r) now_ms in
           ret (user_response login_error_code result))
        (fail_user SERVER_ERROR what)
  end.

Definition GetUserInfo (request : option PbGetUserInfoRequest) : exec DB UserResponse :=
  if negb has_service then ret (fail_user SERVER_ERROR "UserService is not available") else
  match request with
  | None => ret (fail_user PARAM_ERROR "GetUserInfo request is null")
  | Some r =>
      let found (profile : option UserProfile) :=
        match profile with
        | None => fail_user NOT_FOUND "User profile not found"
        | Some p => {| us_base := base_of SUCCESS ""; us_user := fill_user_info p |}
        end in
      handler
        (if negb (String.eqb (pg_uid r) "") then
           let* profile := get_profile_by_uid (pg_uid r) in ret (found profile)
         else if negb (String.eqb (pg_account r) "") then
           let* profile := get_profile_by_account (pg_account r) in ret (found profile)
         else ret (fail_user PARAM_ERROR "Missing required field: uid or account"))
        (fail_user SERVER_ERROR what)
  end.

Definition SearchUsers (request : option PbSearchUsersRequest) : exec DB SearchUsersResponse :=
  let fail code message := {| sr_base := base_of code message; sr_users := [] |} in
  if negb has_service then ret (fail SERVER_ERROR "UserService is not available") else
  match request with
  | None => ret (fail PARAM_ERROR "Missing required field: keyword")
  | Some r =>
      if String.eqb (ps_keyword r) "" then ret (fail PARAM_ERROR "Missing required field: keyword")
      else
        handler
          (let limit := if 0 <? ps_limit r then ps_limit r else 20 in
           let* profiles := search_profiles (ps_keyword r) limit in
           ret {| sr_base := base_of SUCCESS ""; sr_users := map fill_user_info profiles |})
          (fail SERVER_ERROR what)
  end.

Definition UpdateUserInfo (request : option PbUpdateUserInfoRequest) : exec DB UserResponse :=
  if negb has_service then ret (fail_user SERVER_ERROR "UserService is not available") else
  match request with
  | None => ret (fail_user PARAM_ERROR "UpdateUserInfo request is null")
  | Some r =>
      handler
        (let user := pu_user r in
         let uid := if String.eqb (pu_from_uid r) "" then ui_uid user else pu_from_uid r in
         let* result := update_profile
           {| up_uid := uid; up_nickname := ui_nickname user; up_avatar := ui_avatar user;
              up_gender := to_service_gender (ui_gender user); up_signature := ui_signature user |} in
         ret (user_response update_error_code result))
        (fail_user SERVER_ERROR what)
  end.
End Server.

(** * The clients of the gateway *)

(** [LocalUserClient]: its constructor refuses a null service. *)
Definition LocalUserClient {DB} `{Odb DB} `{Pbkdf2} (iterations_ : Z) (uid_rand salt_rand : option bytes)
  : UserClient DB := {|
  cl_register_user := register_user iterations_ uid_rand salt_rand;
  cl_login_by_account := login_by_account;
  cl_get_profile_by_uid := get_profile_by_uid;
  cl_get_profile_by_account := get_profile_by_account;
  cl_search_profiles := search_profiles;
  cl_update_profile := update_profile
|}.

Definition profile_of (u : UserInfo) : UserProfile :=
  {| p_uid := ui_uid u; p_account := ui_account u; p_nickname := ui_nickname u; p_avatar := ui_avatar u;
     p_gender := to_service_gender (ui_gender u); p_signature := ui_signature u;
     p_create_time := ui_create_time u; p_last_login := ui_last_login u; p_online := ui_online u |}.

Definition register_error_name (base : BaseResponse) : string :=
  if is_code base ALREADY_EXISTS then "DUPLICATE_ACCOUNT"
  else if is_code base PARAM_ERROR then "PARAM_ERROR" else "REMOTE_USER_ERROR".

Definition login_error_name (base : BaseResponse) : string :=
  if is_code base AUTH_FAILED then "INVALID_ACCOUNT"
  else if is_code base PARAM_ERROR then "PARAM_ERROR" else "REMOTE_USER_ERROR".

Definition update_error_name (base : BaseResponse) : string :=
  if is_code base PARAM_ERROR then "PARAM_ERROR"
  else if is_code base NOT_FOUND then "USER_NOT_FOUND" else "REMOTE_USER_ERROR".

Section Client.
Context {DB : Type} `{Odb DB} `{Pbkdf2} `{Rpc DB}.
Context (iterations_ : Z) (uid_rand salt_rand : option bytes) (now_ms : Z) (what : string) (has_service : bool).
(** [client_] is not null; the text of a failed status. *)
Context (has_client : bool) (status_message : string).

(** After a call that returns one user: failed status, error code, or the profile. *)
Definition result_of (name : BaseResponse -> string) (response : option UserResponse) : UserResult :=
  match response with
  | None => user_error "REMOTE_USER_UNAVAILABLE" status_message
  | Some r =>
      if negb (is_success (us_base r)) then user_error (name (us_base r)) (error_message (us_base r))
      else user_ok (profile_of (us_user r))
  end.

Definition unconfigured : UserResult :=
  user_error "REMOTE_USER_UNAVAILABLE" "Remote User client is not configured".

Definition remote_register_user (request : RegisterRequest) : exec DB UserResult :=
  if negb has_client then ret unconfigured else
  let* response := call (Register iterations_ uid_rand salt_rand now_ms what has_service)
    (Some {| pr_phone_number := ""; pr_email := ""; pr_password := rq_password request;
             pr_nickname := rq_nickname request; pr_account := rq_account request |}) in
  ret (result_of register_error_name response).

Definition remote_login_by_account (account password : string) (now : Z) : exec DB UserResult :=
  if negb has_client then ret unconfigured else
  let* response := call (Login now_ms what has_service)
    (Some {| pl_account := account; pl_phone_number := ""; pl_email := ""; pl_password := password |}) in
  ret (result_of login_error_name response).

Definition remote_get_user_info (request : PbGetUserInfoRequest) : exec DB (option UserProfile) :=
  if negb has_client then ret None else
  let* response := call (GetUserInfo what has_service) (Some request) in
  match response with
  | None => ret None
  | Some r => if negb (is_success (us_base r)) then ret None else ret (Some (profile_of (us_user r)))
  end.

Definition remote_get_profile_by_uid (uid : string) : exec DB (option UserProfile) :=
  remote_get_user_info {| pg_account := ""; pg_uid := uid |}.

Definition remote_get_profile_by_account (account : string) : exec DB (option UserProfile) :=
  remote_get_user_info {| pg_account := account; pg_uid := "" |}.

Definition remote_search_profiles (keyword : string) (limit : Z) : exec DB (list UserProfile) :=
  if negb has_client || String.eqb keyword "" || (limit =? 0) then ret [] else
  let* response := call (SearchUsers what has_service)
    (Some {| ps_keyword := keyword; ps_limit := i32 limit |}) in
  match response with
  | None => ret []
  | Some r => if negb (is_success (sr_base r)) then ret [] else ret (map profile_of (sr_users r))
  end.

Definition remote_update_profile (request : UpdateProfileRequest) : exec DB UserResult :=
  if negb has_client then ret unconfigured else
  let* response := call (UpdateUserInfo what has_service)
    (Some {| pu_from_uid := up_uid request;
             pu_user := {| ui_uid := ""; ui_account := ""; ui_nickname := up_nickname request;
               ui_avatar := up_avatar request; ui_gender := to_proto_gender (up_gender request);
               ui_signature := up_signature request; ui_create_time := 0; ui_last_login := 0;
               ui_online := false |} |}) in
  ret (result_of update_error_name response).

Definition RemoteUserClient : UserClient DB := {|
  cl_register_user := remote_register_user;
  cl_login_by_account := remote_login_by_account;
  cl_get_profile_by_uid := remote_get_profile_by_uid;
  cl_get_profile_by_account := remote_get_profile_by_account;
  cl_search_profiles := remote_search_profiles;
  cl_update_profile := remote_update_profile
|}.
End Client.

(** * What the remote client shows of the service *)

(** An error code of the service as the remote client reports it. *)
Definition register_seen (e : string) : string :=
  if decide (e = "DUPLICATE_ACCOUNT") then "DUPLICATE_ACCOUNT"
  else if decide (e = "EMPTY_ACCOUNT" \/ e = "EMPTY_PASSWORD") then "PARAM_ERROR" else "REMOTE_USER_ERROR".
Definition login_seen (e : string) : string :=
  if decide (e = "INVALID_ACCOUNT" \/ e = "WRONG_PASSWORD") then "INVALID_ACCOUNT" else "REMOTE_USER_ERROR".
Definition update_seen (e : string) : string :=
  if decide (e = "EMPTY_UID" \/ e = "EMPTY_NICKNAME") then "PARAM_ERROR"
  else if decide (e = "USER_NOT_FOUND") then "USER_NOT_FOUND" else "REMOTE_USER_ERROR".

(** A result, or an exception of the service, seen through the boundary. *)
Definition seen (code : string -> string) (what : string) (r : result UserResult) : UserResult :=
  match r with
  | Throw => user_error "REMOTE_USER_ERROR" what
  | Ok res => if r_ok res then res else user_error (code (r_error_code res)) (r_message res)
  end.

Definition on_result {D A B} (f : result A -> B) (x : D * result A) : D * result B :=
  let '(d, r) := x in (d, Ok (f r)).

Lemma first_given_only a : first_given a "" "" = a.
Proof. unfold first_given. by destruct (String.eqb_spec a "") as [->|E%String.eqb_neq]; [|rewrite E]. Qed.

Lemma gender_trip g : to_service_gender (to_proto_gender g) = g.
Proof. by destruct g. Qed.

(** The two conversions of a profile lose nothing. *)
Lemma profile_trip p : profile_of (fill_user_info p) = p.
Proof. destruct p as [? ? ? ? g ? ? ? ?]. unfold profile_of. simpl. by rewrite gender_trip. Qed.

Lemma register_codes e m : register_error_name (base_of (register_error_code e) m) = register_seen e.
Proof. unfold register_error_code, register_seen. text_cases e. Qed.

Lemma login_codes e m : login_error_name (base_of (login_error_code e) m) = login_seen e.
Proof. unfold login_error_code, login_seen. text_cases e. Qed.

Lemma update_codes e m : update_error_name (base_of (update_error_code e) m) = update_seen e.
Proof. unfold update_error_code, update_seen. text_cases e. Qed.

(** What the service returns: a profile, or an error without one. *)
Definition proper (r : UserResult) : Prop :=
  (exists p, r = user_ok p) \/ exists code msg, r = user_error code msg.

Lemma result_of_proper st name code_of view r :
  (forall e m, name (base_of (code_of e) m) = view e) ->
  (forall e, code_of e <> SUCCESS) -> proper r ->
  result_of st name (Some (user_response code_of r)) = seen view "" (Ok r).
Proof.
  intros Hn Hc [[p ->]|(code & msg & ->)]; unfold result_of, user_response; simpl.
  - by rewrite profile_trip.
  - destruct (is_success _) eqn:E; [by apply is_success_base_of, Hc in E|]. simpl. by rewrite Hn.
Qed.

Section Refinement.
Context {DB : Type} `{Odb DB} `{Pbkdf2} `{RpcWorks DB}.
Context (iterations_ : Z) (uid_rand salt_rand : option bytes) (now_ms : Z) (what status_message : string).

Lemma register_proper q : returns proper (register_user iterations_ uid_rand salt_rand q).
Proof. unfold register_user, proper. each_return; eauto. Qed.
Lemma login_proper a p t : returns proper (login_by_account a p t).
Proof. unfold login_by_account, proper. each_return; eauto. Qed.
Lemma update_proper q : returns proper (update_profile q).
Proof. unfold update_profile, proper. each_return; eauto. Qed.

(** A call whose handler asks the service for one user. *)
Lemma one_user {Req} (h : Req -> exec DB UserResponse) r m name code_of view (d : DB) :
  h r d = handler (let* result := m in ret (user_response code_of result)) (fail_user SERVER_ERROR what) d ->
  returns proper m -> (forall e m, name (base_of (code_of e) m) = view e) ->
  (forall e, code_of e <> SUCCESS) -> name (base_of SERVER_ERROR what) = "REMOTE_USER_ERROR" ->
  (let* response := call h r in ret (result_of status_message name response)) d = on_result (seen view what) (m d).
Proof.
  intros Hh Hm Hn Hc Hs. unfold bind at 1. rewrite rpc_works, Hh. unfold handler, try_catch, bind.
  destruct (m d) as [d' [res|]] eqn:E; unfold ret; cbn [on_result]; do 2 f_equal.
  - by rewrite (result_of_proper status_message name code_of view res); [| | |by eapply Hm].
  - unfold result_of. cbn [fail_user us_base]. by rewrite Hs.
Qed.

Abbreviation local := (LocalUserClient iterations_ uid_rand salt_rand).
Abbreviation remote :=
  (RemoteUserClient iterations_ uid_rand salt_rand now_ms what true true status_message).

(** A request as the server sees it: at the server's time. *)
Definition at_server (q : RegisterRequest) : RegisterRequest :=
  {| rq_account := rq_account q; rq_password := rq_password q; rq_nickname := rq_nickname q; rq_now_ms := now_ms |}.

Lemma user_info_answer r m (d : DB) :
  (forall u, GetUserInfo what true (Some r) u =
     handler (let* profile := m in
              ret (match profile with
                   | None => fail_user NOT_FOUND "User profile not found"
                   | Some p => {| us_base := base_of SUCCESS ""; us_user := fill_user_info p |}
                   end)) (fail_user SERVER_ERROR what) u) ->
  remote_get_user_info what true true r d = on_result (fun x => match x with Ok o => o | Throw => None end) (m d).
Proof.
  intros Hh. unfold remote_get_user_info, bind at 1. simpl. rewrite rpc_works, Hh.
  unfold handler, try_catch, bind. destruct (m d) as [d' [[p|]|]]; simpl; unfold ret; [|done..].
  by rewrite profile_trip.
Qed.

Lemma search_answer k limit (d : DB) : 0 <= limit < 2 ^ 31 ->
  remote_search_profiles what true true k limit d =
  on_result (fun x => match x with Ok l => l | Throw => [] end) (search_profiles k limit d).
Proof.
  intros Hl. unfold remote_search_profiles. simpl.
  destruct (String.eqb k "") eqn:Ek; [simpl; unfold search_profiles; by rewrite Ek|].
  destruct (limit =? 0) eqn:El; [simpl; unfold search_profiles; by rewrite Ek, El|].
  simpl. rewrite i32_small by lia. unfold bind at 1. rewrite rpc_works. unfold SearchUsers. simpl. rewrite Ek.
  zbool. rewrite (proj2 (Z.ltb_lt 0 limit)) by lia.
  unfold handler, try_catch, bind. destruct (search_profiles k limit d) as [d' [l|]]; simpl; unfold ret; [|done].
  by rewrite (map_trip _ _ _ (fun p _ => profile_trip p)).
Qed.

(** The remote user client refines the in-process one.  On a channel that works, every call
    leaves the database as the service itself leaves it, and answers what the service answers
    at the server's time, with the error codes renamed: the names the boundary keeps are
    DUPLICATE_ACCOUNT, INVALID_ACCOUNT (a wrong password too) and USER_NOT_FOUND; missing
    fields are PARAM_ERROR, refused before the database is asked; everything else, an
    exception too, is REMOTE_USER_ERROR. *)
Theorem remote_user_refines (d : DB) :
  (forall q, cl_register_user (UserClient := remote) q d =
     on_result (seen register_seen what) (cl_register_user (UserClient := local) (at_server q) d)) /\
  (forall a p t, cl_login_by_account (UserClient := remote) a p t d =
     if decide (a = "" \/ p = "")
     then (d, Ok (user_error "PARAM_ERROR" "Missing required fields: account, password"))
     else on_result (seen login_seen what) (cl_login_by_account (UserClient := local) a p now_ms d)) /\
  (forall u, cl_get_profile_by_uid (UserClient := remote) u d =
     if decide (u = "") then (d, Ok None) else
     on_result (fun r => match r with Ok o => o | Throw => None end) (cl_get_profile_by_uid (UserClient := local) u d)) /\
  (forall a, cl_get_profile_by_account (UserClient := remote) a d =
     if decide (a = "") then (d, Ok None) else
     on_result (fun r => match r with Ok o => o | Throw => None end) (cl_get_profile_by_account (UserClient := local) a d)) /\
  (forall k l, 0 <= l < 2 ^ 31 -> cl_search_profiles (UserClient := remote) k l d =
     on_result (fun r => match r with Ok o => o | Throw => [] end) (cl_search_profiles (UserClient := local) k l d)) /\
  (forall q, cl_update_profile (UserClient := remote) q d =
     on_result (seen update_seen what) (cl_update_profile (UserClient := local) q d)).
Proof.
  split_and!; simpl.
  - intros q. unfold remote_register_user. simpl.
    eapply one_user; [|apply register_proper|apply register_codes|unfold register_error_code; intros e; by repeat case_match|done].
    unfold Register. simpl. by rewrite first_given_only.
  - intros a p t. unfold remote_login_by_account. simpl.
    destruct (decide (a = "" \/ p = "")) as [Hmiss|Hgiven].
    + unfold bind at 1. rewrite rpc_works. unfold Login. simpl. rewrite first_given_only.
      destruct (String.eqb_spec a "") as [->|Ha]; [done|]. destruct Hmiss as [|Hmiss]; [done|].
      by rewrite (proj2 (String.eqb_eq p "") Hmiss).
    + assert (a <> "" /\ p <> "") as [Ha Hp] by tauto.
      eapply one_user; [|apply login_proper|apply login_codes|unfold login_error_code; intros e; by repeat case_match|done].
      unfold Login. simpl. rewrite first_given_only, (proj2 (String.eqb_neq a "") Ha), (proj2 (String.eqb_neq p "") Hp). done.
  - intros u. destruct (decide (u = "")) as [->|Hu].
    + unfold remote_get_profile_by_uid, remote_get_user_info, bind at 1. simpl. by rewrite rpc_works.
    + apply user_info_answer. intros ?. unfold GetUserInfo. simpl. by rewrite (proj2 (String.eqb_neq u "") Hu).
  - intros a. destruct (decide (a = "")) as [->|Ha].
    + unfold remote_get_profile_by_account, remote_get_user_info, bind at 1. simpl. by rewrite rpc_works.
    + apply user_info_answer. intros ?. unfold GetUserInfo. simpl. by rewrite (proj2 (String.eqb_neq a "") Ha).
  - intros k l Hl. by apply search_answer.
  - intros q. unfold remote_update_profile. simpl.
    eapply one_user; [|apply update_proper|apply update_codes|unfold update_error_code; intros e; by repeat case_match|done].
    unfold UpdateUserInfo. simpl. rewrite gender_trip.
    destruct (String.eqb_spec (up_uid q) "") as [E|E]; simpl; [|by destruct q].
    destruct q as [u ? ? ? ?]. simpl in *. by subst.
Qed.
End Refinement.

(** * Witness *)

Section UserRemoteWitness.
Import Toy UserService.Witness.
#[local] Existing Instances direct direct_works.

(** Alice registers, logs in with a wrong password, and is looked for, over the boundary. *)
Lemma remote_user_refines_witness :
  let R := RemoteUserClient 5 (Some salt) (Some salt) 1000 "" true true "" in
  (cl_login_by_account (UserClient := R) "alice" "guess" 0 db1).2 =
    Ok (user_error "INVALID_ACCOUNT" "Incorrect password") /\
  (cl_register_user (UserClient := R) alice db1).2 =
    Ok (user_error "DUPLICATE_ACCOUNT" "Account already exists") /\
  (cl_search_profiles (UserClient := R) "alic" 3 db1).2 = (search_profiles "alic" 3 db1).2.
Proof.
  destruct (remote_user_refines (DB := MemDb) 5 (Some salt) (Some salt) 1000 "" "" db1) as (Hr & Hl & _ & _ & Hs & _).
  cbv zeta. rewrite Hr, Hl, Hs; [vm_compute; auto|lia].
Defined.
End UserRemoteWitness.
