(* ===== verification/FriendRemote.v ===== *)
(** The friend service behind a remote boundary: the handlers of
    [services/friend/friend_grpc_service.cpp] and the two clients of the gateway,
    [gateway/http/friend_client.cpp] (in process) and [gateway/http/remote_friend_client.cpp].

    As in UserRemote, a handler returns its response and the null [response] pointer is left
    out.  [clock] is what the service reads, [now_ms] what the handler reads. *)
From S2P Require Import Prelude Text Schema Odb PasswordHasher MemDb UserService FriendService ProtobufCodec Rpc.
Open Scope Z_scope.

(** * The interface of the gateway: [class FriendClient] *)

Class FriendClient (D : Type) := {
  cl_send_request : FriendRequest -> exec D FriendResult;
  cl_respond_to_request : Z -> string -> bool -> exec D FriendResult;
  cl_get_friends : string -> exec D (list FriendInfoDTO);
  cl_get_pending_requests : string -> exec D (list FriendInfoDTO)
}.

(** * Messages of [common/proto/friend.proto]: the fields the two sides use *)

(** [enum FriendRequestStatus], open as proto3 enumerations are. *)
Definition PB_PENDING : Z := 0.
Definition PB_ACCEPTED : Z := 1.
Definition PB_REJECTED : Z := 2.

Record PbFriendInfo := {
  pf_uid : string; pf_add_time : Z; pf_friend_id : Z; pf_nickname : string; pf_status : Z
}.
Record PbFriendRequest := {
  pq_request_id : string; pq_from_uid : string; pq_to_uid : string; pq_status : Z;
  pq_create_time : Z; pq_friend_id : Z; pq_nickname : string
}.

(** The header fields are [from_uid] and the unsigned [timestamp]. *)
Record AddFriendRequest := { af_from_uid : string; af_timestamp : Z; af_to_uid : string }.
Record AddFriendResponse := { ar_base : BaseResponse; ar_request : option PbFriendRequest }.
Record HandleFriendRequest := { hf_from_uid : string; hf_request_id : string; hf_accept : bool }.
Record GetFriendListResponse := { fl_base : BaseResponse; fl_friends : list PbFriendInfo }.
Record GetFriendRequestsResponse := { gr_base : BaseResponse; gr_requests : list PbFriendRequest }.

(** * FriendGrpcService *)

Definition friend_error_code (e : string) : ErrorCode :=
  if String.eqb e "EMPTY_UID" || String.eqb e "SELF_REQUEST" || String.eqb e "NOT_PENDING" then PARAM_ERROR
  else if String.eqb e "TARGET_NOT_FOUND" || String.eqb e "NOT_FOUND" then NOT_FOUND
  else if String.eqb e "ALREADY_EXISTS" then ALREADY_EXISTS
  else if String.eqb e "FORBIDDEN" then PERMISSION_DENIED
  else SERVER_ERROR.

(** A BLOCKED relationship falls into the default. *)
Definition to_proto_status (status : FriendStatus) : Z :=
  match status with
  | PENDING => PB_PENDING | ACCEPTED => PB_ACCEPTED | REJECTED => PB_REJECTED | BLOCKED => PB_PENDING
  end.

Definition fill_friend_info (dto : FriendInfoDTO) : PbFriendInfo :=
  {| pf_uid := fi_friend_uid dto; pf_add_time := fi_created_at dto; pf_friend_id := fi_friend_id dto;
     pf_nickname := fi_nickname dto; pf_status := to_proto_status (fi_status dto) |}.

(** With [set_to_uid], which every caller adds. *)
Definition fill_friend_request (to_uid : string) (dto : FriendInfoDTO) : PbFriendRequest :=
  {| pq_request_id := dec (fi_friend_id dto); pq_from_uid := fi_friend_uid dto; pq_to_uid := to_uid;
     pq_status := to_proto_status (fi_status dto); pq_create_time := fi_created_at dto;
     pq_friend_id := fi_friend_id dto; pq_nickname := fi_nickname dto |}.

Section Server.
Context {DB : Type} `{Odb DB} (clock now_ms : Z) (what : string).
(** [friend_service_] is not null: [require_service]. *)
Context (has_service : bool).

Definition no_service : BaseResponse := base_of SERVER_ERROR "FriendService is not available".

Definition SendRequest (request : option AddFriendRequest) : exec DB AddFriendResponse :=
  let fail base := {| ar_base := base; ar_request := None |} in
  if negb has_service then ret (fail no_service) else
  match request with
  | None => ret (fail (base_of PARAM_ERROR "AddFriend request is null"))
  | Some r =>
      handler
        (let service_request :=
           {| fr_requester_uid := af_from_uid r; fr_target_uid := af_to_uid r;
              fr_now_ms := header_time (af_timestamp r) now_ms |} in
         let* result := send_request clock service_request in
         if negb (fr_ok result)
         then ret (fail (base_of (friend_error_code (fr_error_code result)) (fr_message result)))
         else
           let* pending := get_pending_requests (fr_target_uid service_request) in
           ret {| ar_base := base_of SUCCESS "";
                  ar_request := fill_friend_request (fr_target_uid service_request) <$>
                    List.find (fun item => String.eqb (fi_friend_uid item) (fr_requester_uid service_request)) pending |})
        (fail (base_of SERVER_ERROR what))
  end.

Definition RespondToRequest (request : option HandleFriendRequest) : exec DB BaseResponse :=
  if negb has_service then ret no_service else
  match request with
  | None => ret (base_of PARAM_ERROR "HandleFriend request is null")
  | Some r =>
      match stoull (hf_request_id r) with
      | None => ret (base_of PARAM_ERROR "request_id must be a numeric friend id")
      | Some friend_id =>
          handler
            (let* result := respond_to_request friend_id (hf_from_uid r) (hf_accept r) in
             if negb (fr_ok result)
             then ret (base_of (friend_error_code (fr_error_code result)) (fr_message result))
             else ret (base_of SUCCESS ""))
            (base_of SERVER_ERROR what)
      end
  end.

(** The request is its [header.from_uid]. *)
Definition GetFriends (request : option string) : exec DB GetFriendListResponse :=
  let fail base := {| fl_base := base; fl_friends := [] |} in
  if negb has_service then ret (fail no_service) else
  match request with
  | None => ret (fail (base_of PARAM_ERROR "from_uid is required"))
  | Some from_uid =>
      if String.eqb from_uid "" then ret (fail (base_of PARAM_ERROR "from_uid is required"))
      else handler
        (let* friends := get_friends from_uid in
         ret {| fl_base := base_of SUCCESS ""; fl_friends := map fill_friend_info friends |})
        (fail (base_of SERVER_ERROR what))
  end.

Definition GetPendingRequests (request : option string) : exec DB GetFriendRequestsResponse :=
  let fail base := {| gr_base := base; gr_requests := [] |} in
  if negb has_service then ret (fail no_service) else
  match request with
  | None => ret (fail (base_of PARAM_ERROR "from_uid is required"))
  | Some from_uid =>
      if String.eqb from_uid "" then ret (fail (base_of PARAM_ERROR "from_uid is required"))
      else handler
        (let* requests := get_pending_requests from_uid in
         ret {| gr_base := base_of SUCCESS ""; gr_requests := map (fill_friend_request from_uid) requests |})
        (fail (base_of SERVER_ERROR what))
  end.
End Server.

(** * The clients of the gateway *)

(** [LocalFriendClient]: its constructor refuses a null service. *)
Definition LocalFriendClient {DB} `{Odb DB} (clock : Z) : FriendClient DB := {|
  cl_send_request := send_request clock;
  cl_respond_to_request := respond_to_request;
  cl_get_friends := get_friends;
  cl_get_pending_requests := get_pending_requests
|}.

Definition to_service_status (status : Z) : FriendStatus :=
  if status =? PB_ACCEPTED then ACCEPTED else if status =? PB_REJECTED then REJECTED else PENDING.

(** The two overloads of [to_info]. *)
Definition info_of_friend (info : PbFriendInfo) : FriendInfoDTO :=
  {| fi_friend_id := pf_friend_id info; fi_friend_uid := pf_uid info; fi_nickname := pf_nickname info;
     fi_status := to_service_status (pf_status info); fi_created_at := pf_add_time info |}.
Definition info_of_request (request : PbFriendRequest) : FriendInfoDTO :=
  {| fi_friend_id := pq_friend_id request; fi_friend_uid := pq_from_uid request;
     fi_nickname := pq_nickname request; fi_status := to_service_status (pq_status request);
     fi_created_at := pq_create_time request |}.

Definition friend_error_name (base : BaseResponse) : string :=
  if is_code base PARAM_ERROR then "PARAM_ERROR"
  else if is_code base NOT_FOUND then "NOT_FOUND"
  else if is_code base ALREADY_EXISTS then "ALREADY_EXISTS"
  else if is_code base PERMISSION_DENIED then "FORBIDDEN"
  else if is_code base SERVER_ERROR then "REMOTE_FRIEND_SERVER_ERROR"
  else "REMOTE_FRIEND_ERROR".

Section Client.
Context {DB : Type} `{Odb DB} `{Rpc DB} (clock now_ms : Z) (what : string) (has_service : bool).
(** [client_] is not null; the text of a failed status. *)
Context (has_client : bool) (status_message : string).

Definition unconfigured : FriendResult :=
  friend_error "REMOTE_FRIEND_UNAVAILABLE" "Remote Friend client is not configured".

(** After a call that changes a relationship. *)
Definition result_of (done_message : string) (base : option BaseResponse) : FriendResult :=
  match base with
  | None => friend_error "REMOTE_FRIEND_UNAVAILABLE" status_message
  | Some base =>
      if negb (is_success base) then friend_error (friend_error_name base) (error_message base)
      else friend_ok done_message
  end.

Definition remote_send_request (request : FriendRequest) : exec DB FriendResult :=
  if negb has_client then ret unconfigured else
  let* response := call (SendRequest clock now_ms what has_service)
    (Some {| af_from_uid := fr_requester_uid request; af_timestamp := u64 (fr_now_ms request);
             af_to_uid := fr_target_uid request |}) in
  ret (result_of "Friend request sent" (ar_base <$> response)).

Definition remote_respond_to_request (friend_id : Z) (uid : string) (accept : bool) : exec DB FriendResult :=
  if negb has_client then ret unconfigured else
  let* response := call (RespondToRequest what has_service)
    (Some {| hf_from_uid := uid; hf_request_id := dec friend_id; hf_accept := accept |}) in
  ret (result_of (if accept then "Friend request accepted" else "Friend request rejected") response).

Definition remote_get_friends (uid : string) : exec DB (list FriendInfoDTO) :=
  if negb has_client then ret [] else
  let* response := call (GetFriends what has_service) (Some uid) in
  match response with
  | None => ret []
  | Some r => if negb (is_success (fl_base r)) then ret [] else ret (map info_of_friend (fl_friends r))
  end.

Definition remote_get_pending_requests (uid : string) : exec DB (list FriendInfoDTO) :=
  if negb has_client then ret [] else
  let* response := call (GetPendingRequests what has_service) (Some uid) in
  match response with
  | None => ret []
  | Some r => if negb (is_success (gr_base r)) then ret [] else ret (map info_of_request (gr_requests r))
  end.

Definition RemoteFriendClient : FriendClient DB := {|
  cl_send_request := remote_send_request;
  cl_respond_to_request := remote_respond_to_request;
  cl_get_friends := remote_get_friends;
  cl_get_pending_requests := remote_get_pending_requests
|}.
End Client.

(** * What the remote client shows of the service *)

(** An error code of the service as the remote client reports it. *)
Definition friend_seen (e : string) : string :=
  if decide (e = "EMPTY_UID" \/ e = "SELF_REQUEST" \/ e = "NOT_PENDING") then "PARAM_ERROR"
  else if decide (e = "TARGET_NOT_FOUND" \/ e = "NOT_FOUND") then "NOT_FOUND"
  else if decide (e = "ALREADY_EXISTS") then "ALREADY_EXISTS"
  else if decide (e = "FORBIDDEN") then "FORBIDDEN" else "REMOTE_FRIEND_SERVER_ERROR".

Definition seen (res : FriendResult) : FriendResult :=
  if fr_ok res then res else friend_error (friend_seen (fr_error_code res)) (fr_message res).

Lemma friend_codes e m : friend_error_name (base_of (friend_error_code e) m) = friend_seen e.
Proof. unfold friend_error_code, friend_seen. text_cases e. Qed.

Lemma friend_code_failure e m : is_success (base_of (friend_error_code e) m) = false.
Proof. unfold friend_error_code. text_cases e. Qed.

Lemma status_trip s : s <> BLOCKED -> to_service_status (to_proto_status s) = s.
Proof. by destruct s. Qed.

Lemma friend_trip i : fi_status i <> BLOCKED -> info_of_friend (fill_friend_info i) = i.
Proof. intros Hs. destruct i. unfold info_of_friend. simpl in *. by rewrite status_trip. Qed.

Lemma request_trip u i : fi_status i <> BLOCKED -> info_of_request (fill_friend_request u i) = i.
Proof. intros Hs. destruct i. unfold info_of_request. simpl in *. by rewrite status_trip. Qed.

Section Totality.
Context {DB : Type} `{Odb DB}.

Lemma info_total uid f : total (to_friend_info uid f).
Proof. unfold to_friend_info, resolve_nickname. prove_total. Qed.
#[local] Hint Resolve info_total : total.

Lemma send_total clock q : total (send_request clock q).
Proof.
  unfold send_request, send_request_checks, send_request_create, find_relationship, create. prove_total.
Qed.

Lemma respond_total i uid accept : total (respond_to_request i uid accept).
Proof. unfold respond_to_request, find_by_id, update_status. prove_total. Qed.

Lemma friends_total uid : total (get_friends uid).
Proof. unfold get_friends, find_friends. prove_total. Qed.

Lemma pending_total uid : total (get_pending_requests uid).
Proof. unfold get_pending_requests, find_pending. prove_total. Qed.

Lemma send_texts clock q : returns (fun r => fr_ok r = true -> r = friend_ok "Friend request sent") (send_request clock q).
Proof.
  apply (returns_seq (fun c : FriendResult + Friend => match c with inl r => fr_ok r = false | inr _ => True end)).
  - unfold send_request_checks. by each_return.
  - intros [r|f] Hc; [apply returns_ret; congruence|]. unfold send_request_create. by each_return.
Qed.

Lemma respond_texts i uid (accept : bool) : returns (fun r => fr_ok r = true ->
  r = friend_ok (if accept then "Friend request accepted" else "Friend request rejected"))
  (respond_to_request (DB := DB) i uid accept).
Proof. unfold respond_to_request. by each_return. Qed.
End Totality.

Section Refinement.
Context {DB : Type} `{OdbReliable DB} `{RpcWorks DB} (clock now_ms : Z) (what status_message : string).

Abbreviation local := (LocalFriendClient clock).
Abbreviation remote := (RemoteFriendClient clock now_ms what true true status_message).

(** The statuses of the lists: none is BLOCKED. *)
Lemma listed_statuses uid p (d d' : DB) l :
  (let* l := collect (query p None) in exec_map (to_friend_info uid) l) d = (d', Ok l) ->
  (forall f, p f = true -> f_status f <> BLOCKED) -> forall i, i ∈ l -> fi_status i <> BLOCKED.
Proof.
  intros E Hp i Hi. apply infos_inv in E as (_ & _ & fs & l' & [= <-] & Hl & Hf & _).
  apply list_elem_of_lookup in Hi as [k Hk]. destruct (Forall2_lookup_r _ _ _ _ _ Hl Hk) as (f & Hfk & Hi).
  destruct Hi as (_ & _ & -> & _). by apply Hp, Hf, (list_elem_of_lookup_2 _ k).
Qed.

Lemma send_answer q (d d1 : DB) res : - 2 ^ 63 <= fr_now_ms q < 2 ^ 63 ->
  let q' := {| fr_requester_uid := fr_requester_uid q; fr_target_uid := fr_target_uid q;
               fr_now_ms := if decide (fr_now_ms q = 0) then now_ms else fr_now_ms q |} in
  send_request clock q' d = (d1, Ok res) ->
  exists d2, view d2 = view d1 /\ cl_send_request (FriendClient := remote) q d = (d2, Ok (seen res)).
Proof.
  intros Hn q' E. cbn [cl_send_request RemoteFriendClient]. unfold remote_send_request. simpl.
  unfold bind at 1. rewrite rpc_works. unfold SendRequest. simpl.
  rewrite header_time_sent by done. fold q'.
  unfold handler, try_catch. rewrite (bind_Ok _ _ _ _ _ E).
  pose proof (send_texts _ _ _ _ _ E) as Hok. unfold seen.
  destruct (fr_ok res) eqn:Er; simpl.
  - destruct (pending_total (fr_target_uid q) d1) as (d2 & l & Ep). rewrite (bind_Ok _ _ _ _ _ Ep). exists d2.
    apply infos_inv in Ep as (_ & Hv & _). split; [done|]. by rewrite (Hok Er).
  - exists d1. split; [done|]. unfold ret, result_of. simpl. by rewrite friend_code_failure, friend_codes.
Qed.

(** The remote friend client refines the in-process one.  On a channel that works, every
    call leaves the database as the service itself leaves it, and answers what the service
    answers: a request without a time is dated by the server; the ids of requests pass as
    decimal text; the lists are the same (a list for no user is empty without asking); the
    refusals keep the names NOT_FOUND, ALREADY_EXISTS and FORBIDDEN, the faults of the caller
    are PARAM_ERROR, the others REMOTE_FRIEND_SERVER_ERROR. *)
Theorem remote_friend_refines (d : DB) :
  (forall q, - 2 ^ 63 <= fr_now_ms q < 2 ^ 63 ->
     let q' := {| fr_requester_uid := fr_requester_uid q; fr_target_uid := fr_target_uid q;
                  fr_now_ms := if decide (fr_now_ms q = 0) then now_ms else fr_now_ms q |} in
     exists d1 d2 res, cl_send_request (FriendClient := local) q' d = (d1, Ok res) /\
       cl_send_request (FriendClient := remote) q d = (d2, Ok (seen res)) /\ view d2 = view d1) /\
  (forall i uid accept, 0 <= i < 2 ^ 64 ->
     exists d1 res, cl_respond_to_request (FriendClient := local) i uid accept d = (d1, Ok res) /\
       cl_respond_to_request (FriendClient := remote) i uid accept d = (d1, Ok (seen res))) /\
  (forall uid, cl_get_friends (FriendClient := remote) uid d =
     if decide (uid = "") then (d, Ok []) else cl_get_friends (FriendClient := local) uid d) /\
  (forall uid, cl_get_pending_requests (FriendClient := remote) uid d =
     if decide (uid = "") then (d, Ok []) else cl_get_pending_requests (FriendClient := local) uid d).
Proof.
  split_and!.
  - intros q Hq q'. destruct (send_total clock q' d) as (d1 & res & E).
    destruct (send_answer q d d1 res Hq E) as (d2 & Hv & Er). by exists d1, d2, res.
  - intros i uid accept Hi. destruct (respond_total i uid accept d) as (d1 & res & E).
    exists d1, res. split; [done|]. simpl. unfold remote_respond_to_request. simpl.
    unfold bind at 1. rewrite rpc_works. unfold RespondToRequest. simpl. rewrite stoull_dec by done.
    unfold handler, try_catch. rewrite (bind_Ok _ _ _ _ _ E).
    pose proof (respond_texts _ _ _ _ _ _ E) as Hok. unfold seen. destruct (fr_ok res) eqn:Er; simpl.
    + by rewrite (Hok Er).
    + unfold ret, result_of. by rewrite friend_code_failure, friend_codes.
  - intros uid. simpl. unfold remote_get_friends, bind at 1. simpl. rewrite rpc_works. unfold GetFriends. simpl.
    destruct (decide (uid = "")) as [->|Hu]; [done|]. rewrite (proj2 (String.eqb_neq uid "") Hu).
    unfold handler, try_catch. destruct (friends_total uid d) as (d1 & l & E).
    rewrite (bind_Ok _ _ _ _ _ E), E. unfold ret. simpl. rewrite map_trip; [done|].
    intros i Hi. apply friend_trip. revert i Hi. apply (listed_statuses _ _ _ _ _ E).
    intros f [_ Hf]%andb_prop. apply bool_decide_eq_true in Hf. congruence.
  - intros uid. simpl. unfold remote_get_pending_requests, bind at 1. simpl. rewrite rpc_works.
    unfold GetPendingRequests. simpl.
    destruct (decide (uid = "")) as [->|Hu]; [done|]. rewrite (proj2 (String.eqb_neq uid "") Hu).
    unfold handler, try_catch. destruct (pending_total uid d) as (d1 & l & E).
    rewrite (bind_Ok _ _ _ _ _ E), E. unfold ret. simpl. rewrite map_trip; [done|].
    intros i Hi. apply request_trip. revert i Hi. apply (listed_statuses _ _ _ _ _ E).
    intros f [_ Hf]%andb_prop. apply bool_decide_eq_true in Hf. congruence.
Qed.
End Refinement.

(** * Witness *)

Section FriendRemoteWitness.
Import FriendService.Witness.
#[local] Existing Instances direct direct_works.

(** Bob asks himself, then Alice, who accepts, over the boundary. *)
Lemma remote_friend_refines_witness :
  let R := RemoteFriendClient 9 8 "" true true "" in
  (cl_send_request (FriendClient := R) (ask "bob" "bob") db1).2 =
    Ok (friend_error "PARAM_ERROR" "Cannot send friend request to yourself") /\
  (cl_respond_to_request (FriendClient := R) 1 alice_id true db2).2 = Ok (friend_ok "Friend request accepted") /\
  (cl_get_friends (FriendClient := R) "bob" db3) = get_friends "bob" db3.
Proof.
  destruct (remote_friend_refines (DB := MemDb) 9 8 "" "" db1) as (Hs & _).
  destruct (remote_friend_refines (DB := MemDb) 9 8 "" "" db2) as (_ & Hr & _).
  destruct (remote_friend_refines (DB := MemDb) 9 8 "" "" db3) as (_ & _ & Hf & _).
  destruct (Hs (ask "bob" "bob") ltac:(vm_compute; intuition discriminate)) as (d1 & d2 & res & E & Er & _).
  destruct (Hr 1 alice_id true ltac:(lia)) as (d3 & res' & E' & Er'). cbv zeta. rewrite Er, Er', Hf.
  apply (f_equal snd) in E, E'. vm_compute in E, E'. injection E as <-. injection E' as <-. auto.
Defined.
End FriendRemoteWitness.
