(* ===== verification/GroupRemote.v ===== *)
(** The group service behind a remote boundary: the handlers of
    [services/group/group_grpc_service.cpp] and the two clients of the gateway,
    [gateway/http/group_client.cpp] (in process) and [gateway/http/remote_group_client.cpp].

    As in UserRemote, a handler returns its response and the null [response] pointer is left
    out.  [clock] is what the service reads, [now_ms] what the handler reads. *)
From S2P Require Import Prelude Text Schema Odb PasswordHasher MemDb UserService GroupService ProtobufCodec Rpc.
Open Scope Z_scope.

(** * The interface of the gateway: [class GroupClient] *)

Class GroupClient (D : Type) := {
  cl_create_group : CreateGroupRequest -> exec D GroupResult;
  cl_join_group : Z -> string -> Z -> exec D GroupResult;
  cl_leave_group : Z -> string -> exec D GroupResult;
  cl_list_my_groups : string -> exec D (list GroupInfoDTO);
  cl_get_group_info : Z -> exec D (option GroupInfoDTO);
  cl_search_groups : string -> Z -> exec D (list GroupInfoDTO);
  cl_group_exists : Z -> exec D bool;
  cl_list_members : Z -> string -> exec D (list MemberInfoDTO);
  cl_send_message : Z -> string -> string -> Z -> exec D GroupSendResult;
  cl_get_history : Z -> string -> Z -> Z -> exec D (list GroupMessageDTO)
}.

(** * Messages of [common/proto/group.proto]: the fields the two sides use *)

(** [enum GroupRole], open as proto3 enumerations are. *)
Definition PB_MEMBER : Z := 0.
Definition PB_ADMIN : Z := 1.
Definition PB_OWNER : Z := 2.

Record PbGroupInfo := {
  pgi_group_id : string; pgi_name : string; pgi_owner_uid : string; pgi_create_time : Z;
  pgi_group_record_id : Z; pgi_member_count : Z
}.
Record PbGroupMember := {
  pgm_uid : string; pgm_role : Z; pgm_nickname : string; pgm_join_time : Z; pgm_member_record_id : Z
}.
Record PbGroupMessage := {
  pgx_msg_id : Z; pgx_group_id : Z; pgx_sender_uid : string; pgx_sender_nickname : string;
  pgx_content : string; pgx_create_time : Z
}.

(** The header fields are [from_uid] and the unsigned [timestamp]. *)
Record PbCreateGroupRequest := { pc_from_uid : string; pc_timestamp : Z; pc_name : string }.
Record CreateGroupResponse := { cr_base : BaseResponse; cr_group : option PbGroupInfo; cr_group_id : Z }.
Record JoinGroupRequest := { jg_from_uid : string; jg_timestamp : Z; jg_group_id : Z }.
Record LeaveGroupRequest := { lg_from_uid : string; lg_group_id : Z }.
Record GetGroupInfoRequest := { gg_from_uid : string; gg_group_id : string; gg_group_record_id : Z }.
Record GetGroupInfoResponse := {
  gp_base : BaseResponse; gp_group : option PbGroupInfo; gp_members : list PbGroupMember; gp_joined : bool
}.
Record SearchGroupsRequest := { sg_keyword : string; sg_limit : Z }.
(** [SearchGroupsResponse] and [GetGroupListResponse]. *)
Record GroupsResponse := { gl_base : BaseResponse; gl_groups : list PbGroupInfo }.
Record GroupExistsResponse := { ge_base : BaseResponse; ge_exists : bool }.
Record GetGroupMembersRequest := { gm_from_uid : string; gm_group_text : string; gm_group_record_id : Z }.
Record GetGroupMembersResponse := { gml_base : BaseResponse; gml_members : list PbGroupMember }.
Record SendGroupMessageRequest := {
  sm_from_uid : string; sm_timestamp : Z; sm_group_id : Z; sm_content : string; sm_create_time : Z
}.
Record SendGroupMessageResponse := { sm_base : BaseResponse; sm_message : option PbGroupMessage }.
Record GetGroupMessagesRequest := {
  gh_from_uid : string; gh_group_text : string; gh_group_record_id : Z; gh_since : Z; gh_limit : Z
}.
Record GetGroupMessagesResponse := { gh_base : BaseResponse; gh_messages : list PbGroupMessage }.

(** * GroupGrpcService *)

Definition group_error_code (e : string) : ErrorCode :=
  if String.eqb e "EMPTY_NAME" || String.eqb e "EMPTY_CREATOR" || String.eqb e "EMPTY_UID" ||
     String.eqb e "EMPTY_SENDER" || String.eqb e "INVALID_GROUP" then PARAM_ERROR
  else if String.eqb e "GROUP_NOT_FOUND" || String.eqb e "CREATOR_NOT_FOUND" ||
          String.eqb e "USER_NOT_FOUND" then NOT_FOUND
  else if String.eqb e "ALREADY_MEMBER" then ALREADY_EXISTS
  else if String.eqb e "NOT_MEMBER" || String.eqb e "OWNER_CANNOT_LEAVE" || String.eqb e "FORBIDDEN"
  then PERMISSION_DENIED
  else SERVER_ERROR.

Definition to_proto_role (role : GroupRole) : Z :=
  match role with MEMBER => PB_MEMBER | ADMIN => PB_ADMIN | OWNER => PB_OWNER end.

(** The numeric id of a request, or its text; 0 when there is none. *)
Definition group_id_from (group_id : string) (group_record_id : Z) : Z :=
  if negb (group_record_id =? 0) then group_record_id
  else if String.eqb group_id "" then 0
  else default 0 (stoull group_id).

Definition fill_group_info (dto : GroupInfoDTO) : PbGroupInfo :=
  {| pgi_group_id := dec (gi_group_id dto); pgi_name := gi_name dto; pgi_owner_uid := gi_creator_uid dto;
     pgi_create_time := gi_created_at dto; pgi_group_record_id := gi_group_id dto;
     pgi_member_count := gi_member_count dto |}.

Definition fill_member_info (dto : MemberInfoDTO) : PbGroupMember :=
  {| pgm_uid := mi_user_uid dto; pgm_role := to_proto_role (mi_role dto); pgm_nickname := mi_nickname dto;
     pgm_join_time := mi_joined_at dto; pgm_member_record_id := mi_id dto |}.

Definition fill_group_message (group_id : Z) (dto : GroupMessageDTO) : PbGroupMessage :=
  {| pgx_msg_id := gd_msg_id dto; pgx_group_id := group_id; pgx_sender_uid := gd_sender_uid dto;
     pgx_sender_nickname := gd_sender_nickname dto; pgx_content := gd_content dto;
     pgx_create_time := gd_created_at dto |}.

Section Server.
Context {DB : Type} `{Odb DB} (clock now_ms : Z) (what : string).
(** [group_service_] and [group_message_service_] are not null. *)
Context (has_service has_messages : bool).

Definition no_service : BaseResponse := base_of SERVER_ERROR "GroupService is not available".
Definition no_message_service : BaseResponse := base_of SERVER_ERROR "GroupMessageService is not available".

Definition CreateGroup (request : option PbCreateGroupRequest) : exec DB CreateGroupResponse :=
  let fail base := {| cr_base := base; cr_group := None; cr_group_id := 0 |} in
  if negb has_service then ret (fail no_service) else
  match request with
  | None => ret (fail (base_of PARAM_ERROR "CreateGroup request is null"))
  | Some r =>
      handler
        (let service_request := {| cg_name := pc_name r; cg_creator_uid := pc_from_uid r;
                                   cg_now_ms := header_time (pc_timestamp r) now_ms |} in
         let* result := create_group clock service_request in
         if negb (gr_ok result)
         then ret (fail (base_of (group_error_code (gr_error_code result)) (gr_message result)))
         else
           let* groups := list_my_groups (cg_creator_uid service_request) in
           ret {| cr_base := base_of SUCCESS "";
                  cr_group := fill_group_info <$>
                    List.find (fun group => gi_group_id group =? gr_group_id result) groups;
                  cr_group_id := gr_group_id result |})
        (fail (base_of SERVER_ERROR what))
  end.

(** [set_base(..., result.ok ? SUCCESS : group_error_code(...), result.ok ? "" : ...)]. *)
Definition action_base (result : GroupResult) : BaseResponse :=
  base_of (if gr_ok result then SUCCESS else group_error_code (gr_error_code result))
          (if gr_ok result then "" else gr_message result).

Definition ids_required : BaseResponse := base_of PARAM_ERROR "group_id and from_uid are required".

Definition JoinGroup (request : option JoinGroupRequest) : exec DB BaseResponse :=
  if negb has_service then ret no_service else
  match request with
  | None => ret ids_required
  | Some r =>
      if (jg_group_id r =? 0) || String.eqb (jg_from_uid r) "" then ret ids_required
      else handler
        (let* result := join_group clock (jg_group_id r) (jg_from_uid r) (header_time (jg_timestamp r) now_ms) in
         ret (action_base result))
        (base_of SERVER_ERROR what)
  end.

Definition LeaveGroup (request : option LeaveGroupRequest) : exec DB BaseResponse :=
  if negb has_service then ret no_service else
  match request with
  | None => ret ids_required
  | Some r =>
      if (lg_group_id r =? 0) || String.eqb (lg_from_uid r) "" then ret ids_required
      else handler
        (let* result := leave_group (lg_group_id r) (lg_from_uid r) in ret (action_base result))
        (base_of SERVER_ERROR what)
  end.

Definition GetGroupInfo (request : option GetGroupInfoRequest) : exec DB GetGroupInfoResponse :=
  let fail base := {| gp_base := base; gp_group := None; gp_members := []; gp_joined := false |} in
  if negb has_service then ret (fail no_service) else
  match request with
  | None => ret (fail (base_of PARAM_ERROR "group_id is required"))
  | Some r =>
      let group_id := group_id_from (gg_group_id r) (gg_group_record_id r) in
      if group_id =? 0 then ret (fail (base_of PARAM_ERROR "group_id is required"))
      else handler
        (let* group := get_group_info group_id in
         match group with
         | None => ret (fail (base_of NOT_FOUND "Group not found"))
         | Some g =>
             if String.eqb (gg_from_uid r) "" then
               ret {| gp_base := base_of SUCCESS ""; gp_group := Some (fill_group_info g);
                      gp_members := []; gp_joined := false |}
             else
               let* members := list_members group_id (gg_from_uid r) in
               ret {| gp_base := base_of SUCCESS ""; gp_group := Some (fill_group_info g);
                      gp_members := map fill_member_info members;
                      gp_joined := negb (bool_decide (members = [])) |}
         end)
        (fail (base_of SERVER_ERROR what))
  end.

Definition SearchGroups (request : option SearchGroupsRequest) : exec DB GroupsResponse :=
  let fail base := {| gl_base := base; gl_groups := [] |} in
  if negb has_service then ret (fail no_service) else
  match request with
  | None => ret (fail (base_of PARAM_ERROR "keyword is required"))
  | Some r =>
      if String.eqb (sg_keyword r) "" then ret (fail (base_of PARAM_ERROR "keyword is required"))
      else handler
        (let limit := if 0 <? sg_limit r then sg_limit r else 20 in
         let* groups := search_groups (sg_keyword r) limit in
         ret {| gl_base := base_of SUCCESS ""; gl_groups := map fill_group_info groups |})
        (fail (base_of SERVER_ERROR what))
  end.

(** The base is set before the look-up. *)
Definition GroupExists (request : option Z) : exec DB GroupExistsResponse :=
  let fail base := {| ge_base := base; ge_exists := false |} in
  if negb has_service then ret (fail no_service) else
  match request with
  | None => ret (fail (base_of PARAM_ERROR "group_id is required"))
  | Some group_id =>
      if group_id =? 0 then ret (fail (base_of PARAM_ERROR "group_id is required"))
      else handler
        (let* exists_ := group_exists group_id in
         ret {| ge_base := base_of SUCCESS ""; ge_exists := exists_ |})
        (fail (base_of SERVER_ERROR what))
  end.

(** The request is its [header.from_uid]. *)
Definition ListMyGroups (request : option string) : exec DB GroupsResponse :=
  let fail base := {| gl_base := base; gl_groups := [] |} in
  if negb has_service then ret (fail no_service) else
  match request with
  | None => ret (fail (base_of PARAM_ERROR "from_uid is required"))
  | Some from_uid =>
      if String.eqb from_uid "" then ret (fail (base_of PARAM_ERROR "from_uid is required"))
      else handler
        (let* groups := list_my_groups from_uid in
         ret {| gl_base := base_of SUCCESS ""; gl_groups := map fill_group_info groups |})
        (fail (base_of SERVER_ERROR what))
  end.

Definition ListMembers (request : option GetGroupMembersRequest) : exec DB GetGroupMembersResponse :=
  let fail base := {| gml_base := base; gml_members := [] |} in
  if negb has_service then ret (fail no_service) else
  match request with
  | None => ret (fail ids_required)
  | Some r =>
      let group_id := group_id_from (gm_group_text r) (gm_group_record_id r) in
      if (group_id =? 0) || String.eqb (gm_from_uid r) "" then ret (fail ids_required)
      else handler
        (let* exists_ := group_exists group_id in
         if negb exists_ then ret (fail (base_of NOT_FOUND "Group not found"))
         else
           let* members := list_members group_id (gm_from_uid r) in
           match members with
           | [] => ret (fail (base_of PERMISSION_DENIED "Not a member of this group"))
           | _ => ret {| gml_base := base_of SUCCESS ""; gml_members := map fill_member_info members |}
           end)
        (fail (base_of SERVER_ERROR what))
  end.

(** The answer shows the newest message up to [sent_at], or the stored one when the history
    is empty. *)
Definition SendGroupMessage (request : option SendGroupMessageRequest) : exec DB SendGroupMessageResponse :=
  let fail base := {| sm_base := base; sm_message := None |} in
  let missing := base_of PARAM_ERROR "group_id, from_uid, and content are required" in
  if negb has_service then ret (fail no_service)
  else if negb has_messages then ret (fail no_message_service) else
  match request with
  | None => ret (fail missing)
  | Some r =>
      if (sm_group_id r =? 0) || String.eqb (sm_from_uid r) "" || String.eqb (sm_content r) ""
      then ret (fail missing)
      else handler
        (let sent_at := if 0 <? sm_create_time r then sm_create_time r
                        else header_time (sm_timestamp r) now_ms in
         let* result := send_message (sm_group_id r) (sm_from_uid r) (sm_content r) sent_at in
         if negb (gs_ok result)
         then ret (fail (base_of (group_error_code (gs_error_code result)) (gs_message result)))
         else
           let* messages := get_history (sm_group_id r) (sent_at + 1) 1 in
           ret {| sm_base := base_of SUCCESS "";
                  sm_message := Some
                    match messages with
                    | message :: _ => fill_group_message (sm_group_id r) message
                    | [] => {| pgx_msg_id := gs_msg_id result; pgx_group_id := sm_group_id r;
                               pgx_sender_uid := sm_from_uid r; pgx_sender_nickname := "";
                               pgx_content := sm_content r; pgx_create_time := sent_at |}
                    end |})
        (fail (base_of SERVER_ERROR what))
  end.

Definition GetGroupMessages (request : option GetGroupMessagesRequest) : exec DB GetGroupMessagesResponse :=
  let fail base := {| gh_base := base; gh_messages := [] |} in
  if negb has_service then ret (fail no_service)
  else if negb has_messages then ret (fail no_message_service) else
  match request with
  | None => ret (fail ids_required)
  | Some r =>
      let group_id := group_id_from (gh_group_text r) (gh_group_record_id r) in
      if (group_id =? 0) || String.eqb (gh_from_uid r) "" then ret (fail ids_required)
      else handler
        (let* exists_ := group_exists group_id in
         if negb exists_ then ret (fail (base_of NOT_FOUND "Group not found"))
         else
           let* members := list_members group_id (gh_from_uid r) in
           match members with
           | [] => ret (fail (base_of PERMISSION_DENIED "Not a member of this group"))
           | _ =>
               let limit := if 0 <? gh_limit r then gh_limit r else 50 in
               let before := if 0 <? gh_since r then gh_since r else now_ms in
               let* messages := get_history group_id before limit in
               ret {| gh_base := base_of SUCCESS ""; gh_messages := map (fill_group_message group_id) messages |}
           end)
        (fail (base_of SERVER_ERROR what))
  end.
End Server.

(** * The clients of the gateway *)

(** [LocalGroupClient]: the history does not look at its caller. *)
Definition LocalGroupClient {DB} `{Odb DB} (clock : Z) : GroupClient DB := {|
  cl_create_group := create_group clock;
  cl_join_group := join_group clock;
  cl_leave_group := leave_group;
  cl_list_my_groups := list_my_groups;
  cl_get_group_info := get_group_info;
  cl_search_groups := search_groups;
  cl_group_exists := group_exists;
  cl_list_members := list_members;
  cl_send_message := send_message;
  cl_get_history := fun group_id _ before_time limit => get_history group_id before_time limit
|}.

Definition to_service_role (role : Z) : GroupRole :=
  if role =? PB_ADMIN then ADMIN else if role =? PB_OWNER then OWNER else MEMBER.

Definition to_group_info (info : PbGroupInfo) : GroupInfoDTO :=
  let record_id := pgi_group_record_id info in
  {| gi_group_id := if (record_id =? 0) && negb (String.eqb (pgi_group_id info) "")
                    then default 0 (stoull (pgi_group_id info)) else record_id;
     gi_name := pgi_name info; gi_creator_uid := pgi_owner_uid info;
     gi_created_at := pgi_create_time info; gi_member_count := pgi_member_count info |}.

Definition to_member_info (info : PbGroupMember) : MemberInfoDTO :=
  {| mi_id := pgm_member_record_id info; mi_user_uid := pgm_uid info; mi_nickname := pgm_nickname info;
     mi_role := to_service_role (pgm_role info); mi_joined_at := pgm_join_time info |}.

Definition to_group_message (message : PbGroupMessage) : GroupMessageDTO :=
  {| gd_msg_id := pgx_msg_id message; gd_sender_uid := pgx_sender_uid message;
     gd_sender_nickname := pgx_sender_nickname message; gd_content := pgx_content message;
     gd_created_at := pgx_create_time message |}.

Definition group_error_name (base : BaseResponse) : string :=
  if is_code base PARAM_ERROR then "PARAM_ERROR"
  else if is_code base NOT_FOUND then "GROUP_NOT_FOUND"
  else if is_code base ALREADY_EXISTS then "ALREADY_MEMBER"
  else if is_code base PERMISSION_DENIED then "NOT_MEMBER"
  else if is_code base SERVER_ERROR then "REMOTE_GROUP_SERVER_ERROR"
  else "REMOTE_GROUP_ERROR".

Section Client.
Context {DB : Type} `{Odb DB} `{Rpc DB} (clock now_ms : Z) (what : string) (has_service has_messages : bool).
(** [client_] is not null; the text of a failed status. *)
Context (has_client : bool) (status_message : string).

(** After a call that changes a group. *)
Definition result_of (done_message : string) (answer : option (BaseResponse * Z)) : GroupResult :=
  match answer with
  | None => group_error "REMOTE_GROUP_UNAVAILABLE" status_message
  | Some (base, group_id) =>
      if negb (is_success base) then group_error (group_error_name base) (error_message base)
      else group_ok done_message group_id
  end.

Definition unconfigured : GroupResult :=
  group_error "REMOTE_GROUP_UNAVAILABLE" "Remote Group client is not configured".

Definition remote_create_group (request : CreateGroupRequest) : exec DB GroupResult :=
  if negb has_client then ret unconfigured else
  let* response := call (CreateGroup clock now_ms what has_service)
    (Some {| pc_from_uid := cg_creator_uid request; pc_timestamp := u64 (cg_now_ms request);
             pc_name := cg_name request |}) in
  ret (result_of "Group created" ((fun r => (cr_base r, cr_group_id r)) <$> response)).

Definition remote_join_group (group_id : Z) (user_uid : string) (t : Z) : exec DB GroupResult :=
  if negb has_client then ret unconfigured else
  let* response := call (JoinGroup clock now_ms what has_service)
    (Some {| jg_from_uid := user_uid; jg_timestamp := u64 t; jg_group_id := group_id |}) in
  ret (result_of "Joined group" ((fun base => (base, group_id)) <$> response)).

Definition remote_leave_group (group_id : Z) (user_uid : string) : exec DB GroupResult :=
  if negb has_client then ret unconfigured else
  let* response := call (LeaveGroup what has_service)
    (Some {| lg_from_uid := user_uid; lg_group_id := group_id |}) in
  ret (result_of "Left group" ((fun base => (base, group_id)) <$> response)).

(** What a reading call takes from a response: nothing after a failed status or an error. *)
Definition read_of {Resp A} (base : Resp -> BaseResponse) (value : Resp -> A) (nothing : A)
    (response : option Resp) : A :=
  match response with
  | None => nothing
  | Some r => if negb (is_success (base r)) then nothing else value r
  end.

Definition remote_list_my_groups (user_uid : string) : exec DB (list GroupInfoDTO) :=
  if negb has_client then ret [] else
  let* response := call (ListMyGroups what has_service) (Some user_uid) in
  ret (read_of gl_base (fun r => map to_group_info (gl_groups r)) [] response).

(** A missing [group] reads as the empty message; a success always has one. *)
Definition remote_get_group_info (group_id : Z) : exec DB (option GroupInfoDTO) :=
  if negb has_client || (group_id =? 0) then ret None else
  let* response := call (GetGroupInfo what has_service)
    (Some {| gg_from_uid := ""; gg_group_id := ""; gg_group_record_id := group_id |}) in
  ret (read_of gp_base (fun r => to_group_info <$> gp_group r) None response).

Definition remote_search_groups (keyword : string) (limit : Z) : exec DB (list GroupInfoDTO) :=
  if negb has_client || String.eqb keyword "" || (limit =? 0) then ret [] else
  let* response := call (SearchGroups what has_service)
    (Some {| sg_keyword := keyword; sg_limit := i32 limit |}) in
  ret (read_of gl_base (fun r => map to_group_info (gl_groups r)) [] response).

Definition remote_group_exists (group_id : Z) : exec DB bool :=
  if negb has_client then ret false else
  let* response := call (GroupExists what has_service) (Some group_id) in
  ret (read_of ge_base ge_exists false response).

Definition remote_list_members (group_id : Z) (caller_uid : string) : exec DB (list MemberInfoDTO) :=
  if negb has_client then ret [] else
  let* response := call (ListMembers what has_service)
    (Some {| gm_from_uid := caller_uid; gm_group_text := ""; gm_group_record_id := group_id |}) in
  ret (read_of gml_base (fun r => map to_member_info (gml_members r)) [] response).

Definition remote_send_message (group_id : Z) (sender_uid content : string) (t : Z) : exec DB GroupSendResult :=
  if negb has_client then ret (send_error "REMOTE_GROUP_UNAVAILABLE" "Remote Group client is not configured") else
  let* response := call (SendGroupMessage now_ms what has_service has_messages)
    (Some {| sm_from_uid := sender_uid; sm_timestamp := u64 t; sm_group_id := group_id; sm_content := content;
             sm_create_time := t |}) in
  match response with
  | None => ret (send_error "REMOTE_GROUP_UNAVAILABLE" status_message)
  | Some r =>
      if negb (is_success (sm_base r))
      then ret (send_error (group_error_name (sm_base r)) (error_message (sm_base r)))
      else ret {| gs_ok := true; gs_error_code := ""; gs_message := "Message sent";
                  gs_msg_id := from_option pgx_msg_id 0 (sm_message r) |}
  end.

Definition remote_get_history (group_id : Z) (caller_uid : string) (before_time limit : Z)
  : exec DB (list GroupMessageDTO) :=
  if negb has_client then ret [] else
  let* response := call (GetGroupMessages now_ms what has_service has_messages)
    (Some {| gh_from_uid := caller_uid; gh_group_text := ""; gh_group_record_id := group_id;
             gh_since := before_time; gh_limit := limit |}) in
  ret (read_of gh_base (fun r => map to_group_message (gh_messages r)) [] response).

Definition RemoteGroupClient : GroupClient DB := {|
  cl_create_group := remote_create_group;
  cl_join_group := remote_join_group;
  cl_leave_group := remote_leave_group;
  cl_list_my_groups := remote_list_my_groups;
  cl_get_group_info := remote_get_group_info;
  cl_search_groups := remote_search_groups;
  cl_group_exists := remote_group_exists;
  cl_list_members := remote_list_members;
  cl_send_message := remote_send_message;
  cl_get_history := remote_get_history
|}.
End Client.

(** * What the remote client shows of the service *)

(** An error code of the service as the remote client reports it. *)
Definition group_seen (e : string) : string :=
  if decide (e ∈ ["EMPTY_NAME"; "EMPTY_CREATOR"; "EMPTY_UID"; "EMPTY_SENDER"; "INVALID_GROUP"]) then "PARAM_ERROR"
  else if decide (e ∈ ["GROUP_NOT_FOUND"; "CREATOR_NOT_FOUND"; "USER_NOT_FOUND"]) then "GROUP_NOT_FOUND"
  else if decide (e = "ALREADY_MEMBER") then "ALREADY_MEMBER"
  else if decide (e ∈ ["NOT_MEMBER"; "OWNER_CANNOT_LEAVE"; "FORBIDDEN"]) then "NOT_MEMBER"
  else "REMOTE_GROUP_SERVER_ERROR".

(** A result of a join or a leave gets the id of the group. *)
Definition seen (group_id : Z) (res : GroupResult) : GroupResult :=
  if gr_ok res then group_ok (gr_message res) group_id
  else group_error (group_seen (gr_error_code res)) (gr_message res).

Lemma group_codes e m : group_error_name (base_of (group_error_code e) m) = group_seen e.
Proof.
  unfold group_error_code, group_seen.
  repeat match goal with |- context [String.eqb e ?s] => destruct (String.eqb_spec e s) as [->|]; [done|] end.
  repeat (rewrite decide_False; [|rewrite ?elem_of_cons, ?elem_of_nil; tauto]). done.
Qed.

Lemma group_code_failure e m : is_success (base_of (group_error_code e) m) = false.
Proof. unfold group_error_code. text_cases e. Qed.

Lemma group_trip g : to_group_info (fill_group_info g) = g.
Proof.
  destruct g as [i n c t k]. unfold to_group_info, fill_group_info. simpl. f_equal.
  destruct (i =? 0) eqn:E; [|done]. zbool. by subst.
Qed.

Lemma member_trip m : to_member_info (fill_member_info m) = m.
Proof. by destruct m as [? ? ? [] ?]. Qed.

Lemma group_message_trip gid m : to_group_message (fill_group_message gid m) = m.
Proof. by destruct m. Qed.

Section Totality.
Context {DB : Type} `{Odb DB}.

Lemma find_group_total gid : total (find_group_by_id gid).
Proof. unfold find_group_by_id. prove_total. Qed.
#[local] Hint Resolve find_group_total : total.

Lemma group_info_total g : total (group_info g).
Proof. unfold group_info, find_members. prove_total. Qed.
#[local] Hint Resolve group_info_total : total.

Lemma create_group_total clock q : total (create_group clock q).
Proof. unfold create_group, create_group_with_owner. prove_total. Qed.

Lemma join_group_total clock gid uid t : total (join_group clock gid uid t).
Proof. unfold join_group, find_member, add_member. prove_total. Qed.

Lemma leave_group_total gid uid : total (leave_group gid uid).
Proof. unfold leave_group, find_member, remove_member. prove_total. Qed.

Lemma list_my_groups_total uid : total (list_my_groups uid).
Proof. unfold list_my_groups, find_groups_by_user. prove_total. Qed.

Lemma get_group_info_total gid : total (get_group_info gid).
Proof. unfold get_group_info. prove_total. Qed.

Lemma search_groups_total k l : total (search_groups k l).
Proof. unfold search_groups, search_groups_rows. prove_total. Qed.

Lemma group_exists_total gid : total (group_exists gid).
Proof. unfold group_exists. prove_total. Qed.
#[local] Hint Resolve group_exists_total : total.

Lemma list_members_total gid uid : total (list_members gid uid).
Proof. unfold list_members, find_member, find_members, member_info, resolve_nickname. prove_total. Qed.
#[local] Hint Resolve list_members_total : total.

Lemma send_message_total gid uid content t : total (send_message gid uid content t).
Proof. unfold send_message, create_message. prove_total. Qed.

Lemma get_history_total gid before limit : total (get_history gid before limit).
Proof. unfold get_history, find_by_group, message_info, resolve_nickname. prove_total. Qed.

(** The texts of a success. *)
Lemma create_texts clock q : returns (fun r => gr_ok r = true -> gr_message r = "Group created") (create_group clock q).
Proof. unfold create_group. by each_return. Qed.

Lemma join_texts clock gid uid t :
  returns (fun r => gr_ok r = true -> gr_message r = "Joined group") (join_group clock gid uid t).
Proof. unfold join_group. by each_return. Qed.

Lemma leave_texts gid uid : returns (fun r => gr_ok r = true -> gr_message r = "Left group") (leave_group gid uid).
Proof. unfold leave_group. by each_return. Qed.
End Totality.

Section Refinement.
Context {DB : Type} `{OdbReliable DB} `{RpcWorks DB} (clock now_ms : Z) (what status_message : string).

Abbreviation local := (LocalGroupClient clock).
Abbreviation remote := (RemoteGroupClient clock now_ms what true true true status_message).

(** A time as the server reads it. *)
Definition at_server (t : Z) : Z := if decide (t = 0) then now_ms else t.

Lemma create_answer q (d d1 : DB) res : - 2 ^ 63 <= cg_now_ms q < 2 ^ 63 ->
  create_group clock {| cg_name := cg_name q; cg_creator_uid := cg_creator_uid q;
                        cg_now_ms := at_server (cg_now_ms q) |} d = (d1, Ok res) ->
  exists d2, view d2 = view d1 /\
    cl_create_group (GroupClient := remote) q d = (d2, Ok (seen (gr_group_id res) res)).
Proof.
  intros Hn E. cbn [cl_create_group RemoteGroupClient]. unfold remote_create_group. simpl.
  unfold bind at 1. rewrite rpc_works. unfold CreateGroup. simpl. rewrite header_time_sent by done.
  fold (at_server (cg_now_ms q)). unfold handler, try_catch. rewrite (bind_Ok _ _ _ _ _ E).
  pose proof (create_texts _ _ _ _ _ E) as Hok. unfold seen. destruct (gr_ok res) eqn:Er; simpl.
  - destruct (list_my_groups_total (cg_creator_uid q) d1) as (d2 & l & El). rewrite (bind_Ok _ _ _ _ _ El). exists d2.
    apply list_my_groups_inv in El as (_ & Hv & _). split; [done|]. by rewrite (Hok Er).
  - exists d1. split; [done|]. unfold ret, result_of. simpl. by rewrite group_code_failure, group_codes.
Qed.

(** The answer to a join or a leave. *)
Lemma action_answer gid text res : (gr_ok res = true -> gr_message res = text) ->
  result_of status_message text (Some (action_base res, gid)) = seen gid res.
Proof.
  intros Ht. unfold result_of, action_base, seen. destruct (gr_ok res); simpl.
  - by rewrite (Ht eq_refl).
  - by rewrite group_code_failure, group_codes.
Qed.

(** A reading call on a handler that reads once. *)
Lemma read_answer {Req Resp A B} (h : Req -> exec DB Resp) r (base : Resp -> BaseResponse) value (nothing : B)
    (m : exec DB A) (answer : A -> Resp) failed (back : A -> B) (d d1 : DB) a :
  h r d = handler (let* x := m in ret (answer x)) failed d -> m d = (d1, Ok a) ->
  read_of base value nothing (Some (answer a)) = back a ->
  (let* response := call h r in ret (read_of base value nothing response)) d = (d1, Ok (back a)).
Proof.
  intros Hh E Hb. unfold bind at 1. rewrite rpc_works, Hh. unfold handler, try_catch.
  rewrite (bind_Ok _ _ _ _ _ E). unfold ret. by rewrite Hb.
Qed.

(** Joining and leaving over the boundary: the tables and the answer are the service's, and a
    request without group or user is refused before the database is asked. *)
Lemma actions_refine gid uid t (d : DB) : - 2 ^ 63 <= t < 2 ^ 63 ->
  let refused := (d, Ok (group_error "PARAM_ERROR" "group_id and from_uid are required")) in
  if decide (gid = 0 \/ uid = "")
  then cl_join_group (GroupClient := remote) gid uid t d = refused /\
       cl_leave_group (GroupClient := remote) gid uid d = refused
  else (exists d1 res, cl_join_group (GroupClient := local) gid uid (at_server t) d = (d1, Ok res) /\
          cl_join_group (GroupClient := remote) gid uid t d = (d1, Ok (seen gid res))) /\
       (exists d1 res, cl_leave_group (GroupClient := local) gid uid d = (d1, Ok res) /\
          cl_leave_group (GroupClient := remote) gid uid d = (d1, Ok (seen gid res))).
Proof.
  intros Ht refused. simpl. unfold remote_join_group, remote_leave_group. simpl.
  destruct (decide _) as [Hmiss|Hgiven].
  - assert (Hb : (gid =? 0) || String.eqb uid "" = true)
      by (by destruct Hmiss as [->| ->]; rewrite ?orb_true_r).
    split; unfold bind at 1; rewrite rpc_works; [unfold JoinGroup|unfold LeaveGroup]; simpl; by rewrite Hb.
  - assert (Hb : (gid =? 0) || String.eqb uid "" = false).
    { apply orb_false_intro; [apply Z.eqb_neq|apply String.eqb_neq]; tauto. }
    split.
    + destruct (join_group_total clock gid uid (at_server t) d) as (d1 & res & E). exists d1, res. split; [done|].
      unfold bind at 1. rewrite rpc_works. unfold JoinGroup. simpl. rewrite Hb, header_time_sent by done.
      fold (at_server t). unfold handler, try_catch. rewrite (bind_Ok _ _ _ _ _ E). unfold ret. simpl.
      do 2 f_equal. by apply action_answer, (join_texts _ _ _ _ _ _ _ E).
    + destruct (leave_group_total gid uid d) as (d1 & res & E). exists d1, res. split; [done|].
      unfold bind at 1. rewrite rpc_works. unfold LeaveGroup. simpl. rewrite Hb.
      unfold handler, try_catch. rewrite (bind_Ok _ _ _ _ _ E). unfold ret. simpl.
      do 2 f_equal. by apply action_answer, (leave_texts _ _ _ _ _ E).
Qed.

(** C26: the remote group client refines the in-process one.  On a channel that works: creating,
    joining and leaving leave the tables as the service leaves them and answer what it
    answers, a request without a time at the time of the server, a join or a leave with the
    id of the group; a request without group or user is refused before the database is
    asked; groups are listed, found and searched for as in process.  The error codes pass
    through a coarser table: a member who owns the group and may not leave it is told
    NOT_MEMBER, an unknown user or creator GROUP_NOT_FOUND. *)
Theorem remote_group_refines (d : DB) :
  (forall q, - 2 ^ 63 <= cg_now_ms q < 2 ^ 63 ->
     let q' := {| cg_name := cg_name q; cg_creator_uid := cg_creator_uid q; cg_now_ms := at_server (cg_now_ms q) |} in
     exists d1 d2 res, cl_create_group (GroupClient := local) q' d = (d1, Ok res) /\ view d2 = view d1 /\
       cl_create_group (GroupClient := remote) q d = (d2, Ok (seen (gr_group_id res) res))) /\
  (forall gid uid t, - 2 ^ 63 <= t < 2 ^ 63 ->
     let refused := (d, Ok (group_error "PARAM_ERROR" "group_id and from_uid are required")) in
     if decide (gid = 0 \/ uid = "")
     then cl_join_group (GroupClient := remote) gid uid t d = refused /\
          cl_leave_group (GroupClient := remote) gid uid d = refused
     else (exists d1 res, cl_join_group (GroupClient := local) gid uid (at_server t) d = (d1, Ok res) /\
             cl_join_group (GroupClient := remote) gid uid t d = (d1, Ok (seen gid res))) /\
          (exists d1 res, cl_leave_group (GroupClient := local) gid uid d = (d1, Ok res) /\
             cl_leave_group (GroupClient := remote) gid uid d = (d1, Ok (seen gid res)))) /\
  (forall uid, cl_list_my_groups (GroupClient := remote) uid d =
     if decide (uid = "") then (d, Ok []) else cl_list_my_groups (GroupClient := local) uid d) /\
  (forall gid, cl_get_group_info (GroupClient := remote) gid d =
     if decide (gid = 0) then (d, Ok None) else cl_get_group_info (GroupClient := local) gid d) /\
  (forall k l, 0 <= l < 2 ^ 31 ->
     cl_search_groups (GroupClient := remote) k l d = cl_search_groups (GroupClient := local) k l d) /\
  (forall gid, cl_group_exists (GroupClient := remote) gid d =
     if decide (gid = 0) then (d, Ok false) else cl_group_exists (GroupClient := local) gid d).
Proof.
  split_and!.
  - intros q Hq q'. destruct (create_group_total clock q' d) as (d1 & res & E).
    destruct (create_answer q d d1 res Hq E) as (d2 & Hv & Er). by exists d1, d2, res.
  - intros gid uid t Ht. by apply actions_refine.
  - intros uid. simpl. unfold remote_list_my_groups. simpl. destruct (decide (uid = "")) as [->|Hu].
    + unfold bind at 1. by rewrite rpc_works.
    + destruct (list_my_groups_total uid d) as (d1 & l & E). rewrite E.
      eapply (read_answer _ _ _ _ _ _ _ _ id); [|exact E|].
      * unfold ListMyGroups. simpl. by rewrite (proj2 (String.eqb_neq uid "") Hu).
      * simpl. apply map_trip. intros g _. apply group_trip.
  - intros gid. simpl. unfold remote_get_group_info. simpl.
    destruct (decide (gid = 0)) as [->|Hg]; [done|]. rewrite (proj2 (Z.eqb_neq gid 0) Hg).
    destruct (get_group_info_total gid d) as (d1 & o & E). rewrite E.
    unfold bind at 1. rewrite rpc_works. unfold GetGroupInfo, group_id_from. simpl.
    rewrite (proj2 (Z.eqb_neq gid 0) Hg). simpl. rewrite (proj2 (Z.eqb_neq gid 0) Hg).
    unfold handler, try_catch. rewrite (bind_Ok _ _ _ _ _ E).
    destruct o as [g|]; [|done]. simpl. unfold ret, read_of. simpl. by rewrite group_trip.
  - intros k l Hl. simpl. unfold remote_search_groups. simpl.
    destruct (String.eqb k "" || (l =? 0)) eqn:Ek.
    { unfold search_groups, search_groups_rows. by rewrite Ek. }
    apply orb_false_iff in Ek as [Ek El]. zbool.
    destruct (search_groups_total k l d) as (d1 & gs & E). rewrite E.
    eapply (read_answer _ _ _ _ _ _ _ _ id); [|exact E|].
    + unfold SearchGroups. simpl. rewrite Ek, i32_small by lia. by rewrite (proj2 (Z.ltb_lt 0 l)) by lia.
    + simpl. apply map_trip. intros g _. apply group_trip.
  - intros gid. simpl. unfold remote_group_exists. simpl. destruct (decide (gid = 0)) as [->|Hg].
    + unfold bind at 1. by rewrite rpc_works.
    + destruct (group_exists_total gid d) as (d1 & b & E). rewrite E.
      eapply (read_answer _ _ _ _ _ _ _ _ id); [|exact E|].
      * unfold GroupExists. simpl. by rewrite (proj2 (Z.eqb_neq gid 0) Hg).
      * done.
Qed.

(** Who gets the members of a group. *)
Lemma members_or_nothing gid uid (d d' : DB) l : list_members gid uid d = (d', Ok l) -> healthy d ->
  healthy d' /\ view d' = view d /\
  match l with
  | [] => ~ (has_group (view d) gid /\ has_member (view d) gid uid)
  | _ => has_group (view d) gid /\ has_member (view d) gid uid
  end.
Proof.
  intros E Hd. apply list_members_inv in E as (Hd' & Hv & l' & [= <-] & Hl). split_and!; [by auto|done|].
  destruct Hl as [[-> Hl]|(Hg & Hm & ms & Hms & _ & Hf)]; [intros [? ?]; destruct (Hl Hd); auto|].
  destruct l as [|i l]; [|done]. exfalso. inversion Hf; subst. specialize (Hms Hd). apply Permutation_nil in Hms.
  destruct Hm as (m & Hm & Hrow). apply member_row_true in Hrow as [Hrow _].
  apply (not_elem_of_nil m). rewrite <- Hms. by apply list_elem_of_filter.
Qed.

(** The id read back after a message was stored. *)
Lemma read_back gid t (d d' : DB) l m : get_history gid (t + 1) 1 d = (d', Ok l) -> healthy d ->
  m ∈ im_group_messages (view d) -> gm_group_id m = gid -> gm_created_at m = t ->
  exists i l' x, l = i :: l' /\ x ∈ im_group_messages (view d) /\ gm_id x = gd_msg_id i /\
    gm_group_id x = gid /\ gm_created_at x = t.
Proof.
  intros E Hd Hm Hg Ht. apply get_history_inv in E as (_ & _ & ms & l' & [= <-] & Hms & Hf).
  destruct Hms as [(_ & full & -> & Hp & Hs)|[_ Hneg]]; [|by specialize (Hneg Hd)].
  assert (Hin : m ∈ full). { rewrite Hp. apply list_elem_of_filter. split; [|done]. split; [done|lia]. }
  destruct full as [|x full]; [by apply elem_of_nil in Hin|].
  assert (Hx : x ∈ x :: full) by left. rewrite Hp in Hx. apply list_elem_of_filter in Hx as [[Hxg Hxt] Hx].
  assert (Hmx : gm_created_at m <= gm_created_at x).
  { apply Sorted_StronglySorted in Hs; [|intros ? ? ?; lia]. apply elem_of_cons in Hin as [->|Hin]; [lia|].
    inversion Hs as [|? ? _ Hall]; subst. by apply (proj1 (Forall_forall _ _) Hall). }
  unfold ztake in Hf. simpl in Hf. inversion Hf as [|? i ? l' (He & _)]; subst.
  exists i, l', x. split_and!; try done. lia.
Qed.

(** The history over the boundary: for members of a group that is there. *)
Lemma history_answer gid uid before limit (d : DB) : gid <> 0 -> uid <> "" ->
  cl_get_history (GroupClient := remote) gid uid before limit d =
  (let* exists_ := group_exists gid in
   if negb exists_ then ret [] else
   let* members := list_members gid uid in
   match members with
   | [] => ret []
   | _ => get_history gid (if 0 <? before then before else now_ms) (if 0 <? limit then limit else 50)
   end) d.
Proof.
  intros Hg%Z.eqb_neq Hu%String.eqb_neq. simpl. unfold remote_get_history. simpl.
  unfold bind at 1. rewrite rpc_works. unfold GetGroupMessages, group_id_from. simpl. rewrite Hg. simpl.
  rewrite Hg, Hu. simpl. unfold handler, try_catch.
  destruct (group_exists_total gid d) as (d1 & b & Eb). rewrite !(bind_Ok _ _ _ _ _ Eb). destruct b; [|done]. simpl.
  destruct (list_members_total gid uid d1) as (d2 & l & El). rewrite !(bind_Ok _ _ _ _ _ El). destruct l as [|i l]; [done|].
  match goal with |- context [get_history gid ?b ?n] => destruct (get_history_total gid b n d2) as (d3 & ms & Em) end.
  rewrite (bind_Ok _ _ _ _ _ Em), Em. unfold ret, read_of. simpl.
  by rewrite (map_trip _ _ _ (fun m _ => group_message_trip gid m)).
Qed.

(** What the remote client makes of the messages of a group.  The history is for members:
    on a database without faults a caller outside the group gets nothing, where the client in
    process would answer anybody; a member gets the history the service returns, with 50
    messages when the limit is not positive and up to the time of the server when the time is
    not.  A message is stored exactly as in process, but the id the client reports is read
    back from the history: it is that of a message of the group with the same time, the
    stored one when no other has this time. *)
Theorem remote_group_messages gid uid (d : DB) : healthy d -> gid <> 0 -> uid <> "" ->
  (forall before limit, exists d1, view d1 = view d /\ healthy d1 /\
     let member := has_group (view d) gid /\ has_member (view d) gid uid in
     (member /\ cl_get_history (GroupClient := remote) gid uid before limit d =
        cl_get_history (GroupClient := local) gid uid (if 0 <? before then before else now_ms)
          (if 0 <? limit then limit else 50) d1) \/
     (~ member /\ cl_get_history (GroupClient := remote) gid uid before limit d = (d1, Ok []))) /\
  (forall content t, - 2 ^ 63 <= t < 2 ^ 63 - 1 -> content <> "" ->
     exists d1 d2 res i, cl_send_message (GroupClient := local) gid uid content (at_server t) d = (d1, Ok res) /\
       view d2 = view d1 /\
       cl_send_message (GroupClient := remote) gid uid content t d =
         (d2, Ok (if gs_ok res
                  then {| gs_ok := true; gs_error_code := ""; gs_message := "Message sent"; gs_msg_id := i |}
                  else send_error (group_seen (gs_error_code res)) (gs_message res))) /\
       (gs_ok res = true ->
          (exists m, m ∈ im_group_messages (view d1) /\ gm_id m = i /\ gm_group_id m = gid /\
             gm_created_at m = at_server t) /\
          ((forall m, m ∈ im_group_messages (view d) -> gm_group_id m = gid -> gm_created_at m <> at_server t) ->
             i = gs_msg_id res))).
Proof.
  intros Hd Hg Hu. pose proof (proj2 (Z.eqb_neq gid 0) Hg) as Hgb. pose proof (proj2 (String.eqb_neq uid "") Hu) as Hub.
  split.
  - intros before limit. rewrite history_answer by done.
    destruct (group_exists_total gid d) as (d1 & b & Eb). rewrite (bind_Ok _ _ _ _ _ Eb).
    apply group_exists_spec in Eb as (Hd1 & Hv1 & b' & [= <-] & Hb).
    destruct b; [|exists d1; split_and!; [done|by auto|]; right; split; [intros [? _]; by apply Hb|done]].
    destruct (list_members_total gid uid d1) as (d2 & l & El). cbn [negb].
    rewrite (bind_Ok _ _ _ _ _ El).
    apply members_or_nothing in El as (Hd2 & Hv2 & Hl); [|by auto]. rewrite Hv1 in Hl. exists d2.
    split_and!; [congruence|done|]. destruct l as [|i l]; [by right|by left].
  - intros content t Ht Hc. pose proof (proj2 (String.eqb_neq content "") Hc) as Hcb.
    destruct (send_message_total gid uid content (at_server t) d) as (d1 & res & E).
    assert (Hsent : (if 0 <? t then t else header_time (u64 t) now_ms) = at_server t).
    { rewrite header_time_sent by lia. unfold at_server. destruct (0 <? t) eqn:Et; [|done]. zbool.
      by rewrite decide_False by lia. }
    pose proof (send_message_inv _ _ _ _ _ _ _ E) as (Hd1 & res' & [= <-] & Hres). specialize (Hd1 Hd).
    simpl. unfold remote_send_message. simpl. unfold bind at 1. rewrite rpc_works.
    unfold SendGroupMessage. simpl. rewrite Hgb, Hub, Hcb, Hsent. simpl.
    unfold handler, try_catch. rewrite (bind_Ok _ _ _ _ _ E).
    destruct (gs_ok res) eqn:Er; simpl.
    2: { exists d1, d1, res, 0. rewrite Er. split_and!; [done|done| |done]. unfold ret. simpl.
         by rewrite group_code_failure, group_codes. }
    destruct Hres as [[_ Hr]|(_ & _ & _ & _ & m & Hi & ->)]; [by destruct Hr|].
    pose proof (inserted_message _ _ _ _ Hi) as (Hmg & _ & l & Hl & Hv).
    destruct (get_history_total gid (at_server t + 1) 1 d1) as (d2 & hs & Eh). rewrite (bind_Ok _ _ _ _ _ Eh).
    pose proof (get_history_inv _ _ _ _ _ _ Eh) as (_ & Hv2 & _).
    assert (Hmt : gm_created_at m = at_server t) by (destruct Hi as ((k & _ & ->) & _); done).
    assert (Hin : m ∈ im_group_messages (view d1)) by (rewrite Hv; simpl; rewrite Hl; left).
    destruct (read_back _ _ _ _ _ _ Eh Hd1 Hin Hmg Hmt) as (i & hs' & x & -> & Hx & Hxi & Hxg & Hxt).
    eexists d1, d2, _, (gd_msg_id i). split; [exact E|]. split; [done|]. split; [reflexivity|].
    intros _. split; [by exists x|]. intros Hno. rewrite Hv in Hx. simpl in Hx. rewrite Hl in Hx.
    apply elem_of_cons in Hx as [->|Hx]; [done|]. by destruct (Hno x Hx Hxg).
Qed.
End Refinement.

(** * Witnesses *)

Section GroupRemoteWitness.
Import GroupService.Witness.
#[local] Existing Instances direct direct_works.

Definition chess : GroupClient MemDb := RemoteGroupClient 9 9 "" true true true "".

(** Over the boundary: Ada, who owns the group, may not leave it; Bob joins; nobody is in
    group 0. *)
Lemma remote_group_refines_witness :
  (cl_leave_group (GroupClient := chess) 1 (id_of 1) dd).2 =
    Ok (group_error "NOT_MEMBER" "Owner cannot leave the group; transfer ownership first") /\
  (cl_join_group (GroupClient := chess) 1 (id_of 2) 0 dc).2 = Ok (group_ok "Joined group" 1) /\
  (cl_group_exists (GroupClient := chess) 0 dd).2 = Ok false.
Proof.
  destruct (remote_group_refines (DB := MemDb) 9 9 "" "" dd) as (_ & Hl & _ & _ & _ & He).
  destruct (remote_group_refines (DB := MemDb) 9 9 "" "" dc) as (_ & Hj & _).
  specialize (Hl 1 (id_of 1) 0 ltac:(lia)). specialize (Hj 1 (id_of 2) 0 ltac:(lia)).
  rewrite decide_False in Hl by (intros [?|E]; [lia|by vm_compute in E]).
  rewrite decide_False in Hj by (intros [?|E]; [lia|by vm_compute in E]).
  destruct Hl as (_ & d1 & res & E & Er). destruct Hj as ((d2 & res' & E' & Er') & _).
  unfold chess. rewrite Er, Er', He. apply (f_equal snd) in E, E'. vm_compute in E, E'.
  injection E as <-. injection E' as <-. auto.
Defined.

(** Bob speaks twice in one millisecond: the second message gets the id 2, the client reports 1. *)
Lemma remote_group_messages_witness :
  (cl_send_message (GroupClient := chess) 1 (id_of 2) "later" 21 de).2 =
    Ok {| gs_ok := true; gs_error_code := ""; gs_message := "Message sent"; gs_msg_id := 2 |} /\
  (send_message 1 (id_of 2) "again" 20 de).2 =
    Ok {| gs_ok := true; gs_error_code := ""; gs_message := "Message sent"; gs_msg_id := 2 |} /\
  (cl_send_message (GroupClient := chess) 1 (id_of 2) "again" 20 de).2 =
    Ok {| gs_ok := true; gs_error_code := ""; gs_message := "Message sent"; gs_msg_id := 1 |}.
Proof.
  destruct (remote_group_messages (DB := MemDb) 9 9 "" "" 1 (id_of 2) de) as (_ & Hs);
    [reflexivity|done|by vm_compute|].
  destruct (Hs "later" 21) as (d1 & d2 & res & i & E & _ & Er & Hid); [lia|done|].
  split; [|vm_compute; auto]. unfold chess. rewrite Er. apply (f_equal snd) in E. vm_compute in E. injection E as <-.
  destruct (Hid eq_refl) as [_ Hi]. rewrite Hi; [done|].
  intros m Hm _. vm_compute in Hm. apply list_elem_of_singleton in Hm as ->. by vm_compute.
Defined.
End GroupRemoteWitness.
