(* ===== verification/MessageRemote.v ===== *)
(** The message service behind a remote boundary: the handlers of
    [services/message/message_grpc_service.cpp] and the two clients of the gateway,
    [gateway/http/message_client.cpp] (in process) and [gateway/http/remote_message_client.cpp].

    As in UserRemote, a handler returns its response and the null [response] pointer is left
    out.  [now_ms] is what the handler reads from its clock. *)
From S2P Require Import Prelude Text Schema Odb MemDb MessageService ProtobufCodec Rpc.
Open Scope Z_scope.

(** * The interface of the gateway: [class MessageClient] *)

Class MessageClient (D : Type) := {
  cl_send_text_message : SendRequest -> exec D SendResult;
  cl_get_conversation : string -> string -> Z -> Z -> exec D (list MessageData);
  cl_pull_offline : string -> Z -> Z -> exec D (list MessageData);
  cl_mark_delivered : Z -> Z -> exec D bool;
  cl_mark_read : Z -> Z -> exec D bool
}.

(** * Messages of [common/proto/message.proto]: the fields the two sides use *)

(** The values of [enum MessageType] the service knows; the enumeration is open. *)
Definition PB_TEXT : Z := 0.
Definition PB_IMAGE : Z := 1.
Definition PB_FILE : Z := 2.
Definition PB_SYSTEM : Z := 5.

Record MessageBody := {
  mb_message_id : string; mb_type : Z; mb_content : string; mb_is_read : bool; mb_sender_uid : string;
  mb_receiver_uid : string; mb_create_time : Z; mb_delivered_time : Z; mb_read_time : Z
}.
(** The fields of the header, and the type and content of the body. *)
Record SendMessageRequest := {
  sd_from_uid : string; sd_to_uid : string; sd_timestamp : Z; sd_type : Z; sd_content : string
}.
Record SendMessageResponse := { sp_base : BaseResponse; sp_message : option MessageBody }.
Record GetConversationRequest := { gc_user_a : string; gc_user_b : string; gc_before_time : Z; gc_limit : Z }.
Record PullOfflineRequest := { po_receiver_uid : string; po_before_time : Z; po_limit : Z }.
(** [GetConversationResponse] and [PullOfflineResponse]. *)
Record MessagesResponse := { mr_base : BaseResponse; mr_messages : list MessageBody }.
(** [MarkMessageDeliveredRequest] and [MarkMessageReadRequest], and their responses. *)
Record MarkRequest := { mk_msg_id : Z; mk_time : Z }.
Record MarkResponse := { mk_base : BaseResponse; mk_marked : bool }.

(** * MessageGrpcService *)

Definition send_error_code (e : string) : ErrorCode :=
  if String.eqb e "EMPTY_SENDER" || String.eqb e "EMPTY_RECEIVER" || String.eqb e "EMPTY_CONTENT"
  then PARAM_ERROR else SERVER_ERROR.

(** The same switch on both sides: every other value is TEXT. *)
Definition to_service_type (type : Z) : MessageType :=
  if type =? PB_IMAGE then IMAGE else if type =? PB_FILE then FILE
  else if type =? PB_SYSTEM then SYSTEM else TEXT.

Definition to_proto_type (type : MessageType) : Z :=
  match type with TEXT => PB_TEXT | IMAGE => PB_IMAGE | FILE => PB_FILE | SYSTEM => PB_SYSTEM end.

Definition fill_message_body (data : MessageData) : MessageBody :=
  {| mb_message_id := dec (md_msg_id data); mb_type := to_proto_type (md_msg_type data);
     mb_content := md_content data;
     mb_is_read := (0 <? md_read_time data) || bool_decide (md_status data = READ);
     mb_sender_uid := md_sender_uid data; mb_receiver_uid := md_receiver_uid data;
     mb_create_time := md_create_time data; mb_delivered_time := md_delivered_time data;
     mb_read_time := md_read_time data |}.

Section Server.
Context {DB : Type} `{Odb DB} (now_ms : Z) (what : string).
(** [message_service_] is not null: [require_service]. *)
Context (has_service : bool).

Definition no_service : BaseResponse := base_of SERVER_ERROR "MessageService is not available".

Definition SendMessage (request : option SendMessageRequest) : exec DB SendMessageResponse :=
  let fail base := {| sp_base := base; sp_message := None |} in
  if negb has_service then ret (fail no_service) else
  match request with
  | None => ret (fail (base_of PARAM_ERROR "SendMessage request is null"))
  | Some r =>
      handler
        (let t := i64 (sd_timestamp r) in
         let service_request :=
           {| sq_sender_uid := sd_from_uid r; sq_receiver_uid := sd_to_uid r; sq_content := sd_content r;
              sq_msg_type := to_service_type (sd_type r); sq_now_ms := if t <=? 0 then now_ms else t |} in
         let* result := send_text_message service_request in
         if negb (sr_ok result)
         then ret (fail (base_of (send_error_code (sr_error_code result)) (sr_message result)))
         else ret {| sp_base := base_of SUCCESS ""; sp_message := fill_message_body <$> sr_data result |})
        (fail (base_of SERVER_ERROR what))
  end.

Definition GetConversation (request : option GetConversationRequest) : exec DB MessagesResponse :=
  let fail base := {| mr_base := base; mr_messages := [] |} in
  if negb has_service then ret (fail no_service) else
  match request with
  | None => ret (fail (base_of PARAM_ERROR "GetConversation request is null"))
  | Some r =>
      if String.eqb (gc_user_a r) "" || String.eqb (gc_user_b r) ""
      then ret (fail (base_of PARAM_ERROR "user_a and user_b are required"))
      else handler
        (let* messages := get_conversation (gc_user_a r) (gc_user_b r) (gc_before_time r) (gc_limit r) in
         ret {| mr_base := base_of SUCCESS ""; mr_messages := map fill_message_body messages |})
        (fail (base_of SERVER_ERROR what))
  end.

Definition PullOffline (request : option PullOfflineRequest) : exec DB MessagesResponse :=
  let fail base := {| mr_base := base; mr_messages := [] |} in
  if negb has_service then ret (fail no_service) else
  match request with
  | None => ret (fail (base_of PARAM_ERROR "PullOffline request is null"))
  | Some r =>
      if String.eqb (po_receiver_uid r) "" then ret (fail (base_of PARAM_ERROR "receiver_uid is required"))
      else handler
        (let* messages := pull_offline (po_receiver_uid r) (po_before_time r) (po_limit r) in
         ret {| mr_base := base_of SUCCESS ""; mr_messages := map fill_message_body messages |})
        (fail (base_of SERVER_ERROR what))
  end.

(** [MarkDelivered] and [MarkRead] differ in the call of the service and one text. *)
Definition mark_handler (null_text : string) (mark : Z -> Z -> exec DB bool) (request : option MarkRequest)
  : exec DB MarkResponse :=
  let fail base := {| mk_base := base; mk_marked := false |} in
  if negb has_service then ret (fail no_service) else
  match request with
  | None => ret (fail (base_of PARAM_ERROR null_text))
  | Some r =>
      if mk_msg_id r =? 0 then ret (fail (base_of PARAM_ERROR "msg_id is required"))
      else handler
        (let* marked := mark (mk_msg_id r) (if 0 <? mk_time r then mk_time r else now_ms) in
         ret {| mk_base := base_of (if marked then SUCCESS else NOT_FOUND)
                             (if marked then "" else "Message not found");
                mk_marked := marked |})
        (fail (base_of SERVER_ERROR what))
  end.

Definition MarkDelivered : option MarkRequest -> exec DB MarkResponse :=
  mark_handler "MarkDelivered request is null" mark_delivered.
Definition MarkRead : option MarkRequest -> exec DB MarkResponse :=
  mark_handler "MarkRead request is null" mark_read.
End Server.

(** * The clients of the gateway *)

(** [LocalMessageClient]: its constructor refuses a null service. *)
Definition LocalMessageClient {DB} `{Odb DB} : MessageClient DB := {|
  cl_send_text_message := send_text_message;
  cl_get_conversation := get_conversation;
  cl_pull_offline := pull_offline;
  cl_mark_delivered := mark_delivered;
  cl_mark_read := mark_read
|}.

(** [to_data] of a body: the status is made up again from the flag and the times. *)
Definition data_of_body (body : MessageBody) : MessageData :=
  {| md_msg_id := if String.eqb (mb_message_id body) "" then 0 else default 0 (stoull (mb_message_id body));
     md_sender_uid := mb_sender_uid body; md_receiver_uid := mb_receiver_uid body;
     md_content := mb_content body; md_msg_type := to_service_type (mb_type body);
     md_status := if mb_is_read body then READ
                  else if 0 <? mb_delivered_time body then DELIVERED else SENT;
     md_create_time := mb_create_time body; md_delivered_time := mb_delivered_time body;
     md_read_time := mb_read_time body |}.

Definition send_error_name (base : BaseResponse) : string :=
  if is_code base PARAM_ERROR then "PARAM_ERROR"
  else if is_code base SERVER_ERROR then "REMOTE_MESSAGE_SERVER_ERROR" else "REMOTE_MESSAGE_ERROR".

Section Client.
Context {DB : Type} `{Odb DB} `{Rpc DB} (now_ms : Z) (what : string) (has_service : bool).
(** [client_] is not null; the text of a failed status. *)
Context (has_client : bool) (status_message : string).

Definition remote_send_text_message (request : SendRequest) : exec DB SendResult :=
  if negb has_client then ret (message_error "REMOTE_MESSAGE_UNAVAILABLE" "Remote Message client is not configured") else
  let* response := call (SendMessage now_ms what has_service)
    (Some {| sd_from_uid := sq_sender_uid request; sd_to_uid := sq_receiver_uid request;
             sd_timestamp := u64 (sq_now_ms request); sd_type := to_proto_type (sq_msg_type request);
             sd_content := sq_content request |}) in
  match response with
  | None => ret (message_error "REMOTE_MESSAGE_UNAVAILABLE" status_message)
  | Some r =>
      if negb (is_success (sp_base r))
      then ret (message_error (send_error_name (sp_base r)) (error_message (sp_base r)))
      else ret {| sr_ok := true; sr_error_code := ""; sr_message := ""; sr_data := data_of_body <$> sp_message r |}
  end.

(** After a call that returns messages. *)
Definition messages_of (response : option MessagesResponse) : list MessageData :=
  match response with
  | None => []
  | Some r => if negb (is_success (mr_base r)) then [] else map data_of_body (mr_messages r)
  end.

Definition remote_get_conversation (user_a user_b : string) (before_time limit : Z) : exec DB (list MessageData) :=
  if negb has_client then ret [] else
  let* response := call (GetConversation what has_service)
    (Some {| gc_user_a := user_a; gc_user_b := user_b; gc_before_time := before_time; gc_limit := limit |}) in
  ret (messages_of response).

Definition remote_pull_offline (receiver_uid : string) (before_time limit : Z) : exec DB (list MessageData) :=
  if negb has_client then ret [] else
  let* response := call (PullOffline what has_service)
    (Some {| po_receiver_uid := receiver_uid; po_before_time := before_time; po_limit := limit |}) in
  ret (messages_of response).

Definition marked_of (response : option MarkResponse) : bool :=
  match response with None => false | Some r => is_success (mk_base r) && mk_marked r end.

Definition remote_mark_delivered (msg_id delivered_time : Z) : exec DB bool :=
  if negb has_client then ret false else
  let* response := call (MarkDelivered now_ms what has_service)
    (Some {| mk_msg_id := msg_id; mk_time := delivered_time |}) in
  ret (marked_of response).

Definition remote_mark_read (msg_id read_time : Z) : exec DB bool :=
  if negb has_client then ret false else
  let* response := call (MarkRead now_ms what has_service)
    (Some {| mk_msg_id := msg_id; mk_time := read_time |}) in
  ret (marked_of response).

Definition RemoteMessageClient : MessageClient DB := {|
  cl_send_text_message := remote_send_text_message;
  cl_get_conversation := remote_get_conversation;
  cl_pull_offline := remote_pull_offline;
  cl_mark_delivered := remote_mark_delivered;
  cl_mark_read := remote_mark_read
|}.
End Client.

(** * What the remote client shows of the service *)

(** An error code of the service as the remote client reports it. *)
Definition send_seen (e : string) : string :=
  if decide (e ∈ ["EMPTY_SENDER"; "EMPTY_RECEIVER"; "EMPTY_CONTENT"]) then "PARAM_ERROR"
  else "REMOTE_MESSAGE_SERVER_ERROR".

(** A message over the boundary: its status follows from its times and from READ. *)
Definition status_seen (m : MessageData) : MessageStatus :=
  if decide (0 < md_read_time m \/ md_status m = READ) then READ
  else if decide (0 < md_delivered_time m) then DELIVERED else SENT.
Definition data_seen (m : MessageData) : MessageData :=
  {| md_msg_id := md_msg_id m; md_sender_uid := md_sender_uid m; md_receiver_uid := md_receiver_uid m;
     md_content := md_content m; md_msg_type := md_msg_type m; md_status := status_seen m;
     md_create_time := md_create_time m; md_delivered_time := md_delivered_time m;
     md_read_time := md_read_time m |}.
Definition seen (res : SendResult) : SendResult :=
  if sr_ok res
  then {| sr_ok := true; sr_error_code := ""; sr_message := ""; sr_data := data_seen <$> sr_data res |}
  else message_error (send_seen (sr_error_code res)) (sr_message res).

(** An id of the database. *)
Definition fits (m : MessageData) : Prop := 0 <= md_msg_id m < 2 ^ 64.

Lemma send_codes e m : send_error_name (base_of (send_error_code e) m) = send_seen e.
Proof.
  unfold send_error_code, send_seen.
  repeat match goal with |- context [String.eqb e ?s] => destruct (String.eqb_spec e s) as [->|]; [done|] end.
  rewrite decide_False; [done|]. rewrite ?elem_of_cons, ?elem_of_nil. tauto.
Qed.

Lemma send_code_failure e m : is_success (base_of (send_error_code e) m) = false.
Proof. unfold send_error_code. text_cases e. Qed.

Lemma type_trip t : to_service_type (to_proto_type t) = t.
Proof. by destruct t. Qed.

Lemma body_trip m : fits m -> data_of_body (fill_message_body m) = data_seen m.
Proof.
  intros Hm. unfold data_of_body, fill_message_body, data_seen, status_seen. simpl. rewrite type_trip, stoull_dec by done.
  assert (Ht : String.eqb (dec (md_msg_id m)) "" = false).
  { unfold dec. destruct (dec_fuel_spec 20 (md_msg_id m)) as [_ [|(c & s & -> & _)]]; [apply Hm|done|done]. }
  rewrite Ht. simpl. f_equal.
  destruct (decide (0 < md_read_time m \/ md_status m = READ)) as [Hr|Hr].
  - assert (Hb : (0 <? md_read_time m) || bool_decide (md_status m = READ) = true); [|by rewrite Hb].
    apply orb_true_iff. rewrite Z.ltb_lt, bool_decide_eq_true. done.
  - assert (Hb : (0 <? md_read_time m) || bool_decide (md_status m = READ) = false).
    { apply orb_false_iff. rewrite Z.ltb_ge, bool_decide_eq_false. split; [lia|tauto]. }
    rewrite Hb. destruct (decide (0 < md_delivered_time m)); destruct (0 <? md_delivered_time m) eqn:E; zbool; try done; lia.
Qed.

(** Nothing is lost for a status that agrees with the times. *)
Lemma data_seen_id m : status_seen m = md_status m -> data_seen m = m.
Proof. intros Hs. unfold data_seen. rewrite Hs. by destruct m. Qed.

Section Totality.
Context {DB : Type} `{Odb DB}.

Lemma send_text_total q : total (send_text_message q).
Proof. unfold send_text_message, create, find_by_id. prove_total. Qed.
Lemma conversation_total a b t n : total (get_conversation a b t n).
Proof. unfold get_conversation, find_conversation, by_time. prove_total. Qed.
Lemma offline_total u t n : total (pull_offline u t n).
Proof. unfold pull_offline, find_offline, by_time. prove_total. Qed.
Lemma marks_total i t : total (mark_delivered i t) /\ total (mark_read i t).
Proof. unfold mark_delivered, mark_read. split; prove_total. Qed.
End Totality.

Section Refinement.
Context {DB : Type} `{Odb DB} `{RpcWorks DB} (now_ms : Z) (what status_message : string).

Abbreviation local := (LocalMessageClient (DB := DB)).
Abbreviation remote := (RemoteMessageClient now_ms what true true status_message).

(** A request as the server sees it: dated by the server when it has no positive time. *)
Definition dated (q : SendRequest) : SendRequest :=
  {| sq_sender_uid := sq_sender_uid q; sq_receiver_uid := sq_receiver_uid q; sq_content := sq_content q;
     sq_msg_type := sq_msg_type q; sq_now_ms := if 0 <? sq_now_ms q then sq_now_ms q else now_ms |}.

(** A call whose handler returns messages. *)
Lemma messages_answer {Req} (h : Req -> exec DB MessagesResponse) r m failed (d d1 : DB) l :
  h r d = handler (let* messages := m in
                   ret {| mr_base := base_of SUCCESS ""; mr_messages := map fill_message_body messages |}) failed d ->
  m d = (d1, Ok l) -> (forall x, x ∈ l -> fits x) ->
  (let* response := call h r in ret (messages_of response)) d = (d1, Ok (map data_seen l)).
Proof.
  intros Hh E Hl. unfold bind at 1. rewrite rpc_works, Hh. unfold handler, try_catch.
  rewrite (bind_Ok _ _ _ _ _ E). unfold ret, messages_of. simpl. do 2 f_equal. rewrite map_map.
  apply map_ext_in. intros x Hx%list_elem_of_In. by apply body_trip, Hl.
Qed.

Lemma mark_answer null_text mark i t (d : DB) : total (mark i (if 0 <? t then t else now_ms)) ->
  (let* response := call (mark_handler now_ms what true null_text mark) (Some {| mk_msg_id := i; mk_time := t |}) in
   ret (marked_of response)) d =
  if decide (i = 0) then (d, Ok false) else mark i (if 0 <? t then t else now_ms) d.
Proof.
  intros Ht. unfold bind at 1. rewrite rpc_works. unfold mark_handler. simpl.
  destruct (decide (i = 0)) as [->|Hi]; [done|]. rewrite (proj2 (Z.eqb_neq i 0) Hi).
  unfold handler, try_catch. destruct (Ht d) as (d1 & b & E). rewrite (bind_Ok _ _ _ _ _ E), E. by destruct b.
Qed.

(** The remote message client refines the in-process one.  On a channel that works, every
    call leaves the database as the service itself leaves it, and answers what the service
    answers: a message without a positive time is dated by the server, a mark too; the ids
    pass as decimal text; a conversation of nobody and the mailbox of nobody are empty
    without asking, message 0 cannot be marked.  The status does not cross the boundary: it
    is made up again from the times, so a message that was marked delivered after it was read
    shows as READ.  Missing fields are PARAM_ERROR, every other failure is
    REMOTE_MESSAGE_SERVER_ERROR. *)
Theorem remote_message_refines (d : DB) :
  (forall q, - 2 ^ 63 <= sq_now_ms q < 2 ^ 63 ->
     exists d1 res, cl_send_text_message (MessageClient := local) (dated q) d = (d1, Ok res) /\
       ((forall m, sr_data res = Some m -> fits m) ->
        cl_send_text_message (MessageClient := remote) q d = (d1, Ok (seen res)))) /\
  (forall a b before limit, a <> "" -> b <> "" ->
     exists d1 l, cl_get_conversation (MessageClient := local) a b before limit d = (d1, Ok l) /\
       ((forall m, m ∈ l -> fits m) ->
        cl_get_conversation (MessageClient := remote) a b before limit d = (d1, Ok (map data_seen l)))) /\
  (forall u before limit, u <> "" ->
     exists d1 l, cl_pull_offline (MessageClient := local) u before limit d = (d1, Ok l) /\
       ((forall m, m ∈ l -> fits m) ->
        cl_pull_offline (MessageClient := remote) u before limit d = (d1, Ok (map data_seen l)))) /\
  (forall a b before limit, a = "" \/ b = "" ->
     cl_get_conversation (MessageClient := remote) a b before limit d = (d, Ok []) /\
     cl_pull_offline (MessageClient := remote) "" before limit d = (d, Ok [])) /\
  (forall i t, let t' := if 0 <? t then t else now_ms in
     cl_mark_delivered (MessageClient := remote) i t d =
       (if decide (i = 0) then (d, Ok false) else cl_mark_delivered (MessageClient := local) i t' d) /\
     cl_mark_read (MessageClient := remote) i t d =
       (if decide (i = 0) then (d, Ok false) else cl_mark_read (MessageClient := local) i t' d)).
Proof.
  split_and!.
  - intros q Hq. destruct (send_text_total (dated q) d) as (d1 & res & E). exists d1, res. split; [done|].
    intros Hf. simpl. unfold remote_send_text_message. simpl. unfold bind at 1. rewrite rpc_works.
    unfold SendMessage. simpl. rewrite type_trip, i64_u64 by done.
    replace (if sq_now_ms q <=? 0 then now_ms else sq_now_ms q) with (sq_now_ms (dated q)).
    2: { simpl. destruct (0 <? _) eqn:E1; destruct (_ <=? 0) eqn:E2; zbool; try done; lia. }
    fold (dated q). unfold handler, try_catch. change {| sq_sender_uid := _ |} with (dated q).
    rewrite (bind_Ok _ _ _ _ _ E). unfold seen. destruct (sr_ok res); simpl.
    + destruct (sr_data res) as [m|]; [|done]. unfold ret. simpl. by rewrite body_trip by auto.
    + unfold ret. simpl. by rewrite send_code_failure, send_codes.
  - intros a b before limit Ha Hb. destruct (conversation_total a b before limit d) as (d1 & l & E).
    exists d1, l. split; [done|]. intros Hl. eapply messages_answer; [|exact E|done].
    unfold GetConversation. simpl. by rewrite (proj2 (String.eqb_neq a "") Ha), (proj2 (String.eqb_neq b "") Hb).
  - intros u before limit Hu. destruct (offline_total u before limit d) as (d1 & l & E).
    exists d1, l. split; [done|]. intros Hl. eapply messages_answer; [|exact E|done].
    unfold PullOffline. simpl. by rewrite (proj2 (String.eqb_neq u "") Hu).
  - intros a b before limit Hm. simpl. unfold remote_get_conversation, remote_pull_offline. simpl.
    split; unfold bind at 1; rewrite rpc_works; [|done]. unfold GetConversation. simpl.
    destruct (String.eqb_spec a ""); [done|]. destruct Hm as [?| ->]; [done|]. done.
  - intros i t t'. destruct (marks_total i t') as [Hd Hr]. split; by apply mark_answer.
Qed.
End Refinement.

(** * Witness *)

Section MessageRemoteWitness.
Import MessageService.Witness.
#[local] Existing Instances direct direct_works.

(** Ada writes to Bob, who pulls the message; then it is marked, over the boundary. *)
Lemma remote_message_refines_witness :
  let R := RemoteMessageClient 7 "" true true "" in
  (cl_send_text_message (MessageClient := R) hello start) =
    (ds, Ok {| sr_ok := true; sr_error_code := ""; sr_message := ""; sr_data := Some (to_data sent) |}) /\
  (cl_pull_offline (MessageClient := R) "bob" 0 0 ds).2 = Ok [to_data sent] /\
  (cl_mark_read (MessageClient := R) 0 5 ds).2 = Ok false.
Proof.
  destruct (remote_message_refines (DB := MemDb) 7 "" "" start) as (Hs & _).
  destruct (remote_message_refines (DB := MemDb) 7 "" "" ds) as (_ & _ & Hp & _ & Hm).
  destruct (Hs hello ltac:(by vm_compute)) as (d1 & res & E & Er).
  destruct (Hp "bob" 0 0 ltac:(done)) as (d2 & l & E' & Er'). cbv zeta.
  vm_compute in E. injection E as <- <-. apply (f_equal snd) in E'. vm_compute in E'. injection E' as <-.
  rewrite Er, Er', (proj2 (Hm 0 5)).
  - vm_compute. auto.
  - intros m ->%list_elem_of_singleton. by vm_compute.
  - intros m [= <-]. by vm_compute.
Defined.
End MessageRemoteWitness.
