(* ===== verification/PushGateway.v ===== *)
(** The two deployments of push delivery.

    In process ([gateway/push/push_service.cpp]): the runtime works on the connection
    manager, the web socket server and the message service of the gateway.

    Remote: the gateway calls a push server ([gateway/push/remote_push_notifier.cpp],
    [services/push/push_grpc_service.cpp]), whose runtime reaches back to the gateway
    ([services/push/push_server_adapters.cpp],
    [gateway/push/gateway_push_delivery_service.cpp]).

    The calls between them go over the class [Rpc]. *)
From S2P Require Import Prelude Text Schema Odb MemDb ProtobufRuntime ProtobufCodec.
From S2P Require Import MessageService Redis Json ConnectionManager Push Rpc.
Open Scope Z_scope.

(** * Messages of [common/proto/push.proto] *)

Record NotifyUserRequest := {
  nu_receiver_uid : string; nu_msg_id : Z; nu_content : string;
  nu_sender_uid : string; nu_conversation_type : string; nu_conversation_id : string
}.
Record PushSession := { px_session_id : string; px_platform : string; px_connect_time_ms : Z }.
Record ListUserSessionsResponse := { lu_base : BaseResponse; lu_sessions : list PushSession }.
Record SendSessionPayloadRequest := { sp_session_id : string; sp_payload : bytes }.
Record SendSessionPayloadResponse := { sp_base : BaseResponse; sp_accepted : bool }.
Record MarkMessageDeliveredRequest := { md_msg_id : Z; md_delivered_time : Z }.
Record MarkMessageDeliveredResponse := { md_base : BaseResponse; md_marked : bool }.

(** * GatewayPushDeliveryService

    The three handlers, over the ports of the gateway; [None] is a null pointer.  [what] is
    the text of an exception. *)

Section Delivery.
Context {D : Type} `{Ports D} (has_provider has_sender has_marker : bool) (what : string).

Definition to_epoch_ms (t : Z) : Z := Z.quot t 1000000.
Definition from_epoch_ms (ms : Z) : Z := ms * 1000000.

Definition to_proto_session (s : PushSessionInfo) : PushSession :=
  {| px_session_id := ps_session_id s; px_platform := ps_platform s;
     px_connect_time_ms := to_epoch_ms (ps_connect_time s) |}.

Definition ListUserSessions (request : option string) : exec D ListUserSessionsResponse :=
  let fail code message := {| lu_base := base_of code message; lu_sessions := [] |} in
  match request with
  | None => ret (fail INVALID_REQUEST "ListUserSessions request is null")
  | Some receiver_uid =>
      if negb has_provider then ret (fail SERVER_ERROR "Push session provider is not configured")
      else if String.eqb receiver_uid "" then ret (fail PARAM_ERROR "receiver_uid is required")
      else handler (let* sessions := get_sessions receiver_uid in
                    ret {| lu_base := base_of SUCCESS ""; lu_sessions := map to_proto_session sessions |})
                   (fail SERVER_ERROR what)
  end.

Definition SendSessionPayload (request : option SendSessionPayloadRequest)
  : exec D SendSessionPayloadResponse :=
  let fail code message := {| sp_base := base_of code message; sp_accepted := false |} in
  match request with
  | None => ret (fail INVALID_REQUEST "SendSessionPayload request is null")
  | Some r =>
      if negb has_sender then ret (fail SERVER_ERROR "Push payload sender is not configured")
      else if String.eqb (sp_session_id r) "" || bool_decide (sp_payload r = [])
      then ret (fail PARAM_ERROR "session_id and payload are required")
      else handler (let* accepted := send_payload (sp_session_id r) (sp_payload r) in
                    ret {| sp_base := base_of SUCCESS ""; sp_accepted := accepted |})
                   (fail SERVER_ERROR what)
  end.

Definition MarkMessageDelivered (request : option MarkMessageDeliveredRequest)
  : exec D MarkMessageDeliveredResponse :=
  let fail code message := {| md_base := base_of code message; md_marked := false |} in
  match request with
  | None => ret (fail INVALID_REQUEST "MarkMessageDelivered request is null")
  | Some r =>
      if negb has_marker then ret (fail SERVER_ERROR "Push delivery marker is not configured")
      else if (md_msg_id r =? 0) || (md_delivered_time r <=? 0)
      then ret (fail PARAM_ERROR "msg_id and delivered_time are required")
      else handler (let* marked := Push.mark_delivered (md_msg_id r) (md_delivered_time r) in
                    ret {| md_base := base_of SUCCESS ""; md_marked := marked |})
                   (fail SERVER_ERROR what)
  end.
End Delivery.

(** * The adapters of the push server

    [RemoteGatewayPushSessionProvider], [RemoteGatewayPushPayloadSender] and
    [RemoteGatewayPushDeliveryMarker], each on a channel to the gateway.  A client pointer is
    never null: their constructors create it. *)

Section Adapters.
Context {D : Type} `{Rpc D} `{Ports D} (what : string).

Definition of_proto_session (s : PushSession) : PushSessionInfo :=
  {| ps_session_id := px_session_id s; ps_platform := px_platform s;
     ps_connect_time := from_epoch_ms (px_connect_time_ms s) |}.

Definition remote_get_sessions (receiver_uid : string) : exec D (list PushSessionInfo) :=
  let* response := call (ListUserSessions true what) (Some receiver_uid) in
  match response with
  | None => ret []
  | Some response =>
      if negb (is_success (lu_base response)) then ret []
      else ret (map of_proto_session (lu_sessions response))
  end.

Definition remote_send_payload (session_id : string) (p : bytes) : exec D bool :=
  let* response := call (SendSessionPayload true what)
                     (Some {| sp_session_id := session_id; sp_payload := p |}) in
  match response with
  | None => ret false
  | Some response => if negb (is_success (sp_base response)) then ret false else ret (sp_accepted response)
  end.

Definition remote_mark_delivered (msg_id delivered_time : Z) : exec D bool :=
  let* response := call (MarkMessageDelivered true what)
                     (Some {| md_msg_id := msg_id; md_delivered_time := delivered_time |}) in
  match response with
  | None => ret false
  | Some response => if negb (is_success (md_base response)) then ret false else ret (md_marked response)
  end.

Definition remote_ports : Ports D := {|
  get_sessions := remote_get_sessions;
  send_payload := remote_send_payload;
  Push.mark_delivered := remote_mark_delivered
|}.
End Adapters.

(** * PushGrpcService and RemotePushNotifier *)

Section Notifier.
Context {D : Type} `{Rpc D}.
(** [PushNotifier::notify_user] of the push server, which may throw; [None] is a null pointer. *)
Context (notifier : option (string -> Z -> string -> PushContext -> exec D unit)) (what : string).

Definition NotifyUser (request : option NotifyUserRequest) : exec D BaseResponse :=
  match request with
  | None => ret (base_of INVALID_REQUEST "NotifyUser request is null")
  | Some r =>
    match notifier with
    | None => ret (base_of SERVER_ERROR "Push notifier is not configured")
    | Some notify =>
        if String.eqb (nu_receiver_uid r) "" || (nu_msg_id r =? 0)
        then ret (base_of PARAM_ERROR "receiver_uid and msg_id are required")
        else
          let context := {| sender_uid := nu_sender_uid r; conversation_type := nu_conversation_type r;
                            conversation_id := nu_conversation_id r |} in
          handler (let* _ := notify (nu_receiver_uid r) (nu_msg_id r) (nu_content r) context in
                   ret (base_of SUCCESS "")) (base_of SERVER_ERROR what)
    end
  end.

(** [RemotePushNotifier::notify_user]: the answer is only logged. *)
Definition remote_notify_user (uid : string) (msg_id : Z) (content : string) (context : PushContext) (d : D) : D :=
  (call NotifyUser (Some {| nu_receiver_uid := uid; nu_msg_id := msg_id; nu_content := content;
     nu_sender_uid := sender_uid context; nu_conversation_type := conversation_type context;
     nu_conversation_id := conversation_id context |}) d).1.
End Notifier.

(** * The gateway

    What the in-process ports work on: the connection manager with its web socket server, the
    payloads handed to [session->send], and the database behind the message client. *)
Record Gateway (R DB : Type) := {
  has_conn_mgr : bool;
  has_msg_client : bool;
  conn_mgr : Manager R;
  posted : list (string * bytes);
  message_db : DB
}.
Arguments has_conn_mgr {R DB} _.
Arguments has_msg_client {R DB} _.
Arguments conn_mgr {R DB} _.
Arguments posted {R DB} _.
Arguments message_db {R DB} _.

Section Local.
Context {R DB : Type} `{Redis R} `{Json} `{Odb DB}.

Definition set_conn (w : Manager R) (g : Gateway R DB) : Gateway R DB :=
  {| has_conn_mgr := has_conn_mgr g; has_msg_client := has_msg_client g; conn_mgr := w;
     posted := posted g; message_db := message_db g |}.
Definition set_posted (l : list (string * bytes)) (g : Gateway R DB) : Gateway R DB :=
  {| has_conn_mgr := has_conn_mgr g; has_msg_client := has_msg_client g; conn_mgr := conn_mgr g;
     posted := l; message_db := message_db g |}.
Definition set_db (db : DB) (g : Gateway R DB) : Gateway R DB :=
  {| has_conn_mgr := has_conn_mgr g; has_msg_client := has_msg_client g; conn_mgr := conn_mgr g;
     posted := posted g; message_db := db |}.

Definition push_session_of (s : DeviceSessionInfo) : PushSessionInfo :=
  {| ps_session_id := session_id s; ps_platform := ConnectionManager.platform s;
     ps_connect_time := connect_time s |}.

(** [PushService::get_sessions]. *)
Definition local_get_sessions (receiver_uid : string) : exec (Gateway R DB) (list PushSessionInfo) := fun g =>
  if has_conn_mgr g then
    let '(w, sessions) := get_user_sessions receiver_uid (conn_mgr g) in
    (set_conn w g, Ok (map push_session_of sessions))
  else (g, Ok []).

(** [PushService::send_payload]; [session->send] posts the message. *)
Definition local_send_payload (sid : string) (p : bytes) : exec (Gateway R DB) bool := fun g =>
  match websocket_server (conn_mgr g) with
  | Some registered =>
      if decide (sid ∈ registered) then (set_posted (posted g ++ [(sid, p)]) g, Ok true) else (g, Ok false)
  | None => (g, Ok false)
  end.

(** [PushService::mark_delivered], through [LocalMessageClient]. *)
Definition local_mark_delivered (msg_id delivered_time : Z) : exec (Gateway R DB) bool := fun g =>
  if has_msg_client g then
    let '(db, r) := MessageService.mark_delivered msg_id delivered_time (message_db g) in (set_db db g, r)
  else (g, Ok false).

Definition local_ports : Ports (Gateway R DB) := {|
  get_sessions := local_get_sessions;
  send_payload := local_send_payload;
  Push.mark_delivered := local_mark_delivered
|}.
End Local.

(** * Lemmas: the in-process ports *)

Section LocalLemmas.
Context {R DB : Type} `{Redis R} `{Json} `{Odb DB}.

Lemma get_user_sessions_server u (w w' : Manager R) l :
  get_user_sessions u w = (w', l) -> websocket_server w' = websocket_server w.
Proof.
  unfold get_user_sessions, try_catch, bind, on_redis. destruct (execute _ _) as [d [m|]]; by intros [= <- <-].
Qed.

(** Session times are read from milliseconds. *)
Lemma parse_info_ms t i : parse_info t = Some i -> exists ms, connect_time i = ms * 1000000.
Proof.
  unfold parse_info, from_json. destruct (parse t) as [j|]; [|done]. simpl.
  destruct (value_str j "session_id" "") as [a|]; [|done]. simpl.
  destruct (value_str j "device_id" "") as [b|]; [|done]. simpl.
  destruct (value_str j "platform" "") as [c|]; [|done]. simpl.
  destruct (value_int _ _ _) as [ms|]; [|done]. intros [= <-]. by exists ms.
Qed.

Lemma get_user_sessions_ms u (w w' : Manager R) l i :
  get_user_sessions u w = (w', l) -> i ∈ l -> exists ms, connect_time i = ms * 1000000.
Proof.
  unfold get_user_sessions, try_catch, bind. destruct (on_redis _ _) as [w1 [m|]]; intros [= <- <-] Hi;
    [|by apply elem_of_nil in Hi].
  apply list_elem_of_omap in Hi as ([f v] & _ & Hp). by eapply parse_info_ms.
Qed.

(** The two conversions of a time lose nothing then. *)
Lemma proto_session_ms s ms : ps_connect_time s = ms * 1000000 -> of_proto_session (to_proto_session s) = s.
Proof.
  intros E. destruct s as [sid plat t]. unfold of_proto_session, to_proto_session, from_epoch_ms, to_epoch_ms.
  simpl in *. subst. by rewrite Z.quot_mul.
Qed.

Lemma local_sessions u (g : Gateway R DB) : exists g' l,
  local_get_sessions u g = (g', Ok l) /\ map of_proto_session (map to_proto_session l) = l /\
  websocket_server (conn_mgr g') = websocket_server (conn_mgr g).
Proof.
  unfold local_get_sessions. destruct (has_conn_mgr g); [|by exists g, []].
  destruct (get_user_sessions u (conn_mgr g)) as [w l] eqn:E. do 2 eexists. split; [done|]. split.
  - rewrite !map_map. apply map_ext_in_iff. intros i Hi%list_elem_of_In.
    destruct (get_user_sessions_ms _ _ _ _ _ E Hi) as [ms Hms]. by apply (proto_session_ms _ ms).
  - simpl. by eapply get_user_sessions_server.
Qed.

(** No registered session has an empty id. *)
Definition ids_ok (g : Gateway R DB) : Prop :=
  forall r, websocket_server (conn_mgr g) = Some r -> EmptyString ∉ r.

Lemma local_send_ok sid p (g : Gateway R DB) : exists g' b, local_send_payload sid p g = (g', Ok b) /\
  websocket_server (conn_mgr g') = websocket_server (conn_mgr g).
Proof. unfold local_send_payload. repeat case_match; by do 2 eexists. Qed.
End LocalLemmas.

(** * The remote deployment *)

Section Remote.
Context {R DB : Type} `{Redis R} `{Json} `{Odb DB} `{RpcWorks (Gateway R DB)}.
Context `{CodedOutput} `{ProtoMessage IMHeader} `{ProtoMessage PushRequest}.
Context (service_device_id what : string).

Abbreviation G := (Gateway R DB).
#[local] Instance local : Ports G := local_ports.

Lemma remote_sessions u (g : G) : u <> EmptyString -> remote_get_sessions what u g = local_get_sessions u g.
Proof.
  intros Hu. unfold remote_get_sessions, bind at 1. rewrite rpc_works. unfold ListUserSessions. simpl.
  apply String.eqb_neq in Hu. rewrite Hu. unfold handler, try_catch, bind. simpl.
  destruct (local_sessions u g) as (g' & l & E & Hl & _). rewrite E. simpl. by rewrite Hl.
Qed.

Lemma remote_send sid p (g : G) : p <> [] -> ids_ok g ->
  remote_send_payload what sid p g = local_send_payload sid p g.
Proof.
  intros Hp Hg. unfold remote_send_payload, bind at 1. rewrite rpc_works. unfold SendSessionPayload. simpl.
  rewrite (bool_decide_eq_false_2 _ Hp), orb_false_r. destruct (String.eqb_spec sid "") as [->|Hs]; simpl.
  - unfold local_send_payload. destruct (websocket_server _) as [r|] eqn:Er; [|done].
    rewrite decide_False; [done|]. by apply Hg.
  - unfold handler, try_catch, bind. simpl.
    destruct (local_send_ok sid p g) as (g' & b & E & _). by rewrite E.
Qed.

Lemma remote_mark m t (g : G) : m <> 0 -> 0 < t ->
  try_catch (let* _ := remote_mark_delivered what m t in ret tt) tt g =
  try_catch (let* _ := local_mark_delivered m t in ret tt) tt g.
Proof.
  intros Hm Ht. unfold remote_mark_delivered, try_catch, bind at 1 2. rewrite rpc_works.
  unfold MarkMessageDelivered. simpl. rewrite (proj2 (Z.eqb_neq m 0) Hm), (proj2 (Z.leb_gt t 0) Ht). simpl.
  unfold handler, try_catch, bind. simpl. by destruct (local_mark_delivered m t g) as [g' [b|]].
Qed.

Lemma remote_send_all p ids (g : G) : p <> [] -> ids_ok g ->
  exists g' n, send_all (H := local) p ids g = (g', Ok n) /\
    send_all (H := remote_ports what) p ids g = (g', Ok n).
Proof.
  intros Hp. revert g. induction ids as [|sid ids IH]; intros g Hg; [by exists g, 0|].
  destruct (local_send_ok sid p g) as (g1 & b & E & Hs).
  assert (Hg1 : ids_ok g1) by (intros r; rewrite Hs; apply Hg).
  destruct (IH g1 Hg1) as (g2 & n & E1 & E2).
  exists g2, (if b then 1 + n else n). cbn [send_all]. unfold bind, attempt, try_catch. simpl.
  rewrite (remote_send _ _ _ Hp Hg), E, E1, E2. done.
Qed.

Lemma remote_deliver policy uid msg_id content ctx now1 now2 (g : G) :
  uid <> EmptyString -> msg_id <> 0 -> 0 < now2 -> ids_ok g ->
  try_catch (deliver (H := remote_ports what) service_device_id policy uid msg_id content ctx now1 now2) tt g =
  try_catch (deliver (H := local) service_device_id policy uid msg_id content ctx now1 now2) tt g.
Proof.
  intros Hu Hm Ht Hg. unfold deliver. destruct (local_sessions uid g) as (g1 & l & E & _ & Hs).
  assert (Hg1 : ids_ok g1) by (intros r; rewrite Hs; apply Hg).
  unfold try_catch. rewrite (bind_Ok _ _ g g1 l) by (simpl; by rewrite remote_sessions).
  rewrite (bind_Ok _ _ g g1 l) by done.
  destruct l as [|s l]; [done|]. destruct (policy (s :: l)) as [|x sel]; [done|].
  destruct (build_payload _ _ _ _ _ _) as [|b p]; [done|].
  destruct (remote_send_all (b :: p) (x :: sel) g1) as (g2 & n & E1 & E2); [done|done|].
  rewrite (bind_Ok _ _ _ _ _ E1), (bind_Ok _ _ _ _ _ E2).
  destruct (0 <? n); [|done]. by apply remote_mark.
Qed.

(** What the push server runs for a request: its runtime on the channel to the gateway. *)
Definition push_server (rt : PushRuntime) (now1 now2 : Z)
  : option (string -> Z -> string -> PushContext -> exec G unit) :=
  Some (fun uid msg_id content ctx g =>
    (notify_user (H := remote_ports what) service_device_id rt uid msg_id content ctx now1 now2 g, Ok tt)).

(** On channels that work, the remote deployment does exactly what the in-process one
    does: for a receiver, a stored message and any fan-out policy, the request that goes from
    the gateway to the push server and back for the sessions, each payload and the delivery
    mark leaves the gateway in the same state as a call of its own runtime, whatever fails in
    Redis or in the database. *)
Theorem remote_push_refines (rt : PushRuntime) uid msg_id content ctx now1 now2 (g : G) :
  uid <> EmptyString -> msg_id <> 0 -> 0 < now2 -> ids_ok g ->
  remote_notify_user (push_server rt now1 now2) what uid msg_id content ctx g =
  notify_user (H := local) service_device_id rt uid msg_id content ctx now1 now2 g.
Proof.
  intros Hu Hm Ht Hg. unfold remote_notify_user. rewrite rpc_works. unfold NotifyUser, push_server. simpl.
  rewrite (proj2 (String.eqb_neq uid "") Hu), (proj2 (Z.eqb_neq msg_id 0) Hm). simpl.
  unfold handler, try_catch, bind. simpl. destruct ctx as [a b c]. simpl.
  unfold notify_user. destruct (_ && delivery_marker rt); [|done]. destruct (fanout_policy rt); [|done].
  by rewrite remote_deliver.
Qed.
End Remote.

(** * The in-process deployment *)

Section EndToEnd.
Context {R DB : Type} `{RedisLaws R} `{JsonLaws} `{OdbReliable DB}.
Context {S : Type} `{CodedLaws S} `{ProtoLaws IMHeader} `{ProtoLaws PushRequest}.
Context (service_device_id : string).

Abbreviation G := (Gateway R DB).

Definition registered_in (g : G) (sid : string) : bool :=
  match websocket_server (conn_mgr g) with Some r => bool_decide (sid ∈ r) | None => false end.

(** Which payloads a row of sends posts: those to registered sessions. *)
Lemma send_all_posts p ids (g : G) :
  let sent := List.filter (registered_in g) ids in
  send_all (H := local_ports) p ids g =
  (set_posted (posted g ++ map (fun s => (s, p)) sent) g, Ok (zlen sent)).
Proof.
  revert g. induction ids as [|s ids IH]; intros g.
  { cbn. rewrite app_nil_r. by destruct g. }
  cbn [send_all List.filter]. unfold bind, attempt, try_catch. simpl.
  unfold local_send_payload. unfold registered_in at 1.
  destruct (websocket_server (conn_mgr g)) as [r|] eqn:Er.
  - destruct (decide (s ∈ r)) as [Hin|Hin].
    + rewrite (bool_decide_eq_true_2 _ Hin). rewrite IH. simpl. unfold registered_in in *. simpl. rewrite Er.
      unfold set_posted at 1, ret, zlen. simpl. rewrite <- app_assoc. apply (f_equal2 pair); [done|].
      f_equal. rewrite (bool_decide_eq_true_2 _ Hin). simpl length. lia.
    + rewrite IH. unfold registered_in. rewrite Er. by rewrite !(bool_decide_eq_false_2 _ Hin).
  - rewrite IH. unfold registered_in. by rewrite Er.
Qed.

(** [PushService] with its default policy. *)
Definition push_service : PushRuntime :=
  {| session_provider := true; payload_sender := true; delivery_marker := true;
     fanout_policy := Some AllSessionsFanoutPolicy |}.

(** The state after the sessions were read and the payloads posted. *)
Lemma push_posts uid msg_id content ctx now1 now2 (g : G) :
  let p := build_payload service_device_id uid msg_id content ctx now1 in
  p <> [] -> has_conn_mgr g = true -> ok (conn_mgr g) -> Inv (keys_of (conn_mgr g)) ->
  exists w' l, l ≡ₚ (map_to_list (listing (conn_mgr g) uid)).*2 /\
    let sent := List.filter (registered_in g) (map session_id l) in
    let g1 := set_posted (posted g ++ map (fun s => (s, p)) sent) (set_conn w' g) in
    notify_user (H := local_ports) service_device_id push_service uid msg_id content ctx now1 now2 g =
    match sent with [] => g1 | _ => (try_catch (local_mark_delivered msg_id now2) false g1).1 end.
Proof.
  intros p Hp Hc Hok HI. destruct (queries_ok (conn_mgr g) Hok HI) as (_ & Hq & _).
  destruct (Hq uid) as (w' & l & E & Hl). exists w', l. split; [done|]. cbv zeta.
  pose proof (get_user_sessions_server _ _ _ _ E) as Hs.
  unfold notify_user, push_service. cbn [session_provider payload_sender delivery_marker fanout_policy andb].
  unfold deliver, try_catch at 1.
  rewrite (bind_Ok _ _ g (set_conn w' g) (map push_session_of l))
    by (simpl; unfold local_get_sessions; by rewrite Hc, E).
  destruct l as [|i l]; [simpl; by rewrite app_nil_r|].
  unfold AllSessionsFanoutPolicy at 1. cbn [map]. rewrite map_map. cbn [push_session_of ps_session_id].
  fold p. destruct p as [|b p'] eqn:Ep; [done|]. rewrite <- Ep.
  unfold bind at 1. change (session_id i :: map (fun x => session_id x) l) with (map session_id (i :: l)).
  rewrite (send_all_posts p (map session_id (i :: l)) (set_conn w' g)).
  assert (Hr : forall x, registered_in (set_conn w' g) x = registered_in g x).
  { intros x. unfold registered_in. simpl. by rewrite Hs. }
  rewrite (filter_ext _ _ Hr). destruct (List.filter (registered_in g) _) as [|x sent]; [done|].
  rewrite (proj2 (Z.ltb_lt 0 (zlen (x :: sent)))) by (unfold zlen; simpl; lia).
  unfold bind, try_catch, ret. simpl. by destruct (local_mark_delivered msg_id now2 _) as [g' [a|]].
Qed.

(** The sessions a push for [uid] reaches: listed for the user and registered in the server. *)
Definition reached (g : G) (uid sid : string) : Prop :=
  registered_in g sid = true /\ exists f i, listing (conn_mgr g) uid !! f = Some i /\ session_id i = sid.

Lemma reached_sent (g : G) uid l : l ≡ₚ (map_to_list (listing (conn_mgr g) uid)).*2 ->
  forall s, s ∈ List.filter (registered_in g) (map session_id l) <-> reached g uid s.
Proof.
  intros Hl s. rewrite list_elem_of_In, filter_In, in_map_iff. split.
  - intros [(i & <- & Hi%list_elem_of_In) Hreg]. split; [done|]. rewrite Hl in Hi.
    apply list_elem_of_fmap in Hi as ([f j] & -> & Hj%elem_of_map_to_list). eauto.
  - intros [Hreg (f & i & Hi & <-)]. split; [|done]. exists i. split; [done|]. apply list_elem_of_In.
    rewrite Hl. apply list_elem_of_fmap. exists (f, i). split; [done|]. by apply elem_of_map_to_list.
Qed.

(** A session is listed once: its reverse mapping names its device. *)
Lemma sessions_listed_once (g : G) uid l : Inv (keys_of (conn_mgr g)) ->
  l ≡ₚ (map_to_list (listing (conn_mgr g) uid)).*2 -> NoDup (map session_id l).
Proof.
  intros HI Hl. assert (E : map session_id l ≡ₚ map (fun x => session_id x.2) (map_to_list (listing (conn_mgr g) uid))).
  { change (session_id <$> l ≡ₚ (fun x => session_id x.2) <$> map_to_list (listing (conn_mgr g) uid)).
    rewrite Hl. by rewrite <- list_fmap_compose. }
  rewrite E. apply NoDup_fmap_2_strong; [|apply NoDup_map_to_list].
  assert (Hf : forall f i, listing (conn_mgr g) uid !! f = Some i -> f = generate_device_field (device_id i) (platform i) /\
    hash_of (keys_of (conn_mgr g)) (session_user_key (session_id i)) = mapping uid (device_id i) (platform i)).
  { intros f i Hi. unfold listing in Hi. apply lookup_omap_Some in Hi as (v & Hp & Hv).
    destruct (inv_entry _ HI uid f v Hv) as (j & Hj & ? & ?). by simplify_eq. }
  intros [f i] [f' i'] Hi%elem_of_map_to_list Hi'%elem_of_map_to_list Hs. simpl in *.
  destruct (Hf f i Hi) as [-> Ha], (Hf f' i' Hi') as [-> Hb]. rewrite Hs, Hb in Ha.
  apply mapping_inj in Ha as (_ & Hd & Hp). rewrite Hd, Hp in Hi'. rewrite Hi in Hi'. by injection Hi' as ->.
Qed.

(** What a push does, whatever its payload decodes to. *)
Lemma push_outcome (m : Message) ctx now1 now2 (g : G) :
  let uid := msg_receiver_uid m in
  let p := build_payload service_device_id uid (msg_id m) (msg_content m) ctx now1 in
  let g' := notify_user (H := local_ports) service_device_id push_service uid (msg_id m) (msg_content m) ctx now1 now2 g in
  has_conn_mgr g = true -> has_msg_client g = true -> ok (conn_mgr g) -> Inv (keys_of (conn_mgr g)) ->
  Odb.healthy (message_db g) -> messages_wf (Odb.view (message_db g)) ->
  m ∈ im_messages (Odb.view (message_db g)) -> p <> [] ->
  exists sent, NoDup sent /\ posted g' = posted g ++ map (fun s => (s, p)) sent /\
    (forall s, s ∈ sent <-> reached g uid s) /\
    (sent <> [] -> delivered_at now2 m ∈ im_messages (Odb.view (message_db g')) /\
       replaced (delivered_at now2 m) (Odb.view (message_db g)) (Odb.view (message_db g'))) /\
    (sent = [] -> message_db g' = message_db g).
Proof.
  intros uid p g' Hc Hm Hok HI Hd Hw Hin Hp.
  destruct (push_posts uid (msg_id m) (msg_content m) ctx now1 now2 g Hp Hc Hok HI) as (w' & l & Hl & Hg).
  cbv zeta in Hg. fold p in Hg. fold g' in Hg. clearbody g'.
  pose proof (reached_sent g uid l Hl) as Hmem.
  set (sent := List.filter (registered_in g) (map session_id l)) in *. exists sent.
  assert (Hone : NoDup sent).
  { apply NoDup_ListNoDup, List.NoDup_filter, NoDup_ListNoDup. by apply (sessions_listed_once g uid). }
  destruct sent as [|s sent]; [subst g'; by split_and!|].
  set (g1 := set_posted _ _) in *.
  unfold try_catch, local_mark_delivered in Hg. replace (has_msg_client g1) with true in Hg.
  replace (message_db g1) with (message_db g) in Hg by done.
  destruct (MessageService.mark_delivered (msg_id m) now2 (message_db g)) as [db r] eqn:E.
  apply mark_delivered_spec in E as (_ & b & -> & Hb). simpl in Hg. subst g'. split_and!; try done.
  intros _. simpl. destruct b; [|destruct Hb as [_ Hb]; by destruct (Hb Hd (proj1 Hw) m Hin)].
  destruct Hb as (m' & Hm' & Hi & Hrep). rewrite (message_row m' m (Odb.view (message_db g))) in Hrep;
    try done; [|apply Hw].
  split; [|done]. apply (replaced_elem _ _ _ (delivered_at now2 m) (proj1 Hw) Hrep). by left.
Qed.

(** A push in process.  With Redis and the database available, [notify_user] for a stored
    message hands one payload to each session that is listed for its receiver and registered
    in the web socket server, and to no other; the payload is a frame that decodes to a push
    header for the receiver and a request with the content and the id of the message; and the
    message becomes DELIVERED exactly when there is such a session. *)
Theorem push_delivers (m : Message) ctx now1 now2 hd md m0 (g : G) :
  let uid := msg_receiver_uid m in
  let header := push_header_of service_device_id uid ctx now1 in
  let request := push_request_of (msg_id m) (msg_content m) ctx in
  let p := build_payload service_device_id uid (msg_id m) (msg_content m) ctx now1 in
  let g' := notify_user (H := local_ports) service_device_id push_service uid (msg_id m) (msg_content m) ctx now1 now2 g in
  has_conn_mgr g = true -> has_msg_client g = true -> ok (conn_mgr g) -> Inv (keys_of (conn_mgr g)) ->
  Odb.healthy (message_db g) -> messages_wf (Odb.view (message_db g)) ->
  m ∈ im_messages (Odb.view (message_db g)) ->
  0 < zlen (GetTypeName PushRequest) -> SerializeToString header = Some hd -> 0 < zlen hd ->
  SerializeToString request = Some md -> md <> [] -> p <> [] -> zlen p <= max_frame ->
  exists sent, NoDup sent /\ posted g' = posted g ++ map (fun s => (s, p)) sent /\
    (forall s, s ∈ sent <-> reached g uid s) /\
    decode (S := S) p m0 = Val (Some (header, request)) /\
    (sent <> [] -> delivered_at now2 m ∈ im_messages (Odb.view (message_db g'))) /\
    (sent = [] -> message_db g' = message_db g).
Proof.
  intros uid header request p g' Hc Hm Hok HI Hd Hw Hin Htn Hh Hhd Hr Hmd Hp Hmax.
  destruct (push_outcome m ctx now1 now2 g Hc Hm Hok HI Hd Hw Hin Hp) as (sent & Hn & Hpo & Hs & Hyes & Hno).
  exists sent. split_and!; try done; [by eapply payload_decodes|intros ?; by apply Hyes].
Qed.
End EndToEnd.

(** * Witnesses *)

Module Example_push.
#[export] Instance PushType_eq_dec : EqDecision PushType.
Proof. solve_decision. Defined.
#[export] Instance PushType_countable : Countable PushType.
Proof.
  refine (inj_countable'
    (fun t => match t with PUSH_MESSAGE => 0 | PUSH_NOTIFICATION => 1 | PUSH_SYSTEM => 2 | PUSH_OFFLINE => 3 end)
    (fun n => if n =? 0 then PUSH_MESSAGE else if n =? 1 then PUSH_NOTIFICATION
              else if n =? 2 then PUSH_SYSTEM else PUSH_OFFLINE) _).
  by intros [].
Defined.
#[export] Instance PushMessageBody_eq_dec : EqDecision PushMessageBody.
Proof. solve_decision. Defined.
#[export] Instance PushMessageBody_countable : Countable PushMessageBody.
Proof.
  refine (inj_countable' (fun b => (push_id b, push_type b, push_content b, related_message_id b, ext b))
    (fun '(a, b, c, d, e) => Build_PushMessageBody a b c d e) _).
  by intros [].
Defined.
Import ProtobufCodec.Reference.
#[export] Instance PushRequest_eq_dec : EqDecision PushRequest.
Proof. solve_decision. Defined.
#[export] Instance PushRequest_countable : Countable PushRequest.
Proof.
  refine (inj_countable' (fun r => (push_header r, push_body r)) (fun '(a, b) => Build_PushRequest a b) _).
  by intros [].
Defined.

Definition request0 : PushRequest := {| push_header := None; push_body := None |}.
#[export] Instance request_proto : ProtoMessage PushRequest :=
  AnyProto.proto (String.list_byte_of_string "im.push.PushRequest") request0.
#[export] Instance request_laws : ProtoLaws PushRequest.
Proof. apply AnyProto.proto_laws. Defined.

#[export] Existing Instances direct direct_works.

(** Bob is connected; a message for him is stored. *)
Definition bob : Manager Mem.t :=
  (add_connection (H := Mem.mem_redis) (H0 := Toy.toy_json) no_multi "bob" "d1" "web" "session_1" 5000000
     (ConnectionManager.start None {["session_1"]})).1.
Definition gateway : Gateway Mem.t MemDb :=
  {| has_conn_mgr := true; has_msg_client := true; conn_mgr := bob; posted := [];
     message_db := MessageService.Witness.ds |}.
Definition from_ada : PushContext :=
  {| sender_uid := "ada"; conversation_type := ""; conversation_id := "" |}.
End Example_push.

Section PushWitnesses.
Import Example_push ProtobufCodec.Reference.
#[local] Existing Instances Leb128.output Leb128.input Leb128.laws.
#[local] Existing Instances Mem.mem_redis Mem.mem_redis_laws Toy.toy_json Toy.toy_json_laws.

Lemma bob_ok : ok bob /\ Inv (keys_of bob).
Proof.
  unfold bob. apply (step_ok no_multi (ConnectionManager.start None {["session_1"]})); [|done|apply start_inv].
  by apply step_add.
Qed.

Lemma gateway_ids : ids_ok gateway.
Proof.
  intros r Hr. assert (E : websocket_server (conn_mgr gateway) = Some {["session_1"%string]}) by (vm_compute; reflexivity).
  rewrite E in Hr. injection Hr as <-. by intros ?%elem_of_singleton.
Qed.

Lemma remote_push_refines_witness :
  posted (remote_notify_user (push_server "gw" "" push_service 10 20) "" "bob" 1 "hi" from_ada gateway) =
  posted (notify_user (H := local_ports) "gw" push_service "bob" 1 "hi" from_ada 10 20 gateway).
Proof.
  rewrite (remote_push_refines (R := Mem.t) (DB := MemDb) "gw" "" push_service "bob" 1 "hi" from_ada 10 20 gateway);
    [reflexivity|discriminate|discriminate|reflexivity|].
  apply gateway_ids.
Defined.

Lemma push_delivers_witness :
  let m := MessageService.Witness.sent in
  let g' := notify_user (H := local_ports) "gw" push_service (msg_receiver_uid m) (msg_id m) (msg_content m)
              from_ada 10 20 gateway in
  exists sent, posted g' = map (fun s => (s, build_payload "gw" (msg_receiver_uid m) (msg_id m)
                                   (msg_content m) from_ada 10)) sent /\
    ("session_1"%string ∈ sent) /\ (delivered_at 20 m ∈ im_messages (Odb.view (message_db g'))).
Proof.
  destruct (push_delivers (S := Leb128.stream) "gw" MessageService.Witness.sent from_ada 10 20
    (default [] (SerializeToString (push_header_of "gw" "bob" from_ada 10)))
    (default [] (SerializeToString (push_request_of 1 "hello" from_ada))) request0 gateway) as (sent & _ & Hp & Hm & _ & Hd & _).
  15: { assert (Hs : "session_1"%string ∈ sent).
        { apply Hm. split; [vm_compute; reflexivity|]. exists "d1:web"%string. eexists.
          split; [vm_compute; reflexivity|reflexivity]. }
        exists sent. split; [exact Hp|]. split; [exact Hs|]. apply Hd. intros ->. by apply elem_of_nil in Hs. }
  - reflexivity.
  - reflexivity.
  - apply bob_ok.
  - apply bob_ok.
  - reflexivity.
  - apply MessageService.ds_wf.
  - vm_compute. left.
  - vm_compute. reflexivity.
  - reflexivity.
  - vm_compute. reflexivity.
  - reflexivity.
  - vm_compute. discriminate.
  - vm_compute. discriminate.
  - vm_compute. discriminate.
Defined.
End PushWitnesses.
