(* ===== verification/Http.v ===== *)
(** What the HTTP controllers of the gateway share: [gateway/http/http_types.hpp],
    [http_response_builder.hpp], [httplib_adapter.hpp], the parts of
    [common/utils/http_utils.hpp] they call, and the steps every handler begins with (the
    bearer token, the body, the [try]/[catch]).

    cpp-httplib, which reads the socket and calls the handler of a route, is third-party
    code.  The token manager is the class [Authenticator], which [Auth.v] implements. *)
From S2P Require Import Prelude Text Redis TokenStore Json ConnectionManager Rpc Auth.
From Stdlib Require Import Ascii.
Open Scope Z_scope.

(** * Requests and responses *)

Record HttpRequest := {
  req_method : string; req_path : string; req_body : string;
  req_headers : gmap string string; req_params : gmap string string
}.
Record HttpResponse := { status : Z; res_body : string; content_type : string }.

Definition has_param (req : HttpRequest) (key : string) : bool := bool_decide (is_Some (req_params req !! key)).
Definition get_param_value (req : HttpRequest) (key : string) : string := default ""%string (req_params req !! key).

(** [emplace] keeps the value a key has. *)
Definition emplace (m : gmap string string) (p : string * string) : gmap string string :=
  match m !! p.1 with Some _ => m | None => <[p.1 := p.2]> m end.
Definition from_httplib_request (method path body : string) (headers params : list (string * string)) : HttpRequest :=
  {| req_method := method; req_path := path; req_body := body;
     req_headers := foldl emplace ∅ headers; req_params := foldl emplace ∅ params |}.

(** [std::tolower] in the C locale. *)
Definition tolower (c : ascii) : ascii :=
  if (65 <=? chr c) && (chr c <=? 90) then ascii_of_N (Z.to_N (chr c + 32)) else c.
Fixpoint lower (s : string) : string :=
  match s with EmptyString => EmptyString | String c s' => String (tolower c) (lower s') end.

(** [extract_bearer_token], the same in each controller; [""] without a token. *)
Definition extract_bearer_token (req : HttpRequest) : string :=
  match req_headers req !! "Authorization"%string with
  | None => ""
  | Some auth =>
      if (String.length auth <=? String.length "Bearer ")%nat then ""
      else if negb (String.eqb (lower (String.substring 0 7 auth)) (lower "Bearer ")) then ""
      else String.substring 7 (String.length auth - 7) auth
  end.

(** The name of the header is compared letter by letter. *)
Lemma lower_case_header_ignored t :
  extract_bearer_token (from_httplib_request "GET" "/" "" [("authorization", "Bearer " +:+ t)]%string []) = ""%string.
Proof. done. Qed.

(** * The token manager, as the controllers use it *)

Class Authenticator (D : Type) := {
  auth_verify : string -> exec D (option UserTokenInfo);
  auth_generate : string -> string -> string -> string -> exec D TokenResult
}.

Section Controller.
Context {D : Type} `{Json}.

(** [buildResponseString]. *)
Definition error_members (status_code : Z) (body err_message : string) : members :=
  [("code", JInt status_code); ("body", JStr body); ("err_msg", JStr err_message)]%string.
Definition build_http_response (status_code : Z) (err_message : string) : exec D HttpResponse :=
  let* text := or_throw (dump (obj (error_members status_code "" err_message))) in
  ret {| status := status_code; res_body := text; content_type := "application/json" |}.

(** [res.status = code; res.set_content(response_body.dump(), ...)]. *)
Definition answer (status_code : Z) (response_body : members) : exec D HttpResponse :=
  let* text := or_throw (dump (obj response_body)) in
  ret {| status := status_code; res_body := text; content_type := "application/json" |}.

(** [try { ... } catch (const std::exception& e) { 500 }]. *)
Definition caught (m : exec D HttpResponse) : exec D HttpResponse := fun d =>
  match m d with
  | (d', Ok r) => (d', Ok r)
  | (d', Throw) => build_http_response 500 "Internal server error" d'
  end.

Definition authorized `{Authenticator D} (req : HttpRequest) (k : UserTokenInfo -> exec D HttpResponse)
  : exec D HttpResponse :=
  let token := extract_bearer_token req in
  if String.eqb token "" then build_http_response 401 "Missing or invalid Authorization header"
  else
    let* user_info := auth_verify token in
    match user_info with
    | None => build_http_response 401 "Invalid or expired access token"
    | Some user_info => k user_info
    end.

Definition with_body (req : HttpRequest) (k : json -> exec D HttpResponse) : exec D HttpResponse :=
  match parse (req_body req) with
  | None => build_http_response 400 "Invalid JSON body"
  | Some body => k body
  end.

(** [body.value(key, dflt)] of the two controllers' types. *)
Definition body_str (body : json) (key dflt : string) : exec D string := or_throw (value_str body key dflt).
Definition body_u64 (body : json) (key : string) : exec D Z := or_throw (value_u64 body key 0).

(** The query [q], or [keyword] without it. *)
Definition query_param (req : HttpRequest) : string :=
  let query := if has_param req "q" then get_param_value req "q" else ""%string in
  if String.eqb query "" && has_param req "keyword" then get_param_value req "keyword" else query.
End Controller.

(** A route of the HTTP server: method, path, handler. *)
Record Route (D : Type) := {
  route_method : string; route_path : string; route_handler : HttpRequest -> exec D HttpResponse
}.
Arguments route_method {D} _.
Arguments route_path {D} _.
Arguments route_handler {D} _.
Definition route {D} (method path : string) (h : HttpRequest -> exec D HttpResponse) : Route D :=
  {| route_method := method; route_path := path; route_handler := h |}.
