(* ===== verification/UserHttp.v ===== *)
(** The HTTP controller of users: [gateway/http/user_http_controller.cpp], over a user client
    and a token manager. *)
From S2P Require Import Prelude Schema Redis TokenStore Json ConnectionManager Rpc Auth UserService UserRemote Http.
Open Scope Z_scope.

Section UserHttp.
Context {D : Type} `{Json} `{Authenticator D} `{UserClient D}.

(** [static_cast<int>(p.gender)] and [parse_gender]. *)
Definition gender_value (g : Gender) : Z := match g with GENDER_UNKNOWN => 0 | MALE => 1 | FEMALE => 2 | OTHER => 3 end.
Definition parse_gender (gender : Z) : Gender :=
  if gender =? 1 then MALE else if gender =? 2 then FEMALE else if gender =? 3 then OTHER else GENDER_UNKNOWN.

Definition profile_to_json (p : UserProfile) : jval :=
  JObj [("uid", JStr (p_uid p)); ("account", JStr (p_account p)); ("nickname", JStr (p_nickname p));
        ("avatar", JStr (p_avatar p)); ("gender", JInt (gender_value (p_gender p)));
        ("signature", JStr (p_signature p)); ("create_time", JInt (p_create_time p));
        ("last_login", JInt (p_last_login p)); ("online", JBool (p_online p))]%string.

(** A default constructed profile. *)
Definition blank_profile : UserProfile :=
  {| p_uid := ""; p_account := ""; p_nickname := ""; p_avatar := ""; p_gender := GENDER_UNKNOWN;
     p_signature := ""; p_create_time := 0; p_last_login := 0; p_online := false |}.
Definition profile_of_result (r : UserResult) : UserProfile := default blank_profile (r_profile r).

(** The tokens of a user and the answer with both: the end of [handle_register] and [handle_login]. *)
Definition with_tokens (status_code : Z) (p : UserProfile) (device_id platform : string) : exec D HttpResponse :=
  let* tokens := auth_generate (p_uid p) (p_account p) device_id platform in
  answer status_code [("profile", profile_to_json p); ("access_token", JStr (tr_access_token tokens));
                      ("refresh_token", JStr (tr_refresh_token tokens))]%string.

Definition handle_register (now_ms : Z) (req : HttpRequest) : exec D HttpResponse :=
  caught (with_body req (fun body =>
    let* account := body_str body "account" "" in
    let* password := body_str body "password" "" in
    let* nickname := body_str body "nickname" "" in
    let* device_id := body_str body "device_id" "http-default" in
    let* platform := body_str body "platform" "web" in
    if String.eqb account "" || String.eqb password ""
    then build_http_response 400 "Missing required fields: account, password"
    else
      let* result := cl_register_user
        {| rq_account := account; rq_password := password;
           rq_nickname := if String.eqb nickname "" then account else nickname; rq_now_ms := now_ms |} in
      if negb (r_ok result) then
        if String.eqb (r_error_code result) "DUPLICATE_ACCOUNT"
        then build_http_response 409 "Account already exists"
        else build_http_response 500 (r_message result)
      else with_tokens 201 (profile_of_result result) device_id platform)).

Definition handle_login (now_ms : Z) (req : HttpRequest) : exec D HttpResponse :=
  caught (with_body req (fun body =>
    let* account := body_str body "account" "" in
    let* password := body_str body "password" "" in
    let* device_id := body_str body "device_id" "http-default" in
    let* platform := body_str body "platform" "web" in
    if String.eqb account "" || String.eqb password ""
    then build_http_response 400 "Missing required fields: account, password"
    else
      let* result := cl_login_by_account account password now_ms in
      if negb (r_ok result) then
        if String.eqb (r_error_code result) "WRONG_PASSWORD" || String.eqb (r_error_code result) "INVALID_ACCOUNT"
        then build_http_response 401 "Invalid account or password"
        else build_http_response 500 (r_message result)
      else with_tokens 200 (profile_of_result result) device_id platform)).

Definition handle_profile (req : HttpRequest) : exec D HttpResponse :=
  caught (authorized req (fun user_info =>
    let* profile := cl_get_profile_by_uid (ti_user_id user_info) in
    match profile with
    | None => build_http_response 404 "User profile not found"
    | Some profile => answer 200 [("profile", profile_to_json profile)]%string
    end)).

Definition handle_update_profile (req : HttpRequest) : exec D HttpResponse :=
  caught (authorized req (fun user_info => with_body req (fun body =>
    let* current := cl_get_profile_by_uid (ti_user_id user_info) in
    match current with
    | None => build_http_response 404 "User profile not found"
    | Some current =>
        let* nickname := body_str body "nickname" (p_nickname current) in
        let* avatar := body_str body "avatar" (p_avatar current) in
        let* signature := body_str body "signature" (p_signature current) in
        let gender := match int_member body "gender" with
                      | Some g => parse_gender (i32 g)
                      | None => p_gender current
                      end in
        if String.eqb nickname "" then build_http_response 400 "Nickname must not be empty"
        else
          let* result := cl_update_profile
            {| up_uid := ti_user_id user_info; up_nickname := nickname; up_avatar := avatar;
               up_gender := gender; up_signature := signature |} in
          if negb (r_ok result) then
            let code := r_error_code result in
            if String.eqb code "EMPTY_UID" || String.eqb code "EMPTY_NICKNAME" || String.eqb code "PARAM_ERROR"
            then build_http_response 400 (r_message result)
            else if String.eqb code "USER_NOT_FOUND" then build_http_response 404 (r_message result)
            else build_http_response 500 (r_message result)
          else answer 200 [("profile", profile_to_json (profile_of_result result))]%string
    end))).

Definition handle_search_user (req : HttpRequest) : exec D HttpResponse :=
  caught (authorized req (fun user_info =>
    let query := query_param req in
    if String.eqb query "" then build_http_response 400 "Missing required query parameter: q"
    else
      let* profiles := cl_search_profiles query 20 in
      answer 200 (("users", JArr (map profile_to_json profiles)) ::
        match profiles with [] => [] | p :: _ => [("profile", profile_to_json p)] end)%string)).

(** [register_user_http_routes_on_server]. *)
Definition user_routes (now_ms : Z) : list (Route D) :=
  [route "POST" "/api/v1/auth/register" (handle_register now_ms);
   route "POST" "/api/v1/auth/login" (handle_login now_ms);
   route "GET" "/api/v1/auth/info" handle_profile;
   route "POST" "/api/v1/auth/profile" handle_update_profile;
   route "GET" "/api/v1/users/search" handle_search_user].
End UserHttp.
