(* ===== verification/FriendHttp.v ===== *)
(** The HTTP controller of friends: [gateway/http/friend_http_controller.cpp]. *)
From S2P Require Import Prelude Schema Redis TokenStore Json ConnectionManager Rpc Auth FriendService FriendRemote Http.
Open Scope Z_scope.

Section FriendHttp.
Context {D : Type} `{Json} `{Authenticator D} `{FriendClient D}.

(** [static_cast<int>(info.status)]. *)
Definition status_value (s : FriendStatus) : Z := match s with PENDING => 0 | ACCEPTED => 1 | REJECTED => 2 | BLOCKED => 3 end.

Definition friend_info_to_json (i : FriendInfoDTO) : jval :=
  JObj [("friend_id", JInt (fi_friend_id i)); ("friend_uid", JStr (fi_friend_uid i));
        ("nickname", JStr (fi_nickname i)); ("status", JInt (status_value (fi_status i)));
        ("created_at", JInt (fi_created_at i))]%string.

Definition handle_send_request (now_ms : Z) (req : HttpRequest) : exec D HttpResponse :=
  caught (authorized req (fun user_info => with_body req (fun body =>
    let* target_uid := body_str body "target_uid" "" in
    if String.eqb target_uid "" then build_http_response 400 "Missing required field: target_uid"
    else
      let* result := cl_send_request {| fr_requester_uid := ti_user_id user_info; fr_target_uid := target_uid;
                                        fr_now_ms := now_ms |} in
      if negb (fr_ok result) then
        let code := fr_error_code result in
        let status := if String.eqb code "ALREADY_EXISTS" then 409
                      else if String.eqb code "TARGET_NOT_FOUND" then 404 else 400 in
        build_http_response status (fr_message result)
      else answer 201 [("message", JStr (fr_message result))]%string))).

Definition handle_respond_request (req : HttpRequest) : exec D HttpResponse :=
  caught (authorized req (fun user_info => with_body req (fun body =>
    let* friend_id := body_u64 body "friend_id" in
    let* accept := or_throw (value_bool body "accept" false) in
    if friend_id =? 0 then build_http_response 400 "Missing required field: friend_id"
    else
      let* result := cl_respond_to_request friend_id (ti_user_id user_info) accept in
      if negb (fr_ok result) then
        let code := fr_error_code result in
        let status := if String.eqb code "NOT_FOUND" then 404 else if String.eqb code "FORBIDDEN" then 403 else 400 in
        build_http_response status (fr_message result)
      else answer 200 [("message", JStr (fr_message result))]%string))).

Definition handle_list_friends (req : HttpRequest) : exec D HttpResponse :=
  caught (authorized req (fun user_info =>
    let* friends := cl_get_friends (ti_user_id user_info) in
    answer 200 [("friends", JArr (map friend_info_to_json friends))]%string)).

Definition handle_pending_requests (req : HttpRequest) : exec D HttpResponse :=
  caught (authorized req (fun user_info =>
    let* pending := cl_get_pending_requests (ti_user_id user_info) in
    answer 200 [("pending_requests", JArr (map friend_info_to_json pending))]%string)).

(** [register_friend_http_routes_on_server]. *)
Definition friend_routes (now_ms : Z) : list (Route D) :=
  [route "POST" "/api/v1/friends/request" (handle_send_request now_ms);
   route "POST" "/api/v1/friends/respond" handle_respond_request;
   route "GET" "/api/v1/friends" handle_list_friends;
   route "GET" "/api/v1/friends/pending" handle_pending_requests].
End FriendHttp.
