(* ===== verification/GroupHttp.v ===== *)
(** The HTTP controllers of groups and of group messages: [gateway/http/group_http_controller.cpp]
    and [group_message_http_controller.cpp]. *)
From S2P Require Import Prelude Text Schema Redis TokenStore Json ConnectionManager Push Rpc Auth GroupService GroupRemote Http.
Open Scope Z_scope.

(** [push_notifier_]: null, or the notifier; [notify_user] of a user, a message id, a content
    and a context. *)
Definition Notifier (D : Type) : Type := option (string -> Z -> string -> PushContext -> exec D unit).

Section GroupHttp.
Context {D : Type} `{Json} `{Authenticator D} `{GroupClient D}.

(** [static_cast<int>(info.role)]. *)
Definition role_value (r : GroupRole) : Z := match r with OWNER => 0 | ADMIN => 1 | MEMBER => 2 end.

Definition group_info_members (i : GroupInfoDTO) : list (string * jval) :=
  [("group_id", JInt (gi_group_id i)); ("name", JStr (gi_name i)); ("creator_uid", JStr (gi_creator_uid i));
   ("created_at", JInt (gi_created_at i)); ("member_count", JInt (gi_member_count i))]%string.
Definition group_info_to_json (i : GroupInfoDTO) : jval := JObj (group_info_members i).
Definition member_info_to_json (i : MemberInfoDTO) : jval :=
  JObj [("id", JInt (mi_id i)); ("user_uid", JStr (mi_user_uid i)); ("nickname", JStr (mi_nickname i));
        ("role", JInt (role_value (mi_role i))); ("joined_at", JInt (mi_joined_at i))]%string.

Definition handle_create_group (now_ms : Z) (req : HttpRequest) : exec D HttpResponse :=
  caught (authorized req (fun user_info => with_body req (fun body =>
    let* name := body_str body "name" "" in
    if String.eqb name "" then build_http_response 400 "Missing required field: name"
    else
      let* result := cl_create_group {| cg_name := name; cg_creator_uid := ti_user_id user_info; cg_now_ms := now_ms |} in
      if negb (gr_ok result) then
        let status := if String.eqb (gr_error_code result) "CREATOR_NOT_FOUND" then 404 else 400 in
        build_http_response status (gr_message result)
      else answer 201 [("message", JStr (gr_message result)); ("group_id", JInt (gr_group_id result))]%string))).

Definition handle_join_group (now_ms : Z) (req : HttpRequest) : exec D HttpResponse :=
  caught (authorized req (fun user_info => with_body req (fun body =>
    let* group_id := body_u64 body "group_id" in
    if group_id =? 0 then build_http_response 400 "Missing required field: group_id"
    else
      let* result := cl_join_group group_id (ti_user_id user_info) now_ms in
      if negb (gr_ok result) then
        let code := gr_error_code result in
        let status := if String.eqb code "GROUP_NOT_FOUND" then 404 else if String.eqb code "USER_NOT_FOUND" then 404
                      else if String.eqb code "ALREADY_MEMBER" then 409 else 400 in
        build_http_response status (gr_message result)
      else answer 200 [("message", JStr (gr_message result))]%string))).

Definition handle_leave_group (req : HttpRequest) : exec D HttpResponse :=
  caught (authorized req (fun user_info => with_body req (fun body =>
    let* group_id := body_u64 body "group_id" in
    if group_id =? 0 then build_http_response 400 "Missing required field: group_id"
    else
      let* result := cl_leave_group group_id (ti_user_id user_info) in
      if negb (gr_ok result) then
        let code := gr_error_code result in
        let status := if String.eqb code "GROUP_NOT_FOUND" then 404 else if String.eqb code "NOT_MEMBER" then 403
                      else if String.eqb code "OWNER_CANNOT_LEAVE" then 403 else 400 in
        build_http_response status (gr_message result)
      else answer 200 [("message", JStr (gr_message result))]%string))).

(** The query parameter [group_id] of three handlers. *)
Definition with_group_id (req : HttpRequest) (k : Z -> exec D HttpResponse) : exec D HttpResponse :=
  let group_id_str := get_param_value req "group_id" in
  if String.eqb group_id_str "" then build_http_response 400 "Missing query parameter: group_id"
  else match stoull group_id_str with
       | None => build_http_response 400 "Invalid group_id"
       | Some group_id => k group_id
       end.

Definition handle_group_info (req : HttpRequest) : exec D HttpResponse :=
  caught (authorized req (fun user_info => with_group_id req (fun group_id =>
    let* group := cl_get_group_info group_id in
    match group with
    | None => build_http_response 404 "Group not found"
    | Some group =>
        let* members := cl_list_members group_id (ti_user_id user_info) in
        answer 200 [("group", group_info_to_json group);
                    ("joined", JBool (match members with [] => false | _ => true end));
                    ("members", JArr (map member_info_to_json members))]%string
    end))).

Definition handle_search_groups (req : HttpRequest) : exec D HttpResponse :=
  caught (authorized req (fun user_info =>
    let query := query_param req in
    if String.eqb query "" then build_http_response 400 "Missing required query parameter: q"
    else
      let* groups := cl_search_groups query 20 in
      let* my_groups := cl_list_my_groups (ti_user_id user_info) in
      let item group := JObj (group_info_members group ++
        [("joined"%string, JBool (existsb (fun mine => gi_group_id mine =? gi_group_id group) my_groups))]) in
      answer 200 (("groups"%string, JArr (map item groups)) ::
        match groups with [] => [] | g :: _ => [("group"%string, group_info_to_json g)] end))).

Definition handle_list_groups (req : HttpRequest) : exec D HttpResponse :=
  caught (authorized req (fun user_info =>
    let* groups := cl_list_my_groups (ti_user_id user_info) in
    answer 200 [("groups", JArr (map group_info_to_json groups))]%string)).

(** An existing group, and its members when the caller is one: the checks of three handlers. *)
Definition with_members (group_id : Z) (uid : string) (k : list MemberInfoDTO -> exec D HttpResponse)
  : exec D HttpResponse :=
  let* exists_ := cl_group_exists group_id in
  if negb exists_ then build_http_response 404 "Group not found"
  else
    let* members := cl_list_members group_id uid in
    match members with
    | [] => build_http_response 403 "Not a member of this group"
    | _ => k members
    end.

Definition handle_list_members (req : HttpRequest) : exec D HttpResponse :=
  caught (authorized req (fun user_info => with_group_id req (fun group_id =>
    with_members group_id (ti_user_id user_info) (fun members =>
      answer 200 [("members", JArr (map member_info_to_json members))]%string)))).

(** * GroupMessageHttpController *)

(** The fan-out to every member but the sender, in the order of the list. *)
Fixpoint fan_out (notify : string -> Z -> string -> PushContext -> exec D unit) (group_id msg_id : Z)
    (sender content : string) (members : list MemberInfoDTO) : exec D unit :=
  match members with
  | [] => ret tt
  | member :: rest =>
      let* _ := (if String.eqb (mi_user_uid member) sender then ret tt
                 else notify (mi_user_uid member) msg_id content
                        {| sender_uid := sender; conversation_type := "group"; conversation_id := dec group_id |}) in
      fan_out notify group_id msg_id sender content rest
  end.

Definition handle_send_message (push_notifier : Notifier D) (now_ms : Z) (req : HttpRequest) : exec D HttpResponse :=
  caught (authorized req (fun user_info => with_body req (fun body =>
    let* group_id := body_u64 body "group_id" in
    let* content := body_str body "content" "" in
    if group_id =? 0 then build_http_response 400 "Missing required field: group_id"
    else if String.eqb content "" then build_http_response 400 "Missing required field: content"
    else with_members group_id (ti_user_id user_info) (fun members =>
      let* store_result := cl_send_message group_id (ti_user_id user_info) content now_ms in
      if negb (gs_ok store_result)
      then build_http_response 500 ("Failed to send message: " +:+ gs_message store_result)
      else
        let* _ := match push_notifier with
                  | Some notify => fan_out notify group_id (gs_msg_id store_result) (ti_user_id user_info) content members
                  | None => ret tt
                  end in
        answer 201 [("message", JStr (gs_message store_result)); ("msg_id", JInt (gs_msg_id store_result))]%string)))).

Definition group_message_to_json (m : GroupMessageDTO) : jval :=
  JObj [("msg_id", JInt (gd_msg_id m)); ("sender_uid", JStr (gd_sender_uid m));
        ("sender_nickname", JStr (gd_sender_nickname m)); ("content", JStr (gd_content m));
        ("created_at", JInt (gd_created_at m))]%string.

(** An empty parameter is absent; one that is no number is refused. *)
Definition with_number (text : string) (read : string -> option Z) (dflt : Z) (what : string)
    (k : Z -> exec D HttpResponse) : exec D HttpResponse :=
  if String.eqb text "" then k dflt
  else match read text with
       | None => build_http_response 400 ("Invalid '" +:+ what +:+ "' parameter")
       | Some n => k n
       end.

Definition handle_get_history (now_ms : Z) (req : HttpRequest) : exec D HttpResponse :=
  caught (authorized req (fun user_info => with_group_id req (fun group_id =>
    with_members group_id (ti_user_id user_info) (fun _ =>
      with_number (get_param_value req "before") stoll now_ms "before" (fun before_time =>
      with_number (get_param_value req "limit") stoi 50 "limit" (fun limit =>
        let limit := if limit <? 1 then 1 else limit in
        let limit := if 200 <? limit then 200 else limit in
        let* history := cl_get_history group_id (ti_user_id user_info) before_time limit in
        answer 200 [("messages", JArr (map group_message_to_json history))]%string)))))).

(** [register_group_http_routes_on_server] and [register_group_message_http_routes_on_server]. *)
Definition group_routes (now_ms : Z) : list (Route D) :=
  [route "POST" "/api/v1/groups" (handle_create_group now_ms);
   route "POST" "/api/v1/groups/join" (handle_join_group now_ms);
   route "POST" "/api/v1/groups/leave" handle_leave_group;
   route "GET" "/api/v1/groups/info" handle_group_info;
   route "GET" "/api/v1/groups/search" handle_search_groups;
   route "GET" "/api/v1/groups" handle_list_groups;
   route "GET" "/api/v1/groups/members" handle_list_members].
Definition group_message_routes (push_notifier : Notifier D) (now_ms : Z) : list (Route D) :=
  [route "POST" "/api/v1/groups/messages/send" (handle_send_message push_notifier now_ms);
   route "GET" "/api/v1/groups/messages/history" (handle_get_history now_ms)].
End GroupHttp.
