(* ===== verification/MessageHttp.v ===== *)
(** The HTTP controller of private messages: [gateway/http/message_http_controller.cpp]. *)
From S2P Require Import Prelude Text Schema Redis TokenStore Json ConnectionManager Push Rpc Auth MessageService MessageRemote Http GroupHttp.
Open Scope Z_scope.

Section MessageHttp.
Context {D : Type} `{Json} `{Authenticator D} `{MessageClient D}.

Definition type_value (t : MessageType) : Z := match t with TEXT => 0 | IMAGE => 1 | FILE => 2 | SYSTEM => 3 end.
Definition msg_status_value (s : MessageStatus) : Z := match s with SENT => 0 | DELIVERED => 1 | READ => 2 end.

Definition message_data_to_json (d : MessageData) : jval :=
  JObj [("msg_id", JInt (md_msg_id d)); ("sender_uid", JStr (md_sender_uid d));
        ("receiver_uid", JStr (md_receiver_uid d)); ("content", JStr (md_content d));
        ("msg_type", JInt (type_value (md_msg_type d))); ("status", JInt (msg_status_value (md_status d)));
        ("create_time", JInt (md_create_time d)); ("delivered_time", JInt (md_delivered_time d));
        ("read_time", JInt (md_read_time d))]%string.

(** A default constructed [MessageData]. *)
Definition blank_data : MessageData :=
  {| md_msg_id := 0; md_sender_uid := ""; md_receiver_uid := ""; md_content := ""; md_msg_type := TEXT;
     md_status := SENT; md_create_time := 0; md_delivered_time := 0; md_read_time := 0 |}.

Definition handle_send (push_notifier : Notifier D) (now_ms : Z) (req : HttpRequest) : exec D HttpResponse :=
  caught (authorized req (fun user_info => with_body req (fun body =>
    let* receiver_uid := body_str body "receiver_uid" "" in
    let* content := body_str body "content" "" in
    if String.eqb receiver_uid "" || String.eqb content ""
    then build_http_response 400 "Missing required fields: receiver_uid, content"
    else
      let* result := cl_send_text_message
        {| sq_sender_uid := ti_user_id user_info; sq_receiver_uid := receiver_uid; sq_content := content;
           sq_msg_type := TEXT; sq_now_ms := now_ms |} in
      if negb (sr_ok result) then build_http_response 500 (sr_message result)
      else
        let data := default blank_data (sr_data result) in
        let* _ := match push_notifier with
                  | Some notify =>
                      notify receiver_uid (md_msg_id data) content
                        {| sender_uid := ti_user_id user_info; conversation_type := "direct";
                           conversation_id := ti_user_id user_info |}
                  | None => ret tt
                  end in
        answer 201 [("message", message_data_to_json data)]%string))).

(** The parameters [before_time] and [limit] of the two reading handlers. *)
Definition with_before_time (req : HttpRequest) (k : Z -> exec D HttpResponse) : exec D HttpResponse :=
  if has_param req "before_time" then
    match stoll (get_param_value req "before_time") with
    | None => build_http_response 400 "Invalid before_time parameter"
    | Some t => k t
    end
  else k INT64_MAX.
Definition limit_param (req : HttpRequest) : Z :=
  if has_param req "limit" then
    match stoi (get_param_value req "limit") with
    | Some limit => if (limit <=? 0) || (200 <? limit) then 50 else limit
    | None => 50
    end
  else 50.

Definition messages_answer (msgs : list MessageData) : exec D HttpResponse :=
  answer 200 [("messages", JArr (map message_data_to_json msgs)); ("count", JInt (zlen msgs))]%string.

Definition handle_history (req : HttpRequest) : exec D HttpResponse :=
  caught (authorized req (fun user_info =>
    let peer_uid := get_param_value req "peer_uid" in
    if String.eqb peer_uid "" then build_http_response 400 "Missing required query parameter: peer_uid"
    else with_before_time req (fun before_time =>
      let* msgs := cl_get_conversation (ti_user_id user_info) peer_uid before_time (limit_param req) in
      messages_answer msgs))).

(** Each message pulled is marked, whatever [mark_delivered] answers. *)
Definition delivered_data (t : Z) (d : MessageData) : MessageData :=
  {| md_msg_id := md_msg_id d; md_sender_uid := md_sender_uid d; md_receiver_uid := md_receiver_uid d;
     md_content := md_content d; md_msg_type := md_msg_type d; md_status := DELIVERED;
     md_create_time := md_create_time d; md_delivered_time := t; md_read_time := md_read_time d |}.
Fixpoint mark_all (delivered_now : Z) (msgs : list MessageData) : exec D (list MessageData) :=
  match msgs with
  | [] => ret []
  | m :: rest =>
      let* _ := cl_mark_delivered (md_msg_id m) delivered_now in
      let* rest := mark_all delivered_now rest in
      ret (delivered_data delivered_now m :: rest)
  end.

Definition handle_offline (now_ms : Z) (req : HttpRequest) : exec D HttpResponse :=
  caught (authorized req (fun user_info => with_before_time req (fun before_time =>
    let* msgs := cl_pull_offline (ti_user_id user_info) before_time (limit_param req) in
    let* msgs := mark_all now_ms msgs in
    messages_answer msgs))).

(** [register_message_http_routes_on_server]. *)
Definition message_routes (push_notifier : Notifier D) (now_ms : Z) : list (Route D) :=
  [route "POST" "/api/v1/messages/send" (handle_send push_notifier now_ms);
   route "GET" "/api/v1/messages/history" handle_history;
   route "GET" "/api/v1/messages/offline" (handle_offline now_ms)].
End MessageHttp.
