(* ===== verification/HttpApi.v ===== *)
(** The HTTP interface of the gateway put together: the routes that
    [gateway/gateway_server/gateway_server.cpp] registers for the five controllers, over the
    four service clients, the token manager and the notifier; and what every route answers.

    [Api] is the state of a gateway with its services in the same process. *)
From S2P Require Import Prelude Text Schema Odb Redis TokenStore Json ConnectionManager Push Rpc Auth.
From S2P Require Import UserService UserRemote FriendService FriendRemote GroupService GroupRemote MessageService MessageRemote.
From S2P Require Import PushGateway Http UserHttp FriendHttp GroupHttp MessageHttp.
Open Scope Z_scope.

Section Routes.
Context {D : Type} `{Json} `{Authenticator D} `{UserClient D} `{FriendClient D} `{GroupClient D} `{MessageClient D}.

Definition api_routes (push_notifier : Notifier D) (now_ms : Z) : list (Route D) :=
  user_routes now_ms ++ message_routes push_notifier now_ms ++ friend_routes now_ms ++ group_routes now_ms ++
  group_message_routes push_notifier now_ms.

(** [dispatch_http_controller] of the route that matches. *)
Definition serve (routes : list (Route D)) (method path body : string) (headers params : list (string * string))
  : option (exec D HttpResponse) :=
  r ← find (fun r => String.eqb (route_method r) method && String.eqb (route_path r) path) routes;
  Some (route_handler r (from_httplib_request method path body headers params)).
End Routes.

(** * What every route answers *)
Section Answers.
Context {D : Type} `{JsonLaws} `{Authenticator D} `{UserClient D} `{FriendClient D} `{GroupClient D} `{MessageClient D}.

Definition codes : list Z := [200; 201; 400; 401; 403; 404; 409; 500].

Definition well_formed (r : HttpResponse) : Prop :=
  bool_decide (status r ∈ codes) = true /\ content_type r = "application/json"%string /\
  exists l, parse (res_body r) = Some (obj l).

Lemma answer_well_formed c l : bool_decide (c ∈ codes) = true -> returns well_formed (answer (D := D) c l).
Proof.
  intros Hc d d' r E. unfold answer in E. run_inv E. unfold ret in E. simplify_eq. unfold ConnectionManager.or_throw in E0.
  destruct (dump _) as [t|] eqn:Et; [|done]. unfold ret in E0. simplify_eq. split_and!; [done..|].
  exists l. by apply law_parse.
Qed.

Lemma error_well_formed c msg : bool_decide (c ∈ codes) = true -> returns well_formed (build_http_response (D := D) c msg).
Proof. apply answer_well_formed. Qed.

(** A message of the source is ASCII, so that its answer can be printed. *)
Lemma error_prints c msg d : ascii_text msg = true -> exists text,
  build_http_response (D := D) c msg d =
    (d, Ok {| status := c; res_body := text; content_type := "application/json" |}) /\
  parse text = Some (obj (error_members c "" msg)).
Proof.
  intros Hm. unfold build_http_response, bind.
  destruct (law_dump (error_members c "" msg)) as [text Ht].
  { intros s Hs. unfold texts in Hs. cbn in Hs. apply law_ascii.
    rewrite !elem_of_cons in Hs. by destruct Hs as [->|[->|?%elem_of_nil]]. }
  exists text. rewrite Ht. split; [done|]. by apply law_parse.
Qed.

(** A handler: whatever happens inside, one well-formed response. *)
Definition answers (m : exec D HttpResponse) : Prop := forall d, exists d' r, m d = (d', Ok r) /\ well_formed r.

Lemma caught_answers m : returns well_formed m -> answers (caught m).
Proof.
  intros Hm d. unfold caught. destruct (m d) as [d1 [r|]] eqn:E; [exists d1, r; split; [done|by eapply Hm]|].
  destruct (error_prints 500 "Internal server error" d1 eq_refl) as (t & E1 & Ht).
  eexists d1, _. split; [exact E1|]. split_and!; [done..|]. eauto.
Qed.

Lemma authorized_answers req k : (forall i, returns well_formed (k i)) -> returns well_formed (authorized req k).
Proof.
  intros Hk. unfold authorized. case_match; [by apply error_well_formed|].
  apply returns_bind. intros [i|]; [apply Hk|by apply error_well_formed].
Qed.

Lemma body_answers req k : (forall j, returns well_formed (k j)) -> returns well_formed (with_body (D := D) req k).
Proof. intros Hk. unfold with_body. case_match; [apply Hk|by apply error_well_formed]. Qed.

Lemma tokens_answers c p dev plat : bool_decide (c ∈ codes) = true -> returns well_formed (with_tokens c p dev plat).
Proof. intros Hc. apply returns_bind. intros ?. by apply answer_well_formed. Qed.

(** One goal per answer of a handler. *)
Ltac each_answer := repeat first
  [ apply caught_answers | apply authorized_answers; intros ? | apply body_answers; intros ?
  | by apply answer_well_formed | by apply error_well_formed | by apply tokens_answers
  | lazymatch goal with |- returns _ (bind _ _) => apply returns_bind; intros ? end | progress cbv zeta | case_match ].

Lemma routes_answer notifier now_ms : Forall (fun r => forall req, answers (route_handler r req)) (api_routes notifier now_ms).
Proof.
  unfold api_routes, user_routes, message_routes, friend_routes, group_routes, group_message_routes.
  rewrite !Forall_app, !Forall_cons, !Forall_nil. split_and!; try done; intros req; cbn [route_handler route].
  all: unfold handle_register, handle_login, handle_profile, handle_update_profile, handle_search_user, handle_send,
    handle_history, handle_offline, handle_send_request, handle_respond_request, handle_list_friends,
    handle_pending_requests, handle_create_group, handle_join_group, handle_leave_group, handle_group_info,
    handle_search_groups, handle_list_groups, handle_list_members, handle_send_message, handle_get_history,
    with_before_time, with_group_id, with_members, with_number, messages_answer.
  all: each_answer.
Qed.

(** ** Requests without a valid token *)

Definition check_token (req : HttpRequest) : exec D (option UserTokenInfo) :=
  let token := extract_bearer_token req in
  if String.eqb token "" then ret None else auth_verify token.

Definition open_paths : list string := ["/api/v1/auth/register"; "/api/v1/auth/login"]%string.

Lemma refused_token req d d1 k : check_token req d = (d1, Ok None) ->
  exists r, caught (authorized req k) d = (d1, Ok r) /\ status r = 401 /\ well_formed r.
Proof.
  intros E. unfold check_token in E. unfold caught, authorized. destruct (String.eqb _ _).
  - unfold ret in E. simplify_eq.
    destruct (error_prints 401 "Missing or invalid Authorization header" d1 eq_refl) as (t & E1 & Ht).
    rewrite E1. eexists. split_and!; [done..|]. split_and!; [done..|]. eauto.
  - rewrite (bind_Ok _ _ _ _ _ E).
    destruct (error_prints 401 "Invalid or expired access token" d1 eq_refl) as (t & E1 & Ht).
    rewrite E1. eexists. split_and!; [done..|]. split_and!; [done..|]. eauto.
Qed.

Lemma routes_refuse notifier now_ms : Forall (fun r => route_path r ∉ open_paths ->
  forall req d d1, check_token req d = (d1, Ok None) ->
    exists resp, route_handler r req d = (d1, Ok resp) /\ status resp = 401 /\ well_formed resp) (api_routes notifier now_ms).
Proof.
  unfold api_routes, user_routes, message_routes, friend_routes, group_routes, group_message_routes.
  rewrite !Forall_app, !Forall_cons, !Forall_nil. split_and!; try done; intros Hp req d d1 E; cbn [route_handler route].
  all: try (by apply refused_token).
  all: exfalso; apply Hp; unfold open_paths; cbn [route_path route]; set_solver.
Qed.

(** C17: the HTTP interface.  Every request to every route gets exactly one response: a JSON
    document with one of eight status codes, whatever the clients, the token manager and the
    notifier answer or throw.  Without a valid token every route but registration and login
    answers 401 and has done nothing but look at the token. *)
Theorem http_answers notifier now_ms r req (d : D) : r ∈ api_routes notifier now_ms ->
  (exists d' resp, route_handler r req d = (d', Ok resp) /\ well_formed resp) /\
  (route_path r ∉ open_paths -> forall d1, check_token req d = (d1, Ok None) ->
   exists resp, route_handler r req d = (d1, Ok resp) /\ status resp = 401).
Proof.
  intros Hr. pose proof (proj1 (Forall_forall _ _) (routes_answer notifier now_ms) r Hr req d).
  split; [done|]. intros Hp d1 E.
  destruct (proj1 (Forall_forall _ _) (routes_refuse notifier now_ms) r Hr Hp req d d1 E) as (resp & ? & ? & _).
  by exists resp.
Qed.
End Answers.
