(* ===== verification/HttpFlows.v ===== *)
(** The gateway with its services in the same process, as [GatewayServer::init_server] builds
    it for the modes "local": the state [Api], its clients, token manager and notifier, and
    what follows for sequences of requests. *)
From S2P Require Import Prelude Text Schema Odb MemDb PasswordHasher Redis TokenStore Json ConnectionManager ProtobufRuntime ProtobufCodec Push Rpc Auth.
From S2P Require Import UserService UserRemote FriendService FriendRemote GroupService GroupRemote MessageService MessageRemote.
From S2P Require Import PushGateway Http UserHttp FriendHttp GroupHttp MessageHttp HttpApi.
Open Scope Z_scope.

(** The gateway's objects, among them the database of all services, and the keys of Redis that
    the token manager uses. *)
Record Api (R DB T : Type) := { gate : Gateway R DB; token_store : T }.
Arguments gate {R DB T} _.
Arguments token_store {R DB T} _.

Section Lifts.
Context {R DB T : Type}.

Definition on_tokens {A} (m : exec T A) : exec (Api R DB T) A := fun a =>
  let '(t, r) := m (token_store a) in ({| gate := gate a; token_store := t |}, r).
Definition on_db {A} (m : exec DB A) : exec (Api R DB T) A := fun a =>
  let '(db, r) := m (message_db (gate a)) in ({| gate := set_db db (gate a); token_store := token_store a |}, r).
Definition db_of (a : Api R DB T) : DB := message_db (gate a).
End Lifts.

Section Wiring.
Context {R DB T : Type} `{Redis R} `{Odb DB} `{Pbkdf2} `{TokenStore T} `{Json} `{Jwt}.
Context `{CodedOutput} `{ProtoMessage IMHeader} `{ProtoMessage PushRequest}.
(** The secret and the lifetimes; the random texts and bytes of one request; the hasher's
    iterations; the clock of a service in milliseconds. *)
Context (secret_key : string) (configs : gmap PlatformType PlatformTokenConfig) (jti rt : string).
Context (iterations_ : Z) (uid_rand salt_rand : option bytes) (clock_ms : Z) (service_device_id : string).

Definition api_auth : Authenticator (Api R DB T) := {|
  auth_verify token := on_tokens (verify_access_token secret_key token);
  auth_generate uid name device platform := on_tokens (generate_tokens secret_key configs jti rt uid name device platform)
|}.

Definition api_users : UserClient (Api R DB T) :=
  let cl := LocalUserClient iterations_ uid_rand salt_rand in {|
  cl_register_user q := on_db (cl_register_user (UserClient := cl) q);
  cl_login_by_account a p t := on_db (cl_login_by_account (UserClient := cl) a p t);
  cl_get_profile_by_uid u := on_db (cl_get_profile_by_uid (UserClient := cl) u);
  cl_get_profile_by_account a := on_db (cl_get_profile_by_account (UserClient := cl) a);
  cl_search_profiles k l := on_db (cl_search_profiles (UserClient := cl) k l);
  cl_update_profile q := on_db (cl_update_profile (UserClient := cl) q)
|}.

Definition api_friends : FriendClient (Api R DB T) :=
  let cl := LocalFriendClient clock_ms in {|
  cl_send_request q := on_db (cl_send_request (FriendClient := cl) q);
  cl_respond_to_request i u b := on_db (cl_respond_to_request (FriendClient := cl) i u b);
  cl_get_friends u := on_db (cl_get_friends (FriendClient := cl) u);
  cl_get_pending_requests u := on_db (cl_get_pending_requests (FriendClient := cl) u)
|}.

Definition api_groups : GroupClient (Api R DB T) :=
  let cl := LocalGroupClient clock_ms in {|
  cl_create_group q := on_db (cl_create_group (GroupClient := cl) q);
  cl_join_group g u t := on_db (cl_join_group (GroupClient := cl) g u t);
  cl_leave_group g u := on_db (cl_leave_group (GroupClient := cl) g u);
  cl_list_my_groups u := on_db (cl_list_my_groups (GroupClient := cl) u);
  cl_get_group_info g := on_db (cl_get_group_info (GroupClient := cl) g);
  cl_search_groups k l := on_db (cl_search_groups (GroupClient := cl) k l);
  cl_group_exists g := on_db (cl_group_exists (GroupClient := cl) g);
  cl_list_members g u := on_db (cl_list_members (GroupClient := cl) g u);
  cl_send_message g u c t := on_db (cl_send_message (GroupClient := cl) g u c t);
  cl_get_history g u t l := on_db (cl_get_history (GroupClient := cl) g u t l)
|}.

Definition api_messages : MessageClient (Api R DB T) :=
  let cl := LocalMessageClient in {|
  cl_send_text_message q := on_db (cl_send_text_message (MessageClient := cl) q);
  cl_get_conversation a b t l := on_db (cl_get_conversation (MessageClient := cl) a b t l);
  cl_pull_offline u t l := on_db (cl_pull_offline (MessageClient := cl) u t l);
  cl_mark_delivered i t := on_db (cl_mark_delivered (MessageClient := cl) i t);
  cl_mark_read i t := on_db (cl_mark_read (MessageClient := cl) i t)
|}.

(** [push_notifier_]: the in-process push service; [now1] and [now2] are its clock. *)
Definition api_notifier (now1 now2 : Z) : Notifier (Api R DB T) :=
  Some (fun uid msg_id content context a =>
    ({| gate := notify_user (H := local_ports) service_device_id push_service uid msg_id content context now1 now2 (gate a);
        token_store := token_store a |}, Ok tt)).
End Wiring.

(** * Inverting a handler *)
Section Inversion.
Context {D : Type} `{JsonLaws} `{Authenticator D}.

Lemma on_answer c l (d d' : D) r : answer c l d = (d', Ok r) ->
  d' = d /\ status r = c /\ parse (res_body r) = Some (obj l).
Proof.
  unfold answer. intros E. run_inv E. unfold ConnectionManager.or_throw in E0. destruct (dump _) as [t|] eqn:Et; [|done].
  unfold ret in *. simplify_eq. split_and!; [done..|]. by apply law_parse.
Qed.

Lemma on_error c msg (d d' : D) r : build_http_response c msg d = (d', Ok r) -> status r = c.
Proof. intros E. by apply on_answer in E as (_ & ? & _). Qed.

Lemma caught_inv m (d d' : D) r : caught m d = (d', Ok r) -> status r <> 500 -> m d = (d', Ok r).
Proof.
  unfold caught. destruct (m d) as [d1 [x|]]; [done|]. intros E Hs. by apply on_error in E.
Qed.

Lemma authorized_inv req k (d d' : D) r : authorized req k d = (d', Ok r) -> status r <> 401 ->
  exists info d1, extract_bearer_token req <> ""%string /\ auth_verify (extract_bearer_token req) d = (d1, Ok (Some info)) /\
    k info d1 = (d', Ok r).
Proof.
  unfold authorized. intros E Hs. destruct (String.eqb_spec (extract_bearer_token req) "").
  - by apply on_error in E.
  - run_inv E. destruct a as [info|]; [by exists info, d0|]. by apply on_error in E.
Qed.

Lemma with_body_inv req k (d d' : D) r : with_body req k d = (d', Ok r) -> status r <> 400 ->
  exists j, parse (req_body req) = Some j /\ k j d = (d', Ok r).
Proof. unfold with_body. intros E Hs. destruct (parse _) as [j|]; [by exists j|]. by apply on_error in E. Qed.

Lemma or_throw_inv {A} (o : option A) (d d' : D) a : ConnectionManager.or_throw o d = (d', Ok a) -> o = Some a /\ d' = d.
Proof. destruct o; unfold ConnectionManager.or_throw, ret; by intros [= <- <-]. Qed.
End Inversion.

(** Steps through a body up to its answer of status [c]. *)
Ltac field_inv E := let a := fresh "a" in let d := fresh "d" in let F := fresh "F" in
  apply bind_inv in E as [[_ E]|(a & d & F & E)]; [done|]; unfold body_str, body_u64 in F; apply or_throw_inv in F as [F ->].

(** The token after "Bearer ", in any case of its letters. *)
Lemma substring_all b : String.substring 0 (String.length b) b = b.
Proof. induction b as [|c b IH]; simpl; [done|by rewrite IH]. Qed.

Lemma substring_app a b : String.substring (String.length a) (String.length (a +:+ b) - String.length a) (a +:+ b) = b.
Proof.
  induction a as [|c a IH]; simpl.
  - rewrite Nat.sub_0_r. apply substring_all.
  - apply IH.
Qed.

Lemma substring_prefix a b : String.substring 0 (String.length a) (a +:+ b) = a.
Proof. induction a as [|c a IH]; simpl; [by destruct b|by rewrite IH]. Qed.

Lemma length_app_string a b : String.length (a +:+ b) = (String.length a + String.length b)%nat.
Proof. induction a as [|c a IH]; simpl; [done|by rewrite IH]. Qed.

Lemma bearer_token req p t : req_headers req !! "Authorization"%string = Some (p +:+ t)%string ->
  lower p = lower "Bearer " -> String.length p = 7%nat -> t <> ""%string -> extract_bearer_token req = t.
Proof.
  intros Hh Hl Hp Ht. unfold extract_bearer_token. rewrite Hh. change (String.length "Bearer ") with 7%nat.
  pose proof (length_app_string p t) as Hlen.
  destruct (String.length (p +:+ t) <=? 7)%nat eqn:E.
  { apply Nat.leb_le in E. destruct t as [|c t]; [done|]. simpl in Hlen. lia. }
  pose proof (substring_prefix p t) as Hpre. rewrite Hp in Hpre. rewrite Hpre, Hl, String.eqb_refl. simpl.
  rewrite <- Hp. apply substring_app.
Qed.

(** * Group messages and the status of private messages *)
Section GroupPush.
Context {R DB T : Type} `{Redis R} `{OdbReliable DB} `{TokenStore T} `{JsonLaws} `{Jwt}.
Context `{CodedOutput} `{ProtoMessage IMHeader} `{ProtoMessage PushRequest}.
Context (service_device_id : string).

Abbreviation G := (Gateway R DB).

(** The private messages are in order and can be marked. *)
Definition messages_ready (g : G) : Prop :=
  has_msg_client g = true /\ Odb.healthy (message_db g) /\ messages_wf (Odb.view (message_db g)).

(** What a push does to the private message with its id. *)
Definition marks (i : Z) (g g' : G) (m : Message) : Prop :=
  exists extra m', posted g' = posted g ++ extra /\ m' ∈ im_messages (Odb.view (message_db g')) /\ later m m' /\
    match extra with [] => m' = m | _ => msg_status m' = DELIVERED end.

Lemma marks_trans i g1 g2 g3 m :
  marks i g1 g2 m -> (forall m', later m m' -> m' ∈ im_messages (Odb.view (message_db g2)) -> marks i g2 g3 m') -> marks i g1 g3 m.
Proof.
  intros (x1 & m1 & E1 & Hm1 & L1 & S1) Hn. destruct (Hn m1 L1 Hm1) as (x2 & m2 & E2 & Hm2 & L2 & S2).
  exists (x1 ++ x2), m2. split_and!; [by rewrite E2, E1, app_assoc|done|by eapply msg_later_trans|].
  destruct x2; [|destruct (x1 ++ _) eqn:E; [by apply app_nil in E as []|done]].
  rewrite app_nil_r. subst m2. done.
Qed.

Lemma delivered_later t m : later m (delivered_at t m).
Proof. by split_and!. Qed.

Lemma local_mark_ready i t (g : G) : messages_ready g -> exists g' r, local_mark_delivered i t g = (g', r) /\
  posted g' = posted g /\ messages_ready g' /\ forall m, m ∈ im_messages (Odb.view (message_db g)) -> msg_id m = i ->
    delivered_at t m ∈ im_messages (Odb.view (message_db g')) /\
    replaced (delivered_at t m) (Odb.view (message_db g)) (Odb.view (message_db g')).
Proof.
  intros (Hc & Hd & Hw). unfold local_mark_delivered. rewrite Hc.
  destruct (MessageService.mark_delivered i t (message_db g)) as [db r] eqn:E. exists (set_db db g), r. split; [done|].
  split; [done|]. apply mark_delivered_spec in E as (Hd' & b & -> & Hb). unfold messages_ready. simpl.
  destruct b.
  - destruct Hb as (m & Hm & Hi & Hr). destruct (mark_change (delivered_at t) m _ _ (delivered_later t) ltac:(done) Hw Hm Hr)
      as [Hw' _]. split_and!; [done|auto|done|]. intros x Hx Hxi. rewrite (message_row x m (Odb.view (message_db g))); try done;
      [|apply Hw|congruence]. split; [|done]. apply (replaced_elem _ _ _ (delivered_at t m) (proj1 Hw) Hr). by left.
  - destruct Hb as [Hv Hb]. rewrite Hv. split_and!; [done|auto|done|]. intros x Hx Hxi. by destruct (Hb Hd (proj1 Hw) x Hx).
Qed.

(** What a push leaves of the database: all of it, or all but the row that it marks. *)
Definition only_marked (t : Z) (g g' : G) (m : Message) : Prop :=
  Odb.view (message_db g') = Odb.view (message_db g) \/
  replaced (delivered_at t m) (Odb.view (message_db g)) (Odb.view (message_db g')).

(** One push: nothing posted, or posted and marked. *)
Lemma notify_marks uid i content ctx now1 now2 (g : G) : messages_ready g ->
  let g' := notify_user (H := local_ports) service_device_id push_service uid i content ctx now1 now2 g in
  messages_ready g' /\ forall m, m ∈ im_messages (Odb.view (message_db g)) -> msg_id m = i ->
    marks i g g' m /\ only_marked now2 g g' m.
Proof.
  intros Hg. cbv zeta. set (g' := notify_user _ _ _ _ _ _ _ _ _).
  assert (Hsame : forall g2 : G, posted g2 = posted g -> message_db g2 = message_db g -> has_msg_client g2 = has_msg_client g ->
    messages_ready g2 /\ forall m, m ∈ im_messages (Odb.view (message_db g)) -> msg_id m = i ->
      marks i g g2 m /\ only_marked now2 g g2 m).
  { intros g2 Ep Ed Ec. unfold messages_ready. rewrite Ed, Ec. split; [done|]. intros m Hm _.
    split; [|left; by rewrite Ed]. exists [], m.
    rewrite Ep, Ed, app_nil_r. split_and!; [done..|apply msg_later_refl|done]. }
  unfold notify_user, push_service in g'. simpl in g'. unfold deliver, bind, try_catch in g'.
  assert (exists g1 l, local_get_sessions uid g = (g1, Ok l) /\ posted g1 = posted g /\ message_db g1 = message_db g /\
    has_msg_client g1 = has_msg_client g) as (g1 & l & E1 & P1 & D1 & C1).
  { unfold local_get_sessions. destruct (has_conn_mgr g); [|by exists g, []].
    destruct (get_user_sessions uid (conn_mgr g)) as [w l]. by eexists (set_conn w g), _. }
  subst g'. unfold local_ports at 1. simpl. rewrite E1. destruct l as [|s l]; [by apply Hsame|].
  unfold AllSessionsFanoutPolicy. simpl. destruct (build_payload _ _ _ _ _ _) as [|b p]; [by apply Hsame|].
  change (ps_session_id s :: map ps_session_id l) with (map ps_session_id (s :: l)).
  rewrite (send_all_posts (b :: p) (map ps_session_id (s :: l)) g1).
  set (sent := List.filter _ _). set (g2 := set_posted _ g1).
  destruct sent as [|x sent'] eqn:Es.
  { apply Hsame; simpl; [by rewrite app_nil_r|done|done]. }
  rewrite (proj2 (Z.ltb_lt 0 (zlen (x :: sent')))) by (unfold zlen; simpl; lia).
  assert (Hg2 : messages_ready g2) by (unfold messages_ready in *; simpl; by rewrite D1, C1).
  destruct (local_mark_ready i now2 g2 Hg2) as (g3 & r & E3 & P3 & R3 & M3). unfold local_ports. simpl.
  rewrite E3. assert (Hres : (let '(d1, r0) := match r with Ok _ => ret tt g3 | Throw => (g3, Throw) end in
      match r0 with Ok a => (d1, a) | Throw => (d1, tt) end).1 = g3) by (by destruct r).
  assert (Hgoal : messages_ready g3 /\ forall m, m ∈ im_messages (Odb.view (message_db g)) -> msg_id m = i ->
    marks i g g3 m /\ only_marked now2 g g3 m).
  { split; [done|]. intros m Hm Hi. simpl in M3. rewrite D1 in M3. destruct (M3 m Hm Hi) as [Hin Hrep].
    split; [|by right]. eexists (_ :: _), (delivered_at now2 m). rewrite P3. simpl. rewrite P1.
    split_and!; [done|done|apply delivered_later|done]. }
  by destruct r.
Qed.

Abbreviation notifier now1 now2 := (api_notifier (T := T) service_device_id now1 now2).

Lemma fan_out_marks now1 now2 notify gid i sender content ms (a : Api R DB T) : notifier now1 now2 = Some notify ->
  messages_ready (gate a) -> exists a', fan_out notify gid i sender content ms a = (a', Ok tt) /\
    messages_ready (gate a') /\ token_store a' = token_store a /\
    forall m, m ∈ im_messages (Odb.view (db_of a)) -> msg_id m = i -> marks i (gate a) (gate a') m.
Proof.
  intros [= <-]. revert a. induction ms as [|x ms IH]; intros a Ha; cbn [fan_out].
  { exists a. split_and!; [done..|]. intros m Hm Hi. exists [], m. rewrite app_nil_r.
    split_and!; [done..|apply msg_later_refl|done]. }
  destruct (String.eqb _ _); [by apply IH|]. unfold bind at 1.
  match goal with |- context [notify_user ?d ?s ?u ?j ?c ?x ?n1 ?n2 (gate a)] =>
    destruct (notify_marks u j c x n1 n2 (gate a) Ha) as [Hg Hm]; set (g1 := notify_user d s u j c x n1 n2 (gate a)) in * end.
  destruct (IH {| gate := g1; token_store := token_store a |} Hg) as (a' & E & Ha' & Ht & Hrest).
  exists a'. split_and!; [exact E|done|exact Ht|]. intros m Hin Hi.
  apply (marks_trans i _ g1); [by apply Hm|]. intros m' Hl Hm'. apply Hrest; [done|]. destruct Hl as [Hl _]. congruence.
Qed.

Lemma on_db_inv {A} (f : exec DB A) (a a' : Api R DB T) r : on_db f a = (a', r) ->
  exists db, f (db_of a) = (db, r) /\ a' = {| gate := set_db db (gate a); token_store := token_store a |}.
Proof. unfold on_db, db_of. destruct (f _) as [db x]. intros [= <- <-]. by exists db. Qed.

(** A step on the database that leaves the private messages alone. *)
Lemma ready_set_db db (a : Api R DB T) : messages_ready (gate a) -> (Odb.healthy (db_of a) -> Odb.healthy db) ->
  im_messages (Odb.view db) = im_messages (Odb.view (db_of a)) -> messages_ready (set_db db (gate a)).
Proof.
  intros (Hc & Hd & Hw) Hh Hm. unfold messages_ready, messages_wf in *. simpl.
  change (message_db (gate a)) with (db_of a) in *. rewrite Hm. auto.
Qed.

(** An accepted group message.  The sender is the user of the token and a member of an
    existing group, and the message is stored.  Its push to the other members goes through
    [PushRuntime], which marks the message with that id delivered: once the push has reached
    one session, the private message that happens to have the id of the group message, if
    there is one, is DELIVERED, though nobody pulled it or was sent it. *)
Theorem group_push_marks_private secret configs jti rt clock_ms now now1 now2 req (a a' : Api R DB T) resp :
  handle_send_message (H0 := api_auth secret configs jti rt) (H1 := api_groups clock_ms) (notifier now1 now2)
    now req a = (a', Ok resp) -> status resp = 201 -> messages_ready (gate a) ->
  exists info body gid content gm,
    (exists t, verify_access_token secret (extract_bearer_token req) (token_store a) = (t, Ok (Some info))) /\
    parse (req_body req) = Some body /\ value_u64 body "group_id" 0 = Some gid /\ value_str body "content" "" = Some content /\
    has_group (Odb.view (db_of a)) gid /\ has_member (Odb.view (db_of a)) gid (ti_user_id info) /\
    (exists s, inserted (GroupService.new_message gid (ti_user_id info) content now) gm (Odb.view (db_of a)) s) /\
    parse (res_body resp) = Some (obj [("message", JStr "Message sent"); ("msg_id", JInt (gm_id gm))]%string) /\
    forall m, m ∈ im_messages (Odb.view (db_of a)) -> msg_id m = gm_id gm -> marks (gm_id gm) (gate a) (gate a') m.
Proof.
  intros E Hs Ha. unfold handle_send_message in E.
  apply caught_inv in E; [|by rewrite Hs]. apply authorized_inv in E as (info & a1 & _ & Ev & E); [|by rewrite Hs].
  apply with_body_inv in E as (body & Hb & E); [|by rewrite Hs].
  field_inv E. field_inv E. destruct (a0 =? 0) eqn:Eg; [by apply on_error in E; congruence|]. zbool.
  destruct (String.eqb_spec a2 "") as [|Hc]; [by apply on_error in E; congruence|].
  unfold with_members in E. simpl in Ev. unfold on_tokens in Ev.
  destruct (verify_access_token secret (extract_bearer_token req) (token_store a)) as [t rv] eqn:Et. simplify_eq.
  run_inv E. simpl in E0. apply on_db_inv in E0 as (db1 & E1 & ->). unfold db_of in E1. simpl in E1.
  apply group_exists_spec in E1 as (Hd1 & Hv1 & b & [= <-] & Hex).
  destruct a1; simpl in E; [|by apply on_error in E; congruence].
  run_inv E. simpl in E0. apply on_db_inv in E0 as (db2 & E2 & ->). unfold db_of in E2. simpl in E2.
  apply list_members_inv in E2 as (Hd2 & Hv2 & l & [= <-] & Hl).
  destruct a1 as [|x ms]; [by apply on_error in E; congruence|].
  destruct Hl as [[? _]|(Hg & Hmem & _)]; [done|].
  run_inv E. simpl in E0. apply on_db_inv in E0 as (db3 & E3 & ->). unfold db_of in E3. simpl in E3.
  apply send_message_inv in E3 as (Hd3 & res & [= <-] & Hsend).
  destruct Hsend as [[_ Hr]|(_ & _ & _ & _ & gm & Hi & ->)].
  { destruct Hr; simpl in E; by apply on_error in E; congruence. }
  cbn [gs_ok gs_msg_id gs_message negb] in E. rewrite Hv2, Hv1 in Hi. rewrite Hv1 in Hmem.
  unfold api_notifier in E.
  match type of E with bind (fan_out ?n _ _ _ _ _) _ ?a3 = _ => set (st := a3) in *;
    destruct (fan_out_marks now1 now2 n a0 (gm_id gm) (ti_user_id info) a2 (x :: ms) st eq_refl)
      as (a4 & E4 & _ & _ & Hm) end.
  { destruct (inserted_message _ _ _ _ Hi) as (_ & _ & lm & _ & Hlm).
    apply (ready_set_db db3 {| gate := gate a; token_store := t |} Ha); [by auto|]. by rewrite Hlm. }
  rewrite (bind_Ok _ _ _ _ _ E4) in E. apply on_answer in E as (-> & _ & Hres).
  exists info, body, a0, a2, gm. split_and!; try done; [by exists t|by eexists|].
  intros m Hin Hid. destruct (Hm m) as (extra & m' & P & Hm' & L & S); [|done|].
  - unfold st, db_of. simpl. destruct (inserted_message _ _ _ _ Hi) as (_ & _ & lm & _ & ->). done.
  - exists extra, m'. split_and!; done.
Qed.
End GroupPush.

(** * Logging in, and the session it opens *)
Section Session.
Context {R DB T : Type} `{OdbReliable DB} `{Pbkdf2} `{TokenStoreLaws T} `{JsonLaws} `{JwtLaws}.
Context (secret : string) (configs : gmap PlatformType PlatformTokenConfig) (jti rt : string).
Context (iterations_ : Z) (uid_rand salt_rand : option bytes).
Hypothesis Hjti : jti <> ""%string.

Abbreviation auth := (api_auth (R := R) (DB := DB) secret configs jti rt).
Abbreviation users := (api_users (R := R) (T := T) iterations_ uid_rand salt_rand).

(** A text that can be printed. *)
Definition printable_profile (p : UserProfile) : Prop :=
  forall s, s ∈ val_texts (profile_to_json p) -> valid_text s.

(** The request [GET /api/v1/auth/info] with the token [t], at [a2]. *)
Definition session_shows (t uid : string) (a1 a2 : Api R DB T) : Prop :=
  forall req p u, req_headers req !! "Authorization"%string = Some (p +:+ t)%string ->
    lower p = lower "Bearer " -> String.length p = 7%nat ->
    u ∈ im_users (Odb.view (db_of a2)) -> u_uid u = uid -> printable_profile (to_profile u) ->
    exists a3 resp, handle_profile (H0 := auth) (H1 := users) req a2 = (a3, Ok resp) /\ status resp = 200 /\
      parse (res_body resp) = Some (obj [("profile", profile_to_json (to_profile u))]%string).

(** Later, with the token still in force and the database available. *)
Definition in_session (plat : string) (a1 a2 : Api R DB T) : Prop :=
  Odb.healthy (db_of a2) /\ pairwise conflict (im_users (Odb.view (db_of a2))) /\ st_healthy (token_store a2) /\
  clock (token_store a1) <= clock (token_store a2) <= numeric_date (access_expiry configs plat 0 (clock (token_store a1))) /\
  found (st_view (token_store a2)) (revoked_key jti) = None.

Lemma profile_200 info req (a a1 : Api R DB T) u : extract_bearer_token req <> ""%string ->
  auth_verify (Authenticator := auth) (extract_bearer_token req) a = (a1, Ok (Some info)) ->
  Odb.healthy (db_of a1) -> pairwise conflict (im_users (Odb.view (db_of a1))) ->
  u ∈ im_users (Odb.view (db_of a1)) -> u_uid u = ti_user_id info -> printable_profile (to_profile u) ->
  exists a3 resp, handle_profile (H0 := auth) (H1 := users) req a = (a3, Ok resp) /\ status resp = 200 /\
    parse (res_body resp) = Some (obj [("profile", profile_to_json (to_profile u))]%string).
Proof.
  intros Ht Ev Hd Hp Hu Hid Hpr. unfold handle_profile, caught, authorized. rewrite (proj2 (String.eqb_neq _ _) Ht).
  rewrite (bind_Ok _ _ _ _ _ Ev). unfold bind at 1. simpl. unfold on_db at 1.
  destruct (get_profile_by_uid (ti_user_id info) (message_db (gate a1))) as [db r] eqn:E.
  apply get_profile_by_uid_inv in E as (Hd' & Hv & o & -> & Ho). destruct o as [u'|].
  2: { by destruct (Ho Hd u Hu). }
  destruct Ho as [Hu' Hid']. assert (u' = u) as ->.
  { apply (pairwise_eq conflict conflict_sym _ _ _ Hp); try done. unfold conflict. simpl.
    rewrite Hid', Hid. by rewrite bool_decide_eq_true_2. }
  simpl. unfold answer, bind. destruct (law_dump [("profile", profile_to_json (to_profile u))]%string) as [text Htext].
  { intros s Hs. unfold texts in Hs. cbn [map concat snd] in Hs. rewrite app_nil_r in Hs. by apply Hpr. }
  rewrite Htext. simpl. eexists _, _. split_and!; [done|done|]. by apply law_parse.
Qed.

Lemma token_session user name dev plat (a1 a2 : Api R DB T) t1 t0 t :
  generate_access_token secret configs jti user name dev plat 0 t0 = (t1, Ok t) -> t <> ""%string ->
  clock t0 = clock (token_store a1) -> in_session plat a1 a2 -> session_shows t user a1 a2.
Proof.
  intros Hg Ht Hc (Hd & Hp & Hst & Hclk & Hr) req p u Hh Hl Hlen Hu Hid Hpr.
  pose proof (bearer_token req p t Hh Hl Hlen Ht) as Htok.
  assert (clock t1 = clock t0) as Hc1 by (by destruct (generate_access_inv _ _ _ _ _ _ _ _ _ _ _ Hg Ht) as [-> _]).
  destruct (access_facts _ _ _ _ _ _ _ _ _ _ _ (token_store a2) Hg Ht Hjti Hst) as (t3 & E & _ & _); [lia|].
  eapply (profile_200 _ req a2 {| gate := gate a2; token_store := t3 |}); try done.
  - by rewrite Htok.
  - simpl. unfold on_tokens. rewrite Htok, E, decide_True; [done|]. split; [|done]. rewrite Hc1, Hc. lia.
  - done.
Qed.

(** The answer with both tokens. *)
Lemma on_tokens_answer c p dev plat (a a1 : Api R DB T) resp :
  with_tokens (H0 := auth) c p dev plat a = (a1, Ok resp) ->
  exists t0 t r, generate_access_token secret configs jti (p_uid p) (p_account p) dev plat 0 (token_store a) = (t0, Ok t) /\
    clock (token_store a1) = clock (token_store a) /\ gate a1 = gate a /\
    parse (res_body resp) = Some (obj [("profile", profile_to_json p); ("access_token", JStr t); ("refresh_token", JStr r)]%string).
Proof.
  unfold with_tokens. intros E. run_inv E. apply on_answer in E as (-> & _ & Hl). simpl in E0. unfold on_tokens in E0.
  destruct (generate_access_ok secret configs jti (p_uid p) (p_account p) dev plat 0 (token_store a)) as [t Et].
  unfold generate_tokens in E0. rewrite (bind_Ok _ _ _ _ _ Et) in E0. unfold bind in E0.
  destruct (generate_refresh_token _ _ _ _ _ _ _ (token_store a)) as [t2 [r|]] eqn:Er; [|done].
  unfold ret in E0. simplify_eq. exists (token_store a), t, r. split_and!; [done| |done|done].
  assert (rt <> String Ascii.zero rt) by (intros Hx; apply (f_equal String.length) in Hx; simpl in Hx; lia).
  by destruct (frames_generate_refresh configs (String Ascii.zero rt) rt (p_uid p) (p_account p) dev plat 0 ltac:(done) _ _ _ Er)
    as (_ & ? & _).
Qed.

(** What a successful registration or login hands out: the profile, and an access token that
    shows the profile of that user until it expires or is revoked. *)
Definition opens_session (body : json) (p : UserProfile) (a1 : Api R DB T) (resp : HttpResponse) : Prop :=
  exists dev plat t r, value_str body "device_id" "http-default" = Some dev /\ value_str body "platform" "web" = Some plat /\
    parse (res_body resp) = Some (obj [("profile", profile_to_json p); ("access_token", JStr t); ("refresh_token", JStr r)]%string) /\
    (t <> ""%string -> forall a2, in_session plat a1 a2 -> session_shows t (p_uid p) a1 a2).

Lemma opened c p dev plat body (a a1 : Api R DB T) resp : value_str body "device_id" "http-default" = Some dev ->
  value_str body "platform" "web" = Some plat -> with_tokens (H0 := auth) c p dev plat a = (a1, Ok resp) ->
  opens_session body p a1 resp.
Proof.
  intros Hdev Hplat E. destruct (on_tokens_answer _ _ _ _ _ _ _ E) as (t0 & t & r & Eg & Hc & _ & Hl).
  exists dev, plat, t, r. split_and!; [done..|]. intros Ht a2 Hs.
  by eapply (token_session _ _ dev plat).
Qed.

(** A password and the text stored for it: the text is the hash of the password and, with the
    numbers of the hasher, is accepted for that password and for exactly those that derive its key. *)
Definition hash_given (pw stored : string) : Prop :=
  hash iterations_ salt_rand pw = Some stored /\
  (Pbkdf2Laws -> 0 < iterations_ < 2 ^ 31 -> forall salt, salt_rand = Some salt -> length salt = kSaltLength ->
    forall pw', verify pw' stored = bool_decide (pbkdf2 pw' salt iterations_ = pbkdf2 pw salt iterations_)).

Lemma hash_is_given pw stored : hash iterations_ salt_rand pw = Some stored -> hash_given pw stored.
Proof.
  intros Hh. split; [done|]. intros Hlaws Hn salt Hsalt Hl pw'. rewrite Hsalt in Hh.
  assert (E : PasswordHasher iterations_ = iterations_) by (unfold PasswordHasher; by rewrite (proj2 (Z.ltb_lt _ _)) by lia).
  rewrite <- E in Hh. rewrite (verify_hash iterations_ salt pw pw' stored) by (done || lia). by rewrite E.
Qed.

(** C20: logging in and registering over HTTP.  A login that answers 200 was made with a stored
    account and a password its hash accepts; a registration that answers 201 stored a new user
    under an account nobody had, with the hash of the password of the request, which accepts
    that password and exactly those with its derived key.  Either hands out the profile and, unless signing failed, an
    access token with which [GET /api/v1/auth/info] answers 200 with the stored profile of that
    user, at every later time until the token expires or is revoked. *)
Theorem session_opened now req (a a1 : Api R DB T) resp :
  Odb.healthy (db_of a) -> pairwise conflict (im_users (Odb.view (db_of a))) ->
  (handle_login (H0 := auth) (H1 := users) now req a = (a1, Ok resp) -> status resp = 200 ->
   exists body u pw p, parse (req_body req) = Some body /\ value_str body "account" "" = Some (u_account u) /\
     value_str body "password" "" = Some pw /\ u ∈ im_users (Odb.view (db_of a)) /\
     verify pw (u_password_hash u) = true /\ p_uid p = u_uid u /\ opens_session body p a1 resp) /\
  (handle_register (H0 := auth) (H1 := users) now req a = (a1, Ok resp) -> status resp = 201 ->
   exists body u pw, parse (req_body req) = Some body /\ value_str body "account" "" = Some (u_account u) /\
     value_str body "password" "" = Some pw /\ pw <> ""%string /\ hash_given pw (u_password_hash u) /\
     inserted u u (Odb.view (db_of a)) (Odb.view (db_of a1)) /\
     (forall x, x ∈ im_users (Odb.view (db_of a)) -> u_account x <> u_account u) /\
     opens_session body (to_profile u) a1 resp).
Proof.
  intros Hd Hp. split; intros E Hs.
  - apply caught_inv in E; [|by rewrite Hs]. apply with_body_inv in E as (body & Hb & E); [|by rewrite Hs].
    do 4 field_inv E. destruct (_ || _); [by apply on_error in E; congruence|].
    run_inv E. simpl in E0. apply on_db_inv in E0 as (db & E0 & ->).
    apply login_inv in E0 as (_ & res & [= ->] & Hl); [|done].
    destruct Hl as [(_ & -> & _)|(u & Hu & <- & Hl)]; [by apply on_error in E; congruence|].
    destruct Hl as [(_ & _ & ->)|(Hv & Hl)]; [by apply on_error in E; congruence|].
    assert (exists u', res = user_ok (to_profile u') /\ u_uid u' = u_uid u) as (u' & -> & Hid)
      by (destruct Hl as [[_ ->]|(_ & -> & _)]; eauto).
    exists body, u, a2, (to_profile u'). split_and!; try done. exact (opened 200 _ a3 a4 _ _ _ _ F1 F2 E).
  - apply caught_inv in E; [|by rewrite Hs]. apply with_body_inv in E as (body & Hb & E); [|by rewrite Hs].
    do 5 field_inv E. destruct (_ || _); [by apply on_error in E; congruence|].
    run_inv E. simpl in E0. apply on_db_inv in E0 as (db & E0 & ->).
    apply register_inv in E0 as (_ & Hr).
    destruct Hr as [(uid & h & _ & Hh & _ & Hpw & Hi & ->)|[_ Hr]].
    2: { destruct Hr; simpl in E; by apply on_error in E; congruence. }
    set (u := registered _ uid h) in *. exists body, u, a2.
    destruct (on_tokens_answer _ _ _ _ _ _ _ E) as (_ & _ & _ & _ & _ & Hg & _).
    split_and!; [done|done|done|exact Hpw|by apply hash_is_given|unfold db_of; by rewrite Hg| |exact (opened 201 _ a4 a5 _ _ _ _ F2 F3 E)].
    intros x Hx He. destruct Hi as (_ & Hc & _). specialize (Hc x Hx). unfold conflict in Hc. simpl in Hc.
    rewrite (bool_decide_eq_true_2 (a0 = u_account x)) in Hc by done. by rewrite !orb_true_r in Hc.
Qed.
End Session.

(** * Examples: one process with everything in memory *)
Module FlowExamples.
Import ToyJwt AuthExamples PushGateway.Example_push GroupService.Witness ProtobufCodec.Reference.
#[local] Existing Instances Mem.mem_redis Mem.mem_redis_laws Json.Toy.toy_json Json.Toy.toy_json_laws MemStore.mem_store MemStore.mem_store_laws PasswordHasher.Toy.toy.
#[local] Existing Instances Leb128.output Leb128.input Leb128.laws.

Abbreviation State := (Api Mem.t MemDb MemStore.t).

Definition state (w : Manager Mem.t) (db : MemDb) : State :=
  {| gate := {| has_conn_mgr := true; has_msg_client := true; conn_mgr := w; posted := []; message_db := db |};
     token_store := AuthExamples.start |}.
Definition request (headers : list (string * string)) (body : list (string * jval)) : HttpRequest :=
  from_httplib_request "POST" "/" (default ""%string (dump (obj body))) headers [].

Definition status_of {S} (run : S * result HttpResponse) : option Z := match run.2 with Ok r => Some (status r) | Throw => None end.

Lemma pairwise_one {A} (c : A -> A -> bool) x : pairwise c [x].
Proof. intros y z rest H. apply Permutation_length in H. done. Qed.

(** Ada logs in. *)
Definition nobody : Manager Mem.t := ConnectionManager.start None ∅.
Definition login : State * result HttpResponse :=
  handle_login (H0 := api_auth "key" conf "id" "r1") (H1 := api_users 7 None None) 5
    (request [] [("account", JStr "ada"); ("password", JStr "pw")]%string) (state nobody da).

(** Bob registers. *)
Definition registering : State * result HttpResponse :=
  handle_register (H0 := api_auth "key" conf "id" "r1") (H1 := api_users 7 (Some PasswordHasher.Toy.salt) (Some PasswordHasher.Toy.salt)) 5
    (request [] [("account", JStr "bob"); ("password", JStr "secret")]%string) (state nobody da).

Lemma session_opened_witness :
  (exists a1 resp body p, login = (a1, Ok resp) /\ status resp = 200 /\
     opens_session "key" conf "id" "r1" 7 None None body p a1 resp) /\
  exists a1 resp u, registering = (a1, Ok resp) /\ status resp = 201 /\ u ∈ im_users (Odb.view (db_of a1)) /\
    verify "secret" (u_password_hash u) = true.
Proof.
  split.
  - assert (Hs : status_of login = Some 200) by (vm_compute; reflexivity).
    destruct login as [a1 [resp|]] eqn:E; [|done]. injection Hs as Hs. unfold login in E.
    eapply (session_opened (DB := MemDb) "key" conf "id" "r1" 7 None None ltac:(done) 5 _ _ a1 resp) in E as (body & u & pw & p & _ & _ & _ & _ & _ & _ & Ho);
      [by exists a1, resp, body, p|reflexivity| |done].
    apply pairwise_one.
  - assert (Hs : status_of registering = Some 201) by (vm_compute; reflexivity).
    destruct registering as [a1 [resp|]] eqn:E; [|done]. injection Hs as Hs. unfold registering in E.
    eapply (session_opened (DB := MemDb) "key" conf "id" "r1" 7 (Some PasswordHasher.Toy.salt) (Some PasswordHasher.Toy.salt) ltac:(done) 5 _ _ a1 resp)
      in E as (body & u & pw & Hb & _ & Hpw & _ & [_ Hv] & Hi & _); [|reflexivity|apply pairwise_one|done].
    exists a1, resp, u. split_and!; [done|done|apply (inserted_elem _ _ _ _ u Hi); by left|].
    rewrite (Hv PasswordHasher.Toy.toy_laws ltac:(lia) PasswordHasher.Toy.salt eq_refl eq_refl).
    apply bool_decide_eq_true. f_equal.
    simpl in Hb. injection Hb as <-. vm_compute in Hpw. by injection Hpw as <-.
Defined.

(** Without a token, the list of friends is refused. *)
Lemma http_answers_witness : let r := route "GET" "/api/v1/friends" (handle_list_friends (H0 := api_auth "key" conf "id" "r1")
    (H1 := api_friends 5)) in
  exists resp, route_handler r (request [] []) (state nobody da) = (state nobody da, Ok resp) /\ status resp = 401.
Proof.
  intros r. destruct (http_answers (H1 := api_auth "key" conf "id" "r1") (H2 := api_users 7 None None) (H3 := api_friends 5)
    (H4 := api_groups 5) (H5 := api_messages) None 9 r (request [] []) (state nobody da)) as [_ Hr].
  - unfold api_routes, user_routes, message_routes, friend_routes. rewrite !elem_of_app. right. right. left. do 2 right. left.
  - apply Hr; [|reflexivity]. unfold open_paths. simpl. set_solver.
Defined.

(** Ada writes to the group; Bob is connected, and a private message with id 1 is waiting. *)
Definition bob_here : Manager Mem.t :=
  (add_connection (H := Mem.mem_redis) (H0 := Json.Toy.toy_json) no_multi (id_of 2) "d1" "web" "session_1" 5000000
     (ConnectionManager.start None {["session_1"%string]})).1.
Definition secret : SendRequest :=
  {| sq_sender_uid := id_of 2; sq_receiver_uid := id_of 1; sq_content := "secret"; sq_msg_type := TEXT; sq_now_ms := 3 |}.
Definition waiting : MemDb := fst (run_message (MessageService.Send secret) dd).
Definition secret_row : Message := with_msg_id 1 (requested secret).
Definition ada_token : string := default ""%string
  (jwt_sign "key" (access_claims conf 1700000000500000000 "id" (id_of 1) "ada" "phone" "ios" 60)).
Definition post : State * result HttpResponse :=
  handle_send_message (H0 := api_auth "key" conf "id" "r1") (H1 := api_groups 5) (api_notifier "gw" 10 20) 9
    (request [("Authorization", "Bearer " +:+ ada_token)]%string [("group_id", JInt 1); ("content", JStr "hello all")]%string)
    (state bob_here waiting).

Lemma waiting_ready : messages_ready (gate (state bob_here waiting)).
Proof.
  split; [done|]. split; [reflexivity|]. apply (message_runs_inv dd); [|split; [apply pairwise_nil|by intros m ?%elem_of_nil]].
  apply rtc_once. exists (MessageService.Send secret), (Ok tt). vm_compute. reflexivity.
Qed.

(** The id a response reports. *)
Definition reported_id (r : HttpResponse) : option Z := j ← parse (res_body r); get_int j "msg_id".
Lemma reported_answer r i : parse (res_body r) = Some (obj [("message", JStr "Message sent"); ("msg_id", JInt i)]%string) ->
  reported_id r = Some i.
Proof. unfold reported_id. by intros ->. Qed.

Lemma group_push_marks_private_witness : exists a' resp, post = (a', Ok resp) /\ status resp = 201 /\
  map msg_status (im_messages (Odb.view waiting)) = [SENT] /\
  exists m, m ∈ im_messages (Odb.view (db_of a')) /\ msg_id m = 1 /\ msg_content m = "secret"%string /\ msg_status m = DELIVERED.
Proof.
  assert (Hs : status_of post = Some 201) by (vm_compute; reflexivity).
  assert (Hp : length (posted (gate post.1)) = 1%nat) by (vm_compute; reflexivity).
  assert (Hi1 : (match post.2 with Ok r => reported_id r | Throw => None end) = Some 1) by (vm_compute; reflexivity).
  destruct post as [a' [resp|]] eqn:E; [|done]. injection Hs as Hs. simpl in Hp. exists a', resp. split_and!; [done|done|by vm_compute|].
  unfold post in E.
  destruct (group_push_marks_private "gw" "key" conf "id" "r1" 5 9 10 20 _ _ a' resp E Hs waiting_ready)
    as (info & body & gid & content & gm & _ & _ & _ & _ & _ & _ & (s & Hi) & Hr & Hm).
  simpl in Hi1. assert (Hid : gm_id gm = 1) by (apply reported_answer in Hr; congruence).
  destruct (Hm secret_row) as (extra & m & P & Hin & (L1 & L2 & L3 & L4 & _) & S); [vm_compute; left|by rewrite Hid|].
  exists m. split_and!; [done|done|done|]. destruct extra; [|done]. by rewrite P in Hp.
Defined.
End FlowExamples.
