(* ===== verification/Config.v ===== *)
(** The configuration reader (src/common/utils/config_mgr.hpp): dotted keys as JSON pointers
    into the parsed file, typed reads with defaults, arrays, and the conversions of
    environment values.  Numbers of the document are integers.  ConfigEnv has what writes to it:
    [set], the flat map of the environment and ".env" files. *)
From S2P Require Import Prelude Text Json.
From Stdlib Require Import Ascii.
Open Scope Z_scope.

(** What the constructor finds at its path. *)
Inductive config_file := Unopened | Malformed | Document (v : jval).

(** [ConfigManager::ConfigManager(path)]: [None] when [file >> json_] throws. *)
Definition ConfigManager (f : config_file) : option jval :=
  match f with Unopened => Some JNull | Malformed => None | Document v => Some v end.

(** ** JSON pointers *)

(** ["/" + key] with "." replaced by "/", as its reference tokens. *)
Fixpoint split_key (acc : string) (key : string) : list string :=
  match key with
  | EmptyString => [acc]
  | String c key' =>
      if Ascii.eqb c "."%char || Ascii.eqb c "/"%char then acc :: split_key EmptyString key'
      else split_key (acc +:+ String c EmptyString) key'
  end.

(** Escapes of a token: [None] for a "~" that neither "0" nor "1" follows. *)
Fixpoint unescape (s : string) : option string :=
  match s with
  | EmptyString => Some EmptyString
  | String "~" (String "0" s') => String "~"%char <$> unescape s'
  | String "~" (String "1" s') => String "/"%char <$> unescape s'
  | String "~" _ => None
  | String c s' => String c <$> unescape s'
  end.

Definition tokens (key : string) : option (list string) :=
  mapM unescape (split_key EmptyString key).

(** The index a token names in an array: digits without a leading zero. *)
Definition array_index (t : string) : option nat :=
  match t with
  | EmptyString => None
  | String "0" EmptyString => Some 0%nat
  | String "0" _ => None
  | _ => match digits 0 t with
         | (n, EmptyString) => if n <? 2 ^ 64 then Some (Z.to_nat n) else None
         | _ => None
         end
  end.

Definition child (v : jval) (t : string) : option jval :=
  match v with
  | JObj l => member t l
  | JArr l => i ← array_index t; l !! i
  | _ => None
  end.

(** [json_.contains(ptr)] with [json_[ptr]]; a thrown exception counts as not contained, since
    every reader catches it. *)
Fixpoint walk (v : jval) (ts : list string) : option jval :=
  match ts with [] => Some v | t :: ts' => w ← child v t; walk w ts' end.

Definition at_key (doc : jval) (key : string) : option jval :=
  ts ← tokens key; walk doc ts.

(** ** Typed reads *)

(** [v.get<T>()]: [None] when it throws. *)
Definition get_string (v : jval) : option string := match v with JStr s => Some s | _ => None end.
Definition get_i32 (v : jval) : option Z :=
  match v with JInt z => Some (i32 z) | JBool b => Some (Z.b2z b) | _ => None end.
Definition get_u32 (v : jval) : option Z :=
  match v with JInt z => Some (u32 z) | JBool b => Some (Z.b2z b) | _ => None end.
Definition get_size (v : jval) : option Z := match v with JInt z => Some (u64 z) | _ => None end.
Definition get_json (v : jval) : option jval := Some v.

(** [get<T>(key, default_value)]. *)
Definition get {T} (as_T : jval -> option T) (doc : jval) (key : string) (dflt : T) : T :=
  default dflt (at_key doc key ≫= as_T).

Definition get_array_size (doc : jval) (key : string) : nat :=
  match at_key doc key with Some (JArr l) => length l | _ => 0%nat end.

(** [get_array_item<T>(key, index, default_value)]. *)
Definition get_array_item {T} (as_T : jval -> option T) (doc : jval) (key : string) (i : nat)
    (dflt : T) : T :=
  get as_T doc (key +:+ String "/" (dec (Z.of_nat i))) dflt.

Definition has_key (doc : jval) (key : string) : bool :=
  match at_key doc key with Some _ => true | None => false end.

Definition get_json_value (doc : jval) (key : string) : jval := default JNull (at_key doc key).

Definition get_json_object (doc : jval) (key : string) (dflt : jval) : jval :=
  match at_key doc key with Some (JObj l) => JObj l | _ => dflt end.

(** [get_array<T>(key)]: the elements converted before the first that is not a [T]. *)
Fixpoint convert_all {T} (as_T : jval -> option T) (l : list jval) : list T :=
  match l with
  | [] => []
  | v :: l' => match as_T v with Some x => x :: convert_all as_T l' | None => [] end
  end.
Definition get_array {T} (as_T : jval -> option T) (doc : jval) (key : string) : list T :=
  match at_key doc key with Some (JArr l) => convert_all as_T l | _ => [] end.

(** [get_array_field<T>(array_key, field_key)]: elements without the field are skipped. *)
Fixpoint convert_fields {T} (as_T : jval -> option T) (k : string) (l : list jval) : list T :=
  match l with
  | [] => []
  | JObj ms :: l' =>
      match member k ms with
      | Some v => match as_T v with Some x => x :: convert_fields as_T k l' | None => [] end
      | None => convert_fields as_T k l'
      end
  | _ :: l' => convert_fields as_T k l'
  end.
Definition get_array_field {T} (as_T : jval -> option T) (doc : jval) (key k : string) : list T :=
  match at_key doc key with Some (JArr l) => convert_fields as_T k l | _ => [] end.

(** ** Environment values *)

Definition to_lower (c : ascii) : ascii :=
  if (65 <=? chr c) && (chr c <=? 90) then ascii_of_N (Z.to_N (chr c + 32)) else c.
Fixpoint toLowerCase (s : string) : string :=
  match s with EmptyString => EmptyString | String c s' => String (to_lower c) (toLowerCase s') end.

Fixpoint all_digits (s : string) : bool :=
  match s with EmptyString => true | String c s' => is_digit c && all_digits s' end.

Definition isInteger (s : string) : bool :=
  match snd (split_sign s) with EmptyString => false | t => all_digits t end.

Definition isBool (s : string) : bool :=
  bool_decide (toLowerCase s ∈ ["true"; "false"; "1"; "0"; "yes"; "no"; "on"; "off"]%string).
Definition toBool (s : string) : bool :=
  bool_decide (toLowerCase s ∈ ["true"; "1"; "yes"; "on"]%string).

(** [convertStringToType<T>(str, default_value)] at [std::string], [int], [long long] and
    [bool]. *)
Definition convert_string (s : string) (_ : string) : string := s.
Definition convert_int (s : string) (dflt : Z) : Z := default dflt (stoi s).
Definition convert_long (s : string) (dflt : Z) : Z := default dflt (stoll s).
Definition convert_bool (s : string) (_ : bool) : bool := toBool s.

(** [getEnv<T>(key, default_value)] and [getWithEnv<T>(key, env_key, default_value)];
    [env] is [std::getenv]. *)
Definition getEnv {T} (convert : string -> T -> T) (env : string -> option string) (key : string)
    (dflt : T) : T :=
  match env key with Some s => convert s dflt | None => dflt end.

Definition getWithEnv {T} (as_T : jval -> option T) (convert : string -> T -> T)
    (env : string -> option string) (doc : jval) (key env_key : string) (dflt : T) : T :=
  let actual_env_key := match env_key with EmptyString => key | _ => env_key end in
  match env actual_env_key with
  | Some s => convert s dflt
  | None =>
      if negb (bool_decide (env_key = EmptyString)) && has_key doc env_key
      then get as_T doc env_key dflt
      else get as_T doc key dflt
  end.

(** * Reading an array by index *)

Lemma split_key_app acc k d : split_key acc (k +:+ String "/" d) = split_key acc k ++ split_key EmptyString d.
Proof.
  revert acc. induction k as [|c k IH]; intros acc; [done|]. rewrite app_cons. simpl.
  destruct (_ || _); simpl; by rewrite IH.
Qed.

(** Text of digits is one token, without escapes. *)
Lemma split_digits acc d : all_digits d = true -> split_key acc d = [acc +:+ d].
Proof.
  revert acc. induction d as [|c d IH]; intros acc; [by rewrite string_app_nil_r|].
  simpl. intros [Hc Hd]%andb_prop. destruct (Ascii.eqb_spec c "."); [by subst|].
  destruct (Ascii.eqb_spec c "/"); [by subst|]. simpl. rewrite IH by done. f_equal.
  clear. induction acc as [|a acc IH]; [done|]. by rewrite !app_cons, IH.
Qed.

Lemma unescape_digits d : all_digits d = true -> unescape d = Some d.
Proof.
  induction d as [|c d IH]; [done|]. simpl. intros [Hc Hd]%andb_prop.
  destruct c as [[] [] [] [] [] [] [] []]; try discriminate; by rewrite (IH Hd).
Qed.

Lemma all_digits_app s t : all_digits (s +:+ t) = all_digits s && all_digits t.
Proof. induction s as [|c s IH]; [done|]. rewrite app_cons. simpl. by rewrite IH, andb_assoc. Qed.

(** Decimal text: digits, without a leading zero. *)
Lemma dec_digits fuel n : 0 <= n -> all_digits (dec_fuel fuel n) = true.
Proof.
  revert n. induction fuel as [|f IH]; intros n Hn; [done|]. cbn [dec_fuel].
  pose proof (Z.mod_pos_bound n 10 ltac:(lia)) as Hm.
  assert (all_digits (String (ascii_of_N (Z.to_N (48 + n mod 10))) EmptyString) = true) as Hd.
  { cbn [all_digits]. by rewrite is_digit_spec. }
  destruct (n <? 10); [done|]. rewrite all_digits_app, IH, Hd; [done|]. by apply Z.div_pos.
Qed.

Lemma dec_head fuel n : 0 < n < 10 ^ Z.of_nat fuel ->
  exists k s, dec_fuel fuel n = String (ascii_of_N (Z.to_N (48 + k))) s /\ 0 < k < 10.
Proof.
  revert n. induction fuel as [|f IH]; intros n Hn; [simpl in Hn; lia|]. cbn [dec_fuel].
  destruct (n <? 10) eqn:E; zbool.
  - exists n, EmptyString. rewrite Z.mod_small by lia. split; [done|lia].
  - destruct (IH (n / 10)) as (k & s & -> & Hk).
    { rewrite Nat2Z.inj_succ, Z.pow_succ_r in Hn by lia.
      split; [apply Z.div_str_pos; lia|apply Z.div_lt_upper_bound; lia]. }
    eexists k, _. split; [apply app_cons|done].
Qed.

Lemma array_index_dec i : Z.of_nat i < 2 ^ 64 -> array_index (dec (Z.of_nat i)) = Some i.
Proof.
  intros Hi. destruct (decide (i = 0%nat)) as [->|Hne]; [done|]. unfold dec.
  assert (Hr : 0 < Z.of_nat i < 10 ^ Z.of_nat 20) by (split; [lia|]; simpl; lia).
  pose proof (digits_dec 20 (Z.of_nat i) ltac:(lia)) as Hd.
  destruct (dec_head 20 _ Hr) as (k & s & E & Hk). rewrite E in *. clear E Hr.
  assert (k = 1 \/ k = 2 \/ k = 3 \/ k = 4 \/ k = 5 \/ k = 6 \/ k = 7 \/ k = 8 \/ k = 9) as Hc by lia.
  destruct Hc as [->|[->|[->|[->|[->|[->|[->|[->| ->]]]]]]]];
    unfold array_index; simpl in Hd |- *; rewrite Hd; (destruct (Z.of_nat i <? 2 ^ 64) eqn:E;
    zbool; [by rewrite Nat2Z.id|lia]).
Qed.

Lemma walk_app v ts us : walk v (ts ++ us) = w ← walk v ts; walk w us.
Proof.
  revert v. induction ts as [|t ts IH]; intros v; [done|]. simpl.
  destruct (child v t); simpl; [apply IH|done].
Qed.

Lemma tokens_index key i : tokens (key +:+ String "/" (dec (Z.of_nat i))) =
  ts ← tokens key; Some (ts ++ [dec (Z.of_nat i)]).
Proof.
  unfold tokens. rewrite split_key_app.
  assert (Hd : all_digits (dec (Z.of_nat i)) = true) by (apply dec_digits; lia).
  rewrite (split_digits EmptyString (dec _) Hd).
  generalize (split_key EmptyString key). intros l. induction l as [|t l IH]; simpl.
  - by rewrite unescape_digits.
  - destruct (unescape t); [|done]. simpl in *. rewrite IH. by destruct (mapM unescape l).
Qed.

(** Element [i] of an array that a key names. *)
Lemma at_key_index doc key l i : at_key doc key = Some (JArr l) -> Z.of_nat i < 2 ^ 64 ->
  at_key doc (key +:+ String "/" (dec (Z.of_nat i))) = l !! i.
Proof.
  intros H Hi. unfold at_key in *. rewrite tokens_index. destruct (tokens key) as [ts|]; [|done].
  simpl in *. rewrite walk_app, H. simpl. rewrite array_index_dec by done. simpl.
  by destruct (l !! i).
Qed.

Lemma get_array_item_json doc key l i v dflt : at_key doc key = Some (JArr l) ->
  Z.of_nat i < 2 ^ 64 -> l !! i = Some v -> get_array_item get_json doc key i dflt = v.
Proof.
  intros H Hi Hv. unfold get_array_item, get. by rewrite (at_key_index _ _ _ _ H Hi), Hv.
Qed.
