(* ===== verification/ConfigEnv.v ===== *)
(** The writing side of the configuration (src/common/utils/config_mgr.hpp): [set], the values of
    the environment and of ".env" files, and the flat map of strings kept beside the document.

    [stod s] is the JSON number [std::stod(s)] makes, when it returns one; [dump] prints a JSON
    value.  A document written through a JSON pointer gets the objects, arrays and elements it
    lacks, as the JSON library documents. *)
From S2P Require Import Prelude Text Json Config.
From Stdlib Require Import Ascii.
Open Scope string_scope.
Open Scope Z_scope.

(** ** Assignment through a pointer *)

Definition dash : string := "-".

(** What an absent value becomes before a token is looked up in it. *)
Definition container_for (t : string) : jval :=
  if all_digits t || String.eqb t dash then JArr [] else JObj [].

Definition padded (i : nat) (l : list jval) : list jval := (l ++ replicate (S i - length l) JNull)%list.

(** [json_[ptr] = x]: the document, and whether it returned; when it throws, what it created
    stays. *)
Fixpoint assign (v : jval) (ts : list string) (x : jval) : jval * bool :=
  match ts with
  | [] => (x, true)
  | t :: ts' =>
      let v1 := match v with JNull => container_for t | _ => v end in
      match v1 with
      | JObj l =>
          let '(w, ok) := assign (default JNull (member t l)) ts' x in (JObj (put_member t w l), ok)
      | JArr l =>
          if String.eqb t dash then
            let '(w, ok) := assign JNull ts' x in (JArr (l ++ [w])%list, ok)
          else match array_index t with
               | None => (v1, false)
               | Some i =>
                   let '(w, ok) := assign (default JNull (l !! i)) ts' x in
                   (JArr (<[i := w]> (padded i l)), ok)
               end
      | _ => (v1, false)
      end
  end.

(** A key whose escapes are malformed throws in the pointer's constructor. *)
Definition assign_key (doc : jval) (key : string) (x : jval) : jval * bool :=
  match tokens key with Some ts => assign doc ts x | None => (doc, false) end.

(** ** The manager *)

Record Manager := { json_ : jval; config_ : gmap string string }.

Section Env.
Context (stod : string -> option jval) (dump : jval -> string).

(** [flatten_json]: the entries in the order they are written. *)
Definition dotted (parent key : string) : string :=
  if String.eqb parent EmptyString then key else parent +:+ "." +:+ key.

Fixpoint flatten_json (v : jval) (parent : string) : list (string * string) :=
  match v with
  | JObj l => (fix go (ms : list (string * jval)) : list (string * string) :=
                 match ms with
                 | [] => []
                 | (k, w) :: ms' => (flatten_json w (dotted parent k) ++ go ms')%list
                 end) l
  | JStr s => [(parent, s)]
  | _ => [(parent, dump v)]
  end.

Definition write_all (l : list (string * string)) (m : gmap string string) : gmap string string :=
  foldl (fun m e => <[e.1 := e.2]> m) m l.

(** The constructor: [None] when the file does not parse. *)
Definition ConfigManager_new (f : config_file) : option Manager :=
  doc ← ConfigManager f;
  Some {| json_ := doc;
          config_ := match f with Document v => write_all (flatten_json v EmptyString) ∅ | _ => ∅ end |}.

(** [set(key, value)], with the text the flat map gets; it throws where the assignment does. *)
Definition set (key : string) (x : jval) (text : string) (m : Manager) : Manager * bool :=
  match assign_key (json_ m) key x with
  | (doc, true) => ({| json_ := doc; config_ := <[key := text]> (config_ m) |}, true)
  | (doc, false) => ({| json_ := doc; config_ := config_ m |}, false)
  end.

(** [get(key)] on the flat map. *)
Definition get_flat (key : string) (m : Manager) : string := default EmptyString (config_ m !! key).

(** ** Values of the environment *)

Fixpoint has_char (c : ascii) (s : string) : bool :=
  match s with EmptyString => false | String d s' => Ascii.eqb d c || has_char c s' end.

Definition isFloat (s : string) : bool :=
  negb (String.eqb s EmptyString) && bool_decide (is_Some (stod s)) &&
  (has_char "." s || has_char "e" s || has_char "E" s).

(** The JSON value a text is taken for; [None] when [std::stoll] throws. *)
Definition typed (s : string) : option jval :=
  if isInteger s then JInt <$> stoll s
  else if isFloat s then stod s
  else if isBool s then Some (JBool (toBool s))
  else Some (JStr s).

Definition setEnvironmentValue (key value : string) (m : Manager) : Manager := {|
  json_ := match typed value with Some x => (assign_key (json_ m) key x).1 | None => json_ m end;
  config_ := <[key := value]> (config_ m) |}.

Definition common_env_vars : list string := [
  "PORT"; "HOST"; "DEBUG"; "LOG_LEVEL"; "DATABASE_URL"; "REDIS_URL"; "WS_PORT"; "HTTP_PORT";
  "REDIS_HOST"; "REDIS_PORT"; "REDIS_PASSWORD"; "SSL_CERT"; "SSL_KEY"; "JWT_SECRET"; "ENVIRONMENT";
  "SERVICE_NAME"].

(** One variable of a list, under a prefix. *)
Definition load_one (env : string -> option string) (prefix var : string) (m : Manager) : Manager :=
  let bare := String.eqb prefix EmptyString in
  match env (if bare then var else prefix +:+ "_" +:+ var) with
  | None => m
  | Some value =>
      setEnvironmentValue (if bare then toLowerCase var else toLowerCase prefix +:+ "." +:+ toLowerCase var)
        value m
  end.

Definition loadEnvironmentVariables (env : string -> option string) (vars : list string)
    (prefix : string) (m : Manager) : Manager :=
  foldl (fun m var => load_one env prefix var m) m vars.

(** ** ".env" files *)

Fixpoint trim_right (s : string) : string :=
  match s with
  | EmptyString => EmptyString
  | String c s' => match trim_right s' with
                   | EmptyString => if is_space c then EmptyString else String c EmptyString
                   | t => String c t
                   end
  end.
Definition trim (s : string) : string := trim_right (skip_spaces s).

(** The text before the first "=", and after it. *)
Fixpoint split_equals (s : string) : option (string * string) :=
  match s with
  | EmptyString => None
  | String c s' => if Ascii.eqb c "=" then Some (EmptyString, s')
                   else match split_equals s' with Some (k, v) => Some (String c k, v) | None => None end
  end.

Fixpoint last_char (s : string) : option ascii :=
  match s with EmptyString => None | String c EmptyString => Some c | String _ s' => last_char s' end.
Fixpoint drop_last (s : string) : string :=
  match s with
  | EmptyString => EmptyString
  | String c EmptyString => EmptyString
  | String c s' => String c (drop_last s')
  end.

(** Quotes around a value: a pair of the same kind. *)
Definition quote_mark (c : ascii) : bool := Ascii.eqb c "'" || (chr c =? 34).
Definition unquote (s : string) : string :=
  match s with
  | String c (String d t) =>
      if quote_mark c && bool_decide (last_char (String d t) = Some c) then drop_last (String d t) else s
  | _ => s
  end.

Definition env_line (line : string) : option (string * string) :=
  let l := trim line in
  match l with
  | EmptyString => None
  | String "#" _ => None
  | _ => match split_equals l with Some (k, v) => Some (trim k, unquote (trim v)) | None => None end
  end.

Definition load_line (override_existing : bool) (line : string) (m : Manager) : Manager :=
  match env_line line with
  | None => m
  | Some (key, value) =>
      if override_existing || negb (has_key (json_ m) key) then setEnvironmentValue key value m else m
  end.

(** [loadEnvFile]: [None] for a file that does not open. *)
Definition loadEnvFile (lines : option (list string)) (override_existing : bool) (m : Manager) : Manager * bool :=
  match lines with
  | None => (m, false)
  | Some ls => (foldl (fun m l => load_line override_existing l m) m ls, true)
  end.
End Env.

(** * Reading back what was written *)

(** A token that names an element to append. *)
Definition plain_tokens (ts : list string) : Prop := dash ∉ ts.

Lemma member_put k v l : member k (put_member k v l) = Some v.
Proof.
  unfold member. induction l as [|[k' v'] l IH]; simpl.
  - by rewrite bool_decide_eq_true_2.
  - destruct (bool_decide (k' = k)) eqn:E; simpl.
    + by rewrite bool_decide_eq_true_2.
    + by rewrite E.
Qed.

Lemma member_put_ne k k' v l : k <> k' -> member k (put_member k' v l) = member k l.
Proof.
  intros Hk. unfold member. induction l as [|[k2 v2] l IH]; simpl.
  - by rewrite bool_decide_eq_false_2.
  - destruct (bool_decide (k2 = k')) eqn:E; simpl.
    + apply bool_decide_eq_true in E as ->. by rewrite bool_decide_eq_false_2.
    + destruct (bool_decide (k2 = k)); [done|exact IH].
Qed.

Lemma padded_length i l : (i < length (padded i l))%nat.
Proof. unfold padded. rewrite length_app, length_replicate. lia. Qed.

Lemma padded_lookup i j l w : l !! j = Some w -> padded i l !! j = Some w.
Proof. intros Hj. unfold padded. by apply lookup_app_l_Some. Qed.

(** What a token leads to in a container, and after the container got a value there. *)
Lemma child_assigned v t ts x v' : t <> dash -> assign v (t :: ts) x = (v', true) ->
  exists w w', assign w ts x = (w', true) /\ child v' t = Some w' /\
    (w = JNull /\ child v t = None \/ child v t = Some w).
Proof.
  intros Ht. cbn [assign]. set (v1 := match v with JNull => container_for t | _ => v end).
  assert (Hc : child v1 t = child v t).
  { subst v1. destruct v; try done. unfold container_for. destruct (_ || _); simpl; [|done].
    by destruct (array_index t). }
  rewrite <- Hc. clearbody v1. destruct v1 as [|b|z|s|l|l]; try done.
  - destruct (String.eqb_spec t dash) as [|_]; [done|]. destruct (array_index t) as [i|] eqn:Ei; [|done].
    destruct (assign _ ts x) as [w' ok] eqn:Ea. intros [= <- ->].
    exists (default JNull (l !! i)), w'. split; [done|]. simpl. rewrite Ei. simpl.
    rewrite list_lookup_insert_eq by apply padded_length. split; [done|].
    destruct (l !! i); [by right|by left].
  - destruct (assign _ ts x) as [w' ok] eqn:Ea. intros [= <- ->].
    exists (default JNull (member t l)), w'. split; [done|]. simpl. rewrite member_put. split; [done|].
    destruct (member t l); [by right|by left].
Qed.

Lemma assign_walk ts : forall v x v', plain_tokens ts -> assign v ts x = (v', true) -> walk v' ts = Some x.
Proof.
  induction ts as [|t ts IH]; intros v x v' Hp Ha; [by injection Ha as <-|].
  apply not_elem_of_cons in Hp as [Ht Hp].
  apply child_assigned in Ha as (w & w' & Hw & Hc & _); [|done]. simpl. rewrite Hc. simpl. eauto.
Qed.

(** A value that holds no others. *)
Definition scalar (v : jval) : bool := match v with JNull | JArr _ | JObj _ => false | _ => true end.

(** An assignment where there is nothing, whether it returns or throws, keeps every scalar. *)
Lemma assign_keeps ts : forall v x us y, plain_tokens ts -> walk v ts = None ->
  walk v us = Some y -> scalar y = true -> walk (assign v ts x).1 us = Some y.
Proof.
  induction ts as [|t ts IH]; intros v x us y Hp Hn Hw Hy; [done|].
  apply not_elem_of_cons in Hp as [Ht Hp]. simpl in Hn.
  destruct us as [|u us].
  { simpl in Hw. injection Hw as ->. cbn [assign]. by destruct y. }
  simpl in Hw. apply bind_Some in Hw as (w & Hc & Hw). cbn [assign].
  destruct v as [| | | |l|l]; try done; simpl in Hc, Hn.
  - destruct (String.eqb_spec t dash) as [|_]; [done|].
    destruct (array_index t) as [i|] eqn:Ei; [|simpl; by rewrite Hc].
    destruct (array_index u) as [j|] eqn:Ej; [|done]. simpl in Hc, Hn.
    destruct (assign _ ts x) as [w' ok] eqn:Ea. cbn [fst]. simpl. rewrite Ej. simpl.
    destruct (decide (i = j)) as [->|Hij].
    + rewrite list_lookup_insert_eq by apply padded_length. simpl. rewrite Hc in Ea, Hn. simpl in Ea, Hn.
      replace w' with (assign w ts x).1 by (by rewrite Ea). by apply IH.
    + rewrite list_lookup_insert_ne by done. by rewrite (padded_lookup _ _ _ _ Hc).
  - destruct (assign _ ts x) as [w' ok] eqn:Ea. cbn [fst]. simpl.
    destruct (decide (u = t)) as [->|Hut].
    + rewrite member_put. simpl. rewrite Hc in Ea, Hn. simpl in Ea, Hn.
      replace w' with (assign w ts x).1 by (by rewrite Ea). by apply IH.
    + rewrite member_put_ne by done. by rewrite Hc.
Qed.

(** A key without a token "-", which would append. *)
Definition plain_key (key : string) : Prop := match tokens key with Some ts => plain_tokens ts | None => True end.

Lemma assign_key_read doc key x doc' : plain_key key -> assign_key doc key x = (doc', true) ->
  at_key doc' key = Some x.
Proof.
  unfold plain_key, assign_key, at_key. destruct (tokens key) as [ts|]; [|done]. simpl. apply assign_walk.
Qed.

Lemma assign_key_keeps doc key x k y : plain_key key -> at_key doc key = None -> at_key doc k = Some y ->
  scalar y = true -> at_key (assign_key doc key x).1 k = Some y.
Proof.
  unfold plain_key, assign_key, at_key. destruct (tokens key) as [ts|]; [|done]. simpl.
  destruct (tokens k) as [us|]; [|done]. simpl. apply assign_keeps.
Qed.

Section Theorems.
Context (stod : string -> option jval).

(** A value that [set] or the environment writes is read back under its key: [set] by every typed
    read, and a variable as the integer, the number, the boolean or the text it is taken for. *)
Theorem set_get_roundtrip key x text value m m' :
  plain_key key ->
  (set key x text m = (m', true) -> get_flat key m' = text /\
  forall T (as_T : jval -> option T) dflt, get as_T (json_ m') key dflt = default dflt (as_T x)) /\
  (forall y, typed stod value = Some y -> (assign_key (json_ m) key y).2 = true ->
     at_key (json_ (setEnvironmentValue stod key value m)) key = Some y /\
  get_flat key (setEnvironmentValue stod key value m) = value).
Proof.
  intros Hk. split.
  - unfold set. destruct (assign_key _ key x) as [doc []] eqn:E; [|done]. intros [= <-].
    unfold get_flat. simpl. rewrite lookup_insert_eq. split; [done|]. intros T as_T dflt.
    unfold get. by rewrite (assign_key_read _ _ _ _ Hk E).
  - intros y Hy Hok. unfold setEnvironmentValue, get_flat. simpl. rewrite Hy, lookup_insert_eq.
    split; [|done]. destruct (assign_key _ key y) as [doc ok] eqn:E. simpl in *. subst ok.
    by apply (assign_key_read _ _ _ _ Hk E).
Qed.

(** A line of a file. *)
Lemma load_line_keeps line m k y : (forall key v, env_line line = Some (key, v) -> plain_key key) ->
  at_key (json_ m) k = Some y -> scalar y = true ->
  at_key (json_ (load_line stod false line m)) k = Some y.
Proof.
  intros Hl Hk Hy. unfold load_line. destruct (env_line line) as [[key v]|]; [|done]. simpl.
  unfold has_key. destruct (at_key (json_ m) key) eqn:E; [done|]. simpl.
  unfold setEnvironmentValue. simpl. destruct (typed stod v) as [x|]; [|done].
  apply assign_key_keeps; try done. by eapply Hl.
Qed.

(** Loading a ".env" file without overriding leaves every number, boolean and text that the
    configuration has as it is, whatever the lines are, as long as no key has a token "-". *)
Theorem env_file_keeps lines m k y :
  Forall (fun line => forall key v, env_line line = Some (key, v) -> plain_key key) lines ->
  at_key (json_ m) k = Some y -> scalar y = true ->
  at_key (json_ (loadEnvFile stod (Some lines) false m).1) k = Some y.
Proof.
  simpl. intros Hl. revert m. induction Hl as [|line lines Hl _ IH]; intros m Hk Hy; [done|].
  simpl. apply IH; [|done]. by apply load_line_keeps.
Qed.
End Theorems.

(** ** On concrete values *)

Module ConfigEnvExample.

(** The numbers with a fraction are left out. *)
Definition no_stod (_ : string) : option jval := None.

Definition base : Manager := {|
  json_ := JObj [("redis", JObj [("port", JInt 6379); ("password", JStr "secret")])];
  config_ := {["redis.port" := "6379"; "redis.password" := "secret"]} |}.

Lemma set_get_roundtrip_witness :
  get_string (default JNull (at_key (json_ (setEnvironmentValue no_stod "redis.host" "db.local" base)) "redis.host"))
    = Some "db.local" /\
  at_key (json_ (setEnvironmentValue no_stod "redis.port" "7000" base)) "redis.port" = Some (JInt 7000) /\
  get get_i32 (json_ (set "pools.1.size" (JInt 4) "4" base).1) "pools.1.size" 0 = 4.
Proof.
  split; [by vm_compute|]. split.
  - apply (proj2 (set_get_roundtrip no_stod "redis.port" JNull EmptyString "7000" base base
      ltac:(vm_compute; intros ?; set_solver))); by vm_compute.
  - destruct (set "pools.1.size" (JInt 4) "4" base) as [m ok] eqn:E.
    destruct (proj1 (set_get_roundtrip no_stod "pools.1.size" (JInt 4) "4" EmptyString base m
      ltac:(vm_compute; intros ?; set_solver))) as [_ Hr].
    + rewrite E. f_equal. by vm_compute in E; injection E as _ <-.
    + cbn [fst]. rewrite Hr. by vm_compute.
Defined.

Definition env_file : list string := ["# secrets"; " redis.password = 'other' "; "redis.db=2"; "bad line"].

Lemma env_file_keeps_witness :
  at_key (json_ (loadEnvFile no_stod (Some env_file) false base).1) "redis.password" = Some (JStr "secret") /\
  at_key (json_ (loadEnvFile no_stod (Some env_file) false base).1) "redis.db" = Some (JInt 2).
Proof.
  split; [|by vm_compute]. apply env_file_keeps; [|by vm_compute|done].
  repeat constructor; intros key v E; vm_compute in E; try done; injection E as <- <-;
    vm_compute; intros ?; set_solver.
Defined.

(** A text that looks like a number is stored as one: a password of digits is no text any more, and
    the default is read for it. *)
Lemma numeric_password :
  get get_string (json_ (setEnvironmentValue no_stod "redis.password" "12345" base)) "redis.password" "none" = "none" /\
  get_flat "redis.password" (setEnvironmentValue no_stod "redis.password" "12345" base) = "12345".
Proof. by vm_compute. Qed.

(** "1" and "0" count as integers before they count as booleans. *)
Definition as_bool_value (v : jval) : option bool := match v with JBool x => Some x | _ => None end.
Lemma one_is_no_boolean :
  get as_bool_value (json_ (setEnvironmentValue no_stod "debug" "1" base)) "debug" false = false /\
  get as_bool_value (json_ (setEnvironmentValue no_stod "debug" "yes" base)) "debug" false = true.
Proof. by vm_compute. Qed.

(** A variable whose key is below a scalar is kept in the flat map only. *)
Lemma below_a_scalar :
  at_key (json_ (setEnvironmentValue no_stod "redis.port.tls" "7001" base)) "redis.port.tls" = None /\
  get_flat "redis.port.tls" (setEnvironmentValue no_stod "redis.port.tls" "7001" base) = "7001".
Proof. by vm_compute. Qed.
End ConfigEnvExample.
