(* ===== verification/PgConfig.v ===== *)
(** The settings of the PostgreSQL connection (src/common/database/pgsql/pgsql_conn.hpp and
    pgsql_conn.cpp, [PgSqlConfig]): the four places they come from, their validation and the
    connection string made of them.

    [readable p]: a stream on the file [p] opens; [env] is [std::getenv]; [json_what] the text
    of an exception of the JSON library.  A function that throws [std::runtime_error] answers
    [inl] of its message. *)
From S2P Require Import Prelude Text Json Config.
From Stdlib Require Import Ascii.
Open Scope string_scope.
Open Scope Z_scope.

Record PgSqlConfig := {
  host : string; port : Z; database : string; user : string; password : string;
  options : string;
  pool_size : Z; connect_timeout : Z; query_timeout : Z;
  sslmode : string; sslcert : string; sslkey : string; sslrootcert : string
}.

Definition default_config : PgSqlConfig := {|
  host := "127.0.0.1"; port := 5432; database := "mychat"; user := "postgres"; password := EmptyString;
  options := EmptyString;
  pool_size := 10; connect_timeout := 30; query_timeout := 30;
  sslmode := "prefer"; sslcert := EmptyString; sslkey := EmptyString; sslrootcert := EmptyString |}.

(** ** Validation *)

Definition out_of (lo hi z : Z) : bool := (z <? lo) || (hi <? z).
Definition is_empty (s : string) : bool := bool_decide (s = EmptyString).
Definition sslmodes : list string := ["disable"; "prefer"; "require"; "verify-ca"; "verify-full"].

(** The rest of a function after a call that may throw. *)
Definition checked {A B} (m : string + A) (k : A -> string + B) : string + B :=
  match m with inl e => inl e | inr a => k a end.
Notation "'let?' x := m 'in' k" := (checked m (fun x => k))
  (at level 10, x name, m at level 100, k at level 200).

Section Config.
Context (readable : string -> bool) (json_what : jval -> string -> string).

(** A file that is named and does not open. *)
Definition missing (path : string) : bool := negb (is_empty path) && negb (readable path).

(** [validate]: the exception it throws. *)
Definition validate (c : PgSqlConfig) : option string :=
  if is_empty (host c) then Some "host不能为空"
  else if is_empty (database c) then Some "database不能为空"
  else if is_empty (user c) then Some "user不能为空"
  else if out_of 1 65535 (port c) then
    Some ("port必须在1-65535范围内，当前值: " +:+ to_string (port c))
  else if out_of 1 1000 (pool_size c) then
    Some ("pool_size必须在1-1000范围内，当前值: " +:+ to_string (pool_size c))
  else if out_of 1 3600 (connect_timeout c) then
    Some ("connect_timeout必须在1-3600秒范围内，当前值: " +:+ to_string (connect_timeout c))
  else if out_of 1 3600 (query_timeout c) then
    Some ("query_timeout必须在1-3600秒范围内，当前值: " +:+ to_string (query_timeout c))
  else if negb (bool_decide (sslmode c ∈ sslmodes)) then
    Some ("无效的sslmode: " +:+ sslmode c +:+
          "，有效值: disable, prefer, require, verify-ca, verify-full")
  else if missing (sslcert c) then Some ("SSL证书文件不存在: " +:+ sslcert c)
  else if missing (sslkey c) then Some ("SSL私钥文件不存在: " +:+ sslkey c)
  else if missing (sslrootcert c) then Some ("SSL根证书文件不存在: " +:+ sslrootcert c)
  else None.

Definition validated (c : PgSqlConfig) : string + PgSqlConfig :=
  match validate c with Some e => inl e | None => inr c end.

(** ** From a JSON document *)

(** [pg_config.value(key, dflt)]: throws when the section is no object, or holds [key] with a
    value that is no [T]. *)
Definition value {T} (as_T : jval -> option T) (pg : jval) (key : string) (dflt : T) : string + T :=
  match pg with
  | JObj l =>
      match member key l with
      | None => inr dflt
      | Some v => match as_T v with Some x => inr x | None => inl (json_what pg key) end
      end
  | _ => inl (json_what pg key)
  end.

Definition read_section (pg : jval) : string + PgSqlConfig :=
  let c := default_config in
  let? host := value get_string pg "host" (host c) in
  let? port := value get_i32 pg "port" (port c) in
  let? database := value get_string pg "database" (database c) in
  let? user := value get_string pg "user" (user c) in
  let? password := value get_string pg "password" (password c) in
  let? pool_size := value get_i32 pg "pool_size" (pool_size c) in
  let? connect_timeout := value get_i32 pg "connect_timeout" (connect_timeout c) in
  let? query_timeout := value get_i32 pg "query_timeout" (query_timeout c) in
  let? sslmode := value get_string pg "sslmode" (sslmode c) in
  let? sslcert := value get_string pg "sslcert" (sslcert c) in
  let? sslkey := value get_string pg "sslkey" (sslkey c) in
  let? sslrootcert := value get_string pg "sslrootcert" (sslrootcert c) in
  let? options := value get_string pg "options" (options c) in
  validated {| host := host; port := port; database := database; user := user;
    password := password; options := options; pool_size := pool_size;
    connect_timeout := connect_timeout; query_timeout := query_timeout; sslmode := sslmode;
    sslcert := sslcert; sslkey := sslkey; sslrootcert := sslrootcert |}.

Definition from_json (config : jval) : string + PgSqlConfig :=
  match
    match config with
    | JObj l => match member "postgresql" l with
                | Some pg => read_section pg
                | None => inl "配置文件中缺少postgresql配置段"
                end
    | _ => inl "配置文件中缺少postgresql配置段"
    end
  with
  | inr c => inr c
  | inl e => inl ("配置文件内容错误: " +:+ e)
  end.

(** [file]: what the stream on [config_path] finds; [parse_what] the text of the parser's
    exception. *)
Definition from_file (parse_what : string) (file : config_file) (config_path : string)
  : string + PgSqlConfig :=
  match file with
  | Unopened => inl ("Failed to open config file: " +:+ config_path)
  | Malformed => inl ("配置文件JSON格式错误: " +:+ parse_what)
  | Document v => from_json v
  end.

(** ** From the environment *)

Definition env_string (env : string -> option string) (name dflt : string) : string :=
  default dflt (env name).

Definition env_int (env : string -> option string) (name : string) (dflt : Z) : string + Z :=
  match env name with
  | None => inr dflt
  | Some s => match stoi s with
              | Some z => inr z
              | None => inl ("环境变量" +:+ name +:+ "不是有效的数字: " +:+ s)
              end
  end.

Definition from_environment (env : string -> option string) : string + PgSqlConfig :=
  let c := default_config in
  let? port := env_int env "MYCHAT_DB_PORT" (port c) in
  let? pool_size := env_int env "MYCHAT_DB_POOL_SIZE" (pool_size c) in
  validated {|
    host := env_string env "MYCHAT_DB_HOST" (host c);
    port := port;
    database := env_string env "MYCHAT_DB_DATABASE" (database c);
    user := env_string env "MYCHAT_DB_USER" (user c);
    password := env_string env "MYCHAT_DB_PASSWORD" (password c);
    options := options c;
    pool_size := pool_size;
    connect_timeout := connect_timeout c; query_timeout := query_timeout c;
    sslmode := env_string env "MYCHAT_DB_SSLMODE" (sslmode c);
    sslcert := sslcert c; sslkey := sslkey c; sslrootcert := sslrootcert c |}.
End Config.

(** ** The connection string *)

Definition optional (present : bool) (text : string) : string := if present then text else EmptyString.

Definition to_connection_string (c : PgSqlConfig) : string :=
  "host=" +:+ host c +:+
  (" port=" +:+ to_string (port c)) +:+
  (" dbname=" +:+ database c) +:+
  (" user=" +:+ user c) +:+
  optional (negb (is_empty (password c))) (" password=" +:+ password c) +:+
  optional (negb (is_empty (sslmode c)) && negb (bool_decide (sslmode c = "prefer")))
    (" sslmode=" +:+ sslmode c) +:+
  optional (negb (is_empty (sslcert c))) (" sslcert=" +:+ sslcert c) +:+
  optional (negb (is_empty (sslkey c))) (" sslkey=" +:+ sslkey c) +:+
  optional (negb (is_empty (sslrootcert c))) (" sslrootcert=" +:+ sslrootcert c) +:+
  optional (negb (connect_timeout c =? 30)) (" connect_timeout=" +:+ to_string (connect_timeout c)) +:+
  optional (negb (is_empty (options c))) (" " +:+ options c).

(** * What the configuration promises *)

(** The bounds [validate] enforces. *)
Record valid (readable : string -> bool) (c : PgSqlConfig) : Prop := {
  valid_host : host c <> EmptyString;
  valid_database : database c <> EmptyString;
  valid_user : user c <> EmptyString;
  valid_port : 1 <= port c <= 65535;
  valid_pool : 1 <= pool_size c <= 1000;
  valid_connect : 1 <= connect_timeout c <= 3600;
  valid_query : 1 <= query_timeout c <= 3600;
  valid_sslmode : sslmode c ∈ sslmodes;
  valid_files f : f ∈ [sslcert c; sslkey c; sslrootcert c] -> f = EmptyString \/ readable f = true
}.

(** The value a section holds for a key, or the default. *)
Definition reads {T} (as_T : jval -> option T) (pg : members) (key : string) (dflt x : T) : Prop :=
  match member key pg with None => x = dflt | Some v => as_T v = Some x end.

Record reads_section (pg : members) (c : PgSqlConfig) : Prop := {
  reads_host : reads get_string pg "host" "127.0.0.1" (host c);
  reads_port : reads get_i32 pg "port" 5432 (port c);
  reads_database : reads get_string pg "database" "mychat" (database c);
  reads_user : reads get_string pg "user" "postgres" (user c);
  reads_password : reads get_string pg "password" EmptyString (password c);
  reads_pool : reads get_i32 pg "pool_size" 10 (pool_size c);
  reads_connect : reads get_i32 pg "connect_timeout" 30 (connect_timeout c);
  reads_query : reads get_i32 pg "query_timeout" 30 (query_timeout c);
  reads_sslmode : reads get_string pg "sslmode" "prefer" (sslmode c);
  reads_sslcert : reads get_string pg "sslcert" EmptyString (sslcert c);
  reads_sslkey : reads get_string pg "sslkey" EmptyString (sslkey c);
  reads_sslrootcert : reads get_string pg "sslrootcert" EmptyString (sslrootcert c);
  reads_options : reads get_string pg "options" EmptyString (options c)
}.

Lemma out_of_false lo hi z : out_of lo hi z = false <-> lo <= z <= hi.
Proof. unfold out_of. rewrite orb_false_iff. split; intros; zbool; lia. Qed.

Lemma is_empty_false s : is_empty s = false <-> s <> EmptyString.
Proof. apply bool_decide_eq_false. Qed.

Lemma missing_false readable f : missing readable f = false <-> f = EmptyString \/ readable f = true.
Proof.
  unfold missing, is_empty. rewrite andb_false_iff, !negb_false_iff, bool_decide_eq_true. done.
Qed.

Lemma validate_None readable c : validate readable c = None <-> valid readable c.
Proof.
  unfold validate. split.
  - intros H. repeat (case_match; [done|]).
    rewrite ->is_empty_false, ?out_of_false, negb_false_iff, bool_decide_eq_true, missing_false in *.
    split; try done; try (by apply is_empty_false).
    intros f. rewrite !elem_of_cons, elem_of_nil.
    naive_solver.
  - intros [Hh Hd Hu Hp Hs Hc Hq Hm Hf].
    apply is_empty_false in Hh, Hd, Hu. apply out_of_false in Hp, Hs, Hc, Hq.
    rewrite Hh, Hd, Hu, Hp, Hs, Hc, Hq, bool_decide_eq_true_2 by done. cbn [negb].
    assert (forall f, f ∈ [sslcert c; sslkey c; sslrootcert c] -> missing readable f = false) as Hm'.
    { intros f ?. apply missing_false. auto. }
    rewrite !Hm' by set_solver. done.
Qed.

Lemma checked_inr {A B} (m : string + A) (k : A -> string + B) b :
  checked m k = inr b -> exists a, m = inr a /\ k a = inr b.
Proof. destruct m; [done|]. eauto. Qed.

Lemma validated_inr readable c c' : validated readable c = inr c' -> c' = c /\ valid readable c.
Proof. unfold validated. destruct (validate _ _) eqn:E; [done|]. intros [= <-]. by apply validate_None in E. Qed.

Lemma value_reads {T} what (as_T : jval -> option T) pg key dflt x :
  value what as_T (JObj pg) key dflt = inr x -> reads as_T pg key dflt x.
Proof. unfold value, reads. intros. repeat case_match; by simplify_eq. Qed.

(** Unfolds a chain of checked reads. *)
Ltac checked_inv H :=
  repeat match type of H with
  | checked _ _ = inr _ =>
      let x := fresh "x" in let E := fresh "E" in apply checked_inr in H as (x & E & H)
  end.

Lemma from_json_inr readable what doc c : from_json readable what doc = inr c ->
  exists l pg, doc = JObj l /\ member "postgresql" l = Some (JObj pg) /\ reads_section pg c /\
    valid readable c.
Proof.
  unfold from_json. intros H. destruct doc as [| | | | |l]; try done.
  destruct (member _ l) as [pg|] eqn:El; [|done]. destruct (read_section _ _ _) eqn:Er; simplify_eq.
  unfold read_section in Er. checked_inv Er. apply validated_inr in Er as [-> Hv].
  destruct pg as [| | | | |pg]; try done. exists l, pg. split_and!; [done..| |done].
  split; eauto using value_reads.
Qed.

(** The value of a variable read as an [int], or the default. *)
Definition reads_env (env : string -> option string) (name : string) (dflt x : Z) : Prop :=
  match env name with None => x = dflt | Some s => stoi s = Some x end.

Lemma env_int_inr env name dflt x : env_int env name dflt = inr x -> reads_env env name dflt x.
Proof. unfold env_int, reads_env. intros. by repeat case_match; simplify_eq. Qed.

Record reads_environment (env : string -> option string) (c : PgSqlConfig) : Prop := {
  env_host : host c = default "127.0.0.1" (env "MYCHAT_DB_HOST");
  env_port : reads_env env "MYCHAT_DB_PORT" 5432 (port c);
  env_database : database c = default "mychat" (env "MYCHAT_DB_DATABASE");
  env_user : user c = default "postgres" (env "MYCHAT_DB_USER");
  env_password : password c = default EmptyString (env "MYCHAT_DB_PASSWORD");
  env_pool : reads_env env "MYCHAT_DB_POOL_SIZE" 10 (pool_size c);
  env_sslmode : sslmode c = default "prefer" (env "MYCHAT_DB_SSLMODE");
  env_timeouts : connect_timeout c = 30 /\ query_timeout c = 30;
  env_rest : [options c; sslcert c; sslkey c; sslrootcert c] = [EmptyString; EmptyString; EmptyString; EmptyString]
}.

(** A configuration that was loaded is within its bounds, and each of its settings is the
    one its source gives, converted, or the default: from a file that opens and parses, from a
    document whose "postgresql" section is an object, or from the environment. *)
Theorem loaded_config readable what parse_what file path env c :
  (from_file readable what parse_what file path = inr c ->
     valid readable c /\ exists l pg, file = Document (JObj l) /\
       member "postgresql" l = Some (JObj pg) /\ reads_section pg c) /\
  (from_environment readable env = inr c -> valid readable c /\ reads_environment env c).
Proof.
  split.
  - unfold from_file. destruct file as [| |doc]; try done.
    intros (l & pg & -> & ? & ? & ?)%from_json_inr. eauto 8.
  - unfold from_environment. intros H. checked_inv H. apply validated_inr in H as [-> Hv].
    split; [done|]. split; try done; by apply env_int_inr.
Qed.

(** ** Reading a connection string back

    The connection string is libpq's: settings "keyword=value" between blanks, where a later
    setting of a keyword replaces an earlier one, and a value holds no blank, quote or
    backslash unless it is quoted.  [conninfo] reads such a string without quotes. *)

Fixpoint split_at (d : ascii) (s : string) : list string :=
  match s with
  | EmptyString => [EmptyString]
  | String c s' =>
      if Ascii.eqb c d then EmptyString :: split_at d s'
      else match split_at d s' with w :: ws => String c w :: ws | [] => [] end
  end.

Fixpoint cut (d : ascii) (s : string) : string * string :=
  match s with
  | EmptyString => (EmptyString, EmptyString)
  | String c s' => if Ascii.eqb c d then (EmptyString, s') else let '(a, b) := cut d s' in (String c a, b)
  end.

Definition conninfo (s : string) : list (string * string) := map (cut "=") (split_at " " s).

Definition setting (k dflt : string) (l : list (string * string)) : string :=
  fold_left (fun acc p => if String.eqb p.1 k then p.2 else acc) l dflt.
Definition int_setting (k : string) (dflt : Z) (l : list (string * string)) : Z :=
  default dflt (stoi (setting k EmptyString l)).

(** The configuration a connection string stands for; what it does not carry is [c]'s.  A keyword
    that is left out has the default that libpq documents (without PG* variables in the environment):
    no text, "prefer" for [sslmode], and for [connect_timeout] 0, to wait indefinitely. *)
Definition read_back (c : PgSqlConfig) (s : string) : PgSqlConfig :=
  let l := conninfo s in {|
  host := setting "host" EmptyString l; port := int_setting "port" 0 l;
  database := setting "dbname" EmptyString l; user := setting "user" EmptyString l;
  password := setting "password" EmptyString l; options := options c; pool_size := pool_size c;
  connect_timeout := int_setting "connect_timeout" 0 l; query_timeout := query_timeout c;
  sslmode := setting "sslmode" "prefer" l; sslcert := setting "sslcert" EmptyString l;
  sslkey := setting "sslkey" EmptyString l; sslrootcert := setting "sslrootcert" EmptyString l |}.

(** Texts that need no quotes. *)
Fixpoint plain (s : string) : bool :=
  match s with
  | EmptyString => true
  | String c s' => negb (is_space c) && negb (Ascii.eqb c "'") && negb (Ascii.eqb c "\") && plain s'
  end.

Record plain_config (c : PgSqlConfig) : Prop := {
  plain_texts s : s ∈ [host c; database c; user c; password c; sslcert c; sslkey c; sslrootcert c] ->
    plain s = true;
  no_options : options c = EmptyString
}.

(** The settings the code writes, in order. *)
Definition opt_setting (present : bool) (k v : string) : list (string * string) :=
  if present then [(k, v)] else [].

Definition settings (c : PgSqlConfig) : list (string * string) :=
  [("host", host c); ("port", to_string (port c)); ("dbname", database c); ("user", user c)] ++
  opt_setting (negb (is_empty (password c))) "password" (password c) ++
  opt_setting (negb (is_empty (sslmode c)) && negb (bool_decide (sslmode c = "prefer")))
    "sslmode" (sslmode c) ++
  opt_setting (negb (is_empty (sslcert c))) "sslcert" (sslcert c) ++
  opt_setting (negb (is_empty (sslkey c))) "sslkey" (sslkey c) ++
  opt_setting (negb (is_empty (sslrootcert c))) "sslrootcert" (sslrootcert c) ++
  opt_setting (negb (connect_timeout c =? 30)) "connect_timeout" (to_string (connect_timeout c)).

Definition word (p : string * string) : string := p.1 +:+ String "=" p.2.

Fixpoint render (l : list (string * string)) : string :=
  match l with [] => EmptyString | p :: l' => String " " (word p +:+ render l') end.

Lemma string_app_assoc (a b c : string) : (a +:+ b) +:+ c = a +:+ (b +:+ c).
Proof. induction a as [|x a IH]; [done|]. rewrite !app_cons. by rewrite IH. Qed.

Lemma string_nil_app (a : string) : EmptyString +:+ a = a.
Proof. done. Qed.

Lemma render_app l l' : render (l ++ l') = render l +:+ render l'.
Proof.
  induction l as [|p l IH]; [done|]. cbn [app render].
  by rewrite IH, app_cons, string_app_assoc.
Qed.

Lemma render_opt b k v : render (opt_setting b k v) = optional b (String " " (k +:+ String "=" v)).
Proof. destruct b; [|done]. simpl. by rewrite string_app_nil_r. Qed.

Lemma connection_settings c : options c = EmptyString ->
  String " " (to_connection_string c) = render (settings c).
Proof.
  intros Ho. unfold settings, to_connection_string. rewrite !render_app, !render_opt, Ho.
  change (optional (negb (is_empty EmptyString)) (" " +:+ EmptyString)) with EmptyString.
  cbn [render]. unfold word. cbn [fst snd].
  repeat progress rewrite ?app_cons, ?string_app_assoc, ?string_nil_app, ?string_app_nil_r.
  done.
Qed.

Lemma split_free d a : free_of d a = true -> split_at d a = [a].
Proof.
  induction a as [|c a IH]; [done|]. simpl. intros [Hc Ha]%andb_prop.
  apply negb_true_iff in Hc. by rewrite Hc, (IH Ha).
Qed.

Lemma split_next d a s : free_of d a = true -> split_at d (a +:+ String d s) = a :: split_at d s.
Proof.
  induction a as [|c a IH]; [simpl; by rewrite Ascii.eqb_refl|].
  rewrite app_cons. simpl. intros [Hc Ha]%andb_prop.
  apply negb_true_iff in Hc. by rewrite Hc, (IH Ha).
Qed.

Lemma split_render a l : free_of " " a = true -> (forall p, p ∈ l -> free_of " " (word p) = true) ->
  split_at " " (a +:+ render l) = a :: map word l.
Proof.
  revert a. induction l as [|p l IH]; intros a Ha Hl; simpl.
  - rewrite string_app_nil_r. by apply split_free.
  - rewrite split_next by done. f_equal. apply IH; [apply Hl; constructor|].
    intros q Hq. apply Hl. by constructor.
Qed.

Lemma cut_word k v : free_of "=" k = true -> cut "=" (word (k, v)) = (k, v).
Proof.
  unfold word. simpl. induction k as [|c k IH]; [done|]. rewrite app_cons. simpl.
  intros [Hc Hk]%andb_prop. apply negb_true_iff in Hc. by rewrite Hc, (IH Hk).
Qed.

(** The keywords of the settings, and their values without blanks. *)
Lemma plain_free s : plain s = true -> free_of " " s = true.
Proof.
  induction s as [|c s IH]; [done|]. simpl. intros [[[Hc _]%andb_prop _]%andb_prop Hs]%andb_prop.
  rewrite (IH Hs), andb_true_r. destruct (Ascii.eqb_spec c " "); [by subst|done].
Qed.

Lemma to_string_free n : 0 <= n -> free_of " " (to_string n) = true.
Proof.
  intros Hn. unfold to_string. destruct (n <? 0) eqn:E; [zbool; lia|].
  pose proof (dec_digits 20 n Hn) as Hd. revert Hd. unfold dec. generalize (dec_fuel 20 n).
  intros s. induction s as [|c s IH]; [done|]. simpl. intros [Hc Hs]%andb_prop.
  rewrite (IH Hs), andb_true_r. destruct (Ascii.eqb_spec c " "); [by subst|done].
Qed.

Lemma elem_of_opt p b k v : p ∈ opt_setting b k v -> p = (k, v).
Proof. destruct b; simpl; set_solver. Qed.

Lemma settings_words c p : plain_config c -> 0 <= port c -> 0 <= connect_timeout c ->
  sslmode c ∈ sslmodes -> p ∈ settings c -> free_of " " (word p) = true /\ free_of "=" p.1 = true.
Proof.
  intros [Hp _] Hport Hct Hm Hin. unfold settings in Hin. unfold word.
  assert (Hms : free_of " " (sslmode c) = true).
  { clear -Hm. unfold sslmodes in Hm. rewrite !elem_of_cons, elem_of_nil in Hm.
    by destruct Hm as [->|[->|[->|[->|[->|[]]]]]]. }
  pose proof (fun s H => plain_free s (Hp s H)) as Hf.
  rewrite !elem_of_app, !elem_of_cons, elem_of_nil in Hin.
  repeat match type of Hin with _ \/ _ => destruct Hin as [Hin|Hin] end;
    first [apply elem_of_opt in Hin as ->|subst p|done]; cbn [fst snd]; (split; [|done]);
    rewrite free_of_app; apply andb_true_intro; (split; [done|]); simpl;
    first [apply Hf; set_solver|by apply to_string_free|done].
Qed.

Lemma conninfo_settings c : plain_config c -> 0 <= port c -> 0 <= connect_timeout c ->
  sslmode c ∈ sslmodes -> conninfo (to_connection_string c) = settings c.
Proof.
  intros Hc Hport Hct Hm. pose proof (connection_settings c (no_options c Hc)) as E.
  pose proof (settings_words c) as Hw. unfold conninfo.
  assert (Hs : split_at " " (EmptyString +:+ String " " (to_connection_string c)) = EmptyString :: map word (settings c)).
  { rewrite string_nil_app, E. apply (split_render EmptyString); [done|]. intros p Hp. by apply Hw. }
  rewrite split_next in Hs by done.
  apply (f_equal tail) in Hs. cbn [tail] in Hs. rewrite Hs, map_map.
  assert (forall l, (forall p, p ∈ l -> free_of "=" p.1 = true) ->
    map (fun p => cut "=" (word p)) l = l) as Hl.
  { induction l as [|[k v] l IH]; [done|]. intros Hl. cbn [map].
    rewrite cut_word by (apply (Hl (k, v)); constructor). f_equal. apply IH.
    intros q Hq. apply Hl. by constructor. }
  apply Hl. intros p Hp. by apply Hw.
Qed.

Lemma setting_opt b k v k' acc :
  fold_left (fun acc p => if String.eqb p.1 k' then p.2 else acc) (opt_setting b k v) acc =
  if b && String.eqb k k' then v else acc.
Proof. destruct b; [|done]. simpl. by destruct (String.eqb k k'). Qed.

Lemma stoi_to_string n : 0 <= n < 2 ^ 31 -> stoi (to_string n) = Some n.
Proof.
  intros. unfold to_string. destruct (n <? 0) eqn:E; [zbool; lia|]. by apply stoi_dec.
Qed.

Definition with_connect_timeout (n : Z) (c : PgSqlConfig) : PgSqlConfig := {|
  host := host c; port := port c; database := database c; user := user c; password := password c;
  options := options c; pool_size := pool_size c; connect_timeout := n; query_timeout := query_timeout c;
  sslmode := sslmode c; sslcert := sslcert c; sslkey := sslkey c; sslrootcert := sslrootcert c |}.

(** C36: The connection string of a valid configuration whose texts need no quotes, read as libpq reads it,
    gives the host, the port, the database, the user, the password and the SSL settings, the
    ones that were left out as defaults included, and the connect timeout unless that is 30.  The code
    leaves a timeout of 30 out because 30 is its own default; libpq then waits indefinitely.
    So the string stands for its configuration exactly when the timeout is another one. *)
Theorem connection_string_roundtrip readable c :
  valid readable c -> plain_config c ->
  let c' := read_back c (to_connection_string c) in
  c' = with_connect_timeout (if connect_timeout c =? 30 then 0 else connect_timeout c) c /\
  (c' = c <-> connect_timeout c <> 30).
Proof.
  intros [_ _ _ Hport _ Hct _ Hm _] Hc c'.
  assert (E : c' = with_connect_timeout (if connect_timeout c =? 30 then 0 else connect_timeout c) c).
  { unfold c', read_back, int_setting. rewrite (conninfo_settings c Hc ltac:(lia) ltac:(lia) Hm).
    unfold setting, settings. rewrite !fold_left_app, !setting_opt. simpl.
    rewrite !andb_false_r, !andb_true_r. simpl. rewrite !stoi_to_string by lia. simpl.
    assert (Hne : sslmode c <> EmptyString) by (intros E; rewrite E in Hm; unfold sslmodes in Hm; set_solver).
    assert (Hto : default 0 (stoi (if negb (connect_timeout c =? 30)
        then to_string (connect_timeout c) else EmptyString)) = if connect_timeout c =? 30 then 0 else connect_timeout c).
    { destruct (connect_timeout c =? 30); cbn [negb]; [done|]. by rewrite stoi_to_string by lia. }
    rewrite Hto. unfold is_empty, with_connect_timeout. clear -Hne.
    destruct c; simpl in *. f_equal; repeat case_bool_decide; simpl; congruence. }
  split; [exact E|]. rewrite E. clear E. unfold with_connect_timeout. split.
  - intros E. apply (f_equal connect_timeout) in E. simpl in E. destruct (Z.eqb_spec (connect_timeout c) 30); lia.
  - intros Hn. rewrite (proj2 (Z.eqb_neq _ _) Hn). by destruct c.
Qed.

(** ** On concrete settings *)

Module PgConfigExample.

Definition no_file (_ : string) : bool := false.
Definition no_what (_ : jval) (_ : string) : string := "type_error".

Definition doc : jval := JObj [("postgresql", JObj [("host", JStr "db.local"); ("port", JInt 5433);
  ("user", JStr "im"); ("password", JStr "s3cret"); ("sslmode", JStr "require");
  ("connect_timeout", JInt 5)])].
Definition production : PgSqlConfig := {|
  host := "db.local"; port := 5433; database := "mychat"; user := "im"; password := "s3cret";
  options := EmptyString; pool_size := 10; connect_timeout := 5; query_timeout := 30; sslmode := "require";
  sslcert := EmptyString; sslkey := EmptyString; sslrootcert := EmptyString |}.

Definition getenv (name : string) : option string :=
  if String.eqb name "MYCHAT_DB_PORT" then Some "5433" else None.

Lemma production_plain : plain_config production.
Proof.
  split; [|done]. intros s. rewrite !elem_of_cons, elem_of_nil.
  intros [->|[->|[->|[->|[->|[->|[->|[]]]]]]]]; done.
Qed.

Lemma loaded_config_witness :
  (from_file no_file no_what EmptyString (Document doc) "db.json" = inr production /\ valid no_file production) /\
  match from_environment no_file getenv with
  | inr c => port c = 5433 /\ valid no_file c
  | inl _ => False
  end.
Proof.
  split.
  - split; [by vm_compute|].
    refine (proj1 (proj1 (loaded_config no_file no_what EmptyString (Document doc) "db.json" getenv _) _)).
    by vm_compute.
  - destruct (from_environment no_file getenv) as [e|c] eqn:E; [by vm_compute in E|].
    split; [by vm_compute in E; injection E as <-|].
    exact (proj1 (proj2 (loaded_config no_file no_what EmptyString Unopened EmptyString getenv c) E)).
Defined.

Lemma connection_string_roundtrip_witness :
  to_connection_string production =
    "host=db.local port=5433 dbname=mychat user=im password=s3cret sslmode=require connect_timeout=5" /\
  read_back production (to_connection_string production) = production /\
  to_connection_string (with_connect_timeout 30 production) =
    "host=db.local port=5433 dbname=mychat user=im password=s3cret sslmode=require" /\
  read_back (with_connect_timeout 30 production) (to_connection_string (with_connect_timeout 30 production)) =
    with_connect_timeout 0 production.
Proof.
  destruct (connection_string_roundtrip no_file production) as [_ Hp];
    [apply validate_None; by vm_compute|apply production_plain|].
  destruct (connection_string_roundtrip no_file (with_connect_timeout 30 production)) as [Hd _];
    [apply validate_None; by vm_compute|destruct production_plain as [Hs Ho]; split; [exact Hs|exact Ho]|].
  split_and!; [by vm_compute|by apply Hp|by vm_compute|exact Hd].
Defined.

(** Values are not quoted: a password with a blank becomes settings of its own, and two valid
    configurations share one connection string. *)
Definition spaced : PgSqlConfig := {|
  host := "db.local"; port := 5433; database := "mychat"; user := "im";
  password := "x sslmode=disable"; options := EmptyString; pool_size := 10; connect_timeout := 30;
  query_timeout := 30; sslmode := "prefer"; sslcert := EmptyString; sslkey := EmptyString; sslrootcert := EmptyString |}.

Lemma password_with_blank : validate no_file spaced = None /\
  sslmode (read_back spaced (to_connection_string spaced)) = "disable" /\
  password (read_back spaced (to_connection_string spaced)) = "x".
Proof. by vm_compute. Qed.
End PgConfigExample.
