(* ===== verification/PgSql.v ===== *)
(** The PostgreSQL connection (src/common/database/pgsql/pgsql_conn.hpp and pgsql_conn.cpp):
    [PgSqlConnection], its RAII [Transaction], [execute_in_transaction], the typed operations
    with their translation of exceptions, and the schema functions.

    ODB on libpq is third-party code: its calls are the class [Pg] over a world [W] (the
    server, and the current transaction and session of the thread), a handle [Db] stands for
    an [odb::pgsql::database].  [PgLaws] states what is relied on. *)
From S2P Require Import Prelude Text Schema Odb MemDb Config PgConfig.
Open Scope string_scope.
Open Scope Z_scope.

(** ** Exceptions *)

(** The classes the code tells apart, with [what()]: [DatabaseException] is
    [odb::database_exception]; [OdbException] any other [odb::exception], as of a call outside a
    transaction; [StdException] any other [std::exception]; [NotPersistent] and
    [AlreadyPersistent] are not database exceptions. *)
Inductive exn :=
| AlreadyPersistent (what : string)
| NotPersistent (what : string)
| DatabaseException (what : string)
| OdbException (what : string)
| RuntimeError (what : string)
| StdException (what : string).

Definition what (e : exn) : string :=
  match e with
  | AlreadyPersistent s | NotPersistent s | DatabaseException s | OdbException s
  | RuntimeError s | StdException s => s
  end.

(** A call: it changes the world, and throws or answers. *)
Definition act (W A : Type) : Type := W -> W * (exn + A).

Definition pure {W A} (a : A) : act W A := fun w => (w, inr a).
Definition throw {W A} (e : exn) : act W A := fun w => (w, inl e).
Definition seq {W A B} (m : act W A) (k : A -> act W B) : act W B := fun w =>
  match m w with (w1, inl e) => (w1, inl e) | (w1, inr a) => k a w1 end.

(** [try { m } catch (...) { ... throw ...; }]. *)
Definition rethrow {W A} (f : exn -> exn) (m : act W A) : act W A := fun w =>
  match m w with (w1, inl e) => (w1, inl (f e)) | (w1, inr a) => (w1, inr a) end.

Notation "'do!' x := m 'in' k" := (seq m (fun x => k))
  (at level 10, x name, m at level 100, k at level 200) : im_scope.
Open Scope im_scope.

(** ** What ODB provides *)

Class Pg (W Db : Type) := {
  connect : string -> act W Db;                 (* [odb::pgsql::database(conninfo)] *)
  close : Db -> W -> W;                         (* its destructor *)
  Txn : Type;                                   (* an [odb::transaction] *)
  db_begin : Db -> act W Txn;                   (* [odb::transaction t(db.begin())] *)
  db_commit : Txn -> act W unit;                (* [t.commit()] *)
  db_rollback : Txn -> act W unit;              (* [t.rollback()] *)
  txn_destroy : Txn -> W -> W;                  (* [~transaction()] *)
  db_execute : Db -> string -> act W unit;
  catalog_drop : Db -> act W unit;              (* [odb::schema_catalog] *)
  catalog_create : Db -> act W unit;
  session_new : act W unit;                     (* [odb::session()] *)
  session_delete : W -> W;
  db_persist : forall {Row} `{Persistent Row}, Db -> Row -> act W Row;
  db_update : forall {Row} `{Persistent Row}, Db -> Row -> act W unit;
  db_erase : forall {Row} `{Persistent Row}, Db -> key Row -> act W unit;
  db_load : forall {Row} `{Persistent Row}, Db -> key Row -> act W Row;
  db_find : forall {Row} `{Persistent Row}, Db -> key Row -> act W (option Row);
  db_query : forall {Row} `{Persistent Row}, Db -> (Row -> bool) -> act W (list Row)
}.

Section Connection.
Context {W Db : Type} `{Pg W Db}.

Record PgSqlConnection := {
  database_ : option Db;
  session_ : bool;
  config_ : PgSqlConfig
}.

Definition runtime (prefix : string) (e : exn) : exn := RuntimeError (prefix +:+ what e).

(** [check_db()], and the handle. *)
Definition check_db (c : PgSqlConnection) : act W Db :=
  match database_ c with
  | Some db => pure db
  | None => throw (RuntimeError "Database connection is not available")
  end.

(** ** Transactions *)

Record Transaction := { transaction_ : option Txn; committed_ : bool; active_ : bool }.

Definition begin_transaction (c : PgSqlConnection) : act W Transaction :=
  match database_ c with
  | None => throw (RuntimeError "数据库连接不可用，无法开始事务")
  | Some db =>
      do! t := rethrow (runtime "开始事务失败: ") (db_begin db) in
      pure {| transaction_ := Some t; committed_ := false; active_ := true |}
  end.

Definition ended (tx : Transaction) (committed : bool) : Transaction :=
  {| transaction_ := transaction_ tx; committed_ := committed; active_ := false |}.

(** The members are given back with the outcome: they change although the call throws. *)
Definition tx_commit (tx : Transaction) : W -> W * (Transaction * (exn + unit)) := fun w =>
  if negb (active_ tx) then (w, (tx, inl (RuntimeError "事务已结束，无法提交")))
  else match transaction_ tx with
  | None => (w, (tx, inl (RuntimeError "事务对象无效，无法提交")))
  | Some t =>
      match db_commit t w with
      | (w1, inr _) => (w1, (ended tx true, inr tt))
      | (w1, inl e) => (w1, (ended tx (committed_ tx), inl (runtime "提交事务失败: " e)))
      end
  end.

Definition tx_rollback (tx : Transaction) : W -> W * (Transaction * (exn + unit)) := fun w =>
  if negb (active_ tx) then (w, (tx, inl (RuntimeError "事务已结束，无法回滚")))
  else match transaction_ tx with
  | None => (w, (tx, inl (RuntimeError "事务对象无效，无法回滚")))
  | Some t =>
      match db_rollback t w with
      | (w1, inr _) => (w1, (ended tx (committed_ tx), inr tt))
      | (w1, inl e) => (w1, (ended tx (committed_ tx), inl (runtime "回滚事务失败: " e)))
      end
  end.

Definition tx_is_valid (tx : Transaction) : bool := active_ tx.

(** [~Transaction()]: the destructor's body, then the member [transaction_]. *)
Definition tx_destroy (tx : Transaction) (w : W) : W :=
  match transaction_ tx with
  | None => w
  | Some t => txn_destroy t (if active_ tx && negb (committed_ tx) then (db_rollback t w).1 else w)
  end.

(** [execute_in_transaction(func)]: [func] is given the connection; a function without a
    result answers [tt]. *)
Definition execute_in_transaction {A} (c : PgSqlConnection) (func : PgSqlConnection -> act W A)
  : act W A := fun w =>
  match begin_transaction c w with
  | (w1, inl e) => (w1, inl e)
  | (w1, inr tx) =>
      match func c w1 with
      | (w2, inl e) => (tx_destroy tx w2, inl e)
      | (w2, inr ret) =>
          match tx_commit tx w2 with
          | (w3, (tx', inl e)) => (tx_destroy tx' w3, inl e)
          | (w3, (tx', inr _)) => (tx_destroy tx' w3, inr ret)
          end
      end
  end.

(** A local [odb::transaction] around some calls. *)
Definition plain_transaction (db : Db) (body : act W unit) : act W unit := fun w =>
  match db_begin db w with
  | (w1, inl e) => (w1, inl e)
  | (w1, inr t) =>
      match body w1 with
      | (w2, inl e) => (txn_destroy t w2, inl e)
      | (w2, inr _) => match db_commit t w2 with (w3, r) => (txn_destroy t w3, r) end
      end
  end.

(** ** Typed operations *)

(** The handlers [catch (...object_already_persistent...)], [catch (...database_exception...)]. *)
Definition persist_errors (e : exn) : exn :=
  match e with
  | AlreadyPersistent _ => runtime "对象已经存在于数据库中: " e
  | DatabaseException _ => runtime "数据库操作失败: " e
  | _ => e
  end.
Definition object_errors (gone : exn -> exn) (prefix : string) (e : exn) : exn :=
  match e with
  | NotPersistent _ => gone e
  | DatabaseException _ => runtime prefix e
  | _ => e
  end.
Definition database_errors (prefix : string) (e : exn) : exn :=
  match e with DatabaseException _ => runtime prefix e | _ => e end.

Section Objects.
Context {Row : Type} `{Persistent Row} (id_text : key Row -> string).

Definition absent (e : exn) : exn := runtime "对象不存在于数据库中: " e.

(** The identifier of the object [persist] stored, with the object: its automatic id is set. *)
Definition persist (c : PgSqlConnection) (obj : Row) : act W (key Row * Row) :=
  do! db := check_db c in
  do! stored := rethrow persist_errors (db_persist db obj) in
  pure (key_of stored, stored).

Definition update (c : PgSqlConnection) (obj : Row) : act W unit :=
  do! db := check_db c in rethrow (object_errors absent "数据库更新失败: ") (db_update db obj).

Definition erase_object (c : PgSqlConnection) (obj : Row) : act W unit :=
  do! db := check_db c in
  rethrow (object_errors absent "数据库删除失败: ") (db_erase db (key_of obj)).

Definition erase (c : PgSqlConnection) (id : key Row) : act W unit :=
  do! db := check_db c in
  rethrow (object_errors (fun _ => RuntimeError ("对象不存在于数据库中，ID: " +:+ id_text id))
             "数据库删除失败: ") (db_erase db id).

Definition load (c : PgSqlConnection) (id : key Row) : act W Row :=
  do! db := check_db c in
  rethrow (object_errors (fun _ => RuntimeError ("对象不存在，ID: " +:+ id_text id))
             "数据库加载失败: ") (db_load db id).

Definition find (c : PgSqlConnection) (id : key Row) : act W (option Row) :=
  do! db := check_db c in rethrow (database_errors "数据库查找失败: ") (db_find db id).

Definition query (c : PgSqlConnection) (q : Row -> bool) : act W (list Row) :=
  do! db := check_db c in rethrow (database_errors "数据库查询失败: ") (db_query db q).

Definition query_one (c : PgSqlConnection) (q : Row -> bool) : act W (option Row) :=
  do! result := query c q in
  match result with
  | [] => pure None
  | [obj] => pure (Some obj)
  | _ => throw (RuntimeError "Query returned more than one result")
  end.
End Objects.

(** ** Statements and schemas *)

Definition execute_sql (c : PgSqlConnection) (sql : string) : act W unit :=
  do! db := check_db c in rethrow (database_errors "执行SQL语句失败: ") (db_execute db sql).

(** A [Transaction] around calls whose database exceptions are translated, the commit's
    included; the other exceptions pass. *)
Definition in_transaction (c : PgSqlConnection) (prefix : string) (body : Db -> act W unit)
  : act W unit := fun w =>
  match check_db c w with
  | (w0, inl e) => (w0, inl e)
  | (w0, inr db) =>
      match begin_transaction c w0 with
      | (w1, inl e) => (w1, inl e)
      | (w1, inr tx) =>
          match body db w1 with
          | (w2, inl e) => (tx_destroy tx w2, inl (database_errors prefix e))
          | (w2, inr _) =>
              match tx_commit tx w2 with
              | (w3, (tx', inl e)) => (tx_destroy tx' w3, inl (database_errors prefix e))
              | (w3, (tx', inr _)) => (tx_destroy tx' w3, inr tt)
              end
          end
      end
  end.

Definition recreate (drop_existing : bool) (db : Db) : act W unit :=
  do! _ := if drop_existing then catalog_drop db else pure tt in catalog_create db.

Definition create_schema (c : PgSqlConnection) (drop_existing : bool) : act W unit :=
  in_transaction c "模式创建失败: " (recreate drop_existing).

Definition drop_schema (c : PgSqlConnection) : act W unit :=
  in_transaction c "模式删除失败: " catalog_drop.

(** ** The connection *)

(** [test_connection()] on a set [database_]. *)
Definition ping (db : Db) : act W unit := plain_transaction db (db_execute db "SELECT 1").

Definition test_connection (c : PgSqlConnection) : act W unit :=
  do! db := check_db c in rethrow (runtime "测试数据库连接失败: ") (ping db).

Definition is_valid (c : PgSqlConnection) (w : W) : W * bool :=
  match database_ c with
  | None => (w, false)
  | Some db => match ping db w with (w1, inr _) => (w1, true) | (w1, inl _) => (w1, false) end
  end.

Definition setup_connection (cfg : PgSqlConfig) : act W PgSqlConnection :=
  do! db := connect (to_connection_string cfg) in
  pure {| database_ := Some db; session_ := false; config_ := cfg |}.

(** [cleanup()], and the destructor: the session first, then the database. *)
Definition cleanup (c : PgSqlConnection) (w : W) : PgSqlConnection * W :=
  let w1 := if session_ c then session_delete w else w in
  let w2 := match database_ c with Some db => close db w1 | None => w1 end in
  ({| database_ := None; session_ := false; config_ := config_ c |}, w2).

Definition destroy (c : PgSqlConnection) (w : W) : W := (cleanup c w).2.

(** A constructor after it has its configuration; an exception destroys the members. *)
Definition open_connection (cfg : PgSqlConfig) : act W PgSqlConnection := fun w =>
  match setup_connection cfg w with
  | (w1, inl e) => (w1, inl e)
  | (w1, inr c) =>
      match test_connection c w1 with
      | (w2, inl e) => (destroy c w2, inl e)
      | (w2, inr _) => (w2, inr c)
      end
  end.

(** The constructor from the environment, from a file (what loading gave), from a
    configuration, which is not validated, and from a database. *)
Definition from_loaded (loaded : string + PgSqlConfig) : act W PgSqlConnection :=
  match loaded with inl e => throw (RuntimeError e) | inr cfg => open_connection cfg end.

Definition from_config (cfg : PgSqlConfig) : act W PgSqlConnection :=
  rethrow (runtime "PostgreSQL连接创建失败: ") (open_connection cfg).

Definition from_database (db : option Db) : act W PgSqlConnection := fun w =>
  match db with
  | None => (w, inl (RuntimeError "数据库连接对象为空"))
  | Some d =>
      let c := {| database_ := Some d; session_ := false; config_ := default_config |} in
      match test_connection c w with
      | (w1, inl e) => (w1, inl e)
      | (w1, inr _) => (w1, inr c)
      end
  end.

(** ** The session cache *)

(** The new session is made before the pointer's old one is deleted. *)
Definition enable_session_cache (c : PgSqlConnection) : W -> W * (PgSqlConnection * (exn + unit)) := fun w =>
  match session_new w with
  | (w1, inl e) => (w1, (c, inl e))
  | (w1, inr _) =>
      ((if session_ c then session_delete w1 else w1),
       ({| database_ := database_ c; session_ := true; config_ := config_ c |}, inr tt))
  end.

Definition disable_session_cache (c : PgSqlConnection) (w : W) : W * PgSqlConnection :=
  ((if session_ c then session_delete w else w),
   {| database_ := database_ c; session_ := false; config_ := config_ c |}).

Definition is_session_cache_enabled (c : PgSqlConnection) : bool := session_ c.
End Connection.
Arguments PgSqlConnection : clear implicits.

(** * Laws

    [view] is what the thread sees of the tables, [saved] what a rollback restores, [current]
    the thread's open transaction.  A commit that throws may have reached the server or not. *)

(** A call that neither ends nor begins a transaction: it leaves the current one open with
    what a rollback restores, and without one it changes nothing. *)
Definition keeping {W T A} (current : W -> option T) (view saved : W -> Schema) (m : act W A) : Prop :=
  forall w w' r, m w = (w', r) -> current w' = current w /\ saved w' = saved w /\
    (current w = None -> view w' = view w).

Class PgLaws (W Db : Type) `{Pg W Db} := {
  view : W -> Schema;
  saved : W -> Schema;
  current : W -> option Txn;
  begin_law db w w' r : db_begin db w = (w', r) -> view w' = view w /\
    match r with
    | inr t => current w = None /\ current w' = Some t /\ saved w' = view w
    | inl _ => current w' = current w /\ saved w' = saved w
    end;
  commit_law t w w' r : current w = Some t -> db_commit t w = (w', r) -> current w' = None /\
    match r with inr _ => view w' = view w | inl _ => view w' = view w \/ view w' = saved w end;
  rollback_law t w w' r : current w = Some t -> db_rollback t w = (w', r) ->
    current w' = None /\ view w' = saved w;
  destroy_open_law t w : current w = Some t ->
    current (txn_destroy t w) = None /\ view (txn_destroy t w) = saved w;
  destroy_ended_law t w : current w <> Some t ->
    current (txn_destroy t w) = current w /\ view (txn_destroy t w) = view w;
  execute_law db sql : keeping current view saved (db_execute db sql);
  select_law db w w' r : db_execute db "SELECT 1" w = (w', r) -> view w' = view w;
  create_law db : keeping current view saved (catalog_create db);
  drop_law db : keeping current view saved (catalog_drop db);
  persist_law {Row} `{Persistent Row} db (x : Row) : keeping current view saved (db_persist db x);
  update_law {Row} `{Persistent Row} db (x : Row) : keeping current view saved (db_update db x);
  erase_law {Row} `{Persistent Row} db (k : key Row) : keeping current view saved (db_erase (Row := Row) db k);
  load_law {Row} `{Persistent Row} db (k : key Row) : keeping current view saved (db_load (Row := Row) db k);
  find_law {Row} `{Persistent Row} db (k : key Row) : keeping current view saved (db_find (Row := Row) db k);
  query_law {Row} `{Persistent Row} db (p : Row -> bool) : keeping current view saved (db_query db p);
  query_answer {Row} `{Persistent Row} db (p : Row -> bool) w w' l : db_query db p w = (w', inr l) ->
    view w' = view w /\ l ≡ₚ filter (fun r => p r) (table (view w))
}.

(** * Theorems *)

Create HintDb keeps.

Section Theorems.
Context {W Db : Type} `{PgLaws W Db}.

Abbreviation keeps := (keeping current view saved).
Implicit Types (c : PgSqlConnection Db) (w : W).

Lemma keeps_pure {A} (a : A) : keeps (pure a).
Proof. by intros w w' r [= <- <-]. Qed.

Lemma keeps_throw {A} e : keeps (throw (A := A) e).
Proof. by intros w w' r [= <- <-]. Qed.

Lemma keeps_seq {A B} (m : act W A) (k : A -> act W B) : keeps m -> (forall a, keeps (k a)) -> keeps (seq m k).
Proof.
  intros Hm Hk w w' r. unfold seq. destruct (m w) as [w1 [e|a]] eqn:E1; apply Hm in E1 as (C1 & S1 & V1).
  - by intros [= <- <-].
  - intros (C2 & S2 & V2)%Hk. split_and!; [congruence..|]. intros Hc. rewrite V2, V1; congruence.
Qed.

Lemma keeps_rethrow {A} f (m : act W A) : keeps m -> keeps (rethrow f m).
Proof.
  intros Hm w w' r. unfold rethrow. destruct (m w) as [w1 [e|a]] eqn:E1; apply Hm in E1;
    by intros [= <- <-].
Qed.

Lemma keeps_check_db c : keeps (check_db c).
Proof. unfold check_db. case_match; [apply keeps_pure|apply keeps_throw]. Qed.

Hint Resolve keeps_pure keeps_throw keeps_seq keeps_rethrow keeps_check_db execute_law create_law
  drop_law persist_law update_law erase_law load_law find_law query_law : keeps.

Ltac keeps := repeat first [solve [eauto with keeps]|apply keeps_seq; [|intros ?]|apply keeps_rethrow|case_match].

(** Every typed operation may be used in a transaction. *)
Section Typed.
Context {Row : Type} `{Persistent Row} (id_text : key Row -> string).

Lemma persist_keeps c (x : Row) : keeps (persist c x). Proof. unfold persist. keeps. Qed.
Lemma update_keeps c (x : Row) : keeps (update c x). Proof. unfold update. keeps. Qed.
Lemma erase_object_keeps c (x : Row) : keeps (erase_object c x). Proof. unfold erase_object. keeps. Qed.
Lemma erase_keeps c k : keeps (erase id_text c k). Proof. unfold erase. keeps. Qed.
Lemma load_keeps c k : keeps (load id_text c k). Proof. unfold load. keeps. Qed.
Lemma find_keeps c (k : key Row) : keeps (find c k). Proof. unfold find. keeps. Qed.
Lemma query_keeps c (p : Row -> bool) : keeps (query c p). Proof. unfold query. keeps. Qed.
Lemma query_one_keeps c (p : Row -> bool) : keeps (query_one c p). Proof. unfold query_one, query. keeps. Qed.
End Typed.

Lemma execute_sql_keeps c sql : keeps (execute_sql c sql). Proof. unfold execute_sql. keeps. Qed.

(** ** The life of a [Transaction] *)

(** What can happen to a transaction object and the world before it is destroyed. *)
Inductive tx_step : Transaction (W := W) (Db := Db) * W -> Transaction (W := W) (Db := Db) * W -> Prop :=
| step_work {A} (m : act W A) tx w w' r : keeps m -> m w = (w', r) -> tx_step (tx, w) (tx, w')
| step_commit tx w w' tx' r : tx_commit tx w = (w', (tx', r)) -> tx_step (tx, w) (tx', w')
| step_rollback tx w w' tx' r : tx_rollback tx w = (w', (tx', r)) -> tx_step (tx, w) (tx', w').

(** The object and the world agree: active exactly while its transaction is the current one. *)
Definition tx_inv (t : Txn) (s0 : Schema) (p : Transaction * W) : Prop :=
  let '(tx, w) := p in transaction_ tx = Some t /\
  if active_ tx then committed_ tx = false /\ current w = Some t /\ saved w = s0 else current w = None.

Lemma begin_inv c w w1 tx : begin_transaction c w = (w1, inr tx) ->
  current w = None /\ view w1 = view w /\ active_ tx = true /\ exists t, tx_inv t (view w) (tx, w1).
Proof.
  unfold begin_transaction, seq, rethrow, pure. intros E. destruct (database_ c) as [db|]; [|done].
  destruct (db_begin db w) as [w2 [e|t]] eqn:Eb; simplify_eq. apply begin_law in Eb as (Hv & Hn & Hc & Hs).
  split_and!; try done. by exists t.
Qed.

Lemma commit_inv t s0 tx w w' tx' r : tx_inv t s0 (tx, w) -> tx_commit tx w = (w', (tx', r)) ->
  tx_inv t s0 (tx', w') /\ active_ tx' = false /\
  if active_ tx then match r with inr _ => view w' = view w | inl _ => view w' = view w \/ view w' = s0 end
  else w' = w /\ exists e, r = inl e.
Proof.
  intros [Ht Hi]. unfold tx_commit. destruct (active_ tx) eqn:Ea; simpl.
  - rewrite Ht. destruct Hi as (Hc & Hcur & <-).
    destruct (db_commit t w) as [w1 [e|[]]] eqn:E; apply (commit_law t) in E as [Hn Hv]; try done;
      intros [= <- <- <-]; by split_and!.
  - intros [= <- <- <-]. rewrite Ea. split_and!; eauto.
Qed.

Lemma commit_throws t tx w w' tx' e : active_ tx = true -> transaction_ tx = Some t ->
  tx_commit tx w = (w', (tx', inl e)) -> exists e', e = runtime "提交事务失败: " e'.
Proof.
  intros Ha Ht. unfold tx_commit. rewrite Ha, Ht. simpl.
  destruct (db_commit t w) as [w1 [e1|]]; intros [= <- <- <-]. by exists e1.
Qed.

Lemma rollback_inv t s0 tx w w' tx' r : tx_inv t s0 (tx, w) -> tx_rollback tx w = (w', (tx', r)) ->
  tx_inv t s0 (tx', w') /\ active_ tx' = false /\
  if active_ tx then view w' = s0 else w' = w /\ exists e, r = inl e.
Proof.
  intros [Ht Hi]. unfold tx_rollback. destruct (active_ tx) eqn:Ea; simpl.
  - rewrite Ht. destruct Hi as (Hc & Hcur & <-).
    destruct (db_rollback t w) as [w1 [e|[]]] eqn:E; apply (rollback_law t) in E as [Hn Hv]; try done;
      intros [= <- <- <-]; by split_and!.
  - intros [= <- <- <-]. rewrite Ea. split_and!; eauto.
Qed.

Lemma step_inv t s0 p q : tx_step p q -> tx_inv t s0 p ->
  tx_inv t s0 q /\ (active_ p.1 = false -> active_ q.1 = false /\ view q.2 = view p.2).
Proof.
  intros Hs Hi. destruct Hs as [A m tx w w' r Hm E|tx w w' tx' r E|tx w w' tx' r E].
  - apply Hm in E as (Hc & Hsv & Hv). destruct Hi as [Ht Hi]. simpl. rewrite Hc, Hsv.
    split; [by destruct (active_ tx)|]. intros Ea. rewrite Ea in Hi. auto.
  - pose proof (commit_inv _ _ _ _ _ _ _ Hi E) as (Hi' & Ha' & Hv). split; [done|]. simpl.
    intros Ea. rewrite Ea in Hv. by destruct Hv as [-> _].
  - pose proof (rollback_inv _ _ _ _ _ _ _ Hi E) as (Hi' & Ha' & Hv). split; [done|]. simpl.
    intros Ea. rewrite Ea in Hv. by destruct Hv as [-> _].
Qed.

Lemma steps_inv t s0 p q : rtc tx_step p q -> tx_inv t s0 p ->
  tx_inv t s0 q /\ (active_ p.1 = false -> active_ q.1 = false /\ view q.2 = view p.2).
Proof.
  induction 1 as [p|p p1 q Hs _ IH]; intros Hi; [done|].
  apply (step_inv t s0) in Hs as [Hi1 Hv1]; [|done]. destruct (IH Hi1) as [Hi2 Hv2]. split; [done|].
  intros Ha. destruct (Hv1 Ha) as [Ha1 E1]. destruct (Hv2 Ha1) as [Ha2 E2]. split; congruence.
Qed.

Lemma destroy_inv t s0 tx w : tx_inv t s0 (tx, w) ->
  current (tx_destroy tx w) = None /\
  view (tx_destroy tx w) = if active_ tx then s0 else view w.
Proof.
  intros [Ht Hi]. unfold tx_destroy. rewrite Ht. destruct (active_ tx); simpl.
  - destruct Hi as (-> & Hc & <-). simpl. destruct (db_rollback t w) as [w1 r] eqn:E.
    apply (rollback_law t) in E as [Hn Hv]; [|done]. simpl.
    destruct (destroy_ended_law t w1) as [-> ->]; [congruence|done].
  - destruct (destroy_ended_law t w) as [-> ->]; [congruence|done].
Qed.

(** A [Transaction], however it is used and left, ends what it began: whatever typed
    operations, commits and rollbacks happen to it, its destruction leaves the thread without a
    transaction.  One that is still active loses every change since it began; once a commit or
    a rollback ended it, whether that call threw or not, every later one throws, and neither
    these, nor operations, nor the destructor change the tables; and a commit applies all the
    changes, or, when it throws, all or none. *)
Theorem transaction_raii c w w1 tx0 tx w2 :
  begin_transaction c w = (w1, inr tx0) -> rtc tx_step (tx0, w1) (tx, w2) ->
  current w = None /\ current (tx_destroy tx w2) = None /\
  (if active_ tx then view (tx_destroy tx w2) = view w
   else forall tx' w', rtc tx_step (tx, w2) (tx', w') ->
     view (tx_destroy tx' w') = view w2 /\
     (exists e, tx_commit tx' w' = (w', (tx', inl e))) /\
     (exists e, tx_rollback tx' w' = (w', (tx', inl e)))) /\
  (forall w3 tx' r, active_ tx = true -> tx_commit tx w2 = (w3, (tx', r)) -> active_ tx' = false /\
     match r with inr _ => view w3 = view w2 | inl _ => view w3 = view w2 \/ view w3 = view w end).
Proof.
  intros Hb Hsteps. apply begin_inv in Hb as (Hn & Hv & _ & t & Hi).
  apply (steps_inv t (view w)) in Hsteps as [Hi2 _]; [|done].
  destruct (destroy_inv _ _ _ _ Hi2) as [Hd Hdv]. split_and!; try done.
  - destruct (active_ tx) eqn:Ea; [done|]. intros tx' w' Hs.
    apply (steps_inv t (view w)) in Hs as [Hi3 Hs]; [|done]. destruct (Hs Ea) as [Ha Hw]. simpl in Ha, Hw.
    destruct (destroy_inv _ _ _ _ Hi3) as [_ ->]. rewrite Ha. split; [done|].
    unfold tx_commit, tx_rollback. rewrite Ha. simpl. eauto.
  - intros w3 tx' r Ha E. destruct (commit_inv _ _ _ _ _ _ _ Hi2 E) as (_ & ? & Hr).
    by rewrite Ha in Hr.
Qed.

(** C35: [execute_in_transaction] is all or nothing, and leaves the thread as it found it.
    Without an open transaction it runs the function in one, and afterwards none is open: when
    it returns, the changes of the function are applied; when it throws, none of them is, or
    the commit threw and they are applied all or none.  Inside an open transaction it throws
    without running the function, and the open one and its changes stay. *)
Theorem transaction_atomic {A} c (func : PgSqlConnection Db -> act W A) w w' r :
  keeps (func c) -> execute_in_transaction c func w = (w', r) ->
  match current w with
  | Some t => current w' = Some t /\ saved w' = saved w /\ view w' = view w /\ exists e, r = inl e
  | None => current w' = None /\
      match r with
      | inr a => exists w1 w2, view w1 = view w /\ func c w1 = (w2, inr a) /\ view w' = view w2
      | inl e => view w' = view w \/
          exists w1 w2 a e', view w1 = view w /\ func c w1 = (w2, inr a) /\ view w' = view w2 /\
            e = runtime "提交事务失败: " e'
      end
  end.
Proof.
  intros Hk. unfold execute_in_transaction.
  destruct (begin_transaction c w) as [w1 [e|tx]] eqn:Eb.
  - intros [= <- <-]. unfold begin_transaction, seq, rethrow, pure, throw in Eb.
    destruct (database_ c) as [db|]; [|simplify_eq; by destruct (current w1) eqn:Ec; eauto].
    destruct (db_begin db w) as [w2 [e2|t]] eqn:Ed; simplify_eq.
    apply begin_law in Ed as (Hv & Hc & Hs). rewrite Hc. destruct (current w) eqn:Ec; eauto 8.
  - apply begin_inv in Eb as (Hn & Hv & Ha & t & Hi). rewrite Hn.
    destruct (func c w1) as [w2 out] eqn:Ef. assert (Hi2 : tx_inv t (view w) (tx, w2)).
    { eapply step_inv; [|exact Hi]. by eapply step_work. }
    destruct (destroy_inv _ _ _ _ Hi2) as [Hd Hdv]. rewrite Ha in Hdv.
    destruct out as [e|a]; [by intros [= <- <-]; auto|].
    destruct (tx_commit tx w2) as [w3 [tx' res]] eqn:Ec.
    destruct (commit_inv _ _ _ _ _ _ _ Hi2 Ec) as (Hi3 & Ha3 & Hres). rewrite Ha in Hres.
    destruct (destroy_inv _ _ _ _ Hi3) as [Hd3 Hv3]. rewrite Ha3 in Hv3.
    destruct res as [e|u]; intros [= <- <-]; (split; [done|]); rewrite Hv3; [|by eauto].
    destruct Hres as [Hres|Hres]; [|by left]. right. exists w1, w2, a.
    destruct (commit_throws t _ _ _ _ _ Ha (proj1 Hi2) Ec) as [e' ->]. eauto 8.
Qed.

(** ** Schema functions and checks *)

(** The schema functions are [execute_in_transaction] with their translation of exceptions: what
    [begin_transaction] and [commit] throw is no database exception any more. *)
Lemma in_transaction_execute c db prefix body w : database_ c = Some db ->
  in_transaction c prefix body w =
    rethrow (database_errors prefix) (execute_in_transaction c (fun _ => body db)) w.
Proof.
  intros Hd. unfold in_transaction, rethrow, execute_in_transaction, check_db, begin_transaction.
  rewrite Hd. unfold pure, seq, rethrow. destruct (db_begin db w) as [w1 [e|t]]; [done|].
  destruct (body db w1) as [w2 [e|[]]]; [done|]. unfold tx_commit. simpl.
  by destruct (db_commit t w2) as [w3 [e|[]]].
Qed.

Lemma recreate_keeps drop_existing (db : Db) : keeps (recreate drop_existing db).
Proof. unfold recreate. keeps. Qed.

Lemma ping_inv db w w' r : ping db w = (w', r) -> view w' = view w /\
  match current w with
  | Some t => current w' = Some t /\ saved w' = saved w /\ exists e, r = inl e
  | None => current w' = None
  end.
Proof.
  unfold ping, plain_transaction. destruct (db_begin db w) as [w1 [e|t]] eqn:Eb;
    apply begin_law in Eb as [Hv Hb].
  - intros [= <- <-]. destruct Hb as [-> ->]. split; [done|]. destruct (current w); eauto.
  - destruct Hb as (-> & Hc & Hs). destruct (db_execute db _ w1) as [w2 r2] eqn:Ee.
    pose proof (select_law _ _ _ _ Ee) as Hv2. apply execute_law in Ee as (Hc2 & Hs2 & _).
    rewrite Hc in Hc2. destruct r2 as [e|u].
    + intros [= <- <-]. destruct (destroy_open_law _ _ Hc2) as [-> ->]. split; [congruence|done].
    + destruct (db_commit t w2) as [w3 r3] eqn:Ec. apply (commit_law t) in Ec as [Hc3 Hv3]; [|done].
      intros [= <- <-]. destruct (destroy_ended_law t w3) as [-> ->]; [congruence|].
      split; [|done]. destruct r3; [destruct Hv3|]; congruence.
Qed.

(** The check of a connection never changes the tables or the open transaction; inside one it
    answers false, whatever the server. *)
Lemma is_valid_inv c w w' b : is_valid c w = (w', b) -> view w' = view w /\ current w' = current w /\
  (current w <> None -> saved w' = saved w /\ b = false).
Proof.
  unfold is_valid. destruct (database_ c) as [db|]; [|by intros [= <- <-]].
  destruct (ping db w) as [w1 r] eqn:E. apply ping_inv in E as [Hv Hr]. intros E.
  assert (w' = w1) as -> by (destruct r; by simplify_eq). split; [done|].
  destruct (current w); [|done]. destruct Hr as (-> & -> & e & ->). by simplify_eq.
Qed.

(** [query_one] answers the only row, or none, or throws when there is more than one; what else
    it throws, [query] threw. *)
Lemma query_one_inv {Row} `{Persistent Row} c (p : Row -> bool) w w' r :
  query_one c p w = (w', r) ->
  match r with
  | inr o => view w' = view w /\
      filter (fun x => p x) (table (view w)) = match o with Some x => [x] | None => [] end
  | inl e => query c p w = (w', inl e) \/
      e = RuntimeError "Query returned more than one result" /\ view w' = view w /\
      (2 <= length (filter (fun x => p x) (table (view w))))%nat
  end.
Proof.
  unfold query_one, seq. destruct (query c p w) as [w1 [e|l]] eqn:Eq; [intros [= <- <-]; auto|].
  assert (Hl : view w1 = view w /\ l ≡ₚ filter (fun x => p x) (table (view w))).
  { unfold query, check_db, seq, rethrow in Eq. destruct (database_ c) as [db|]; simplify_eq/=.
    destruct (db_query db p w) as [w2 [e|l2]] eqn:Ed; simplify_eq. by apply query_answer in Ed. }
  destruct Hl as [Hv Hl]. destruct l as [|x [|y l]]; intros [= <- <-].
  - split; [done|]. by apply Permutation_nil_l in Hl.
  - split; [done|]. by apply Permutation_singleton_l in Hl.
  - right. split_and!; try done. rewrite <- Hl. simpl. lia.
Qed.
End Theorems.

(** ** A server in memory *)

Module MemPg.

(** [mem]: the tables; [open_txn] the thread's transaction, numbered from [made]; [commit_fault]:
    what happens to the next commit, which throws after it was applied or before. *)
Record Server := {
  mem : MemDb; open_txn : option nat; made : nat; session : bool; commit_fault : option bool
}.
Definition Handle : Type := string.

Definition with_mem (d : MemDb) (w : Server) : Server :=
  {| mem := d; open_txn := open_txn w; made := made w; session := session w;
     commit_fault := commit_fault w |}.
Definition with_open (o : option nat) (w : Server) : Server :=
  {| mem := mem w; open_txn := o; made := made w; session := session w;
     commit_fault := commit_fault w |}.

Definition lost (e : exn) (w : Server) : exn :=
  if up (mem w) then e else DatabaseException "connection lost".

(** An operation of [MemDb] in a transaction; [e] when it throws. *)
Definition of_mem {A} (e : exn) (m : exec MemDb A) : act Server A := fun w =>
  match open_txn w with
  | None => (w, inl (OdbException "operation can only be performed in transaction"))
  | Some _ => match m (mem w) with
              | (d, Throw) => (with_mem d w, inl (lost e w))
              | (d, Ok a) => (with_mem d w, inr a)
              end
  end.

Definition begin_ (_ : Handle) : act Server nat := fun w =>
  match open_txn w with
  | Some _ => (w, inl (OdbException "transaction already in progress in this thread"))
  | None =>
      if up (mem w) then
        ({| mem := {| cur := cur (mem w); snap := cur (mem w); up := true |}; open_txn := Some (made w);
            made := S (made w); session := session w; commit_fault := commit_fault w |}, inr (made w))
      else (w, inl (DatabaseException "connection refused"))
  end.

Definition undo (d : MemDb) : MemDb := {| cur := snap d; snap := snap d; up := up d |}.

(** Only the transaction that is open ends. *)
Definition commit_ (t : nat) : act Server unit := fun w =>
  if negb (bool_decide (open_txn w = Some t)) then (w, inl (OdbException "not in transaction"))
  else match commit_fault w with
  | None => if up (mem w) then (with_open None w, inr tt)
            else (with_open None (with_mem (undo (mem w)) w), inl (DatabaseException "connection lost"))
  | Some applied =>
      (with_open None (if applied then w else with_mem (undo (mem w)) w),
       inl (DatabaseException "connection lost"))
  end.
Definition rollback_ (t : nat) : act Server unit := fun w =>
  if negb (bool_decide (open_txn w = Some t)) then (w, inl (OdbException "not in transaction"))
  else (with_open None (with_mem (undo (mem w)) w), inr tt).
Definition destroy_ (t : nat) (w : Server) : Server := (rollback_ t w).1.

#[export] Instance mem_pg : Pg Server Handle := {
  connect s := fun w => (w, inr s);
  close _ w := w;
  Txn := nat;
  db_begin := begin_;
  db_commit := commit_;
  db_rollback := rollback_;
  txn_destroy := destroy_;
  db_execute _ _ := of_mem (DatabaseException "execute") (fun d => (d, if up d then Ok tt else Throw));
  catalog_drop _ := of_mem (DatabaseException "drop") (guard_up (fun d => (set_cur empty_schema d, Ok tt)));
  catalog_create _ := of_mem (DatabaseException "create") (guard_up (fun d => (d, Ok tt)));
  session_new := fun w =>
    if session w then (w, inl (OdbException "session already in effect in this thread"))
    else ({| mem := mem w; open_txn := open_txn w; made := made w; session := true;
             commit_fault := commit_fault w |}, inr tt);
  session_delete w := {| mem := mem w; open_txn := open_txn w; made := made w; session := false;
                         commit_fault := commit_fault w |};
  db_persist _ _ _ x := of_mem (DatabaseException "unique violation") (mem_persist x);
  db_update _ _ _ x := of_mem (NotPersistent "object not persistent") (mem_update x);
  db_erase Row _ _ k := of_mem (NotPersistent "object not persistent") (fun d =>
    match mem_load (Row := Row) k d with
    | (d1, Ok _) => mem_erase (fun r => bool_decide (key_of r = k)) d1
    | (d1, Throw) => (d1, Throw)
    end);
  db_load Row _ _ k := of_mem (NotPersistent "object not persistent") (fun d =>
    match mem_load (Row := Row) k d with (d1, Ok (Some x)) => (d1, Ok x) | (d1, _) => (d1, Throw) end);
  db_find Row _ _ k := of_mem (DatabaseException "find") (guard_up (fun d =>
    (d, Ok (snd <$> list_find (fun r => key_of r = k) (table (cur d))))));
  db_query _ _ _ p := of_mem (DatabaseException "query") (mem_query p None)
}.

Lemma of_mem_keeping {A} e (m : exec MemDb A) : (forall d d' r, m d = (d', r) -> snap d' = snap d) ->
  keeping open_txn (fun w => cur (mem w)) (fun w => snap (mem w)) (of_mem e m).
Proof.
  intros Hm w w' r. unfold of_mem. destruct (open_txn w) eqn:Eo.
  - destruct (m (mem w)) as [d [a|]] eqn:Em; apply Hm in Em; intros [= <- <-]; by simpl.
  - intros [= <- <-]. done.
Qed.

#[export] Instance mem_pg_laws : PgLaws Server Handle.
Proof.
  refine {| view := fun w => cur (mem w); saved := fun w => snap (mem w); current := open_txn |}.
  - intros db w w' r. unfold db_begin; simpl. unfold begin_. repeat case_match; intros [= <- <-]; done.
  - intros t w w' r Ho. unfold db_commit; simpl. unfold commit_. rewrite bool_decide_eq_true_2 by done. simpl.
    destruct (commit_fault w) as [[]|]; [..|destruct (up (mem w))]; intros [= <- <-]; simpl; auto.
  - intros t w w' r Ho. unfold db_rollback; simpl. unfold rollback_.
    rewrite bool_decide_eq_true_2 by done. by intros [= <- <-].
  - intros t w Ho. simpl. unfold destroy_, rollback_. by rewrite bool_decide_eq_true_2.
  - intros t w Ho. simpl. unfold destroy_, rollback_. by rewrite bool_decide_eq_false_2.
  - intros db sql. apply of_mem_keeping. intros d d' r. by intros [= <- <-].
  - intros db w w' r. simpl. unfold of_mem. repeat case_match; intros [= <- <-]; simplify_eq; done.
  - intros db. apply of_mem_keeping. intros d d' r. unfold guard_up. case_match; by intros [= <- <-].
  - intros db. apply of_mem_keeping. intros d d' r. unfold guard_up. case_match; by intros [= <- <-].
  - intros Row HR db x. apply of_mem_keeping. intros d d' r E. by apply mem_persist_law in E as [E _].
  - intros Row HR db x. apply of_mem_keeping. intros d d' r E. by apply mem_update_law in E as [E _].
  - intros Row HR db k. apply of_mem_keeping. intros d d' r.
    destruct (mem_load k d) as [d1 [o|]] eqn:E; apply mem_load_law in E as [E _]; [|by intros [= <- _]].
    unfold mem_erase, guard_up. case_match; by intros [= <- <-].
  - intros Row HR db k. apply of_mem_keeping. intros d d' r.
    destruct (mem_load k d) as [d1 [[o|]|]] eqn:E; apply mem_load_law in E as [E _]; by intros [= <- _].
  - intros Row HR db k. apply of_mem_keeping. intros d d' r. unfold guard_up. case_match; by intros [= <- <-].
  - intros Row HR db p. apply of_mem_keeping. intros d d' r E. by apply mem_query_law in E as [E _].
  - intros Row HR db p w w' l. simpl. unfold of_mem. destruct (open_txn w); [|done].
    unfold mem_query, guard_up. destruct (up (mem w)) eqn:?; intros [= <- <-]. done.
Defined.
End MemPg.

Module PgSqlExample.
Import MemPg.

Definition ada : User := {|
  u_uid := "u1"; u_account := "ada"; u_password_hash := "h"; u_nickname := "Ada"; u_avatar := "a";
  u_gender := OTHER; u_signature := "s"; u_create_time := 3; u_last_login := 3; u_online := false |}.

Definition server : Server :=
  {| mem := mem_start empty_schema; open_txn := None; made := 0; session := false; commit_fault := None |}.
Definition conn : PgSqlConnection Handle :=
  {| database_ := Some "db"; session_ := false; config_ := default_config |}.

Definition add_ada (c : PgSqlConnection Handle) : act Server (string * User) := persist c ada.

Definition stored : Schema := set_table [ada] empty_schema.

(** A row is stored in a transaction; without a commit it is gone. *)
Definition begun : Server := (begin_transaction conn server).1.
Definition tx : Transaction := {| transaction_ := Some 0%nat; committed_ := false; active_ := true |}.
Definition worked : Server := (add_ada conn begun).1.

Lemma begun_eq : begin_transaction conn server = (begun, inr tx).
Proof. by vm_compute. Qed.

Lemma add_ada_keeping c : keeping current view saved (add_ada c).
Proof. exact (persist_keeps c ada). Qed.

Lemma worked_steps : rtc tx_step (tx, begun) (tx, worked).
Proof.
  apply rtc_once. eapply step_work; [apply (add_ada_keeping conn)|].
  unfold worked. apply surjective_pairing.
Qed.

Lemma transaction_raii_witness :
  view worked = stored /\ view (tx_destroy tx worked) = empty_schema /\
  current (tx_destroy tx worked) = None.
Proof.
  split; [by vm_compute|].
  destruct (transaction_raii conn server begun tx tx worked begun_eq worked_steps)
    as (_ & Hc & Hv & _). split; [exact Hv|exact Hc].
Defined.

(** The same through [execute_in_transaction]: committed; undone when the function throws; and
    a commit that throws although the server applied it. *)
Definition throwing (c : PgSqlConnection Handle) : act Server unit :=
  do! _ := add_ada c in throw (StdException "stop").
Definition faulty : Server :=
  {| mem := mem_start empty_schema; open_txn := None; made := 0; session := false;
     commit_fault := Some true |}.

Definition done_ : Server := (execute_in_transaction conn add_ada server).1.

Lemma transaction_atomic_witness :
  view done_ = stored /\ current done_ = None /\
  view (execute_in_transaction conn throwing server).1 = empty_schema /\
  view (execute_in_transaction conn add_ada faulty).1 = stored /\
  exists w1 w2, view w1 = view server /\ add_ada conn w1 = (w2, inr ("u1"%string, ada)) /\
    view done_ = view w2.
Proof.
  split; [by vm_compute|].
  assert (E : execute_in_transaction conn add_ada server = (done_, inr ("u1"%string, ada))) by by vm_compute.
  destruct (transaction_atomic conn add_ada server done_ _ (add_ada_keeping conn) E) as [Hc Hr].
  split; [exact Hc|]. split; [by vm_compute|]. split; [by vm_compute|]. exact Hr.
Defined.

(** [is_valid] within a transaction answers false on a connection that works. *)
Lemma is_valid_inside : (is_valid conn server).2 = true /\ (is_valid conn begun).2 = false.
Proof. by vm_compute. Qed.

(** A statement executed outside a transaction throws ODB's own exception: no handler turns it
    into a [std::runtime_error], as it does the database exceptions. *)
Lemma sql_outside : (execute_sql conn "SELECT 1" server).2 =
  inl (OdbException "operation can only be performed in transaction").
Proof. by vm_compute. Qed.

(** The constructor from a configuration does not validate it: one whose port and pool size are
    out of bounds opens a connection. *)
Definition unchecked : PgSqlConfig := {|
  host := "h"; port := -1; database := "d"; user := "u"; password := EmptyString; options := EmptyString;
  pool_size := 0; connect_timeout := 30; query_timeout := 30; sslmode := "maybe";
  sslcert := EmptyString; sslkey := EmptyString; sslrootcert := EmptyString |}.

Lemma constructor_skips_validation : is_Some (validate (fun _ => true) unchecked) /\
  (exists c, (from_config (Db := Handle) unchecked server).2 = inr c).
Proof. split; [by eexists|]. eexists. by vm_compute. Qed.
End PgSqlExample.
