(* ===== verification/RedisClient.v ===== *)
(** The Redis client of the repository (src/common/database/redis/redis_mgr.hpp,
    redis_mgr.cpp, class [RedisClient]) over hiredis: the connection with its set-up, the one
    reconnection of [command], the commands and what they make of a reply.

    hiredis and the server behind it are the class [Hiredis] with the documented behaviour
    [HiredisLaws].  The client discharges what the registry and the token manager ask of
    their store: with database 0 it satisfies [RedisLaws] and [TokenStoreLaws]. *)
From S2P Require Import Prelude Text Json Config Redis TokenStore.
From stdpp Require Import functions.
From Stdlib Require Import FunctionalExtensionality.
Open Scope Z_scope.

(** [RedisConfig] and [RedisConfig::from_file]: [None] when it throws. *)
Record RedisConfig := {
  host : string; port : Z; password : string; db : Z; pool_size : Z;
  connect_timeout : Z; socket_timeout : Z; pool_wait_timeout : Z
}.

Definition default_config : RedisConfig := {|
  host := "127.0.0.1"; port := 6379; password := ""; db := 0; pool_size := 1;
  connect_timeout := 1000; socket_timeout := 1000; pool_wait_timeout := 5000 |}.

Definition from_file (f : config_file) : option RedisConfig :=
  cfg ← ConfigManager f;
  Some {|
    host := get get_string cfg "redis.host" "127.0.0.1";
    port := get get_i32 cfg "redis.port" 6379;
    password := get get_string cfg "redis.password" "";
    db := get get_i32 cfg "redis.db" 0;
    pool_size := get get_i32 cfg "redis.pool_size" 1;
    connect_timeout := get get_i32 cfg "redis.connect_timeout" 1000;
    socket_timeout := get get_i32 cfg "redis.socket_timeout" 1000;
    pool_wait_timeout := get get_i32 cfg "redis.pool_wait_timeout" 5000 |}.

(** A [redisReply] by its [type]; a status, an error and a string have [str]. *)
Inductive redisReply :=
| ReplyString (s : string)
| ReplyStatus (s : string)
| ReplyError (s : string)
| ReplyInteger (z : Z)
| ReplyNil
| ReplyArray (l : list redisReply).

Definition is_error (r : redisReply) : bool := match r with ReplyError _ => true | _ => false end.

(** hiredis.  A context is a handle; [context_err] reads [context->err].  A command is its
    list of arguments, which [redisvCommand] puts together from the format. *)
Class Hiredis (N : Type) := {
  redisConnectWithTimeout : string -> Z -> Z * Z -> N -> N * option nat;
  redisSetTimeout : nat -> Z * Z -> N -> N;
  redisCommand : nat -> list string -> N -> N * option redisReply;
  redisFree : nat -> N -> N;
  context_err : nat -> N -> bool
}.

Section Client.
Context {N : Type} `{Hiredis N}.

(** A client: the network and [context_].  [config_] does not change after construction and
    is an argument; [context_mutex_] makes every operation one step. *)
Definition client : Type := N * option nat.

(** Milliseconds as a [timeval]. *)
Definition timeval (ms : Z) : Z * Z := (Z.quot ms 1000, Z.rem ms 1000 * 1000).

(** [~RedisClient]. *)
Definition destroy (c : client) : N :=
  match c.2 with Some h => redisFree h c.1 | None => c.1 end.

Definition refused (r : option redisReply) : bool :=
  match r with None => true | Some p => is_error p end.

(** The two set-up commands of [connect_locked]. *)
Definition auth (config_ : RedisConfig) (h : nat) : exec client unit := fun c =>
  if bool_decide (password config_ = ""%string) then (c, Ok tt)
  else let '(n, r) := redisCommand h ["AUTH"; password config_]%string c.1 in
       ((n, c.2), if refused r then Throw else Ok tt).

Definition select (config_ : RedisConfig) (h : nat) : exec client unit := fun c =>
  if db config_ =? 0 then (c, Ok tt)
  else let '(n, r) := redisCommand h ["SELECT"; to_string (db config_)]%string c.1 in
       ((n, c.2), if refused r then Throw else Ok tt).

Definition connect_locked (config_ : RedisConfig) : exec client unit := fun c =>
  let '(n, oh) := redisConnectWithTimeout (host config_) (port config_)
                    (timeval (connect_timeout config_)) (destroy c) in
  match oh with
  | None => ((n, None), Throw)
  | Some h =>
      if context_err h n then ((n, Some h), Throw)
      else (let* _ := auth config_ h in select config_ h)
             (redisSetTimeout h (timeval (socket_timeout config_)) n, Some h)
  end.

(** [RedisClient::RedisClient]: when it throws there is no client, and no destructor runs. *)
Definition RedisClient (config_ : RedisConfig) (n : N) : N * result (option nat) :=
  match connect_locked config_ (n, None) with
  | ((n', h), Ok _) => (n', Ok h)
  | ((n', _), Throw) => (n', Throw)
  end.

(** [redisvCommand] on [context_]. *)
Definition vcommand (argv : list string) (c : client) : client * option redisReply :=
  match c.2 with
  | Some h => let '(n, r) := redisCommand h argv c.1 in ((n, Some h), r)
  | None => (c, None)
  end.

Definition unusable (c : client) : bool :=
  match c.2 with Some h => context_err h c.1 | None => true end.

Definition accept (r : redisReply) : exec client redisReply := fun c =>
  (c, if is_error r then Throw else Ok r).

(** [command]: one more attempt, on a new connection, when there is no reply. *)
Definition command (config_ : RedisConfig) (argv : list string) : exec client redisReply :=
  let* _ := (fun c => if unusable c then connect_locked config_ c else (c, Ok tt)) in
  fun c =>
    match vcommand argv c with
    | (c1, Some r) => accept r c1
    | (c1, None) =>
        (let* _ := connect_locked config_ in
         fun c2 => match vcommand argv c2 with
                   | (c3, Some r) => accept r c3
                   | (c3, None) => (c3, Throw)
                   end) c1
    end.

(** ** The commands *)

Definition reply_string (r : redisReply) : string :=
  match r with ReplyString s | ReplyStatus s | ReplyError s => s | _ => "" end.
Definition reply_optional (r : redisReply) : option string :=
  match r with ReplyNil => None | _ => Some (reply_string r) end.
Definition reply_integer (dflt : Z) (r : redisReply) : Z :=
  match r with ReplyInteger z => z | _ => dflt end.
Definition reply_is_one (r : redisReply) : bool :=
  match r with ReplyInteger z => z =? 1 | _ => false end.
Definition reply_strings (r : redisReply) : list string :=
  match r with ReplyArray l => map reply_string l | _ => [] end.

(** [for (i = 0; i + 1 < elements; i += 2)]. *)
Fixpoint in_pairs {A} (l : list A) : list (A * A) :=
  match l with x :: y :: l' => (x, y) :: in_pairs l' | _ => [] end.
Definition reply_fields (r : redisReply) : list (string * string) :=
  match r with
  | ReplyArray l => map (fun '(k, v) => (reply_string k, reply_string v)) (in_pairs l)
  | _ => []
  end.

Definition answer {A} (conv : redisReply -> A) (config_ : RedisConfig) (argv : list string) : exec client A :=
  let* r := command config_ argv in ret (conv r).
Definition no_answer (_ : redisReply) : unit := tt.

Variable config_ : RedisConfig.
Definition ping : exec client string := answer reply_string config_ ["PING"]%string.
Definition client_id : exec client Z := answer (reply_integer (-1)) config_ ["CLIENT"; "ID"]%string.
Definition client_kill_id (id : Z) : exec client unit :=
  answer no_answer config_ ["CLIENT"; "KILL"; "ID"; to_string id]%string.
Definition c_hset key field value : exec client unit := answer no_answer config_ ["HSET"%string; key; field; value].
Definition c_hget key field : exec client (option string) := answer reply_optional config_ ["HGET"%string; key; field].
Definition c_hgetall key : exec client (list (string * string)) := answer reply_fields config_ ["HGETALL"%string; key].
Definition c_hdel key field : exec client unit := answer no_answer config_ ["HDEL"%string; key; field].
Definition c_sadd key member : exec client unit := answer no_answer config_ ["SADD"%string; key; member].
Definition c_srem key member : exec client unit := answer no_answer config_ ["SREM"%string; key; member].
Definition c_sismember key member : exec client bool := answer reply_is_one config_ ["SISMEMBER"%string; key; member].
Definition c_scard key : exec client Z := answer (reply_integer 0) config_ ["SCARD"%string; key].
Definition c_smembers key : exec client (list string) := answer reply_strings config_ ["SMEMBERS"%string; key].
Definition c_set key value : exec client unit := answer no_answer config_ ["SET"%string; key; value].
Definition c_get key : exec client (option string) := answer reply_optional config_ ["GET"%string; key].
Definition c_exists key : exec client bool := answer reply_is_one config_ ["EXISTS"%string; key].
Definition c_ttl key : exec client Z := answer (reply_integer (-2)) config_ ["TTL"%string; key].
Definition c_del key : exec client unit := answer no_answer config_ ["DEL"%string; key].
Definition c_keys pattern : exec client (list string) := answer reply_strings config_ ["KEYS"%string; pattern].
Definition c_expire key (seconds : Z) : exec client unit :=
  answer no_answer config_ ["EXPIRE"%string; key; to_string seconds].
End Client.

(** * What hiredis and the server document

    [documented argv s]: the command [argv] and its precondition, effect and answers on the
    data [K].  [up]: from here on the server can be reached and knows the password; [serving h]:
    the context [h] is connected, and authenticated when there is a password.  A command
    without a reply has, or has not, been executed; an error reply comes without an effect.
    A context is [sound] when it serves or shows its failure in [err]; calls on one context do
    not touch the others. *)
Record cmd_spec (K : Type) := {
  c_pre : K -> Prop;
  c_eff : K -> K;
  c_ans : K -> redisReply -> Prop
}.
Arguments c_pre {K} _ _.
Arguments c_eff {K} _ _.
Arguments c_ans {K} _ _ _.

Section Laws.
Context {N : Type} `{Hiredis N}.

Definition sound (serving : nat -> N -> Prop) (h : nat) (n : N) : Prop :=
  context_err h n = true \/ serving h n.

Definition others (used : nat -> N -> Prop) (serving : nat -> N -> Prop) (h : nat) (n n' : N) : Prop :=
  forall i, used i n -> used i n' /\ (i <> h -> sound serving i n -> sound serving i n').

Class HiredisLaws (K : Type) (config_ : RedisConfig) (documented : list string -> cmd_spec K -> Prop) := {
  contents : N -> K;
  up : N -> Prop;
  used : nat -> N -> Prop;
  serving : nat -> N -> Prop;
  law_connect n n' oh :
    redisConnectWithTimeout (host config_) (port config_) (timeval (connect_timeout config_)) n = (n', oh) ->
    contents n' = contents n /\
    (forall i, used i n -> used i n' /\ oh <> Some i /\ (sound serving i n -> sound serving i n')) /\
    (forall h, oh = Some h -> used h n') /\
    (up n -> up n' /\ exists h, oh = Some h /\ context_err h n' = false /\
                              (password config_ = ""%string -> serving h n'));
  law_timeout h t n (n' := redisSetTimeout h t n) :
    contents n' = contents n /\ others used serving h n n' /\
    (up n -> up n') /\ (serving h n -> serving h n') /\ context_err h n' = context_err h n;
  law_free h n (n' := redisFree h n) :
    contents n' = contents n /\ others used serving h n n' /\ (up n -> up n');
  law_auth h n n' r : redisCommand h ["AUTH"%string; password config_] n = (n', r) ->
    contents n' = contents n /\
    (up n -> context_err h n = false ->
     up n' /\ refused r = false /\ serving h n' /\ context_err h n' = false);
  (* Whatever the command is. *)
  law_other argv h n n' r : redisCommand h argv n = (n', r) -> others used serving h n n';
  law_redis argv s h n n' r : documented argv s -> redisCommand h argv n = (n', r) ->
    (contents n' = contents n \/ contents n' = c_eff s (contents n)) /\
    (forall p, r = Some p -> is_error p = false -> contents n' = c_eff s (contents n) /\ c_ans s (contents n) p) /\
    (up n -> up n' /\ (serving h n -> serving h n' /\
       (context_err h n = false -> c_pre s (contents n) -> refused r = false)))
}.
End Laws.

(** * The client implements the store

    With database 0: [SELECT] is then not sent. *)
Section Implements.
Context {N : Type} `{Hiredis N} {K : Type} (config_ : RedisConfig)
  {documented : list string -> cmd_spec K -> Prop} {L : HiredisLaws K config_ documented}.

Definition owned (c : client) : Prop := match c.2 with Some h => used h c.1 | None => True end.

(** A step of one client leaves the contexts of the others alone. *)
Definition apart (c c' : client) : Prop :=
  forall i, used i c.1 -> c.2 <> Some i ->
    used i c'.1 /\ c'.2 <> Some i /\ (sound serving i c.1 -> sound serving i c'.1).

Record moves (c c' : client) : Prop := {
  mv_apart : apart c c';
  mv_owned : owned c -> owned c'
}.

Lemma moves_refl c : moves c c.
Proof. split; [|done]. by intros i. Qed.

Lemma moves_trans c1 c2 c3 : moves c1 c2 -> moves c2 c3 -> moves c1 c3.
Proof.
  intros [A1 O1] [A2 O2]. split; [|auto]. intros i Hu Hi.
  destruct (A1 i Hu Hi) as (Hu2 & Hi2 & S1), (A2 i Hu2 Hi2) as (? & ? & S2). auto.
Qed.

Lemma moves_others h n n' : others used serving h n n' -> moves (n, Some h) (n', Some h).
Proof.
  intros Ho. split; [|intros Hu; apply (Ho h), Hu].
  intros i Hu Hi. simpl in *. destruct (Ho i Hu) as [? Hs].
  split_and!; try done. apply Hs. congruence.
Qed.

Definition serves (c : client) : Prop :=
  exists h, c.2 = Some h /\ serving h c.1 /\ context_err h c.1 = false.

(** The client is healthy: its server is up, and its context is missing or sound. *)
Definition healthy (c : client) : Prop :=
  up c.1 /\ match c.2 with Some h => sound serving h c.1 | None => True end.

Lemma serves_healthy c : up c.1 -> serves c -> healthy c.
Proof. intros Hu (h & Eh & Hs & He). split; [done|]. rewrite Eh. by right. Qed.

Lemma auth_law h n c' r : auth config_ h (n, Some h) = (c', r) ->
  contents c'.1 = contents n /\ moves (n, Some h) c' /\ c'.2 = Some h /\
  (up n -> context_err h n = false -> (password config_ = ""%string -> serving h n) ->
   r = Ok tt /\ up c'.1 /\ serves c').
Proof.
  unfold auth. case_bool_decide as Ep; simpl.
  - intros [= <- <-]. split; [done|]. split; [apply moves_refl|]. split; [done|]. intros Hu He Hs.
    split; [done|]. split; [done|]. exists h. auto.
  - destruct (redisCommand _ _ _) as [n' p] eqn:E. intros [= <- <-]. simpl.
    destruct (law_auth _ _ _ _ E) as (Hc & Hup). split_and!; try done.
    + apply moves_others. by eapply law_other.
    + intros Hu He _. destruct (Hup Hu He) as (? & -> & ? & ?). split_and!; try done. by exists h.
Qed.

Lemma destroy_law (c : client) : contents (destroy c) = contents c.1 /\
  moves c (destroy c, None) /\ (up c.1 -> up (destroy c)).
Proof.
  destruct c as [n [h|]]; unfold destroy; simpl.
  - destruct (law_free h n) as (? & Ho & ?). split_and!; try done. split; [|done].
    intros i Hu Hi. simpl in *. destruct (Ho i Hu) as [? Hs]. split_and!; try done. apply Hs. congruence.
  - split; [done|]. by split; [apply moves_refl|].
Qed.

Lemma connect_law n n' oh :
  redisConnectWithTimeout (host config_) (port config_) (timeval (connect_timeout config_)) n = (n', oh) ->
  moves (n, None) (n', oh).
Proof.
  intros E. destruct (law_connect _ _ _ E) as (_ & Hi & Hu & _). split.
  - intros i Hui _. simpl. destruct (Hi i Hui) as (? & ? & ?). done.
  - intros _. unfold owned. simpl. destruct oh; [by apply Hu|done].
Qed.

Hypothesis Hdb : db config_ = 0.

(** [connect_locked] reads and writes no key; when the server is up it returns a client
    that is ready. *)
Lemma connect_locked_law c c' r : connect_locked config_ c = (c', r) ->
  contents c'.1 = contents c.1 /\ moves c c' /\ (up c.1 -> r = Ok tt /\ up c'.1 /\ serves c').
Proof.
  unfold connect_locked. destruct (destroy_law c) as (Hc1 & Hm1 & Hu1).
  destruct (redisConnectWithTimeout _ _ _ _) as [n oh] eqn:E.
  pose proof (connect_law _ _ _ E) as Hm2. apply law_connect in E as (Hc2 & _ & _ & Hu2).
  pose proof (moves_trans _ _ _ Hm1 Hm2) as Hm.
  assert (Hc : contents n = contents c.1) by congruence.
  destruct oh as [h|].
  2:{ intros [= <- <-]. split_and!; try done. intros Hu. by destruct (Hu2 (Hu1 Hu)) as (_ & ? & ? & _). }
  destruct (context_err h n) eqn:Ee.
  { intros [= <- <-]. split_and!; try done. intros Hu.
    destruct (Hu2 (Hu1 Hu)) as (_ & ? & ? & ? & _). congruence. }
  destruct (law_timeout h (timeval (socket_timeout config_)) n) as (Hc3 & Ho & Hu3 & Hs3 & He3).
  set (n1 := redisSetTimeout _ _ n) in *. intros Er.
  assert (Hsel : forall x, select config_ h x = (x, Ok tt)) by (intros; unfold select; by rewrite Hdb).
  unfold bind in Er. destruct (auth config_ h (n1, Some h)) as [c4 r4] eqn:Ea.
  assert (c' = c4 /\ r = r4) as [-> ->].
  { destruct r4 as [[]|]; [rewrite Hsel in Er|]; by simplify_eq. }
  destruct (auth_law _ _ _ _ Ea) as (Hc4 & Hm4 & _ & Hr). split_and!.
  - congruence.
  - eapply moves_trans; [exact Hm|]. eapply moves_trans; [apply moves_others, Ho|done].
  - intros Hu. destruct (Hu2 (Hu1 Hu)) as (Hun & h' & [= <-] & _ & Hs).
    apply Hr; [by apply Hu3|congruence|auto].
Qed.

(** [vcommand]: one attempt. *)
Lemma vcommand_law argv s c c' r : documented argv s -> vcommand argv c = (c', r) ->
  (contents c'.1 = contents c.1 \/ contents c'.1 = c_eff s (contents c.1)) /\ moves c c' /\
  (forall p, r = Some p -> is_error p = false ->
     contents c'.1 = c_eff s (contents c.1) /\ c_ans s (contents c.1) p) /\
  (up c.1 -> up c'.1) /\ (healthy c -> unusable c = false -> healthy c' /\
     (c_pre s (contents c.1) -> refused r = false)).
Proof.
  intros Hd. destruct c as [n [h|]]; unfold vcommand; simpl.
  2:{ intros [= <- <-]. split; [by left|]. split; [apply moves_refl|]. split; [done|]. by split. }
  destruct (redisCommand h argv n) as [n' p] eqn:E. intros [= <- <-]. simpl.
  destruct (law_redis _ _ _ _ _ _ Hd E) as (He & Ha & Hup).
  split; [done|]. split; [apply moves_others; by eapply law_other|]. split; [done|].
  split; [intros Hu; by apply Hup|]. unfold unusable, healthy. simpl. intros [Hu [Hx|Hs]] Hb; [congruence|].
  destruct (Hup Hu) as [Hu' Hsv], (Hsv Hs) as [Hs' Hok]. split; [|auto]. split; [done|]. by right.
Qed.

Lemma accept_inv r (c c' : client (N := N)) (x : result redisReply) : accept r c = (c', x) ->
  c' = c /\ (x = Throw /\ is_error r = true \/ x = Ok r /\ is_error r = false).
Proof. unfold accept. destruct (is_error r); intros [= <- <-]; auto. Qed.

Section OneCommand.
Context (argv : list string) (s : cmd_spec K) (Hdoc : documented argv s)
  (Hidem : forall k, c_eff s (c_eff s k) = c_eff s k)
  (Hstable : forall k p, c_ans s (c_eff s k) p -> c_ans s k p).

(** The attempt after the first came back without a reply. *)
Lemma retry_law k0 c c' r :
  contents c.1 = k0 \/ contents c.1 = c_eff s k0 ->
  (let* _ := connect_locked config_ in
   fun c2 => match vcommand argv c2 with
             | (c3, Some r) => accept r c3
             | (c3, None) => (c3, Throw)
             end) c = (c', r) ->
  (contents c'.1 = k0 \/ contents c'.1 = c_eff s k0) /\ moves c c' /\
  (forall p, r = Ok p -> contents c'.1 = c_eff s k0 /\ c_ans s k0 p) /\
  (up c.1 -> healthy c').
Proof.
  intros Hk E. apply bind_inv in E as [[E ->]|([] & c2 & E & E2)].
  - destruct (connect_locked_law _ _ _ E) as (Hc & Hm & Hu). rewrite Hc.
    split_and!; try done. intros Hup. by destruct (Hu Hup).
  - destruct (connect_locked_law _ _ _ E) as (Hc & Hm & Hu). rewrite <- Hc in Hk. clear E Hc.
    destruct (vcommand argv c2) as [c3 p] eqn:Ev.
    destruct (vcommand_law _ _ _ _ _ Hdoc Ev) as (Hd & Hm2 & Ha & Hup & Hh).
    assert (Hk3 : contents c3.1 = k0 \/ contents c3.1 = c_eff s k0).
    { destruct Hk as [Hk|Hk]; rewrite Hk in Hd; [done|]. rewrite Hidem in Hd. by destruct Hd; right. }
    assert (Hok : up c.1 -> healthy c3).
    { intros Hcu. destruct (Hu Hcu) as (_ & Hu2 & Hs). apply Hh; [by apply serves_healthy|].
      destruct Hs as (h & Eh & _ & He). unfold unusable. by rewrite Eh. }
    assert (Hmm : moves c c3) by (eapply moves_trans; eassumption).
    destruct p as [p|]; [|injection E2 as <- <-; by split_and!].
    apply accept_inv in E2 as [-> [[-> _]|[-> Hne]]]; split_and!; try done.
    + intros q [= <-]. destruct (Ha p eq_refl Hne) as [Hc Hans].
      destruct Hk as [Hk|Hk]; rewrite Hk in *; [done|]. rewrite Hidem in Hc. auto.
Qed.

(** [command]: executed as documented, however often it was sent; on a healthy client it
    returns. *)
Lemma command_law c c' r : command config_ argv c = (c', r) ->
  (contents c'.1 = contents c.1 \/ contents c'.1 = c_eff s (contents c.1)) /\ moves c c' /\
  (forall p, r = Ok p -> contents c'.1 = c_eff s (contents c.1) /\ c_ans s (contents c.1) p) /\
  (healthy c -> healthy c' /\ (c_pre s (contents c.1) -> r <> Throw)).
Proof.
  unfold command. intros E. apply bind_inv in E as [[E ->]|([] & c1 & E & E2)].
  { destruct (unusable c); [|by simplify_eq]. destruct (connect_locked_law _ _ _ E) as (-> & Hm & Hu).
    split_and!; try done; [by left|]. intros [Hup _]. by destruct (Hu Hup). }
  assert (H1 : contents c1.1 = contents c.1 /\ moves c c1 /\ (healthy c -> healthy c1 /\ unusable c1 = false)).
  { destruct (unusable c) eqn:Eu; [|simplify_eq; split_and!; try done; apply moves_refl].
    destruct (connect_locked_law _ _ _ E) as (Hc & Hm & Hu). split_and!; try done. intros [Hup _].
    destruct (Hu Hup) as (_ & Hup1 & Hs). split; [by apply serves_healthy|].
    destruct Hs as (h & Eh & _ & He). unfold unusable. by rewrite Eh. }
  destruct H1 as (<- & Hm & Hh). clear E. destruct (vcommand argv c1) as [c2 p] eqn:Ev.
  destruct (vcommand_law _ _ _ _ _ Hdoc Ev) as (Hd & Hm2 & Ha & Hup & Hok).
  assert (Hmm : moves c c2) by (eapply moves_trans; eassumption).
  destruct p as [p|].
  - apply accept_inv in E2 as [-> Hx]. split; [done|]. split; [done|]. split.
    + intros q ->. destruct Hx as [[? _]|[[= ->] Hne]]; [done|]. by apply Ha.
    + intros [Hc1 Hu1]%Hh. destruct (Hok Hc1 Hu1) as [? Hr]. split; [done|]. intros Hp ->.
      destruct Hx as [[_ He]|[? _]]; [|done]. specialize (Hr Hp). simpl in Hr. congruence.
  - destruct (retry_law (contents c1.1) _ _ _ Hd E2) as (Hk & Hm3 & Hr & Hup').
    split; [done|]. split; [eapply moves_trans; eassumption|]. split; [done|].
    intros [Hc1 Hu1]%Hh. destruct (Hok Hc1 Hu1) as [[Hup2 _] Hr2]. split; [by apply Hup'|].
    intros Hp. specialize (Hr2 Hp). discriminate.
Qed.

(** The same for the command with its conversion, in the form the store's laws have. *)
Lemma answer_law {A} (conv : redisReply -> A) (ans : K -> A -> Prop) :
  (forall k p, c_ans s k p -> ans k (conv p)) ->
  Redis.command (fun c => contents c.1) healthy (answer conv config_ argv) (c_pre s) (c_eff s) ans.
Proof.
  intros Hans d d' r E. unfold answer in E. apply bind_inv in E as [[E ->]|(p & c1 & E & E2)].
  - destruct (command_law _ _ _ E) as (Hk & _ & _ & Hh). split_and!; try done.
    + intros Hd. by apply Hh.
    + intros Hd Hp. by apply Hh in Hp.
  - injection E2 as -> <-. destruct (command_law _ _ _ E) as (Hk & _ & Hr & Hh).
    destruct (Hr p eq_refl). split_and!; try done.
    + intros Hd. by apply Hh.
    + intros a [= <-]. auto.
Qed.

Lemma answer_moves {A} (conv : redisReply -> A) c c' r :
  answer conv config_ argv c = (c', r) -> moves c c'.
Proof.
  unfold answer. intros E. apply bind_inv in E as [[E ->]|(p & c1 & E & E2)].
  - by apply (command_law _ _ _ E).
  - injection E2 as -> <-. by apply (command_law _ _ _ E).
Qed.
End OneCommand.
End Implements.

(** * Redis's commands *)

Definition effect_only {K} (p : K -> Prop) (e : K -> K) : cmd_spec K :=
  {| c_pre := p; c_eff := e; c_ans := fun _ _ => True |}.
Definition query {K} (p : K -> Prop) (a : K -> redisReply -> Prop) : cmd_spec K :=
  {| c_pre := p; c_eff := id; c_ans := a |}.

Definition optional_reply (o : option string) : redisReply :=
  match o with Some v => ReplyString v | None => ReplyNil end.
Fixpoint flat_fields (l : list (string * string)) : list redisReply :=
  match l with (k, v) :: l' => ReplyString k :: ReplyString v :: flat_fields l' | [] => [] end.

Inductive redis_doc : list string -> cmd_spec Keyspace -> Prop :=
| doc_hset k f v : redis_doc ["HSET"%string; k; f; v] (effect_only (hash_key k) (hset_eff k f v))
| doc_hget k f : redis_doc ["HGET"%string; k; f]
    (query (hash_key k) (fun s r => r = optional_reply (hash_of s k !! f)))
| doc_hgetall k : redis_doc ["HGETALL"%string; k] (query (hash_key k) (fun s r =>
    exists l, l ≡ₚ map_to_list (hash_of s k) /\ r = ReplyArray (flat_fields l)))
| doc_hdel k f : redis_doc ["HDEL"%string; k; f] (effect_only (hash_key k) (hdel_eff k f))
| doc_sadd k x : redis_doc ["SADD"%string; k; x] (effect_only (set_key k) (sadd_eff k x))
| doc_srem k x : redis_doc ["SREM"%string; k; x] (effect_only (set_key k) (srem_eff k x))
| doc_smembers k : redis_doc ["SMEMBERS"%string; k] (query (set_key k) (fun s r =>
    exists l, l ≡ₚ elements (set_of s k) /\ r = ReplyArray (map ReplyString l)))
| doc_scard k : redis_doc ["SCARD"%string; k]
    (query (set_key k) (fun s r => r = ReplyInteger (Z.of_nat (size (set_of s k)))))
| doc_del k : redis_doc ["DEL"%string; k] (effect_only (fun _ => True) (del_eff k)).

Inductive store_doc : list string -> cmd_spec store -> Prop :=
| doc_set k v : store_doc ["SET"%string; k; v] (effect_only (fun _ => True) (put k (VStr v) None))
| doc_get k : store_doc ["GET"%string; k]
    (query (text_key k) (fun s r => r = optional_reply (text_at s k)))
| doc_exists k : store_doc ["EXISTS"%string; k]
    (query (fun _ => True) (fun s r => r = ReplyInteger (Z.b2z (bool_decide (is_Some (found s k))))))
| doc_expire k n : store_doc ["EXPIRE"%string; k; to_string n] (effect_only (fun _ => True) (expire_eff k n))
| doc_ttl k : store_doc ["TTL"%string; k]
    (query (fun _ => True) (fun s r => exists z, ttl_answer k s z /\ r = ReplyInteger z))
| doc_st_del k : store_doc ["DEL"%string; k] (effect_only (fun _ => True) (drop_key k))
| doc_st_sadd k x : store_doc ["SADD"%string; k; x]
    (effect_only (member_key k) (fun s => put_set k ({[x]} ∪ set_at s k) s))
| doc_st_srem k x : store_doc ["SREM"%string; k; x]
    (effect_only (member_key k) (fun s => put_set k (set_at s k ∖ {[x]}) s)).

(** ** The conversions read the documented replies back *)

Lemma reply_optional_reply o : reply_optional (optional_reply o) = o.
Proof. by destruct o. Qed.

Lemma reply_strings_strings l : reply_strings (ReplyArray (map ReplyString l)) = l.
Proof. simpl. rewrite map_map. apply map_id. Qed.

Lemma reply_fields_flat l : reply_fields (ReplyArray (flat_fields l)) = l.
Proof. simpl. induction l as [|[k v] l IH]; [done|]. simpl. by f_equal. Qed.

(** ** Sending a command twice is sending it once *)

Lemma keyspace_ext (s t : Keyspace) :
  (forall k, hash_of s k = hash_of t k) -> (forall k, set_of s k = set_of t k) -> s = t.
Proof.
  destruct s, t. simpl. intros Hh Hs. f_equal; apply functional_extensionality; auto.
Qed.

(** Compares two key spaces at one key. *)
Ltac by_key :=
  apply keyspace_ext; intros ?; unfold del_eff, set_hash, set_set; simpl;
  repeat match goal with
  | |- context [<[?k:=_]> _ ?k] => rewrite fn_lookup_insert
  | |- context [<[?k:=_]> _ ?k'] =>
      destruct (decide (k = k')); [subst k'|rewrite fn_lookup_insert_ne by done]
  end; try done.

Lemma hset_twice k f v s : hset_eff k f v (hset_eff k f v s) = hset_eff k f v s.
Proof. unfold hset_eff. by_key. apply insert_insert_eq. Qed.
Lemma hdel_twice k f s : hdel_eff k f (hdel_eff k f s) = hdel_eff k f s.
Proof. unfold hdel_eff. by_key. apply delete_delete_eq. Qed.
Lemma sadd_twice k x s : sadd_eff k x (sadd_eff k x s) = sadd_eff k x s.
Proof. unfold sadd_eff. by_key. set_solver. Qed.
Lemma srem_twice k x s : srem_eff k x (srem_eff k x s) = srem_eff k x s.
Proof. unfold srem_eff. by_key. set_solver. Qed.
Lemma del_twice k s : del_eff k (del_eff k s) = del_eff k s.
Proof. by_key. Qed.

Lemma redis_idempotent argv s : redis_doc argv s ->
  (forall k, c_eff s (c_eff s k) = c_eff s k) /\ (forall k p, c_ans s (c_eff s k) p -> c_ans s k p).
Proof.
  destruct 1; split; simpl; auto using hset_twice, hdel_twice, sadd_twice, srem_twice, del_twice.
Qed.

Lemma put_twice k v x v' x' s : put k v x (put k v' x' s) = put k v x s.
Proof. unfold put. simpl. by rewrite insert_insert_eq. Qed.
Lemma drop_twice k s : drop_key k (drop_key k s) = drop_key k s.
Proof. unfold drop_key. simpl. by rewrite delete_delete_eq. Qed.
Lemma drop_put k v x s : drop_key k (put k v x s) = drop_key k s.
Proof. unfold drop_key, put. simpl. by rewrite delete_insert_eq. Qed.

Lemma found_put_eq k v x s : live s.1 {| e_value := v; e_deadline := x |} ->
  found (put k v x s) k = Some {| e_value := v; e_deadline := x |}.
Proof. intros Hl. by rewrite found_put, !decide_True. Qed.

Lemma expire_twice k n s : expire_eff k n (expire_eff k n s) = expire_eff k n s.
Proof.
  unfold expire_eff at 2 3. destruct (found s k) as [e|] eqn:E; [|unfold expire_eff; by rewrite E].
  destruct (0 <? n) eqn:En; zbool; unfold expire_eff.
  - rewrite found_put_eq by (simpl; unfold live; simpl; lia). simpl.
    apply Z.ltb_lt in En as ->. apply put_twice.
  - by rewrite found_drop, decide_True.
Qed.

(** The deadline a set keeps is one that has not passed. *)
Lemma kept_deadline_live k s v : live s.1 {| e_value := v; e_deadline := found s k ≫= e_deadline |}.
Proof.
  unfold found. destruct (s.2 !! k) as [e|]; [|done]. simpl. case_decide as Hl; [|done]. exact Hl.
Qed.

Lemma put_set_twice k x s (f : gset string -> gset string) : x = f (set_at s k) -> f x = x -> f ∅ = x \/ x <> ∅ ->
  put_set k (f (set_at (put_set k x s) k)) (put_set k x s) = put_set k x s.
Proof.
  intros Hx Hf Hne. unfold put_set at 2 3 4. case_decide as Hx0.
  - unfold set_at. rewrite found_drop, decide_True by done. simpl.
    destruct Hne as [->|?]; [|done]. unfold put_set. rewrite decide_True by done. apply drop_twice.
  - set (s1 := put _ _ _ _). unfold set_at. unfold s1 at 1. rewrite found_put_eq by apply kept_deadline_live.
    simpl. rewrite Hf. unfold put_set. rewrite decide_False by done.
    unfold s1 at 1. rewrite found_put_eq by apply kept_deadline_live. simpl. apply put_twice.
Qed.

Lemma store_idempotent argv s : store_doc argv s ->
  (forall k, c_eff s (c_eff s k) = c_eff s k) /\ (forall k p, c_ans s (c_eff s k) p -> c_ans s k p).
Proof.
  destruct 1; split; simpl; auto using expire_twice, put_twice, drop_twice; intros s.
  - apply (put_set_twice k _ s (fun y => {[x]} ∪ y)); [done|set_solver|right; set_solver].
  - apply (put_set_twice k _ s (fun y => y ∖ {[x]})); [done|set_solver|].
    destruct (decide (set_at s k ∖ {[x]} = ∅)) as [->|]; [left; set_solver|by right].
Qed.

(** * The instances *)
Section Instances.
Context {N : Type} `{Hiredis N} (config_ : RedisConfig).

#[export] Instance client_redis : Redis (client (N := N)) := {
  get_connection := ret tt;
  hset := c_hset config_; hget := c_hget config_; hgetall := c_hgetall config_;
  hdel := c_hdel config_; sadd := c_sadd config_; srem := c_srem config_;
  smembers := c_smembers config_; scard := c_scard config_; del := c_del config_
}.

#[export] Instance client_store (clock : N -> Z) : TokenStore (client (N := N)) := {
  st_clock c := clock c.1;
  st_connection := ret tt;
  st_set := c_set config_; st_get := c_get config_; st_exists := c_exists config_;
  st_expire := c_expire config_; st_ttl := c_ttl config_; st_del := c_del config_;
  st_sadd := c_sadd config_; st_srem := c_srem config_
}.

Lemma ret_law {D K} (view : D -> K) (healthy : D -> Prop) :
  Redis.command view healthy (ret tt) (fun _ => True) id (fun _ _ => True).
Proof. intros d d' r [= <- <-]. split_and!; try done. by left. Qed.

(** A command of the client, from its documentation and the reading of its reply. *)
Lemma documented_law {K} {documented : list string -> cmd_spec K -> Prop}
    {L : HiredisLaws K config_ documented} {A} argv s (conv : redisReply -> A) (ans : K -> A -> Prop) :
  db config_ = 0 -> documented argv s ->
  (forall k, c_eff s (c_eff s k) = c_eff s k) /\ (forall k p, c_ans s (c_eff s k) p -> c_ans s k p) ->
  (forall k p, c_ans s k p -> ans k (conv p)) ->
  Redis.command (fun c : client => contents c.1) (healthy config_) (answer conv config_ argv)
    (c_pre s) (c_eff s) ans.
Proof. intros Hdb Hd [Hi Hs] Hc. by eapply answer_law. Qed.

Lemma reply_integer_one b : reply_is_one (ReplyInteger (Z.b2z b)) = b.
Proof. by destruct b. Qed.

(** The client is a Redis as the connection manager asks for it. *)
Definition client_redis_laws {L : HiredisLaws Keyspace config_ redis_doc} (Hdb : db config_ = 0) :
  RedisLaws (client (N := N)).
Proof.
  pose proof (fun A argv s conv ans d => @documented_law _ _ _ A argv s conv ans Hdb d (redis_idempotent _ _ d)) as D.
  refine {| view := fun c : client => contents c.1; Redis.healthy := healthy config_ |}.
  - apply ret_law.
  - intros k f v. by apply (D _ _ _ _ _ (doc_hset k f v)).
  - intros k f. apply (D _ _ _ _ _ (doc_hget k f)). intros s r ->. apply reply_optional_reply.
  - intros k. apply (D _ _ _ _ _ (doc_hgetall k)). intros s r (l & Hl & ->). by rewrite reply_fields_flat.
  - intros k f. by apply (D _ _ _ _ _ (doc_hdel k f)).
  - intros k x. by apply (D _ _ _ _ _ (doc_sadd k x)).
  - intros k x. by apply (D _ _ _ _ _ (doc_srem k x)).
  - intros k. apply (D _ _ _ _ _ (doc_smembers k)). intros s r (l & Hl & ->). by rewrite reply_strings_strings.
  - intros k. apply (D _ _ _ _ _ (doc_scard k)). by intros s r ->.
  - intros k. by apply (D _ _ _ _ _ (doc_del k)).
Defined.

(** And the store of the token manager. *)
Definition client_store_laws (clock : N -> Z) {L : HiredisLaws store config_ store_doc}
    (Hdb : db config_ = 0) (Hclock : forall n, clock n = (contents n).1) :
  @TokenStoreLaws (client (N := N)) (client_store clock).
Proof.
  pose proof (fun A argv s conv ans d => @documented_law _ _ _ A argv s conv ans Hdb d (store_idempotent _ _ d)) as D.
  refine (@Build_TokenStoreLaws client (client_store clock) (fun c => contents c.1) (healthy config_)
    _ _ _ _ _ _ _ _ _ _).
  - intros c. apply Hclock.
  - apply ret_law.
  - intros k v. by apply (D _ _ _ _ _ (doc_set k v)).
  - intros k. apply (D _ _ _ _ _ (doc_get k)). intros s r ->. apply reply_optional_reply.
  - intros k. apply (D _ _ _ _ _ (doc_exists k)). intros s r ->. apply reply_integer_one.
  - intros k n. by apply (D _ _ _ _ _ (doc_expire k n)).
  - intros k. apply (D _ _ _ _ _ (doc_ttl k)). by intros s r (z & Hz & ->).
  - intros k. by apply (D _ _ _ _ _ (doc_st_del k)).
  - intros k x. by apply (D _ _ _ _ _ (doc_st_sadd k x)).
  - intros k x. by apply (D _ _ _ _ _ (doc_st_srem k x)).
Defined.
End Instances.
