(* ===== verification/RedisPool.v ===== *)
(** The pool of Redis connections (src/common/database/redis, class [RedisManager]): its
    generations, leases and counters, [execute], and the threads that share it.

    Every [RedisPtr] is moved from owner to owner, so a client is a value that is either in
    [available_] or in one lease.  A critical section of [mutex_] is one step. *)
From S2P Require Import Prelude Text Json Config Redis RedisClient.
From stdpp Require functions.
Open Scope Z_scope.

(** A [RedisClient]: its configuration and its context. *)
Definition redis : Type := RedisConfig * option nat.

Record RedisManager := {
  initialized_ : bool;
  config_ : RedisConfig;
  available_ : list redis;
  total_connections_ : Z;
  active_connections_ : Z;
  generation_ : Z
}.

Definition fresh_manager : RedisManager := {|
  initialized_ := false; config_ := default_config; available_ := [];
  total_connections_ := 0; active_connections_ := 0; generation_ := 0 |}.

(** A [RedisConnection] that owns a client. *)
Record lease := { redis_ : redis; lease_generation : Z }.

Record PoolStats := { total_connections : Z; available_connections : Z; active_connections : Z }.

Section Manager.
Context {N : Type} `{Hiredis N}.

Definition drop_client (n : N) (r : redis) : N := destroy (n, r.2).
(** [available_.clear()]. *)
Definition drop_clients (n : N) (l : list redis) : N := foldl drop_client n l.

(** The loop of [initialize]: [k] clients more. *)
Fixpoint fill (cfg : RedisConfig) (k : nat) (n : N) (l : list redis) : N * list redis * bool :=
  match k with
  | O => (n, l, true)
  | S k' =>
      match RedisClient cfg n with
      | (n', Ok h) => fill cfg k' n' (l ++ [(cfg, h)])
      | (n', Throw) => (n', l, false)
      end
  end.

Definition at_least_one (cfg : RedisConfig) : RedisConfig := {|
  host := host cfg; port := port cfg; password := password cfg; db := db cfg;
  pool_size := Z.max 1 (pool_size cfg); connect_timeout := connect_timeout cfg;
  socket_timeout := socket_timeout cfg; pool_wait_timeout := pool_wait_timeout cfg |}.

(** [initialize(const RedisConfig&)]. *)
Definition initialize (config : RedisConfig) (d : N * RedisManager) : N * RedisManager * bool :=
  let '(n, m) := d in
  let cfg := at_least_one config in
  let '(n1, l, built) := fill cfg (Z.to_nat (pool_size cfg)) (drop_clients n (available_ m)) [] in
  if built
  then (n1, {| initialized_ := true; config_ := cfg; available_ := l;
               total_connections_ := zlen l; active_connections_ := 0;
               generation_ := u64 (generation_ m + 1) |}, true)
  else (drop_clients n1 l, {| initialized_ := false; config_ := cfg; available_ := [];
               total_connections_ := 0; active_connections_ := 0;
               generation_ := u64 (generation_ m + 1) |}, false).

(** [initialize(const std::string&)]. *)
Definition initialize_file (f : config_file) (d : N * RedisManager) : N * RedisManager * bool :=
  match from_file f with Some cfg => initialize cfg d | None => (d, false) end.

(** The end of the wait in [get_connection]: its predicate, and the rest of the function. *)
Definition wake_up (m : RedisManager) : RedisManager * result lease :=
  match available_ m with
  | [] => (m, Throw)
  | r :: rest =>
      if initialized_ m
      then ({| initialized_ := true; config_ := config_ m; available_ := rest;
               total_connections_ := total_connections_ m;
               active_connections_ := u64 (active_connections_ m + 1); generation_ := generation_ m |},
            Ok {| redis_ := r; lease_generation := generation_ m |})
      else (m, Throw)
  end.

(** [get_connection] when the pool does not change during the wait. *)
Definition get_connection (m : RedisManager) : RedisManager * result lease :=
  if initialized_ m then wake_up m else (m, Throw).

Definition release_connection (r : redis) (generation : Z) (d : N * RedisManager) : N * RedisManager :=
  let '(n, m) := d in
  if negb (generation =? generation_ m) then (drop_client n r, m)
  else
    let active := if 0 <? active_connections_ m then active_connections_ m - 1 else active_connections_ m in
    if initialized_ m
    then (n, {| initialized_ := true; config_ := config_ m; available_ := available_ m ++ [r];
                total_connections_ := total_connections_ m; active_connections_ := active;
                generation_ := generation_ m |})
    else (drop_client n r,
          {| initialized_ := false; config_ := config_ m; available_ := available_ m;
             total_connections_ := if 0 <? total_connections_ m then total_connections_ m - 1
                                   else total_connections_ m;
             active_connections_ := active; generation_ := generation_ m |}).

(** [execute]: the lease is released when it goes out of scope, after an exception too. *)
Definition execute {A} (func : RedisConfig -> exec (client (N := N)) A) : exec (N * RedisManager) A := fun d =>
  match get_connection d.2 with
  | (m1, Throw) => ((d.1, m1), Throw)
  | (m1, Ok l) =>
      let '((n', h'), r) := func (redis_ l).1 (d.1, (redis_ l).2) in
      (release_connection ((redis_ l).1, h') (lease_generation l) (n', m1), r)
  end.

Definition safe_execute {A} (func : RedisConfig -> exec (client (N := N)) A) (default_value : A) :
  N * RedisManager -> N * RedisManager * A := try_catch (execute func) default_value.

Definition is_healthy : N * RedisManager -> N * RedisManager * bool :=
  safe_execute (fun cfg => let* s := ping cfg in ret (bool_decide (s = "PONG"%string))) false.

Definition get_pool_stats (m : RedisManager) : PoolStats :=
  if initialized_ m
  then {| total_connections := total_connections_ m; available_connections := zlen (available_ m);
          active_connections := active_connections_ m |}
  else {| total_connections := 0; available_connections := 0; active_connections := 0 |}.

Definition shutdown (d : N * RedisManager) : N * RedisManager :=
  (drop_clients d.1 (available_ d.2),
   {| initialized_ := false; config_ := config_ d.2; available_ := [];
      total_connections_ := 0; active_connections_ := 0; generation_ := u64 (generation_ d.2 + 1) |}).

(** ** Threads

    The leases the threads hold; a lease is used in any way between its start and its end. *)
Record system := { net : N; mgr : RedisManager; leases : list lease }.

Inductive step : system -> system -> Prop :=
| step_initialize cfg s n m b : pool_size cfg < 2 ^ 31 (* an int *) ->
    initialize cfg (net s, mgr s) = (n, m, b) ->
    step s {| net := n; mgr := m; leases := leases s |}
| step_get s m l : wake_up (mgr s) = (m, Ok l) ->
    step s {| net := net s; mgr := m; leases := l :: leases s |}
| step_timeout s m : wake_up (mgr s) = (m, Throw) ->
    step s {| net := net s; mgr := m; leases := leases s |}
| step_use s i l n h : leases s !! i = Some l ->
    step s {| net := n; mgr := mgr s;
              leases := <[i := {| redis_ := ((redis_ l).1, h); lease_generation := lease_generation l |}]> (leases s) |}
| step_release s i l n m : leases s !! i = Some l ->
    release_connection (redis_ l) (lease_generation l) (net s, mgr s) = (n, m) ->
    step s {| net := n; mgr := m; leases := delete i (leases s) |}
| step_shutdown s n m : shutdown (net s, mgr s) = (n, m) ->
    step s {| net := n; mgr := m; leases := leases s |}.

(** The leases of one generation. *)
Fixpoint held (g : Z) (ls : list lease) : Z :=
  match ls with [] => 0 | l :: ls' => Z.b2z (lease_generation l =? g) + held g ls' end.

(** ** The invariant

    Within [k] steps, so that [generation_] has not wrapped around. *)
Record ok (k : nat) (s : system) : Prop := {
  ok_generation : 0 <= generation_ (mgr s) <= Z.of_nat k;
  ok_leases : Forall (fun l => lease_generation l <= generation_ (mgr s)) (leases s);
  ok_active : active_connections_ (mgr s) = held (generation_ (mgr s)) (leases s);
  ok_total : total_connections_ (mgr s) = zlen (available_ (mgr s)) + active_connections_ (mgr s);
  ok_up : initialized_ (mgr s) = true -> total_connections_ (mgr s) = pool_size (config_ (mgr s));
  ok_down : initialized_ (mgr s) = false -> total_connections_ (mgr s) = 0;
  ok_size : total_connections_ (mgr s) < 2 ^ 31
}.

Lemma held_nonneg g ls : 0 <= held g ls.
Proof. induction ls as [|l ls IH]; simpl; [lia|]. destruct (_ =? _); simpl; lia. Qed.

Lemma held_delete g ls i l : ls !! i = Some l ->
  held g ls = Z.b2z (lease_generation l =? g) + held g (delete i ls).
Proof.
  revert i. induction ls as [|l0 ls IH]; intros [|i] Hl; simplify_eq/=; [done|]. rewrite (IH _ Hl). lia.
Qed.

Lemma held_update g ls i l l' : ls !! i = Some l -> lease_generation l' = lease_generation l ->
  held g (<[i := l']> ls) = held g ls.
Proof.
  intros Hl Hg. revert i Hl. induction ls as [|l0 ls IH]; intros [|i] Hl; simplify_eq/=; [by rewrite Hg|].
  by rewrite IH.
Qed.

Lemma held_later g ls : Forall (fun l => lease_generation l <= g) ls -> held (g + 1) ls = 0.
Proof.
  induction 1 as [|l ls Hl _ IH]; [done|]. simpl. rewrite IH.
  destruct (Z.eqb_spec (lease_generation l) (g + 1)); [lia|done].
Qed.

Lemma fill_length cfg k : forall n l n' l', fill cfg k n l = (n', l', true) -> zlen l' = zlen l + Z.of_nat k.
Proof.
  induction k as [|k IH]; intros n l n' l' E; simpl in E; [injection E as <- <-; lia|].
  destruct (RedisClient cfg n) as [n1 [h|]]; [|done]. apply IH in E. rewrite zlen_app in E.
  unfold zlen in *. simpl in E. lia.
Qed.

(** A new generation: no lease is current. *)
Lemma next_generation (k : nat) s : ok k s -> Z.of_nat (S k) < 2 ^ 64 ->
  u64 (generation_ (mgr s) + 1) = generation_ (mgr s) + 1 /\
  Forall (fun l => lease_generation l <= generation_ (mgr s) + 1) (leases s) /\
  held (generation_ (mgr s) + 1) (leases s) = 0.
Proof.
  intros [Hg Hl _ _ _ _ _] Hk. split; [unfold u64; rewrite Z.mod_small; lia|].
  split; [|by apply held_later]. eapply Forall_impl; [exact Hl|]. simpl. lia.
Qed.

Lemma initialize_ok k cfg s n m b : pool_size cfg < 2 ^ 31 -> initialize cfg (net s, mgr s) = (n, m, b) ->
  Z.of_nat (S k) < 2 ^ 64 -> ok k s -> ok (S k) {| net := n; mgr := m; leases := leases s |}.
Proof.
  intros Hp E Hk Hok. destruct (next_generation k s Hok Hk) as (Hg & Hl & Hh). destruct Hok as [Hr _ _ _ _ _ _].
  unfold initialize in E. destruct (fill _ _ _ _) as [[n1 l] built] eqn:Ef.
  destruct built; injection E as <- <- <-; split; simpl; rewrite ?Hg, ?Hh; try lia; try done.
  - apply fill_length in Ef. unfold zlen in Ef at 2. simpl in Ef. lia.
  - apply fill_length in Ef. unfold zlen in Ef at 2. simpl in Ef. lia.
Qed.

Lemma wake_up_ok k s m l : wake_up (mgr s) = (m, Ok l) -> ok k s ->
  ok (S k) {| net := net s; mgr := m; leases := l :: leases s |}.
Proof.
  intros E [Hg Hl Ha Ht Hu Hd Hs]. unfold wake_up in E. destruct (available_ (mgr s)) as [|r rest] eqn:Ea; [done|].
  destruct (initialized_ (mgr s)) eqn:Ei; [|done]. injection E as <- <-.
  pose proof (held_nonneg (generation_ (mgr s)) (leases s)) as Hn.
  unfold zlen in Ht. simpl length in Ht. rewrite Nat2Z.inj_succ in Ht.
  assert (Hw : u64 (active_connections_ (mgr s) + 1) = active_connections_ (mgr s) + 1).
  { unfold u64. rewrite Z.mod_small; lia. }
  split; simpl; rewrite ?Hw, ?Z.eqb_refl; simpl; try done; try lia; try auto.
  - constructor; [simpl; lia|done].
  - unfold zlen. lia.
Qed.

Lemma wake_up_same m m' : wake_up m = (m', Throw) -> m' = m.
Proof. unfold wake_up. repeat case_match; congruence. Qed.

Lemma ok_later k s : ok k s -> ok (S k) s.
Proof. intros []. split; try done. lia. Qed.

Lemma release_ok k s i l n m : leases s !! i = Some l ->
  release_connection (redis_ l) (lease_generation l) (net s, mgr s) = (n, m) -> ok k s ->
  ok (S k) {| net := n; mgr := m; leases := delete i (leases s) |}.
Proof.
  intros Hi E [Hg Hl Ha Ht Hu Hd Hs]. pose proof (held_delete (generation_ (mgr s)) _ _ _ Hi) as Hh.
  pose proof (held_nonneg (generation_ (mgr s)) (delete i (leases s))) as Hn.
  assert (Hl' : Forall (fun l => lease_generation l <= generation_ (mgr s)) (delete i (leases s)))
    by (by apply Forall_delete).
  unfold release_connection in E. destruct (lease_generation l =? generation_ (mgr s)) eqn:Eg; simpl in E, Hh.
  - destruct (0 <? active_connections_ (mgr s)) eqn:Ep; zbool; [|lia].
    destruct (initialized_ (mgr s)) eqn:Ei; [|specialize (Hd eq_refl); unfold zlen in Ht; lia].
    injection E as <- <-. split; simpl; try done; try lia; auto.
    rewrite zlen_app. unfold zlen in *. simpl. lia.
  - injection E as <- <-. split; simpl; try done; try lia.
Qed.

Lemma generation_step_ok k s s' : step s s' -> Z.of_nat (S k) < 2 ^ 64 -> ok k s -> ok (S k) s'.
Proof.
  destruct 1 as [cfg s n m b Hp E|s m l E|s m E|s i l n h Hi|s i l n m Hi E|s n m E]; intros Hk Hok.
  - by eapply initialize_ok.
  - by apply wake_up_ok.
  - apply wake_up_same in E as ->. apply ok_later. by destruct s.
  - apply ok_later. destruct Hok as [Hg Hl Ha Ht Hu Hd Hs]. split; simpl; try done.
    + apply Forall_insert; [done|]. simpl. by eapply Forall_lookup_1 in Hl.
    + by rewrite (held_update _ _ _ l).
  - by eapply release_ok.
  - destruct (next_generation k s Hok Hk) as (Hg & Hl & Hh). destruct Hok as [Hr _ _ _ _ _ _].
    injection E as <- <-. split; simpl; rewrite ?Hg, ?Hh; try done; try lia.
Qed.

(** A run of the threads from a manager that nobody has initialised. *)
Definition unstarted (n : N) : system := {| net := n; mgr := fresh_manager; leases := [] |}.

Lemma run_ok k n s : nsteps step k (unstarted n) s -> Z.of_nat k < 2 ^ 64 -> ok k s.
Proof.
  revert s. induction k as [|k IH]; intros s Hs Hk.
  - inversion Hs; subst. split; simpl; try done; lia.
  - apply nsteps_inv_r in Hs as (s1 & Hs & H1). eapply generation_step_ok; [done|done|]. apply IH; [done|lia].
Qed.

(** C30: The pool of Redis connections loses none.  Whatever the threads do (initialise, take,
    use, give back, time out, shut down, in any order, with clients that fail) an initialised
    manager has exactly [pool_size] connections of its generation: those available and those
    in the hands of threads, which [get_pool_stats] counts right.  A lease of an earlier
    generation counts no more: giving it back closes its connection and changes nothing. *)
Theorem pool_conserved k n s (Hs : nsteps step k (unstarted n) s) (Hk : Z.of_nat k < 2 ^ 64) :
  let m := mgr s in
  (initialized_ m = true ->
     get_pool_stats m = {| total_connections := pool_size (config_ m);
                           available_connections := pool_size (config_ m) - held (generation_ m) (leases s);
                           active_connections := held (generation_ m) (leases s) |}) /\
  (initialized_ m = false -> available_ m = [] /\ held (generation_ m) (leases s) = 0) /\
  (forall l, l ∈ leases s -> lease_generation l <> generation_ m ->
     release_connection (redis_ l) (lease_generation l) (net s, m) = (drop_client (net s) (redis_ l), m)).
Proof.
  destruct (run_ok _ _ _ Hs Hk) as [_ _ Ha Ht Hu Hd _]. simpl. split_and!.
  - intros Hi. unfold get_pool_stats. rewrite Hi. specialize (Hu Hi). f_equal; lia.
  - intros Hi. specialize (Hd Hi). pose proof (held_nonneg (generation_ (mgr s)) (leases s)).
    destruct (available_ (mgr s)) as [|r l]; [split; [done|]|]; unfold zlen in Ht; simpl in Ht; lia.
  - intros l _ Hg. unfold release_connection. by destruct (Z.eqb_spec (lease_generation l) (generation_ (mgr s))).
Qed.
End Manager.

(** * The pool serves the registry

    With a server that is up and database 0, a function of the commands that is right on a
    client is right on the pool. *)
Section Serves.
Context {N : Type} `{Hiredis N} (cfg : RedisConfig) {L : HiredisLaws Keyspace cfg redis_doc}
  (Hdb : db cfg = 0).

(** The clients of a list: their contexts are distinct and sound. *)
Definition handles (l : list redis) : list nat := omap snd l.
Definition good (n : N) (r : redis) : Prop :=
  r.1 = cfg /\ match r.2 with Some h => used h n /\ sound serving h n | None => True end.
Definition clients (n : N) (l : list redis) : Prop := NoDup (handles l) /\ Forall (good n) l.

Lemma clients_moves n oh n' oh' l : clients n l -> (forall h, oh = Some h -> h ∉ handles l) ->
  moves cfg (n, oh) (n', oh') -> clients n' l /\ (forall h, oh' = Some h -> h ∉ handles l).
Proof.
  intros [Hd Hg] Hf [Hm _].
  assert (Hh : forall h, h ∈ handles l -> used h n /\ sound serving h n).
  { intros h ([cf o] & Hr & Ho)%list_elem_of_omap. simpl in Ho. subst o.
    rewrite Forall_forall in Hg. by destruct (Hg _ Hr) as [_ ?]. }
  assert (Ha : forall h, h ∈ handles l -> used h n' /\ oh' <> Some h /\ sound serving h n').
  { intros h Hi. destruct (Hh h Hi) as [Hu Hs].
    destruct (Hm h Hu) as (? & ? & Hs'); [intros E; by destruct (Hf _ E)|]. auto. }
  split; [|intros h -> Hi; by destruct (Ha h Hi) as (_ & ? & _)]. split; [done|].
  rewrite Forall_forall in Hg |- *. intros [cf [h|]] Hr; destruct (Hg _ Hr) as [? _]; [|done].
  split; [done|]. destruct (Ha h) as (? & _ & ?); [|done]. apply list_elem_of_omap. by exists (cf, Some h).
Qed.

Lemma clients_snoc n l oh : clients n l -> (forall h, oh = Some h -> h ∉ handles l) ->
  good n (cfg, oh) -> clients n (l ++ [(cfg, oh)]).
Proof.
  intros [Hd Hg] Hf Ho. split.
  - unfold handles. rewrite omap_app. apply NoDup_app. split; [done|]. destruct oh as [h|]; simpl.
    + split; [|apply NoDup_singleton]. intros x Hx ->%list_elem_of_singleton. by destruct (Hf h eq_refl).
    + split; [|apply NoDup_nil_2]. by intros x _ ?%elem_of_nil.
  - apply Forall_app. split; [done|]. by apply Forall_singleton.
Qed.

Definition pool_healthy (d : N * RedisManager) : Prop :=
  up d.1 /\ initialized_ d.2 = true /\ available_ d.2 <> [] /\ clients d.1 (available_ d.2) /\
  0 <= active_connections_ d.2 < 2 ^ 64 - 1.

Lemma drop_clients_law (n : N) l :
  contents (drop_clients n l) = contents n /\ (up n -> up (drop_clients n l)).
Proof.
  revert n. induction l as [|r l IH]; intros n; [done|]. simpl.
  destruct (IH (drop_client n r)) as [-> Hu]. destruct (destroy_law cfg (n, r.2)) as (Hc & _ & Hu').
  split; [done|auto].
Qed.

(** Building clients on a server that is up. *)
Lemma fill_healthy k : forall n l, up n -> clients n l ->
  exists n' l', fill cfg k n l = (n', l', true) /\ up n' /\ clients n' l' /\ contents n' = contents n.
Proof.
  induction k as [|k IH]; intros n l Hu Hl; simpl; [by exists n, l|]. unfold RedisClient.
  destruct (connect_locked cfg (n, None)) as [[n1 oh] r] eqn:E.
  destruct (connect_locked_law cfg Hdb _ _ _ E) as (Hc & Hm & Hr). simpl in Hc, Hr.
  destruct (Hr Hu) as (-> & Hu1 & h & Eo & Hs & _). simpl in *. subst oh.
  destruct (clients_moves n None n1 (Some h) l Hl) as [Hl1 Hf]; [done|done|].
  destruct (IH n1 (l ++ [(cfg, Some h)])) as (n' & l' & -> & ? & ? & ?); [done| |].
  - apply clients_snoc; [done|done|]. split; [done|]. split; [by apply (mv_owned _ _ _ Hm)|by right].
  - exists n', l'. split_and!; try done. congruence.
Qed.

(** A function that touches no client but its own. *)
Definition framed {A} (func : exec (client (N := N)) A) : Prop :=
  forall c c' r, func c = (c', r) -> moves cfg c c'.

Lemma framed_ret {A} (a : A) : framed (ret a).
Proof. intros c c' r [= <- <-]. apply moves_refl. Qed.

Lemma framed_bind {A B} (m : exec client A) (k : A -> exec client B) :
  framed m -> (forall a, framed (k a)) -> framed (bind m k).
Proof.
  intros Hm Hk c c' r E. apply bind_inv in E as [[E _]|(a & c1 & E & E2)]; [by eapply Hm|].
  eapply moves_trans; [by eapply Hm|by eapply Hk].
Qed.

Lemma framed_answer {A} argv s (conv : redisReply -> A) : redis_doc argv s -> framed (answer conv cfg argv).
Proof. intros Hd c c' r. destruct (redis_idempotent _ _ Hd). by eapply (answer_moves cfg Hdb argv s). Qed.

(** The pool is the Redis the registry is proved on.  On a healthy manager, [execute] of a
    function that takes a healthy client from a key space to an answer and a key space, and
    touches no other client, returns that answer in that key space, puts the connection back
    (the statistics are the same) and leaves the manager healthy. *)
Theorem pooled_execute {A} (func : exec (client (N := N)) A) (Q : A -> Keyspace -> Prop) d
    (Hframe : framed func)
    (Hwp : @wp _ _ (client_redis_laws cfg Hdb) A func Q (contents d.1))
    (Hd : pool_healthy d) :
  exists d' a, execute (fun _ => func) d = (d', Ok a) /\ Q a (contents d'.1) /\ pool_healthy d' /\
    get_pool_stats d'.2 = get_pool_stats d.2.
Proof.
  destruct d as [n m]. destruct Hd as (Hu & Hi & Hne & [Hnd Hg] & Hact). simpl in *.
  unfold execute, get_connection, wake_up. simpl. rewrite Hi.
  destruct (available_ m) as [|[cf oh] rest] eqn:Ea; [done|]. clear Hne.
  apply Forall_cons in Hg as [[Ecf Hoh] Hg]. simpl in Ecf, Hoh. subst cf.
  assert (Hfree : forall h, oh = Some h -> h ∉ handles rest).
  { intros h ->. unfold handles in Hnd. simpl in Hnd. by apply NoDup_cons in Hnd as [? _]. }
  assert (Hrest : clients n rest).
  { split; [|done]. unfold handles in *. simpl in Hnd. destruct oh; [by apply NoDup_cons in Hnd as [_ ?]|done]. }
  assert (Hcl : healthy cfg (n, oh)) by (split; [done|]; simpl; destruct oh; naive_solver).
  destruct (Hwp (n, oh) Hcl eq_refl) as ([n' oh'] & a & E & [Hu' Hs'] & HQ).
  pose proof (Hframe _ _ _ E) as Hm. destruct (clients_moves _ _ _ _ _ Hrest Hfree Hm) as [Hrest' Hfree'].
  cbn [redis_ lease_generation fst snd]. rewrite E. unfold release_connection. simpl. rewrite Z.eqb_refl. simpl.
  assert (Hw : u64 (active_connections_ m + 1) = active_connections_ m + 1) by (unfold u64; rewrite Z.mod_small; lia).
  rewrite Hw. destruct (Z.ltb_spec 0 (active_connections_ m + 1)); [|lia]. rewrite Z.add_simpl_r.
  eexists _, a. split; [reflexivity|]. split; [exact HQ|]. split.
  - split; [done|]. split; [done|]. simpl. split; [by destruct rest|]. split; [|done].
    apply clients_snoc; [done|done|]. split; [done|]. simpl in *. destruct oh' as [h'|]; [|done].
    split; [|done]. apply (mv_owned _ _ _ Hm). unfold owned. simpl. destruct oh; naive_solver.
  - unfold get_pool_stats. simpl. rewrite Hi, Ea, zlen_app. f_equal. unfold zlen. simpl. lia.
Qed.

(** Initialising on a server that is up gives a healthy manager, whatever was there. *)
Lemma initialize_healthy config n m : cfg = at_least_one config -> up n ->
  exists n' m', initialize config (n, m) = (n', m', true) /\ pool_healthy (n', m') /\
    contents n' = contents n /\ zlen (available_ m') = pool_size cfg.
Proof.
  intros Ec Hu. unfold initialize. rewrite <- Ec.
  destruct (drop_clients_law n (available_ m)) as [Hc Hu'].
  destruct (fill_healthy (Z.to_nat (pool_size cfg)) (drop_clients n (available_ m)) []) as (n' & l & E & Hun & Hl & Hc').
  { auto. } { split; [apply NoDup_nil_2|by apply Forall_nil]. }
  rewrite E. eexists n', _. split; [reflexivity|]. apply fill_length in E. unfold zlen in E at 2. simpl in E.
  assert (1 <= pool_size cfg) by (rewrite Ec; simpl; lia).
  split_and!; simpl; try done; try lia; [|congruence].
  destruct l; [|done]. unfold zlen in E. simpl in E. lia.
Qed.
End Serves.

(** * A Redis in memory, with faults

    [faults] says what happens to the next connections and commands; without an entry, nothing
    goes wrong. *)
Module MemHiredis.
Inductive fault := Fine | Lost (* not executed, no reply *) | Cut (* executed, no reply *) | Refuse (* an error reply *).

Record t := {
  keys : Keyspace;
  secret : string;       (* the password of the server *)
  next : nat;            (* the next context *)
  failed : list nat;     (* contexts with [err] *)
  authenticated : list nat;
  faults : list fault
}.

Definition next_fault (n : t) : fault * t :=
  match faults n with
  | [] => (Fine, n)
  | f :: fs => (f, {| keys := keys n; secret := secret n; next := next n; failed := failed n;
                      authenticated := authenticated n; faults := fs |})
  end.

Definition fail (h : nat) (n : t) : t := {|
  keys := keys n; secret := secret n; next := next n; failed := h :: failed n;
  authenticated := authenticated n; faults := faults n |}.
Definition admit_client (h : nat) (n : t) : t := {|
  keys := keys n; secret := secret n; next := next n; failed := failed n;
  authenticated := h :: authenticated n; faults := faults n |}.
Definition with_keys (k : Keyspace) (n : t) : t := {|
  keys := k; secret := secret n; next := next n; failed := failed n;
  authenticated := authenticated n; faults := faults n |}.

Definition connect (n : t) : t * option nat :=
  let '(f, n1) := next_fault n in
  let h := next n1 in
  let n2 := {| keys := keys n1; secret := secret n1; next := S h; failed := failed n1;
               authenticated := if bool_decide (secret n1 = ""%string) then h :: authenticated n1 else authenticated n1;
               faults := faults n1 |} in
  match f with Fine => (n2, Some h) | _ => (fail h n2, Some h) end.

Definition on_hash (k : string) (s s' : Keyspace) (r : redisReply) : Keyspace * redisReply :=
  if bool_decide (set_of s k = ∅) then (s', r) else (s, ReplyError "WRONGTYPE").
Definition on_set (k : string) (s s' : Keyspace) (r : redisReply) : Keyspace * redisReply :=
  if bool_decide (hash_of s k = ∅) then (s', r) else (s, ReplyError "WRONGTYPE").

Definition serve (argv : list string) (s : Keyspace) : Keyspace * redisReply :=
  match argv with
  | [op; k] =>
      if String.eqb op "HGETALL" then on_hash k s s (ReplyArray (flat_fields (map_to_list (hash_of s k))))
      else if String.eqb op "SMEMBERS" then on_set k s s (ReplyArray (map ReplyString (elements (set_of s k))))
      else if String.eqb op "SCARD" then on_set k s s (ReplyInteger (Z.of_nat (size (set_of s k))))
      else if String.eqb op "DEL" then (del_eff k s, ReplyInteger 1)
      else (s, ReplyError "ERR unknown command")
  | [op; k; x] =>
      if String.eqb op "HGET" then on_hash k s s (optional_reply (hash_of s k !! x))
      else if String.eqb op "HDEL" then on_hash k s (hdel_eff k x s) (ReplyInteger 1)
      else if String.eqb op "SADD" then on_set k s (sadd_eff k x s) (ReplyInteger 1)
      else if String.eqb op "SREM" then on_set k s (srem_eff k x s) (ReplyInteger 1)
      else (s, ReplyError "ERR unknown command")
  | [op; k; f; v] =>
      if String.eqb op "HSET" then on_hash k s (hset_eff k f v s) (ReplyInteger 1)
      else (s, ReplyError "ERR unknown command")
  | _ => (s, ReplyStatus "PONG")
  end.

(** A command that reaches the server. *)
Definition is_auth (argv : list string) : option string :=
  match argv with [op; p] => if String.eqb op "AUTH" then Some p else None | _ => None end.

Definition execute_command (h : nat) (argv : list string) (n : t) : t * redisReply :=
  match is_auth argv with
  | Some p =>
      if bool_decide (p = secret n) then (admit_client h n, ReplyStatus "OK") else (n, ReplyError "WRONGPASS")
  | None =>
      if bool_decide (h ∈ authenticated n)
      then let '(s, r) := serve argv (keys n) in (with_keys s n, r)
      else (n, ReplyError "NOAUTH")
  end.

Definition send (h : nat) (argv : list string) (n : t) : t * option redisReply :=
  if bool_decide (h ∈ failed n) then (n, None)
  else
    let '(f, n1) := next_fault n in
    match f with
    | Fine => let '(n2, r) := execute_command h argv n1 in (n2, Some r)
    | Lost => (fail h n1, None)
    | Cut => (fail h (execute_command h argv n1).1, None)
    | Refuse => (n1, Some (ReplyError "ERR"))
    end.

#[export] Instance mem_hiredis : Hiredis t := {
  redisConnectWithTimeout _ _ _ := connect;
  redisSetTimeout _ _ n := n;
  redisCommand := send;
  redisFree _ n := n;
  context_err h n := bool_decide (h ∈ failed n)
}.

Definition m_used (h : nat) (n : t) : Prop := (h < next n)%nat.
Definition m_serving (h : nat) (n : t) : Prop := h ∈ authenticated n.

(** What a call may change: contexts are added, flags are added. *)
Record grows (n n' : t) : Prop := {
  g_secret : secret n' = secret n;
  g_next : (next n <= next n')%nat;
  g_failed : forall h, h ∈ failed n -> h ∈ failed n';
  g_authenticated : forall h, h ∈ authenticated n -> h ∈ authenticated n';
  g_faults : faults n = [] -> faults n' = []
}.

Lemma grows_refl n : grows n n.
Proof. by split. Qed.
Lemma grows_trans n1 n2 n3 : grows n1 n2 -> grows n2 n3 -> grows n1 n3.
Proof. intros [] []. split; auto; [congruence|lia]. Qed.
Lemma grows_fail h n : grows n (fail h n).
Proof. split; simpl; auto. intros. by right. Qed.

Lemma next_fault_grows n f n1 : next_fault n = (f, n1) ->
  grows n n1 /\ keys n1 = keys n /\ failed n1 = failed n /\ authenticated n1 = authenticated n /\
  next n1 = next n /\ (faults n = [] -> f = Fine).
Proof.
  unfold next_fault. destruct (faults n) as [|f0 fs] eqn:E; intros [= <- <-]; split_and!; try done.
  split; simpl; auto. by rewrite E.
Qed.

Lemma execute_grows h argv n : grows n (execute_command h argv n).1.
Proof.
  assert (Hk : forall s, grows n (with_keys s n)) by (intros; by split).
  assert (Ha : grows n (admit_client h n)) by (split; simpl; auto; intros; by right).
  unfold execute_command. destruct (is_auth argv); case_bool_decide; try done; try apply grows_refl.
  destruct (serve argv (keys n)). apply Hk.
Qed.

Lemma send_grows h argv n n' r : send h argv n = (n', r) -> grows n n'.
Proof.
  unfold send. case_bool_decide; [intros [= <- _]; apply grows_refl|].
  destruct (next_fault n) as [f n1] eqn:E. apply next_fault_grows in E as [Hg _].
  pose proof (execute_grows h argv n1) as Hx. destruct (execute_command h argv n1) as [n2 x].
  destruct f; intros [= <- _]; eauto using grows_trans, grows_fail.
Qed.

Lemma grows_sound i n n' : grows n n' -> sound m_serving i n -> sound m_serving i n'.
Proof.
  intros [_ _ Hf Ha _] [Hi|Hi]; [left|right; by apply Ha].
  apply bool_decide_eq_true in Hi. by apply bool_decide_eq_true, Hf.
Qed.

Lemma grows_others h n n' : grows n n' -> others m_used m_serving h n n'.
Proof.
  intros Hg i Hu. split; [|intros _; by apply grows_sound]. unfold m_used in *. pose proof (g_next _ _ Hg). lia.
Qed.

(** ** The laws *)

Lemma connect_laws n n' oh : connect n = (n', oh) ->
  keys n' = keys n /\ grows n n' /\ oh = Some (next n) /\ (next n < next n')%nat /\
  (faults n = [] -> failed n' = failed n) /\ (secret n = ""%string -> next n ∈ authenticated n').
Proof.
  unfold connect. destruct (next_fault n) as [f n1] eqn:E.
  apply next_fault_grows in E as (Hg & Hk & Hf & Ha & Hn & Hfine). rewrite Hn.
  set (n2 := Build_t _ _ _ _ _ _).
  assert (H1 : grows n n2).
  { apply (grows_trans _ _ _ Hg). unfold n2. split; simpl; auto; try lia.
    intros h Hh. case_bool_decide; [by right|done]. }
  assert (H2 : secret n = ""%string -> next n ∈ authenticated n2).
  { intros Hs. unfold n2. simpl. rewrite bool_decide_eq_true_2 by (by rewrite (g_secret _ _ Hg)). by left. }
  assert (H3 : forall h, grows n (fail h n2)) by (intros; eapply grows_trans; [exact H1|apply grows_fail]).
  destruct f; intros [= <- <-]; (split; [exact Hk|]); (split; [auto|]); split_and!; simpl; auto; try lia;
    intros Hx; by apply Hfine in Hx.
Qed.

Definition m_up (secret_ : string) (n : t) : Prop :=
  faults n = [] /\ secret n = secret_ /\ forall h, h ∈ failed n -> (h < next n)%nat.

Lemma grows_up p n n' : grows n n' -> failed n' = failed n -> m_up p n -> m_up p n'.
Proof.
  intros [Hs Hn Hf _ Hx] E (H1 & H2 & H3). unfold m_up. rewrite E. split_and!; [auto|congruence|].
  intros h Hh. specialize (H3 h Hh). lia.
Qed.

(** A command without faults on a context that works. *)
Lemma send_fine h argv n n' r p : send h argv n = (n', r) -> m_up p n ->
  failed n' = failed n /\
  (h ∉ failed n -> (n', r) = ((execute_command h argv n).1, Some (execute_command h argv n).2)).
Proof.
  unfold send. intros E (Hf & _ & _). case_bool_decide as Hh; [by simplify_eq|].
  unfold next_fault in E. rewrite Hf in E. destruct (execute_command h argv n) as [n2 x] eqn:Ex.
  simplify_eq. split; [|done].
  clear -Ex. unfold execute_command in Ex.
  destruct (is_auth argv); case_bool_decide; [| | destruct (serve argv (keys n))|]; by simplify_eq.
Qed.

Lemma serve_documented argv s k : redis_doc argv s -> is_auth argv = None /\
  ((serve argv k).1 = k \/ (serve argv k).1 = c_eff s k) /\
  (is_error (serve argv k).2 = false -> (serve argv k).1 = c_eff s k /\ c_ans s k (serve argv k).2) /\
  (c_pre s k -> is_error (serve argv k).2 = false).
Proof.
  unfold hash_key, set_key.
  destruct 1; (split; [reflexivity|]); cbn -[hset_eff hdel_eff sadd_eff srem_eff del_eff];
    unfold on_hash, on_set, hash_key, set_key; try case_bool_decide; split_and!; simpl; try done; auto.
  - by destruct (_ !! _).
  - intros _. split; [done|]. by eexists.
  - intros _. split; [done|]. by eexists.
Qed.

Lemma execute_keys h argv n : is_auth argv = None ->
  keys (execute_command h argv n).1 = keys n \/ keys (execute_command h argv n).1 = (serve argv (keys n)).1.
Proof.
  intros E. unfold execute_command. rewrite E. case_bool_decide; [|by left].
  destruct (serve argv (keys n)). by right.
Qed.

Lemma send_keys h argv n n' r : is_auth argv = None -> send h argv n = (n', r) ->
  (keys n' = keys n \/ keys n' = (serve argv (keys n)).1) /\
  (forall p, r = Some p -> is_error p = false ->
     keys n' = (serve argv (keys n)).1 /\ p = (serve argv (keys n)).2).
Proof.
  intros Ea. unfold send. case_bool_decide; [intros [= <- <-]; split; [by left|done]|].
  destruct (next_fault n) as [f n1] eqn:E. apply next_fault_grows in E as (_ & Hk & _).
  rewrite <- Hk. pose proof (execute_keys h argv n1 Ea) as Hx.
  destruct f.
  - destruct (execute_command h argv n1) as [n2 x] eqn:Ex. intros [= <- <-]. split; [done|].
    intros p [= ->] He. unfold execute_command in Ex. rewrite Ea in Ex.
    case_bool_decide; [destruct (serve argv (keys n1)); by simplify_eq|by simplify_eq].
  - intros [= <- <-]. split; [by left|done].
  - intros [= <- <-]. by split.
  - intros [= <- <-]. split; [by left|]. by intros p [= <-].
Qed.

Lemma send_auth_keys h p n n' r : send h ["AUTH"%string; p] n = (n', r) -> keys n' = keys n.
Proof.
  unfold send. case_bool_decide; [by intros [= <- _]|].
  destruct (next_fault n) as [f n1] eqn:E. apply next_fault_grows in E as (_ & Hk & _).
  unfold execute_command. simpl. destruct f; try case_bool_decide; by intros [= <- _].
Qed.

#[export] Instance mem_hiredis_laws (cfg : RedisConfig) : HiredisLaws Keyspace cfg redis_doc.
Proof.
  refine {| contents := keys; up := m_up (password cfg); used := m_used; serving := m_serving |}.
  - intros n n' oh E. destruct (connect_laws _ _ _ E) as (Hk & Hg & -> & Hn & Hf & Ha).
    split_and!; try done.
    + intros i Hi. unfold m_used in *. split; [lia|]. split; [intros [= <-]; lia|by apply grows_sound].
    + by intros h [= <-].
    + intros Hu. split; [apply (grows_up _ _ _ Hg); [by apply Hf, Hu|done]|]. exists (next n).
      destruct Hu as (Hx & Hs & Hlt). split_and!; try done.
      * apply bool_decide_eq_false. rewrite Hf by done. intros Hh. specialize (Hlt _ Hh). lia.
      * intros Hp. apply Ha. congruence.
  - intros h t0 n. by split_and!.
  - intros h n. by split_and!.
  - intros h n n' r E. split; [by eapply send_auth_keys|]. intros Hu He. apply bool_decide_eq_false in He.
    destruct (send_fine _ _ _ _ _ _ E Hu) as [Hf Hx]. specialize (Hx He).
    split; [apply (grows_up _ n); [by eapply send_grows|done|done]|].
    destruct Hu as (_ & Hs & _). unfold execute_command in Hx. simpl in Hx.
    rewrite bool_decide_eq_true_2 in Hx by done. injection Hx as -> ->. simpl. split_and!; [done|by left|].
    by apply bool_decide_eq_false.
  - intros argv h n n' r E. by eapply grows_others, send_grows.
  - intros argv s h n n' r Hd E. destruct (serve_documented argv s (keys n) Hd) as (Ea & Hk & Hans & Hpre).
    destruct (send_keys _ _ _ _ _ Ea E) as [Hk' Hr]. split_and!.
    + destruct Hk' as [-> | ->]; [by left|done].
    + intros p Hp He. destruct (Hr p Hp He) as [-> ->]. by apply Hans.
    + intros Hu. destruct (send_fine _ _ _ _ _ _ E Hu) as [Hf Hx]. pose proof (send_grows _ _ _ _ _ E) as Hg.
      split; [by apply (grows_up _ n)|]. intros Hs. split; [by apply (g_authenticated _ _ Hg)|].
      intros He Hp. apply bool_decide_eq_false in He. specialize (Hx He). unfold execute_command in Hx. rewrite Ea in Hx.
      unfold m_serving in Hs. rewrite bool_decide_eq_true_2 in Hx by done.
      destruct (serve argv (keys n)) as [s' x]. injection Hx as _ ->. by apply Hpre.
Defined.
End MemHiredis.

(** * Two connections *)
Module PoolRuns.
Import MemHiredis.

Definition two : RedisConfig := {|
  host := "127.0.0.1"; port := 6379; password := "mychat-dev-pass"; db := 0; pool_size := 2;
  connect_timeout := 2000; socket_timeout := 2000; pool_wait_timeout := 5000 |}.

Definition server (fs : list fault) : t := {|
  keys := Redis.Mem.empty; secret := "mychat-dev-pass"; next := 0; failed := []; authenticated := [];
  faults := fs |}.

#[local] Instance two_redis : Redis (client (N := t)) := client_redis two.

Definition note (who where_ : string) : exec (client (N := t)) (option string) :=
  let* _ := hset "session" who where_ in
  let* _ := sadd "platform" who in
  hget "session" who.

(** A manager whose first command lost its connection after it was executed: the client
    connected again and repeated it, and the pool is whole. *)
Definition started : t * RedisManager :=
  (initialize two (server [Fine; Fine; Fine; Fine; Cut], fresh_manager)).1.
Definition recovered : t * RedisManager := (execute (fun _ => note "ada" "web") started).1.

Lemma framed_note who where_ : framed two (note who where_).
Proof.
  unfold note.
  apply framed_bind; [apply (framed_answer two eq_refl _ _ _ (doc_hset "session" who where_))|intros _].
  apply framed_bind; [apply (framed_answer two eq_refl _ _ _ (doc_sadd "platform" who))|intros _].
  apply (framed_answer two eq_refl _ _ _ (doc_hget "session" who)).
Qed.

Lemma recovered_healthy : pool_healthy two recovered /\ next recovered.1 = 3%nat /\
  failed recovered.1 = [0%nat] /\ hash_of (keys recovered.1) "session" !! "ada"%string = Some "web"%string.
Proof.
  split; [|by vm_compute]. unfold pool_healthy, clients, good.
  split; [|split; [reflexivity|split; [by vm_compute|split; [split|]]]].
  - split; [reflexivity|]. split; [reflexivity|]. intros h Hh. vm_compute in Hh |- *.
    apply list_elem_of_singleton in Hh as ->. lia.
  - vm_compute. repeat constructor; set_solver.
  - vm_compute. repeat constructor; right; set_solver.
  - vm_compute. split; [discriminate|reflexivity].
Qed.

#[local] Instance two_laws : RedisLaws (client (N := t)) := client_redis_laws two eq_refl.

Lemma wp_note who where_ s : hash_key "session" s -> set_key "platform" s ->
  wp (note who where_) (fun a _ => a = Some where_) s.
Proof.
  intros Hh Hs. unfold note. wp_step; [done|]. wp_step; [done|]. wp_step; [|].
  - unfold hash_key, sadd_eff, hset_eff in *. simpl. by rewrite functions.fn_lookup_insert_ne.
  - simpl. rewrite functions.fn_lookup_insert. apply lookup_insert_eq.
Qed.

Lemma pooled_execute_witness : exists d' a,
  execute (fun _ => note "bob" "ios") recovered = (d', Ok a) /\ a = Some "ios"%string /\
  pool_healthy two d' /\ get_pool_stats d'.2 = get_pool_stats recovered.2.
Proof.
  apply (pooled_execute two eq_refl (note "bob" "ios") (fun a _ => a = Some "ios"%string) recovered).
  - apply framed_note.
  - apply wp_note; reflexivity.
  - apply recovered_healthy.
Defined.

(** A run of three threads: one takes a connection and keeps it over a shutdown and a new
    initialisation, two share the new pool. *)
Definition run_of_threads : system (N := t) :=
  let s0 := unstarted (server []) in
  let '(n1, m1, _) := initialize two (net s0, mgr s0) in
  match wake_up m1 with
  | (m2, Ok l) =>
      let '(n3, m3) := shutdown (n1, m2) in
      let '(n4, m4, _) := initialize two (n3, m3) in
      match wake_up m4 with
      | (m5, Ok l') => {| net := n4; mgr := m5; leases := [l'; l] |}
      | _ => s0
      end
  | _ => s0
  end.

Lemma run_of_threads_steps : nsteps step 5 (unstarted (server [])) run_of_threads.
Proof.
  eapply nsteps_l; [eapply (step_initialize two); [reflexivity|vm_compute; reflexivity]|].
  eapply nsteps_l; [eapply step_get; vm_compute; reflexivity|].
  eapply nsteps_l; [eapply step_shutdown; vm_compute; reflexivity|].
  eapply nsteps_l; [eapply (step_initialize two); [reflexivity|vm_compute; reflexivity]|].
  eapply nsteps_l; [eapply step_get; vm_compute; reflexivity|].
  exact (nsteps_O _ _).
Qed.

Lemma pool_conserved_witness :
  get_pool_stats (mgr run_of_threads) =
    {| total_connections := 2; available_connections := 1; active_connections := 1 |} /\
  zlen (leases run_of_threads) = 2.
Proof.
  split; [|reflexivity].
  destruct (pool_conserved 5 _ _ run_of_threads_steps ltac:(lia)) as (H & _ & _).
  exact (H eq_refl).
Defined.

(** ** Limits of the code *)

Definition selecting : RedisConfig := {|
  host := "127.0.0.1"; port := 6379; password := ""; db := 3; pool_size := 1;
  connect_timeout := 2000; socket_timeout := 2000; pool_wait_timeout := 5000 |}.

(** A server without a password whose next connection works and whose next command, the
    [SELECT 3] of the reconnection, is refused. *)
Definition refusing (fs : list fault) : t := {|
  keys := Redis.Mem.empty; secret := ""; next := 1; failed := [0%nat]; authenticated := [0%nat];
  faults := fs |}.

(** The first command throws because of the refused [SELECT]; its context, without [err],
    stays; the second command runs on it, on database 0. *)
Definition first_command : client (N := t) * result redisReply :=
  command selecting ["HSET"; "k"; "f"; "1"]%string (refusing [Fine; Refuse], Some 0%nat).
Definition second_command : client (N := t) * result redisReply :=
  command selecting ["HSET"; "k"; "f"; "2"]%string first_command.1.

Lemma command_on_wrong_database :
  first_command.2 = Throw /\ first_command.1.2 = Some 1%nat /\ unusable first_command.1 = false /\
  second_command.2 = Ok (ReplyInteger 1) /\ second_command.1.2 = Some 1%nat /\
  hash_of (keys second_command.1.1) "k" !! "f"%string = Some "2"%string.
Proof. by vm_compute. Qed.

(** A constructor whose [AUTH] fails throws with a context that nothing frees. *)
Lemma failed_constructor_leaks :
  exists n, RedisClient two (server [Fine; Refuse]) = (n, Throw) /\ next n = 1%nat /\ failed n = [].
Proof. by eexists. Qed.
End PoolRuns.
