(* ===== verification/ConnectionPool.v ===== *)
(** The generic connection pool (src/common/utils/connection_pool.hpp): [Init], the wait and
    the branches of [GetConnection], [ReleaseConnection], [Close] and the counts, and the
    threads that share the pool.

    A [ConnectionPtr] is an element of [conn], a null one [None].  A critical section of
    [m_mutex] is one step.  The factory is its answers: the [i]-th call of a loop returns a
    pointer or throws. *)
From S2P Require Import Prelude.
Open Scope Z_scope.

Section Pool.
Context {conn : Type}.

Definition factory : Type := nat -> result (option conn).

Record ConnectionPool := {
  m_poolSize_ : Z;
  m_factory : option factory;
  m_connections : list conn;
  m_isClosed : bool
}.

(** [ConnectionPool::ConnectionPool]. *)
Definition unopened : ConnectionPool :=
  {| m_poolSize_ := 0; m_factory := None; m_connections := []; m_isClosed := false |}.

(** The loop of [Init]: [k] calls of the factory, from the [i]-th. *)
Fixpoint fill (f : factory) (k i : nat) (l : list conn) : list conn * result unit :=
  match k with
  | O => (l, Ok tt)
  | S k' =>
      match f i with
      | Ok (Some c) => fill f k' (S i) (l ++ [c])
      | Ok None => fill f k' (S i) l
      | Throw => (l, Throw)
      end
  end.

Definition Init (poolSize : nat) (f : factory) : exec ConnectionPool unit := fun p =>
  if 0 <? m_poolSize_ p then (p, Ok tt)
  else
    let '(l, r) := fill f poolSize 0 (m_connections p) in
    ({| m_poolSize_ := Z.of_nat poolSize; m_factory := Some f; m_connections := l; m_isClosed := false |}, r).

(** The predicate of the wait. *)
Definition ready (p : ConnectionPool) : bool :=
  m_isClosed p || negb (bool_decide (m_connections p = [])).

(** [GetConnection] from the end of its wait, in the state the wait ends in: a wait that times
    out returns with the predicate false.  [i]: the call of the factory. *)
Definition GetConnection (i : nat) (p : ConnectionPool) : ConnectionPool * option conn :=
  if negb (ready p) then (p, None)
  else if m_isClosed p then (p, None)
  else
    match m_connections p with
    | [] => (p, match m_factory p with
                | Some f => match f i with Ok c => c | Throw => None end
                | None => None
                end)
    | c :: rest => ({| m_poolSize_ := m_poolSize_ p; m_factory := m_factory p; m_connections := rest;
                       m_isClosed := m_isClosed p |}, Some c)
    end.

Definition ReleaseConnection (conn : option conn) (p : ConnectionPool) : ConnectionPool :=
  match conn with
  | None => p
  | Some c =>
      if m_isClosed p then p
      else if m_poolSize_ p <=? zlen (m_connections p) then p
      else {| m_poolSize_ := m_poolSize_ p; m_factory := m_factory p;
              m_connections := m_connections p ++ [c]; m_isClosed := m_isClosed p |}
  end.

Definition Close (_ : ConnectionPool) : ConnectionPool :=
  {| m_poolSize_ := 0; m_factory := None; m_connections := []; m_isClosed := true |}.

Definition GetPoolSize (p : ConnectionPool) : Z := m_poolSize_ p.
Definition GetAvailableCount (p : ConnectionPool) : Z := zlen (m_connections p).
Definition GetInUsedCount (p : ConnectionPool) : Z := u64 (m_poolSize_ p - zlen (m_connections p)).

(** ** Threads

    [held]: the connections in the hands of threads, which give each back at most once. *)
Record system := { pool : ConnectionPool; held : list conn }.

(** The connections a factory makes are new. *)
Definition makes_new (f : factory) (s : system) : Prop :=
  (forall i c, f i = Ok (Some c) -> c ∉ m_connections (pool s) ++ held s) /\
  (forall i j c, f i = Ok (Some c) -> f j = Ok (Some c) -> i = j).

Inductive step : system -> system -> Prop :=
| step_init n f s p r : makes_new f s -> Init n f (pool s) = (p, r) -> Z.of_nat n < 2 ^ 64 ->
    step s {| pool := p; held := held s |}
| step_get i s p c : GetConnection i (pool s) = (p, Some c) -> step s {| pool := p; held := c :: held s |}
| step_none i s p : GetConnection i (pool s) = (p, None) -> step s {| pool := p; held := held s |}
| step_release s l1 c l2 : held s = l1 ++ c :: l2 ->
    step s {| pool := ReleaseConnection (Some c) (pool s); held := l1 ++ l2 |}
| step_drop s l1 c l2 : held s = l1 ++ c :: l2 -> step s {| pool := pool s; held := l1 ++ l2 |}
| step_close s : step s {| pool := Close (pool s); held := held s |}.

Definition reachable (s : system) : Prop := rtc step {| pool := unopened; held := [] |} s.

Record ok (s : system) : Prop := {
  ok_nodup : NoDup (m_connections (pool s) ++ held s);
  ok_size : zlen (m_connections (pool s)) <= m_poolSize_ (pool s) < 2 ^ 64;
  ok_closed : m_isClosed (pool s) = true -> m_connections (pool s) = [] /\ m_poolSize_ (pool s) = 0
}.

(** The branch that would create a connection is never taken. *)
Lemma GetConnection_cases i p : GetConnection i p =
  match m_connections p with
  | c :: rest => if m_isClosed p then (p, None)
                 else ({| m_poolSize_ := m_poolSize_ p; m_factory := m_factory p; m_connections := rest;
                          m_isClosed := false |}, Some c)
  | [] => (p, None)
  end.
Proof.
  unfold GetConnection, ready. destruct p as [size f [|c l] []]; reflexivity.
Qed.

Lemma fill_spec f k : forall i l l' r, fill f k i l = (l', r) ->
  exists new, l' = l ++ new /\ (length new <= k)%nat /\
    Forall (fun c => exists j, (i <= j)%nat /\ f j = Ok (Some c)) new /\
    ((forall i j c, f i = Ok (Some c) -> f j = Ok (Some c) -> i = j) -> NoDup new).
Proof.
  induction k as [|k IH]; intros i l l' r E; simpl in E.
  - injection E as <- _. exists []. rewrite app_nil_r. split_and!; try done. intros _. apply NoDup_nil_2.
  - destruct (f i) as [[c|]|] eqn:Ef.
    + apply IH in E as (new & -> & Hl & Hn & Hd). exists (c :: new). rewrite <- (assoc_L (++)).
      split_and!; [done|simpl; lia| |].
      * constructor; [by exists i|]. eapply Forall_impl; [exact Hn|]. simpl. intros x (j & ? & ?). exists j. split; [lia|done].
      * intros Hinj. constructor; [|auto]. intros Hc. rewrite Forall_forall in Hn.
        destruct (Hn c Hc) as (j & Hj & Ej). pose proof (Hinj _ _ _ Ef Ej). lia.
    + apply IH in E as (new & -> & Hl & Hn & Hd). exists new. split_and!; try done; [lia|].
      eapply Forall_impl; [exact Hn|]. simpl. intros x (j & ? & ?). exists j. split; [lia|done].
    + injection E as <- _. exists []. rewrite app_nil_r. split_and!; try done; [simpl; lia|]. intros _. apply NoDup_nil_2.
Qed.

Lemma init_ok n f s p r : makes_new f s -> Init n f (pool s) = (p, r) -> Z.of_nat n < 2 ^ 64 ->
  ok s -> ok {| pool := p; held := held s |}.
Proof.
  intros [Hnew Hinj] E Hn [Hd Hs Hc]. unfold Init in E.
  destruct (Z.ltb_spec 0 (m_poolSize_ (pool s))) as [Hp|Hp]; [injection E as <- _; by split|].
  destruct (fill _ _ _ _) as [l r'] eqn:Ef. injection E as <- _.
  apply fill_spec in Ef as (new & -> & Hl & Hx & Hnd).
  assert (Hnil : m_connections (pool s) = []).
  { destruct (m_connections (pool s)); [done|]. unfold zlen in Hs. simpl in Hs. lia. }
  rewrite Hnil in *. simpl in *. split; simpl; try done.
  - apply NoDup_app. split; [auto|]. split; [|done]. intros c Hi Hh. rewrite Forall_forall in Hx.
    destruct (Hx c Hi) as (j & _ & Ej). by apply (Hnew _ _ Ej).
  - unfold zlen. lia.
Qed.

Lemma held_remove s l1 c l2 : held s = l1 ++ c :: l2 -> NoDup (m_connections (pool s) ++ held s) ->
  NoDup (m_connections (pool s) ++ l1 ++ l2) /\ NoDup ((m_connections (pool s) ++ [c]) ++ l1 ++ l2).
Proof.
  intros -> Hd.
  assert (Hp : NoDup ((m_connections (pool s) ++ [c]) ++ l1 ++ l2)).
  { eapply NoDup_Permutation_proper; [|exact Hd]. solve_Permutation. }
  split; [|done]. rewrite <- (assoc_L (++)) in Hp. apply NoDup_app in Hp as (H1 & H2 & H3).
  simpl in H3. apply NoDup_cons in H3 as [_ H3]. apply NoDup_app. split_and!; try done.
  intros x Hx Hl. apply (H2 x Hx). simpl. by right.
Qed.

Lemma pool_step_ok s s' : step s s' -> ok s -> ok s'.
Proof.
  destruct 1 as [n f s p r Hf E Hn|i s p c E|i s p E|s l1 c l2 E|s l1 c l2 E|s]; intros Hok.
  - by eapply init_ok.
  - rewrite GetConnection_cases in E. destruct Hok as [Hd Hs Hc].
    destruct (m_connections (pool s)) as [|c0 rest] eqn:El; [done|].
    destruct (m_isClosed (pool s)); [done|]. injection E as <- <-. split; simpl; try done.
    + eapply NoDup_Permutation_proper; [|exact Hd]. solve_Permutation.
    + unfold zlen in *. simpl in *. lia.
  - rewrite GetConnection_cases in E. destruct (m_connections (pool s)), (m_isClosed (pool s)); simplify_eq; by destruct s.
  - destruct Hok as [Hd Hs Hc]. destruct (held_remove _ _ _ _ E Hd) as [H1 H2]. simpl.
    destruct (m_isClosed (pool s)) eqn:Ec; [by split; simpl; rewrite ?Ec|].
    destruct (Z.leb_spec (m_poolSize_ (pool s)) (zlen (m_connections (pool s)))); [by split; simpl; rewrite ?Ec|].
    split; simpl; [done| |done]. rewrite zlen_app. unfold zlen at 2. simpl. lia.
  - destruct Hok as [Hd Hs Hc]. by destruct (held_remove _ _ _ _ E Hd).
  - destruct Hok as [Hd Hs Hc]. split; simpl; try done. by apply NoDup_app in Hd as (_ & _ & ?).
Qed.

(** The connection pool gives a connection to one thread at a time.  In every reachable
    state, over any number of openings and closings, no connection is both available and in
    use, or in use twice; at most [m_poolSize_] are available, so the subtraction of
    [GetInUsedCount] never goes below zero; a closed pool has none and gives none; and the
    factory is called by [Init] alone, since [GetConnection] gives what is available and
    nothing else. *)
Theorem connection_pool_exclusive s (H : reachable s) :
  NoDup (m_connections (pool s) ++ held s) /\
  GetInUsedCount (pool s) + GetAvailableCount (pool s) = GetPoolSize (pool s) /\
  (m_isClosed (pool s) = true -> forall i, (GetConnection i (pool s)).2 = None) /\
  (forall i c, (GetConnection i (pool s)).2 = Some c -> head (m_connections (pool s)) = Some c).
Proof.
  assert (Hok : ok s).
  { clear -H. unfold reachable in H. remember {| pool := unopened; held := [] |} as s0 eqn:E.
    assert (H0 : ok s0) by (subst; split; simpl; try done; apply NoDup_nil_2).
    clear E. induction H as [|s0 s1 s2 Hs _ IH]; [done|]. by apply IH, (pool_step_ok _ _ Hs). }
  destruct Hok as [Hd Hs Hc]. split; [done|]. split_and!.
  - unfold GetInUsedCount, GetAvailableCount, GetPoolSize, u64.
    pose proof (zlen_nonneg (m_connections (pool s))). rewrite Z.mod_small; lia.
  - intros Hcl i. rewrite GetConnection_cases, Hcl. by destruct (m_connections (pool s)).
  - intros i c. rewrite GetConnection_cases. destruct (m_connections (pool s)); [done|].
    by destruct (m_isClosed (pool s)).
Qed.
End Pool.

(** * A pool of two *)
Module ConnectionPoolExample.
Definition numbered (base : nat) : factory := fun i => Ok (Some (base + i)%nat).

(** A thread keeps connection 0 over a closing and a new opening, and gives it back. *)
Definition opened : @system nat := {| pool := (Init 2 (numbered 0) unopened).1; held := [] |}.
Definition taken : @system nat := {| pool := (GetConnection 9 (pool opened)).1; held := [0%nat] |}.
Definition kept : @system nat := {| pool := Close (pool taken); held := [0%nat] |}.
Definition opened2 : @system nat := {| pool := (Init 2 (numbered 10) (pool kept)).1; held := [0%nat] |}.
Definition taken2 : @system nat := {| pool := (GetConnection 9 (pool opened2)).1; held := [10; 0]%nat |}.
Definition reopened : @system nat :=
  {| pool := ReleaseConnection (Some 0%nat) (pool taken2); held := [10%nat] |}.

Lemma numbered_new base s : Forall (fun c => (c < base)%nat) (m_connections (pool s) ++ held s) ->
  makes_new (numbered base) s.
Proof.
  intros H. split; unfold numbered.
  - intros i c [= <-] Hc. rewrite Forall_forall in H. specialize (H _ Hc). simpl in H. lia.
  - intros i j c [= <-] [= Hj]. lia.
Qed.

Lemma reopened_reachable : reachable reopened.
Proof.
  apply (rtc_l _ _ opened); [eapply (step_init 2 (numbered 0)); [by apply numbered_new|reflexivity|done]|].
  apply (rtc_l _ _ taken); [by apply (step_get 9 opened)|].
  apply (rtc_l _ _ kept); [apply (step_close taken)|].
  apply (rtc_l _ _ opened2).
  { eapply (step_init 2 (numbered 10) kept); [apply numbered_new; repeat constructor; lia|reflexivity|done]. }
  apply (rtc_l _ _ taken2); [by apply (step_get 9 opened2)|].
  apply rtc_once. by apply (step_release taken2 [10%nat] 0%nat []).
Qed.

(** The connection of the closed pool is now in the new one. *)
Lemma connection_pool_exclusive_witness : reachable reopened /\
  m_connections (pool reopened) = [11; 0]%nat /\ NoDup [11; 0; 10]%nat.
Proof.
  split; [apply reopened_reachable|]. split; [reflexivity|].
  apply (connection_pool_exclusive reopened reopened_reachable).
Defined.

(** After an [Init] that throws, a second one is refused: the pool stays short. *)
Definition failing : @factory nat := fun i => match i with O => Ok (Some 7%nat) | _ => Throw end.
Lemma failed_init_stays :
  let '(p, r) := Init 3 failing unopened in
  r = Throw /\ m_connections p = [7%nat] /\ Init 3 (numbered 10) p = (p, Ok tt) /\ GetInUsedCount p = 2.
Proof. by vm_compute. Qed.
End ConnectionPoolExample.
