(* ===== verification/MemoryPool.v ===== *)
(** The memory pool (src/common/utils/memory_pool.hpp): a buffer of bytes whose free blocks
    hold, in their first eight bytes, the address of the next free block.

    The buffer is its bytes, at the address [base] where the vector keeps them; an access
    outside it is [OutOfBounds].  The pool hands out raw memory, so its users write into the
    blocks they hold. *)
From S2P Require Import Prelude.
Open Scope Z_scope.

(** * Words in a buffer *)

Definition word (v : Z) : bytes := map (fun k => zb (Z.shiftr v (8 * k))) [0; 1; 2; 3; 4; 5; 6; 7].

Definition within (base a n : Z) (buf : bytes) : bool :=
  (base <=? a) && (a - base + n <=? zlen buf).

Definition load (base a : Z) (buf : bytes) : outcome Z :=
  if within base a 8 buf then Val (le_combine (take 8 (drop (Z.to_nat (a - base)) buf))) else OutOfBounds.
Definition poke (base a : Z) (bs buf : bytes) : outcome bytes :=
  if within base a (zlen bs) buf then Val (list_inserts (Z.to_nat (a - base)) bs buf) else OutOfBounds.
Definition store (base a v : Z) (buf : bytes) : outcome bytes := poke base a (word v) buf.

Lemma length_word v : length (word v) = 8%nat.
Proof. done. Qed.

Lemma le_combine_word v : 0 <= v < 2 ^ 64 -> le_combine (word v) = v.
Proof.
  intros Hv. unfold word. cbn [map].
  rewrite !le_combine_step, !bz_zb, !Z.shiftr_div_pow2 by lia. unfold u8.
  change (le_combine []) with 0. cbn [Z.mul Pos.mul].
  change (2 ^ 8) with 256; change (2 ^ 0) with 1; change (2 ^ 16) with 65536; change (2 ^ 24) with 16777216.
  change (2 ^ 32) with 4294967296; change (2 ^ 40) with 1099511627776.
  change (2 ^ 48) with 281474976710656; change (2 ^ 56) with 72057594037927936.
  change (2 ^ 64) with 18446744073709551616 in Hv. Z.to_euclidean_division_equations. lia.
Qed.

Lemma load_poke_eq base a bs buf buf' : length bs = 8%nat -> poke base a bs buf = Val buf' ->
  load base a buf' = Val (le_combine bs).
Proof.
  intros H8. unfold poke, load, within. intros E.
  destruct (_ && _) eqn:Ew; [|done]. injection E as <-. apply andb_prop in Ew as [Ha Hl]. zbool.
  unfold zlen in *. rewrite H8 in Hl. rewrite length_inserts.
  change (Z.of_nat 8) with 8 in Hl. rewrite (proj2 (Z.leb_le _ _) Ha), (proj2 (Z.leb_le _ _) Hl). simpl. f_equal.
  f_equal. apply list_eq_same_length with 8%nat; [done|rewrite length_take, length_drop, length_inserts; lia|].
  intros i x y Hi. rewrite lookup_take_lt, lookup_drop by done.
  rewrite list_lookup_inserts by lia. replace (_ + i - _)%nat with i by lia. congruence.
Qed.

Lemma load_store base a v buf buf' : 0 <= v < 2 ^ 64 -> store base a v buf = Val buf' ->
  load base a buf' = Val v.
Proof. intros Hv E. rewrite <- (le_combine_word v Hv). by eapply load_poke_eq. Qed.

(** Bytes written elsewhere. *)
Lemma load_poke base a p bs buf buf' : poke base p bs buf = Val buf' ->
  a + 8 <= p \/ p + zlen bs <= a -> load base a buf' = load base a buf.
Proof.
  unfold poke, load, within. destruct (_ && _) eqn:Ew; [|done]. intros [= <-] Hd.
  apply andb_prop in Ew as [Ha Hl]. zbool. unfold zlen in *. rewrite length_inserts.
  destruct (_ && _) eqn:E2; [|done]. apply andb_prop in E2 as [Ha2 Hl2]. zbool. f_equal. f_equal.
  apply list_eq. intros i. destruct (decide (i < 8)%nat) as [Hi|Hi].
  - rewrite !lookup_take_lt, !lookup_drop by done. destruct Hd as [Hd|Hd].
    + by rewrite list_lookup_inserts_lt by lia.
    + by rewrite list_lookup_inserts_ge by lia.
  - by rewrite !lookup_take_ge by lia.
Qed.

Lemma poke_within base p bs buf : within base p (zlen bs) buf = true ->
  exists buf', poke base p bs buf = Val buf' /\ length buf' = length buf.
Proof. unfold poke. intros ->. eexists. split; [done|apply length_inserts]. Qed.

(** * The pool *)
Record MemoryPool := { m_freeList : Z; m_buffer : bytes; m_poolSize : Z }.

Section Pool.
Context (base sizeofT : Z).

(** The loop of the constructor: [k] blocks more, from block [i]. *)
Fixpoint build (k : nat) (i : Z) (p : MemoryPool) : outcome MemoryPool :=
  match k with
  | O => Val p
  | S k' =>
      let node := base + i * sizeofT in
      let! buf := store base node (m_freeList p) (m_buffer p) in
      build k' (i + 1) {| m_freeList := node; m_buffer := buf; m_poolSize := m_poolSize p |}
  end.

(** [MemoryPool::MemoryPool]: it throws when [poolSize] is 0; [resize] fills with zeros. *)
Definition make (poolSize : nat) : result (outcome MemoryPool) :=
  if bool_decide (poolSize = 0%nat) then Throw
  else Ok (build poolSize 0 {| m_freeList := 0;
             m_buffer := replicate (Z.to_nat (u64 (Z.of_nat poolSize * sizeofT))) x00;
             m_poolSize := Z.of_nat poolSize |}).

(** [Allocate]: the block, or [std::bad_alloc]. *)
Definition Allocate (p : MemoryPool) : outcome (MemoryPool * result Z) :=
  if m_freeList p =? 0 then Val (p, Throw)
  else
    let node := m_freeList p in
    let! next := load base node (m_buffer p) in
    Val ({| m_freeList := next; m_buffer := m_buffer p; m_poolSize := m_poolSize p |}, Ok node).

Definition Deallocate (ptr : Z) (p : MemoryPool) : outcome MemoryPool :=
  let! buf := store base ptr (m_freeList p) (m_buffer p) in
  Val {| m_freeList := ptr; m_buffer := buf; m_poolSize := m_poolSize p |}.

(** [GetFreeCount]: the walk from [cur]; [None] when the fuel does not reach its end. *)
Fixpoint walk (fuel : nat) (cur : Z) (buf : bytes) : outcome (option Z) :=
  if cur =? 0 then Val (Some 0)
  else match fuel with
       | O => Val None
       | S f => let! next := load base cur buf in
                let! n := walk f next buf in Val (Z.succ <$> n)
       end.
Definition GetFreeCount (fuel : nat) (p : MemoryPool) : outcome (option Z) :=
  walk fuel (m_freeList p) (m_buffer p).

Definition GetTotalCount (p : MemoryPool) : Z := m_poolSize p.

(** ** Users

    [in_use]: the blocks handed out.  A user gives each back once and writes inside it. *)
Record heap := { pool : MemoryPool; in_use : list Z }.

Definition write_pool (buf : bytes) (p : MemoryPool) : MemoryPool :=
  {| m_freeList := m_freeList p; m_buffer := buf; m_poolSize := m_poolSize p |}.

Inductive step : heap -> heap -> Prop :=
| step_allocate h p a : Allocate (pool h) = Val (p, Ok a) -> step h {| pool := p; in_use := a :: in_use h |}
| step_deallocate h p l1 a l2 : in_use h = l1 ++ a :: l2 -> Deallocate a (pool h) = Val p ->
    step h {| pool := p; in_use := l1 ++ l2 |}
| step_write h a o bs buf : a ∈ in_use h -> 0 <= o -> o + zlen bs <= sizeofT ->
    poke base (a + o) bs (m_buffer (pool h)) = Val buf ->
    step h {| pool := write_pool buf (pool h); in_use := in_use h |}.

(** ** The free list in the buffer *)

Fixpoint chain (buf : bytes) (cur : Z) (l : list Z) : Prop :=
  match l with
  | [] => cur = 0
  | a :: l' => cur = a /\ exists next, load base a buf = Val next /\ chain buf next l'
  end.

(** Block [i]. *)
Definition block (i : Z) : Z := base + i * sizeofT.
Definition blocks (n : nat) : list Z := map (fun i => block (Z.of_nat i)) (seq 0 n).

Context (n : nat) (Hbase : 0 < base) (Hsize : 8 <= sizeofT) (Hfit : base + Z.of_nat n * sizeofT < 2 ^ 64).

Record ok (h : heap) : Prop := {
  ok_length : zlen (m_buffer (pool h)) = Z.of_nat n * sizeofT;
  ok_total : m_poolSize (pool h) = Z.of_nat n;
  ok_free : exists free, chain (m_buffer (pool h)) (m_freeList (pool h)) free /\
              free ++ in_use h ≡ₚ blocks n
}.

Lemma elem_of_blocks k a : a ∈ blocks k <-> exists i, 0 <= i < Z.of_nat k /\ a = block i.
Proof.
  unfold blocks. rewrite list_elem_of_fmap. split.
  - intros (i & -> & Hi%elem_of_seq). exists (Z.of_nat i). split; [lia|done].
  - intros (i & Hi & ->). exists (Z.to_nat i). rewrite Z2Nat.id by lia. split; [done|]. apply elem_of_seq. lia.
Qed.

Lemma blocks_NoDup k : NoDup (blocks k).
Proof.
  apply NoDup_fmap_2_strong; [|apply NoDup_seq]. intros i j _ _ E. unfold block in E. nia.
Qed.

(** Two blocks are the same or do not overlap. *)
Lemma blocks_apart k a b : a ∈ blocks k -> b ∈ blocks k -> a <> b -> a + sizeofT <= b \/ b + sizeofT <= a.
Proof.
  intros (i & _ & ->)%elem_of_blocks (j & _ & ->)%elem_of_blocks Hne. unfold block in *.
  assert (i <> j) by congruence.
  assert (i + 1 <= j \/ j + 1 <= i) as [Hij|Hij] by lia;
    apply (Z.mul_le_mono_nonneg_r _ _ sizeofT) in Hij; lia.
Qed.

Lemma block_range k a : a ∈ blocks k -> 0 < a /\ base <= a /\ a - base + sizeofT <= Z.of_nat k * sizeofT.
Proof. intros (i & ? & ->)%elem_of_blocks. unfold block. nia. Qed.

Lemma block_within a o m buf : a ∈ blocks n -> zlen buf = Z.of_nat n * sizeofT -> 0 <= o -> o + m <= sizeofT ->
  within base (a + o) m buf = true.
Proof.
  intros (? & ? & ?)%block_range Hl Ho Hm. unfold within. rewrite Hl.
  apply andb_true_intro. split; apply Z.leb_le; lia.
Qed.

(** Writing inside a block that is not free keeps the list. *)
Lemma chain_poke buf buf' cur l a o bs : chain buf cur l -> Forall (fun x => x ∈ blocks n) l ->
  a ∈ blocks n -> a ∉ l -> 0 <= o -> o + zlen bs <= sizeofT -> poke base (a + o) bs buf = Val buf' ->
  chain buf' cur l.
Proof.
  intros Hc Hl Ha Hn Ho Hs E. revert cur Hc. induction Hl as [|x l Hx _ IH]; intros cur; [done|]. simpl.
  apply not_elem_of_cons in Hn as [Hne Hn]. intros (-> & next & El & Hc). split; [done|].
  exists next. split; [|by apply IH]. rewrite <- El. eapply load_poke; [exact E|].
  pose proof (zlen_nonneg bs). destruct (blocks_apart n x a); [done|done|congruence|lia|lia].
Qed.

(** Pushing a block. *)
Lemma push_block buf cur l a : chain buf cur l -> Forall (fun x => x ∈ blocks n) l ->
  a ∈ blocks n -> a ∉ l -> zlen buf = Z.of_nat n * sizeofT -> 0 <= cur < 2 ^ 64 ->
  exists buf', store base a cur buf = Val buf' /\ chain buf' a (a :: l) /\ zlen buf' = zlen buf.
Proof.
  intros Hc Hl Ha Hn Hlen Hcur.
  assert (Hz : zlen (word cur) = 8) by done.
  destruct (poke_within base a (word cur) buf) as (buf' & E & El).
  { rewrite <- (Z.add_0_r a). apply block_within; try done. }
  exists buf'. split; [exact E|]. split; [|unfold zlen; lia]. split; [done|]. exists cur.
  split; [by eapply load_store|]. apply (chain_poke buf buf' cur l a 0 (word cur)); try done. by rewrite Z.add_0_r.
Qed.

Lemma chain_head buf cur l : chain buf cur l -> Forall (fun x => x ∈ blocks n) l -> 0 <= cur < 2 ^ 64.
Proof.
  destruct l as [|a l]; simpl; [intros -> _; lia|]. intros (-> & _) (Ha & _)%Forall_cons.
  destruct (block_range _ _ Ha). lia.
Qed.

(** ** The constructor *)

Lemma blocks_S k : blocks (S k) = blocks k ++ [block (Z.of_nat k)].
Proof. unfold blocks. by rewrite seq_S, map_app. Qed.

Lemma build_ok k : forall i p free,
  chain (m_buffer p) (m_freeList p) free -> free ≡ₚ blocks i -> (i + k)%nat = n ->
  zlen (m_buffer p) = Z.of_nat n * sizeofT -> m_poolSize p = Z.of_nat n ->
  exists p', build k (Z.of_nat i) p = Val p' /\ ok {| pool := p'; in_use := [] |}.
Proof.
  induction k as [|k IH]; intros i p free Hc Hf Hn Hl Ht.
  - exists p. split; [done|]. split; [done|done|]. exists free. rewrite app_nil_r. split; [done|].
    by replace n with i by lia.
  - simpl. fold (block (Z.of_nat i)).
    assert (Hin : forall x, x ∈ free -> x ∈ blocks n).
    { intros x. rewrite Hf, !elem_of_blocks. intros (j & ? & ?). exists j. split; [lia|done]. }
    assert (Hb : block (Z.of_nat i) ∈ blocks n) by (apply elem_of_blocks; exists (Z.of_nat i); split; [lia|done]).
    destruct (push_block (m_buffer p) (m_freeList p) free (block (Z.of_nat i))) as (buf & E & Hc' & Hl'); try done.
    + by apply Forall_forall.
    + rewrite Hf, elem_of_blocks. intros (j & ? & Ej). unfold block in Ej. nia.
    + eapply chain_head; [done|]. by apply Forall_forall.
    + rewrite E. simpl. destruct (IH (S i) {| m_freeList := block (Z.of_nat i); m_buffer := buf; m_poolSize := m_poolSize p |}
        (block (Z.of_nat i) :: free)) as (p' & Ep & Hok); try done; simpl; try lia.
      * rewrite blocks_S, Hf. solve_Permutation.
      * exists p'. split; [|done]. by rewrite <- Ep, Nat2Z.inj_succ.
Qed.

Lemma make_ok : n <> 0%nat -> Z.of_nat n * sizeofT < 2 ^ 64 ->
  exists p, make n = Ok (Val p) /\ ok {| pool := p; in_use := [] |}.
Proof.
  intros Hn Hw. unfold make. rewrite bool_decide_eq_false_2 by done.
  assert (Hu : u64 (Z.of_nat n * sizeofT) = Z.of_nat n * sizeofT) by (unfold u64; rewrite Z.mod_small; nia).
  rewrite Hu. set (p0 := Build_MemoryPool _ _ _).
  destruct (build_ok n 0 p0 []) as (p & E & Hok); try done.
  - simpl. unfold zlen. rewrite length_replicate. lia.
  - exists p. by rewrite <- E.
Qed.

(** ** The operations *)

Lemma allocate_ok h p a : Allocate (pool h) = Val (p, Ok a) -> ok h -> ok {| pool := p; in_use := a :: in_use h |}.
Proof.
  intros E [Hl Ht (free & Hc & Hp)]. unfold Allocate in E.
  destruct (Z.eqb_spec (m_freeList (pool h)) 0) as [|Hne]; [done|].
  destruct free as [|x free]; [done|]. destruct Hc as (Hx & next & El & Hc). rewrite Hx, El in E. simpl in E.
  injection E as <- <-. split; simpl; [done|done|]. exists free. split; [done|].
  rewrite <- Hp. solve_Permutation.
Qed.

Lemma used_blocks h l1 a l2 free : in_use h = l1 ++ a :: l2 -> free ++ in_use h ≡ₚ blocks n ->
  a ∈ blocks n /\ a ∉ free /\ Forall (fun x => x ∈ blocks n) free.
Proof.
  intros Ei Hp. pose proof (blocks_NoDup n) as Hnd. rewrite <- Hp in Hnd. rewrite Ei in *.
  split_and!.
  - rewrite <- Hp. set_solver.
  - apply NoDup_app in Hnd as (_ & Hd & _). intros Ha. apply (Hd a Ha). set_solver.
  - apply Forall_forall. intros x Hx. rewrite <- Hp. set_solver.
Qed.

Lemma blocks_step_ok h h' : step h h' -> ok h -> ok h'.
Proof.
  destruct 1 as [h p a E|h p l1 a l2 Ei E|h a o bs buf Ha Ho Hs E]; intros Hok; [by apply allocate_ok| |].
  - destruct Hok as [Hl Ht (free & Hc & Hp)]. destruct (used_blocks _ _ _ _ _ Ei Hp) as (Ha & Hn & Hf).
    destruct (push_block _ _ _ a Hc Hf Ha Hn Hl (chain_head _ _ _ Hc Hf)) as (buf & Es & Hc' & Hl').
    unfold Deallocate in E. rewrite Es in E. simpl in E. injection E as <-. split; simpl; [congruence|done|].
    exists (a :: free). split; [done|]. rewrite <- Hp, Ei. solve_Permutation.
  - destruct Hok as [Hl Ht (free & Hc & Hp)]. apply list_elem_of_split in Ha as (l1 & l2 & Ei).
    destruct (used_blocks _ _ _ _ _ Ei Hp) as (Ha & Hn & Hf). split; simpl; [|done|].
    + unfold poke in E. destruct (within _ _ _ _); [|done]. injection E as <-. unfold zlen in *. by rewrite length_inserts.
    + exists free. split; [|done]. by eapply (chain_poke _ _ _ _ a o).
Qed.

Lemma walk_chain fuel buf cur l : chain buf cur l -> Forall (fun x => x ∈ blocks n) l -> (length l <= fuel)%nat ->
  walk fuel cur buf = Val (Some (zlen l)).
Proof.
  intros Hc Hl. revert fuel cur Hc. induction Hl as [|a l Ha _ IH]; intros fuel cur Hc Hf.
  - simpl in Hc. subst. by destruct fuel.
  - destruct Hc as (-> & next & El & Hc). destruct fuel as [|fuel]; [simpl in Hf; lia|]. simpl.
    destruct (Z.eqb_spec a 0) as [->|_]; [by destruct (block_range _ _ Ha)|].
    rewrite El. simpl. rewrite (IH fuel next Hc) by (simpl in Hf; lia). simpl. do 2 f_equal.
    unfold zlen. simpl. lia.
Qed.

(** C31: The memory pool is a set of disjoint blocks.  Blocks of at least eight bytes in a
    buffer that fits the address space: whatever the users allocate, free (each block once) and
    write inside their blocks, no operation leaves the buffer; a block that [Allocate] returns
    lies in the buffer and overlaps none in use; [std::bad_alloc] is thrown exactly when all
    are; and [GetFreeCount] ends, after as many steps as there are free blocks, with their
    number. *)
Theorem memory_pool_blocks h p0 (Hn : n <> 0%nat) (Hw : Z.of_nat n * sizeofT < 2 ^ 64)
    (Hmake : make n = Ok (Val p0)) (Hh : rtc step {| pool := p0; in_use := [] |} h) :
  (exists p, Allocate (pool h) = Val (p, Throw) /\ length (in_use h) = n \/
   exists a, Allocate (pool h) = Val (p, Ok a) /\ base <= a /\ a + sizeofT <= base + Z.of_nat n * sizeofT /\
     forall b, b ∈ in_use h -> a + sizeofT <= b \/ b + sizeofT <= a) /\
  (forall a, a ∈ in_use h -> exists p, Deallocate a (pool h) = Val p) /\
  GetFreeCount n (pool h) = Val (Some (GetTotalCount (pool h) - zlen (in_use h))).
Proof.
  assert (Hok : ok h).
  { clear -Hbase Hsize Hfit Hn Hw Hmake Hh. destruct (make_ok Hn Hw) as (p & E & Hok).
    rewrite Hmake in E. injection E as <-. revert Hok. induction Hh as [|h1 h2 h3 Hs _ IH]; [done|].
    intros Hok. by apply IH, (blocks_step_ok _ _ Hs). }
  destruct Hok as [Hl Ht (free & Hc & Hp)].
  assert (Hf : Forall (fun x => x ∈ blocks n) free).
  { apply Forall_forall. intros x Hx. rewrite <- Hp. set_solver. }
  assert (Hlen : (length free + length (in_use h))%nat = n).
  { rewrite <- length_app, Hp. unfold blocks. by rewrite length_map, length_seq. }
  split; [|split].
  - unfold Allocate. destruct free as [|a free]; simpl in Hc; [rewrite Hc; eexists; left; split; [done|simpl in Hlen; lia]|].
    destruct Hc as (Hx & next & El & Hc). apply Forall_cons in Hf as [Ha Hf].
    destruct (block_range _ _ Ha) as (? & ? & ?). rewrite Hx. destruct (Z.eqb_spec a 0); [lia|].
    rewrite El. eexists. right. exists a. split; [reflexivity|]. split; [done|]. split; [lia|].
    intros b Hb. apply (blocks_apart n); [done|rewrite <- Hp; set_solver|].
    intros ->. pose proof (blocks_NoDup n) as Hnd. rewrite <- Hp in Hnd. simpl in Hnd.
    apply NoDup_cons in Hnd as [Hnd _]. set_solver.
  - intros a (l1 & l2 & Ei)%list_elem_of_split. destruct (used_blocks _ _ _ _ _ Ei Hp) as (Ha & Hni & _).
    destruct (push_block _ _ _ a Hc Hf Ha Hni Hl (chain_head _ _ _ Hc Hf)) as (buf & Es & _).
    unfold Deallocate. rewrite Es. by eexists.
  - unfold GetFreeCount, GetTotalCount. rewrite (walk_chain _ _ _ _ Hc Hf) by lia. rewrite Ht. do 2 f_equal.
    unfold zlen. lia.
Qed.
End Pool.

(** * Runs *)
Module MemoryPoolExample.
Definition pool_at (n : nat) (size : Z) : MemoryPool :=
  match make 4096 size n with Ok (Val p) => p | _ => {| m_freeList := 0; m_buffer := []; m_poolSize := 0 |} end.
Definition two : MemoryPool := pool_at 2 8.

(** Two blocks taken, one filled with other bytes, one given back. *)
Definition taken (p : MemoryPool) : MemoryPool := match Allocate 4096 p with Val (p', _) => p' | _ => p end.
Definition filled : MemoryPool :=
  match poke 4096 4104 (replicate 8 xff) (m_buffer (taken (taken two))) with
  | Val buf => write_pool buf (taken (taken two)) | _ => two end.
Definition returned : MemoryPool := match Deallocate 4096 4096 filled with Val p => p | _ => two end.

Lemma filled_steps : rtc (step 4096 8) {| pool := two; in_use := [] |} {| pool := returned; in_use := [4104] |}.
Proof.
  apply (rtc_l _ _ {| pool := taken two; in_use := [4104] |}); [by apply step_allocate|].
  apply (rtc_l _ _ {| pool := taken (taken two); in_use := [4096; 4104] |}).
  { by apply (step_allocate _ _ {| pool := taken two; in_use := [4104] |}). }
  apply (rtc_l _ _ {| pool := filled; in_use := [4096; 4104] |}).
  { apply (step_write _ _ {| pool := taken (taken two); in_use := [4096; 4104] |} 4104 0 (replicate 8 xff)); try done.
    simpl. set_solver. }
  apply rtc_once. by apply (step_deallocate _ _ {| pool := filled; in_use := [4096; 4104] |} _ [] 4096 [4104]).
Qed.

Lemma memory_pool_blocks_witness :
  GetFreeCount 4096 2 returned = Val (Some 1) /\ (exists p, Deallocate 4096 4104 returned = Val p).
Proof.
  destruct (memory_pool_blocks 4096 8 2 ltac:(lia) ltac:(lia) ltac:(simpl; lia) _ two ltac:(lia) ltac:(simpl; lia)
    ltac:(vm_compute; reflexivity) filled_steps) as (_ & H1 & H2).
  split; [exact H2|]. apply H1. simpl. set_solver.
Defined.

(** Blocks of four bytes: the constructor writes past the end of the buffer. *)
Lemma small_objects_overflow : make 4096 4 2 = Ok OutOfBounds.
Proof. by vm_compute. Qed.

(** A block given back twice: the same block is handed out for ever, and the walk of
    [GetFreeCount] meets no end. *)
Definition twice : MemoryPool := match Deallocate 4096 4096 returned with Val p => p | _ => two end.
Lemma double_free_cycle fuel : GetFreeCount 4096 fuel twice = Val None.
Proof.
  assert (H : load 4096 4096 (m_buffer twice) = Val 4096) by (by vm_compute).
  assert (E : m_freeList twice = 4096) by done. unfold GetFreeCount. rewrite E.
  induction fuel as [|fuel IH]; [done|]. cbn [walk]. change (4096 =? 0) with false. cbv iota.
  rewrite H. cbn [obind]. by rewrite IH.
Qed.
End MemoryPoolExample.
