(* ===== verification/CliParser.v ===== *)
(** The command line parser (src/common/utils/cli_parser.hpp): the table of arguments, the
    structures it gives to [getopt_long], the handling of one option, required arguments,
    defaults, and whole parses.

    [getopt_long] is an argument: what its loop returns for the options it was given, one
    pair of a value and [optarg] per call, and the arguments left from [optind].  A callback
    changes a state [W] of the program, answers, or throws; [stof s] tells whether
    [std::stof(s)] returns.  The texts of the help and of the version are not modelled. *)
From S2P Require Import Prelude Text.
Open Scope Z_scope.

Inductive ArgumentType := FLAG | STRING | INTEGER | FLOAT | BOOLEAN.
#[export] Instance ArgumentType_eq_dec : EqDecision ArgumentType.
Proof. solve_decision. Defined.

Section Parser.
Context {W : Type} (stof : string -> bool).

(** [short_name] is a [char]; 0: none.  [callback]: [None] for a null function. *)
Record ArgumentDefinition := {
  long_name : string; short_name : Z; type : ArgumentType; required : bool;
  description : string; default_value : string; group : string;
  callback : option (string -> exec W bool)
}.

Inductive parse_error :=
| UnknownOption (c : Z)
| NoSuchOption                      (* "Internal error: option not found" *)
| RequiresArgument (name : string)
| InvalidValue (value name : string)
| CallbackFailed (name : string)
| CallbackThrew (name : string)
| MissingRequired (name : string).

Record ParseResult := { success : bool; error_message : option parse_error; remaining_args : list string }.
Definition fine : ParseResult := {| success := true; error_message := None; remaining_args := [] |}.
Definition failed (e : parse_error) : ParseResult :=
  {| success := false; error_message := Some e; remaining_args := [] |}.

(** [arguments_] is a [std::map]: its elements in the order of their names. *)
Record CLIParser := {
  arguments_ : list (string * ArgumentDefinition);
  short_to_long_ : gmap Z string;
  parsed_arguments_ : gmap string string;
  world : W
}.

Definition find (name : string) (p : CLIParser) : option ArgumentDefinition :=
  snd <$> List.find (fun e => String.eqb e.1 name) (arguments_ p).

(** Insertion of a name that is not there. *)
Fixpoint insert_sorted {A} (e : string * A) (l : list (string * A)) : list (string * A) :=
  match l with
  | [] => [e]
  | e' :: l' => if String.ltb e.1 e'.1 then e :: l else e' :: insert_sorted e l'
  end.

(** [addArgument]. *)
Definition addArgument (def : ArgumentDefinition) (p : CLIParser) : CLIParser * bool :=
  if bool_decide (long_name def = ""%string) then (p, false)
  else if bool_decide (is_Some (find (long_name def) p)) then (p, false)
  else if negb (short_name def =? 0) && bool_decide (is_Some (short_to_long_ p !! short_name def)) then (p, false)
  else ({| arguments_ := insert_sorted (long_name def, def) (arguments_ p);
           short_to_long_ := if short_name def =? 0 then short_to_long_ p
                             else <[short_name def := long_name def]> (short_to_long_ p);
           parsed_arguments_ := parsed_arguments_ p; world := world p |}, true).

Definition flag (name : string) (c : Z) (text : string) (cb : string -> exec W bool) : ArgumentDefinition := {|
  long_name := name; short_name := c; type := FLAG; required := false; description := text;
  default_value := ""; group := "General"; callback := Some cb |}.

(** [CLIParser::CLIParser]: the callback of "help" prints and returns true. *)
Definition create (w : W) : CLIParser :=
  (addArgument (flag "help" 104 "Show this help message" (fun _ => ret true))
    {| arguments_ := []; short_to_long_ := ∅; parsed_arguments_ := ∅; world := w |}).1.

Definition addVersionArgument (cb : option (string -> exec W bool)) (p : CLIParser) : CLIParser :=
  (addArgument (flag "version" 118 "Show version information" (default (fun _ => ret true) cb)) p).1.

(** ** What [getopt_long] gets: [long_options] and [short_options] *)

Record option_ := { o_name : string; has_arg : bool; val : Z }.

Definition build_long (i : nat) (def : ArgumentDefinition) : option_ := {|
  o_name := long_name def;
  has_arg := negb (bool_decide (type def = FLAG));
  val := i32 (if short_name def =? 0 then 1000 + Z.of_nat i else short_name def) |}.

Definition long_options (p : CLIParser) : list option_ :=
  imap (fun i e => build_long i e.2) (arguments_ p).
Definition short_options (p : CLIParser) : list (Z * bool) :=
  omap (fun e => if short_name e.2 =? 0 then None
                 else Some (short_name e.2, negb (bool_decide (type e.2 = FLAG)))) (arguments_ p).

(** ** One option *)

Definition is_boolean (s : string) : bool :=
  bool_decide (s ∈ ["true"; "false"; "1"; "0"; "yes"; "no"; "on"; "off"]%string).

Definition validateArgumentValue (def : ArgumentDefinition) (value : string) : bool :=
  match type def with
  | INTEGER => bool_decide (is_Some (stoi value))
  | FLOAT => stof value
  | BOOLEAN => is_boolean value
  | FLAG | STRING => true
  end.

(** The conversion of an [int] to the [char] of the map. *)
Definition as_char (c : Z) : Z := (c + 128) mod 256 - 128.

(** The name an option value stands for.  Beyond the table, [std::advance] leaves it. *)
Definition option_name (c : Z) (p : CLIParser) : string + parse_error :=
  if 1000 <=? c
  then match arguments_ p !! Z.to_nat (c - 1000) with Some e => inl e.1 | None => inr NoSuchOption end
  else match short_to_long_ p !! as_char c with Some n => inl n | None => inr (UnknownOption c) end.

Definition set_world (w : W) (p : CLIParser) : CLIParser := {|
  arguments_ := arguments_ p; short_to_long_ := short_to_long_ p;
  parsed_arguments_ := parsed_arguments_ p; world := w |}.
Definition record_value (name value : string) (p : CLIParser) : CLIParser := {|
  arguments_ := arguments_ p; short_to_long_ := short_to_long_ p;
  parsed_arguments_ := <[name := value]> (parsed_arguments_ p); world := world p |}.

(** [def.callback(value)], when there is one. *)
Definition call (def : ArgumentDefinition) (value : string) (p : CLIParser) : CLIParser * option (result bool) :=
  match callback def with
  | None => (p, None)
  | Some f => let '(w, r) := f value (world p) in (set_world w p, Some r)
  end.

(** [processOption]: [None] when it returns true. *)
Definition processOption (c : Z) (optarg : option string) (p : CLIParser) : CLIParser * option parse_error :=
  match option_name c p with
  | inr e => (p, Some e)
  | inl name =>
      match find name p with
      | None => (p, Some NoSuchOption)
      | Some def =>
          match (if bool_decide (type def = FLAG) then Some "true"%string else optarg) with
          | None => (p, Some (RequiresArgument name))
          | Some value =>
              if negb (validateArgumentValue def value) then (p, Some (InvalidValue value (long_name def)))
              else match call def value p with
                   | (p', Some Throw) => (p', Some (CallbackThrew name))
                   | (p', Some (Ok false)) => (p', Some (CallbackFailed name))
                   | (p', _) => (record_value name value p', None)
                   end
          end
      end
  end.

Fixpoint process_all (l : list (Z * option string)) (p : CLIParser) : CLIParser * option parse_error :=
  match l with
  | [] => (p, None)
  | (c, a) :: l' =>
      match processOption c a p with
      | (p', None) => process_all l' p'
      | (p', Some e) => (p', Some e)
      end
  end.

(** [checkRequiredArguments]: the first argument that is required and not parsed. *)
Definition checkRequiredArguments (p : CLIParser) : option string :=
  fst <$> List.find (fun e => required e.2 && negb (bool_decide (is_Some (parsed_arguments_ p !! e.1)))) (arguments_ p).

(** One turn of [processDefaultValues]: the answer of the callback is not looked at. *)
Definition default_one (e : string * ArgumentDefinition) (p : CLIParser) : CLIParser :=
  if negb (bool_decide (is_Some (parsed_arguments_ p !! e.1))) && negb (bool_decide (default_value e.2 = ""%string))
  then match call e.2 (default_value e.2) p with
       | (p', Some (Ok _)) => record_value e.1 (default_value e.2) p'
       | (p', _) => p'
       end
  else p.
Definition processDefaultValues (p : CLIParser) : CLIParser :=
  foldl (fun q e => default_one e q) p (arguments_ p).

(** [parse]. *)
Definition getopt : Type :=
  list (Z * bool) -> list option_ -> list string -> list (Z * option string) * list string.

Definition parse (getopt_long : getopt) (argv : list string) (p : CLIParser) : CLIParser * ParseResult :=
  let '(options, rest) := getopt_long (short_options p) (long_options p) argv in
  match process_all options p with
  | (p', Some e) => (p', failed e)
  | (p', None) =>
      match checkRequiredArguments p' with
      | Some name => (p', {| success := false; error_message := Some (MissingRequired name); remaining_args := rest |})
      | None => (processDefaultValues p', {| success := true; error_message := None; remaining_args := rest |})
      end
  end.

(** ** Well-formed parsers *)

Definition is_char (c : Z) : Prop := -128 <= c < 128.

Inductive step : CLIParser -> CLIParser -> Prop :=
| step_add def p : is_char (short_name def) -> step p (addArgument def p).1
| step_version cb p : step p (addVersionArgument cb p)
| step_parse getopt_long argv p : step p (parse getopt_long argv p).1.

(** A value that reads as its type. *)
Definition conforms (def : ArgumentDefinition) (v : string) : Prop :=
  match type def with
  | FLAG => v = "true"%string
  | STRING => True
  | INTEGER => is_Some (stoi v)
  | FLOAT => stof v = true
  | BOOLEAN => v ∈ ["true"; "false"; "1"; "0"; "yes"; "no"; "on"; "off"]%string
  end.

Record ok (p : CLIParser) : Prop := {
  ok_names : Forall (fun e => e.1 = long_name e.2 /\ is_char (short_name e.2)) (arguments_ p);
  ok_nodup : NoDup (map fst (arguments_ p));
  ok_short c n : short_to_long_ p !! c = Some n <->
    c <> 0 /\ exists def, (n, def) ∈ arguments_ p /\ short_name def = c;
  ok_typed n v : parsed_arguments_ p !! n = Some v ->
    exists def, (n, def) ∈ arguments_ p /\ (conforms def v \/ v = default_value def)
}.

Lemma find_argument_elem n def p : ok p -> (n, def) ∈ arguments_ p <-> find n p = Some def.
Proof.
  intros [_ Hd _ _]. unfold find. induction (arguments_ p) as [|[m d] l IH]; simpl in *; [split; [by intros ?%elem_of_nil|done]|].
  apply NoDup_cons in Hd as [Hm Hd]. rewrite elem_of_cons. destruct (String.eqb_spec m n) as [->|Hne]; simpl.
  - split; [intros [[= <-]|Hin]; [done|]|intros [= <-]; by left].
    destruct Hm. apply list_elem_of_fmap. by exists (n, def).
  - rewrite <- IH by done. split; [intros [[= -> _]|?]; done|by right].
Qed.

Lemma insert_sorted_perm {A} (e : string * A) l : insert_sorted e l ≡ₚ e :: l.
Proof. induction l as [|e' l IH]; simpl; [done|]. destruct (String.ltb _ _); [done|]. rewrite IH. by constructor. Qed.

Lemma find_None n p : ~ is_Some (find n p) -> n ∉ map fst (arguments_ p).
Proof.
  intros Hn ([m d] & -> & Hin)%list_elem_of_fmap. apply Hn. unfold find.
  destruct (List.find _ _) as [[m' d']|] eqn:E; [by eexists|]. exfalso.
  apply list_elem_of_In in Hin. apply (List.find_none _ _ E) in Hin.
  simpl in Hin. by rewrite String.eqb_refl in Hin.
Qed.

Lemma addArgument_ok def p : is_char (short_name def) -> ok p -> ok (addArgument def p).1.
Proof.
  intros Hc Hok. unfold addArgument. case_bool_decide as Hne; [done|]. case_bool_decide as Hf; [done|].
  destruct (negb (short_name def =? 0) && _) eqn:Es; [done|]. apply find_None in Hf.
  destruct Hok as [Hn Hd Hs Ht]. split; simpl.
  - rewrite insert_sorted_perm. by constructor.
  - rewrite insert_sorted_perm. by constructor.
  - intros c n. setoid_rewrite insert_sorted_perm. setoid_rewrite elem_of_cons.
    destruct (Z.eqb_spec (short_name def) 0) as [E0|E0]; simpl in Es.
    + rewrite Hs. split; [intros (? & d & ? & ?); split; [done|]; eauto|].
      intros (Hc0 & d & [[= -> ->]|?] & ?); [congruence|eauto].
    + apply bool_decide_eq_false in Es. destruct (decide (short_name def = c)) as [<-|Hx].
      * rewrite lookup_insert_eq. split; [intros [= <-]; split; [done|]; eauto|].
        intros (_ & d & [[= -> _]|Hin] & Hd'); [done|]. destruct Es. rewrite <- Hd'.
        eexists. apply Hs. split; [congruence|eauto].
      * rewrite lookup_insert_ne, Hs by done. split; [intros (? & d & ? & ?); split; [done|]; eauto|].
        intros (? & d & [[= -> ->]|?] & ?); [congruence|eauto].
  - intros n v Hv. destruct (Ht n v Hv) as (d & ? & ?). exists d. rewrite insert_sorted_perm. split; [by right|done].
Qed.

Lemma set_world_ok w p : ok p -> ok (set_world w p).
Proof. by intros []. Qed.

Lemma record_ok n v def p : ok p -> (n, def) ∈ arguments_ p -> conforms def v \/ v = default_value def ->
  ok (record_value n v p).
Proof.
  intros [Hn Hd Hs Ht] Hin Hv. split; simpl; try done. intros m x.
  destruct (decide (n = m)) as [->|Hne]; [rewrite lookup_insert_eq; intros [= <-]; eauto|].
  rewrite lookup_insert_ne by done. apply Ht.
Qed.

Lemma call_inv def v p p' r : call def v p = (p', r) -> exists w, p' = set_world w p.
Proof.
  unfold call. destruct (callback def); [|intros [= <- _]; exists (world p); by destruct p].
  destruct (_ v (world p)) as [w x]. intros [= <- _]. by exists w.
Qed.

Lemma validate_conforms def v : validateArgumentValue def v = true -> (type def = FLAG -> v = "true"%string) -> conforms def v.
Proof.
  unfold validateArgumentValue, conforms, is_boolean. destruct (type def); auto.
  - intros H _. by apply bool_decide_eq_true in H.
  - intros H _. by apply bool_decide_eq_true in H.
Qed.

Lemma processOption_ok c a p p' r : processOption c a p = (p', r) -> ok p -> ok p' /\ arguments_ p' = arguments_ p.
Proof.
  intros E Hok. unfold processOption in E. destruct (option_name c p) as [n|e]; [|by simplify_eq].
  destruct (find n p) as [def|] eqn:Ef; [|by simplify_eq]. apply find_argument_elem in Ef; [|done].
  destruct (if bool_decide _ then _ else a) as [v|] eqn:Ev; [|by simplify_eq].
  destruct (validateArgumentValue def v) eqn:Eval; simpl in E; [|by simplify_eq].
  destruct (call def v p) as [q x] eqn:Ec. apply call_inv in Ec as [w ->].
  assert (Hw : ok (set_world w p)) by by apply set_world_ok.
  assert (Hr : ok (record_value n v (set_world w p))).
  { eapply record_ok; [done|exact Ef|]. left. apply validate_conforms; [done|].
    intros Hf. rewrite bool_decide_eq_true_2 in Ev by done. congruence. }
  destruct x as [[[]|]|]; by simplify_eq.
Qed.

Lemma process_all_ok l : forall p p' r, process_all l p = (p', r) -> ok p -> ok p' /\ arguments_ p' = arguments_ p.
Proof.
  induction l as [|[c a] l IH]; intros p p' r E Hok; simpl in E; [by simplify_eq|].
  destruct (processOption c a p) as [q [e|]] eqn:Ep; apply processOption_ok in Ep as [Hq Ha]; try done; [by simplify_eq|].
  destruct (IH _ _ _ E Hq). split; [done|congruence].
Qed.

Lemma default_one_ok e p : e ∈ arguments_ p -> ok p -> ok (default_one e p) /\ arguments_ (default_one e p) = arguments_ p.
Proof.
  intros He Hok. unfold default_one. destruct (_ && _); [|done].
  destruct (call e.2 (default_value e.2) p) as [q x] eqn:Ec. apply call_inv in Ec as [w ->].
  assert (Hw : ok (set_world w p)) by by apply set_world_ok.
  destruct x as [[b|]|]; try done. split; [|done]. destruct e as [n def]. eapply record_ok; [done|exact He|by right].
Qed.

Lemma defaults_ok p : ok p -> ok (processDefaultValues p).
Proof.
  intros Hok. unfold processDefaultValues.
  assert (H : forall l q, ok q -> (forall e, e ∈ l -> e ∈ arguments_ q) -> ok (foldl (fun q e => default_one e q) q l)).
  { induction l as [|e l IH]; intros q Hq Hl; [done|]. simpl.
    destruct (default_one_ok e q) as [Hq' Ha]; [apply Hl; by left|done|].
    apply IH; [done|]. intros x Hx. rewrite Ha. apply Hl. by right. }
  by apply H.
Qed.

Lemma parse_ok g argv p : ok p -> ok (parse g argv p).1.
Proof.
  intros Hok. unfold parse. destruct (g _ _ _) as [options rest].
  destruct (process_all options p) as [q [e|]] eqn:E; apply process_all_ok in E as [Hq _]; try done.
  destruct (checkRequiredArguments q); [done|]. by apply defaults_ok.
Qed.

Lemma step_parser_ok p p' : step p p' -> ok p -> ok p'.
Proof. destruct 1; [by apply addArgument_ok|by apply addArgument_ok|apply parse_ok]. Qed.

Lemma create_ok w : ok (create w).
Proof.
  apply addArgument_ok; [done|]. split; simpl; try done; [by constructor|].
  intros c n. rewrite lookup_empty. split; [done|]. by intros (_ & d & ?%elem_of_nil & _).
Qed.

Lemma reachable_parser_ok w p : rtc step (create w) p -> ok p.
Proof.
  assert (H : forall q q', rtc step q q' -> ok q -> ok q').
  { induction 1 as [|q1 q2 q3 Hs _ IH]; [done|]. intros Hq. by apply IH, (step_parser_ok _ _ Hs). }
  intros Hp. by eapply H, create_ok.
Qed.

Lemma defaults_keep p n : is_Some (parsed_arguments_ p !! n) -> is_Some (parsed_arguments_ (processDefaultValues p) !! n).
Proof.
  unfold processDefaultValues. generalize (arguments_ p). intros l. revert p.
  induction l as [|e l IH]; intros p Hp; [done|]. simpl. apply IH. unfold default_one.
  destruct (_ && _); [|done]. destruct (call e.2 (default_value e.2) p) as [q x] eqn:Ec.
  apply call_inv in Ec as [w ->]. destruct x as [[b|]|]; try done. simpl.
  destruct (decide (e.1 = n)) as [->|]; [rewrite lookup_insert_eq; by eexists|by rewrite lookup_insert_ne].
Qed.

(** C32: The parser is well typed.  Whatever arguments are defined and however often it
    parses, in the middle of a failed parse too, each value it holds belongs to a defined
    argument and reads as that argument's type, or is its default; after a parse that
    succeeds, each required argument has one. *)
Theorem parsed_values_typed w p (H : rtc step (create w) p) :
  (forall n v, parsed_arguments_ p !! n = Some v ->
     exists def, find n p = Some def /\ (conforms def v \/ v = default_value def)) /\
  (forall g argv n def, success (parse g argv p).2 = true -> find n p = Some def -> required def = true ->
     is_Some (parsed_arguments_ (parse g argv p).1 !! n)).
Proof.
  apply reachable_parser_ok in H as Hok. split.
  - intros n v Hv. destruct (ok_typed _ Hok n v Hv) as (def & Hd & ?). exists def. by rewrite <- find_argument_elem.
  - intros g argv n def. unfold parse. destruct (g _ _ _) as [options rest].
    destruct (process_all options p) as [q [e|]] eqn:E; [done|]. apply process_all_ok in E as [Hq Ha]; [|done].
    destruct (checkRequiredArguments q) eqn:Er; [done|]. intros _ Hf Hr.
    assert (Hin : is_Some (parsed_arguments_ q !! n)).
    { apply find_argument_elem in Hf; [|done]. rewrite <- Ha in Hf. unfold checkRequiredArguments in Er.
      destruct (List.find _ _) eqn:Ef; [done|]. apply list_elem_of_In in Hf.
      apply (List.find_none _ _ Ef) in Hf. simpl in Hf. rewrite Hr in Hf. simpl in Hf.
      by case_bool_decide. }
    by apply defaults_keep.
Qed.

(** An option reaches the argument it was defined for: the value that
    [buildGetoptStructures] gives a long option, and the letter of a short one as [getopt_long]
    returns it (an [unsigned char]), are turned back by [processOption] into the name of that
    argument. *)
Theorem option_dispatch w p i n def (H : rtc step (create w) p)
    (Hi : arguments_ p !! i = Some (n, def)) (Hsize : Z.of_nat i < 2 ^ 31 - 1000) :
  option_name (val (build_long i def)) p = inl n /\
  (short_name def <> 0 -> option_name (short_name def mod 256) p = inl n).
Proof.
  apply reachable_parser_ok in H as Hok.
  assert (Hin : (n, def) ∈ arguments_ p) by by eapply list_elem_of_lookup_2.
  assert (Hc : is_char (short_name def)).
  { pose proof (ok_names _ Hok) as Hn. rewrite Forall_forall in Hn. by apply Hn in Hin as [_ ?]. }
  assert (Hs : short_name def <> 0 -> short_to_long_ p !! short_name def = Some n).
  { intros Hne. apply (ok_short _ Hok). eauto. }
  unfold is_char in Hc. unfold option_name, build_long. cbn [val]. split.
  - destruct (Z.eqb_spec (short_name def) 0) as [E0|E0].
    + rewrite i32_small by lia. destruct (Z.leb_spec 1000 (1000 + Z.of_nat i)); [|lia].
      replace (Z.to_nat _) with i by lia. by rewrite Hi.
    + rewrite i32_small by lia. destruct (Z.leb_spec 1000 (short_name def)); [lia|].
      replace (as_char (short_name def)) with (short_name def); [by rewrite Hs|].
      unfold as_char. rewrite Z.mod_small; lia.
  - intros Hne. pose proof (Z.mod_pos_bound (short_name def) 256 ltac:(lia)).
    destruct (Z.leb_spec 1000 (short_name def mod 256)); [lia|].
    replace (as_char (short_name def mod 256)) with (short_name def); [by rewrite Hs|].
    unfold as_char. rewrite Zplus_mod_idemp_l, Z.mod_small; lia.
Qed.
End Parser.

(** * A server's options *)
Module CliExample.
Definition logged (name : string) : string -> exec (list string) bool :=
  fun v w => (w ++ [name +:+ "=" +:+ v], Ok true).
Definition refuse (_ : string) : exec (list string) bool := fun w => (w, Ok false).

Definition port : ArgumentDefinition := {|
  long_name := "port"; short_name := 112; type := INTEGER; required := true; description := "";
  default_value := ""; group := "General"; callback := Some (logged "port") |}.
Definition tls : ArgumentDefinition := {|
  long_name := "tls"; short_name := 0; type := BOOLEAN; required := false; description := "";
  default_value := "maybe"; group := "General"; callback := Some refuse |}.

Definition no_float (_ : string) : bool := false.
Definition server : CLIParser := (addArgument tls (addArgument port (create [])).1).1.

(** [getopt_long] on "-p 9000x": the letter and its argument; on nothing: nothing. *)
Definition p_9000x : getopt := fun _ _ _ => ([(112, Some "9000x"%string)], []).
Definition nothing : getopt := fun _ _ _ => ([], []).

Definition parsed : CLIParser := (parse no_float p_9000x ["-p"; "9000x"]%string server).1.

Lemma parsed_reachable : rtc (step no_float) (create []) parsed.
Proof.
  apply (rtc_l _ _ (addArgument port (create [])).1); [by apply step_add|].
  apply (rtc_l _ _ server); [by apply step_add|]. apply rtc_once, step_parse.
Qed.

(** [std::stoi] reads the digits and leaves the rest, so "9000x" passes for an integer; and the
    default of [tls], which its own callback refuses and which is no boolean, is recorded. *)
Lemma parsed_values_typed_witness :
  parsed_arguments_ parsed !! "port"%string = Some "9000x"%string /\
  parsed_arguments_ parsed !! "tls"%string = Some "maybe"%string /\
  exists def, find "tls" parsed = Some def /\ (conforms no_float def "maybe" \/ "maybe"%string = default_value def).
Proof.
  split; [reflexivity|]. split; [reflexivity|].
  apply (parsed_values_typed no_float [] parsed parsed_reachable). reflexivity.
Defined.

Lemma option_dispatch_witness :
  arguments_ parsed !! 2%nat = Some ("tls"%string, tls) /\ option_name 1002 parsed = inl "tls"%string.
Proof.
  split; [reflexivity|].
  apply (option_dispatch no_float [] parsed 2 "tls" tls parsed_reachable); reflexivity.
Defined.

(** A second parse without the required option succeeds: the values of the first are still
    there. *)
Lemma required_survives : success (parse no_float nothing [] server).2 = false /\
  success (parse no_float nothing [] parsed).2 = true.
Proof. by vm_compute. Qed.
End CliExample.
