(* ===== verification/ServiceIdentity.v ===== *)
(** The identity of a server process (src/common/utils/service_identity.hpp,
    service_identity.cpp): where each field comes from, the texts that replies carry, and the
    single initialisation.

    What the process reads from the outside (environment, host name, process id, the clock in
    milliseconds, the random suffix) is a record. *)
From S2P Require Import Prelude Text.
Open Scope Z_scope.

Record ServiceIdentity := {
  service_name : string; instance_id : string; cluster_id : string; region : string;
  platform : string; version : string; startup_time : Z
}.

(** Member initialisers; [startup_time] has none, and is not read before [initialize]. *)
Definition no_identity : ServiceIdentity := {|
  service_name := ""; instance_id := ""; cluster_id := ""; region := ""; platform := ""; version := "";
  startup_time := 0 |}.

Definition dash (l : list string) : string := String.concat "-" l.

Definition get_device_id (i : ServiceIdentity) : string := dash [service_name i; cluster_id i; instance_id i].
Definition get_platform_info (i : ServiceIdentity) : string := dash [platform i; region i; "server"%string].
Definition get_full_identity (i : ServiceIdentity) : string :=
  service_name i +:+ "/" +:+ cluster_id i +:+ "/" +:+ instance_id i +:+ "@" +:+ region i.

Record ServiceIdentityConfig := {
  c_service_name : string; c_cluster_id : string; c_region : string; c_version : string;
  auto_generate_instance_id : bool; custom_instance_id : string;
  env_service_name : string; env_cluster_id : string; env_region : string; env_instance_id : string
}.

(** The defaults, with the name [initializeFromEnv] sets. *)
Definition named_config (name : string) : ServiceIdentityConfig := {|
  c_service_name := name; c_cluster_id := "default"; c_region := "local"; c_version := "1.0.0";
  auto_generate_instance_id := true; custom_instance_id := "";
  env_service_name := "SERVICE_NAME"; env_cluster_id := "CLUSTER_ID"; env_region := "REGION";
  env_instance_id := "INSTANCE_ID" |}.

Record surroundings := {
  getenv : string -> option string;
  hostname : string;
  pid : Z;
  now_ms : Z;
  random_suffix : Z   (* 1000 to 9999 *)
}.

Record Manager := { initialized_ : bool; identity_ : ServiceIdentity; runtime_info_ : gmap string string }.
Definition start : Manager := {| initialized_ := false; identity_ := no_identity; runtime_info_ := ∅ |}.

Definition getEnvVar (o : surroundings) (name dflt : string) : string := default dflt (getenv o name).

Definition generateInstanceId (o : surroundings) : string :=
  dash [hostname o; dec (pid o); dec (now_ms o); dec (random_suffix o)].

(** On Linux. *)
Definition detectPlatform : string := "linux-x64".

Definition choose_instance (o : surroundings) (config : ServiceIdentityConfig) : string :=
  if auto_generate_instance_id config
  then let env := getEnvVar o (env_instance_id config) "" in
       if bool_decide (env = ""%string) then generateInstanceId o else env
  else custom_instance_id config.

Definition make_identity (o : surroundings) (config : ServiceIdentityConfig) : ServiceIdentity := {|
  service_name := getEnvVar o (env_service_name config) (c_service_name config);
  instance_id := choose_instance o config;
  cluster_id := getEnvVar o (env_cluster_id config) (c_cluster_id config);
  region := getEnvVar o (env_region config) (c_region config);
  platform := detectPlatform;
  version := c_version config;
  startup_time := u64 (now_ms o) |}.

Definition initialize (o : surroundings) (config : ServiceIdentityConfig) (m : Manager) : Manager * bool :=
  if initialized_ m then (m, true)
  else
    let i := make_identity o config in
    if bool_decide (service_name i = ""%string) || bool_decide (instance_id i = ""%string)
    then ({| initialized_ := false; identity_ := i; runtime_info_ := runtime_info_ m |}, false)
    else ({| initialized_ := true; identity_ := i; runtime_info_ := runtime_info_ m |}, true).

Definition initializeFromEnv (o : surroundings) (name : string) (m : Manager) : Manager * bool :=
  initialize o (named_config name) m.

Definition getServiceIdentity (m : Manager) : ServiceIdentity := identity_ m.
Definition isInitialized (m : Manager) : bool := initialized_ m.
Definition getDeviceId (m : Manager) : string :=
  if initialized_ m then get_device_id (identity_ m) else "unknown-device".
Definition getPlatformInfo (m : Manager) : string :=
  if initialized_ m then get_platform_info (identity_ m) else "unknown-platform".
Definition getFullIdentity (m : Manager) : string :=
  if initialized_ m then get_full_identity (identity_ m) else "uninitialized-service".

Definition updateServiceInfo (info : gmap string string) (m : Manager) : Manager :=
  {| initialized_ := initialized_ m; identity_ := identity_ m; runtime_info_ := info ∪ runtime_info_ m |}.

(** Unsigned: [now - startup_time] in 64 bits. *)
Definition getUptimeSeconds (o : surroundings) (m : Manager) : Z :=
  if initialized_ m then u64 (now_ms o - startup_time (identity_ m)) / 1000 else 0.

(** * What the callers rely on *)

Inductive step : Manager -> Manager -> Prop :=
| step_initialize o config m : step m (initialize o config m).1
| step_update info m : step m (updateServiceInfo info m).

(** Once set, an identity stays; whatever the later configurations are, they report success. *)
Lemma identity_stays m m' : rtc step m m' -> initialized_ m = true ->
  initialized_ m' = true /\ identity_ m' = identity_ m.
Proof.
  induction 1 as [|m1 m2 m3 Hs _ IH]; intros Hi; [done|].
  assert (H2 : initialized_ m2 = true /\ identity_ m2 = identity_ m1).
  { destruct Hs as [o config m|info m]; simpl; [unfold initialize; by rewrite Hi|done]. }
  destruct H2 as [H2 E2]. rewrite <- E2. by apply IH.
Qed.

(** A server process has one identity.  An initialisation that succeeds fixes the device
    and platform texts for the life of the process: they are the environment's values where
    it has them (also an empty cluster or region), else the configuration's; the device text
    is the service, the cluster and a non-empty instance joined by dashes; later calls answer
    true and change nothing; and the uptime counts from that moment while the clock does not
    go back. *)
Theorem identity_fixed o config m0 m m' (Hm : initialized_ m0 = false) (Hinit : initialize o config m0 = (m, true))
    (Hlater : rtc step m m') :
  let i := make_identity o config in
  isInitialized m' = true /\ getServiceIdentity m' = i /\ getDeviceId m' = get_device_id i /\
  getPlatformInfo m' = get_platform_info i /\ service_name i <> ""%string /\ instance_id i <> ""%string /\
  (forall o' config', initialize o' config' m' = (m', true)) /\
  (forall o', 0 <= now_ms o <= now_ms o' -> now_ms o' < 2 ^ 64 ->
     getUptimeSeconds o' m' = (now_ms o' - now_ms o) / 1000).
Proof.
  unfold initialize in Hinit. rewrite Hm in Hinit. destruct (_ || _) eqn:Ev; [done|]. injection Hinit as <-.
  apply orb_false_elim in Ev as [Es Ei]. apply bool_decide_eq_false in Es, Ei.
  destruct (identity_stays _ _ Hlater eq_refl) as [Hi Hid]. simpl in Hid.
  unfold isInitialized, getServiceIdentity, getDeviceId, getPlatformInfo, getUptimeSeconds, initialize.
  rewrite Hi, Hid. split_and!; try done. intros o' Ho Hlt. simpl. f_equal. unfold u64.
  rewrite Zminus_mod_idemp_r, Z.mod_small; lia.
Qed.

Module IdentityExample.
Definition host : surroundings := {|
  getenv := fun k => if String.eqb k "REGION" then Some ""%string else None;
  hostname := "box"; pid := 41; now_ms := 1700000000000; random_suffix := 1234 |}.

Lemma identity_fixed_witness :
  let m := (initializeFromEnv host "gateway" start).1 in
  getDeviceId m = "gateway-default-box-41-1700000000000-1234"%string /\
  getPlatformInfo m = "linux-x64--server"%string /\
  initialize host (named_config "other") m = (m, true).
Proof.
  split; [reflexivity|]. split; [reflexivity|].
  apply (identity_fixed host (named_config "gateway") start (initializeFromEnv host "gateway" start).1
    (initializeFromEnv host "gateway" start).1); [reflexivity|reflexivity|apply rtc_refl].
Defined.

(** A refused initialisation leaves its fields behind, which [getServiceIdentity] shows. *)
Lemma refused_leaves_identity :
  initialize host (named_config "") start = ({| initialized_ := false;
    identity_ := make_identity host (named_config ""); runtime_info_ := ∅ |}, false).
Proof. reflexivity. Qed.
End IdentityExample.
