(* ===== verification/SignalHandler.v ===== *)
(** Signals (src/common/utils/signal_handler.hpp): registration, the handler that only sets
    two atomics, the wait for a shutdown signal and the callbacks it runs.

    [cb] names a callback.  The operating system: the disposition of each signal, and
    [valid s], whether [std::signal] accepts [s].  A signal can arrive between any two steps of
    a thread, also between the parts of [waitForShutdown]. *)
From S2P Require Import Prelude Text.
Open Scope Z_scope.

Definition SIGHUP : Z := 1.
Definition SIGINT : Z := 2.
Definition SIGQUIT : Z := 3.
Definition SIGUSR1 : Z := 10.
Definition SIGUSR2 : Z := 12.
Definition SIGPIPE : Z := 13.
Definition SIGTERM : Z := 15.

Inductive disposition := Handled | Ignored | Dfl.

Section Signals.
Context {cb : Type} (valid : Z -> bool).

Record SignalHandler := {
  shutdown_requested_ : bool;
  last_signal_ : Z;
  callbacks_ : gmap Z (list cb);
  signal_names_ : gmap Z string;
  dispositions : gmap Z disposition   (* of the process *)
}.

Definition start : SignalHandler := {|
  shutdown_requested_ := false; last_signal_ := 0; callbacks_ := ∅; signal_names_ := ∅; dispositions := ∅ |}.

Definition getDefaultSignalName (signal : Z) : string :=
  if signal =? SIGINT then "SIGINT" else if signal =? SIGTERM then "SIGTERM"
  else if signal =? SIGQUIT then "SIGQUIT" else if signal =? SIGHUP then "SIGHUP"
  else if signal =? SIGUSR1 then "SIGUSR1" else if signal =? SIGUSR2 then "SIGUSR2"
  else ("SIG" +:+ to_string signal).

Definition of_signal (signal : Z) (h : SignalHandler) : list cb := default [] (callbacks_ h !! signal).

Definition registerSignalHandler (signal : Z) (callback : cb) (name : string) (h : SignalHandler) : SignalHandler * bool :=
  let names := <[signal := if bool_decide (name = ""%string) then getDefaultSignalName signal else name]> (signal_names_ h) in
  if valid signal
  then ({| shutdown_requested_ := shutdown_requested_ h; last_signal_ := last_signal_ h;
           callbacks_ := <[signal := of_signal signal h ++ [callback]]> (callbacks_ h);
           signal_names_ := names; dispositions := <[signal := Handled]> (dispositions h) |}, true)
  else ({| shutdown_requested_ := shutdown_requested_ h; last_signal_ := last_signal_ h;
           callbacks_ := <[signal := of_signal signal h]> (callbacks_ h);   (* pushed and popped *)
           signal_names_ := names; dispositions := dispositions h |}, false).

Definition ignore_pipe (h : SignalHandler) : SignalHandler := {|
  shutdown_requested_ := shutdown_requested_ h; last_signal_ := last_signal_ h; callbacks_ := callbacks_ h;
  signal_names_ := signal_names_ h; dispositions := <[SIGPIPE := Ignored]> (dispositions h) |}.

Definition registerGracefulShutdown (callback : cb) (h : SignalHandler) : SignalHandler * bool :=
  let '(h1, b1) := registerSignalHandler SIGINT callback "SIGINT" h in
  let '(h2, b2) := registerSignalHandler SIGTERM callback "SIGTERM" h1 in
  let '(h3, b3) := registerSignalHandler SIGQUIT callback "SIGQUIT" h2 in
  (ignore_pipe h3, b1 && b2 && b3).

Definition is_shutdown (signal : Z) : bool :=
  (signal =? SIGINT) || (signal =? SIGTERM) || (signal =? SIGQUIT).

(** [signalHandler]. *)
Definition signalHandler (signal : Z) (h : SignalHandler) : SignalHandler := {|
  shutdown_requested_ := is_shutdown signal || shutdown_requested_ h; last_signal_ := signal;
  callbacks_ := callbacks_ h; signal_names_ := signal_names_ h; dispositions := dispositions h |}.

(** A signal arrives; without a handler, it is ignored or ends the process, and nothing here
    changes. *)
Definition deliver (h : SignalHandler) (signal : Z) : SignalHandler :=
  match dispositions h !! signal with Some Handled => signalHandler signal h | _ => h end.

Definition isShutdownRequested (h : SignalHandler) : bool := shutdown_requested_ h.

(** [waitForShutdown], from the end of its loop: [signal] is what [last_signal_] held when it was
    loaded, [h] the handler when the callbacks were copied. *)
Definition run_callbacks (signal : Z) (h : SignalHandler) : list (cb * Z * string) :=
  map (fun c => (c, signal, getDefaultSignalName signal)) (of_signal signal h).
(** Signals [l1] arrive before the load, [l2] before the copy. *)
Definition waitForShutdown (l1 l2 : list Z) (h : SignalHandler) : option (list (cb * Z * string)) :=
  let h1 := foldl deliver h l1 in
  if isShutdownRequested h1 then Some (run_callbacks (last_signal_ h1) (foldl deliver h1 l2)) else None.

Definition reset (h : SignalHandler) : SignalHandler := {|
  shutdown_requested_ := false; last_signal_ := last_signal_ h; callbacks_ := callbacks_ h;
  signal_names_ := signal_names_ h; dispositions := dispositions h |}.

Definition cleanup (h : SignalHandler) : SignalHandler := {|
  shutdown_requested_ := shutdown_requested_ h; last_signal_ := last_signal_ h; callbacks_ := ∅;
  signal_names_ := ∅; dispositions := (const Dfl <$> callbacks_ h) ∪ dispositions h |}.

Definition getRegisteredSignals (h : SignalHandler) : gset Z := dom (callbacks_ h).

(** [ScopedSignalHandler]. *)
Definition scoped (callback : cb) (h : SignalHandler) : SignalHandler := (registerGracefulShutdown callback h).1.
Definition unscoped (h : SignalHandler) : SignalHandler := cleanup h.

(** ** Delivery touches the two atomics only *)

Lemma deliver_fields h s : callbacks_ (deliver h s) = callbacks_ h /\ dispositions (deliver h s) = dispositions h.
Proof. unfold deliver. by destruct (dispositions h !! s) as [[]|]. Qed.

Lemma delivers_fields l h : callbacks_ (foldl deliver h l) = callbacks_ h /\
  dispositions (foldl deliver h l) = dispositions h.
Proof.
  revert h. induction l as [|s l IH]; intros h; [done|]. simpl.
  destruct (IH (deliver h s)) as [-> ->]. apply deliver_fields.
Qed.

(** Shutdown signals only: the flag, and the last of them. *)
Lemma shutdown_signals l h : Forall (fun s => is_shutdown s = true /\ dispositions h !! s = Some Handled) l ->
  match last l with
  | Some s => isShutdownRequested (foldl deliver h l) = true /\ last_signal_ (foldl deliver h l) = s
  | None => foldl deliver h l = h
  end.
Proof.
  induction l as [|s l IH] using rev_ind; intros Hl; [done|].
  rewrite last_snoc, foldl_app. simpl. apply Forall_app in Hl as [Hl [[Hs Hd] _]%Forall_cons].
  destruct (delivers_fields l h) as [_ E]. rewrite <- E in Hd. generalize dependent (foldl deliver h l).
  intros h' _ Hd _. unfold deliver. rewrite Hd. unfold isShutdownRequested. simpl. by rewrite Hs.
Qed.

Lemma register_spec signal c n h s : valid signal = true ->
  (registerSignalHandler signal c n h).2 = true /\
  of_signal s (registerSignalHandler signal c n h).1 =
    (if decide (signal = s) then of_signal signal h ++ [c] else of_signal s h) /\
  dispositions (registerSignalHandler signal c n h).1 !! s =
    (if decide (signal = s) then Some Handled else dispositions h !! s).
Proof.
  intros Hv. unfold registerSignalHandler. rewrite Hv. simpl. split; [done|]. unfold of_signal. simpl.
  destruct (decide (signal = s)) as [->|Hne]; [by rewrite !lookup_insert_eq|by rewrite !lookup_insert_ne].
Qed.

Lemma graceful_spec callback h :
  valid SIGINT && valid SIGTERM && valid SIGQUIT = true ->
  of_signal SIGINT h = [] -> of_signal SIGTERM h = [] -> of_signal SIGQUIT h = [] ->
  (registerGracefulShutdown callback h).2 = true /\
  forall s, is_shutdown s = true ->
    dispositions (registerGracefulShutdown callback h).1 !! s = Some Handled /\
    callbacks_ (registerGracefulShutdown callback h).1 !! s = Some [callback].
Proof.
  intros [[V1 V2]%andb_prop V3]%andb_prop N1 N2 N3. unfold registerGracefulShutdown.
  pose proof (fun h s => register_spec SIGINT callback "SIGINT" h s V1) as R1.
  pose proof (fun h s => register_spec SIGTERM callback "SIGTERM" h s V2) as R2.
  pose proof (fun h s => register_spec SIGQUIT callback "SIGQUIT" h s V3) as R3.
  destruct (registerSignalHandler SIGINT callback "SIGINT" h) as [h1 b1] eqn:E1.
  destruct (registerSignalHandler SIGTERM callback "SIGTERM" h1) as [h2 b2] eqn:E2.
  destruct (registerSignalHandler SIGQUIT callback "SIGQUIT" h2) as [h3 b3] eqn:E3.
  pose proof (fun s => R1 h s) as S1; rewrite E1 in S1. pose proof (fun s => R2 h1 s) as S2; rewrite E2 in S2.
  pose proof (fun s => R3 h2 s) as S3; rewrite E3 in S3. clear R1 R2 R3 E1 E2 E3. simpl in *.
  destruct (S1 0) as [-> _], (S2 0) as [-> _], (S3 0) as [-> _]. split; [done|].
  assert (Hc : forall s l, of_signal s h3 = [l] -> callbacks_ h3 !! s = Some [l]).
  { intros s l. unfold of_signal. by destruct (callbacks_ h3 !! s) as [x|]; simpl; [intros ->|]. }
  intros s Hs.
  assert (Hp : SIGPIPE <> s) by (intros <-; done). rewrite lookup_insert_ne by done.
  destruct (S3 s) as (_ & C3 & D3), (S2 s) as (_ & C2 & D2), (S1 s) as (_ & C1 & D1).
  unfold is_shutdown in Hs. apply orb_prop in Hs as [[Hs|Hs]%orb_prop|Hs]; apply Z.eqb_eq in Hs; subst s; simpl in *.
  - split; [congruence|]. apply Hc. by rewrite C3, C2, C1, N1.
  - split; [congruence|]. apply Hc. destruct (S1 SIGTERM) as (_ & C1' & _). simpl in C1'. by rewrite C3, C2, C1', N2.
  - split; [congruence|]. apply Hc. destruct (S2 SIGQUIT) as (_ & C2' & _), (S1 SIGQUIT) as (_ & C1' & _).
    simpl in C1', C2'. by rewrite C3, C2', C1', N3.
Qed.

(** The wait on a handler that has one callback for each shutdown signal. *)
Lemma wait_runs callback h3 l1 l2 s :
  (forall s, is_shutdown s = true -> dispositions h3 !! s = Some Handled /\
    callbacks_ h3 !! s = Some [callback]) ->
  Forall (fun s => is_shutdown s = true) l1 -> last l1 = Some s ->
  waitForShutdown l1 l2 h3 = Some [(callback, s, getDefaultSignalName s)].
Proof.
  intros Hs Hl1 Hlast. unfold waitForShutdown. pose proof (shutdown_signals l1 h3) as Hd.
  rewrite Hlast in Hd. destruct Hd as [Hr Hl].
  { eapply Forall_impl; [exact Hl1|]. simpl. intros x Hx. by destruct (Hs x Hx). }
  rewrite Hr, Hl. f_equal. unfold run_callbacks.
  assert (Hb : is_shutdown s = true).
  { rewrite Forall_forall in Hl1. apply Hl1. by apply last_Some_elem_of. }
  unfold of_signal. destruct (delivers_fields l2 (foldl deliver h3 l1)) as [-> _].
  destruct (delivers_fields l1 h3) as [-> _]. destruct (Hs s Hb) as [_ Hc]. rewrite Hc. done.
Qed.

(** C33: Graceful shutdown.  After [registerGracefulShutdown] on a handler with no callbacks for
    the three signals, whatever shutdown signals arrive and when, as long as they are the only
    handled ones that do, the wait ends with the first of them and the callback runs exactly
    once, for the last signal that arrived before the load, under its name. *)
Theorem graceful_shutdown callback h l1 l2 s
    (Hvalid : valid SIGINT && valid SIGTERM && valid SIGQUIT = true)
    (Hnone : of_signal SIGINT h = [] /\ of_signal SIGTERM h = [] /\ of_signal SIGQUIT h = [])
    (Hl1 : Forall (fun s => is_shutdown s = true) l1)
    (Hlast : last l1 = Some s) :
  (registerGracefulShutdown callback h).2 = true /\
  waitForShutdown l1 l2 (registerGracefulShutdown callback h).1 = Some [(callback, s, getDefaultSignalName s)].
Proof.
  destruct Hnone as (N1 & N2 & N3).
  destruct (graceful_spec callback h Hvalid N1 N2 N3) as [Hok Hs]. split; [done|]. by apply wait_runs.
Qed.
End Signals.

Module SignalExample.
Definition catchable (s : Z) : bool := (1 <=? s) && (s <=? 31) && negb (s =? 9) && negb (s =? 19).

Lemma graceful_shutdown_witness :
  waitForShutdown [SIGINT; SIGTERM] [SIGINT] (registerGracefulShutdown catchable "stop"%string start).1 =
    Some [("stop"%string, SIGTERM, "SIGTERM"%string)].
Proof.
  apply (graceful_shutdown catchable "stop"%string start [SIGINT; SIGTERM] [SIGINT] SIGTERM); try reflexivity.
  - split; [reflexivity|split; reflexivity].
  - repeat constructor.
Defined.

(** With another signal handled, one that arrives after the shutdown signal and before the load
    takes its place: its callbacks run, those of the shutdown do not. *)
Definition with_hangup : SignalHandler :=
  (registerSignalHandler catchable SIGHUP "reload"%string "" (registerGracefulShutdown catchable "stop"%string start).1).1.

Lemma hangup_hides_shutdown :
  waitForShutdown [SIGINT; SIGHUP] [] with_hangup = Some [("reload"%string, SIGHUP, "SIGHUP"%string)] /\
  waitForShutdown [SIGHUP] [] with_hangup = None.
Proof. split; reflexivity. Qed.
End SignalExample.
