(* ===== verification/Coroutine.v ===== *)
(** The coroutines (src/common/utils/coroutine_manager.hpp, coroutine_manager.cpp): frames with
    their promises, [co_await] of a task, of a delay and of a future, the final suspension
    that resumes the continuation, and [schedule].

    A body is the code of a coroutine between its suspension points.  The machine below runs
    the frames the way the compiler and the promise types do; [direct] runs the same body as
    an ordinary function.  They agree, which is what lets Processor and WsHandler take a
    coroutine for its direct-style reading.  One scheduled coroutine at a time: a chain of
    frames has at most one that runs or waits for a timer. *)
From S2P Require Import Prelude.
Open Scope Z_scope.

Section Coroutines.
Context {S V : Type}.

(** [Act]: code that does not suspend.  [Await]: [co_await f()], where the continuation gets
    the value or the exception.  [Delay]: [co_await DelayAwaiter(ms)].  [Future]: [co_await] of
    a [std::future] that is ready or not and will hold the given result. *)
Inductive body :=
| Return (v : V)
| Raise
| Act (f : S -> S * V) (k : V -> body)
| Await (child : body) (k : result V -> body)
| Delay (ms : Z) (k : body)
| Future (is_ready : bool) (r : result V) (k : result V -> body).

(** Where a frame is suspended. *)
Inductive point :=
| Initial (b : body)                            (* [initial_suspend] *)
| Awaiting (child : nat) (k : result V -> body) (* in [Task::await_suspend] *)
| Sleeping (k : body)                           (* in the thread of an awaiter *)
| Final                                         (* [final_suspend] *)
| Active.                                       (* running *)

(** A frame with its promise: [outcome_] is [value] or [exception]. *)
Record frame := { at_ : point; outcome_ : option (result V); continuation_ : option nat }.

(** [frames]: [None] for a destroyed frame.  [running]: the frame that runs and the code before
    it.  [timers]: frames that a detached thread will resume.  [depth]: the calls of
    [handle.resume()] on the stack of the running thread. *)
Record machine := {
  world : S;
  frames : list (option frame);
  running : option (nat * body);
  timers : list nat;
  depth : nat
}.

Definition at_point (i : nat) (p : point) (fs : list (option frame)) : list (option frame) :=
  match fs !! i with
  | Some (Some f) => <[i := Some {| at_ := p; outcome_ := outcome_ f; continuation_ := continuation_ f |}]> fs
  | _ => fs
  end.

(** [return_value] and [unhandled_exception]. *)
Definition set_outcome (i : nat) (r : result V) (fs : list (option frame)) : list (option frame) :=
  match fs !! i with
  | Some (Some f) => <[i := Some {| at_ := Final; outcome_ := Some r; continuation_ := continuation_ f |}]> fs
  | _ => fs
  end.

Definition nothing_runs (m : machine) : machine := {|
  world := world m; frames := frames m; running := None; timers := timers m; depth := 0 |}.

(** [FinalAwaiter::await_suspend] and, in the continuation it transfers to, [await_resume]:
    the promise's result, and the end of the task's lifetime, which destroys the frame. *)
Definition final_suspend (i : nat) (m : machine) : machine :=
  match frames m !! i with
  | Some (Some f) =>
      match continuation_ f with
      | None => nothing_runs m
      | Some c =>
          match frames m !! c with
          | Some (Some g) =>
              match at_ g, outcome_ f with
              | Awaiting _ k, Some r =>
                  {| world := world m; frames := <[i := None]> (at_point c Active (frames m));
                     running := Some (c, k r); timers := timers m; depth := depth m |}
              | _, _ => nothing_runs m
              end
          | _ => nothing_runs m
          end
      end
  | _ => nothing_runs m
  end.

(** The end of a body: the promise, then the final suspension. *)
Definition complete (i : nat) (r : result V) (m : machine) : machine :=
  final_suspend i {| world := world m; frames := set_outcome i r (frames m); running := None;
                     timers := timers m; depth := depth m |}.

(** Suspended in the awaiter of a delay or a future, whose thread will resume it. *)
Definition sleep (i : nat) (k : body) (m : machine) : machine := {|
  world := world m; frames := at_point i (Sleeping k) (frames m); running := None;
  timers := timers m ++ [i]; depth := 0 |}.

Definition goes_on (i : nat) (b : body) (s : S) (m : machine) : machine := {|
  world := s; frames := frames m; running := Some (i, b); timers := timers m; depth := depth m |}.

Definition exec_body (i : nat) (b : body) (m : machine) : machine :=
  match b with
  | Return v => complete i (Ok v) m
  | Raise => complete i Throw m
  | Act f k => let '(s, v) := f (world m) in goes_on i (k v) s m
  | Await child k =>
      (* the task is called: a frame at its initial suspension, not done; [await_suspend] sets
         the continuation and resumes it *)
      let j := length (frames m) in
      {| world := world m;
         frames := at_point i (Awaiting j k) (frames m) ++
                   [Some {| at_ := Active; outcome_ := None; continuation_ := Some i |}];
         running := Some (j, child); timers := timers m; depth := (depth m + 1)%nat |}
  | Delay ms k => if ms =? 0 then goes_on i k (world m) m else sleep i k m
  | Future true r k => goes_on i (k r) (world m) m
  | Future false _ k =>
      (* [await_suspend] moved the future away: [await_resume] finds no state *)
      sleep i (k Throw) m
  end.

(** [None]: nothing is left to do. *)
Definition step (m : machine) : option machine :=
  match running m with
  | Some (i, b) => Some (exec_body i b m)
  | None =>
      match timers m with
      | [] => None
      | i :: rest =>
          match frames m !! i with
          | Some (Some f) =>
              match at_ f with
              | Sleeping k => Some {| world := world m; frames := at_point i Active (frames m);
                                      running := Some (i, k); timers := rest; depth := 1 |}
              | _ => None
              end
          | _ => None
          end
      end
  end.

Fixpoint steps (n : nat) (m : machine) : machine :=
  match n with
  | O => m
  | Datatypes.S n' => match step m with Some m' => steps n' m' | None => m end
  end.

(** [schedule]: the handle is taken out of its task, and a thread of the pool resumes it. *)
Definition schedule (b : body) (s : S) : machine := {|
  world := s; frames := [Some {| at_ := Active; outcome_ := None; continuation_ := None |}];
  running := Some (0%nat, b); timers := []; depth := 1 |}.

(** ** The direct reading *)
Fixpoint direct (b : body) (s : S) : S * result V :=
  match b with
  | Return v => (s, Ok v)
  | Raise => (s, Throw)
  | Act f k => let '(s', v) := f s in direct (k v) s'
  | Await child k => let '(s', r) := direct child s in direct (k r) s'
  | Delay _ k => direct k s
  | Future is_ready r k => direct (k (if is_ready then r else Throw)) s
  end.

(** ** The machine runs the direct reading *)

Lemma steps_add n k m : steps (n + k) m = steps k (steps n m).
Proof.
  revert m. induction n as [|n IH]; intros m; [done|]. simpl. destruct (step m) eqn:E; [apply IH|].
  destruct k; simpl; [done|by rewrite E].
Qed.

Lemma steps_one m m' : step m = Some m' -> steps 1 m = m'.
Proof. simpl. by intros ->. Qed.

Lemma at_point_lookup fs i p f : fs !! i = Some (Some f) ->
  at_point i p fs = <[i := Some {| at_ := p; outcome_ := outcome_ f; continuation_ := continuation_ f |}]> fs.
Proof. unfold at_point. by intros ->. Qed.

(** From a frame that runs a body to the completion of that frame: the frames it made are
    destroyed, the others are as they were. *)
Definition reaches (m : machine) (i : nat) (b : body) : Prop :=
  forall f, frames m !! i = Some (Some f) -> at_ f = Active -> running m = Some (i, b) -> timers m = [] ->
  exists n k d g, at_ g = Active /\ continuation_ g = continuation_ f /\
    steps n m = complete i (direct b (world m)).2
      {| world := (direct b (world m)).1; frames := <[i := Some g]> (frames m) ++ replicate k None;
         running := Some (i, b); timers := []; depth := d |}.

(** The frame runs on, after some steps that made and destroyed frames. *)
Lemma reaches_via n k m m2 i b b2 f f2 :
  steps n m = m2 -> frames m !! i = Some (Some f) -> frames m2 = <[i := Some f2]> (frames m) ++ replicate k None ->
  at_ f2 = Active -> continuation_ f2 = continuation_ f -> running m2 = Some (i, b2) -> timers m2 = [] ->
  direct b (world m) = direct b2 (world m2) -> reaches m2 i b2 -> at_ f = Active ->
  running m = Some (i, b) -> timers m = [] ->
  exists n k d g, at_ g = Active /\ continuation_ g = continuation_ f /\
    steps n m = complete i (direct b (world m)).2
      {| world := (direct b (world m)).1; frames := <[i := Some g]> (frames m) ++ replicate k None;
         running := Some (i, b); timers := []; depth := d |}.
Proof.
  intros Hs Hf Hfr Ha Hc Hr Ht Hd Hre _ _ _.
  assert (Hi : (i < length (frames m))%nat) by (by eapply lookup_lt_Some).
  assert (Hf2 : frames m2 !! i = Some (Some f2)).
  { rewrite Hfr, lookup_app_l by (by rewrite length_insert). by apply list_lookup_insert_eq. }
  destruct (Hre f2 Hf2 Ha Hr Ht) as (n2 & k2 & d & g & Hg & Hgc & E).
  exists (n + n2)%nat, (k + k2)%nat, d, g. split; [done|]. split; [congruence|].
  rewrite steps_add, Hs, E, Hd, Hfr. unfold complete. simpl.
  rewrite insert_app_l by (by rewrite length_insert). rewrite list_insert_insert_eq.
  by rewrite <- (assoc_L (++)), <- replicate_add.
Qed.

(** Asleep in an awaiter, then resumed by its thread. *)
Lemma sleep_resume i k m f : frames m !! i = Some (Some f) -> timers m = [] ->
  step (sleep i k m) = Some {| world := world m;
    frames := <[i := Some {| at_ := Active; outcome_ := outcome_ f; continuation_ := continuation_ f |}]> (frames m);
    running := Some (i, k); timers := []; depth := 1 |}.
Proof.
  intros Hf Ht. assert (Hi : (i < length (frames m))%nat) by (by eapply lookup_lt_Some).
  unfold sleep, step. simpl. rewrite Ht. simpl. rewrite (at_point_lookup _ _ _ _ Hf).
  rewrite list_lookup_insert_eq by done. simpl. f_equal. f_equal.
  erewrite at_point_lookup by (by apply list_lookup_insert_eq). simpl. by rewrite list_insert_insert_eq.
Qed.

(** A child completes: its caller goes on with the result, and its frame is destroyed. *)
Lemma child_completes i r fs k kn c0 fi g w x d :
  fs !! i = Some (Some fi) -> continuation_ g = Some i ->
  complete (length fs) r {| world := w;
    frames := <[length fs := Some g]> (at_point i (Awaiting (length fs) k) fs ++ [c0]) ++ replicate kn None;
    running := x; timers := []; depth := d |} =
  {| world := w;
     frames := <[i := Some {| at_ := Active; outcome_ := outcome_ fi; continuation_ := continuation_ fi |}]> fs
               ++ replicate (Datatypes.S kn) None;
     running := Some (i, k r); timers := []; depth := d |}.
Proof.
  intros Hf Hg. assert (Hi : (i < length fs)%nat) by (by eapply lookup_lt_Some).
  rewrite (at_point_lookup _ _ _ _ Hf). set (fa := <[i := _]> fs).
  assert (Hla : length fa = length fs) by apply length_insert.
  assert (Hfi : fa !! i = Some (Some {| at_ := Awaiting (length fs) k; outcome_ := outcome_ fi; continuation_ := continuation_ fi |}))
    by (by apply list_lookup_insert_eq).
  assert (E1 : <[length fs := Some g]> (fa ++ [c0]) = fa ++ [Some g]).
  { rewrite <- Hla, insert_app_r_alt, Nat.sub_diag by done. done. }
  rewrite E1, <- (assoc_L (++)). simpl.
  assert (Ej : forall o l, (fa ++ o :: l) !! length fs = Some o).
  { intros o l. rewrite <- Hla. by apply list_lookup_middle. }
  assert (Ejn : forall o o' l, <[length fs := o']> (fa ++ o :: l) = fa ++ o' :: l).
  { intros o o' l. rewrite <- Hla, insert_app_r_alt, Nat.sub_diag by done. done. }
  unfold complete, set_outcome, final_suspend. simpl. rewrite Ej. simpl. rewrite Ejn, Ej. simpl. rewrite Hg.
  assert (Ei : forall l, (fa ++ l) !! i = fa !! i) by (intros l; apply lookup_app_l; lia).
  rewrite Ei, Hfi. simpl. f_equal.
  erewrite at_point_lookup by (rewrite Ei; exact Hfi). simpl.
  rewrite insert_app_l by lia.
  unfold fa. rewrite list_insert_insert_eq.
  set (fb := <[i := _]> fs). assert (Hlb : length fb = length fs) by apply length_insert.
  rewrite <- Hlb, insert_app_r_alt, Nat.sub_diag by done. done.
Qed.

(** Running on in the same frame. *)
Lemma goes_on_reaches m i b b2 s f : frames m !! i = Some (Some f) -> at_ f = Active ->
  running m = Some (i, b) -> timers m = [] -> exec_body i b m = goes_on i b2 s m ->
  direct b (world m) = direct b2 s -> reaches (goes_on i b2 s m) i b2 -> reaches m i b.
Proof.
  intros Hf Ha Hr Ht He Hd Hre f' Hf' _ _ _. assert (f' = f) as -> by congruence.
  apply (reaches_via 1 0 m (goes_on i b2 s m) i b b2 f f); try done.
  - apply steps_one. unfold step. by rewrite Hr, He.
  - simpl. by rewrite (list_insert_id _ _ _ Hf), app_nil_r.
Qed.

(** A suspension that a timer ends. *)
Lemma sleep_reaches m i b k f : frames m !! i = Some (Some f) -> at_ f = Active ->
  running m = Some (i, b) -> timers m = [] -> exec_body i b m = sleep i k m ->
  direct b (world m) = direct k (world m) -> (forall m', reaches m' i k) -> reaches m i b.
Proof.
  intros Hf Ha Hr Ht He Hd Hre f' Hf' _ _ _. assert (f' = f) as -> by congruence.
  set (g := {| at_ := Active; outcome_ := outcome_ f; continuation_ := continuation_ f |}).
  apply (reaches_via 2 0 m {| world := world m; frames := <[i := Some g]> (frames m); running := Some (i, k);
                              timers := []; depth := 1 |} i b k f g); try done.
  - change 2%nat with (1 + 1)%nat. rewrite steps_add, (steps_one m (sleep i k m)).
    { apply steps_one. by apply sleep_resume. }
    { unfold step. by rewrite Hr, He. }
  - simpl. by rewrite app_nil_r.
Qed.

(** A child that runs to its end, then the caller. *)
Lemma await_reaches m i child k : (forall m' j, reaches m' j child) -> (forall r m', reaches m' i (k r)) ->
  reaches m i (Await child k).
Proof.
  intros IHc IH fr Hf Ha Hr Ht. set (m1 := exec_body i (Await child k) m).
  set (c0 := {| at_ := Active; outcome_ := None; continuation_ := Some i |}).
  assert (Hla : forall p, length (at_point i p (frames m)) = length (frames m)).
  { intros p. unfold at_point. rewrite Hf. apply length_insert. }
  destruct (IHc m1 (length (frames m)) c0) as (n & kn & d & g & _ & Hg & E); try done.
  { unfold m1. simpl. apply list_lookup_middle. by rewrite Hla. }
  destruct (direct child (world m)) as [s r] eqn:Ed.
  change (world m1) with (world m) in E. rewrite Ed in E. cbn [fst snd] in E.
  change (frames m1) with (at_point i (Awaiting (length (frames m)) k) (frames m) ++ [Some c0]) in E.
  rewrite (child_completes i r (frames m) k kn (Some c0) fr g s _ d Hf Hg) in E.
  set (g' := {| at_ := Active; outcome_ := outcome_ fr; continuation_ := continuation_ fr |}) in E.
  apply (reaches_via (1 + n) (Datatypes.S kn) m {| world := s;
    frames := <[i := Some g']> (frames m) ++ replicate (Datatypes.S kn) None; running := Some (i, k r);
    timers := []; depth := d |} i _ (k r) fr g'); try done.
  - rewrite steps_add, (steps_one m m1) by (unfold step; by rewrite Hr). exact E.
  - simpl. by rewrite Ed.
Qed.

Lemma completes_reaches m i b r : exec_body i b m = complete i r m -> direct b (world m) = (world m, r) -> reaches m i b.
Proof.
  intros He Hd fr Hf Ha Hr Ht. exists 1%nat, 0%nat, (depth m), fr. split; [done|]. split; [done|].
  rewrite (list_insert_id _ _ _ Hf), app_nil_r, Hd, (steps_one m (exec_body i b m)) by (unfold step; by rewrite Hr).
  rewrite He. unfold complete. simpl. by rewrite Ht.
Qed.

Lemma body_reaches b : forall m i, reaches m i b.
Proof.
  induction b as [v| |f k IH|child IHc k IH|ms k IH|rd r k IH]; intros m i; [by eapply completes_reaches|by eapply completes_reaches| | | |];
    intros fr Hf Ha Hr Ht; revert fr Hf Ha Hr Ht.
  - intros fr Hf Ha Hr Ht. destruct (f (world m)) as [s v] eqn:Ef.
    apply (goes_on_reaches m i _ (k v) s fr); try done; simpl; by rewrite Ef.
  - by apply await_reaches.
  - intros fr Hf Ha Hr Ht. destruct (Z.eqb_spec ms 0) as [->|Hms].
    + by apply (goes_on_reaches m i _ k (world m) fr).
    + apply (sleep_reaches m i _ k fr); try done. simpl. by destruct (Z.eqb_spec ms 0).
  - intros fr Hf Ha Hr Ht. destruct rd.
    + by apply (goes_on_reaches m i _ (k r) (world m) fr).
    + by apply (sleep_reaches m i _ (k Throw) fr).
Qed.

(** C34: A scheduled coroutine is its direct reading.  However its body awaits tasks, delays and
    futures, and whatever throws in it, the machine comes to rest after finitely many steps,
    with the effects on the program's state of the ordinary function [direct], and its value or
    exception in the promise.  Every frame made on the way is destroyed; that of the scheduled
    coroutine is not, and nobody can reach it. *)
Theorem coroutine_runs_direct b s :
  exists n k f, step (steps n (schedule b s)) = None /\
    world (steps n (schedule b s)) = (direct b s).1 /\
    frames (steps n (schedule b s)) = Some f :: replicate k None /\
    at_ f = Final /\ outcome_ f = Some (direct b s).2.
Proof.
  destruct (body_reaches b (schedule b s) 0%nat {| at_ := Active; outcome_ := None; continuation_ := None |})
    as (n & k & d & g & _ & Hg & E); try done.
  exists n, k, {| at_ := Final; outcome_ := Some (direct b s).2; continuation_ := None |}.
  rewrite E. unfold complete, set_outcome, final_suspend. simpl. rewrite Hg. simpl. done.
Qed.
End Coroutines.

(** * Examples *)
Module CoroutineExample.
(** Awaits [n] tasks, one after the other, which do not suspend. *)
Fixpoint awaits (n : nat) : @body nat nat :=
  match n with
  | O => Return 0%nat
  | S n' => Await (Act (fun w => (S w, w)) Return) (fun _ => awaits n')
  end.

(** One of them: three steps, and one call of [resume] more on the stack. *)
Lemma awaits_once n m i f : frames m !! i = Some (Some f) -> running m = Some (i, awaits (S n)) ->
  timers m = [] ->
  exists m' f', steps 3 m = m' /\ frames m' !! i = Some (Some f') /\ running m' = Some (i, awaits n) /\
    timers m' = [] /\ depth m' = (depth m + 1)%nat.
Proof.
  intros Hf Hr Ht. assert (Hi : (i < length (frames m))%nat) by (by eapply lookup_lt_Some).
  eexists _, _. split; [reflexivity|].
  set (c0 := {| at_ := Active; outcome_ := None; continuation_ := Some i |} : @frame nat nat).
  set (k := fun _ : result nat => awaits n).
  assert (E : steps 3 m = complete (length (frames m)) (Ok (world m))
    {| world := S (world m);
       frames := <[length (frames m) := Some c0]> (at_point i (Awaiting (length (frames m)) k) (frames m) ++ [Some c0])
                 ++ replicate 0 None;
       running := Some (length (frames m), Return (world m)); timers := []; depth := (depth m + 1)%nat |}).
  { assert (Hla : length (at_point i (Awaiting (length (frames m)) k) (frames m)) = length (frames m)).
    { unfold at_point. rewrite Hf. apply length_insert. }
    rewrite app_nil_r, (list_insert_id _ _ (Some c0)) by (by apply list_lookup_middle).
    unfold steps, step. rewrite Hr. simpl. by rewrite Ht. }
  rewrite E, (child_completes i _ _ k 0 (Some c0) f c0 _ _ _ Hf eq_refl). simpl. split; [|done].
  rewrite lookup_app_l by (by rewrite length_insert). by apply list_lookup_insert_eq.
Qed.

(** The stack of a loop of [co_await]s grows: awaiting [n] tasks that do not suspend, one
    after the other, is [n] nested calls of [resume], none of which has returned when the
    last task is done. *)
Theorem awaits_deepen n s : exists k, depth (steps k (schedule (awaits n) s)) = (1 + n)%nat /\
  running (steps k (schedule (awaits n) s)) = Some (0%nat, awaits 0).
Proof.
  assert (H : forall n m f, frames m !! 0%nat = Some (Some f) -> running m = Some (0%nat, awaits n) -> timers m = [] ->
    exists k, depth (steps k m) = (depth m + n)%nat /\ running (steps k m) = Some (0%nat, awaits 0)).
  { clear. induction n as [|n IH]; intros m f Hf Hr Ht; [exists 0%nat; split; [simpl; lia|done]|].
    destruct (awaits_once n m 0 f Hf Hr Ht) as (m' & f' & E & Hf' & Hr' & Ht' & Hd).
    destruct (IH m' f' Hf' Hr' Ht') as (k & Hk & Hrk). exists (3 + k)%nat.
    rewrite steps_add, E. split; [lia|done]. }
  destruct (H n (schedule (awaits n) s) _ eq_refl eq_refl eq_refl) as (k & Hk). by exists k.
Qed.

(** A future that becomes ready later is lost: the awaiting coroutine gets an exception
    instead of its value. *)
Lemma late_future_throws : direct (S := unit) (V := nat)
  (Future false (Ok 7%nat) (fun r => match r with Ok v => Return v | Throw => Return 0%nat end)) tt = (tt, Ok 0%nat).
Proof. done. Qed.
End CoroutineExample.
