(* ===== verification/TaskHandle.v ===== *)
(** Who owns a coroutine (src/common/utils/coroutine_manager.hpp, [Task] and [Task<void>]): the
    handle that a task object holds, its moves, its destruction and what [schedule] takes out
    of it.  What a frame does when it runs is Coroutine.

    A program holds objects, in the order they were made; one that is gone is [None].  A frame
    that is destroyed a second time is [Twice], which is undefined behaviour. *)
From S2P Require Import Prelude.

Inductive life := Live | Destroyed | Twice.

Record frame := { life_ : life; finished : bool }.

(** [objects]: the handle of each task object, [Some None] after a move.  [released]: the frames
    whose handle left its object for good. *)
Record program := { objects : list (option (option nat)); frames : list frame; released : list nat }.

Definition no_tasks : program := {| objects := []; frames := []; released := [] |}.

(** [handle.destroy()]. *)
Definition destroy (h : nat) (fs : list frame) : list frame :=
  match fs !! h with
  | Some f => <[h := {| life_ := match life_ f with Live => Destroyed | _ => Twice end; finished := finished f |}]> fs
  | None => fs
  end.

(** [if (handle) handle.destroy();] *)
Definition drop (h : option nat) (fs : list frame) : list frame :=
  match h with Some h => destroy h fs | None => fs end.

(** A call of a coroutine: a frame at its initial suspension and the object that owns it. *)
Definition call (p : program) : program := {|
  objects := objects p ++ [Some (Some (length (frames p)))];
  frames := frames p ++ [{| life_ := Live; finished := false |}]; released := released p |}.

(** [Task(Task&& other)]. *)
Definition move_construct (other : nat) (p : program) : option program :=
  h ← objects p !! other ≫= id;
  Some {| objects := <[other := Some None]> (objects p) ++ [Some h]; frames := frames p; released := released p |}.

(** [operator=(Task&& other)]. *)
Definition move_assign (this other : nat) (p : program) : option program :=
  h ← objects p !! this ≫= id;
  h' ← objects p !! other ≫= id;
  if bool_decide (this = other) then Some p
  else Some {| objects := <[other := Some None]> (<[this := Some h']> (objects p));
               frames := drop h (frames p); released := released p |}.

(** [~Task()]. *)
Definition destruct_task (this : nat) (p : program) : option program :=
  h ← objects p !! this ≫= id;
  Some {| objects := <[this := None]> (objects p); frames := drop h (frames p); released := released p |}.

(** [auto handle = task.handle; task.handle = nullptr;] in [schedule]. *)
Definition release (this : nat) (p : program) : option program :=
  h ← objects p !! this ≫= id;
  Some {| objects := <[this := Some None]> (objects p); frames := frames p;
          released := released p ++ match h with Some h => [h] | None => [] end |}.

(** [await_ready] of an object: nothing to wait for when it was moved from or is done. *)
Definition await_ready (this : nat) (p : program) : option bool :=
  h ← objects p !! this ≫= id;
  Some match h with
       | None => true
       | Some h => match frames p !! h with Some f => finished f | None => true end
       end.

(** What a program does with its objects; a frame that runs to its end is at [Finish]. *)
Inductive event := Call | MoveConstruct (other : nat) | MoveAssign (this other : nat) | Destruct (this : nat)
| Release (this : nat) | Finish (h : nat).

Definition on_event (e : event) (p : program) : option program :=
  match e with
  | Call => Some (call p)
  | MoveConstruct other => move_construct other p
  | MoveAssign this other => move_assign this other p
  | Destruct this => destruct_task this p
  | Release this => release this p
  | Finish h => f ← frames p !! h;
      match life_ f with
      | Live => Some {| objects := objects p; frames := <[h := {| life_ := Live; finished := true |}]> (frames p);
                        released := released p |}
      | _ => None
      end
  end.

Fixpoint run (es : list event) (p : program) : option program :=
  match es with [] => Some p | e :: es => on_event e p ≫= run es end.

(** * Ownership *)

(** The handles that objects hold. *)
Definition owned (l : list (option (option nat))) : list nat := omap (fun o => o ≫= id) l.

Definition held (o : option (option nat)) : list nat := match o with Some (Some h) => [h] | _ => [] end.

Lemma owned_cons o l : owned (o :: l) = held o ++ owned l.
Proof. by destruct o as [[h|]|]. Qed.

Lemma owned_app l k : owned (l ++ k) = owned l ++ owned k.
Proof. apply omap_app. Qed.

Lemma owned_insert l i o o' : l !! i = Some o -> held o' ++ owned l ≡ₚ held o ++ owned (<[i := o']> l).
Proof.
  revert i. induction l as [|x l IH]; intros [|i] Hi; try discriminate Hi.
  - injection Hi as ->. change (<[0%nat := o']> (o :: l)) with (o' :: l). rewrite !owned_cons.
    by rewrite Permutation_app_swap_app.
  - change (<[S i := o']> (x :: l)) with (x :: <[i := o']> l). rewrite !owned_cons.
    by rewrite Permutation_app_swap_app, (IH i Hi), Permutation_app_swap_app.
Qed.

(** The frames that live are those with an owner, one each, and no frame was destroyed twice. *)
Definition owners_ok (p : program) : Prop :=
  NoDup (owned (objects p) ++ released p) /\
  (forall h, h ∈ owned (objects p) ++ released p <-> exists f, frames p !! h = Some f /\ life_ f = Live) /\
  (forall h f, frames p !! h = Some f -> life_ f <> Twice).

Lemma destroy_lookup h fs x : destroy h fs !! x =
  if decide (x = h) then (fun f => {| life_ := match life_ f with Live => Destroyed | _ => Twice end;
                                      finished := finished f |}) <$> fs !! h
  else fs !! x.
Proof.
  unfold destroy. destruct (fs !! h) as [f|] eqn:E; case_decide as Hx; subst; simpl; rewrite ?E; try done.
  - apply list_lookup_insert_eq. by eapply lookup_lt_Some.
  - by apply list_lookup_insert_ne.
Qed.

(** The same owners in another order. *)
Lemma owners_perm p p' : frames p' = frames p ->
  owned (objects p') ++ released p' ≡ₚ owned (objects p) ++ released p -> owners_ok p -> owners_ok p'.
Proof.
  intros Ef Hp (H1 & H2 & H3). split; [by rewrite Hp|]. rewrite Ef. split; [|exact H3]. intros h. by rewrite Hp.
Qed.

(** An owner that drops its frame. *)
Lemma owners_drop p p' o : frames p' = drop o (frames p) ->
  held (Some o) ++ owned (objects p') ++ released p' ≡ₚ owned (objects p) ++ released p -> owners_ok p -> owners_ok p'.
Proof.
  destruct o as [h|]; simpl; [|by apply owners_perm].
  intros Ef Hp (H1 & H2 & H3). rewrite <- Hp in H1. apply NoDup_cons in H1 as [Hh H1].
  assert (Hlive : exists f, frames p !! h = Some f /\ life_ f = Live) by (apply H2; rewrite <- Hp; by constructor).
  destruct Hlive as (f & Ehf & Elive). split; [done|]. rewrite Ef. split.
  - intros x. rewrite destroy_lookup. destruct (decide (x = h)) as [->|Hne].
    + rewrite Ehf. simpl. rewrite Elive. split; [done|]. by intros (g & [= <-] & ?).
    + rewrite <- H2, <- Hp, elem_of_cons. naive_solver.
  - intros x g. rewrite destroy_lookup. destruct (decide (x = h)) as [->|Hne]; [|apply H3].
    rewrite Ehf. simpl. rewrite Elive. by intros [= <-].
Qed.

Lemma called_ok p : owners_ok p -> owners_ok (call p).
Proof.
  intros (H1 & H2 & H3). unfold call. split_and!; simpl; rewrite ?owned_app.
  - change (owned [Some (Some (length (frames p)))]) with [length (frames p)].
    rewrite <- app_assoc. cbn [app]. rewrite <- Permutation_middle. apply NoDup_cons. split; [|done].
    intros (f & Hf & _)%H2. apply lookup_lt_Some in Hf. lia.
  - intros h. change (owned [Some (Some (length (frames p)))]) with [length (frames p)].
    rewrite <- app_assoc. cbn [app]. rewrite <- Permutation_middle, elem_of_cons, H2. split.
    + intros [->|(f & Hf & Hl)]; [eexists; by rewrite list_lookup_middle|].
      exists f. split; [|done]. by apply lookup_app_l_Some.
    + intros (f & [Hf|(Hle & Hf)]%lookup_app_Some & Hl); [eauto|].
      apply list_lookup_singleton_Some in Hf as [Hz _]. left. lia.
  - intros h f [Hf|(_ & Hf)]%lookup_app_Some; [by eapply H3|].
    by apply list_lookup_singleton_Some in Hf as [_ <-].
Qed.

Lemma bind_id_Some {A} (o : option (option A)) a : o ≫= id = Some a <-> o = Some (Some a).
Proof. destruct o as [[]|]; simpl; split; congruence. Qed.

Lemma owned_out l i h : l !! i = Some (Some h) -> owned l ≡ₚ held (Some h) ++ owned (<[i := Some None]> l) /\
  owned l ≡ₚ held (Some h) ++ owned (<[i := None]> l).
Proof. intros Hi. split; by rewrite <- (owned_insert _ _ _ _ Hi). Qed.

Lemma finish_ok h f p : owners_ok p -> frames p !! h = Some f -> life_ f = Live ->
  owners_ok {| objects := objects p; frames := <[h := {| life_ := Live; finished := true |}]> (frames p);
               released := released p |}.
Proof.
  intros (H1 & H2 & H3) Hf Hl. split_and!; [done| |].
  - intros x. rewrite H2. simpl. destruct (decide (x = h)) as [->|Hne]; [|by rewrite list_lookup_insert_ne].
    rewrite list_lookup_insert_eq by (by eapply lookup_lt_Some). naive_solver.
  - intros x g. simpl. intros [(-> & <- & _)|(_ & Hx)]%list_lookup_insert_Some; [done|by eapply H3].
Qed.

Lemma owner_event_ok e p p' : owners_ok p -> on_event e p = Some p' -> owners_ok p'.
Proof.
  intros Hp. destruct e as [|other|this other|this|this|h]; simpl; intros E.
  - injection E as <-. by apply called_ok.
  - apply bind_Some in E as (h & Ho%bind_id_Some & [= <-]). apply (owners_perm p); [done| |done]. simpl.
    rewrite owned_app, owned_cons, (proj1 (owned_out _ _ _ Ho)). change (owned []) with (@nil nat).
    by rewrite app_nil_r, (Permutation_app_comm (held _)).
  - apply bind_Some in E as (h & Ht%bind_id_Some & E). apply bind_Some in E as (h' & Ho%bind_id_Some & E).
    case_bool_decide as Hne; injection E as <-; [done|]. apply (owners_drop p _ h); [done| |done]. simpl objects. simpl released.
    rewrite app_assoc. apply Permutation_app_tail. apply (Permutation_app_inv_l (held (Some h'))).
    rewrite (owned_insert _ _ _ (Some h') Ht), Permutation_app_swap_app. apply Permutation_app_head.
    symmetry. apply owned_out. by rewrite list_lookup_insert_ne.
  - apply bind_Some in E as (h & Ht%bind_id_Some & [= <-]). apply (owners_drop p _ h); [done| |done]. simpl objects. simpl released.
    rewrite app_assoc. apply Permutation_app_tail. symmetry. by apply owned_out.
  - apply bind_Some in E as (h & Ht%bind_id_Some & [= <-]). apply (owners_perm p); [done| |done]. simpl objects. simpl released.
    rewrite (proj1 (owned_out _ _ _ Ht)). change (match h with Some h => [h] | None => [] end) with (held (Some h)).
    by rewrite (Permutation_app_comm (released p)), (app_assoc (owned _)), (Permutation_app_comm (owned _)).
  - apply bind_Some in E as (f & Hf & E). destruct (life_ f) eqn:El; simplify_eq. by apply (finish_ok h f).
Qed.

Lemma owner_run_ok es p p' : owners_ok p -> run es p = Some p' -> owners_ok p'.
Proof.
  revert p. induction es as [|e es IH]; intros p Hp E; simpl in E; [by simplify_eq|].
  apply bind_Some in E as (p1 & E1 & E). apply (IH p1); [|done]. by eapply owner_event_ok.
Qed.

Lemma no_tasks_ok : owners_ok no_tasks.
Proof. split_and!; simpl; [constructor| |done]. intros h. split; [by intros ?%elem_of_nil|by intros (f & ? & _)]. Qed.

(** However task objects are moved, assigned, released and destroyed: no frame is destroyed
    twice, a frame that lives has one owner, which is an object or the scheduler, and when every
    object is gone the frames left are exactly the scheduled ones, which nothing destroys. *)
Lemma tasks_owned es p : run es no_tasks = Some p ->
  (forall h f, frames p !! h = Some f -> life_ f <> Twice) /\
  NoDup (owned (objects p) ++ released p) /\
  (forall h, (exists f, frames p !! h = Some f /\ life_ f = Live) <-> h ∈ owned (objects p) \/ h ∈ released p) /\
  ((forall o, o ∈ objects p -> o = None) ->
   forall h f, frames p !! h = Some f -> (life_ f = Live <-> h ∈ released p) /\ (life_ f = Destroyed <-> h ∉ released p)).
Proof.
  intros Hr. destruct (owner_run_ok es _ _ no_tasks_ok Hr) as (H1 & H2 & H3).
  assert (H2' : forall h, (exists f, frames p !! h = Some f /\ life_ f = Live) <-> h ∈ owned (objects p) \/ h ∈ released p).
  { intros h. by rewrite <- H2, elem_of_app. }
  split_and!; [done|done|done|]. intros Hgone.
  assert (Hnil : owned (objects p) = []).
  { clear -Hgone. induction (objects p) as [|o l IH]; [done|]. rewrite owned_cons, (Hgone o) by constructor. simpl.
    apply IH. intros x Hx. apply Hgone. by constructor. }
  intros h f Hf. specialize (H2' h). rewrite Hnil in H2'. specialize (H3 h f Hf).
  assert (Hl : life_ f = Live <-> h ∈ released p).
  { split; [intros; destruct (proj1 H2') as [?%elem_of_nil|]; eauto; done|]. intros Hh.
    destruct (proj2 H2' (or_intror Hh)) as (g & Hg & ?). congruence. }
  split; [done|]. rewrite <- Hl. destruct (life_ f); split; congruence.
Qed.

(** A task is scheduled, a second one moved over a third, and all objects go. *)
Example scheduled_frame_stays :
  map life_ (default [] (frames <$> run [Call; Release 0; Call; Call; MoveAssign 2 1; Destruct 0; Destruct 1; Destruct 2]
    no_tasks)) = [Live; Destroyed; Destroyed].
Proof. reflexivity. Qed.
