(* ===== verification/TcpServer.v ===== *)
(** The TCP server (src/common/network/tcp_server.hpp, tcp_server.cpp) over the sessions of
    TcpSession, and the pool of I/O services it takes its context from
    (src/common/network/IOService_pool.hpp, IOService_pool.cpp).

    A handler of the event loop is one step.  [sessions_mutex_] is not recursive: a thread that
    locks it while it holds it never goes on (formally it has no defined behaviour), which is
    [Deadlock]. *)
From S2P Require Import Prelude TcpSession.
Open Scope Z_scope.

(** * The pool of I/O services *)
Module IOServicePool.
Record t := { io_services_ : nat; next_io_service_ : Z; pool_size_ : Z }.

(** [hw] is [std::thread::hardware_concurrency()]. *)
Definition make (hw pool_size : nat) : t :=
  let n := match pool_size with O => hw | _ => pool_size end in
  let n := match n with O => 1%nat | _ => n end in
  {| io_services_ := n; next_io_service_ := 0; pool_size_ := Z.of_nat n |}.

Definition Stop (p : t) : t :=
  if pool_size_ p =? 0 then p
  else {| io_services_ := 0; next_io_service_ := next_io_service_ p; pool_size_ := 0 |}.

(** [GetIOService] after its test: [pool_size_] is read again for the remainder.  Dividing by
    zero and indexing past the end are [OutOfBounds]. *)
Definition pick (p : t) : t * outcome Z :=
  let n := next_io_service_ p in
  let p' := {| io_services_ := io_services_ p; next_io_service_ := u64 (n + 1); pool_size_ := pool_size_ p |} in
  if pool_size_ p =? 0 then (p', OutOfBounds)
  else let index := n mod pool_size_ p in
       (p', if index <? Z.of_nat (io_services_ p) then Val index else OutOfBounds).

Definition GetIOService (p : t) : t * result (outcome Z) :=
  if pool_size_ p =? 0 then (p, Throw) else let '(p', o) := pick p in (p', Ok o).

(** [k] calls in a row. *)
Fixpoint calls (k : nat) (p : t) : t :=
  match k with O => p | S k' => calls k' (GetIOService p).1 end.

Definition after (c k : nat) : t :=
  {| io_services_ := c; next_io_service_ := Z.of_nat k; pool_size_ := Z.of_nat c |}.

Lemma make_after hw n : exists c, (0 < c)%nat /\ make hw n = after c 0.
Proof. eexists. split; [|reflexivity]. simpl. destruct n, hw; lia. Qed.

Lemma get_after c k : (0 < c)%nat -> Z.of_nat (S k) < 2 ^ 64 ->
  GetIOService (after c k) = (after c (S k), Ok (Val (Z.of_nat k mod Z.of_nat c))).
Proof.
  intros Hc Hk. unfold GetIOService, pick. simpl. destruct (Z.eqb_spec (Z.of_nat c) 0); [lia|].
  replace (u64 (Z.of_nat k + 1)) with (Z.of_nat (S k)) by (unfold u64; rewrite Z.mod_small; lia).
  pose proof (Z.mod_pos_bound (Z.of_nat k) (Z.of_nat c) ltac:(lia)).
  by destruct (Z.ltb_spec (Z.of_nat k mod Z.of_nat c) (Z.of_nat c)); [|lia].
Qed.

Lemma calls_after c k j : (0 < c)%nat -> Z.of_nat (j + k) < 2 ^ 64 -> calls k (after c j) = after c (j + k).
Proof.
  intros Hc. revert j. induction k as [|k IH]; intros j Hj; [by rewrite Nat.add_0_r|]. cbn [calls].
  rewrite get_after by lia. cbn [fst]. rewrite IH by lia. by rewrite Nat.add_succ_comm.
Qed.

(** Round robin: call number [k] of [GetIOService] on an open pool answers the service
    [k mod n], which exists; a stopped pool throws. *)
Theorem round_robin hw n k (Hk : Z.of_nat (S k) < 2 ^ 64) :
  let size := Z.of_nat (io_services_ (make hw n)) in
  0 < size /\
  (GetIOService (calls k (make hw n))).2 = Ok (Val (Z.of_nat k mod size)) /\
  (GetIOService (Stop (calls k (make hw n)))).2 = Throw.
Proof.
  destruct (make_after hw n) as (c & Hc & ->). cbv zeta. rewrite calls_after by lia.
  split; [simpl; lia|]. rewrite Nat.add_0_l, get_after by lia. split; [done|].
  unfold Stop, GetIOService. simpl. by destruct (Z.eqb_spec (Z.of_nat c) 0); [lia|].
Qed.

Lemma round_robin_witness : (GetIOService (calls 7 (make 8 3))).2 = Ok (Val 1).
Proof. apply (round_robin 8 3 7 ltac:(lia)). Defined.

(** [Stop] between the test and the remainder. *)
Lemma stop_during_get : (pick (Stop (make 8 2))).2 = OutOfBounds.
Proof. reflexivity. Qed.
End IOServicePool.

(** * The server *)

Record TCPServer := {
  sessions_ : gset nat;
  stopped_ : bool;
  accepting : bool;                 (* an [async_accept] is outstanding *)
  objects : gmap nat TCPSession;    (* every session made, by number *)
  next : nat
}.

(** [TCPServer::TCPServer] and [start_accpet]. *)
Definition made : TCPServer := {|
  sessions_ := ∅; stopped_ := false; accepting := false; objects := ∅; next := 0 |}.
Definition start_accpet (v : TCPServer) : TCPServer := {|
  sessions_ := sessions_ v; stopped_ := stopped_ v; accepting := true; objects := objects v; next := next v |}.

Inductive run := Goes (v : TCPServer) | Deadlock.

(** [remove_session]; [locked]: the calling thread holds [sessions_mutex_]. *)
Definition remove_session (locked : bool) (i : nat) (v : TCPServer) : run :=
  if locked then Deadlock
  else Goes {| sessions_ := sessions_ v ∖ {[i]}; stopped_ := stopped_ v; accepting := accepting v;
               objects := objects v; next := next v |}.

(** A session changes, and its close callback runs when that closed it. *)
Definition update (locked : bool) (i : nat) (s s' : TCPSession) (v : TCPServer) : run :=
  let v' := {| sessions_ := sessions_ v; stopped_ := stopped_ v; accepting := accepting v;
               objects := <[i := s']> (objects v); next := next v |} in
  if (close_calls s <? close_calls s')%nat then remove_session locked i v' else Goes v'.

Definition close_session (locked : bool) (i : nat) (v : TCPServer) : run :=
  match objects v !! i with Some s => update locked i s (TcpSession.close s) v | None => Goes v end.

Fixpoint close_all (locked : bool) (l : list nat) (v : TCPServer) : run :=
  match l with
  | [] => Goes v
  | i :: l' => match close_session locked i v with Goes v' => close_all locked l' v' | Deadlock => Deadlock end
  end.

(** [stop]: the loop over [sessions_] runs under the lock.  The handler of a cancelled accept is
    still to come, with an error or, when it was queued before, with a socket. *)
Definition stop (v : TCPServer) : run :=
  if stopped_ v then Goes v
  else
    let v1 := {| sessions_ := sessions_ v; stopped_ := true; accepting := accepting v; objects := objects v; next := next v |} in
    match close_all true (elements (sessions_ v1)) v1 with
    | Goes v2 => Goes {| sessions_ := ∅; stopped_ := true; accepting := accepting v2; objects := objects v2; next := next v2 |}
    | Deadlock => Deadlock
    end.

(** [handle_accept] of a new socket: the session, its close callback, the connection handler
    (which sets a message handler, or not) and the start. *)
Definition handle_accept (handler : bool) (v : TCPServer) : TCPServer :=
  let i := next v in
  {| sessions_ := {[i]} ∪ sessions_ v; stopped_ := stopped_ v; accepting := negb (stopped_ v);
     objects := <[i := TcpSession.start (new_session handler true)]> (objects v); next := S i |}.

(** With an error, nothing is accepted any more. *)
Definition handle_accept_error (v : TCPServer) : TCPServer := {|
  sessions_ := sessions_ v; stopped_ := stopped_ v; accepting := false; objects := objects v; next := next v |}.

(** ** Runs *)

Inductive step : TCPServer -> TCPServer -> Prop :=
| step_start v : step v (start_accpet v)
| step_accept h v : accepting v = true -> step v (handle_accept h v)
| step_accept_error v : accepting v = true -> step v (handle_accept_error v)
| step_event i e s s' v v' : objects v !! i = Some s -> on_event e s = Some s' -> update false i s s' v = Goes v' ->
    step v v'
| step_stop v v' : stop v = Goes v' -> step v v'.

Definition reachable (v : TCPServer) : Prop := rtc step made v.

(** Each session is one of TcpSession with a close callback, and is in the set while it is open. *)
Record ok (v : TCPServer) : Prop := {
  ok_session i s : objects v !! i = Some s -> (exists h acc, TcpSession.reachable h true acc s) /\
    (i ∈ sessions_ v <-> socket_open s = true);
  ok_known i : i ∈ sessions_ v -> is_Some (objects v !! i);
  ok_next i : (next v <= i)%nat -> objects v !! i = None
}.

Lemma calls_of_closed h acc s : TcpSession.reachable h true acc s ->
  close_calls s = if socket_open s then 0%nat else 1%nat.
Proof. intros (_ & _ & ->)%reachable_close. by destruct (socket_open s). Qed.

(** A closed session does not open again. *)
Lemma on_event_open e s s' : on_event e s = Some s' -> socket_open s' = true -> socket_open s = true.
Proof.
  intros He Ho. destruct (socket_open s) eqn:Eo; [done|]. exfalso.
  destruct e; simpl in He; repeat (case_match; try done); simplify_eq; unfold start, send, TcpSession.close,
    on_read_header, on_read_body, on_write, handle_error, on_heartbeat_timer, on_read_timeout,
    do_write, handle_error, TcpSession.close in Ho;
    simpl in *; try congruence; repeat (case_match; simpl in *; try congruence).
Qed.

(** A session that changes keeps its number; it leaves the set when it closes. *)
Lemma put_ok i s s' v ss : objects v !! i = Some s -> ok v ->
  (exists h acc, TcpSession.reachable h true acc s') -> (forall j, j <> i -> j ∈ ss <-> j ∈ sessions_ v) ->
  (i ∈ ss <-> socket_open s' = true) ->
  ok {| sessions_ := ss; stopped_ := stopped_ v; accepting := accepting v;
        objects := <[i := s']> (objects v); next := next v |}.
Proof.
  intros Hi [Hs Hk Hn] Hr Hss Hin. split; simpl.
  - intros j x. destruct (decide (i = j)) as [<-|Hne]; [rewrite lookup_insert_eq; by intros [= <-]|].
    rewrite lookup_insert_ne by done. intros Hj. destruct (Hs j x Hj) as [? <-]. split; [done|]. by apply Hss.
  - intros j Hj. destruct (decide (i = j)) as [<-|Hne]; [rewrite lookup_insert_eq; by eexists|].
    rewrite lookup_insert_ne by done. apply Hk. by apply Hss.
  - intros j Hj. destruct (decide (i = j)) as [<-|Hne]; [by rewrite (Hn i Hj) in Hi|].
    rewrite lookup_insert_ne by done. auto.
Qed.

(** An event of a session never blocks outside the lock. *)
Lemma event_ok i e s s' v : objects v !! i = Some s -> on_event e s = Some s' -> ok v ->
  exists v', update false i s s' v = Goes v' /\ ok v'.
Proof.
  intros Hi He Hok. destruct (ok_session _ Hok i s Hi) as ((h & acc & Hr) & Hin).
  pose proof (reach_event h true e acc s s' Hr He) as Hr'.
  pose proof (calls_of_closed _ _ _ Hr) as C. pose proof (calls_of_closed _ _ _ Hr') as C'.
  pose proof (on_event_open e s s' He) as Hop.
  unfold update, remove_session. rewrite C, C'.
  destruct (socket_open s) eqn:Eo, (socket_open s') eqn:Eo'; simpl;
    [| |by specialize (Hop eq_refl)|]; eexists; (split; [reflexivity|]); apply (put_ok i s); eauto.
  - by rewrite Eo'.
  - intros j Hj. set_solver.
  - rewrite Eo'. set_solver.
  - by rewrite Eo'.
Qed.

Lemma accept_ok h v : ok v -> ok (handle_accept h v).
Proof.
  intros [Hs Hk Hn]. unfold handle_accept. split; simpl.
  - intros j x. destruct (decide (next v = j)) as [<-|Hne].
    + rewrite lookup_insert_eq. intros [= <-]. split; [|split; [intros _; done|set_solver]].
      exists h, []. exact (reach_event h true EvStart [] _ _ (reach_new h true) eq_refl).
    + rewrite lookup_insert_ne by done. intros Hj. destruct (Hs j x Hj) as [? Hin]. split; [done|].
      rewrite <- Hin. set_solver.
  - intros j Hj. destruct (decide (next v = j)) as [<-|Hne]; [rewrite lookup_insert_eq; by eexists|].
    rewrite lookup_insert_ne by done. apply Hk. set_solver.
  - intros j Hj. rewrite lookup_insert_ne by lia. apply Hn. lia.
Qed.

(** [stop] with an open session never returns. *)
Lemma stop_spec v : ok v -> stopped_ v = false ->
  stop v = if decide (sessions_ v = ∅)
           then Goes {| sessions_ := ∅; stopped_ := true; accepting := accepting v; objects := objects v; next := next v |}
           else Deadlock.
Proof.
  intros [Hs Hk Hn] Est. unfold stop. rewrite Est. simpl. case_decide as He.
  - rewrite He, elements_empty. done.
  - destruct (elements (sessions_ v)) as [|i l] eqn:El; [by apply elements_empty_inv in El; apply leibniz_equiv in El|].
    assert (Hi : i ∈ sessions_ v) by (apply elem_of_elements; rewrite El; by left).
    simpl. unfold close_session. simpl. destruct (Hk i Hi) as [s Es]. rewrite Es.
    destruct (Hs i s Es) as ((h & acc & Hr) & Hin). apply Hin in Hi.
    destruct (reachable_close _ _ _ _ Hr) as (_ & Hcb & Hcalls).
    unfold update, TcpSession.close. rewrite Hi, Hcb. simpl.
    by destruct (Nat.ltb_spec (close_calls s) (S (close_calls s))); [|lia].
Qed.

Lemma step_server_ok v v' : step v v' -> ok v -> ok v'.
Proof.
  destruct 1 as [v|h v Ha|v Ha|i e s s' v v' Hi He Hu|v v' Hst]; intros Hok.
  - by destruct Hok.
  - by apply accept_ok.
  - by destruct Hok.
  - destruct (event_ok i e s s' v Hi He Hok) as (v2 & E & Hok2). congruence.
  - destruct (stopped_ v) eqn:Es; [unfold stop in Hst; rewrite Es in Hst; by injection Hst as <-|].
    rewrite (stop_spec v Hok Es) in Hst. case_decide as He; [|done]. injection Hst as <-.
    destruct Hok as [Hs Hk Hn]. split; simpl; [|set_solver|done]. rewrite <- He. exact Hs.
Qed.

Lemma made_ok : ok made.
Proof. split; simpl; [by intros ? ? ?%lookup_empty_Some|set_solver|done]. Qed.

(** The server keeps its sessions.  In every reachable server the set holds exactly the
    open sessions; a session's event never waits for the lock, and takes the session out of
    the set when it closed it (a read or write error, a timeout, a protocol violation, a call
    of [close]).  But [stop] returns only when the set is empty: with a session still open,
    the close callback of the first asks for the mutex that the loop holds. *)
Theorem server_sessions v (H : reachable v) :
  (forall i, i ∈ sessions_ v <-> exists s, objects v !! i = Some s /\ socket_open s = true) /\
  (forall i e s s', objects v !! i = Some s -> on_event e s = Some s' ->
     exists v', update false i s s' v = Goes v' /\
       sessions_ v' = if socket_open s' then sessions_ v else sessions_ v ∖ {[i]}) /\
  (stopped_ v = false -> stop v = Deadlock <-> sessions_ v <> ∅).
Proof.
  assert (Hok : ok v).
  { unfold reachable in H. clear -H. pose proof made_ok as Hm. revert Hm.
    induction H as [|v1 v2 v3 Hs _ IH]; [done|]. intros Hv. by apply IH, (step_server_ok _ _ Hs). }
  split; [|split].
  - intros i. split.
    + intros Hi. destruct (ok_known _ Hok i Hi) as [s Es]. exists s. split; [done|]. by apply (ok_session _ Hok i s Es).
    + intros (s & Es & Ho). by apply (ok_session _ Hok i s Es).
  - intros i e s s' Hi He. destruct (event_ok i e s s' v Hi He Hok) as (v' & Hu & Hok'). exists v'. split; [done|].
    destruct (ok_session _ Hok i s Hi) as ((h & acc & Hr) & Hin).
    pose proof (reach_event h true e acc s s' Hr He) as Hr'.
    pose proof (calls_of_closed _ _ _ Hr) as C. pose proof (calls_of_closed _ _ _ Hr') as C'.
    pose proof (on_event_open e s s' He) as Hop. unfold update, remove_session in Hu. rewrite C, C' in Hu.
    destruct (socket_open s) eqn:Eo, (socket_open s') eqn:Eo'; simpl in Hu; injection Hu as <-; simpl; try done.
    assert (i ∉ sessions_ v) by (rewrite Hin; done). set_solver.
  - intros Es. rewrite (stop_spec v Hok Es). case_decide; split; done.
Qed.

(** * One connection *)
Module TcpServerExample.
Definition one : TCPServer := handle_accept true (start_accpet made).
Lemma one_reachable : reachable one.
Proof. apply (rtc_l _ _ (start_accpet made)); [by apply step_start|]. apply rtc_once. by apply step_accept. Qed.

Lemma server_sessions_witness : sessions_ one = {[0%nat]} /\ stop one = Deadlock.
Proof.
  split; [reflexivity|]. apply (server_sessions one one_reachable); [reflexivity|]. discriminate.
Defined.
End TcpServerExample.
