(* ===== verification/Servers.v ===== *)
(** The server processes: the gRPC server of each service
    (src/services/*/..._server_app.cpp), the settings that [main] collects
    (src/services/*/..._server_main.cpp, src/gateway/main.cpp), and the run of a service's [main]
    from the command line to the shutdown.

    gRPC, the file system and the surroundings of a process are the record [machine]:
    [build_and_start a] is the port a server got on address [a], if it started. *)
From S2P Require Import Prelude Text Json Config CliParser SignalHandler.
From S2P Require ServiceIdentity PgConfig RedisClient.
Open Scope string_scope.
Open Scope Z_scope.

(** * The gRPC server of a service *)

(** [UserServerApp], [MessageServerApp], [FriendServerApp], [GroupServerApp]: [grpc_service_] is
    set when there is a connection string; for [PushServerApp] it tells whether [start] passes
    its check of the endpoint.  Ghost: the addresses and ports it listened on. *)
Record ServerApp := {
  listen_address : string;
  grpc_service_ : bool;
  server_ : option Z;
  selected_port_ : Z;
  listened : list (string * Z)
}.

Section App.
Context (odb_database : string -> bool) (build_and_start : string -> option Z).

(** [None] when the constructor of the database throws. *)
Definition ServerApp_new (listen connection : string) : option ServerApp :=
  let app has := {| listen_address := listen; grpc_service_ := has; server_ := None;
                    selected_port_ := 0; listened := [] |} in
  if PgConfig.is_empty connection then Some (app false)
  else if odb_database connection then Some (app true) else None.

Definition app_start (a : ServerApp) : ServerApp * bool :=
  if bool_decide (is_Some (server_ a)) then (a, true)
  else if negb (grpc_service_ a) then (a, false)
  else match build_and_start (listen_address a) with
       | None => (a, false)
       | Some port =>
           ({| listen_address := listen_address a; grpc_service_ := grpc_service_ a;
               server_ := Some port; selected_port_ := port;
               listened := listened a ++ [(listen_address a, port)] |}, true)
       end.

Definition app_is_running (a : ServerApp) : bool := bool_decide (is_Some (server_ a)).

(** [shutdown], and the destructor. *)
Definition app_shutdown (a : ServerApp) : ServerApp :=
  if app_is_running a then
    {| listen_address := listen_address a; grpc_service_ := grpc_service_ a; server_ := None;
       selected_port_ := 0; listened := listened a |}
  else a.
End App.

(** * Settings *)

(** [g_config] of a service. *)
Record RuntimeConfig := {
  config_file_ : string; listen_ : string;
  pg_host : string; pg_port : Z; pg_database : string; pg_user : string; pg_password : string;
  log_level : string
}.

Definition set_config_file (v : string) (g : RuntimeConfig) : RuntimeConfig :=
  {| config_file_ := v; listen_ := listen_ g; pg_host := pg_host g; pg_port := pg_port g;
     pg_database := pg_database g; pg_user := pg_user g; pg_password := pg_password g; log_level := log_level g |}.
Definition set_listen (v : string) (g : RuntimeConfig) : RuntimeConfig :=
  {| config_file_ := config_file_ g; listen_ := v; pg_host := pg_host g; pg_port := pg_port g;
     pg_database := pg_database g; pg_user := pg_user g; pg_password := pg_password g; log_level := log_level g |}.
Definition set_log_level (v : string) (g : RuntimeConfig) : RuntimeConfig :=
  {| config_file_ := config_file_ g; listen_ := listen_ g; pg_host := pg_host g; pg_port := pg_port g;
     pg_database := pg_database g; pg_user := pg_user g; pg_password := pg_password g; log_level := v |}.

(** What differs between the four services. *)
Record service := {
  svc_name : string; default_listen : string; listen_key : string; listen_env : string; log_key : string
}.
Definition get_bool (v : jval) : option bool := match v with JBool x => Some x | _ => None end.

Definition user_server : service := {| svc_name := "user"; default_listen := "0.0.0.0:9001";
  listen_key := "user.listen_address"; listen_env := "MYCHAT_USER_LISTEN_ADDRESS"; log_key := "user.log_level" |}.
Definition message_server : service := {| svc_name := "message"; default_listen := "0.0.0.0:9002";
  listen_key := "message.listen_address"; listen_env := "MYCHAT_MESSAGE_LISTEN_ADDRESS"; log_key := "message.log_level" |}.
Definition friend_server : service := {| svc_name := "friend"; default_listen := "0.0.0.0:9003";
  listen_key := "friend.listen_address"; listen_env := "MYCHAT_FRIEND_LISTEN_ADDRESS"; log_key := "friend.log_level" |}.
Definition group_server : service := {| svc_name := "group"; default_listen := "0.0.0.0:9004";
  listen_key := "group.listen_address"; listen_env := "MYCHAT_GROUP_LISTEN_ADDRESS"; log_key := "group.log_level" |}.

Definition initial (s : service) : RuntimeConfig := {|
  config_file_ := "config/dev.json"; listen_ := default_listen s; pg_host := "127.0.0.1"; pg_port := 5432;
  pg_database := "mychat"; pg_user := "mychat"; pg_password := "mychat-dev-pass"; log_level := "info" |}.

(** A callback that stores the value, and answers true. *)
Definition store {W} (set : string -> W -> W) (v : string) : exec W bool := fun g => (set v g, Ok true).

Definition argument {W} (name : string) (short : Z) (ty : ArgumentType) (text dflt grp : string)
    (cb : string -> exec W bool) : ArgumentDefinition :=
  {| long_name := name; short_name := short; type := ty; required := false; description := text;
     default_value := dflt; group := grp; callback := Some cb |}.

Definition configure_cli (s : service) (p : CLIParser (W := RuntimeConfig)) : CLIParser :=
  let p1 := (addArgument (argument "config" 99 STRING "server config file" (config_file_ (initial s))
               "Configuration" (store set_config_file)) p).1 in
  let p2 := (addArgument (argument "listen" 76 STRING "gRPC listen address" EmptyString "Network"
               (store set_listen)) p1).1 in
  (addArgument (argument "log-level" 108 STRING "Log level: debug, info, warn, error"
     (log_level (initial s)) "Logging" (store set_log_level)) p2).1.

(** The settings [main] reads once the command line was parsed: what the command line left in
    [g] is the default of each. *)
Definition load_settings (s : service) (env : string -> option string) (doc : jval) (g : RuntimeConfig)
  : RuntimeConfig :=
  let text := getWithEnv get_string convert_string env doc in
  let number := getWithEnv get_i32 convert_int env doc in {|
  config_file_ := config_file_ g;
  listen_ := text (listen_key s) (listen_env s) (listen_ g);
  pg_host := text "postgres.host" "MYCHAT_DB_HOST" (pg_host g);
  pg_port := number "postgres.port" "MYCHAT_DB_PORT" (pg_port g);
  pg_database := text "postgres.database" "MYCHAT_DB_DATABASE" (pg_database g);
  pg_user := text "postgres.username" "MYCHAT_DB_USER" (pg_user g);
  pg_password := text "postgres.password" "MYCHAT_DB_PASSWORD" (pg_password g);
  log_level := text (log_key s) "MYCHAT_LOG_LEVEL" (log_level g) |}.

Definition build_pg_connection_string (g : RuntimeConfig) : string :=
  let conn := "host=" +:+ pg_host g +:+ " port=" +:+ to_string (pg_port g) +:+ " dbname=" +:+ pg_database g +:+
              " user=" +:+ pg_user g in
  if PgConfig.is_empty (pg_password g) then conn else conn +:+ " password=" +:+ pg_password g.

(** * The run of a service *)

(** What a process meets: [file p] is [None] when [p] does not exist; the signals arrive while
    it waits, [early] before the last one is read. *)
Record machine := {
  getopt_long : getopt; argv : list string;
  file : string -> option config_file;
  surroundings : ServiceIdentity.surroundings;
  odb_database : string -> bool;
  build_and_start : string -> option Z;
  valid_signal : Z -> bool;
  early : list Z; late : list Z
}.

Inductive callback_ := ShutdownServer.

(** A [main] with settings of type [W]: its parser, the configuration file of the settings, what
    it reads from the environment and the document, and its server.  The answer is the exit code
    and the server once destroyed; [None]: it waits for ever. *)
Section Main.
Context {W : Type} (parser : CLIParser (W := W)) (config_file_of : W -> string)
  (load : (string -> option string) -> jval -> W -> W) (name : string)
  (make : W -> option ServerApp) (m : machine).

(** The settings, or [None] when [main] returns 1 before it has a server. *)
Definition settings : option W :=
  let '(p, result) := parse (fun _ => true) (getopt_long m) (argv m) parser in
  if negb (success result) then None
  else
    f ← file m (config_file_of (world p));
    doc ← ConfigManager f;
    Some (load (ServiceIdentity.getenv (surroundings m)) doc (world p)).

Definition main : option (Z * option ServerApp) :=
  match settings with
  | None => Some (1, None)
  | Some g =>
      if negb (ServiceIdentity.initializeFromEnv (surroundings m) name ServiceIdentity.start).2
      then Some (1, None)
      else match make g with
      | None => Some (1, None)
      | Some app =>
          let h := (registerGracefulShutdown (valid_signal m) ShutdownServer SignalHandler.start).1 in
          match app_start (build_and_start m) app with
          | (app', false) => Some (1, Some (app_shutdown app'))
          | (app', true) =>
              callbacks ← waitForShutdown (early m) (late m) h;
              let app'' := foldl (fun a _ => app_shutdown a) app' callbacks in
              Some (0, Some (app_shutdown (app_shutdown app'')))
          end
      end
  end.
End Main.

Definition service_main (s : service) (m : machine) : option (Z * option ServerApp) :=
  main (configure_cli s (create (initial s))) config_file_ (load_settings s) (svc_name s)
    (fun g => ServerApp_new (odb_database m) (listen_ g) (build_pg_connection_string g)) m.

(** * The push server *)

(** The adapters of [PushServerApp]: at the endpoint of the gateway, or without effect. *)
Inductive Adapters := RemoteGateway (endpoint : string) (timeout_ms : Z) | NoAdapters.

Record PushServerConfig := {
  push_listen_address : string; gateway_delivery_endpoint : string; timeout_ms : Z;
  require_gateway_delivery_endpoint : bool
}.

(** The constructor: the adapters, and a server that starts unless it misses a required
    endpoint. *)
Definition PushServerApp (c : PushServerConfig) : Adapters * ServerApp :=
  (if PgConfig.is_empty (gateway_delivery_endpoint c) then NoAdapters
   else RemoteGateway (gateway_delivery_endpoint c) (timeout_ms c),
   {| listen_address := push_listen_address c;
      grpc_service_ := negb (require_gateway_delivery_endpoint c &&
                             PgConfig.is_empty (gateway_delivery_endpoint c));
      server_ := None; selected_port_ := 0; listened := [] |}).

Record PushRuntimeConfig := {
  push_config_file : string; push_config : PushServerConfig; push_log_level : string
}.

Definition push_initial : PushRuntimeConfig := {|
  push_config_file := "config/dev.json";
  push_config := {| push_listen_address := "0.0.0.0:9101"; gateway_delivery_endpoint := EmptyString;
                    timeout_ms := 200; require_gateway_delivery_endpoint := false |};
  push_log_level := "info" |}.

Definition set_push_file (v : string) (g : PushRuntimeConfig) : PushRuntimeConfig :=
  {| push_config_file := v; push_config := push_config g; push_log_level := push_log_level g |}.
Definition set_push (f : PushServerConfig -> PushServerConfig) (g : PushRuntimeConfig) : PushRuntimeConfig :=
  {| push_config_file := push_config_file g; push_config := f (push_config g); push_log_level := push_log_level g |}.
Definition set_push_log (v : string) (g : PushRuntimeConfig) : PushRuntimeConfig :=
  {| push_config_file := push_config_file g; push_config := push_config g; push_log_level := v |}.

Definition push_listen (v : string) : PushRuntimeConfig -> PushRuntimeConfig := set_push (fun c =>
  {| push_listen_address := v; gateway_delivery_endpoint := gateway_delivery_endpoint c;
     timeout_ms := timeout_ms c; require_gateway_delivery_endpoint := require_gateway_delivery_endpoint c |}).
Definition push_endpoint (v : string) : PushRuntimeConfig -> PushRuntimeConfig := set_push (fun c =>
  {| push_listen_address := push_listen_address c; gateway_delivery_endpoint := v;
     timeout_ms := timeout_ms c; require_gateway_delivery_endpoint := require_gateway_delivery_endpoint c |}).
Definition push_timeout (v : Z) : PushRuntimeConfig -> PushRuntimeConfig := set_push (fun c =>
  {| push_listen_address := push_listen_address c; gateway_delivery_endpoint := gateway_delivery_endpoint c;
     timeout_ms := v; require_gateway_delivery_endpoint := require_gateway_delivery_endpoint c |}).

(** A callback that stores [std::stoi(value)], or throws. *)
Definition store_int {W} (set : Z -> W -> W) (v : string) : exec W bool := fun g =>
  match stoi v with Some n => (set n g, Ok true) | None => (g, Throw) end.

Definition push_configure_cli (p : CLIParser (W := PushRuntimeConfig)) : CLIParser :=
  let p1 := (addArgument (argument "config" 99 STRING "Push server config file" "config/dev.json"
               "Configuration" (store set_push_file)) p).1 in
  let p2 := (addArgument (argument "listen" 76 STRING "gRPC listen address" EmptyString "Network"
               (store push_listen)) p1).1 in
  let p3 := (addArgument (argument "gateway-delivery" 103 STRING "Gateway delivery gRPC endpoint"
               EmptyString "Network" (store push_endpoint)) p2).1 in
  let p4 := (addArgument (argument "timeout-ms" 116 INTEGER "Gateway delivery RPC timeout in milliseconds"
               "200" "Network" (store_int push_timeout)) p3).1 in
  (addArgument (argument "log-level" 108 STRING "Log level: debug, info, warn, error" "info" "Logging"
     (store set_push_log)) p4).1.

Definition push_load (env : string -> option string) (doc : jval) (g : PushRuntimeConfig) : PushRuntimeConfig :=
  let text := getWithEnv get_string convert_string env doc in
  let number := getWithEnv get_i32 convert_int env doc in
  let flag := getWithEnv get_bool convert_bool env doc in
  let c := push_config g in {|
  push_config_file := push_config_file g;
  push_config := {|
    push_listen_address := text "push.listen_address" "MYCHAT_PUSH_LISTEN_ADDRESS" (push_listen_address c);
    gateway_delivery_endpoint := text "push.gateway_delivery_endpoint"
      "MYCHAT_PUSH_GATEWAY_DELIVERY_ENDPOINT" (gateway_delivery_endpoint c);
    timeout_ms := number "push.timeout_ms" "MYCHAT_PUSH_TIMEOUT_MS" (timeout_ms c);
    require_gateway_delivery_endpoint := flag "push.require_gateway_delivery_endpoint"
      "MYCHAT_PUSH_REQUIRE_GATEWAY_DELIVERY_ENDPOINT" (require_gateway_delivery_endpoint c) |};
  push_log_level := text "push.log_level" "MYCHAT_LOG_LEVEL" (push_log_level g) |}.

Definition push_main (m : machine) : option (Z * option ServerApp) :=
  main (push_configure_cli (create push_initial)) push_config_file push_load "push"
    (fun g => Some (PushServerApp (push_config g)).2) m.

(** * The gateway's settings *)

Record GatewayRuntimeConfig := {
  g_config_file : string; websocket_port : Z; http_port : Z; g_log_level : string; max_open_files : Z
}.
Definition gateway_initial : GatewayRuntimeConfig := {|
  g_config_file := "config/dev.json"; websocket_port := 8080; http_port := 8081; g_log_level := "info";
  max_open_files := 65535 |}.

Definition u16 (z : Z) : Z := z mod 2 ^ 16.

(** [read_port]: [None] when it throws. *)
Definition read_port (env : string -> option string) (doc : jval) (key env_key : string) (dflt : Z)
  : option Z :=
  let port := getWithEnv get_i32 convert_int env doc key env_key dflt in
  if (port <=? 0) || (65535 <? port) then None else Some (u16 port).

(** The ports as the command line stores them: [static_cast<uint16_t>(std::stoi(value))]. *)
Definition gateway_ports : list (string * Z * (Z -> GatewayRuntimeConfig -> GatewayRuntimeConfig)) := [
  ("ws-port", 119, fun v g => {| g_config_file := g_config_file g; websocket_port := u16 v;
     http_port := http_port g; g_log_level := g_log_level g; max_open_files := max_open_files g |});
  ("http-port", 72, fun v g => {| g_config_file := g_config_file g; websocket_port := websocket_port g;
     http_port := u16 v; g_log_level := g_log_level g; max_open_files := max_open_files g |})].

Definition gateway_configure_cli (p : CLIParser (W := GatewayRuntimeConfig)) : CLIParser :=
  let p1 := (addArgument (argument "config" 99 STRING "Gateway config file" (g_config_file gateway_initial)
    "Configuration" (store (fun v g => {| g_config_file := v; websocket_port := websocket_port g;
      http_port := http_port g; g_log_level := g_log_level g; max_open_files := max_open_files g |}))) p).1 in
  let p2 := foldl (fun q '(n, c, set) =>
    (addArgument (argument n c INTEGER "server port" EmptyString "Network" (store_int set)) q).1) p1 gateway_ports in
  let p3 := (addArgument (argument "log-level" 108 STRING "Log level: debug, info, warn, error"
    (g_log_level gateway_initial) "Logging" (store (fun v g => {| g_config_file := g_config_file g;
      websocket_port := websocket_port g; http_port := http_port g; g_log_level := v;
      max_open_files := max_open_files g |}))) p2).1 in
  (addArgument (argument "max-open-files" 0 INTEGER "Gateway process soft RLIMIT_NOFILE target" EmptyString
    "Runtime" (store_int (fun v g => {| g_config_file := g_config_file g;
      websocket_port := websocket_port g; http_port := http_port g; g_log_level := g_log_level g;
      max_open_files := v |}))) p3).1.

(** The settings [main] reads from the environment and the document, the command line's being the
    defaults: [None] when a port is refused. *)
Definition gateway_load (env : string -> option string) (doc : jval) (g : GatewayRuntimeConfig)
  : option GatewayRuntimeConfig :=
  ws ← read_port env doc "gateway.websocket_port" "MYCHAT_GATEWAY_WS_PORT" (websocket_port g);
  http ← read_port env doc "gateway.http_port" "MYCHAT_GATEWAY_HTTP_PORT" (http_port g);
  Some {| g_config_file := g_config_file g; websocket_port := ws; http_port := http;
    g_log_level := getWithEnv get_string convert_string env doc "gateway.log_level" "MYCHAT_LOG_LEVEL" (g_log_level g);
    max_open_files := getWithEnv get_i32 convert_int env doc "gateway.max_open_files"
      "MYCHAT_GATEWAY_MAX_OPEN_FILES" (max_open_files g) |}.

Definition load_redis_config (env : string -> option string) (doc : jval) : RedisClient.RedisConfig :=
  let c := RedisClient.default_config in
  let text := getWithEnv get_string convert_string env doc in
  let number := getWithEnv get_i32 convert_int env doc in {|
  RedisClient.host := text "redis.host" "MYCHAT_REDIS_HOST" (RedisClient.host c);
  RedisClient.port := number "redis.port" "MYCHAT_REDIS_PORT" (RedisClient.port c);
  RedisClient.password := text "redis.password" "MYCHAT_REDIS_PASSWORD" (RedisClient.password c);
  RedisClient.db := number "redis.db" "MYCHAT_REDIS_DB" (RedisClient.db c);
  RedisClient.pool_size := number "redis.pool_size" "MYCHAT_REDIS_POOL_SIZE" (RedisClient.pool_size c);
  RedisClient.connect_timeout := number "redis.connect_timeout" "MYCHAT_REDIS_CONNECT_TIMEOUT" (RedisClient.connect_timeout c);
  RedisClient.socket_timeout := number "redis.socket_timeout" "MYCHAT_REDIS_SOCKET_TIMEOUT" (RedisClient.socket_timeout c);
  RedisClient.pool_wait_timeout := RedisClient.pool_wait_timeout c |}.

(** [raise_open_file_limit] on the soft and the hard limit of the process; [set_ok]: the system
    accepts the new one. *)
Definition raise_open_file_limit (set_ok : bool) (target : Z) (limit : Z * Z) : Z * Z :=
  let '(cur, max) := limit in
  if target <=? 0 then limit
  else if target <=? cur then limit
  else let updated := if max <? target then max else target in
       if set_ok then (updated, max) else limit.

(** * Theorems *)

(** A started server listens once; a destroyed one is down. *)
Lemma app_start_inv start app app' ok : server_ app = None -> listened app = [] ->
  app_start start app = (app', ok) ->
  listen_address app' = listen_address app /\
  if ok then grpc_service_ app = true /\ exists port, start (listen_address app) = Some port /\
       server_ app' = Some port /\ selected_port_ app' = port /\ listened app' = [(listen_address app, port)]
  else server_ app' = None /\ listened app' = [].
Proof.
  intros Hs Hl. unfold app_start. rewrite Hs. simpl.
  destruct (grpc_service_ app); simpl; [|by intros [= <- <-]].
  destruct (start (listen_address app)) as [port|]; intros [= <- <-]; simpl; [|done].
  rewrite Hl. simpl. split; [done|]. split; [done|]. by exists port.
Qed.

Lemma app_shutdown_spec app : server_ (app_shutdown app) = None /\ listened (app_shutdown app) = listened app /\
  listen_address (app_shutdown app) = listen_address app.
Proof. unfold app_shutdown, app_is_running. by destruct (server_ app) eqn:E. Qed.

(** The shutdown signals have handlers, and one of them comes. *)
Definition shut_down (m : machine) : Prop :=
  valid_signal m SIGINT && valid_signal m SIGTERM && valid_signal m SIGQUIT = true /\
  Forall (fun s => is_shutdown s = true) (early m) /\ early m <> [].

(** What a [main] comes to: it served at the address of its settings and is down, with exit code
    0; or it never listened, with exit code 1. *)
Definition outcome_of {W} (st : option W) (make : W -> option ServerApp) (start : string -> option Z)
    (r : option (Z * option ServerApp)) : Prop :=
  exists code o, r = Some (code, o) /\ (forall a, o = Some a -> server_ a = None) /\
    ((code = 0 /\ exists g app port a, st = Some g /\ make g = Some app /\ grpc_service_ app = true /\
        start (listen_address app) = Some port /\ o = Some a /\
        listened a = [(listen_address app, port)]) \/
     (code = 1 /\ forall a, o = Some a -> listened a = [])).

Lemma main_returns {W} (parser : CLIParser (W := W)) config_file_of load name make m :
  (forall g app, make g = Some app -> server_ app = None /\ listened app = []) -> shut_down m ->
  outcome_of (settings parser config_file_of load m) make (build_and_start m)
    (main parser config_file_of load name make m).
Proof.
  intros Hmake (Hv & He & Hne). unfold main.
  assert (H1 : forall g, outcome_of g make (build_and_start m) (Some (1, None))).
  { intros g. exists 1, None. split; [done|]. split; [done|]. by right. }
  destruct (settings _ _ _ _) as [g|]; [|apply H1].
  destruct (ServiceIdentity.initializeFromEnv _ _ _).2; simpl; [|apply H1].
  destruct (make g) as [app|] eqn:Em; [|apply H1]. destruct (Hmake _ _ Em) as [Hs Hl].
  destruct (app_start _ app) as [app' ok] eqn:Ea.
  destruct (app_start_inv _ _ _ _ Hs Hl Ea) as [_ Happ]. destruct ok.
  - destruct Happ as (Hg & port & Hp & _ & _ & Hli).
    destruct (last (early m)) as [sig|] eqn:Esig; [|by apply last_None in Esig].
    destruct (graceful_spec (valid_signal m) ShutdownServer SignalHandler.start Hv) as [_ Hreg]; [done..|].
    rewrite (wait_runs _ _ _ (late m) _ Hreg He Esig). simpl.
    destruct (app_shutdown_spec (app_shutdown (app_shutdown app'))) as (Hd1 & Hd2 & _).
    destruct (app_shutdown_spec (app_shutdown app')) as (_ & Hd3 & _).
    destruct (app_shutdown_spec app') as (_ & Hd4 & _).
    eexists 0, _. split; [done|]. split; [by intros a [= <-]|]. left. split; [done|].
    exists g, app, port. eexists. rewrite Hd2, Hd3, Hd4. eauto 10.
  - destruct Happ as [Hs' Hl']. destruct (app_shutdown_spec app') as (Hd1 & Hd2 & _).
    eexists 1, _. split; [done|]. split; [by intros a [= <-]|]. right. split; [done|].
    intros a [= <-]. congruence.
Qed.

(** C39: A server process that gets a shutdown signal returns.  Either its exit code is 0, it
    listened exactly once, at the address of its settings and on the port it was given, and its
    server is down; or its exit code is 1 and it never listened.  This holds of the four services
    and of the push server, whatever the command line, the files, the environment and the answers of
    the libraries; a push server that requires an endpoint and has none never listens. *)
Theorem servers_run s m : shut_down m ->
  outcome_of (settings (configure_cli s (create (initial s))) config_file_ (load_settings s) m)
    (fun g => ServerApp_new (odb_database m) (listen_ g) (build_pg_connection_string g))
    (build_and_start m) (service_main s m) /\
  outcome_of (settings (push_configure_cli (create push_initial)) push_config_file push_load m)
    (fun g => Some (PushServerApp (push_config g)).2) (build_and_start m) (push_main m).
Proof.
  intros Hm. split; apply main_returns; try done.
  - intros g app. unfold ServerApp_new. repeat case_match; by intros [= <-].
  - intros g app [= <-]. done.
Qed.

(** The ports the gateway opens are those of a TCP port, and come from the environment if it has
    them, then from the file; what the command line says is used only when neither has a number.
    Raising the limit of open files never lowers the soft limit and never exceeds the hard one. *)
Theorem gateway_settings env doc g g' set_ok target cur max :
  (gateway_load env doc g = Some g' ->
     1 <= websocket_port g' <= 65535 /\ 1 <= http_port g' <= 65535 /\
     (env "MYCHAT_GATEWAY_WS_PORT" = None -> at_key doc "MYCHAT_GATEWAY_WS_PORT" = None ->
        websocket_port g' = default (websocket_port g) (at_key doc "gateway.websocket_port" ≫= get_i32)) /\
     (forall v n, env "MYCHAT_GATEWAY_WS_PORT" = Some v -> stoi v = Some n -> websocket_port g' = n)) /\
  (0 <= cur <= max -> cur <= (raise_open_file_limit set_ok target (cur, max)).1 <= max /\
     (set_ok = true -> Z.min target max <= (raise_open_file_limit set_ok target (cur, max)).1)).
Proof.
  split.
  - unfold gateway_load. intros (ws & Hw & E)%bind_Some. apply bind_Some in E as (http & Hh & [= <-]). simpl.
    unfold read_port in Hw, Hh. set (p := getWithEnv _ _ _ _ _ "MYCHAT_GATEWAY_WS_PORT" _) in Hw.
    destruct (_ || _) eqn:Ew in Hw; [done|]. destruct (_ || _) eqn:Eh in Hh; [done|].
    apply orb_false_iff in Ew as [Ew1 Ew2]. apply orb_false_iff in Eh as [Eh1 Eh2]. zbool.
    injection Hw as <-. injection Hh as <-. unfold u16. rewrite !Z.mod_small by lia.
    split; [lia|]. split; [lia|]. subst p. unfold getWithEnv, has_key, get. split.
    + intros -> ->. simpl. done.
    + intros v n -> Hn. simpl. unfold convert_int. by rewrite Hn.
  - intros Hr. unfold raise_open_file_limit.
    destruct (target <=? 0) eqn:E1; [zbool; simpl; lia|]. destruct (target <=? cur) eqn:E2; [zbool; simpl; lia|].
    destruct (max <? target) eqn:E3, set_ok; zbool; simpl; split; intros; try done; lia.
Qed.

(** ** On concrete processes *)

Module ServersExample.

Definition dev : jval := JObj [
  ("user", JObj [("mode", JStr "local"); ("listen_address", JStr "0.0.0.0:9001")]);
  ("push", JObj [("listen_address", JStr "0.0.0.0:9101"); ("gateway_delivery_endpoint", JStr "127.0.0.1:9102")])].

(** "user_server --listen 127.0.0.1:7000", with the file above at its default path. *)
Definition process : machine := {|
  getopt_long := fun _ _ _ => ([(76, Some "127.0.0.1:7000")], []);
  argv := ["--listen"; "127.0.0.1:7000"];
  file := fun p => if String.eqb p "config/dev.json" then Some (Document dev) else None;
  surroundings := ServiceIdentity.IdentityExample.host;
  odb_database := fun _ => true;
  build_and_start := fun a => Some 9001;
  valid_signal := fun s => (1 <=? s) && (s <=? 31);
  early := [SIGTERM]; late := [] |}.

Lemma process_shut_down : shut_down process.
Proof. split; [done|]. split; [by repeat constructor|done]. Qed.

Definition served : ServerApp := {|
  listen_address := "0.0.0.0:9001"; grpc_service_ := true; server_ := None; selected_port_ := 0;
  listened := [("0.0.0.0:9001", 9001)] |}.

Lemma servers_run_witness : service_main user_server process = Some (0, Some served) /\
  outcome_of (settings (configure_cli user_server (create (initial user_server))) config_file_
                (load_settings user_server) process)
    (fun g => ServerApp_new (odb_database process) (listen_ g) (build_pg_connection_string g))
    (build_and_start process) (service_main user_server process).
Proof. split; [by vm_compute|]. exact (proj1 (servers_run user_server process process_shut_down)). Defined.

(** The command line loses to the file: the server above was asked to listen on 127.0.0.1:7000,
    and listened on the address of the file. *)
Lemma command_line_loses :
  (listen_ <$> settings (configure_cli user_server (create (initial user_server))) config_file_
     (fun _ _ g => g) process) = Some "127.0.0.1:7000" /\
  (listen_ <$> settings (configure_cli user_server (create (initial user_server))) config_file_
     (load_settings user_server) process) = Some "0.0.0.0:9001".
Proof. by vm_compute. Qed.

(** A port of the command line that does not fit in 16 bits becomes another port. *)
Definition no_env (_ : string) : option string := None.
Definition ask (port : string) : option GatewayRuntimeConfig :=
  let '(p, r) := parse (fun _ => true) (fun _ _ _ => ([(119, Some port)], [])) []
                   (gateway_configure_cli (create gateway_initial)) in
  if success r then gateway_load no_env (JObj []) (world p) else None.

Lemma port_truncated : websocket_port <$> ask "70000" = Some 4464 /\ websocket_port <$> ask "9000" = Some 9000.
Proof. by vm_compute. Qed.

Definition gateway_doc : jval := JObj [("gateway", JObj [("websocket_port", JInt 8101); ("http_port", JInt 8102)])].
Definition from_doc : GatewayRuntimeConfig := {| g_config_file := "config/dev.json"; websocket_port := 8101;
  http_port := 8102; g_log_level := "info"; max_open_files := 65535 |}.

Lemma gateway_settings_witness :
  websocket_port from_doc = 8101 /\ 1 <= http_port from_doc <= 65535 /\
  1024 <= (raise_open_file_limit true 65535 (1024, 4096)).1 <= 4096 /\
  Z.min 65535 4096 <= (raise_open_file_limit true 65535 (1024, 4096)).1.
Proof.
  destruct (gateway_settings no_env gateway_doc gateway_initial from_doc true 65535 1024 4096) as [Hp Hl].
  destruct Hp as (_ & Hh & Hw & _); [by vm_compute|].
  split; [rewrite Hw; by vm_compute|]. split; [exact Hh|].
  destruct Hl as [Hr Hm]; [lia|]. split; [exact Hr|]. by apply Hm.
Defined.

(** The gateway's own [main] reads MYCHAT_REDIS_PORT; a value that is no number is not refused, and
    the default is used, not the file's. *)
Lemma bad_env_number :
  RedisClient.port (load_redis_config (fun k => if String.eqb k "MYCHAT_REDIS_PORT" then Some "x" else None)
    (JObj [("redis", JObj [("port", JInt 6380)])])) = 6379.
Proof. by vm_compute. Qed.
End ServersExample.
