(* ===== verification/Router.v ===== *)
(** The router of the gateway (src/gateway/router/router_mgr.hpp, router.mgr.cpp): HTTP paths
    to commands, services by name and by command range, and the manager that loads both from
    one configuration file. *)
From S2P Require Import Prelude Text Json Config.
From Stdlib Require Import Ascii.
Open Scope Z_scope.

(** * Entries of the configuration

    [v.empty()], and [v.value(key, default)] at the types the loaders read; [value] throws
    ([None]) on a value that is not an object and on a member of another type. *)
Definition empty_value (v : jval) : bool :=
  match v with JNull | JArr [] | JObj [] => true | _ => false end.

Definition value {T} (as_T : jval -> option T) (v : jval) (k : string) (dflt : T) : option T :=
  match v with
  | JObj l => match member k l with Some w => as_T w | None => Some dflt end
  | _ => None
  end.

(** * HTTP routes *)

Record HttpRouteResult := {
  cmd_id : Z;
  service_name : string;
  is_valid : bool;
  err_msg : string;
  status_code : Z
}.
Definition HttpRouteResult_ok (id : Z) (service : string) : HttpRouteResult :=
  {| cmd_id := id; service_name := service; is_valid := true; err_msg := ""; status_code := 200 |}.
(** A failed result as [parse_route] returns it. *)
Definition HttpRouteResult_fail (msg : string) : HttpRouteResult :=
  {| cmd_id := 0; service_name := ""; is_valid := false; err_msg := msg; status_code := 404 |}.

Record HttpRouter := {
  api_prefix : string;
  routes : gmap string HttpRouteResult
}.
Definition HttpRouter_new : HttpRouter := {| api_prefix := ""; routes := ∅ |}.

(** [path.substr(api_prefix_.size())] for a path that starts with the prefix. *)
Fixpoint strip_prefix (p path : string) : option string :=
  match p, path with
  | EmptyString, _ => Some path
  | String c p', String d path' => if Ascii.eqb c d then strip_prefix p' path' else None
  | _, EmptyString => None
  end.

(** The path starts with "/". *)
Definition slashed (s : string) : string :=
  match s with String "/" _ => s | _ => String "/" s end.

(** [HttpRouter::parse_route]; [method] is not used. *)
Definition parse_route (r : HttpRouter) (method path : string) : HttpRouteResult :=
  match strip_prefix (api_prefix r) path with
  | None => HttpRouteResult_fail ("Path does not match API prefix: " +:+ api_prefix r)
  | Some rest =>
      let route_path := slashed rest in
      match routes r !! route_path with
      | None => HttpRouteResult_fail ("Route not found: " +:+ route_path)
      | Some found => HttpRouteResult_ok (cmd_id found) (service_name found)
      end
  end.

(** [routes_.emplace(path, result)]: a path already known keeps its result. *)
Definition emplace `{Countable K} {V} (k : K) (v : V) (m : gmap K V) : gmap K V :=
  match m !! k with Some _ => m | None => <[k := v]> m end.

(** One entry of [http_router.routes]: [None] when reading it throws, [Some None] when it is
    skipped. *)
Definition read_route (v : jval) : option (option (string * HttpRouteResult)) :=
  if empty_value v then Some None else
  path ← value get_string v "path" "";
  cmd ← value get_i32 v "cmd_id" 0;
  service ← value get_string v "service_name" "";
  let cmd_id := u32 cmd in
  Some (if bool_decide (path = ""%string) || (cmd_id =? 0) || bool_decide (service = ""%string) then None
        else Some (path, HttpRouteResult_ok cmd_id service)).

(** The loop over an array of entries: it stops at the first that throws. *)
Fixpoint load_entries {A S} (read : A -> option (option S)) (l : list A) : list S * bool :=
  match l with
  | [] => ([], true)
  | v :: l' =>
      match read v with
      | None => ([], false)
      | Some e => let '(es, ok) := load_entries read l' in (option_list e ++ es, ok)
      end
  end.

(** The entries an array of the document holds, in the order of the loop's index; the size is
    narrowed to [int]. *)
Definition entries (doc : jval) (key : string) : list jval :=
  map (fun i => get_array_item get_json doc key i (JStr ""))
      (seq 0 (Z.to_nat (i32 (Z.of_nat (get_array_size doc key))))).

Definition add_route (m : gmap string HttpRouteResult) (e : string * HttpRouteResult) :=
  emplace e.1 e.2 m.

(** [HttpRouter::load_config]. *)
Definition HttpRouter_load_config (f : config_file) (r : HttpRouter) : HttpRouter * bool :=
  match ConfigManager f with
  | None => (r, false)
  | Some config =>
      let prefix := get get_string config "http_router.api_prefix" "/api/v1"%string in
      let '(es, ok) := load_entries read_route (entries config "http_router.routes") in
      ({| api_prefix := prefix; routes := foldl add_route (routes r) es |}, ok)
  end.

Definition get_route_count (r : HttpRouter) : nat := size (routes r).

(** * Services *)

Record ServiceRouteResult := {
  s_service_name : string;
  s_endpoint : string;
  s_timeout_ms : Z;
  s_max_connections : Z;
  s_is_valid : bool;
  s_err_msg : string
}.
Definition ServiceRouteResult_fail (msg : string) : ServiceRouteResult := {|
  s_service_name := ""; s_endpoint := ""; s_timeout_ms := 3000; s_max_connections := 10;
  s_is_valid := false; s_err_msg := msg |}.
Definition ServiceRouteResult_ok (name ep : string) (timeout max_conn : Z) : ServiceRouteResult := {|
  s_service_name := name; s_endpoint := ep; s_timeout_ms := timeout; s_max_connections := max_conn;
  s_is_valid := true; s_err_msg := "" |}.

Record ServiceRouter := {
  services : gmap string ServiceRouteResult;
  cmds : gmap (Z * Z) string
}.
Definition ServiceRouter_new : ServiceRouter := {| services := ∅; cmds := ∅ |}.

(** [cmd_range]: an element that is missing reads as null, which is not a number. *)
Definition read_range (v : jval) : option (Z * Z) :=
  match v with
  | JArr l =>
      lo ← get_u32 (default JNull (l !! 0%nat));
      hi ← get_u32 (default JNull (l !! 1%nat));
      Some (lo, hi)
  | _ => Some (0, 0)
  end.

(** One entry of [service_router.services]; a [cmd_range] left out is an empty array. *)
Definition read_service (v : jval) : option (option (ServiceRouteResult * (Z * Z))) :=
  if empty_value v then Some None else
  name ← value get_string v "service_name" "";
  ep ← value get_string v "endpoint" "";
  timeout ← value get_i32 v "timeout_ms" 3000;
  max_conn ← value get_i32 v "max_connections" 10;
  range_json ← value get_json v "cmd_range" (JArr []);
  range ← read_range range_json;
  Some (if bool_decide (name = ""%string) || bool_decide (ep = ""%string) then None
        else Some (ServiceRouteResult_ok name ep (u32 timeout) (u32 max_conn), range)).

Definition add_service (r : ServiceRouter) (e : ServiceRouteResult * (Z * Z)) : ServiceRouter :=
  {| services := emplace (s_service_name e.1) e.1 (services r);
     cmds := emplace e.2 (s_service_name e.1) (cmds r) |}.

(** [ServiceRouter::load_config]. *)
Definition ServiceRouter_load_config (f : config_file) (r : ServiceRouter) : ServiceRouter * bool :=
  match ConfigManager f with
  | None => (r, false)
  | Some config =>
      let '(es, ok) := load_entries read_service (entries config "service_router.services") in
      (foldl add_service r es, ok)
  end.

Definition get_service_count (r : ServiceRouter) : nat := size (services r).

(** [find_service(service_name)]. *)
Definition find_service (r : ServiceRouter) (name : string) : ServiceRouteResult :=
  if bool_decide (name = ""%string) then ServiceRouteResult_fail "Service name is empty" else
  match services r !! name with
  | None => ServiceRouteResult_fail ("Service not found: " +:+ name)
  | Some s => ServiceRouteResult_ok (s_service_name s) (s_endpoint s) (s_timeout_ms s) (s_max_connections s)
  end.

Definition in_range (cmd : Z) (range : Z * Z) : bool := (range.1 <=? cmd) && (cmd <=? range.2).

(** [find_service(cmd)]: the table of ranges is an unordered map, [scan] is the order of its
    iteration; [services_[name]] inserts a default entry for a name it does not hold. *)
Definition default_service : ServiceRouteResult := {|
  s_service_name := ""; s_endpoint := ""; s_timeout_ms := 3000; s_max_connections := 10;
  s_is_valid := false; s_err_msg := "" |}.

Section Scan.
Context (scan : gmap (Z * Z) string -> list ((Z * Z) * string)).

Definition find_service_cmd (r : ServiceRouter) (cmd : Z) : ServiceRouteResult * ServiceRouter :=
  match find (fun route => in_range cmd route.1) (scan (cmds r)) with
  | None => (ServiceRouteResult_fail "command not found", r)
  | Some (_, name) =>
      if bool_decide (name = ""%string) then (ServiceRouteResult_fail "command not found", r) else
      let s := default default_service (services r !! name) in
      (ServiceRouteResult_ok (s_service_name s) (s_endpoint s) (s_timeout_ms s) (s_max_connections s),
       {| services := emplace name default_service (services r); cmds := cmds r |})
  end.
End Scan.

(** * The manager *)

Record RouterManager := {
  http_router : HttpRouter;
  service_router : ServiceRouter
}.

(** [reload_config]: [f] is the content of the file at the time of the call. *)
Definition reload_config (f : config_file) (m : RouterManager) : RouterManager * bool :=
  let '(h, http_ok) := HttpRouter_load_config f (http_router m) in
  let '(s, service_ok) := ServiceRouter_load_config f (service_router m) in
  ({| http_router := h; service_router := s |}, http_ok && service_ok).

(** [RouterManager::RouterManager]. *)
Definition RouterManager_new (f : config_file) : RouterManager :=
  (reload_config f {| http_router := HttpRouter_new; service_router := ServiceRouter_new |}).1.

Record CompleteRouteResult := {
  c_cmd_id : Z;
  c_service_name : string;
  c_endpoint : string;
  c_timeout_ms : Z;
  c_max_connections : Z;
  c_is_valid : bool;
  c_err_msg : string;
  http_status_code : Z
}.
Definition route_failed (code : Z) (msg : string) : CompleteRouteResult := {|
  c_cmd_id := 0; c_service_name := ""; c_endpoint := ""; c_timeout_ms := 3000;
  c_max_connections := 10; c_is_valid := false; c_err_msg := msg; http_status_code := code |}.

(** [RouterManager::route_request]. *)
Definition route_request (m : RouterManager) (method path : string) : CompleteRouteResult :=
  let http_result := parse_route (http_router m) method path in
  if negb (is_valid http_result) then route_failed (status_code http_result) (err_msg http_result) else
  let service_result := find_service (service_router m) (service_name http_result) in
  if negb (s_is_valid service_result) then route_failed 503 (s_err_msg service_result) else {|
    c_cmd_id := cmd_id http_result; c_service_name := service_name http_result;
    c_endpoint := s_endpoint service_result; c_timeout_ms := s_timeout_ms service_result;
    c_max_connections := s_max_connections service_result; c_is_valid := true; c_err_msg := "";
    http_status_code := 200 |}.

Record RouterStats := { http_route_count : nat; service_count : nat }.
(** [RouterManager::get_stats], without the file name it repeats. *)
Definition get_stats (m : RouterManager) : RouterStats :=
  {| http_route_count := get_route_count (http_router m);
     service_count := get_service_count (service_router m) |}.

(** * The reference: one list of entries, the first of a name counts *)

Definition reloads (m : RouterManager) (fs : list config_file) : RouterManager :=
  foldl (fun m f => (reload_config f m).1) m fs.

(** What a file adds: the entries before the first that cannot be read. *)
Definition file_routes (f : config_file) : list (string * HttpRouteResult) :=
  match ConfigManager f with
  | None => []
  | Some c => (load_entries read_route (entries c "http_router.routes")).1
  end.
Definition file_services (f : config_file) : list (ServiceRouteResult * (Z * Z)) :=
  match ConfigManager f with
  | None => []
  | Some c => (load_entries read_service (entries c "service_router.services")).1
  end.
(** The prefix of the last file that could be parsed. *)
Definition file_prefix (p : string) (f : config_file) : string :=
  match ConfigManager f with
  | None => p
  | Some c => get get_string c "http_router.api_prefix" "/api/v1"%string
  end.

Definition first_of {A} (key : A -> string) (k : string) (l : list A) : option A :=
  find (fun x => bool_decide (key x = k)) l.

Definition reference_route (files : list config_file) (path : string) : CompleteRouteResult :=
  let prefix := foldl file_prefix EmptyString files in
  match strip_prefix prefix path with
  | None => route_failed 404 ("Path does not match API prefix: " +:+ prefix)
  | Some rest =>
      match first_of fst (slashed rest) (files ≫= file_routes) with
      | None => route_failed 404 ("Route not found: " +:+ slashed rest)
      | Some (_, r) =>
          match first_of (fun e => s_service_name e.1) (service_name r) (files ≫= file_services) with
          | None => route_failed 503 ("Service not found: " +:+ service_name r)
          | Some (s, _) => {|
              c_cmd_id := cmd_id r; c_service_name := service_name r; c_endpoint := s_endpoint s;
              c_timeout_ms := s_timeout_ms s; c_max_connections := s_max_connections s;
              c_is_valid := true; c_err_msg := ""; http_status_code := 200 |}
          end
      end
  end.

(** ** Tables built by [emplace] *)

Lemma emplace_lookup `{Countable K} {V} (k j : K) (v : V) (m : gmap K V) :
  emplace k v m !! j = match m !! j with Some w => Some w | None => if decide (k = j) then Some v else None end.
Proof.
  unfold emplace. destruct (m !! k) eqn:E.
  - destruct (m !! j) eqn:E'; [done|]. case_decide; [congruence|done].
  - rewrite lookup_insert. case_decide; [subst; by rewrite E|]. by destruct (m !! j).
Qed.

Lemma foldl_emplace {A V} (key : A -> string) (val : A -> V) (l : list A) (m : gmap string V) k :
  foldl (fun m e => emplace (key e) (val e) m) m l !! k =
  match m !! k with Some w => Some w | None => val <$> first_of key k l end.
Proof.
  revert m. induction l as [|e l IH]; intros m; simpl; [by destruct (m !! k)|].
  rewrite IH, emplace_lookup. destruct (m !! k); [done|].
  unfold first_of. simpl. case_decide as E; [by rewrite bool_decide_eq_true_2|].
  by rewrite bool_decide_eq_false_2.
Qed.

Lemma foldl_add_service l r : services (foldl add_service r l) =
  foldl (fun m e => emplace (s_service_name e.1) e.1 m) (services r) l.
Proof. revert r. induction l as [|e l IH]; intros r; [done|]. simpl. by rewrite IH. Qed.

Lemma first_of_app {A} (key : A -> string) k l1 l2 :
  first_of key k (l1 ++ l2) = match first_of key k l1 with Some x => Some x | None => first_of key k l2 end.
Proof.
  unfold first_of. induction l1 as [|x l1 IH]; simpl; [done|]. by destruct (bool_decide _).
Qed.

Lemma first_of_elem {A} (key : A -> string) k l x : first_of key k l = Some x -> x ∈ l /\ key x = k.
Proof.
  unfold first_of. intros H. apply find_some in H as [Hin Hk].
  split; [by apply list_elem_of_In|by apply bool_decide_eq_true in Hk].
Qed.

(** ** What a load leaves *)

Lemma reload_prefix f m : api_prefix (http_router (reload_config f m).1) = file_prefix (api_prefix (http_router m)) f.
Proof.
  unfold reload_config, HttpRouter_load_config, ServiceRouter_load_config, file_prefix.
  destruct (ConfigManager f); [|done]. by repeat destruct (load_entries _ _).
Qed.

Lemma reload_routes f m : routes (http_router (reload_config f m).1) =
  foldl add_route (routes (http_router m)) (file_routes f).
Proof.
  unfold reload_config, HttpRouter_load_config, ServiceRouter_load_config, file_routes.
  destruct (ConfigManager f); [|done]. by repeat destruct (load_entries _ _).
Qed.

Lemma reload_services f m : service_router (reload_config f m).1 =
  foldl add_service (service_router m) (file_services f).
Proof.
  unfold reload_config, HttpRouter_load_config, ServiceRouter_load_config, file_services.
  destruct (ConfigManager f); [|done]. by repeat destruct (load_entries _ _).
Qed.

Lemma reloads_prefix fs m : api_prefix (http_router (reloads m fs)) = foldl file_prefix (api_prefix (http_router m)) fs.
Proof. revert m. induction fs as [|f fs IH]; intros m; [done|]. simpl. by rewrite IH, reload_prefix. Qed.

Lemma reloads_routes fs m k : routes (http_router (reloads m fs)) !! k =
  match routes (http_router m) !! k with
  | Some r => Some r | None => snd <$> first_of fst k (fs ≫= file_routes) end.
Proof.
  revert m. induction fs as [|f fs IH]; intros m; [simpl; by destruct (_ !! k)|].
  simpl. rewrite IH, reload_routes. unfold add_route. rewrite foldl_emplace, first_of_app.
  destruct (routes _ !! k); [done|]. by destruct (first_of fst k (file_routes f)).
Qed.

Lemma reloads_services fs m k : services (service_router (reloads m fs)) !! k =
  match services (service_router m) !! k with
  | Some r => Some r
  | None => fst <$> first_of (fun e => s_service_name e.1) k (fs ≫= file_services) end.
Proof.
  revert m. induction fs as [|f fs IH]; intros m; [simpl; by destruct (_ !! k)|].
  simpl. rewrite IH, reload_services, foldl_add_service, foldl_emplace, first_of_app.
  destruct (services _ !! k); [done|]. by destruct (first_of _ k (file_services f)).
Qed.

(** ** Every entry kept is complete *)

Lemma load_entries_elem {A S} (read : A -> option (option S)) l e :
  e ∈ (load_entries read l).1 -> exists v, v ∈ l /\ read v = Some (Some e).
Proof.
  induction l as [|v l IH]; simpl; [by intros ?%not_elem_of_nil|].
  destruct (read v) as [o|] eqn:E; [|by intros ?%not_elem_of_nil].
  destruct (load_entries read l) as [es ok]. simpl in *. rewrite elem_of_app. intros [H|H].
  - destruct o as [x|]; simpl in H; [|by apply not_elem_of_nil in H].
    apply list_elem_of_singleton in H as ->. exists v. split; [by left|done].
  - destruct (IH H) as (w & Hw & Er). exists w. split; [by right|done].
Qed.

Lemma file_routes_complete f p r : (p, r) ∈ file_routes f ->
  is_valid r = true /\ service_name r <> ""%string /\ cmd_id r <> 0 /\ p <> ""%string.
Proof.
  unfold file_routes. destruct (ConfigManager f) as [c|]; [|by intros ?%not_elem_of_nil].
  intros (v & _ & H)%load_entries_elem. revert H. unfold read_route.
  destruct (empty_value v); [done|].
  destruct (value get_string v "path" _) as [path|]; [simpl|done].
  destruct (value get_i32 v _ _) as [z|]; [simpl|done].
  destruct (value get_string v "service_name" _) as [s|]; [simpl|done].
  destruct (_ || _) eqn:E; [done|]. intros [= <- <-].
  apply orb_false_elim in E as [[E1 E2]%orb_false_elim E3].
  apply bool_decide_eq_false in E1, E3. apply Z.eqb_neq in E2. done.
Qed.

Lemma file_services_complete f s rg : (s, rg) ∈ file_services f ->
  s_is_valid s = true /\ s_service_name s <> ""%string /\ s_endpoint s <> ""%string.
Proof.
  unfold file_services. destruct (ConfigManager f) as [c|]; [|by intros ?%not_elem_of_nil].
  intros (v & _ & H)%load_entries_elem. revert H. unfold read_service.
  destruct (empty_value v); [done|].
  destruct (value get_string v "service_name" _) as [name|]; [simpl|done].
  destruct (value get_string v "endpoint" _) as [ep|]; [simpl|done].
  destruct (value get_i32 v "timeout_ms" _) as [z|]; [simpl|done].
  destruct (value get_i32 v "max_connections" _) as [z'|]; [simpl|done].
  destruct (value get_json v _ _) as [rj|]; [simpl|done]. destruct (read_range rj); [simpl|done].
  destruct (_ || _) eqn:E; [done|]. intros [= <- <-].
  apply orb_false_elim in E as [E1 E2]. by apply bool_decide_eq_false in E1, E2.
Qed.

(** C21: After any loads of any files (missing, malformed, with bad entries), the router answers
    every request as the reference that keeps one list of entries in the order they were read
    and takes the first with the path, then the first with the service name: 404 for a path
    outside the prefix or without a route, 503 for a route whose service is unknown, else 200
    with the command of the route and the endpoint and limits of the service.  In particular a
    later load never changes or removes a route or a service: only the prefix is updated. *)
Theorem routing_reference f fs method path :
  route_request (reloads (RouterManager_new f) fs) method path = reference_route (f :: fs) path.
Proof.
  set (m := reloads _ fs).
  assert (Hm : m = reloads {| http_router := HttpRouter_new; service_router := ServiceRouter_new |} (f :: fs))
    by done.
  rewrite Hm. clear m Hm. generalize (f :: fs). intros all.
  unfold route_request, reference_route, parse_route. rewrite reloads_prefix. simpl api_prefix.
  destruct (strip_prefix _ path) as [rest|]; [|done].
  rewrite reloads_routes. simpl routes. rewrite lookup_empty.
  destruct (first_of fst (slashed rest) _) as [[p r]|] eqn:E; [|done]. cbn [fmap option_fmap option_map snd].
  apply first_of_elem in E as [(g & Hg & _)%list_elem_of_bind _].
  apply file_routes_complete in Hg as (_ & Hs & _). simpl. unfold find_service.
  rewrite bool_decide_eq_false_2 by done. rewrite reloads_services. simpl services. rewrite lookup_empty.
  by destruct (first_of _ (service_name r) _) as [[s rg]|].
Qed.

(** ** Commands *)

(** Every range leads to a service that is known under its name. *)
Definition services_ok (r : ServiceRouter) : Prop :=
  (forall k s, services r !! k = Some s -> s_service_name s = k /\ k <> ""%string) /\
  (forall rg name, cmds r !! rg = Some name -> is_Some (services r !! name)).

Lemma add_service_ok r e : s_service_name e.1 <> ""%string -> services_ok r -> services_ok (add_service r e).
Proof.
  intros Hne [H1 H2]. split; simpl; intros k s; rewrite !emplace_lookup.
  - destruct (services r !! k) eqn:E; [intros [= <-]; by apply H1|].
    case_decide as Ek; [|done]. intros [= <-]. by subst.
  - destruct (cmds r !! k) eqn:E; [intros [= <-]; destruct (H2 _ _ E) as [? ->]; by eexists|].
    case_decide; [|done]. intros [= <-]. destruct (services r !! _); [by eexists|].
    rewrite decide_True by done. by eexists.
Qed.

Lemma reloads_ok fs m : services_ok (service_router m) -> services_ok (service_router (reloads m fs)).
Proof.
  revert m. induction fs as [|f fs IH]; intros m H; [done|]. simpl. apply IH.
  rewrite reload_services. pose proof (file_services_complete f) as Hc. revert H Hc.
  generalize (service_router m). induction (file_services f) as [|e l IHl]; intros r H Hc; [done|].
  simpl. apply IHl; [|intros s rg Hin; apply (Hc s rg); by right].
  apply add_service_ok; [|done]. destruct e as [s rg]. apply (Hc s rg). by left.
Qed.

Lemma loaded_ok f fs : services_ok (service_router (reloads (RouterManager_new f) fs)).
Proof.
  change (reloads (RouterManager_new f) fs) with
    (reloads {| http_router := HttpRouter_new; service_router := ServiceRouter_new |} (f :: fs)).
  apply reloads_ok. by split.
Qed.

(** Whatever the order in which the table of ranges is scanned, a command is answered by a
    known service, one of whose ranges holds it, or refused when no range holds it; looking a
    command up never inserts the default entry of [services_[name]].  Where the ranges that
    hold the command name one service, that service is the answer. *)
Theorem command_routing scan f fs cmd
    (Hscan : forall t : gmap (Z * Z) string, scan t ≡ₚ map_to_list t) :
  let r := service_router (reloads (RouterManager_new f) fs) in
  let held rg name := cmds r !! rg = Some name /\ in_range cmd rg = true in
  exists answer, find_service_cmd scan r cmd = (answer, r) /\
    (answer = ServiceRouteResult_fail "command not found" /\ (forall rg name, ~ held rg name) \/
     exists rg name s, held rg name /\ services r !! name = Some s /\
       answer = ServiceRouteResult_ok name (s_endpoint s) (s_timeout_ms s) (s_max_connections s) /\
       (forall only, (forall rg' name', held rg' name' -> name' = only) -> name = only)).
Proof.
  simpl. pose proof (loaded_ok f fs) as [H1 H2]. set (r := service_router _) in *.
  unfold find_service_cmd. destruct (find _ (scan (cmds r))) as [[rg name]|] eqn:E.
  - apply find_some in E as [Hin Hr]. apply list_elem_of_In in Hin. rewrite Hscan in Hin.
    apply elem_of_map_to_list in Hin. destruct (H2 _ _ Hin) as [s Hs]. destruct (H1 _ _ Hs) as [Hn Hne].
    rewrite bool_decide_eq_false_2, Hs by done. simpl. eexists. split.
    + unfold emplace. rewrite Hs. by destruct r.
    + right. exists rg, name, s. rewrite Hn. split_and!; [done..|]. intros only Ho. by apply (Ho rg).
  - eexists. split; [done|]. left. split; [done|]. intros rg name [Hc Hr].
    assert (In (rg, name) (scan (cmds r))) as Hin.
    { apply list_elem_of_In. by rewrite Hscan, elem_of_map_to_list. }
    apply (find_none _ _ E) in Hin. simpl in Hin. congruence.
Qed.

(** * The configuration of src/gateway/router/config *)
Module RouterExamples.
Open Scope string_scope.
Definition route_entry (path : string) (cmd : Z) (service : string) : jval :=
  JObj [("path", JStr path); ("cmd_id", JInt cmd); ("service_name", JStr service)].
Definition service_entry (name ep : string) (timeout conns lo hi : Z) : jval :=
  JObj [("service_name", JStr name); ("endpoint", JStr ep); ("timeout_ms", JInt timeout);
        ("max_connections", JInt conns); ("cmd_range", JArr [JInt lo; JInt hi])].
Definition config : config_file := Document (JObj [
  ("http_router", JObj [("api_prefix", JStr "/api/v1"); ("routes", JArr [
      route_entry "/auth/login" 1001 "user_service"; route_entry "/auth/logout" 1002 "user_service";
      route_entry "/message/send" 2001 "message_service"; route_entry "/friend/list" 3003 "friend_service"])]);
  ("service_router", JObj [("services", JArr [
      service_entry "user_service" "localhost:8001" 5000 10 1001 1007;
      service_entry "message_service" "localhost:8002" 3000 20 2001 2007;
      service_entry "friend_service" "localhost:8003" 3000 15 3001 3007;
      service_entry "group_service" "localhost:8004" 3000 15 4001 4012])])]).
Definition router : RouterManager := RouterManager_new config.

Example login_route : route_request router "POST" "/api/v1/auth/login" = {|
  c_cmd_id := 1001; c_service_name := "user_service"; c_endpoint := "localhost:8001";
  c_timeout_ms := 5000; c_max_connections := 10; c_is_valid := true; c_err_msg := "";
  http_status_code := 200 |}.
Proof. vm_compute. reflexivity. Qed.

(** The prefix is compared as text: no separator is needed after it. *)
Example joined_path : route_request router "DELETE" "/api/v1auth/login" =
  route_request router "POST" "/api/v1/auth/login".
Proof. vm_compute. reflexivity. Qed.

(** An entry without a range ends the load: the services after it are unknown. *)
Definition rangeless : config_file := Document (JObj [
  ("http_router", JObj [("routes", JArr [route_entry "/message/send" 2001 "message_service"])]);
  ("service_router", JObj [("services", JArr [
      JObj [("service_name", JStr "user_service"); ("endpoint", JStr "localhost:8001")];
      service_entry "message_service" "localhost:8002" 3000 20 2001 2007])])]).

Example rangeless_load :
  (reload_config rangeless {| http_router := HttpRouter_new; service_router := ServiceRouter_new |}).2 = false /\
  http_status_code (route_request (RouterManager_new rangeless) "POST" "/api/v1/message/send") = 503.
Proof. vm_compute. done. Qed.

(** A reload with another endpoint answers the old one. *)
Definition moved : config_file := Document (JObj [("service_router", JObj [("services", JArr [
  service_entry "user_service" "localhost:9001" 5000 10 1001 1007])])]).

Example reload_keeps_endpoint :
  c_endpoint (route_request (reloads router [moved]) "POST" "/api/v1/auth/login") = "localhost:8001".
Proof. vm_compute. reflexivity. Qed.

Lemma command_routing_witness :
  (forall t : gmap (Z * Z) string, map_to_list t ≡ₚ map_to_list t) /\
  exists answer, find_service_cmd map_to_list (service_router (reloads router [moved])) 2001 =
    (answer, service_router (reloads router [moved])) /\ s_endpoint answer = "localhost:8002".
Proof.
  split; [done|].
  destruct (command_routing map_to_list config [moved] 2001 (fun t => Permutation_refl _))
    as (answer & E & _).
  exists answer. split; [exact E|]. vm_compute in E. injection E as <-. reflexivity.
Defined.
End RouterExamples.
