(* ===== verification/MessageParser.v ===== *)
(** The message parser of the gateway (src/gateway/message_processor/unified_message.hpp,
    message_parser.hpp, message_parser.cpp): HTTP requests and web socket frames to one
    message type, with the counters of the parser. *)
From S2P Require Import Prelude Text Json Config Crc32 ProtobufRuntime ProtobufCodec Router.
From Stdlib Require Import Ascii.
Open Scope Z_scope.

(** * The unified message *)

Inductive Protocol := HTTP | WEBSOCKET.

Record SessionContext := {
  protocol : Protocol;
  session_id : string;
  client_ip : string;
  receive_time : Z;
  http_method : string;
  original_path : string;
  raw_body : string
}.

(** [has_protobuf_message] is false on every message the parser builds: it never sets one. *)
Record UnifiedMessage := {
  header : IMHeader;
  json_body : string;
  raw_protobuf_data : bytes;
  protobuf_type_name : bytes;
  protobuf_payload : bytes;
  session_context : SessionContext
}.

Definition get_cmd_id (m : UnifiedMessage) : Z := ProtobufCodec.cmd_id (header m).
Definition get_token (m : UnifiedMessage) : string := token (header m).
Definition get_device_id (m : UnifiedMessage) : string := device_id (header m).
Definition get_session_id (m : UnifiedMessage) : string := session_id (session_context m).
Definition is_http (m : UnifiedMessage) : bool :=
  match protocol (session_context m) with HTTP => true | WEBSOCKET => false end.
Definition is_websocket (m : UnifiedMessage) : bool :=
  match protocol (session_context m) with HTTP => false | WEBSOCKET => true end.

(** * Requests of cpp-httplib

    [headers] in the order the multimap's [find] meets them, names compared without case;
    [params] in the order of the multimap. *)
Record Request := {
  method : string;
  path : string;
  body : string;
  headers : list (string * string);
  params : list (string * string)
}.

Definition find_header (req : Request) (name : string) : option string :=
  snd <$> find (fun h => bool_decide (toLowerCase h.1 = toLowerCase name)) (headers req).
Definition find_param (req : Request) (name : string) : option string :=
  snd <$> find (fun h => bool_decide (h.1 = name)) (params req).

(** [extract_token]: the text behind "Bearer ", or the whole header. *)
Definition extract_token (req : Request) : string :=
  match find_header req "Authorization" with
  | Some auth_value => match strip_prefix "Bearer " auth_value with Some t => t | None => auth_value end
  | None => ""
  end.

(** A header, then a parameter or a second header, then a default. *)
Definition first_some (o1 o2 : option string) (dflt : string) : string :=
  match o1 with Some v => v | None => match o2 with Some v => v | None => dflt end end.
Definition extract_device_id (req : Request) : string :=
  first_some (find_header req "X-Device-ID") (find_param req "device_id") "".
Definition extract_platform (req : Request) : string :=
  first_some (find_header req "X-Platform") (find_param req "platform") "unknown".
Definition extract_client_ip (req : Request) : string :=
  first_some (find_header req "X-Forwarded-For") (find_header req "X-Real-IP") "unknown".

(** * Results and counters *)

(** [ParseResult], with its error codes; [INVALID_PARSE] is [ParseResult::INVALID_REQUEST]. *)
Inductive ParseResult :=
| success_result (message : UnifiedMessage)
| error_result (code : Z) (error_message : string).

Definition ROUTING_FAILED : Z := 1001.
Definition DECODE_FAILED : Z := 1002.
Definition INVALID_PARSE : Z := 1003.
Definition PARSE_ERROR : Z := 1999.

Record MessageParser := {
  router_manager : RouterManager;
  http_requests_parsed : Z;
  websocket_messages_parsed : Z;
  routing_failures : Z;
  decode_failures : Z;
  session_counter : Z          (* static: shared by the parsers of the process *)
}.

Definition upd (f : Z -> Z -> Z -> Z -> Z -> MessageParser) (p : MessageParser) : MessageParser :=
  f (http_requests_parsed p) (websocket_messages_parsed p) (routing_failures p) (decode_failures p)
    (session_counter p).
Definition http_parsed (p : MessageParser) : MessageParser :=
  upd (fun h w r d s => Build_MessageParser (router_manager p) (u64 (h + 1)) w r d s) p.
Definition websocket_parsed (p : MessageParser) : MessageParser :=
  upd (fun h w r d s => Build_MessageParser (router_manager p) h (u64 (w + 1)) r d s) p.
Definition routing_failed (p : MessageParser) : MessageParser :=
  upd (fun h w r d s => Build_MessageParser (router_manager p) h w (u64 (r + 1)) d s) p.
Definition decode_failed (p : MessageParser) : MessageParser :=
  upd (fun h w r d s => Build_MessageParser (router_manager p) h w r (u64 (d + 1)) s) p.
Definition next_session (p : MessageParser) : MessageParser :=
  upd (fun h w r d s => Build_MessageParser (router_manager p) h w r d (u64 (s + 1))) p.

(** [MessageParser::MessageParser(routerMgr)]; [counter] is the static counter. *)
Definition MessageParser_new (m : RouterManager) (counter : Z) : MessageParser :=
  Build_MessageParser m 0 0 0 0 counter.
(** [MessageParser::MessageParser(config_file)]: [None] when it throws. *)
Definition MessageParser_from (config_path : string) (f : config_file) (counter : Z) : option MessageParser :=
  if bool_decide (config_path = ""%string) then None else Some (MessageParser_new (RouterManager_new f) counter).

Definition reset_stats (p : MessageParser) : MessageParser :=
  Build_MessageParser (router_manager p) 0 0 0 0 (session_counter p).
Record ParserStats := { parsed_http : Z; parsed_websocket : Z; failed_routing : Z; failed_decode : Z;
  router_stats : RouterStats }.
Definition parser_stats (p : MessageParser) : ParserStats := {|
  parsed_http := http_requests_parsed p; parsed_websocket := websocket_messages_parsed p;
  failed_routing := routing_failures p; failed_decode := decode_failures p;
  router_stats := get_stats (router_manager p) |}.
Definition parser_reload (f : config_file) (p : MessageParser) : MessageParser * bool :=
  let '(m, ok) := reload_config f (router_manager p) in
  (upd (fun h w r d s => Build_MessageParser m h w r d s) p, ok).

(** [generate_session_id] and [generate_http_session_id]: the id from the counter after its
    increment. *)
Definition session_name (prefix : string) (p : MessageParser) : string :=
  prefix +:+ dec (session_counter (next_session p)).
(** [session_id.empty() ? generate... : session_id]. *)
Definition choose_session (prefix session_id : string) (p : MessageParser) : string * MessageParser :=
  if bool_decide (session_id = ""%string) then (session_name prefix p, next_session p) else (session_id, p).

(** ** HTTP requests *)

(** [s.c_str()] read as a C string. *)
Fixpoint c_str (s : string) : string :=
  match s with
  | EmptyString => EmptyString
  | String c s' => if Ascii.eqb c zero then EmptyString else String c (c_str s')
  end.


Definition contains (s sub : string) : bool :=
  match String.index 0 sub s with Some _ => true | None => false end.

Definition http_header (cmd : Z) (req : Request) (timestamp : Z) : IMHeader := {|
  version := "1.0"; seq_ := 0; ProtobufCodec.cmd_id := cmd; from_uid := ""; to_uid := "";
  ProtobufCodec.timestamp := timestamp; token := extract_token req;
  device_id := extract_device_id req; platform := extract_platform req |}.

Definition set_from_uid (uid : string) (h : IMHeader) : IMHeader := {|
  version := version h; seq_ := seq_ h; ProtobufCodec.cmd_id := ProtobufCodec.cmd_id h;
  from_uid := uid; to_uid := to_uid h; ProtobufCodec.timestamp := ProtobufCodec.timestamp h;
  token := token h; device_id := device_id h; platform := platform h |}.
Definition set_to_uid (uid : string) (h : IMHeader) : IMHeader := {|
  version := version h; seq_ := seq_ h; ProtobufCodec.cmd_id := ProtobufCodec.cmd_id h;
  from_uid := from_uid h; to_uid := uid; ProtobufCodec.timestamp := ProtobufCodec.timestamp h;
  token := token h; device_id := device_id h; platform := platform h |}.

Definition http_context (req : Request) (sid : string) (now : Z) : SessionContext := {|
  protocol := HTTP; session_id := sid; client_ip := extract_client_ip req; receive_time := now;
  http_method := method req; original_path := path req; raw_body := body req |}.

Definition http_message (h : IMHeader) (json_body : string) (c : SessionContext) : UnifiedMessage := {|
  header := h; json_body := json_body; raw_protobuf_data := []; protobuf_type_name := [];
  protobuf_payload := []; session_context := c |}.

Section Parse.
Context `{Json}.

(** The query parameters as one object; the last of a name counts. *)
Definition params_members (req : Request) : members :=
  foldl (fun l p => put_member p.1 (JStr p.2) l) [] (params req).
Definition params_json (req : Request) : option string := dump (obj (params_members req)).

(** One uid of the body: [None] when reading it throws.  [convert] reads a value that is not
    a string. *)
Definition set_uid (convert : jval -> option string) (set : string -> IMHeader -> IMHeader)
    (key : string) (j : json) (h : IMHeader) : option IMHeader :=
  match find_member j key with
  | None => Some h
  | Some v => uid ← match v with JStr s => Some s | _ => convert v end; Some (set uid h)
  end.
Definition set_uids (convert : jval -> option string) (j : json) (h : IMHeader) : option IMHeader :=
  h ← set_uid convert set_from_uid "from_uid" j h;
  set_uid convert set_to_uid "to_uid" j h.

(** [parse_http_request]: [None] is [nullptr]; [now] is the system clock in milliseconds. *)
Definition parse_http_request (req : Request) (sid : string) (now : Z) (p : MessageParser)
  : option UnifiedMessage * MessageParser :=
  let route_result := parse_route (http_router (router_manager p)) (method req) (path req) in
  if negb (is_valid route_result) then (None, routing_failed p) else
  let h := http_header (Router.cmd_id route_result) req (u64 now) in
  let '(sid, p) := choose_session "http_" sid p in
  let c := http_context req sid now in
  let parsed :=
    message_body ←
      (if bool_decide (method req = "POST"%string) && negb (bool_decide (body req = ""%string))
       then Some (body req)
       else if bool_decide (method req = "GET"%string) && negb (bool_decide (params req = []))
       then params_json req else Some ""%string);
    get_uid ← parse (c_str message_body);
    h ← set_uids (fun _ => None) get_uid h;
    Some (http_message h message_body c) in
  match parsed with
  | Some m => (Some m, http_parsed p)
  | None => (None, routing_failed p)
  end.

(** [get<int>()] of a value that is not a string, as text. *)
Definition int_text (v : jval) : option string := to_string <$> get_i32 v.

(** The content type holds "application/json". *)
Definition is_json_content (req : Request) : bool :=
  match find_header req "Content-Type" with Some ct => contains ct "application/json" | None => false end.

(** The body of the message in [parse_http_request_enhanced]; [None] when [dump] throws. *)
Definition enhanced_body (req : Request) : option string :=
  if bool_decide (method req ∈ ["POST"; "PUT"; "PATCH"]%string) then
    Some (if is_json_content req
          then if bool_decide (body req = ""%string) then "{}"%string else body req
          else ""%string)
  else if bool_decide (method req = "GET"%string) && negb (bool_decide (params req = []))
  then params_json req else Some ""%string.

(** [parse_http_request_enhanced]; [what] is the text of a caught exception. *)
Definition parse_http_request_enhanced (what : string) (req : Request) (sid : string) (now : Z)
    (p : MessageParser) : ParseResult * MessageParser :=
  if bool_decide (path req = ""%string)
  then (error_result INVALID_PARSE "HTTP request path cannot be empty", p) else
  if bool_decide (method req = ""%string)
  then (error_result INVALID_PARSE "HTTP request method cannot be empty", p) else
  let route_result := parse_route (http_router (router_manager p)) (method req) (path req) in
  if negb (is_valid route_result) then
    (error_result ROUTING_FAILED ("HTTP routing failed for " +:+ method req +:+ " " +:+ path req +:+
       ": " +:+ err_msg route_result), routing_failed p) else
  let h := http_header (Router.cmd_id route_result) req 0 in
  let '(sid, p) := choose_session "http_" sid p in
  let c := http_context req sid now in
  match enhanced_body req with
  | None => (error_result PARSE_ERROR ("Exception in HTTP request processing: " +:+ what), routing_failed p)
  | Some json_body =>
      let parsed :=
        if bool_decide (json_body = ""%string) then Some h else
        get_uid ← parse (c_str json_body); set_uids int_text get_uid h in
      match parsed with
      | None => (error_result PARSE_ERROR ("JSON parsing error: " +:+ what), p)
      | Some h => (success_result (http_message h json_body c), http_parsed p)
      end
  end.
End Parse.

(** ** Web socket frames *)

Section Frames.
Context {S : Type} `{CodedOutput, CodedInput S} `{ProtoMessage IMHeader}.

Definition ws_context (sid : string) (now : Z) : SessionContext := {|
  protocol := WEBSOCKET; session_id := sid; client_ip := ""; receive_time := now; http_method := "";
  original_path := ""; raw_body := "" |}.

Definition ws_message (h : IMHeader) (raw type_name payload : bytes) (c : SessionContext) : UnifiedMessage := {|
  header := h; json_body := ""; raw_protobuf_data := raw; protobuf_type_name := type_name;
  protobuf_payload := payload; session_context := c |}.

(** [parse_websocket_message]. *)
Definition parse_websocket_message (raw_message : bytes) (sid : string) (now : Z) (p : MessageParser)
  : outcome (option UnifiedMessage * MessageParser) :=
  let! envelope := decodeEnvelope raw_message in
  match envelope with
  | None => Val (None, decode_failed p)
  | Some (h, type_name, payload) =>
      let '(sid, p) := choose_session "session_" sid p in
      Val (Some (ws_message h raw_message type_name payload (ws_context sid now)), websocket_parsed p)
  end.

Definition max_message : Z := 10 * 1024 * 1024.

(** [parse_websocket_message_enhanced]. *)
Definition parse_websocket_message_enhanced (raw_message : bytes) (sid : string) (now : Z)
    (p : MessageParser) : outcome (ParseResult * MessageParser) :=
  if bool_decide (raw_message = [])
  then Val (error_result INVALID_PARSE "WebSocket message cannot be empty", p) else
  if max_message <? zlen raw_message
  then Val (error_result INVALID_PARSE "WebSocket message too large (>10MB)", p) else
  let! envelope := decodeEnvelope raw_message in
  match envelope with
  | None => Val (error_result DECODE_FAILED ("Failed to decode WebSocket envelope, size: " +:+
              dec (zlen raw_message) +:+ " bytes"), decode_failed p)
  | Some (h, type_name, payload) =>
      if ProtobufCodec.cmd_id h =? 0
      then Val (error_result INVALID_PARSE "Invalid CMD_ID (0) in WebSocket message", p) else
      let '(sid, p) := choose_session "session_" sid p in
      Val (success_result (ws_message h raw_message type_name payload (ws_context sid now)),
           websocket_parsed p)
  end.
End Frames.
