(* ===== verification/Processor.v ===== *)
(** The message processors of the gateway: the synchronous one
    (src/gateway/message_processor/message_processor.hpp, message_processor.cpp), which the
    gateway uses, and the coroutine one (coro_message_processor.hpp,
    coro_message_processor.cpp).

    The token manager is the class [SessionAuth], which [Auth.v] implements.  A coroutine is
    its sequence of effects: nothing here awaits anything but calls of its own. *)
From S2P Require Import Prelude Text Json Config Redis TokenStore ConnectionManager ProtobufRuntime ProtobufCodec Rpc Auth Router MessageParser.
Open Scope Z_scope.

(** [verify_access_token] of the token manager, with the user and with a device. *)
Class SessionAuth (D : Type) := {
  verify_user : string -> exec D (option UserTokenInfo);
  verify_device : string -> string -> exec D bool
}.

Record ProcessorResult := {
  result_code : Z;
  result_error : string;
  protobuf_message : bytes;
  result_json : string
}.
Definition failure (code : ErrorCode) (err_msg : string) : ProcessorResult := {|
  result_code := ErrorCode_value code; result_error := err_msg; protobuf_message := [];
  result_json := "" |}.
Definition response (code : Z) (err_msg : string) (pb : bytes) : ProcessorResult := {|
  result_code := code; result_error := err_msg; protobuf_message := pb; result_json := "" |}.

Section Processors.
Context {D : Type}.
(** [what] is the text of a caught exception. *)
Context (what : string).

Definition processor := UnifiedMessage -> exec D ProcessorResult.

(** * The synchronous processor *)

(** [MessageProcessor::register_processor]: [None] is an empty [std::function]; the lookup of
    the service only decides what is logged. *)
Definition register_processor (cmd : Z) (f : option processor) (m : gmap Z processor)
  : Z * gmap Z processor :=
  match f with
  | None => (-2, m)
  | Some f => match m !! cmd with Some _ => (1, m) | None => (0, <[cmd := f]> m) end
  end.

Context `{SessionAuth D}.

(** [MessageProcessor::verify_access_token]; [has_auth]: the manager is not null. *)
Definition verify_access_token (has_auth : bool) (message : UnifiedMessage) : exec D bool :=
  if bool_decide (get_token message = ""%string) then ret false
  else if negb has_auth then ret false
  else verify_device (get_token message) (get_device_id message).

(** [process_message_sync]: [None] is a null message. *)
Definition process_message_sync (has_auth : bool) (processor_map : gmap Z processor)
    (message : option UnifiedMessage) : exec D ProcessorResult :=
  handler
    (match message with
     | None => ret (failure INVALID_REQUEST "Invalid message")
     | Some message =>
         let* authenticated := if is_http message then verify_access_token has_auth message else ret true in
         if negb authenticated then ret (failure AUTH_FAILED " AUTH_FAILED!") else
         match processor_map !! get_cmd_id message with
         | None => ret (failure NOT_FOUND ("Unknown command: " +:+ dec (get_cmd_id message)))
         | Some f => f message
         end
     end)
    (failure SERVER_ERROR ("Exception: " +:+ what)).

(** * The coroutine processor *)

Record CoroProcessingOptions := {
  timeout : Z;                          (* milliseconds *)
  enable_concurrent_processing : bool;
  max_concurrent_tasks : nat;
  enable_request_logging : bool;
  enable_performance_monitoring : bool
}.
Definition default_options : CoroProcessingOptions := {|
  timeout := 30000; enable_concurrent_processing := true; max_concurrent_tasks := 100;
  enable_request_logging := true; enable_performance_monitoring := true |}.

(** The counter [active_task_count_] beside the rest of the gateway. *)
Record Coro := { active_task_count : Z; inner : D }.
Definition on_inner {A} (m : exec D A) : exec Coro A := fun c =>
  let '(d, r) := m (inner c) in ({| active_task_count := active_task_count c; inner := d |}, r).
Definition count_tasks (n : Z) : exec Coro unit := fun c =>
  ({| active_task_count := u64 (active_task_count c + n); inner := inner c |}, Ok tt).

(** [register_coro_processor]; the command needs a service. *)
Definition register_coro_processor (scan : gmap (Z * Z) string -> list ((Z * Z) * string))
    (r : ServiceRouter) (cmd : Z) (f : option processor) (m : gmap Z processor)
  : Z * ServiceRouter * gmap Z processor :=
  match f with
  | None => (-2, r, m)
  | Some f =>
      let '(service, r) := find_service_cmd scan r cmd in
      if negb (s_is_valid service) then (-1, r, m) else
      match m !! cmd with Some _ => (1, r, m) | None => (0, r, <[cmd := f]> m) end
  end.

(** [coro_verify_authentication]. *)
Definition coro_verify_authentication (message : UnifiedMessage) : exec D bool :=
  if bool_decide (get_token message = ""%string) then ret false
  else verify_device (get_token message) (get_device_id message).

(** [coro_process_message]: each early return takes the task off the count itself. *)
Definition finish {A} (a : A) : exec Coro A := let* _ := count_tasks (-1) in ret a.

Definition coro_process_message (coro_processor_map : gmap Z processor)
    (message : option UnifiedMessage) : exec Coro ProcessorResult := fun c =>
  match
    (let* _ := count_tasks 1 in
     match message with
     | None => finish (failure INVALID_REQUEST "Invalid message")
     | Some message =>
         let* auth_result := on_inner (coro_verify_authentication message) in
         if negb auth_result then finish (failure AUTH_FAILED "Authentication failed") else
         match coro_processor_map !! get_cmd_id message with
         | None => finish (failure NOT_FOUND ("Unknown command: " +:+ dec (get_cmd_id message)))
         | Some f => let* result := on_inner (f message) in finish result
         end
     end) c
  with
  | (c', Throw) => finish (failure SERVER_ERROR ("Exception: " +:+ what)) c'
  | r => r
  end.

(** [apply_timeout_control] around a task that took [elapsed_ms]. *)
Definition apply_timeout_control (task : exec Coro ProcessorResult) (timeout elapsed_ms : Z)
  : exec Coro ProcessorResult := fun c =>
  match task c with
  | (c', Ok result) =>
      (c', Ok (if timeout <? elapsed_ms
               then failure TIMEOUT ("Request timeout after " +:+ to_string timeout +:+ "ms")
               else result))
  | (c', Throw) => (c', Ok (failure SERVER_ERROR ("Task failed: " +:+ what)))
  end.
Definition coro_process_message_with_timeout (m : gmap Z processor) (message : option UnifiedMessage)
    (timeout elapsed_ms : Z) : exec Coro ProcessorResult :=
  apply_timeout_control (coro_process_message m message) timeout elapsed_ms.

(** Messages one after the other. *)
Fixpoint process_each (m : gmap Z processor) (messages : list (option UnifiedMessage))
  : exec Coro (list ProcessorResult) :=
  match messages with
  | [] => ret []
  | message :: rest =>
      let* result := coro_process_message m message in
      let* results := process_each m rest in
      ret (result :: results)
  end.

(** The loop over batches, from index [i]; [None] when it is still going after [fuel] rounds. *)
Fixpoint batches (fuel : nat) (m : gmap Z processor) (messages : list (option UnifiedMessage))
    (batch_size i : nat) : exec Coro (option (list ProcessorResult)) :=
  if (i <? length messages)%nat then
    match fuel with
    | O => ret None
    | S fuel =>
        let stop := Nat.min (i + batch_size) (length messages) in
        let* results := process_each m (take (stop - i) (drop i messages)) in
        let* rest := batches fuel m messages batch_size (i + batch_size) in
        ret ((fun l => results ++ l) <$> rest)
    end
  else ret (Some []).

(** [coro_process_messages_batch]. *)
Definition coro_process_messages_batch (options : CoroProcessingOptions) (fuel : nat)
    (m : gmap Z processor) (messages : list (option UnifiedMessage))
  : exec Coro (option (list ProcessorResult)) :=
  if negb (enable_concurrent_processing options)
  then let* results := process_each m messages in ret (Some results)
  else batches fuel m messages (Nat.min (length messages) (max_concurrent_tasks options)) 0.
End Processors.

(** * Properties *)

Section Coroutines.
Context {D : Type} `{SessionAuth D} (what : string) (m : gmap Z (processor (D := D))).

Definition counted (c : Coro (D := D)) : Prop := 0 <= active_task_count c < 2 ^ 64.

(** It returns, and the count of active tasks is what it was. *)
Definition steady {A} (f : exec (Coro (D := D)) A) : Prop :=
  forall c, counted c -> exists d a, f c = ({| active_task_count := active_task_count c; inner := d |}, Ok a).

Lemma u64_back n : 0 <= n < 2 ^ 64 -> u64 (u64 (n + 1) + -1) = n.
Proof.
  intros. unfold u64. rewrite Zplus_mod_idemp_l. replace (n + 1 + -1) with n by lia. by apply Z.mod_small.
Qed.

Lemma message_steady message : steady (coro_process_message what m message).
Proof.
  intros c Hc. unfold coro_process_message, bind, finish, on_inner, count_tasks, ret.
  destruct message as [message|]; cbn -[u64 Z.add coro_verify_authentication get_cmd_id];
    [|rewrite u64_back by done; by eexists _, _].
  destruct (coro_verify_authentication message (inner c)) as [d1 [[]|]];
    cbn -[u64 Z.add get_cmd_id]; [|rewrite u64_back by done; by eexists _, _..].
  destruct (m !! get_cmd_id message) as [f|]; cbn -[u64 Z.add get_cmd_id];
    [|rewrite u64_back by done; by eexists _, _].
  destruct (f message d1) as [d2 [a|]]; cbn -[u64 Z.add];
    rewrite u64_back by done; by eexists _, _.
Qed.

Lemma each_steady messages : steady (process_each what m messages).
Proof.
  induction messages as [|x l IH]; intros c Hc; simpl; [by exists (inner c), []; destruct c|].
  destruct (message_steady x c Hc) as (d & a & E). rewrite (bind_Ok _ _ _ _ _ E).
  destruct (IH {| active_task_count := active_task_count c; inner := d |} Hc) as (d' & a' & E').
  rewrite (bind_Ok _ _ _ _ _ E'). by eexists _, _.
Qed.

Lemma each_app l1 l2 c : process_each what m (l1 ++ l2) c =
  (let* r1 := process_each what m l1 in let* r2 := process_each what m l2 in ret (r1 ++ r2)) c.
Proof.
  revert c. induction l1 as [|x l1 IH]; intros c; simpl.
  - unfold bind at 1, ret at 1. unfold bind. destruct (process_each what m l2 c) as [? []]; done.
  - unfold bind. destruct (coro_process_message what m x c) as [c1 [a|]]; [|done].
    rewrite IH. unfold bind, ret. destruct (process_each what m l1 c1) as [c2 [r1|]]; [|done].
    destruct (process_each what m l2 c2) as [c3 [r2|]]; done.
Qed.

Lemma each_length l c c' rs : process_each what m l c = (c', Ok rs) -> length rs = length l.
Proof.
  revert c c' rs. induction l as [|x l IH]; intros c c' rs E; simpl in E; [by injection E as _ <-|].
  run_inv E. run_inv E. injection E as _ <-. simpl. f_equal. by eapply IH.
Qed.

(** Batches of at least one message are the messages one after the other. *)
Lemma batches_each fuel messages n i c : (0 < n)%nat -> counted c -> (length messages <= i + fuel)%nat ->
  batches what fuel m messages n i c =
  (let* rs := process_each what m (drop i messages) in ret (Some rs)) c.
Proof.
  intros Hn. revert i c. induction fuel as [|fuel IH]; intros i c Hc Hf; simpl.
  - destruct (i <? length messages)%nat eqn:E; [apply Nat.ltb_lt in E; lia|].
    by rewrite drop_ge by lia.
  - destruct (i <? length messages)%nat eqn:E.
    + set (stop := Nat.min _ _).
      assert (Hd : drop i messages = take (stop - i) (drop i messages) ++ drop (i + n) messages).
      { rewrite <- (take_drop (stop - i) (drop i messages)) at 1. f_equal. rewrite drop_drop.
        apply Nat.ltb_lt in E. unfold stop. destruct (Nat.min_spec (i + n) (length messages)) as [[? ->]|[? ->]].
        - f_equal. lia.
        - rewrite !drop_ge by lia. done. }
      rewrite Hd at 2. unfold bind at 1 3. rewrite each_app. unfold bind at 2.
      destruct (each_steady (take (stop - i) (drop i messages)) c Hc) as (d & rs & ->).
      unfold bind. rewrite IH; [|done|lia]. unfold bind.
      destruct (process_each what m (drop (i + n) messages) _) as [c2 [r2|]]; done.
    + apply Nat.ltb_ge in E. by rewrite drop_ge by lia.
Qed.

(** C23: A batch of messages ends: unless concurrent processing is on with a limit of 0, as many
    rounds as there are messages are enough, every message is processed once, in order, exactly
    as the sequential mode does, there is one result per message whatever a processor throws,
    and the count of active tasks is back where it was.  With a limit of 0 a batch that is not
    empty never ends: after any number of rounds it has processed nothing. *)
Theorem batch_ends options messages (c : Coro (D := D)) (Hc : counted c) :
  (enable_concurrent_processing options = false \/ (0 < max_concurrent_tasks options)%nat \/ messages = [] ->
     exists d rs, length rs = length messages /\
       process_each what m messages c = ({| active_task_count := active_task_count c; inner := d |}, Ok rs) /\
       forall fuel, (length messages <= fuel)%nat ->
         coro_process_messages_batch what options fuel m messages c =
         ({| active_task_count := active_task_count c; inner := d |}, Ok (Some rs))) /\
  (enable_concurrent_processing options = true -> max_concurrent_tasks options = 0%nat -> messages <> [] ->
     forall fuel, coro_process_messages_batch what options fuel m messages c = (c, Ok None)).
Proof.
  split.
  - intros Ho. destruct (each_steady messages c Hc) as (d & rs & E). exists d, rs.
    split; [by eapply each_length|]. split; [done|]. intros fuel Hf.
    unfold coro_process_messages_batch.
    destruct (enable_concurrent_processing options) eqn:Eo; cbn [negb]; [|by rewrite (bind_Ok _ _ _ _ _ E)].
    destruct messages as [|x l].
    { injection E as <- <-. destruct fuel; reflexivity. }
    rewrite batches_each; [|destruct Ho as [?|[?|?]]; [congruence|cbn [length]; lia|congruence]|done|cbn [length] in *; lia].
    rewrite drop_0. by rewrite (bind_Ok _ _ _ _ _ E).
  - intros Eo E0 Hne fuel. unfold coro_process_messages_batch. rewrite Eo, E0, Nat.min_0_r. cbn [negb].
    destruct messages as [|x l]; [done|]. clear Hne.
    assert (forall i, (i < length (x :: l))%nat -> batches what fuel m (x :: l) 0 i c = (c, Ok None)) as Hb.
    { induction fuel as [|f IH]; intros i Hi; cbn [batches]; apply Nat.ltb_lt in Hi as Hi'; rewrite Hi'; [done|].
      rewrite Nat.add_0_r, Nat.min_l by lia. rewrite Nat.sub_diag. rewrite take_0. cbn [process_each].
      unfold bind, ret. by rewrite (IH i Hi). }
    apply Hb. simpl. lia.
Qed.
End Coroutines.

(** * Three messages of one command, the second without a token *)
Module ProcessorExamples.
Open Scope string_scope.
#[local] Instance letters : SessionAuth nat := {
  verify_user _ := ret None;
  verify_device token _ := ret (bool_decide (token = "t"))
}.
Definition frame (cmd : Z) (token : string) : option UnifiedMessage := Some {|
  header := Build_IMHeader "1.0" 7 cmd "" "" 0 token "phone" "ios"; json_body := "";
  raw_protobuf_data := []; protobuf_type_name := []; protobuf_payload := [];
  session_context := ws_context "session_1" 0 |}.
(** The processor counts its calls and throws on the third. *)
Definition counting : processor (D := nat) := fun _ n =>
  (S n, if (2 <=? n)%nat then Throw else Ok (response 0 "" [])).
Definition map1 : gmap Z processor := {[ 7 := counting ]}.
Definition messages := [frame 7 "t"; frame 7 ""; frame 7 "t"; frame 8 "t"; frame 7 "t"].
Definition start : Coro (D := nat) := {| active_task_count := 0; inner := 0%nat |}.
Definition two_at_a_time : CoroProcessingOptions := {|
  timeout := 30000; enable_concurrent_processing := true; max_concurrent_tasks := 2;
  enable_request_logging := true; enable_performance_monitoring := true |}.

Definition codes (r : Coro (D := nat) * result (option (list ProcessorResult))) : Coro (D := nat) * option (list Z) :=
  (r.1, match r.2 with Ok (Some l) => Some (map result_code l) | _ => None end).

Example batch_run : codes (coro_process_messages_batch "boom" two_at_a_time 5 map1 messages start) =
  ({| active_task_count := 0; inner := 3%nat |}, Some [0; 2; 0; 3; 500]).
Proof. vm_compute. reflexivity. Qed.

Lemma batch_ends_witness : counted start /\
  exists d rs, length rs = 5%nat /\
    coro_process_messages_batch "boom" two_at_a_time 5 map1 messages start =
    ({| active_task_count := 0; inner := d |}, Ok (Some rs)).
Proof.
  assert (counted start) as Hc by (split; [reflexivity|reflexivity]).
  split; [exact Hc|].
  destruct (batch_ends "boom" map1 two_at_a_time messages start Hc) as [H _].
  destruct (H (or_intror (or_introl (Nat.lt_0_succ 1)))) as (d & rs & Hl & _ & Hb).
  exists d, rs. split; [exact Hl|]. apply (Hb 5%nat). apply le_n.
Defined.
End ProcessorExamples.
