(* ===== verification/WsHandler.v ===== *)
(** The two commands of the web socket: sending a private message
    (src/gateway/ws/message_ws_handler.hpp, message_ws_handler.cpp) and the heartbeat
    ([GatewayServer::handle_heartbeat_message] of
    src/gateway/gateway_server/gateway_server.cpp).

    [service_device] and [service_platform] are what [ServiceIdentityManager] answers;
    [now_ms] is the clock when the message is stored, [reply_ms] when the response header is
    built. *)
From S2P Require Import Prelude Text Schema Json Redis TokenStore ConnectionManager ProtobufRuntime ProtobufCodec Push Rpc Auth.
From S2P Require Import MessageService MessageRemote Http GroupHttp MessageHttp Config Router MessageParser Processor.
Open Scope Z_scope.

Definition CMD_HEARTBEAT : Z := 1.
Definition CMD_SEND_MESSAGE : Z := 2001.

(** The full name of the generated class of the request. *)
Definition send_request_name : bytes := String.list_byte_of_string "im.message.SendMessageRequest".

Section Handler.
Context {D : Type} `{SessionAuth D} `{MessageClient D}.
Context `{CodedOutput} `{ProtoMessage IMHeader} `{ProtoMessage SendMessageRequest}.
Context `{ProtoMessage SendMessageResponse} `{ProtoMessage BaseResponse}.
Context (what service_device service_platform : string) (now_ms reply_ms : Z).

Definition reply_header (request_header : IMHeader) : IMHeader :=
  returnHeaderBuilder request_header service_device service_platform reply_ms.

(** The bytes of [encode], or none when it fails. *)
Definition encoded {M} `{ProtoMessage M} (h : IMHeader) (m : M) : bytes := default [] (encode h m).

Definition base_response (code : ErrorCode) (message : string) : BaseResponse :=
  {| error_code := ErrorCode_value code; error_message := message; payload := [] |}.

Definition encode_error_response (request_header : IMHeader) (code : ErrorCode) (message : string) : bytes :=
  encoded (reply_header request_header)
    {| sp_base := base_response code message; sp_message := None |}.

(** A refusal: the result, with the response for the client. *)
Definition refuse (h : IMHeader) (code : ErrorCode) (result_text response_text : string)
  : exec D ProcessorResult :=
  ret (response (ErrorCode_value code) result_text (encode_error_response h code response_text)).

(** The body of the response to a stored message. *)
Definition sent_body (data : MessageData) : MessageBody := {|
  mb_message_id := dec (md_msg_id data); mb_type := type_value (md_msg_type data);
  mb_content := md_content data; mb_is_read := false; mb_sender_uid := ""; mb_receiver_uid := "";
  mb_create_time := 0; mb_delivered_time := 0; mb_read_time := 0 |}.

Definition notify (push_notifier : Notifier D) (receiver : string) (id : Z) (content : string)
    (context : PushContext) : exec D unit :=
  match push_notifier with Some push => push receiver id content context | None => ret tt end.

(** Steps 8 to 10 of [handle_send], for the user of the token. *)
Definition store_and_answer (push_notifier : Notifier D) (h : IMHeader) (user_id content : string)
  : exec D ProcessorResult :=
  let* result := cl_send_text_message
    {| sq_sender_uid := user_id; sq_receiver_uid := to_uid h; sq_content := content;
       sq_msg_type := TEXT; sq_now_ms := now_ms |} in
  if negb (sr_ok result) then refuse h SERVER_ERROR (sr_message result) (sr_message result) else
  let data := default blank_data (sr_data result) in
  match encode (reply_header h)
          {| sp_base := base_response SUCCESS ""; sp_message := Some (sent_body data) |} with
  | None => refuse h SERVER_ERROR "Failed to encode response" "Failed to encode response"
  | Some protobuf_response =>
      let* _ := notify push_notifier (to_uid h) (md_msg_id data) content
        {| sender_uid := user_id; conversation_type := "direct"; conversation_id := user_id |} in
      ret (response 0 "" protobuf_response)
  end.

(** [MessageWsHandler::handle_send]. *)
Definition handle_send (push_notifier : Notifier D) (msg : UnifiedMessage) : exec D ProcessorResult :=
  handler
    (if negb (is_websocket msg)
     then ret (response (ErrorCode_value INVALID_REQUEST) "WS handler called for non-WebSocket message" []) else
     let h := header msg in
     if negb (get_cmd_id msg =? CMD_SEND_MESSAGE)
     then refuse h INVALID_REQUEST "Unexpected cmd_id" "Unexpected command ID, expected CMD_SEND_MESSAGE" else
     let* token_user := verify_user (token h) in
     match token_user with
     | None => refuse h AUTH_FAILED "Invalid or expired access token" "Invalid or expired access token"
     | Some token_user =>
         if negb (bool_decide (device_id h = ""%string)) && negb (bool_decide (device_id h = ti_device_id token_user))
         then refuse h AUTH_FAILED "Device ID mismatch" "Device ID mismatch" else
         if negb (bool_decide (protobuf_type_name msg = send_request_name))
         then refuse h INVALID_REQUEST "Wrong protobuf type"
                "Unexpected protobuf type, expected im.message.SendMessageRequest" else
         match ParseFromArray (M := SendMessageRequest) (protobuf_payload msg) with
         | None => refuse h INVALID_REQUEST "Failed to parse SendMessageRequest"
                     "Failed to parse SendMessageRequest"
         | Some send_req =>
             if bool_decide (to_uid h = ""%string)
             then refuse h PARAM_ERROR "Missing receiver UID" "Missing receiver UID" else
             if bool_decide (sd_content send_req = ""%string)
             then refuse h PARAM_ERROR "Missing message content" "Missing message content" else
             store_and_answer push_notifier h (ti_user_id token_user) (sd_content send_req)
         end
     end)
    (response (ErrorCode_value SERVER_ERROR) ("Exception: " +:+ what) []).

(** ** The heartbeat *)

Definition set_cmd_id (cmd : Z) (h : IMHeader) : IMHeader := {|
  version := version h; seq_ := seq_ h; ProtobufCodec.cmd_id := cmd; from_uid := from_uid h;
  to_uid := to_uid h; timestamp := timestamp h; token := token h; device_id := device_id h;
  platform := platform h |}.

Definition build_heartbeat_response (request_header : IMHeader) (code : ErrorCode) (message : string) : bytes :=
  encoded (set_cmd_id CMD_HEARTBEAT (reply_header request_header)) (base_response code message).

Definition beat (h : IMHeader) (code : ErrorCode) (message : string) : exec D ProcessorResult :=
  ret (response (ErrorCode_value code) message (build_heartbeat_response h code message)).

(** [GatewayServer::handle_heartbeat_message]; [has_auth]: the token manager is not null. *)
Definition handle_heartbeat_message (has_auth : bool) (msg : UnifiedMessage) : exec D ProcessorResult :=
  let h := header msg in
  let* token_user := if has_auth then verify_user (token h) else ret None in
  match token_user with
  | None => beat h AUTH_FAILED "Invalid or expired access token"
  | Some token_user =>
      if negb (bool_decide (device_id h = ""%string)) && negb (bool_decide (device_id h = ti_device_id token_user))
      then beat h AUTH_FAILED "Device ID mismatch"
      else beat h SUCCESS ""
  end.
End Handler.
