(* ===== verification/Gateway.v ===== *)
(** The gateway server (src/gateway/gateway_server/gateway_server.hpp, gateway_server.cpp): what
    it does with a web socket frame, with the connects, the disconnects and the timers of web
    socket sessions, with the requests of the HTTP catch-all route, and how it picks its
    clients from the configuration.

    Callbacks run on the threads of the network components, business work on the pool of
    [ThreadPool.v]: a queued task is a [GatewayTask], its effect is [run_task].  A session is
    named by its id; what is given to [session->send] goes to the log [posted] of the
    gateway, a [session->close] to the log [closing] of the connection manager. *)
From S2P Require Import Prelude Text Schema Odb MemDb PasswordHasher Redis TokenStore Json ConnectionManager ProtobufRuntime ProtobufCodec Push Rpc Auth.
From S2P Require Import MessageService MessageRemote PushGateway Http GroupHttp MessageHttp HttpFlows Config Router MessageParser Processor WsHandler.
From S2P Require ThreadPool.
Open Scope Z_scope.

(** * State *)

Inductive GatewayTask :=
| WsTask (sid : string) (original_header : IMHeader) (message : UnifiedMessage)
| DelayedClose (sid : string)
| AuthTimer (self : nat).               (* the coroutine whose lambda object is at [self] *)

Record HttpRouteStats := { count : Z; total_ms : Z; max_ms : Z }.
Record HttpStats := {
  total_requests : Z; inflight_requests : Z;
  status_2xx : Z; status_4xx : Z; status_5xx : Z; status_other : Z;
  stat_routes : gmap string HttpRouteStats
}.

Record Server (R DB T : Type) := {
  api : Api R DB T;
  parser : MessageParser;
  is_running : bool;
  ws_inflight_messages : Z;
  max_ws_inflight_messages : Z;
  thread_pool : ThreadPool.pool (task := GatewayTask);
  timers : list nat;                    (* coroutines whose 30 s have started *)
  closures : list (option string);      (* lambda objects of the coroutines: the session captured,
                                           [None] once destroyed; an address is not used again *)
  http_stats : HttpStats
}.
Arguments api {R DB T} _.
Arguments parser {R DB T} _.
Arguments is_running {R DB T} _.
Arguments ws_inflight_messages {R DB T} _.
Arguments max_ws_inflight_messages {R DB T} _.
Arguments thread_pool {R DB T} _.
Arguments timers {R DB T} _.
Arguments closures {R DB T} _.
Arguments http_stats {R DB T} _.

Section Updates.
Context {R DB T : Type}.
Abbreviation S := (Server R DB T).

Definition set_api (a : Api R DB T) (s : S) : S :=
  Build_Server _ _ _ a (parser s) (is_running s) (ws_inflight_messages s) (max_ws_inflight_messages s)
    (thread_pool s) (timers s) (closures s) (http_stats s).
Definition set_parser (p : MessageParser) (s : S) : S :=
  Build_Server _ _ _ (api s) p (is_running s) (ws_inflight_messages s) (max_ws_inflight_messages s)
    (thread_pool s) (timers s) (closures s) (http_stats s).
Definition set_pool (p : ThreadPool.pool) (s : S) : S :=
  Build_Server _ _ _ (api s) (parser s) (is_running s) (ws_inflight_messages s) (max_ws_inflight_messages s)
    p (timers s) (closures s) (http_stats s).
Definition set_timers (l : list nat) (s : S) : S :=
  Build_Server _ _ _ (api s) (parser s) (is_running s) (ws_inflight_messages s) (max_ws_inflight_messages s)
    (thread_pool s) l (closures s) (http_stats s).
Definition set_closures (l : list (option string)) (s : S) : S :=
  Build_Server _ _ _ (api s) (parser s) (is_running s) (ws_inflight_messages s) (max_ws_inflight_messages s)
    (thread_pool s) (timers s) l (http_stats s).
Definition set_stats (h : HttpStats) (s : S) : S :=
  Build_Server _ _ _ (api s) (parser s) (is_running s) (ws_inflight_messages s) (max_ws_inflight_messages s)
    (thread_pool s) (timers s) (closures s) h.
(** [ws_inflight_messages_.fetch_add(n)], [fetch_sub]. *)
Definition add_inflight (n : Z) (s : S) : S :=
  Build_Server _ _ _ (api s) (parser s) (is_running s) (u64 (ws_inflight_messages s + n))
    (max_ws_inflight_messages s) (thread_pool s) (timers s) (closures s) (http_stats s).

Definition set_gate (g : Gateway R DB) (s : S) : S :=
  set_api {| gate := g; token_store := token_store (api s) |} s.
Definition set_manager (w : Manager R) (s : S) : S := set_gate (set_conn w (gate (api s))) s.

(** [session->send(message)], for a message that is not empty where the caller tests it. *)
Definition post (sid : string) (message : bytes) (s : S) : S :=
  set_gate (set_posted (posted (gate (api s)) ++ [(sid, message)]) (gate (api s))) s.
Definition post_unless_empty (sid : string) (message : bytes) (s : S) : S :=
  match message with [] => s | _ => post sid message s end.
(** [session->close()]. *)
Definition close_session (sid : string) (s : S) : S :=
  let w := conn_mgr (gate (api s)) in
  set_manager {| redis := redis w; websocket_server := websocket_server w; closing := closing w ++ [sid] |} s.

(** [ThreadPool::Enqueue]: [None] when it throws. *)
Definition enqueue (t : GatewayTask) (s : S) : option S :=
  p ← ThreadPool.Enqueue t (thread_pool s); Some (set_pool p s).

(** [schedule_delayed_close]; [hw] is the number of hardware threads. *)
Definition schedule_delayed_close (hw : nat) (sid : string) (s : S) : S :=
  let p := thread_pool s in
  let p := if (ThreadPool.GetThreadCount p =? 0)%nat || ThreadPool.IsShutdown p
           then ThreadPool.Init hw 0 p else p in
  let s := set_pool p s in
  match enqueue (DelayedClose sid) s with
  | Some s => s
  | None => close_session sid s
  end.
End Updates.

(** * Message handlers *)

Section Server.
Context {R DB T : Type} `{Redis R} `{Odb DB} `{Pbkdf2} `{TokenStore T} `{Json} `{Jwt}.
Context {St : Type} `{CodedOutput, CodedInput St} `{ProtoMessage IMHeader} `{ProtoMessage PushRequest}.
Context `{ProtoMessage SendMessageRequest} `{ProtoMessage SendMessageResponse} `{ProtoMessage BaseResponse}.
Abbreviation S := (Server R DB T).
Abbreviation A := (Api R DB T).

(** The secret of the tokens, the device policy, the text of a caught exception, the identity
    of the service, the hardware threads. *)
Context (secret_key : string) (devices : gmap PlatformType bool).
Context (what service_device service_platform : string) (hw : nat).

#[local] Instance server_auth : SessionAuth A := {
  verify_user token := on_tokens (Auth.verify_access_token secret_key token);
  verify_device token device := on_tokens (verify_access_token_device secret_key token device)
}.

(** [GatewayServer::force_register_handler] and [register_message_handlers(cmd_id, handler)]. *)
Definition force_register_handler (f : option (processor (D := A))) : bool :=
  match f with Some _ => true | None => false end.
Definition register_message_handler (cmd : Z) (f : option (processor (D := A))) (m : gmap Z processor)
  : bool * gmap Z processor :=
  let '(code, m) := register_processor cmd f m in
  ((if code =? 0 then true else if code =? 1 then false
    else if code =? -1 then force_register_handler f else false), m).

(** [GatewayServer::register_message_handlers()]: the processor map of the server; [now_ms] and
    [reply_ms] are the clocks of one message. *)
Definition register_message_handlers (push_notifier : Notifier A) (now_ms reply_ms : Z)
  : gmap Z (processor (D := A)) :=
  let messages := api_messages in
  let m := (register_message_handler CMD_HEARTBEAT
    (Some (handle_heartbeat_message service_device service_platform reply_ms true)) ∅).2 in
  (register_message_handler CMD_SEND_MESSAGE
    (Some (handle_send what service_device service_platform now_ms reply_ms push_notifier)) m).2.

(** ** Frames of the web socket *)

(** What is posted for the result of a task; a [json_body] is sent as it is. *)
Definition result_bytes (r : ProcessorResult) : bytes :=
  match protobuf_message r with [] => String.list_byte_of_string (result_json r) | pb => pb end.

(** [conn_mgr_->remove_connection(session)]. *)
Definition drop_connection (sid : string) (s : S) : S :=
  if has_conn_mgr (gate (api s))
  then set_manager (remove_connection_by_session sid (conn_mgr (gate (api s)))) s else s.

Definition auth_failed_text : string := "Token verification failed. Connection will be closed.".
Definition busy_text : string := "Gateway is busy, please retry later.".

(** The end of a task for a message whose result is [r]. *)
Definition answer_result (reply_ms : Z) (sid : string) (original_header : IMHeader) (r : ProcessorResult)
    (s : S) : S :=
  if result_code r =? ErrorCode_value AUTH_FAILED then
    let error_header := reply_header service_device service_platform reply_ms original_header in
    let s := post_unless_empty sid (buildAuthFailedResponse error_header auth_failed_text reply_ms) s in
    schedule_delayed_close hw sid (drop_connection sid s)
  else post_unless_empty sid (result_bytes r) s.

(** The queued lambda: the processor, the answer, then the guard's destructor. *)
Definition run_ws_task (push_notifier : Notifier A) (now_ms reply_ms : Z) (sid : string)
    (original_header : IMHeader) (message : UnifiedMessage) (s : S) : S :=
  let '(a, r) := process_message_sync what true
                   (register_message_handlers push_notifier now_ms reply_ms) (Some message) (api s) in
  let s := set_api a s in
  let s := match r with Ok r => answer_result reply_ms sid original_header r s | Throw => s end in
  add_inflight (-1) s.

(** The message handler of the web socket server: [parse_websocket_message_enhanced], the limit
    of messages in flight, [Enqueue]. *)
Definition on_ws_message (reply_ms : Z) (sid : string) (raw : bytes) (s : S) : outcome S :=
  let! parsed := parse_websocket_message_enhanced raw sid reply_ms (parser s) in
  let '(result, p) := parsed in
  let s := set_parser p s in
  match result with
  | error_result _ _ => Val s
  | success_result message =>
      let original_header := MessageParser.header message in
      let current_inflight := u64 (ws_inflight_messages s + 1) in
      let s := add_inflight 1 s in
      if max_ws_inflight_messages s <? current_inflight then
        Val (post_unless_empty sid (buildErrorResponse original_header SERVER_ERROR busy_text reply_ms)
               (add_inflight (-1) s))
      else
        match enqueue (WsTask sid original_header message) s with
        | Some s => Val s
        | None =>
            (* the lambda dies with its guard, then the handler of the exception runs *)
            let s := add_inflight (-1) (add_inflight (-1) s) in
            Val (post_unless_empty sid (buildErrorResponse original_header SERVER_ERROR busy_text reply_ms) s)
        end
  end.

(** ** Sessions *)

Definition notify_header (reply_ms : Z) : IMHeader := {|
  version := ""; seq_ := 0; ProtobufCodec.cmd_id := CMD_SERVER_NOTIFY; from_uid := ""; to_uid := "";
  timestamp := u64 reply_ms; token := ""; ProtobufCodec.device_id := ""; ProtobufCodec.platform := "" |}.

(** [verify_and_bind_connection]; [now] is the clock of the connection manager. *)
Definition verify_and_bind_connection (now : Z) (sid tok : string) (s : S) : S * bool :=
  if negb (has_conn_mgr (gate (api s))) then (s, false) else
  let '(a, r) := verify_user tok (api s) in
  let s := set_api a s in
  match r with
  | Ok (Some user_info) =>
      let '(w, connected) := add_connection devices (ti_user_id user_info) (ti_device_id user_info)
                               (ti_platform user_info) sid now (conn_mgr (gate (api s))) in
      (set_manager w s, connected)
  | _ => (s, false)
  end.

(** [schedule_unauthenticated_timeout]: the lambda object, a temporary that captures the session, is
    made; the call of it makes a coroutine that is suspended at its start and reads its captures
    through [self]; [schedule] queues the coroutine on the pool ([None] when that throws); the end of
    the full expression destroys the temporary. *)
Definition schedule_unauthenticated_timeout (sid : string) (s : S) : option S :=
  let self := length (closures s) in
  let s := set_closures (closures s ++ [Some sid]) s in
  s ← enqueue (AuthTimer self) s;
  Some (set_closures (<[self := None]> (closures s)) s).

(** [on_websocket_connect]. *)
Definition on_websocket_connect (now reply_ms : Z) (sid tok : string) (s : S) : option S :=
  if negb (bool_decide (tok = ""%string)) then
    let '(s, bound) := verify_and_bind_connection now sid tok s in
    if bound then Some s else
      let response := buildAuthFailedResponse (notify_header reply_ms)
                        "Token authentication failed. Connection will be closed." reply_ms in
      Some (schedule_delayed_close hw sid (post_unless_empty sid response s))
  else schedule_unauthenticated_timeout sid s.

(** [on_websocket_disconnect]. *)
Definition on_websocket_disconnect (sid : string) (s : S) : S := drop_connection sid s.

(** [is_session_authenticated]. *)
Fixpoint any_user_has (sid : string) (users : list string) (w : Manager R) : Manager R * bool :=
  match users with
  | [] => (w, false)
  | user :: rest =>
      let '(w, l) := get_user_sessions user w in
      if existsb (fun d => bool_decide (ConnectionManager.session_id d = sid)) l then (w, true)
      else any_user_has sid rest w
  end.
Definition is_session_authenticated (sid : string) (s : S) : S * bool :=
  if negb (has_conn_mgr (gate (api s))) then (s, false) else
  let '(w, users) := get_online_users (conn_mgr (gate (api s))) in
  let '(w, found) := any_user_has sid users w in
  (set_manager w s, found).

(** What the coroutine of [schedule_unauthenticated_timeout] does when its 30 s are over, with the
    session it reads in its captures. *)
Definition window_over (reply_ms : Z) (sid : string) (s : S) : S :=
  let '(s, authenticated) := is_session_authenticated sid s in
  if authenticated then s else
    let response := buildTimeoutResponse (notify_header reply_ms)
                      "Authentication timeout. Connection closed." reply_ms in
    schedule_delayed_close hw sid (post_unless_empty sid response s).

(** The rest of the coroutine whose lambda object is at [self]: after the wait it reads [this], the
    session and its id in that object, and outside of any when it has been destroyed. *)
Definition auth_timeout (reply_ms : Z) (self : nat) (s : S) : outcome S :=
  match mjoin (closures s !! self) with
  | Some sid => Val (window_over reply_ms sid s)
  | None => OutOfBounds
  end.

(** A task of the pool; [sleep_for] and the detached thread of a timer take time only. *)
Definition run_task (push_notifier : Notifier A) (now_ms reply_ms : Z) (t : GatewayTask) (s : S) : S :=
  match t with
  | WsTask sid h m => run_ws_task push_notifier now_ms reply_ms sid h m s
  | DelayedClose sid => close_session sid s
  | AuthTimer self => set_timers (timers s ++ [self]) s
  end.

(** ** Direct pushes *)

(** The loop of [push_message_to_user]. *)
Definition push_one (message : bytes) (acc : S * bool) (d : DeviceSessionInfo) : S * bool :=
  let '(s, pushed) := acc in
  match websocket_server (conn_mgr (gate (api s))) with
  | Some registered =>
      if decide (ConnectionManager.session_id d ∈ registered)
      then (post (ConnectionManager.session_id d) message s, true) else (s, pushed)
  | None => (s, pushed)
  end.
Definition push_message_to_user (user : string) (message : bytes) (s : S) : S * bool :=
  if negb (has_conn_mgr (gate (api s))) then (s, false) else
  let '(w, sessions) := get_user_sessions user (conn_mgr (gate (api s))) in
  foldl (push_one message) (set_manager w s, false) sessions.

Definition push_message_to_device (user device plat : string) (message : bytes) (s : S) : S * bool :=
  if negb (has_conn_mgr (gate (api s))) then (s, false) else
  let '(w, session) := get_session user device plat (conn_mgr (gate (api s))) in
  let s := set_manager w s in
  match session with
  | Some sid => (post sid message s, true)
  | None => (s, false)
  end.

(** [GatewayServer::get_online_count]. *)
Definition gateway_online_count (s : S) : S * Z :=
  if has_conn_mgr (gate (api s)) then
    let '(w, n) := get_online_count (conn_mgr (gate (api s))) in (set_manager w s, n)
  else (s, 0).

(** ** The HTTP catch-all *)

(** [HttpUtils::buildResponse(res, status, body, err_message)]; [None] when [dump] throws. *)
Definition build_response (status_code : Z) (body err_message : string) : option HttpResponse :=
  text ← dump (obj (error_members status_code body err_message));
  Some {| status := status_code; res_body := text; content_type := "application/json" |}.

(** [HttpUtils::statusCodeFromJson] and [buildResponse(res, json_body)]. *)
Definition statusCodeFromJson (json_body : string) : option Z :=
  j ← parse json_body;
  match find_member j "code" with Some v => get_i32 v | None => Some 500 end.
Definition build_json_response (json_body : string) : option HttpResponse :=
  code ← statusCodeFromJson json_body;
  Some {| status := code; res_body := json_body; content_type := "application/json" |}.

Definition http_status_of (code : Z) : Z :=
  if code =? ErrorCode_value AUTH_FAILED then 401
  else if code =? ErrorCode_value INVALID_REQUEST then 400 else 500.

(** The answer to a request that was parsed; [late]: the result took more than 10 s.  The task
    runs on the pool, which is restarted when it is down. *)
Definition http_answer (push_notifier : Notifier A) (now_ms reply_ms : Z) (late : bool)
    (message : UnifiedMessage) (s : S) : S * option HttpResponse :=
  if negb (is_running s) then (s, build_response 503 "" "Server shutting down") else
  let p := thread_pool s in
  let s := set_pool (if (ThreadPool.GetThreadCount p =? 0)%nat || ThreadPool.IsShutdown p
                     then ThreadPool.Init hw 0 p else p) s in
  let '(a, r) := process_message_sync what true
                   (register_message_handlers push_notifier now_ms reply_ms) (Some message) (api s) in
  let s := set_api a s in
  if late then (s, build_response 504 "" "Request processing timeout") else
  match r with
  | Throw => (s, None)
  | Ok r =>
      (s, if negb (result_code r =? 0)
          then build_response (http_status_of (result_code r)) (result_json r) (result_error r)
          else if bool_decide (result_json r = ""%string) then build_response 200 "" "Success"
          else build_json_response (result_json r))
  end.

(** The catch-all [http_callback]; [None] is an exception of the last [buildResponse], which
    the HTTP library answers itself. *)
Definition http_callback (push_notifier : Notifier A) (now_ms reply_ms : Z) (late : bool)
    (req : Request) (s : S) : S * option HttpResponse :=
  let '(result, p) := parse_http_request_enhanced what req "" now_ms (parser s) in
  let s := set_parser p s in
  let '(s, response) :=
    match result with
    | error_result _ msg => (s, build_response 500 "" msg)
    | success_result message => http_answer push_notifier now_ms reply_ms late message s
    end in
  (s, match response with
      | Some res => Some res
      | None => build_response 500 "" ("Exception caught in http_callback: " +:+ what)
      end).
End Server.

(** * HTTP counters *)

Definition http_route_key (method matched_route path : string) : string :=
  if bool_decide (matched_route = ""%string) then method +:+ " " +:+ path
  else method +:+ " " +:+ matched_route.

(** The pre-routing handler, [record_http_response], and the post-routing handler around it. *)
Definition pre_routing (h : HttpStats) : HttpStats := {|
  total_requests := u64 (total_requests h + 1); inflight_requests := u64 (inflight_requests h + 1);
  status_2xx := status_2xx h; status_4xx := status_4xx h; status_5xx := status_5xx h;
  status_other := status_other h; stat_routes := stat_routes h |}.

Definition between (lo hi z : Z) : bool := (lo <=? z) && (z <? hi).
Definition bump (b : bool) (n : Z) : Z := if b then u64 (n + 1) else n.

Definition record_route (duration_ms : Z) (r : HttpRouteStats) : HttpRouteStats := {|
  count := u64 (count r + 1); total_ms := u64 (total_ms r + duration_ms);
  max_ms := if max_ms r <? duration_ms then duration_ms else max_ms r |}.

Definition record_http_response (key : string) (code duration_ms : Z) (h : HttpStats) : HttpStats :=
  let c2 := between 200 300 code in
  let c4 := negb c2 && between 400 500 code in
  let c5 := negb c2 && negb c4 && between 500 600 code in
  {| total_requests := total_requests h; inflight_requests := inflight_requests h;
     status_2xx := bump c2 (status_2xx h); status_4xx := bump c4 (status_4xx h);
     status_5xx := bump c5 (status_5xx h);
     status_other := bump (negb c2 && negb c4 && negb c5) (status_other h);
     stat_routes := <[key := record_route duration_ms
        (default {| count := 0; total_ms := 0; max_ms := 0 |} (stat_routes h !! key))]> (stat_routes h) |}.

Definition post_routing (key : string) (code duration_ms : Z) (h : HttpStats) : HttpStats :=
  record_http_response key code duration_ms {|
    total_requests := total_requests h; inflight_requests := u64 (inflight_requests h - 1);
    status_2xx := status_2xx h; status_4xx := status_4xx h; status_5xx := status_5xx h;
    status_other := status_other h; stat_routes := stat_routes h |}.

(** * Construction *)

(** [is_blank] and [require_non_blank_config]; [None] is the exception. *)
Fixpoint is_blank (s : string) : bool :=
  match s with EmptyString => true | String c s' => is_space c && is_blank s' end.
Definition require_non_blank_config (config : jval) (key : string) : option string :=
  let value := Config.get Config.get_string config key ""%string in
  if is_blank value then None else Some value.

(** The client of one service: in process, or at an endpoint with a timeout in milliseconds.
    [remote_compiled] is the [IM_ENABLE_REMOTE_*_CLIENT] of the service; an unknown mode and a
    remote mode that is not compiled fall back to the local client. *)
Inductive ClientMode := LocalMode | RemoteMode (endpoint : string) (timeout_ms : Z).

Definition client_mode (remote_compiled : bool) (service : string) (config : jval) : option ClientMode :=
  let mode := Config.get Config.get_string config (service +:+ ".mode")%string "local"%string in
  if remote_compiled && bool_decide (mode = "remote"%string) then
    let timeout_ms := Config.get get_i32 config (service +:+ ".timeout_ms")%string 200 in
    endpoint ← require_non_blank_config config (service +:+ ".remote_endpoint")%string;
    Some (RemoteMode endpoint timeout_ms)
  else Some LocalMode.

(** The push notifier of the web socket handler; remote, the gateway also listens. *)
Inductive PushMode := LocalPush | RemotePush (endpoint : string) (timeout_ms : Z) (listen : string).

Definition push_mode (remote_compiled : bool) (config : jval) : option PushMode :=
  let mode := Config.get Config.get_string config "push.mode" "local"%string in
  if remote_compiled && bool_decide (mode = "remote"%string) then
    let timeout_ms := Config.get get_i32 config "push.timeout_ms" 200 in
    endpoint ← require_non_blank_config config "push.remote_endpoint";
    delivery ← require_non_blank_config config "push.gateway_delivery_listen_address";
    Some (RemotePush endpoint timeout_ms delivery)
  else Some LocalPush.

(** The modes [init_server] picks, in its order; [None] when it fails, and with it the
    constructor of the server. *)
Record Modes := { user_mode : ClientMode; message_mode : ClientMode; friend_mode : ClientMode;
  group_mode : ClientMode; notifier_mode : PushMode }.
Definition init_modes (remote_compiled : string -> bool) (f : config_file) : option Modes :=
  config ← ConfigManager f;
  u ← client_mode (remote_compiled "user"%string) "user" config;
  m ← client_mode (remote_compiled "message"%string) "message" config;
  fr ← client_mode (remote_compiled "friend"%string) "friend" config;
  g ← client_mode (remote_compiled "group"%string) "group" config;
  p ← push_mode (remote_compiled "push"%string) config;
  Some {| user_mode := u; message_mode := m; friend_mode := fr; group_mode := g; notifier_mode := p |}.

(** [max_ws_inflight_messages_] of the constructor: 0 means the default. *)
Definition max_inflight_of (config : jval) : Z :=
  let n := Config.get get_size config "gateway.max_ws_inflight_messages" 4096 in
  if n =? 0 then 4096 else n.

(** The server once [init_server] has succeeded: the pool runs ([ThreadPool::Init()]), nothing
    is in flight. *)
Definition no_stats : HttpStats := {|
  total_requests := 0; inflight_requests := 0; status_2xx := 0; status_4xx := 0; status_5xx := 0;
  status_other := 0; stat_routes := ∅ |}.
Definition new_server {R DB T} (hw : nat) (a : Api R DB T) (router : config_file) (counter : Z)
    (config : jval) : Server R DB T := {|
  api := a; parser := MessageParser_new (RouterManager_new router) counter; is_running := false;
  ws_inflight_messages := 0; max_ws_inflight_messages := max_inflight_of config;
  thread_pool := ThreadPool.Init hw 0 ThreadPool.created; timers := []; closures := []; http_stats := no_stats |}.
