(* ===== verification/GatewayExample.v ===== *)
(** One gateway server with everything in memory, for the examples of the files that follow:
    Bob is connected, Ada has a token and sends him a message. *)
From S2P Require Import Prelude Text Schema Odb MemDb PasswordHasher Redis TokenStore Json ConnectionManager ProtobufRuntime ProtobufCodec Push Rpc Auth.
From S2P Require Import MessageService MessageRemote PushGateway Http GroupHttp MessageHttp HttpFlows Config Router MessageParser Processor WsHandler Gateway.
From S2P Require GroupService ThreadPool.
Open Scope Z_scope.

Module GatewayExample.
Export ToyJwt AuthExamples PushGateway.Example_push GroupService.Witness ProtobufCodec.Reference FlowExamples.
#[export] Existing Instances Mem.mem_redis Mem.mem_redis_laws Json.Toy.toy_json Json.Toy.toy_json_laws MemStore.mem_store MemStore.mem_store_laws PasswordHasher.Toy.toy.
#[export] Existing Instances Leb128.output Leb128.input Leb128.laws.

(** The other messages of the web socket. *)
#[export] Instance SendMessageRequest_eq_dec : EqDecision SendMessageRequest.
Proof. solve_decision. Defined.
#[export] Instance SendMessageRequest_countable : Countable SendMessageRequest.
Proof.
  refine (inj_countable' (fun r => (sd_from_uid r, sd_to_uid r, sd_timestamp r, sd_type r, sd_content r))
    (fun '(a, b, c, d, e) => Build_SendMessageRequest a b c d e) _).
  by intros [].
Defined.
#[export] Instance MessageBody_eq_dec : EqDecision MessageBody.
Proof. solve_decision. Defined.
#[export] Instance MessageBody_countable : Countable MessageBody.
Proof.
  refine (inj_countable
    (fun r => [countable.encode (mb_message_id r); countable.encode (mb_type r); countable.encode (mb_content r);
       countable.encode (mb_is_read r); countable.encode (mb_sender_uid r); countable.encode (mb_receiver_uid r);
       countable.encode (mb_create_time r); countable.encode (mb_delivered_time r); countable.encode (mb_read_time r)])
    (fun l => match l with
       | [a; b; c; d; e; f; g; h; i] =>
           a ← countable.decode a; b ← countable.decode b; c ← countable.decode c; d ← countable.decode d;
           e ← countable.decode e; f ← countable.decode f; g ← countable.decode g; h ← countable.decode h;
           i ← countable.decode i; Some (Build_MessageBody a b c d e f g h i)
       | _ => None
       end) _).
  intros []. cbn beta iota. rewrite !countable.decode_encode. reflexivity.
Defined.
#[export] Instance SendMessageResponse_eq_dec : EqDecision SendMessageResponse.
Proof. solve_decision. Defined.
#[export] Instance SendMessageResponse_countable : Countable SendMessageResponse.
Proof.
  refine (inj_countable' (fun r => (MessageRemote.sp_base r, MessageRemote.sp_message r))
    (fun '(a, b) => Build_SendMessageResponse a b) _).
  by intros [].
Defined.

#[export] Instance send_request_proto : ProtoMessage SendMessageRequest :=
  AnyProto.proto send_request_name (Build_SendMessageRequest "" "" 0 0 "").
#[export] Instance send_request_laws : ProtoLaws SendMessageRequest.
Proof. apply AnyProto.proto_laws. Defined.
#[export] Instance send_response_proto : ProtoMessage SendMessageResponse :=
  AnyProto.proto (String.list_byte_of_string "im.message.SendMessageResponse") (Build_SendMessageResponse response0 None).
#[export] Instance send_response_laws : ProtoLaws SendMessageResponse.
Proof. apply AnyProto.proto_laws. Defined.

Abbreviation ExServer := (Server Mem.t MemDb MemStore.t).

(** The token of Ada, of one minute. *)
Definition ada_claims : Claims := access_claims conf 1700000000500000000 "id" (id_of 1) "ada" "phone" "ios" 60.
Definition ada_info : UserTokenInfo := {|
  ti_user_id := id_of 1; ti_username := "ada"; ti_device_id := "phone"; ti_platform := "ios";
  ti_create_time := 1700000000000000000; ti_expire_time := 1700000060000000000 |}.

(** Two hardware threads, the routes of the router's examples. *)
Definition server0 : ExServer := new_server 2 (state bob_here dd) RouterExamples.config 0 (JObj []).
(** The pool is down. *)
Definition down0 : ExServer := set_pool (ThreadPool.raise_flag (thread_pool server0)) server0.

(** Ada writes to Bob, in the name of somebody else. *)
Definition ada_header : IMHeader := {|
  version := "1.0"; seq_ := 7; ProtobufCodec.cmd_id := CMD_SEND_MESSAGE; from_uid := "mallory"; to_uid := id_of 2;
  timestamp := 0; token := ada_token; ProtobufCodec.device_id := "phone"; ProtobufCodec.platform := "" |}.
Definition ada_text : SendMessageRequest := Build_SendMessageRequest "mallory" "" 0 0 "hi".
Definition ada_frame : bytes := encoded ada_header ada_text.
Definition bytes_of {M} `{ProtoMessage M} (m : M) : bytes := default [] (SerializeToString m).

Lemma ada_encoded : encode ada_header ada_text = Some ada_frame.
Proof.
  unfold ada_frame, encoded. assert (Hs : match encode ada_header ada_text with Some _ => true | None => false end = true)
    by (vm_compute; reflexivity).
  by destruct (encode ada_header ada_text).
Qed.
End GatewayExample.
