(* ===== verification/GatewayFlows.v ===== *)
(** What follows for the gateway server of [Gateway.v]: frames of the web socket from the
    client to the stored message, the limit of messages in flight, the authentication of
    sessions, and the HTTP catch-all. *)
From S2P Require Import Prelude Text Schema Odb MemDb PasswordHasher Redis TokenStore Json ConnectionManager ProtobufRuntime ProtobufCodec Push Rpc Auth.
From S2P Require Import MessageService MessageRemote PushGateway Http GroupHttp MessageHttp HttpFlows Config Router MessageParser Processor WsHandler Gateway GatewayExample.
From S2P Require ThreadPool.
Open Scope Z_scope.

(** * The parser *)

Lemma choose_session_router prefix sid p sid' p' : choose_session prefix sid p = (sid', p') ->
  router_manager p' = router_manager p.
Proof. unfold choose_session. case_bool_decide; by intros [= _ <-]. Qed.

(** A request that is parsed carries the command of its route. *)
Lemma http_parsed_route `{Json} what req sid now p m p' :
  parse_http_request_enhanced what req sid now p = (success_result m, p') ->
  is_http m = true /\ is_websocket m = false /\
  exists path r, routes (http_router (router_manager p)) !! path = Some r /\ get_cmd_id m = Router.cmd_id r.
Proof.
  unfold parse_http_request_enhanced. do 2 (case_bool_decide; [done|]).
  unfold parse_route. destruct (strip_prefix _ _) as [rest|]; [|done].
  destruct (routes _ !! slashed rest) as [r|] eqn:Er; [|done]. cbn [is_valid HttpRouteResult_ok negb].
  destruct (choose_session _ _ _) as [sid' p1] eqn:Ec. destruct (enhanced_body req) as [jb|]; [|done].
  destruct (if bool_decide _ then _ else _) as [h|] eqn:Eh; [|done]. intros [= <- _].
  split_and!; [done|done|]. exists (slashed rest), r. split; [done|]. unfold get_cmd_id. simpl.
  assert (Hset : forall convert set key j h1 h2, (forall u h0, ProtobufCodec.cmd_id (set u h0) = ProtobufCodec.cmd_id h0) ->
    set_uid convert set key j h1 = Some h2 -> ProtobufCodec.cmd_id h2 = ProtobufCodec.cmd_id h1).
  { intros convert set key j h1 h2 Hs. unfold set_uid. destruct (find_member j key) as [v|]; [|by intros [= <-]].
    destruct (match v with JStr _ => _ | _ => _ end) as [u|]; [|done]. simpl. intros [= <-]. apply Hs. }
  case_bool_decide; [by injection Eh as <-|]. destruct (parse _) as [j|]; [|done]. simpl in Eh.
  unfold set_uids in Eh. destruct (set_uid _ set_from_uid _ _ _) as [h1|] eqn:E1; [|done]. simpl in Eh.
  apply Hset in E1, Eh; [|done..]. by rewrite Eh, E1.
Qed.

(** A frame of the codec within the limits is a message. *)
Section Frame.
Context {St : Type} `{CodedLaws St} `{ProtoLaws IMHeader}.

Lemma frame_parsed {M} `{ProtoLaws M} (h : IMHeader) (m : M) hd frame sid now p :
  0 < zlen (GetTypeName M) -> SerializeToString h = Some hd -> 0 < zlen hd ->
  encode h m = Some frame -> zlen frame <= max_message ->
  ProtobufCodec.cmd_id h <> 0 -> sid <> ""%string ->
  exists md, SerializeToString m = Some md /\
    parse_websocket_message_enhanced (S := St) frame sid now p =
    Val (success_result (ws_message h frame (GetTypeName M) md (ws_context sid now)), websocket_parsed p).
Proof.
  intros Htn Hh Hhd He Hmax Hc Hs.
  destruct (encode_inv h m frame He) as (hd' & md & Hh' & Hm & -> & Hd).
  { unfold max_message, max_frame in *. lia. }
  assert (hd' = hd) as -> by congruence. exists md. split; [done|].
  unfold parse_websocket_message_enhanced. rewrite bool_decide_eq_false_2.
  2: { intros Hx. apply (f_equal length) in Hx. rewrite length_app in Hx. simpl in Hx. lia. }
  rewrite (proj2 (Z.ltb_ge _ _)) by done.
  erewrite decodeEnvelope_data by done. simpl. rewrite (proj2 (Z.eqb_neq _ _) Hc).
  unfold choose_session. by rewrite bool_decide_eq_false_2.
Qed.
End Frame.

(** * The HTTP catch-all *)
Section Flows.
Context {R DB T : Type} `{Redis R} `{Odb DB} `{Pbkdf2} `{TokenStoreLaws T} `{JsonLaws} `{JwtLaws}.
Context {St : Type} `{CodedLaws St} `{ProtoLaws IMHeader} `{ProtoMessage PushRequest}.
Context `{ProtoLaws SendMessageRequest} `{ProtoLaws SendMessageResponse} `{ProtoLaws BaseResponse}.
Context (secret_key : string) (devices : gmap PlatformType bool).
Context (what service_device service_platform : string) (hw : nat).
Abbreviation S := (Server R DB T).
Abbreviation A := (Api R DB T).



Lemma processors_lookup push now_ms reply_ms cmd :
  register_message_handlers (R := R) (DB := DB) (T := T) secret_key what service_device service_platform push now_ms reply_ms !! cmd =
  if decide (cmd = CMD_HEARTBEAT) then
    Some (handle_heartbeat_message (H := server_auth secret_key) service_device service_platform reply_ms true)
  else if decide (cmd = CMD_SEND_MESSAGE) then
    Some (handle_send (H := server_auth secret_key) (H0 := api_messages) what service_device service_platform now_ms reply_ms push)
  else None.
Proof.
  unfold register_message_handlers, register_message_handler, register_processor. simpl.
  rewrite lookup_empty. simpl. rewrite lookup_insert_ne by done. rewrite lookup_empty. simpl.
  destruct (decide (cmd = CMD_HEARTBEAT)) as [->|Hh].
  - rewrite lookup_insert_ne by done. apply lookup_insert_eq.
  - destruct (decide (cmd = CMD_SEND_MESSAGE)) as [->|Hs]; [apply lookup_insert_eq|].
    by rewrite !lookup_insert_ne by done.
Qed.

(** Only the token store changes. *)
Definition same_gate (a a' : A) : Prop := gate a' = gate a.

Lemma on_tokens_gate {B} (m : exec T B) (a a' : A) r : on_tokens m a = (a', r) -> same_gate a a'.
Proof. unfold on_tokens, same_gate. destruct (m _). by intros [= <- _]. Qed.

(** A request of the catch-all that is not a heartbeat ends in a refusal. *)
Lemma http_refused push now_ms reply_ms m (a a' : A) r :
  is_http m = true -> is_websocket m = false -> get_cmd_id m <> CMD_HEARTBEAT ->
  process_message_sync (H := server_auth secret_key) what true
    (register_message_handlers secret_key what service_device service_platform push now_ms reply_ms) (Some m) a = (a', r) ->
  same_gate a a' /\ exists res, r = Ok res /\ result_code res <> 0.
Proof.
  intros Hh Hw Hc. unfold process_message_sync, handler, try_catch, bind at 1. rewrite Hh.
  unfold Processor.verify_access_token. set (auth := if bool_decide _ then _ else _).
  destruct (auth a) as [a1 ok] eqn:Ea.
  assert (Hg : same_gate a a1).
  { unfold auth in Ea. case_bool_decide; [by inversion Ea|]. exact (on_tokens_gate _ _ _ _ Ea). }
  destruct ok as [ok|]; [|intros [= <- <-]; split; [done|by eexists]].
  destruct ok; simpl negb; [|intros [= <- <-]; split; [done|by eexists]].
  rewrite processors_lookup. rewrite decide_False by done.
  case_decide as Hs; [|intros [= <- <-]; split; [done|by eexists]].
  unfold handle_send, handler, try_catch. rewrite Hw. simpl. intros [= <- <-].
  split; [done|by eexists].
Qed.

Lemma build_response_status c b e res : build_response c b e = Some res -> status res = c.
Proof. unfold build_response. destruct (dump _); [|done]. by intros [= <-]. Qed.

Definition refusal (code : Z) : Prop := code ∈ [400; 401; 500; 503; 504].

(** C22: The catch-all route of HTTP serves nothing but heartbeats.  Unless the router maps a
    path to CMD_HEARTBEAT, every request it answers, with any token and any body, gets 400,
    401, 500, 503 or 504, and neither the database nor the connections nor any web socket is
    touched: the routes of the router configuration lead to commands that have no processor,
    or to one that refuses HTTP. *)
Theorem catch_all_refuses push now_ms reply_ms late req (s s' : S) res :
  (forall path r, routes (http_router (router_manager (parser s))) !! path = Some r ->
     Router.cmd_id r <> CMD_HEARTBEAT) ->
  http_callback secret_key what service_device service_platform hw push now_ms reply_ms late req s = (s', Some res) ->
  refusal (status res) /\ gate (api s') = gate (api s).
Proof.
  intros Hr. unfold http_callback, refusal.
  destruct (parse_http_request_enhanced what req "" now_ms (parser s)) as [[m|code msg] p] eqn:Ep.
  - destruct (http_parsed_route _ _ _ _ _ _ _ Ep) as (Hh & Hw & path & r & Hp & Hc).
    assert (Hcmd : get_cmd_id m <> CMD_HEARTBEAT) by (rewrite Hc; by eapply Hr).
    unfold http_answer. simpl. destruct (is_running s); simpl negb; cbv iota.
    + destruct (process_message_sync _ _ _ _ _) as [a r'] eqn:E. simpl in E.
      apply http_refused in E as (Hg & res' & -> & Hn); [|done..]. simpl.
      destruct late; [|rewrite (proj2 (Z.eqb_neq _ _) Hn); simpl].
      * destruct (build_response 504 _ _) eqn:Eb; intros [= <- Ex]; split; try done;
          [subst; apply build_response_status in Eb|apply build_response_status in Ex]; set_solver.
      * destruct (build_response (http_status_of _) _ _) eqn:Eb; intros [= <- Ex]; split; try done;
          [subst; apply build_response_status in Eb|apply build_response_status in Ex; set_solver].
        rewrite Eb. unfold http_status_of. repeat case_match; set_solver.
    + destruct (build_response 503 _ _) eqn:Eb; intros [= <- Ex]; split; try done;
        [subst; apply build_response_status in Eb|apply build_response_status in Ex]; set_solver.
  - destruct (build_response 500 "" msg) eqn:Eb; intros [= <- Ex]; split; try done;
      [subst; apply build_response_status in Eb|apply build_response_status in Ex]; set_solver.
Qed.
End Flows.

(** * Example: a private message over HTTP *)
Module CatchAllExamples.
Import GatewayExample.

Definition send_request : Request := {|
  method := "POST"; path := "/api/v1/message/send"; body := ""; headers := [("Authorization", "Bearer " +:+ ada_token)]%string;
  params := [] |}.

(** The route exists, the token is in force, and the answer is a refusal. *)
Lemma catch_all_refuses_witness : exists s' res,
  http_callback "key" "what" "gw" "" 2 None 9 5 false send_request server0 = (s', Some res) /\
  refusal (status res) /\ posted (gate (api s')) = [].
Proof.
  destruct (http_callback "key" "what" "gw" "" 2 None 9 5 false send_request server0)
    as [s' [res|]] eqn:E.
  - exists s', res. destruct (catch_all_refuses "key" "what" "gw" "" 2 None 9 5 false send_request server0 s' res) as [Hr Hg];
      [|exact E|split_and!; [reflexivity|exact Hr|by rewrite Hg]].
    intros path r Hp Hc.
    assert (Hall : forallb (fun p => negb (Router.cmd_id p.2 =? CMD_HEARTBEAT))
      (map_to_list (routes (http_router (router_manager (parser server0))))) = true) by (vm_compute; reflexivity).
    rewrite forallb_forall in Hall. specialize (Hall (path, r)).
    rewrite <- list_elem_of_In, elem_of_map_to_list in Hall. specialize (Hall Hp). simpl in Hall. by rewrite Hc in Hall.
  - exfalso. assert (Hs : match (http_callback "key" "what" "gw" "" 2 None 9 5 false send_request server0).2
      with Some _ => true | None => false end = true) by (vm_compute; reflexivity). by rewrite E in Hs.
Defined.
End CatchAllExamples.
