(* ===== verification/Lifecycle.v ===== *)
(** The life of the gateway (src/gateway/gateway_server/gateway_server.cpp): what
    [init_server] builds from the configuration, [start], [stop], the gRPC server for the
    deliveries of the push server, and the thread of the HTTP server beside them.

    httplib is third-party code: its server is the class [HttpServer], with its documented
    behaviour as [HttpServerLaws].  What the constructors of the other libraries answer is the
    record [World]. *)
From S2P Require Import Prelude Text Json Config Gateway.
Open Scope Z_scope.
Open Scope string_scope.
Open Scope Z_scope.

(** * httplib *)

(** [listen_after_bind]: [None] when it returns at once, else the server that serves. *)
Class HttpServer (H : Type) := {
  http_new : H;
  bind_to_port : Z -> H -> H * bool;
  listen_after_bind : H -> option H;
  http_stop : H -> H;
  serving : H -> bool
}.

Class HttpServerLaws (H : Type) `{HttpServer H} := {
  new_law : serving http_new = false;
  bind_law port h : serving (bind_to_port port h).1 = serving h;
  listen_law h h' : listen_after_bind h = Some h' -> serving h' = true;
  stop_law h : serving (http_stop h) = false;
  stop_idle_law h : serving h = false -> http_stop h = h     (* it stops a running server only *)
}.

(** * What [init_server] builds *)

(** The [IM_ENABLE_*] of the build. *)
Record build := {
  user_http : bool; message_http : bool; friend_http : bool; group_http : bool;
  group_message_http : bool; message_ws : bool;
  remote_compiled : string -> bool           (* the remote client of a service, or of "push" *)
}.

(** What the libraries answer: the database handle is made, a file exists, a certificate and a
    key are accepted, the web socket acceptor opens on a port, and the port a gRPC server got on
    an address, if it started. *)
Record World := {
  odb_database : bool;
  file_exists : string -> bool;
  use_certificate : string -> string -> bool;
  acceptor_opens : Z -> bool;
  build_and_start : string -> option Z
}.

Inductive PushNotifier := ToPushService | ToRemoteNotifier (endpoint : string) (timeout_ms : Z).

(** The pointers [init_server] sets; a controller has its client, and its notifier. *)
Record Components (H : Type) := {
  odb_db_ : bool;
  user_http_controller_ : option ClientMode;
  message_client_ : option ClientMode;
  message_http_controller_ : option (ClientMode * option PushNotifier);
  friend_client_ : option ClientMode;
  friend_http_controller_ : option ClientMode;
  group_client_ : option ClientMode;
  group_http_controller_ : option ClientMode;
  group_message_http_controller_ : option (ClientMode * option PushNotifier);
  websocket_server_ : bool;
  http_server_ : option H;
  conn_mgr_ : bool;
  push_service_ : option ClientMode;
  gateway_push_delivery_server_ : option Z;   (* its selected port *)
  push_notifier_ : option PushNotifier;
  message_ws_handler_ : option (ClientMode * PushNotifier)
}.
Arguments odb_db_ {H}. Arguments user_http_controller_ {H}. Arguments message_client_ {H}.
Arguments message_http_controller_ {H}. Arguments friend_client_ {H}. Arguments friend_http_controller_ {H}.
Arguments group_client_ {H}. Arguments group_http_controller_ {H}. Arguments group_message_http_controller_ {H}.
Arguments websocket_server_ {H}. Arguments http_server_ {H}. Arguments conn_mgr_ {H}.
Arguments push_service_ {H}. Arguments gateway_push_delivery_server_ {H}. Arguments push_notifier_ {H}.
Arguments message_ws_handler_ {H}.

Section Init.
Context {H : Type} `{HttpServer H} (b : build) (w : World) (config : jval).

(** Exceptions of any step end in [return false]: [None]. *)
Definition assert_ok (x : bool) : option unit := if x then Some tt else None.

Definition any_http : bool :=
  user_http b || message_http b || friend_http b || group_http b || group_message_http b.

Definition init_odb : option bool :=
  if any_http then _ ← assert_ok (odb_database w); Some true else Some false.

(** A client that the build includes. *)
Definition when {A} (enabled : bool) (m : option A) : option (option A) :=
  if enabled then a ← m; Some (Some a) else Some None.

Definition init_user : option (option ClientMode) :=
  when (user_http b) (client_mode (remote_compiled b "user") "user" config).
Definition init_message : option (option ClientMode) :=
  when (message_http b) (client_mode (remote_compiled b "message") "message" config).
Definition init_friend : option (option ClientMode) :=
  when (friend_http b) (client_mode (remote_compiled b "friend") "friend" config).
Definition init_group : option (option ClientMode) :=
  when (group_http b) (client_mode (remote_compiled b "group") "group" config).

(** The group messages use the client of the groups when there is one. *)
Definition init_group_message (group_client : option ClientMode) : option (option ClientMode) :=
  if group_message_http b then
    match group_client with
    | Some c => Some (Some c)
    | None => c ← client_mode (remote_compiled b "group") "group" config; Some (Some c)
    end
  else Some group_client.

(** [init_ws_server]: the certificate and the key, then the acceptor. *)
Definition init_ws_server (port : Z) : option unit :=
  let cert_path := get get_string config "gateway.cert_file" "test/network/test_cert.pem" in
  let key_path := get get_string config "gateway.key_file" "test/network/test_key.pem" in
  _ ← assert_ok (file_exists w cert_path && file_exists w key_path);
  _ ← assert_ok (use_certificate w cert_path key_path);
  assert_ok (acceptor_opens w port).

(** [init_http_server]: what [bind_to_port] answers is not looked at. *)
Definition init_http_server (port : Z) : H := (bind_to_port port http_new).1.

(** [start_gateway_push_delivery_server] on a gateway without such a server. *)
Definition start_gateway_push_delivery_server (listen_address : string) : option Z :=
  if is_blank listen_address then None else build_and_start w listen_address.

(** The push part: the service, the delivery server, the notifier. *)
Definition init_push (message_client : option ClientMode)
  : option (ClientMode * option Z * PushNotifier) :=
  let client := default LocalMode message_client in
  mode ← push_mode (remote_compiled b "push") config;
  match mode with
  | LocalPush => Some (client, None, ToPushService)
  | RemotePush endpoint timeout_ms listen =>
      port ← start_gateway_push_delivery_server listen;
      Some (client, Some port, ToRemoteNotifier endpoint timeout_ms)
  end.

Definition init_server (ws_port http_port : Z) : option (Components H) :=
  odb ← init_odb;
  user ← init_user;
  message ← init_message;
  friend ← init_friend;
  group ← init_group;
  group' ← init_group_message group;
  _ ← init_ws_server ws_port;
  let http := init_http_server http_port in
  push ← when (message_ws b) (init_push message);
  let notifier := (fun p => p.2) <$> push in
  Some {|
    odb_db_ := odb;
    user_http_controller_ := user;
    message_client_ := if message_ws b then Some (default LocalMode message) else message;
    message_http_controller_ := (fun c => (c, notifier)) <$> message;
    friend_client_ := friend; friend_http_controller_ := friend;
    group_client_ := group'; group_http_controller_ := group;
    group_message_http_controller_ :=
      if group_message_http b then (fun c => (c, notifier)) <$> group' else None;
    websocket_server_ := true; http_server_ := Some http; conn_mgr_ := true;
    push_service_ := (fun p => p.1.1) <$> push;
    gateway_push_delivery_server_ := push ≫= (fun p => p.1.2);
    push_notifier_ := notifier;
    message_ws_handler_ := (fun p => (p.1.1, p.2)) <$> push |}.
End Init.

(** * Running *)

(** The thread [http_thread_]; [std::nullopt] of the model: not joinable. *)
Inductive HttpThread := Spawned | Listening | Ended.

(** The web socket server, as far as starting and stopping go: [WebSocket.v] has the rest.
    [stop_posted]: the task of [stop()] waits for the I/O thread. *)
Record WsServer := { acceptor_open : bool; accepting : bool; stop_posted : bool }.

(** [waiting]: a thread is inside [stop()], at [http_thread_.join()]. *)
Record GatewayServer (H : Type) := {
  components : Components H;
  is_running_ : bool;
  ws : WsServer;
  http_thread_ : option HttpThread;
  waiting : bool
}.
Arguments components {H}. Arguments is_running_ {H}. Arguments ws {H}. Arguments http_thread_ {H}.
Arguments waiting {H}.

Definition set_http {H} (h : option H) (c : Components H) : Components H := {|
  odb_db_ := odb_db_ c; user_http_controller_ := user_http_controller_ c;
  message_client_ := message_client_ c; message_http_controller_ := message_http_controller_ c;
  friend_client_ := friend_client_ c; friend_http_controller_ := friend_http_controller_ c;
  group_client_ := group_client_ c; group_http_controller_ := group_http_controller_ c;
  group_message_http_controller_ := group_message_http_controller_ c;
  websocket_server_ := websocket_server_ c; http_server_ := h; conn_mgr_ := conn_mgr_ c;
  push_service_ := push_service_ c; gateway_push_delivery_server_ := gateway_push_delivery_server_ c;
  push_notifier_ := push_notifier_ c; message_ws_handler_ := message_ws_handler_ c |}.

(** [stop_gateway_push_delivery_server]. *)
Definition stop_gateway_push_delivery_server {H} (c : Components H) : Components H := {|
  odb_db_ := odb_db_ c; user_http_controller_ := user_http_controller_ c;
  message_client_ := message_client_ c; message_http_controller_ := message_http_controller_ c;
  friend_client_ := friend_client_ c; friend_http_controller_ := friend_http_controller_ c;
  group_client_ := group_client_ c; group_http_controller_ := group_http_controller_ c;
  group_message_http_controller_ := group_message_http_controller_ c;
  websocket_server_ := websocket_server_ c; http_server_ := http_server_ c; conn_mgr_ := conn_mgr_ c;
  push_service_ := push_service_ c; gateway_push_delivery_server_ := None;
  push_notifier_ := push_notifier_ c; message_ws_handler_ := message_ws_handler_ c |}.

Section Running.
Context {H : Type} `{HttpServer H}.
Implicit Types g : GatewayServer H.

(** The constructor: [init_server] in a gateway that is not running. *)
Definition GatewayServer_new (b : build) (w : World) (config : jval) (ws_port http_port : Z)
  : option (GatewayServer H) :=
  c ← init_server b w config ws_port http_port;
  Some {| components := c; is_running_ := false;
          ws := {| acceptor_open := true; accepting := false; stop_posted := false |};
          http_thread_ := None; waiting := false |}.

Definition set_phase (c : Components H) (running : bool) (s : WsServer) (t : option HttpThread) (wt : bool)
  : GatewayServer H :=
  {| components := c; is_running_ := running; ws := s; http_thread_ := t; waiting := wt |}.

(** [websocket_server_->start()] and [->stop()]: an accept on a closed acceptor fails at once. *)
Definition ws_start (s : WsServer) : WsServer :=
  {| acceptor_open := acceptor_open s; accepting := acceptor_open s; stop_posted := stop_posted s |}.
Definition ws_stop (s : WsServer) : WsServer :=
  {| acceptor_open := acceptor_open s; accepting := accepting s; stop_posted := true |}.
Definition ws_run_stop (s : WsServer) : WsServer :=
  {| acceptor_open := false; accepting := false; stop_posted := false |}.

Definition stop_http (c : Components H) : Components H := set_http (http_stop <$> http_server_ c) c.

(** [start()]: [thread_ok] tells whether [std::thread] starts.  [None]: it waits in the join of
    an older thread that has not ended. *)
Definition start (thread_ok : bool) g : option (GatewayServer H * result unit) :=
  if is_running_ g then Some (g, Ok tt)
  else if negb (websocket_server_ (components g)) || negb (bool_decide (is_Some (http_server_ (components g))))
  then Some (g, Throw)
  else
    let s := ws_start (ws g) in
    let spawn (c : Components H) :=
      if thread_ok then Some (set_phase c true s (Some Spawned) (waiting g), Ok tt)
      else Some (set_phase c false s None (waiting g), Throw) in
    match http_thread_ g with
    | None => spawn (components g)
    | Some Ended => spawn (stop_http (components g))
    | Some _ => None
    end.

(** [stop()] up to [http_thread_.join()]. *)
Definition stop g : GatewayServer H :=
  let c := stop_gateway_push_delivery_server (components g) in
  if is_running_ g then
    set_phase (stop_http c) false (ws_stop (ws g)) (http_thread_ g) true
  else set_phase c false (ws g) (http_thread_ g) (waiting g).

(** The join returns when the thread has ended, or when there is none. *)
Definition join g : option (GatewayServer H) :=
  if waiting g then
    match http_thread_ g with
    | Some Ended | None => Some (set_phase (components g) (is_running_ g) (ws g) None false)
    | _ => None
    end
  else None.

(** The thread of the HTTP server. *)
Definition http_run g : option (GatewayServer H) :=
  h ← http_server_ (components g);
  match http_thread_ g with
  | Some Spawned =>
      match listen_after_bind h with
      | Some h' => Some (set_phase (set_http (Some h') (components g)) (is_running_ g) (ws g) (Some Listening) (waiting g))
      | None => Some (set_phase (components g) (is_running_ g) (ws g) (Some Ended) (waiting g))
      end
  | Some Listening =>
      if serving h then None
      else Some (set_phase (components g) (is_running_ g) (ws g) (Some Ended) (waiting g))
  | _ => None
  end.

(** The I/O thread runs the task that [websocket_server_->stop()] posted. *)
Definition ws_run g : option (GatewayServer H) :=
  if stop_posted (ws g) then Some (set_phase (components g) (is_running_ g) (ws_run_stop (ws g)) (http_thread_ g) (waiting g))
  else None.

(** The other threads of the process. *)
Inductive env_step : GatewayServer H -> GatewayServer H -> Prop :=
| env_http g g' : http_run g = Some g' -> env_step g g'
| env_ws g g' : ws_run g = Some g' -> env_step g g'.

(** The thread that owns the gateway calls [start] and [stop] when it is not inside [stop]. *)
Inductive step : GatewayServer H -> GatewayServer H -> Prop :=
| step_env g g' : env_step g g' -> step g g'
| step_start ok g g' r : waiting g = false -> start ok g = Some (g', r) -> step g g'
| step_stop g : waiting g = false -> step g (stop g)
| step_join g g' : join g = Some g' -> step g g'.
End Running.

(** * Theorems *)

(** ** What the configuration gives *)

Section InitTheorems.
Context {H : Type} `{HttpServer H} (b : build) (w : World) (config : jval).

(** The client that the documentation of the modes asks for: remote when it is compiled and
    asked for, at the endpoint of the configuration, which is not blank; local otherwise. *)
Definition client_of (service : string) (c : ClientMode) : Prop :=
  let asked := get get_string config (service +:+ ".mode") "local" = "remote" in
  if remote_compiled b service
  then (asked -> exists endpoint, is_blank endpoint = false /\
          endpoint = get get_string config (service +:+ ".remote_endpoint") EmptyString /\
          c = RemoteMode endpoint (get get_i32 config (service +:+ ".timeout_ms") 200)) /\
       (~ asked -> c = LocalMode)
  else c = LocalMode.

Lemma non_blank key s : require_non_blank_config config key = Some s ->
  is_blank s = false /\ s = get get_string config key EmptyString.
Proof. unfold require_non_blank_config. intros. destruct (is_blank _) eqn:E; by simplify_eq. Qed.

Lemma client_mode_spec service c :
  client_mode (remote_compiled b service) service config = Some c -> client_of service c.
Proof.
  unfold client_mode, client_of. destruct (remote_compiled b service); simpl; [|by intros [= <-]].
  case_bool_decide as E; [|intros [= <-]; split; [done|done]].
  intros (endpoint & [Hb He]%non_blank & [= <-])%bind_Some. split; [|done]. eauto.
Qed.

Lemma when_Some {A} enabled (m : option A) o : when enabled m = Some o ->
  if enabled then exists a, m = Some a /\ o = Some a else o = None.
Proof.
  unfold when. destruct enabled; [|by intros [= <-]]. intros (a & ? & [= <-])%bind_Some. eauto.
Qed.

(** A pointer that the build includes, set to the client the configuration asks for. *)
Definition holds (enabled : bool) (service : string) (o : option ClientMode) : Prop :=
  if enabled then exists c, o = Some c /\ client_of service c else o = None.

Lemma init_holds enabled service o :
  when enabled (client_mode (remote_compiled b service) service config) = Some o ->
  holds enabled service o.
Proof.
  intros Hw%when_Some. unfold holds. destruct enabled; [|done].
  destruct Hw as (a & Ha%client_mode_spec & ->). eauto.
Qed.

Lemma group_holds o o' : init_group b config = Some o -> init_group_message b config o = Some o' ->
  holds (group_http b || group_message_http b) "group" o' /\ o = if group_http b then o' else None.
Proof.
  unfold init_group, init_group_message. intros Ho Hg. pose proof (init_holds _ _ _ Ho) as Hh.
  unfold holds in *. destruct (group_http b), (group_message_http b); simpl.
  - destruct Hh as (c & -> & Hc). simplify_eq. eauto.
  - simplify_eq. eauto.
  - subst o. apply bind_Some in Hg as (c & Hc%client_mode_spec & [= <-]). eauto.
  - by simplify_eq.
Qed.

(** The notifier and the port of the delivery server, as "push.mode" asks. *)
Definition push_of (n : PushNotifier) (port : option Z) : Prop :=
  if remote_compiled b "push" && bool_decide (get get_string config "push.mode" "local" = "remote")
  then exists endpoint listen p,
    n = ToRemoteNotifier endpoint (get get_i32 config "push.timeout_ms" 200) /\
    endpoint = get get_string config "push.remote_endpoint" EmptyString /\
    listen = get get_string config "push.gateway_delivery_listen_address" EmptyString /\
    is_blank endpoint = false /\ is_blank listen = false /\
    build_and_start w listen = Some p /\ port = Some p
  else n = ToPushService /\ port = None.

Lemma init_push_spec o p : init_push b w config o = Some p ->
  p.1.1 = default LocalMode o /\ push_of p.2 p.1.2.
Proof.
  unfold init_push, push_mode, push_of. intros (mode & Hm & Hp)%bind_Some.
  destruct (remote_compiled b "push" && _).
  - apply bind_Some in Hm as (endpoint & [He1 He2]%non_blank & Hm).
    apply bind_Some in Hm as (listen & [Hl1 Hl2]%non_blank & [= <-]).
    apply bind_Some in Hp as (port & Hs & [= <-]). unfold start_gateway_push_delivery_server in Hs.
    rewrite Hl1 in Hs. simpl. split; [done|]. eauto 12.
  - by simplify_eq.
Qed.

(** C37: A gateway that starts is wired as its configuration says.  Every controller that the
    build includes uses the client its "mode" asks for, a remote one at an endpoint that is not
    blank; the two controllers of groups share one client, and so do the controller and the web
    socket handler of messages and the push service; every one of them that pushes holds the same
    notifier, which exists when the handler does; and remote pushing comes with a delivery server
    that listens on the configured address.  Without the message controller the client of the web
    socket handler is the local one, whatever the configuration says. *)
Theorem startup_wired ws_port http_port c :
  init_server b w config ws_port http_port = Some c ->
  holds (user_http b) "user" (user_http_controller_ c) /\
  (holds (friend_http b) "friend" (friend_client_ c) /\ friend_http_controller_ c = friend_client_ c) /\
  (holds (group_http b || group_message_http b) "group" (group_client_ c) /\
   group_http_controller_ c = (if group_http b then group_client_ c else None) /\
   group_message_http_controller_ c =
     if group_message_http b then (fun k => (k, push_notifier_ c)) <$> group_client_ c else None) /\
  ((if message_http b then holds true "message" (message_client_ c)
    else message_client_ c = if message_ws b then Some LocalMode else None) /\
   message_http_controller_ c =
     if message_http b then (fun k => (k, push_notifier_ c)) <$> message_client_ c else None) /\
  (if message_ws b then exists k n, message_client_ c = Some k /\ push_notifier_ c = Some n /\
       push_service_ c = Some k /\ message_ws_handler_ c = Some (k, n) /\
       push_of n (gateway_push_delivery_server_ c)
   else push_notifier_ c = None /\ message_ws_handler_ c = None /\ gateway_push_delivery_server_ c = None) /\
  websocket_server_ c = true /\ is_Some (http_server_ c).
Proof.
  unfold init_server. intros (odb & _ & E)%bind_Some.
  apply bind_Some in E as (user & Hu%init_holds & E).
  apply bind_Some in E as (message & Hm & E). apply bind_Some in E as (friend & Hf%init_holds & E).
  apply bind_Some in E as (group & Hg & E). apply bind_Some in E as (group' & Hg' & E).
  apply bind_Some in E as ([] & _ & E). apply bind_Some in E as (push & Hp%when_Some & [= <-]). simpl.
  destruct (group_holds _ _ Hg Hg') as [Hgh ->].
  split; [done|]. split; [done|]. split; [done|].
  assert (Hmw : forall k, message = Some k -> (if message_ws b then Some (default LocalMode message)
    else message) = Some k) by (intros k ->; by destruct (message_ws b)).
  pose proof (init_holds _ _ _ Hm) as Hmh. unfold holds in Hmh. split; [|split; [|by eauto]].
  - destruct (message_http b); [|subst message; by destruct (message_ws b)].
    destruct Hmh as (k & -> & Hk). rewrite (Hmw k eq_refl). split; [|done]. by exists k.
  - destruct (message_ws b); [|by subst].
    destruct Hp as (p & [Hc Hn]%init_push_spec & ->). simpl. rewrite Hc. eauto 8.
Qed.
End InitTheorems.

(** ** Starting and stopping *)

Section RunTheorems.
Context {H : Type} `{HttpServerLaws H}.
Implicit Types g : GatewayServer H.

Definition http_serving g : bool :=
  match http_server_ (components g) with Some h => serving h | None => false end.

(** The thread exists while the gateway runs or is being stopped, and only then; the HTTP server
    serves in a thread that listens. *)
Record phases g : Prop := {
  built : websocket_server_ (components g) = true /\ is_Some (http_server_ (components g));
  thread_there : http_thread_ g <> None <-> is_running_ g = true \/ waiting g = true;
  not_both : is_running_ g = true -> waiting g = false;
  serves_listening : http_serving g = true -> http_thread_ g = Some Listening;
  listens_serving : is_running_ g = true -> http_thread_ g = Some Listening -> http_serving g = true
}.

(** The fields of [phases] for a state whose parts are known. *)
Ltac ph := first [done|split; [done|by eexists]|intuition congruence].

Lemma new_phases b w config ws_port http_port g :
  GatewayServer_new b w config ws_port http_port = Some g -> phases g.
Proof.
  unfold GatewayServer_new. intros (c & Hc & [= <-])%bind_Some.
  unfold init_server in Hc.
  repeat (apply bind_Some in Hc as (? & _ & Hc)). injection Hc as <-.
  split; unfold http_serving; simpl; unfold init_http_server; rewrite ?bind_law, ?new_law; try done.
  split; [by intros []|by intros []].
Qed.

Lemma stop_http_serving c : match http_server_ (stop_http c) with Some h => serving h | None => false end = false.
Proof. unfold stop_http. simpl. destruct (http_server_ c); simpl; [apply stop_law|done]. Qed.

Lemma env_phases g g' : env_step g g' -> phases g -> phases g'.
Proof.
  intros Hs [[Hb [h Hh]] Ht Hn Hl Hr]. destruct Hs as [g g' E|g g' E].
  - unfold http_run in E. rewrite Hh in E. simpl in E. unfold http_serving in Hl, Hr. rewrite Hh in Hl, Hr.
    destruct (http_thread_ g) as [[]|] eqn:Et; try done.
    + destruct (listen_after_bind h) as [h'|] eqn:El; injection E as <-;
        split; unfold http_serving; simpl; rewrite ?Hh; try ph.
      intros _ _. by apply listen_law in El.
    + destruct (serving h) eqn:Es; [done|]. injection E as <-.
      split; unfold http_serving; simpl; rewrite ?Hh; try ph.
  - unfold ws_run in E. destruct (stop_posted _); [|done]. injection E as <-. by split.
Qed.

Lemma start_phases ok g g' r : waiting g = false -> start ok g = Some (g', r) -> phases g -> phases g'.
Proof.
  intros Hw E Hp. pose proof Hp as [[Hb [h Hh]] Ht Hn Hl Hr]. unfold start in E.
  destruct (is_running_ g) eqn:Erun; [by simplify_eq|]. rewrite Hb, Hh in E.
  rewrite bool_decide_eq_true_2 in E by done. simpl in E.
  destruct (http_thread_ g) as [th|] eqn:Et.
  { destruct (proj1 Ht) as [|]; [done|congruence..]. }
  unfold http_serving in Hl. rewrite Hh in Hl.
  destruct ok; injection E as <- <-; split; unfold http_serving; simpl; rewrite ?Hh, ?Hw; ph.
Qed.

Lemma stop_phases g : waiting g = false -> phases g -> phases (stop g).
Proof.
  intros Hw [[Hb [h Hh]] Ht Hn Hl Hr]. unfold stop. destruct (is_running_ g) eqn:Erun.
  - split; unfold http_serving; simpl; rewrite ?Hh; simpl; rewrite ?stop_law; ph.
  - unfold http_serving in Hl. rewrite Hh in Hl.
    split; unfold http_serving; simpl; rewrite ?Hh, ?Hw; ph.
Qed.

Lemma join_phases g g' : join g = Some g' -> phases g -> phases g'.
Proof.
  intros E [[Hb [h Hh]] Ht Hn Hl Hr]. unfold join in E. destruct (waiting g) eqn:Hw; [|done].
  assert (Hrun : is_running_ g = false) by (destruct (is_running_ g); [by apply Hn|done]).
  unfold http_serving in Hl. rewrite Hh in Hl.
  destruct (http_thread_ g) as [[]|] eqn:Et; try done; injection E as <-;
    split; unfold http_serving; simpl; rewrite ?Hrun, ?Hh; ph.
Qed.

Lemma step_phases g g' : step g g' -> phases g -> phases g'.
Proof.
  destruct 1; eauto using env_phases, start_phases, stop_phases, join_phases.
Qed.

Lemma reachable_phases b w config ws_port http_port g0 g :
  GatewayServer_new b w config ws_port http_port = Some g0 -> rtc step g0 g -> phases g.
Proof.
  intros Hn Hr. apply new_phases in Hn. induction Hr; [done|]. eauto using step_phases.
Qed.

(** After [stop] on a thread that listens or has ended, as long as the join has not returned. *)
Record stopping g : Prop := {
  st_waiting : waiting g = true /\ is_running_ g = false;
  st_delivery : gateway_push_delivery_server_ (components g) = None;
  st_http : http_serving g = false;
  st_thread : http_thread_ g = Some Listening \/ http_thread_ g = Some Ended;
  st_built : is_Some (http_server_ (components g));
  st_ws : stop_posted (ws g) = true \/ acceptor_open (ws g) = false /\ accepting (ws g) = false
}.

Lemma env_stopping g g' : env_step g g' -> stopping g -> stopping g'.
Proof.
  intros Hs [[Hw Hr] Hd Hh Ht Hb Hws]. destruct Hs as [g g' E|g g' E].
  - unfold http_run in E. destruct Hb as [h Hb]. rewrite Hb in E. simpl in E.
    unfold http_serving in Hh. rewrite Hb in Hh.
    destruct Ht as [Ht|Ht]; rewrite Ht in E; [|done]. rewrite Hh in E. injection E as <-.
    split; simpl; eauto. unfold http_serving. simpl. by rewrite Hb.
  - unfold ws_run in E. destruct (stop_posted _); [|done]. injection E as <-.
    split; simpl; eauto.
Qed.

(** The thread ends by itself, and the join returns. *)
Lemma stopping_ends g : stopping g -> exists g1 g2, rtc env_step g g1 /\ join g1 = Some g2 /\
  is_running_ g2 = false /\ http_thread_ g2 = None /\ waiting g2 = false /\ http_serving g2 = false /\
  gateway_push_delivery_server_ (components g2) = None /\ ws g2 = ws g.
Proof.
  intros [[Hw Hr] Hd Hh Ht [h Hb] Hws]. destruct Ht as [Ht|Ht].
  - unfold http_serving in Hh. rewrite Hb in Hh. eexists _, _. split; [|split].
    + apply rtc_once, env_http. unfold http_run. by rewrite Hb, Ht; simpl; rewrite Hh.
    + unfold join. simpl. by rewrite Hw.
    + simpl. unfold http_serving. simpl. by rewrite Hb.
  - eexists g, _. split; [done|]. unfold join. rewrite Hw, Ht. split; [done|]. simpl.
    by unfold http_serving in *.
Qed.

Lemma stop_stopping g : phases g -> is_running_ g = true -> http_thread_ g <> Some Spawned -> stopping (stop g).
Proof.
  intros [[Hb [h Hh]] [_ Ht] _ _ _] Hrun Hns. unfold stop. rewrite Hrun.
  split; simpl; eauto.
  - unfold http_serving. simpl. rewrite Hh. simpl. apply stop_law.
  - destruct (http_thread_ g) as [[]|] eqn:Et; [done|by left|by right|]. by destruct Ht; [left|].
  - rewrite Hh. by eexists.
Qed.

(** C38: A gateway that was constructed can always be started when it is neither running nor
    being stopped (no thread is left to wait for), and destroyed (no thread is joinable).  A
    [stop] that comes when the HTTP thread listens, or has ended, stops everything: however the
    other threads go on, the thread ends and the join returns, and then the gateway is not
    running, the HTTP server does not serve, the delivery server is gone, and the acceptor of the
    web socket server is closed or its closing is posted. *)
Theorem stop_completes b w config ws_port http_port g0 g :
  GatewayServer_new b w config ws_port http_port = Some g0 -> rtc step g0 g ->
  (is_running_ g = false -> waiting g = false -> http_thread_ g = None /\
     forall ok, exists g' r, start ok g = Some (g', r) /\ is_running_ g' = ok) /\
  (is_running_ g = true -> http_thread_ g <> Some Spawned -> forall g1, rtc env_step (stop g) g1 ->
     exists g2 g3, rtc env_step g1 g2 /\ join g2 = Some g3 /\ is_running_ g3 = false /\
       http_thread_ g3 = None /\ http_serving g3 = false /\
       gateway_push_delivery_server_ (components g3) = None /\
       (stop_posted (ws g3) = true \/ acceptor_open (ws g3) = false /\ accepting (ws g3) = false)).
Proof.
  intros Hn Hr. pose proof (reachable_phases _ _ _ _ _ _ _ Hn Hr) as Hp. split.
  - intros Hrun Hw. pose proof Hp as [[Hb [h Hh]] Ht _ _ _].
    assert (Et : http_thread_ g = None).
    { destruct (http_thread_ g) as [th|]; [|done]. destruct (proj1 Ht) as [|]; [done|congruence..]. }
    split; [done|]. intros ok. unfold start. rewrite Hrun, Hb, Et, Hh.
    rewrite bool_decide_eq_true_2 by done. simpl. destruct ok; by eauto.
  - intros Hrun Hns g1 Hs.
    assert (Hst : stopping g1).
    { pose proof (stop_stopping g Hp Hrun Hns) as Hst. clear -Hs Hst H1. induction Hs; eauto using env_stopping. }
    destruct (stopping_ends _ Hst) as (g2 & g3 & ? & ? & ? & ? & ? & ? & ? & Ews).
    exists g2, g3. rewrite Ews. split_and!; try done. apply Hst.
Qed.

(** A [stop] that comes before the new thread listens: [http_server_->stop()] finds no running
    server and does nothing, the thread then listens, and the join never returns. *)
Lemma early_stop_hangs g h h' : is_running_ g = true -> http_thread_ g = Some Spawned ->
  http_server_ (components g) = Some h -> serving h = false -> listen_after_bind h = Some h' ->
  exists g1, env_step (stop g) g1 /\ forall g2, rtc step g1 g2 -> waiting g2 = true /\ join g2 = None.
Proof.
  intros Hrun Ht Hh Hs Hl. eexists. split.
  - apply env_http. unfold http_run, stop. rewrite Hrun. simpl. rewrite Hh. simpl.
    rewrite (stop_idle_law h Hs), Ht, Hl. done.
  - set (bad := fun g => waiting g = true /\ http_thread_ g = Some Listening /\ http_serving g = true).
    assert (Hbad : forall g1 g2, step g1 g2 -> bad g1 -> bad g2).
    { intros g1 g2 Hst (Hw & Ht2 & Hs2). unfold bad.
      destruct Hst as [? ? He|? ? ? ? Hw2|? Hw2|? ? Hj]; [|congruence..|].
      - destruct He as [ga gb E|ga gb E].
        + unfold http_run in E. unfold http_serving in Hs2.
          destruct (http_server_ (components ga)); simpl in E, Hs2; [|done]. by rewrite Ht2, Hs2 in E.
        + unfold ws_run in E. destruct (stop_posted _); [|done]. by injection E as <-.
      - unfold join in Hj. by rewrite Hw, Ht2 in Hj. }
    intros g2 Hr. assert (bad g2) as (Hw & Ht2 & _).
    { revert Hr. generalize (listen_law _ _ Hl). intros Hl2. intros Hr.
      eapply (rtc_ind_r bad); [|by eauto|exact Hr]. by unfold bad, http_serving. }
    split; [done|]. unfold join. by rewrite Hw, Ht2.
Qed.
End RunTheorems.

(** ** On a concrete gateway *)

Module LifecycleExample.

(** A server with one socket: bound or not, and serving or not.  Stopping closes the socket. *)
Record Http := { socket : bool; runs : bool }.

(** The ports below 1024 are refused. *)
#[export] Instance http_instance : HttpServer Http := {
  http_new := {| socket := false; runs := false |};
  bind_to_port port h := ({| socket := 1024 <=? port; runs := runs h |}, 1024 <=? port);
  listen_after_bind h := if socket h then Some {| socket := true; runs := true |} else None;
  http_stop h := if runs h then {| socket := false; runs := false |} else h;
  serving := runs
}.
#[export] Instance http_instance_laws : HttpServerLaws Http.
Proof.
  split; try done.
  - intros h h'. simpl. destruct (socket h); [|done]. by intros [= <-].
  - intros h. simpl. by destruct (runs h) eqn:E.
  - intros h E. simpl in *. by rewrite E.
Qed.

Definition full : build := {|
  user_http := true; message_http := true; friend_http := true; group_http := true;
  group_message_http := true; message_ws := true; remote_compiled := fun _ => true |}.
Definition machine : World := {|
  odb_database := true; file_exists := fun _ => true; use_certificate := fun _ _ => true;
  acceptor_opens := fun _ => true; build_and_start := fun a => if String.eqb a "h:9102" then Some 9102 else None |}.
Definition doc : jval := JObj [
  ("user", JObj [("mode", JStr "remote"); ("remote_endpoint", JStr "u:9001")]);
  ("push", JObj [("mode", JStr "remote"); ("remote_endpoint", JStr "p:9101");
                 ("gateway_delivery_listen_address", JStr "h:9102")])].

Definition wired : Components Http := {|
  odb_db_ := true; user_http_controller_ := Some (RemoteMode "u:9001" 200);
  message_client_ := Some LocalMode;
  message_http_controller_ := Some (LocalMode, Some (ToRemoteNotifier "p:9101" 200));
  friend_client_ := Some LocalMode; friend_http_controller_ := Some LocalMode;
  group_client_ := Some LocalMode; group_http_controller_ := Some LocalMode;
  group_message_http_controller_ := Some (LocalMode, Some (ToRemoteNotifier "p:9101" 200));
  websocket_server_ := true; http_server_ := Some {| socket := true; runs := false |};
  conn_mgr_ := true; push_service_ := Some LocalMode; gateway_push_delivery_server_ := Some 9102;
  push_notifier_ := Some (ToRemoteNotifier "p:9101" 200);
  message_ws_handler_ := Some (LocalMode, ToRemoteNotifier "p:9101" 200) |}.

Lemma startup_wired_witness :
  init_server full machine doc 8080 8081 = Some wired /\
  holds full doc true "user" (Some (RemoteMode "u:9001" 200)) /\
  exists k n, message_client_ wired = Some k /\ push_notifier_ wired = Some n /\
    push_service_ wired = Some k /\ message_ws_handler_ wired = Some (k, n) /\
    push_of full machine doc n (gateway_push_delivery_server_ wired).
Proof.
  assert (E : init_server full machine doc 8080 8081 = Some wired) by by vm_compute.
  destruct (startup_wired full machine doc 8080 8081 wired E) as (Hu & _ & _ & _ & Hp & _).
  split; [exact E|]. split; [exact Hu|exact Hp].
Defined.

Definition fresh : GatewayServer Http :=
  set_phase wired false {| acceptor_open := true; accepting := false; stop_posted := false |} None false.
Definition up_ : GatewayServer Http :=
  set_phase (set_http (Some {| socket := true; runs := true |}) wired) true
    {| acceptor_open := true; accepting := true; stop_posted := false |} (Some Listening) false.

Lemma fresh_new : GatewayServer_new full machine doc 8080 8081 = Some fresh.
Proof. by vm_compute. Qed.

Definition spawned : GatewayServer Http :=
  set_phase wired true {| acceptor_open := true; accepting := true; stop_posted := false |} (Some Spawned) false.

Lemma started : start true fresh = Some (spawned, Ok tt). Proof. by vm_compute. Qed.
Lemma listens : http_run spawned = Some up_. Proof. by vm_compute. Qed.

Lemma up_steps : rtc step fresh up_.
Proof.
  eapply rtc_l; [eapply (step_start true); [done|exact started]|].
  apply rtc_once, step_env, env_http, listens.
Qed.

Lemma stop_completes_witness :
  is_running_ up_ = true /\ http_serving up_ = true /\
  exists g2 g3, rtc env_step (stop up_) g2 /\ join g2 = Some g3 /\ http_thread_ g3 = None /\
    http_serving g3 = false.
Proof.
  split; [done|]. split; [done|].
  destruct (proj2 (stop_completes full machine doc 8080 8081 fresh up_ fresh_new up_steps)
              eq_refl ltac:(discriminate) (stop up_) (rtc_refl _ _))
    as (g2 & g3 & Hr & Hj & _ & Ht & Hs & _).
  exists g2, g3. split; [exact Hr|]. split; [exact Hj|]. split; [exact Ht|exact Hs].
Defined.

(** Started and stopped before its thread listens, the gateway never gets out of [stop]. *)
Lemma stopped_early : exists g1, env_step (stop spawned) g1 /\
  forall g2, rtc step g1 g2 -> waiting g2 = true /\ join g2 = None.
Proof. by eapply (early_stop_hangs spawned). Qed.

(** A port that cannot be bound is not noticed: the gateway is built and starts, and no HTTP
    request is ever served. *)
Lemma refused_port : exists g g1 g2,
  GatewayServer_new full machine doc 8080 80 = Some g /\ start true g = Some (g1, Ok tt) /\
  is_running_ g1 = true /\ http_run g1 = Some g2 /\ http_thread_ g2 = Some Ended /\ http_serving g2 = false.
Proof. do 3 eexists. by vm_compute. Qed.

(** A start whose thread cannot be created leaves the web socket server accepting, and [stop]
    then returns without stopping it. *)
Lemma failed_start_accepts : exists g, start false fresh = Some (g, Throw) /\
  accepting (ws g) = true /\ accepting (ws (stop g)) = true /\ stop_posted (ws (stop g)) = false.
Proof. eexists. by vm_compute. Qed.

(** A gateway that was stopped starts again without an error, and serves nothing. *)
Definition down : GatewayServer Http :=
  set_phase (stop_gateway_push_delivery_server (set_http (Some {| socket := false; runs := false |}) wired))
    false {| acceptor_open := false; accepting := false; stop_posted := false |} None false.

Lemma stopped : rtc step up_ down.
Proof.
  eapply rtc_l; [by apply step_stop|].
  eapply rtc_l; [apply step_env, env_http; by vm_compute|].
  eapply rtc_l; [apply step_env, env_ws; by vm_compute|].
  apply rtc_once, step_join. by vm_compute.
Qed.

Lemma restart_serves_nothing : rtc step fresh down /\
  exists g1 g2, start true down = Some (g1, Ok tt) /\ is_running_ g1 = true /\ http_run g1 = Some g2 /\
    http_serving g2 = false /\ accepting (ws g2) = false /\
    gateway_push_delivery_server_ (components g2) = None.
Proof.
  split; [etrans; [apply up_steps|apply stopped]|]. do 2 eexists. by vm_compute.
Qed.

(** Without the message controller, "message.mode" = "remote" is not looked at. *)
Definition no_message_http : build := {|
  user_http := false; message_http := false; friend_http := false; group_http := false;
  group_message_http := false; message_ws := true; remote_compiled := fun _ => true |}.

Lemma message_mode_ignored :
  message_client_ <$> init_server (H := Http) no_message_http machine
    (JObj [("message", JObj [("mode", JStr "remote"); ("remote_endpoint", JStr "m:9002")])]) 8080 8081 =
  Some (Some LocalMode).
Proof. by vm_compute. Qed.
End LifecycleExample.
