(* ===== verification/InFlight.v ===== *)
(** The limit of web socket messages in flight: the counter [ws_inflight_messages_] against the
    tasks of the pool, along every run of the gateway server. *)
From S2P Require Import Prelude Text Schema Odb MemDb PasswordHasher Redis TokenStore Json ConnectionManager ProtobufRuntime ProtobufCodec Push Rpc Auth.
From S2P Require Import MessageService MessageRemote PushGateway Http GroupHttp MessageHttp HttpFlows Config Router MessageParser Processor WsHandler Gateway GatewayExample GatewayFlows.
From S2P Require ThreadPool.
Open Scope Z_scope.

(** * Messages in a pool *)

Definition is_ws (t : GatewayTask) : Z := match t with WsTask _ _ _ => 1 | _ => 0 end.
Definition ws_count (l : list GatewayTask) : Z := foldr (fun t n => is_ws t + n) 0 l.

(** The web socket messages queued or being processed. *)
Definition live_ws (p : ThreadPool.pool) : Z :=
  ws_count (ThreadPool.m_tasks p) + ws_count (ThreadPool.running (ThreadPool.m_threads p)).

Lemma ws_count_app l1 l2 : ws_count (l1 ++ l2) = ws_count l1 + ws_count l2.
Proof. induction l1 as [|t l1 IH]; simpl; lia. Qed.
Lemma ws_count_nonneg l : 0 <= ws_count l.
Proof. induction l as [|[] l IH]; simpl; lia. Qed.
Lemma live_ws_nonneg p : 0 <= live_ws p.
Proof. unfold live_ws. pose proof (ws_count_nonneg (ThreadPool.m_tasks p)).
  pose proof (ws_count_nonneg (ThreadPool.running (ThreadPool.m_threads p))). lia. Qed.

Lemma live_worker i w w' (ws : list ThreadPool.worker) : ws !! i = Some w ->
  ws_count (ThreadPool.running (<[i := w']> ws)) =
  ws_count (ThreadPool.running ws) - ws_count (ThreadPool.held w) + ws_count (ThreadPool.held w').
Proof.
  intros H. destruct (ThreadPool.split_worker ws i w w' H) as (l & r & E & ->). rewrite E.
  rewrite !ThreadPool.running_app. unfold ThreadPool.running at 2 4. simpl.
  fold (ThreadPool.running r). rewrite !ws_count_app. lia.
Qed.

Lemma runs_live p p' : ThreadPool.runs p p' -> ThreadPool.finished p' = ThreadPool.finished p ->
  live_ws p' = live_ws p /\ ThreadPool.m_shutdown p' = ThreadPool.m_shutdown p.
Proof.
  unfold live_ws. destruct 1 as [i p H|i t p H|i p H|i p _ H|p _ _|p H]; intros Hf; split; try done.
  - unfold ThreadPool.check. destruct (ThreadPool.m_tasks p) as [|t l] eqn:Et; simpl.
    + rewrite (live_worker _ _ _ _ H), Et. destruct (ThreadPool.m_shutdown p); simpl; lia.
    + rewrite (live_worker _ _ _ _ H). simpl. lia.
  - unfold ThreadPool.check. by destruct (ThreadPool.m_tasks p).
  - simpl in Hf. apply (f_equal length) in Hf. rewrite length_app in Hf. simpl in Hf. lia.
  - simpl. rewrite (live_worker _ _ _ _ H). simpl. lia.
  - simpl. rewrite (live_worker _ _ _ _ H). simpl. lia.
  - simpl. by rewrite ThreadPool.running_wake.
Qed.

Lemma run_task_live i t p : ThreadPool.m_threads p !! i = Some (ThreadPool.Running t) ->
  live_ws (ThreadPool.run_task i t p) = live_ws p - is_ws t.
Proof. intros H. unfold live_ws. simpl. rewrite (live_worker _ _ _ _ H). simpl. lia. Qed.

Lemma enqueue_live t p p' : ThreadPool.Enqueue t p = Some p' ->
  live_ws p' = live_ws p + is_ws t /\ ThreadPool.m_shutdown p' = ThreadPool.m_shutdown p.
Proof.
  unfold ThreadPool.Enqueue, live_ws. destruct (ThreadPool.m_shutdown p) eqn:Es; [done|].
  intros [= <-]. simpl. rewrite ws_count_app. simpl. split; [lia|done].
Qed.

Lemma init_live hw n p : ThreadPool.m_shutdown p = false ->
  live_ws (ThreadPool.Init hw n p) = live_ws p /\ ThreadPool.m_shutdown (ThreadPool.Init hw n p) = false.
Proof.
  intros Hs. unfold ThreadPool.Init. destruct (_ && _); [done|]. split; [|done].
  unfold live_ws. simpl. rewrite ThreadPool.running_app, ws_count_app.
  set (k := match _ with O => 1%nat | _ => _ end).
  rewrite (proj1 (ThreadPool.replicate_checking k)). simpl. lia.
Qed.

(** * Steps that leave the messages in flight alone *)
Section Steps.
Context {R DB T : Type} `{Redis R} `{Odb DB} `{Pbkdf2} `{TokenStore T} `{Json} `{Jwt}.
Context {St : Type} `{CodedOutput, CodedInput St} `{ProtoMessage IMHeader} `{ProtoMessage PushRequest}.
Context `{ProtoMessage SendMessageRequest} `{ProtoMessage SendMessageResponse} `{ProtoMessage BaseResponse}.
Context (secret_key : string) (devices : gmap PlatformType bool).
Context (what service_device service_platform : string) (hw : nat).
Abbreviation S := (Server R DB T).

Record quiet (s s' : S) : Prop := {
  q_shutdown : ThreadPool.m_shutdown (thread_pool s) = false -> ThreadPool.m_shutdown (thread_pool s') = false;
  q_live : ThreadPool.m_shutdown (thread_pool s) = false -> live_ws (thread_pool s') = live_ws (thread_pool s);
  q_inflight : ws_inflight_messages s' = ws_inflight_messages s;
  q_max : max_ws_inflight_messages s' = max_ws_inflight_messages s;
  q_closures : forall self, closures s !! self = Some None -> closures s' !! self = Some None
}.

#[local] Instance quiet_preorder : PreOrder quiet.
Proof.
  split; [by split|]. intros x y z [A1 A2 A3 A4 A5] [B1 B2 B3 B4 B5]. split; [auto| |congruence|congruence|auto].
  intros Hs. rewrite B2 by auto. auto.
Qed.

Lemma quiet_same (s s' : S) : thread_pool s' = thread_pool s -> ws_inflight_messages s' = ws_inflight_messages s ->
  max_ws_inflight_messages s' = max_ws_inflight_messages s -> closures s' = closures s -> quiet s s'.
Proof. intros E1 E2 E3 E4. split; by rewrite ?E1, ?E4. Qed.

Lemma quiet_post sid b (s : S) : quiet s (post_unless_empty sid b s).
Proof. by destruct b; apply quiet_same. Qed.

Lemma quiet_pool p (s : S) :
  (ThreadPool.m_shutdown (thread_pool s) = false -> live_ws p = live_ws (thread_pool s) /\ ThreadPool.m_shutdown p = false) ->
  quiet s (set_pool p s).
Proof. intros Hp. split; try done; simpl; intros Hs; by destruct (Hp Hs). Qed.

Lemma quiet_enqueue t (s s' : S) : is_ws t = 0 -> enqueue t s = Some s' -> quiet s s'.
Proof.
  unfold enqueue. intros Ht. destruct (ThreadPool.Enqueue t (thread_pool s)) as [p|] eqn:E; [|done].
  intros [= <-]. apply quiet_pool. intros Hs. destruct (enqueue_live _ _ _ E) as [-> ->].
  rewrite Ht. split; [lia|done].
Qed.

(** A lambda object is made and destroyed at an address of its own. *)
Lemma quiet_schedule sid (s s' : S) : schedule_unauthenticated_timeout sid s = Some s' -> quiet s s'.
Proof.
  unfold schedule_unauthenticated_timeout, enqueue. destruct (ThreadPool.Enqueue _ _) as [p|] eqn:E; [|done].
  intros [= <-]. apply enqueue_live in E as [El Es]. simpl in El. rewrite Z.add_0_r in El. simpl in Es.
  split; simpl; [by rewrite Es|done|done|done|]. intros self Hs.
  rewrite list_lookup_insert_ne by (intros <-; apply lookup_lt_Some in Hs; lia). by apply lookup_app_l_Some.
Qed.

Lemma quiet_restart (s : S) : quiet s (set_pool
  (if (ThreadPool.GetThreadCount (thread_pool s) =? 0)%nat || ThreadPool.IsShutdown (thread_pool s)
   then ThreadPool.Init hw 0 (thread_pool s) else thread_pool s) s).
Proof. apply quiet_pool. intros Hs. destruct (_ || _); [by apply init_live|done]. Qed.

Lemma quiet_delayed sid (s : S) : quiet s (schedule_delayed_close hw sid s).
Proof.
  unfold schedule_delayed_close. etrans; [apply quiet_restart|].
  destruct (enqueue _ _) as [s'|] eqn:E; [|by apply quiet_same]. by apply quiet_enqueue in E.
Qed.

Lemma quiet_drop sid (s : S) : quiet s (drop_connection sid s).
Proof. unfold drop_connection. destruct (has_conn_mgr _); by apply quiet_same. Qed.

Lemma quiet_answer reply_ms sid h r (s : S) :
  quiet s (answer_result service_device service_platform hw reply_ms sid h r s).
Proof.
  unfold answer_result. destruct (_ =? _); [|apply quiet_post].
  etrans; [|apply quiet_delayed]. etrans; [|apply quiet_drop]. apply quiet_post.
Qed.

Lemma quiet_bind now sid tok (s s' : S) b :
  verify_and_bind_connection secret_key devices now sid tok s = (s', b) -> quiet s s'.
Proof.
  unfold verify_and_bind_connection. destruct (has_conn_mgr _); [simpl|by intros [= <- _]].
  destruct (on_tokens _ _) as [a [[u|]|]]; [|by intros [= <- _]; apply quiet_same..].
  destruct (add_connection _ _ _ _ _ _ _) as [w c]. intros [= <- _]. by apply quiet_same.
Qed.

Lemma quiet_connect now reply_ms sid tok (s s' : S) :
  on_websocket_connect secret_key devices hw now reply_ms sid tok s = Some s' -> quiet s s'.
Proof.
  unfold on_websocket_connect. case_bool_decide; simpl; [by apply quiet_schedule|].
  destruct (verify_and_bind_connection _ _ _ _ _ _) as [s1 b] eqn:E. apply quiet_bind in E.
  destruct b; intros [= <-]; [done|]. etrans; [|apply quiet_delayed]. etrans; [done|apply quiet_post].
Qed.

Lemma quiet_timeout reply_ms sid (s : S) : quiet s (window_over hw reply_ms sid s).
Proof.
  unfold window_over, is_session_authenticated. destruct (has_conn_mgr _); simpl.
  - destruct (get_online_users _) as [w l]. destruct (any_user_has _ _ _) as [w' b].
    destruct b; [by apply quiet_same|]. etrans; [|apply quiet_delayed].
    etrans; [|apply quiet_post]. by apply quiet_same.
  - etrans; [|apply quiet_delayed]. apply quiet_post.
Qed.

Lemma quiet_http push now_ms reply_ms late req (s : S) :
  quiet s (http_callback secret_key what service_device service_platform hw push now_ms reply_ms late req s).1.
Proof.
  unfold http_callback. destruct (parse_http_request_enhanced _ _ _ _ _) as [[m|c e] p]; [|by apply quiet_same].
  unfold http_answer. simpl. destruct (is_running s); simpl; [|by apply quiet_same].
  destruct (process_message_sync _ _ _ _ _) as [a r]. destruct late; [|destruct r].
  all: etrans; [apply quiet_restart|by apply quiet_same].
Qed.

Lemma quiet_push_user user message (s : S) : quiet s (push_message_to_user user message s).1.
Proof.
  unfold push_message_to_user. destruct (has_conn_mgr _); [simpl|done].
  destruct (get_user_sessions _ _) as [w l]. etrans; [by apply (quiet_same s (set_manager w s))|].
  generalize false. generalize (set_manager w s). induction l as [|d l IH]; intros s1 b; [done|]. simpl.
  destruct (websocket_server _) as [reg|]; [|apply IH]. case_decide; [|apply IH].
  etrans; [|apply IH]. by apply quiet_same.
Qed.

Lemma quiet_push_device user dev plat message (s : S) : quiet s (push_message_to_device user dev plat message s).1.
Proof.
  unfold push_message_to_device. destruct (has_conn_mgr _); [simpl|done].
  destruct (get_session _ _ _ _) as [w [sid|]]; by apply quiet_same.
Qed.

(** * Runs of the server

    One step per callback, per task of the pool and per move of a worker; a task takes effect
    when it ends.  A timer reads its session in captures that may be destroyed ([auth_timeout]); the
    step goes on with whatever session that memory names, so that the runs include every one that the
    undefined behaviour does not end.  Nothing shuts the pool down while the server serves. *)
Inductive serves (s : S) : S -> Prop :=
| serves_frame reply_ms sid raw s' : on_ws_message (St := St) reply_ms sid raw s = Val s' -> serves s s'
| serves_pool p : ThreadPool.runs (thread_pool s) p ->
    ThreadPool.finished p = ThreadPool.finished (thread_pool s) -> serves s (set_pool p s)
| serves_task i t push now_ms reply_ms :
    ThreadPool.m_threads (thread_pool s) !! i = Some (ThreadPool.Running t) ->
    serves s (run_task secret_key what service_device service_platform hw push now_ms reply_ms t
                (set_pool (ThreadPool.run_task i t (thread_pool s)) s))
| serves_connect now reply_ms sid tok s' :
    on_websocket_connect secret_key devices hw now reply_ms sid tok s = Some s' -> serves s s'
| serves_disconnect sid : serves s (on_websocket_disconnect sid s)
| serves_timer reply_ms self sid l1 l2 : timers s = l1 ++ self :: l2 ->
    serves s (window_over hw reply_ms sid (set_timers (l1 ++ l2) s))
| serves_http push now_ms reply_ms late req :
    serves s (http_callback secret_key what service_device service_platform hw push now_ms reply_ms late req s).1
| serves_push_user user message : serves s (push_message_to_user user message s).1
| serves_push_device user dev plat message : serves s (push_message_to_device user dev plat message s).1.

(** The counter is the number of messages queued or being processed, within the limit. *)
Definition counted (s : S) : Prop :=
  ThreadPool.m_shutdown (thread_pool s) = false /\
  ws_inflight_messages s = live_ws (thread_pool s) /\
  live_ws (thread_pool s) <= max_ws_inflight_messages s.

Lemma quiet_counted (s s' : S) : quiet s s' -> counted s -> counted s'.
Proof. intros [Q1 Q2 Q3 Q4 Q5] (C1 & C2 & C3). split_and!; [auto| |]; rewrite ?Q2, ?Q3, ?Q4 by done; done. Qed.

(** A frame is counted before it is queued, and not when it is refused. *)
Lemma frame_counted reply_ms sid raw (s s' : S) : max_ws_inflight_messages s < 2 ^ 63 ->
  on_ws_message (St := St) reply_ms sid raw s = Val s' -> counted s ->
  counted s' /\ max_ws_inflight_messages s' = max_ws_inflight_messages s.
Proof.
  intros Hmax E (C1 & C2 & C3). unfold on_ws_message in E. pose proof (live_ws_nonneg (thread_pool s)) as Hl.
  destruct (parse_websocket_message_enhanced _ _ _ _) as [[r p]|]; [simpl in E|done].
  destruct r as [m|c msg]; [|by injection E as <-].
  assert (Hu : u64 (ws_inflight_messages s + 1) = live_ws (thread_pool s) + 1).
  { rewrite C2. unfold u64. apply Z.mod_small. lia. }
  assert (Hb : u64 (u64 (ws_inflight_messages s + 1) + -1) = live_ws (thread_pool s)).
  { rewrite Hu. unfold u64. rewrite Z.mod_small; lia. }
  simpl in E. rewrite Hu in E. destruct (_ <? _) eqn:El; zbool.
  - injection E as <-. split; [|by destruct (buildErrorResponse _ _ _ _)].
    eapply quiet_counted; [apply quiet_post|]. split_and!; simpl; rewrite ?Hb; done.
  - unfold enqueue in E. simpl in E. destruct (ThreadPool.Enqueue _ _) as [q|] eqn:Eq.
    2: { unfold ThreadPool.Enqueue in Eq. by rewrite C1 in Eq. }
    simpl in E. injection E as <-. apply enqueue_live in Eq as [El' Es]. simpl in El'.
    split; [|done]. split_and!; simpl; [by rewrite Es|by rewrite Hu, El'|lia].
Qed.

Lemma task_counted i t push now_ms reply_ms (s : S) : max_ws_inflight_messages s < 2 ^ 63 ->
  ThreadPool.m_threads (thread_pool s) !! i = Some (ThreadPool.Running t) -> counted s ->
  let s' := run_task secret_key what service_device service_platform hw push now_ms reply_ms t
              (set_pool (ThreadPool.run_task i t (thread_pool s)) s) in
  counted s' /\ max_ws_inflight_messages s' = max_ws_inflight_messages s.
Proof.
  intros Hmax Hi (C1 & C2 & C3). pose proof (run_task_live _ _ _ Hi) as Hl.
  pose proof (live_ws_nonneg (ThreadPool.run_task i t (thread_pool s))) as Hn.
  destruct t as [sid h m|sid|sid]; simpl in *; rewrite ?Z.sub_0_r in Hl.
  2-3: split; [split_and!; simpl; rewrite ?Hl; done|done].
  unfold run_ws_task. destruct (process_message_sync _ _ _ _ _) as [a r].
  set (s1 := set_api a _). set (s2 := match r with Ok _ => _ | Throw => _ end).
  assert (quiet s1 s2) as [Q1 Q2 Q3 Q4 Q5] by (destruct r; [apply quiet_answer|done]).
  specialize (Q1 C1). specialize (Q2 C1). simpl in Q2, Q3, Q4.
  split; [|done]. split_and!; simpl; [done| |].
  - rewrite Q2, Q3, Hl, C2. unfold u64. rewrite Z.mod_small; lia.
  - rewrite Q2, Q4, Hl. lia.
Qed.

Lemma serves_counted (s s' : S) : max_ws_inflight_messages s < 2 ^ 63 -> serves s s' -> counted s ->
  counted s' /\ max_ws_inflight_messages s' = max_ws_inflight_messages s.
Proof.
  intros Hmax Hs Hc.
  assert (Hq : forall s1, quiet s s1 -> counted s1 /\ max_ws_inflight_messages s1 = max_ws_inflight_messages s).
  { intros s1 Q. split; [by eapply quiet_counted|apply Q]. }
  destruct Hs as [reply_ms sid raw s' E|p Hr Hf|i t push now_ms reply_ms Hi|now reply_ms sid tok s' E|sid|
    reply_ms self sid l1 l2 _|push now_ms reply_ms late req|user message|user dev plat message].
  - by eapply frame_counted.
  - apply Hq, quiet_pool. intros Hsh. destruct (runs_live _ _ Hr Hf) as [-> ->]. done.
  - by apply task_counted.
  - apply Hq. by eapply quiet_connect.
  - apply Hq, quiet_drop.
  - apply Hq. etrans; [by apply (quiet_same s (set_timers (l1 ++ l2) s))|apply quiet_timeout].
  - apply Hq, quiet_http.
  - apply Hq, quiet_push_user.
  - apply Hq, quiet_push_device.
Qed.

(** A lambda object that was destroyed is not alive again. *)
Lemma serves_closures self (s s' : S) : serves s s' -> closures s !! self = Some None -> closures s' !! self = Some None.
Proof.
  destruct 1 as [reply_ms sid raw s' E|p Hr Hf|i t push now_ms reply_ms Hi|now reply_ms sid tok s' E|sid|
    reply_ms i sid l1 l2 _|push now_ms reply_ms late req|user message|user dev plat message].
  - unfold on_ws_message in E. destruct (parse_websocket_message_enhanced _ _ _ _) as [[r p]|]; [simpl in E|done].
    destruct r as [m|c msg]; [|by injection E as <-]. simpl in E.
    destruct (_ <? _); [injection E as <-; by destruct (buildErrorResponse _ _ _ _)|].
    destruct (enqueue _ _) as [s1|] eqn:Eq; [|injection E as <-; by destruct (buildErrorResponse _ _ _ _)].
    unfold enqueue in Eq. destruct (ThreadPool.Enqueue _ _); [|done]. by simplify_eq/=.
  - done.
  - destruct t as [sid h m|sid|i']; [|done|done]. cbn [run_task]. unfold run_ws_task. destruct (process_message_sync _ _ _ _ _) as [a r].
    set (s1 := set_api a _). set (s2 := match r with Ok _ => _ | Throw => _ end).
    assert (quiet s1 s2) as Q by (destruct r; [apply quiet_answer|done]).
    intros Hs. by apply (q_closures _ _ Q).
  - apply q_closures. by eapply quiet_connect.
  - apply q_closures, quiet_drop.
  - apply q_closures. etrans; [by apply (quiet_same s (set_timers (l1 ++ l2) s))|apply quiet_timeout].
  - apply q_closures, quiet_http.
  - apply q_closures, quiet_push_user.
  - apply q_closures, quiet_push_device.
Qed.

(** So the coroutine that reads it never finds its captures again. *)
Lemma captures_gone self reply_ms (s s' : S) : rtc serves s s' -> closures s !! self = Some None ->
  auth_timeout hw reply_ms self s' = OutOfBounds.
Proof.
  intros Hr Hs. unfold auth_timeout. assert (closures s' !! self = Some None) as ->; [|done].
  induction Hr as [|s1 s2 s3 Hst _ IH]; [done|]. apply IH. by eapply serves_closures.
Qed.

(** C3: The limit of messages in flight holds.  Along every run of the server (frames,
    connects, disconnects, timers, tasks, HTTP requests and pushes in any order), the counter
    [ws_inflight_messages_] is the number of web socket messages that are queued or being
    processed by the pool, and that number never exceeds the configured limit; so the counter is
    back to 0 when the pool has nothing left to do. *)
Theorem inflight_bounded a router counter config (s : S) :
  max_inflight_of config < 2 ^ 63 ->
  rtc serves (new_server hw a router counter config) s ->
  ws_inflight_messages s = live_ws (thread_pool s) /\
  live_ws (thread_pool s) <= max_inflight_of config.
Proof.
  intros Hmax Hr.
  assert (Hc : counted (new_server hw a router counter config : S)).
  { unfold counted, new_server. simpl. destruct (init_live hw 0 ThreadPool.created eq_refl) as [-> _].
    split_and!; [done|done|]. unfold max_inflight_of. change (live_ws ThreadPool.created) with 0.
    destruct (_ =? 0); [lia|]. unfold get. destruct (at_key _ _ ≫= get_size) as [z|] eqn:E; simpl; [|lia].
    destruct (at_key _ _) as [[]|]; try done. injection E as <-. unfold u64. apply Z.mod_pos_bound. lia. }
  change (max_inflight_of config) with (max_ws_inflight_messages (new_server hw a router counter config : S)) in Hmax |- *.
  revert Hmax Hc. induction Hr as [s|s1 s2 s3 Hs _ IH]; intros Hmax Hc; [by destruct Hc as (_ & ? & ?)|].
  destruct (serves_counted _ _ Hmax Hs Hc) as [Hc' Hm]. rewrite <- Hm in *. by apply IH.
Qed.

(** A frame that parses, whatever the counters of the parser. *)
Definition parses (reply_ms : Z) (sid : string) (raw : bytes) (m : UnifiedMessage) : Prop :=
  forall p, exists p', parse_websocket_message_enhanced (S := St) raw sid reply_ms p = Val (success_result m, p').

(** The answer to a frame that is turned away. *)
Definition busy (reply_ms : Z) (m : UnifiedMessage) : bytes :=
  buildErrorResponse (MessageParser.header m) SERVER_ERROR busy_text reply_ms.

Lemma u64_m1 n : u64 (u64 n + -1) = u64 (n - 1).
Proof. unfold u64. rewrite Zplus_mod_idemp_l. f_equal. Qed.
Lemma u64_p1 n : u64 (u64 n + 1) = u64 (n + 1).
Proof. unfold u64. by rewrite Zplus_mod_idemp_l. Qed.

Lemma post_fields sid b (s : S) : let s' := post_unless_empty sid b s in
  thread_pool s' = thread_pool s /\ ws_inflight_messages s' = ws_inflight_messages s /\
  max_ws_inflight_messages s' = max_ws_inflight_messages s.
Proof. by destruct b. Qed.

Lemma queued_frame reply_ms sid raw m (s : S) : parses reply_ms sid raw m ->
  ThreadPool.IsShutdown (thread_pool s) = false -> u64 (ws_inflight_messages s + 1) <= max_ws_inflight_messages s ->
  exists s', on_ws_message (St := St) reply_ms sid raw s = Val s' /\
    live_ws (thread_pool s') = live_ws (thread_pool s) + 1.
Proof.
  intros Hp Hd Hle. unfold on_ws_message. destruct (Hp (parser s)) as [p' ->]. simpl.
  rewrite (proj2 (Z.ltb_ge _ _) Hle). unfold enqueue. simpl.
  destruct (ThreadPool.Enqueue _ _) as [q|] eqn:Eq.
  - apply enqueue_live in Eq as [Hl _]. eexists. split; [reflexivity|exact Hl].
  - unfold ThreadPool.Enqueue, ThreadPool.IsShutdown in *. by rewrite Hd in Eq.
Qed.

(** On a pool that is down, the counter goes up once and down twice. *)
Lemma down_frame reply_ms sid raw m n (s : S) : parses reply_ms sid raw m ->
  ThreadPool.IsShutdown (thread_pool s) = true -> ws_inflight_messages s = u64 n ->
  u64 (n + 1) <= max_ws_inflight_messages s ->
  exists s', on_ws_message (St := St) reply_ms sid raw s = Val s' /\ thread_pool s' = thread_pool s /\
    ws_inflight_messages s' = u64 (n - 1) /\ max_ws_inflight_messages s' = max_ws_inflight_messages s.
Proof.
  intros Hp Hd Hn Hle. unfold on_ws_message. destruct (Hp (parser s)) as [p' ->]. simpl.
  rewrite Hn, u64_p1, (proj2 (Z.ltb_ge _ _) Hle). unfold enqueue, ThreadPool.Enqueue. simpl.
  unfold ThreadPool.IsShutdown in Hd. rewrite Hd. simpl. eexists. split; [done|].
  match goal with |- context [post_unless_empty ?i ?b ?t] => destruct (post_fields i b t) as (-> & -> & ->) end.
  simpl. rewrite Hn, u64_p1, (u64_m1 (n + 1)), u64_m1. split_and!; [done| |done]. f_equal. lia.
Qed.

(** When [Enqueue] throws, the counter is decremented twice, by the guard of the lambda that
    dies with the exception and by the handler of the exception.  After two frames met a pool
    that was down, the counter stands at 2^64 - 2 although nothing is in flight, and from then
    on, with the pool up again, every frame is turned away as above the limit: nothing is
    queued and the counter stays where it is. *)
Theorem double_decrement_blocks reply_ms sid f1 f2 m1 m2 (s : S) :
  parses reply_ms sid f1 m1 -> parses reply_ms sid f2 m2 ->
  ThreadPool.IsShutdown (thread_pool s) = true -> ws_inflight_messages s = 0 ->
  0 < max_ws_inflight_messages s < 2 ^ 63 ->
  exists s1 s2, on_ws_message (St := St) reply_ms sid f1 s = Val s1 /\
    on_ws_message (St := St) reply_ms sid f2 s1 = Val s2 /\
    live_ws (thread_pool s2) = live_ws (thread_pool s) /\ ws_inflight_messages s2 = 2 ^ 64 - 2 /\
    forall p f3 m3, parses reply_ms sid f3 m3 -> ThreadPool.IsShutdown p = false ->
      exists s3, on_ws_message (St := St) reply_ms sid f3 (set_pool p s2) = Val s3 /\
        thread_pool s3 = p /\ ws_inflight_messages s3 = 2 ^ 64 - 2 /\
        (busy reply_ms m3 <> [] ->
         posted (gate (api s3)) = posted (gate (api s2)) ++ [(sid, busy reply_ms m3)]).
Proof.
  intros Hf1 Hf2 Hd Hn Hmax.
  destruct (down_frame reply_ms sid f1 m1 0 s Hf1 Hd Hn) as (s1 & E1 & P1 & N1 & M1);
    [assert (u64 (0 + 1) = 1) as -> by reflexivity; lia|].
  rewrite <- P1 in Hd.
  destruct (down_frame reply_ms sid f2 m2 (-1) s1 Hf2 Hd N1) as (s2 & E2 & P2 & N2 & M2);
    [rewrite M1; assert (u64 (-1 + 1) = 0) as -> by reflexivity; lia|].
  exists s1, s2. split_and!; [done|done|by rewrite P2, P1|by rewrite N2|].
  intros p f3 m3 Hf3 _. unfold on_ws_message. destruct (Hf3 (parser (set_pool p s2))) as [p' ->]. simpl.
  rewrite N2, M2, M1. change (u64 (u64 (-1 - 1) + 1)) with (2 ^ 64 - 1).
  rewrite (proj2 (Z.ltb_lt _ _)) by lia. eexists. split; [done|]. fold (busy reply_ms m3).
  match goal with |- context [post_unless_empty ?i ?b ?t] => destruct (post_fields i b t) as (-> & -> & _) end.
  split_and!; [done|by simpl; rewrite N2|]. intros Hne. destruct (busy reply_ms m3); [done|]. done.
Qed.
End Steps.

(** * Examples *)
Module InFlightExamples.
Import GatewayExample.

Lemma ada_parses : exists m, parses (St := Leb128.stream) 5 "session_9" ada_frame m.
Proof.
  destruct (SerializeToString ada_text) as [md|] eqn:Em; [|discriminate Em].
  exists (ws_message ada_header ada_frame send_request_name md (ws_context "session_9" 5)). intros p.
  destruct (frame_parsed (St := Leb128.stream) ada_header ada_text (bytes_of ada_header) ada_frame "session_9" 5 p) as (md' & Em' & E).
  - vm_compute. reflexivity.
  - unfold bytes_of. destruct (SerializeToString ada_header) eqn:E; [done|discriminate E].
  - vm_compute. reflexivity.
  - apply ada_encoded.
  - vm_compute. discriminate.
  - discriminate.
  - discriminate.
  - eexists. rewrite E. assert (md' = md) as -> by congruence. reflexivity.
Qed.

(** One frame of Ada is queued: one message in flight. *)
Lemma inflight_bounded_witness : exists s1, on_ws_message (St := Leb128.stream) 5 "session_9" ada_frame server0 = Val s1 /\
  ws_inflight_messages s1 = live_ws (thread_pool s1) /\ live_ws (thread_pool s1) = 1.
Proof.
  destruct ada_parses as [m Hm].
  destruct (queued_frame (St := Leb128.stream) 5 "session_9" ada_frame m server0 Hm) as (s1 & Hs & Hl);
    [reflexivity|vm_compute; discriminate|].
  exists s1. split; [exact Hs|]. split; [|exact Hl].
  destruct (inflight_bounded (St := Leb128.stream) "key" no_multi "what" "gw" "" 2 (state bob_here dd) RouterExamples.config 0
    (JObj []) s1) as [Hc _]; [vm_compute; reflexivity| |exact Hc].
  apply rtc_once. eapply serves_frame. exact Hs.
Defined.

(** Two frames while the pool is down, and the third is turned away by a pool that is up. *)
Lemma double_decrement_blocks_witness : exists s1 s2,
  on_ws_message (St := Leb128.stream) 5 "session_9" ada_frame down0 = Val s1 /\
  on_ws_message (St := Leb128.stream) 5 "session_9" ada_frame s1 = Val s2 /\
  ws_inflight_messages s2 = 2 ^ 64 - 2 /\
  exists s3, on_ws_message (St := Leb128.stream) 5 "session_9" ada_frame (set_pool (thread_pool server0) s2) = Val s3 /\
    ThreadPool.m_tasks (thread_pool s3) = [].
Proof.
  destruct ada_parses as [m Hm].
  destruct (double_decrement_blocks (St := Leb128.stream) 5 "session_9" ada_frame ada_frame m m down0 Hm Hm)
    as (s1 & s2 & E1 & E2 & _ & Hn & Hb); [reflexivity|reflexivity|vm_compute; split; reflexivity|].
  exists s1, s2. split_and!; [exact E1|exact E2|exact Hn|].
  destruct (Hb (thread_pool server0) ada_frame m Hm) as (s3 & E3 & Hp & _); [reflexivity|].
  exists s3. split; [exact E3|by rewrite Hp].
Defined.
End InFlightExamples.
