(* ===== verification/SessionFlows.v ===== *)
(** Authentication of web socket sessions in the gateway server: what a connect, a token and the
    30 second timer do to the registry of connections and to the session. *)
From S2P Require Import Prelude Text Schema Odb MemDb PasswordHasher Redis TokenStore Json ConnectionManager ProtobufRuntime ProtobufCodec Push Rpc Auth.
From S2P Require Import MessageService MessageRemote PushGateway Http GroupHttp MessageHttp HttpFlows Config Router MessageParser Processor WsHandler Gateway GatewayExample.
From S2P Require ThreadPool InFlight.
Open Scope Z_scope.

(** * Queries of the registry leave it as it was *)
Section Reads.
Context {R : Type} `{RedisLaws R} `{JsonLaws}.

(** Same data, same server, nothing closed. *)
Definition unchanged (w w' : Manager R) : Prop :=
  ok w' /\ keys_of w' = keys_of w /\ websocket_server w' = websocket_server w /\ closing w' = closing w.

Lemma unchanged_listing (w w' : Manager R) u : unchanged w w' -> listing w' u = listing w u.
Proof. intros (_ & Hk & _). unfold listing. by rewrite Hk. Qed.

Lemma reads_users (w : Manager R) : ok w -> Inv (keys_of w) ->
  exists w' l, get_online_users w = (w', l) /\ unchanged w w' /\ (forall u, u ∈ l <-> listing w u <> ∅).
Proof.
  intros Hw HI.
  destruct (on_redis_wp (smembers "online:users")
    (fun l s => s = keys_of w /\ l ≡ₚ elements (ConnectionManager.online (keys_of w))) w)
    as (w' & l & E & Hok & [Hk Hl] & Hs & Hc); [wp_step; [apply HI|done]|done|].
  exists w', l. unfold get_online_users. rewrite (try_catch_Ok _ _ _ _ _ E).
  split_and!; [done|by split_and!|]. intros u.
  by rewrite Hl, elem_of_elements, (inv_online _ HI), <- !dom_empty_iff_L, listing_dom.
Qed.

Lemma reads_sessions (w : Manager R) user : ok w -> Inv (keys_of w) ->
  exists w' l, get_user_sessions user w = (w', l) /\ unchanged w w' /\
    l ≡ₚ (map_to_list (listing w user)).*2.
Proof.
  intros Hw HI.
  destruct (on_redis_wp (hgetall (sessions_key user))
    (fun l s => s = keys_of w /\ l ≡ₚ map_to_list (ConnectionManager.entries (keys_of w) user)) w)
    as (w' & l & E & Hok & [Hk Hl] & Hs & Hc); [wp_step; [apply HI|done]|done|].
  eexists w', _. unfold get_user_sessions. erewrite try_catch_Ok; [|by rewrite (bind_Ok _ _ _ _ _ E)].
  split_and!; [done|by split_and!|]. rewrite (omap_perm _ _ _ Hl). unfold listing. apply omap_values.
Qed.

(** A session of one of the users. *)
Definition listed_for (w : Manager R) (sid u : string) : Prop :=
  exists f i, listing w u !! f = Some i /\ ConnectionManager.session_id i = sid.

Lemma reads_any sid users (w : Manager R) : ok w -> Inv (keys_of w) ->
  exists w' b, any_user_has sid users w = (w', b) /\ unchanged w w' /\
    (b = true <-> exists u, u ∈ users /\ listed_for w sid u).
Proof.
  revert w. induction users as [|u users IH]; intros w Hw HI; simpl.
  { exists w, false. split_and!; [done|by split_and!|]. split; [done|]. by intros (u & ?%elem_of_nil & _). }
  destruct (reads_sessions w u Hw HI) as (w1 & l & -> & Hu & Hl).
  assert (Hx : existsb (fun d => bool_decide (ConnectionManager.session_id d = sid)) l = true <-> listed_for w sid u).
  { rewrite existsb_exists. unfold listed_for. split.
    - intros (i & Hi & Hs%bool_decide_eq_true). apply list_elem_of_In in Hi. rewrite Hl in Hi.
      apply list_elem_of_fmap in Hi as ([f j] & -> & Hj%elem_of_map_to_list). by exists f, j.
    - intros (f & i & Hi & Hs). exists i. split; [|by apply bool_decide_eq_true]. apply list_elem_of_In.
      rewrite Hl. apply list_elem_of_fmap. exists (f, i). split; [done|by apply elem_of_map_to_list]. }
  destruct (existsb _ l).
  - exists w1, true. split_and!; [done|done|]. split; [|done]. intros _. exists u. split; [by left|by apply Hx].
  - destruct Hu as (Hw1 & Hk & Hs & Hc).
    destruct (IH w1 Hw1 ltac:(by rewrite Hk)) as (w2 & b & -> & (Hw2 & Hk2 & Hs2 & Hc2) & Hb).
    exists w2, b. split_and!; [done|split_and!; congruence|]. rewrite Hb. unfold listed_for, listing. rewrite Hk.
    split; intros (v & Hv & Hlv).
    + exists v. split; [by right|done].
    + apply elem_of_cons in Hv as [->|Hv]; [|by exists v]. by apply Hx in Hlv.
Qed.
End Reads.

Section Sessions.
Context {R DB T : Type} `{RedisLaws R} `{Odb DB} `{Pbkdf2} `{TokenStoreLaws T} `{JsonLaws} `{JwtLaws}.
Context {St : Type} `{CodedOutput, CodedInput St} `{ProtoMessage IMHeader} `{ProtoMessage PushRequest}.
Context `{ProtoMessage SendMessageRequest} `{ProtoMessage SendMessageResponse} `{ProtoMessage BaseResponse}.
Context (secret_key : string) (devices : gmap PlatformType bool) (what service_device service_platform : string) (hw : nat).
Abbreviation S := (Server R DB T).

Definition manager (s : S) : Manager R := conn_mgr (gate (api s)).
Definition sent_to (s : S) : list (string * bytes) := posted (gate (api s)).

(** The state a connect or a timer finds. *)
Record serving (s : S) : Prop := {
  sv_manager : has_conn_mgr (gate (api s)) = true;
  sv_ok : ok (manager s);
  sv_inv : Inv (keys_of (manager s));
  sv_pool : ThreadPool.IsShutdown (thread_pool s) = false
}.

(** The session is in the registry, for some user. *)
Definition authenticated (s : S) (sid : string) : Prop := exists u, listed_for (manager s) sid u.

(** The session is told why, and its close is queued for 100 ms later. *)
Definition turned_away (s s' : S) (sid : string) (frame : bytes) : Prop :=
  keys_of (manager s') = keys_of (manager s) /\ closing (manager s') = closing (manager s) /\
  sent_to s' = sent_to s ++ (if bool_decide (frame = []) then [] else [(sid, frame)]) /\
  ThreadPool.m_tasks (thread_pool s') = ThreadPool.m_tasks (thread_pool s) ++ [DelayedClose sid].

Lemma authenticated_test (s : S) sid : serving s ->
  exists w' b, is_session_authenticated sid s = (set_manager w' s, b) /\ unchanged (manager s) w' /\
    (b = true <-> authenticated s sid).
Proof.
  intros [Hm Hw HI _]. unfold is_session_authenticated. rewrite Hm. simpl negb. cbv iota.
  destruct (reads_users _ Hw HI) as (w1 & l & E & (Hw1 & Hk & Hs & Hc) & Hl). unfold manager in E. rewrite E.
  destruct (reads_any sid l w1 Hw1 ltac:(by rewrite Hk)) as (w2 & b & -> & (Hw2 & Hk2 & Hs2 & Hc2) & Hb).
  exists w2, b. split_and!; [done|split_and!; congruence|]. rewrite Hb. unfold authenticated.
  assert (He : forall u, listed_for w1 sid u <-> listed_for (manager s) sid u).
  { intros u. unfold listed_for, listing. by rewrite Hk. }
  split; intros (u & Hu); exists u; [by apply He, Hu|]. split; [|by apply He].
  apply Hl. intros Hx. destruct Hu as (f & i & Hi & _). by rewrite Hx in Hi.
Qed.

(** A token of the gateway, for the user, device and platform of [info]. *)
Record signed (c : Claims) (tok : string) (info : UserTokenInfo) : Prop := {
  sg_token : jwt_sign secret_key c = Some tok;
  sg_some : tok <> ""%string;
  sg_id : jc_id c <> ""%string;
  sg_issuer : jc_issuer c = "mychat-gateway"%string;
  sg_audience : jc_audience c = "mychat-client"%string;
  sg_info : claims_info c = Some info
}.
(** Whether it is accepted now. *)
Definition accepted (c : Claims) (s : S) : Prop :=
  in_force c (clock (token_store (api s))) (found (st_view (token_store (api s))) (revoked_key (jc_id c))).

Lemma user_of_token c tok info (a : Api R DB T) : signed c tok info -> st_healthy (token_store a) ->
  let ok := decide (in_force c (clock (token_store a)) (found (st_view (token_store a)) (revoked_key (jc_id c)))) in
  exists t, on_tokens (Auth.verify_access_token secret_key tok) a =
    ({| gate := gate a; token_store := t |}, Ok (if ok then Some info else None)) /\
    st_healthy t /\ st_view t = st_view (token_store a).
Proof.
  intros [Hs _ Hid Hi Ha Hinfo] Hh ok.
  destruct (verify_signed secret_key c tok _ Hs Hid Hi Ha Hh) as (t & E & Ht & Hv).
  exists t. unfold on_tokens. rewrite E, Hinfo. done.
Qed.

Lemma turn_away (s s1 : S) sid frame : thread_pool s1 = thread_pool s -> ThreadPool.IsShutdown (thread_pool s) = false ->
  keys_of (manager s1) = keys_of (manager s) -> closing (manager s1) = closing (manager s) -> sent_to s1 = sent_to s ->
  turned_away s (schedule_delayed_close hw sid (post_unless_empty sid frame s1)) sid frame.
Proof.
  intros Hp Hsh Hk Hc Hs. unfold schedule_delayed_close, turned_away.
  assert (Ep : thread_pool (post_unless_empty sid frame s1) = thread_pool s) by (destruct frame; done).
  rewrite Ep, Hsh, orb_false_r. set (p := if (_ =? 0)%nat then _ else _).
  assert (Hq : ThreadPool.m_shutdown p = false /\ ThreadPool.m_tasks p = ThreadPool.m_tasks (thread_pool s)).
  { unfold p. destruct (_ =? 0)%nat; [|done]. unfold ThreadPool.Init. by destruct (_ && _). }
  destruct Hq as [Hq1 Hq2]. unfold enqueue, ThreadPool.Enqueue. simpl. rewrite Hq1. simpl. rewrite Hq2.
  case_bool_decide as Hf; [subst; simpl; rewrite app_nil_r; done|]. destruct frame; [done|]. simpl.
  unfold sent_to in *. simpl. by rewrite Hs.
Qed.
(** The session a connect registers. *)
Definition session_of (info : UserTokenInfo) (sid : string) (now : Z) : DeviceSessionInfo := {|
  ConnectionManager.session_id := sid; ConnectionManager.device_id := ti_device_id info;
  ConnectionManager.platform := ti_platform info; connect_time := now |}.

Lemma connect_listed now reply_ms sid c tok info (s : S) : serving s -> st_healthy (token_store (api s)) ->
  signed c tok info -> accepted c s -> valid_info (session_of info sid now) ->
  hash_of (keys_of (manager s)) (session_user_key sid) = ∅ ->
  exists s', on_websocket_connect secret_key devices hw now reply_ms sid tok s = Some s' /\
    serving s' /\ authenticated s' sid /\ sent_to s' = sent_to s /\ thread_pool s' = thread_pool s /\
    forall u, u <> ti_user_id info -> listing (manager s') u = listing (manager s) u.
Proof.
  intros [Hm Hw HI Hp] Hh Hsg Hacc Hv Hf. unfold on_websocket_connect, verify_and_bind_connection.
  rewrite bool_decide_eq_false_2 by apply Hsg. rewrite Hm. simpl negb. cbv iota.
  destruct (user_of_token c tok info (api s) Hsg Hh) as (t & E & _). rewrite decide_True in E by done.
  simpl. rewrite E. simpl.
  destruct (add_connection_ok devices (ti_user_id info) (ti_device_id info) (ti_platform info) sid now (manager s) HI Hw Hv)
    as (w & text & closed & Ea & Hw' & Ht & Hk & Hs & _). unfold manager in Ea. rewrite Ea.
  pose proof (listing_saved _ _ _ _ _ _ _ w Hk Ht) as Hl.
  eexists. split; [done|]. split_and!; [split; try done| |done..|].
  - unfold manager. simpl. rewrite Hk. by eapply saved_inv.
  - exists (ti_user_id info), (generate_device_field (ti_device_id info) (ti_platform info)), (stored (session_of info sid now)).
    split; [|done]. unfold manager. simpl. rewrite Hl, decide_True by done. apply lookup_insert_eq.
  - intros u Hu. unfold manager. simpl. rewrite Hl. by rewrite decide_False.
Qed.

Lemma connect_refused now reply_ms sid c tok info (s : S) : serving s -> st_healthy (token_store (api s)) ->
  signed c tok info -> ~ accepted c s ->
  exists s', on_websocket_connect secret_key devices hw now reply_ms sid tok s = Some s' /\
    turned_away s s' sid (buildAuthFailedResponse (notify_header reply_ms)
      "Token authentication failed. Connection will be closed." reply_ms).
Proof.
  intros [Hm Hw HI Hp] Hh Hsg Hacc. unfold on_websocket_connect, verify_and_bind_connection.
  rewrite bool_decide_eq_false_2 by apply Hsg. rewrite Hm. simpl negb. cbv iota.
  destruct (user_of_token c tok info (api s) Hsg Hh) as (t & E & _). rewrite decide_False in E by done.
  simpl. rewrite E. eexists. split; [done|]. by apply turn_away.
Qed.

Abbreviation serves_of := (InFlight.serves (St := St) (T := T) secret_key devices what service_device service_platform hw).

(** A connect without a token: the coroutine is queued, its captures are destroyed. *)
Lemma connect_unsigned now reply_ms sid (s : S) : serving s ->
  exists s', on_websocket_connect secret_key devices hw now reply_ms sid "" s = Some s' /\
    manager s' = manager s /\ sent_to s' = sent_to s /\
    ThreadPool.m_tasks (thread_pool s') = ThreadPool.m_tasks (thread_pool s) ++ [AuthTimer (length (closures s))] /\
    forall s2, rtc serves_of s' s2 -> auth_timeout hw reply_ms (length (closures s)) s2 = OutOfBounds.
Proof.
  intros Hs. unfold on_websocket_connect, schedule_unauthenticated_timeout, enqueue, ThreadPool.Enqueue. simpl.
  assert (ThreadPool.m_shutdown (thread_pool s) = false) as -> by apply Hs. simpl.
  eexists. split; [done|]. split_and!; [done..|]. intros s2 Hr. apply (InFlight.captures_gone _ _ _ _ _ _ _ _ _ _ Hr).
  simpl. apply list_lookup_insert_eq. rewrite length_app. simpl. lia.
Qed.

(** C4: Who keeps a web socket session.  A connect with a token of the gateway that is in force
    registers the session for the user, device and platform of the token, and only there, and
    sends nothing; with a token that is expired or revoked nothing is registered, the client is
    sent AUTH_FAILED and the close of the session is queued.  A connect without a token changes
    neither the registry nor what was sent and queues one coroutine for the 30 seconds; but the lambda
    object with its captures is destroyed before the coroutine first runs, so in every state that the
    server reaches afterwards, by any sequence of its steps, the timer reads its session in an object that
    is gone: the guard against sessions that never sign in is undefined behaviour.  Given the session
    that was captured, what is written after the wait would keep it, with nothing sent,
    exactly when the registry lists it for some user, and otherwise send TIMEOUT and queue its close. *)
Theorem session_guard now reply_ms sid c tok info (s : S) : serving s -> st_healthy (token_store (api s)) ->
  signed c tok info -> valid_info (session_of info sid now) ->
  hash_of (keys_of (manager s)) (session_user_key sid) = ∅ ->
  (accepted c s -> exists s', on_websocket_connect secret_key devices hw now reply_ms sid tok s = Some s' /\
     serving s' /\ authenticated s' sid /\ sent_to s' = sent_to s /\ thread_pool s' = thread_pool s /\
     forall u, u <> ti_user_id info -> listing (manager s') u = listing (manager s) u) /\
  (~ accepted c s -> exists s', on_websocket_connect secret_key devices hw now reply_ms sid tok s = Some s' /\
     turned_away s s' sid (buildAuthFailedResponse (notify_header reply_ms)
       "Token authentication failed. Connection will be closed." reply_ms)) /\
  (exists s', on_websocket_connect secret_key devices hw now reply_ms sid "" s = Some s' /\
     manager s' = manager s /\ sent_to s' = sent_to s /\
     ThreadPool.m_tasks (thread_pool s') = ThreadPool.m_tasks (thread_pool s) ++ [AuthTimer (length (closures s))] /\
     forall s2, rtc serves_of s' s2 -> auth_timeout hw reply_ms (length (closures s)) s2 = OutOfBounds) /\
  (forall s1, serving s1 -> let s2 := window_over hw reply_ms sid s1 in
     (authenticated s1 sid -> unchanged (manager s1) (manager s2) /\ sent_to s2 = sent_to s1 /\
        thread_pool s2 = thread_pool s1) /\
     (~ authenticated s1 sid -> turned_away s1 s2 sid
        (buildTimeoutResponse (notify_header reply_ms) "Authentication timeout. Connection closed." reply_ms))).
Proof.
  intros Hs Hh Hsg Hv Hf. split_and!.
  - intros Ha. by eapply connect_listed.
  - intros Ha. by eapply connect_refused.
  - by apply connect_unsigned.
  - intros s1 Hs1. unfold window_over.
    destruct (authenticated_test s1 sid Hs1) as (w & b & -> & Hu & Hb). simpl.
    split; intros Ha; [by rewrite (proj2 Hb Ha)|].
    destruct b; [by destruct Ha; apply Hb|]. destruct Hu as (_ & Hk & _ & Hc).
    apply turn_away; [done|apply Hs1|done..].
Qed.
End Sessions.

(** * Examples *)
Module SessionExamples.
Import GatewayExample.

Lemma ada_signed : signed "key" ada_claims ada_token ada_info.
Proof. by split; try (vm_compute; reflexivity); vm_compute. Qed.

Lemma server_serving : serving server0.
Proof.
  split; [done|reflexivity| |reflexivity].
  destruct (registry_operations no_multi (id_of 2) "d1" "web" "session_1" 5000000 (ConnectionManager.start None {["session_1"%string]})
    (start_inv _ _) eq_refl ltac:(by split_and!) ltac:(vm_compute; reflexivity)) as [(w & closed & E & _ & HI & _) _].
  unfold manager, server0, new_server, state, bob_here. simpl. by rewrite E.
Qed.
(** Ada connects with her token: listed, nothing sent, and what the timer is written to do would leave
    her alone.  A session without a token: its timer is queued and reads what is gone. *)
Lemma session_guard_witness :
  (exists s', on_websocket_connect "key" no_multi 2 0 5 "session_9" ada_token server0 = Some s' /\
     authenticated s' "session_9" /\ sent_to s' = [] /\
     thread_pool (window_over 2 5 "session_9" s') = thread_pool s') /\
  exists s', on_websocket_connect "key" no_multi 2 0 5 "session_9" "" server0 = Some s' /\
    ThreadPool.m_tasks (thread_pool s') = [AuthTimer 0] /\ auth_timeout 2 5 0 s' = OutOfBounds.
Proof.
  assert (Hst : st_healthy (token_store (api server0))) by reflexivity.
  destruct (session_guard (St := Leb128.stream) "key" no_multi "what" "gw" "" 2 0 5 "session_9" ada_claims ada_token ada_info server0 server_serving Hst
    ada_signed ltac:(by split_and!) ltac:(vm_compute; reflexivity)) as (Ha & _ & Hn & Ht).
  split.
  - destruct Ha as (s' & E & Hs' & Hau & Hp & _).
    { split; [split; vm_compute; discriminate|vm_compute; reflexivity]. }
    exists s'. split_and!; [done|done|done|]. by apply (Ht s' Hs').
  - destruct Hn as (s' & E & _ & _ & Hq & Hgone). exists s'. split; [exact E|]. split; [exact Hq|].
    apply Hgone, rtc_refl.
Defined.
End SessionExamples.
