(* ===== verification/WsSend.v ===== *)
(** A private message over the web socket, from the frame of the client to the row of the
    database and the reply: the codec, the parser, the queue, the token, the message service
    and the push of [PushGateway.v] in one run of the gateway server. *)
From S2P Require Import Prelude Text Schema Odb MemDb PasswordHasher Redis TokenStore Json ConnectionManager ProtobufRuntime ProtobufCodec Push Rpc Auth.
From S2P Require Import MessageService MessageRemote PushGateway Http GroupHttp MessageHttp HttpFlows Config Router MessageParser Processor WsHandler Gateway.
From S2P Require Import GatewayExample GatewayFlows SessionFlows.
From S2P Require ThreadPool InFlight.
Open Scope Z_scope.

Lemma message_more_elem (row : Message) s s' : one_row_more row s s' -> row ∈ im_messages s'.
Proof. intros Hm. exact (one_row_elem _ _ _ Hm). Qed.

Section Send.
Context {R DB T : Type} `{RedisLaws R} `{OdbReliable DB} `{Pbkdf2} `{TokenStoreLaws T} `{JsonLaws} `{JwtLaws}.
Context {St : Type} `{CodedLaws St} `{ProtoLaws IMHeader} `{ProtoMessage PushRequest}.
Context `{ProtoLaws SendMessageRequest} `{ProtoLaws SendMessageResponse} `{ProtoMessage BaseResponse}.
Context (secret_key what service_device service_platform : string) (hw : nat).
Abbreviation S := (Server R DB T).
Abbreviation A := (Api R DB T).

(** The request the handler makes: the sender is the user of the token. *)
Definition sending (info : UserTokenInfo) (h : IMHeader) (content : string) (now_ms : Z) : SendRequest := {|
  sq_sender_uid := ti_user_id info; sq_receiver_uid := to_uid h; sq_content := content;
  sq_msg_type := TEXT; sq_now_ms := now_ms |}.
(** The answer to a message stored as [row]. *)
Definition sent_answer (row : Message) : SendMessageResponse := {|
  MessageRemote.sp_base := base_response SUCCESS ""; MessageRemote.sp_message := Some (sent_body (to_data row)) |}.

Lemma answer_frame (h : IMHeader) (r : SendMessageResponse) f : encode h r = Some f -> f <> [].
Proof.
  unfold encode. destruct (SerializeToString h); [|done]. destruct (SerializeToString r); [|done].
  intros [= <-] Hx%(f_equal length). rewrite length_app in Hx. simpl in Hx. lia.
Qed.

(** The step after the message is stored: the reply is encoded, the receiver notified. *)
Definition answer_stored push (reply_ms : Z) (h : IMHeader) (user_id content : string) (row : Message) : exec A ProcessorResult :=
  match encode (reply_header service_device service_platform reply_ms h) (sent_answer row) with
  | None => refuse service_device service_platform reply_ms h SERVER_ERROR "Failed to encode response" "Failed to encode response"
  | Some reply =>
      let* _ := notify push (to_uid h) (msg_id row) content
        {| sender_uid := user_id; conversation_type := "direct"; conversation_id := user_id |} in
      ret (response 0 "" reply)
  end.

(** The message is stored on a healthy database. *)
Lemma message_stored push now_ms reply_ms h info content (a : A) :
  messages_ready (gate a) -> ti_user_id info <> ""%string -> to_uid h <> ""%string -> content <> ""%string ->
  let q := sending info h content now_ms in
  exists row db, let a1 := {| gate := set_db db (gate a); token_store := token_store a |} : A in
    inserted (requested q) row (Odb.view (db_of a)) (Odb.view db) /\ row ∈ im_messages (Odb.view db) /\
    messages_ready (gate a1) /\
    store_and_answer (H0 := api_messages) service_device service_platform now_ms reply_ms push h (ti_user_id info) content a =
      answer_stored push reply_ms h (ti_user_id info) content row a1.
Proof.
  intros (Hc & Hd & Hw) Hu Hto Hco q. unfold store_and_answer, sending in *. simpl.
  destruct (send_text_message q (db_of a)) as [db r] eqn:E.
  destruct (send_text_inv _ _ _ _ E) as (Hd' & res & -> & Hr).
  destruct (send_text_answers _ _ _ _ Hw E) as (res' & [= <-] & Hans).
  destruct Hans as [[_ Hx]|[(_ & _ & Hx)|(row & Hi & Hsent & Hans)]]; [by inversion Hx|by destruct (Hx Hd)|].
  destruct Hans as [->|[_ Hx]]; [|by destruct (Hx Hd)].
  set (a1 := {| gate := set_db db (gate a); token_store := token_store a |} : A).
  assert (E1 : on_db (send_text_message q) a = (a1, Ok {| sr_ok := true; sr_error_code := ""; sr_message := "";
    sr_data := Some (to_data row) |})) by (unfold on_db; change (message_db (gate a)) with (db_of a); by rewrite E).
  exists row, db. cbv zeta. fold a1. split_and!; [done| | |].
  - apply (inserted_elem _ _ _ _ row Hi). by left.
  - split_and!; [done|by apply Hd'|]. refine (proj1 (message_change_inv _ _ _ Hw)). by eapply (mc_send _ _ q).
  - by rewrite (bind_Ok _ _ _ _ _ E1).
Qed.

(** After the message of [q] is stored as [row] and perhaps marked by a push, the final schema has
    one message more than the first, [row'], which is [row] with a later status, and no other change. *)
Definition sent_once (q : SendRequest) (row row' : Message) (before after : Schema) : Prop :=
  (exists v, inserted (requested q) row before v) /\ later row row' /\ one_row_more row' before after.

Lemma sent_and_marked q row t before (g g' : PushGateway.Gateway R DB) :
  inserted (requested q) row before (Odb.view (message_db g)) -> only_marked t g g' row ->
  exists row', sent_once q row row' before (Odb.view (message_db g')).
Proof.
  intros Hi [Hm|Hm].
  - exists row. rewrite Hm. split_and!; [by eexists|apply msg_later_refl|by eapply inserted_more].
  - exists (delivered_at t row). split_and!; [by eexists|apply delivered_later|].
    eapply (replaced_more row); [by eapply inserted_more|done|done].
Qed.

(** Step 8 to 10 on a healthy database. *)
Lemma stored_and_answered now_ms reply_ms now1 now2 h info content (a : A) :
  messages_ready (gate a) -> ti_user_id info <> ""%string -> to_uid h <> ""%string -> content <> ""%string ->
  let q := sending info h content now_ms in
  exists row a' r, store_and_answer (H0 := api_messages) service_device service_platform now_ms reply_ms
      (api_notifier service_device now1 now2) h (ti_user_id info) content a = (a', Ok r) /\
    (exists row', sent_once q row row' (Odb.view (db_of a)) (Odb.view (db_of a'))) /\
    forall reply, encode (reply_header service_device service_platform reply_ms h) (sent_answer row) = Some reply ->
      r = response 0 "" reply /\ exists extra, posted (gate a') = posted (gate a) ++ extra.
Proof.
  intros Hmr Hu Hto Hco q.
  destruct (message_stored (api_notifier service_device now1 now2) now_ms reply_ms h info content a Hmr Hu Hto Hco)
    as (row & db & Hi & Hin & Hready & ->). set (a1 := {| gate := _; token_store := _ |}) in *.
  exists row. unfold answer_stored. destruct (encode _ (sent_answer row)) as [reply|].
  - destruct (notify_marks service_device (to_uid h) (msg_id row) content
      {| sender_uid := ti_user_id info; conversation_type := "direct"; conversation_id := ti_user_id info |}
      now1 now2 (gate a1) Hready) as [_ Hm].
    destruct (Hm row Hin eq_refl) as [(extra & _ & Hp & _) Hrow].
    eexists _, _. split; [reflexivity|]. split; [exact (sent_and_marked _ _ _ _ (gate a1) _ Hi Hrow)|].
    intros reply' [= <-]. split; [done|]. by exists extra.
  - eexists _, _. split; [reflexivity|]. split; [|done]. eapply (sent_and_marked q row 0 _ (gate a1)); [exact Hi|by left].
Qed.
(** The processor of the command, on a message of the web socket. *)
Lemma send_processed push now_ms reply_ms c tok info m body (a : A) :
  is_http m = false -> is_websocket m = true -> get_cmd_id m = CMD_SEND_MESSAGE ->
  token (MessageParser.header m) = tok -> signed secret_key c tok info -> st_healthy (token_store a) ->
  in_force c (clock (token_store a)) (found (st_view (token_store a)) (revoked_key (jc_id c))) ->
  (ProtobufCodec.device_id (MessageParser.header m) = "" \/
   ProtobufCodec.device_id (MessageParser.header m) = ti_device_id info)%string ->
  protobuf_type_name m = send_request_name -> ParseFromArray (protobuf_payload m) = Some body ->
  to_uid (MessageParser.header m) <> ""%string -> sd_content body <> ""%string ->
  exists t, st_healthy t /\ forall a' r,
    store_and_answer (H0 := api_messages) service_device service_platform now_ms reply_ms push
      (MessageParser.header m) (ti_user_id info) (sd_content body) {| gate := gate a; token_store := t |} = (a', Ok r) ->
    process_message_sync (H := server_auth secret_key) what true
      (register_message_handlers secret_key what service_device service_platform push now_ms reply_ms) (Some m) a = (a', Ok r).
Proof.
  intros Hh Hw Hc Htok Hsg Hst Hin Hdev Htn Hp Hto Hco.
  destruct (user_of_token secret_key c tok info a Hsg Hst) as (t & E & Ht & _). rewrite decide_True in E by done.
  exists t. split; [done|]. intros a' r Er.
  unfold process_message_sync, handler, try_catch, bind at 1. rewrite Hh. cbn [ret negb].
  rewrite processors_lookup, Hc, decide_False, decide_True by done.
  unfold handle_send, handler, try_catch. rewrite Hw, Hc. cbn [negb Z.eqb].
  change (CMD_SEND_MESSAGE =? CMD_SEND_MESSAGE) with true. cbn [negb].
  unfold bind at 1. cbn [verify_user server_auth]. rewrite Htok, E.
  assert (Hd : negb (bool_decide (ProtobufCodec.device_id (MessageParser.header m) = ""%string)) &&
    negb (bool_decide (ProtobufCodec.device_id (MessageParser.header m) = ti_device_id info)) = false).
  { destruct Hdev as [Hx|Hx]; rewrite (bool_decide_eq_true_2 _ Hx); simpl; by rewrite ?andb_false_r. }
  rewrite Hd, (bool_decide_eq_true_2 _ Htn), Hp, (bool_decide_eq_false_2 _ Hto), (bool_decide_eq_false_2 _ Hco).
  cbn [negb]. by rewrite Er.
Qed.

(** What a task posts at its end leaves the database alone. *)
Lemma answer_db reply_ms sid h r (s : S) :
  db_of (api (answer_result service_device service_platform hw reply_ms sid h r s)) = db_of (api s).
Proof.
  unfold answer_result. destruct (_ =? _); [|by destruct (result_bytes r)].
  unfold schedule_delayed_close. destruct (enqueue _ _) as [s'|] eqn:E.
  - unfold enqueue in E. destruct (ThreadPool.Enqueue _ _); [|done]. injection E as <-. simpl.
    unfold drop_connection. destruct (buildAuthFailedResponse _ _ _); simpl; by destruct (has_conn_mgr _).
  - simpl. unfold drop_connection. destruct (buildAuthFailedResponse _ _ _); simpl; by destruct (has_conn_mgr _).
Qed.

(** A frame of a user whose token is in force, from the socket to the handler: it is queued,
    and its task runs [store_and_answer] and posts what it answers. *)
Lemma frame_runs push now_ms reply_ms sid c tok info h body frame hd (s : S) :
  signed secret_key c tok info -> accepted c s -> st_healthy (token_store (api s)) ->
  ThreadPool.IsShutdown (thread_pool s) = false ->
  0 <= ws_inflight_messages s < max_ws_inflight_messages s -> max_ws_inflight_messages s < 2 ^ 63 ->
  GetTypeName SendMessageRequest = send_request_name ->
  SerializeToString h = Some hd -> 0 < zlen hd -> encode h body = Some frame -> zlen frame <= max_message ->
  ProtobufCodec.cmd_id h = CMD_SEND_MESSAGE -> token h = tok ->
  (ProtobufCodec.device_id h = "" \/ ProtobufCodec.device_id h = ti_device_id info)%string ->
  sid <> ""%string -> to_uid h <> ""%string -> sd_content body <> ""%string ->
  exists s1 m, on_ws_message (St := St) reply_ms sid frame s = Val s1 /\ api s1 = api s /\
    ThreadPool.m_tasks (thread_pool s1) = ThreadPool.m_tasks (thread_pool s) ++ [WsTask sid h m] /\
    ws_inflight_messages s1 = ws_inflight_messages s + 1 /\
    forall p, let s2 := run_task secret_key what service_device service_platform hw push now_ms reply_ms
                          (WsTask sid h m) (set_pool p s1) in
    exists t, forall a' r,
      store_and_answer (H0 := api_messages) service_device service_platform now_ms reply_ms push h (ti_user_id info)
        (sd_content body) {| gate := gate (api s); token_store := t |} = (a', Ok r) ->
      ws_inflight_messages s2 = ws_inflight_messages s /\ db_of (api s2) = db_of a' /\
      forall reply, r = response 0 "" reply -> reply <> [] -> posted (gate (api s2)) = posted (gate a') ++ [(sid, reply)].
Proof.
  intros Hsg Hacc Hst Hpool Hin Hmax Htn Hh Hhd He Hlen Hcmd Htok Hdev Hsid Hto Hco.
  destruct (frame_parsed (St := St) h body hd frame sid reply_ms (parser s)) as (md & Hmd & Hparse); try done.
  { rewrite Htn. reflexivity. }
  { by rewrite Hcmd. }
  set (m := ws_message h frame (GetTypeName SendMessageRequest) md (ws_context sid reply_ms)) in *.
  set (n := ws_inflight_messages s) in *.
  assert (Hn : u64 (n + 1) = n + 1) by (unfold u64; apply Z.mod_small; lia).
  unfold on_ws_message. rewrite Hparse. simpl. fold n. rewrite Hn, (proj2 (Z.ltb_ge _ _)) by lia.
  unfold enqueue, ThreadPool.Enqueue. simpl. unfold ThreadPool.IsShutdown in Hpool. rewrite Hpool. simpl.
  eexists _, m. split; [reflexivity|]. split_and!; [done|done|by simpl; fold n|].
  intros p. unfold run_ws_task.
  destruct (send_processed push now_ms reply_ms c tok info m body (api s))
    as (t & _ & Hrun); try done; [by apply parse_serialize|].
  exists t. intros a' r E. simpl. rewrite (Hrun _ _ E). simpl.
  set (s3 := set_api a' _). set (s4 := answer_result _ _ _ _ _ _ _ s3).
  assert (Hq : ws_inflight_messages s4 = n + 1).
  { subst s4. transitivity (ws_inflight_messages s3); [apply InFlight.quiet_answer|]. simpl. by fold n. }
  rewrite Hq. split; [unfold u64; rewrite Z.mod_small; lia|]. split; [subst s4; by rewrite answer_db|].
  intros reply -> Hne. subst s4. unfold answer_result. simpl. by destruct reply.
Qed.

(** The client reads the reply. *)
Lemma reply_read reply_ms h row reply hr : 0 < zlen (GetTypeName SendMessageResponse) ->
  encode (reply_header service_device service_platform reply_ms h) (sent_answer row) = Some reply ->
  SerializeToString (reply_header service_device service_platform reply_ms h) = Some hr -> 0 < zlen hr ->
  zlen reply <= max_frame ->
  exists md, decodeEnvelope (S := St) reply =
      Val (Some (reply_header service_device service_platform reply_ms h, GetTypeName SendMessageResponse, md)) /\
    ParseFromArray md = Some (sent_answer row).
Proof.
  intros Htn Her Hhr Hhrl Hmaxr. destruct (encode_inv _ _ _ Her Hmaxr) as (hr' & mr & Hhr' & Hmr' & -> & Hd).
  assert (hr' = hr) as -> by congruence. exists mr. split; [by apply decodeEnvelope_data|by apply parse_serialize].
Qed.

(** C2: Sending a message over the web socket.  The frame a client encodes for a
    SendMessageRequest, with a token in force and for the device of the token (or none), is
    parsed, counted and queued.  When the pool runs it, the final database is the one before with
    exactly one row more ([sent_once]): a message from the user of the token (whatever [from_uid] or the
    request say) to [to_uid], with the content of the request, which a push may have marked
    delivered; every other message and every other table is as it was.  The
    last frame posted is the reply to the session, which decodes to the header with the
    sequence number of the request and to the id of the row; the counter of messages in flight
    is back where it was. *)
Theorem ws_send_roundtrip now_ms reply_ms now1 now2 sid c tok info h body frame hd (s : S) :
  signed secret_key c tok info -> accepted c s -> st_healthy (token_store (api s)) -> messages_ready (gate (api s)) ->
  ThreadPool.IsShutdown (thread_pool s) = false ->
  0 <= ws_inflight_messages s < max_ws_inflight_messages s -> max_ws_inflight_messages s < 2 ^ 63 ->
  GetTypeName SendMessageRequest = send_request_name -> 0 < zlen (GetTypeName SendMessageResponse) ->
  SerializeToString h = Some hd -> 0 < zlen hd -> encode h body = Some frame -> zlen frame <= max_message ->
  ProtobufCodec.cmd_id h = CMD_SEND_MESSAGE -> token h = tok ->
  (ProtobufCodec.device_id h = "" \/ ProtobufCodec.device_id h = ti_device_id info)%string ->
  sid <> ""%string -> ti_user_id info <> ""%string -> to_uid h <> ""%string -> sd_content body <> ""%string ->
  exists s1 m, on_ws_message (St := St) reply_ms sid frame s = Val s1 /\ api s1 = api s /\
    ThreadPool.m_tasks (thread_pool s1) = ThreadPool.m_tasks (thread_pool s) ++ [WsTask sid h m] /\
    ws_inflight_messages s1 = ws_inflight_messages s + 1 /\
    forall p, let s2 := run_task secret_key what service_device service_platform hw
                          (api_notifier service_device now1 now2) now_ms reply_ms (WsTask sid h m) (set_pool p s1) in
    ws_inflight_messages s2 = ws_inflight_messages s /\
    exists row row', sent_once (sending info h (sd_content body) now_ms) row row'
        (Odb.view (db_of (api s))) (Odb.view (db_of (api s2))) /\
      forall reply hr, encode (reply_header service_device service_platform reply_ms h) (sent_answer row) = Some reply ->
        SerializeToString (reply_header service_device service_platform reply_ms h) = Some hr -> 0 < zlen hr ->
        zlen reply <= max_frame ->
        (exists extra, posted (gate (api s2)) = posted (gate (api s)) ++ extra ++ [(sid, reply)]) /\
        exists md, decodeEnvelope (S := St) reply =
            Val (Some (reply_header service_device service_platform reply_ms h, GetTypeName SendMessageResponse, md)) /\
          ParseFromArray md = Some (sent_answer row).
Proof.
  intros Hsg Hacc Hst Hmr Hpool Hin Hmax Htn Htn' Hh Hhd He Hlen Hcmd Htok Hdev Hsid Hu Hto Hco.
  destruct (frame_runs (api_notifier service_device now1 now2) now_ms reply_ms sid c tok info h body frame hd s)
    as (s1 & m & E1 & Ha & Ht & Hn & Hrun); try done.
  exists s1, m. split_and!; try done. intros p. destruct (Hrun p) as (t & Hs2). clear Hrun.
  destruct (stored_and_answered now_ms reply_ms now1 now2 h info (sd_content body)
    {| gate := gate (api s); token_store := t |}) as (row & a' & r & E & [row' Hrow] & Hreply); try done.
  destruct (Hs2 a' r E) as (Hf & Hdb & Hpost). split; [done|].
  exists row, row'. split; [by rewrite Hdb|].
  intros reply hr Her Hhr Hhrl Hmaxr. destruct (Hreply reply Her) as (-> & extra & Hp). split.
  - exists extra. rewrite (Hpost reply eq_refl), Hp by (by eapply answer_frame). by rewrite app_assoc.
  - by eapply reply_read.
Qed.
End Send.

(** * Example: the frame of Ada to Bob *)
Module SendExamples.
Import GatewayExample.

Lemma dd_ready : messages_ready (gate (api server0)).
Proof. split_and!; [done|reflexivity|]. split; [apply pairwise_nil|by intros m ?%elem_of_nil]. Qed.

(** The row that is read back from the reply. *)
Lemma ws_send_roundtrip_witness : exists s1 m,
  on_ws_message (St := Leb128.stream) 5 "session_9" ada_frame server0 = Val s1 /\
  let s2 := run_task "key" "what" "gw" "" 2 (api_notifier "gw" 10 20) 9 5 (WsTask "session_9" ada_header m) s1 in
  exists row, row ∈ im_messages (Odb.view (db_of (api s2))) /\ msg_sender_uid row = id_of 1 /\
    msg_content row = "hi"%string.
Proof.
  destruct (ws_send_roundtrip (St := Leb128.stream) "key" "what" "gw" "" 2 9 5 10 20 "session_9" ada_claims ada_token ada_info
    ada_header ada_text ada_frame (bytes_of ada_header) server0 SessionExamples.ada_signed)
    as (s1 & m & E & _ & _ & _ & Hrun);
    [split; [split; vm_compute; discriminate|vm_compute; reflexivity]|reflexivity|apply dd_ready|reflexivity|
     vm_compute; split; [discriminate|reflexivity]|reflexivity|reflexivity|reflexivity| |vm_compute; reflexivity|apply ada_encoded|
     vm_compute; discriminate|reflexivity|reflexivity|by right|discriminate|by vm_compute|by vm_compute|discriminate|].
  { unfold bytes_of. destruct (SerializeToString ada_header) eqn:E; [done|discriminate E]. }
  exists s1, m. split; [exact E|]. destruct (Hrun (thread_pool s1)) as (_ & row & row' & ([v Hi] & Hl & Hmore) & _).
  pose proof (message_more_elem _ _ _ Hmore) as Hin. clear Hmore.
  exists row'. destruct s1. split; [exact Hin|]. destruct Hl as (_ & -> & _ & -> & _).
  destruct Hi as ((i & _ & ->) & _). split; reflexivity.
Defined.
End SendExamples.
