(* ===== verification/WsDelivery.v ===== *)
(** A private message from the frame of its sender to its receiver: the path of [WsSend.v]
    composed with the push of [PushGateway.v] and with the offline messages of
    [MessageService.v].  A message reaches its receiver through one of two channels, the push
    to the sessions that are connected or the pull of the messages that are still SENT. *)
From S2P Require Import Prelude Text Schema Odb MemDb PasswordHasher Redis TokenStore Json ConnectionManager ProtobufRuntime ProtobufCodec Push Rpc Auth.
From S2P Require Import MessageService MessageRemote PushGateway Http GroupHttp MessageHttp HttpFlows Config Router MessageParser Processor WsHandler Gateway.
From S2P Require Import GatewayExample GatewayFlows SessionFlows WsSend.
From S2P Require ThreadPool InFlight.
Open Scope Z_scope.

(** * The channel of the offline messages *)
Section Offline.
Context {DB : Type} `{OdbReliable DB}.

(** The bounds [pull_offline] makes of its arguments. *)
Definition pull_before (before : Z) : Z := if 0 <? before then before else INT64_MAX.
Definition pull_limit (limit : Z) : Z := if 0 <? limit then limit else 50.

(** With a limit that is large enough, a pull returns every offline message and no other. *)
Lemma offline_pulled u before limit (d : DB) : Odb.healthy d ->
  zlen (filter (fun m => is_offline u (pull_before before) m) (im_messages (Odb.view d))) <= pull_limit limit ->
  exists d' l, pull_offline u before limit d = (d', Ok (map to_data l)) /\
    forall m, m ∈ l <-> m ∈ im_messages (Odb.view d) /\ is_offline u (pull_before before) m = true.
Proof.
  intros Hd Hlim. destruct (pull_offline u before limit d) as [d' r] eqn:E.
  destruct (pull_offline_inv _ _ _ _ _ _ E) as (_ & _ & l & -> & [(rest & Hl & Hlen & _)|[_ Hx]]); [|by destruct (Hx Hd)].
  exists d', l. split; [done|]. fold (pull_before before) in Hl. fold (pull_limit limit) in Hlen.
  assert (rest = []) as ->.
  { pose proof (Permutation_length Hl) as Hl'.
    unfold zlen in *. rewrite <- Hl' in Hlim. rewrite length_app in *. destruct rest; [done|simpl in *; lia]. }
  intros m. rewrite app_nil_r in Hl. rewrite Hl, list_elem_of_filter. split; [intros [? ?]|intros [? ?]]; split; try done;
    by apply Is_true_true.
Qed.

(** A message of the table is pulled exactly when it is offline. *)
Lemma pulled_iff u before limit (d : DB) m : Odb.healthy d -> messages_wf (Odb.view d) -> m ∈ im_messages (Odb.view d) ->
  zlen (filter (fun m => is_offline u (pull_before before) m) (im_messages (Odb.view d))) <= pull_limit limit ->
  exists d' l, pull_offline u before limit d = (d', Ok l) /\
    (msg_id m ∈ map MessageService.md_msg_id l <-> is_offline u (pull_before before) m = true).
Proof.
  intros Hd Hw Hm Hlim. destruct (offline_pulled u before limit d Hd Hlim) as (d' & l & E & Hl).
  exists d', (map to_data l). split; [done|]. rewrite map_map, list_elem_of_fmap. split.
  - intros (x & Hi & Hx). apply Hl in Hx as [Hx Ho].
    by rewrite (message_row m x (Odb.view d) (proj1 Hw) Hm Hx Hi).
  - intros Ho. exists m. split; [done|]. by apply Hl.
Qed.
End Offline.

(** A row that a push marked, when some session was reached. *)
Lemma marked_elem (x : string) sent t (row : Message) s s' : x ∈ sent ->
  one_row_more match sent with [] => row | _ => delivered_at t row end s s' -> delivered_at t row ∈ im_messages s'.
Proof. intros Hx Hm%message_more_elem. destruct sent; [by apply elem_of_nil in Hx|done]. Qed.

(** * From the frame of the sender to the receiver *)
Section Delivery.
Context {R DB T : Type} `{RedisLaws R} `{OdbReliable DB} `{Pbkdf2} `{TokenStoreLaws T} `{JsonLaws} `{JwtLaws}.
Context {St : Type} `{CodedLaws St} `{ProtoLaws IMHeader} `{ProtoLaws PushRequest}.
Context `{ProtoLaws SendMessageRequest} `{ProtoLaws SendMessageResponse} `{ProtoMessage BaseResponse}.
Context (secret_key what service_device service_platform : string) (hw : nat).
Abbreviation S := (Server R DB T).
Abbreviation A := (Api R DB T).

(** A server that can take one more frame of the user of the token: its pool runs, the counter
    is below its bound, the stores are available. *)
Record ready_for (c : Claims) (tok : string) (info : UserTokenInfo) (s : S) : Prop := {
  rf_signed : signed secret_key c tok info;
  rf_accepted : accepted c s;
  rf_tokens : st_healthy (token_store (api s));
  rf_messages : messages_ready (gate (api s));
  rf_pool : ThreadPool.IsShutdown (thread_pool s) = false;
  rf_inflight : 0 <= ws_inflight_messages s < max_ws_inflight_messages s;
  rf_bound : max_ws_inflight_messages s < 2 ^ 63;
  rf_user : ti_user_id info <> ""%string
}.

(** A frame that asks to send a text. *)
Record send_frame (tok : string) (info : UserTokenInfo) (h : IMHeader) (body : SendMessageRequest) (frame : bytes) : Prop := {
  sf_header : exists hd, SerializeToString h = Some hd /\ 0 < zlen hd;
  sf_encoded : encode h body = Some frame;
  sf_length : zlen frame <= max_message;
  sf_command : ProtobufCodec.cmd_id h = CMD_SEND_MESSAGE;
  sf_token : token h = tok;
  sf_device : (ProtobufCodec.device_id h = "" \/ ProtobufCodec.device_id h = ti_device_id info)%string;
  sf_receiver : to_uid h <> ""%string;
  sf_content : sd_content body <> ""%string
}.

(** The context of a push of a private message of [user]. *)
Definition direct_from (user : string) : PushContext :=
  {| sender_uid := user; conversation_type := "direct"; conversation_id := user |}.

(** A notifier that does on the registry of [g] what the push service in the process of the gateway
    does, for a named sender. *)
Definition agrees (push : Notifier A) (now1 now2 : Z) (g : PushGateway.Gateway R DB) : Prop :=
  forall uid i content ctx a, uid <> ""%string -> 0 < i -> sender_uid ctx <> ""%string -> conn_mgr (gate a) = conn_mgr g ->
    notify push uid i content ctx a = notify (api_notifier service_device now1 now2) uid i content ctx a.

Lemma agrees_local now1 now2 g : agrees (api_notifier service_device now1 now2) now1 now2 g.
Proof. by intros uid i content ctx a _ _ _ _. Qed.

(** The stored message, pushed. *)
Lemma stored_and_pushed push now_ms reply_ms now1 now2 h info content (a : A) :
  agrees push now1 now2 (gate a) -> messages_ready (gate a) -> has_conn_mgr (gate a) = true -> ok (conn_mgr (gate a)) -> Inv (keys_of (conn_mgr (gate a))) ->
  ti_user_id info <> ""%string -> to_uid h <> ""%string -> content <> ""%string ->
  exists row a' r, (exists i, 0 < i /\ row = with_auto_id i (requested (sending info h content now_ms))) /\
    store_and_answer (H0 := api_messages) service_device service_platform now_ms reply_ms
      push h (ti_user_id info) content a = (a', Ok r) /\
    messages_ready (gate a') /\
    (exists row', sent_once (sending info h content now_ms) row row' (Odb.view (db_of a)) (Odb.view (db_of a'))) /\
    let p := build_payload service_device (to_uid h) (msg_id row) content (direct_from (ti_user_id info)) now1 in
    forall reply, encode (reply_header service_device service_platform reply_ms h) (sent_answer row) = Some reply -> p <> [] ->
    exists sent, r = response 0 "" reply /\ NoDup sent /\ (forall x, x ∈ sent <-> reached (gate a) (to_uid h) x) /\
      posted (gate a') = posted (gate a) ++ map (fun x => (x, p)) sent /\
      one_row_more match sent with [] => row | _ => delivered_at now2 row end
        (Odb.view (db_of a)) (Odb.view (db_of a')).
Proof.
  intros Hag Hmr Hc Hok HI Hu Hto Hco.
  destruct (message_stored service_device service_platform push now_ms reply_ms h info
    content a Hmr Hu Hto Hco) as (row & db & Hi & Hin & Hready & Estore).
  exists row. set (a1 := {| gate := _; token_store := _ |}) in *. pose proof Hi as ((i & Hpos & Erow) & _).
  unfold answer_stored in Estore. destruct (encode _ (sent_answer row)) as [rep|] eqn:Er.
  2: { eexists _, _. split; [by exists i|]. split; [exact Estore|]. split; [done|]. split; [|done].
       eapply (sent_and_marked _ row 0 _ (gate a1)); [exact Hi|by left]. }
  destruct (notify_marks service_device (to_uid h) (msg_id row) content (direct_from (ti_user_id info)) now1 now2
    (gate a1) Hready) as [Hready' Hm]. destruct (Hm row Hin eq_refl) as [_ Hrow].
  assert (Hid : 0 < msg_id row) by (by subst row).
  unfold bind in Estore. rewrite (Hag _ _ _ (direct_from (ti_user_id info)) a1 Hto Hid Hu eq_refl) in Estore.
  eexists _, _. split; [by exists i|]. split; [exact Estore|]. split; [exact Hready'|]. split; [exact (sent_and_marked _ _ _ _ (gate a1) _ Hi Hrow)|].
  intros p reply [= <-] Hp.
  destruct (push_outcome service_device row (direct_from (ti_user_id info)) now1 now2 (gate a1))
    as (sent & Hnd & Hpo & Hs & Hyes & Hno);
    [done|apply Hready|done|done|apply Hready|apply Hready|done|subst row; exact Hp|].
  replace (msg_receiver_uid row) with (to_uid h) in * by (by subst row).
  replace (msg_content row) with content in * by (by subst row).
  exists sent. split_and!; try done. destruct sent.
  - match goal with |- one_row_more row _ (Odb.view ?d) => assert (d = db) as -> by exact (Hno eq_refl) end.
    by eapply inserted_more.
  - eapply (replaced_more row); [by eapply inserted_more|done|by apply Hyes].
Qed.

(** After the push, the receiver's pull returns the message exactly when no session was reached. *)
Lemma pulled_unless_pushed u before limit now_ms now2 row (sent : list string) (db : DB) :
  Odb.healthy db -> messages_wf (Odb.view db) ->
  msg_receiver_uid row = u -> msg_status row = SENT -> msg_create_time row = now_ms -> now_ms < pull_before before ->
  zlen (filter (fun m => is_offline u (pull_before before) m) (im_messages (Odb.view db))) <= pull_limit limit ->
  match sent with [] => row | _ => delivered_at now2 row end ∈ im_messages (Odb.view db) ->
  exists d l, pull_offline u before limit db = (d, Ok l) /\ (msg_id row ∈ map MessageService.md_msg_id l <-> sent = []).
Proof.
  intros Hd Hw Hu Hst Hct Hnow Hlim Hin.
  destruct (pulled_iff u before limit db _ Hd Hw Hin Hlim) as (d & l & E & Hl). exists d, l. split; [done|].
  destruct sent; simpl in Hl; rewrite Hl; unfold is_offline; simpl.
  - rewrite Hu, Hst, Hct, String.eqb_refl, bool_decide_eq_true_2, (proj2 (Z.ltb_lt _ _)) by done. done.
  - by rewrite ?andb_false_r.
Qed.

(** C1: A private message from its sender to its receiver.  The frame of a user whose token is in
    force, asking for a text to [to_uid], is queued; with a notifier that pushes as the gateway's own service
    does ([agrees], met in process and by a push server on a working channel), when the pool runs it, the final
    database is the one before with exactly one row more, from the user of the token ([sent_once]: every
    other message and every other table is as it was); the frames posted are one push to each session that is
    listed for the receiver and registered in the server, each session once, and after them the
    reply to the sender's session.  The reply decodes to the id of the row, the push to a header for
    the receiver and a request with the content and the id of the same row.  The row
    added is marked DELIVERED when a session was reached and is as it was stored when none was; a pull of the receiver's offline messages afterwards
    returns the message exactly when none was. *)
Theorem message_reaches push now_ms reply_ms now1 now2 sid c tok info h body frame m0 (s : S) :
  ready_for c tok info s -> send_frame tok info h body frame -> sid <> ""%string ->
  GetTypeName SendMessageRequest = send_request_name -> 0 < zlen (GetTypeName SendMessageResponse) ->
  0 < zlen (GetTypeName PushRequest) ->
  has_conn_mgr (gate (api s)) = true -> ok (conn_mgr (gate (api s))) -> Inv (keys_of (conn_mgr (gate (api s)))) ->
  agrees push now1 now2 (gate (api s)) ->
  exists s1 m, on_ws_message (St := St) reply_ms sid frame s = Val s1 /\
    ThreadPool.m_tasks (thread_pool s1) = ThreadPool.m_tasks (thread_pool s) ++ [WsTask sid h m] /\
    forall p, let s2 := run_task secret_key what service_device service_platform hw
                          push now_ms reply_ms (WsTask sid h m) (set_pool p s1) in
    exists row, (exists row', sent_once (sending info h (sd_content body) now_ms) row row'
                   (Odb.view (db_of (api s))) (Odb.view (db_of (api s2)))) /\
      let context := direct_from (ti_user_id info) in
      let answer := reply_header service_device service_platform reply_ms h in
      let header := push_header_of service_device (to_uid h) context now1 in
      let request := push_request_of (msg_id row) (sd_content body) context in
      let payload := build_payload service_device (to_uid h) (msg_id row) (sd_content body) context now1 in
      forall reply ha hp mp,
        encode answer (sent_answer row) = Some reply -> SerializeToString answer = Some ha -> 0 < zlen ha ->
        zlen reply <= max_frame ->
        SerializeToString header = Some hp -> 0 < zlen hp -> SerializeToString request = Some mp -> mp <> [] ->
        payload <> [] -> zlen payload <= max_frame ->
      exists sent, NoDup sent /\ (forall x, x ∈ sent <-> reached (gate (api s)) (to_uid h) x) /\
        posted (gate (api s2)) = posted (gate (api s)) ++ map (fun x => (x, payload)) sent ++ [(sid, reply)] /\
        (exists md, decodeEnvelope (S := St) reply = Val (Some (answer, GetTypeName SendMessageResponse, md)) /\
           ParseFromArray md = Some (sent_answer row)) /\
        decode (S := St) payload m0 = Val (Some (header, request)) /\
        one_row_more match sent with [] => row | _ => delivered_at now2 row end
          (Odb.view (db_of (api s))) (Odb.view (db_of (api s2))) /\
        forall before limit, now_ms < pull_before before ->
          zlen (filter (fun x => is_offline (to_uid h) (pull_before before) x) (im_messages (Odb.view (db_of (api s2)))))
            <= pull_limit limit ->
          exists d l, pull_offline (to_uid h) before limit (db_of (api s2)) = (d, Ok l) /\
            (msg_id row ∈ map MessageService.md_msg_id l <-> sent = []).
Proof.
  intros [] [(hd & Hh & Hhd)] Hsid Htn Htn' Htp Hcm Hok HI Hag.
  destruct (frame_runs secret_key what service_device service_platform hw push now_ms reply_ms sid c tok info h body frame hd s) as (s1 & m & E1 & _ & Ht & _ & Hrun); try done.
  exists s1, m. split_and!; try done. intros p. destruct (Hrun p) as (t & Hs2). clear Hrun.
  destruct (stored_and_pushed push now_ms reply_ms now1 now2 h info (sd_content body)
    {| gate := gate (api s); token_store := t |}) as (row & a' & r & (i & Hi & Erow) & E & Hready & Hrow & Hpush); try done.
  destruct (Hs2 a' r E) as (_ & Hdb & Hpost).
  exists row. split; [by rewrite Hdb|].
  intros context answer header request payload reply ha hp mp Her Hha Hhal Hmaxr Hhp Hhpl Hmp Hmpl Hne Hmaxp.
  destruct (Hpush reply Her Hne) as (sent & -> & Hnd & Hmem & Hpo & Hin). exists sent. split_and!; try done.
  - rewrite (Hpost reply eq_refl), Hpo by (by eapply answer_frame). by rewrite app_assoc.
  - by eapply reply_read.
  - by eapply payload_decodes.
  - by rewrite Hdb.
  - intros before limit Hb Hlim. rewrite Hdb in *.
    apply (pulled_unless_pushed _ _ _ now_ms now2 row); [apply Hready|apply Hready|by subst row..|done|done|].
    exact (message_more_elem _ _ _ Hin).
Qed.
End Delivery.

(** * Example: Bob reads what Ada sent *)
Module DeliveryExamples.
Import GatewayExample.

Lemma server_ready : ready_for "key" ada_claims ada_token ada_info server0.
Proof.
  split; [apply SessionExamples.ada_signed|split; [split; vm_compute; discriminate|vm_compute; reflexivity]|reflexivity|
    apply SendExamples.dd_ready|reflexivity|vm_compute; split; [discriminate|reflexivity]|reflexivity|by vm_compute].
Qed.

Lemma ada_sends : send_frame ada_token ada_info ada_header ada_text ada_frame.
Proof.
  split; [|apply ada_encoded|vm_compute; discriminate|reflexivity|reflexivity|by right|by vm_compute|discriminate].
  exists (bytes_of ada_header). split; [|vm_compute; reflexivity].
  unfold bytes_of. destruct (SerializeToString ada_header) eqn:E; [done|discriminate E].
Qed.

(** The frame is queued, and its task runs. *)
Definition server_of (o : outcome ExServer) : ExServer := match o with Val s => s | _ => server0 end.
Definition queued : ExServer := server_of (on_ws_message (St := Leb128.stream) 5 "session_9" ada_frame server0).
Definition run_first (s : ExServer) : ExServer :=
  match ThreadPool.m_tasks (thread_pool s) with
  | t :: _ => run_task "key" "what" "gw" "" 2 (api_notifier "gw" 10 20) 9 5 t s
  | [] => s
  end.
Abbreviation finished := (run_first queued).

Lemma run_first_task (s : ExServer) t : ThreadPool.m_tasks (thread_pool s) = [t] ->
  run_task "key" "what" "gw" "" 2 (api_notifier "gw" 10 20) 9 5 t (set_pool (thread_pool s) s) = run_first s.
Proof. unfold run_first. intros ->. by destruct s. Qed.

Lemma no_tasks : ThreadPool.m_tasks (thread_pool server0) = [].
Proof. reflexivity. Qed.

Lemma stored_once : map msg_id (im_messages (Odb.view (db_of (api finished)))) = [1].
Proof. vm_compute. reflexivity. Qed.

Lemma encoded_Some {M} `{ProtoMessage M} (h : IMHeader) (m : M) : bool_decide (is_Some (encode h m)) = true -> encode h m = Some (encoded h m).
Proof. intros [y E]%bool_decide_eq_true. unfold encoded. by rewrite E. Qed.
Lemma bytes_of_Some {M} `{ProtoMessage M} (m : M) : bool_decide (is_Some (SerializeToString m)) = true -> SerializeToString m = Some (bytes_of m).
Proof. intros [y E]%bool_decide_eq_true. unfold bytes_of. by rewrite E. Qed.
Lemma only_id (l : list Message) x i : map msg_id l = [i] -> x ∈ l -> msg_id x = i.
Proof.
  intros E Hx%list_elem_of_In%(in_map msg_id). rewrite E in Hx. by destruct Hx as [->|[]].
Qed.

Definition stored : Message := with_auto_id 1 (requested (sending ada_info ada_header "hi" 9)).

Abbreviation answer := (reply_header "gw" "" 5 ada_header).
Abbreviation header := (push_header_of "gw" (id_of 2) (direct_from (id_of 1)) 10).
Abbreviation request := (push_request_of 1 "hi" (direct_from (id_of 1))).

Lemma reply_encoded : encode answer (sent_answer stored) = Some (encoded answer (sent_answer stored)).
Proof. apply encoded_Some. by vm_compute. Qed.
Lemma answer_bytes : SerializeToString answer = Some (bytes_of answer).
Proof. apply bytes_of_Some. by vm_compute. Qed.
Lemma header_bytes : SerializeToString header = Some (bytes_of header).
Proof. apply bytes_of_Some. by vm_compute. Qed.
Lemma request_bytes : SerializeToString request = Some (bytes_of request).
Proof. apply bytes_of_Some. by vm_compute. Qed.
Lemma zlen_pos {A : Type} (l : list A) : 0 < zlen l -> l <> [].
Proof. by intros Hl ->. Qed.
Lemma sizes : 0 < zlen (bytes_of answer) /\ zlen (encoded answer (sent_answer stored)) <= max_frame /\
  0 < zlen (bytes_of header) /\ bytes_of request <> [].
Proof. split_and!; [|vm_compute; discriminate| |apply zlen_pos]; vm_compute; reflexivity. Qed.
Lemma push_size : build_payload "gw" (id_of 2) 1 "hi" (direct_from (id_of 1)) 10 <> [] /\
  zlen (build_payload "gw" (id_of 2) 1 "hi" (direct_from (id_of 1)) 10) <= max_frame.
Proof. split; [apply zlen_pos; vm_compute; reflexivity|vm_compute; discriminate]. Qed.

Lemma bob_reached : reached (gate (api server0)) (id_of 2) "session_1".
Proof.
  split; [by vm_compute|]. exists "d1:web"%string. eexists. split; [vm_compute; reflexivity|reflexivity].
Qed.

Lemma message_reaches_witness : exists sent p reply,
  posted (gate (api finished)) = map (fun x => (x, p)) sent ++ [("session_9"%string, reply)] /\
  "session_1"%string ∈ sent /\
  decode (S := Leb128.stream) p request0 =
    Val (Some (push_header_of "gw" (id_of 2) (direct_from (id_of 1)) 10, push_request_of 1 "hi" (direct_from (id_of 1)))) /\
  delivered_at 20 stored ∈ im_messages (Odb.view (db_of (api finished))).
Proof.
  destruct (message_reaches (St := Leb128.stream) "key" "what" "gw" "" 2 (api_notifier "gw" 10 20) 9 5 10 20 "session_9" ada_claims ada_token ada_info
    ada_header ada_text ada_frame request0 server0 server_ready ada_sends ltac:(discriminate) eq_refl eq_refl eq_refl
    (sv_manager _ SessionExamples.server_serving) (sv_ok _ SessionExamples.server_serving)
    (sv_inv _ SessionExamples.server_serving) (agrees_local "gw" 10 20 _)) as (s1 & m & E & Ht & Hrun).
  assert (s1 = queued) as -> by (unfold queued; by rewrite E). clear E.
  destruct (Hrun (thread_pool queued)) as (row & (row' & [v Hi] & Hl & Hin%message_more_elem) & Hdel). clear Hrun.
  rewrite no_tasks in Ht. pose proof (run_first_task _ _ Ht) as Hf.
  rewrite Hf in Hin, Hdel. clear Hf Ht.
  assert (msg_id row = 1) as Hid by (destruct Hl as [<- _]; exact (only_id _ _ _ stored_once Hin)).
  assert (row = stored) as -> by (destruct Hi as ((i & _ & ->) & _); simpl in Hid; by subst i).
  destruct sizes as (Sa & Sr & Sh & Sq), push_size as [Pn Pm].
  destruct (Hdel _ _ _ _ reply_encoded answer_bytes Sa Sr header_bytes Sh request_bytes Sq Pn Pm)
    as (sent & _ & Hs & Hp & _ & Hd & Hx & _).
  eexists sent, _, _. split; [exact Hp|]. assert (Hb : "session_1"%string ∈ sent) by apply Hs, bob_reached.
  split; [exact Hb|]. split; [exact Hd|]. exact (marked_elem _ _ _ _ _ _ Hb Hx).
Defined.
End DeliveryExamples.
