(* ===== verification/StatsPage.v ===== *)
(** The statistics page of the gateway (src/gateway/gateway_server/gateway_server.cpp,
    [get_server_stats] and [format_http_route_stats]): its lines, the text of an average as a
    stream prints a double, and what a reader of the page gets back. *)
From S2P Require Import Prelude Text Schema Odb MemDb PasswordHasher Redis TokenStore Json ConnectionManager ProtobufRuntime ProtobufCodec Push Rpc Auth.
From S2P Require Import PushGateway HttpFlows Config Router MessageParser Processor WsHandler Gateway GatewayExample.
From S2P Require ThreadPool WsStats.
From Stdlib Require Import Ascii.
Open Scope Z_scope.

(** * A quotient of doubles on a stream *)

(** [a / b], to the nearest integer, ties to even. *)
Definition nearest (a b : Z) : Z :=
  let q := a / b in
  match Z.compare (2 * (a mod b)) b with Lt => q | Gt => q + 1 | Eq => q + q mod 2 end.

(** The double nearest to [a / b], as a fraction: 53 significant bits. *)
Definition double_of (a b : Z) : Z * Z :=
  if a =? 0 then (0, 1) else
  let k := Z.log2 a - Z.log2 b in
  let below := if 0 <=? k then a <? b * 2 ^ k else a * 2 ^ (- k) <? b in
  let e := (if below then k - 1 else k) - 52 in
  if 0 <=? e then (nearest a (b * 2 ^ e) * 2 ^ e, 1) else (nearest (a * 2 ^ (- e)) b, 2 ^ (- e)).

(** [static_cast<double>(a) / static_cast<double>(b)]. *)
Definition quotient (a b : Z) : Z * Z :=
  let '(n, d) := double_of a 1 in
  let '(n', d') := double_of b 1 in
  double_of (n * d') (d * n').

(** The exponent of the first digit of [n / d]. *)
Fixpoint exponent_up (fuel : nat) (n d : Z) : Z :=
  match fuel with O => 0 | S k => if n <? 10 * d then 0 else 1 + exponent_up k n (10 * d) end.
Fixpoint exponent_down (fuel : nat) (n d : Z) : Z :=
  match fuel with O => 0 | S k => if n <? d then exponent_down k (10 * n) d - 1 else 0 end.
Definition exponent (n d : Z) : Z := if n <? d then exponent_down 25 n d else exponent_up 25 n d.

(** [n] with [k] digits, and without its zeros at the end. *)
Fixpoint padded (k : nat) (n : Z) : string :=
  match k with O => EmptyString | S k => padded k (n / 10) +:+ dec (n mod 10) end.
Fixpoint stripped (s : string) : string :=
  match s with
  | EmptyString => EmptyString
  | String c s' => match stripped s' with
                   | EmptyString => if Ascii.eqb c "0"%char then EmptyString else String c EmptyString
                   | t => String c t end
  end.
Definition fraction (k : nat) (n : Z) : string :=
  match stripped (padded k n) with EmptyString => EmptyString | t => String "."%char t end.

(** The default format of a stream: six significant digits, %g. *)
Definition ostream_double (v : Z * Z) : string :=
  let '(n, d) := v in
  if n =? 0 then "0" else
  let x := exponent n d in
  let m := if x <=? 5 then nearest (n * 10 ^ (5 - x)) d else nearest n (d * 10 ^ (x - 5)) in
  let '(m, x) := if m =? 10 ^ 6 then (10 ^ 5, x + 1) else (m, x) in
  if (-4 <=? x) && (x <? 6) then
    let k := 5 - x in dec (m / 10 ^ k) +:+ fraction (Z.to_nat k) (m mod 10 ^ k)
  else dec (m / 10 ^ 5) +:+ fraction 5 (m mod 10 ^ 5) +:+ (if x <? 0 then "e-" else "e+") +:+
       (if Z.abs x <? 10 then "0" else "") +:+ dec (Z.abs x).

Definition average (total count : Z) : string :=
  if count =? 0 then "0" else ostream_double (quotient total count).

Example averages : map (fun '(a, b) => average a b)
    [(0, 0); (0, 7); (10, 3); (1, 8); (5, 1); (1000000, 1); (2000001, 2); (999999, 1); (1234567, 1); (12345675, 10); (1, 100000); (2, 3)] =
  ["0"; "0"; "3.33333"; "0.125"; "5"; "1e+06"; "1e+06"; "999999"; "1.23457e+06"; "1.23457e+06"; "1e-05"; "0.666667"]%string.
Proof. vm_compute. reflexivity. Qed.

(** * The page *)

(** A label with its separator, and a value. *)
Definition line : Type := string * string.

Definition newline : ascii := ascii_of_N 10.
Definition page_of (ls : list line) : string :=
  foldr (fun l s => l.1 +:+ l.2 +:+ String newline s) EmptyString ls.

(** The three lines of durations, and of a route. *)
Definition duration_lines (prefix : string) (count total_ms max_ms : Z) : list line := [
  (" " +:+ prefix +:+ ".count: ", dec count); (" " +:+ prefix +:+ ".avg_ms: ", average total_ms count);
  (" " +:+ prefix +:+ ".max_ms: ", dec max_ms)]%string.
Definition ws_duration_lines (prefix : string) (d : WsStats.DurationStats) : list line :=
  duration_lines prefix (WsStats.count d) (WsStats.total_ms d) (WsStats.max_ms d).

(** [format_http_route_stats], for the order in which the container goes over the routes. *)
Definition route_lines (routes : list (string * HttpRouteStats)) : list line :=
  concat (map (fun '(k, r) => duration_lines ("http.route." +:+ k) (count r) (total_ms r) (max_ms r)) routes).

Definition ws_lines (ws : WsStats.WebSocketServerStats) : list line := [
    (" ws.accept_ok: ", dec (WsStats.st_accept_ok ws)); (" ws.accept_fail: ", dec (WsStats.st_accept_fail ws));
    (" ws.active_handshakes: ", dec (WsStats.st_active_handshakes ws));
    (" ws.current_sessions: ", dec (WsStats.st_current_sessions ws))]%string ++
  ws_duration_lines "ws.ssl_handshake" (WsStats.st_ssl_handshake ws) ++
  ws_duration_lines "ws.upgrade_read" (WsStats.st_upgrade_read ws) ++
  ws_duration_lines "ws.accept_handshake" (WsStats.st_ws_accept ws) ++
  ws_duration_lines "ws.session_add" (WsStats.st_session_add ws).

Definition kHttpWorkerThreads : Z := 64.
Definition kHttpMaxQueuedRequests : Z := 1024.
Definition kHttpKeepAliveTimeoutSec : Z := 1.
Definition kHttpKeepAliveMaxCount : Z := 1.

Section Page.
Context {R DB T : Type} `{Redis R}.
Abbreviation S := (Server R DB T).

(** What the page reads beside the server: the web socket server, the order of the routes, the
    coroutine processor. *)
Record readings := {
  rd_ws : option WsStats.WebSocketServerStats;
  rd_routes : list (string * HttpRouteStats);
  rd_callbacks : Z; rd_active : Z
}.

Definition parser_lines (p : MessageParser) : list line := [
  (" processed message count:", dec (parsed_http (parser_stats p)));
  ("  processed websocket message count:", dec (parsed_websocket (parser_stats p)));
  (" parse.decode failed count: ", dec (failed_decode (parser_stats p)));
  (" parse.routing failed count:", dec (failed_routing (parser_stats p)))]%string.

Definition http_lines (h : HttpStats) : list line := [
  (" http.worker_threads: ", dec kHttpWorkerThreads);
  (" http.max_queued_requests: ", dec kHttpMaxQueuedRequests);
  (" http.keep_alive_timeout_sec: ", dec kHttpKeepAliveTimeoutSec);
  (" http.keep_alive_max_count: ", dec kHttpKeepAliveMaxCount);
  (" http.total_requests: ", dec (total_requests h)); (" http.inflight_requests: ", dec (inflight_requests h));
  (" http.status_2xx: ", dec (status_2xx h)); (" http.status_4xx: ", dec (status_4xx h));
  (" http.status_5xx: ", dec (status_5xx h)); (" http.status_other: ", dec (status_other h))]%string.

Definition pool_lines (p : ThreadPool.pool (task := GatewayTask)) (rd : readings) : list line := [
  (" thread_pool.threads: ", dec (Z.of_nat (ThreadPool.GetThreadCount p)));
  (" thread_pool.queued_or_running_tasks: ", dec (ThreadPool.GetTaskCount p));
  (" processor.coro_callback_count: ", to_string (rd_callbacks rd));
  (" processor.get_active_task_count:", dec (rd_active rd))]%string.

Definition stats_lines (online : Z) (rd : readings) (s : S) : list line :=
  [("GatewayServer stats:", EmptyString);
   ("  Running: ", if is_running s then "true" else "false"); ("online user count:", dec online)]%string ++
  match rd_ws rd with Some ws => ws_lines ws | None => [] end ++
  parser_lines (parser s) ++
  [(" ws.inflight_messages: ", dec (ws_inflight_messages s));
   (" ws.max_inflight_messages: ", dec (max_ws_inflight_messages s))]%string ++
  http_lines (http_stats s) ++ route_lines (rd_routes rd) ++ pool_lines (thread_pool s) rd.

(** [GatewayServer::get_server_stats]; [conn_mgr_] is set once the server serves. *)
Definition get_server_stats (rd : readings) (s : S) : S * string :=
  let '(w, online) := get_online_count (conn_mgr (gate (api s))) in
  (set_manager w s, page_of (stats_lines online rd s)).
End Page.

(** * Reading the page *)

Fixpoint lines_of (s : string) : list string :=
  match s with
  | EmptyString => [EmptyString]
  | String c s' => if Ascii.eqb c newline then EmptyString :: lines_of s' else
      match lines_of s' with [] => [String c EmptyString] | l :: ls => String c l :: ls end
  end.

(** The number after a label, on the first line that starts with it. *)
Fixpoint read_first (label : string) (ls : list string) : option Z :=
  match ls with
  | [] => None
  | l :: ls => match strip_prefix label l with Some v => stoull v | None => read_first label ls end
  end.
Definition read_stat (label page : string) : option Z := read_first label (lines_of page).

(** ** Lemmas *)

Lemma string_assoc (s t u : string) : (s +:+ t) +:+ u = s +:+ t +:+ u.
Proof. induction s as [|c s IHs]; [done|]. by rewrite !app_cons, IHs. Qed.

Lemma lines_of_line a b : free_of newline a = true -> lines_of (a +:+ String newline b) = a :: lines_of b.
Proof.
  induction a as [|c a IH]; [done|]. cbn [free_of]. intros [Hc Ha]%andb_prop. rewrite app_cons. cbn [lines_of].
  rewrite (proj1 (negb_true_iff _) Hc). by rewrite IH.
Qed.

Definition text_of (l : line) : string := l.1 +:+ l.2.
Definition plain (l : line) : bool := free_of newline l.1 && free_of newline l.2.

Lemma lines_of_page ls : forallb plain ls = true -> lines_of (page_of ls) = map text_of ls ++ [EmptyString].
Proof.
  induction ls as [|[a b] ls IH]; [done|]. cbn [forallb]. intros [[Ha Hb]%andb_prop Hls]%andb_prop. simpl in *.
  rewrite <- string_assoc, lines_of_line; [by rewrite IH|]. by rewrite free_of_app, Ha, Hb.
Qed.

(** Numbers hold no line break. *)
Lemma dec_plain n : free_of newline (dec n) = true.
Proof.
  unfold dec. generalize 20%nat as f. intros f. revert n. induction f as [|f IH]; intros n; [done|].
  assert (Hd : forall k, 0 <= k < 10 -> free_of newline (String (ascii_of_N (Z.to_N (48 + k))) EmptyString) = true).
  { intros k Hk. cbn [free_of]. rewrite andb_true_r. apply negb_true_iff, Ascii.eqb_neq. intros Hx.
    apply (f_equal chr) in Hx. rewrite chr_ascii in Hx by lia. change (chr newline) with 10 in Hx. lia. }
  pose proof (Z.mod_pos_bound n 10 ltac:(lia)). cbn [dec_fuel].
  destruct (n <? 10); [by apply Hd|]. by rewrite free_of_app, Hd, IH.
Qed.

Lemma padded_plain k n : free_of newline (padded k n) = true.
Proof. revert n. induction k as [|k IH]; intros n; [done|]. cbn [padded]. by rewrite free_of_app, IH, dec_plain. Qed.

Lemma stripped_plain s : free_of newline s = true -> free_of newline (stripped s) = true.
Proof.
  induction s as [|c s IH]; [done|]. cbn [free_of stripped]. intros [Hc Hs]%andb_prop.
  specialize (IH Hs). destruct (stripped s) as [|d t]; [destruct (Ascii.eqb c "0"%char); [done|]|].
  - change (negb (Ascii.eqb c newline) && true = true). by rewrite Hc.
  - change (negb (Ascii.eqb c newline) && free_of newline (String d t) = true). by rewrite Hc, IH.
Qed.

Lemma fraction_plain k n : free_of newline (fraction k n) = true.
Proof.
  unfold fraction. pose proof (stripped_plain _ (padded_plain k n)) as E. destruct (stripped _); [done|]. exact E.
Qed.

Lemma average_plain total n : free_of newline (average total n) = true.
Proof.
  unfold average. case_match; [done|]. unfold ostream_double. destruct (quotient total n) as [a b].
  case_match; [done|]. destruct (if _ =? 10 ^ 6 then _ else _) as [m x].
  repeat case_match; by rewrite ?free_of_app, ?dec_plain, ?fraction_plain.
Qed.

(** ** The lines hold no break, when the routes hold none *)

Lemma label_plain a b : free_of newline a = true -> free_of newline b = true -> plain (a, b) = true.
Proof. unfold plain. simpl. by intros -> ->. Qed.

Lemma duration_plain prefix a b c : free_of newline prefix = true -> forallb plain (duration_lines prefix a b c) = true.
Proof.
  intros Hp. unfold duration_lines, plain. cbn [forallb fst snd].
  by rewrite !free_of_app, Hp, !dec_plain, average_plain.
Qed.

Lemma route_plain routes : Forall (fun p => free_of newline p.1 = true) routes -> forallb plain (route_lines routes) = true.
Proof.
  intros Hr. unfold route_lines. induction Hr as [|[k r] routes Hk _ IH]; [done|].
  cbn [map concat]. rewrite forallb_app, IH, duration_plain; [done|]. simpl in Hk. by rewrite free_of_app, Hk.
Qed.

Lemma stats_plain {R DB T} `{Redis R} online rd (s : Server R DB T) :
  Forall (fun p => free_of newline p.1 = true) (rd_routes rd) -> forallb plain (stats_lines online rd s) = true.
Proof.
  intros Hr. unfold stats_lines. rewrite !forallb_app, route_plain by done.
  assert (Hws : forallb plain match rd_ws rd with Some ws => ws_lines ws | None => [] end = true).
  { destruct (rd_ws rd) as [ws|]; [|done]. unfold ws_lines, ws_duration_lines.
    rewrite !forallb_app, !duration_plain by done. cbn [forallb]. unfold plain. cbn [fst snd]. by rewrite !dec_plain. }
  rewrite Hws. unfold parser_lines, http_lines, pool_lines. cbn [forallb]. unfold plain. cbn [fst snd].
  assert (Ht : free_of newline (to_string (rd_callbacks rd)) = true).
  { unfold to_string. destruct (rd_callbacks rd <? 0); [exact (dec_plain _)|apply dec_plain]. }
  rewrite !dec_plain, Ht. by destruct (is_running s).
Qed.

(** ** Labels *)

(** The two texts differ at some place. *)
Fixpoint clash (a b : string) : bool :=
  match a, b with
  | String c a', String d b' => if Ascii.eqb c d then clash a' b' else true
  | _, _ => false
  end.

Lemma clash_strip a b s : clash a b = true -> strip_prefix a (b +:+ s) = None.
Proof.
  revert b. induction a as [|c a IH]; intros [|d b] E; try done. rewrite app_cons. cbn [clash strip_prefix] in *.
  destruct (Ascii.eqb c d); [by apply IH|done].
Qed.

Lemma clash_app a b s : clash a b = true -> clash a (b +:+ s) = true.
Proof.
  revert b. induction a as [|c a IH]; intros [|d b] E; try done. rewrite app_cons. cbn [clash] in *.
  destruct (Ascii.eqb c d); [by apply IH|done].
Qed.

Lemma strip_label a s : strip_prefix a (a +:+ s) = Some s.
Proof. induction a as [|c a IH]; [done|]. rewrite app_cons. cbn [strip_prefix]. by rewrite Ascii.eqb_refl. Qed.

Definition other (label : string) (l : line) : bool := clash label l.1.

(** Lines with other labels are passed over. *)
Lemma read_skips label ls rest : forallb (other label) ls = true ->
  read_first label (map text_of (ls ++ rest) ++ [EmptyString]) = read_first label (map text_of rest ++ [EmptyString]).
Proof.
  induction ls as [|l ls IH]; [done|]. cbn [forallb]. intros [Hl Hls]%andb_prop. cbn [map app read_first].
  unfold text_of at 1. by rewrite (clash_strip _ _ _ Hl), IH.
Qed.

Lemma read_here label n ls rest : 0 <= n < 2 ^ 64 ->
  read_first label (map text_of ((label, dec n) :: ls) ++ rest) = Some n.
Proof. intros Hn. cbn [map app read_first]. unfold text_of at 1. cbn [fst snd]. by rewrite strip_label, stoull_dec. Qed.

Lemma route_clash label routes : clash label " http.route."%string = true ->
  forallb (other label) (route_lines routes) = true.
Proof.
  intros Hc. unfold route_lines. induction routes as [|[k r] routes IH]; [done|].
  cbn [map concat]. rewrite forallb_app, IH, andb_true_r. unfold duration_lines, other. cbn [forallb fst].
  assert (Hk : forall t, clash label (" " +:+ ("http.route." +:+ k) +:+ t)%string = true).
  { intros t. change (" " +:+ ("http.route." +:+ k) +:+ t)%string with (" http.route." +:+ (k +:+ t))%string.
    by apply clash_app. }
  by rewrite !Hk.
Qed.

Lemma read_skip1 label l ls : other label l = true ->
  read_first label (map text_of (l :: ls) ++ [EmptyString]) = read_first label (map text_of ls ++ [EmptyString]).
Proof. intros Hl. apply (read_skips label [l] ls). cbn [forallb]. by rewrite Hl. Qed.


(** The counters a monitor reads, under their labels. *)
Definition monitored {R DB T} `{Redis R} (online : Z) (s : Server R DB T) : list (string * Z) := [
  ("online user count:", online);
  (" processed message count:", parsed_http (parser_stats (parser s)));
  ("  processed websocket message count:", parsed_websocket (parser_stats (parser s)));
  (" parse.decode failed count: ", failed_decode (parser_stats (parser s)));
  (" parse.routing failed count:", failed_routing (parser_stats (parser s)));
  (" ws.inflight_messages: ", ws_inflight_messages s); (" ws.max_inflight_messages: ", max_ws_inflight_messages s);
  (" http.total_requests: ", total_requests (http_stats s)); (" http.inflight_requests: ", inflight_requests (http_stats s));
  (" http.status_2xx: ", status_2xx (http_stats s)); (" http.status_4xx: ", status_4xx (http_stats s));
  (" http.status_5xx: ", status_5xx (http_stats s)); (" http.status_other: ", status_other (http_stats s));
  (" thread_pool.threads: ", Z.of_nat (ThreadPool.GetThreadCount (thread_pool s)));
  (" thread_pool.queued_or_running_tasks: ", ThreadPool.GetTaskCount (thread_pool s))]%string.

Ltac find_line := repeat first
  [ apply read_here; assumption | rewrite read_skip1 by reflexivity
  | rewrite read_skips by first [reflexivity | apply route_clash; reflexivity] ].

Lemma monitored_read {R DB T} `{Redis R} online rd (s : Server R DB T) label n :
  (label, n) ∈ monitored online s -> 0 <= n < 2 ^ 64 ->
  read_first label (map text_of (stats_lines online rd s) ++ [EmptyString]) = Some n.
Proof.
  intros Hin Hn. unfold monitored in Hin. rewrite !elem_of_cons in Hin.
  unfold stats_lines, parser_lines, http_lines, pool_lines.
  destruct (rd_ws rd) as [ws|]; unfold ws_lines, ws_duration_lines, duration_lines; cbn [app];
    repeat (destruct Hin as [[= -> ->]|Hin]; [find_line|]); by apply elem_of_nil in Hin.
Qed.

Lemma route_listed k r routes : (k, r) ∈ routes ->
  ((" http.route." +:+ k +:+ ".count: ")%string, dec (count r)) ∈ route_lines routes.
Proof.
  intros Hin. unfold route_lines. apply list_elem_of_In, in_concat. eexists. split.
  - apply in_map_iff. exists (k, r). split; [reflexivity|]. by apply list_elem_of_In.
  - by left.
Qed.

(** Reading the statistics page.  When no route has a line break in its name, whatever the
    order in which the routes are listed, the lines of the page are exactly the lines written; a
    monitor that looks for the first line with the label of a counter reads the value of that counter,
    the number of users online being the registry's; and each route has its line. *)
Theorem stats_page_reads {R DB T} `{Redis R} rd (s : Server R DB T) :
  Forall (fun p => free_of newline p.1 = true) (rd_routes rd) -> rd_routes rd ≡ₚ map_to_list (stat_routes (http_stats s)) ->
  let online := (get_online_count (conn_mgr (gate (api s)))).2 in
  let page := (get_server_stats rd s).2 in
  lines_of page = map text_of (stats_lines online rd s) ++ [EmptyString] /\
  (forall label n, (label, n) ∈ monitored online s -> 0 <= n < 2 ^ 64 -> read_stat label page = Some n) /\
  forall k r, stat_routes (http_stats s) !! k = Some r ->
    (" http.route." +:+ k +:+ ".count: " +:+ dec (count r))%string ∈ lines_of page.
Proof.
  intros Hr Hp. unfold get_server_stats. destruct (get_online_count _) as [w online]. cbn [snd].
  assert (El : lines_of (page_of (stats_lines online rd s)) = map text_of (stats_lines online rd s) ++ [EmptyString])
    by (by apply lines_of_page, stats_plain).
  split; [done|]. split.
  - intros label n Hin Hn. unfold read_stat. rewrite El. by apply (monitored_read online rd s).
  - intros k r Hk. rewrite El. apply elem_of_app. left. apply elem_of_map_to_list in Hk. rewrite <- Hp in Hk.
    apply list_elem_of_fmap. exists ((" http.route." +:+ k +:+ ".count: ")%string, dec (count r)). split.
    + unfold text_of. simpl. by rewrite !string_assoc.
    + unfold stats_lines. do 5 (apply elem_of_app; right). apply elem_of_app. left. by apply route_listed.
Qed.

(** * Example: the page after one request *)
Module StatsExamples.
Import GatewayExample.

Definition after_request (key : string) (code : Z) : ExServer :=
  set_stats (post_routing key code 3 (pre_routing (http_stats server0))) server0.
Definition reading (s : ExServer) : readings := {|
  rd_ws := None; rd_routes := map_to_list (stat_routes (http_stats s)); rd_callbacks := 0; rd_active := 0 |}.

Lemma stats_page_reads_witness :
  let s := after_request "GET /api/v1/stats" 200 in let page := (get_server_stats (reading s) s).2 in
  read_stat "online user count:" page = Some 1 /\ read_stat " http.total_requests: " page = Some 1 /\
  " http.route.GET /api/v1/stats.count: 1"%string ∈ lines_of page.
Proof.
  set (s := after_request "GET /api/v1/stats" 200).
  assert (Hk : map_to_list (stat_routes (http_stats s)) = [("GET /api/v1/stats"%string, Build_HttpRouteStats 1 3 3)])
    by (vm_compute; reflexivity).
  assert (Ho : (get_online_count (conn_mgr (gate (api s)))).2 = 1) by (vm_compute; reflexivity).
  assert (Ht : total_requests (http_stats s) = 1) by (vm_compute; reflexivity).
  destruct (stats_page_reads (reading s) s) as (_ & Hread & Hroute); [|reflexivity|].
  { cbn [reading rd_routes]. rewrite Hk. by constructor. }
  rewrite Ho in Hread. generalize (Hread "online user count:"%string 1), (Hread " http.total_requests: "%string 1).
  unfold monitored. rewrite Ht. intros H1 H2. split; [|split].
  - apply H1; [by left|lia].
  - apply H2; [|lia]. do 7 right. by left.
  - apply (Hroute "GET /api/v1/stats"%string (Build_HttpRouteStats 1 3 3)). vm_compute. reflexivity.
Defined.

(** A request with another method counts under its own path: a line break in it writes lines of
    the page, and this one says that the pool has seven threads. *)
Definition forged_path : string :=
  "/x" +:+ String newline (" thread_pool.threads: 7" +:+ String newline EmptyString).
Example forged_line : let s := after_request (http_route_key "PUT" "" forged_path) 404 in
  ThreadPool.GetThreadCount (thread_pool s) <> 7%nat /\
  read_stat " thread_pool.threads: " (get_server_stats (reading s) s).2 = Some 7.
Proof. vm_compute. split; [discriminate|reflexivity]. Qed.
End StatsExamples.
