(* ===== verification/HttpServer.v ===== *)
(** The HTTP server of the gateway around its controllers and its catch-all
    (src/gateway/gateway_server/gateway_server.cpp): the counters of [pre_routing] and
    [post_routing], each of whose updates is one step of some thread; the order in which
    [init_http_server] registers the routes, and what a request goes through. *)
From S2P Require Import Prelude Text Schema Odb MemDb PasswordHasher Redis TokenStore Json ConnectionManager ProtobufRuntime ProtobufCodec Push Rpc Auth.
From S2P Require Import UserService UserRemote FriendService FriendRemote GroupService GroupRemote MessageService MessageRemote.
From S2P Require Import PushGateway Http UserHttp FriendHttp GroupHttp MessageHttp HttpApi HttpFlows Config Router MessageParser Processor WsHandler Gateway GatewayExample Lifecycle StatsPage.
From S2P Require ThreadPool WsStats.
From Stdlib Require Import Ascii.
Open Scope Z_scope.

(** * The counters *)

(** One atomic update, or the update of the routes under [routes_mutex]. *)
Inductive stat_op :=
| CountTotal | EnterInflight | LeaveInflight
| CountStatus (code : Z)
| CountRoute (key : string) (duration_ms : Z).

Definition class_of (code : Z) : Z :=
  if between 200 300 code then 2 else if between 400 500 code then 4 else if between 500 600 code then 5 else 0.

Definition no_route : HttpRouteStats := {| Gateway.count := 0; Gateway.total_ms := 0; Gateway.max_ms := 0 |}.

Definition apply_op (h : HttpStats) (o : stat_op) : HttpStats :=
  let c := match o with CountStatus code => class_of code | _ => 1 end in {|
  total_requests := match o with CountTotal => u64 (total_requests h + 1) | _ => total_requests h end;
  inflight_requests := match o with EnterInflight => u64 (inflight_requests h + 1)
    | LeaveInflight => u64 (inflight_requests h - 1) | _ => inflight_requests h end;
  status_2xx := bump (c =? 2) (status_2xx h); status_4xx := bump (c =? 4) (status_4xx h);
  status_5xx := bump (c =? 5) (status_5xx h); status_other := bump (c =? 0) (status_other h);
  stat_routes := match o with
    | CountRoute key ms => <[key := record_route ms (default no_route (stat_routes h !! key))]> (stat_routes h)
    | _ => stat_routes h end |}.

(** A request and its answer. *)
Record exchange := { x_key : string; x_code : Z; x_ms : Z }.
Definition before_routing : list stat_op := [CountTotal; EnterInflight].
Definition after_routing (x : exchange) : list stat_op :=
  [LeaveInflight; CountStatus (x_code x); CountRoute (x_key x) (x_ms x)].
Definition ops_of (x : exchange) : list stat_op := before_routing ++ after_routing x.

(** The handlers are their updates, one after the other. *)
Lemma pre_routing_ops h : foldl apply_op h before_routing = pre_routing h.
Proof. done. Qed.
Lemma post_routing_ops x h : foldl apply_op h (after_routing x) = post_routing (x_key x) (x_code x) (x_ms x) h.
Proof.
  unfold post_routing, record_http_response, after_routing. cbn [foldl]. unfold apply_op. cbn.
  unfold class_of. destruct (between 200 300 _), (between 400 500 _), (between 500 600 _); reflexivity.
Qed.

Lemma u64_idem_l a b : u64 (u64 a + b) = u64 (a + b).
Proof. unfold u64. by rewrite Zplus_mod_idemp_l. Qed.

Lemma u64_plus a b c : u64 a = u64 b -> u64 (a + u64 c) = u64 (b + c).
Proof. intros E. by rewrite <- (u64_idem_l a), E, u64_idem_l, Z.add_comm, u64_idem_l, Z.add_comm. Qed.

Lemma bump_comm b1 b2 n : bump b1 (bump b2 n) = bump b2 (bump b1 n).
Proof. by destruct b1, b2. Qed.

Lemma record_route_comm a b r : record_route a (record_route b r) = record_route b (record_route a r).
Proof.
  unfold record_route. cbn. f_equal; [by rewrite !u64_idem_l; f_equal; lia|].
  repeat case_match; zbool; lia.
Qed.

(** The updates of different threads commute. *)
Lemma apply_op_comm h o1 o2 : apply_op (apply_op h o1) o2 = apply_op (apply_op h o2) o1.
Proof.
  unfold apply_op. cbn. f_equal; try (by destruct o1, o2); try apply bump_comm.
  - destruct o1, o2; try done; unfold u64; rewrite ?Zplus_mod_idemp_l, ?Zminus_mod_idemp_l; f_equal; lia.
  - destruct o1 as [| | | |k1 m1], o2 as [| | | |k2 m2]; try done.
    destruct (decide (k1 = k2)) as [->|Hne].
    + rewrite !lookup_insert_eq, !insert_insert_eq. cbn. by rewrite record_route_comm.
    + rewrite !lookup_insert_ne by done. by apply insert_insert_ne.
Qed.

Lemma run_permuted l1 l2 h : l1 ≡ₚ l2 -> foldl apply_op h l1 = foldl apply_op h l2.
Proof.
  intros E. revert h. induction E as [|o l1 l2 _ IH|o1 o2 l|l1 l2 l3 _ IH1 _ IH2]; intros h; simpl.
  - done.
  - apply IH.
  - by rewrite apply_op_comm.
  - by rewrite IH1.
Qed.

(** ** One request after the other *)

Definition exchanged (h : HttpStats) (x : exchange) : HttpStats :=
  post_routing (x_key x) (x_code x) (x_ms x) (pre_routing h).

Lemma run_exchanges xs h : foldl apply_op h (concat (map ops_of xs)) = foldl exchanged h xs.
Proof.
  revert h. induction xs as [|x xs IH]; intros h; [done|]. cbn [map concat foldl].
  rewrite foldl_app, IH. f_equal. unfold ops_of. by rewrite foldl_app, pre_routing_ops, post_routing_ops.
Qed.

Definition of_class (c : Z) (xs : list exchange) : list exchange := List.filter (fun x => class_of (x_code x) =? c) xs.
Definition of_route (k : string) (xs : list exchange) : list exchange := List.filter (fun x => String.eqb (x_key x) k) xs.
Definition total_of (xs : list exchange) : Z := foldr (fun x n => x_ms x + n) 0 xs.
Definition longest (xs : list exchange) : Z := foldr (fun x n => Z.max (x_ms x) n) 0 xs.

(** The statistics of a list of exchanges. *)
Record counted (xs : list exchange) (h : HttpStats) : Prop := {
  cn_total : total_requests h = u64 (zlen xs);
  cn_inflight : inflight_requests h = 0;
  cn_2xx : status_2xx h = u64 (zlen (of_class 2 xs));
  cn_4xx : status_4xx h = u64 (zlen (of_class 4 xs));
  cn_5xx : status_5xx h = u64 (zlen (of_class 5 xs));
  cn_other : status_other h = u64 (zlen (of_class 0 xs));
  cn_routes k : stat_routes h !! k =
    match of_route k xs with
    | [] => None
    | l => Some {| Gateway.count := u64 (zlen l); Gateway.total_ms := u64 (total_of l); Gateway.max_ms := longest l |}
    end
}.

Lemma total_of_app l1 l2 : total_of (l1 ++ l2) = total_of l1 + total_of l2.
Proof. induction l1 as [|x l1 IH]; simpl; [done|]. rewrite IH. lia. Qed.
Lemma longest_app l1 l2 : longest (l1 ++ l2) = Z.max (longest l1) (longest l2).
Proof.
  induction l1 as [|x l1 IH]; simpl; [|rewrite IH; lia].
  assert (0 <= longest l2) by (induction l2; simpl; lia). lia.
Qed.

Lemma bump_class c code n : bump (class_of code =? c) (u64 n) = u64 (n + if class_of code =? c then 1 else 0).
Proof. unfold bump. destruct (_ =? c); [by rewrite u64_idem_l|]. by rewrite Z.add_0_r. Qed.

Lemma class_step c xs x : zlen (of_class c (xs ++ [x])) = zlen (of_class c xs) + if class_of (x_code x) =? c then 1 else 0.
Proof.
  unfold of_class, zlen. rewrite List.filter_app, length_app. simpl. destruct (_ =? c); simpl; lia.
Qed.

Lemma counted_step xs x h : 0 <= x_ms x -> counted xs h -> counted (xs ++ [x]) (exchanged h x).
Proof.
  intros Hx [C1 C2 C3 C4 C5 C6 C7]. unfold exchanged. rewrite <- post_routing_ops. unfold after_routing. simpl.
  split; simpl; rewrite ?C1, ?C2, ?C3, ?C4, ?C5, ?C6, ?class_step, ?bump_class; try done.
  - rewrite u64_idem_l. unfold zlen. rewrite length_app. simpl. f_equal. lia.
  - intros k. unfold of_route. rewrite List.filter_app. simpl. fold (of_route k xs).
    destruct (String.eqb_spec (x_key x) k) as [<-|Hne].
    + rewrite lookup_insert_eq, C7. unfold record_route, zlen.
      destruct (of_route (x_key x) xs) as [|y l] eqn:El; cbn [default].
      * simpl. f_equal. f_equal; [f_equal; lia|]. case_match; zbool; lia.
      * cbn [app]. f_equal. change (y :: (l ++ [x])%list) with ((y :: l) ++ [x])%list.
        rewrite length_app, total_of_app, longest_app. cbn [id Gateway.count Gateway.total_ms Gateway.max_ms].
        rewrite !u64_idem_l. simpl. f_equal; [f_equal; lia|f_equal; lia|].
        case_match; zbool; lia.
    + rewrite lookup_insert_ne, app_nil_r by done. apply C7.
Qed.

Lemma counted_all xs h0 : Forall (fun x => 0 <= x_ms x) xs -> counted [] h0 -> counted xs (foldl exchanged h0 xs).
Proof.
  intros Hxs Hz. induction xs as [|x xs IH] using rev_ind; [done|].
  apply Forall_app in Hxs. destruct Hxs as (Hxs & Hx). apply Forall_cons in Hx. destruct Hx as (Hx & _). rewrite foldl_app. simpl. apply counted_step; [done|by apply IH].
Qed.

Lemma classes_partition xs :
  zlen (of_class 2 xs) + zlen (of_class 4 xs) + zlen (of_class 5 xs) + zlen (of_class 0 xs) = zlen xs.
Proof.
  induction xs as [|x xs IH] using rev_ind; [done|]. rewrite !class_step.
  assert (zlen (xs ++ [x]) = zlen xs + 1) as -> by (unfold zlen; rewrite length_app; simpl; lia).
  assert (Hc : class_of (x_code x) = 2 \/ class_of (x_code x) = 4 \/ class_of (x_code x) = 5 \/ class_of (x_code x) = 0).
  { unfold class_of. repeat case_match; auto. }
  destruct Hc as [E|Hc]; [|destruct Hc as [E|Hc]; [|destruct Hc as [E|E]]]; rewrite E; simpl; lia.
Qed.

(** C19: The HTTP counters.  However the updates of the worker threads interleave, once the answers
    of a list of requests are out the counters are what serving the requests one by one gives:
    [total_requests] is their number, none is in flight, every answer is in exactly one of the four
    classes, and each route has the number, the sum and the longest of its own durations; a route
    that was never asked for has no entry. *)
Theorem http_counters xs ops : Forall (fun x => 0 <= x_ms x) xs -> ops ≡ₚ concat (map ops_of xs) ->
  let h := foldl apply_op no_stats ops in
  h = foldl (fun h x => post_routing (x_key x) (x_code x) (x_ms x) (pre_routing h)) no_stats xs /\
  counted xs h /\
  u64 (status_2xx h + status_4xx h + status_5xx h + status_other h) = total_requests h.
Proof.
  intros Hxs Hops h. assert (Hh : h = foldl exchanged no_stats xs).
  { unfold h. by rewrite (run_permuted _ _ _ Hops), run_exchanges. }
  split; [exact Hh|]. assert (Hc : counted xs h).
  { rewrite Hh. apply counted_all; [done|]. by split. }
  split; [done|]. destruct Hc as [-> _ -> -> -> -> _]. rewrite <- (classes_partition xs).
  apply u64_plus, u64_plus, u64_plus. unfold u64. by rewrite Zmod_mod.
Qed.

(** * Routing *)

(** The pattern of a handler: a path, or ".*", which stops at a line terminator. *)
Inductive pattern := Exact (p : string) | AnyPath.
Definition matches (pt : pattern) (path : string) : bool :=
  match pt with
  | Exact p => String.eqb p path
  | AnyPath => free_of newline path && free_of (ascii_of_N 13) path
  end.
Definition pattern_text (pt : pattern) : string := match pt with Exact p => p | AnyPath => ".*" end.

Section Routing.
Context {R DB T : Type} `{Redis R} `{Odb DB} `{Pbkdf2} `{TokenStore T} `{JsonLaws} `{Jwt}.
Context `{CodedOutput} `{ProtoMessage IMHeader} `{ProtoMessage PushRequest}.
Context `{ProtoMessage SendMessageRequest} `{ProtoMessage SendMessageResponse} `{ProtoMessage BaseResponse}.
Abbreviation S := (Server R DB T).
Abbreviation A := (Api R DB T).
Context `{Authenticator A} `{UserClient A} `{FriendClient A} `{GroupClient A} `{MessageClient A}.
Context (secret_key what service_device service_platform : string) (hw : nat).

(** What the library answers by itself, for a status. *)
Context (library : Z -> HttpResponse).

(** A handler given to [http_server_->Get] or [Post]; [None] when it throws. *)
Record registered := {
  rg_method : string; rg_pattern : pattern; rg_handler : Request -> S -> S * option HttpResponse
}.

Definition quoted (s : string) : string := String (ascii_of_N 34) (s +:+ String (ascii_of_N 34) EmptyString).
Definition health : registered := {|
  rg_method := "GET"; rg_pattern := Exact "/api/v1/health";
  rg_handler _ s := (s, Some {| status := 200;
    res_body := "{" +:+ quoted "status" +:+ ": " +:+ quoted "ok" +:+ "}"; content_type := "application/json" |}) |}.

Definition stats (rd : readings) : registered := {|
  rg_method := "GET"; rg_pattern := Exact "/api/v1/stats";
  rg_handler _ s := let '(s', page) := get_server_stats rd s in
    (s', Some {| status := 200; res_body := page; content_type := "text/plain; charset=utf-8" |}) |}.

(** The routes of the controllers that the build includes, in the order of their registration. *)
Definition controllers (b : build) (push : Notifier A) (now_ms : Z) : list (Route A) :=
  (if user_http b then user_routes now_ms else []) ++ (if message_http b then message_routes push now_ms else []) ++
  (if friend_http b then friend_routes now_ms else []) ++ (if group_http b then group_routes now_ms else []) ++
  (if group_message_http b then group_message_routes push now_ms else []).

Definition request_of (req : Request) : HttpRequest :=
  from_httplib_request (method req) (path req) (body req) (headers req) (params req).

Definition on_api (r : Route A) : registered := {|
  rg_method := route_method r; rg_pattern := Exact (route_path r);
  rg_handler req s := let '(a, x) := route_handler r (request_of req) (api s) in
    (set_api a s, match x with Ok res => Some res | Throw => None end) |}.

Definition catch_all (m : string) (push : Notifier A) (now_ms reply_ms : Z) (late : bool) : registered := {|
  rg_method := m; rg_pattern := AnyPath;
  rg_handler req s := http_callback secret_key what service_device service_platform hw push now_ms reply_ms late req s |}.

(** [init_http_server]: the order of registration. *)
Definition registrations (b : build) (push : Notifier A) (now_ms reply_ms : Z) (late : bool) (rd : readings)
  : list registered :=
  [health; stats rd] ++ map on_api (controllers b push now_ms) ++
  [catch_all "GET" push now_ms reply_ms late; catch_all "POST" push now_ms reply_ms late].

(** The library runs the first handler of the method whose pattern matches the path; HEAD is
    served as GET. *)
Definition handled_as (m : string) : string := if String.eqb m "HEAD" then "GET" else m.
Definition accepts (req : Request) (g : registered) : bool :=
  String.eqb (rg_method g) (handled_as (method req)) && matches (rg_pattern g) (path req).

(** What is left to the library: it looks for a handler of these methods and finds none, 404; it
    answers 400 to the others that it parses (TRACE, CONNECT).  A first line that it does not parse never reaches
    the routing and is not a [Request] here. *)
Definition dispatched : list string := ["GET"; "HEAD"; "POST"; "PUT"; "DELETE"; "OPTIONS"; "PATCH"].
Definition unrouted_status (m : string) : Z := if bool_decide (m ∈ dispatched) then 404 else 400.

Definition routed (routes : list registered) (req : Request) (s : S) : S * (string * HttpResponse) :=
  match find (accepts req) routes with
  | None => (s, (EmptyString, library (unrouted_status (method req))))
  | Some g => let '(s', r) := rg_handler g req s in (s', (pattern_text (rg_pattern g), default (library 500) r))
  end.

(** A request, between the handlers of [set_pre_routing_handler] and [set_post_routing_handler];
    [ms] is what the clock says it took. *)
Definition serve_request (routes : list registered) (ms : Z) (req : Request) (s : S) : S * HttpResponse :=
  let s := set_stats (pre_routing (http_stats s)) s in
  let '(s, (matched, res)) := routed routes req s in
  (set_stats (post_routing (http_route_key (method req) matched (path req)) (status res) ms (http_stats s)) s, res).

(** ** Lemmas *)

(** No handler touches the counters. *)
Lemma answer_stats push now_ms reply_ms late m (s : S) :
  http_stats (http_answer secret_key what service_device service_platform hw push now_ms reply_ms late m s).1 = http_stats s.
Proof.
  unfold http_answer. destruct (is_running s); [|done]. cbn [negb].
  destruct (process_message_sync _ _ _ _ _) as [a r]. destruct late; [done|]. by destruct r.
Qed.

Lemma callback_stats push now_ms reply_ms late req (s : S) :
  http_stats (http_callback secret_key what service_device service_platform hw push now_ms reply_ms late req s).1 = http_stats s.
Proof.
  unfold http_callback. destruct (parse_http_request_enhanced _ _ _ _ _) as [[m|code msg] p]; [|done].
  pose proof (answer_stats push now_ms reply_ms late m (set_parser p s)) as E.
  destruct (http_answer _ _ _ _ _ _ _ _ _ _ _) as [s' r]. exact E.
Qed.

Lemma routed_stats b push now_ms reply_ms late rd req (s : S) :
  http_stats (routed (registrations b push now_ms reply_ms late rd) req s).1 = http_stats s.
Proof.
  unfold routed. destruct (find _ _) as [g|] eqn:Ef; [|done]. apply find_some in Ef as [Hg _].
  assert (Hk : http_stats (rg_handler g req s).1 = http_stats s).
  { unfold registrations in Hg. cbn [app] in Hg.
    destruct Hg as [<-|[<-|Hg]]; [done| |].
    - cbn. unfold get_server_stats. by destruct (get_online_count _).
    - apply in_app_or in Hg as [(r & <- & _)%in_map_iff|[<-|[<-|[]] ] ]; [|apply callback_stats..].
      cbn. by destruct (route_handler r _ _). }
  by destruct (rg_handler g req s).
Qed.

Definition key_of_route (r : Route A) : string * string := (route_method r, route_path r).

(** The controllers' routes are distinct, and none is one of the first two. *)
Lemma controllers_distinct b push now_ms : NoDup (map key_of_route (controllers b push now_ms)) /\
  forallb (fun k => negb (String.eqb k.2 "/api/v1/health") && negb (String.eqb k.2 "/api/v1/stats"))
    (map key_of_route (controllers b push now_ms)) = true.
Proof.
  destruct b as [[] [] [] [] [] ? ?]; (split; [apply (bool_decide_unpack _); vm_compute; exact I|vm_compute; reflexivity]).
Qed.

Lemma find_keyed {X K} `{EqDecision K} (key : X -> K) (f : X -> bool) l x : NoDup (map key l) -> x ∈ l ->
  (forall y, f y = bool_decide (key y = key x)) -> find f l = Some x.
Proof.
  intros Hn Hx Hf. induction l as [|y l IH]; [by apply elem_of_nil in Hx|]. cbn [map find] in *.
  apply NoDup_cons in Hn as [Hy Hn]. rewrite Hf. case_bool_decide as Hk.
  - apply elem_of_cons in Hx as [->|Hx]; [done|]. destruct Hy. rewrite Hk. by apply list_elem_of_fmap_2.
  - apply elem_of_cons in Hx as [->|Hx]; [done|]. by apply IH.
Qed.

Lemma find_map {X Y} (f : Y -> bool) (g : X -> Y) l : find f (map g l) = g <$> find (fun x => f (g x)) l.
Proof. induction l as [|x l IH]; [done|]. cbn [map find]. by destruct (f (g x)). Qed.

Lemma find_first {X} (f : X -> bool) l1 l2 x : find f l1 = Some x -> find f (l1 ++ l2) = Some x.
Proof. induction l1 as [|y l1 IH]; [done|]. cbn [app find]. destruct (f y); auto. Qed.

(** A controller's route is reached before the catch-all. *)
Lemma controller_found b push now_ms reply_ms late rd req r : r ∈ controllers b push now_ms ->
  route_method r = handled_as (method req) -> route_path r = path req ->
  find (accepts req) (registrations b push now_ms reply_ms late rd) = Some (on_api r).
Proof.
  intros Hr Hm Hp. destruct (controllers_distinct b push now_ms) as [Hn Hf]. rewrite forallb_forall in Hf.
  specialize (Hf (key_of_route r) (in_map _ _ _ (proj1 (list_elem_of_In _ _) Hr))). cbn [key_of_route snd] in Hf.
  apply andb_prop in Hf as [Hh Hs].
  assert (Hskip : forall g, rg_pattern g = Exact "/api/v1/health" \/ rg_pattern g = Exact "/api/v1/stats" -> accepts req g = false).
  { intros g Hg. unfold accepts. apply andb_false_intro2. rewrite <- Hp.
    destruct Hg as [-> | ->]; cbn [matches]; rewrite String.eqb_sym; by apply negb_true_iff. }
  unfold registrations. cbn [app find]. rewrite !Hskip by auto.
  apply find_first. rewrite find_map, (find_keyed key_of_route _ _ r Hn Hr); [done|].
  intros y. unfold accepts, key_of_route. cbn [on_api rg_method rg_pattern matches]. rewrite <- Hm, <- Hp.
  destruct (String.eqb_spec (route_method y) (route_method r)), (String.eqb_spec (route_path y) (route_path r));
    cbn [andb]; symmetry; (apply bool_decide_eq_true_2; congruence) || (apply bool_decide_eq_false_2; congruence).
Qed.

Lemma controllers_routes b push now_ms r : r ∈ controllers b push now_ms -> r ∈ api_routes push now_ms.
Proof.
  unfold controllers, api_routes. rewrite !elem_of_app.
  intros [Hr|[Hr|[Hr|[Hr|Hr]] ] ]; case_match; try (by apply elem_of_nil in Hr); auto 6.
Qed.

Lemma api_methods push now_ms :
  Forall (fun r => route_method r = "GET"%string \/ route_method r = "POST"%string) (api_routes push now_ms).
Proof.
  unfold api_routes, user_routes, message_routes, friend_routes, group_routes, group_message_routes.
  rewrite !Forall_app, !Forall_cons, !Forall_nil. cbn [route_method route]. split_and!; auto.
Qed.

Lemma unrouted b push now_ms reply_ms late rd req : handled_as (method req) <> "GET"%string -> handled_as (method req) <> "POST"%string ->
  find (accepts req) (registrations b push now_ms reply_ms late rd) = None.
Proof.
  intros Hg Hp. destruct (find _ _) as [g|] eqn:Ef; [|done]. exfalso. apply find_some in Ef as [Hin Ha].
  unfold accepts in Ha. apply andb_prop in Ha as [Hm%String.eqb_eq _].
  assert (Hgp : rg_method g = "GET"%string \/ rg_method g = "POST"%string); [|destruct Hgp; congruence].
  unfold registrations in Hin. cbn [app] in Hin. destruct Hin as [<-|[<-|Hin]]; [by left..|].
  apply in_app_or in Hin as [(r & <- & Hr%list_elem_of_In)%in_map_iff|[<-|[<-|[]] ] ]; [|by left|by right].
  apply controllers_routes in Hr. exact (proj1 (Forall_forall _ _) (api_methods push now_ms) r Hr).
Qed.

(** C18: A request to the HTTP server of the gateway, in any state, build and configuration.  It is
    counted once, under the status of the answer it gets and its own time, and nothing a handler
    does touches the counters.  The health check answers 200 whether the server is running or not
    and changes nothing but the counters.  A request for a route of a controller reaches
    that controller and never the catch-all: one JSON answer, and neither the parser nor the
    pool nor the messages in flight are touched.  A request with another method than GET,
    HEAD and POST is left to the library, which answers 404 (400 to TRACE and CONNECT), and nothing
    but the counters changes. *)
Theorem http_served b push now_ms reply_ms late rd ms req (s : S) :
  let '(s', res) := serve_request (registrations b push now_ms reply_ms late rd) ms req s in
  (exists key, http_stats s' = exchanged (http_stats s) {| x_key := key; x_code := status res; x_ms := ms |}) /\
  (handled_as (method req) = "GET"%string -> path req = "/api/v1/health"%string ->
     status res = 200 /\ s' = set_stats (http_stats s') s) /\
  (forall r, r ∈ controllers b push now_ms -> route_method r = handled_as (method req) -> route_path r = path req ->
     exists a, route_handler r (request_of req) (api s) = (a, Ok res) /\ well_formed res /\
       s' = set_stats (http_stats s') (set_api a s)) /\
  (handled_as (method req) <> "GET"%string -> handled_as (method req) <> "POST"%string ->
     res = library (unrouted_status (method req)) /\ s' = set_stats (http_stats s') s).
Proof.
  unfold serve_request. set (routes := registrations b push now_ms reply_ms late rd).
  pose proof (routed_stats b push now_ms reply_ms late rd req (set_stats (pre_routing (http_stats s)) s)) as Hst.
  fold routes in Hst. destruct (routed routes req _) as [s1 [matched res]] eqn:Er. cbn [fst] in Hst.
  split; [|split; [|split]].
  - eexists. unfold exchanged. cbn. by rewrite Hst.
  - intros Hm Hp. unfold routed in Er. assert (Ef : find (accepts req) routes = Some health).
    { unfold routes, registrations. cbn [app find]. unfold accepts at 1. by rewrite Hm, Hp. }
    rewrite Ef in Er. cbn in Er. injection Er as <- <- <-. split; [done|]. by destruct s.
  - intros r Hr Hm Hp. unfold routed in Er. unfold routes in Er. rewrite (controller_found _ _ _ _ _ _ _ r) in Er by done.
    cbn [on_api rg_handler rg_pattern] in Er.
    pose proof (proj1 (Forall_forall _ _) (routes_answer push now_ms) r (controllers_routes _ _ _ _ Hr)
      (request_of req) (api s)) as (a & x & Ea & Hx).
    cbn [api set_stats] in Er. rewrite Ea in Er. injection Er as <- <- <-. exists a. split_and!; [done|done|].
    by destruct s.
  - intros Hg Hp. unfold routed, routes in Er. rewrite unrouted in Er by done. injection Er as <- <- <-.
    split; [done|]. by destruct s.
Qed.
End Routing.

(** * Examples *)
Module HttpServerExamples.
Import GatewayExample.

(** Two threads: one finishes between the updates of the other. *)
Definition fast : exchange := {| x_key := "GET /api/v1/health"; x_code := 200; x_ms := 1 |}.
Definition slow : exchange := {| x_key := "POST /api/v1/auth/login"; x_code := 401; x_ms := 80 |}.
Definition overlapped : list stat_op := [CountTotal; EnterInflight] ++ ops_of fast ++ after_routing slow.

Lemma http_counters_witness : let h := foldl apply_op no_stats overlapped in
  total_requests h = 2 /\ inflight_requests h = 0 /\ status_2xx h = 1 /\
  stat_routes h !! "POST /api/v1/auth/login"%string = Some {| Gateway.count := 1; Gateway.total_ms := 80; Gateway.max_ms := 80 |}.
Proof.
  destruct (http_counters [slow; fast] overlapped) as (_ & [C1 C2 C3 _ _ _ C7] & _).
  - repeat constructor; discriminate.
  - unfold overlapped, ops_of, before_routing. cbn [map concat ops_of app]. constructor. constructor.
    rewrite app_nil_r. apply (Permutation_app_comm (ops_of fast) (after_routing slow)).
  - split_and!; [exact C1|exact C2|exact C3|exact (C7 _)].
Defined.

Definition everything : build := {|
  user_http := true; message_http := true; friend_http := true; group_http := true; group_message_http := true;
  message_ws := true; Lifecycle.remote_compiled _ := false |}.
Definition page (code : Z) : HttpResponse := {| status := code; res_body := ""; content_type := "" |}.
Definition get (m p : string) : Request := {| method := m; path := p; body := ""; headers := []; params := [] |}.
Definition no_readings : readings := {| rd_ws := None; rd_routes := []; rd_callbacks := 0; rd_active := 0 |}.

Abbreviation served m p := (serve_request page
  (registrations (H12 := api_auth "key" conf "id" "r1") (H13 := api_users 7 None None) (H14 := api_friends 5)
     (H15 := api_groups 5) (H16 := api_messages) "key" "what" "gw" "" 2 everything None 9 5 false no_readings) 3 (get m p) down0).

Lemma http_served_witness : status (served "HEAD" "/api/v1/health").2 = 200 /\
  (served "DELETE" "/api/v1/friends").2 = page 404 /\
  exists resp, (served "GET" "/api/v1/friends").2 = resp /\ well_formed resp.
Proof.
  pose proof (fun m p => http_served (H12 := api_auth "key" conf "id" "r1") (H13 := api_users 7 None None) (H14 := api_friends 5)
    (H15 := api_groups 5) (H16 := api_messages) "key" "what" "gw" "" 2 page everything None 9 5 false no_readings 3 (get m p) down0) as Hs.
  split; [|split].
  - specialize (Hs "HEAD" "/api/v1/health")%string. destruct (serve_request _ _ _ (get "HEAD" _) _) as [s' res].
    destruct Hs as (_ & Hh & _). by apply Hh.
  - specialize (Hs "DELETE" "/api/v1/friends")%string. destruct (serve_request _ _ _ (get "DELETE" _) _) as [s' res].
    destruct Hs as (_ & _ & _ & Hn). by apply Hn.
  - specialize (Hs "GET" "/api/v1/friends")%string. destruct (serve_request _ _ _ (get "GET" _) _) as [s' res].
    destruct Hs as (_ & _ & Hc & _). exists res. split; [done|].
    destruct (Hc (route "GET" "/api/v1/friends" (handle_list_friends (H0 := api_auth "key" conf "id" "r1") (H1 := api_friends 5))))
      as (a & _ & Hw & _); [|done|done|done].
    unfold controllers, friend_routes. cbn [user_http message_http friend_http everything].
    rewrite !elem_of_app. right. right. left. do 2 right. left.
Defined.
End HttpServerExamples.
