(* ===== verification/PushDeployment.v ===== *)
(** The push server as a process between two gateways' channels: the adapters its constructor
    picks (src/services/push/push_server_app.cpp, push_server_adapters.cpp), the RPC the gateway
    calls and the notifier the gateway then has. *)
From S2P Require Import Prelude Schema Odb MemDb Redis TokenStore Json ConnectionManager ProtobufRuntime ProtobufCodec Push Rpc Auth.
From S2P Require Import MessageService PushGateway GroupHttp HttpFlows WsHandler Servers WsDelivery.
From S2P Require PgConfig GatewayExample.
Open Scope Z_scope.

(** * Adapters without effect *)

(** [EmptyPushSessionProvider], [NoopPushPayloadSender], [NoopPushDeliveryMarker]. *)
Definition standalone_ports {D} : Ports D := {|
  get_sessions _ := ret [];
  send_payload _ _ := ret false;
  Push.mark_delivered _ _ := ret false
|}.

Section Deployment.
Context {R DB T : Type} `{RedisLaws R} `{JsonLaws} `{OdbReliable DB} `{RpcWorks (Gateway R DB)}.
Context `{CodedOutput} `{ProtoMessage IMHeader} `{ProtoMessage PushRequest}.
Context (what service_device push_device : string).
Abbreviation G := (Gateway R DB).
Abbreviation A := (Api R DB T).

(** The ports of [PushServerApp]: the channel to the gateway, or nothing. *)
Definition adapter_ports (a : Adapters) : Ports G :=
  match a with RemoteGateway _ _ => remote_ports (H0 := local_ports) what | NoAdapters => standalone_ports end.

(** [grpc_service_] of [PushServerApp]: its runtime, on its adapters. *)
Definition push_process (c : PushServerConfig) (now1 now2 : Z)
  : option (string -> Z -> string -> PushContext -> exec G unit) :=
  Some (fun uid msg_id content ctx g =>
    (notify_user (H := adapter_ports (PushServerApp c).1) push_device push_service uid msg_id content ctx now1 now2 g,
     Ok tt)).

(** The push notifier of a gateway whose configuration asks for the push server. *)
Definition deployed_notifier (c : PushServerConfig) (now1 now2 : Z) : Notifier A :=
  Some (fun uid msg_id content ctx a =>
    ({| gate := remote_notify_user (push_process c now1 now2) what uid msg_id content ctx (gate a);
        token_store := token_store a |}, Ok tt)).

(** Without sessions there is nobody to push to. *)
Lemma standalone_quiet rt uid msg_id content ctx now1 now2 (g : G) :
  notify_user (H := standalone_ports) push_device rt uid msg_id content ctx now1 now2 g = g.
Proof. unfold notify_user. destruct (_ && delivery_marker rt); [|done]. by destruct (fanout_policy rt). Qed.

(** A push server that has an address is the one of [PushGateway.v], under its own identity. *)
Lemma addressed_server (c : PushServerConfig) now1 now2 uid i content ctx (a : A) :
  gateway_delivery_endpoint c <> ""%string -> 0 < now2 -> ids_ok (gate a) -> uid <> ""%string -> 0 < i ->
  notify (deployed_notifier c now1 now2) uid i content ctx a = notify (api_notifier push_device now1 now2) uid i content ctx a.
Proof.
  intros He Ht Hg Hu Hi. simpl.
  assert (Hp : push_process c now1 now2 = push_server push_device what push_service now1 now2).
  { unfold push_process, push_server, PushServerApp. simpl. unfold PgConfig.is_empty. by rewrite bool_decide_eq_false_2. }
  rewrite Hp, remote_push_refines; [done|done|lia|done|done].
Qed.

(** C15: The deployments of the push server.  A push server that has the address of a gateway
    does, on channels that work, what the push service inside the gateway does, under the gateway's
    identity [service_device]: each push from a named sender for a
    named user and a stored message leaves the sessions, the posted frames and the marks of the
    gateway in the same state.  Without a sender it does what a service in the gateway would do under the
    identity of the push server: the frame then names the push server where the gateway's own service
    names the gateway.  A push server that has no address
    answers every request and changes nothing, whatever the request; and it does not start at all
    when its settings require an address. *)
Theorem push_deployments (c : PushServerConfig) now1 now2 (g : G) : 0 < now2 -> ids_ok g ->
  (gateway_delivery_endpoint c <> ""%string ->
     agrees (T := T) service_device (deployed_notifier c now1 now2) now1 now2 g /\
     (forall uid i content ctx (a : A), uid <> ""%string -> 0 < i -> conn_mgr (gate a) = conn_mgr g ->
        notify (deployed_notifier c now1 now2) uid i content ctx a =
        notify (api_notifier push_device now1 now2) uid i content ctx a) /\
     (forall uid ctx, sender_uid ctx = ""%string ->
        from_uid (push_header_of service_device uid ctx now1) = service_device /\
        from_uid (push_header_of push_device uid ctx now1) = push_device)) /\
  (gateway_delivery_endpoint c = ""%string ->
     (forall uid i content ctx (a : A), notify (deployed_notifier c now1 now2) uid i content ctx a = (a, Ok tt)) /\
     (require_gateway_delivery_endpoint c = true ->
        forall listen, (app_start listen (PushServerApp c).2).2 = false)).
Proof.
  intros Ht Hg. split.
  - intros He. assert (Hids : forall a : A, conn_mgr (gate a) = conn_mgr g -> ids_ok (gate a))
      by (intros a Hc; unfold ids_ok; by rewrite Hc).
    split_and!.
    + intros uid i content ctx a Hu Hi Hs Hc. rewrite addressed_server by auto. simpl.
      by rewrite (named_notify push_device service_device) by done.
    + intros uid i content ctx a Hu Hi Hc. apply addressed_server; auto.
    + intros uid ctx Hs. unfold push_header_of. by rewrite Hs.
  - intros He. split.
    + intros uid i content ctx [g' t]. simpl. unfold remote_notify_user. rewrite rpc_works.
      unfold NotifyUser, push_process, PushServerApp. simpl. rewrite He. simpl.
      destruct (String.eqb uid "" || (i =? 0)); [done|]. unfold Rpc.handler, try_catch, bind. simpl.
      by rewrite standalone_quiet.
    + intros Hr listen. unfold PushServerApp, app_start. simpl. by rewrite He, Hr.
Qed.
End Deployment.

(** * Example: Bob is connected, with and without a push server that reaches his gateway *)
Module DeploymentExamples.
Import PushGateway.Example_push ProtobufCodec.Reference GatewayExample.GatewayExample.

Definition with_endpoint (e : string) : PushServerConfig := {|
  push_listen_address := "0.0.0.0:9101"; gateway_delivery_endpoint := e; timeout_ms := 200;
  require_gateway_delivery_endpoint := true |}.
Definition api0 : Api Mem.t MemDb MemStore.t := {| gate := gateway; token_store := token_store (state bob_here dd) |}.
Abbreviation pushed e := (notify (deployed_notifier "what" "push" (with_endpoint e) 10 20) "bob" 1 "hi" from_ada api0).

Lemma push_deployments_witness :
  (exists a p, pushed "gateway:9200" = (a, Ok tt) /\ posted (gate a) = [("session_1"%string, p)]) /\
  pushed "" = (api0, Ok tt) /\
  (app_start (fun _ => Some 9101) (PushServerApp (with_endpoint "")).2).2 = false.
Proof.
  destruct (push_deployments (T := MemStore.t) "what" "gw" "push" (with_endpoint "gateway:9200") 10 20 gateway ltac:(lia) gateway_ids)
    as [Hr' _]. destruct (Hr' ltac:(discriminate)) as [Hr _]. clear Hr'.
  destruct (push_deployments (T := MemStore.t) "what" "gw" "push" (with_endpoint "") 10 20 gateway ltac:(lia) gateway_ids)
    as [_ Hn].
  destruct (Hn eq_refl) as [Hq Hs]. split; [|split; [apply Hq|by apply Hs]].
  rewrite (Hr "bob"%string 1 "hi"%string from_ada api0); [|discriminate|reflexivity|discriminate|reflexivity].
  eexists _, _. split; [reflexivity|]. vm_compute. reflexivity.
Defined.
End DeploymentExamples.
